(* ===== verification/_CoqProject ===== *)
-Q . S2P
Prelude.v
Mmu.v
CString.v
Kalloc.v
PageTable.v
VmSpec.v
Ring.v
Bio.v
Hd.v
Buffer.v
BlockDev.v
Le.v
Sfs.v
MkSfs.v
SfsImage.v
SfsSpec.v
Heap.v
Task.v
Console.v
Printf.v
Keyboard.v
Descriptor.v
Rtc.v
Boot.v
Hsh.v
Vmem.v
Loader.v
Fork.v
UserMem.v
VmHeap.v
SfsText.v
TaskHeap.v
Machine.v
Exec.v
Syscall.v
Trap.v
Crash.v
User.v
Spawn.v
Minix.v
Ext2.v
SfsNode.v
Startup.v
Main.v
Spinlock.v
Monitor.v
HeapTest.v
MkInode.v
