(* ===== verification/Prelude.v ===== *)
(** * ChuniX: a verification of the kernel, its file system and its tools

    ChuniX is a small teaching operating system for the 32-bit x86, written in
    C.  A boot sector loads an ELF kernel (boot/); the kernel (kern/) manages
    pages, address spaces, a heap, tasks and traps; drivers (drv/) serve the
    console, keyboard, serial line and disks; fs/ holds a buffer cache and file
    systems, of which SFS is the one in use; tools/mk_sfs.c builds SFS images
    on the host; user/ and lib/ are the first user programs.  This library
    models the parts with logic of their own as executable functions on
    explicit states and proves what makes them correct.

    ** Conventions

    C integers are [Z] with their width written out ([u8] ... [u64], [s8],
    [s32]).  Memory is a function from addresses to bytes.  A computation that
    may stop returns an [outcome]: a value, a panic, a fault (null pointer,
    unmapped page), a sleep, the exit of a host tool, or [Fuel].  [Fuel] only
    marks a loop cut short by the bound of its model; theorems that promise a
    result prove that the stated fuel is enough, and a theorem about a loop
    that does not end says so for every fuel.  Hardware (disk ports, serial
    line, clock chip, scan codes) is a parameter or a type class with the
    documented behaviour as its laws.  The console is part of the state of the
    machine: from Machine.v on, what the kernel and the programs print is on it,
    the messages for debugging included.  The files below it have no console;
    where their code only logs, the message is left out (SfsText.v computes
    those of SFS).

    ** Files

    - Prelude.v: integers, [outcome] and its monad, byte memory, tactics.
    - Mmu.v: the address macros of inc/mmu.h.
    - CString.v: kern/string.c (lib/string.c is the same text).
    - Kalloc.v: the page allocator of kern/mm.c; the free list is threaded
      through the free pages.
    - PageTable.v, VmSpec.v: two-level page tables of kern/mm.c in memory
      ([pgdir_walk], [mappages], [unmap_page], [mapkvm], [copy_uvm], [copyout],
      ...) and what they mean: address translation.
    - Ring.v: linked lists threaded through arrays, used by the buffer cache,
      the disk queue and the task list.
    - Bio.v, Hd.v, Buffer.v: struct buf and the memory disk (drv/memhd.c), the
      disk driver with its interrupt (drv/hd.c), the buffer cache
      (fs/buffer.c).
    - BlockDev.v: the interface the file system is proved against, with the
      buffer cache as its instance.
    - Le.v: little-endian fields.
    - Sfs.v, MkSfs.v, SfsImage.v, SfsSpec.v: the kernel's SFS (fs/sfs/sfs.c),
      the image builder (tools/mk_sfs.c), the invariant of the images it
      builds, and the theorems that join the two.  A lookup puts long names
      together in a block of the kernel heap, which Sfs.v asks for through the
      class [NameHeap]; [no_task] is its instance while no task runs, where
      [kmalloc] faults.
    - Heap.v: kern/heap.c over the class [Pager] of the page services it calls.
    - Task.v: kern/task.c and kern/sched.c: slots, fork, sleep and wakeup, wait
      and exit, the scheduler up to the switch.
    - Console.v, Printf.v, Keyboard.v: drv/console.c, printk and printf,
      drv/keyboard.c.
    - Descriptor.v: kern/descriptor.c, the GDT and the IDT as the processor
      reads them.
    - Rtc.v: kern/get_time.c over an arbitrary clock chip, and what makes its
      loops end, a clock that [ticks].
    - Boot.v: the C part of the boot loader (boot/main.c) over an ATA disk, and
      the boot sector of tools/mkboot.c.
    - Hsh.v: reading and splitting a command line (user/hsh.c, lib/utils.c).
    - Vmem.v, UserMem.v: memory as a task sees it, through its page tables;
      memmove, memset, strings and words there; which frames are private.
    - Loader.v, Fork.v: [task_create] with its ELF loader, and [fork] with the
      copy of the address space.
    - VmHeap.v: the heap of Heap.v on the page tables, an instance of [Pager].
    - SfsText.v: what the functions of SFS print, along the same loops.
    - TaskHeap.v: the heap of the running task as an instance of [NameHeap]:
      allocated, filled and given back, the block leaves chunks, contents and
      pages as they were.
    - Machine.v: the whole kernel state a system call works on, [machine]:
      tasks, memory, console, files, names on the heap, clock.
    - Exec.v, Syscall.v, Trap.v: kern/exec.c, its last part from the page of the
      stack on as [exec_finish]; the arguments and handlers of
      kern/syscall.c with fs/sysfile.c, fs/file.c and [stdin_read]; kern/trap.c
      with the interrupt handlers and kern/time.c.
    - Crash.v: [panic], [assert_failed], [page_fault] and [dump_tf]: the console
      when an exception has no handler.
    - User.v: the stubs of lib/usys.S, character output of lib/printf.c,
      user/echo.c and user/cat.c as programs that run on [machine] and reach
      the kernel only through system calls.
    - Spawn.v: user/init.c with both returns of its [fork], user/hello.c,
      user/todo.c, and the parts of user/hsh.c that print or fork.
    - Minix.v: fs/minix/fs_minix.c over the buffer cache.
    - Ext2.v, SfsNode.v: fs/ext2/ext2.c and the calls through nodes of fs/fs.c, a
      class; the root node of SFS as a second instance of it.
    - Startup.v: the pieces of kern/init.c, kern/multiboot.c, the set-up of the
      serial line.
    - Main.v: [main] of kern/init.c, from the boot page directory to the mounted
      root, and [wheel] of kern/tools.c.  What main reads before it has tables
      of its own must be mapped by the boot directory ([boot_reads]), or it
      faults.
    - Spinlock.v: kern/spinlock.c on one and on several processors.
    - Monitor.v: the command line of kern/tools.c.
    - HeapTest.v: [dump_heap] and the self-tests of kern/heap.c.
    - MkInode.v: the inode cache and path lookup of tools/mk_sfs.c.

    The files depend on each other as the parts do: Buffer.v implements the
    block device of BlockDev.v that Sfs.v is written against; VmHeap.v
    implements the pages Heap.v is written against; TaskHeap.v implements the
    heap Sfs.v is written against; Machine.v joins heap, file system, tasks and
    console; Syscall.v is proved on it; User.v and Trap.v use
    only what Syscall.v proves of the calls.

    ** What the theorems show

    - Storage: a file given to mk_sfs, under a name of up to 28 bytes that no
      later name extends, is read back unchanged by the kernel over any block
      device that shows the image; the buffer cache refines a plain array of
      sectors; the disk queue is FIFO in every interleaving of requests and
      interrupts, and a request is completed, its sleeper woken, by as many
      interrupts as there are requests up to it.  Minix: writei and readi
      are a round trip, the reference counts of the inode table are exact in
      every history of calls.  ext2: when a directory listing ends.
    - Start: on a clock that ticks main runs to its end exactly when the RAM disk
      is ext2, with memory mapped, segments, gates and interrupt masks in place
      and the root mounted; when the clock is read at all, and that it never is
      on a clock that stands still.
    - Memory: mappages and mapkvm have their meaning as translations and keep
      the page-table invariant; start-up maps all memory and hands out neither
      kernel nor RAM disk; kmalloc and kfree refine first-fit allocation on a
      list of chunks, also on the page tables of a task, and the self-tests of
      the heap print what their comments say; memmove is right for every
      overlap.
    - Tasks: yield and the scheduler's turn; exit wakes the parent, whose next
      call of wait reaps the child; fork copies the address space; task_create
      makes a runnable task of an ELF image; exec, once the program is loaded,
      switches to the new directory with the arguments where main finds them;
      the spin lock excludes under every interleaving.
    - System calls and traps, on the composed machine: open, read and write do
      on the task's memory, the files and the console what they promise; a word
      typed on the keyboard reaches the program that reads; the timer.
    - Programs: cat shows a file of less than 512 bytes on the screen, echo prints
      its arguments, the shell splits a line into words; a turn of init goes
      through fork, wait and the scheduler to the child, which is a copy of it.
    - Console: type safety of the console under all its operations, the ring of
      typed characters is a queue that loses everything when it overflows,
      printk prints what its format says, keys become characters.
    - Boot: the boot loader places the segments of the kernel.
    - Errors: exec of what is no program, with the pointer it tests without having
      set it, opening a file on Minix, the cyclic
      task list after a slot is linked twice; lemmas give the panics and faults
      of the virtual-memory routines.

    ** Bounds and fuel

    Lists of tasks are scanned with fuel one above NPROC, the buffer ring with
    one above NBUF, chunk lists with the number of headers the mapped heap can
    hold, page loops with the number of pages between their ends, numerals with
    32 digits, format strings and C strings with a fuel above their length,
    reads and writes of a Minix file with one above the number of bytes, since
    every round moves a byte, and cat with two rounds for a file shorter than
    its buffer.  The loops of [read_rtc] have the number of rounds after which
    the clock is assumed to have ticked.  The theorems show that these are
    enough.

    ** Not modelled

    Assembly (boot.S, entry.S, isr.s, swtch.S; usys.S only as what its stubs do
    to memory and eax).  [swtch] is called with the context instead of its
    address (task.c:188), so the context a task was left with is never updated
    and nothing in the kernel continues behind a switch: a call that switches or
    sleeps ends there in the model, and the task next returns from its trap.
    Between [free_vm] of the old directory and [lcr3] exec runs on tables it has
    freed; the model reaches the kernel's memory without them.  Also left out:
    what a compiler decides (where a program keeps its
    outgoing arguments is a parameter of User.v); messages of the parts below
    Machine.v other than SFS; functions without a body, those compiled out, and
    those that return a variable without a value; lib/string.c, which is the text
    of kern/string.c; delay and test_fs of kern/tools.c, an endless counter; what
    search_dir of mk_sfs.c does after it has used a pointer without a value;
    headers with nothing but numbers and prototypes.  Programs that loop for ever
    are modelled by their turns, cut where the task can lose the processor.  The
    memory of the machine and the contents of the RAM disk are one in Main.v up to
    the mount; afterwards the disk of Buffer.v is a state of its own. *)

From stdpp Require Import base list gmap strings.
From Stdlib Require Import ZArith Lia.

Open Scope Z_scope.

(** ** Machine integers

    C integers are [Z]; every conversion and every operation of the code that
    can leave the range of its type is written with one of these wrappers. *)

Definition u8 (x : Z) : Z := x mod 256.

Definition u16 (x : Z) : Z := x mod 65536.

Definition u32 (x : Z) : Z := x mod 4294967296.

Definition u64 (x : Z) : Z := x mod 18446744073709551616.

(** Two's complement reading of an unsigned value. *)
Definition s8 (x : Z) : Z := (x + 128) mod 256 - 128.

Definition s32 (x : Z) : Z := (x + 2147483648) mod 4294967296 - 2147483648.

(** The C truth value of a bit test [x & mask]. *)
Definition has (x mask : Z) : bool := bool_decide (Z.land x mask <> 0).

(** ** Outcomes

    How a call of the kernel ends: it returns, or the machine stops in one of
    the ways the code has.  [panic] and a failed assertion loop forever;
    a dereference of a null or unmapped pointer and an access outside an array
    are faults; [sleep_on] gives the processor away; the host tools call
    [exit]; [Fuel] is the only outcome without a counterpart in the code: it
    marks a loop cut short by the bound of its model. *)
Inductive stop : Type :=
  | Panic (msg : string)
  | Fault (what : string)
  | Sleep (chan : Z)
  | Exit (code : Z)
  | Fuel.

Inductive outcome (A : Type) : Type :=
  | Ret (a : A)
  | Stop (why : stop).

Arguments Ret {A} a.
Arguments Stop {A} why.

#[export] Instance stop_eq_dec : EqDecision stop.
Proof. solve_decision. Defined.

#[export] Instance outcome_ret : MRet outcome := fun A a => Ret a.

#[export] Instance outcome_bind : MBind outcome :=
  fun A B f m => match m with Ret a => f a | Stop w => Stop w end.

(** The value an [option] holds, or a fault: array accesses and dereferences. *)
Definition deref {A : Type} (what : string) (o : option A) : outcome A :=
  match o with Some a => Ret a | None => Stop (Fault what) end.

(** ** Byte memory

    Memory is a total map from addresses to bytes; [load32] and [store32] are
    the little-endian accesses of the processor. *)
Definition memory : Type := Z -> Z.

Definition store8 (m : memory) (a v : Z) : memory :=
  fun x => if decide (x = a) then u8 v else m x.

Definition load32 (m : memory) (a : Z) : Z :=
  m a + 256 * m (a + 1) + 65536 * m (a + 2) + 16777216 * m (a + 3).

Definition store32 (m : memory) (a v : Z) : memory :=
  fun x =>
    if decide (a <= x < a + 4) then u8 (v / 256 ^ (x - a)) else m x.

Definition load16 (m : memory) (a : Z) : Z := m a + m (a + 1) * 256.

Definition store16 (m : memory) (a v : Z) : memory := store8 (store8 m a v) (a + 1) (v / 256).

(** The [n] bytes at [a], and the memory after the bytes [l] were put there:
    a block copied between memory and an object kept as a list. *)
Definition read_bytes (m : memory) (a : Z) (n : nat) : list Z :=
  map (fun i => m (a + Z.of_nat i)) (seq 0 n).

Definition write_bytes (m : memory) (a : Z) (l : list Z) : memory :=
  fun x =>
    if decide (a <= x < a + Z.of_nat (length l)) then nth (Z.to_nat (x - a)) l 0 else m x.

(** The bytes of a string literal. *)
Fixpoint chars (s : string) : list Z :=
  match s with
  | EmptyString => []
  | String a s' => Z.of_nat (Ascii.nat_of_ascii a) :: chars s'
  end.

(** Every cell holds a byte. *)
Definition bytes_ok (m : memory) : Prop := forall a, 0 <= m a < 256.

(** Two memories agree outside the half-open range [lo, hi). *)
Definition agree_outside (lo hi : Z) (m m' : memory) : Prop :=
  forall x, ~ (lo <= x < hi) -> m' x = m x.

(** ** Automation *)

(** Linear arithmetic with quotients and remainders by constants. *)
Ltac modlia := Z.to_euclidean_division_equations; lia.

(** Evaluate a bind whose first computation is known. *)
Ltac bind_simpl := unfold mbind, outcome_bind, mret, outcome_ret in *; simpl in *.

(** Take a successful bind apart. *)
Ltac bind_inv H :=
  let a := fresh "a" in
  let E := fresh "E" in
  match type of H with
  | (?m ≫= ?f) = Ret _ =>
      destruct m as [a|] eqn:E; [|discriminate H]; cbn [mbind outcome_bind] in H
  end.

Create HintDb chunix.

(** ** Lemmas on outcomes *)

Lemma bind_Ret {A B : Type} (a : A) (f : A -> outcome B) : (Ret a ≫= f) = f a.
Proof. reflexivity. Qed.

Lemma bind_Ret_inv {A B : Type} (m : outcome A) (f : A -> outcome B) (b : B) :
  (m ≫= f) = Ret b <-> exists a, m = Ret a /\ f a = Ret b.
Proof.
  destruct m as [a|w]; simpl; split.
  - intros H. exists a. split; [reflexivity | exact H].
  - intros (a' & [= ->] & H). exact H.
  - discriminate.
  - intros (a' & [=] & _).
Qed.

Lemma deref_Ret {A : Type} what (o : option A) a :
  deref what o = Ret a <-> o = Some a.
Proof. destruct o; simpl; split; congruence. Qed.

(** ** Lemmas on machine integers *)

Lemma u8_range x : 0 <= u8 x < 256.
Proof. unfold u8. apply Z.mod_pos_bound. lia. Qed.

Lemma u16_range x : 0 <= u16 x < 65536.
Proof. unfold u16. apply Z.mod_pos_bound. lia. Qed.

Lemma u32_range x : 0 <= u32 x < 4294967296.
Proof. unfold u32. apply Z.mod_pos_bound. lia. Qed.

Lemma u8_small x : 0 <= x < 256 -> u8 x = x.
Proof. apply Z.mod_small. Qed.

Lemma u16_small x : 0 <= x < 65536 -> u16 x = x.
Proof. apply Z.mod_small. Qed.

Lemma u32_small x : 0 <= x < 4294967296 -> u32 x = x.
Proof. apply Z.mod_small. Qed.

Lemma u32_idem x : u32 (u32 x) = u32 x.
Proof. unfold u32. rewrite Z.mod_mod by lia. reflexivity. Qed.

Lemma u32_add_l x y : u32 (u32 x + y) = u32 (x + y).
Proof. unfold u32. rewrite Z.add_mod_idemp_l by lia. reflexivity. Qed.

Lemma s32_small x : -2147483648 <= x < 2147483648 -> s32 x = x.
Proof. intros H. unfold s32. rewrite Z.mod_small by lia. lia. Qed.

Lemma s32_range x : -2147483648 <= s32 x < 2147483648.
Proof. unfold s32. pose proof (Z.mod_pos_bound (x + 2147483648) 4294967296). lia. Qed.

Lemma s32_u32 x : u32 (s32 x) = u32 x.
Proof.
  unfold u32, s32.
  replace x with ((x + 2147483648) - 2147483648) at 2 by lia.
  rewrite Zminus_mod_idemp_l. reflexivity.
Qed.

Lemma s8_range x : -128 <= s8 x < 128.
Proof. unfold s8. pose proof (Z.mod_pos_bound (x + 128) 256). lia. Qed.

#[export] Hint Resolve u8_range u16_range u32_range : chunix.

(** ** Lemmas on bit masks *)

Lemma land_ones_mod x k : 0 <= k -> Z.land x (2 ^ k - 1) = x mod 2 ^ k.
Proof.
  intros Hk. rewrite <- Z.land_ones by exact Hk.
  f_equal. rewrite Z.ones_equiv. lia.
Qed.

(** Clearing the low [k] bits of a [w]-bit value. *)
Lemma land_high_mask x k w :
  0 <= k <= w -> 0 <= x < 2 ^ w ->
  Z.land x (2 ^ w - 2 ^ k) = x - x mod 2 ^ k.
Proof.
  intros Hk Hx.
  assert (Hm : 2 ^ w - 2 ^ k = Z.shiftl (Z.ones (w - k)) k).
  { rewrite Z.shiftl_mul_pow2, Z.ones_equiv by lia.
    rewrite <- Z.sub_1_r, Z.mul_sub_distr_r, <- Z.pow_add_r by lia.
    replace (w - k + k) with w by lia. lia. }
  assert (Hr : x - x mod 2 ^ k = Z.shiftl (Z.shiftr x k) k).
  { rewrite Z.shiftl_mul_pow2, Z.shiftr_div_pow2 by lia.
    pose proof (Z.pow_pos_nonneg 2 k ltac:(lia) ltac:(lia)).
    pose proof (Z.div_mod x (2 ^ k) ltac:(lia)). lia. }
  rewrite Hm, Hr. apply Z.bits_inj'. intros n Hn.
  rewrite Z.land_spec, !Z.shiftl_spec by lia.
  destruct (decide (n < k)) as [Hnk|Hnk].
  - rewrite !(Z.testbit_neg_r _ (n - k)) by lia. apply andb_false_r.
  - rewrite Z.shiftr_spec by lia. replace (n - k + k) with n by lia.
    destruct (decide (n < w)) as [Hnw|Hnw].
    + rewrite Z.ones_spec_low by lia. apply andb_true_r.
    + rewrite Z.ones_spec_high by lia. rewrite andb_false_r. symmetry.
      destruct (decide (x = 0)) as [->|Hx0]; [apply Z.bits_0|].
      apply Z.bits_above_log2; [lia|].
      apply Z.lt_le_trans with w; [|lia]. apply Z.log2_lt_pow2; lia.
Qed.

(** Or-ing flags into an aligned address is an addition. *)
Lemma lor_low_add a f k :
  0 <= k -> a mod 2 ^ k = 0 -> 0 <= f < 2 ^ k -> Z.lor a f = a + f.
Proof.
  intros Hk Ha Hf. symmetry. apply Z.add_nocarry_lor.
  apply Z.bits_inj'. intros n Hn. rewrite Z.land_spec, Z.bits_0.
  destruct (decide (n < k)) as [Hnk|Hnk].
  - rewrite <- (Z.mod_pow2_bits_low a k n) by lia. rewrite Ha, Z.bits_0. reflexivity.
  - rewrite <- (Z.mod_small f (2 ^ k)) by lia.
    rewrite (Z.mod_pow2_bits_high f k n) by lia. apply andb_false_r.
Qed.

Lemma lor_bound a b k :
  0 <= k -> 0 <= a < 2 ^ k -> 0 <= b < 2 ^ k -> 0 <= Z.lor a b < 2 ^ k.
Proof.
  intros Hk Ha Hb. split; [apply Z.lor_nonneg; lia|].
  rewrite <- (Z.mod_small a (2 ^ k)), <- (Z.mod_small b (2 ^ k)) by lia.
  rewrite <- !Z.land_ones, <- Z.land_lor_distr_l, Z.land_ones by lia.
  apply Z.mod_pos_bound. lia.
Qed.

Lemma has_1 x : has x 1 = Z.odd x.
Proof.
  unfold has. change (Z.land x 1) with (Z.land x (2 ^ 1 - 1)).
  rewrite (land_ones_mod x 1) by lia. change (2 ^ 1) with 2. rewrite Zmod_odd. destruct (Z.odd x); reflexivity.
Qed.

(** ** Lemmas on byte memory *)

Lemma store8_same m a v : store8 m a v a = u8 v.
Proof. unfold store8. rewrite decide_True; reflexivity. Qed.

Lemma store8_other m a v x : x <> a -> store8 m a v x = m x.
Proof. intros H. unfold store8. rewrite decide_False by exact H. reflexivity. Qed.

Lemma load32_ext m m' a :
  (forall x, a <= x < a + 4 -> m' x = m x) -> load32 m' a = load32 m a.
Proof. intros H. unfold load32. rewrite !H by lia. reflexivity. Qed.

Lemma load32_range m a : bytes_ok m -> 0 <= load32 m a < 4294967296.
Proof.
  intros H. unfold load32.
  pose proof (H a). pose proof (H (a + 1)). pose proof (H (a + 2)).
  pose proof (H (a + 3)). lia.
Qed.

Lemma store32_byte m a v i :
  0 <= i < 4 -> store32 m a v (a + i) = u8 (v / 256 ^ i).
Proof.
  intros Hi. unfold store32. rewrite decide_True by lia.
  replace (a + i - a) with i by lia. reflexivity.
Qed.

Lemma store32_outside m a v : agree_outside a (a + 4) m (store32 m a v).
Proof. intros x Hx. unfold store32. rewrite decide_False by lia. reflexivity. Qed.

Lemma load32_store32_same m a v : load32 (store32 m a v) a = u32 v.
Proof.
  unfold load32. rewrite <- (Z.add_0_r a) at 2.
  rewrite !store32_byte by lia.
  change (256 ^ 0) with 1. change (256 ^ 1) with 256.
  change (256 ^ 2) with 65536. change (256 ^ 3) with 16777216.
  unfold u8, u32. modlia.
Qed.

Lemma load32_store32_other m a v b :
  b + 4 <= a \/ a + 4 <= b -> load32 (store32 m a v) b = load32 m b.
Proof. intros H. apply load32_ext. intros x Hx. apply store32_outside. lia. Qed.

Lemma store32_bytes_ok m a v : bytes_ok m -> bytes_ok (store32 m a v).
Proof. intros H x. unfold store32. case_decide; [apply u8_range | apply H]. Qed.

Lemma store8_bytes_ok m a v : bytes_ok m -> bytes_ok (store8 m a v).
Proof. intros H x. unfold store8. case_decide; [apply u8_range | apply H]. Qed.

Lemma load16_store16_same m a v : load16 (store16 m a v) a = u16 v.
Proof.
  unfold load16, store16. rewrite store8_same. rewrite store8_other by lia. rewrite store8_same.
  unfold u8, u16. modlia.
Qed.

Lemma store16_outside m a v : agree_outside a (a + 2) m (store16 m a v).
Proof. intros x Hx. unfold store16. rewrite !store8_other by lia. done. Qed.

Lemma load16_store16_other m a v b :
  b + 2 <= a \/ a + 2 <= b -> load16 (store16 m a v) b = load16 m b.
Proof. intros H. unfold load16. rewrite !store16_outside by lia. done. Qed.

Lemma store16_bytes_ok m a v : bytes_ok m -> bytes_ok (store16 m a v).
Proof. intros H. unfold store16. by apply store8_bytes_ok, store8_bytes_ok. Qed.

Lemma agree_outside_refl lo hi m : agree_outside lo hi m m.
Proof. intros x _. reflexivity. Qed.

Lemma agree_outside_trans lo hi m1 m2 m3 :
  agree_outside lo hi m1 m2 -> agree_outside lo hi m2 m3 ->
  agree_outside lo hi m1 m3.
Proof. intros H1 H2 x Hx. rewrite H2, H1 by exact Hx. reflexivity. Qed.

Lemma agree_outside_weaken lo hi lo' hi' m m' :
  lo' <= lo -> hi <= hi' -> agree_outside lo hi m m' -> agree_outside lo' hi' m m'.
Proof. intros Hlo Hhi H x Hx. apply H. lia. Qed.

Lemma load32_agree lo hi m m' a :
  agree_outside lo hi m m' -> a + 4 <= lo \/ hi <= a -> load32 m' a = load32 m a.
Proof. intros H Ha. apply load32_ext. intros x Hx. apply H. lia. Qed.

#[export] Hint Resolve store32_bytes_ok store16_bytes_ok store8_bytes_ok agree_outside_refl : chunix.

(** ** Lemmas on blocks of bytes *)

Lemma length_read_bytes m a n : length (read_bytes m a n) = n.
Proof. unfold read_bytes. by rewrite length_map, length_seq. Qed.

Lemma nth_read_bytes m a n i :
  (i < n)%nat -> nth i (read_bytes m a n) 0 = m (a + Z.of_nat i).
Proof.
  intros H. unfold read_bytes.
  rewrite (nth_indep _ 0 (m (a + Z.of_nat 0))) by (rewrite length_map, length_seq; lia).
  rewrite (map_nth (fun i => m (a + Z.of_nat i))), seq_nth by lia. done.
Qed.

Lemma read_bytes_ext m m' a n :
  (forall x, a <= x < a + Z.of_nat n -> m' x = m x) ->
  read_bytes m' a n = read_bytes m a n.
Proof.
  intros H. apply map_ext_in. intros i Hi. apply in_seq in Hi. apply H. lia.
Qed.

Lemma read_bytes_app m a n k :
  read_bytes m a (n + k) = read_bytes m a n ++ read_bytes m (a + Z.of_nat n) k.
Proof.
  unfold read_bytes. rewrite seq_app, map_app. f_equal.
  pose proof (fmap_add_seq n 0 k) as E. rewrite Nat.add_0_r in E.
  cbn [Nat.add]. rewrite <- E.
  change (map ?f (?g <$> ?l)) with (map f (map g l)). rewrite map_map.
  apply map_ext. intros i. f_equal. lia.
Qed.

Lemma read_bytes_slice m a n off k :
  (off + k <= n)%nat ->
  take k (drop off (read_bytes m a n)) = read_bytes m (a + Z.of_nat off) k.
Proof.
  intros H. replace n with (off + (k + (n - off - k)))%nat by lia.
  rewrite read_bytes_app, drop_app_length' by (symmetry; apply length_read_bytes).
  rewrite read_bytes_app, take_app_length' by (symmetry; apply length_read_bytes). done.
Qed.

Lemma read_write_bytes_same m a l : read_bytes (write_bytes m a l) a (length l) = l.
Proof.
  apply (nth_ext _ _ 0 0); [apply length_read_bytes|].
  intros i Hi. rewrite length_read_bytes in Hi. rewrite nth_read_bytes by exact Hi.
  unfold write_bytes. rewrite decide_True by lia. f_equal. lia.
Qed.

Lemma write_bytes_outside m a l :
  agree_outside a (a + Z.of_nat (length l)) m (write_bytes m a l).
Proof. intros x Hx. unfold write_bytes. by rewrite decide_False. Qed.

Lemma read_write_bytes_other m a l b n :
  b + Z.of_nat n <= a \/ a + Z.of_nat (length l) <= b ->
  read_bytes (write_bytes m a l) b n = read_bytes m b n.
Proof.
  intros H. apply read_bytes_ext. intros x Hx. apply write_bytes_outside. lia.
Qed.

Lemma write_bytes_ok m a l :
  bytes_ok m -> Forall (fun b => 0 <= b < 256) l -> bytes_ok (write_bytes m a l).
Proof.
  intros Hm Hl x. unfold write_bytes. case_decide as Hx; [|apply Hm].
  rewrite List.Forall_forall in Hl. apply Hl, nth_In. lia.
Qed.
