(* ===== verification/Mmu.v ===== *)
(** * Address arithmetic of [inc/mmu.h]

    The page-table constants and macros, as functions on 32-bit values, and
    the facts the memory manager relies on: how an address splits into
    directory index, table index and offset, how page rounding behaves, and
    that [V2P] and [P2V] are the same self-inverse function modulo 2^32. *)

From stdpp Require Import base list.
From Stdlib Require Import ZArith Lia.
From S2P Require Import Prelude.

Open Scope Z_scope.

Definition PGSIZE : Z := 4096.
Definition PTXSHIFT : Z := 12.
Definition PDXSHIFT : Z := 22.

Definition EXTMEM : Z := 1048576.           (* 0x100000 *)
Definition KERNBASE : Z := 2147483648.      (* 0x80000000 *)
Definition KERNLINK : Z := KERNBASE + EXTMEM.
Definition USTACKTOP : Z := KERNBASE.       (* = UTOP = ULIM *)

Definition PTE_P : Z := 1.
Definition PTE_W : Z := 2.
Definition PTE_U : Z := 4.

Definition PTX (va : Z) : Z := Z.land (Z.shiftr (u32 va) PTXSHIFT) 1023.
Definition PDX (va : Z) : Z := Z.land (Z.shiftr (u32 va) PDXSHIFT) 1023.

Definition PGADDR (d t o : Z) : Z :=
  u32 (Z.lor (Z.lor (Z.shiftl d PDXSHIFT) (Z.shiftl t PTXSHIFT)) o).

(** [~0xFFF] as a 32-bit mask. *)
Definition PTE_ADDR (pte : Z) : Z := Z.land (u32 pte) 4294963200.
Definition PTE_FLAGS (pte : Z) : Z := Z.land (u32 pte) 4095.

Definition V2P (a : Z) : Z := u32 (a - KERNBASE).
Definition P2V (a : Z) : Z := u32 (a + KERNBASE).

Definition PGROUNDUP (a : Z) : Z := Z.land (u32 (a + PGSIZE - 1)) 4294963200.
Definition PGROUNDDOWN (a : Z) : Z := Z.land (u32 a) 4294963200.

(** ** Arithmetic readings of the macros *)

Lemma page_mask x : 0 <= x < 4294967296 -> Z.land x 4294963200 = x - x mod 4096.
Proof. apply (land_high_mask x 12 32). lia. Qed.

Lemma PTX_div va : PTX va = (u32 va / 4096) mod 1024.
Proof.
  unfold PTX, PTXSHIFT. rewrite Z.shiftr_div_pow2 by lia.
  apply (land_ones_mod _ 10). lia.
Qed.

Lemma PDX_div va : PDX va = u32 va / 4194304.
Proof.
  unfold PDX, PDXSHIFT. rewrite Z.shiftr_div_pow2 by lia.
  change (2 ^ 22) with 4194304.
  transitivity ((u32 va / 4194304) mod 2 ^ 10); [apply (land_ones_mod _ 10); lia|].
  change (2 ^ 10) with 1024. pose proof (u32_range va). modlia.
Qed.

Lemma PTX_range va : 0 <= PTX va < 1024.
Proof. rewrite PTX_div. apply Z.mod_pos_bound. lia. Qed.

Lemma PDX_range va : 0 <= PDX va < 1024.
Proof. rewrite PDX_div. pose proof (u32_range va). modlia. Qed.

Lemma PTE_ADDR_sub pte : PTE_ADDR pte = u32 pte - u32 pte mod 4096.
Proof. apply page_mask, u32_range. Qed.

Lemma PTE_FLAGS_mod pte : PTE_FLAGS pte = u32 pte mod 4096.
Proof. apply (land_ones_mod _ 12). lia. Qed.

Lemma PGROUNDDOWN_sub a : PGROUNDDOWN a = u32 a - u32 a mod 4096.
Proof. apply page_mask, u32_range. Qed.

Lemma PGROUNDUP_sub a :
  PGROUNDUP a = u32 (a + 4095) - u32 (a + 4095) mod 4096.
Proof.
  unfold PGROUNDUP, PGSIZE. replace (a + 4096 - 1) with (a + 4095) by lia.
  apply page_mask, u32_range.
Qed.

Lemma P2V_cases a :
  0 <= a < 4294967296 ->
  P2V a = if decide (a < 2147483648) then a + 2147483648 else a - 2147483648.
Proof. intros H. unfold P2V, KERNBASE, u32. case_decide; modlia. Qed.

Lemma V2P_P2V_eq a : V2P a = P2V a.
Proof. unfold V2P, P2V, KERNBASE, u32. modlia. Qed.

Lemma P2V_range a : 0 <= P2V a < 4294967296.
Proof. apply u32_range. Qed.

Lemma P2V_P2V a : 0 <= a < 4294967296 -> P2V (P2V a) = a.
Proof. intros H. unfold P2V, KERNBASE, u32. modlia. Qed.

Lemma P2V_aligned a : a mod 4096 = 0 -> P2V a mod 4096 = 0.
Proof. intros H. unfold P2V, KERNBASE, u32. modlia. Qed.

Lemma P2V_inj a b :
  0 <= a < 4294967296 -> 0 <= b < 4294967296 -> P2V a = P2V b -> a = b.
Proof. intros Ha Hb H. rewrite <- (P2V_P2V a), <- (P2V_P2V b), H by assumption. done. Qed.

(** A table or directory entry made from an aligned address and flags. *)
Lemma pte_make a f :
  a mod 4096 = 0 -> 0 <= f < 4096 -> Z.lor a f = a + f.
Proof. apply (lor_low_add a f 12). lia. Qed.

Lemma PTE_ADDR_make a f :
  0 <= a < 4294967296 -> a mod 4096 = 0 -> 0 <= f < 4096 ->
  PTE_ADDR (Z.lor a f) = a.
Proof.
  intros Ha Hal Hf. rewrite pte_make, PTE_ADDR_sub by assumption.
  rewrite u32_small by modlia. modlia.
Qed.

Lemma PTE_FLAGS_make a f :
  0 <= a < 4294967296 -> a mod 4096 = 0 -> 0 <= f < 4096 ->
  PTE_FLAGS (Z.lor a f) = f.
Proof.
  intros Ha Hal Hf. rewrite pte_make, PTE_FLAGS_mod by assumption.
  rewrite u32_small by modlia. modlia.
Qed.

Lemma PTE_ADDR_range pte : 0 <= PTE_ADDR pte < 4294967296.
Proof. rewrite PTE_ADDR_sub. pose proof (u32_range pte). modlia. Qed.

Lemma PTE_ADDR_aligned pte : PTE_ADDR pte mod 4096 = 0.
Proof. rewrite PTE_ADDR_sub. modlia. Qed.

#[export] Hint Resolve PTX_range PDX_range P2V_range PTE_ADDR_range PTE_ADDR_aligned : chunix.

(** ** Properties *)

(** Splitting any 32-bit virtual address with [PDX], [PTX] and the page
    offset, and assembling the parts with [PGADDR], gives the address back. *)
Lemma PGADDR_split (va : Z) (Hva : 0 <= va < 4294967296) :
  PGADDR (PDX va) (PTX va) (Z.land va 4095) = va.
Proof.
  unfold PGADDR, PDXSHIFT, PTXSHIFT.
  change (Z.land va 4095) with (Z.land va (2 ^ 12 - 1)).
  rewrite (land_ones_mod va 12) by lia.
  rewrite !Z.shiftl_mul_pow2 by lia.
  change (2 ^ 22) with 4194304. change (2 ^ 12) with 4096.
  pose proof (PDX_range va). pose proof (PTX_range va).
  rewrite (lor_low_add (PDX va * 4194304) _ 22) by modlia.
  rewrite (lor_low_add _ (va mod 4096) 12) by modlia.
  rewrite PDX_div, PTX_div, (u32_small va) by assumption.
  rewrite u32_small; modlia.
Qed.
