(* ===== verification/CString.v ===== *)
(** * The string library, [kern/string.c] ([lib/string.c] is the same file)

    Routines that write take the byte memory; routines that only read take
    their pointers as functions from an offset to the byte found there
    ([at_ptr m p] is the pointer [p] into the memory [m]).  [char] is signed on
    the target, so differences of characters are taken on [s8].  Loops that
    search for a terminating NUL carry fuel; the theorems give the fuel that
    suffices. *)

From stdpp Require Import base list.
From Stdlib Require Import ZArith Lia.
From S2P Require Import Prelude.

Open Scope Z_scope.

(** A non-null [char *]. *)
Definition cptr : Type := Z -> Z.

Definition at_ptr (m : memory) (p : Z) : cptr := fun i => m (p + i).

(** [while(n-- > 0) *d++ = *s++;] *)
Fixpoint copy_up (n : nat) (m : memory) (d s : Z) : memory :=
  match n with
  | O => m
  | S n' => copy_up n' (store8 m d (m s)) (d + 1) (s + 1)
  end.

(** [while(n-- > 0) *--d = *--s;] *)
Fixpoint copy_down (n : nat) (m : memory) (d s : Z) : memory :=
  match n with
  | O => m
  | S n' => copy_down n' (store8 m (d - 1) (m (s - 1))) (d - 1) (s - 1)
  end.

Definition memmove (m : memory) (dst src n : Z) : memory :=
  let n := u32 n in
  if decide (src < dst /\ src + n > dst)
  then copy_down (Z.to_nat n) m (dst + n) (src + n)
  else copy_up (Z.to_nat n) m dst src.

(** Copies [n] bytes, NULs included, and terminates: [n + 1] bytes written. *)
Definition strncpy (m : memory) (d s n : Z) : memory :=
  store8 (copy_up (Z.to_nat (u32 n)) m d s) (d + u32 n) 0.

Fixpoint strcpy (fuel : nat) (m : memory) (d s : Z) : outcome memory :=
  match fuel with
  | O => Stop Fuel
  | S f =>
      let c := m s in
      let m' := store8 m d c in
      if decide (m' s = 0) then Ret m' else strcpy f m' (d + 1) (s + 1)
  end.

Fixpoint strlen_from (fuel : nat) (s : cptr) (len : Z) : outcome Z :=
  match fuel with
  | O => Stop Fuel
  | S f => if decide (s len = 0) then Ret len else strlen_from f s (len + 1)
  end.

Definition strlen (fuel : nat) (s : cptr) : outcome Z := strlen_from fuel s 0.

Fixpoint strcmp_from (fuel : nat) (s t : cptr) (i : Z) : outcome Z :=
  match fuel with
  | O => Stop Fuel
  | S f =>
      if decide (s i <> 0 /\ t i <> 0 /\ s i = t i) then strcmp_from f s t (i + 1)
      else if decide (s i = 0 /\ t i = 0) then Ret 0
      else if decide (s i = 0) then Ret (-1)
      else if decide (t i = 0) then Ret 1
      else Ret (s8 (s i) - s8 (t i))
  end.

Definition strcmp (fuel : nat) (s t : cptr) : outcome Z := strcmp_from fuel s t 0.

(** The loop of [strncmp], with [k] the remaining count [n]. *)
Fixpoint strncmp_from (k : nat) (s t : cptr) (i : Z) : Z :=
  match k with
  | O => 0
  | S k' =>
      if decide (s i = t i) then strncmp_from k' s t (i + 1)
      else s8 (s i) - s8 (t i)
  end.

(** [None] is the null pointer; a pointer that is not null never becomes so by
    the increments.  A negative count leaves the loop at once with [n <> 0]. *)
Definition strncmp (s t : option cptr) (n : Z) : Z :=
  if decide (n = 0) then 0
  else match s, t with
       | None, None => 0
       | None, Some _ => -1
       | Some _, None => 1
       | Some s, Some t =>
           if decide (n < 0) then s8 (s 0) - s8 (t 0)
           else strncmp_from (Z.to_nat n) s t 0
       end.

(** [rep stosb] with [n] in the count register. *)
Definition memset (m : memory) (s c n : Z) : memory :=
  fun x => if decide (s <= x < s + u32 n) then u8 c else m x.

(** [l] is the NUL-terminated string a pointer designates. *)
Definition is_cstr (s : cptr) (l : list Z) : Prop :=
  (forall i b, l !! i = Some b -> s (Z.of_nat i) = b /\ 1 <= b < 256) /\
  s (Z.of_nat (length l)) = 0.

(** ** Copies *)

Lemma copy_up_spec n : forall m d s,
  bytes_ok m -> d <= s \/ s + Z.of_nat n <= d ->
  forall x, copy_up n m d s x =
    if decide (d <= x < d + Z.of_nat n) then m (s + (x - d)) else m x.
Proof.
  induction n as [|n IH]; intros m d s Hok Hsep x.
  - cbn [copy_up]. rewrite decide_False by lia. reflexivity.
  - cbn [copy_up]. rewrite IH; [|auto with chunix|lia].
    destruct (decide (x = d)) as [->|Hne].
    + rewrite decide_False, decide_True by lia. rewrite store8_same.
      rewrite u8_small by apply Hok. f_equal. lia.
    + repeat case_decide; try lia; rewrite store8_other by lia; f_equal; lia.
Qed.

Lemma copy_down_spec n : forall m d s,
  bytes_ok m -> s <= d ->
  forall x, copy_down n m d s x =
    if decide (d - Z.of_nat n <= x < d) then m (s - (d - x)) else m x.
Proof.
  induction n as [|n IH]; intros m d s Hok Hsep x.
  - cbn [copy_down]. rewrite decide_False by lia. reflexivity.
  - cbn [copy_down]. rewrite IH; [|auto with chunix|lia].
    destruct (decide (x = d - 1)) as [->|Hne].
    + rewrite decide_False, decide_True by lia. rewrite store8_same.
      rewrite u8_small by apply Hok. f_equal. lia.
    + repeat case_decide; try lia; rewrite store8_other by lia; f_equal; lia.
Qed.

Lemma copy_up_bytes_ok n : forall m d s, bytes_ok m -> bytes_ok (copy_up n m d s).
Proof. induction n; intros; cbn; auto with chunix. Qed.

Lemma copy_down_bytes_ok n : forall m d s, bytes_ok m -> bytes_ok (copy_down n m d s).
Proof. induction n; intros; cbn; auto with chunix. Qed.

Lemma memmove_bytes_ok m d s n : bytes_ok m -> bytes_ok (memmove m d s n).
Proof.
  intros H. unfold memmove. case_decide;
    [apply copy_down_bytes_ok | apply copy_up_bytes_ok]; exact H.
Qed.

Lemma memset_bytes_ok m s c n : bytes_ok m -> bytes_ok (memset m s c n).
Proof. intros H x. unfold memset. case_decide; [apply u8_range | apply H]. Qed.

Lemma memset_outside m s c n : agree_outside s (s + u32 n) m (memset m s c n).
Proof. intros x Hx. unfold memset. rewrite decide_False by exact Hx. reflexivity. Qed.

#[export] Hint Resolve memmove_bytes_ok memset_bytes_ok : chunix.

Lemma memmove_byte m dst src n x :
  bytes_ok m -> 0 <= n < 4294967296 ->
  memmove m dst src n x =
    if decide (dst <= x < dst + n) then m (src + (x - dst)) else m x.
Proof.
  intros Hok Hn. unfold memmove. rewrite u32_small by lia. case_decide as Hov.
  - rewrite copy_down_spec, Z2Nat.id by (assumption || lia).
    repeat case_decide; try lia; f_equal; lia.
  - rewrite copy_up_spec, Z2Nat.id by (assumption || lia). reflexivity.
Qed.

Lemma memmove_outside m dst src n :
  bytes_ok m -> 0 <= n < 4294967296 ->
  agree_outside dst (dst + n) m (memmove m dst src n).
Proof.
  intros Hok Hn x Hx. rewrite memmove_byte by assumption.
  rewrite decide_False by exact Hx. reflexivity.
Qed.

(** ** Searches *)

Lemma strlen_from_spec l : forall s k,
  is_cstr (fun i => s (k + i)) l ->
  forall fuel, (length l < fuel)%nat ->
  strlen_from fuel s k = Ret (k + Z.of_nat (length l)).
Proof.
  induction l as [|b l IH]; intros s k [Hl Hz] fuel Hf; destruct fuel as [|fuel];
    cbn [length] in *; try lia; cbn [strlen_from].
  - replace (k + Z.of_nat 0) with k in * by lia. rewrite decide_True by exact Hz. done.
  - destruct (Hl 0%nat b eq_refl) as [Hb0 Hb1].
    replace (k + Z.of_nat 0) with k in Hb0 by lia.
    rewrite decide_False by lia. rewrite (IH s (k + 1)).
    + f_equal. lia.
    + split.
      * intros i c Hi. specialize (Hl (S i) c Hi).
        replace (k + 1 + Z.of_nat i) with (k + Z.of_nat (S i)) by lia. exact Hl.
      * replace (k + 1 + Z.of_nat (length l)) with (k + Z.of_nat (S (length l))) by lia.
        exact Hz.
    + lia.
Qed.

Lemma strlen_spec s l fuel :
  is_cstr s l -> (length l < fuel)%nat -> strlen fuel s = Ret (Z.of_nat (length l)).
Proof. intros H Hf. unfold strlen. rewrite (strlen_from_spec l) by assumption. done. Qed.

Lemma strncmp_from_zero k : forall s t i,
  (forall j, i <= j < i + Z.of_nat k -> 0 <= s j < 256) ->
  (forall j, i <= j < i + Z.of_nat k -> 0 <= t j < 256) ->
  strncmp_from k s t i = 0 <-> forall j, i <= j < i + Z.of_nat k -> s j = t j.
Proof.
  induction k as [|k IH]; intros s t i Hs Ht; cbn [strncmp_from].
  - split; [intros; lia | reflexivity].
  - case_decide as E.
    + rewrite IH; [|intros; (apply Hs || apply Ht); lia..].
      split; intros H j Hj; [|apply H; lia].
      destruct (decide (j = i)) as [->|]; [exact E | apply H; lia].
    + split.
      * intros H. exfalso. apply E. pose proof (Hs i ltac:(lia)). pose proof (Ht i ltac:(lia)).
        unfold s8 in H. modlia.
      * intros H. exfalso. apply E, H. lia.
Qed.

(** [strncmp] as a test for equality of the first [n] bytes. *)
Lemma strncmp_zero s t n :
  (forall j, 0 <= j < n -> 0 <= s j < 256) -> (forall j, 0 <= j < n -> 0 <= t j < 256) -> 0 <= n ->
  strncmp (Some s) (Some t) n = 0 <-> forall j, 0 <= j < n -> s j = t j.
Proof.
  intros Hs Ht Hn. unfold strncmp. case_decide as E; [split; [intros; lia | done]|].
  rewrite decide_False by lia.
  rewrite strncmp_from_zero; rewrite ?Z2Nat.id by lia; [done|exact Hs|exact Ht].
Qed.

Lemma is_cstr_tail s b l :
  is_cstr s (b :: l) -> s 0 = b /\ 1 <= b < 256 /\ is_cstr (fun i => s (1 + i)) l.
Proof.
  intros [Hl Hz]. destruct (Hl 0%nat b eq_refl) as [H0 Hb]. split; [exact H0|].
  split; [exact Hb|]. split.
  - intros i c Hi. specialize (Hl (S i) c Hi).
    replace (1 + Z.of_nat i) with (Z.of_nat (S i)) by lia. exact Hl.
  - cbn [length] in Hz. replace (1 + Z.of_nat (length l)) with (Z.of_nat (S (length l))) by lia.
    exact Hz.
Qed.

Lemma strcmp_from_shift fuel : forall s t i k,
  strcmp_from fuel s t (i + k) = strcmp_from fuel (fun j => s (i + j)) (fun j => t (i + j)) k.
Proof.
  induction fuel as [|f IH]; intros s t i k; [done|]. cbn [strcmp_from].
  replace (i + k + 1) with (i + (k + 1)) by lia. rewrite IH. done.
Qed.

Lemma s8_sub_zero a b : 0 <= a < 256 -> 0 <= b < 256 -> s8 a - s8 b = 0 -> a = b.
Proof. intros Ha Hb H. unfold s8 in H. modlia. Qed.

(** [strcmp] terminates on two C strings and returns 0 exactly when they
    are equal. *)
Lemma strcmp_zero_iff (l1 l2 : list Z) (s t : cptr) (fuel : nat)
  (Hs : is_cstr s l1) (Ht : is_cstr t l2)
  (Hf : (length l1 < fuel)%nat) :
  exists r, strcmp fuel s t = Ret r /\ (r = 0 <-> l1 = l2).
Proof.
  unfold strcmp. revert l2 s t fuel Hs Ht Hf.
  induction l1 as [|a l1 IH]; intros l2 s t fuel Hs Ht Hf; destruct fuel as [|f];
    cbn [length] in *; try lia; cbn [strcmp_from].
  - destruct Hs as [_ Hz]. change (s 0 = 0) in Hz.
    rewrite decide_False by lia. destruct l2 as [|b l2].
    + destruct Ht as [_ Hz']. change (t 0 = 0) in Hz'.
      rewrite decide_True by done. by exists 0.
    + apply is_cstr_tail in Ht as (H0 & Hb & _).
      rewrite decide_False, decide_True by lia. by exists (-1).
  - apply is_cstr_tail in Hs as (Hs0 & Ha & Hs). destruct l2 as [|b l2].
    + destruct Ht as [_ Hz']. change (t 0 = 0) in Hz'.
      rewrite !decide_False, decide_True by lia. by exists 1.
    + apply is_cstr_tail in Ht as (Ht0 & Hb & Ht).
      destruct (decide (a = b)) as [->|Hne].
      * rewrite decide_True by lia. rewrite (strcmp_from_shift _ s t 1 0 : strcmp_from f s t (0 + 1) = _).
        destruct (IH l2 _ _ f Hs Ht ltac:(lia)) as (r & Hr & Hiff).
        exists r. split; [exact Hr|]. rewrite Hiff. split; congruence.
      * rewrite !decide_False by lia. eexists. split; [reflexivity|].
        split; [|congruence]. intros Hr. apply s8_sub_zero in Hr; [congruence|lia..].
Qed.

(** ** Properties *)

(** C28. [memmove] moves [n] bytes correctly whatever the overlap of the two
    regions: afterwards the destination holds what the source held before the
    call, and every other byte of memory is unchanged. *)
Theorem memmove_correct (m : memory) (dst src n : Z)
  (Hok : bytes_ok m) (Hn : 0 <= n < 4294967296) :
  (forall i, 0 <= i < n -> memmove m dst src n (dst + i) = m (src + i)) /\
  agree_outside dst (dst + n) m (memmove m dst src n).
Proof.
  split; [|apply memmove_outside; assumption].
  intros i Hi. rewrite memmove_byte by assumption. rewrite decide_True by lia.
  f_equal. lia.
Qed.

Lemma memmove_correct_witness :
  (forall i, 0 <= i < 5 ->
     memmove (fun x => x mod 256) 12 10 5 (12 + i) = (10 + i) mod 256) /\
  agree_outside 12 (12 + 5) (fun x => x mod 256) (memmove (fun x => x mod 256) 12 10 5).
Proof.
  apply (memmove_correct (fun x => x mod 256) 12 10 5); [|lia].
  intros a. apply Z.mod_pos_bound. lia.
Defined.
