(* ===== verification/Kalloc.v ===== *)
(** * The physical page allocator of [kern/mm.c]

    Free pages are linked through their own first word; [free_list] points at
    the first.  Memory is seen through the kernel's window at [KERNBASE], so
    page addresses are kernel virtual addresses.  The diagnostics printed
    before a panic are not part of the state. *)

From stdpp Require Import base list strings.
From Stdlib Require Import ZArith Lia.
From S2P Require Import Prelude Mmu CString.

Open Scope Z_scope.

(** The globals of [mm.c] ([memsz] is in KB), with the memory they manage. *)
Record mm : Type := Mm {
  ram : memory;
  free_list : Z;
  memsz : Z;
  mem_start : Z
}.

Definition set_ram (s : mm) (m : memory) : mm :=
  Mm m s.(free_list) s.(memsz) s.(mem_start).

Definition set_free_list (s : mm) (p : Z) : mm :=
  Mm s.(ram) p s.(memsz) s.(mem_start).

Definition kfree_page (s : mm) (v : Z) : outcome mm :=
  if decide (v mod PGSIZE <> 0 \/ v < s.(mem_start) \/ v > V2P (u32 (s.(memsz) * 1024)))
  then Stop (Panic "kfree_page")
  else
    let m := memset s.(ram) v 1 PGSIZE in
    let m := store32 m v s.(free_list) in       (* fp->next = free_list *)
    Ret (set_free_list (set_ram s m) v).

(** The result 0 is [NULL]: out of memory. *)
Definition kalloc_page (s : mm) : Z * mm :=
  let fp := s.(free_list) in
  if decide (fp <> 0)
  then (fp, set_free_list s (load32 s.(ram) fp))
  else (fp, s).

(** [for(; p + PGSIZE <= end; p += PGSIZE) kfree_page(p);] *)
Fixpoint kfree_loop (fuel : nat) (s : mm) (p end_ : Z) : outcome mm :=
  if decide (p + PGSIZE <= end_)
  then match fuel with
       | O => Stop Fuel
       | S f => s ← kfree_page s p; kfree_loop f s (p + PGSIZE) end_
       end
  else Ret s.

Definition kfree_range (s : mm) (start end_ : Z) : outcome mm :=
  let p := PGROUNDUP start in
  kfree_loop (Z.to_nat ((end_ - p) / PGSIZE)) s p end_.

Definition kinit (s : mm) (vastart vaend : Z) : outcome mm := kfree_range s vastart vaend.

(** What [cmos_read] finds at an index of the CMOS is given by the hardware. *)
Definition cmos_read (cmos : Z -> Z) (r : Z) : Z := cmos r.

Definition CMOS_EXTLO : Z := 23.   (* 0x17 *)
Definition CMOS_EXTHI : Z := 24.   (* 0x18 *)

Definition detect_mem (cmos : Z -> Z) : Z :=
  Z.lor (cmos_read cmos CMOS_EXTLO) (Z.shiftl (cmos_read cmos CMOS_EXTHI) 8).

Definition mem_init1 (cmos : Z -> Z) (s : mm) (start size : Z) : outcome mm :=
  let sz := if decide (size <> 0) then size else u32 (detect_mem cmos + 1024) in
  let s := Mm s.(ram) s.(free_list) sz start in
  kinit s start (P2V (4 * 1024 * 1024)).

Definition mem_init2 (s : mm) : outcome mm :=
  kinit s (P2V (4 * 1024 * 1024)) (P2V (u32 (s.(memsz) * 1024))).

(** ** Representation of the free list *)

Fixpoint free_chain (m : memory) (head : Z) (l : list Z) : Prop :=
  match l with
  | [] => head = 0
  | p :: l' => head = p /\ p <> 0 /\ free_chain m (load32 m p) l'
  end.

(** The pages [kfree_page] accepts. *)
Definition page_ok (s : mm) (p : Z) : Prop :=
  p mod 4096 = 0 /\ s.(mem_start) <= p <= V2P (u32 (s.(memsz) * 1024)) /\ 0 < p.

Record free_wf (s : mm) (l : list Z) : Prop := {
  fw_chain : free_chain s.(ram) s.(free_list) l;
  fw_nodup : NoDup l;
  fw_pages : Forall (page_ok s) l;
  fw_bytes : bytes_ok s.(ram)
}.

(** [n] consecutive pages from [p]. *)
Fixpoint page_seq (p : Z) (n : nat) : list Z :=
  match n with
  | O => []
  | S n' => p :: page_seq (p + 4096) n'
  end.

(** ** Lemmas *)

Lemma page_ok_range s p : page_ok s p -> 0 < p < 4294967296.
Proof. intros (_ & [_ H] & Hp). pose proof (u32_range (u32 (memsz s * 1024) - KERNBASE)).
  unfold V2P in H. lia. Qed.

Lemma page_disjoint p q : p mod 4096 = 0 -> q mod 4096 = 0 -> p <> q ->
  p + 4096 <= q \/ q + 4096 <= p.
Proof. intros. modlia. Qed.

Lemma free_chain_agree m m' lo l : forall head,
  agree_outside lo (lo + 4096) m m' ->
  lo mod 4096 = 0 -> Forall (fun p => p mod 4096 = 0) l -> lo ∉ l ->
  free_chain m head l -> free_chain m' head l.
Proof.
  induction l as [|p l IH]; intros head Hag Hlo Hal Hni; [done|].
  apply Forall_cons in Hal as [Hp Hal]. apply not_elem_of_cons in Hni as [Hne Hni].
  intros (-> & Hp0 & Hc). split; [done|]. split; [done|].
  rewrite (load32_agree lo (lo + 4096) m m' p Hag).
  - apply IH; assumption.
  - pose proof (page_disjoint p lo Hp Hlo ltac:(congruence)). lia.
Qed.

Lemma page_ok_aligned s l : Forall (page_ok s) l -> Forall (fun p => p mod 4096 = 0) l.
Proof. intros H. eapply Forall_impl; [exact H|]. intros p [Hp _]. exact Hp. Qed.

(** A store confined to one page that is not free keeps the free list. *)
Lemma free_wf_agree s l m' p :
  free_wf s l -> agree_outside p (p + 4096) s.(ram) m' -> bytes_ok m' ->
  p mod 4096 = 0 -> p ∉ l -> free_wf (set_ram s m') l.
Proof.
  intros [Hc Hn Hp Hb] Hag Hok Hal Hni. constructor; [|assumption|exact Hp|exact Hok].
  apply (free_chain_agree s.(ram) m' p); eauto using page_ok_aligned.
Qed.

Lemma kalloc_page_cons s p l :
  free_wf s (p :: l) ->
  kalloc_page s = (p, set_free_list s (load32 s.(ram) p)) /\
  free_wf (set_free_list s (load32 s.(ram) p)) l.
Proof.
  intros [(Hh & Hp0 & Hc) Hn Hp Hb]. unfold kalloc_page. rewrite Hh, decide_True by exact Hp0.
  split; [reflexivity|]. apply NoDup_cons in Hn as [_ Hn]. apply Forall_cons in Hp as [_ Hp].
  constructor; assumption.
Qed.

Lemma kalloc_page_nil s : free_wf s [] -> kalloc_page s = (0, s).
Proof. intros [Hh _ _ _]. simpl in Hh. unfold kalloc_page. rewrite Hh. reflexivity. Qed.

Lemma kfree_page_ok s l v :
  free_wf s l -> page_ok s v -> v ∉ l ->
  exists s', kfree_page s v = Ret s' /\ free_wf s' (v :: l) /\
    agree_outside v (v + 4096) s.(ram) s'.(ram) /\
    s'.(memsz) = s.(memsz) /\ s'.(mem_start) = s.(mem_start) /\ s'.(free_list) = v.
Proof.
  intros Hwf Hv Hni. pose proof (page_ok_range _ _ Hv) as Hr.
  destruct Hv as (Hal & Hlim & Hpos). unfold kfree_page, PGSIZE.
  rewrite decide_False by lia. eexists. split; [reflexivity|].
  set (m := store32 (memset s.(ram) v 1 4096) v s.(free_list)).
  assert (Hag : agree_outside v (v + 4096) s.(ram) m).
  { eapply agree_outside_trans; [exact (memset_outside s.(ram) v 1 4096)|].
    eapply agree_outside_weaken; [| |apply store32_outside]; lia. }
  assert (Hok : bytes_ok m) by (destruct Hwf; unfold m; auto with chunix).
  assert (Hfl : 0 <= s.(free_list) < 4294967296).
  { destruct Hwf as [Hc _ Hp _]. destruct l as [|q l]; simpl in Hc; [lia|].
    destruct Hc as (-> & _ & _). apply Forall_cons in Hp as [Hq _].
    apply page_ok_range in Hq. lia. }
  split; [|repeat split; assumption]. destruct Hwf as [Hc Hn Hp Hb]. constructor.
  - split; [done|]. split; [simpl; lia|].
    change (free_chain m (load32 m v) l).
    replace (load32 m v) with s.(free_list)
      by (unfold m; rewrite load32_store32_same, u32_small by exact Hfl; done).
    apply (free_chain_agree s.(ram) m v); eauto using page_ok_aligned.
  - apply NoDup_cons; done.
  - apply Forall_cons. split; [exact (conj Hal (conj Hlim Hpos)) | exact Hp].
  - exact Hok.
Qed.

Lemma page_seq_length p n : length (page_seq p n) = n.
Proof. revert p. induction n; intros; simpl; auto. Qed.

Lemma elem_page_seq n : forall p q, q ∈ page_seq p n <->
  exists i, (i < n)%nat /\ q = p + 4096 * Z.of_nat i.
Proof.
  induction n as [|n IH]; intros p q; cbn [page_seq].
  - split; [intros H; inversion H | intros (i & Hi & _); lia].
  - rewrite elem_of_cons, IH. split.
    + intros [->|(i & Hi & ->)]; [exists 0%nat | exists (S i)]; split; lia.
    + intros ([|i] & Hi & ->); [left; lia | right; exists i; split; lia].
Qed.

Lemma kfree_loop_ok n : forall s l p end_,
  free_wf s l -> p mod 4096 = 0 -> n = Z.to_nat ((end_ - p) / 4096) ->
  (forall q, q ∈ page_seq p n -> page_ok s q /\ q ∉ l) ->
  exists s', kfree_loop n s p end_ = Ret s' /\
    free_wf s' (rev (page_seq p n) ++ l) /\
    s'.(memsz) = s.(memsz) /\ s'.(mem_start) = s.(mem_start) /\
    agree_outside p (p + 4096 * Z.of_nat n) s.(ram) s'.(ram).
Proof.
  induction n as [|n IH]; intros s l p end_ Hwf Hal Hn Hq; cbn [kfree_loop].
  - rewrite decide_False by (unfold PGSIZE; modlia). exists s. split; [done|]. split; [exact Hwf|]. split; [done|]. split; [done|apply agree_outside_refl].
  - rewrite decide_True by (unfold PGSIZE; modlia).
    destruct (Hq p) as [Hok Hni]; [apply list_elem_of_here|].
    destruct (kfree_page_ok s l p Hwf Hok Hni) as (s1 & E & Hwf1 & Hag & Hm & Hst & _).
    rewrite E, bind_Ret. unfold PGSIZE.
    destruct (IH s1 (p :: l) (p + 4096) end_ Hwf1) as (s' & E' & Hwf' & Hm' & Hst' & Hag').
    + modlia.
    + modlia.
    + intros q Hqs. destruct (Hq q) as [Hqok Hqni]; [by apply list_elem_of_further|].
      split.
      * unfold page_ok in *. rewrite Hm, Hst. exact Hqok.
      * apply not_elem_of_cons. split; [|exact Hqni].
        apply elem_page_seq in Hqs as (i & _ & ->). lia.
    + exists s'. split; [exact E'|]. cbn [page_seq rev]. rewrite <- app_assoc.
      split; [exact Hwf'|]. split; [congruence|]. split; [congruence|].
      apply (agree_outside_trans _ _ _ s1.(ram)); [eapply agree_outside_weaken; [| |exact Hag]|eapply agree_outside_weaken; [| |exact Hag']]; lia.
Qed.

Lemma PGROUNDUP_spec a :
  0 <= a -> a + 4095 < 4294967296 ->
  PGROUNDUP a mod 4096 = 0 /\ a <= PGROUNDUP a < a + 4096.
Proof. intros H0 H1. rewrite PGROUNDUP_sub, u32_small by lia. modlia. Qed.

(** The range loop from any start, in terms of the pages it adds. *)
Lemma kfree_range_ok s l start end_ :
  free_wf s l -> 0 <= start -> start + 4095 < 4294967296 ->
  (forall q, q mod 4096 = 0 -> start <= q -> q + 4096 <= end_ -> page_ok s q /\ q ∉ l) ->
  exists s' added, kfree_range s start end_ = Ret s' /\ free_wf s' (added ++ l) /\
    (forall q, q ∈ added <-> q mod 4096 = 0 /\ start <= q /\ q + 4096 <= end_) /\
    s'.(memsz) = s.(memsz) /\ s'.(mem_start) = s.(mem_start) /\
    forall x, x < start \/ end_ <= x -> s'.(ram) x = s.(ram) x.
Proof.
  intros Hwf H0 H1 Hq. destruct (PGROUNDUP_spec start H0 H1) as [Hal Hr].
  set (p := PGROUNDUP start) in *. set (n := Z.to_nat ((end_ - p) / 4096)).
  assert (Hseq : forall q, q ∈ page_seq p n <->
                  q mod 4096 = 0 /\ start <= q /\ q + 4096 <= end_).
  { intros q. rewrite elem_page_seq. unfold n. split.
    - intros (i & Hi & ->). modlia.
    - intros (Hqa & Hqs & Hqe). exists (Z.to_nat ((q - p) / 4096)). modlia. }
  destruct (kfree_loop_ok n s l p end_ Hwf Hal eq_refl) as (s' & E & Hwf' & Hm & Hst & Hag).
  { intros q Hqs. apply Hseq in Hqs as (? & ? & ?). auto. }
  exists s', (rev (page_seq p n)). split; [exact E|]. split; [exact Hwf'|].
  split; [|split; [done|split; [done|]]].
  - intros q. rewrite <- Hseq. rewrite !list_elem_of_In. symmetry. apply in_rev.
  - intros x Hx. apply Hag. unfold n. modlia.
Qed.

(** A small machine for the examples: [n] free pages from 2 MB in a memory of 8 MB. *)
Definition sample_mm (n : nat) : mm :=
  match kfree_loop n (Mm (fun _ => 0) 0 8192 2149580800) 2149580800
          (2149580800 + 4096 * Z.of_nat n) with
  | Ret s => s
  | Stop _ => Mm (fun _ => 0) 0 0 0
  end.

Lemma sample_mm_wf n :
  (n <= 1024)%nat ->
  free_wf (sample_mm n) (rev (page_seq 2149580800 n)) /\
  (sample_mm n).(memsz) = 8192 /\ (sample_mm n).(mem_start) = 2149580800.
Proof.
  intros Hn. unfold sample_mm.
  destruct (kfree_loop_ok n (Mm (fun _ => 0) 0 8192 2149580800) [] 2149580800
              (2149580800 + 4096 * Z.of_nat n)) as (s' & -> & Hwf & Hm & Hst & _).
  - constructor; [done|constructor|constructor|intros a; simpl; lia].
  - done.
  - modlia.
  - intros q Hq. apply elem_page_seq in Hq as (i & Hi & ->).
    split; [|apply not_elem_of_nil]. unfold page_ok. simpl.
    change (V2P (u32 (8192 * 1024))) with 2155872256. modlia.
  - rewrite app_nil_r in Hwf. done.
Qed.

(** ** Properties *)

(** [kfree_page] and [kalloc_page] are inverse: a page given back is the
    next one handed out, and the free list is then what it was; the rest of
    memory is untouched by the pair. *)
Lemma kalloc_after_kfree (s : mm) (l : list Z) (v : Z)
  (Hwf : free_wf s l) (Hv : page_ok s v) (Hni : v ∉ l) :
  exists s', kfree_page s v = Ret s' /\
    fst (kalloc_page s') = v /\
    free_wf (snd (kalloc_page s')) l /\
    (snd (kalloc_page s')).(free_list) = s.(free_list) /\
    agree_outside v (v + 4096) s.(ram) (snd (kalloc_page s')).(ram).
Proof.
  destruct (kfree_page_ok s l v Hwf Hv Hni) as (s' & E & Hwf' & Hag & _).
  exists s'. split; [exact E|].
  destruct (kalloc_page_cons s' v l Hwf') as [-> Hwf2]. simpl.
  split; [done|]. split; [exact Hwf2|]. split; [|exact Hag].
  destruct Hwf as [Hc _ _ _], Hwf2 as [Hc2 _ _ _]. simpl in Hc2.
  destruct l as [|q l]; simpl in Hc, Hc2; [congruence|].
  destruct Hc as (-> & _), Hc2 as (-> & _). done.
Qed.


(** After [mem_init1] and [mem_init2] the free list holds each whole page
    between the end of the loaded image and the end of memory exactly once,
    and nothing else. *)
Lemma mem_init_free_pages (cmos : Z -> Z) (s : mm) (start size : Z)
  (Hs : s.(free_list) = 0) (Hb : bytes_ok s.(ram))
  (Hstart : 0 < start <= P2V (4 * 1024 * 1024))
  (Hsize : 4096 <= size < 2097152) :
  exists s' l, (s1 ← mem_init1 cmos s start size; mem_init2 s1) = Ret s' /\
    free_wf s' l /\
    forall p, p ∈ l <->
      p mod 4096 = 0 /\ start <= p /\ p + 4096 <= P2V (u32 (size * 1024)).
Proof.
  unfold mem_init1, mem_init2, kinit. rewrite decide_True by lia.
  change (P2V (4 * 1024 * 1024)) with 2151677952 in *.
  set (s0 := Mm s.(ram) s.(free_list) size start).
  assert (Hlim : V2P (u32 (size * 1024)) = size * 1024 + 2147483648)
    by (rewrite V2P_P2V_eq; unfold P2V, KERNBASE, u32; modlia).
  destruct (kfree_range_ok s0 [] start 2151677952) as (s1 & l1 & E1 & Hwf1 & Hl1 & Hm1 & Hst1 & _).
  { constructor; [exact Hs | constructor | constructor | exact Hb]. }
  { lia. } { lia. }
  { intros q Hq1 Hq2 Hq3. split; [|apply not_elem_of_nil].
    unfold page_ok, s0. simpl. rewrite Hlim. lia. }
  rewrite E1, bind_Ret, Hm1. simpl.
  rewrite <- V2P_P2V_eq, Hlim.
  destruct (kfree_range_ok s1 (l1 ++ []) 2151677952 (size * 1024 + 2147483648))
    as (s2 & l2 & E2 & Hwf2 & Hl2 & _ & _); [exact Hwf1|lia|lia| |].
  { intros q Hq1 Hq2 Hq3. split.
    - unfold page_ok. rewrite Hm1, Hst1. simpl. rewrite Hlim. lia.
    - rewrite app_nil_r, Hl1. lia. }
  exists s2, (l2 ++ l1 ++ []). split; [exact E2|]. split; [exact Hwf2|].
  intros p. rewrite app_nil_r, elem_of_app, Hl1, Hl2. modlia.
Qed.


(** The bound test of [kfree_page] is [>], so the address of the page just
    behind the end of memory is accepted. *)
Lemma kfree_page_accepts_end (s : mm) (size : Z) :
  s.(memsz) = 4 * size -> 1 <= size < 524288 -> s.(mem_start) <= P2V (4096 * size) ->
  exists s', kfree_page s (P2V (4096 * size)) = Ret s'.
Proof.
  intros Hm Hsz Hst. unfold kfree_page, PGSIZE. rewrite Hm, V2P_P2V_eq.
  rewrite decide_False; [eauto|].
  unfold P2V, KERNBASE, u32 in *. modlia.
Qed.
