(* ===== verification/PageTable.v ===== *)
(** * Two-level page tables, [kern/mm.c]

    A page directory is a page of 1024 words; a present entry holds the
    physical address of a table page of 1024 words, which the kernel reaches
    through its window ([P2V]).  Pointers to entries are addresses of the byte
    memory, 0 is [NULL].  [data] is the linker symbol of the kernel's data
    segment.  Warnings are not part of the state. *)

From stdpp Require Import base list strings.
From Stdlib Require Import ZArith Lia.
From S2P Require Import Prelude Mmu CString Kalloc.

Open Scope Z_scope.

Definition pgdir_walk (s : mm) (pgdir va : Z) (alloc : bool) : Z * mm :=
  let pde := pgdir + 4 * PDX va in
  if has (load32 s.(ram) pde) PTE_P                  (* page table exists *)
  then (P2V (PTE_ADDR (load32 s.(ram) pde)) + 4 * PTX va, s)
  else if negb alloc then (0, s)
  else
    let '(pte, s) := kalloc_page s in
    if decide (pte = 0) then (0, s)
    else
      let m := memset s.(ram) pte 0 PGSIZE in
      let m := store32 m pde
                 (Z.lor (Z.lor (Z.lor (PTE_ADDR (V2P pte)) PTE_U) PTE_W) PTE_P) in
      (pte + 4 * PTX va, set_ram s m).

(** The loop of [mappages] from page [va] to page [end_]. *)
Fixpoint mappages_loop (fuel : nat) (s : mm) (pgdir va end_ pa perm : Z) : outcome (Z * mm) :=
  if decide (va <= end_)
  then match fuel with
       | O => Stop Fuel
       | S f =>
           let '(pte, s) := pgdir_walk s pgdir va true in
           if decide (pte = 0) then Ret (-1, s)
           else if has (load32 s.(ram) pte) PTE_P then Stop (Panic "mappages: re-map")
           else
             let s := set_ram s (store32 s.(ram) pte
                        (Z.lor (Z.lor (PTE_ADDR pa) perm) PTE_P)) in
             mappages_loop f s pgdir (u32 (va + PGSIZE)) end_ (u32 (pa + PGSIZE)) perm
       end
  else Ret (0, s).

Definition mappages (s : mm) (pgdir va pa sz perm : Z) : outcome (Z * mm) :=
  let va0 := PGROUNDDOWN va in
  let end_ := PGROUNDDOWN (va + sz - 1) in
  mappages_loop (Z.to_nat ((end_ - va0) / PGSIZE + 1)) s pgdir va0 end_ pa perm.

Definition unmap_page (s : mm) (pgdir va : Z) : outcome mm :=
  let '(pte, s) := pgdir_walk s pgdir va false in
  if decide (pte = 0) then Stop (Panic "unmap_page: not mapped")
  else if negb (has (load32 s.(ram) pte) PTE_P) then Stop (Panic "unmap_page: not present")
  else
    let pa := V2P (PTE_ADDR (load32 s.(ram) pte)) in
    kfree_page (set_ram s (store32 s.(ram) pte 0)) pa.

(** The new directory, or 0; pages of a half-built one are not given back. *)
Definition mapkvm (data : Z) (s : mm) : outcome (Z * mm) :=
  let '(pgdir, s) := kalloc_page s in
  if decide (pgdir = 0) then Ret (0, s)
  else
    let s := set_ram s (memset s.(ram) pgdir 0 PGSIZE) in
    '(r, s) ← mappages s pgdir KERNBASE 0 EXTMEM PTE_W;
    if decide (r < 0) then Ret (0, s)
    else
      '(r, s) ← mappages s pgdir KERNLINK (V2P KERNLINK) (data - KERNLINK) 0;
      if decide (r < 0) then Ret (0, s)
      else
        '(r, s) ← mappages s pgdir data (V2P data)
                    (s32 (u32 (s.(memsz) * 1024) - V2P data)) PTE_W;
        if decide (r < 0) then Ret (0, s) else Ret (pgdir, s).

(** Returns [kpgdir] and the value loaded into CR3. *)
Definition setupkvm (data : Z) (s : mm) : outcome (Z * Z * mm) :=
  '(kpgdir, s) ← mapkvm data s;
  if decide (kpgdir = 0) then Stop (Panic "kpgdir is NULL!")
  else Ret (kpgdir, V2P kpgdir, s).

Fixpoint region_loop (fuel : nat) (s : mm) (pgdir va va_end perm : Z) : outcome mm :=
  if decide (va < va_end)
  then match fuel with
       | O => Stop Fuel
       | S f =>
           let '(pte, s) := pgdir_walk s pgdir va true in
           if decide (pte = 0) then Stop (Panic "region_alloc failed!")
           else if has (load32 s.(ram) pte) PTE_P       (* WARNING!! already mapped *)
           then region_loop f s pgdir (u32 (va + PGSIZE)) va_end perm
           else
             let '(p, s) := kalloc_page s in
             if decide (p = 0) then Stop (Panic "region_alloc failed!")
             else
               let s := set_ram s (store32 s.(ram) pte
                          (Z.lor (Z.lor (PTE_ADDR (V2P p)) perm) PTE_P)) in
               region_loop f s pgdir (u32 (va + PGSIZE)) va_end perm
       end
  else Ret s.

Definition region_alloc (s : mm) (pgdir va len perm : Z) : outcome mm :=
  let va0 := PGROUNDDOWN va in
  let va_end := PGROUNDUP (va + len) in
  region_loop (Z.to_nat ((va_end - va0) / PGSIZE)) s pgdir va0 va_end perm.

(** Not written yet in the source: returns 0. *)
Definition dealloc_uvm (s : mm) (pgdir oldsz newsz : Z) : Z * mm := (0, s).

(** [n] directory entries left, from entry [i]. *)
Fixpoint free_vm_loop (n : nat) (s : mm) (pgdir i : Z) : outcome mm :=
  match n with
  | O => Ret s
  | S n' =>
      let e := load32 s.(ram) (pgdir + 4 * i) in
      if has e PTE_P
      then s ← kfree_page s (P2V (PTE_ADDR e)); free_vm_loop n' s pgdir (i + 1)
      else free_vm_loop n' s pgdir (i + 1)
  end.

Definition free_vm (s : mm) (pgdir : Z) : outcome mm :=
  if decide (pgdir = 0) then Stop (Panic "free_vm: pgdir is NULL")
  else
    let '(_, s) := dealloc_uvm s pgdir KERNBASE 0 in
    s ← free_vm_loop 1024 s pgdir 0;
    kfree_page s pgdir.

(** [cur] is [current->pgdir]. *)
Definition copy_page (s : mm) (cur pgdir addr : Z) : outcome (Z * mm) :=
  let '(pte, s) := pgdir_walk s cur addr false in
  if decide (pte = 0) then Stop (Panic "copy_page: pte doesn't exist")
  else if negb (has (load32 s.(ram) pte) PTE_P)
  then Stop (Panic "copy_page: page doesn't present")
  else
    let pa := PTE_ADDR (load32 s.(ram) pte) in
    let flags := PTE_FLAGS (load32 s.(ram) pte) in
    let '(mem, s) := kalloc_page s in
    if decide (mem = 0) then Ret (0, s)
    else
      let s := set_ram s (memmove s.(ram) mem (P2V pa) PGSIZE) in
      '(r, s) ← mappages s pgdir addr (V2P mem) PGSIZE flags;
      if decide (r < 0)
      then s ← kfree_page s mem; Ret (0, s)
      else Ret (pgdir, s).

Fixpoint copy_uvm_loop (fuel : nat) (s : mm) (pgdir pde i sz : Z) : outcome (Z * mm) :=
  if decide (i < sz)
  then match fuel with
       | O => Stop Fuel
       | S f =>
           let '(pte, s) := pgdir_walk s pgdir i false in
           if decide (pte = 0) then Stop (Panic "copy_uvm: pte doesn't exist")
           else if negb (has (load32 s.(ram) pte) PTE_P)      (* a hole *)
           then copy_uvm_loop f s pgdir pde (u32 (i + PGSIZE)) sz
           else
             let pa := PTE_ADDR (load32 s.(ram) pte) in
             let flags := PTE_FLAGS (load32 s.(ram) pte) in
             let '(mem, s) := kalloc_page s in
             if decide (mem = 0) then s ← free_vm s pde; Ret (0, s)
             else
               let s := set_ram s (memmove s.(ram) mem (P2V pa) PGSIZE) in
               '(r, s) ← mappages s pde i (V2P mem) PGSIZE flags;
               if decide (r < 0) then s ← free_vm s pde; Ret (0, s)
               else copy_uvm_loop f s pgdir pde (u32 (i + PGSIZE)) sz
       end
  else Ret (pde, s).

Definition copy_uvm (data : Z) (s : mm) (pgdir sz : Z) : outcome (Z * mm) :=
  '(pde, s) ← mapkvm data s;
  if decide (pde = 0) then Ret (0, s)
  else copy_uvm_loop (Z.to_nat ((sz + PGSIZE - 1) / PGSIZE)) s pgdir pde 0 sz.

(** The walk's result is dereferenced without a test. *)
Definition uva2ka (s : mm) (pgdir uva : Z) : outcome Z :=
  let '(pte, s) := pgdir_walk s pgdir uva false in
  if decide (pte = 0) then Stop (Fault "uva2ka: null pte")
  else if negb (has (load32 s.(ram) pte) PTE_P) then Ret 0
  else if negb (has (load32 s.(ram) pte) PTE_U) then Ret 0
  else Ret (P2V (PTE_ADDR (load32 s.(ram) pte))).

Fixpoint copyout_loop (fuel : nat) (s : mm) (pgdir va buf len : Z) : outcome (Z * mm) :=
  if decide (len > 0)
  then match fuel with
       | O => Stop Fuel
       | S f =>
           let va0 := PGROUNDDOWN va in
           pa0 ← uva2ka s pgdir va0;
           if decide (pa0 = 0) then Ret (-1, s)
           else
             let n := PGSIZE - (va - va0) in
             let n := if decide (n > len) then len else n in
             let s := set_ram s (memmove s.(ram) (pa0 + (va - va0)) buf n) in
             copyout_loop f s pgdir (u32 (va0 + PGSIZE)) (buf + n) (len - n)
       end
  else Ret (0, s).

(** Copy [len] bytes from the kernel address [p] to the user address [va]. *)
Definition copyout (s : mm) (pgdir va p len : Z) : outcome (Z * mm) :=
  copyout_loop (Z.to_nat (len / PGSIZE + 2)) s pgdir va p len.

(** The bits of a page fault's error code: present, write, user, reserved. *)
Definition page_fault_flags (err : Z) : Z * Z * Z * Z :=
  (if has err 1 then 1 else 0, if has err 2 then 1 else 0,
   if has err 4 then 1 else 0, if has err 8 then 1 else 0).

(** ** Abstract view of an address space *)

Definition pde_at (s : mm) (pgdir i : Z) : Z := load32 s.(ram) (pgdir + 4 * i).

Definition table_of (e : Z) : Z := P2V (PTE_ADDR e).

(** The entry that translates [va], 0 when its table does not exist. *)
Definition pt_entry (s : mm) (pgdir va : Z) : Z :=
  if has (pde_at s pgdir (PDX va)) PTE_P
  then load32 s.(ram) (table_of (pde_at s pgdir (PDX va)) + 4 * PTX va)
  else 0.

(** Directory, tables and free pages are pairwise distinct pages. *)
Record vm_wf (s : mm) (pgdir : Z) (l : list Z) : Prop := {
  vw_free : free_wf s l;
  vw_dir : page_ok s pgdir;
  vw_dir_free : pgdir ∉ l;
  vw_tab : forall i, 0 <= i < 1024 -> has (pde_at s pgdir i) PTE_P = true ->
    page_ok s (table_of (pde_at s pgdir i)) /\
    (table_of (pde_at s pgdir i) ∉ l) /\ table_of (pde_at s pgdir i) <> pgdir;
  vw_inj : forall i j, 0 <= i < 1024 -> 0 <= j < 1024 ->
    has (pde_at s pgdir i) PTE_P = true -> has (pde_at s pgdir j) PTE_P = true ->
    table_of (pde_at s pgdir i) = table_of (pde_at s pgdir j) -> i = j
}.

(** [va] and [va'] lie in the same virtual page. *)
Definition same_page (va va' : Z) : Prop := u32 va / 4096 = u32 va' / 4096.

#[export] Instance same_page_dec va va' : Decision (same_page va va').
Proof. unfold same_page. apply _. Defined.

(** ** Slots of pages *)

Lemma same_page_slots va va' :
  same_page va va' <-> PDX va = PDX va' /\ PTX va = PTX va'.
Proof.
  unfold same_page. rewrite !PDX_div, !PTX_div.
  pose proof (u32_range va). pose proof (u32_range va'). split; [intros E|intros [E1 E2]]; modlia.
Qed.

Lemma slot_store m p i q j v :
  p mod 4096 = 0 -> q mod 4096 = 0 -> 0 <= i < 1024 -> 0 <= j < 1024 ->
  load32 (store32 m (p + 4 * i) v) (q + 4 * j) =
    if decide (p = q /\ i = j) then u32 v else load32 m (q + 4 * j).
Proof.
  intros Hp Hq Hi Hj. case_decide as E.
  - destruct E as [-> ->]. apply load32_store32_same.
  - apply load32_store32_other. destruct (decide (p = q)) as [->|Hne].
    + assert (i <> j) by tauto. lia.
    + pose proof (page_disjoint p q Hp Hq Hne). lia.
Qed.

Lemma slot_agree m m' p q j :
  agree_outside p (p + 4096) m m' -> p mod 4096 = 0 -> q mod 4096 = 0 -> p <> q ->
  0 <= j < 1024 -> load32 m' (q + 4 * j) = load32 m (q + 4 * j).
Proof.
  intros Hag Hp Hq Hne Hj. apply (load32_agree p (p + 4096)); [exact Hag|].
  pose proof (page_disjoint p q Hp Hq Hne). lia.
Qed.

Lemma slot_store_agree m p i v :
  0 <= i < 1024 -> agree_outside p (p + 4096) m (store32 m (p + 4 * i) v).
Proof. intros Hi. eapply agree_outside_weaken; [| |apply store32_outside]; lia. Qed.

Lemma slot_zero m p j :
  0 <= j < 1024 -> load32 (memset m p 0 PGSIZE) (p + 4 * j) = 0.
Proof.
  intros Hj. assert (Hz : forall x, p <= x < p + 4096 -> memset m p 0 PGSIZE x = 0).
  { intros x Hx. unfold memset, PGSIZE. rewrite (u32_small 4096) by lia.
    rewrite decide_True by lia. reflexivity. }
  unfold load32. rewrite !Hz by lia. reflexivity.
Qed.

(** ** The entry a new table is installed with *)

Definition new_pde (pte : Z) : Z :=
  Z.lor (Z.lor (Z.lor (PTE_ADDR (V2P pte)) PTE_U) PTE_W) PTE_P.

Lemma new_pde_eq p :
  0 <= p < 4294967296 -> p mod 4096 = 0 -> new_pde p = V2P p + 7.
Proof.
  intros Hr Hal. unfold new_pde, PTE_U, PTE_W, PTE_P. rewrite <- !Z.lor_assoc.
  change (Z.lor 4 (Z.lor 2 1)) with 7.
  rewrite pte_make; [|apply PTE_ADDR_aligned|lia]. f_equal.
  rewrite PTE_ADDR_sub. pose proof (P2V_aligned p Hal).
  rewrite V2P_P2V_eq, u32_small by apply P2V_range. lia.
Qed.

Lemma new_pde_facts p :
  0 <= p < 4294967296 -> p mod 4096 = 0 ->
  0 <= new_pde p < 4294967296 /\ has (new_pde p) PTE_P = true /\ table_of (new_pde p) = p.
Proof.
  intros Hr Hal. rewrite new_pde_eq by assumption.
  pose proof (P2V_range p). pose proof (P2V_aligned p Hal). rewrite V2P_P2V_eq.
  split; [modlia|]. split.
  - unfold PTE_P. rewrite has_1. replace (P2V p) with (2 * (2048 * (P2V p / 4096))) by modlia.
    rewrite Z.odd_add, Z.odd_mul. reflexivity.
  - unfold table_of. rewrite <- (pte_make (P2V p) 7) by lia.
    rewrite PTE_ADDR_make by (assumption || lia). apply P2V_P2V. exact Hr.
Qed.

(** ** [pgdir_walk] *)

Lemma walk_present s pgdir va alloc :
  has (pde_at s pgdir (PDX va)) PTE_P = true ->
  pgdir_walk s pgdir va alloc =
    (table_of (pde_at s pgdir (PDX va)) + 4 * PTX va, s).
Proof. intros H. unfold pgdir_walk. unfold pde_at in H. rewrite H. reflexivity. Qed.

Lemma walk_absent_noalloc s pgdir va :
  has (pde_at s pgdir (PDX va)) PTE_P = false -> pgdir_walk s pgdir va false = (0, s).
Proof. intros H. unfold pgdir_walk. unfold pde_at in H. rewrite H. reflexivity. Qed.

Lemma walk_absent_oom s pgdir va :
  has (pde_at s pgdir (PDX va)) PTE_P = false -> free_wf s [] ->
  pgdir_walk s pgdir va true = (0, s).
Proof.
  intros H Hf. unfold pgdir_walk. unfold pde_at in H. rewrite H. simpl.
  rewrite kalloc_page_nil by exact Hf. reflexivity.
Qed.

(** The state after a table page [p] was taken and installed for index [d]. *)
Definition install (s : mm) (pgdir d p : Z) : mm :=
  set_ram (set_free_list s (load32 s.(ram) p))
    (store32 (memset s.(ram) p 0 PGSIZE) (pgdir + 4 * d) (new_pde p)).

Lemma walk_absent_alloc s pgdir va p l :
  has (pde_at s pgdir (PDX va)) PTE_P = false -> free_wf s (p :: l) ->
  pgdir_walk s pgdir va true = (p + 4 * PTX va, install s pgdir (PDX va) p).
Proof.
  intros H Hf. unfold pgdir_walk. unfold pde_at in H. rewrite H. simpl.
  destruct (kalloc_page_cons s p l Hf) as [-> _].
  destruct Hf as [(_ & Hp & _) _ _ _]. rewrite decide_False by exact Hp. reflexivity.
Qed.

Section Install.
Context (s : mm) (pgdir d p : Z) (l : list Z).
Context (Hwf : vm_wf s pgdir (p :: l)) (Hd : 0 <= d < 1024).
Context (Habs : has (pde_at s pgdir d) PTE_P = false).

Lemma install_facts :
  p mod 4096 = 0 /\ pgdir mod 4096 = 0 /\ p <> pgdir /\ 0 < p < 4294967296.
Proof.
  destruct Hwf as [[_ _ Hp _] [Hdir _] Hni _ _]. apply Forall_cons in Hp as [Hp _].
  pose proof (page_ok_range _ _ Hp). destruct Hp as [Hal _].
  apply not_elem_of_cons in Hni as [Hne _]. repeat split; congruence || lia.
Qed.

Lemma install_pde i : 0 <= i < 1024 ->
  pde_at (install s pgdir d p) pgdir i =
    if decide (i = d) then new_pde p else pde_at s pgdir i.
Proof.
  intros Hi. destruct install_facts as (Hal & Hdal & Hne & Hr).
  unfold pde_at, install. simpl. rewrite slot_store by assumption.
  destruct (new_pde_facts p ltac:(lia) Hal) as (Hnr & _).
  destruct (decide (i = d)) as [->|Hid].
  - rewrite decide_True by done. apply u32_small, Hnr.
  - rewrite decide_False by intuition congruence.
    apply (slot_agree _ _ p); [exact (memset_outside _ p 0 4096)|assumption..].
Qed.

(** Pages other than the directory and the new table keep their words. *)
Lemma install_other q j : q mod 4096 = 0 -> q <> pgdir -> q <> p -> 0 <= j < 1024 ->
  load32 (install s pgdir d p).(ram) (q + 4 * j) = load32 s.(ram) (q + 4 * j).
Proof.
  intros Hq Hqd Hqp Hj. destruct install_facts as (Hal & Hdal & Hne & Hr).
  unfold install. simpl. rewrite slot_store by assumption.
  rewrite decide_False by intuition congruence.
  apply (slot_agree _ _ p); [exact (memset_outside _ p 0 4096)|assumption|assumption|congruence|assumption].
Qed.

Lemma install_new j : 0 <= j < 1024 ->
  load32 (install s pgdir d p).(ram) (p + 4 * j) = 0.
Proof.
  intros Hj. destruct install_facts as (Hal & Hdal & Hne & Hr).
  unfold install. simpl. rewrite slot_store by assumption.
  rewrite decide_False by intuition congruence. apply slot_zero. exact Hj.
Qed.

Lemma install_entry va : pt_entry (install s pgdir d p) pgdir va = pt_entry s pgdir va.
Proof.
  destruct install_facts as (Hal & Hdal & Hne & Hr).
  destruct (new_pde_facts p ltac:(lia) Hal) as (_ & Hpr & Htab).
  unfold pt_entry. rewrite install_pde by apply PDX_range. case_decide as E.
  - rewrite Hpr, Htab, install_new by apply PTX_range. rewrite E, Habs. reflexivity.
  - destruct (has (pde_at s pgdir (PDX va)) PTE_P) eqn:Hh; [|reflexivity].
    destruct (vw_tab _ _ _ Hwf _ (PDX_range va) Hh) as ((Htal & _) & Hnl & Htd).
    apply not_elem_of_cons in Hnl as [Htp _].
    apply install_other; [assumption|assumption|assumption|apply PTX_range].
Qed.

Lemma install_wf : vm_wf (install s pgdir d p) pgdir l.
Proof.
  destruct install_facts as (Hal & Hdal & Hne & Hr).
  destruct (new_pde_facts p ltac:(lia) Hal) as (Hnr & Hpr & Htab).
  destruct (kalloc_page_cons s p l (vw_free _ _ _ Hwf)) as [_ Hf'].
  pose proof (fw_pages _ _ (vw_free _ _ _ Hwf)) as Hpg. apply Forall_cons in Hpg as [Hpp _].
  pose proof (fw_nodup _ _ (vw_free _ _ _ Hwf)) as Hnd. apply NoDup_cons in Hnd as [Hpl _].
  pose proof (vw_dir_free _ _ _ Hwf) as Hdl. apply not_elem_of_cons in Hdl as [_ Hdl].
  pose proof (fw_bytes _ _ (vw_free _ _ _ Hwf)) as Hb.
  constructor.
  - unfold install.
    apply (free_wf_agree (set_ram (set_free_list s (load32 (ram s) p)) (memset (ram s) p 0 PGSIZE)) l _ pgdir).
    + apply (free_wf_agree _ l _ p Hf'); [exact (memset_outside _ p 0 4096)|auto with chunix|assumption..].
    + apply slot_store_agree, Hd.
    + simpl. auto with chunix.
    + exact Hdal.
    + exact Hdl.
  - exact (vw_dir _ _ _ Hwf).
  - exact Hdl.
  - intros i Hi Hh. rewrite install_pde in Hh |- * by assumption. case_decide as E.
    + rewrite Htab. split; [exact Hpp|]. split; [exact Hpl|exact Hne].
    + destruct (vw_tab _ _ _ Hwf i Hi Hh) as (Ht & Hnl & Htd).
      apply not_elem_of_cons in Hnl as [_ Hnl]. split; [exact Ht|]. split; assumption.
  - intros i j Hi Hj. rewrite !install_pde by assumption.
    destruct (decide (i = d)), (decide (j = d)); rewrite ?Htab; intros Hhi Hhj Heq;
      [congruence|..].
    + destruct (vw_tab _ _ _ Hwf j Hj Hhj) as (_ & Hnl & _).
      rewrite <- Heq in Hnl. apply not_elem_of_cons in Hnl as [Hnl _]. congruence.
    + destruct (vw_tab _ _ _ Hwf i Hi Hhi) as (_ & Hnl & _).
      rewrite Heq in Hnl. apply not_elem_of_cons in Hnl as [Hnl _]. congruence.
    + exact (vw_inj _ _ _ Hwf i j Hi Hj Hhi Hhj Heq).
Qed.

End Install.

(** The address of the entry for [va] when its table exists. *)
Definition slot (s : mm) (pgdir va : Z) : Z :=
  table_of (pde_at s pgdir (PDX va)) + 4 * PTX va.

(** The pages an address space may write while it grows. *)
Definition vm_page (s : mm) (pgdir : Z) (l : list Z) (q : Z) : Prop :=
  q = pgdir \/ q ∈ l \/
  exists i, 0 <= i < 1024 /\ has (pde_at s pgdir i) PTE_P = true /\
            q = table_of (pde_at s pgdir i).

(** Pages that are no page of the address space keep their bytes. *)
Definition keeps (s s' : mm) (pgdir : Z) (l : list Z) : Prop :=
  forall q x, q mod 4096 = 0 -> ~ vm_page s pgdir l q -> q <= x < q + 4096 ->
    s'.(ram) x = s.(ram) x.

(** What growing an address space by table pages or by entries guarantees. *)
Record extends (s s' : mm) (pgdir : Z) (l l' : list Z) : Prop := {
  ex_wf : vm_wf s' pgdir l';
  ex_free : exists used, l = used ++ l';
  ex_pages : forall q, vm_page s' pgdir l' q -> vm_page s pgdir l q;
  ex_keeps : keeps s s' pgdir l;
  ex_tables : forall i, 0 <= i < 1024 -> has (pde_at s pgdir i) PTE_P = true ->
    has (pde_at s' pgdir i) PTE_P = true;
  ex_memsz : s'.(memsz) = s.(memsz);
  ex_start : s'.(mem_start) = s.(mem_start)
}.

Lemma extends_refl s pgdir l : vm_wf s pgdir l -> extends s s pgdir l l.
Proof. intros H. constructor; try done. by exists []. Qed.

Lemma extends_trans s1 s2 s3 pgdir l1 l2 l3 :
  extends s1 s2 pgdir l1 l2 -> extends s2 s3 pgdir l2 l3 -> extends s1 s3 pgdir l1 l3.
Proof.
  intros [Hw1 [u1 Hu1] Hp1 Hk1 Hg1 Hm1 Ht1] [Hw2 [u2 Hu2] Hp2 Hk2 Hg2 Hm2 Ht2].
  constructor; [done| |auto| |auto|congruence|congruence].
  - exists (u1 ++ u2). rewrite <- app_assoc. congruence.
  - intros q x Hq Hn Hx. rewrite (Hk2 q x Hq), (Hk1 q x Hq); auto.
Qed.

Lemma slot_nonzero s pgdir va l :
  vm_wf s pgdir l -> has (pde_at s pgdir (PDX va)) PTE_P = true -> slot s pgdir va <> 0.
Proof.
  intros Hwf Hh. destruct (vw_tab _ _ _ Hwf _ (PDX_range va) Hh) as (Ht & _ & _).
  apply page_ok_range in Ht. pose proof (PTX_range va). unfold slot. lia.
Qed.

Lemma install_extends s pgdir d p l :
  vm_wf s pgdir (p :: l) -> 0 <= d < 1024 -> has (pde_at s pgdir d) PTE_P = false ->
  extends s (install s pgdir d p) pgdir (p :: l) l.
Proof.
  intros Hwf Hd Habs.
  destruct (install_facts _ _ _ _ Hwf) as (Hal & Hdal & Hne & Hr).
  destruct (new_pde_facts p ltac:(lia) Hal) as (_ & _ & Htab).
  constructor; try done.
  - eapply install_wf; eassumption.
  - by exists [p].
  - intros q [->|[Hq|(i & Hi & Hh & ->)]]; [by left|right; left; by right|].
    rewrite (install_pde _ _ _ _ _ Hwf Hd) in Hh |- * by exact Hi. case_decide.
    + rewrite Htab. right. left. left.
    + right. right. eauto.
  - intros q x Hq Hn Hx. unfold install. simpl.
    assert (q <> pgdir) by (intros ->; apply Hn; by left).
    assert (q <> p) by (intros ->; apply Hn; right; left; left).
    pose proof (page_disjoint q pgdir Hq Hdal ltac:(assumption)).
    pose proof (page_disjoint q p Hq Hal ltac:(assumption)).
    rewrite store32_outside by lia. apply (memset_outside s.(ram) p 0 4096).
    change (u32 4096) with 4096. lia.
  - intros i Hi Hh. rewrite (install_pde _ _ _ _ _ Hwf Hd) by exact Hi. case_decide; [|exact Hh].
    destruct (new_pde_facts p ltac:(lia) Hal) as (_ & Hpr & _). exact Hpr.
Qed.

(** [pgdir_walk] with allocation, both when the table exists and when a page is
    left for a new one. *)
Lemma walk_alloc_spec s pgdir va l :
  vm_wf s pgdir l -> (has (pde_at s pgdir (PDX va)) PTE_P = true \/ l <> []) ->
  exists s' l', pgdir_walk s pgdir va true = (slot s' pgdir va, s') /\
    extends s s' pgdir l l' /\
    length l = ((if has (pde_at s pgdir (PDX va)) PTE_P then 0 else 1) + length l')%nat /\
    has (pde_at s' pgdir (PDX va)) PTE_P = true /\
    (forall va', pt_entry s' pgdir va' = pt_entry s pgdir va').
Proof.
  intros Hwf Hc. destruct (has (pde_at s pgdir (PDX va)) PTE_P) eqn:Hh.
  - exists s, l. rewrite walk_present by exact Hh. split; [done|].
    split; [by apply extends_refl|]. split; [done|]. split; [exact Hh|done].
  - destruct Hc as [Hc|Hc]; [discriminate|]. destruct l as [|p l]; [done|].
    pose proof (PDX_range va) as Hd.
    destruct (install_facts _ _ _ _ Hwf) as (Hal & Hdal & Hne & Hr).
    destruct (new_pde_facts p ltac:(lia) Hal) as (_ & Hpr & Htab).
    pose proof (install_pde _ _ (PDX va) _ _ Hwf Hd (PDX va) Hd) as Hpde.
    rewrite decide_True in Hpde by done.
    exists (install s pgdir (PDX va) p), l.
    rewrite (walk_absent_alloc _ _ _ p l Hh (vw_free _ _ _ Hwf)).
    unfold slot. rewrite Hpde, Htab. split; [done|].
    split; [by apply install_extends|]. split; [done|]. split; [exact Hpr|].
    intros va'. eapply install_entry; eassumption.
Qed.

Section StoreEntry.
Context (s : mm) (pgdir va v : Z) (l : list Z).
Context (Hwf : vm_wf s pgdir l) (Hh : has (pde_at s pgdir (PDX va)) PTE_P = true).
Context (Hv : 0 <= v < 4294967296).

Let s' : mm := set_ram s (store32 s.(ram) (slot s pgdir va) v).

Lemma store_entry_table :
  table_of (pde_at s pgdir (PDX va)) mod 4096 = 0 /\ pgdir mod 4096 = 0 /\
  table_of (pde_at s pgdir (PDX va)) <> pgdir.
Proof.
  destruct (vw_tab _ _ _ Hwf _ (PDX_range va) Hh) as ((Ht & _) & _ & Hd).
  destruct (vw_dir _ _ _ Hwf) as [Hdal _]. done.
Qed.

Lemma store_entry_pde i : 0 <= i < 1024 -> pde_at s' pgdir i = pde_at s pgdir i.
Proof.
  intros Hi. destruct store_entry_table as (Ht & Hd & Hne).
  unfold pde_at at 1, s', slot. simpl.
  rewrite slot_store by (assumption || apply PTX_range).
  rewrite decide_False by tauto. reflexivity.
Qed.

Lemma store_entry_entry va' :
  pt_entry s' pgdir va' = if decide (same_page va va') then v else pt_entry s pgdir va'.
Proof.
  destruct store_entry_table as (Ht & Hd & Hne).
  unfold pt_entry. rewrite store_entry_pde by apply PDX_range.
  destruct (has (pde_at s pgdir (PDX va')) PTE_P) eqn:Hh'.
  - destruct (vw_tab _ _ _ Hwf _ (PDX_range va') Hh') as ((Ht' & _) & _ & _).
    unfold s', slot. simpl. rewrite slot_store by (assumption || apply PTX_range).
    destruct (decide (same_page va va')) as [E|E].
    + apply same_page_slots in E as [-> ->]. rewrite decide_True by done.
      apply u32_small, Hv.
    + rewrite decide_False; [done|]. intros [Heq Hptx]. apply E, same_page_slots.
      split; [|exact Hptx].
      exact (vw_inj _ _ _ Hwf _ _ (PDX_range va) (PDX_range va') Hh Hh' Heq).
  - rewrite decide_False; [done|]. intros E.
    apply same_page_slots in E as [E _]. rewrite <- E, Hh in Hh'. discriminate.
Qed.

Lemma store_entry_extends : extends s s' pgdir l l.
Proof.
  destruct store_entry_table as (Ht & Hd & Hne).
  destruct (vw_tab _ _ _ Hwf _ (PDX_range va) Hh) as (_ & Hnl & _).
  pose proof (slot_store_agree s.(ram) (table_of (pde_at s pgdir (PDX va))) (PTX va) v
                (PTX_range va)) as Hag.
  constructor; try done; [|by exists []| | |intros i Hi Hp; rewrite store_entry_pde by exact Hi; exact Hp].
  - constructor.
    + apply (free_wf_agree _ _ _ _ (vw_free _ _ _ Hwf) Hag);
        [|assumption|assumption]. pose proof (fw_bytes _ _ (vw_free _ _ _ Hwf)).
      auto with chunix.
    + exact (vw_dir _ _ _ Hwf).
    + exact (vw_dir_free _ _ _ Hwf).
    + intros i Hi. rewrite store_entry_pde by exact Hi. exact (vw_tab _ _ _ Hwf i Hi).
    + intros i j Hi Hj. rewrite !store_entry_pde by assumption. apply (vw_inj _ _ _ Hwf); assumption.
  - intros q [->|[Hq|(i & Hi & Hp & ->)]]; [by left|by right; left|].
    rewrite store_entry_pde in Hp |- * by exact Hi. right. right. eauto.
  - intros q x Hq Hn Hx. apply Hag. intros Hx'. apply Hn. right. right.
    exists (PDX va). split; [apply PDX_range|]. split; [exact Hh|].
    destruct (decide (q = table_of (pde_at s pgdir (PDX va)))) as [|Hqt]; [done|].
    pose proof (page_disjoint q _ Hq Ht Hqt). lia.
Qed.

End StoreEntry.

(** ** [mappages] *)

(** The entry [mappages] writes. *)
Definition page_entry (pa perm : Z) : Z := Z.lor (Z.lor (PTE_ADDR pa) perm) PTE_P.

Lemma page_entry_facts pa perm :
  0 <= perm < 4096 ->
  page_entry pa perm = PTE_ADDR pa + Z.lor perm 1 /\
  0 <= page_entry pa perm < 4294967296 /\
  has (page_entry pa perm) PTE_P = true /\
  PTE_ADDR (page_entry pa perm) = PTE_ADDR pa /\
  PTE_FLAGS (page_entry pa perm) = Z.lor perm 1.
Proof.
  intros Hp. unfold page_entry, PTE_P. rewrite <- Z.lor_assoc.
  assert (Hf : 0 <= Z.lor perm 1 < 4096) by (apply (lor_bound perm 1 12); lia).
  pose proof (PTE_ADDR_range pa). pose proof (PTE_ADDR_aligned pa).
  rewrite PTE_ADDR_make, PTE_FLAGS_make by assumption.
  rewrite (pte_make (PTE_ADDR pa)) by assumption. repeat split; try modlia.
  rewrite has_1. rewrite <- Z.bit0_odd.
  rewrite <- (pte_make (PTE_ADDR pa) (Z.lor perm 1)) by assumption.
  rewrite !Z.lor_spec. simpl. rewrite !orb_true_r. reflexivity.
Qed.

Lemma PTE_ADDR_u32 x : PTE_ADDR (u32 x) = PTE_ADDR x.
Proof. unfold PTE_ADDR. rewrite u32_idem. reflexivity. Qed.

Lemma page_entry_step pa perm k :
  page_entry (u32 (pa + PGSIZE) + k) perm = page_entry (pa + (4096 + k)) perm.
Proof.
  unfold page_entry. rewrite <- (PTE_ADDR_u32 (u32 _ + k)), u32_add_l, PTE_ADDR_u32.
  unfold PGSIZE. do 3 f_equal. lia.
Qed.

(** One round of the loop on a page that is not mapped. *)
Lemma mappages_step s pgdir va end_ pa perm l f :
  vm_wf s pgdir l -> (has (pde_at s pgdir (PDX va)) PTE_P = true \/ l <> []) ->
  va <= end_ -> 0 <= perm < 4096 -> has (pt_entry s pgdir va) PTE_P = false ->
  exists s' l',
    mappages_loop (S f) s pgdir va end_ pa perm =
      mappages_loop f s' pgdir (u32 (va + PGSIZE)) end_ (u32 (pa + PGSIZE)) perm /\
    extends s s' pgdir l l' /\
    length l = ((if has (pde_at s pgdir (PDX va)) PTE_P then 0 else 1) + length l')%nat /\
    has (pde_at s' pgdir (PDX va)) PTE_P = true /\
    (forall va', pt_entry s' pgdir va' =
       if decide (same_page va va') then page_entry pa perm else pt_entry s pgdir va').
Proof.
  intros Hwf Hc Hle Hperm Hnp.
  destruct (walk_alloc_spec s pgdir va l Hwf Hc) as (s1 & l1 & E & Hex & Hlen & Hh & Hent).
  pose proof (ex_wf _ _ _ _ _ Hex) as Hwf1.
  destruct (page_entry_facts pa perm Hperm) as (_ & Hr & _).
  pose proof (store_entry_extends s1 pgdir va (page_entry pa perm) l1 Hwf1 Hh Hr) as Hex2.
  eexists _, l1. split.
  - cbn [mappages_loop]. rewrite decide_True by exact Hle. rewrite E.
    rewrite decide_False by (eapply slot_nonzero; eassumption).
    replace (load32 (ram s1) (slot s1 pgdir va)) with (pt_entry s1 pgdir va)
      by (unfold pt_entry, slot; rewrite Hh; reflexivity).
    rewrite Hent, Hnp. reflexivity.
  - split; [exact (extends_trans _ _ _ _ _ _ _ Hex Hex2)|]. split; [exact Hlen|].
    split; [rewrite (store_entry_pde s1 pgdir va _ l1 Hwf1 Hh Hr) by apply PDX_range; exact Hh|].
    intros va'. rewrite (store_entry_entry s1 pgdir va _ l1 Hwf1 Hh Hr).
    case_decide; [done | apply Hent].
Qed.

Lemma aligned_same_page va va' :
  va mod 4096 = 0 -> 0 <= va < 4294967296 -> 0 <= va' < 4294967296 ->
  same_page va va' <-> va <= va' < va + 4096.
Proof. intros Ha Hr Hr'. unfold same_page. rewrite !u32_small by assumption. modlia. Qed.

(** Table pages that suffice to map from [va] to [end_]. *)
Definition tables_needed (s : mm) (pgdir va end_ : Z) : Z :=
  PDX end_ - PDX va + (if has (pde_at s pgdir (PDX va)) PTE_P then 0 else 1).

Lemma PDX_next va : 0 <= va -> va + 4096 < 4294967296 ->
  PDX va <= PDX (va + 4096) <= PDX va + 1.
Proof. intros H0 H1. rewrite !PDX_div, !u32_small by lia. modlia. Qed.

Lemma PDX_mono va va' : 0 <= va <= va' -> va' < 4294967296 -> PDX va <= PDX va'.
Proof. intros H0 H1. rewrite !PDX_div, !u32_small by lia. modlia. Qed.

Lemma tables_needed_next s s' pgdir va end_ :
  0 <= va -> va + 4096 <= end_ < 4294967296 ->
  has (pde_at s' pgdir (PDX va)) PTE_P = true ->
  tables_needed s' pgdir (va + 4096) end_ +
    (if has (pde_at s pgdir (PDX va)) PTE_P then 0 else 1) <= tables_needed s pgdir va end_.
Proof.
  intros H0 H1 Hh. unfold tables_needed. pose proof (PDX_next va H0 ltac:(lia)).
  destruct (decide (PDX (va + 4096) = PDX va)) as [->|Hne].
  - rewrite Hh. lia.
  - destruct (has (pde_at s' pgdir (PDX (va + 4096))) PTE_P), (has (pde_at s pgdir (PDX va)) PTE_P); lia.
Qed.

Lemma mappages_loop_ok n : forall s pgdir va end_ pa perm l,
  vm_wf s pgdir l -> va mod 4096 = 0 -> 0 <= va ->
  va + 4096 * Z.of_nat n < 4294967296 -> end_ = va + 4096 * Z.of_nat n - 4096 ->
  0 <= perm < 4096 -> (n = 0%nat \/ tables_needed s pgdir va end_ <= Z.of_nat (length l)) ->
  (forall k, 0 <= k < Z.of_nat n -> has (pt_entry s pgdir (va + 4096 * k)) PTE_P = false) ->
  exists s' l',
    mappages_loop n s pgdir va end_ pa perm = Ret (0, s') /\ extends s s' pgdir l l' /\
    (match n with
     | O => l' = l
     | S _ => Z.of_nat (length l) <= tables_needed s pgdir va end_ + Z.of_nat (length l')
     end) /\
    forall va', 0 <= va' < 4294967296 -> pt_entry s' pgdir va' =
      if decide (va <= va' < va + 4096 * Z.of_nat n)
      then page_entry (pa + 4096 * ((va' - va) / 4096)) perm else pt_entry s pgdir va'.
Proof.
  induction n as [|n IH]; intros s pgdir va end_ pa perm l Hwf Hal H0 Hlim Hend Hperm Hlen Hnp.
  - exists s, l. cbn [mappages_loop]. rewrite decide_False by lia. split; [done|].
    split; [by apply extends_refl|]. split; [done|].
    intros va' Hva'. rewrite decide_False by lia. done.
  - destruct Hlen as [|Hlen]; [done|].
    assert (Hmono : PDX va <= PDX end_) by (apply PDX_mono; lia).
    destruct (mappages_step s pgdir va end_ pa perm l n Hwf)
      as (s1 & l1 & E & Hex & Hl1 & Hh1 & Hent).
    { destruct (has (pde_at s pgdir (PDX va)) PTE_P) eqn:Hh; [by left|right].
      unfold tables_needed in Hlen. rewrite Hh in Hlen. intros ->. simpl in Hlen. lia. }
    { lia. } { exact Hperm. }
    { specialize (Hnp 0 ltac:(lia)). rewrite Z.mul_0_r, Z.add_0_r in Hnp. exact Hnp. }
    assert (Hneed : n = 0%nat \/ tables_needed s1 pgdir (va + 4096) end_ +
              (if has (pde_at s pgdir (PDX va)) PTE_P then 0 else 1) <=
              tables_needed s pgdir va end_).
    { destruct n; [by left|right]. apply tables_needed_next; (assumption || lia). }
    rewrite E. unfold PGSIZE at 1. rewrite (u32_small (va + 4096)) by lia.
    destruct (IH s1 pgdir (va + 4096) end_ (u32 (pa + PGSIZE)) perm l1)
      as (s2 & l2 & E2 & Hex2 & Hl2 & Hent2); try lia.
    { exact (ex_wf _ _ _ _ _ Hex). } { modlia. }
    { destruct Hneed as [->|Hneed]; [by left|right].
      destruct (has (pde_at s pgdir (PDX va)) PTE_P); lia. }
    { intros k Hk. rewrite Hent, decide_False.
      - replace (va + 4096 + 4096 * k) with (va + 4096 * (k + 1)) by lia. apply Hnp. lia.
      - rewrite aligned_same_page; lia. }
    exists s2, l2. split; [exact E2|]. split; [eapply extends_trans; eassumption|].
    split.
    { destruct n as [|n]; [subst l2|destruct Hneed as [|Hneed]; [done|]];
        unfold tables_needed in *; destruct (has (pde_at s pgdir (PDX va)) PTE_P); lia. }
    intros va' Hva'. rewrite Hent2 by exact Hva'.
    rewrite (decide_ext _ (va + 4096 <= va' < va + 4096 * Z.of_nat (S n))) by lia.
    case_decide as E1.
    + rewrite decide_True by lia. rewrite page_entry_step. f_equal. modlia.
    + assert (Hsp : same_page va va' <-> va <= va' < va + 4096)
        by (apply aligned_same_page; (assumption || lia)).
      rewrite Hent. destruct (decide (same_page va va')) as [Hs|Hs]; rewrite Hsp in Hs.
      * rewrite decide_True by lia. f_equal. modlia.
      * rewrite decide_False by lia. done.
Qed.
