(* ===== verification/VmSpec.v ===== *)
(** * What the page-table operations do to an address space

    The operations of [PageTable] seen through [pt_entry], the entry that
    translates a virtual address: mapping, unmapping, the kernel's own map and
    copies to user memory. *)

From stdpp Require Import base list strings.
From Stdlib Require Import ZArith Lia.
From S2P Require Import Prelude Mmu CString Kalloc PageTable.

Open Scope Z_scope.

(** Where the byte at the virtual address [va] lies in the kernel's window. *)
Definition translate (s : mm) (pgdir va : Z) : Z :=
  table_of (pt_entry s pgdir va) + u32 va mod 4096.

(** ** Mapping a range *)

Lemma PDX_down va : PDX (PGROUNDDOWN va) = PDX va.
Proof. rewrite !PDX_div, PGROUNDDOWN_sub. pose proof (u32_range va).
  rewrite (u32_small (u32 va - _)) by modlia. modlia. Qed.

Lemma mappages_ok s pgdir l va pa sz perm :
  vm_wf s pgdir l -> 0 <= va -> 1 <= sz -> va + sz <= 4294963200 -> 0 <= perm < 4096 ->
  tables_needed s pgdir va (va + sz - 1) <= Z.of_nat (length l) ->
  (forall va', PGROUNDDOWN va <= va' < va + sz -> has (pt_entry s pgdir va') PTE_P = false) ->
  exists s' l', mappages s pgdir va pa sz perm = Ret (0, s') /\ extends s s' pgdir l l' /\
    Z.of_nat (length l) <= tables_needed s pgdir va (va + sz - 1) + Z.of_nat (length l') /\
    forall va', 0 <= va' < 4294967296 -> pt_entry s' pgdir va' =
      if decide (PGROUNDDOWN va <= va' < PGROUNDDOWN (va + sz - 1) + 4096)
      then page_entry (pa + 4096 * ((va' - PGROUNDDOWN va) / 4096)) perm
      else pt_entry s pgdir va'.
Proof.
  intros Hwf H0 Hsz Hlim Hperm Hneed Hnp.
  pose proof (PGROUNDDOWN_sub va) as Ev. pose proof (PGROUNDDOWN_sub (va + sz - 1)) as Ee.
  rewrite u32_small in Ev, Ee by lia.
  set (n := Z.to_nat ((PGROUNDDOWN (va + sz - 1) - PGROUNDDOWN va) / 4096 + 1)).
  assert (Hn : Z.of_nat n = (PGROUNDDOWN (va + sz - 1) - PGROUNDDOWN va) / 4096 + 1)
    by (unfold n; modlia).
  destruct (mappages_loop_ok n s pgdir (PGROUNDDOWN va) (PGROUNDDOWN (va + sz - 1)) pa perm l)
    as (s' & l' & E & Hex & Hl & Hent); try assumption.
  { modlia. } { modlia. } { modlia. } { modlia. }
  { right. unfold tables_needed in *. rewrite !PDX_down. exact Hneed. }
  { intros k Hk. apply Hnp. modlia. }
  exists s', l'. split; [exact E|]. split; [exact Hex|]. split.
  - destruct n; [modlia|]. unfold tables_needed in *. rewrite !PDX_down in Hl. exact Hl.
  - intros va' Hva'. rewrite Hent by exact Hva'.
    replace (PGROUNDDOWN va + 4096 * Z.of_nat n) with (PGROUNDDOWN (va + sz - 1) + 4096) by modlia.
    reflexivity.
Qed.

(** ** Giving a page back to the allocator from within an address space *)

Lemma vm_wf_kfree s pgdir l v :
  vm_wf s pgdir l -> page_ok s v -> ~ vm_page s pgdir l v ->
  exists s', kfree_page s v = Ret s' /\ vm_wf s' pgdir (v :: l) /\
    (forall va, pt_entry s' pgdir va = pt_entry s pgdir va) /\
    (forall i, 0 <= i < 1024 -> pde_at s' pgdir i = pde_at s pgdir i) /\
    agree_outside v (v + 4096) s.(ram) s'.(ram) /\
    s'.(memsz) = s.(memsz) /\ s'.(mem_start) = s.(mem_start).
Proof.
  intros Hwf Hv Hnv.
  assert (Hvl : v ∉ l) by (intros H; apply Hnv; right; by left).
  assert (Hvd : v <> pgdir) by (intros ->; apply Hnv; by left).
  destruct (kfree_page_ok s l v (vw_free _ _ _ Hwf) Hv Hvl) as (s' & E & Hf & Hag & Hm & Hst & _).
  destruct (vw_dir _ _ _ Hwf) as [Hdal _]. destruct Hv as [Hval _].
  assert (Hpde : forall i, 0 <= i < 1024 -> pde_at s' pgdir i = pde_at s pgdir i)
    by (intros i Hi; apply (slot_agree _ _ v); assumption).
  assert (Hok : forall q, page_ok s q -> page_ok s' q)
    by (intros q; unfold page_ok; rewrite Hm, Hst; done).
  exists s'. split; [exact E|]. split; [|split; [|by repeat split]].
  - constructor; [exact Hf|apply Hok, Hwf|apply not_elem_of_cons; split; [done|apply Hwf]| |].
    + intros i Hi. rewrite Hpde by exact Hi. intros Hh.
      destruct (vw_tab _ _ _ Hwf i Hi Hh) as (Ht & Hnl & Hnd).
      split; [auto|]. split; [|exact Hnd]. apply not_elem_of_cons. split; [|exact Hnl].
      intros Heq. apply Hnv. right. right. eauto.
    + intros i j Hi Hj. rewrite !Hpde by assumption. apply (vw_inj _ _ _ Hwf); assumption.
  - intros va. unfold pt_entry. rewrite Hpde by apply PDX_range.
    destruct (has (pde_at s pgdir (PDX va)) PTE_P) eqn:Hh; [|done].
    destruct (vw_tab _ _ _ Hwf _ (PDX_range va) Hh) as ((Htal & _) & _ & _).
    apply (slot_agree _ _ v); [assumption|assumption|assumption| |apply PTX_range].
    intros ->. apply Hnv. right. right. exists (PDX va). split; [apply PDX_range|done].
Qed.

(** ** The kernel's map *)

Lemma fresh_dir_wf s d l :
  free_wf s (d :: l) ->
  exists s1, kalloc_page s = (d, s1) /\
    vm_wf (set_ram s1 (memset s1.(ram) d 0 PGSIZE)) d l /\
    (forall i, 0 <= i < 1024 -> pde_at (set_ram s1 (memset s1.(ram) d 0 PGSIZE)) d i = 0) /\
    s1.(memsz) = s.(memsz) /\ s1.(mem_start) = s.(mem_start) /\ s1.(ram) = s.(ram).
Proof.
  intros Hf. destruct (kalloc_page_cons s d l Hf) as [E Hf1].
  eexists. split; [exact E|].
  assert (Hz : forall i, 0 <= i < 1024 ->
    pde_at (set_ram (set_free_list s (load32 (ram s) d))
      (memset (ram (set_free_list s (load32 (ram s) d))) d 0 PGSIZE)) d i = 0)
    by (intros i Hi; apply slot_zero, Hi).
  destruct Hf as [_ Hn Hp _]. apply NoDup_cons in Hn as [Hdl _].
  apply Forall_cons in Hp as [Hd _]. pose proof (fw_bytes _ _ Hf1).
  split; [|repeat split; assumption]. constructor.
  - apply (free_wf_agree _ _ _ d Hf1); [exact (memset_outside _ d 0 4096)|auto with chunix| |exact Hdl].
    apply Hd.
  - exact Hd.
  - exact Hdl.
  - intros i Hi. rewrite Hz by exact Hi. discriminate.
  - intros i j Hi Hj. rewrite Hz by exact Hi. discriminate.
Qed.

Lemma pt_entry_empty s pgdir va :
  (forall i, 0 <= i < 1024 -> pde_at s pgdir i = 0) -> pt_entry s pgdir va = 0.
Proof. intros H. unfold pt_entry. rewrite H by apply PDX_range. reflexivity. Qed.

Lemma tables_needed_le s pgdir va end_ :
  tables_needed s pgdir va end_ <= PDX end_ - PDX va + 1.
Proof. unfold tables_needed. destruct (has _ _); lia. Qed.

Lemma table_of_entry pa perm :
  0 <= perm < 4096 -> 0 <= pa < 4294967296 -> pa mod 4096 = 0 ->
  table_of (page_entry pa perm) = P2V pa.
Proof.
  intros Hp Hr Hal. unfold table_of.
  destruct (page_entry_facts pa perm Hp) as (_ & _ & _ & -> & _).
  rewrite PTE_ADDR_sub, u32_small by exact Hr. f_equal. lia.
Qed.

(** The entries of the kernel window after a page-aligned linear mapping. *)
Lemma window_entry start va perm :
  KERNBASE <= start -> start mod 4096 = 0 -> start <= va < 4294967296 -> 0 <= perm < 4096 ->
  table_of (page_entry (V2P start + 4096 * ((va - start) / 4096)) perm) + u32 va mod 4096 = va.
Proof.
  intros Hs Hal Hva Hp. unfold KERNBASE in *.
  assert (E : V2P start + 4096 * ((va - start) / 4096) = va - va mod 4096 - 2147483648).
  { unfold V2P, KERNBASE. rewrite u32_small by lia. modlia. }
  rewrite E, table_of_entry by modlia. rewrite (u32_small va) by lia.
  unfold P2V, KERNBASE. rewrite u32_small by modlia. lia.
Qed.

(** Mapping the part [a, b) of the window linearly. *)
Lemma window_map s d l a b perm :
  vm_wf s d l -> KERNBASE <= a -> a < b <= 4294963200 -> a mod 4096 = 0 -> 0 <= perm < 4096 ->
  (b - 1) / 4194304 - a / 4194304 + 1 <= Z.of_nat (length l) ->
  (forall va, a <= va < b -> has (pt_entry s d va) PTE_P = false) ->
  exists s' l', mappages s d a (V2P a) (b - a) perm = Ret (0, s') /\ extends s s' d l l' /\
    Z.of_nat (length l) <= (b - 1) / 4194304 - a / 4194304 + 1 + Z.of_nat (length l') /\
    forall va, 0 <= va < 4294967296 -> pt_entry s' d va =
      if decide (a <= va /\ va - va mod 4096 < b)
      then page_entry (V2P (va - va mod 4096)) perm else pt_entry s d va.
Proof.
  intros Hwf Ha Hb Hal Hp Hl Hnp. unfold KERNBASE in Ha.
  assert (Hda : PGROUNDDOWN a = a) by (rewrite PGROUNDDOWN_sub, u32_small by lia; lia).
  assert (Hdb : PGROUNDDOWN (b - 1) = b - 1 - (b - 1) mod 4096)
    by (rewrite PGROUNDDOWN_sub, u32_small by lia; lia).
  pose proof (tables_needed_le s d a (b - 1)) as Hn.
  rewrite !PDX_div, !u32_small in Hn by lia.
  destruct (mappages_ok s d l a (V2P a) (b - a) perm) as (s' & l' & E & Hex & Hl' & He);
    try (assumption || lia); replace (a + (b - a) - 1) with (b - 1) in * by lia.
  { lia. } { intros va Hva. apply Hnp. lia. }
  exists s', l'. split; [exact E|]. split; [exact Hex|]. split; [lia|].
  intros va Hva. rewrite He, Hda, Hdb by exact Hva.
  rewrite (decide_ext _ (a <= va /\ va - va mod 4096 < b)) by modlia.
  case_decide as D; [|done]. f_equal. unfold V2P, KERNBASE. rewrite !u32_small by modlia. modlia.
Qed.

(** The flags with which [mapkvm] maps the address [va]. *)
Definition kvm_perm (data va : Z) : Z :=
  if decide (KERNLINK <= va < data) then 0 else PTE_W.

(** The directory [d] that [mapkvm] builds from the state [s] with the pages [l]. *)
Record kvm_built (data : Z) (s : mm) (d : Z) (l : list Z) (s' : mm) (l' : list Z) : Prop := {
  kb_wf : vm_wf s' d l';
  kb_entry : forall va, 0 <= va < 4294967296 ->
    pt_entry s' d va =
      if decide (va < KERNBASE \/ KERNBASE + s.(memsz) * 1024 <= va - va mod 4096) then 0
      else page_entry (V2P (va - va mod 4096)) (kvm_perm data va);
  kb_free : exists used, l = used ++ l';
  kb_pages : forall q, vm_page s' d l' q -> q = d \/ q ∈ l;
  kb_keeps : forall q x, q mod 4096 = 0 -> q <> d -> q ∉ l -> q <= x < q + 4096 ->
    s'.(ram) x = s.(ram) x;
  kb_memsz : s'.(memsz) = s.(memsz);
  kb_start : s'.(mem_start) = s.(mem_start);
  kb_cost : Z.of_nat (length l) <= s.(memsz) * 1024 / 4194304 + 4 + Z.of_nat (length l')
}.

Section Mapkvm.
Context (data : Z) (s : mm) (d : Z) (l : list Z).
Context (Hf : free_wf s (d :: l)).
Context (Hdata : KERNLINK < data) (Hdal : data mod 4096 = 0).
Context (Hram : data - KERNBASE < s.(memsz) * 1024 <= 2147479552).
Context (Hl : s.(memsz) * 1024 / 4194304 + 4 <= Z.of_nat (length l)).

Lemma mapkvm_ok : exists s' l', mapkvm data s = Ret (d, s') /\ kvm_built data s d l s' l'.
Proof.
  set (P := s.(memsz) * 1024) in *. unfold KERNLINK, KERNBASE, EXTMEM in *.
  destruct (fresh_dir_wf s d l Hf) as (s1 & E1 & Hw1 & Hz & Hm1 & Hs1 & Hr1).
  assert (Hd0 : d <> 0) by (destruct Hf as [(_ & H & _) _ _ _]; exact H).
  unfold mapkvm. rewrite E1, decide_False by exact Hd0.
  set (s2 := set_ram s1 _) in *. change (s1.(memsz)) with (s2.(memsz)) in Hm1.
  assert (He2 : forall va, pt_entry s2 d va = 0) by (intros va; apply pt_entry_empty, Hz).
  destruct (window_map s2 d l KERNBASE KERNLINK PTE_W Hw1)
    as (s3 & l3 & E3 & Hex3 & Hl3 & He3); try (unfold KERNLINK, KERNBASE, EXTMEM, PTE_W; modlia).
  { intros va' _. rewrite He2. reflexivity. }
  change (V2P KERNBASE) with 0 in E3. change (KERNLINK - KERNBASE) with EXTMEM in E3.
  rewrite E3. cbn [mbind outcome_bind]. rewrite decide_False by lia.
  destruct (window_map s3 d l3 KERNLINK data 0)
    as (s4 & l4 & E4 & Hex4 & Hl4 & He4); try (unfold KERNLINK, KERNBASE, EXTMEM in *; modlia).
  { exact (ex_wf _ _ _ _ _ Hex3). }
  { intros va' Hva'. unfold KERNLINK, KERNBASE, EXTMEM in *.
    rewrite He3, decide_False, He2 by modlia. reflexivity. }
  rewrite E4. cbn [mbind outcome_bind]. rewrite decide_False by lia.
  assert (Hm4 : s4.(memsz) = s.(memsz))
    by (rewrite (ex_memsz _ _ _ _ _ Hex4), (ex_memsz _ _ _ _ _ Hex3); exact Hm1).
  assert (Hvp : V2P data = data - 2147483648) by (unfold V2P, KERNBASE; apply u32_small; lia).
  rewrite Hm4. fold P. rewrite (u32_small P), s32_small by (rewrite ?Hvp; lia).
  replace (P - V2P data) with (2147483648 + P - data) by lia.
  destruct (window_map s4 d l4 data (2147483648 + P) PTE_W)
    as (s5 & l5 & E5 & Hex5 & Hl5 & He5); try (unfold KERNLINK, KERNBASE, EXTMEM, PTE_W in *; modlia).
  { exact (ex_wf _ _ _ _ _ Hex4). }
  { intros va' Hva'. unfold KERNLINK, KERNBASE, EXTMEM in *.
    rewrite He4, decide_False, He3, decide_False, He2 by modlia. reflexivity. }
  rewrite E5. cbn [mbind outcome_bind]. rewrite decide_False by lia.
  exists s5, l5. split; [done|].
  pose proof (extends_trans _ _ _ _ _ _ _ (extends_trans _ _ _ _ _ _ _ Hex3 Hex4) Hex5) as Hex.
  assert (Hpg : forall q, vm_page s2 d l q -> q = d \/ q ∈ l).
  { intros q [H|[H|(i & Hi & Hh & _)]]; [by left|by right|]. rewrite Hz in Hh by exact Hi. discriminate. }
  constructor.
  - exact (ex_wf _ _ _ _ _ Hex5).
  - intros va Hva. rewrite He5, He4, He3, He2 by exact Hva.
    unfold kvm_perm, KERNLINK, KERNBASE, EXTMEM.
    repeat case_decide; done || (exfalso; modlia).
  - exact (ex_free _ _ _ _ _ Hex).
  - intros q Hq. apply Hpg, (ex_pages _ _ _ _ _ Hex), Hq.
  - intros q x Hq Hqd Hql Hx. rewrite (ex_keeps _ _ _ _ _ Hex q x Hq) by (lia || intros H; destruct (Hpg q H); done).
    unfold s2. simpl. rewrite <- Hr1. apply (memset_outside _ d 0 4096).
    change (u32 4096) with 4096. pose proof (page_disjoint q d Hq (proj1 (vw_dir _ _ _ Hw1)) Hqd). lia.
  - rewrite (ex_memsz _ _ _ _ _ Hex). exact Hm1.
  - rewrite (ex_start _ _ _ _ _ Hex). exact Hs1.
  - fold P. unfold KERNLINK, KERNBASE, EXTMEM in *. modlia.
Qed.

End Mapkvm.

(** The window of a directory built by [mapkvm]. *)
Lemma kvm_translate data s d l s' l' va :
  kvm_built data s d l s' l' -> KERNBASE <= va < 4294967296 ->
  va - va mod 4096 < KERNBASE + s.(memsz) * 1024 ->
  translate s' d va = va /\
  PTE_FLAGS (pt_entry s' d va) =
    if decide (KERNLINK <= va < data) then PTE_P else Z.lor PTE_W PTE_P.
Proof.
  intros Hk Hva Hlim. unfold KERNBASE in *.
  assert (Hperm : 0 <= kvm_perm data va < 4096)
    by (unfold kvm_perm, PTE_W; case_decide; lia).
  unfold translate. rewrite (kb_entry _ _ _ _ _ _ Hk), decide_False by (unfold KERNBASE; lia). split.
  - pose proof (window_entry (va - va mod 4096) va (kvm_perm data va)) as H.
    unfold KERNBASE in H.
    replace ((va - (va - va mod 4096)) / 4096) with 0 in H by modlia.
    rewrite Z.mul_0_r, Z.add_0_r in H. apply H; modlia || apply Hperm.
  - destruct (page_entry_facts (V2P (va - va mod 4096)) _ Hperm) as (_ & _ & _ & _ & ->).
    unfold kvm_perm, KERNLINK, KERNBASE, EXTMEM. case_decide; reflexivity.
Qed.

(** ** Writing to a page that is no page of the address space *)

Lemma free_chain_off m m' l : forall head,
  (forall p x, p ∈ l -> p <= x < p + 4096 -> m' x = m x) -> free_chain m head l -> free_chain m' head l.
Proof.
  induction l as [|p l IH]; intros head Hag; [done|]. intros (-> & Hp0 & Hc). split; [done|]. split; [done|].
  rewrite (load32_ext m m' p) by (intros x Hx; apply (Hag p); [left|lia]).
  apply IH; [|exact Hc]. intros q x Hq. apply Hag. by right.
Qed.

Lemma vm_wf_off s pgdir l m' :
  vm_wf s pgdir l -> (forall q x, vm_page s pgdir l q -> q <= x < q + 4096 -> m' x = s.(ram) x) -> bytes_ok m' ->
  vm_wf (set_ram s m') pgdir l /\
  (forall i, 0 <= i < 1024 -> pde_at (set_ram s m') pgdir i = pde_at s pgdir i) /\
  (forall va, pt_entry (set_ram s m') pgdir va = pt_entry s pgdir va).
Proof.
  intros Hwf Hag Hok.
  assert (Hslot : forall q i, vm_page s pgdir l q -> 0 <= i < 1024 -> load32 m' (q + 4 * i) = load32 s.(ram) (q + 4 * i)).
  { intros q i Hq Hi. apply load32_ext. intros x Hx. apply (Hag q); [exact Hq|lia]. }
  assert (Hpde : forall i, 0 <= i < 1024 -> pde_at (set_ram s m') pgdir i = pde_at s pgdir i)
    by (intros i Hi; apply Hslot; [by left|exact Hi]).
  split; [|split; [exact Hpde|]].
  - constructor; try apply Hwf.
    + destruct (vw_free _ _ _ Hwf) as [Hc Hn Hp _]. constructor; [|exact Hn|exact Hp|exact Hok].
      apply (free_chain_off s.(ram)); [|exact Hc]. intros q x Hq. apply Hag. right. by left.
    + intros i Hi. rewrite Hpde by exact Hi. exact (vw_tab _ _ _ Hwf i Hi).
    + intros i j Hi Hj. rewrite !Hpde by assumption. apply (vw_inj _ _ _ Hwf); assumption.
  - intros va. unfold pt_entry. rewrite Hpde by apply PDX_range.
    destruct (has (pde_at s pgdir (PDX va)) PTE_P) eqn:Hh; [|done].
    apply Hslot; [|apply PTX_range]. right. right. exists (PDX va). split; [apply PDX_range|done].
Qed.

Lemma vm_wf_agree s pgdir l m' q :
  vm_wf s pgdir l -> q mod 4096 = 0 -> ~ vm_page s pgdir l q ->
  agree_outside q (q + 4096) s.(ram) m' -> bytes_ok m' ->
  vm_wf (set_ram s m') pgdir l /\
  (forall i, 0 <= i < 1024 -> pde_at (set_ram s m') pgdir i = pde_at s pgdir i) /\
  (forall va, pt_entry (set_ram s m') pgdir va = pt_entry s pgdir va).
Proof.
  intros Hwf Hq Hnv Hag. apply vm_wf_off; [exact Hwf|]. intros p x Hp Hx. apply Hag.
  assert (Hal : p mod 4096 = 0).
  { destruct Hp as [->|[Hp|(i & Hi & Hh & ->)]]; [apply Hwf| |apply (vw_tab _ _ _ Hwf i Hi Hh)].
    exact (proj1 (proj1 (Forall_forall _ _) (fw_pages _ _ (vw_free _ _ _ Hwf)) p Hp)). }
  pose proof (page_disjoint q p Hq Hal ltac:(congruence)). lia.
Qed.

(** ** Copies to user memory *)

Lemma has_entry_pde s pgdir va :
  has (pt_entry s pgdir va) PTE_P = true -> has (pde_at s pgdir (PDX va)) PTE_P = true.
Proof. unfold pt_entry. destruct (has (pde_at s pgdir (PDX va)) PTE_P); done. Qed.

Lemma load_slot s pgdir va :
  has (pde_at s pgdir (PDX va)) PTE_P = true ->
  load32 s.(ram) (slot s pgdir va) = pt_entry s pgdir va.
Proof. intros H. unfold pt_entry, slot. rewrite H. reflexivity. Qed.

Lemma uva2ka_ok s pgdir l va :
  vm_wf s pgdir l -> has (pt_entry s pgdir va) PTE_P = true ->
  has (pt_entry s pgdir va) PTE_U = true ->
  uva2ka s pgdir va = Ret (table_of (pt_entry s pgdir va)).
Proof.
  intros Hwf HP HU. pose proof (has_entry_pde _ _ _ HP) as Hh.
  unfold uva2ka. rewrite walk_present by exact Hh. fold (slot s pgdir va).
  rewrite decide_False by (eapply slot_nonzero; eassumption).
  rewrite load_slot, HP, HU by exact Hh. reflexivity.
Qed.

(** The user range [va, va + len) is present, open to user mode and backed by
    distinct frames that are neither pages of the tables nor free nor part of
    the source of the copy. *)
Record user_range (s : mm) (pgdir : Z) (l : list Z) (va src len : Z) : Prop := {
  ur_present : forall i, 0 <= i < len -> has (pt_entry s pgdir (va + i)) PTE_P = true;
  ur_user : forall i, 0 <= i < len -> has (pt_entry s pgdir (va + i)) PTE_U = true;
  ur_frame : forall i, 0 <= i < len -> table_of (pt_entry s pgdir (va + i)) <> 0;
  ur_data : forall i, 0 <= i < len -> ~ vm_page s pgdir l (table_of (pt_entry s pgdir (va + i)));
  ur_inj : forall i j, 0 <= i < len -> 0 <= j < len ->
    table_of (pt_entry s pgdir (va + i)) = table_of (pt_entry s pgdir (va + j)) ->
    same_page (va + i) (va + j);
  ur_src : forall i j, 0 <= i < len -> 0 <= j < len ->
    ~ (table_of (pt_entry s pgdir (va + i)) <= src + j <
       table_of (pt_entry s pgdir (va + i)) + 4096)
}.

Lemma pt_entry_page s pgdir va va' :
  same_page va va' -> pt_entry s pgdir va = pt_entry s pgdir va'.
Proof. intros E. apply same_page_slots in E as [E1 E2]. unfold pt_entry. rewrite E1, E2. done. Qed.

Lemma table_of_aligned e : table_of e mod 4096 = 0.
Proof. apply P2V_aligned, PTE_ADDR_aligned. Qed.

(** The range that is left after the first [n] bytes, in a state with the same entries. *)
Lemma user_range_rest s s1 pgdir l va src len n :
  user_range s pgdir l va src len -> 0 <= n ->
  (forall va', pt_entry s1 pgdir va' = pt_entry s pgdir va') ->
  (forall i, 0 <= i < 1024 -> pde_at s1 pgdir i = pde_at s pgdir i) ->
  user_range s1 pgdir l (va + n) (src + n) (len - n).
Proof.
  intros [H1 H2 H3 H4 H5 H6] Hn He Hp.
  constructor; intros i; rewrite <- Z.add_assoc.
  - intros Hi. rewrite He. apply H1. lia.
  - intros Hi. rewrite He. apply H2. lia.
  - intros Hi. rewrite He. apply H3. lia.
  - intros Hi Hv. rewrite He in Hv. apply (H4 (n + i) ltac:(lia)).
    destruct Hv as [Hv|[Hv|(k & Hk & Hh & Hv)]]; [by left|by right; left|].
    rewrite Hp in Hh, Hv by exact Hk. right. right. eauto.
  - intros j Hi Hj. rewrite <- Z.add_assoc, !He. apply H5; lia.
  - intros j Hi Hj. rewrite <- Z.add_assoc, He. apply H6; lia.
Qed.

Lemma translate_split s pgdir va i :
  0 <= va -> va + i < 4294967296 -> 0 <= i -> va mod 4096 + i < 4096 ->
  translate s pgdir (va + i) = table_of (pt_entry s pgdir va) + va mod 4096 + i.
Proof.
  intros H0 H1 Hi H2. unfold translate.
  rewrite (pt_entry_page s pgdir (va + i) va).
  - rewrite u32_small by lia. modlia.
  - unfold same_page. rewrite !u32_small by lia. modlia.
Qed.

Lemma copyout_loop_done fuel s pgdir va src :
  copyout_loop fuel s pgdir va src 0 = Ret (0, s).
Proof. destruct fuel; reflexivity. Qed.

(** The copy of the part of the range that lies in its first page. *)
Lemma copyout_chunk s pgdir l va src len n :
  vm_wf s pgdir l -> user_range s pgdir l va src len ->
  0 <= va -> va + len <= 4294963200 -> 0 < n <= len -> va mod 4096 + n <= 4096 ->
  let s1 := set_ram s (memmove s.(ram)
              (table_of (pt_entry s pgdir va) + va mod 4096) src n) in
  vm_wf s1 pgdir l /\
  (forall i, 0 <= i < 1024 -> pde_at s1 pgdir i = pde_at s pgdir i) /\
  (forall va', pt_entry s1 pgdir va' = pt_entry s pgdir va') /\
  (forall i, 0 <= i < n -> s1.(ram) (translate s pgdir (va + i)) = s.(ram) (src + i)) /\
  (forall x, (forall i, 0 <= i < n -> x <> translate s pgdir (va + i)) -> s1.(ram) x = s.(ram) x).
Proof.
  intros Hwf Hur H0 Hlim Hn Hpage. set (q := table_of (pt_entry s pgdir va)).
  pose proof (fw_bytes _ _ (vw_free _ _ _ Hwf)) as Hb. intros s1.
  assert (Hag : agree_outside q (q + 4096) s.(ram) (ram s1)).
  { eapply agree_outside_weaken; [| |apply memmove_outside; [exact Hb|]]; modlia. }
  assert (Hnv : ~ vm_page s pgdir l q).
  { pose proof (ur_data _ _ _ _ _ _ Hur 0 ltac:(lia)) as H. rewrite Z.add_0_r in H. exact H. }
  destruct (vm_wf_agree s pgdir l (ram s1) q Hwf (table_of_aligned _) Hnv Hag) as (Hw1 & Hp1 & He1).
  { simpl. auto with chunix. }
  split; [exact Hw1|]. split; [exact Hp1|]. split; [exact He1|].
  assert (Htr : forall i, 0 <= i < n -> translate s pgdir (va + i) = q + va mod 4096 + i)
    by (intros i Hi; apply translate_split; lia).
  split.
  - intros i Hi. rewrite Htr by exact Hi. simpl. rewrite memmove_byte by (assumption || lia).
    rewrite decide_True by lia. f_equal. lia.
  - intros x Hx. simpl. rewrite memmove_byte by (assumption || lia).
    rewrite decide_False; [done|]. intros Hin.
    apply (Hx (x - (q + va mod 4096)) ltac:(lia)). rewrite Htr by lia. lia.
Qed.

Lemma translate_page_other s pgdir l va src len i j :
  user_range s pgdir l va src len -> 0 <= va -> va + len <= 4294963200 ->
  0 <= i < len -> 0 <= j < len -> ~ same_page (va + i) (va + j) ->
  translate s pgdir (va + i) <> translate s pgdir (va + j).
Proof.
  intros Hur H0 Hlim Hi Hj Hne Heq. unfold translate in Heq.
  apply Hne, (ur_inj _ _ _ _ _ _ Hur i j Hi Hj).
  pose proof (table_of_aligned (pt_entry s pgdir (va + i))).
  pose proof (table_of_aligned (pt_entry s pgdir (va + j))). modlia.
Qed.

(** One turn of the loop: the bytes up to the end of the page are moved. *)
Lemma copyout_step f s pgdir l va src len :
  vm_wf s pgdir l -> user_range s pgdir l va src len ->
  0 <= va -> 0 < len -> va + len <= 4294963200 ->
  let n := if decide (PGSIZE - va mod 4096 > len) then len else PGSIZE - va mod 4096 in
  copyout_loop (S f) s pgdir va src len =
  copyout_loop f
    (set_ram s (memmove s.(ram) (table_of (pt_entry s pgdir va) + va mod 4096) src n))
    pgdir (u32 (va - va mod 4096 + PGSIZE)) (src + n) (len - n).
Proof.
  intros Hwf Hur H0 Hlen Hlim n.
  cbn [copyout_loop]. rewrite decide_True by lia.
  rewrite PGROUNDDOWN_sub, u32_small by lia.
  assert (Hsp : same_page (va - va mod 4096) va)
    by (unfold same_page; rewrite !u32_small by modlia; modlia).
  pose proof (ur_present _ _ _ _ _ _ Hur 0 ltac:(lia)) as HP.
  pose proof (ur_user _ _ _ _ _ _ Hur 0 ltac:(lia)) as HU.
  pose proof (ur_frame _ _ _ _ _ _ Hur 0 ltac:(lia)) as HF.
  rewrite Z.add_0_r in HP, HU, HF. rewrite <- (pt_entry_page _ _ _ _ Hsp) in HP, HU, HF.
  rewrite (uva2ka_ok _ _ _ _ Hwf HP HU), bind_Ret, decide_False by exact HF.
  rewrite (pt_entry_page _ _ _ _ Hsp).
  replace (va - (va - va mod 4096)) with (va mod 4096) by lia. reflexivity.
Qed.

Lemma copyout_loop_ok fuel : forall s pgdir l va src len,
  vm_wf s pgdir l -> user_range s pgdir l va src len ->
  0 <= va -> 0 <= len -> va + len <= 4294963200 ->
  va mod 4096 + len <= 4096 * Z.of_nat fuel ->
  exists s', copyout_loop fuel s pgdir va src len = Ret (0, s') /\
    (forall va', pt_entry s' pgdir va' = pt_entry s pgdir va') /\
    (forall i, 0 <= i < len -> s'.(ram) (translate s pgdir (va + i)) = s.(ram) (src + i)) /\
    (forall x, (forall i, 0 <= i < len -> x <> translate s pgdir (va + i)) ->
       s'.(ram) x = s.(ram) x).
Proof.
  induction fuel as [|f IH]; intros s pgdir l va src len Hwf Hur H0 Hlen Hlim Hfuel.
  { assert (len = 0) as -> by modlia. exists s. rewrite copyout_loop_done.
    repeat split; intros; done || lia. }
  destruct (decide (len = 0)) as [->|Hnz].
  { exists s. rewrite copyout_loop_done. repeat split; intros; done || lia. }
  set (n := if decide (PGSIZE - va mod 4096 > len) then len else PGSIZE - va mod 4096).
  assert (Hn : 0 < n <= len /\ va mod 4096 + n <= 4096 /\ (n = len \/ va mod 4096 + n = 4096))
    by (unfold n, PGSIZE; case_decide; modlia).
  destruct Hn as (Hn & Hnp & Hnc).
  destruct (copyout_chunk s pgdir l va src len n Hwf Hur H0 Hlim Hn Hnp)
    as (Hw1 & Hp1 & He1 & Hc1 & Ho1).
  set (s1 := set_ram s _) in *.
  rewrite (copyout_step f s pgdir l va src len Hwf Hur H0) by lia. fold n s1.
  destruct Hnc as [Hnl|Hnl].
  { replace (len - n) with 0 by lia. rewrite copyout_loop_done. exists s1.
    rewrite <- Hnl. done. }
  replace (u32 (va - va mod 4096 + PGSIZE)) with (va + n)
    by (unfold PGSIZE; rewrite u32_small; modlia).
  destruct (IH s1 pgdir l (va + n) (src + n) (len - n) Hw1) as (s' & E & He & Hc & Ho).
  { eapply user_range_rest; eauto; lia. } { lia. } { lia. } { lia. } { modlia. }
  exists s'. split; [exact E|]. split; [intros va'; rewrite He; apply He1|].
  assert (Ht1 : forall va', translate s1 pgdir va' = translate s pgdir va')
    by (intros va'; unfold translate; rewrite He1; done).
  split.
  - intros i Hi. destruct (decide (i < n)) as [Hin|Hin].
    + rewrite Ho, Hc1 by (lia || (intros j Hj; rewrite Ht1, <- Z.add_assoc;
        eapply translate_page_other; [exact Hur|lia|lia|lia|lia|];
        unfold same_page; rewrite !u32_small by lia; modlia)). done.
    + specialize (Hc (i - n) ltac:(lia)). rewrite Ht1 in Hc.
      replace (va + n + (i - n)) with (va + i) in Hc by lia.
      replace (src + n + (i - n)) with (src + i) in Hc by lia. rewrite Hc.
      apply Ho1. intros j Hj Heq. apply (ur_src _ _ _ _ _ _ Hur j i ltac:(lia) Hi).
      unfold translate in Heq. modlia.
  - intros x Hx. rewrite Ho, Ho1; [done| |].
    + intros i Hi. apply Hx. lia.
    + intros i Hi. rewrite Ht1, <- Z.add_assoc. apply Hx. lia.
Qed.

(** ** Unmapping *)

Lemma unmap_page_ok s pgdir l va :
  let f := table_of (pt_entry s pgdir va) in
  vm_wf s pgdir l -> has (pt_entry s pgdir va) PTE_P = true -> page_ok s f -> ~ vm_page s pgdir l f ->
  exists s', unmap_page s pgdir va = Ret s' /\ vm_wf s' pgdir (f :: l) /\
    (forall va', pt_entry s' pgdir va' = if decide (same_page va va') then 0 else pt_entry s pgdir va') /\
    (forall i, 0 <= i < 1024 -> pde_at s' pgdir i = pde_at s pgdir i) /\
    (forall q x, q mod 4096 = 0 -> ~ vm_page s pgdir l q -> q <> f -> q <= x < q + 4096 ->
       s'.(ram) x = s.(ram) x) /\
    s'.(memsz) = s.(memsz) /\ s'.(mem_start) = s.(mem_start).
Proof.
  intros f Hwf Hp Hok Hnv. pose proof (has_entry_pde _ _ _ Hp) as Hh.
  assert (H0 : 0 <= 0 < 4294967296) by lia.
  pose proof (store_entry_extends s pgdir va 0 l Hwf Hh H0) as Hex.
  destruct (vm_wf_kfree _ pgdir l f (ex_wf _ _ _ _ _ Hex)) as (s' & E & Hw & He & Hpd & Hag & Hm & Hs).
  - exact Hok.
  - intros Hv. apply Hnv. exact (ex_pages _ _ _ _ _ Hex _ Hv).
  - exists s'. split; [|split; [exact Hw|split; [|split; [|split; [|by split]]]]].
    + unfold unmap_page. rewrite walk_present by exact Hh. fold (slot s pgdir va).
      rewrite decide_False by (eapply slot_nonzero; eassumption).
      rewrite load_slot, Hp, V2P_P2V_eq by exact Hh. exact E.
    + intros va'. rewrite He. apply (store_entry_entry s pgdir va 0 l Hwf Hh H0).
    + intros i Hi. rewrite Hpd by exact Hi. apply (store_entry_pde s pgdir va 0 l Hwf Hh H0 i Hi).
    + intros q x Hq Hqv Hqf Hx. pose proof (page_disjoint q f Hq (proj1 Hok) Hqf).
      rewrite Hag by lia. apply (ex_keeps _ _ _ _ _ Hex q x Hq Hqv Hx).
Qed.

(** A machine with one empty page directory at [sample_dir] and [n] free pages. *)
Definition sample_dir (n : nat) : Z := fst (kalloc_page (sample_mm (S n))).

Definition sample_vm (n : nat) : mm :=
  let s := snd (kalloc_page (sample_mm (S n))) in
  set_ram s (memset s.(ram) (sample_dir n) 0 PGSIZE).

Lemma sample_vm_wf n :
  (n < 64)%nat ->
  exists l, length l = n /\ vm_wf (sample_vm n) (sample_dir n) l /\
    (forall i, 0 <= i < 1024 -> pde_at (sample_vm n) (sample_dir n) i = 0) /\
    (forall q, vm_page (sample_vm n) (sample_dir n) l q -> q < 2149842944).
Proof.
  intros Hn. destruct (sample_mm_wf (S n) ltac:(lia)) as [Hwf _].
  assert (Hlt : forall q, q ∈ rev (page_seq 2149580800 (S n)) -> q < 2149842944).
  { intros q Hq. rewrite list_elem_of_In, <- in_rev, <- list_elem_of_In, elem_page_seq in Hq.
    destruct Hq as (i & Hi & ->). lia. }
  assert (Hlen : length (rev (page_seq 2149580800 (S n))) = S n)
    by (rewrite length_rev; apply page_seq_length).
  destruct (rev (page_seq 2149580800 (S n))) as [|d l]; [discriminate|].
  injection Hlen as Hlen. destruct (fresh_dir_wf _ d l Hwf) as (s1 & E & Hw & Hz & _).
  exists l. unfold sample_vm, sample_dir. rewrite E. cbn [fst snd].
  split; [done|]. split; [done|]. split; [done|].
  intros q [->|[Hq|(i & Hi & Hh & _)]]; [apply Hlt; left|apply Hlt; by right|].
  rewrite Hz in Hh by exact Hi. discriminate.
Qed.

(** ** Properties *)

(** C26. [mappages] maps the virtual range [va, va + sz) linearly to the
    physical pages from [pa] with the given flags, leaves every other
    translation as it was, and takes from the free list only the table pages
    it needs; everything else keeps its bytes. *)
Theorem mappages_maps (s : mm) (pgdir : Z) (l : list Z) (va pa sz perm : Z)
  (Hwf : vm_wf s pgdir l) (Hva : 0 <= va) (Hsz : 1 <= sz) (Hlim : va + sz <= 4294963200)
  (Hpa : 0 <= pa) (Hpl : PTE_ADDR pa + va mod 4096 + sz <= 2147483648)
  (Hpr : pa < 4294967296) (Hperm : 0 <= perm < 4096)
  (Hneed : tables_needed s pgdir va (va + sz - 1) <= Z.of_nat (length l))
  (Hnp : forall va', PGROUNDDOWN va <= va' < va + sz ->
           has (pt_entry s pgdir va') PTE_P = false) :
  exists s' l', mappages s pgdir va pa sz perm = Ret (0, s') /\ extends s s' pgdir l l' /\
    (forall i, 0 <= i < sz ->
       has (pt_entry s' pgdir (va + i)) PTE_P = true /\
       PTE_FLAGS (pt_entry s' pgdir (va + i)) = Z.lor perm PTE_P /\
       translate s' pgdir (va + i) = P2V (PTE_ADDR pa) + va mod 4096 + i) /\
    (forall va', 0 <= va' < 4294967296 ->
       ~ (PGROUNDDOWN va <= va' < PGROUNDDOWN (va + sz - 1) + 4096) ->
       pt_entry s' pgdir va' = pt_entry s pgdir va').
Proof.
  destruct (mappages_ok s pgdir l va pa sz perm) as (s' & l' & E & Hex & _ & He);
    try assumption.
  exists s', l'. split; [exact E|]. split; [exact Hex|]. split.
  - intros i Hi. rewrite PGROUNDDOWN_sub, u32_small in He by lia.
    rewrite PGROUNDDOWN_sub, u32_small in He by lia.
    assert (Hent : pt_entry s' pgdir (va + i) =
              page_entry (PTE_ADDR pa + 4096 * ((va mod 4096 + i) / 4096)) perm).
    { rewrite He, decide_True by modlia. unfold page_entry. do 2 f_equal.
      rewrite !PTE_ADDR_sub, (u32_small pa) in * by lia. rewrite !u32_small by modlia. modlia. }
    unfold translate. rewrite Hent.
    pose proof (PTE_ADDR_range pa). pose proof (PTE_ADDR_aligned pa).
    destruct (page_entry_facts (PTE_ADDR pa + 4096 * ((va mod 4096 + i) / 4096)) perm Hperm)
      as (_ & _ & Hp & _ & Hfl).
    split; [exact Hp|]. split; [exact Hfl|].
    rewrite table_of_entry, u32_small by modlia.
    unfold P2V, KERNBASE. rewrite !u32_small by modlia. modlia.
  - intros va' Hva' Hout. rewrite He, decide_False by assumption. done.
Qed.

Lemma mappages_maps_witness :
  exists s' l l', mappages (sample_vm 4) (sample_dir 4) 3489660928 5242880 4096 3 = Ret (0, s') /\
    extends (sample_vm 4) s' (sample_dir 4) l l' /\
    (forall i, 0 <= i < 4096 ->
       has (pt_entry s' (sample_dir 4) (3489660928 + i)) PTE_P = true /\
       PTE_FLAGS (pt_entry s' (sample_dir 4) (3489660928 + i)) = Z.lor 3 PTE_P /\
       translate s' (sample_dir 4) (3489660928 + i) = P2V (PTE_ADDR 5242880) + 3489660928 mod 4096 + i) /\
    (forall va', 0 <= va' < 4294967296 ->
       ~ (PGROUNDDOWN 3489660928 <= va' < PGROUNDDOWN (3489660928 + 4096 - 1) + 4096) ->
       pt_entry s' (sample_dir 4) va' = pt_entry (sample_vm 4) (sample_dir 4) va').
Proof.
  destruct (sample_vm_wf 4 ltac:(lia)) as (l & Hlen & Hwf & Hz & _).
  destruct (mappages_maps (sample_vm 4) (sample_dir 4) l 3489660928 5242880 4096 3 Hwf)
    as (s' & l' & H); try lia.
  - vm_compute. discriminate.
  - eapply Z.le_trans; [apply tables_needed_le|]. rewrite Hlen. vm_compute. discriminate.
  - intros va' _. rewrite (pt_entry_empty _ _ _ Hz). reflexivity.
  - exists s', l, l'. exact H.
Defined.

(** C27. On a machine with enough pages [mapkvm] builds the kernel's map: every
    byte of physical memory is found at its address in the window at
    [KERNBASE], kernel text is read-only and all the rest writable, no page is
    open to user mode, and the user half of the space is empty. *)
Theorem mapkvm_window (data : Z) (s : mm) (d : Z) (l : list Z)
  (Hf : free_wf s (d :: l)) (Hdata : KERNLINK < data) (Hdal : data mod 4096 = 0)
  (Hram : data - KERNBASE < s.(memsz) * 1024 <= 2147479552)
  (Hl : s.(memsz) * 1024 / 4194304 + 4 <= Z.of_nat (length l)) :
  exists s' l', mapkvm data s = Ret (d, s') /\ vm_wf s' d l' /\
    (forall va, KERNBASE <= va < KERNBASE + s.(memsz) * 1024 ->
       translate s' d va = va /\
       PTE_FLAGS (pt_entry s' d va) =
         if decide (KERNLINK <= va < data) then PTE_P else Z.lor PTE_W PTE_P) /\
    (forall va, 0 <= va < KERNBASE -> pt_entry s' d va = 0).
Proof.
  destruct (mapkvm_ok data s d l Hf Hdata Hdal Hram Hl) as (s' & l' & E & Hk).
  exists s', l'. split; [exact E|]. split; [apply Hk|]. split.
  - intros va Hva. apply (kvm_translate _ _ _ _ _ _ va Hk); unfold KERNBASE in *; modlia.
  - intros va Hva. rewrite (kb_entry _ _ _ _ _ _ Hk), decide_True by (unfold KERNBASE in *; lia). reflexivity.
Qed.

Lemma mapkvm_window_witness :
  exists s' l', mapkvm 2149580800 (sample_mm 10) = Ret (2149617664, s') /\
    vm_wf s' 2149617664 l' /\
    (forall va, KERNBASE <= va < KERNBASE + (sample_mm 10).(memsz) * 1024 ->
       translate s' 2149617664 va = va /\
       PTE_FLAGS (pt_entry s' 2149617664 va) =
         if decide (KERNLINK <= va < 2149580800) then PTE_P else Z.lor PTE_W PTE_P) /\
    (forall va, 0 <= va < KERNBASE -> pt_entry s' 2149617664 va = 0).
Proof.
  destruct (sample_mm_wf 10 ltac:(lia)) as (Hwf & Hm & _).
  apply (mapkvm_window 2149580800 (sample_mm 10) 2149617664 _ Hwf);
    [vm_compute; reflexivity | reflexivity | rewrite Hm; vm_compute; split; [reflexivity|discriminate]
    | rewrite Hm; vm_compute; discriminate].
Defined.

(** [unmap_page] of a present page clears exactly its entry and gives its
    frame back to the allocator. *)
Lemma unmap_page_frees (s : mm) (pgdir : Z) (l : list Z) (va : Z)
  (Hwf : vm_wf s pgdir l) (Hp : has (pt_entry s pgdir va) PTE_P = true)
  (Hok : page_ok s (table_of (pt_entry s pgdir va)))
  (Hnv : ~ vm_page s pgdir l (table_of (pt_entry s pgdir va))) :
  exists s', unmap_page s pgdir va = Ret s' /\
    vm_wf s' pgdir (table_of (pt_entry s pgdir va) :: l) /\
    forall va', pt_entry s' pgdir va' =
      if decide (same_page va va') then 0 else pt_entry s pgdir va'.
Proof.
  destruct (unmap_page_ok s pgdir l va Hwf Hp Hok Hnv) as (s' & E & Hw & He & _).
  exists s'. exact (conj E (conj Hw He)).
Qed.


(** [copyout] to a user range that is present, open to user mode and
    backed by distinct frames succeeds: each byte is found where the page
    table puts it, and no other byte of memory changes. *)
Lemma copyout_copies (s : mm) (pgdir : Z) (l : list Z) (va src len : Z)
  (Hwf : vm_wf s pgdir l) (Hur : user_range s pgdir l va src len)
  (Hva : 0 <= va) (Hlen : 0 <= len) (Hlim : va + len <= 4294963200) :
  exists s', copyout s pgdir va src len = Ret (0, s') /\
    (forall va', pt_entry s' pgdir va' = pt_entry s pgdir va') /\
    (forall i, 0 <= i < len -> s'.(ram) (translate s pgdir (va + i)) = s.(ram) (src + i)) /\
    (forall x, (forall i, 0 <= i < len -> x <> translate s pgdir (va + i)) ->
       s'.(ram) x = s.(ram) x).
Proof. apply (copyout_loop_ok _ s pgdir l va src len); try assumption. unfold PGSIZE. modlia. Qed.


(** The error paths of the page-table operations: a second mapping of a
    present page and unmapping an absent one panic; [mappages] reports -1 and
    changes nothing when no page is left for a table; and [uva2ka], hence
    [copyout], dereferences a null entry pointer when the table of the address
    does not exist instead of reporting an error. *)
Lemma vm_error_paths (s : mm) (pgdir : Z) (l : list Z) (va pa sz perm : Z)
  (Hwf : vm_wf s pgdir l) (Hva : 0 <= va) (Hsz : 1 <= sz) (Hlim : va + sz <= 4294963200) :
  (has (pt_entry s pgdir va) PTE_P = true ->
     mappages s pgdir va pa sz perm = Stop (Panic "mappages: re-map")) /\
  (has (pde_at s pgdir (PDX va)) PTE_P = false ->
     unmap_page s pgdir va = Stop (Panic "unmap_page: not mapped") /\
     uva2ka s pgdir va = Stop (Fault "uva2ka: null pte") /\
     (l = [] -> mappages s pgdir va pa sz perm = Ret (-1, s))).
Proof.
  assert (Hloop : exists n, mappages s pgdir va pa sz perm =
    mappages_loop (S n) s pgdir (PGROUNDDOWN va) (PGROUNDDOWN (va + sz - 1)) pa perm /\
    PGROUNDDOWN va <= PGROUNDDOWN (va + sz - 1)).
  { unfold mappages. rewrite !PGROUNDDOWN_sub, !u32_small by lia. unfold PGSIZE.
    eexists. split; [|modlia]. f_equal.
    rewrite <- (Nat.succ_pred (Z.to_nat _)); [reflexivity|modlia]. }
  destruct Hloop as (n & Em & Hle). rewrite Em. cbn [mappages_loop]. rewrite decide_True by exact Hle.
  assert (Hsp : same_page (PGROUNDDOWN va) va).
  { unfold same_page. rewrite PGROUNDDOWN_sub, !(u32_small va), u32_small by modlia. modlia. }
  split.
  - intros Hp. rewrite <- (pt_entry_page _ _ _ _ Hsp) in Hp. pose proof (has_entry_pde _ _ _ Hp) as Hh.
    rewrite walk_present by exact Hh. fold (slot s pgdir (PGROUNDDOWN va)).
    rewrite decide_False by (eapply slot_nonzero; eassumption).
    rewrite load_slot, Hp by exact Hh. reflexivity.
  - intros Hh. unfold unmap_page, uva2ka. rewrite walk_absent_noalloc by exact Hh.
    split; [reflexivity|]. split; [reflexivity|]. intros ->.
    rewrite walk_absent_oom; [reflexivity|rewrite PDX_down; exact Hh|apply Hwf].
Qed.

