(* ===== verification/Ring.v ===== *)
(** * Circular doubly linked lists

    Pointer fields of an array of nodes are kept as functions from the node's
    index, one per field.  [linked nx pv x l y] says that following [nx] from
    [x] visits the nodes of [l] and arrives at [y], and that [pv] leads back;
    a ring with head [h] is [linked nx pv h l h].  The lemmas give the effect
    of the pointer updates that unlink a node and that insert it behind the
    head.  [queue_is] is the singly linked counterpart. *)

From stdpp Require Import base list.
From Stdlib Require Import Lia.
From S2P Require Import Prelude.

(** Membership in concatenations of lists, by propositional reasoning. *)
Ltac elem_solve :=
  intros;
  repeat first
    [ match goal with
      | H : NoDup (_ :: _) |- _ => apply NoDup_cons in H as [? H]
      | H : context [_ ∈ _ ++ _] |- _ => rewrite elem_of_app in H
      | H : context [_ ∈ _ :: _] |- _ => rewrite elem_of_cons in H
      | H : context [_ ∈ []] |- _ => rewrite elem_of_nil in H
      end
    | rewrite elem_of_app | rewrite elem_of_cons | rewrite elem_of_nil ];
  intuition (subst; first [congruence | tauto]).

(** Assignment to one element of a field. *)
Definition upd {A : Type} (f : nat -> A) (i : nat) (v : A) : nat -> A :=
  fun x => if decide (x = i) then v else f x.

(** [for(x = head->f; x != head; x = x->f) if(p(x)) return x;] following the
    field [f] of the nodes, with at most [fuel] tests of the condition. *)
Fixpoint walk (fuel : nat) (f : nat -> nat) (h : nat) (p : nat -> bool) (x : nat) :
    outcome (option nat) :=
  match fuel with
  | O => Stop Fuel
  | S k =>
      if decide (x = h) then Ret None
      else if p x then Ret (Some x)
      else walk k f h p (f x)
  end.

Fixpoint linked (nx pv : nat -> nat) (x : nat) (l : list nat) (y : nat) : Prop :=
  match l with
  | [] => nx x = y /\ pv y = x
  | a :: l' => nx x = a /\ pv a = x /\ linked nx pv a l' y
  end.

Definition ring (nx pv : nat -> nat) (h : nat) (l : list nat) : Prop :=
  linked nx pv h l h /\ NoDup (h :: l).

(** A singly linked list: [q] leads through [nx] over the nodes of [l] to the
    null pointer. *)
Fixpoint queue_is (nx : nat -> option nat) (q : option nat) (l : list nat) : Prop :=
  match l with
  | [] => q = None
  | b :: l' => q = Some b /\ queue_is nx (nx b) l'
  end.

Lemma upd_same {A : Type} (f : nat -> A) i v : upd f i v i = v.
Proof. unfold upd. by rewrite decide_True. Qed.

Lemma upd_other {A : Type} (f : nat -> A) i v x : x <> i -> upd f i v x = f x.
Proof. intros H. unfold upd. by rewrite decide_False. Qed.

Lemma elem_of_rev {A : Type} (x : A) l : x ∈ rev l <-> x ∈ l.
Proof. rewrite !list_elem_of_In, <- in_rev. done. Qed.

Lemma find_app {A : Type} (p : A -> bool) l1 l2 :
  List.find p (l1 ++ l2) = match List.find p l1 with Some x => Some x | None => List.find p l2 end.
Proof. induction l1 as [|a l1 IH]; cbn [app List.find]; [done|]. by destruct (p a). Qed.

Lemma linked_ext nx pv nx' pv' l : forall x y,
  (forall z, z ∈ x :: l -> nx' z = nx z) -> (forall z, z ∈ l ++ [y] -> pv' z = pv z) ->
  linked nx pv x l y -> linked nx' pv' x l y.
Proof.
  induction l as [|a l IH]; intros x y Hn Hp; cbn [linked app].
  - rewrite Hn, Hp by left. done.
  - rewrite Hn, Hp by left. intros (H1 & H2 & H3). split; [done|]. split; [done|].
    apply IH; [| |exact H3]; intros z Hz; [apply Hn | apply Hp]; by right.
Qed.

Lemma linked_next nx pv x l y : linked nx pv x l y -> nx x ∈ l ++ [y].
Proof. destruct l; intros H; destruct H as [-> _]; left. Qed.

Lemma linked_prev nx pv l : forall x y, linked nx pv x l y -> pv y ∈ x :: l.
Proof.
  induction l as [|a l IH]; intros x y H; cbn [linked] in H.
  - destruct H as [_ ->]. left.
  - destruct H as (_ & _ & H). right. by apply IH.
Qed.

Lemma linked_app nx pv l1 : forall x i l2 y,
  linked nx pv x (l1 ++ i :: l2) y <-> linked nx pv x l1 i /\ linked nx pv i l2 y.
Proof.
  induction l1 as [|a l1 IH]; intros x i l2 y; cbn [linked app].
  - tauto.
  - rewrite IH. tauto.
Qed.

(** [i->next->prev = i->prev; i->prev->next = i->next;] *)
Lemma linked_unlink nx pv i l2 y l1 : forall x,
  linked nx pv x (l1 ++ i :: l2) y ->
  NoDup (x :: l1 ++ i :: l2) -> NoDup (l1 ++ i :: l2 ++ [y]) ->
  linked (upd nx (pv i) (nx i)) (upd pv (nx i) (pv i)) x (l1 ++ l2) y.
Proof.
  induction l1 as [|a l1 IH]; intros x Hl Hnd Hnd'.
  - cbn [app linked] in *. destruct Hl as (H1 & H2 & H3). rewrite H2.
    apply NoDup_cons in Hnd as [Hx Hnd]. apply NoDup_cons in Hnd' as [Hi Hnd'].
    destruct l2 as [|b l2]; cbn [linked app] in *.
    + destruct H3 as [-> _]. by rewrite !upd_same.
    + destruct H3 as (-> & _ & H3). rewrite !upd_same. split; [done|]. split; [done|].
      apply NoDup_cons in Hnd' as [Hb _].
      apply (linked_ext nx pv); [| |exact H3]; intros z Hz; apply upd_other; elem_solve.
  - cbn [app linked] in *. destruct Hl as (H1 & H2 & H3).
    apply NoDup_cons in Hnd as [Hx Hnd]. apply NoDup_cons in Hnd' as [Ha Hnd'].
    pose proof H3 as H4. apply linked_app in H4 as [H4 H5].
    pose proof (linked_prev _ _ _ _ _ H4) as Hp. pose proof (linked_next _ _ _ _ _ H5) as Hn.
    split; [rewrite upd_other; [done|elem_solve]|].
    split; [rewrite upd_other; [done|elem_solve]|]. apply IH; done.
Qed.

(** [i->next = h->next; i->prev = h; h->next->prev = i; h->next = i;] *)
Lemma linked_push nx pv h l i y :
  linked nx pv h l y -> i ∉ h :: l -> i <> y -> NoDup (h :: l) -> NoDup (l ++ [y]) ->
  linked (upd (upd nx i (nx h)) h i) (upd (upd pv i h) (nx h) i) h (i :: l) y.
Proof.
  intros Hl Hi Hy Hnd Hnd'. apply not_elem_of_cons in Hi as [Hih Hil].
  apply NoDup_cons in Hnd as [Hhl Hnd].
  pose proof (linked_next _ _ _ _ _ Hl) as Hn.
  assert (Hni : nx h <> i) by elem_solve.
  cbn [linked]. rewrite upd_same. split; [done|].
  split; [rewrite upd_other by done; apply upd_same|].
  destruct l as [|a l]; cbn [linked] in *.
  - destruct Hl as [-> Hl]. rewrite upd_other, !upd_same by done. done.
  - destruct Hl as (-> & H2 & H3). rewrite (upd_other _ h) by done. rewrite !upd_same.
    split; [done|]. split; [done|]. apply NoDup_cons in Hnd' as [Ha _].
    change (a ∉ l ++ [y]) in Ha.
    apply (linked_ext nx pv); [| |exact H3]; intros z Hz; rewrite !upd_other; done || elem_solve.
Qed.

Lemma ring_unlink nx pv h l1 i l2 :
  ring nx pv h (l1 ++ i :: l2) ->
  ring (upd nx (pv i) (nx i)) (upd pv (nx i) (pv i)) h (l1 ++ l2).
Proof.
  intros [Hl Hnd]. split.
  - apply linked_unlink; [exact Hl|exact Hnd|].
    apply NoDup_cons in Hnd as [Hh Hnd].
    change (l1 ++ i :: l2 ++ [h]) with (l1 ++ (i :: l2) ++ [h]). rewrite app_assoc.
    apply NoDup_app. split; [exact Hnd|]. split; [elem_solve|apply NoDup_singleton].
  - apply NoDup_cons in Hnd as [Hh Hnd]. apply NoDup_cons. split; [elem_solve|].
    apply NoDup_app in Hnd as (H1 & H2 & H3). apply NoDup_cons in H3 as [_ H3].
    apply NoDup_app. split; [done|].
    split; [intros x Hx; specialize (H2 x Hx); elem_solve|done].
Qed.

Lemma ring_push nx pv h l i :
  ring nx pv h l -> i ∉ h :: l ->
  ring (upd (upd nx i (nx h)) h i) (upd (upd pv i h) (nx h) i) h (i :: l).
Proof.
  intros [Hl Hnd] Hi. pose proof Hnd as Hnd2. apply NoDup_cons in Hnd2 as [Hh Hnd2]. split.
  - apply linked_push; [exact Hl|exact Hi|elem_solve|exact Hnd|].
    apply NoDup_app. split; [done|]. split; [elem_solve|apply NoDup_singleton].
  - apply NoDup_cons. split; [elem_solve|]. apply NoDup_cons. split; [elem_solve|done].
Qed.

(** Walking a ring visits its nodes in order; walking it backwards visits them
    in the opposite order. *)
Lemma walk_next nx pv h p l : forall x fuel,
  linked nx pv x l h -> h ∉ l -> (length l < fuel)%nat ->
  walk fuel nx h p (nx x) = Ret (List.find p l).
Proof.
  induction l as [|a l IH]; intros x fuel Hl Hh Hf.
  - destruct fuel; [simpl in Hf; lia|]. destruct Hl as [-> _]. cbn. by rewrite decide_True.
  - destruct fuel; [simpl in Hf; lia|]. destruct Hl as (-> & _ & Hl).
    apply not_elem_of_cons in Hh as [Hha Hh]. cbn [walk List.find].
    rewrite decide_False by congruence. destruct (p a); [done|].
    apply IH; [done|done|]. cbn [length] in Hf. lia.
Qed.

Lemma walk_prev nx pv h p l : forall y fuel,
  linked nx pv h l y -> h ∉ l -> (length l < fuel)%nat ->
  walk fuel pv h p (pv y) = Ret (List.find p (rev l)).
Proof.
  induction l as [|a l IH] using rev_ind; intros y fuel Hl Hh Hf.
  - destruct fuel; [simpl in Hf; lia|]. destruct Hl as [_ ->]. cbn. by rewrite decide_True.
  - destruct fuel; [lia|]. apply linked_app in Hl as [Hl [Ha Hy]].
    rewrite rev_unit. rewrite Hy. cbn [walk List.find].
    rewrite decide_False by (intros ->; apply Hh; elem_solve).
    destruct (p a); [done|].
    apply IH; [done| |rewrite length_app in Hf; simpl in Hf; lia].
    intros H. apply Hh. elem_solve.
Qed.

Lemma queue_is_ext nx nx' q l :
  (forall b, b ∈ l -> nx' b = nx b) -> queue_is nx q l -> queue_is nx' q l.
Proof.
  revert q. induction l as [|b l IH]; intros q H; cbn [queue_is]; [done|].
  intros [-> Hq]. split; [done|]. rewrite H by left. apply IH; [|done].
  intros c Hc. apply H. by right.
Qed.

Lemma queue_is_inj nx q l : forall l', queue_is nx q l -> queue_is nx q l' -> l = l'.
Proof.
  revert q. induction l as [|b l IH]; intros q [|b' l']; cbn [queue_is].
  - done.
  - intros -> [? _]. done.
  - intros [-> _] ?. done.
  - intros [-> H1] [[= <-] H2]. f_equal. by apply (IH (nx b)).
Qed.
