(* ===== verification/Bio.v ===== *)
(** * Block buffers and the memory disk

    The state shared by the block layer: the array [fsbuf] of [struct buf]
    (inc/buf.h) with the list head [bhead] (fs/buffer.c), the request queue
    and the ports of the hard disk (drv/hd.c) and the memory disk
    (drv/memhd.c).  A buffer is its index; each field of [struct buf] is a
    function of the index, and index [BHEAD] is the list head.  [memhd_rw] is
    modelled here, the hard disk in Hd.v and the cache in Buffer.v. *)

From stdpp Require Import base list strings.
From Stdlib Require Import ZArith Lia.
From S2P Require Import Prelude Ring.

Open Scope Z_scope.

(** ** Constants of inc/const.h, inc/buf.h and inc/fs.h *)

Definition NBUF : nat := 16.

(** The index that stands for [&bhead]. *)
Definition BHEAD : nat := 16.

Definition BUF_BUSY : Z := 1.

Definition BUF_VALID : Z := 2.

Definition BUF_DIRTY : Z := 4.

Definition BUF_SIZE : nat := 512.

Definition MEM_MAJOR : Z := 1.

Definition HD_MAJOR : Z := 3.

Definition MAJOR (a : Z) : Z := Z.shiftr (u16 a) 8.

Definition MINOR (a : Z) : Z := Z.land (u16 a) 255.

Definition MKDEV (a b : Z) : Z := Z.lor (Z.shiftl (Z.land a 255) 8) (Z.land b 255).

(** ** State *)

(** What the driver writes to and reads from the ports of the disk. *)
Inductive ide_op : Type :=
  | OutB (port v : Z)
  | OutSL (port : Z) (block : list Z)
  | InSL (port : Z).

Record bio : Type := mkBio {
  bnext : nat -> nat;
  bprev : nat -> nat;
  bdev : nat -> Z;
  bflags : nat -> Z;
  bnum : nat -> Z;
  bdata : nat -> list Z;
  hdnext : nat -> option nat;
  hdqueue : option nat;
  ide_log : list ide_op;
  hdmem : memory;
  hdstart : Z;
  disksize : Z;
  woken : list nat
}.

Definition set_links (s : bio) (n p : nat -> nat) : bio :=
  mkBio n p (bdev s) (bflags s) (bnum s) (bdata s) (hdnext s) (hdqueue s) (ide_log s)
        (hdmem s) (hdstart s) (disksize s) (woken s).

Definition set_key (s : bio) (i : nat) (d n : Z) : bio :=
  mkBio (bnext s) (bprev s) (upd (bdev s) i d) (bflags s) (upd (bnum s) i n) (bdata s)
        (hdnext s) (hdqueue s) (ide_log s) (hdmem s) (hdstart s) (disksize s) (woken s).

Definition set_flags (s : bio) (i : nat) (f : Z) : bio :=
  mkBio (bnext s) (bprev s) (bdev s) (upd (bflags s) i f) (bnum s) (bdata s) (hdnext s)
        (hdqueue s) (ide_log s) (hdmem s) (hdstart s) (disksize s) (woken s).

Definition set_data (s : bio) (i : nat) (d : list Z) : bio :=
  mkBio (bnext s) (bprev s) (bdev s) (bflags s) (bnum s) (upd (bdata s) i d) (hdnext s)
        (hdqueue s) (ide_log s) (hdmem s) (hdstart s) (disksize s) (woken s).

Definition set_queue (s : bio) (n : nat -> option nat) (q : option nat) : bio :=
  mkBio (bnext s) (bprev s) (bdev s) (bflags s) (bnum s) (bdata s) n q (ide_log s)
        (hdmem s) (hdstart s) (disksize s) (woken s).

Definition set_ide (s : bio) (l : list ide_op) : bio :=
  mkBio (bnext s) (bprev s) (bdev s) (bflags s) (bnum s) (bdata s) (hdnext s) (hdqueue s) l
        (hdmem s) (hdstart s) (disksize s) (woken s).

Definition set_hdmem (s : bio) (m : memory) : bio :=
  mkBio (bnext s) (bprev s) (bdev s) (bflags s) (bnum s) (bdata s) (hdnext s) (hdqueue s)
        (ide_log s) m (hdstart s) (disksize s) (woken s).

Definition set_memhd (s : bio) (start size : Z) : bio :=
  mkBio (bnext s) (bprev s) (bdev s) (bflags s) (bnum s) (bdata s) (hdnext s) (hdqueue s)
        (ide_log s) (hdmem s) start size (woken s).

(** [wakeup(&bp->bwait)]: the scheduler's part is in Task.v; here the call is
    recorded. *)
Definition wake (s : bio) (i : nat) : bio :=
  mkBio (bnext s) (bprev s) (bdev s) (bflags s) (bnum s) (bdata s) (hdnext s) (hdqueue s)
        (ide_log s) (hdmem s) (hdstart s) (disksize s) (woken s ++ [i]).

(** ** The memory disk *)

Definition init_memhd (s : bio) (start size : Z) : bio :=
  set_memhd s start (size / Z.of_nat BUF_SIZE).

Definition memhd_rw (s : bio) (b : nat) : outcome bio :=
  if negb (has (bflags s b) BUF_BUSY) then Stop (Panic "memhd_rw: buf not busy")
  else if decide (Z.land (bflags s b) (Z.lor BUF_VALID BUF_DIRTY) = BUF_VALID) then
    Stop (Panic "memhd_rw: nothing to do")
  else if negb (bool_decide (MAJOR (bdev s b) = MEM_MAJOR)) then
    Stop (Panic "memhd_rw: request not for memhd")
  else if bool_decide (disksize s <= bnum s b) then
    Stop (Panic "memhd_rw: sector out of range")
  else
    let p := hdstart s + u32 (bnum s b * Z.of_nat BUF_SIZE) in
    let s1 :=
      if has (bflags s b) BUF_DIRTY then
        let s0 := set_flags s b (Z.ldiff (bflags s b) BUF_DIRTY) in
        set_hdmem s0 (write_bytes (hdmem s0) p (bdata s0 b))
      else set_data s b (read_bytes (hdmem s) p BUF_SIZE) in
    Ret (set_flags s1 b (Z.lor (bflags s1 b) BUF_VALID)).

(** ** Sectors of the memory disk *)

(** The contents of sector [n]. *)
Definition sector (s : bio) (n : Z) : list Z :=
  read_bytes (hdmem s) (hdstart s + n * 512) BUF_SIZE.

(** The memory disk lies within the 32-bit address space. *)
Definition memhd_ok (s : bio) : Prop := 0 <= disksize s <= 8388608.

(** ** Lemmas *)

(** The bits of a flag word, one by one. *)
Lemma flags_cases f :
  0 <= f < 8 -> f = 0 \/ f = 1 \/ f = 2 \/ f = 3 \/ f = 4 \/ f = 5 \/ f = 6 \/ f = 7.
Proof. lia. Qed.

(** A sector number below the disk's size does not wrap in the address. *)
Lemma sector_addr s n :
  memhd_ok s -> 0 <= n < disksize s -> u32 (n * Z.of_nat BUF_SIZE) = n * 512.
Proof.
  unfold memhd_ok. intros H Hn. change (Z.of_nat BUF_SIZE) with 512. apply u32_small. lia.
Qed.

(** Reading: a busy buffer that is neither valid nor dirty receives its sector. *)
Lemma memhd_rw_read s b :
  memhd_ok s -> bflags s b = BUF_BUSY -> MAJOR (bdev s b) = MEM_MAJOR ->
  0 <= bnum s b < disksize s ->
  memhd_rw s b =
    Ret (set_flags (set_data s b (sector s (bnum s b))) b (Z.lor BUF_BUSY BUF_VALID)).
Proof.
  intros Hok Hf Hd Hn. unfold memhd_rw. rewrite Hf, (sector_addr s) by assumption.
  rewrite Hd. rewrite (bool_decide_eq_false_2 (disksize s <= bnum s b)) by lia.
  simpl. by rewrite Hf.
Qed.

(** Writing: a busy dirty buffer goes to its sector and is clean. *)
Lemma memhd_rw_write s b :
  memhd_ok s -> bflags s b = 5 \/ bflags s b = 7 -> MAJOR (bdev s b) = MEM_MAJOR ->
  0 <= bnum s b < disksize s ->
  exists s', memhd_rw s b = Ret s' /\
    s' = set_flags (set_hdmem (set_flags s b (Z.ldiff (bflags s b) 4))
           (write_bytes (hdmem s) (hdstart s + bnum s b * 512) (bdata s b))) b 3.
Proof.
  intros Hok Hf Hd Hn. unfold memhd_rw. rewrite Hd.
  rewrite (bool_decide_eq_false_2 (disksize s <= bnum s b)) by lia.
  rewrite (sector_addr s) by assumption.
  destruct Hf as [Hf|Hf]; rewrite Hf; cbv [has BUF_BUSY BUF_VALID BUF_DIRTY];
    simpl; rewrite upd_same; eexists; split; reflexivity.
Qed.
