(* ===== verification/Hd.v ===== *)
(** * The hard-disk driver

    drv/hd.c: the queue of requested buffers, threaded through [hdnext], the
    commands written to the ports and the interrupt handler.  The disk itself
    is hardware: [IdeDevice] gives what its ports answer.  [hd_rw_start] is
    [hd_rw] up to its waiting loop; the loop ends in [Sleep], the call of
    [sleep_on], which panics without a task and from which no task comes back
    into the driver (Task.v).  The driver's promise is that of a queue: requests
    complete one by one in the order they were made, each with one interrupt,
    and the disk always works on the oldest. *)

From stdpp Require Import base list strings.
From Stdlib Require Import ZArith Lia.
From S2P Require Import Prelude Ring Bio.

Open Scope Z_scope.

(** ** Registers (inc/hd.h) *)

Definition SECT_SIZE : Z := 512.

Definition HD_READ : Z := 32.

Definition HD_WRITE : Z := 48.

Definition HDR_DATA : Z := 496.

Definition HDR_NSECT : Z := 498.

Definition HDR_LBA_LOW : Z := 499.

Definition HDR_LBA_MID : Z := 500.

Definition HDR_LBA_HI : Z := 501.

Definition HDR_DEVICE : Z := 502.

Definition HDR_STATUS : Z := 503.

Definition HDR_ALTER_STATUS : Z := 1014.

(** The slave disk, in LBA mode. *)
Definition dev_select : Z := Z.lor 224 (Z.shiftl 1 4).

(** What the hardware answers, from everything the driver did before: the
    status read by the [k]-th poll, the block [insl] reads, and how many polls
    a wait may take. *)
Class IdeDevice : Type := {
  ide_status : list ide_op -> nat -> Z;
  ide_insl : list ide_op -> list Z;
  ide_patience : list ide_op -> nat
}.

Section Driver.

Context `{ide : IdeDevice}.

(** [hdwait]: poll until the status says ready and not busy. *)
Fixpoint hdwait_loop (fuel : nat) (log : list ide_op) (k : nat) : outcome unit :=
  match fuel with
  | O => Stop Fuel
  | S f =>
      if decide (Z.land (ide_status log k) (Z.lor 128 64) <> 64) then
        hdwait_loop f log (S k)
      else Ret tt
  end.

Definition hdwait (s : bio) : outcome unit :=
  hdwait_loop (S (ide_patience (ide_log s))) (ide_log s) 0.

(** The port writes of [hd_dorw] for one buffer. *)
Definition hd_commands (num flags : Z) (block : list Z) : list ide_op :=
  [ OutB HDR_ALTER_STATUS 0;
    OutB HDR_NSECT 1;
    OutB HDR_LBA_LOW (Z.land num 255);
    OutB HDR_LBA_MID (Z.land (Z.shiftr num 8) 255);
    OutB HDR_LBA_HI (Z.land (Z.shiftr num 16) 255);
    OutB HDR_DEVICE (u8 (Z.lor dev_select (Z.land (Z.shiftr num 24) 15))) ] ++
  (if has flags BUF_DIRTY then [ OutB HDR_STATUS HD_WRITE; OutSL HDR_DATA block ]
   else [ OutB HDR_STATUS HD_READ ]).

Definition hd_dorw (s : bio) (bp : option nat) : outcome bio :=
  match bp with
  | None => Stop (Panic "hd_dorw: bp is NULL")
  | Some b =>
      _ ← hdwait s;
      Ret (set_ide s (ide_log s ++ hd_commands (bnum s b) (bflags s b) (bdata s b)))
  end.

(** The walk along [hdnext] to the last request of the queue. *)
Fixpoint hd_last (fuel : nat) (nx : nat -> option nat) (b : nat) : outcome nat :=
  match fuel with
  | O => Stop Fuel
  | S f => match nx b with None => Ret b | Some c => hd_last f nx c end
  end.

(** [bp] is put at the end of the queue. *)
Definition hd_append (s : bio) (bp : nat) : outcome bio :=
  let nx := upd (hdnext s) bp None in
  match hdqueue s with
  | None => Ret (set_queue s nx (Some bp))
  | Some q =>
      last ← hd_last (S NBUF) nx q;
      Ret (set_queue s (upd nx last (Some bp)) (Some q))
  end.

Definition hd_rw_start (s : bio) (bp : nat) : outcome bio :=
  if negb (has (bflags s bp) BUF_BUSY) then Stop (Panic "hd_rw: buf is not busy")
  else if decide (Z.land (bflags s bp) (Z.lor BUF_VALID BUF_DIRTY) = BUF_VALID) then
    Stop (Panic "hd_rw: need do nothing")
  else
    s1 ← hd_append s bp;
    if decide (hdqueue s1 = Some bp) then hd_dorw s1 (Some bp) else Ret s1.

Definition hd_isr (s : bio) : outcome bio :=
  match hdqueue s with
  | None => Ret s
  | Some bp =>
      let s1 := set_queue s (hdnext s) (hdnext s bp) in
      s2 ← (if decide (Z.land (bflags s1 bp) BUF_DIRTY = 0) then
              _ ← hdwait s1;
              let block := ide_insl (ide_log s1) in
              Ret (set_data (set_ide s1 (ide_log s1 ++ [InSL HDR_DATA])) bp block)
            else Ret s1);
      let flags1 := Z.lor (bflags s2 bp) BUF_VALID in
      let flags2 := Z.ldiff flags1 BUF_DIRTY in
      let s3 := wake (set_flags s2 bp flags2) bp in
      match hdqueue s3 with
      | None => Ret s3
      | Some q => hd_dorw s3 (Some q)
      end
  end.

(** With the loop [while(... != BUF_VALID) sleep_on(&bp->bwait);]. *)
Definition hd_rw (s : bio) (bp : nat) : outcome bio :=
  s1 ← hd_rw_start s bp;
  if decide (Z.land (bflags s1 bp) (Z.lor BUF_VALID BUF_DIRTY) <> BUF_VALID) then Stop (Sleep (Z.of_nat bp))
  else Ret s1.

(** [n] interrupts of the disk. *)
Fixpoint hd_isrs (n : nat) (s : bio) : outcome bio :=
  match n with
  | O => Ret s
  | S k => s' ← hd_isr s; hd_isrs k s'
  end.

(** ** The driver as a state machine *)

(** Requests and interrupts in any order. *)
Inductive hd_event : Type :=
  | Request (bp : nat)
  | Interrupt.

Definition hd_step (s : bio) (e : hd_event) : outcome bio :=
  match e with Request bp => hd_rw_start s bp | Interrupt => hd_isr s end.

(** A request that is waiting: busy, and not yet valid or still dirty. *)
Definition pending (s : bio) (b : nat) : Prop :=
  0 <= bflags s b < 8 /\ has (bflags s b) BUF_BUSY = true /\
  Z.land (bflags s b) (Z.lor BUF_VALID BUF_DIRTY) <> BUF_VALID.

(** The last commands given to the disk are those for buffer [b]. *)
Definition started (s : bio) (b : nat) : Prop :=
  exists log, ide_log s = log ++ hd_commands (bnum s b) (bflags s b) (bdata s b).

Record hd_wf (s : bio) (l : list nat) : Prop := {
  hd_queue : queue_is (hdnext s) (hdqueue s) l;
  hd_nodup : NoDup l;
  hd_index : Forall (fun b => (b < NBUF)%nat) l;
  hd_pending : Forall (pending s) l;
  hd_started : match l with [] => True | b :: _ => started s b end
}.

Definition queued (s : bio) (b : nat) : Prop :=
  exists l, queue_is (hdnext s) (hdqueue s) l /\ b ∈ l.

(** A trace: the requests made, the requests completed, the state. *)
Inductive hd_trace (s0 : bio) : list nat -> list nat -> bio -> Prop :=
  | hd_start : hd_trace s0 [] [] s0
  | hd_request asked finished s b s' :
      hd_trace s0 asked finished s -> (b < NBUF)%nat -> 0 <= bflags s b < 8 ->
      ~ queued s b ->
      hd_rw_start s b = Ret s' ->
      hd_trace s0 (asked ++ [b]) finished s'
  | hd_interrupt asked finished s s' :
      hd_trace s0 asked finished s -> hd_isr s = Ret s' ->
      hd_trace s0 asked (finished ++ match hdqueue s with None => [] | Some b => [b] end) s'.

End Driver.

(** The hardware keeps the wait loop finite. *)
(** The sector addressed by the registers after a sequence of port writes:
    [hd_commands] writes the four parts of the number in this order. *)
Definition lba_of (ops : list ide_op) : option Z :=
  match ops with
  | _ :: _ :: OutB _ low :: OutB _ mid :: OutB _ hi :: OutB _ d :: _ =>
      Some (low + 256 * mid + 65536 * hi + 16777216 * (d mod 16))
  | _ => None
  end.

Class IdeReady `(IdeDevice) : Prop :=
  ide_ready log : exists k, (k <= ide_patience log)%nat /\
    Z.land (ide_status log k) (Z.lor 128 64) = 64.

(** ** Lemmas *)

Section Queue.

Context `{ide : IdeDevice} {ready : IdeReady ide}.

Lemma hdwait_loop_ok log : forall fuel k,
  (exists j, (k <= j < k + fuel)%nat /\ Z.land (ide_status log j) (Z.lor 128 64) = 64) ->
  hdwait_loop fuel log k = Ret tt.
Proof.
  induction fuel as [|f IH]; intros k (j & Hj & Hr); [lia|]. cbn [hdwait_loop].
  case_decide as Hd; [|done]. apply IH. exists j. split; [|done].
  assert (j <> k) by (intros ->; done). lia.
Qed.

Lemma hdwait_ok s : hdwait s = Ret tt.
Proof.
  apply hdwait_loop_ok. destruct (ide_ready (ide_log s)) as (k & Hk & Hr).
  exists k. split; [lia|done].
Qed.

Lemma last_cons_default {A : Type} (l : list A) : forall b c,
  List.last (c :: l) b = List.last l c.
Proof.
  induction l as [|d l IH]; intros b c; [done|].
  change (List.last (c :: d :: l) b) with (List.last (d :: l) b).
  by rewrite (IH b d), (IH c d).
Qed.

Lemma last_default_in {A : Type} (l : list A) : forall c, List.last l c ∈ c :: l.
Proof.
  induction l as [|d l IH]; intros c; [left|]. right. rewrite last_cons_default. apply IH.
Qed.

Lemma hd_last_ok nx l : forall fuel b,
  queue_is nx (Some b) (b :: l) -> (length l < fuel)%nat ->
  hd_last fuel nx b = Ret (List.last l b).
Proof.
  induction l as [|c l IH]; intros fuel b Hq Hf; destruct fuel as [|f];
    cbn [length] in Hf; try lia; cbn [queue_is hd_last] in *.
  - destruct Hq as [_ ->]. done.
  - destruct Hq as (_ & -> & Hq). rewrite last_cons_default. apply (IH f c); [done|lia].
Qed.

Lemma queue_append nx l bp : forall b,
  queue_is nx (Some b) (b :: l) -> NoDup (b :: l) -> bp ∉ b :: l -> nx bp = None ->
  queue_is (upd nx (List.last l b) (Some bp)) (Some b) (b :: l ++ [bp]).
Proof.
  induction l as [|c l IH]; intros b Hq Hnd Hbp Hnx.
  - cbn [queue_is app List.last] in *. destruct Hq as [_ Hq].
    rewrite upd_same, upd_other by elem_solve. done.
  - rewrite last_cons_default. destruct Hq as (_ & Hq1 & Hq2). apply NoDup_cons in Hnd as [Hb Hnd].
    pose proof (last_default_in l c) as Hin.
    split; [done|]. rewrite upd_other by (intros ->; done). rewrite Hq1.
    apply IH; [done|done|elem_solve|done].
Qed.

Lemma queue_nonempty nx q l b : queue_is nx q l -> q = Some b -> exists l', l = b :: l'.
Proof. destruct l as [|c l]; cbn; [congruence|]. intros [-> _] [= ->]. by exists l. Qed.

Lemma index_bound (l : list nat) b :
  NoDup l -> Forall (fun c => (c < NBUF)%nat) l -> (b < NBUF)%nat -> b ∉ l ->
  (length l < NBUF)%nat.
Proof.
  intros Hnd Hl Hb Hbl.
  assert (H : (length (b :: l) <= length (seq 0 NBUF))%nat).
  { apply NoDup_incl_length.
    - apply NoDup_ListNoDup, NoDup_cons. done.
    - rewrite List.Forall_forall in Hl. intros c [<-|Hc]; apply in_seq; [lia|].
      specialize (Hl c Hc). lia. }
  rewrite length_seq in H. cbn [length] in H. lia.
Qed.

Lemma pending_ext s s' b : bflags s' b = bflags s b -> pending s b -> pending s' b.
Proof. unfold pending. by intros ->. Qed.

Lemma pending_flags s b : pending s b -> bflags s b = 1 \/ bflags s b = 5 \/ bflags s b = 7.
Proof.
  intros (Hr & Hb & Hp). destruct (flags_cases _ Hr) as [E|[E|[E|[E|[E|[E|[E|E]]]]]]];
    rewrite E in Hb, Hp; vm_compute in Hb, Hp; first [congruence | tauto].
Qed.

Lemma hd_dorw_ok s b :
  hd_dorw s (Some b) =
    Ret (set_ide s (ide_log s ++ hd_commands (bnum s b) (bflags s b) (bdata s b))).
Proof. unfold hd_dorw. by rewrite hdwait_ok. Qed.

(** A new request joins the end of the queue; the disk starts when it is first. *)
Lemma hd_rw_start_ok s l b :
  hd_wf s l -> pending s b -> (b < NBUF)%nat -> b ∉ l ->
  exists s', hd_rw_start s b = Ret s' /\ hd_wf s' (l ++ [b]) /\
    bflags s' = bflags s /\ bdata s' = bdata s /\ bnum s' = bnum s /\ woken s' = woken s.
Proof.
  intros [Hq Hnd Hix Hp Hst] Hb Hlt Hin. pose proof Hb as (_ & Hbusy & Hnv).
  unfold hd_rw_start, hd_append. rewrite Hbusy, decide_False by exact Hnv. cbn [negb].
  destruct l as [|c l].
  - cbn in Hq. rewrite Hq. cbn [mbind outcome_bind hdqueue set_queue].
    rewrite decide_True by done. rewrite hd_dorw_ok. eexists. split; [done|].
    split; [|done]. split; cbn.
    + split; [done|]. by rewrite upd_same.
    + apply NoDup_singleton.
    + by constructor.
    + constructor; [|constructor]. exact Hb.
    + eexists. reflexivity.
  - assert (Hlen := index_bound _ _ Hnd Hix Hlt Hin). cbn [length] in Hlen.
    pose proof Hq as [Hq0 _]. rewrite Hq0 in Hq |- *.
    assert (Hq' : queue_is (upd (hdnext s) b None) (Some c) (c :: l)).
    { apply (queue_is_ext (hdnext s)); [|exact Hq].
      intros d Hd. apply upd_other. intros ->. done. }
    rewrite (hd_last_ok _ l) by (done || lia). cbn [mbind outcome_bind hdqueue set_queue].
    rewrite decide_False by (intros [= ->]; apply Hin; left).
    eexists. split; [done|]. split; [|done]. split; cbn [hdnext hdqueue set_queue app].
    + apply queue_append; [done|done|done|apply upd_same].
    + change (c :: l ++ [b]) with ((c :: l) ++ [b]). apply NoDup_app.
      split; [done|]. split; [elem_solve|apply NoDup_singleton].
    + change (c :: l ++ [b]) with ((c :: l) ++ [b]). apply Forall_app. by split; [|constructor].
    + change (c :: l ++ [b]) with ((c :: l) ++ [b]). apply Forall_app. by split; [|constructor].
    + exact Hst.
Qed.

(** One interrupt completes the oldest request and starts the next. *)
Lemma hd_isr_ok s b l :
  hd_wf s (b :: l) ->
  exists s', hd_isr s = Ret s' /\ hd_wf s' l /\
    bflags s' = upd (bflags s) b 3 /\ bnum s' = bnum s /\ woken s' = woken s ++ [b] /\
    bdata s' = (if decide (Z.land (bflags s b) BUF_DIRTY = 0)
                then upd (bdata s) b (ide_insl (ide_log s)) else bdata s).
Proof.
  intros [Hq Hnd Hix Hp Hst]. destruct Hq as [Hq0 Hq].
  apply NoDup_cons in Hnd as [Hbl Hnd]. apply Forall_cons in Hix as [_ Hix].
  apply Forall_cons in Hp as [Hb Hp].
  assert (Hfl : Z.ldiff (Z.lor (bflags s b) BUF_VALID) BUF_DIRTY = 3).
  { by destruct (pending_flags _ _ Hb) as [->|[->| ->]]. }
  assert (Hout : forall s', hdnext s' = hdnext s -> hdqueue s' = hdnext s b ->
            bflags s' = upd (bflags s) b 3 -> bnum s' = bnum s ->
            (forall c, c <> b -> bdata s' c = bdata s c) ->
            exists s'', (match hdqueue s' with None => Ret s' | Some q => hd_dorw s' (Some q) end)
                        = Ret s'' /\ hd_wf s'' l /\ bflags s'' = bflags s' /\
                        bnum s'' = bnum s' /\ woken s'' = woken s' /\ bdata s'' = bdata s').
  { intros s' H1 H2 H3 H4 H5. rewrite H2.
    assert (Hp' : forall s'', bflags s'' = bflags s' -> Forall (pending s'') l).
    { intros s'' Hf. apply Forall_forall. intros c Hc. apply (pending_ext s).
      - rewrite Hf, H3. apply upd_other. intros ->. done.
      - rewrite Forall_forall in Hp. by apply Hp. }
    destruct l as [|c l]; cbn [queue_is] in Hq.
    - rewrite Hq. eexists. split; [done|]. split; [|done].
      split; [cbn; by rewrite H2|done|done|by apply Hp'|done].
    - destruct Hq as [Hc Hq]. rewrite Hc, hd_dorw_ok. eexists. split; [done|]. split; [|done].
      split; cbn [hdnext hdqueue set_ide]; [|done|done|by apply Hp'|].
      + cbn [queue_is]. rewrite H2, Hc, H1. done.
      + exists (ide_log s'). reflexivity. }
  unfold hd_isr. rewrite Hq0. cbn [bflags set_queue].
  case_decide as Hd; [rewrite hdwait_ok|]; cbn [mbind outcome_bind];
    edestruct Hout as (s'' & Hs & Hwf & Hf & Hn & Hw & Hdt); cycle 5.
  1, 7: exists s''; split; [exact Hs|]; split; [exact Hwf|];
    rewrite Hf, Hn, Hw, Hdt; cbn; by rewrite Hfl.
  all: try done; cbn; try (by rewrite Hfl).
  intros c Hc. by apply upd_other.
Qed.

(** As many interrupts as requests that wait in front complete just those. *)
Lemma hd_isrs_ok l1 : forall s l2,
  hd_wf s (l1 ++ l2) ->
  exists s', hd_isrs (length l1) s = Ret s' /\ hd_wf s' l2 /\ bnum s' = bnum s /\ woken s' = woken s ++ l1 /\
    (forall c, bflags s' c = if decide (c ∈ l1) then 3 else bflags s c).
Proof.
  induction l1 as [|d l1 IH]; intros s l2 Hwf.
  - exists s. rewrite app_nil_r. do 4 (split; [done|]). intros c. rewrite decide_False by apply not_elem_of_nil. done.
  - cbn [length hd_isrs]. destruct (hd_isr_ok s d (l1 ++ l2) Hwf) as (s1 & -> & Hwf1 & Hfl1 & Hn1 & Hw1 & _).
    rewrite bind_Ret. destruct (IH s1 l2 Hwf1) as (s' & -> & Hwf' & Hn & Hw & Hfl).
    exists s'. split; [done|]. split; [done|]. split; [congruence|].
    split; [rewrite Hw, Hw1, <- app_assoc; done|].
    intros c. rewrite Hfl, Hfl1. unfold upd. repeat case_decide; elem_solve.
Qed.

End Queue.

(** A disk that is always ready and whose blocks are zero. *)
Definition idle_ide : IdeDevice :=
  {| ide_status := fun _ _ => 64; ide_insl := fun _ => repeat 0 512; ide_patience := fun _ => O |}.

#[export] Instance idle_ide_ready : IdeReady idle_ide.
Proof. intros log. exists 0%nat. split; [simpl; lia | reflexivity]. Qed.

(** Buffers 3 and 5 busy on device 3; nothing queued. *)
Definition sample_bio : bio :=
  mkBio (fun _ => BHEAD) (fun _ => BHEAD) (fun _ => 768) (upd (upd (fun _ => 0) 3%nat 1) 5%nat 5)
        (fun b => Z.of_nat b) (fun _ => repeat 7 512) (fun _ => None) None [] (fun _ => 0) 0 0 [].

Lemma sample_bio_wf : @hd_wf sample_bio [].
Proof. split; done || constructor. Qed.

(** C29. In every run of the hard-disk driver, with requests and interrupts in
    any order, the requests complete in the order they were made: the requests
    made so far are those completed followed by those in the queue, the queue
    is well formed, and the disk has been started on the oldest request of a
    non-empty queue. *)
Theorem hd_fifo `{ide : IdeDevice} {ready : IdeReady ide} (s0 s : bio)
    (asked finished : list nat)
    (H0 : hdqueue s0 = None) (Ht : hd_trace s0 asked finished s) :
  exists l, asked = finished ++ l /\ hd_wf s l.
Proof.
  induction Ht as [|asked finished s b s' Ht IH Hlt Hfl Hnq Hs|asked finished s s' Ht IH Hs].
  - exists []. split; [done|]. split; done || constructor.
  - destruct IH as (l & -> & Hwf). exists (l ++ [b]). split; [by rewrite app_assoc|].
    assert (Hb : pending s b).
    { unfold hd_rw_start in Hs. split; [exact Hfl|].
      destruct (has (bflags s b) BUF_BUSY); [|discriminate]. split; [done|].
      cbn [negb] in Hs. case_decide; [discriminate|done]. }
    destruct (hd_rw_start_ok s l b Hwf Hb Hlt) as (s'' & Hs'' & Hwf' & _).
    + intros Hin. apply Hnq. exists l. split; [apply Hwf|done].
    + rewrite Hs in Hs''. by injection Hs'' as ->.
  - destruct IH as (l & -> & Hwf). pose proof (hd_queue _ _ Hwf) as Hq.
    destruct l as [|b l]; cbn [queue_is] in Hq.
    + exists []. rewrite Hq, !app_nil_r. split; [done|]. unfold hd_isr in Hs.
      rewrite Hq in Hs. by injection Hs as <-.
    + destruct Hq as [-> Hq]. exists l. split; [by rewrite <- app_assoc|].
      destruct (hd_isr_ok s b l Hwf) as (s'' & Hs'' & Hwf' & _).
      rewrite Hs in Hs''. by injection Hs'' as ->.
Qed.

Lemma hd_fifo_witness :
  exists s asked finished l, asked = finished ++ l /\ @hd_wf s l /\ asked = [3; 5]%nat.
Proof.
  pose proof (@hd_start idle_ide sample_bio) as T0.
  destruct (hd_rw_start_ok (ide := idle_ide) sample_bio [] 3) as (s1 & E1 & W1 & F1 & _);
    [exact sample_bio_wf | vm_compute; intuition congruence | unfold NBUF; lia | apply not_elem_of_nil |].
  assert (T1 : hd_trace (ide := idle_ide) sample_bio [3%nat] [] s1).
  { refine (hd_request _ _ _ _ _ _ T0 _ _ _ E1);
      [unfold NBUF; lia | vm_compute; intuition congruence |].
    intros (l & Hq & Hl). destruct l; [by apply elem_of_nil in Hl|]. by destruct Hq. }
  destruct (hd_rw_start_ok (ide := idle_ide) s1 [3%nat] 5) as (s2 & E2 & W2 & _);
    [exact W1 | unfold pending; rewrite F1; vm_compute; intuition congruence | unfold NBUF; lia
    | apply not_elem_of_cons; split; [lia | apply not_elem_of_nil] |].
  assert (T2 : hd_trace (ide := idle_ide) sample_bio [3%nat; 5%nat] [] s2).
  { refine (hd_request _ _ _ _ _ _ T1 _ _ _ E2);
      [unfold NBUF; lia | rewrite F1; vm_compute; intuition congruence |].
    intros (l & Hq & Hl). rewrite (queue_is_inj _ _ _ _ Hq (hd_queue _ _ W1)) in Hl.
    apply elem_of_cons in Hl as [Hl|Hl]; [lia | by apply elem_of_nil in Hl]. }
  destruct (hd_fifo sample_bio s2 _ _ eq_refl T2) as (l & Hl & Hwf).
  exists s2, [3; 5]%nat, [], l. exact (conj Hl (conj Hwf eq_refl)).
Defined.

(** C30. A request is completed by one interrupt per request in the queue: with
    [l] requests before it, [hd_rw] joins the end of the queue and goes to sleep
    with its buffer not yet valid; the next [length l] interrupts complete the
    earlier requests in their order and leave this one as it is, and the one
    after them makes its buffer valid and clean, wakes its sleeper last and
    leaves the queue empty.  No other buffer's flags change. *)
Theorem hd_rw_completes `{ide : IdeDevice} {ready : IdeReady ide} (s : bio) (l : list nat)
    (b : nat) (Hwf : hd_wf s l) (Hp : pending s b) (Hlt : (b < NBUF)%nat) (Hb : b ∉ l) :
  hd_rw s b = Stop (Sleep (Z.of_nat b)) /\
  exists s1 s2 s3, hd_rw_start s b = Ret s1 /\ hd_wf s1 (l ++ [b]) /\
    hd_isrs (length l) s1 = Ret s2 /\ hd_wf s2 [b] /\ bflags s2 b = bflags s b /\ woken s2 = woken s ++ l /\
    hd_isr s2 = Ret s3 /\ hd_wf s3 [] /\ bnum s3 = bnum s /\ woken s3 = woken s ++ l ++ [b] /\
    (forall c, bflags s3 c = if decide (c ∈ l ++ [b]) then Z.lor BUF_BUSY BUF_VALID else bflags s c).
Proof.
  destruct (hd_rw_start_ok s l b Hwf Hp Hlt Hb) as (s1 & E1 & W1 & F1 & D1 & N1 & K1).
  destruct (hd_isrs_ok l s1 [b] W1) as (s2 & E2 & W2 & N2 & K2 & F2).
  destruct (hd_isr_ok s2 b [] W2) as (s3 & E3 & W3 & F3 & N3 & K3 & _). split.
  - unfold hd_rw. rewrite E1, bind_Ret, F1. by rewrite decide_True by apply Hp.
  - exists s1, s2, s3. split; [done|]. split; [done|]. split; [done|]. split; [done|].
    split; [by rewrite F2, decide_False, F1|]. split; [congruence|]. split; [done|]. split; [done|].
    split; [congruence|]. split; [by rewrite K3, K2, K1, app_assoc|].
    intros c. rewrite F3. unfold upd. rewrite F2, F1. repeat case_decide; elem_solve.
Qed.

Lemma hd_rw_completes_witness :
  exists s1 s2, @hd_rw_start idle_ide sample_bio 3 = Ret s1 /\ @hd_isr idle_ide s1 = Ret s2 /\ woken s2 = [3%nat].
Proof.
  destruct (hd_rw_completes (ide := idle_ide) sample_bio [] 3) as (_ & s1 & s2 & s3 & E1 & _ & E2 & _ & _ & _ & E3 & _ & _ & K & _);
    [exact sample_bio_wf | vm_compute; intuition congruence | unfold NBUF; lia
    | apply not_elem_of_nil |].
  injection E2 as <-. exists s1, s3. exact (conj E1 (conj E3 K)).
Defined.

(** The port writes of [hd_dorw] address the buffer's sector: for a sector
    below 2^28 the four address registers give the number back, the disk
    selected is the slave in LBA mode, and exactly one sector is asked for. *)
Lemma hd_commands_lba (num flags : Z) (block : list Z) (Hn : 0 <= num < 2 ^ 28) :
  lba_of (hd_commands num flags block) = Some num /\
  (exists d, OutB HDR_DEVICE d ∈ hd_commands num flags block /\ d / 16 = 15) /\
  OutB HDR_NSECT 1 ∈ hd_commands num flags block.
Proof.
  assert (Hd : u8 (Z.lor dev_select (Z.land (Z.shiftr num 24) 15)) = 240 + (num / 16777216)).
  { change 15 with (2 ^ 4 - 1). rewrite land_ones_mod, Z.shiftr_div_pow2 by lia.
    change dev_select with 240. rewrite (lor_low_add 240 _ 4);
      [|lia|reflexivity|apply Z.mod_pos_bound; lia].
    change (2 ^ 24) with 16777216. change (2 ^ 4) with 16. change (2 ^ 28) with 268435456 in Hn.
    unfold u8. modlia. }
  change (2 ^ 28) with 268435456 in Hn. split.
  - unfold hd_commands, lba_of. cbn [app]. rewrite Hd. f_equal.
    change 255 with (2 ^ 8 - 1). rewrite !land_ones_mod, !Z.shiftr_div_pow2 by lia.
    change (2 ^ 8) with 256. change (2 ^ 16) with 65536. modlia.
  - split; [|unfold hd_commands; do 1 right; left].
    eexists. split; [unfold hd_commands; do 5 right; left|]. rewrite Hd. modlia.
Qed.

