(* ===== verification/Buffer.v ===== *)
(** * The buffer cache

    fs/buffer.c: sixteen buffers on a circular list, most recently released
    first.  [getblk] locks the buffer of a sector, reusing the least recently
    released one when the sector is not cached; [bread] fills it, [bwrite]
    sends it to its device, [brelse] unlocks it.  A call that goes to sleep on
    a busy buffer ends in [Sleep]; the code repeats it from the beginning when
    it is woken.  The cache is transparent: reads and writes through it are
    reads and writes of the disk's sectors. *)

From stdpp Require Import base list strings.
From Stdlib Require Import ZArith Lia.
From S2P Require Import Prelude Ring Bio Hd.

Open Scope Z_scope.

(** ** Operations *)

(** One turn of the loop of [init_buffer]. *)
Definition init_buf (s : bio) (bp : nat) : bio :=
  let s1 := set_key s bp (u16 (-1)) (bnum s bp) in
  let h := bnext s1 BHEAD in
  set_links s1 (upd (upd (bnext s1) bp h) BHEAD bp) (upd (upd (bprev s1) bp BHEAD) h bp).

Definition init_buffer (s : bio) : bio :=
  fold_left init_buf (seq 0 NBUF)
    (set_links s (upd (bnext s) BHEAD BHEAD) (upd (bprev s) BHEAD BHEAD)).

(** The tests of the two loops of [getblk]. *)
Definition is_block (s : bio) (dev nblk : Z) (bp : nat) : bool :=
  bool_decide (bdev s bp = dev) && bool_decide (bnum s bp = nblk).

Definition is_free (s : bio) (bp : nat) : bool :=
  bool_decide (Z.land (bflags s bp) (Z.lor BUF_BUSY BUF_DIRTY) = 0).

Definition getblk (s : bio) (dev nblk : Z) : outcome (bio * nat) :=
  hit ← walk (S NBUF) (bnext s) BHEAD (is_block s dev nblk) (bnext s BHEAD);
  match hit with
  | Some bp =>
      if decide (Z.land (bflags s bp) BUF_BUSY = 0) then
        Ret (set_flags s bp (Z.lor (bflags s bp) BUF_BUSY), bp)
      else Stop (Sleep (Z.of_nat bp))
  | None =>
      victim ← walk (S NBUF) (bprev s) BHEAD (is_free s) (bprev s BHEAD);
      match victim with
      | Some bp => Ret (set_key (set_flags s bp BUF_BUSY) bp (u16 dev) nblk, bp)
      | None => Stop (Panic "getblk: no buffers available")
      end
  end.

Definition brelse (s : bio) (bp : nat) : outcome bio :=
  if decide (Z.land (bflags s bp) BUF_BUSY = 0) then
    Stop (Panic "bwrite: buffer isn't busy")
  else
    (* bp->next->prev = bp->prev; bp->prev->next = bp->next *)
    let p1 := upd (bprev s) (bnext s bp) (bprev s bp) in
    let n1 := upd (bnext s) (p1 bp) (bnext s bp) in
    (* bp->next = bhead.next; bp->prev = &bhead *)
    let n2 := upd n1 bp (n1 BHEAD) in
    let p2 := upd p1 bp BHEAD in
    (* bhead.next->prev = bp; bhead.next = bp *)
    let p3 := upd p2 (n2 BHEAD) bp in
    let n3 := upd n2 BHEAD bp in
    let s1 := set_links s n3 p3 in
    Ret (wake (set_flags s1 bp (Z.ldiff (bflags s1 bp) BUF_BUSY)) bp).

Section Cache.

Context `{ide : IdeDevice}.

Definition buf_ll_rw (s : bio) (bp : nat) : outcome bio :=
  if decide (MAJOR (bdev s bp) = MEM_MAJOR) then memhd_rw s bp
  else if decide (MAJOR (bdev s bp) = HD_MAJOR) then hd_rw s bp
  else Stop (Panic "buf_ll_rw").

Definition bread (s : bio) (dev nblk : Z) : outcome (bio * nat) :=
  '(s1, bp) ← getblk s dev nblk;
  if decide (Z.land (bflags s1 bp) BUF_VALID = 0) then
    s2 ← buf_ll_rw s1 bp; Ret (s2, bp)
  else Ret (s1, bp).

Definition bwrite (s : bio) (bp : nat) : outcome bio :=
  if decide (Z.land (bflags s bp) BUF_BUSY = 0) then
    Stop (Panic "bwrite: buffer isn't busy")
  else buf_ll_rw (set_flags s bp (Z.lor (bflags s bp) BUF_DIRTY)) bp.

(** The [n] sectors from [blk_no] on, appended to what the caller's buffer
    holds already. *)
Fixpoint bread_loop (n : nat) (s : bio) (dev : Z) (buf : list Z) (blk_no : Z) :
    outcome (bio * list Z) :=
  match n with
  | O => Ret (s, buf)
  | S k =>
      '(s1, bp) ← bread s dev (u32 blk_no);
      let buf' := buf ++ bdata s1 bp in
      s2 ← brelse s1 bp;
      bread_loop k s2 dev buf' (s32 (blk_no + 1))
  end.

Definition bread_nblocks (s : bio) (dev blk_no n : Z) : outcome (bio * list Z) :=
  bread_loop (Z.to_nat n) s dev [] blk_no.

Definition bread_block (s : bio) (dev blk_no : Z) : outcome (bio * list Z) :=
  bread_nblocks s dev blk_no 2.

End Cache.

(** ** Specification *)

(** The memory disk is one device. *)
Definition MEMDEV : Z := MKDEV MEM_MAJOR 0.

Definition busy (s : bio) (i : nat) : bool := has (bflags s i) BUF_BUSY.

(** What holds of the buffer [i] when nobody has it locked: it is clean, and a
    valid buffer of the memory disk holds its sector. *)
Definition coherent (s : bio) (i : nat) : Prop :=
  has (bflags s i) BUF_DIRTY = false /\
  (has (bflags s i) BUF_VALID = true -> bdev s i = MEMDEV ->
   bnum s i < disksize s /\ bdata s i = sector s (bnum s i)).

Record buf_ok (s : bio) (i : nat) : Prop := {
  ok_flags : 0 <= bflags s i < 8;
  ok_dev : 0 <= bdev s i < 65536;
  ok_num : 0 <= bnum s i < 4294967296;
  ok_data : length (bdata s i) = BUF_SIZE;
  ok_minor : MAJOR (bdev s i) = MEM_MAJOR -> bdev s i = MEMDEV;
  ok_coherent : busy s i = false -> coherent s i
}.

(** The cache invariant: the ring holds every buffer once, each is in order,
    and no sector of the memory disk has two buffers. *)
Record cache_wf (s : bio) (l : list nat) : Prop := {
  wf_ring : ring (bnext s) (bprev s) BHEAD l;
  wf_all : l ≡ₚ seq 0 NBUF;
  wf_disk : memhd_ok s;
  wf_bufs : forall i, i ∈ l -> buf_ok s i;
  wf_unique : forall i j, i ∈ l -> j ∈ l -> bdev s i = MEMDEV -> bdev s j = MEMDEV ->
    bnum s i = bnum s j -> i = j
}.

(** Nothing is locked: between two calls of the file system. *)
Definition quiet (s : bio) (l : list nat) : Prop := forall i, i ∈ l -> busy s i = false.

(** The same ring, disk and contents of all buffers but [b]. *)
Record same_but (s s' : bio) (b : nat) : Prop := {
  sb_next : bnext s' = bnext s;
  sb_prev : bprev s' = bprev s;
  sb_start : hdstart s' = hdstart s;
  sb_size : disksize s' = disksize s;
  sb_dev : forall j, j <> b -> bdev s' j = bdev s j;
  sb_num : forall j, j <> b -> bnum s' j = bnum s j;
  sb_flags : forall j, j <> b -> bflags s' j = bflags s j;
  sb_data : forall j, j <> b -> bdata s' j = bdata s j
}.

(** Abstract disk: sectors, with reads and writes of whole sectors. *)
Inductive disk_op : Type :=
  | DRead (n : Z)
  | DWrite (n : Z) (block : list Z).

Definition disk_run1 (d : Z -> list Z) (o : disk_op) : (Z -> list Z) * list (list Z) :=
  match o with
  | DRead n => (d, [d n])
  | DWrite n b => (fun k => if decide (k = n) then b else d k, [])
  end.

Fixpoint disk_run (d : Z -> list Z) (os : list disk_op) : (Z -> list Z) * list (list Z) :=
  match os with
  | [] => (d, [])
  | o :: os' =>
      let '(d1, r1) := disk_run1 d o in
      let '(d2, r2) := disk_run d1 os' in (d2, r1 ++ r2)
  end.

(** The same operations through the cache: [bread], change the locked buffer,
    [bwrite], [brelse]. *)
Definition cache_run1 `{ide : IdeDevice} (s : bio) (o : disk_op) : outcome (bio * list (list Z)) :=
  match o with
  | DRead n =>
      '(s1, bp) ← bread s MEMDEV n;
      s2 ← brelse s1 bp; Ret (s2, [bdata s1 bp])
  | DWrite n b =>
      '(s1, bp) ← bread s MEMDEV n;
      s2 ← bwrite (set_data s1 bp b) bp;
      s3 ← brelse s2 bp; Ret (s3, [])
  end.

Fixpoint cache_run `{ide : IdeDevice} (s : bio) (os : list disk_op) :
    outcome (bio * list (list Z)) :=
  match os with
  | [] => Ret (s, [])
  | o :: os' =>
      '(s1, r1) ← cache_run1 s o;
      '(s2, r2) ← cache_run s1 os'; Ret (s2, r1 ++ r2)
  end.

(** The kernel's memory before initialisation: static data is zero, the memory
    disk [m] of [n] sectors is at address [a]. *)
Definition boot_bio (m : memory) (a n : Z) : bio :=
  mkBio (fun _ => O) (fun _ => O) (fun _ => 0) (fun _ => 0) (fun _ => 0)
        (fun _ => repeat 0 BUF_SIZE) (fun _ => None) None [] m a n [].

Definition op_ok (size : Z) (o : disk_op) : Prop :=
  match o with
  | DRead n => 0 <= n < size
  | DWrite n b => 0 <= n < size /\ length b = BUF_SIZE
  end.

(** ** Lemmas *)

Lemma buf_ok_ext s s' i :
  bdev s' i = bdev s i -> bflags s' i = bflags s i -> bnum s' i = bnum s i ->
  bdata s' i = bdata s i -> disksize s' = disksize s ->
  (bdev s i = MEMDEV -> sector s' (bnum s i) = sector s (bnum s i)) ->
  buf_ok s i -> buf_ok s' i.
Proof.
  intros Hd Hf Hn Hb Hz Hs [H1 H2 H3 H4 H5 H6].
  split; unfold busy, coherent in *; rewrite ?Hd, ?Hf, ?Hn, ?Hb, ?Hz; try done.
  intros Hbusy. destruct (H6 Hbusy) as [Hdirty Hval]. split; [done|].
  intros Hv Hm. rewrite Hs by done. by apply Hval.
Qed.

(** A change to one buffer keeps the invariant when that buffer is in order
    and the sectors of the others did not change. *)
Lemma cache_wf_step s s' l b :
  cache_wf s l -> same_but s s' b -> buf_ok s' b ->
  (forall i, i ∈ l -> i <> b -> bdev s i = MEMDEV ->
     sector s' (bnum s i) = sector s (bnum s i) /\
     (bdev s' b = MEMDEV -> bnum s' b <> bnum s i)) ->
  cache_wf s' l.
Proof.
  intros [Hr Ha Hd Hb Hu] [E1 E2 E3 E4 E5 E6 E7 E8] Hok Ho. split.
  - by rewrite E1, E2.
  - done.
  - unfold memhd_ok. by rewrite E4.
  - intros i Hi. destruct (decide (i = b)) as [->|Hne]; [done|].
    apply (buf_ok_ext s); auto. intros Hm. by apply (Ho i Hi Hne).
  - intros i j Hi Hj Hmi Hmj Hn.
    destruct (decide (i = b)) as [->|Hi']; destruct (decide (j = b)) as [->|Hj']; [done| | |].
    + rewrite E5 in Hmj by done. rewrite (E6 j) in Hn by done.
      by destruct (Ho j Hj Hj' Hmj) as [_ []].
    + rewrite E5 in Hmi by done. rewrite (E6 i) in Hn by done.
      by destruct (Ho i Hi Hi' Hmi) as [_ []].
    + rewrite !E5 in Hmi, Hmj by done. rewrite !E6 in Hn by done. by apply Hu.
Qed.

Lemma ring_search s l p :
  cache_wf s l -> walk (S NBUF) (bnext s) BHEAD p (bnext s BHEAD) = Ret (List.find p l).
Proof.
  intros [[Hl Hnd] Ha _ _ _]. apply NoDup_cons in Hnd as [Hh _].
  apply (walk_next _ (bprev s)); [done|done|]. rewrite Ha, length_seq. lia.
Qed.

Lemma ring_search_back s l p :
  cache_wf s l -> walk (S NBUF) (bprev s) BHEAD p (bprev s BHEAD) = Ret (List.find p (rev l)).
Proof.
  intros [[Hl Hnd] Ha _ _ _]. apply NoDup_cons in Hnd as [Hh _].
  apply (walk_prev (bnext s)); [done|done|]. rewrite Ha, length_seq. lia.
Qed.

Lemma is_block_true s d n i : is_block s d n i = true <-> bdev s i = d /\ bnum s i = n.
Proof. unfold is_block. rewrite andb_true_iff, !bool_decide_eq_true. done. Qed.

(** An unlocked buffer in order has only the valid flag, or none. *)
Lemma unlocked_flags s i :
  buf_ok s i -> busy s i = false -> bflags s i = 0 \/ bflags s i = 2.
Proof.
  intros Hok Hb. destruct (ok_coherent _ _ Hok Hb) as [Hd _]. unfold busy in Hb.
  destruct (flags_cases _ (ok_flags _ _ Hok)) as [E|[E|[E|[E|[E|[E|[E|E]]]]]]];
    rewrite E in *; vm_compute in Hb, Hd; first [discriminate | tauto].
Qed.

Lemma is_free_unlocked s i : buf_ok s i -> is_free s i = true <-> busy s i = false.
Proof.
  intros Hok. split; intros H.
  - unfold is_free, busy in *.
    destruct (flags_cases _ (ok_flags _ _ Hok)) as [E|[E|[E|[E|[E|[E|[E|E]]]]]]];
      rewrite E in *; vm_compute in H |- *; first [discriminate | done].
  - unfold is_free. by destruct (unlocked_flags s i Hok H) as [->| ->].
Qed.

(** The sector is cached: its buffer is locked. *)
Lemma getblk_hit s l i n :
  cache_wf s l -> i ∈ l -> bdev s i = MEMDEV -> bnum s i = n -> busy s i = false ->
  getblk s MEMDEV n = Ret (set_flags s i (Z.lor (bflags s i) BUF_BUSY), i).
Proof.
  intros Hwf Hi Hd Hn Hb. unfold getblk. rewrite (ring_search s l) by done.
  cbn [mbind outcome_bind]. destruct (List.find _ l) as [j|] eqn:E.
  - apply find_some in E as [Hj Hk]. apply list_elem_of_In in Hj.
    apply is_block_true in Hk as [Hjd Hjn].
    rewrite (wf_unique _ _ Hwf i j) by congruence.
    assert (j = i) as -> by (apply (wf_unique _ _ Hwf); congruence).
    by destruct (unlocked_flags s i (wf_bufs _ _ Hwf i Hi) Hb) as [E|E]; rewrite E.
  - apply (find_none _ _) with (x := i) in E; [|by apply list_elem_of_In].
    apply not_true_iff_false in E. rewrite is_block_true in E. by destruct E.
Qed.

(** The sector is not cached: the last unlocked buffer of the ring is taken. *)
Lemma getblk_miss s l n v :
  cache_wf s l -> (forall i, i ∈ l -> bdev s i = MEMDEV -> bnum s i <> n) ->
  List.find (is_free s) (rev l) = Some v ->
  getblk s MEMDEV n = Ret (set_key (set_flags s v BUF_BUSY) v MEMDEV n, v).
Proof.
  intros Hwf Hno Hv. unfold getblk. rewrite (ring_search s l) by done.
  cbn [mbind outcome_bind]. destruct (List.find (is_block _ _ _) l) as [j|] eqn:E.
  - apply find_some in E as [Hj Hk]. apply list_elem_of_In in Hj.
    apply is_block_true in Hk as [Hjd Hjn]. by destruct (Hno j Hj Hjd).
  - rewrite (ring_search_back s l) by done. cbn [mbind outcome_bind]. by rewrite Hv.
Qed.

Lemma same_but_refl s b : same_but s s b.
Proof. by split. Qed.

Lemma same_but_trans s1 s2 s3 b : same_but s1 s2 b -> same_but s2 s3 b -> same_but s1 s3 b.
Proof.
  intros [A1 A2 A3 A4 A5 A6 A7 A8] [B1 B2 B3 B4 B5 B6 B7 B8]. split; try congruence;
    intros j Hj; rewrite ?B5, ?B6, ?B7, ?B8 by exact Hj; auto.
Qed.

Lemma same_but_flags s b f : same_but s (set_flags s b f) b.
Proof. split; try done. intros. by apply upd_other. Qed.

Lemma same_but_key s b d n : same_but s (set_key s b d n) b.
Proof. split; try done; intros; by apply upd_other. Qed.

Lemma same_but_data s b d : same_but s (set_data s b d) b.
Proof. split; try done. intros. by apply upd_other. Qed.

Lemma same_but_hdmem s b m : same_but s (set_hdmem s m) b.
Proof. by split. Qed.

#[export] Hint Resolve same_but_refl same_but_flags same_but_key same_but_data same_but_hdmem : chunix.

Lemma MEMDEV_major : MAJOR MEMDEV = MEM_MAJOR.
Proof. reflexivity. Qed.

(** [getblk] of a sector nobody has locked, while some buffer is unlocked. *)
Lemma getblk_ok s l n :
  cache_wf s l -> 0 <= n < disksize s ->
  (forall i, i ∈ l -> bdev s i = MEMDEV -> bnum s i = n -> busy s i = false) ->
  (exists i, i ∈ l /\ busy s i = false) ->
  exists s' b, getblk s MEMDEV n = Ret (s', b) /\ b ∈ l /\ busy s b = false /\
    same_but s s' b /\ hdmem s' = hdmem s /\ cache_wf s' l /\
    bdev s' b = MEMDEV /\ bnum s' b = n /\
    (bflags s' b = 1 \/ bflags s' b = 3 /\ bdata s' b = sector s n).
Proof.
  intros Hwf Hn Hbusy (k & Hk & Hkb). pose proof (wf_disk _ _ Hwf) as Hok.
  destruct (List.find (is_block s MEMDEV n) l) as [i|] eqn:E.
  - apply find_some in E as [Hi Hk2]. apply list_elem_of_In in Hi.
    apply is_block_true in Hk2 as [Hd Hin]. specialize (Hbusy i Hi Hd Hin).
    pose proof (wf_bufs _ _ Hwf i Hi) as Hb. pose proof (unlocked_flags s i Hb Hbusy) as Hf.
    destruct (ok_coherent _ _ Hb Hbusy) as [_ Hc].
    exists (set_flags s i (Z.lor (bflags s i) BUF_BUSY)), i.
    split; [by apply (getblk_hit s l)|]. split; [done|]. split; [done|].
    split; [apply same_but_flags|]. split; [done|]. split.
    + apply (cache_wf_step s _ l i); [done|apply same_but_flags| |].
      * destruct Hb as [B1 B2 B3 B4 B5 B6].
        split; unfold busy, coherent; cbn; rewrite ?upd_same; try done;
          destruct Hf as [E|E]; rewrite E; done.
      * intros j Hj Hne Hmj. split; [done|]. cbn. intros _ Heq.
        apply Hne. symmetry. by apply (wf_unique _ _ Hwf).
    + split; [done|]. split; [done|]. cbn. rewrite upd_same.
      destruct Hf as [E|E]; rewrite E in *; [by left|right]. split; [done|].
      destruct (Hc eq_refl Hd) as [_ ->]. by rewrite Hin.
  - assert (Hno : forall i, i ∈ l -> bdev s i = MEMDEV -> bnum s i <> n).
    { intros i Hi Hd Hin. apply (find_none _ _) with (x := i) in E; [|by apply list_elem_of_In].
      apply not_true_iff_false in E. apply E, is_block_true. done. }
    destruct (List.find (is_free s) (rev l)) as [v|] eqn:Ev; cycle 1.
    { apply (find_none _ _) with (x := k) in Ev; [|rewrite <- in_rev; by apply list_elem_of_In].
      apply not_true_iff_false in Ev. destruct Ev. apply is_free_unlocked; [|done].
      by apply (wf_bufs _ _ Hwf). }
    pose proof Ev as Ev2. apply find_some in Ev2 as [Hv Hfree].
    rewrite <- in_rev in Hv. apply list_elem_of_In in Hv.
    pose proof (wf_bufs _ _ Hwf v Hv) as Hb. apply is_free_unlocked in Hfree; [|done].
    assert (Hsb : same_but s (set_key (set_flags s v BUF_BUSY) v MEMDEV n) v)
      by (eapply same_but_trans; [apply same_but_flags|apply same_but_key]).
    exists (set_key (set_flags s v BUF_BUSY) v MEMDEV n), v.
    split; [by apply (getblk_miss s l)|]. split; [done|]. split; [done|].
    split; [done|]. split; [done|]. split; [|cbn; rewrite !upd_same; auto].
    apply (cache_wf_step s _ l v); [done|done| |].
    + destruct Hb as [B1 B2 B3 B4 B5 B6]. unfold memhd_ok in Hok.
      split; unfold busy, coherent; cbn; rewrite ?upd_same; try done; lia.
    + intros j Hj Hne Hmj. split; [done|]. cbn. rewrite !upd_same. intros _ Heq.
      by apply (Hno j Hj Hmj).
Qed.

(** [bread] locks a buffer that holds the sector and leaves the disk alone. *)
Lemma bread_ok `{ide : IdeDevice} s l n :
  cache_wf s l -> 0 <= n < disksize s ->
  (forall i, i ∈ l -> bdev s i = MEMDEV -> bnum s i = n -> busy s i = false) ->
  (exists i, i ∈ l /\ busy s i = false) ->
  exists s' b, bread s MEMDEV n = Ret (s', b) /\ b ∈ l /\ busy s b = false /\
    same_but s s' b /\ hdmem s' = hdmem s /\ cache_wf s' l /\
    bdev s' b = MEMDEV /\ bnum s' b = n /\ bflags s' b = 3 /\ bdata s' b = sector s n.
Proof.
  intros Hwf Hn Hb Hf.
  destruct (getblk_ok s l n Hwf Hn Hb Hf)
    as (s1 & b & E & Hbl & Hbb & Hsb & Hm & Hwf1 & Hd & Hnum & Hfl).
  unfold bread. rewrite E. cbn [mbind outcome_bind].
  destruct Hfl as [Hfl|[Hfl Hdat]]; rewrite Hfl; cycle 1.
  { exists s1, b. done. }
  assert (Hsec : sector s1 n = sector s n).
  { unfold sector. by rewrite Hm, (sb_start _ _ _ Hsb). }
  assert (Hn1 : 0 <= bnum s1 b < disksize s1) by (rewrite Hnum, (sb_size _ _ _ Hsb); lia).
  rewrite decide_True by done. unfold buf_ll_rw. rewrite Hd, MEMDEV_major, decide_True by done.
  rewrite (memhd_rw_read s1 b) by (try rewrite Hd; try done; apply Hwf1).
  cbn [mbind outcome_bind]. rewrite Hnum, Hsec.
  set (s2 := set_flags (set_data s1 b (sector s n)) b (Z.lor BUF_BUSY BUF_VALID)).
  assert (Hsb2 : same_but s1 s2 b)
    by (eapply same_but_trans; [apply same_but_data|apply same_but_flags]).
  exists s2, b. split; [done|]. split; [done|]. split; [done|].
  split; [by eapply same_but_trans|]. split; [done|]. split; [|cbn; rewrite !upd_same; auto].
  apply (cache_wf_step s1 _ l b); [done|done| |].
  - destruct (wf_bufs _ _ Hwf1 b Hbl) as [B1 B2 B3 B4 B5 B6].
    split; unfold busy, coherent; cbn; rewrite ?upd_same; done.
  - intros j Hj Hne Hmj. split; [done|]. cbn. intros _ Heq. apply Hne.
    symmetry. apply (wf_unique _ _ Hwf1); done.
Qed.

(** [bwrite] of a locked valid buffer puts its data into its sector. *)
Lemma bwrite_ok `{ide : IdeDevice} s l b :
  cache_wf s l -> b ∈ l -> bflags s b = 3 -> bdev s b = MEMDEV ->
  bnum s b < disksize s ->
  exists s', bwrite s b = Ret s' /\ same_but s s' b /\ cache_wf s' l /\
    bdev s' b = MEMDEV /\ bnum s' b = bnum s b /\ bflags s' b = 3 /\ bdata s' b = bdata s b /\
    (forall n, 0 <= n -> sector s' n = if decide (n = bnum s b) then bdata s b else sector s n).
Proof.
  intros Hwf Hb Hf Hd Hn. pose proof (wf_bufs _ _ Hwf b Hb) as [B1 B2 B3 B4 B5 B6].
  unfold bwrite. rewrite Hf. rewrite decide_False by done.
  unfold buf_ll_rw. cbn [bdev set_flags]. rewrite Hd, decide_True by done.
  destruct (memhd_rw_write (set_flags s b (Z.lor 3 BUF_DIRTY)) b) as (s' & E & ->).
  { apply Hwf. }
  { right. cbn. by rewrite upd_same. }
  { cbn. by rewrite Hd. }
  { cbn. lia. }
  rewrite E. clear E. cbn [hdmem hdstart bnum bdata set_flags].
  set (s' := set_flags _ b 3).
  assert (Hsb : same_but s s' b) by (split; try done; intros; cbn; by rewrite !upd_other).
  assert (Hsec : forall n, 0 <= n ->
            sector s' n = if decide (n = bnum s b) then bdata s b else sector s n).
  { intros n H0. unfold sector. cbn [hdmem hdstart s' set_flags set_hdmem].
    case_decide as Hc; [subst n; rewrite <- B4; apply read_write_bytes_same|].
    apply read_write_bytes_other. rewrite B4. change (Z.of_nat BUF_SIZE) with 512. lia. }
  exists s'. split; [done|]. split; [done|].
  split; [|cbn; rewrite !upd_same; repeat split; [exact Hd|exact Hsec]].
  apply (cache_wf_step s _ l b); [done|done| |].
  - split; unfold busy, coherent; cbn; rewrite ?upd_same; done.
  - intros j Hj Hne Hmj. assert (Hnum : bnum s b <> bnum s j).
    { intros Heq. apply Hne. symmetry. by apply (wf_unique _ _ Hwf). }
    split; [|done]. pose proof (ok_num _ _ (wf_bufs _ _ Hwf j Hj)).
    rewrite Hsec by lia. by rewrite decide_False.
Qed.

(** [brelse] moves a clean locked buffer to the front and unlocks it. *)
Lemma brelse_ok s l1 b l2 :
  cache_wf s (l1 ++ b :: l2) -> bflags s b = 3 -> bdev s b = MEMDEV ->
  bnum s b < disksize s -> bdata s b = sector s (bnum s b) ->
  exists s', brelse s b = Ret s' /\ cache_wf s' (b :: l1 ++ l2) /\
    bflags s' = upd (bflags s) b 2 /\ bdev s' = bdev s /\ bnum s' = bnum s /\
    bdata s' = bdata s /\ hdmem s' = hdmem s /\ hdstart s' = hdstart s /\
    disksize s' = disksize s.
Proof.
  intros Hwf Hf Hd Hn Hdat. unfold brelse. rewrite Hf, decide_False by done.
  set (l := l1 ++ b :: l2) in *.
  assert (Hbh : b ∈ l) by (unfold l; elem_solve).
  pose proof (wf_ring _ _ Hwf) as Hring. pose proof Hring as [_ Hnd].
  assert (Hb : b <> BHEAD) by (apply NoDup_cons in Hnd as [Hnd _]; congruence).
  assert (Hp : upd (bprev s) (bnext s b) (bprev s b) b = bprev s b).
  { unfold upd. by case_decide. }
  rewrite Hp. pose proof (ring_unlink _ _ _ _ _ _ Hring) as Hu.
  apply (ring_push _ _ _ _ b) in Hu; cycle 1.
  { unfold l in Hnd. apply NoDup_cons in Hnd as [_ Hnd]. apply NoDup_app in Hnd as (_ & H2 & H3).
    apply NoDup_cons in H3 as [H3 _]. apply not_elem_of_cons. split; [done|].
    intros Hin. apply elem_of_app in Hin as [Hin|Hin]; [|done]. apply (H2 b Hin). left. }
  eexists. split; [reflexivity|]. split; [|cbn; by rewrite Hf].
  assert (Hmem : forall i, i ∈ b :: l1 ++ l2 -> i ∈ l) by (unfold l; intros i; elem_solve).
  split.
  - cbn. rewrite (upd_other _ b) by done. exact Hu.
  - rewrite <- (wf_all _ _ Hwf). unfold l. by rewrite Permutation_middle.
  - exact (wf_disk _ _ Hwf).
  - intros i Hi. apply Hmem in Hi. pose proof (wf_bufs _ _ Hwf i Hi) as Hok.
    destruct (decide (i = b)) as [->|Hne].
    + destruct Hok as [B1 B2 B3 B4 B5 B6].
      split; unfold busy, coherent; cbn; rewrite ?upd_same, ?Hf; done.
    + apply (buf_ok_ext s); try done. cbn. by apply upd_other.
  - intros i j Hi Hj. apply (wf_unique _ _ Hwf); auto.
Qed.

(** A read and a write of one sector, from lock to release. *)
Lemma read_ok `{ide : IdeDevice} s l n :
  cache_wf s l -> quiet s l -> 0 <= n < disksize s ->
  exists s1 b s2 l', bread s MEMDEV n = Ret (s1, b) /\ bdata s1 b = sector s n /\
    brelse s1 b = Ret s2 /\ cache_wf s2 l' /\ quiet s2 l' /\
    hdmem s2 = hdmem s /\ hdstart s2 = hdstart s /\ disksize s2 = disksize s.
Proof.
  intros Hwf Hq Hn.
  assert (Hfree : exists i, i ∈ l /\ busy s i = false).
  { exists 0%nat. assert (H : 0%nat ∈ l) by (rewrite (wf_all _ _ Hwf); left). split; auto. }
  destruct (bread_ok s l n Hwf Hn) as (s1 & b & E & Hb & _ & Hsb & Hm & Hwf1 & Hd & Hnum & Hf & Hdat);
    [auto|done|].
  pose proof Hb as Hsplit. apply list_elem_of_split in Hsplit as (l1 & l2 & ->).
  destruct (brelse_ok s1 l1 b l2 Hwf1 Hf Hd) as (s2 & E2 & Hwf2 & Hf2 & _ & _ & _ & Hm2 & Hs2 & Hz2).
  { rewrite Hnum, (sb_size _ _ _ Hsb). lia. }
  { rewrite Hdat, Hnum. unfold sector. by rewrite Hm, (sb_start _ _ _ Hsb). }
  exists s1, b, s2, (b :: l1 ++ l2). split; [done|]. split; [done|]. split; [done|].
  split; [done|]. split.
  - intros i Hi. unfold busy. rewrite Hf2. unfold upd. case_decide as Hc; [done|].
    rewrite (sb_flags _ _ _ Hsb i Hc). apply Hq. elem_solve.
  - rewrite Hm2, Hs2, Hz2, Hm, (sb_start _ _ _ Hsb), (sb_size _ _ _ Hsb). done.
Qed.

Lemma write_ok `{ide : IdeDevice} s l n block :
  cache_wf s l -> quiet s l -> 0 <= n < disksize s -> length block = BUF_SIZE ->
  exists s1 b s2 s3 l', bread s MEMDEV n = Ret (s1, b) /\
    bwrite (set_data s1 b block) b = Ret s2 /\ brelse s2 b = Ret s3 /\
    cache_wf s3 l' /\ quiet s3 l' /\ disksize s3 = disksize s /\
    (forall k, 0 <= k -> sector s3 k = if decide (k = n) then block else sector s k).
Proof.
  intros Hwf Hq Hn Hlen.
  assert (Hfree : exists i, i ∈ l /\ busy s i = false).
  { exists 0%nat. assert (H : 0%nat ∈ l) by (rewrite (wf_all _ _ Hwf); left). split; auto. }
  destruct (bread_ok s l n Hwf Hn) as (s1 & b & E & Hb & _ & Hsb & Hm & Hwf1 & Hd & Hnum & Hf & Hdat);
    [auto|done|].
  assert (Hwf1' : cache_wf (set_data s1 b block) l).
  { apply (cache_wf_step s1 _ l b); [done|apply same_but_data| |].
    - destruct (wf_bufs _ _ Hwf1 b Hb) as [B1 B2 B3 B4 B5 B6].
      split; unfold busy, coherent; cbn; rewrite ?upd_same, ?Hf; done.
    - intros j Hj Hne Hmj. split; [done|]. intros _ Heq. apply Hne. symmetry.
      by apply (wf_unique _ _ Hwf1). }
  destruct (bwrite_ok (set_data s1 b block) l b Hwf1' Hb Hf Hd)
    as (s2 & E2 & Hsb2 & Hwf2 & Hd2 & Hnum2 & Hf2 & Hdat2 & Hsec2).
  { cbn. rewrite Hnum, (sb_size _ _ _ Hsb). lia. }
  cbn [bnum bdata set_data] in *. rewrite upd_same in *.
  pose proof (sb_size _ _ _ Hsb2) as Hz2. cbn in Hz2. rewrite (sb_size _ _ _ Hsb) in Hz2.
  pose proof Hb as Hsplit. apply list_elem_of_split in Hsplit as (l1 & l2 & ->).
  destruct (brelse_ok s2 l1 b l2 Hwf2 Hf2 Hd2) as (s3 & E3 & Hwf3 & Hf3 & _ & _ & _ & Hm3 & Hs3 & Hz3).
  { rewrite Hnum2, Hnum, Hz2. lia. }
  { rewrite Hdat2, Hnum2, Hsec2 by lia. by rewrite decide_True. }
  exists s1, b, s2, s3, (b :: l1 ++ l2). split; [done|]. split; [done|]. split; [done|].
  split; [done|]. split; [|split; [congruence|]].
  - intros i Hi. unfold busy. rewrite Hf3. unfold upd. case_decide as Hc; [done|].
    rewrite (sb_flags _ _ _ Hsb2 i Hc). cbn. rewrite (sb_flags _ _ _ Hsb i Hc).
    apply Hq. elem_solve.
  - intros k Hk. transitivity (sector s2 k); [unfold sector; by rewrite Hm3, Hs3|].
    rewrite Hsec2, Hnum by done. case_decide; [done|].
    unfold sector. cbn. by rewrite Hm, (sb_start _ _ _ Hsb).
Qed.

Lemma cache_run1_ok `{ide : IdeDevice} s l o :
  cache_wf s l -> quiet s l -> op_ok (disksize s) o ->
  exists s' l', cache_run1 s o = Ret (s', (disk_run1 (sector s) o).2) /\
    cache_wf s' l' /\ quiet s' l' /\ disksize s' = disksize s /\
    (forall k, 0 <= k -> sector s' k = (disk_run1 (sector s) o).1 k).
Proof.
  intros Hwf Hq Ho. destruct o as [n|n block]; cbn [op_ok cache_run1 disk_run1 fst snd] in *.
  - destruct (read_ok s l n Hwf Hq Ho) as (s1 & b & s2 & l' & E1 & Hd & E2 & Hwf2 & Hq2 & Hm & Hs & Hz).
    exists s2, l'. rewrite E1. cbn [mbind outcome_bind]. rewrite E2. cbn [mbind outcome_bind].
    rewrite Hd. repeat (split; [done|]). intros k _. unfold sector. by rewrite Hm, Hs.
  - destruct Ho as [Hn Hlen].
    destruct (write_ok s l n block Hwf Hq Hn Hlen)
      as (s1 & b & s2 & s3 & l' & E1 & E2 & E3 & Hwf3 & Hq3 & Hz & Hsec).
    exists s3, l'. rewrite E1. cbn [mbind outcome_bind]. rewrite E2. cbn [mbind outcome_bind].
    rewrite E3. done.
Qed.

(** The abstract disk only looks at sectors in range. *)
Lemma disk_run_ext size os : forall d d',
  Forall (op_ok size) os -> (forall k, 0 <= k -> d' k = d k) ->
  (disk_run d' os).2 = (disk_run d os).2 /\
  forall k, 0 <= k -> (disk_run d' os).1 k = (disk_run d os).1 k.
Proof.
  induction os as [|o os IH]; intros d d' Hos Hd; [done|].
  apply Forall_cons in Hos as [Ho Hos]. cbn [disk_run].
  assert (H : (disk_run1 d' o).2 = (disk_run1 d o).2 /\
              forall k, 0 <= k -> (disk_run1 d' o).1 k = (disk_run1 d o).1 k).
  { destruct o as [n|n b]; cbn in *; [|split; [done|]; intros k Hk; case_decide; auto].
    rewrite Hd by lia. auto. }
  destruct (disk_run1 d' o) as [d1' r1'], (disk_run1 d o) as [d1 r1]. cbn [fst snd] in H.
  destruct H as [-> Hd1]. destruct (IH d1 d1' Hos Hd1) as [H2 H3].
  destruct (disk_run d1' os), (disk_run d1 os). cbn [fst snd] in *. by subst.
Qed.

Lemma cache_run_ok `{ide : IdeDevice} os : forall s l,
  cache_wf s l -> quiet s l -> Forall (op_ok (disksize s)) os ->
  exists s' l', cache_run s os = Ret (s', (disk_run (sector s) os).2) /\
    cache_wf s' l' /\ quiet s' l' /\ disksize s' = disksize s /\
    (forall k, 0 <= k -> sector s' k = (disk_run (sector s) os).1 k).
Proof.
  induction os as [|o os IH]; intros s l Hwf Hq Hos; [exists s, l; done|].
  apply Forall_cons in Hos as [Ho Hos].
  destruct (cache_run1_ok s l o Hwf Hq Ho) as (s1 & l1 & E1 & Hwf1 & Hq1 & Hz1 & Hsec1).
  rewrite <- Hz1 in Hos. destruct (IH s1 l1 Hwf1 Hq1 Hos) as (s2 & l2 & E2 & Hwf2 & Hq2 & Hz2 & Hsec2).
  destruct (disk_run_ext _ os (disk_run1 (sector s) o).1 (sector s1) Hos Hsec1) as [H1 H2].
  exists s2, l2. cbn [cache_run disk_run]. rewrite E1. cbn [mbind outcome_bind]. rewrite E2.
  cbn [mbind outcome_bind]. destruct (disk_run1 (sector s) o) as [d1 r1]. cbn [fst snd] in *.
  destruct (disk_run d1 os) as [d2 r2]. cbn [fst snd] in *. rewrite H1.
  split; [done|]. split; [done|]. split; [done|]. split; [congruence|].
  intros k Hk. rewrite Hsec2, H2 by done. done.
Qed.

Lemma bread_loop_ok `{ide : IdeDevice} n : forall s l buf blk,
  cache_wf s l -> quiet s l -> 0 <= blk -> blk + Z.of_nat n <= disksize s ->
  exists s' l', bread_loop n s MEMDEV buf blk =
      Ret (s', buf ++ read_bytes (hdmem s) (hdstart s + blk * 512) (n * 512)) /\
    cache_wf s' l' /\ quiet s' l' /\ hdmem s' = hdmem s /\ hdstart s' = hdstart s /\
    disksize s' = disksize s.
Proof.
  induction n as [|n IH]; intros s l buf blk Hwf Hq H0 Hn.
  - exists s, l. cbn. by rewrite app_nil_r.
  - cbn [bread_loop]. pose proof (wf_disk _ _ Hwf) as Hok. unfold memhd_ok in Hok.
    rewrite u32_small, s32_small by lia.
    destruct (read_ok s l blk Hwf Hq ltac:(lia))
      as (s1 & b & s2 & l' & E1 & Hd & E2 & Hwf2 & Hq2 & Hm & Hs & Hz).
    rewrite E1. cbn [mbind outcome_bind]. rewrite E2. cbn [mbind outcome_bind]. rewrite Hd.
    destruct (IH s2 l' (buf ++ sector s blk) (blk + 1) Hwf2 Hq2) as (s3 & l3 & E3 & R);
      [lia|lia|].
    exists s3, l3. rewrite E3. rewrite Hm, Hs in *. rewrite Hz in R. split; [|exact R].
    do 2 f_equal. rewrite <- app_assoc. f_equal.
    replace (S n * 512)%nat with (512 + n * 512)%nat by lia. rewrite read_bytes_app.
    unfold sector. f_equal. f_equal. lia.
Qed.

(** The loop of [init_buffer] pushes one buffer after the other. *)
Lemma init_loop_ok ks : forall s l,
  ring (bnext s) (bprev s) BHEAD l -> NoDup ks -> (forall k, k ∈ ks -> k ∉ BHEAD :: l) ->
  ring (bnext (fold_left init_buf ks s)) (bprev (fold_left init_buf ks s)) BHEAD (rev ks ++ l) /\
  (forall i, bdev (fold_left init_buf ks s) i = if decide (i ∈ ks) then 65535 else bdev s i).
Proof.
  induction ks as [|k ks IH]; intros s l Hr Hnd Hk.
  - split; [done|]. intros i. rewrite decide_False by apply not_elem_of_nil. done.
  - cbn [fold_left rev]. apply NoDup_cons in Hnd as [Hkks Hnd].
    destruct (IH (init_buf s k) (k :: l)) as [H1 H2].
    + apply ring_push; [done|]. apply Hk. left.
    + done.
    + intros j Hj. specialize (Hk j (list_elem_of_further _ _ _ Hj)).
      intros Hin. elem_solve.
    + rewrite <- app_assoc. split; [exact H1|]. intros i. rewrite H2. cbn. unfold upd.
      repeat case_decide; try done; elem_solve.
Qed.

Lemma init_fields ks : forall s,
  let s' := fold_left init_buf ks s in
  bflags s' = bflags s /\ (forall i, bnum s' i = bnum s i) /\ bdata s' = bdata s /\
  hdmem s' = hdmem s /\ hdstart s' = hdstart s /\ disksize s' = disksize s.
Proof.
  induction ks as [|k ks IH]; intros s; [done|]. cbn [fold_left].
  destruct (IH (init_buf s k)) as (H1 & H2 & H3 & H4 & H5 & H6). cbn zeta.
  rewrite H1, H3, H4, H5, H6. repeat split. intros i. rewrite H2. cbn. unfold upd.
  by case_decide; subst.
Qed.

Lemma init_buffer_ok m a n :
  0 <= n <= 8388608 ->
  cache_wf (init_buffer (boot_bio m a n)) (rev (seq 0 NBUF)) /\
  quiet (init_buffer (boot_bio m a n)) (rev (seq 0 NBUF)).
Proof.
  intros Hn.
  set (s0 := set_links (boot_bio m a n) (upd (fun _ => O) BHEAD BHEAD) (upd (fun _ => O) BHEAD BHEAD)).
  destruct (init_loop_ok (seq 0 NBUF) s0 []) as [Hr Hd].
  { split; [done|]. apply NoDup_singleton. }
  { apply NoDup_seq. }
  { intros k Hk. apply elem_of_seq in Hk. apply not_elem_of_cons.
    split; [unfold BHEAD, NBUF in *; lia | apply not_elem_of_nil]. }
  rewrite app_nil_r in Hr.
  destruct (init_fields (seq 0 NBUF) s0) as (Hf & Hnum & Hdat & Hm & Hs & Hz).
  change (init_buffer (boot_bio m a n)) with (fold_left init_buf (seq 0 NBUF) s0).
  set (s := fold_left init_buf (seq 0 NBUF) s0) in *.
  assert (Hdev : forall i, i ∈ rev (seq 0 NBUF) -> bdev s i = 65535).
  { intros i Hi. rewrite Hd, decide_True; [done|]. by apply elem_of_rev. }
  split; [split|].
  - exact Hr.
  - symmetry. apply Permutation_rev.
  - unfold memhd_ok. by rewrite Hz.
  - intros i Hi. split; unfold busy, coherent; rewrite ?Hf, ?Hdev, ?Hnum, ?Hdat by done; done.
  - intros i j Hi _ Hmi. rewrite Hdev in Hmi by done. discriminate.
  - intros i Hi. unfold busy. rewrite Hf. done.
Qed.

(** C3. The buffer cache is transparent: any sequence of sector reads and
    writes made through [bread], [bwrite] and [brelse] on an unlocked cache
    returns and leaves on the disk exactly what the same sequence does on a
    plain array of sectors, without ever sleeping or panicking, and the cache
    invariant holds again afterwards. *)
Theorem cache_refines_disk `{ide : IdeDevice} (s : bio) (l : list nat) (os : list disk_op)
    (Hwf : cache_wf s l) (Hq : quiet s l) (Hos : Forall (op_ok (disksize s)) os) :
  exists s' l', cache_run s os = Ret (s', (disk_run (sector s) os).2) /\
    cache_wf s' l' /\ quiet s' l' /\
    (forall k, 0 <= k -> sector s' k = (disk_run (sector s) os).1 k).
Proof.
  destruct (cache_run_ok os s l Hwf Hq Hos) as (s' & l' & E & Hwf' & Hq' & _ & Hs).
  by exists s', l'.
Qed.

Lemma cache_refines_disk_witness :
  exists s', cache_run (ide := idle_ide) (init_buffer (boot_bio (fun _ => 9) 4096 3))
    [DRead 1; DWrite 2 (repeat 5 512); DRead 2] = Ret (s', [repeat 9 512; repeat 5 512]).
Proof.
  destruct (init_buffer_ok (fun _ => 9) 4096 3 ltac:(lia)) as [Hwf Hq].
  destruct (cache_refines_disk (ide := idle_ide) (init_buffer (boot_bio (fun _ => 9) 4096 3))
    (rev (seq 0 NBUF)) [DRead 1; DWrite 2 (repeat 5 512); DRead 2] Hwf Hq)
    as (s' & l' & E & _).
  { repeat apply List.Forall_cons; [| | |apply List.Forall_nil]; vm_compute; intuition congruence. }
  exists s'. exact E.
Defined.

(** [bread_nblocks] returns the bytes of [n] consecutive sectors of the
    disk, changes nothing on the disk and unlocks every buffer it used. *)
Lemma bread_nblocks_reads `{ide : IdeDevice} (s : bio) (l : list nat) (blk_no n : Z)
    (Hwf : cache_wf s l) (Hq : quiet s l) (Hb : 0 <= blk_no) (Hn : 0 <= n)
    (Hr : blk_no + n <= disksize s) :
  exists s' l', bread_nblocks s MEMDEV blk_no n =
      Ret (s', read_bytes (hdmem s) (hdstart s + blk_no * 512) (Z.to_nat n * 512)) /\
    cache_wf s' l' /\ quiet s' l' /\ hdmem s' = hdmem s.
Proof.
  destruct (bread_loop_ok (Z.to_nat n) s l [] blk_no Hwf Hq Hb) as (s' & l' & E & R);
    [lia|]. exists s', l'. split; [exact E|]. destruct R as (R1 & R2 & R3 & _). done.
Qed.


(** [getblk] on every branch: a cached sector that is locked puts the
    caller to sleep on that buffer; a sector that is not cached takes the least
    recently released unlocked buffer, the first one from the end of the ring;
    and when every buffer is locked the kernel panics. *)
Lemma getblk_branches (s : bio) (l : list nat) (n : Z) (Hwf : cache_wf s l) :
  (forall i, i ∈ l -> bdev s i = MEMDEV -> bnum s i = n -> busy s i = true ->
     getblk s MEMDEV n = Stop (Sleep (Z.of_nat i))) /\
  ((forall i, i ∈ l -> bdev s i = MEMDEV -> bnum s i <> n) ->
     (forall l1 v l2, l = l1 ++ v :: l2 -> busy s v = false ->
        (forall i, i ∈ l2 -> busy s i = true) ->
        getblk s MEMDEV n = Ret (set_key (set_flags s v BUF_BUSY) v MEMDEV n, v)) /\
     ((forall i, i ∈ l -> busy s i = true) ->
        getblk s MEMDEV n = Stop (Panic "getblk: no buffers available"))).
Proof.
  assert (Hfree : forall i, i ∈ l -> is_free s i = negb (busy s i)).
  { intros i Hi. pose proof (is_free_unlocked s i (wf_bufs _ _ Hwf i Hi)) as H.
    destruct (is_free s i), (busy s i); cbn; try done; [by destruct H as [H _]; discriminate H|].
    by destruct H as [_ ->]. }
  split; [|intros Hno; split].
  - intros i Hi Hd Hn Hb. unfold getblk. rewrite (ring_search s l) by done.
    cbn [mbind outcome_bind]. destruct (List.find _ l) as [j|] eqn:E.
    + apply find_some in E as [Hj Hk]. apply list_elem_of_In in Hj.
      apply is_block_true in Hk as [Hjd Hjn].
      assert (j = i) as -> by (apply (wf_unique _ _ Hwf); congruence).
      rewrite decide_False; [done|]. unfold busy, has in Hb. by apply bool_decide_eq_true in Hb.
    + apply (find_none _ _) with (x := i) in E; [|by apply list_elem_of_In].
      apply not_true_iff_false in E. rewrite is_block_true in E. by destruct E.
  - intros l1 v l2 -> Hv Hl2. apply (getblk_miss s (l1 ++ v :: l2)); [done|done|].
    rewrite rev_app_distr. cbn [rev]. rewrite <- app_assoc.
    assert (Hnone : forall k, (forall i, i ∈ k -> is_free s i = false) ->
              List.find (is_free s) (k ++ [v] ++ rev l1) = Some v).
    { induction k as [|i k IH]; intros Hi; cbn [app List.find].
      - rewrite (Hfree v); [by rewrite Hv|]. apply elem_of_app. right. left.
      - rewrite Hi by left. apply IH. intros j Hj. apply Hi. by right. }
    apply Hnone. intros i Hi. rewrite elem_of_rev in Hi.
    rewrite (Hfree i); [by rewrite Hl2|]. apply elem_of_app. right. right. exact Hi.
  - intros Hb. unfold getblk. rewrite (ring_search s l), (ring_search_back s l) by done.
    cbn [mbind outcome_bind]. destruct (List.find _ l) as [j|] eqn:E.
    { apply find_some in E as [Hj Hk]. apply list_elem_of_In in Hj.
      apply is_block_true in Hk as [Hjd Hjn]. by destruct (Hno j Hj Hjd). }
    destruct (List.find (is_free s) (rev l)) as [v|] eqn:Ev; [|done].
    apply find_some in Ev as [Hv Hf]. rewrite <- in_rev in Hv. apply list_elem_of_In in Hv.
    rewrite Hfree, Hb in Hf by done. discriminate.
Qed.

