(* ===== verification/BlockDev.v ===== *)
(** * What the block layer promises to a file system

    The file systems read sectors with [bread], copy from the buffer and
    release it with [brelse].  [BlockDev] is that operation with its contract:
    within the device it returns the sector and changes no sector.  The buffer
    cache over the memory disk is an instance, by the lemmas of Buffer.v. *)

From stdpp Require Import base list strings.
From Stdlib Require Import ZArith Lia.
From S2P Require Import Prelude Ring Bio Hd Buffer.

Open Scope Z_scope.

Class BlockDev (D : Type) : Type := {
  blk_read : D -> Z -> outcome (D * list Z);
  blk_inv : D -> Prop;
  blk_size : D -> Z;
  blk_image : D -> Z -> list Z;
  blk_image_length d n : length (blk_image d n) = 512%nat;
  blk_read_ok d n : blk_inv d -> 0 <= n < blk_size d ->
    exists d', blk_read d n = Ret (d', blk_image d n) /\ blk_inv d' /\
      blk_size d' = blk_size d /\ (forall k, blk_image d' k = blk_image d k)
}.

(** [bp = bread(dev, sec); memmove(buf, bp->data, 512); brelse(bp);] on the
    memory disk. *)
Definition bio_read `{ide : IdeDevice} (s : bio) (sec : Z) : outcome (bio * list Z) :=
  '(s1, bp) ← bread s MEMDEV sec;
  let buf := bdata s1 bp in
  s2 ← brelse s1 bp;
  Ret (s2, buf).

(** The cache between two operations of the file system. *)
Definition cache_idle (s : bio) : Prop := exists l, cache_wf s l /\ quiet s l.

Lemma bio_read_ok `{ide : IdeDevice} s n :
  cache_idle s -> 0 <= n < disksize s ->
  exists s', bio_read s n = Ret (s', sector s n) /\ cache_idle s' /\
    disksize s' = disksize s /\ (forall k, sector s' k = sector s k).
Proof.
  intros (l & Hwf & Hq) Hn.
  destruct (read_ok s l n Hwf Hq Hn) as (s1 & b & s2 & l' & E1 & Hd & E2 & Hwf2 & Hq2 & Hm & Hs & Hz).
  exists s2. unfold bio_read. rewrite E1. cbn [mbind outcome_bind]. rewrite E2, <- Hd.
  split; [done|]. split; [by exists l'|]. split; [done|].
  intros k. unfold sector. by rewrite Hm, Hs.
Qed.

#[export] Instance bio_blockdev `{ide : IdeDevice} : BlockDev bio := {
  blk_read := bio_read;
  blk_inv := cache_idle;
  blk_size := disksize;
  blk_image := sector;
  blk_image_length s n := length_read_bytes _ _ _;
  blk_read_ok := bio_read_ok
}.
