(* ===== verification/Le.v ===== *)
(** * Little-endian fields of byte blocks

    The packed structs of the file systems are read from and written to blocks
    of bytes; [get_le l off k] is the [k]-byte unsigned field at offset [off],
    [le k v] the bytes of a field. *)

From stdpp Require Import base list.
From Stdlib Require Import ZArith Lia.
From S2P Require Import Prelude.

Open Scope Z_scope.

Definition get8 (l : list Z) (off : nat) : Z := nth off l 0.

Fixpoint of_le (l : list Z) : Z :=
  match l with [] => 0 | b :: l' => b + 256 * of_le l' end.

Definition get_le (l : list Z) (off k : nat) : Z := of_le (take k (drop off l)).

Fixpoint le (k : nat) (v : Z) : list Z :=
  match k with O => [] | S k' => v mod 256 :: le k' (v / 256) end.

(** [l] cut or filled with zeros to [n] bytes, as [strncpy] of the host's C
    library does with a string. *)
Definition pad (n : nat) (l : list Z) : list Z := take n l ++ repeat 0 (n - length l).

Lemma length_le k : forall v, length (le k v) = k.
Proof. induction k; intros v; simpl; auto. Qed.

Lemma of_le_le k : forall v, of_le (le k v) = v mod 256 ^ Z.of_nat k.
Proof.
  induction k as [|k IH]; intros v; [cbn; by rewrite Z.mod_1_r|].
  cbn [le of_le]. rewrite IH, Nat2Z.inj_succ, Z.pow_succ_r by lia.
  rewrite Z.rem_mul_r by lia. lia.
Qed.

Lemma le_bytes k : forall v, Forall (fun b => 0 <= b < 256) (le k v).
Proof.
  induction k; intros v; cbn; constructor; [apply Z.mod_pos_bound; lia | auto].
Qed.

Lemma length_pad n l : length (pad n l) = n.
Proof. unfold pad. rewrite length_app, length_take, repeat_length. lia. Qed.

Lemma nth_pad n l i : (i < n)%nat -> nth i (pad n l) 0 = nth i l 0.
Proof.
  intros H. unfold pad. destruct (decide (i < length l)%nat) as [Hi|Hi].
  - rewrite app_nth1 by (rewrite length_take; lia).
    rewrite <- (take_drop n l) at 2. rewrite app_nth1 by (rewrite length_take; lia). done.
  - rewrite app_nth2 by (rewrite length_take; lia). rewrite nth_repeat.
    by rewrite nth_overflow by lia.
Qed.

(** A field in the middle of a concatenation. *)
Lemma get_le_at l1 k v l2 off :
  length l1 = off -> get_le (l1 ++ le k v ++ l2) off k = v mod 256 ^ Z.of_nat k.
Proof.
  intros <-. unfold get_le. rewrite drop_app_length.
  rewrite take_app_le by (rewrite length_le; lia).
  rewrite take_ge by (rewrite length_le; lia). apply of_le_le.
Qed.

Lemma of_le_bound l :
  Forall (fun b => 0 <= b < 256) l -> 0 <= of_le l < 256 ^ Z.of_nat (length l).
Proof.
  induction 1 as [|b l Hb Hl IH]; [cbn; lia|]. cbn [of_le length].
  rewrite Nat2Z.inj_succ, Z.pow_succ_r by lia. lia.
Qed.
