(* ===== verification/Sfs.v ===== *)
(** * The simple file system of the kernel

    fs/sfs/sfs.c with the structs of inc/fs_sfs.h.  The superblock is sector 0,
    file data follow it, and an index of 64-byte entries grows down from the
    end of the device.  Sectors come from a [BlockDev]; everything here is
    proved against that interface.  A 64-byte index entry is its bytes; a path
    is the bytes of a C string.  [sfs_find_index] compares names with
    [strncmp], which can run past the end of the caller's 64-byte entry: what
    lies behind it in memory is the parameter [beyond].  A lookup assembles each
    long name it comes to in a block of the kernel heap: [NameHeap] is what it
    needs of that heap, of the running task (TaskHeap.v) or of no task at all
    ([no_task]).  The operations here
    carry no console; of the messages only the text [sfs_cat_file] prints is
    in this file, the others are the texts of SfsText.v. *)

From stdpp Require Import base list strings.
From Stdlib Require Import ZArith Lia.
From S2P Require Import Prelude CString BlockDev Le.

Open Scope Z_scope.

(** ** Layout (inc/fs_sfs.h, inc/const.h, inc/fs.h) *)

Definition NIBUF : nat := 32.

Definition FDT_SIZE : nat := 64.

Definition NOFILE : Z := 16.

Definition O_CREAT : Z := 1.

Definition IE_SIZE : Z := 64.

Definition IPB : Z := 8.

Definition DIR_SPACE : Z := 54.

Definition FILE_SPACE : Z := 30.

Definition IAT_DIR_ENT : Z := 17.

Definition IAT_FILE_ENT : Z := 18.

Definition SFS_INODE_INUSE : Z := 1.

Definition SFS_TYPE_FILE : Z := 1.

Definition SFS_TYPE_DIR : Z := 2.

Definition SFS_DEV : Z := 256.

(** [struct sfs_superblock], by offset. *)
Definition sb_da_blk (b : list Z) : Z := get_le b 412 8.

Definition sb_ia_size (b : list Z) : Z := get_le b 420 8.

Definition sb_fs_version (b : list Z) : Z := get8 b 431.

Definition sb_total_blk (b : list Z) : Z := get_le b 432 8.

Definition sb_resv_blk (b : list Z) : Z := get_le b 440 4.

Definition sb_blk_size (b : list Z) : Z := get8 b 444.

(** [struct sfs_index], [struct sfs_dir] and [struct sfs_file], by offset. *)
Definition ie_etype (e : list Z) : Z := get8 e 0.

Definition ie_ne (e : list Z) : Z := get8 e 1.

Definition file_blk_start (e : list Z) : Z := get_le e 10 8.

Definition file_blk_end (e : list Z) : Z := get_le e 18 8.

Definition file_len (e : list Z) : Z := get_le e 26 8.

Definition dir_name : Z := 10.

Definition file_name : Z := 34.

(** The entry of the inode cache; the name is a block of the kernel heap. *)
Record sfs_inode : Type := {
  i_ni : Z;
  i_nref : Z;
  i_flags : Z;
  i_name : option (list Z);
  i_sindex : list Z
}.

(** [f_inode] is an index into the inode cache. *)
Record sfs_file_desc : Type := {
  f_type : Z;
  f_mode : Z;
  f_flags : Z;
  f_count : Z;
  f_pos : Z;
  f_inode : option nat
}.

Record sfs_stat_buf : Type := {
  st_dev : Z;
  st_mode : Z;
  st_size : Z
}.

(** The static variables of sfs.c, the device below and [current->ofile], whose
    elements are indices into [fdtable]. *)
Record sfs (D : Type) : Type := mkSfs {
  sdev : D;
  ibuf : list sfs_inode;
  fdtable : list sfs_file_desc;
  ofile : list (option nat);
  nblk : Z;
  reserved_blk : Z;
  da_blocks : Z;
  ia_num : Z;
  block_size : Z
}.

Arguments mkSfs {D}.
Arguments sdev {D}.
Arguments ibuf {D}.
Arguments fdtable {D}.
Arguments ofile {D}.
Arguments nblk {D}.
Arguments reserved_blk {D}.
Arguments da_blocks {D}.
Arguments ia_num {D}.
Arguments block_size {D}.

(** The position of the first element that passes a test: the search loops over
    the static arrays. *)
Fixpoint find_index {A : Type} (p : A -> bool) (l : list A) : option nat :=
  match l with
  | [] => None
  | x :: l' => if p x then Some O else option_map S (find_index p l')
  end.

(** ** The heap below

    [kmalloc], stores into the block, [kfree]; [nh_room h n] says that a block of
    [n] bytes can be had, [nh_held h h1 p n] that [h1] is [h] with such a block at
    [p] in use, whatever it holds, and [nh_same h h2] that [h2] is as good as
    [h]. *)
Class NameHeap (H : Type) : Type := {
  nh_kmalloc : H -> Z -> outcome (H * Z);
  nh_write : H -> Z -> list Z -> outcome H;
  nh_kfree : H -> Z -> outcome H;
  nh_room : H -> Z -> Prop;
  nh_held : H -> H -> Z -> Z -> Prop;
  nh_same : H -> H -> Prop;
  nh_same_refl h : nh_same h h;
  nh_same_trans h1 h2 h3 : nh_same h1 h2 -> nh_same h2 h3 -> nh_same h1 h3;
  nh_room_same h h' n : nh_same h h' -> nh_room h n -> nh_room h' n;
  nh_kmalloc_ok h n k : 0 < n <= k -> nh_room h k ->
    exists h1 p, nh_kmalloc h n = Ret (h1, p) /\ p <> 0 /\ nh_held h h1 p n;
  nh_write_ok h h1 p n a bs : nh_held h h1 p n -> p <= a -> a + Z.of_nat (length bs) <= p + n ->
    exists h2, nh_write h1 a bs = Ret h2 /\ nh_held h h2 p n;
  nh_kfree_ok h h1 p n : nh_held h h1 p n -> exists h2, nh_kfree h1 p = Ret h2 /\ nh_same h h2
}.

(** While no task runs, [kmalloc] looks for the heap of [current], which is
    null. *)
Definition no_task : NameHeap unit.
Proof.
  refine {| nh_kmalloc := fun _ _ => Stop (Fault "current"); nh_write := fun _ _ _ => Stop (Fault "current");
            nh_kfree := fun _ _ => Stop (Fault "current"); nh_room := fun _ _ => False;
            nh_held := fun _ _ _ _ => False; nh_same := fun _ _ => True |}; try done.
Defined.

Section Sfs.

Context {D : Type} `{dev : BlockDev D} {H : Type} `{nh : NameHeap H}.

(** The bytes that follow a 64-byte entry in memory. *)
Variable beyond : Z -> Z.

Definition set_sdev (s : sfs D) (d : D) : sfs D :=
  mkSfs d (ibuf s) (fdtable s) (ofile s) (nblk s) (reserved_blk s) (da_blocks s) (ia_num s)
        (block_size s).

Definition set_ibuf (s : sfs D) (l : list sfs_inode) : sfs D :=
  mkSfs (sdev s) l (fdtable s) (ofile s) (nblk s) (reserved_blk s) (da_blocks s) (ia_num s)
        (block_size s).

Definition set_files (s : sfs D) (fdt : list sfs_file_desc) (files : list (option nat)) : sfs D :=
  mkSfs (sdev s) (ibuf s) fdt files (nblk s) (reserved_blk s) (da_blocks s) (ia_num s)
        (block_size s).

(** ** Reading blocks and index entries *)

Definition read_block (s : sfs D) (sec : Z) : outcome (sfs D * list Z) :=
  '(d, buf) ← blk_read (sdev s) sec;
  Ret (set_sdev s d, buf).

Definition read_data_block (s : sfs D) (n : Z) : outcome (sfs D * list Z) :=
  read_block s (u32 (n + reserved_blk s)).

Definition read_index (s : sfs D) (sec : Z) : outcome (sfs D * list Z) :=
  let n := u32 (nblk s - sec / IPB - 1) in
  let offset := u32 (512 - (sec mod IPB + 1) * IE_SIZE) in
  '(s1, buf) ← read_block s n;
  Ret (s1, take 64 (drop (Z.to_nat offset) buf)).

(** ** Mounting *)

(** The sum of a [char] array, kept in a [char]. *)
Definition calc_checksum (sb : list Z) : Z :=
  fold_left (fun sum cnt => s8 (sum + s8 (get8 sb cnt))) (seq 428 18) 0.

Definition obtain_sb_info (s : sfs D) (sb : list Z) : sfs D :=
  mkSfs (sdev s) (ibuf s) (fdtable s) (ofile s)
    (u32 (sb_total_blk sb)) (u32 (sb_resv_blk sb)) (u32 (sb_da_blk sb))
    (u32 (sb_ia_size sb / IE_SIZE)) (sb_blk_size sb).

(** Also whether the checksum was zero, which the code only prints. *)
Definition check_sfs (s : sfs D) : outcome (sfs D * bool) :=
  '(s1, buf) ← read_block s 0;
  let sum := calc_checksum buf in
  let good := bool_decide (sum = 0) in
  if decide (strncmp (Some (fun i => get8 buf (428 + Z.to_nat i)))
                     (Some (fun i => get8 [83; 70; 83; 0] (Z.to_nat i))) 3 <> 0 \/
             sb_fs_version buf <> 16)
  then Ret (s1, good)
  else Ret (obtain_sb_info s1 buf, good).

(** ** Looking a name up in the index *)

(** The pointers [file] and [idx + off]. *)
Definition str_ptr (file : list Z) : cptr := fun i => nth (Z.to_nat i) file 0.

Definition entry_ptr (e : list Z) (off : Z) : cptr :=
  fun i => if decide (off + i < 64) then nth (Z.to_nat (off + i)) e 0 else beyond (off + i - 64).

Definition name_matches (file e : list Z) (off : Z) : bool :=
  bool_decide (strncmp (Some (str_ptr file)) (Some (entry_ptr e off)) (Z.of_nat (length file)) = 0).

(** The loop that collects the continuation entries of a long name at [p]; the
    name it assembles is only printed. *)
Fixpoint read_conts (ne : nat) (s : sfs D) (h : H) (nindex p : Z) : outcome (sfs D * H) :=
  match ne with
  | O => Ret (s, h)
  | S k =>
      '(s1, e) ← read_index s (u32 (nindex + Z.of_nat ne));
      h1 ← nh_write h p e;
      read_conts k s1 h1 nindex (p + IE_SIZE)
  end.

(** One entry of the index, of either type: [space] is the room for a name in
    the entry and [off] where the name begins.  A long name, and any name when
    the path is longer than the room, is assembled in a block of the heap before
    the names are compared; [strncpy] puts a NUL behind what it copies. *)
Definition test_entry (s : sfs D) (h : H) (file e : list Z) (nindex space off : Z) :
    outcome (sfs D * H * bool) :=
  if bool_decide (ie_ne e = 0) && bool_decide (Z.of_nat (length file) <= space) then
    Ret (s, h, name_matches file e off)
  else
    '(h1, str) ← nh_kmalloc h ((ie_ne e + 1) * IE_SIZE);
    if decide (str = 0) then Stop (Panic "kmalloc")
    else
      h2 ← nh_write h1 str (take (Z.to_nat space) (drop (Z.to_nat off) e) ++ [0]);
      '(s1, h3) ← read_conts (Z.to_nat (ie_ne e)) s h2 nindex (str + space);
      let found := name_matches file e off in
      h4 ← nh_kfree h3 str;
      Ret (s1, h4, found).

Fixpoint find_loop (fuel : nat) (s : sfs D) (h : H) (file idx : list Z) (nindex : Z) :
    outcome (sfs D * H * bool * list Z) :=
  if decide (nindex > 0) then
    match fuel with
    | O => Stop Fuel
    | S k =>
        '(s1, e) ← read_index s (u32 nindex);
        let nindex' := nindex - (ie_ne e + 1) in
        if decide (ie_etype e = IAT_DIR_ENT) then
          '(s2, h2, found) ← test_entry s1 h file e nindex' DIR_SPACE dir_name;
          if found : bool then Ret (s2, h2, true, e) else find_loop k s2 h2 file e nindex'
        else if decide (ie_etype e = IAT_FILE_ENT) then
          '(s2, h2, found) ← test_entry s1 h file e nindex' FILE_SPACE file_name;
          if found : bool then Ret (s2, h2, true, e) else find_loop k s2 h2 file e nindex'
        else Ret (s1, h, false, e)
    end
  else Ret (s, h, false, idx).

(** [idx] is what the caller's entry holds before the call. *)
Definition sfs_find_index (s : sfs D) (h : H) (file idx : list Z) : outcome (sfs D * H * bool * list Z) :=
  let nindex := s32 (ia_num s - 1) in
  find_loop (Z.to_nat nindex) s h file idx nindex.

(** ** Reading whole files *)

Fixpoint read_file_loop (fuel : nat) (s : sfs D) (m len : Z) (out : list Z) :
    outcome (sfs D * list Z) :=
  if decide (len > 0) then
    match fuel with
    | O => Stop Fuel
    | S k =>
        let sz := if decide (len > 512) then 512 else len in
        '(s1, buffer) ← read_data_block s (u32 m);
        read_file_loop k s1 (u64 (m + 1)) (len - sz) (out ++ take (Z.to_nat sz) buffer)
    end
  else Ret (s, out).

(** The result and the caller's buffer of [nb] bytes afterwards ([None] when it
    was not touched). *)
Definition sfs_read_file (s : sfs D) (h : H) (file idx : list Z) (nb : Z) :
    outcome (sfs D * H * Z * option (list Z)) :=
  '(s1, h1, found, e) ← sfs_find_index s h file idx;
  if negb found then Ret (s1, h1, -1, None)
  else if decide (ie_etype e <> IAT_FILE_ENT) then Ret (s1, h1, -1, None)
  else if decide (nb < 0) then Stop (Fault "memset")
  else
    let len := s32 (file_len e) in
    let len := if decide (len < nb) then len else nb in
    '(s2, out) ← read_file_loop (Z.to_nat len) s1 (file_blk_start e) len [];
    Ret (s2, h1, Z.of_nat (length out), Some (out ++ repeat 0 (Z.to_nat nb - length out))).

(** Here the length goes down by 512 each time, also in the last round. *)
Fixpoint cat_file_loop (fuel : nat) (s : sfs D) (m len : Z) (out : list Z) :
    outcome (sfs D * list Z) :=
  if decide (len > 0) then
    match fuel with
    | O => Stop Fuel
    | S k =>
        let sz := if decide (len > 512) then 512 else len in
        '(s1, buf) ← read_data_block s (u32 m);
        cat_file_loop k s1 (u64 (m + 1)) (len - 512) (out ++ take (Z.to_nat sz) buf)
    end
  else Ret (s, out).

(** The characters printed. *)
Definition sfs_cat_file (s : sfs D) (h : H) (file idx : list Z) : outcome (sfs D * H * list Z) :=
  '(s1, h1, found, e) ← sfs_find_index s h file idx;
  if negb found then Ret (s1, h1, [])
  else if decide (ie_etype e <> IAT_FILE_ENT) then Ret (s1, h1, [])
  else
    let len := s32 (file_len e) in
    '(s2, out) ← cat_file_loop (Z.to_nat len) s1 (file_blk_start e) len [];
    Ret (s2, h1, out).

(** ** The inode cache *)

Definition search_index_buf (s : sfs D) (name : list Z) : option nat :=
  find_index (fun ip =>
    has (i_flags ip) SFS_INODE_INUSE &&
    match i_name ip with
    | Some n => match strcmp (S (length name)) (str_ptr name) (str_ptr n) with
                | Ret r => bool_decide (r = 0)
                | Stop _ => false
                end
    | None => false
    end) (ibuf s).

Definition ibuf_alloc (s : sfs D) : Z :=
  match find_index (fun ip => bool_decide (i_flags ip = 0)) (ibuf s) with
  | Some i => Z.of_nat i
  | None => -1
  end.

Definition search_index (s : sfs D) (h : H) (name idx : list Z) : outcome (sfs D * H * option nat) :=
  '(s1, h1, found, e) ← sfs_find_index s h name idx;
  if negb found then Ret (s1, h1, None)
  else
    let i := ibuf_alloc s1 in
    if decide (i = -1) then Ret (s1, h1, None)
    else
      old ← deref "ibuf" (ibuf s1 !! Z.to_nat i);
      let ip := {| i_ni := i_ni old; i_nref := i_nref old; i_flags := SFS_INODE_INUSE;
                   i_name := Some name; i_sindex := e |} in
      Ret (set_ibuf s1 (<[Z.to_nat i := ip]> (ibuf s1)), h1, Some (Z.to_nat i)).

Definition sfs_namei (s : sfs D) (h : H) (name idx : list Z) : outcome (sfs D * H * option nat) :=
  search_index s h name idx.

(** Returns NULL: its body is compiled out. *)
Definition sfs_create (s : sfs D) (path : list Z) (type : Z) : option nat := None.

(** ** File descriptors *)

Definition fd_alloc (fdt : list sfs_file_desc) : option nat :=
  find_index (fun fp => bool_decide (f_count fp = 0)) fdt.

(** [sfs_open] after the lookup, which gave [inp]. *)
Definition open_inode (s1 : sfs D) (inp : option nat) (pathname : list Z) (flags : Z) : outcome (sfs D * Z) :=
  let inp := match inp with
             | Some i => Some i
             | None => if has flags O_CREAT then sfs_create s1 pathname flags else None
             end in
  match inp with
  | None => Ret (s1, -1)
  | Some i =>
      match find_index (fun o => bool_decide (o = None)) (ofile s1) with
      | None => Ret (s1, -1)
      | Some fd =>
          match fd_alloc (fdtable s1) with
          | None => Ret (s1, -1)
          | Some n =>
              let old := nth n (fdtable s1) {| f_type := 0; f_mode := 0; f_flags := 0;
                                               f_count := 0; f_pos := 0; f_inode := None |} in
              let fdp := {| f_type := 0; f_mode := 0; f_flags := flags;
                            f_count := u32 (f_count old + 1); f_pos := 0; f_inode := Some i |} in
              Ret (set_files s1 (<[n := fdp]> (fdtable s1)) (<[fd := Some n]> (ofile s1)),
                   Z.of_nat fd)
          end
      end
  end.

Definition sfs_open (s : sfs D) (h : H) (pathname : list Z) (flags : Z) (idx : list Z) :
    outcome (sfs D * H * Z) :=
  '(s1, h1, inp) ← sfs_namei s h pathname idx;
  '(s2, fd) ← open_inode s1 inp pathname flags;
  Ret (s2, h1, fd).

Definition set_pos (fdp : sfs_file_desc) (p : Z) : sfs_file_desc :=
  {| f_type := f_type fdp; f_mode := f_mode fdp; f_flags := f_flags fdp;
     f_count := f_count fdp; f_pos := p; f_inode := f_inode fdp |}.

(** The blocks after the first one of [sfs_read]. *)
Fixpoint sfs_read_loop (fuel : nat) (s : sfs D) (nb n : Z) (out : list Z) :
    outcome (sfs D * list Z) :=
  if decide (n > 0) then
    match fuel with
    | O => Stop Fuel
    | S k =>
        '(s1, xbuf) ← read_data_block s (u32 nb);
        let len := Z.min 512 n in
        sfs_read_loop k s1 (s32 (nb + 1)) (n - len) (out ++ take (Z.to_nat len) xbuf)
    end
  else Ret (s, out).

(** [n = min(n, fp->len - fdp->f_pos)], compared as 64-bit unsigned numbers. *)
Definition read_count (n len pos : Z) : Z :=
  let left := u64 (len - pos) in
  s32 (if decide (u64 n < left) then u64 n else left).

(** The result and the bytes put into the caller's buffer.  The position moves
    by the number of bytes read. *)
Definition sfs_read (s : sfs D) (fd n : Z) : outcome (sfs D * Z * list Z) :=
  if decide (fd >= NOFILE) then Ret (s, -1, [])
  else if decide (fd < 0) then Stop (Fault "current->ofile[fd]")
  else
    k ← deref "fdp" (mjoin (ofile s !! Z.to_nat fd));
    fdp ← deref "fdp" (fdtable s !! k);
    i ← deref "fdp->f_inode" (f_inode fdp);
    ip ← deref "fdp->f_inode" (ibuf s !! i);
    let fp := i_sindex ip in
    let n := read_count n (file_len fp) (f_pos fdp) in
    let nb := s32 (file_blk_start fp + f_pos fdp / 512) in
    let offset := f_pos fdp mod 512 in
    '(s1, xbuf) ← read_data_block s (u32 nb);
    let len := Z.min n (512 - offset) in
    if decide (len < 0) then Stop (Fault "memmove")
    else
      let first := take (Z.to_nat len) (drop (Z.to_nat offset) xbuf) in
      '(s2, out) ← sfs_read_loop (Z.to_nat (n - len)) s1 (s32 (nb + 1)) (n - len) first;
      let count := Z.of_nat (length out) in
      let fdp' := set_pos fdp (u32 (f_pos fdp + count)) in
      Ret (set_files s2 (<[k := fdp']> (fdtable s2)) (ofile s2), count, out).

(** [sfs_stat] after the lookup, which gave [indp]. *)
Definition stat_inode (s1 : sfs D) (indp : option nat) : outcome (sfs D * Z * sfs_stat_buf) :=
  match indp with
  | None => Ret (s1, -1, {| st_dev := 0; st_mode := 0; st_size := 0 |})
  | Some i =>
      ip ← deref "indp" (ibuf s1 !! i);
      let e := i_sindex ip in
      if decide (ie_etype e = IAT_DIR_ENT) then
        Ret (s1, 0, {| st_dev := SFS_DEV; st_mode := SFS_TYPE_DIR; st_size := 0 |})
      else if decide (ie_etype e = IAT_FILE_ENT) then
        Ret (s1, 0, {| st_dev := SFS_DEV; st_mode := SFS_TYPE_FILE; st_size := s32 (file_len e) |})
      else Ret (s1, 0, {| st_dev := SFS_DEV; st_mode := 0; st_size := 0 |})
  end.

Definition sfs_stat (s : sfs D) (h : H) (path idx : list Z) : outcome (sfs D * H * Z * sfs_stat_buf) :=
  '(s1, h1, indp) ← sfs_namei s h path idx;
  '(s2, r, b) ← stat_inode s1 indp;
  Ret (s2, h1, r, b).

(** [init_sfs]: mount, then print the file [README]. *)
Definition init_sfs (s : sfs D) (h : H) (idx : list Z) : outcome (sfs D * H * bool * list Z) :=
  '(s1, good) ← check_sfs s;
  '(s2, h2, text) ← sfs_cat_file s1 h [82; 69; 65; 68; 77; 69] idx;
  Ret (s2, h2, good, text).

End Sfs.
