(* ===== verification/MkSfs.v ===== *)
(** * The image builder

    tools/mk_sfs.c: the host program that writes an SFS image.  The image file
    is byte memory with a length; the host's files are a parameter, as are the
    bytes that follow an argument string in memory, which [write_file] copies
    for some names.  Every error of the program ends in [Exit]. *)

From stdpp Require Import base list strings.
From Stdlib Require Import ZArith Lia.
From S2P Require Import Prelude Le.

Open Scope Z_scope.

(** ** Constants (tools/mk_sfs.h, tools/mk_sfs.c) *)

Definition BLKSZ : Z := 512.

Definition IE_SZ : Z := 64.

Definition NAME_SPACE : Z := 30.

Definition VOLUME_ID : Z := 1.

Definition START_MARK : Z := 2.

Definition DIR_ENT : Z := 17.

Definition FILE_ENT : Z := 18.

(** [NIE_FILE], and [NIE_DIR], which is the same. *)
Definition NIE_FILE (len : Z) : Z := (len + 34 + 1) / IE_SZ.

(** Reserved blocks: the superblock only. *)
Definition rsv_blk : Z := 1.

Definition root_ia_num : Z := 1.

(** [DIRENT_LEN]. *)
Definition DIRENT_LEN (x : Z) : Z := 4 + 4 + x + 1.

(** The file mode [stat] reports, with the contents of a regular file. *)
Inductive hnode : Type :=
  | HDir
  | HReg (content : list Z)
  | HOther.

(** [struct sfs_mark], [struct sfs_vol_id] and the common layout of
    [struct sfs_dir] and [struct sfs_file] of mk_sfs.h. *)
Definition mark : list Z := START_MARK :: repeat 0 63.

Definition enc_vol_id (time : Z) (name : list Z) : list Z :=
  [VOLUME_ID; 0; 0; 0] ++ le 8 time ++ pad 52 name.

Definition enc_entry (etype ne time blk_start blk_end len : Z) (name : list Z) : list Z :=
  [etype; u8 ne] ++ le 8 time ++ le 8 blk_start ++ le 8 blk_end ++ le 8 len ++ pad 30 name.

(** [struct sfs_superblock]. *)
Definition enc_sb (time da ia total rev : Z) (version blk checksum : Z) : list Z :=
  repeat 0 404 ++ le 8 time ++ le 8 da ++ le 8 ia ++ [83; 70; 83; version] ++ le 8 total ++
  le 4 rev ++ [blk; checksum] ++ repeat 0 66.

(** [char] arithmetic, as in the kernel. *)
Definition mk_checksum (sb : list Z) : Z :=
  fold_left (fun sum cnt => s8 (sum + s8 (get8 sb cnt))) (seq 428 18) 0.

Record mkfs : Type := mkMkfs {
  img : memory;
  imglen : Z;
  da : Z;
  ia : Z
}.

Section Builder.

(** [NUMBLK]. *)
Variable numblk : Z.

Variable host : list Z -> option hnode.

(** The bytes behind the terminating NUL of an argument, up to the next NUL. *)
Variable argv_after : list Z -> list Z.

Definition nindex : Z := u32 (numblk * 8).

(** ** Elements of the image *)

Definition read_elem (s : mkfs) (n elem_size : Z) : outcome (list Z) :=
  let a := u32 (n * elem_size) in
  if decide (a + elem_size <= imglen s) then Ret (read_bytes (img s) a (Z.to_nat elem_size))
  else Stop (Exit 1).

Definition write_elem (s : mkfs) (n elem_size : Z) (buf : list Z) : mkfs :=
  let a := u32 (n * elem_size) in
  mkMkfs (write_bytes (img s) a buf) (Z.max (imglen s) (a + elem_size)) (da s) (ia s).

Definition mk_read_block (s : mkfs) (sec : Z) : outcome (list Z) := read_elem s sec BLKSZ.

Definition mk_write_block (s : mkfs) (sec : Z) (buf : list Z) : mkfs := write_elem s sec BLKSZ buf.

Definition mk_read_index (s : mkfs) (sec : Z) : outcome (list Z) :=
  read_elem s (u32 (nindex - sec - 1)) IE_SZ.

Definition mk_write_index (s : mkfs) (sec : Z) (buf : list Z) : mkfs :=
  write_elem s (u32 (nindex - sec - 1)) IE_SZ buf.

(** [inc_and_verify] on either counter: the space check. *)
Definition no_space (s : mkfs) : bool :=
  bool_decide (u32 (da s + (u32 (ia s + 1) / 8 + 1)) >= numblk).

Definition inc_da (s : mkfs) (n : Z) : outcome mkfs :=
  let s' := mkMkfs (img s) (imglen s) (u32 (da s + n)) (ia s) in
  if no_space s' then Stop (Exit 0) else Ret s'.

Definition inc_ia (s : mkfs) (n : Z) : outcome mkfs :=
  let s' := mkMkfs (img s) (imglen s) (da s) (u32 (ia s + n)) in
  if no_space s' then Stop (Exit 0) else Ret s'.

(** ** The superblock *)

Definition init_sb (s : mkfs) : mkfs :=
  let sb0 := enc_sb 0 0 0 numblk rsv_blk 16 2 0 in
  let sb := enc_sb 0 0 0 numblk rsv_blk 16 2 (u8 (- mk_checksum sb0)) in
  mk_write_block s 0 sb.

Definition update_sb (s : mkfs) : outcome mkfs :=
  sb ← mk_read_block s 0;
  let sb' := take 404 sb ++ le 8 0 ++ le 8 (da s) ++ le 8 (u32 (ia s * IE_SZ)) ++ drop 428 sb in
  Ret (mk_write_block s 0 sb').

(** ** The index *)

Definition init_index (s : mkfs) : outcome mkfs :=
  let s0 := mkMkfs (img s) (imglen s) (da s) 0 in
  let id := enc_vol_id 0 [115; 102; 115; 45; 49; 46; 48] in
  let s1 := mk_write_index s0 (ia s0) id in
  s2 ← inc_ia s1 1;
  Ret (mk_write_index s2 (ia s2) mark).

(** The block of directory items is built in a local buffer and not written
    anywhere; only the length is used. *)
Definition create_dot_dir_items (parent_inum self_inum blk_num : Z) : list Z * Z :=
  let len1 := DIRENT_LEN 1 in
  let item1 := le 4 len1 ++ le 4 self_inum ++ [46] in
  let len2 := DIRENT_LEN 2 in
  let item2 := le 4 len2 ++ le 4 parent_inum ++ [46] in
  (pad 512 (pad (Z.to_nat len1) item1 ++ item2), len1 + len2).

Definition init_root (s : mkfs) : outcome mkfs :=
  let len := snd (create_dot_dir_items root_ia_num root_ia_num (da s)) in
  let s1 := mk_write_index s (ia s) (enc_entry DIR_ENT 0 0 (da s) (da s) len [47]) in
  s2 ← inc_da s1 1;
  s3 ← inc_ia s2 1;
  Ret (mk_write_index s3 (ia s3) mark).

(** ** Files *)

(** The loop of [write_data]: [rest] is what is left to read of the file. *)
Fixpoint write_data_loop (fuel : nat) (s : mkfs) (len : Z) (rest : list Z) : outcome mkfs :=
  if decide (len > 0) then
    match fuel with
    | O => Stop Fuel
    | S k =>
        let n := if decide (len > BLKSZ) then BLKSZ else len in
        let buf := take (Z.to_nat n) rest in
        if decide (Z.of_nat (length buf) <> n) then Stop (Exit 1)
        else
          let s1 := mk_write_block s (u32 (da s + rsv_blk)) (pad 512 buf) in
          s2 ← inc_da s1 1;
          write_data_loop k s2 (len - BLKSZ) (drop (Z.to_nat n) rest)
    end
  else Ret s.

(** The state, [blk_start] and [blk_end]. *)
Definition write_data (s : mkfs) (len : Z) (content : list Z) : outcome (mkfs * Z * Z) :=
  let blkstart := da s in
  s1 ← write_data_loop (Z.to_nat len) s len content;
  Ret (s1, blkstart, u32 (da s1 - 1)).

(** The string at [name + off]. *)
Definition name_from (name : list Z) (off : Z) : list Z :=
  if decide (off <= Z.of_nat (length name)) then drop (Z.to_nat off) name else argv_after name.

(** The continuation entries of a long name. *)
Definition write_conts (s : mkfs) (name : list Z) (nie : Z) : mkfs :=
  fold_left (fun s i =>
      let j := ia s - 2 - Z.of_nat i in
      mk_write_index s (u32 j) (pad 64 (name_from name (NAME_SPACE + IE_SZ * Z.of_nat i))))
    (seq 0 (Z.to_nat nie)) s.

Definition write_file (s : mkfs) (name : list Z) : outcome mkfs :=
  let nie := NIE_FILE (Z.of_nat (length name)) in
  match host name with
  | None => Stop (Exit 1)
  | Some HOther => Stop (Exit 1)
  | Some HDir =>
      s1 ← inc_ia s (nie + 1);
      let s2 := mk_write_index s1 (ia s1) mark in
      let s3 := mk_write_index s2 (u32 (ia s2 - 1)) (enc_entry DIR_ENT nie 0 0 0 0 name) in
      Ret (write_conts s3 name nie)
  | Some (HReg content) =>
      s1 ← inc_ia s (nie + 1);
      let s2 := mk_write_index s1 (ia s1) mark in
      let size := Z.of_nat (length content) in
      '(s3, blk_start, blk_end) ← write_data s2 size content;
      let s4 := mk_write_index s3 (u32 (ia s3 - 1))
                  (enc_entry FILE_ENT nie 0 blk_start blk_end size name) in
      Ret (write_conts s4 name nie)
  end.

Fixpoint write_files (s : mkfs) (names : list (list Z)) : outcome mkfs :=
  match names with
  | [] => Ret s
  | n :: names' => s' ← write_file s n; write_files s' names'
  end.

(** [main] with the names after the image's; the image starts empty. *)
Definition mk_sfs (names : list (list Z)) : outcome mkfs :=
  let s0 := init_sb (mkMkfs (fun _ => 0) 0 0 0) in
  s1 ← init_index s0;
  s2 ← init_root s1;
  s3 ← write_files s2 names;
  update_sb s3.

End Builder.
