(* ===== verification/SfsImage.v ===== *)
(** * What mk_sfs puts into an image

    The image as the kernel will see it: 512-byte blocks and, from the end
    downwards, 64-byte slots of the index.  The invariant of the builder says
    that the directory and file entries written so far are in their slots, that
    the blocks of every file hold its contents, and that data and index do not
    meet; every step of the builder that does not give up preserves it. *)

From stdpp Require Import base list strings.
From Stdlib Require Import ZArith Lia.
From S2P Require Import Prelude Le MkSfs.

Open Scope Z_scope.

#[local] Opaque mk_checksum.

(** ** The entries of an image *)

Inductive ent : Type :=
  | EDir (name : list Z) (len : Z)
  | EFile (name : list Z) (start : Z) (content : list Z).

Definition e_name (e : ent) : list Z :=
  match e with EDir n _ => n | EFile n _ _ => n end.

(** The number of continuation slots below the entry. *)
Definition e_ne (e : ent) : Z := NIE_FILE (Z.of_nat (length (e_name e))).

Definition nblocks (content : list Z) : Z := (Z.of_nat (length content) + 511) / 512.

Definition e_raw (e : ent) : list Z :=
  match e with
  | EDir n len => enc_entry DIR_ENT (e_ne e) 0 0 0 len n
  | EFile n start c =>
      enc_entry FILE_ENT (e_ne e) 0 start (u32 (start + nblocks c - 1)) (Z.of_nat (length c)) n
  end.

Definition blk (m : memory) (n : Z) : list Z := read_bytes m (n * 512) 512.

(** Block [j] of a file. *)
Definition file_block (c : list Z) (j : nat) : list Z := pad 512 (take 512 (drop (j * 512) c)).

Section Image.

Variable numblk : Z.

(** Slot [k] of the index, from the end of the image. *)
Definition slot_addr (k : Z) : Z := numblk * 512 - (k + 1) * 64.

Definition slot (m : memory) (k : Z) : list Z := read_bytes m (slot_addr k) 64.

(** The file's blocks are in the first [d] blocks of the data area. *)
Definition data_at (m : memory) (d : Z) (e : ent) : Prop :=
  match e with
  | EDir _ _ => True
  | EFile _ start c =>
      0 <= start /\ start + nblocks c <= d /\
      forall j, (Z.of_nat j < nblocks c) -> blk m (1 + start + Z.of_nat j) = file_block c j
  end.

(** The entries in their slots, upwards from slot [p]. *)
Fixpoint entries_at (m : memory) (d p : Z) (es : list ent) : Prop :=
  match es with
  | [] => True
  | e :: es' =>
      slot m (p + e_ne e) = e_raw e /\ data_at m d e /\ entries_at m d (p + e_ne e + 1) es'
  end.

Fixpoint next_slot (p : Z) (es : list ent) : Z :=
  match es with [] => p | e :: es' => next_slot (p + e_ne e + 1) es' end.

(** The room left between data and index. *)
Definition space (d i : Z) : Prop := 0 <= d /\ 0 <= i /\ d + (i + 1) / 8 + 1 < numblk.

Definition init_checksum : Z := u8 (- mk_checksum (enc_sb 0 0 0 numblk rsv_blk 16 2 0)).

Record built (s : mkfs) (es : list ent) : Prop := {
  b_entries : entries_at (img s) (da s) 1 es;
  b_ia : ia s = next_slot 1 es;
  b_space : space (da s) (ia s);
  b_sb : blk (img s) 0 = enc_sb 0 0 0 numblk rsv_blk 16 2 init_checksum;
  b_len : imglen s = numblk * 512
}.

(** A finished image. *)
Record image (m : memory) (es : list ent) (d i : Z) : Prop := {
  im_entries : entries_at m d 1 es;
  im_ia : i = next_slot 1 es;
  im_space : space d i;
  im_sb : blk m 0 = enc_sb 0 d (i * 64) numblk rsv_blk 16 2 init_checksum
}.

(** The parts of the image that the entries so far live in: the superblock, the
    data blocks and the slots below [i]. *)
Definition keeps_used (d i : Z) (m m' : memory) : Prop :=
  forall x, 0 <= x < (d + 1) * 512 \/ slot_addr (i - 1) <= x < numblk * 512 -> m' x = m x.

(** ** Lemmas on the layout *)

Hypothesis Hnb : 2 <= numblk <= 8388607.

Lemma e_ne_nonneg e : 0 <= e_ne e.
Proof. clear. unfold e_ne, NIE_FILE, IE_SZ. apply Z.div_pos; lia. Qed.

Lemma nblocks_nonneg c : 0 <= nblocks c.
Proof. clear. unfold nblocks. apply Z.div_pos; lia. Qed.

Lemma nindex_eq : nindex numblk = numblk * 8.
Proof. unfold nindex. apply u32_small. lia. Qed.

(** The address computed for a slot. *)
Lemma index_addr k :
  0 <= k < numblk * 8 ->
  u32 (u32 (nindex numblk - k - 1) * IE_SZ) = slot_addr k.
Proof.
  intros Hk. rewrite nindex_eq. unfold slot_addr, IE_SZ.
  rewrite (u32_small (numblk * 8 - k - 1)) by lia. rewrite u32_small by lia. lia.
Qed.

Lemma next_slot_ge es : forall p, p <= next_slot p es.
Proof. clear.
  induction es as [|e es IH]; intros p; cbn [next_slot]; [lia|].
  pose proof (e_ne_nonneg e). specialize (IH (p + e_ne e + 1)). lia.
Qed.

Lemma next_slot_app es e : forall p, next_slot p (es ++ [e]) = next_slot p es + e_ne e + 1.
Proof. clear. induction es as [|e' es IH]; intros p; cbn [next_slot app]; [done|apply IH]. Qed.

Lemma entries_at_app m d es e : forall p,
  entries_at m d p (es ++ [e]) <->
  entries_at m d p es /\ slot m (next_slot p es + e_ne e) = e_raw e /\ data_at m d e.
Proof. clear.
  induction es as [|e' es IH]; intros p; cbn [entries_at app next_slot]; [tauto|].
  rewrite IH. tauto.
Qed.

Lemma data_at_ext m m' d d' e :
  d <= d' -> (forall x, 0 <= x < (d + 1) * 512 -> m' x = m x) ->
  data_at m d e -> data_at m' d' e.
Proof. clear.
  intros Hd Hm. destruct e as [|n st c]; cbn [data_at]; [done|].
  intros (H0 & H1 & H2). split; [done|]. split; [lia|]. intros j Hj.
  rewrite <- H2 by done. apply read_bytes_ext. intros x Hx. apply Hm. lia.
Qed.

(** Entries below slot [i] survive a change that keeps the used parts. *)
Lemma entries_at_ext m m' d d' i es : forall p,
  d <= d' -> 0 <= p -> next_slot p es <= i -> keeps_used d i m m' ->
  entries_at m d p es -> entries_at m' d' p es.
Proof.
  induction es as [|e es IH]; intros p Hd Hp Hi Hk; cbn [entries_at next_slot] in *; [done|].
  intros (H1 & H2 & H3). pose proof (e_ne_nonneg e).
  pose proof (next_slot_ge es (p + e_ne e + 1)). split; [|split].
  - rewrite <- H1. apply read_bytes_ext. intros x Hx. apply Hk. right.
    unfold slot_addr in *. lia.
  - apply (data_at_ext m _ d); [done| |done]. intros x Hx. apply Hk. by left.
  - apply IH; try done. lia.
Qed.

Lemma length_enc_entry a b c d e f n : length (enc_entry a b c d e f n) = 64%nat.
Proof. unfold enc_entry. rewrite !length_app, !length_le, length_pad. done. Qed.

Lemma length_e_raw e : length (e_raw e) = 64%nat.
Proof. destruct e; apply length_enc_entry. Qed.

(** ** Effect of the writes *)

Lemma write_index_img s k b :
  0 <= k < numblk * 8 ->
  img (mk_write_index numblk s k b) = write_bytes (img s) (slot_addr k) b.
Proof. intros Hk. cbn. by rewrite index_addr. Qed.

Lemma write_index_len s k b :
  0 <= k < numblk * 8 -> imglen s = numblk * 512 ->
  imglen (mk_write_index numblk s k b) = numblk * 512.
Proof.
  intros Hk Hl. cbn. rewrite index_addr, Hl by done. unfold slot_addr, IE_SZ. lia.
Qed.

Lemma slot_written m k b : length b = 64%nat -> slot (write_bytes m (slot_addr k) b) k = b.
Proof. intros Hb. unfold slot. rewrite <- Hb. apply read_write_bytes_same. Qed.

(** A write to a slot that is not below [i] keeps what is used. *)
Lemma write_slot_keeps m d i k b :
  length b = 64%nat -> space d k -> i <= k ->
  keeps_used d i m (write_bytes m (slot_addr k) b).
Proof.
  intros Hb (H0 & H1 & Hs) Hik x Hx. apply write_bytes_outside. rewrite Hb.
  unfold slot_addr in *. change (Z.of_nat 64) with 64. modlia.
Qed.

Lemma keeps_used_trans d i m1 m2 m3 :
  keeps_used d i m1 m2 -> keeps_used d i m2 m3 -> keeps_used d i m1 m3.
Proof. intros H1 H2 x Hx. rewrite H2, H1 by done. done. Qed.

Lemma keeps_used_weaken d i d' i' m m' :
  d <= d' -> i <= i' -> keeps_used d' i' m m' -> keeps_used d i m m'.
Proof. intros Hd Hi H x Hx. apply H. unfold slot_addr in *. lia. Qed.

(** ** Effect of the builder's steps *)

Lemma no_space_false s :
  no_space numblk s = false -> 0 <= da s < 4294967296 -> 0 <= ia s < 4294967295 ->
  da s + (ia s + 1) / 8 + 1 < 4294967296 -> space (da s) (ia s).
Proof.
  unfold no_space. intros H Hd Hi Hs. apply bool_decide_eq_false in H.
  rewrite (u32_small (ia s + 1)) in H by lia. rewrite u32_small in H by modlia.
  split; [lia|]. split; lia.
Qed.

Lemma inc_ia_ok s n s' :
  space (da s) (ia s) -> 0 <= n < 65536 -> inc_ia numblk s n = Ret s' ->
  img s' = img s /\ imglen s' = imglen s /\ da s' = da s /\ ia s' = ia s + n /\
  space (da s') (ia s').
Proof.
  intros (H0 & H1 & H2) Hn. unfold inc_ia. destruct (no_space _ _) eqn:E; [done|].
  intros [= <-]. cbn [img imglen da ia].
  assert (Hsm : u32 (ia s + n) = ia s + n) by (apply u32_small; modlia).
  apply no_space_false in E; cbn [da ia] in *; rewrite ?Hsm in *; [done|modlia..].
Qed.

Lemma inc_da_ok s s' :
  space (da s) (ia s) -> inc_da numblk s 1 = Ret s' ->
  img s' = img s /\ imglen s' = imglen s /\ da s' = da s + 1 /\ ia s' = ia s /\
  space (da s') (ia s').
Proof.
  intros (H0 & H1 & H2). unfold inc_da. destruct (no_space _ _) eqn:E; [done|].
  intros [= <-]. cbn [img imglen da ia].
  assert (Hsm : u32 (da s + 1) = da s + 1) by (apply u32_small; modlia).
  apply no_space_false in E; cbn [da ia] in *; rewrite ?Hsm in *; [done|modlia..].
Qed.

Lemma nblocks_step c :
  (0 < length c)%nat -> nblocks c = 1 + nblocks (drop 512 c).
Proof.
  clear. intros H. unfold nblocks. rewrite length_drop.
  destruct (decide (length c <= 512)%nat) as [Hc|Hc].
  - replace (length c - 512)%nat with 0%nat by lia. change ((Z.of_nat 0 + 511) / 512) with 0. modlia.
  - rewrite Nat2Z.inj_sub by lia. change (Z.of_nat 512) with 512. modlia.
Qed.

Lemma write_block_first s c n :
  n = Z.min 512 (Z.of_nat (length c)) -> u32 (u32 (da s + rsv_blk) * BLKSZ) = (da s + 1) * 512 ->
  blk (img (mk_write_block s (u32 (da s + rsv_blk)) (pad 512 (take (Z.to_nat n) c)))) (1 + da s) =
  file_block c 0.
Proof.
  intros Hn Ha. unfold blk. cbn [img mk_write_block write_elem]. rewrite Ha.
  unfold file_block. replace ((1 + da s) * 512) with ((da s + 1) * 512) by lia.
  replace (take 512 (drop (0 * 512) c)) with (take (Z.to_nat n) c).
  - rewrite <- (length_pad 512 (take (Z.to_nat n) c)) at 2. apply read_write_bytes_same.
  - change (0 * 512)%nat with 0%nat. rewrite drop_0.
    destruct (decide (length c <= 512)%nat); [rewrite !take_ge by lia; done|f_equal; lia].
Qed.

(** The blocks written for the contents [c]. *)
Lemma write_data_loop_ok fuel : forall s c s',
  space (da s) (ia s) -> imglen s = numblk * 512 ->
  write_data_loop numblk fuel s (Z.of_nat (length c)) c = Ret s' ->
  da s' = da s + nblocks c /\ ia s' = ia s /\ imglen s' = numblk * 512 /\
  space (da s') (ia s') /\ keeps_used (da s) (ia s + 1) (img s) (img s') /\
  (forall j, Z.of_nat j < nblocks c ->
     blk (img s') (1 + da s + Z.of_nat j) = file_block c j).
Proof.
  induction fuel as [|fuel IH]; intros s c s' Hs Hl; cbn [write_data_loop];
    (case_decide as Hpos; cycle 1;
     [intros [= <-]; assert (length c = 0)%nat as Hc by lia; unfold nblocks; rewrite Hc;
      change ((Z.of_nat 0 + 511) / 512) with 0; rewrite Z.add_0_r;
      repeat (split; [done|]); intros j Hj; lia|]); [done|].
  set (n := if decide _ then BLKSZ else _).
  assert (Hn : n = Z.min 512 (Z.of_nat (length c))) by (unfold n, BLKSZ; case_decide; lia).
  assert (Hlt : length (take (Z.to_nat n) c) = Z.to_nat n) by (rewrite length_take; lia).
  rewrite decide_False by lia.
  set (s1 := mk_write_block _ _ _).
  destruct (inc_da numblk s1 1) as [s2|] eqn:E2; [|done]. cbn [mbind outcome_bind].
  apply inc_da_ok in E2 as (Hi & Hl2 & Hda & Hia & Hs2); [|done].
  assert (Ha : u32 (u32 (da s + rsv_blk) * BLKSZ) = (da s + 1) * 512).
  { destruct Hs as (Ha0 & Ha1 & Ha2). unfold rsv_blk, BLKSZ.
    rewrite (u32_small (da s + 1)) by modlia. apply u32_small. modlia. }
  assert (Hl2' : imglen s2 = numblk * 512).
  { rewrite Hl2. cbn. rewrite Ha, Hl. destruct Hs as (Ha0 & Ha1 & Ha2). unfold BLKSZ. modlia. }
  cbn [da ia s1 mk_write_block write_elem] in Hda, Hia.
  assert (Hdrop : drop (Z.to_nat n) c = drop 512 c).
  { destruct (decide (length c <= 512)%nat); [|f_equal; lia].
    rewrite !drop_ge by lia. done. }
  rewrite Hdrop. replace (Z.of_nat (length c) - BLKSZ) with (Z.of_nat (length c) - 512) by done.
  intros Hloop.
  assert (Hloop' : write_data_loop numblk fuel s2 (Z.of_nat (length (drop 512 c))) (drop 512 c) = Ret s').
  { rewrite length_drop. destruct (decide (length c <= 512)%nat) as [Hc|Hc].
    - replace (length c - 512)%nat with 0%nat by lia. cbn [Z.of_nat].
      destruct fuel; cbn [write_data_loop] in *;
        (rewrite decide_False in Hloop by lia); rewrite decide_False by lia; done.
    - by replace (Z.of_nat (length c - 512)) with (Z.of_nat (length c) - 512) by lia. }
  destruct (IH s2 (drop 512 c) s' Hs2 Hl2' Hloop') as (R1 & R2 & R3 & R4 & R5 & R6).
  rewrite (nblocks_step c) by lia.
  assert (Hkeep : keeps_used (da s) (ia s + 1) (img s) (img s2)).
  { rewrite Hi. intros x Hx. cbn. rewrite Ha. apply write_bytes_outside.
    rewrite length_pad. change (Z.of_nat 512) with 512.
    destruct Hs2 as (Hb0 & Hb1 & Hb2). rewrite Hda, Hia in Hb2. unfold slot_addr in Hx. modlia. }
  split; [lia|]. split; [lia|]. split; [done|]. split; [done|]. split.
  - eapply keeps_used_trans; [exact Hkeep|]. rewrite Hda, Hia in R5.
    eapply keeps_used_weaken; [| |exact R5]; lia.
  - intros [|j] Hj.
    + assert (E1 : blk (img s2) (1 + da s) = file_block c 0)
        by (rewrite Hi; apply (write_block_first s c n Hn Ha)).
      rewrite Z.add_0_r, <- E1. apply read_bytes_ext. intros x Hx. apply R5. left.
      rewrite Hda. destruct Hs as (? & ? & ?). lia.
    + specialize (R6 j ltac:(lia)). rewrite Hda in R6.
      replace (1 + da s + Z.of_nat (S j)) with (1 + (da s + 1) + Z.of_nat j) by lia.
      rewrite R6. unfold file_block. by rewrite drop_drop.
Qed.

Variable host : list Z -> option hnode.
Variable argv_after : list Z -> list Z.

(** The continuation entries stay below the entry itself. *)
Lemma write_conts_ok s name nie :
  0 <= nie -> nie + 2 <= ia s < numblk * 8 -> imglen s = numblk * 512 ->
  let s' := write_conts numblk argv_after s name nie in
  da s' = da s /\ ia s' = ia s /\ imglen s' = numblk * 512 /\
  (forall x, x < slot_addr (ia s - 2) \/ slot_addr (ia s - 2 - nie) <= x -> img s' x = img s x).
Proof.
  intros Hnie Hia Hl. unfold write_conts.
  assert (Hks : Forall (fun i => Z.of_nat i < nie) (seq 0 (Z.to_nat nie))).
  { apply Forall_forall. intros i Hi. apply elem_of_seq in Hi. lia. }
  revert s Hia Hl. induction Hks as [|k ks Hk Hks IH]; intros s Hia Hl; [done|].
  cbn [fold_left]. set (s1 := mk_write_index _ _ _ _).
  assert (Hu : u32 (ia s - 2 - Z.of_nat k) = ia s - 2 - Z.of_nat k) by (apply u32_small; lia).
  destruct (IH s1) as (R1 & R2 & R3 & R4).
  - exact Hia.
  - unfold s1. rewrite Hu. apply write_index_len; [lia|done].
  - split; [done|]. split; [done|]. split; [done|]. intros x Hx. rewrite R4 by exact Hx.
    unfold s1. rewrite Hu, write_index_img by lia. apply write_bytes_outside.
    rewrite length_pad. unfold slot_addr in *. lia.
Qed.

(** Writing the mark, the entry and its continuation entries: what was used
    before is kept and the entry is in its slot. *)
Lemma write_entry_ok s name raw nie i :
  0 <= nie -> i + nie + 1 = ia s -> 1 <= i -> space (da s) (ia s) ->
  imglen s = numblk * 512 -> length raw = 64%nat ->
  let s' := write_conts numblk argv_after (mk_write_index numblk s (u32 (ia s - 1)) raw) name nie in
  da s' = da s /\ ia s' = ia s /\ imglen s' = numblk * 512 /\
  keeps_used (da s) i (img s) (img s') /\ slot (img s') (i + nie) = raw.
Proof.
  intros Hnie Hi Hi1 Hs Hl Hraw. pose proof Hs as (Hs0 & Hs1 & Hs2).
  assert (Hia : 1 <= ia s < numblk * 8) by modlia.
  rewrite (u32_small (ia s - 1)) by lia. set (s1 := mk_write_index _ _ _ _).
  destruct (write_conts_ok s1 name nie) as (R1 & R2 & R3 & R4); [done|cbn; lia| |].
  { apply write_index_len; [lia|done]. }
  cbn [ia da s1 mk_write_index write_elem] in R1, R2, R4. cbn zeta.
  split; [done|]. split; [done|]. split; [done|].
  assert (Himg : img s1 = write_bytes (img s) (slot_addr (ia s - 1)) raw)
    by (apply write_index_img; lia).
  split.
  - intros x Hx. rewrite R4.
    + rewrite Himg. apply (write_slot_keeps _ (da s) i); [done| |lia|done].
      split; [done|]. split; [lia|]. modlia.
    + unfold slot_addr in *. modlia.
  - replace (i + nie) with (ia s - 1) by lia.
    transitivity (slot (img s1) (ia s - 1)); [|rewrite Himg; by apply slot_written].
    apply read_bytes_ext. intros x Hx. apply R4. unfold slot_addr in *. lia.
Qed.

Lemma blk0_keeps d i m m' : 0 <= d -> keeps_used d i m m' -> blk m' 0 = blk m 0.
Proof. intros Hd H. apply read_bytes_ext. intros x Hx. apply H. left. lia. Qed.

Lemma NIE_bound (name : list Z) :
  (length name < 1024)%nat -> 0 <= NIE_FILE (Z.of_nat (length name)) <= 16.
Proof. clear. intros H. unfold NIE_FILE, IE_SZ. modlia. Qed.

(** The entry [write_file] makes of a host file. *)
Definition ent_of (name : list Z) (node : hnode) (d : Z) : option ent :=
  match node with
  | HDir => Some (EDir name 0)
  | HReg c => Some (EFile name d c)
  | HOther => None
  end.

(** The entry is added behind the others. *)
Lemma built_add s s' es e :
  built s es -> da s <= da s' -> ia s' = ia s + e_ne e + 1 -> space (da s') (ia s') ->
  imglen s' = numblk * 512 -> keeps_used (da s) (ia s) (img s) (img s') ->
  slot (img s') (ia s + e_ne e) = e_raw e -> data_at (img s') (da s') e ->
  built s' (es ++ [e]).
Proof.
  intros [B1 B2 B3 B4 B5] Hd Hi Hs Hl Hk Hslot Hdat. split; [| |done| |done].
  - rewrite entries_at_app, <- B2. split; [|done].
    apply (entries_at_ext (img s) _ (da s) _ (ia s)); [done|lia|lia|done|done].
  - rewrite next_slot_app, <- B2. lia.
  - rewrite (blk0_keeps (da s) (ia s) (img s)); [done| |done]. destruct B3. lia.
Qed.

(** The mark below the new entries: space for them is taken and nothing built
    before is touched. *)
Lemma mark_ok s es nie s1 :
  built s es -> 0 <= nie <= 16 -> inc_ia numblk s (nie + 1) = Ret s1 ->
  let s2 := mk_write_index numblk s1 (ia s1) mark in
  1 <= ia s /\ da s2 = da s /\ ia s2 = ia s + (nie + 1) /\ imglen s2 = numblk * 512 /\
  space (da s2) (ia s2) /\ keeps_used (da s) (ia s) (img s) (img s2).
Proof.
  intros Hb Hnie E1. cbn zeta.
  apply inc_ia_ok in E1 as (I1 & L1 & D1 & A1 & S1); [|apply Hb|lia].
  pose proof S1 as (S10 & S11 & S12).
  assert (Hi1 : 1 <= ia s) by (rewrite (b_ia _ _ Hb); apply next_slot_ge).
  split; [exact Hi1|]. split; [exact D1|]. split; [exact A1|]. split.
  { apply write_index_len; [modlia|]. rewrite L1. apply Hb. }
  split; [exact S1|]. rewrite write_index_img, <- I1, <- D1 by modlia.
  apply write_slot_keeps; [done|done|lia].
Qed.

Lemma write_dir_ok s es name s' :
  built s es -> (length name < 1024)%nat -> host name = Some HDir ->
  write_file numblk host argv_after s name = Ret s' ->
  built s' (es ++ [EDir name 0]).
Proof.
  intros Hb Hn Eh. pose proof (NIE_bound name Hn) as Hnie. unfold write_file. rewrite Eh.
  set (nie := NIE_FILE _) in *.
  destruct (inc_ia numblk s (nie + 1)) as [s1|] eqn:E1; [|done]. cbn [mbind outcome_bind].
  destruct (mark_ok s es nie s1 Hb Hnie E1) as (Hi1 & D2 & A2 & L2 & S2 & K2).
  set (s2 := mk_write_index numblk s1 (ia s1) mark) in *.
  destruct (write_entry_ok s2 name (e_raw (EDir name 0)) nie (ia s))
    as (R1 & R2 & R3 & R4 & R5); [lia|lia|done|done|done|apply length_e_raw|].
  intros [= Hs']. change (write_conts numblk argv_after
    (mk_write_index numblk s2 (u32 (ia s2 - 1)) (e_raw (EDir name 0))) name nie = s') in Hs'.
  rewrite Hs' in R1, R2, R3, R4, R5.
  apply (built_add s); [done|lia|change (e_ne (EDir name 0)) with nie; lia| |done| |exact R5|done].
  - rewrite R1, R2. done.
  - eapply keeps_used_trans; [exact K2|]. rewrite <- D2. exact R4.
Qed.

Lemma write_reg_ok s es name c s' :
  built s es -> (length name < 1024)%nat -> host name = Some (HReg c) ->
  write_file numblk host argv_after s name = Ret s' ->
  built s' (es ++ [EFile name (da s) c]).
Proof.
  intros Hb Hn Eh. pose proof (NIE_bound name Hn) as Hnie. unfold write_file. rewrite Eh.
  set (nie := NIE_FILE _) in *.
  destruct (inc_ia numblk s (nie + 1)) as [s1|] eqn:E1; [|done]. cbn [mbind outcome_bind].
  destruct (mark_ok s es nie s1 Hb Hnie E1) as (Hi1 & D2 & A2 & L2 & S2 & K2).
  set (s2 := mk_write_index numblk s1 (ia s1) mark) in *.
  change (da s1) with (da s2) in *. unfold write_data.
  destruct (write_data_loop numblk _ s2 _ c) as [s3|] eqn:E3; [|done]. cbn [mbind outcome_bind].
  apply write_data_loop_ok in E3 as (D3 & A3 & L3 & S3 & K3 & B3); [|done|done].
  rewrite D3, D2. set (e := EFile name (da s) c).
  destruct (write_entry_ok s3 name (e_raw e) nie (ia s))
    as (R1 & R2 & R3 & R4 & R5); [lia|lia|done|done|done|apply length_e_raw|].
  intros [= Hs']. change (write_conts numblk argv_after
    (mk_write_index numblk s3 (u32 (ia s3 - 1)) (e_raw e)) name nie = s') in Hs'.
  rewrite Hs' in R1, R2, R3, R4, R5. pose proof (nblocks_nonneg c) as Hnbk.
  apply (built_add s); [done|lia|change (e_ne e) with nie; lia| |done| |exact R5|].
  - rewrite R1, R2. done.
  - apply (keeps_used_trans _ _ _ (img s2)); [exact K2|].
    apply (keeps_used_trans _ _ _ (img s3)); eapply keeps_used_weaken;
      [| |exact K3| | |exact R4]; lia.
  - cbn [data_at e]. split; [destruct (b_space _ _ Hb); lia|]. split; [lia|].
    intros j Hj. rewrite <- B3 by done. rewrite D2. apply read_bytes_ext. intros x Hx.
    apply R4. left. destruct (b_space _ _ Hb). lia.
Qed.

(** A file or directory is added to the image, or the builder gives up. *)
Lemma write_file_ok s es name s' :
  built s es -> (length name < 1024)%nat ->
  write_file numblk host argv_after s name = Ret s' ->
  exists node e, host name = Some node /\ ent_of name node (da s) = Some e /\
    built s' (es ++ [e]).
Proof.
  intros Hb Hn H. destruct (host name) as [[|c|]|] eqn:Eh.
  - exists HDir, (EDir name 0). eauto using write_dir_ok.
  - exists (HReg c), (EFile name (da s) c). eauto using write_reg_ok.
  - unfold write_file in H. by rewrite Eh in H.
  - unfold write_file in H. by rewrite Eh in H.
Qed.

(** ** The beginning and the end *)

Lemma length_enc_sb a b c d e f g h : length (enc_sb a b c d e f g h) = 512%nat.
Proof. unfold enc_sb. rewrite !length_app, !length_le, !repeat_length. done. Qed.

Lemma init_sb_img s : img (init_sb numblk s) =
  write_bytes (img s) 0 (enc_sb 0 0 0 numblk rsv_blk 16 2 init_checksum).
Proof. reflexivity. Qed.

Lemma slot_write_blk0 m k b :
  length b = 64%nat -> 0 <= k -> k + 1 <= (numblk - 1) * 8 ->
  blk (write_bytes m (slot_addr k) b) 0 = blk m 0.
Proof.
  intros Hb Hk Hk2. apply read_write_bytes_other. left. unfold slot_addr. lia.
Qed.

Lemma init_ok s1 s2 :
  init_index numblk (init_sb numblk (mkMkfs (fun _ => 0) 0 0 0)) = Ret s1 ->
  init_root numblk s1 = Ret s2 ->
  built s2 [EDir [47] 21] /\ da s2 = 1.
Proof.
  set (sb := enc_sb 0 0 0 numblk rsv_blk 16 2 init_checksum). unfold init_index.
  set (a1 := mk_write_index _ _ _ _). destruct (inc_ia numblk a1 1) as [a2|] eqn:E2; [|done].
  cbn [mbind outcome_bind]. apply inc_ia_ok in E2 as (I2 & L2 & D2 & A2 & S2); cycle 1.
  { cbn. split; [lia|]. split; [lia|]. change ((0 + 1) / 8) with 0. lia. }
  { lia. }
  change (da a1) with 0 in D2. change (ia a1) with 0 in A2. change (0 + 1) with 1 in A2.
  intros [= <-]. set (s1 := mk_write_index _ _ _ _). unfold init_root.
  change (da s1) with (da a2). change (ia s1) with (ia a2). rewrite D2, A2.
  set (b1 := mk_write_index _ s1 _ _).
  destruct (inc_da numblk b1 1) as [b2|] eqn:F2; [|done]. cbn [mbind outcome_bind].
  apply inc_da_ok in F2 as (J2 & M2 & G2 & B2 & T2); [|change (da b1) with (da a2); done].
  destruct (inc_ia numblk b2 1) as [b3|] eqn:F3; [|done]. cbn [mbind outcome_bind].
  apply inc_ia_ok in F3 as (J3 & M3 & G3 & B3 & T3); [|done|lia]. intros [= <-].
  change (da b1) with (da a2) in *. change (ia b1) with (ia a2) in *.
  rewrite G2, D2 in G3. rewrite B2, A2 in B3. change (0 + 1) with 1 in G3.
  change (1 + 1) with 2 in B3. rewrite G3, B3 in T3. pose proof T3 as (_ & _ & T3').
  change ((2 + 1) / 8) with 0 in T3'.
  set (s2 := mk_write_index numblk b3 (ia b3) mark).
  assert (I : img s2 = write_bytes (write_bytes (write_bytes (write_bytes
            (write_bytes (fun _ => 0) 0 sb) (slot_addr 0) (enc_vol_id 0 [115; 102; 115; 45; 49; 46; 48]))
            (slot_addr 1) mark) (slot_addr 1) (e_raw (EDir [47] 21))) (slot_addr 2) mark).
  { unfold s2. rewrite write_index_img, B3, J3, J2 by lia. unfold b1.
    rewrite write_index_img by lia. unfold s1. rewrite write_index_img, A2, I2 by lia.
    unfold a1. cbn [ia]. rewrite write_index_img by lia. reflexivity. }
  split; [|exact G3]. split.
  - split; [|split; done]. change (e_ne (EDir [47] 21)) with 0. rewrite I.
    unfold slot. rewrite read_write_bytes_other; [apply slot_written; apply length_e_raw|].
    right. unfold slot_addr. change (length mark) with 64%nat. lia.
  - change (ia s2) with (ia b3). by rewrite B3.
  - change (da s2) with (da b3). change (ia s2) with (ia b3). by rewrite G3, B3.
  - rewrite I, !slot_write_blk0 by (try apply length_e_raw; try done; lia).
    unfold blk. rewrite <- (length_enc_sb 0 0 0 numblk rsv_blk 16 2 init_checksum) at 1.
    apply read_write_bytes_same.
  - apply write_index_len; [lia|]. rewrite M3, M2. apply write_index_len; [lia|].
    apply write_index_len; [lia|]. rewrite L2. cbn. rewrite index_addr by lia.
    unfold slot_addr, IE_SZ. change (u32 (0 * BLKSZ) + BLKSZ) with 512. lia.
Qed.

Lemma write_files_ok names : forall s es s',
  built s es -> Forall (fun n => (length n < 1024)%nat) names ->
  write_files numblk host argv_after s names = Ret s' ->
  exists new, built s' (es ++ new) /\
    Forall2 (fun n e => exists node d, host n = Some node /\ ent_of n node d = Some e) names new.
Proof.
  induction names as [|n names IH]; intros s es s' Hb Hn; cbn [write_files].
  - intros [= <-]. exists []. rewrite app_nil_r. split; [done|constructor].
  - apply Forall_cons in Hn as [Hn1 Hn].
    destruct (write_file numblk host argv_after s n) as [s1|] eqn:E; [|done].
    cbn [mbind outcome_bind]. intros E2.
    destruct (write_file_ok s es n s1 Hb Hn1 E) as (node & e & H1 & H2 & Hb1).
    destruct (IH s1 (es ++ [e]) s' Hb1 Hn E2) as (new & Hb2 & H3).
    exists (e :: new). rewrite <- app_assoc in Hb2. split; [done|].
    constructor; [by exists node, (da s)|done].
Qed.

(** Entries do not look at block 0. *)
Lemma entries_at_blocks m m' d es : forall p,
  0 <= p -> next_slot p es <= (numblk - 1) * 8 ->
  (forall x, 512 <= x -> m' x = m x) -> entries_at m d p es -> entries_at m' d p es.
Proof.
  induction es as [|e es IH]; intros p Hp Hi Hm; cbn [entries_at next_slot] in *; [done|].
  intros (H1 & H2 & H3). pose proof (e_ne_nonneg e).
  pose proof (next_slot_ge es (p + e_ne e + 1)). split; [|split].
  - rewrite <- H1. apply read_bytes_ext. intros x Hx. apply Hm. unfold slot_addr in *. lia.
  - destruct e as [|n st c]; [done|]. destruct H2 as (G1 & G2 & G3).
    split; [done|]. split; [done|]. intros j Hj. rewrite <- G3 by done.
    apply read_bytes_ext. intros x Hx. apply Hm. lia.
  - apply IH; try done. lia.
Qed.

Lemma update_sb_ok s es s' :
  built s es -> update_sb s = Ret s' -> image (img s') es (da s) (ia s).
Proof.
  intros [B1 B2 (S0 & S1 & S2) B4 B5]. unfold update_sb, mk_read_block, read_elem.
  change (u32 (0 * BLKSZ)) with 0. rewrite decide_True by (unfold BLKSZ; lia).
  cbn [mbind outcome_bind]. change (Z.to_nat BLKSZ) with 512%nat.
  change (read_bytes (img s) 0 512) with (blk (img s) 0). rewrite B4.
  set (sb' := take 404 _ ++ _). intros [= <-].
  assert (Hsb : sb' = enc_sb 0 (da s) (ia s * 64) numblk rsv_blk 16 2 init_checksum).
  { unfold sb', enc_sb. rewrite u32_small by (unfold IE_SZ; modlia). reflexivity. }
  assert (Hlen : length sb' = 512%nat) by (rewrite Hsb; apply length_enc_sb).
  assert (Himg : img (mk_write_block s 0 sb') = write_bytes (img s) 0 sb') by reflexivity.
  rewrite Himg. split; [| done | done |].
  - assert (Hout : forall x, 512 <= x -> write_bytes (img s) 0 sb' x = img s x).
    { intros x Hx. apply write_bytes_outside. rewrite Hlen. lia. }
    apply (entries_at_blocks (img s)); [lia| |done|done]. rewrite <- B2. modlia.
  - unfold blk. rewrite <- Hlen at 1. change (0 * 512) with 0. rewrite read_write_bytes_same.
    exact Hsb.
Qed.

(** A run of the builder that does not give up leaves a finished image with
    one entry per argument, in order, behind the root directory. *)
Lemma mk_sfs_ok names s :
  Forall (fun n => (length n < 1024)%nat) names ->
  mk_sfs numblk host argv_after names = Ret s ->
  exists new d i, image (img s) (EDir [47] 21 :: new) d i /\
    Forall2 (fun n e => exists node k, host n = Some node /\ ent_of n node k = Some e) names new.
Proof.
  intros Hn. unfold mk_sfs.
  destruct (init_index numblk _) as [s1|] eqn:E1; [|done]. cbn [mbind outcome_bind].
  destruct (init_root numblk s1) as [s2|] eqn:E2; [|done]. cbn [mbind outcome_bind].
  destruct (write_files numblk host argv_after s2 names) as [s3|] eqn:E3; [|done].
  cbn [mbind outcome_bind]. intros E4.
  destruct (init_ok s1 s2 E1 E2) as [Hb2 _].
  destruct (write_files_ok names s2 _ s3 Hb2 Hn E3) as (new & Hb3 & Hf).
  exists new, (da s3), (ia s3). split; [exact (update_sb_ok s3 _ s Hb3 E4)|exact Hf].
Qed.

End Image.
