(* ===== verification/SfsSpec.v ===== *)
(** * The kernel reads the images the builder writes

    The reading side of SFS (Sfs.v) over any [BlockDev], for a device that
    holds an image in the sense of SfsImage.v: mounting, looking a name up in
    the index, reading a file whole and through a descriptor.  The main theorem
    composes both programs: a file given to mk_sfs is what [sfs_read_file]
    returns. *)

From stdpp Require Import base list strings.
From Stdlib Require Import ZArith Lia.
From S2P Require Import Prelude Bio Hd Buffer CString BlockDev Le Sfs MkSfs SfsImage.

Open Scope Z_scope.

(** ** Specification *)

(** A path as the kernel can look it up: 1 to 28 bytes, none of them NUL. *)
Definition path_ok (file : list Z) : Prop :=
  (1 <= length file <= 28)%nat /\ Forall (fun b => 1 <= b < 256) file.

(** An entry that [sfs_find_index] takes for [file]: a file whose name has it
    as a prefix. *)
Definition matches (file : list Z) (e : ent) : bool :=
  match e with
  | EDir _ _ => false
  | EFile n _ _ => bool_decide (take (length file) n = file)
  end.

(** The entry the kernel finds: the last one that matches. *)
Definition lookup_ent (file : list Z) (es : list ent) : option ent :=
  List.find (matches file) (rev es).

Definition ent_bytes (e : ent) : Prop := Forall (fun b => 0 <= b < 256) (e_name e).

(** The two programs compute the same sum. *)
Lemma mk_checksum_eq sb : mk_checksum sb = calc_checksum sb.
Proof. unfold mk_checksum, calc_checksum. reflexivity. Qed.

#[local] Opaque mk_checksum.

(** Successive reads of a program from one descriptor. *)
Fixpoint read_chunks {D : Type} `{dev : BlockDev D} (s : sfs D) (fd : Z) (ns : list Z) :
    outcome (sfs D * list Z) :=
  match ns with
  | [] => Ret (s, [])
  | n :: ns' =>
      '(s1, _, out) ← sfs_read s fd n;
      '(s2, rest) ← read_chunks s1 fd ns'; Ret (s2, out ++ rest)
  end.

Definition total (ns : list Z) : Z := fold_right Z.add 0 ns.

(** The largest block a lookup takes: a name of 1023 bytes goes on in 16 more
    entries. *)
Definition NAME_BLOCK : Z := 17 * IE_SIZE.

(** What a lookup needs of the heap: nothing when every name fits into its
    entry. *)
Definition all_short (es : list ent) : Prop := Forall (fun e => (length (e_name e) <= 28)%nat) es.

Definition scratch_ok {H : Type} `{nh : NameHeap H} (h : H) (es : list ent) : Prop :=
  all_short es \/ nh_room h NAME_BLOCK.

(** What it leaves of the heap. *)
Definition scratched {H : Type} `{nh : NameHeap H} (h h' : H) (es : list ent) : Prop :=
  nh_same h h' /\ (all_short es -> h' = h).

Section Reader.

Context {D : Type} `{dev : BlockDev D} {HT : Type} `{nh : NameHeap HT}.

Variable beyond : Z -> Z.
Variable numblk : Z.
Hypothesis Hnb : 2 <= numblk <= 8388607.

Variable m : memory.
Variable es : list ent.
Variables d0 i0 : Z.
Hypothesis Him : image numblk m es d0 i0.

(** The device shows the image. *)
Definition shows (d : D) : Prop :=
  blk_inv d /\ blk_size d = numblk /\ forall n, 0 <= n < numblk -> blk_image d n = blk m n.

Definition mounted (s : sfs D) : Prop :=
  shows (sdev s) /\ nblk s = numblk /\ reserved_blk s = 1 /\ ia_num s = i0.

(** ** Blocks and slots *)

Lemma set_sdev_shows s d : mounted s -> shows d -> mounted (set_sdev s d).
Proof. intros (_ & H) Hd. split; [exact Hd|exact H]. Qed.

Lemma read_block_ok s n :
  shows (sdev s) -> 0 <= n < numblk ->
  exists d, read_block s n = Ret (set_sdev s d, blk m n) /\ shows d.
Proof.
  intros (Hi & Hz & Hb) Hn.
  destruct (blk_read_ok (sdev s) n Hi ltac:(lia)) as (d & E & Hi' & Hz' & Hk).
  exists d. unfold read_block. rewrite E. cbn [mbind outcome_bind]. rewrite Hb by done.
  split; [done|]. split; [done|]. split; [congruence|]. intros k Hkr. rewrite Hk. by apply Hb.
Qed.

Lemma read_index_ok s k :
  mounted s -> 0 <= k < numblk * 8 ->
  exists d, read_index s k = Ret (set_sdev s d, slot numblk m k) /\ shows d.
Proof.
  intros (Hs & Hn & _) Hk. unfold read_index, IPB, IE_SIZE. rewrite Hn.
  cbv zeta. rewrite (u32_small (numblk - k / 8 - 1)) by modlia.
  destruct (read_block_ok s (numblk - k / 8 - 1) Hs ltac:(modlia)) as (d & -> & Hd).
  exists d. cbn [mbind outcome_bind]. split; [|done].
  rewrite u32_small by modlia. unfold blk.
  rewrite read_bytes_slice by modlia. unfold slot, slot_addr. do 3 f_equal. modlia.
Qed.

Lemma read_data_block_ok s n :
  mounted s -> 0 <= n < numblk - 1 ->
  exists d, read_data_block s n = Ret (set_sdev s d, blk m (1 + n)) /\ shows d.
Proof.
  intros (Hs & _ & Hr & _) Hn. unfold read_data_block. rewrite Hr, u32_small by lia.
  replace (n + 1) with (1 + n) by lia. apply read_block_ok; [done|lia].
Qed.

Lemma length_slot k : length (slot numblk m k) = 64%nat.
Proof. apply length_read_bytes. Qed.

Lemma read_conts_ok k h0 str z : forall s h n p,
  mounted s -> 0 <= n -> n + Z.of_nat k < numblk * 8 -> nh_held h0 h str z ->
  str <= p -> p + 64 * Z.of_nat k <= str + z ->
  exists d h', read_conts k s h n p = Ret (set_sdev s d, h') /\ shows d /\ nh_held h0 h' str z.
Proof.
  induction k as [|k IH]; intros s h n p Hm Hn Hk Hh Hp Hz; cbn [read_conts].
  - exists (sdev s), h. split; [by destruct s|]. split; [apply Hm|exact Hh].
  - rewrite u32_small by lia.
    destruct (read_index_ok s (n + Z.of_nat (S k)) Hm ltac:(lia)) as (d & -> & Hd).
    cbn [mbind outcome_bind].
    destruct (nh_write_ok h0 h str z p (slot numblk m (n + Z.of_nat (S k))) Hh Hp ltac:(rewrite length_slot; lia)) as (h1 & -> & Hh1). cbn [mbind outcome_bind].
    destruct (IH (set_sdev s d) h1 n (p + IE_SIZE)) as (d' & h' & E & Hd' & Hh');
      [by apply set_sdev_shows|lia|lia|exact Hh1|unfold IE_SIZE; lia|unfold IE_SIZE; lia|].
    by exists d', h'.
Qed.

(** ** Fields of an entry *)

Lemma raw_etype e : ie_etype (e_raw e) = match e with EDir _ _ => IAT_DIR_ENT | _ => IAT_FILE_ENT end.
Proof. by destruct e. Qed.

Lemma raw_ne e : (length (e_name e) < 1024)%nat -> ie_ne (e_raw e) = e_ne e.
Proof.
  intros H. pose proof (NIE_bound (e_name e) H) as Hb.
  assert (Hu : u8 (e_ne e) = e_ne e) by (apply u8_small; unfold e_ne; lia).
  destruct e; exact Hu.
Qed.

Lemma raw_start n st c :
  file_blk_start (e_raw (EFile n st c)) = st mod 2 ^ 64.
Proof.
  unfold file_blk_start, e_raw, enc_entry.
  rewrite !app_assoc, <- (app_assoc _ (le 8 st)), <- !app_assoc.
  apply (get_le_at ([_; _] ++ le 8 0)). reflexivity.
Qed.

Lemma raw_len n st c :
  file_len (e_raw (EFile n st c)) = Z.of_nat (length c) mod 2 ^ 64.
Proof.
  unfold file_len, e_raw, enc_entry.
  apply (get_le_at ([_; _] ++ le 8 0 ++ le 8 st ++ le 8 _)).
  rewrite !length_app, !length_le. reflexivity.
Qed.

Lemma raw_name n st c j :
  (j < 30)%nat -> nth (34 + j) (e_raw (EFile n st c)) 0 = nth j n 0.
Proof.
  intros Hj. unfold e_raw, enc_entry. rewrite !app_assoc.
  rewrite app_nth2 by (rewrite !length_app, !length_le; simpl; lia).
  rewrite !length_app, !length_le. rewrite <- (nth_pad 30 n j Hj). f_equal. simpl. lia.
Qed.

Lemma path_byte file j : path_ok file -> (j < length file)%nat -> 1 <= nth j file 0 < 256.
Proof.
  intros [_ H] Hj. rewrite List.Forall_forall in H. apply H, nth_In, Hj.
Qed.

Lemma prefix_nth file n :
  path_ok file ->
  (forall j, (j < length file)%nat -> nth j file 0 = nth j n 0) <-> take (length file) n = file.
Proof.
  intros Hp. split.
  - intros H. assert (Hl : (length file <= length n)%nat).
    { destruct (decide (length file <= length n)%nat) as [|Hc]; [done|exfalso].
      pose proof (path_byte file (length n) Hp ltac:(lia)) as Hb.
      rewrite H in Hb by lia. rewrite nth_overflow in Hb by lia. lia. }
    apply (nth_ext _ _ 0 0); [rewrite length_take; lia|]. intros j Hj.
    rewrite length_take in Hj. rewrite H by lia.
    rewrite <- (take_drop (length file) n) at 2.
    rewrite app_nth1; [done|rewrite length_take; lia].
  - intros H j Hj. rewrite <- H at 1. rewrite <- (take_drop (length file) n) at 2.
    rewrite app_nth1; [done|]. by rewrite H.
Qed.

(** The comparison the kernel makes of a path with an entry. *)
Lemma name_matches_file file n st c :
  path_ok file -> Forall (fun b => 0 <= b < 256) n ->
  name_matches beyond file (e_raw (EFile n st c)) file_name = matches file (EFile n st c).
Proof.
  intros Hp Hn. pose proof Hp as [Hlen _]. unfold name_matches, matches.
  apply bool_decide_ext. rewrite <- prefix_nth by done.
  assert (Hptr : forall j, 0 <= j < Z.of_nat (length file) ->
            entry_ptr beyond (e_raw (EFile n st c)) file_name j = nth (Z.to_nat j) n 0).
  { intros j Hj. unfold entry_ptr, file_name. rewrite decide_True by lia.
    replace (Z.to_nat (34 + j)) with (34 + Z.to_nat j)%nat by lia. apply raw_name. lia. }
  rewrite strncmp_zero; [|intros j Hj..|lia].
  - split; intros H j Hj.
    + specialize (H (Z.of_nat j) ltac:(lia)). rewrite Hptr in H by lia.
      unfold str_ptr in H. by rewrite Nat2Z.id in H.
    + rewrite Hptr by lia. apply H. lia.
  - pose proof (path_byte file (Z.to_nat j) Hp ltac:(lia)). unfold str_ptr. lia.
  - rewrite Hptr by done. destruct (decide (Z.to_nat j < length n)%nat) as [Hl|Hl].
    + rewrite List.Forall_forall in Hn. by apply Hn, nth_In.
    + rewrite nth_overflow by lia. lia.
Qed.

Lemma name_matches_dir file n len :
  path_ok file -> name_matches beyond file (e_raw (EDir n len)) dir_name = false.
Proof.
  intros Hp. pose proof Hp as [Hlen _]. unfold name_matches. apply bool_decide_eq_false.
  pose proof (path_byte file 0 Hp ltac:(lia)) as Hb.
  destruct file as [|b file]; [simpl in Hlen; lia|]. cbn [nth] in Hb.
  unfold strncmp. rewrite decide_False by (cbn [length]; lia).
  rewrite decide_False by lia. cbn [length].
  replace (Z.to_nat (Z.of_nat (S (length file)))) with (S (length file)) by lia.
  cbn [strncmp_from].
  assert (E : entry_ptr beyond (e_raw (EDir n len)) dir_name 0 = 0) by reflexivity.
  rewrite E. change (str_ptr (b :: file) 0) with b. rewrite decide_False by lia.
  unfold s8. modlia.
Qed.

(** ** Looking a name up *)

(** The block for a name is released again; without a long name there is none. *)
Lemma test_entry_ok s h file e p space off :
  mounted s -> 0 <= p -> p + e_ne e < numblk * 8 -> (length (e_name e) < 1024)%nat ->
  Z.of_nat (length file) <= space <= 63 -> scratch_ok h [e] ->
  exists d h', test_entry beyond s h file (e_raw e) p space off =
    Ret (set_sdev s d, h', name_matches beyond file (e_raw e) off) /\ shows d /\ scratched h h' [e].
Proof.
  intros Hm Hp He Hl Hsp Hsc. unfold test_entry. rewrite raw_ne by done.
  pose proof (NIE_bound (e_name e) Hl) as Hb. change (NIE_FILE (Z.of_nat (length (e_name e)))) with (e_ne e) in Hb.
  rewrite (bool_decide_eq_true_2 (Z.of_nat (length file) <= space)), andb_true_r by lia. case_bool_decide as Ene.
  - exists (sdev s), h. split; [by destruct s|]. split; [apply Hm|]. split; [apply nh_same_refl|done].
  - assert (Hlong : ~ all_short [e]).
    { intros Hs. apply Forall_cons in Hs as [Hs _]. apply Ene. unfold e_ne, NIE_FILE, IE_SZ. modlia. }
    destruct Hsc as [Hs|Hroom]; [by destruct Hlong|].
    destruct (nh_kmalloc_ok h ((e_ne e + 1) * IE_SIZE) NAME_BLOCK ltac:(unfold NAME_BLOCK, IE_SIZE; lia) Hroom)
      as (h1 & str & -> & Hstr & Hh1). cbn [mbind outcome_bind]. rewrite decide_False by exact Hstr.
    destruct (nh_write_ok h h1 str _ str (take (Z.to_nat space) (drop (Z.to_nat off) (e_raw e)) ++ [0]) Hh1 ltac:(lia))
      as (h2 & -> & Hh2); [rewrite length_app, length_take; cbn [length]; unfold IE_SIZE; lia|]. cbn [mbind outcome_bind].
    destruct (read_conts_ok (Z.to_nat (e_ne e)) h str _ s h2 p (str + space) Hm Hp ltac:(lia) Hh2) as (d & h3 & -> & Hd & Hh3);
      [lia|unfold IE_SIZE; lia|]. cbn [mbind outcome_bind].
    destruct (nh_kfree_ok h h3 str _ Hh3) as (h4 & -> & Hs4). exists d, h4. split; [done|]. split; [exact Hd|]. by split.
Qed.

Lemma scratched_refl h l : scratched h h l.
Proof. split; [apply nh_same_refl|done]. Qed.

Lemma scratch_split h l e : scratch_ok h (l ++ [e]) -> scratch_ok h l /\ scratch_ok h [e].
Proof. intros [Hs|Hs]; [apply Forall_app in Hs as [H1 H2]; split; by left|split; by right]. Qed.

Lemma scratched_ok h h' l k : scratched h h' k -> scratch_ok h l -> scratch_ok h' l.
Proof. intros [Hs _] [Hl|Hl]; [by left|right; exact (nh_room_same _ _ _ Hs Hl)]. Qed.

Lemma scratched_app h h1 h2 l e : scratched h h1 [e] -> scratched h1 h2 l -> scratched h h2 (l ++ [e]).
Proof.
  intros [A1 A2] [B1 B2]. split; [exact (nh_same_trans _ _ _ A1 B1)|]. intros Hs. apply Forall_app in Hs as [H1 H2].
  rewrite B2, A2 by assumption. done.
Qed.

Lemma scratched_last h h1 l e : scratched h h1 [e] -> scratched h h1 (l ++ [e]).
Proof. intros [A1 A2]. split; [exact A1|]. intros Hs. apply Forall_app in Hs as [_ Hs]. by apply A2. Qed.

Definition names_ok : Prop :=
  Forall (fun e => (length (e_name e) < 1024)%nat /\ ent_bytes e) es.

Lemma find_loop_ok file l : forall s h idx fuel,
  path_ok file -> mounted s -> scratch_ok h l -> entries_at numblk m d0 1 l ->
  Forall (fun e => (length (e_name e) < 1024)%nat /\ ent_bytes e) l ->
  next_slot 1 l <= i0 -> (length l <= fuel)%nat ->
  exists d h' idx', find_loop beyond fuel s h file idx (next_slot 1 l - 1) =
      Ret (set_sdev s d, h', bool_decide (is_Some (lookup_ent file l)), idx') /\ shows d /\ scratched h h' l /\
    (forall e, lookup_ent file l = Some e -> idx' = e_raw e).
Proof.
  induction l as [|e l IH] using rev_ind; intros s h idx fuel Hp Hm Hsc He Hn Hi Hf.
  - exists (sdev s), h, idx. cbn [next_slot].
    assert (E : find_loop beyond fuel s h file idx (1 - 1) = Ret (s, h, false, idx)) by (by destruct fuel).
    rewrite E. split; [by destruct s|]. split; [apply Hm|]. split; [apply scratched_refl|done].
  - apply scratch_split in Hsc as [Hsl Hse]. pose proof (proj1 Hp) as Hpl.
    apply entries_at_app in He as (He & Hslot & Hdat).
    apply Forall_app in Hn as [Hn He2]. apply Forall_cons in He2 as [[Hlen Hby] _].
    rewrite next_slot_app in *. pose proof (e_ne_nonneg e) as Hne.
    pose proof (next_slot_ge l 1) as Hge. pose proof (im_space _ _ _ _ _ Him) as (Hs0 & Hs1 & Hs2).
    rewrite length_app in Hf. cbn [length] in Hf. destruct fuel as [|fuel]; [lia|].
    replace (next_slot 1 l + e_ne e + 1 - 1) with (next_slot 1 l + e_ne e) by lia.
    cbn [find_loop]. rewrite decide_True by lia. rewrite u32_small by modlia.
    destruct (read_index_ok s (next_slot 1 l + e_ne e) Hm ltac:(modlia)) as (d1 & -> & Hd1).
    cbn [mbind outcome_bind]. rewrite Hslot, raw_ne, raw_etype by done.
    replace (next_slot 1 l + e_ne e - (e_ne e + 1)) with (next_slot 1 l - 1) by lia.
    pose proof (set_sdev_shows s d1 Hm Hd1) as Hm1.
    assert (Hlk : lookup_ent file (l ++ [e]) = if matches file e then Some e else lookup_ent file l).
    { unfold lookup_ent. by rewrite rev_unit. }
    rewrite Hlk. destruct e as [n len|n st c].
    + rewrite decide_True by done.
      destruct (test_entry_ok (set_sdev s d1) h file (EDir n len) (next_slot 1 l - 1) DIR_SPACE dir_name)
        as (d2 & h2 & -> & Hd2 & Hh2); [done|lia|modlia|done|unfold DIR_SPACE; lia|done|]. cbn [mbind outcome_bind].
      rewrite name_matches_dir by done. cbn [matches].
      destruct (IH (set_sdev s d2) h2 (e_raw (EDir n len)) fuel) as (d & h' & idx' & E & Hd & Hh & R);
        [done|by apply set_sdev_shows|exact (scratched_ok _ _ _ _ Hh2 Hsl)|done|done|lia|lia|].
      exists d, h', idx'. split; [exact E|]. split; [exact Hd|]. split; [exact (scratched_app _ _ _ _ _ Hh2 Hh)|exact R].
    + rewrite decide_False, decide_True by done.
      destruct (test_entry_ok (set_sdev s d1) h file (EFile n st c) (next_slot 1 l - 1) FILE_SPACE file_name)
        as (d2 & h2 & -> & Hd2 & Hh2); [done|lia|modlia|done|unfold FILE_SPACE; lia|done|]. cbn [mbind outcome_bind].
      rewrite name_matches_file by done. destruct (matches file (EFile n st c)).
      * exists d2, h2, (e_raw (EFile n st c)). split; [done|]. split; [done|]. split; [by apply scratched_last|]. by intros e [= <-].
      * destruct (IH (set_sdev s d2) h2 (e_raw (EFile n st c)) fuel) as (d & h' & idx' & E & Hd & Hh & R);
          [done|by apply set_sdev_shows|exact (scratched_ok _ _ _ _ Hh2 Hsl)|done|done|lia|lia|].
        exists d, h', idx'. split; [exact E|]. split; [exact Hd|]. split; [exact (scratched_app _ _ _ _ _ Hh2 Hh)|exact R].
Qed.

Lemma next_slot_length l : forall p, p + Z.of_nat (length l) <= next_slot p l.
Proof.
  clear. induction l as [|e l IH]; intros p; cbn [next_slot length]; [lia|].
  pose proof (e_ne_nonneg e). specialize (IH (p + e_ne e + 1)). lia.
Qed.

Lemma sfs_find_index_ok s h file idx :
  path_ok file -> mounted s -> scratch_ok h es -> names_ok ->
  exists d h' idx', sfs_find_index beyond s h file idx =
      Ret (set_sdev s d, h', bool_decide (is_Some (lookup_ent file es)), idx') /\ shows d /\ scratched h h' es /\
    (forall e, lookup_ent file es = Some e -> idx' = e_raw e).
Proof.
  intros Hp Hm Hsc Hn. pose proof Hm as (_ & _ & _ & Hia). pose proof Him as [He Hi Hs _].
  destruct Hs as (Hs0 & Hs1 & Hs2). pose proof (next_slot_length es 1) as Hl.
  unfold sfs_find_index. rewrite Hia, s32_small by modlia. rewrite Hi.
  apply find_loop_ok; try done; lia.
Qed.

(** ** Reading the blocks of a file *)

(** The blocks from [a] on hold [c]. *)
Definition stored (a : Z) (c : list Z) : Prop :=
  0 <= a /\ a + nblocks c < numblk - 1 /\
  forall k, Z.of_nat k < nblocks c -> blk m (1 + a + Z.of_nat k) = file_block c k.

Lemma stored_drop a c : stored a c -> (0 < length c)%nat -> stored (a + 1) (drop 512 c).
Proof.
  intros (H0 & H1 & H2) Hc. rewrite nblocks_step in H1, H2 by done.
  split; [lia|]. split; [lia|]. intros k Hk. specialize (H2 (S k) ltac:(lia)).
  replace (1 + (a + 1) + Z.of_nat k) with (1 + a + Z.of_nat (S k)) by lia. rewrite H2.
  unfold file_block. by rewrite drop_drop.
Qed.

Lemma stored_first a c : stored a c -> (0 < length c)%nat -> blk m (1 + a) = pad 512 (take 512 c).
Proof.
  intros (H0 & H1 & H2) Hc. pose proof (nblocks_step c Hc). pose proof (nblocks_nonneg (drop 512 c)).
  specialize (H2 0%nat ltac:(lia)). rewrite Z.add_0_r in H2. exact H2.
Qed.

Lemma take_pad sz (c : list Z) :
  (sz <= 512)%nat -> (sz <= length c)%nat -> take sz (pad 512 (take 512 c)) = take sz c.
Proof.
  intros H1 H2. unfold pad. rewrite take_app_le by (rewrite !length_take; lia).
  rewrite !take_take. f_equal. lia.
Qed.

Lemma read_file_loop_ok fuel : forall s a c L out,
  mounted s -> stored a c -> 0 <= L <= Z.of_nat (length c) -> (Z.to_nat L <= fuel)%nat ->
  exists d, read_file_loop fuel s a L out = Ret (set_sdev s d, out ++ take (Z.to_nat L) c) /\
    shows d.
Proof.
  induction fuel as [|fuel IH]; intros s a c L out Hm Hst HL Hf; cbn [read_file_loop];
    (case_decide as Hpos; cycle 1;
     [exists (sdev s); replace (Z.to_nat L) with 0%nat by lia; rewrite take_0, app_nil_r;
      split; [by destruct s|apply Hm]|]); [lia|].
  pose proof Hst as (H0 & H1 & _). pose proof (nblocks_nonneg c).
  assert (Hc : (0 < length c)%nat) by lia. pose proof (nblocks_step c Hc).
  pose proof (nblocks_nonneg (drop 512 c)).
  set (sz := if decide (L > 512) then 512 else L).
  assert (Hsz : sz = Z.min L 512) by (unfold sz; case_decide; lia).
  rewrite u32_small by lia.
  destruct (read_data_block_ok s a Hm ltac:(lia)) as (d1 & -> & Hd1). cbn [mbind outcome_bind].
  rewrite (stored_first a c) by done. rewrite take_pad by lia.
  assert (Hu : u64 (a + 1) = a + 1) by (unfold u64; apply Z.mod_small; lia). rewrite Hu.
  destruct (decide (L <= 512)) as [HL5|HL5].
  - destruct (IH (set_sdev s d1) (a + 1) (drop 512 c) (L - sz) (out ++ take (Z.to_nat sz) c))
      as (d & E & Hd); [by apply set_sdev_shows|by apply stored_drop|rewrite length_drop; lia|lia|].
    exists d. rewrite E. replace (Z.to_nat (L - sz)) with 0%nat by lia.
    rewrite take_0, app_nil_r. split; [|done]. do 4 f_equal. lia.
  - destruct (IH (set_sdev s d1) (a + 1) (drop 512 c) (L - sz) (out ++ take (Z.to_nat sz) c))
      as (d & E & Hd); [by apply set_sdev_shows|by apply stored_drop|rewrite length_drop; lia|lia|].
    exists d. rewrite E. split; [|done]. do 2 f_equal. rewrite <- app_assoc. f_equal.
    replace (Z.to_nat sz) with 512%nat by lia.
    replace (Z.to_nat L) with (512 + Z.to_nat (L - sz))%nat by lia.
    apply take_take_drop.
Qed.

(** Every file entry has its contents stored. *)
Lemma entries_stored l : forall p n st c,
  entries_at numblk m d0 p l -> EFile n st c ∈ l -> stored st c.
Proof. clear beyond Hnb.
  pose proof (im_space _ _ _ _ _ Him) as (Hs0 & Hs1 & Hs2).
  induction l as [|e l IH]; intros p n st c He Hin; [by apply elem_of_nil in Hin|].
  destruct He as (_ & Hd & He). apply elem_of_cons in Hin as [<-|Hin]; [|by apply (IH _ n st c He)].
  destruct Hd as (H0 & H1 & H2). split; [done|]. split; [modlia|done].
Qed.

Lemma lookup_ent_file file e :
  lookup_ent file es = Some e -> exists n st c, e = EFile n st c /\ e ∈ es.
Proof.
  unfold lookup_ent. intros H. apply find_some in H as [Hin Hm]. rewrite <- in_rev in Hin.
  apply list_elem_of_In in Hin. destruct e as [|n st c]; [discriminate|]. by exists n, st, c.
Qed.

(** Reading the file that the lookup gives. *)
Lemma sfs_read_file_ok s h file idx nb n st c :
  path_ok file -> mounted s -> scratch_ok h es -> names_ok -> 0 <= nb ->
  lookup_ent file es = Some (EFile n st c) -> Z.of_nat (length c) < 2147483648 ->
  exists d h', sfs_read_file beyond s h file idx nb =
      Ret (set_sdev s d, h', Z.min nb (Z.of_nat (length c)), Some (pad (Z.to_nat nb) c)) /\ shows d /\ scratched h h' es.
Proof.
  intros Hp Hm Hsc Hn Hnb0 Hlk Hc. unfold sfs_read_file.
  destruct (sfs_find_index_ok s h file idx Hp Hm Hsc Hn) as (d1 & h1 & idx' & -> & Hd1 & Hh1 & Hidx).
  rewrite (Hidx _ Hlk), Hlk. cbn [mbind outcome_bind].
  rewrite bool_decide_eq_true_2 by (by eexists). cbn [negb].
  rewrite decide_False by (rewrite raw_etype; by intros []).
  rewrite decide_False by lia. rewrite raw_len, raw_start.
  assert (Hst : stored st c).
  { destruct (lookup_ent_file _ _ Hlk) as (n' & st' & c' & [= -> -> ->] & Hin).
    apply (entries_stored es 1 n'); [apply Him|done]. }
  pose proof Hst as (H0 & H1 & _). pose proof (nblocks_nonneg c).
  change (2 ^ 64) with 18446744073709551616.
  rewrite !Z.mod_small by lia. rewrite s32_small by lia.
  set (len := if decide (_ < nb) then _ else _).
  assert (Hlen : len = Z.min nb (Z.of_nat (length c))) by (unfold len; case_decide; lia).
  destruct (read_file_loop_ok (Z.to_nat len) (set_sdev s d1) st c len [])
    as (d2 & -> & Hd2); [by apply set_sdev_shows|done|lia|lia|].
  exists d2, h1. cbn [mbind outcome_bind app]. split; [|by split].
  assert (Hl : length (take (Z.to_nat len) c) = Z.to_nat len) by (rewrite length_take; lia).
  assert (Hpad : take (Z.to_nat len) c ++ repeat 0 (Z.to_nat nb - Z.to_nat len) = pad (Z.to_nat nb) c).
  { unfold pad. destruct (decide (nb <= Z.of_nat (length c))).
    - replace len with nb by lia. f_equal. f_equal. lia.
    - rewrite !take_ge by lia. f_equal. f_equal. lia. }
  rewrite Hl, Hpad. do 3 f_equal. lia.
Qed.

(** ** Mounting *)

Lemma sb_fields t d i tot rev v b k :
  let sb := enc_sb t d i tot rev v b k in
  sb_total_blk sb = tot mod 2 ^ 64 /\ sb_resv_blk sb = rev mod 2 ^ 32 /\
  sb_ia_size sb = i mod 2 ^ 64 /\ sb_da_blk sb = d mod 2 ^ 64 /\ sb_fs_version sb = v.
Proof.
  unfold sb_total_blk, sb_resv_blk, sb_ia_size, sb_da_blk, sb_fs_version, enc_sb. cbn zeta.
  set (P := repeat 0 404). set (Q := repeat 0 66).
  assert (HP : length P = 404%nat) by apply repeat_length. clearbody P Q.
  split; [|split; [|split; [|split]]].
  - replace (P ++ _) with ((P ++ le 8 t ++ le 8 d ++ le 8 i ++ [83; 70; 83; v]) ++ le 8 tot ++
      le 4 rev ++ [b; k] ++ Q) by (by rewrite <- !app_assoc).
    apply get_le_at. rewrite !length_app, !length_le, HP. reflexivity.
  - replace (P ++ _) with ((P ++ le 8 t ++ le 8 d ++ le 8 i ++ [83; 70; 83; v] ++ le 8 tot) ++
      le 4 rev ++ [b; k] ++ Q) by (by rewrite <- !app_assoc).
    apply get_le_at. rewrite !length_app, !length_le, HP. reflexivity.
  - replace (P ++ _) with ((P ++ le 8 t ++ le 8 d) ++ le 8 i ++ [83; 70; 83; v] ++ le 8 tot ++
      le 4 rev ++ [b; k] ++ Q) by (by rewrite <- !app_assoc).
    apply get_le_at. rewrite !length_app, !length_le, HP. reflexivity.
  - replace (P ++ _) with ((P ++ le 8 t) ++ le 8 d ++ le 8 i ++ [83; 70; 83; v] ++ le 8 tot ++
      le 4 rev ++ [b; k] ++ Q) by (by rewrite <- !app_assoc).
    apply get_le_at. rewrite !length_app, !length_le, HP. reflexivity.
  - unfold get8. replace (P ++ _) with ((P ++ le 8 t ++ le 8 d ++ le 8 i ++ [83; 70; 83]) ++ [v] ++
      le 8 tot ++ le 4 rev ++ [b; k] ++ Q) by (by rewrite <- !app_assoc).
    rewrite app_nth2; rewrite !length_app, !length_le, HP; [reflexivity|simpl; lia].
Qed.

(** The bytes under the checksum do not depend on the counters. *)
Lemma sb_tail t d i tot rev v b k j :
  get8 (enc_sb t d i tot rev v b k) (428 + j) =
  nth j ([83; 70; 83; v] ++ le 8 tot ++ le 4 rev ++ [b; k] ++ repeat 0 66) 0.
Proof.
  unfold get8, enc_sb.
  replace (repeat 0 404 ++ le 8 t ++ le 8 d ++ le 8 i ++
           [83; 70; 83; v] ++ le 8 tot ++ le 4 rev ++ [b; k] ++ repeat 0 66)
    with ((repeat 0 404 ++ le 8 t ++ le 8 d ++ le 8 i) ++
           [83; 70; 83; v] ++ le 8 tot ++ le 4 rev ++ [b; k] ++ repeat 0 66)
    by (by rewrite <- !app_assoc).
  assert (Hl : length (repeat 0 404 ++ le 8 t ++ le 8 d ++ le 8 i) = 428%nat).
  { rewrite !length_app, !length_le, repeat_length. reflexivity. }
  rewrite app_nth2; rewrite Hl; [|lia]. f_equal. lia.
Qed.

Lemma sb_window t d i tot rev v b k :
  map (get8 (enc_sb t d i tot rev v b k)) (seq 428 17) =
  [83; 70; 83; v] ++ le 8 tot ++ le 4 rev ++ [b].
Proof.
  transitivity (map (fun j => nth j ([83; 70; 83; v] ++ le 8 tot ++ le 4 rev ++ [b; k] ++ repeat 0 66) 0)
    (seq 0 17)); [|reflexivity].
  pose proof (fmap_add_seq 428 0 17) as E. change (428 + 0)%nat with 428%nat in E.
  rewrite <- E. change (map ?f (?g <$> ?l)) with (map f (map g l)). rewrite map_map.
  apply map_ext. intros j. apply sb_tail.
Qed.

Lemma fold_left_through {A B C : Type} (f : A -> C -> A) (g : B -> C) l : forall a,
  fold_left (fun a b => f a (g b)) l a = fold_left f (map g l) a.
Proof. induction l as [|b l IH]; intros a; [done|]. apply IH. Qed.

(** The sum without and with the checksum byte. *)
Lemma checksum_split t d i tot rev v b k :
  calc_checksum (enc_sb t d i tot rev v b k) =
  s8 (fold_left (fun sum x => s8 (sum + s8 x)) ([83; 70; 83; v] ++ le 8 tot ++ le 4 rev ++ [b]) 0
      + s8 k).
Proof.
  unfold calc_checksum. assert (Hs : seq 428 18 = seq 428 17 ++ [445%nat]) by reflexivity.
  rewrite Hs, fold_left_app.
  rewrite (fold_left_through (fun sum x => s8 (sum + s8 x)) (get8 (enc_sb t d i tot rev v b k))
    (seq 428 17)), sb_window.
  set (F := fold_left _ _ 0). cbn [fold_left]. unfold F. clear F.
  pose proof (sb_tail t d i tot rev v b k 17) as E. change (428 + 17)%nat with 445%nat in E.
  rewrite E. reflexivity.
Qed.

(** The checksum written by the builder makes the sum of the final superblock
    zero, whatever the counters. *)
Lemma checksum_zero d i :
  calc_checksum (enc_sb 0 d i numblk rsv_blk 16 2 (init_checksum numblk)) = 0.
Proof. clear -numblk.
  unfold init_checksum.
  pose proof (eq_trans (mk_checksum_eq _) (checksum_split 0 0 0 numblk rsv_blk 16 2 0)) as E.
  revert E. generalize (mk_checksum (enc_sb 0 0 0 numblk rsv_blk 16 2 0)). intros K E.
  eapply eq_trans; [apply checksum_split|].
  revert E. generalize (fold_left (fun sum x => s8 (sum + s8 x))
    ([83; 70; 83; 16] ++ le 8 numblk ++ le 4 rsv_blk ++ [2]) 0).
  intros F ->. unfold s8, u8. modlia.
Qed.

Lemma check_sfs_ok s :
  shows (sdev s) ->
  exists s', check_sfs s = Ret (s', true) /\ mounted s' /\
    ibuf s' = ibuf s /\ fdtable s' = fdtable s /\ ofile s' = ofile s.
Proof. clear beyond.
  intros Hs. unfold check_sfs.
  destruct (read_block_ok s 0 Hs ltac:(lia)) as (d & -> & Hd). cbn [mbind outcome_bind].
  pose proof Him as [_ _ (Hs0 & Hs1 & Hs2) Hsb]. rewrite Hsb, checksum_zero.
  destruct (sb_fields 0 d0 (i0 * 64) numblk rsv_blk 16 2 (init_checksum numblk))
    as (F1 & F2 & F3 & F4 & F5).
  set (sb := enc_sb 0 d0 (i0 * 64) numblk rsv_blk 16 2 (init_checksum numblk)) in *.
  assert (Hmagic : forall j, 0 <= j < 3 ->
            get8 sb (428 + Z.to_nat j) = get8 [83; 70; 83; 0] (Z.to_nat j) /\
            0 <= get8 [83; 70; 83; 0] (Z.to_nat j) < 256).
  { intros j Hj. unfold sb. rewrite sb_tail.
    assert (j = 0 \/ j = 1 \/ j = 2) as [->|[->| ->]] by lia; (split; [reflexivity|vm_compute; intuition congruence]). }
  rewrite decide_False; cycle 1.
  { rewrite F5. intros [H|H]; [|done]. apply H. apply strncmp_zero; [| |lia|];
      intros j Hj; destruct (Hmagic j Hj) as [E1 E2]; [by rewrite E1|done|done]. }
  eexists. split; [reflexivity|]. split; [|done]. split; [exact Hd|]. cbn [nblk reserved_blk ia_num obtain_sb_info].
  rewrite F1, F2, F3. unfold rsv_blk, IE_SIZE.
  change (2 ^ 64) with 18446744073709551616. rewrite (Z.mod_small numblk) by lia.
  rewrite (Z.mod_small (i0 * 64)) by modlia. rewrite Z.div_mul by lia.
  rewrite !u32_small by modlia. done.
Qed.

(** ** Reading through a descriptor *)

Lemma stored_drops k : forall a c,
  stored a c -> (k * 512 <= length c)%nat -> stored (a + Z.of_nat k) (drop (k * 512) c).
Proof.
  induction k as [|k IH]; intros a c Hst Hk.
  - rewrite Z.add_0_r. exact Hst.
  - replace (a + Z.of_nat (S k)) with (a + 1 + Z.of_nat k) by lia.
    replace (S k * 512)%nat with (512 + k * 512)%nat by lia. rewrite <- drop_drop.
    apply IH; [|rewrite length_drop; lia]. apply stored_drop; [done|lia].
Qed.

Lemma sfs_read_loop_ok fuel : forall s a c L out,
  mounted s -> stored a c -> 0 <= L <= Z.of_nat (length c) -> (Z.to_nat L <= fuel)%nat ->
  exists d, sfs_read_loop fuel s a L out = Ret (set_sdev s d, out ++ take (Z.to_nat L) c) /\
    shows d.
Proof.
  induction fuel as [|fuel IH]; intros s a c L out Hm Hst HL Hf; cbn [sfs_read_loop];
    (case_decide as Hpos; cycle 1;
     [exists (sdev s); replace (Z.to_nat L) with 0%nat by lia; rewrite take_0, app_nil_r;
      split; [by destruct s|apply Hm]|]); [lia|].
  pose proof Hst as (H0 & H1 & _). assert (Hc : (0 < length c)%nat) by lia.
  pose proof (nblocks_step c Hc). pose proof (nblocks_nonneg (drop 512 c)).
  rewrite u32_small by lia.
  destruct (read_data_block_ok s a Hm ltac:(lia)) as (d1 & -> & Hd1). cbn [mbind outcome_bind].
  rewrite (stored_first a c) by done. rewrite take_pad, s32_small by lia.
  set (sz := Z.min 512 L).
  destruct (IH (set_sdev s d1) (a + 1) (drop 512 c) (L - sz) (out ++ take (Z.to_nat sz) c))
    as (d & E & Hd); [by apply set_sdev_shows|by apply stored_drop|rewrite length_drop; lia|lia|].
  exists d. rewrite E. split; [|done]. do 2 f_equal. rewrite <- app_assoc. f_equal.
  destruct (decide (L <= 512)).
  - replace (Z.to_nat (L - sz)) with 0%nat by lia. rewrite take_0, app_nil_r. f_equal. lia.
  - replace (Z.to_nat sz) with 512%nat by lia.
    replace (Z.to_nat L) with (512 + Z.to_nat (L - sz))%nat by lia. apply take_take_drop.
Qed.

(** The part of a block behind [o], for a file that has enough bytes. *)
Lemma take_drop_pad l o (c : list Z) :
  (o + l <= 512)%nat -> (o + l <= length c)%nat ->
  take l (drop o (pad 512 (take 512 c))) = take l (drop o c).
Proof.
  intros H1 H2. rewrite !take_drop_commute. f_equal. apply take_pad; lia.
Qed.

Lemma read_count_min n len pos :
  0 <= n < 2147483648 -> 0 <= pos <= len -> len < 2147483648 ->
  read_count n len pos = Z.min n (len - pos).
Proof.
  intros Hn Hp Hl. unfold read_count, u64. rewrite !Z.mod_small by lia.
  case_decide; rewrite s32_small; lia.
Qed.

Lemma sfs_read_ok s fd k fdp i ip n name st c :
  mounted s -> 0 <= fd < NOFILE -> ofile s !! Z.to_nat fd = Some (Some k) ->
  fdtable s !! k = Some fdp -> f_inode fdp = Some i -> ibuf s !! i = Some ip ->
  i_sindex ip = e_raw (EFile name st c) -> stored st c ->
  Z.of_nat (length c) < 2147483648 -> 0 <= f_pos fdp <= Z.of_nat (length c) ->
  0 <= n < 2147483648 ->
  let out := take (Z.to_nat n) (drop (Z.to_nat (f_pos fdp)) c) in
  exists d, sfs_read s fd n =
    Ret (set_files (set_sdev s d)
           (<[k := set_pos fdp (f_pos fdp + Z.of_nat (length out))]> (fdtable s)) (ofile s),
         Z.of_nat (length out), out) /\ shows d.
Proof. clear beyond es d0 Him.
  intros Hm Hfd Hof Hfdt Hino Hib Hsi Hst Hc Hpos Hn. cbv zeta. unfold sfs_read.
  unfold NOFILE in *. rewrite decide_False, decide_False by lia. rewrite Hof. cbn [mjoin option_join deref mbind outcome_bind].
  rewrite Hfdt. cbn [deref mbind outcome_bind]. rewrite Hino. cbn [deref mbind outcome_bind].
  rewrite Hib. cbn [deref mbind outcome_bind]. rewrite Hsi, raw_len, raw_start.
  pose proof Hst as (H0 & H1 & _). pose proof (nblocks_nonneg c).
  change (2 ^ 64) with 18446744073709551616. rewrite !(Z.mod_small _ 18446744073709551616) by lia.
  rewrite read_count_min by lia. set (pos := f_pos fdp) in *. set (L := Z.min n _).
  set (q := Z.to_nat (pos / 512)).
  assert (Hq : pos / 512 = Z.of_nat q) by (unfold q; rewrite Z2Nat.id; [done|modlia]).
  assert (Hqn : Z.of_nat q <= nblocks c) by (unfold nblocks; modlia).
  rewrite Hq, (s32_small (st + Z.of_nat q)), (u32_small (st + Z.of_nat q)) by lia.
  destruct (read_data_block_ok s (st + Z.of_nat q) Hm ltac:(lia)) as (d1 & -> & Hd1).
  cbn [mbind outcome_bind]. set (o := pos mod 512).
  assert (Hpq : Z.to_nat pos = (q * 512 + Z.to_nat o)%nat) by (unfold o; modlia).
  assert (Ho : 0 <= o < 512) by (unfold o; modlia).
  assert (Hstq : stored (st + Z.of_nat q) (drop (q * 512) c)) by (apply stored_drops; [done|lia]).
  set (l := Z.min L (512 - o)). rewrite decide_False by lia.
  assert (Hfirst : take (Z.to_nat l) (drop (Z.to_nat o) (blk m (1 + (st + Z.of_nat q)))) =
                   take (Z.to_nat l) (drop (Z.to_nat pos) c)).
  { destruct (decide (l = 0)) as [->|Hl0]; [done|].
    rewrite (stored_first _ (drop (q * 512) c)); [|done|rewrite length_drop; lia].
    rewrite take_drop_pad by (rewrite ?length_drop; lia). rewrite drop_drop. by rewrite Hpq. }
  rewrite Hfirst, s32_small by lia.
  assert (Hrest : exists d2, sfs_read_loop (Z.to_nat (L - l)) (set_sdev s d1)
      (st + Z.of_nat q + 1) (L - l) (take (Z.to_nat l) (drop (Z.to_nat pos) c)) =
      Ret (set_sdev s d2, take (Z.to_nat n) (drop (Z.to_nat pos) c)) /\ shows d2).
  { assert (Hfull : take (Z.to_nat n) (drop (Z.to_nat pos) c) = take (Z.to_nat L) (drop (Z.to_nat pos) c)).
    { destruct (decide (n <= Z.of_nat (length c) - pos)); [f_equal; lia|].
      rewrite !take_ge by (rewrite length_drop; lia). done. }
    rewrite Hfull. destruct (decide (L = l)) as [HLl|HLl].
    - exists d1. replace (Z.to_nat (L - l)) with 0%nat by lia. cbn [sfs_read_loop].
      rewrite decide_False by lia. by rewrite HLl.
    - destruct (sfs_read_loop_ok (Z.to_nat (L - l)) (set_sdev s d1) (st + Z.of_nat q + 1)
        (drop 512 (drop (q * 512) c)) (L - l) (take (Z.to_nat l) (drop (Z.to_nat pos) c)))
        as (d2 & E & Hd2); [by apply set_sdev_shows|apply stored_drop; [done|rewrite length_drop; lia]
                           |rewrite !length_drop; lia|lia|].
      exists d2. rewrite E. split; [|done]. do 2 f_equal.
      replace (drop 512 (drop (q * 512) c)) with (drop (Z.to_nat l) (drop (Z.to_nat pos) c)).
      + rewrite take_take_drop. f_equal. lia.
      + rewrite !drop_drop. f_equal. lia. }
  destruct Hrest as (d2 & -> & Hd2). cbn [mbind outcome_bind]. exists d2.
  assert (Hlen : length (take (Z.to_nat n) (drop (Z.to_nat pos) c)) = Z.to_nat L)
    by (rewrite length_take, length_drop; lia).
  rewrite u32_small by (rewrite Hlen; lia). done.
Qed.

(** Descriptor [fd] is open on the file with contents [c], at position [pos]. *)
Definition open_at (s : sfs D) (fd : Z) (c : list Z) (pos : Z) : Prop :=
  exists k fdp i ip name st,
    ofile s !! Z.to_nat fd = Some (Some k) /\ fdtable s !! k = Some fdp /\
    f_inode fdp = Some i /\ ibuf s !! i = Some ip /\ i_sindex ip = e_raw (EFile name st c) /\
    stored st c /\ f_pos fdp = pos.

Lemma open_read_ok s fd c pos n :
  mounted s -> 0 <= fd < NOFILE -> open_at s fd c pos -> Z.of_nat (length c) < 2147483648 ->
  0 <= pos <= Z.of_nat (length c) -> 0 <= n < 2147483648 ->
  let out := take (Z.to_nat n) (drop (Z.to_nat pos) c) in
  exists s', sfs_read s fd n = Ret (s', Z.of_nat (length out), out) /\ mounted s' /\
    open_at s' fd c (pos + Z.of_nat (length out)).
Proof. clear beyond es d0 Him.
  intros Hm Hfd (k & fdp & i & ip & name & st & H1 & H2 & H3 & H4 & H5 & H6 & <-) Hc Hp Hn.
  destruct (sfs_read_ok s fd k fdp i ip n name st c Hm Hfd H1 H2 H3 H4 H5 H6 Hc Hp Hn) as (d & E & Hd).
  cbv zeta in *. eexists. split; [exact E|]. split.
  - destruct (set_sdev_shows s d Hm Hd) as (G1 & G2 & G3 & G4). done.
  - eexists k, _, i, ip, name, st. cbn. split; [done|].
    split; [apply list_lookup_insert_eq; by eapply lookup_lt_Some|]. done.
Qed.

Lemma sfs_read_file_none s h file idx nb :
  path_ok file -> mounted s -> scratch_ok h es -> names_ok -> lookup_ent file es = None ->
  exists d h', sfs_read_file beyond s h file idx nb = Ret (set_sdev s d, h', -1, None) /\ shows d /\ scratched h h' es.
Proof.
  intros Hp Hm Hsc Hn Hlk. destruct (sfs_find_index_ok s h file idx Hp Hm Hsc Hn) as (d & h' & idx' & E & Hd & Hh & _).
  exists d, h'. unfold sfs_read_file. rewrite E, Hlk. cbn [mbind outcome_bind]. by split.
Qed.

(** ** Opening *)

Lemma find_index_lookup {A : Type} (p : A -> bool) l i : find_index p l = Some i -> exists x, l !! i = Some x /\ p x = true.
Proof.
  clear. revert i. induction l as [|y l IH]; intros i H; [discriminate H|]. cbn [find_index] in H.
  destruct (p y) eqn:Ey; [injection H as <-; by exists y|].
  destruct (find_index p l) as [j|]; [|discriminate H]. injection H as <-. exact (IH j eq_refl).
Qed.

Lemma sfs_namei_ok s h file idx n st c i :
  path_ok file -> mounted s -> scratch_ok h es -> names_ok -> lookup_ent file es = Some (EFile n st c) ->
  find_index (fun ip => bool_decide (i_flags ip = 0)) (ibuf s) = Some i ->
  exists d h' ip, sfs_namei beyond s h file idx = Ret (set_ibuf (set_sdev s d) (<[i := ip]> (ibuf s)), h', Some i) /\
    shows d /\ scratched h h' es /\ i_sindex ip = e_raw (EFile n st c) /\ (i < length (ibuf s))%nat.
Proof.
  intros Hp Hm Hsc Hn Hlk Hi. destruct (sfs_find_index_ok s h file idx Hp Hm Hsc Hn) as (d & h' & idx' & E & Hd & Hh & Hidx).
  destruct (find_index_lookup _ _ _ Hi) as (old & Hold & _).
  unfold sfs_namei, search_index. rewrite E, Hlk. cbn [mbind outcome_bind].
  rewrite bool_decide_eq_true_2 by (by eexists). cbn [negb]. unfold ibuf_alloc.
  change (ibuf (set_sdev s d)) with (ibuf s). rewrite Hi. rewrite decide_False by lia. rewrite Nat2Z.id, Hold.
  cbn [deref mbind outcome_bind]. rewrite (Hidx _ Hlk). eexists d, h', _. split; [done|]. split; [exact Hd|].
  split; [exact Hh|]. split; [done|]. by eapply lookup_lt_Some.
Qed.

Lemma sfs_namei_none s h file idx :
  path_ok file -> mounted s -> scratch_ok h es -> names_ok -> lookup_ent file es = None ->
  exists d h', sfs_namei beyond s h file idx = Ret (set_sdev s d, h', None) /\ shows d /\ scratched h h' es.
Proof.
  intros Hp Hm Hsc Hn Hlk. destruct (sfs_find_index_ok s h file idx Hp Hm Hsc Hn) as (d & h' & idx' & E & Hd & Hh & _).
  exists d, h'. unfold sfs_namei, search_index. rewrite E, Hlk. cbn [mbind outcome_bind]. by split.
Qed.

Lemma open_inode_ok s i ip n st c path flags fd k :
  ibuf s !! i = Some ip -> i_sindex ip = e_raw (EFile n st c) -> stored st c ->
  find_index (fun o => bool_decide (o = None)) (ofile s) = Some fd -> fd_alloc (fdtable s) = Some k ->
  exists s', open_inode s (Some i) path flags = Ret (s', Z.of_nat fd) /\ open_at s' (Z.of_nat fd) c 0 /\
    sdev s' = sdev s /\ nblk s' = nblk s /\ reserved_blk s' = reserved_blk s /\ ia_num s' = ia_num s.
Proof.
  intros Hi Hx Hst Hfd Hk. destruct (find_index_lookup _ _ _ Hfd) as (o & Ho & _).
  destruct (find_index_lookup _ _ _ Hk) as (fdp & Hfdp & _). apply lookup_lt_Some in Ho, Hfdp.
  unfold open_inode. rewrite Hfd, Hk. eexists. split; [reflexivity|]. split; [|done].
  eexists k, _, i, ip, n, st. cbn [ofile fdtable ibuf set_files]. rewrite Nat2Z.id.
  rewrite !list_lookup_insert_eq by assumption. by repeat split; try apply Hst.
Qed.

Lemma read_chunks_ok fd c ns : forall s pos,
  mounted s -> 0 <= fd < NOFILE -> open_at s fd c pos -> Z.of_nat (length c) < 2147483648 ->
  0 <= pos <= Z.of_nat (length c) -> Forall (fun n => 0 <= n < 2147483648) ns ->
  exists s', read_chunks s fd ns = Ret (s', take (Z.to_nat (total ns)) (drop (Z.to_nat pos) c)).
Proof. clear beyond es d0 Him.
  induction ns as [|n ns IH]; intros s pos Hm Hfd Ho Hc Hp Hns; [exists s; done|].
  apply Forall_cons in Hns as [Hn Hns]. cbn [read_chunks total fold_right].
  change (fold_right Z.add 0 ns) with (total ns).
  assert (Ht : 0 <= total ns).
  { clear -Hns. induction Hns as [|x l Hx Hl IH]; [done|]. cbn [total fold_right].
    change (fold_right Z.add 0 l) with (total l). lia. }
  destruct (open_read_ok s fd c pos n Hm Hfd Ho Hc Hp Hn) as (s1 & E1 & Hm1 & Ho1). cbv zeta in *.
  rewrite E1. cbn [mbind outcome_bind].
  set (out := take (Z.to_nat n) (drop (Z.to_nat pos) c)) in *.
  assert (Hout : length out = Nat.min (Z.to_nat n) (length c - Z.to_nat pos)%nat)
    by (unfold out; rewrite length_take, length_drop; done).
  destruct (IH s1 (pos + Z.of_nat (length out)) Hm1 Hfd Ho1 Hc ltac:(lia) Hns) as (s2 & E2).
  rewrite E2. cbn [mbind outcome_bind]. exists s2. do 2 f_equal.
  replace (Z.to_nat (n + total ns)) with (Z.to_nat n + Z.to_nat (total ns))%nat by lia.
  rewrite <- take_take_drop. fold out. f_equal.
  destruct (decide (Z.to_nat n <= length c - Z.to_nat pos)%nat).
  - rewrite drop_drop. do 2 f_equal. lia.
  - rewrite !drop_ge by (rewrite ?length_drop; lia). by rewrite !take_nil.
Qed.

End Reader.

(** ** Both programs together *)

Definition name_ok (n : list Z) : Prop := (length n < 1024)%nat /\ Forall (fun b => 0 <= b < 256) n.

Definition built_from (host : list Z -> option hnode) (n : list Z) (e : ent) : Prop :=
  exists node k, host n = Some node /\ ent_of n node k = Some e.

Lemma built_from_name host n e : built_from host n e -> e_name e = n.
Proof.
  intros (node & k & _ & H). destruct node; [injection H as <-; done..|discriminate H].
Qed.

Lemma Forall2_elem_r {A B : Type} (R : A -> B -> Prop) l k y :
  Forall2 R l k -> y ∈ k -> exists x, x ∈ l /\ R x y.
Proof.
  induction 1 as [|x y' l k HR H IH]; intros Hy; [by apply elem_of_nil in Hy|].
  apply elem_of_cons in Hy as [->|Hy]; [exists x; split; [left|done]|].
  destruct (IH Hy) as (x' & Hx & Hr). exists x'. split; [by right|done].
Qed.

Lemma built_names_ok host names new :
  Forall2 (built_from host) names new -> Forall name_ok names ->
  names_ok (EDir [47] 21 :: new).
Proof.
  intros H Hn. apply Forall_cons. split.
  { split; [simpl; lia|]. repeat constructor; lia. }
  induction H as [|n e names new Hb H IH]; [constructor|].
  apply Forall_cons in Hn as [Hn1 Hn]. apply Forall_cons. split; [|by apply IH].
  unfold ent_bytes. by rewrite (built_from_name _ _ _ Hb).
Qed.

Lemma lookup_ent_last file l1 e l2 :
  matches file e = true -> (forall e', e' ∈ l2 -> matches file e' = false) ->
  lookup_ent file (l1 ++ e :: l2) = Some e.
Proof.
  intros He Hl. unfold lookup_ent. rewrite rev_app_distr. cbn [rev]. rewrite <- app_assoc.
  assert (Hl' : forall e', e' ∈ rev l2 -> matches file e' = false).
  { intros e' H. apply Hl. apply list_elem_of_In. rewrite in_rev. by apply list_elem_of_In. }
  clear Hl. induction (rev l2) as [|e' l IH]; cbn [app List.find].
  - by rewrite He.
  - rewrite Hl' by left. apply IH. intros. apply Hl'. by right.
Qed.

(** The last file argument that has [file] as a prefix is the one found. *)
Lemma lookup_built host pre file post new content :
  Forall2 (built_from host) (pre ++ file :: post) new ->
  host file = Some (HReg content) ->
  (forall n c, n ∈ post -> host n = Some (HReg c) -> take (length file) n <> file) ->
  exists k, lookup_ent file (EDir [47] 21 :: new) = Some (EFile file k content).
Proof.
  intros H Hf Hlast. apply Forall2_app_inv_l in H as (np & nr & Hp & Hr & ->).
  apply Forall2_cons_inv_l in Hr as (e & npost & He & Hpost & ->).
  destruct He as (node & k & Hh & He). rewrite Hf in Hh. injection Hh as <-.
  injection He as <-. exists k.
  change (EDir [47] 21 :: np ++ EFile file k content :: npost)
    with ((EDir [47] 21 :: np) ++ EFile file k content :: npost).
  apply lookup_ent_last.
  - cbn [matches]. rewrite take_ge by lia. by rewrite bool_decide_eq_true_2.
  - intros e Hin.
    destruct (Forall2_elem_r _ _ _ _ Hpost Hin) as (n & Hn & node & k' & Hh & He).
    destruct node as [|c|]; [by injection He as <-| |discriminate He]. injection He as <-.
    cbn [matches]. apply bool_decide_eq_false_2. by apply (Hlast n c).
Qed.

(** The image in the memory disk, behind the buffer cache. *)
Definition disk_of (m : memory) (numblk : Z) : bio := init_buffer (boot_bio m 0 numblk).

Definition fresh_sfs {D : Type} (d : D) : sfs D :=
  mkSfs d
    (repeat {| i_ni := 0; i_nref := 0; i_flags := 0; i_name := None; i_sindex := repeat 0 64 |} NIBUF)
    (repeat {| f_type := 0; f_mode := 0; f_flags := 0; f_count := 0; f_pos := 0; f_inode := None |}
            FDT_SIZE)
    (repeat None 16) 0 0 0 0 0.

Lemma disk_of_shows `{ide : IdeDevice} m numblk :
  2 <= numblk <= 8388607 -> shows numblk m (disk_of m numblk).
Proof.
  intros Hn. destruct (init_buffer_ok m 0 numblk ltac:(lia)) as [Hwf Hq].
  destruct (init_fields (seq 0 NBUF) (set_links (boot_bio m 0 numblk)
     (Ring.upd (bnext (boot_bio m 0 numblk)) BHEAD BHEAD)
     (Ring.upd (bprev (boot_bio m 0 numblk)) BHEAD BHEAD)))
    as (_ & _ & _ & Hm & Hs & Hz).
  split; [by exists (rev (seq 0 NBUF))|]. split; [exact Hz|].
  intros n _. unfold blk. cbn [blk_image bio_blockdev]. unfold sector.
  unfold disk_of, init_buffer. rewrite Hm, Hs. done.
Qed.

Definition sample_host (n : list Z) : option hnode :=
  if decide (n = [97]) then Some (HReg [72; 101; 121; 33])
  else if decide (n = [98; 99]) then Some (HReg (repeat 5 700))
  else if decide (n = [100]) then Some HDir else None.

Definition is_ret {A : Type} (o : outcome A) : bool := match o with Ret _ => true | Stop _ => false end.

Lemma sample_builds : is_ret (mk_sfs 8 sample_host (fun n => n) [[98; 99]; [100]; [97]]) = true.
Proof. vm_compute. reflexivity. Qed.

Lemma built_all_short host names new : Forall2 (built_from host) names new ->
  Forall (fun n => (length n <= 28)%nat) names -> all_short (EDir [47] 21 :: new).
Proof.
  intros Hb Hn. apply Forall_cons. split; [cbn; lia|].
  induction Hb as [|n e names new He _ IH]; [constructor|]. apply Forall_cons in Hn as [Hn1 Hn].
  apply Forall_cons. split; [by rewrite (built_from_name _ _ _ He)|by apply IH].
Qed.

(** ** Properties *)

(** C1. What the host's image builder writes, the kernel reads back: for every
    regular file among the arguments of mk_sfs whose name has 1 to 28 bytes and
    of which the name of no later file is an extension, the kernel mounts the
    image with a good checksum and [sfs_read_file] returns the file's length,
    bounded by the buffer, and the file's bytes, the rest of the buffer being
    zero.  The lookup assembles the names of more than 28 bytes it comes to in
    blocks of the kernel heap: either there are none, and the heap is not touched
    (so the call works while no task runs), or the heap has room for 1088 bytes,
    and is as it was afterwards.  The device may be any block device that shows
    the image, the heap any with the contract of [NameHeap]. *)
Theorem sfs_reads_back {D : Type} `{dev : BlockDev D} {H : Type} `{nh : NameHeap H} (beyond : Z -> Z) (numblk : Z)
    (host : list Z -> option hnode) (argv_after : list Z -> list Z) (fs : mkfs)
    (pre post : list (list Z)) (file content idx : list Z) (s : sfs D) (h : H) (nb : Z)
    (Hnb : 2 <= numblk <= 8388607)
    (Hnames : Forall name_ok (pre ++ file :: post))
    (Hmk : mk_sfs numblk host argv_after (pre ++ file :: post) = Ret fs)
    (Hdev : shows numblk (img fs) (sdev s))
    (Hheap : Forall (fun n => (length n <= 28)%nat) (pre ++ file :: post) \/ nh_room h (17 * 64))
    (Hfile : host file = Some (HReg content)) (Hpath : path_ok file)
    (Hlast : forall n c, n ∈ post -> host n = Some (HReg c) -> take (length file) n <> file)
    (Hlen : Z.of_nat (length content) < 2147483648) (Hbuf : 0 <= nb) :
  exists s1 s2 h2, check_sfs s = Ret (s1, true) /\
    sfs_read_file beyond s1 h file idx nb =
      Ret (s2, h2, Z.min nb (Z.of_nat (length content)), Some (pad (Z.to_nat nb) content)) /\
    nh_same h h2 /\ (Forall (fun n => (length n <= 28)%nat) (pre ++ file :: post) -> h2 = h).
Proof.
  assert (Hl : Forall (fun n => (length n < 1024)%nat) (pre ++ file :: post))
    by (eapply Forall_impl; [exact Hnames|by intros n []]).
  destruct (mk_sfs_ok numblk Hnb host argv_after _ fs Hl Hmk) as (new & d & i & Him & Hnew).
  destruct (check_sfs_ok numblk Hnb _ _ d i Him s Hdev) as (s1 & E1 & Hm & _).
  pose proof (built_names_ok host _ new Hnew Hnames) as Hok.
  destruct (lookup_built host pre file post new content Hnew Hfile Hlast) as (k & Hk).
  pose proof (built_all_short host _ new Hnew) as Hsh.
  assert (Hsc : scratch_ok h (EDir [47] 21 :: new)) by (destruct Hheap as [Hs|Hs]; [left; by apply Hsh|by right]).
  destruct (sfs_read_file_ok beyond numblk Hnb _ _ d i Him s1 h file idx nb _ _ _ Hpath Hm Hsc Hok Hbuf Hk Hlen)
    as (d2 & h2 & E2 & _ & Hs2 & Hs3).
  exists s1, (set_sdev s1 d2), h2. split; [exact E1|]. split; [exact E2|]. split; [exact Hs2|].
  intros Hs. apply Hs3, Hsh, Hs.
Qed.

Lemma sfs_reads_back_witness :
  exists fs s1 s2, mk_sfs 8 sample_host (fun n => n) [[98; 99]; [100]; [97]] = Ret fs /\
    check_sfs (dev := bio_blockdev (ide := idle_ide)) (fresh_sfs (disk_of (img fs) 8)) = Ret (s1, true) /\
    sfs_read_file (dev := bio_blockdev (ide := idle_ide)) (nh := no_task) (fun _ => 0) s1 tt [98; 99] [] 1000 =
      Ret (s2, tt, 700, Some (pad 1000 (repeat 5 700))).
Proof.
  pose proof sample_builds as Hr.
  destruct (mk_sfs 8 sample_host (fun n => n) [[98; 99]; [100]; [97]]) as [fs|] eqn:Hmk;
    [|discriminate Hr].
  destruct (sfs_reads_back (dev := bio_blockdev (ide := idle_ide)) (nh := no_task) (fun _ => 0) 8 sample_host
    (fun n => n) fs [] [[100]; [97]] [98; 99] (repeat 5 700) [] (fresh_sfs (disk_of (img fs) 8)) tt 1000)
    as (s1 & s2 & h2 & E1 & E2 & _).
  - lia.
  - repeat apply List.Forall_cons; try apply List.Forall_nil; (split; [simpl; lia|]);
      repeat (apply List.Forall_cons; [lia|]); apply List.Forall_nil.
  - exact Hmk.
  - apply disk_of_shows. lia.
  - left. repeat apply List.Forall_cons; try apply List.Forall_nil; simpl; lia.
  - reflexivity.
  - split; [simpl; lia|]. repeat (apply List.Forall_cons; [lia|]). apply List.Forall_nil.
  - clear. intros n c Hn Hh. apply elem_of_cons in Hn as [->|Hn]; [discriminate Hh|].
    apply elem_of_cons in Hn as [->|Hn]; [cbn; congruence|]. destruct (not_elem_of_nil _ Hn).
  - rewrite repeat_length. lia.
  - lia.
  - destruct h2. exists fs, s1, s2. exact (conj eq_refl (conj E1 E2)).
Defined.

(** [sfs_find_index] on a mounted image returns, for a path of 1 to 28
    bytes, the last file of the index whose name begins with the path, and
    reports failure when there is none; directories are never found. *)
Lemma sfs_find_index_last {D : Type} `{dev : BlockDev D} {H : Type} `{nh : NameHeap H} (beyond : Z -> Z) (numblk : Z)
    (m : memory) (es : list ent) (d i : Z) (s : sfs D) (h : H) (file idx : list Z)
    (Hnb : 2 <= numblk <= 8388607) (Him : image numblk m es d i)
    (Hn : names_ok es) (Hm : mounted numblk m i s) (Hsc : scratch_ok h es) (Hp : path_ok file) :
  exists s' h' found idx', sfs_find_index beyond s h file idx = Ret (s', h', found, idx') /\
    mounted numblk m i s' /\ nh_same h h' /\
    (found = true <-> exists n st c, EFile n st c ∈ es /\ take (length file) n = file) /\
    (forall l1 n st c l2, es = l1 ++ EFile n st c :: l2 -> take (length file) n = file ->
       (forall n' st' c', EFile n' st' c' ∈ l2 -> take (length file) n' <> file) ->
       idx' = e_raw (EFile n st c)).
Proof.
  destruct (sfs_find_index_ok beyond numblk Hnb m es d i Him s h file idx Hp Hm Hsc Hn)
    as (d' & h' & idx' & E & Hd & [Hh _] & Hidx).
  eexists _, h', _, idx'. split; [exact E|]. split; [by apply set_sdev_shows|]. split; [exact Hh|]. split.
  - rewrite bool_decide_eq_true. split.
    + intros [e He]. destruct (lookup_ent_file es file e He) as (n & st & c & -> & Hin).
      exists n, st, c. split; [done|]. apply find_some in He as [_ He]. by apply bool_decide_eq_true in He.
    + intros (n & st & c & Hin & Ht). unfold lookup_ent.
      destruct (List.find (matches file) (rev es)) as [e|] eqn:Ef; [by exists e|exfalso].
      apply list_elem_of_In in Hin. rewrite in_rev in Hin.
      apply (find_none _ _ Ef) in Hin. cbn [matches] in Hin. by apply bool_decide_eq_false in Hin.
  - intros l1 n st c l2 -> Ht Hl. apply Hidx. apply lookup_ent_last.
    + by apply bool_decide_eq_true.
    + intros [n' len|n' st' c'] Hin; [done|]. apply bool_decide_eq_false. by apply (Hl n' st' c').
Qed.

Lemma sample_image : exists m new d i, image 8 m (EDir [47] 21 :: new) d i /\
  Forall2 (built_from sample_host) [[98; 99]; [100]; [97]] new.
Proof.
  pose proof sample_builds as Hr.
  destruct (mk_sfs 8 sample_host (fun n => n) [[98; 99]; [100]; [97]]) as [fs|] eqn:Hmk;
    [|discriminate Hr].
  destruct (mk_sfs_ok 8 ltac:(lia) sample_host (fun n => n) [[98; 99]; [100]; [97]] fs)
    as (new & d & i & H1 & H2); [|exact Hmk|].
  - clear. repeat apply List.Forall_cons; try apply List.Forall_nil; simpl; lia.
  - exists (img fs), new, d, i. exact (conj H1 H2).
Qed.

Lemma sample_names_ok : Forall name_ok [[98; 99]; [100]; [97]].
Proof.
  repeat apply List.Forall_cons; try apply List.Forall_nil; (split; [simpl; lia|]);
    repeat (apply List.Forall_cons; [lia|]); apply List.Forall_nil.
Qed.


(** Successive [sfs_read]s from an open descriptor return the consecutive
    pieces of the file: whatever the sizes asked for, the bytes returned
    together are the next [total ns] bytes of the file from the position on, cut
    at its end. *)
Lemma sfs_read_sequential {D : Type} `{dev : BlockDev D} (numblk : Z)
    (m : memory) (i : Z) (s : sfs D) (fd : Z) (c : list Z) (pos : Z) (ns : list Z)
    (Hnb : 2 <= numblk <= 8388607) (Hm : mounted numblk m i s) (Hfd : 0 <= fd < NOFILE)
    (Ho : open_at numblk m s fd c pos) (Hc : Z.of_nat (length c) < 2147483648)
    (Hp : 0 <= pos <= Z.of_nat (length c)) (Hns : Forall (fun n => 0 <= n < 2147483648) ns) :
  exists s', read_chunks s fd ns = Ret (s', take (Z.to_nat (total ns)) (drop (Z.to_nat pos) c)).
Proof. by apply (read_chunks_ok numblk Hnb m i). Qed.

(** A mounted image with descriptor 0 open on the file [98; 99]. *)
Lemma sample_open : exists m i (s : sfs bio), mounted (dev := bio_blockdev (ide := idle_ide)) 8 m i s /\
  open_at 8 m s 0 (repeat 5 700) 0.
Proof.
  destruct sample_image as (m & new & d & i & Him & Hnew).
  destruct (check_sfs_ok (dev := bio_blockdev (ide := idle_ide)) 8 ltac:(lia) m _ d i Him
    (fresh_sfs (disk_of m 8)) (disk_of_shows (ide := idle_ide) m 8 ltac:(lia))) as (s & _ & Hm & Hib & Hfd & Hof).
  destruct (lookup_built sample_host [] [98; 99] [[100]; [97]] new (repeat 5 700) Hnew) as (k & Hk).
  { reflexivity. }
  { intros n c Hn Hh. apply elem_of_cons in Hn as [->|Hn]; [discriminate Hh|].
    apply elem_of_cons in Hn as [->|Hn]; [cbn; congruence|]. destruct (not_elem_of_nil _ Hn). }
  destruct (lookup_ent_file _ _ _ Hk) as (n' & st' & c' & [= <- <- <-] & Hin).
  pose proof (entries_stored 8 m _ d i Him (EDir [47] 21 :: new) 1 _ _ _ (im_entries _ _ _ _ _ Him) Hin) as Hst.
  set (ip := {| i_ni := 0; i_nref := 0; i_flags := 1; i_name := None;
                i_sindex := e_raw (EFile [98; 99] k (repeat 5 700)) |}).
  set (fdp := {| f_type := 0; f_mode := 0; f_flags := 0; f_count := 1; f_pos := 0; f_inode := Some O |}).
  exists m, i, (set_ibuf (set_files s [fdp] [Some O]) [ip]).
  split; [exact Hm|]. exists O, fdp, O, ip, [98; 99], k. repeat (split; [reflexivity|]).
  split; [exact Hst|reflexivity].
Qed.

