(* ===== verification/Heap.v ===== *)
(** * The kernel heap

    kern/heap.c: every task has a heap at [HEAP_START], a run of chunks with a
    12-byte header ([struct heap_head]) each, kept in a doubly linked list in
    address order.  Headers live in the mapped pages themselves.  The pages come
    from the virtual memory of the task, behind the interface [Pager]: bytes
    seen through the page table, and mapping and unmapping one page.  A header
    access outside the mapped pages is a page fault, so the theorems also show
    that the unchecked [chunk->next->prev] of the code never faults. *)

From stdpp Require Import base list strings.
From Stdlib Require Import ZArith Lia.
From S2P Require Import Prelude.

Open Scope Z_scope.

Definition HEAP_START : Z := 3489660928.

Definition HEAP_END : Z := 4290768896.

Definition HPGSIZE : Z := 4096.

(** [sizeof(struct heap_head)] *)
Definition HHEAD : Z := 12.

(** ** The interface to the virtual memory of the task *)

Class Pager (P : Type) : Type := {
  pg_mem : P -> memory;
  pg_mapped : P -> Z -> bool;
  pg_avail : P -> nat;
  pg_inv : P -> Prop;
  pg_write : P -> Z -> Z -> P;
  pg_map : P -> Z -> outcome P;
  pg_unmap : P -> Z -> outcome P;
  pg_write_ok p a v : pg_inv p -> HEAP_START <= a -> a + 4 <= HEAP_END ->
    pg_mapped p a = true -> pg_mapped p (a + 3) = true ->
    pg_inv (pg_write p a v) /\ pg_avail (pg_write p a v) = pg_avail p /\
    (forall x, pg_mapped (pg_write p a v) x = pg_mapped p x) /\
    (forall x, pg_mapped p x = true -> pg_mem (pg_write p a v) x = store32 (pg_mem p) a v x);
  pg_map_ok p va : pg_inv p -> va mod 4096 = 0 -> HEAP_START <= va < HEAP_END ->
    pg_mapped p va = false -> (0 < pg_avail p)%nat ->
    exists p', pg_map p va = Ret p' /\ pg_inv p' /\ (pg_avail p <= S (pg_avail p'))%nat /\
    (forall x, pg_mapped p' x = pg_mapped p x || bool_decide (va <= x < va + 4096)) /\
    (forall x, pg_mapped p x = true -> pg_mem p' x = pg_mem p x);
  pg_unmap_ok p va : pg_inv p -> va mod 4096 = 0 -> HEAP_START <= va < HEAP_END ->
    pg_mapped p va = true ->
    exists p', pg_unmap p va = Ret p' /\ pg_inv p' /\
    (forall x, pg_mapped p' x = pg_mapped p x && negb (bool_decide (va <= x < va + 4096))) /\
    (forall x, pg_mapped p' x = true -> pg_mem p' x = pg_mem p x)
}.

(** [current->heap_start] and [current->heap_top], and the memory below. *)
Record heap (P : Type) : Type := mkHeap {
  pager : P;
  heap_start : Z;
  heap_top : Z
}.

Arguments mkHeap {P}.
Arguments pager {P}.
Arguments heap_start {P}.
Arguments heap_top {P}.

Section Heap.

Context {P : Type} `{pg : Pager P}.

Definition set_pager (h : heap P) (p : P) : heap P := mkHeap p (heap_start h) (heap_top h).

(** ** Header fields *)

Definition vload (h : heap P) (a : Z) : outcome Z :=
  if pg_mapped (pager h) a && pg_mapped (pager h) (a + 3)
  then Ret (load32 (pg_mem (pager h)) a) else Stop (Fault "page fault").

Definition vstore (h : heap P) (a v : Z) : outcome (heap P) :=
  if pg_mapped (pager h) a && pg_mapped (pager h) (a + 3)
  then Ret (set_pager h (pg_write (pager h) a v)) else Stop (Fault "page fault").

Definition get_prev (h : heap P) (c : Z) : outcome Z := vload h c.

Definition get_next (h : heap P) (c : Z) : outcome Z := vload h (c + 4).

(** The bit fields [free : 1] and [len : 31] of the third word. *)
Definition get_free (h : heap P) (c : Z) : outcome Z := w ← vload h (c + 8); Ret (w mod 2).

Definition get_len (h : heap P) (c : Z) : outcome Z := w ← vload h (c + 8); Ret (w / 2).

Definition put_prev (h : heap P) (c v : Z) : outcome (heap P) := vstore h c v.

Definition put_next (h : heap P) (c v : Z) : outcome (heap P) := vstore h (c + 4) v.

Definition put_free (h : heap P) (c b : Z) : outcome (heap P) :=
  w ← vload h (c + 8); vstore h (c + 8) (b + 2 * (w / 2)).

Definition put_len (h : heap P) (c len : Z) : outcome (heap P) :=
  w ← vload h (c + 8); vstore h (c + 8) (w mod 2 + 2 * (len mod 2147483648)).

(** ** Pages *)

Fixpoint alloc_chunk (fuel : nat) (h : heap P) (start len : Z) : outcome (heap P) :=
  if decide (u32 (start + len) > heap_top h) then
    match fuel with
    | O => Stop Fuel
    | S k =>
        p ← pg_map (pager h) (heap_top h);
        alloc_chunk k (mkHeap p (heap_start h) (u32 (heap_top h + HPGSIZE))) start len
    end
  else Ret h.

Fixpoint free_pages (fuel : nat) (h : heap P) (chunk : Z) : outcome (heap P) :=
  if decide (chunk <= u32 (heap_top h - HPGSIZE)) then
    match fuel with
    | O => Stop Fuel
    | S k =>
        let top := u32 (heap_top h - HPGSIZE) in
        p ← pg_unmap (pager h) top;
        free_pages k (mkHeap p (heap_start h) top) chunk
    end
  else Ret h.

(** The pages between two addresses, and one more step. *)
Definition page_steps (lo hi : Z) : nat := S (Z.to_nat ((hi - lo) / HPGSIZE)).

Definition free_chunk (h : heap P) (chunk : Z) : outcome (heap P) :=
  prev ← get_prev h chunk;
  h1 ← (if decide (prev = 0) then Ret (mkHeap (pager h) 0 (heap_top h))
        else put_next h prev 0);
  free_pages (page_steps chunk (heap_top h1)) h1 chunk.

(** ** Chunks *)

Definition split_chunk (h : heap P) (chunk len : Z) : outcome (heap P) :=
  clen ← get_len h chunk;
  let len_left := u32 (clen - len) in
  if decide (len_left <= HHEAD) then Ret h
  else
    let new := u32 (chunk + len) in
    h1 ← put_free h new 1;
    h2 ← put_len h1 new len_left;
    h3 ← put_len h2 chunk len;
    h4 ← put_prev h3 new chunk;
    next ← get_next h4 chunk;
    h5 ← put_next h4 new next;
    h6 ← put_prev h5 next new;
    put_next h6 chunk new.

Definition glue_right (h : heap P) (chunk : Z) : outcome (heap P) :=
  next ← get_next h chunk;
  if decide (next = 0) then Ret h
  else
    nfree ← get_free h next;
    if decide (nfree = 1) then
      clen ← get_len h chunk;
      nlen ← get_len h next;
      h1 ← put_len h chunk (clen + nlen);
      nn ← get_next h1 next;
      h2 ← put_prev h1 nn chunk;
      put_next h2 chunk nn
    else Ret h.

(** Also the chunk to look at afterwards. *)
Definition glue_left (h : heap P) (chunk : Z) : outcome (heap P * Z) :=
  prev ← get_prev h chunk;
  if decide (prev = 0) then Ret (h, chunk)
  else
    pfree ← get_free h prev;
    if decide (pfree = 1) then
      plen ← get_len h prev;
      clen ← get_len h chunk;
      h1 ← put_len h prev (plen + clen);
      next ← get_next h1 chunk;
      h2 ← put_next h1 prev next;
      h3 ← (if decide (next = 0) then Ret h2 else put_prev h2 next prev);
      Ret (h3, prev)
    else Ret (h, chunk).

Definition glue_chunk (h : heap P) (chunk : Z) : outcome (heap P) :=
  h1 ← glue_right h chunk;
  '(h2, c) ← glue_left h1 chunk;
  next ← get_next h2 c;
  if decide (next = 0) then free_chunk h2 c else Ret h2.

(** The search of [kmalloc]: the hole found, or the last chunk. *)
Fixpoint kmalloc_scan (fuel : nat) (h : heap P) (curp prevp n : Z) : outcome (Z * Z) :=
  if decide (curp = 0) then Ret (0, prevp)
  else
    match fuel with
    | O => Stop Fuel
    | S k =>
        free ← get_free h curp;
        len ← get_len h curp;
        if decide (free = 1 /\ len >= n) then Ret (curp, prevp)
        else next ← get_next h curp; kmalloc_scan k h next curp n
    end.

(** No more chunks than the mapped bytes have room for. *)
Definition scan_fuel (h : heap P) : nat := S (Z.to_nat ((heap_top h - HEAP_START) / HHEAD)).

Definition kmalloc (h : heap P) (n0 : Z) : outcome (heap P * Z) :=
  let n := u32 (n0 + HHEAD) in
  '(hole, prevp) ← kmalloc_scan (scan_fuel h) h (heap_start h) 0 n;
  if decide (hole <> 0) then
    h1 ← split_chunk h hole n;
    h2 ← put_free h1 hole 0;
    Ret (h2, u32 (hole + HHEAD))
  else
    plen ← (if decide (prevp = 0) then Ret 0 else get_len h prevp);
    let chunk_start := if decide (prevp = 0) then HEAP_START else u32 (prevp + plen) in
    let h0 := if decide (prevp = 0) then mkHeap (pager h) HEAP_START (heap_top h) else h in
    h1 ← alloc_chunk (page_steps (heap_top h0) (chunk_start + n)) h0 chunk_start n;
    h2 ← put_prev h1 chunk_start prevp;
    h3 ← put_next h2 chunk_start 0;
    h4 ← put_free h3 chunk_start 0;
    h5 ← put_len h4 chunk_start n;
    h6 ← (if decide (prevp = 0) then Ret h5 else put_next h5 prevp chunk_start);
    Ret (h6, u32 (chunk_start + HHEAD)).

Definition kfree (h : heap P) (p : Z) : outcome (heap P) :=
  let head := u32 (p - HHEAD) in
  h1 ← put_free h head 1;
  glue_chunk h1 head.

(** ** Specification: a heap as a list of chunks *)

(** Length with header, and whether the chunk is a hole. *)
Definition chunk : Type := Z * bool.

Fixpoint tot (cs : list chunk) : Z :=
  match cs with [] => 0 | c :: r => c.1 + tot r end.

(** First fit; a hole is split when more than a header remains.  The result is
    the new heap and the offset of the chunk. *)
Fixpoint spec_alloc (n : Z) (cs : list chunk) : list chunk * Z :=
  match cs with
  | [] => ([(n, false)], 0)
  | (len, fr) :: r =>
      if fr && bool_decide (len >= n) then
        (if decide (len - n <= HHEAD) then (len, false) :: r
         else (n, false) :: (len - n, true) :: r, 0)
      else let '(r', o) := spec_alloc n r in ((len, fr) :: r', len + o)
  end.

(** The chunk between [l1] and [l2] becomes a hole, merged with the holes next
    to it, and disappears at the top of the heap. *)
Definition spec_free (l1 : list chunk) (len : Z) (l2 : list chunk) : list chunk :=
  let '(len1, r) := match l2 with (m, true) :: r => (len + m, r) | _ => (len, l2) end in
  let '(l, len2) := match rev l1 with (k, true) :: l => (rev l, k + len1) | _ => (l1, len1) end in
  match r with [] => l | _ => l ++ (len2, true) :: r end.

(** No two holes side by side and none at the end. *)
Fixpoint tidy (cs : list chunk) : Prop :=
  match cs with
  | [] => True
  | c :: r => match r with
              | [] => c.2 = false
              | d :: _ => (c.2 = false \/ d.2 = false) /\ tidy r
              end
  end.

(** The header of the chunk at [c]. *)
Definition hdr (m : memory) (c prev next len : Z) (fr : bool) : Prop :=
  load32 m c = prev /\ load32 m (c + 4) = next /\
  load32 m (c + 8) = (if fr then 1 else 0) + 2 * len.

(** The chunks [cs] from address [base] on; [prev] is the [prev] field of the
    first and [nxt] the [next] field of the last. *)
Fixpoint seg (m : memory) (prev base : Z) (cs : list chunk) (nxt : Z) : Prop :=
  match cs with
  | [] => True
  | (len, fr) :: r =>
      hdr m base prev (match r with [] => nxt | _ => base + len end) len fr /\
      seg m base (base + len) r nxt
  end.

Definition page_up (x : Z) : Z := (x + 4095) / 4096 * 4096.

Definition mapped_ok (h : heap P) : Prop :=
  pg_inv (pager h) /\ forall x, HEAP_START <= x < HEAP_END -> pg_mapped (pager h) x = bool_decide (x < heap_top h).

Record hrepr (h : heap P) (cs : list chunk) : Prop := {
  hr_start : heap_start h = match cs with [] => 0 | _ => HEAP_START end;
  hr_top : heap_top h = page_up (HEAP_START + tot cs);
  hr_end : HEAP_START + tot cs <= HEAP_END;
  hr_mapped : mapped_ok h;
  hr_seg : seg (pg_mem (pager h)) 0 HEAP_START cs 0;
  hr_len : Forall (fun c => HHEAD <= c.1) cs;
  hr_tidy : tidy cs
}.

(** The memory of a heap reached from [h0] by header writes only. *)
Record after (h0 h : heap P) (m : memory) : Prop := {
  af_start : heap_start h = heap_start h0;
  af_top : heap_top h = heap_top h0;
  af_avail : pg_avail (pager h) = pg_avail (pager h0);
  af_mapped : mapped_ok h;
  af_mem : forall x, HEAP_START <= x < heap_top h0 -> pg_mem (pager h) x = m x
}.

Definition in_heap (h : heap P) (a : Z) : Prop :=
  HEAP_START <= a /\ a + 4 <= heap_top h /\ heap_top h <= HEAP_END.

(** The first hole of at least [n] bytes, with the chunks around it. *)
Fixpoint find_hole (n : Z) (cs : list chunk) : option (list chunk * Z * list chunk) :=
  match cs with
  | [] => None
  | (len, fr) :: r =>
      if fr && bool_decide (len >= n) then Some ([], len, r)
      else match find_hole n r with
           | Some (l1, k, l2) => Some ((len, fr) :: l1, k, l2)
           | None => None
           end
  end.

(** [tidy] of a list that continues with a chunk whose flag is [f]. *)
Fixpoint tidy_pre (cs : list chunk) (f : bool) : Prop :=
  match cs with
  | [] => True
  | c :: r => match r with
              | [] => c.2 = false \/ f = false
              | d :: _ => (c.2 = false \/ d.2 = false) /\ tidy_pre r f
              end
  end.

(** The bytes programs own in the allocated chunks from [base] on. *)
Fixpoint user_at (base : Z) (cs : list chunk) (x : Z) : Prop :=
  match cs with
  | [] => False
  | (len, fr) :: r => (fr = false /\ base + HHEAD <= x < base + len) \/ user_at (base + len) r x
  end.

Definition user_byte (cs : list chunk) (x : Z) : Prop := user_at HEAP_START cs x.

(** Nothing changes but headers of the chunks [cs]. *)
Definition hstart (cs : list chunk) (a : Z) : Prop :=
  exists l1 c l2, cs = l1 ++ c :: l2 /\ a = HEAP_START + tot l1.

Definition off_headers (cs : list chunk) (m m' : memory) : Prop :=
  forall x, (forall a, hstart cs a -> ~ (a <= x < a + 12)) -> m' x = m x.

(** The address of the last of the chunks, or [prev]. *)
Fixpoint last_addr (prev base : Z) (cs : list chunk) : Z :=
  match cs with [] => prev | (len, _) :: r => last_addr base (base + len) r end.

(** Nothing changes outside the three headers at [a], [b] and [c]. *)
Definition headers_only (a b c : Z) (m m' : memory) : Prop :=
  forall x, ~ (a <= x < a + 12) -> ~ (b <= x < b + 12) -> ~ (c <= x < c + 12) -> m' x = m x.

(** ** Header accesses *)

Lemma mapped_in h a :
  mapped_ok h -> in_heap h a ->
  pg_mapped (pager h) a = true /\ pg_mapped (pager h) (a + 3) = true.
Proof.
  intros [_ Hm] (H1 & H2 & H3). rewrite !Hm by lia. by rewrite !bool_decide_eq_true_2 by lia.
Qed.

Lemma after_refl h : mapped_ok h -> after h h (pg_mem (pager h)).
Proof. by split. Qed.

Lemma vload_after h0 h m a :
  after h0 h m -> in_heap h0 a -> vload h a = Ret (load32 m a).
Proof.
  intros [A1 A2 A3 A4 A5] Ha. destruct (mapped_in h a A4) as [M1 M2].
  { unfold in_heap. by rewrite A2. }
  unfold vload. rewrite M1, M2. f_equal. apply load32_ext. intros x Hx.
  apply A5. destruct Ha. lia.
Qed.

Lemma vstore_after h0 h m a v :
  after h0 h m -> in_heap h0 a ->
  exists h', vstore h a v = Ret h' /\ after h0 h' (store32 m a v).
Proof.
  intros [A1 A2 A3 A4 A5] Ha. destruct (mapped_in h a A4) as [M1 M2].
  { unfold in_heap. by rewrite A2. }
  unfold vstore. rewrite M1, M2. eexists. split; [reflexivity|].
  destruct A4 as [AI A4]. destruct Ha as (B1 & B2 & B3).
  destruct (pg_write_ok (pager h) a v AI B1 ltac:(lia) M1 M2) as (W0 & W1 & W2 & W3).
  split; cbn; [done|done|congruence| |].
  - split; [exact W0|]. intros x Hx. cbn. rewrite W2. by apply A4.
  - intros x Hx. rewrite W3; [|rewrite A4, A2 by lia; by apply bool_decide_eq_true_2; lia].
    unfold store32. case_decide; [done|]. by apply A5.
Qed.

Lemma put_prev_after h0 h m c v :
  after h0 h m -> in_heap h0 c ->
  exists h', put_prev h c v = Ret h' /\ after h0 h' (store32 m c v).
Proof. apply vstore_after. Qed.

Lemma put_next_after h0 h m c v :
  after h0 h m -> in_heap h0 (c + 4) ->
  exists h', put_next h c v = Ret h' /\ after h0 h' (store32 m (c + 4) v).
Proof. apply vstore_after. Qed.

Lemma get_next_after h0 h m c :
  after h0 h m -> in_heap h0 (c + 4) -> get_next h c = Ret (load32 m (c + 4)).
Proof. apply vload_after. Qed.

Lemma get_prev_after h0 h m c :
  after h0 h m -> in_heap h0 c -> get_prev h c = Ret (load32 m c).
Proof. apply vload_after. Qed.

Lemma put_len_after h0 h m c len :
  after h0 h m -> in_heap h0 (c + 8) ->
  exists h', put_len h c len = Ret h' /\
    after h0 h' (store32 m (c + 8) (load32 m (c + 8) mod 2 + 2 * (len mod 2147483648))).
Proof.
  intros A Hc. unfold put_len. rewrite (vload_after h0 h m) by done. cbn [mbind outcome_bind].
  by apply vstore_after.
Qed.

Lemma put_free_after h0 h m c b :
  after h0 h m -> in_heap h0 (c + 8) ->
  exists h', put_free h c b = Ret h' /\
    after h0 h' (store32 m (c + 8) (b + 2 * (load32 m (c + 8) / 2))).
Proof.
  intros A Hc. unfold put_free. rewrite (vload_after h0 h m) by done. cbn [mbind outcome_bind].
  by apply vstore_after.
Qed.

Lemma get_len_after h0 h m c prev next len fr :
  after h0 h m -> in_heap h0 (c + 8) -> hdr m c prev next len fr ->
  get_len h c = Ret len /\ get_free h c = Ret (if fr then 1 else 0).
Proof.
  intros A Hc (_ & _ & Hw). unfold get_len, get_free.
  rewrite (vload_after h0 h m) by done. cbn [mbind outcome_bind]. rewrite Hw.
  split; f_equal; destruct fr; modlia.
Qed.

(** ** Segments *)

Lemma tot_app l1 l2 : tot (l1 ++ l2) = tot l1 + tot l2.
Proof. clear. induction l1 as [|c l1 IH]; cbn [tot app]; lia. Qed.

Lemma tot_nonneg cs : Forall (fun c => HHEAD <= c.1) cs -> 0 <= tot cs.
Proof. clear. induction 1 as [|c cs Hc H IH]; cbn [tot]; [lia|]. unfold HHEAD in Hc. lia. Qed.

Lemma seg_app m nxt l2 l1 : forall prev base,
  seg m prev base (l1 ++ l2) nxt <->
  seg m prev base l1 (match l2 with [] => nxt | _ => base + tot l1 end) /\
  seg m (last_addr prev base l1) (base + tot l1) l2 nxt.
Proof.
  clear. induction l1 as [|[len fr] l1 IH]; intros prev base; cbn [seg app tot last_addr fst].
  - rewrite Z.add_0_r. tauto.
  - rewrite IH. replace (base + len + tot l1) with (base + (len + tot l1)) by lia.
    destruct l1 as [|c l1]; cbn [app]; [|tauto].
    destruct l2; cbn [tot]; rewrite ?Z.add_0_r; tauto.
Qed.

Lemma hdr_frame m m' c prev next len fr :
  (forall x, c <= x < c + 12 -> m' x = m x) -> hdr m c prev next len fr -> hdr m' c prev next len fr.
Proof.
  clear. intros H (H1 & H2 & H3). unfold hdr. rewrite <- H1, <- H2, <- H3.
  repeat split; apply load32_ext; intros x Hx; apply H; lia.
Qed.

Lemma seg_frame m m' cs nxt : forall prev base,
  Forall (fun c => HHEAD <= c.1) cs ->
  (forall x, base <= x < base + tot cs -> m' x = m x) ->
  seg m prev base cs nxt -> seg m' prev base cs nxt.
Proof.
  clear. induction cs as [|[len fr] r IH]; intros prev base Hl H; cbn [seg tot fst] in *; [done|].
  apply Forall_cons in Hl as [Hlen Hl]. pose proof (tot_nonneg r Hl). cbn [fst] in Hlen.
  unfold HHEAD in Hlen. intros [H1 H2]. split.
  - apply (hdr_frame m); [|exact H1]. intros x Hx. apply H. lia.
  - apply IH; [done| |exact H2]. intros x Hx. apply H. lia.
Qed.

(** The last chunk of a segment. *)
Lemma last_addr_app prev base l len fr :
  last_addr prev base (l ++ [(len, fr)]) = base + tot l.
Proof.
  clear. revert prev base. induction l as [|[k f] l IH]; intros prev base; cbn [app last_addr tot fst].
  - lia.
  - rewrite IH. lia.
Qed.

(** ** Effect of the header operations *)

Ltac ld :=
  repeat first [rewrite load32_store32_same | rewrite load32_store32_other by lia].

Ltac inh := unfold in_heap, HHEAD, HEAP_START, HEAP_END in *; lia.

Lemma u32_flag b x : 0 <= b < 2 -> u32 (b + 2 * x) mod 2 = b.
Proof. clear. intros Hb. unfold u32. modlia. Qed.

Lemma split_ok h0 h m c prev len n nn k f :
  after h0 h m -> HEAP_START <= c -> c + len + 12 <= heap_top h0 -> heap_top h0 <= HEAP_END ->
  hdr m c prev (c + len) len true -> hdr m (c + len) c nn k f ->
  12 <= n -> len - n > HHEAD ->
  exists h' m', split_chunk h c n = Ret h' /\ after h0 h' m' /\
    hdr m' c prev (c + n) n true /\ hdr m' (c + n) c (c + len) (len - n) true /\
    hdr m' (c + len) (c + n) nn k f /\ headers_only c (c + n) (c + len) m m'.
Proof.
  intros A Hc Ht He Hh (N1 & N2 & N3) Hn Hl. unfold HHEAD, HEAP_START, HEAP_END in *.
  unfold split_chunk. destruct (get_len_after h0 h m c _ _ _ _ A ltac:(inh) Hh) as [-> _].
  destruct Hh as (C1 & C2 & C3). cbn [mbind outcome_bind].
  rewrite (u32_small (len - n)) by lia. unfold HHEAD. rewrite decide_False by lia.
  rewrite (u32_small (c + n)) by lia.
  destruct (put_free_after h0 h m (c + n) 1 A ltac:(inh)) as (h1 & -> & A1). cbn [mbind outcome_bind].
  destruct (put_len_after h0 h1 _ (c + n) (len - n) A1 ltac:(inh)) as (h2 & -> & A2). cbn [mbind outcome_bind].
  destruct (put_len_after h0 h2 _ c n A2 ltac:(inh)) as (h3 & -> & A3). cbn [mbind outcome_bind].
  destruct (put_prev_after h0 h3 _ (c + n) c A3 ltac:(inh)) as (h4 & -> & A4). cbn [mbind outcome_bind].
  rewrite (get_next_after h0 h4 _ c A4 ltac:(inh)). cbn [mbind outcome_bind]. ld. rewrite C2.
  destruct (put_next_after h0 h4 _ (c + n) (c + len) A4 ltac:(inh)) as (h5 & -> & A5). cbn [mbind outcome_bind].
  destruct (put_prev_after h0 h5 _ (c + len) (c + n) A5 ltac:(inh)) as (h6 & -> & A6). cbn [mbind outcome_bind].
  destruct (put_next_after h0 h6 _ c (c + n) A6 ltac:(inh)) as (h7 & -> & A7).
  eexists h7, _. split; [reflexivity|]. split; [exact A7|].
  clear A A1 A2 A3 A4 A5 A6 A7.
  unfold hdr, headers_only. ld. rewrite C1, C3, N2, N3, u32_flag by lia.
  rewrite !(Z.mod_small _ 2147483648) by lia.
  rewrite (u32_small (1 + 2 * (len - n))), (u32_small (c + n)), (u32_small (c + len)), (u32_small c) by lia.
  replace ((1 + 2 * len) mod 2) with 1 by modlia. rewrite u32_small by lia.
  split; [done|]. split; [done|]. split; [done|].
  intros x X1 X2 X3. unfold store32. rewrite !decide_False by lia. done.
Qed.

Lemma glue_right_merge h0 h m c prev len fr k nn k2 f2 :
  after h0 h m -> HEAP_START <= c -> c + len + k + 12 <= heap_top h0 -> heap_top h0 <= HEAP_END ->
  12 <= len -> 12 <= k ->
  hdr m c prev (c + len) len fr -> hdr m (c + len) c (c + len + k) k true ->
  hdr m (c + len + k) (c + len) nn k2 f2 ->
  exists h' m', glue_right h c = Ret h' /\ after h0 h' m' /\
    hdr m' c prev (c + len + k) (len + k) fr /\ hdr m' (c + len + k) c nn k2 f2 /\
    headers_only c c (c + len + k) m m'.
Proof.
  intros A Hc Ht He Hlen Hk Hh Hn (N1 & N2 & N3). unfold HEAP_START, HEAP_END in *.
  unfold glue_right.
  destruct (get_len_after h0 h m c _ _ _ _ A ltac:(inh) Hh) as [L1 _].
  destruct (get_len_after h0 h m (c + len) _ _ _ _ A ltac:(inh) Hn) as [L2 F2].
  destruct Hh as (C1 & C2 & C3). destruct Hn as (D1 & D2 & D3).
  rewrite (get_next_after h0 h m c A ltac:(inh)), C2. cbn [mbind outcome_bind].
  rewrite decide_False by lia. rewrite F2. cbn [mbind outcome_bind]. rewrite decide_True by done.
  rewrite L1. cbn [mbind outcome_bind]. rewrite L2. cbn [mbind outcome_bind].
  destruct (put_len_after h0 h m c (len + k) A ltac:(inh)) as (h1 & -> & A1). cbn [mbind outcome_bind].
  rewrite (get_next_after h0 h1 _ (c + len) A1 ltac:(inh)). cbn [mbind outcome_bind]. ld. rewrite D2.
  destruct (put_prev_after h0 h1 _ (c + len + k) c A1 ltac:(inh)) as (h2 & -> & A2). cbn [mbind outcome_bind].
  destruct (put_next_after h0 h2 _ c (c + len + k) A2 ltac:(inh)) as (h3 & -> & A3).
  eexists h3, _. split; [reflexivity|]. split; [exact A3|]. clear A A1 A2 A3.
  unfold hdr, headers_only. ld. rewrite C1, C3, N2, N3.
  rewrite (Z.mod_small _ 2147483648) by lia.
  replace (((if fr then 1 else 0) + 2 * len) mod 2) with (if fr then 1 else 0) by (destruct fr; modlia).
  rewrite !u32_small by (destruct fr; lia).
  split; [done|]. split; [done|]. intros x X1 _ X3. unfold store32. by rewrite !decide_False by lia.
Qed.

Lemma glue_right_skip h0 h m c prev next len fr :
  after h0 h m -> in_heap h0 (c + 4) -> hdr m c prev next len fr ->
  next = 0 \/ (exists p' n' k, in_heap h0 (next + 8) /\ next <> 0 /\ hdr m next p' n' k false) ->
  glue_right h c = Ret h.
Proof.
  intros A Hc (C1 & C2 & C3) Hn. unfold glue_right. rewrite (get_next_after h0 h m c A Hc), C2.
  cbn [mbind outcome_bind]. case_decide as E; [done|]. destruct Hn as [->|(p' & n' & k & Hi & _ & Hh)]; [done|].
  destruct (get_len_after h0 h m next _ _ _ _ A Hi Hh) as [_ ->]. cbn [mbind outcome_bind].
  by rewrite decide_False.
Qed.

Lemma glue_left_merge h0 h m b pb k len fr next :
  after h0 h m -> HEAP_START <= b -> b + k + len <= heap_top h0 -> heap_top h0 <= HEAP_END ->
  12 <= len -> 12 <= k ->
  hdr m b pb (b + k) k true -> hdr m (b + k) b next len fr ->
  next = 0 \/ (next = b + k + len /\ b + k + len + 12 <= heap_top h0) ->
  exists h' m', glue_left h (b + k) = Ret (h', b) /\ after h0 h' m' /\
    hdr m' b pb next (k + len) true /\
    (forall nn k2 f2, next <> 0 -> hdr m next (b + k) nn k2 f2 -> hdr m' next b nn k2 f2) /\
    headers_only b b (if decide (next = 0) then b else b + k + len) m m'.
Proof.
  intros A Hb Ht He Hlen Hk Hp Hc Hn. unfold HEAP_START, HEAP_END in *. unfold glue_left.
  destruct (get_len_after h0 h m b _ _ _ _ A ltac:(inh) Hp) as [L1 F1].
  destruct (get_len_after h0 h m (b + k) _ _ _ _ A ltac:(inh) Hc) as [L2 _].
  destruct Hp as (P1 & P2 & P3). destruct Hc as (C1 & C2 & C3).
  rewrite (get_prev_after h0 h m (b + k) A ltac:(inh)), C1. cbn [mbind outcome_bind].
  rewrite decide_False by lia. rewrite F1. cbn [mbind outcome_bind]. rewrite decide_True by done.
  rewrite L1. cbn [mbind outcome_bind]. rewrite L2. cbn [mbind outcome_bind].
  destruct (put_len_after h0 h m b (k + len) A ltac:(inh)) as (h1 & -> & A1). cbn [mbind outcome_bind].
  rewrite (get_next_after h0 h1 _ (b + k) A1 ltac:(inh)). cbn [mbind outcome_bind]. ld. rewrite C2.
  destruct (put_next_after h0 h1 _ b next A1 ltac:(inh)) as (h2 & -> & A2). cbn [mbind outcome_bind].
  revert A2. rewrite P3. replace ((1 + 2 * k) mod 2) with 1 by modlia.
  rewrite (Z.mod_small _ 2147483648) by lia. intros A2. case_decide as E.
  - exists h2. eexists. split; [reflexivity|]. split; [exact A2|].
    unfold hdr, headers_only. ld. rewrite P1, !u32_small by lia.
    split; [done|]. split; [done|]. intros x X1 _ _. unfold store32. by rewrite !decide_False by lia.
  - destruct Hn as [->|[-> Hn]]; [done|].
    destruct (put_prev_after h0 h2 _ (b + k + len) b A2 ltac:(inh)) as (h3 & -> & A3).
    exists h3. eexists. split; [reflexivity|]. split; [exact A3|].
    unfold hdr, headers_only. ld. rewrite P1, !u32_small by lia. split; [done|]. split.
    + intros nn k2 f2 _ (G1 & G2 & G3). done.
    + intros x X1 _ X3. unfold store32. by rewrite !decide_False by lia.
Qed.

Lemma glue_left_skip h0 h m c prev next len fr :
  after h0 h m -> in_heap h0 c -> hdr m c prev next len fr ->
  prev = 0 \/ (exists p' n' k, in_heap h0 (prev + 8) /\ hdr m prev p' n' k false) ->
  glue_left h c = Ret (h, c).
Proof.
  intros A Hc (C1 & C2 & C3) Hn. unfold glue_left. rewrite (get_prev_after h0 h m c A Hc), C1.
  cbn [mbind outcome_bind]. case_decide as E; [done|]. destruct Hn as [->|(p' & n' & k & Hi & Hh)]; [done|].
  destruct (get_len_after h0 h m prev _ _ _ _ A Hi Hh) as [_ ->]. cbn [mbind outcome_bind].
  by rewrite decide_False.
Qed.

(** ** Effect of the page operations *)

(** What the page operations keep: the bytes below both tops. *)
Lemma alloc_chunk_ok fuel : forall h start len,
  mapped_ok h -> heap_top h mod 4096 = 0 -> HEAP_START <= heap_top h <= page_up (start + len) ->
  HEAP_START <= start -> 0 <= len -> start + len <= HEAP_END ->
  start + len - heap_top h <= 4096 * Z.of_nat fuel ->
  page_up (start + len) - heap_top h <= 4096 * Z.of_nat (pg_avail (pager h)) ->
  exists h', alloc_chunk fuel h start len = Ret h' /\ mapped_ok h' /\
    heap_start h' = heap_start h /\ heap_top h' = page_up (start + len) /\
    (forall x, HEAP_START <= x < heap_top h -> pg_mem (pager h') x = pg_mem (pager h) x).
Proof.
  unfold page_up, HEAP_START, HEAP_END.
  induction fuel as [|fuel IH]; intros h start len [HI Hm] Hal Htop Hs Hl He Hf Hav;
    cbn [alloc_chunk]; rewrite (u32_small (start + len)) by lia; case_decide as E; [lia| | |].
  - exists h. split; [done|]. split; [done|]. split; [done|]. split; [modlia|done].
  - destruct (pg_map_ok (pager h) (heap_top h)) as (p & -> & HI' & Ha & Hmp & Hmm).
    { exact HI. } { done. } { unfold HEAP_START, HEAP_END. lia. }
    { rewrite Hm by (unfold HEAP_START, HEAP_END; lia). apply bool_decide_eq_false_2. lia. }
    { modlia. }
    cbn [mbind outcome_bind]. unfold HPGSIZE. rewrite (u32_small (heap_top h + 4096)) by lia.
    set (h1 := mkHeap p (heap_start h) (heap_top h + 4096)).
    destruct (IH h1 start len) as (h' & E' & M' & S' & T' & B').
    + split; [exact HI'|]. intros x Hx. cbn. rewrite Hmp, Hm by exact Hx. unfold HEAP_START, HEAP_END in Hx.
      repeat case_bool_decide; try lia; done.
    + cbn. modlia.
    + cbn. modlia.
    + lia.
    + lia.
    + lia.
    + cbn. modlia.
    + cbn. modlia.
    + exists h'. split; [exact E'|]. split; [done|]. split; [done|]. split; [done|].
      intros x Hx. rewrite B' by (cbn; lia). cbn. apply Hmm.
      rewrite Hm by (unfold HEAP_START, HEAP_END; lia). apply bool_decide_eq_true_2. lia.
  - exists h. split; [done|]. split; [done|]. split; [done|]. split; [modlia|done].
Qed.

Lemma free_pages_ok fuel : forall h c,
  mapped_ok h -> heap_top h mod 4096 = 0 -> HEAP_START <= c -> page_up c <= heap_top h <= HEAP_END ->
  heap_top h - c < 4096 * (Z.of_nat fuel + 1) ->
  exists h', free_pages fuel h c = Ret h' /\ mapped_ok h' /\
    heap_start h' = heap_start h /\ heap_top h' = page_up c /\
    (forall x, HEAP_START <= x < page_up c -> pg_mem (pager h') x = pg_mem (pager h) x).
Proof.
  unfold page_up, HEAP_START, HEAP_END.
  induction fuel as [|fuel IH]; intros h c [HI Hm] Hal Hc Htop Hf; cbn [free_pages];
    unfold HPGSIZE; rewrite (u32_small (heap_top h - 4096)) by modlia; case_decide as E; [lia| | |].
  - exists h. split; [done|]. split; [done|]. split; [done|]. split; [modlia|done].
  - destruct (pg_unmap_ok (pager h) (heap_top h - 4096)) as (p & -> & HI' & Hmp & Hmm).
    { exact HI. } { modlia. } { unfold HEAP_START, HEAP_END. modlia. }
    { rewrite Hm by (unfold HEAP_START, HEAP_END; modlia). apply bool_decide_eq_true_2. lia. }
    cbn [mbind outcome_bind]. set (h1 := mkHeap p (heap_start h) (heap_top h - 4096)).
    destruct (IH h1 c) as (h' & E' & M' & S' & T' & B').
    + split; [exact HI'|]. intros x Hx. cbn. rewrite Hmp, Hm by exact Hx. unfold HEAP_START, HEAP_END in Hx.
      repeat case_bool_decide; try lia; done.
    + cbn. modlia.
    + done.
    + cbn. modlia.
    + cbn. modlia.
    + exists h'. split; [exact E'|]. split; [done|]. split; [done|]. split; [done|].
      intros x Hx. rewrite B' by (cbn; modlia). cbn. apply Hmm. rewrite Hmp, Hm by
        (unfold HEAP_START, HEAP_END; modlia).
      rewrite bool_decide_eq_true_2, bool_decide_eq_false_2 by modlia. done.
  - exists h. split; [done|]. split; [done|]. split; [done|]. split; [modlia|done].
Qed.

(** ** Lists of chunks *)

Lemma find_hole_some n cs l1 len l2 :
  find_hole n cs = Some (l1, len, l2) ->
  cs = l1 ++ (len, true) :: l2 /\ len >= n /\
  spec_alloc n cs =
    (l1 ++ (if decide (len - n <= HHEAD) then (len, false) :: l2
            else (n, false) :: (len - n, true) :: l2), tot l1).
Proof.
  clear. revert l1. induction cs as [|[k f] cs IH]; intros l1; cbn [find_hole spec_alloc]; [done|].
  destruct (f && bool_decide (k >= n)) eqn:E.
  - intros [= <- -> ->]. apply andb_true_iff in E as [-> E]. apply bool_decide_eq_true in E.
    split; [done|]. split; [done|]. by case_decide.
  - destruct (find_hole n cs) as [[[l1' k'] l2']|]; [|done]. intros [= <- <- <-].
    destruct (IH l1' eq_refl) as (-> & H2 & H3). split; [done|]. split; [done|].
    rewrite H3. done.
Qed.

Lemma find_hole_none n cs :
  find_hole n cs = None -> spec_alloc n cs = (cs ++ [(n, false)], tot cs).
Proof.
  clear. induction cs as [|[k f] cs IH]; cbn [find_hole spec_alloc]; [done|].
  destruct (f && bool_decide (k >= n)); [done|].
  destruct (find_hole n cs) as [[[l1' k'] l2']|]; [done|]. intros _. by rewrite IH.
Qed.

Lemma tidy_app l1 c l2 : tidy (l1 ++ c :: l2) <-> tidy_pre l1 c.2 /\ tidy (c :: l2).
Proof.
  clear. induction l1 as [|d l1 IH]; cbn [app]; [cbn [tidy_pre]; tauto|].
  destruct l1 as [|e l1]; cbn [app tidy_pre] in *.
  - cbn [tidy]. tauto.
  - cbn [tidy] in *. rewrite IH. tauto.
Qed.

Lemma tidy_pre_false l f : tidy_pre l f -> tidy_pre l false.
Proof.
  clear. induction l as [|c l IH]; [done|]. cbn [tidy_pre]. destruct l as [|d l]; [tauto|].
  intros [H1 H2]. auto.
Qed.

Lemma user_at_app l1 l2 x : forall base,
  user_at base (l1 ++ l2) x <-> user_at base l1 x \/ user_at (base + tot l1) l2 x.
Proof.
  clear. induction l1 as [|[len fr] l1 IH]; intros base; cbn [app user_at tot fst].
  - rewrite Z.add_0_r. tauto.
  - rewrite IH, Z.add_assoc. tauto.
Qed.

Lemma user_at_range cs x : forall base,
  Forall (fun c => HHEAD <= c.1) cs -> user_at base cs x -> base <= x < base + tot cs.
Proof.
  clear. induction cs as [|[len fr] cs IH]; intros base Hl; cbn [user_at tot fst]; [done|].
  apply Forall_cons in Hl as [Hlen Hl]. pose proof (tot_nonneg _ Hl). cbn [fst] in Hlen.
  unfold HHEAD in *. intros [[_ Hx]|Hx]; [lia|]. apply IH in Hx; [lia|done].
Qed.

(** Bytes of a program are neither in a header nor in a hole. *)
Lemma user_not_header cs l1 c l2 x :
  Forall (fun c => HHEAD <= c.1) cs -> cs = l1 ++ c :: l2 -> user_byte cs x ->
  ~ (HEAP_START + tot l1 <= x < HEAP_START + tot l1 + 12) /\
  (c.2 = true -> ~ (HEAP_START + tot l1 <= x < HEAP_START + tot l1 + c.1)).
Proof.
  clear. intros Hl -> Hx. apply Forall_app in Hl as [F1 F2]. apply Forall_cons in F2 as [F2 F3].
  destruct c as [len fr]. cbn [fst snd] in *. unfold user_byte in Hx. apply user_at_app in Hx.
  cbn [user_at] in Hx. unfold HHEAD in *. destruct Hx as [Hx|[[-> Hx]|Hx]].
  - apply user_at_range in Hx; [|done]. lia.
  - split; [lia|done].
  - apply user_at_range in Hx; [|done]. lia.
Qed.

Lemma off_headers_user cs m m' x :
  Forall (fun c => HHEAD <= c.1) cs -> off_headers cs m m' -> user_byte cs x -> m' x = m x.
Proof.
  clear. intros Hl Ho Hx. apply Ho. intros a (l1 & c & l2 & Hcs & ->).
  by apply (user_not_header cs l1 c l2).
Qed.

Lemma kmalloc_scan_ok h0 h m n cs : forall fuel base prev prevp,
  after h0 h m -> HEAP_START <= base -> base + tot cs <= heap_top h0 -> heap_top h0 <= HEAP_END ->
  Forall (fun c => HHEAD <= c.1) cs -> seg m prev base cs 0 -> (length cs <= fuel)%nat ->
  kmalloc_scan fuel h (match cs with [] => 0 | _ => base end) prevp n =
    Ret (match find_hole n cs with
         | Some (l1, _, _) => (base + tot l1, last_addr prevp base l1)
         | None => (0, last_addr prevp base cs)
         end).
Proof.
  induction cs as [|[len fr] cs IH]; intros fuel base prev prevp A Hb Ht He Hl Hs Hf.
  - by destruct fuel.
  - destruct fuel as [|fuel]; [cbn [length] in Hf; lia|]. cbn [seg tot fst length] in *.
    apply Forall_cons in Hl as [Hlen Hl]. pose proof (tot_nonneg cs Hl). cbn [fst] in Hlen.
    destruct Hs as [Hh Hs]. cbn [kmalloc_scan].
    rewrite decide_False by (unfold HEAP_START in Hb; lia).
    destruct (get_len_after h0 h m base _ _ _ _ A ltac:(inh) Hh) as [L F].
    rewrite F. cbn [mbind outcome_bind]. rewrite L. cbn [mbind outcome_bind find_hole].
    destruct (fr && bool_decide (len >= n)) eqn:E.
    + apply andb_true_iff in E as [-> E]. apply bool_decide_eq_true in E.
      rewrite decide_True by done. by rewrite Z.add_0_r.
    + rewrite decide_False; cycle 1.
      { intros [Hfr Hge]. apply not_true_iff_false in E. apply E. apply andb_true_iff.
        split; [by destruct fr|by apply bool_decide_eq_true_2]. }
      rewrite (get_next_after h0 h m base A ltac:(inh)). destruct Hh as (_ & -> & _).
      cbn [mbind outcome_bind].
      rewrite (IH fuel (base + len) base base A) by (done || inh).
      destruct (find_hole n cs) as [[[l1 k] l2]|]; [|done]. cbn [tot last_addr fst].
      by rewrite Z.add_assoc.
Qed.

(** ** Allocation *)

(** Closing step: a heap whose memory was only changed in place. *)
Lemma repr_after h0 h m cs cs' :
  hrepr h0 cs -> after h0 h m -> tot cs' = tot cs ->
  (match cs' with [] => cs = [] | _ => cs <> [] end) ->
  Forall (fun c => HHEAD <= c.1) cs' -> tidy cs' -> seg m 0 HEAP_START cs' 0 -> hrepr h cs'.
Proof.
  intros [R1 R2 R3 R4 R5 R6 R7] [A1 A2 A3 A4 A5] Ht Hne Hl Hti Hs. split; try done.
  - rewrite A1, R1. destruct cs', cs; congruence.
  - rewrite A2, R2. by rewrite Ht.
  - by rewrite Ht.
  - apply (seg_frame m); [done| |done]. intros x Hx. apply A5. rewrite Ht in Hx.
    rewrite R2. unfold page_up. pose proof (tot_nonneg cs R6). modlia.
Qed.

Lemma repr_bounds h cs :
  hrepr h cs -> HEAP_START + tot cs <= heap_top h <= HEAP_END /\ heap_top h mod 4096 = 0 /\
  heap_top h < HEAP_START + tot cs + 4096.
Proof.
  intros [R1 R2 R3 R4 R5 R6 R7]. rewrite R2. unfold page_up, HEAP_START, HEAP_END in *. modlia.
Qed.

(** A hole is split if it is large enough, and its front taken. *)
Lemma take_chunk h c prev len n nx k :
  mapped_ok h -> HEAP_START <= c -> c + len + 12 <= heap_top h -> heap_top h <= HEAP_END ->
  hdr (pg_mem (pager h)) c prev (c + len) len true -> hdr (pg_mem (pager h)) (c + len) c nx k false -> 12 <= n -> len >= n ->
  let whole := len - n <= HHEAD in
  exists h1 h2 m2, split_chunk h c n = Ret h1 /\ put_free h1 c 0 = Ret h2 /\ after h h2 m2 /\
    hdr m2 c prev (if decide whole then c + len else c + n) (if decide whole then len else n) false /\
    (~ whole -> hdr m2 (c + n) c (c + len) (len - n) true) /\
    hdr m2 (c + len) (if decide whole then c else c + n) nx k false /\
    headers_only c (if decide whole then c else c + n) (c + len) (pg_mem (pager h)) m2.
Proof.
  intros Hm Hc Ht He Hh Hh2 Hn Hge whole. pose proof (after_refl h Hm) as A.
  assert (Hstep : exists h1 m1, split_chunk h c n = Ret h1 /\ after h h1 m1 /\
    hdr m1 c prev (if decide whole then c + len else c + n) (if decide whole then len else n) true /\
    (~ whole -> hdr m1 (c + n) c (c + len) (len - n) true) /\
    hdr m1 (c + len) (if decide whole then c else c + n) nx k false /\
    headers_only c (if decide whole then c else c + n) (c + len) (pg_mem (pager h)) m1).
  { unfold whole. case_decide as Hd.
    - exists h, (pg_mem (pager h)). split; [|split; [done|split; [done|split; [done|split; [done|]]]]].
      + unfold split_chunk. destruct (get_len_after h h _ c _ _ _ _ A ltac:(inh) Hh) as [-> _].
        cbn [mbind outcome_bind]. rewrite u32_small by inh. by rewrite decide_True.
      + by intros x _ _ _.
    - destruct (split_ok h h _ c prev len n nx k false A) as (h1 & m1 & E & A1 & G1 & G2 & G3 & G4); [done|done|done|done|done|done|inh|].
      exists h1, m1. done. }
  destruct Hstep as (h1 & m1 & E1 & A1 & G1 & G2 & G3 & G4).
  destruct (put_free_after h h1 m1 c 0 A1 ltac:(inh)) as (h2 & E2 & A2).
  revert A2. pose proof G1 as (W1 & W2 & W3). rewrite W3. set (m2 := store32 m1 (c + 8) _). intros A2.
  assert (Hfr : forall x, ~ (c <= x < c + 12) -> m2 x = m1 x).
  { intros x Hx. unfold m2, store32. by rewrite decide_False by lia. }
  exists h1, h2, m2. split; [exact E1|]. split; [exact E2|]. split; [exact A2|]. split; [|split; [|split]].
  - unfold hdr, m2. ld. rewrite W1, W2. split; [done|]. split; [done|].
    rewrite u32_small; case_decide; unfold HHEAD, HEAP_START, HEAP_END in *; modlia.
  - intros Hw. apply (hdr_frame m1); [|by apply G2]. intros x Hx. apply Hfr. inh.
  - apply (hdr_frame m1); [|exact G3]. intros x Hx. apply Hfr. inh.
  - intros x X1 X2 X3. rewrite Hfr by exact X1. by apply G4.
Qed.

Lemma kmalloc_found h cs n l1 len l2 :
  hrepr h cs -> find_hole n cs = Some (l1, len, l2) -> 12 <= n ->
  let c := HEAP_START + tot l1 in
  exists h', (h1 ← split_chunk h c n; h2 ← put_free h1 c 0; Ret (h2, u32 (c + HHEAD))) =
      Ret (h', c + HHEAD) /\ hrepr h' (spec_alloc n cs).1 /\
    pg_avail (pager h') = pg_avail (pager h) /\
    (forall x, user_byte cs x -> pg_mem (pager h') x = pg_mem (pager h) x).
Proof.
  intros Hr Hf Hn c. apply find_hole_some in Hf as (Hcs & Hge & Hsp). rewrite Hsp. cbn [fst].
  pose proof (repr_bounds h cs Hr) as (Hb1 & _ & _). pose proof Hr as [R1 R2 R3 R4 R5 R6 R7].
  assert (Huser := user_not_header cs). rewrite Hcs in R5, R6, R7, Hb1.
  apply seg_app in R5 as [S1 [Hh S2]]. apply Forall_app in R6 as [F1 F2].
  apply Forall_cons in F2 as [Flen F2]. cbn [fst] in Flen.
  apply tidy_app in R7 as [T1 T2]. apply tidy_pre_false in T1.
  destruct l2 as [|[k f] r]; [done|]. destruct T2 as [[T2|T2] T3]; [done|]. cbn [snd] in T2. subst f.
  cbn [seg] in S2. destruct S2 as [Hh2 S3].
  apply Forall_cons in F2 as [Fk F2]. cbn [fst] in Fk.
  rewrite tot_app in Hb1. cbn [tot fst] in Hb1. pose proof (tot_nonneg _ F1). pose proof (tot_nonneg _ F2).
  fold c in S1, Hh, Hh2, S3.
  destruct (take_chunk h c (last_addr 0 HEAP_START l1) len n (match r with [] => 0 | _ => c + len + k end) k R4)
    as (h1 & h2 & m2 & -> & E2 & A2 & Hh1 & G2 & Hh3 & G4); [inh|inh|inh|done|done|done|done|].
  cbn [mbind outcome_bind]. rewrite E2. cbn [mbind outcome_bind].
  rewrite (u32_small (c + HHEAD)) by inh. exists h2. split; [done|].
  assert (Hpre : seg m2 0 HEAP_START l1 c).
  { apply (seg_frame (pg_mem (pager h))); [done| |exact S1]. intros x Hx. apply G4; case_decide; inh. }
  assert (Hpost : seg m2 (c + len) (c + len + k) r 0).
  { apply (seg_frame (pg_mem (pager h))); [done| |exact S3]. intros x Hx. apply G4; case_decide; inh. }
  split; [|split; [exact (af_avail _ _ _ A2)|]].
  - apply (repr_after h h2 m2 cs); [done|exact A2| | | | |].
    + rewrite Hcs, !tot_app. case_decide; cbn [tot fst]; lia.
    + destruct l1; subst cs; [by case_decide|done].
    + apply Forall_app. split; [done|]. case_decide as Hd.
      * by repeat (apply Forall_cons; split).
      * repeat (apply Forall_cons; split); cbn; (done || inh).
    + case_decide as Hd; apply tidy_app; (split; [exact T1|]).
      * cbn [tidy snd]. tauto.
      * cbn [tidy snd]. tauto.
    + apply seg_app. fold c. case_decide as Hd.
      * split; [exact Hpre|]. cbn [seg]. split; [exact Hh1|]. split; [exact Hh3|exact Hpost].
      * split; [exact Hpre|]. cbn [seg]. replace (c + n + (len - n)) with (c + len) by lia.
        split; [exact Hh1|]. split; [by apply G2|]. split; [exact Hh3|exact Hpost].
  - intros x Hx. destruct (Huser l1 (len, true) ((k, false) :: r) x (hr_len _ _ Hr) Hcs Hx) as [U1 U2].
    destruct (Huser (l1 ++ [(len, true)]) (k, false) r x (hr_len _ _ Hr)) as [U3 _];
      [rewrite Hcs, <- app_assoc; done|exact Hx|].
    rewrite tot_app in U3. cbn [tot fst snd] in U2, U3. specialize (U2 eq_refl). fold c in U1, U2.
    assert (Hin : HEAP_START <= x < heap_top h).
    { pose proof (user_at_range cs x HEAP_START (hr_len _ _ Hr) Hx).
      pose proof (repr_bounds h cs Hr) as (Hbb & _ & _). lia. }
    rewrite (af_mem _ _ _ A2) by exact Hin. unfold c in *.
    apply G4; case_decide; inh.
Qed.

(** The [next] field of the last chunk is set. *)
Lemma seg_set_next m cs w v :
  cs <> [] -> Forall (fun c => HHEAD <= c.1) cs -> seg m 0 HEAP_START cs w -> 0 <= v < 4294967296 ->
  seg (store32 m (last_addr 0 HEAP_START cs + 4) v) 0 HEAP_START cs v /\
  HEAP_START <= last_addr 0 HEAP_START cs /\
  last_addr 0 HEAP_START cs + 12 <= HEAP_START + tot cs /\
  hstart cs (last_addr 0 HEAP_START cs).
Proof.
  clear. intros Hne Hl Hs Hv. destruct cs as [|[k f] l _] using rev_ind; [done|].
  apply seg_app in Hs as [S1 S2]. cbn [seg] in S2. destruct S2 as [(H1 & H2 & H3) _].
  apply Forall_app in Hl as [Hl Hk]. apply Forall_cons in Hk as [Hk _]. cbn [fst] in Hk.
  unfold HHEAD in Hk. pose proof (tot_nonneg l Hl). rewrite last_addr_app, tot_app. cbn [tot fst].
  split; [|split; [lia|split; [lia|by exists l, (k, f), []]]].
  apply seg_app. split.
  - apply (seg_frame m); [done| |exact S1]. intros x Hx. apply store32_outside. lia.
  - cbn [seg]. split; [|done]. unfold hdr. ld. rewrite u32_small by lia. done.
Qed.

Lemma last_addr_zero cs :
  Forall (fun c => HHEAD <= c.1) cs -> last_addr 0 HEAP_START cs = 0 <-> cs = [].
Proof.
  clear. intros Hl. split; [|by intros ->]. destruct cs as [|[k f] l _] using rev_ind; [done|].
  rewrite last_addr_app. apply Forall_app in Hl as [Hl _]. pose proof (tot_nonneg l Hl).
  unfold HEAP_START. lia.
Qed.

Lemma user_in_heap h cs x : hrepr h cs -> user_byte cs x -> HEAP_START <= x < HEAP_START + tot cs.
Proof. intros Hr. apply user_at_range, Hr. Qed.

(** Writing the [next] field of the last chunk. *)
Lemma set_last_next h0 h m cs w v :
  after h0 h m -> heap_top h0 <= HEAP_END -> HEAP_START + tot cs <= heap_top h0 -> cs <> [] ->
  Forall (fun c => HHEAD <= c.1) cs -> seg m 0 HEAP_START cs w -> 0 <= v < 4294967296 ->
  exists h' m', put_next h (last_addr 0 HEAP_START cs) v = Ret h' /\ after h0 h' m' /\ seg m' 0 HEAP_START cs v /\
    (forall x, user_byte cs x -> m' x = m x) /\ (forall x, HEAP_START + tot cs <= x -> m' x = m x).
Proof.
  intros A He Ht Hne Hl Hs Hv. destruct (seg_set_next m cs w v Hne Hl Hs Hv) as (X0 & X1 & X2 & X3).
  destruct (put_next_after h0 h m (last_addr 0 HEAP_START cs) v A ltac:(inh)) as (h' & E & A').
  exists h', (store32 m (last_addr 0 HEAP_START cs + 4) v). split; [exact E|]. split; [exact A'|]. split; [exact X0|]. split.
  - intros x Hx. apply store32_outside. destruct X3 as (l1 & d & l2 & Hcs & Hpa).
    destruct (user_not_header cs l1 d l2 x Hl Hcs Hx) as [U _]. lia.
  - intros x Hx. apply store32_outside. lia.
Qed.

(** The header of a new chunk at [c]. *)
Lemma new_header h c prev n :
  mapped_ok h -> HEAP_START <= c -> c + 12 <= heap_top h -> heap_top h <= HEAP_END -> 0 <= prev < 4294967296 -> 0 <= n < 2147483648 ->
  exists h2 h3 h4 h5 m5, put_prev h c prev = Ret h2 /\ put_next h2 c 0 = Ret h3 /\ put_free h3 c 0 = Ret h4 /\ put_len h4 c n = Ret h5 /\
    after h h5 m5 /\ hdr m5 c prev 0 n false /\ (forall x, ~ (c <= x < c + 12) -> m5 x = pg_mem (pager h) x).
Proof.
  intros Hm Hc Ht He Hp Hn. pose proof (after_refl h Hm) as A.
  destruct (put_prev_after h h _ c prev A ltac:(inh)) as (h2 & E2 & A2).
  destruct (put_next_after h h2 _ c 0 A2 ltac:(inh)) as (h3 & E3 & A3).
  destruct (put_free_after h h3 _ c 0 A3 ltac:(inh)) as (h4 & E4 & A4).
  destruct (put_len_after h h4 _ c n A4 ltac:(inh)) as (h5 & E5 & A5).
  revert A5. rewrite load32_store32_same, u32_flag by lia. rewrite (Z.mod_small n 2147483648) by lia.
  set (m5 := store32 _ (c + 8) (0 + 2 * n)). intros A5.
  exists h2, h3, h4, h5, m5. split; [exact E2|]. split; [exact E3|]. split; [exact E4|]. split; [exact E5|]. split; [exact A5|]. split.
  - unfold hdr, m5. ld. rewrite !u32_small by lia. lia.
  - intros x Hx. unfold m5, store32. by rewrite !decide_False by lia.
Qed.

Lemma tidy_snoc cs n : tidy cs -> tidy (cs ++ [(n, false)]).
Proof.
  clear. intros H. apply tidy_app. split; [|done]. cbn [snd].
  induction cs as [|d cs IH]; [done|]. cbn [tidy tidy_pre] in *.
  destruct cs; [by left|]. destruct H as [H1 H2]. split; [done|by apply IH].
Qed.

(** A heap that has got a chunk at its end. *)
Lemma append_repr h h1 h6 m6 cs n :
  hrepr h cs -> after h1 h6 m6 -> heap_start h1 = HEAP_START -> heap_top h1 = page_up (HEAP_START + tot cs + n) ->
  12 <= n -> HEAP_START + tot cs + n <= HEAP_END -> HEAP_START + tot cs + n <= heap_top h1 ->
  seg m6 0 HEAP_START cs (HEAP_START + tot cs) ->
  hdr m6 (HEAP_START + tot cs) (last_addr 0 HEAP_START cs) 0 n false -> hrepr h6 (cs ++ [(n, false)]).
Proof.
  intros Hr [Q1 Q2 Q3 Q4 Q5] S1 T1 Hn He Ht Hs Hh. pose proof Hr as [R1 R2 R3 R4 R5 R6 R7].
  assert (Htt : tot (cs ++ [(n, false)]) = tot cs + n) by (rewrite tot_app; cbn [tot fst]; lia).
  assert (Hl : Forall (fun c => HHEAD <= c.1) (cs ++ [(n, false)])) by (apply Forall_app; split; [done|]; by apply Forall_cons).
  split; rewrite ?Htt, ?Z.add_assoc; try done.
  - rewrite Q1, S1. by destruct cs.
  - by rewrite Q2, T1.
  - apply (seg_frame m6); [exact Hl| |apply seg_app; split; [exact Hs|]; done].
    intros x Hx. apply Q5. rewrite Htt in Hx. lia.
  - by apply tidy_snoc.
Qed.

Lemma kmalloc_new h cs n :
  hrepr h cs -> 12 <= n -> HEAP_START + tot cs + n <= HEAP_END ->
  page_up (HEAP_START + tot cs + n) - heap_top h <= 4096 * Z.of_nat (pg_avail (pager h)) ->
  let prevp := last_addr 0 HEAP_START cs in
  let c := HEAP_START + tot cs in
  let h0 := if decide (prevp = 0) then mkHeap (pager h) HEAP_START (heap_top h) else h in
  exists h',
    (h1 ← alloc_chunk (page_steps (heap_top h0) (c + n)) h0 c n;
     h2 ← put_prev h1 c prevp;
     h3 ← put_next h2 c 0;
     h4 ← put_free h3 c 0;
     h5 ← put_len h4 c n;
     h6 ← (if decide (prevp = 0) then Ret h5 else put_next h5 prevp c);
     Ret (h6, u32 (c + HHEAD))) = Ret (h', c + HHEAD) /\
    hrepr h' (cs ++ [(n, false)]) /\
    (forall x, user_byte cs x -> pg_mem (pager h') x = pg_mem (pager h) x).
Proof.
  intros Hr Hn He Hav. cbv zeta. set (prevp := last_addr 0 HEAP_START cs).
  set (c := HEAP_START + tot cs) in *.
  pose proof (repr_bounds h cs Hr) as (Hb1 & Hb2 & Hb3). pose proof Hr as [R1 R2 R3 R4 R5 R6 R7].
  pose proof (tot_nonneg _ R6) as Htot. fold c in Hb1, Hb3.
  set (h0 := if decide (prevp = 0) then _ else h).
  assert (H0 : pager h0 = pager h /\ heap_top h0 = heap_top h /\ heap_start h0 = HEAP_START).
  { unfold h0. case_decide as Hp; [done|]. split; [done|]. split; [done|]. rewrite R1.
    destruct cs; [by destruct Hp|done]. }
  destruct H0 as (P0 & T0 & S0).
  destruct (alloc_chunk_ok (page_steps (heap_top h0) (c + n)) h0 c n) as (h1 & -> & M1 & S1 & T1 & B1).
  { destruct R4 as [R4i R4]. split; [by rewrite P0|]. intros x Hx. rewrite P0, T0. by apply R4. }
  { by rewrite T0. }
  { rewrite T0. unfold page_up in *. unfold HEAP_START in *. modlia. }
  { unfold c. lia. }
  { lia. }
  { done. }
  { unfold page_steps, HPGSIZE. modlia. }
  { rewrite T0, P0. exact Hav. }
  cbn [mbind outcome_bind]. rewrite T0, P0 in B1.
  assert (Ht1 : c + n <= heap_top h1 <= HEAP_END).
  { rewrite T1. unfold page_up, HEAP_END, c, HEAP_START in *. modlia. }
  assert (Hp0 : 0 <= prevp < 4294967296).
  { destruct (decide (cs = [])) as [->|Hne]; [done|].
    destruct (seg_set_next _ cs 0 0 Hne R6 R5 ltac:(lia)) as (_ & X1 & X2 & _). unfold prevp. inh. }
  destruct (new_header h1 c prevp n M1) as (h2 & h3 & h4 & h5 & m5 & -> & E3 & E4 & E5 & A5 & Hhdr & Hm5); [inh|inh|inh|done|inh|].
  cbn [mbind outcome_bind]. rewrite E3. cbn [mbind outcome_bind]. rewrite E4. cbn [mbind outcome_bind]. rewrite E5. cbn [mbind outcome_bind].
  rewrite (u32_small (c + HHEAD)) by inh.
  assert (Hold : forall x, HEAP_START <= x < c -> m5 x = pg_mem (pager h) x).
  { intros x Hx. rewrite Hm5 by lia. apply B1. lia. }
  assert (Hseg : seg m5 0 HEAP_START cs 0).
  { apply (seg_frame (pg_mem (pager h))); [done| |exact R5]. intros x Hx. by apply Hold. }
  assert (Hfin : exists h6 m6, (if decide (prevp = 0) then Ret h5 else put_next h5 prevp c) = Ret h6 /\
            after h1 h6 m6 /\ seg m6 0 HEAP_START cs c /\ hdr m6 c prevp 0 n false /\
            (forall x, user_byte cs x -> m6 x = m5 x)).
  { case_decide as Hp.
    - exists h5, m5. apply last_addr_zero in Hp; [|done]. subst cs. done.
    - assert (Hne : cs <> []) by (intros ->; done).
      destruct (set_last_next h1 h5 m5 cs 0 c A5) as (h6 & m6 & E6 & A6 & X0 & X1 & X2); [inh|fold c; lia|done|done|done|inh|].
      exists h6, m6. split; [exact E6|]. split; [done|]. split; [done|]. split; [|exact X1].
      apply (hdr_frame m5); [|done]. intros x Hx. apply X2. fold c. lia. }
  destruct Hfin as (h6 & m6 & -> & A6 & Hs6 & Hh6 & Hu6). cbn [mbind outcome_bind].
  exists h6. split; [done|]. split.
  - apply (append_repr h h1 h6 m6 cs n Hr A6); fold c; try done; [by rewrite S1, S0|lia].
  - intros x Hx. pose proof (user_in_heap h cs x Hr Hx) as Hxx. fold c in Hxx.
    rewrite (af_mem _ _ _ A6) by lia. rewrite Hu6 by done. by apply Hold.
Qed.

(** ** Freeing *)

Lemma off_headers_trans cs m1 m2 m3 :
  off_headers cs m1 m2 -> off_headers cs m2 m3 -> off_headers cs m1 m3.
Proof. clear. intros H1 H2 x Hx. by rewrite H2, H1. Qed.

Lemma tidy_pre_true l : tidy_pre l true -> tidy l.
Proof.
  clear. induction l as [|c l IH]; [done|]. cbn [tidy_pre tidy]. destruct l as [|d l].
  - intros [H|H]; [done|discriminate].
  - intros [H1 H2]. auto.
Qed.

(** Bounds of a chunk in the middle of a heap. *)
Lemma mid_bounds (h : heap P) l1 len fr l2 :
  HEAP_START + tot (l1 ++ (len, fr) :: l2) <= heap_top h ->
  Forall (fun c => HHEAD <= c.1) (l1 ++ (len, fr) :: l2) ->
  0 <= tot l1 /\ 12 <= len /\ 0 <= tot l2 /\
  HEAP_START + tot l1 + len + tot l2 <= heap_top h.
Proof.
  clear pg. intros Ht Hl. apply Forall_app in Hl as [H1 H2]. apply Forall_cons in H2 as [H2 H3].
  pose proof (tot_nonneg _ H1). pose proof (tot_nonneg _ H3). rewrite tot_app in Ht.
  cbn [tot fst] in *. unfold HHEAD in H2. lia.
Qed.

Lemma mark_free_ok h0 h m l1 len fr l2 :
  after h0 h m -> heap_top h0 <= HEAP_END -> HEAP_START + tot (l1 ++ (len, fr) :: l2) <= heap_top h0 ->
  Forall (fun c => HHEAD <= c.1) (l1 ++ (len, fr) :: l2) ->
  seg m 0 HEAP_START (l1 ++ (len, fr) :: l2) 0 ->
  exists h' m', put_free h (HEAP_START + tot l1) 1 = Ret h' /\ after h0 h' m' /\
    seg m' 0 HEAP_START (l1 ++ (len, true) :: l2) 0 /\
    off_headers (l1 ++ (len, fr) :: l2) m m'.
Proof.
  intros A He Ht Hl Hs. pose proof (mid_bounds h0 l1 len fr l2 Ht Hl) as (B1 & B2 & B3 & B4).
  apply seg_app in Hs as [S1 [(C1 & C2 & C3) S2]]. set (c := HEAP_START + tot l1) in *.
  destruct (put_free_after h0 h m c 1 A ltac:(inh)) as (h' & -> & A').
  revert A'. rewrite C3. set (m' := store32 m (c + 8) _). intros A'.
  assert (Hfr : forall x, ~ (c <= x < c + 12) -> m' x = m x).
  { intros x Hx. apply store32_outside. lia. }
  apply Forall_app in Hl as [F1 F2]. apply Forall_cons in F2 as [_ F2].
  exists h', m'. split; [done|]. split; [done|]. split.
  - apply seg_app. fold c. split; [|split].
    + apply (seg_frame m); [done| |exact S1]. intros x Hx. apply Hfr. unfold c. lia.
    + unfold hdr, m'. ld. rewrite u32_small by (unfold HEAP_START, HEAP_END in *; destruct fr; modlia).
      split; [done|]. split; [done|]. destruct fr; modlia.
    + apply (seg_frame m); [done| |exact S2]. intros x Hx. apply Hfr. lia.
  - intros x Hx. apply Hfr. apply Hx. by exists l1, (len, fr), l2.
Qed.

(** The chunk and what follows it after [glue_right]. *)
Definition right_merge (len : Z) (l2 : list chunk) : Z * list chunk :=
  match l2 with (k, true) :: r => (len + k, r) | _ => (len, l2) end.

Lemma glue_right_ok h0 h m l1 len l2 :
  after h0 h m -> heap_top h0 <= HEAP_END -> HEAP_START + tot (l1 ++ (len, true) :: l2) <= heap_top h0 ->
  Forall (fun c => HHEAD <= c.1) (l1 ++ (len, true) :: l2) ->
  seg m 0 HEAP_START (l1 ++ (len, true) :: l2) 0 -> tidy l2 ->
  exists h' m', glue_right h (HEAP_START + tot l1) = Ret h' /\ after h0 h' m' /\
    seg m' 0 HEAP_START (l1 ++ ((right_merge len l2).1, true) :: (right_merge len l2).2) 0 /\
    off_headers (l1 ++ (len, true) :: l2) m m'.
Proof.
  intros A He Ht Hl Hs Hti. pose proof (mid_bounds h0 l1 len true l2 Ht Hl) as (B1 & B2 & B3 & B4).
  pose proof Hs as Hs0. apply seg_app in Hs as [S1 [Hc S2]].
  apply Forall_app in Hl as [F1 F2]. apply Forall_cons in F2 as [_ F2].
  destruct l2 as [|[k [|]] r]; cbn [right_merge fst snd].
  - exists h, m. split; [|done]. eapply (glue_right_skip h0 h m); [done|inh|exact Hc|by left].
  - destruct r as [|[k2 f2] r]; [done|]. cbn [seg] in S2. destruct S2 as (Hn & Hn2 & S3).
    apply Forall_cons in F2 as [Fk F2]. apply Forall_cons in F2 as [Fk2 F2]. cbn [fst tot] in *.
    pose proof (tot_nonneg _ F2) as Htr. unfold HHEAD in Fk, Fk2.
    set (c := HEAP_START + tot l1) in *.
    destruct (glue_right_merge h0 h m c _ len true k _ k2 f2 A ltac:(inh) ltac:(lia) He ltac:(lia) ltac:(lia)
      Hc Hn Hn2) as (h' & m' & E & A' & G1 & G2 & G3).
    exists h', m'. split; [done|]. split; [done|]. split.
    + apply seg_app. fold c. split; [|cbn [seg]; split; [|split]].
      * apply (seg_frame m); [done| |exact S1]. intros x Hx. apply G3; unfold c in *; lia.
      * replace (c + (len + k)) with (c + len + k) by lia. exact G1.
      * replace (c + (len + k)) with (c + len + k) by lia. exact G2.
      * replace (c + (len + k)) with (c + len + k) by lia.
        apply (seg_frame m); [done| |exact S3]. intros x Hx. apply G3; lia.
    + intros x Hx. apply G3.
      * apply Hx. by exists l1, (len, true), ((k, true) :: (k2, f2) :: r).
      * apply Hx. by exists l1, (len, true), ((k, true) :: (k2, f2) :: r).
      * apply Hx. exists (l1 ++ [(len, true); (k, true)]), (k2, f2), r.
        rewrite <- app_assoc, tot_app. cbn [tot fst app]. split; [done|unfold c; lia].
  - exists h, m. split; [|done]. cbn [seg] in S2. destruct S2 as [Hn _]. cbn [tot fst] in *.
    apply Forall_cons in F2 as [Fk F2]. cbn [fst] in Fk. unfold HHEAD in Fk. pose proof (tot_nonneg _ F2).
    eapply (glue_right_skip h0 h m); [done|inh|exact Hc|]. right.
    eexists _, _, k. split; [inh|]. split; [unfold HEAP_START; lia|exact Hn].
Qed.

(** What precedes the chunk, and its length, after [glue_left]. *)
Definition left_merge (l1 : list chunk) (len : Z) : list chunk * Z :=
  match rev l1 with (k, true) :: l => (rev l, k + len) | _ => (l1, len) end.

Lemma glue_left_ok h0 h m l1 len l2 :
  after h0 h m -> heap_top h0 <= HEAP_END -> HEAP_START + tot (l1 ++ (len, true) :: l2) <= heap_top h0 ->
  Forall (fun c => HHEAD <= c.1) (l1 ++ (len, true) :: l2) ->
  seg m 0 HEAP_START (l1 ++ (len, true) :: l2) 0 ->
  exists h' m', glue_left h (HEAP_START + tot l1) = Ret (h', HEAP_START + tot (left_merge l1 len).1) /\
    after h0 h' m' /\
    seg m' 0 HEAP_START ((left_merge l1 len).1 ++ ((left_merge l1 len).2, true) :: l2) 0 /\
    off_headers (l1 ++ (len, true) :: l2) m m'.
Proof.
  intros A He Ht Hl Hs. pose proof (mid_bounds h0 l1 len true l2 Ht Hl) as (B1 & B2 & B3 & B4).
  pose proof Hs as Hs0. apply seg_app in Hs as [S1 [Hc S2]].
  apply Forall_app in Hl as [F1 F2]. apply Forall_cons in F2 as [_ F2].
  unfold left_merge. destruct l1 as [|[k f] l _] using rev_ind.
  - exists h, m. split; [|done]. cbn [rev fst].
    eapply (glue_left_skip h0 h m); [done|inh|exact Hc|by left].
  - rewrite rev_unit. apply Forall_app in F1 as [F1 Fk]. apply Forall_cons in Fk as [Fk _].
    cbn [fst] in Fk. unfold HHEAD in Fk. pose proof (tot_nonneg _ F1) as Hl0.
    rewrite last_addr_app in Hc. apply seg_app in S1 as [S1 [Hp _]].
    rewrite tot_app in *. cbn [tot fst] in *. rewrite Z.add_0_r in *.
    set (b := HEAP_START + tot l) in *.
    replace (HEAP_START + (tot l + k)) with (b + k) in * by (unfold b; lia). destruct f.
    + cbn [fst snd]. rewrite rev_involutive.
      destruct (glue_left_merge h0 h m b (last_addr 0 HEAP_START l) k len true (match l2 with [] => 0 | _ => b + k + len end) A)
        as (h' & m' & E & A' & G1 & G2 & G3); [unfold b; lia|lia|done|lia|lia|exact Hp|exact Hc| |].
      { destruct l2 as [|[k2 f2] r]; [by left|]. right. split; [done|]. cbn [tot fst] in *.
        apply Forall_cons in F2 as [F2 F3]. pose proof (tot_nonneg _ F3). cbn [fst] in F2.
        unfold HHEAD in F2. lia. }
      exists h', m'. split; [done|]. split; [done|]. split.
      * apply seg_app. fold b. split; [|cbn [seg]; split].
        -- apply (seg_frame m); [done| |exact S1]. intros x Hx. apply G3; [unfold b in *; lia..|].
           case_decide; unfold b in *; lia.
        -- destruct l2; [exact G1|]. replace (b + (k + len)) with (b + k + len) by lia. exact G1.
        -- replace (b + (k + len)) with (b + k + len) by lia. destruct l2 as [|[k2 f2] r]; [done|].
           cbn [seg] in S2 |- *. destruct S2 as [Hn S3]. apply Forall_cons in F2 as [Fk2 F2].
           cbn [fst] in Fk2. unfold HHEAD in Fk2. pose proof (tot_nonneg _ F2).
           split; [apply G2; [unfold b, HEAP_START in *; lia|exact Hn]|].
           apply (seg_frame m); [done| |exact S3]. intros x Hx.
           apply G3; [lia..|]. case_decide; lia.
      * intros x Hx. assert (Hbx : ~ (b <= x < b + 12)).
        { apply Hx. exists l, (k, true), ((len, true) :: l2). by rewrite <- app_assoc. }
        destruct l2 as [|[k2 f2] r].
        -- by apply G3.
        -- apply G3; [done|done|]. rewrite decide_False by (unfold b, HEAP_START in *; lia).
           apply Hx. exists (l ++ [(k, true); (len, true)]), (k2, f2), r.
           rewrite <- !app_assoc, tot_app. cbn [tot fst app]. split; [done|unfold b; lia].
    + exists h, m. cbn [fst snd]. rewrite tot_app. cbn [tot fst].
      replace (HEAP_START + (tot l + (k + 0))) with (b + k) by (unfold b; lia). split; [|done].
      eapply (glue_left_skip h0 h m); [done|inh|exact Hc|]. right. eexists _, _, k.
      split; [unfold b; inh|exact Hp].
Qed.

Lemma merge_len l1 len l2 :
  Forall (fun c => HHEAD <= c.1) (l1 ++ (len, true) :: l2) ->
  let '(len1, r) := right_merge len l2 in let '(l, len2) := left_merge l1 len1 in
  Forall (fun c => HHEAD <= c.1) (l1 ++ (len1, true) :: r) /\
  Forall (fun c => HHEAD <= c.1) (l ++ (len2, true) :: r) /\
  tot (l1 ++ (len1, true) :: r) = tot (l1 ++ (len, true) :: l2) /\
  tot (l ++ (len2, true) :: r) = tot (l1 ++ (len, true) :: l2).
Proof.
  clear. intros Hl. apply Forall_app in Hl as [H1 H2]. apply Forall_cons in H2 as [H2 H3].
  destruct (right_merge len l2) as [len1 r] eqn:E1. destruct (left_merge l1 len1) as [l len2] eqn:E2.
  assert (R : HHEAD <= len1 /\ Forall (fun c => HHEAD <= c.1) r /\ len1 + tot r = len + tot l2).
  { unfold right_merge in E1. destruct l2 as [|[k [|]] l2]; injection E1 as <- <-; cbn [fst] in *; try done.
    apply Forall_cons in H3 as [H3 H4]. cbn [fst tot] in *. unfold HHEAD in *. split; [lia|]. split; [done|lia]. }
  destruct R as (R1 & R2 & R3).
  assert (L : HHEAD <= len2 /\ Forall (fun c => HHEAD <= c.1) l /\ tot l + len2 = tot l1 + len1).
  { unfold left_merge in E2. destruct l1 as [|[k f] l1 _] using rev_ind.
    - cbn [rev] in E2. injection E2 as <- <-. done.
    - rewrite rev_unit in E2. apply Forall_app in H1 as [H1 Hk]. apply Forall_cons in Hk as [Hk _].
      cbn [fst] in Hk. rewrite tot_app. cbn [tot fst]. destruct f; injection E2 as <- <-.
      + rewrite rev_involutive. unfold HHEAD in *. split; [lia|]. split; [done|lia].
      + rewrite tot_app. cbn [tot fst]. split; [done|]. split; [|lia]. apply Forall_app. by repeat constructor. }
  destruct L as (L1 & L2 & L3).
  rewrite !tot_app. cbn [tot fst]. split; [apply Forall_app; by repeat constructor|].
  split; [apply Forall_app; by repeat constructor|]. lia.
Qed.

Lemma merge_tidy l1 len l2 :
  tidy (l1 ++ (len, false) :: l2) ->
  let '(len1, r) := right_merge len l2 in let '(l, len2) := left_merge l1 len1 in
  tidy l2 /\ tidy_pre l true /\ (r <> [] -> tidy ((len2, true) :: r)).
Proof.
  clear. intros H. apply tidy_app in H as [H1 H2]. cbn [snd] in H1.
  assert (Hl2 : tidy l2) by (destruct l2; [done|by destruct H2]).
  destruct (right_merge len l2) as [len1 r] eqn:E1. destruct (left_merge l1 len1) as [l len2] eqn:E2.
  split; [done|]. split.
  - unfold left_merge in E2. destruct l1 as [|[k f] l1 _] using rev_ind.
    + injection E2 as <- <-. done.
    + rewrite rev_unit in E2.
      assert (Hpre : tidy_pre l1 f /\ tidy_pre (l1 ++ [(k, false)]) true).
      { clear -H1. induction l1 as [|c l1 IH]; [by repeat split; left|]. cbn [app tidy_pre] in *.
        destruct l1 as [|d l1]; cbn [app tidy_pre snd] in *; [tauto|]. destruct H1 as [H1 H2].
        destruct (IH H2) as [I1 I2]. done. }
      destruct f; injection E2 as <- <-; [rewrite rev_involutive|]; apply Hpre.
  - intros Hr. unfold right_merge in E1. destruct l2 as [|[k [|]] l2]; injection E1 as <- <-.
    + done.
    + destruct l2 as [|[k2 f2] l2]; [done|]. destruct Hl2 as [[Hl2|Hl2] Hl3]; [done|].
      cbn [snd] in Hl2. split; [by right|done].
    + split; [by right|done].
Qed.

(** The other user bytes stay user bytes when a chunk is freed and merged. *)
Lemma merge_user l1 len l2 x :
  12 <= len -> user_byte (l1 ++ (len, false) :: l2) x -> ~ (HEAP_START + tot l1 <= x < HEAP_START + tot l1 + len) ->
  let '(len1, r) := right_merge len l2 in let '(l, len2) := left_merge l1 len1 in
  user_byte (l1 ++ (len, true) :: l2) x /\ user_byte (l1 ++ (len1, true) :: r) x /\ user_byte (l ++ (len2, true) :: r) x.
Proof.
  clear. intros Hlen Hx Hout. destruct (right_merge len l2) as [len1 r] eqn:Er. destruct (left_merge l1 len1) as [l len2] eqn:El.
  unfold user_byte in Hx. apply user_at_app in Hx. cbn [user_at] in Hx.
  assert (X1 : user_byte (l1 ++ (len, true) :: l2) x).
  { apply user_at_app. cbn [user_at]. unfold HHEAD in *. destruct Hx as [Hx|[Hx|Hx]]; [tauto|lia|tauto]. }
  assert (X2 : user_byte (l1 ++ (len1, true) :: r) x).
  { apply user_at_app. cbn [user_at]. unfold HHEAD in *. destruct Hx as [Hx|[Hx|Hx]]; [tauto|lia|].
    unfold right_merge in Er. destruct l2 as [|[k [|]] l2]; injection Er as <- <-; [tauto| |tauto].
    cbn [user_at] in Hx. rewrite Z.add_assoc. destruct Hx as [[Hx _]|Hx]; [discriminate|tauto]. }
  split; [exact X1|]. split; [exact X2|].
  unfold left_merge in El. destruct l1 as [|[k f] l1 _] using rev_ind; [by injection El as <- <-|].
  rewrite rev_unit in El. destruct f; injection El as <- <-; [|done]. rewrite rev_involutive.
  unfold user_byte in X2. rewrite <- app_assoc in X2. apply user_at_app in X2. apply user_at_app.
  cbn [app user_at] in X2 |- *. rewrite Z.add_assoc.
  destruct X2 as [X2|[[X2 _]|[[X2 _]|X2]]]; [tauto|discriminate|discriminate|tauto].
Qed.

(** The last chunk is a hole: it is cut off and the pages behind are given back. *)
Lemma free_last_ok h h3 m3 l len2 :
  after h h3 m3 -> heap_start h = HEAP_START -> heap_top h mod 4096 = 0 -> heap_top h <= HEAP_END -> 12 <= len2 ->
  HEAP_START + tot l + len2 <= heap_top h -> Forall (fun c => HHEAD <= c.1) l -> tidy_pre l true ->
  seg m3 0 HEAP_START (l ++ [(len2, true)]) 0 ->
  exists h5, free_chunk h3 (HEAP_START + tot l) = Ret h5 /\ hrepr h5 l /\ forall x, user_byte l x -> pg_mem (pager h5) x = m3 x.
Proof.
  intros A3 Hs Hal He Hlen Ht Fl Hti S3. set (b := HEAP_START + tot l) in *. pose proof (tot_nonneg l Fl) as Htl.
  apply seg_app in S3 as [T1 [(G1 & _) _]]. fold b in T1, G1. unfold free_chunk.
  rewrite (get_prev_after h h3 m3 b A3 ltac:(inh)), G1. cbn [mbind outcome_bind].
  assert (Hfin : exists h4 m4, (if decide (last_addr 0 HEAP_START l = 0) then Ret (mkHeap (pager h3) 0 (heap_top h3))
      else put_next h3 (last_addr 0 HEAP_START l) 0) = Ret h4 /\ mapped_ok h4 /\
      heap_start h4 = match l with [] => 0 | _ => HEAP_START end /\ heap_top h4 = heap_top h /\
      (forall x, HEAP_START <= x < heap_top h -> pg_mem (pager h4) x = m4 x) /\
      seg m4 0 HEAP_START l 0 /\ (forall x, user_byte l x -> m4 x = m3 x)).
  { pose proof A3 as [Q1 Q2 Q3 Q4 Q5]. case_decide as Hz.
    - apply last_addr_zero in Hz as ->; [|done]. eexists _, m3. split; [reflexivity|]. done.
    - assert (Hne : l <> []) by (intros ->; done).
      destruct (set_last_next h h3 m3 l b 0 A3) as (h4 & m4 & E4 & [W1 W2 W3 W4 W5] & X0 & X1 & _); [done|fold b; lia|done|done|done|lia|].
      exists h4, m4. split; [exact E4|]. split; [done|]. split; [|split; [done|split; [exact W5|split; [exact X0|exact X1]]]].
      rewrite W1, Hs. by destruct l. }
  destruct Hfin as (h4 & m4 & -> & M4 & S4 & T4 & B4 & G4 & U4). cbn [mbind outcome_bind].
  assert (Hpb : b <= page_up b) by (unfold page_up; modlia).
  assert (Hpt : page_up b <= heap_top h) by (unfold page_up; modlia).
  destruct (free_pages_ok (page_steps b (heap_top h4)) h4 b M4) as (h5 & -> & M5 & S5 & T5 & B5).
  { by rewrite T4. } { unfold b. lia. } { by rewrite T4. } { rewrite T4. unfold page_steps, HPGSIZE. modlia. }
  exists h5. split; [done|]. split.
  - split; fold b; try done; [by rewrite S5, S4|lia| |by apply tidy_pre_true].
    apply (seg_frame m4); [done| |exact G4]. intros x Hx. fold b in Hx. rewrite B5 by lia. apply B4. lia.
  - intros x Hx. pose proof (user_at_range l x HEAP_START Fl Hx) as Hr. fold b in Hr. rewrite B5, B4, U4 by (done || lia). done.
Qed.

Lemma kfree_ok h l1 len l2 :
  hrepr h (l1 ++ (len, false) :: l2) ->
  exists h', kfree h (HEAP_START + tot l1 + HHEAD) = Ret h' /\ hrepr h' (spec_free l1 len l2) /\
    (forall x, user_byte (l1 ++ (len, false) :: l2) x ->
       ~ (HEAP_START + tot l1 <= x < HEAP_START + tot l1 + len) ->
       pg_mem (pager h') x = pg_mem (pager h) x).
Proof.
  intros Hr. set (cs := l1 ++ (len, false) :: l2) in *.
  pose proof (repr_bounds h cs Hr) as (Hb1 & Hb2 & Hb3). pose proof Hr as [R1 R2 R3 R4 R5 R6 R7].
  destruct (mid_bounds h l1 len false l2 ltac:(apply Hb1) R6) as (B1 & B2 & B3 & B4).
  unfold kfree. rewrite (u32_small (HEAP_START + tot l1 + HHEAD - HHEAD)) by inh.
  replace (HEAP_START + tot l1 + HHEAD - HHEAD) with (HEAP_START + tot l1) by lia.
  destruct (mark_free_ok h h _ l1 len false l2 (after_refl h R4) ltac:(apply Hb1) ltac:(apply Hb1) R6 R5)
    as (h1 & m1 & -> & A1 & S1 & O1). cbn [mbind outcome_bind]. fold cs in O1.
  assert (Hl1 : Forall (fun c => HHEAD <= c.1) (l1 ++ (len, true) :: l2)).
  { apply Forall_app in R6 as [F1 F2]. apply Forall_cons in F2 as [F2 F3]. apply Forall_app. by repeat constructor. }
  assert (Ht1 : tot (l1 ++ (len, true) :: l2) = tot cs) by (unfold cs; rewrite !tot_app; done).
  pose proof (merge_len l1 len l2 Hl1) as ML. pose proof (merge_tidy l1 len l2 R7) as MT.
  unfold glue_chunk. unfold spec_free. fold (right_merge len l2).
  destruct (right_merge len l2) as [len1 r] eqn:Er. fold (left_merge l1 len1).
  destruct (left_merge l1 len1) as [l len2] eqn:El.
  destruct ML as (ML1 & ML2 & ML3 & ML4). destruct MT as (MT1 & MT2 & MT3).
  destruct (glue_right_ok h h1 m1 l1 len l2 A1 ltac:(apply Hb1) ltac:(lia) Hl1 S1 MT1)
    as (h2 & m2 & -> & A2 & S2 & O2). rewrite Er in S2. cbn [fst snd mbind outcome_bind] in *.
  destruct (glue_left_ok h h2 m2 l1 len1 r A2 ltac:(apply Hb1) ltac:(lia) ML1 S2)
    as (h3 & m3 & -> & A3 & S3 & O3). rewrite El in *. cbn [fst snd mbind outcome_bind] in *.
  set (b := HEAP_START + tot l) in *.
  assert (Ht3 : HEAP_START + tot (l ++ (len2, true) :: r) <= heap_top h) by lia.
  destruct (mid_bounds h l len2 true r Ht3 ML2) as (D1 & D2 & D3 & D4).
  assert (Huser : forall x, user_byte cs x -> ~ (HEAP_START + tot l1 <= x < HEAP_START + tot l1 + len) ->
            m3 x = pg_mem (pager h) x /\ user_byte (l ++ (len2, true) :: r) x).
  { intros x Hx Hout. pose proof (merge_user l1 len l2 x ltac:(lia) Hx Hout) as HM. rewrite Er, El in HM.
    destruct HM as (X1 & X2 & X3). split; [|exact X3].
    by rewrite (off_headers_user _ _ _ x ML1 O3 X2), (off_headers_user _ _ _ x Hl1 O2 X1), (off_headers_user _ _ _ x R6 O1 Hx). }
  pose proof S3 as S3'. apply seg_app in S3' as [T1 [Hh3 T3]]. fold b in T1, Hh3, T3.
  rewrite (get_next_after h h3 m3 b A3 ltac:(inh)). pose proof Hh3 as (G1 & -> & _).
  cbn [mbind outcome_bind]. destruct r as [|[k2 f2] r].
  - rewrite decide_True by done. apply Forall_app in ML2 as [Fl _].
    destruct (free_last_ok h h3 m3 l len2 A3) as (h5 & E5 & Hr5 & U5); try done; try lia; try apply Hb1.
    { rewrite R1. unfold cs. by destruct l1. }
    exists h5. split; [exact E5|]. split; [exact Hr5|].
    intros x Hx Hout. destruct (Huser x Hx Hout) as [X1 X2]. unfold user_byte in X2. apply user_at_app in X2. cbn [user_at] in X2.
    destruct X2 as [X2|[[X2 _]|X2]]; [|discriminate|done]. rewrite U5 by exact X2. exact X1.
  - rewrite decide_False by (unfold b, HEAP_START in *; lia). exists h3. split; [done|]. split.
    + apply (repr_after h h3 m3 cs); try done.
      * lia.
      * destruct l; unfold cs; by destruct l1.
      * apply tidy_app. split; [by apply MT2|]. by apply MT3.
    + intros x Hx Hout. pose proof (user_in_heap h cs x Hr Hx).
      rewrite (af_mem _ _ _ A3) by lia. by apply Huser.
Qed.

Lemma chunks_fit cs :
  Forall (fun c => HHEAD <= c.1) cs -> 12 * Z.of_nat (length cs) <= tot cs.
Proof.
  clear. induction 1 as [|c cs Hc H IH]; [cbn; lia|]. cbn [length tot]. unfold HHEAD in Hc. lia.
Qed.

Lemma spec_alloc_nonneg n cs : Forall (fun c => HHEAD <= c.1) cs -> 0 <= (spec_alloc n cs).2.
Proof.
  clear. induction 1 as [|[len fr] cs Hc H IH]; [done|]. cbn [spec_alloc]. destruct (_ && _); [done|].
  destruct (spec_alloc n cs) as [cs' o]. cbn [fst snd] in *. unfold HHEAD in Hc. lia.
Qed.

Lemma spec_alloc_fits n cs : 0 <= n -> Forall (fun c => HHEAD <= c.1) cs ->
  (spec_alloc n cs).2 + n <= tot (spec_alloc n cs).1.
Proof.
  clear. intros Hn. induction 1 as [|[len fr] cs Hc H IH]; [cbn; lia|]. cbn [spec_alloc].
  pose proof (tot_nonneg cs H). destruct (fr && bool_decide (len >= n)) eqn:E.
  - apply andb_true_iff in E as [_ E]. apply bool_decide_eq_true in E.
    destruct (decide (len - n <= HHEAD)); cbn [fst snd tot]; lia.
  - destruct (spec_alloc n cs) as [cs' o]. cbn [fst snd tot] in *. lia.
Qed.

(** The block [spec_alloc] hands out belongs to the program. *)
Lemma spec_alloc_block n cs x :
  let p := HEAP_START + (spec_alloc n cs).2 + HHEAD in
  p <= x < p + (n - HHEAD) -> user_byte (spec_alloc n cs).1 x.
Proof.
  clear. cbv zeta. unfold user_byte. generalize HEAP_START. induction cs as [|[len fr] cs IH]; intros base Hx; cbn [spec_alloc] in *.
  - cbn [fst snd user_at] in *. left. split; [done|]. lia.
  - destruct (fr && bool_decide (len >= n)) eqn:E.
    + apply andb_true_iff in E as [_ E]. apply bool_decide_eq_true in E.
      destruct (decide (len - n <= HHEAD)); cbn [fst snd user_at] in *; left; (split; [done|lia]).
    + destruct (spec_alloc n cs) as [cs' o]. cbn [fst snd user_at] in *. right. apply IH. lia.
Qed.

(** Programs may write into their blocks. *)
Lemma seg_user m m' cs nxt : forall prev base,
  Forall (fun c => HHEAD <= c.1) cs ->
  (forall x, base <= x < base + tot cs -> ~ user_at base cs x -> m' x = m x) ->
  seg m prev base cs nxt -> seg m' prev base cs nxt.
Proof.
  clear. induction cs as [|[len fr] r IH]; intros prev base Hl H; cbn [seg tot fst user_at] in *; [done|].
  apply Forall_cons in Hl as [Hlen Hl]. pose proof (tot_nonneg r Hl). cbn [fst] in Hlen.
  unfold HHEAD in *. intros [H1 H2]. split.
  - apply (hdr_frame m); [|exact H1]. intros x Hx. apply H; [lia|]. intros [[_ Hu]|Hu]; [lia|].
    apply user_at_range in Hu; [lia|exact Hl].
  - apply IH; [exact Hl| |exact H2]. intros x Hx Hu. apply H; [lia|]. intros [[_ Hu']|Hu']; [lia|done].
Qed.

Lemma hrepr_user h cs p :
  hrepr h cs -> pg_inv p -> (forall x, HEAP_START <= x < HEAP_END -> pg_mapped p x = pg_mapped (pager h) x) ->
  (forall x, HEAP_START <= x < HEAP_START + tot cs -> ~ user_byte cs x -> pg_mem p x = pg_mem (pager h) x) ->
  hrepr (set_pager h p) cs.
Proof.
  intros [R1 R2 R3 [_ R4] R5 R6 R7] Hi Hm Hb. constructor; try assumption.
  - split; [exact Hi|]. intros x Hx. cbn [set_pager pager heap_top]. rewrite Hm by exact Hx. by apply R4.
  - cbn [set_pager pager]. eapply seg_user; [exact R6|exact Hb|exact R5].
Qed.

Lemma spec_alloc_user n cs x :
  Forall (fun c => HHEAD <= c.1) cs -> user_byte cs x ->
  let p := HEAP_START + (spec_alloc n cs).2 + HHEAD in
  12 <= n -> ~ (p <= x < p + (n - HHEAD)).
Proof.
  clear. intros Hl Hx p Hn. unfold p, HHEAD. destruct (find_hole n cs) as [[[l1 len] l2]|] eqn:E.
  - apply find_hole_some in E as (Hcs & Hge & ->). cbn [snd].
    destruct (user_not_header cs l1 (len, true) l2 x Hl Hcs Hx) as [_ U]. specialize (U eq_refl).
    cbn [fst] in U. lia.
  - apply find_hole_none in E as ->. cbn [snd]. pose proof (user_at_range cs x HEAP_START Hl Hx). lia.
Qed.

(** What [kmalloc] adds [kfree] takes away: on a heap in order the chunks are
    the ones of before, and no block in use lies in the chunk in between. *)
Lemma spec_alloc_free n cs : tidy cs -> Forall (fun c => HHEAD <= c.1) cs -> exists l1 len l2,
  spec_alloc n cs = (l1 ++ (len, false) :: l2, tot l1) /\ spec_free l1 len l2 = cs /\
  forall x, user_byte cs x ->
    user_byte (l1 ++ (len, false) :: l2) x /\ ~ (HEAP_START + tot l1 <= x < HEAP_START + tot l1 + len).
Proof.
  clear. intros Ht Hlen.
  assert (Hleft : forall (l1 : list chunk), tidy_pre l1 true -> match rev l1 with (k, true) :: l => False | _ => True end).
  { intros l1. destruct l1 as [|[k f] l1 _] using rev_ind; [done|]. rewrite rev_unit. destruct f; [|done].
    induction l1 as [|c l1 IH]; cbn [app tidy_pre]; [intros [H|H]; discriminate H|].
    destruct l1 as [|d l1]; cbn [app tidy_pre] in *; [intros [_ [H|H]]; discriminate H|]. intros [_ H]. by apply IH. }
  destruct (find_hole n cs) as [[[l1 len] l2]|] eqn:E.
  - apply find_hole_some in E as (-> & Hge & Es). apply tidy_app in Ht as [H1 H2]. cbn [snd] in H1.
    specialize (Hleft l1 H1). destruct l2 as [|[k2 f2] l2]; [discriminate H2|].
    destruct H2 as [[H2|H2] H3]; [discriminate H2|]. cbn [snd] in H2. subst f2.
    assert (Hout : forall x, user_byte (l1 ++ (len, true) :: (k2, false) :: l2) x ->
      ~ (HEAP_START + tot l1 <= x < HEAP_START + tot l1 + len) /\
      (user_at HEAP_START l1 x \/ user_at (HEAP_START + tot l1 + len) ((k2, false) :: l2) x)).
    { intros x Hx. split; [exact (proj2 (user_not_header _ l1 (len, true) _ x Hlen eq_refl Hx) eq_refl)|].
      apply user_at_app in Hx as [Hx|[[Hx _]|Hx]]; [by left|discriminate Hx|by right]. }
    rewrite Es. case_decide as D.
    + exists l1, len, ((k2, false) :: l2). split; [done|]. split; [unfold spec_free; destruct (rev l1) as [|[k [|]] l]; done|].
      intros x Hx. destruct (Hout x Hx) as [Ho Hu]. split; [|exact Ho]. apply user_at_app. cbn [user_at] in *. tauto.
    + exists l1, n, ((len - n, true) :: (k2, false) :: l2). split; [done|]. split.
      * unfold spec_free. replace (n + (len - n)) with len by lia. destruct (rev l1) as [|[k [|]] l]; done.
      * intros x Hx. destruct (Hout x Hx) as [Ho Hu]. split; [|lia]. apply user_at_app. cbn [user_at] in *.
        replace (HEAP_START + tot l1 + n + (len - n)) with (HEAP_START + tot l1 + len) by lia. tauto.
  - rewrite (find_hole_none _ _ E). exists cs, n, []. split; [done|]. split.
    + unfold spec_free. assert (Hr : match rev cs with (k, true) :: l => False | _ => True end).
      { clear -Ht. destruct cs as [|[k f] cs _] using rev_ind; [done|]. rewrite rev_unit. destruct f; [|done].
        apply tidy_app in Ht as [_ Ht]. discriminate Ht. }
      destruct (rev cs) as [|[k [|]] l]; done.
    + intros x Hx. pose proof (user_at_range cs x HEAP_START Hlen Hx). split; [apply user_at_app; by left|lia].
Qed.

(** The memory determines the chunks. *)
Lemma seg_unique m cs : forall cs' prev prev' base, 0 < base -> Forall (fun c => HHEAD <= c.1) cs -> Forall (fun c => HHEAD <= c.1) cs' ->
  (cs = [] <-> cs' = []) -> seg m prev base cs 0 -> seg m prev' base cs' 0 -> cs = cs'.
Proof.
  clear. induction cs as [|[len fr] r IH]; intros [|[len' fr'] r'] prev prev' base Hb F1 F2 Hn S1 S2;
    [done|by destruct (proj1 Hn eq_refl)|by pose proof (proj2 Hn eq_refl)|].
  cbn [seg] in S1, S2. destruct S1 as [(_ & N1 & W1) S1], S2 as [(_ & N2 & W2) S2].
  apply Forall_cons in F1 as [L1 F1], F2 as [L2 F2]. cbn [fst] in *. unfold HHEAD in *.
  assert (len = len' /\ fr = fr') as [<- <-] by (rewrite W1 in W2; destruct fr, fr'; split; (lia || done)).
  f_equal. apply (IH r' base base (base + len)); [lia|exact F1|exact F2| |exact S1|exact S2].
  rewrite N1 in N2. destruct r, r'; split; intros; try done; cbn in N2; lia.
Qed.

Lemma hrepr_unique h cs cs' : hrepr h cs -> hrepr h cs' -> cs = cs'.
Proof.
  intros [A1 _ _ _ A5 A6 _] [B1 _ _ _ B5 B6 _].
  apply (seg_unique (pg_mem (pager h)) cs cs' 0 0 HEAP_START); [done|exact A6|exact B6| |exact A5|exact B5].
  rewrite A1 in B1. destruct cs, cs'; split; intros; done.
Qed.

Lemma kmalloc_ok h cs n0 :
  hrepr h cs -> 0 <= n0 -> HEAP_START + tot cs + n0 + HHEAD <= HEAP_END ->
  page_up (HEAP_START + tot cs + n0 + HHEAD) - heap_top h <= 4096 * Z.of_nat (pg_avail (pager h)) ->
  exists h', kmalloc h n0 = Ret (h', HEAP_START + (spec_alloc (n0 + HHEAD) cs).2 + HHEAD) /\
    hrepr h' (spec_alloc (n0 + HHEAD) cs).1 /\
    (forall x, user_byte cs x -> pg_mem (pager h') x = pg_mem (pager h) x).
Proof.
  intros Hr Hn He Hav. pose proof (repr_bounds h cs Hr) as (Hb1 & _ & _).
  pose proof Hr as [R1 R2 R3 R4 R5 R6 R7]. pose proof (tot_nonneg _ R6) as Ht.
  unfold kmalloc. rewrite (u32_small (n0 + HHEAD)) by inh. set (n := n0 + HHEAD) in *.
  pose proof (chunks_fit cs R6) as Hfit.
  pose proof (kmalloc_scan_ok h h _ n cs (scan_fuel h) HEAP_START 0 0 (after_refl h R4) ltac:(lia)
    ltac:(lia) ltac:(lia) R6 R5) as Hscan. rewrite R1, Hscan; cycle 1.
  { clear -Hb1 Hfit. unfold scan_fuel, HHEAD, chunk in *. unfold HEAP_START in *. modlia. }
  cbn [mbind outcome_bind]. destruct (find_hole n cs) as [[[l1 len] l2]|] eqn:E.
  - rewrite decide_True.
    + destruct (kmalloc_found h cs n l1 len l2 Hr E ltac:(unfold n, HHEAD; lia)) as (h' & E' & Hr' & _ & Hu).
      exists h'. apply find_hole_some in E as (_ & _ & E). rewrite E in *. cbn [fst snd]. done.
    + apply find_hole_some in E as (Hcs & _ & _). rewrite Hcs in R6. apply Forall_app in R6 as [F1 _].
      pose proof (tot_nonneg _ F1). unfold HEAP_START. lia.
  - rewrite decide_False by lia.
    destruct (kmalloc_new h cs n Hr ltac:(unfold n, HHEAD; lia)) as (h' & E' & Hr' & Hu);
      [unfold n; lia|unfold n; by rewrite Z.add_assoc|].
    exists h'. rewrite (find_hole_none n cs E). cbn [fst snd]. split; [|done].
    rewrite <- E'. clear E'.
    set (prevp := last_addr 0 HEAP_START cs) in *. case_decide as Hp.
    + assert (Hnil : cs = []) by (by apply last_addr_zero). rewrite Hnil. cbn [mbind outcome_bind tot].
      by rewrite Z.add_0_r.
    + destruct cs as [|[k f] l _] using rev_ind; [done|]. unfold prevp in *. rewrite last_addr_app in *.
      apply seg_app in R5 as [_ [Hh _]].
      apply Forall_app in R6 as [F1 Fk]. apply Forall_cons in Fk as [Fk _]. pose proof (tot_nonneg _ F1).
      rewrite tot_app in *. cbn [tot fst] in *.
      destruct (get_len_after h h _ (HEAP_START + tot l) _ _ _ _ (after_refl h R4) ltac:(inh) Hh) as [-> _].
      cbn [mbind outcome_bind]. rewrite (u32_small (HEAP_START + tot l + k)) by inh.
      replace (HEAP_START + tot l + k) with (HEAP_START + (tot l + (k + 0))) by lia. done.
Qed.

End Heap.

(** A flat memory with a bound on the pages: the simplest pager. *)
Record flat : Type := mkFlat { fl_mem : memory; fl_map : Z -> bool; fl_avail : nat }.

Definition flat_map (p : flat) (va : Z) : outcome flat :=
  match fl_avail p with
  | O => Stop (Panic "no memory")
  | S k => Ret (mkFlat (fl_mem p) (fun x => fl_map p x || bool_decide (va <= x < va + 4096)) k)
  end.

Definition flat_unmap (p : flat) (va : Z) : outcome flat :=
  Ret (mkFlat (fl_mem p) (fun x => fl_map p x && negb (bool_decide (va <= x < va + 4096)))
         (S (fl_avail p))).

#[export] Program Instance flat_pager : Pager flat := {
  pg_mem := fl_mem;
  pg_mapped := fl_map;
  pg_avail := fl_avail;
  pg_inv _ := True;
  pg_write p a v := mkFlat (store32 (fl_mem p) a v) (fl_map p) (fl_avail p);
  pg_map := flat_map;
  pg_unmap := flat_unmap
}.
Next Obligation. done. Qed.
Next Obligation.
  intros p va _ _ _ _ Hav. unfold flat_map. destruct (fl_avail p) as [|k]; [lia|].
  eexists. split; [reflexivity|]. by repeat split.
Qed.
Next Obligation. intros p va _ _ _ _. eexists. split; [reflexivity|]. done. Qed.

Definition flat_heap : heap flat := mkHeap (mkFlat (fun _ => 170) (fun _ => false) 8) 0 HEAP_START.

Lemma flat_heap_repr : hrepr flat_heap [].
Proof.
  split; try done. split; [done|].
  intros x Hx. cbn. symmetry. apply bool_decide_eq_false_2. cbn. lia.
Qed.

(** C11. [kmalloc] implements first fit on the list of chunks: on a heap in order
    with room left it returns, without a page fault, the address the
    specification gives, the heap is again in order (chunks contiguous, links
    consistent, no two holes side by side, no hole at the top, exactly the
    needed pages mapped), the block returned overlaps no block in use and the
    contents of every block in use are unchanged. *)
Theorem kmalloc_refines {P : Type} `{pg : Pager P} (h : heap P) (cs : list chunk) (n : Z)
    (Hr : hrepr h cs) (Hn : 0 <= n) (He : HEAP_START + tot cs + n + HHEAD <= HEAP_END)
    (Hav : page_up (HEAP_START + tot cs + n + HHEAD) - heap_top h
             <= 4096 * Z.of_nat (pg_avail (pager h))) :
  let '(cs', o) := spec_alloc (n + HHEAD) cs in
  let p := HEAP_START + o + HHEAD in
  exists h', kmalloc h n = Ret (h', p) /\ hrepr h' cs' /\
    (forall x, user_byte cs x ->
       ~ (p <= x < p + n) /\ pg_mem (pager h') x = pg_mem (pager h) x).
Proof.
  destruct (spec_alloc (n + HHEAD) cs) as [cs' o] eqn:Es. cbv zeta.
  destruct (kmalloc_ok h cs n Hr Hn He Hav) as (h' & E & Hr' & Hu). rewrite Es in E, Hr'.
  exists h'. split; [exact E|]. split; [exact Hr'|]. intros x Hx. split; [|by apply Hu].
  pose proof (spec_alloc_user (n + HHEAD) cs x (hr_len _ _ Hr) Hx) as Hd. rewrite Es in Hd.
  cbn [snd] in Hd. specialize (Hd ltac:(unfold HHEAD; lia)).
  replace (n + HHEAD - HHEAD) with n in Hd by lia. exact Hd.
Qed.

Lemma kmalloc_refines_witness :
  exists h', kmalloc flat_heap 20 = Ret (h', HEAP_START + 0 + HHEAD) /\ hrepr h' [(32, false)].
Proof.
  destruct (kmalloc_refines flat_heap [] 20 flat_heap_repr) as (h' & E & Hr & _);
    [lia | vm_compute; congruence | vm_compute; congruence |].
  exists h'. exact (conj E Hr).
Defined.

(** C12. [kfree] of a block in use turns its chunk into a hole, merges it with
    the holes next to it and gives the pages above the last block back: the
    heap is in order with the specified chunks, no access faults, and the other
    blocks in use keep their contents. *)
Theorem kfree_refines {P : Type} `{pg : Pager P} (h : heap P) (l1 : list chunk) (len : Z)
    (l2 : list chunk) (Hr : hrepr h (l1 ++ (len, false) :: l2)) :
  exists h', kfree h (HEAP_START + tot l1 + HHEAD) = Ret h' /\ hrepr h' (spec_free l1 len l2) /\
    (forall x, user_byte (l1 ++ (len, false) :: l2) x ->
       ~ (HEAP_START + tot l1 <= x < HEAP_START + tot l1 + len) ->
       pg_mem (pager h') x = pg_mem (pager h) x).
Proof. by apply kfree_ok. Qed.

Lemma kfree_refines_witness :
  exists h h', hrepr h [(32, false)] /\
    kfree h (HEAP_START + 0 + HHEAD) = Ret h' /\ hrepr (pg := flat_pager) h' [].
Proof.
  destruct (kmalloc_ok flat_heap [] 20 flat_heap_repr) as (h & _ & Hr & _);
    [lia | vm_compute; congruence | vm_compute; congruence |].
  destruct (kfree_refines h [] 32 [] Hr) as (h' & E & Hr' & _).
  exists h, h'. exact (conj Hr (conj E Hr')).
Defined.
