(* ===== verification/Task.v ===== *)
(** * Tasks and the scheduler

    kern/task.c, kern/sched.c and kern/task.h.  The task table is a function of
    the slot; pointers to tasks are slots, and [task_ptr] gives the address of
    a slot where the code uses one as a sleep channel.  Trap frames and saved
    contexts are in the kernel-stack pages of RAM (Kalloc.v), address spaces
    come from PageTable.v.  A call that gives the processor away ends at the
    switch: [sched_yield] gives the state in which the chosen task goes on.  The
    call is not continued later: [task_run] hands [old_tp->context] to [swtch],
    which stores the stack pointer into the old context instead of into the
    pointer to it (kern/swtch.S), so that the context of a task is for ever the
    one [task_alloc] has put below its trap frame.  A task that is switched to
    leaves the kernel through [trap_ret] with the registers of its trap frame,
    wherever in the kernel it gave the processor away.  [task_create] with its
    ELF loader is in Loader.v. *)

From stdpp Require Import base list strings.
From Stdlib Require Import ZArith Lia.
From S2P Require Import Prelude Mmu CString Kalloc PageTable Ring.

Open Scope Z_scope.

Definition NPROC : nat := 64.

Definition KSTACKSIZE : Z := 4096.

Definition INIT_PRIO : Z := 20.

Definition TASK_HEAP_START : Z := 3489660928.

(** [sizeof(struct stack_frame)], [sizeof(struct context)] and offsets of the
    fields the code assigns. *)
Definition TF_SIZE : Z := 80.

Definition TF_EAX : Z := 44.

Definition CONTEXT_SIZE : Z := 20.

Definition CONTEXT_EIP : Z := 16.

Inductive ts_state : Type :=
  | TS_UNUSED
  | TS_RUNNING
  | TS_RUNNABLE
  | TS_STOPPED
  | TS_ZOMBIE.

#[export] Instance ts_state_eq_dec : EqDecision ts_state.
Proof. solve_decision. Defined.

Record task : Type := mkTask {
  t_tf : Z;
  t_context : Z;
  t_pid : Z;
  t_ppid : Z;
  t_name0 : Z;
  t_state : ts_state;
  t_sz : Z;
  t_priority : Z;
  t_pgdir : Z;
  t_kstack : Z;
  t_chan : Z;
  t_heap_top : Z;
  t_heap_start : Z;
  t_parent : option nat;
  t_next : option nat
}.

Record kern : Type := mkKern {
  tasks : nat -> task;
  rootp : option nat;
  current : option nat;
  inittask : option nat;
  nextpid : Z;
  kmm : mm;
  tss_esp0 : Z
}.

Definition set_task (s : kern) (i : nat) (t : task) : kern :=
  mkKern (upd (tasks s) i t) (rootp s) (current s) (inittask s) (nextpid s) (kmm s) (tss_esp0 s).

Definition set_kmm (s : kern) (m : mm) : kern :=
  mkKern (tasks s) (rootp s) (current s) (inittask s) (nextpid s) m (tss_esp0 s).

Definition set_rootp (s : kern) (r : option nat) : kern :=
  mkKern (tasks s) r (current s) (inittask s) (nextpid s) (kmm s) (tss_esp0 s).

(** Assignments to single fields. *)
Definition with_state (t : task) (st : ts_state) : task :=
  mkTask (t_tf t) (t_context t) (t_pid t) (t_ppid t) (t_name0 t) st (t_sz t) (t_priority t)
         (t_pgdir t) (t_kstack t) (t_chan t) (t_heap_top t) (t_heap_start t) (t_parent t) (t_next t).

Definition with_chan (t : task) (c : Z) : task :=
  mkTask (t_tf t) (t_context t) (t_pid t) (t_ppid t) (t_name0 t) (t_state t) (t_sz t) (t_priority t)
         (t_pgdir t) (t_kstack t) c (t_heap_top t) (t_heap_start t) (t_parent t) (t_next t).

Definition with_parent (t : task) (p : option nat) : task :=
  mkTask (t_tf t) (t_context t) (t_pid t) (t_ppid t) (t_name0 t) (t_state t) (t_sz t) (t_priority t)
         (t_pgdir t) (t_kstack t) (t_chan t) (t_heap_top t) (t_heap_start t) p (t_next t).

Definition with_next (t : task) (n : option nat) : task :=
  mkTask (t_tf t) (t_context t) (t_pid t) (t_ppid t) (t_name0 t) (t_state t) (t_sz t) (t_priority t)
         (t_pgdir t) (t_kstack t) (t_chan t) (t_heap_top t) (t_heap_start t) (t_parent t) n.

Definition with_kstack (t : task) (k : Z) : task :=
  mkTask (t_tf t) (t_context t) (t_pid t) (t_ppid t) (t_name0 t) (t_state t) (t_sz t) (t_priority t)
         (t_pgdir t) k (t_chan t) (t_heap_top t) (t_heap_start t) (t_parent t) (t_next t).

Definition with_pgdir (t : task) (d : Z) : task :=
  mkTask (t_tf t) (t_context t) (t_pid t) (t_ppid t) (t_name0 t) (t_state t) (t_sz t) (t_priority t)
         d (t_kstack t) (t_chan t) (t_heap_top t) (t_heap_start t) (t_parent t) (t_next t).

Definition with_sz (t : task) (z : Z) : task :=
  mkTask (t_tf t) (t_context t) (t_pid t) (t_ppid t) (t_name0 t) (t_state t) z (t_priority t)
         (t_pgdir t) (t_kstack t) (t_chan t) (t_heap_top t) (t_heap_start t) (t_parent t) (t_next t).

Section Tasks.

(** The addresses of the task slots, of [trap_ret] and [do_nothing], and of the
    kernel's data segment (for [mapkvm]). *)
Variable task_ptr : nat -> Z.
Variables trap_ret do_nothing : Z.
Variable kdata : Z.

Definition ptr_of (o : option nat) : Z := match o with Some i => task_ptr i | None => 0 end.

(** ** Creating tasks *)

(** The first unused slot. *)
Definition free_slot (s : kern) : option nat :=
  List.find (fun i => bool_decide (t_state (tasks s i) = TS_UNUSED)) (seq 0 NPROC).

Definition task_alloc (s : kern) : kern * option nat :=
  match free_slot s with
  | None => (s, None)
  | Some i =>
      let '(page, m1) := kalloc_page (kmm s) in
      let t := tasks s i in
      if decide (page = 0) then (set_task (set_kmm s m1) i (with_kstack t 0), None)
      else
        let ppid := match current s with Some c => t_pid (tasks s c) | None => 0 end in
        let tf := page + KSTACKSIZE - TF_SIZE in
        let m2 := store32 (ram m1) (tf - 4) trap_ret in
        let ctx := tf - 4 - CONTEXT_SIZE in
        let m3 := memset m2 ctx 0 CONTEXT_SIZE in
        let m4 := store32 m3 (ctx + CONTEXT_EIP) do_nothing in
        let t' := mkTask tf ctx (u32 (nextpid s)) ppid (t_name0 t) TS_STOPPED (t_sz t) INIT_PRIO
                         (t_pgdir t) page (t_chan t) TASK_HEAP_START 0 (t_parent t) (t_next t) in
        (mkKern (upd (tasks s) i t') (rootp s) (current s) (inittask s) (nextpid s + 1)
                (set_ram m1 m4) (tss_esp0 s), Some i)
  end.

(** [fork_fail:] with the slot [tp] holds; without one it is a null pointer. *)
Definition fork_fail (s : kern) (tp : option nat) : outcome (kern * Z) :=
  match tp with
  | None => Stop (Fault "tp->kstack")
  | Some i =>
      m ← kfree_page (kmm s) (t_kstack (tasks s i));
      Ret (set_task (set_kmm s m) i (with_state (with_kstack (tasks s i) 0) TS_UNUSED), -1)
  end.

(** [tp->next = rootp; rootp = tp;] *)
Definition task_link (s : kern) (i : nat) : kern :=
  set_rootp (set_task s i (with_next (tasks s i) (rootp s))) (Some i).

Definition fork (s : kern) : outcome (kern * Z) :=
  let '(s1, tp) := task_alloc s in
  match tp with
  | None => fork_fail s1 None
  | Some i =>
      c ← deref "current" (current s1);
      let cur := tasks s1 c in
      '(dir, m1) ← copy_uvm kdata (kmm s1) (t_pgdir cur) (t_sz cur);
      let s2 := set_task (set_kmm s1 m1) i (with_pgdir (tasks s1 i) dir) in
      if decide (dir = 0) then fork_fail s2 (Some i)
      else
        let t := with_parent (with_sz (tasks s2 i) (t_sz cur)) (Some c) in
        let m2 := set_ram (kmm s2)
                    (write_bytes (ram (kmm s2)) (t_tf t)
                       (read_bytes (ram (kmm s2)) (t_tf (tasks s2 c)) (Z.to_nat TF_SIZE))) in
        let s3 := set_task (set_kmm s2 m2) i t in
        '(r, m3) ← copy_page (kmm s3) (t_pgdir (tasks s3 c)) (t_pgdir t) (USTACKTOP - PGSIZE);
        let s4 := set_kmm s3 m3 in
        if decide (r = 0) then fork_fail s4 (Some i)
        else
          let m4 := set_ram m3 (store32 (ram m3) (t_tf t + TF_EAX) 0) in
          Ret (task_link (set_task (set_kmm s4 m4) i (with_state t TS_RUNNABLE)) i, t_pid t)
  end.

(** ** Sleeping and waking *)

Fixpoint wakeup_loop (fuel : nat) (s : kern) (tp : option nat) (chan : Z) : outcome kern :=
  match tp with
  | None => Ret s
  | Some i =>
      match fuel with
      | O => Stop Fuel
      | S k =>
          let t := tasks s i in
          let s' := if decide (t_state t = TS_STOPPED /\ t_chan t = chan)
                    then set_task s i (with_state t TS_RUNNABLE) else s in
          wakeup_loop k s' (t_next t) chan
      end
  end.

Definition wakeup (s : kern) (chan : Z) : outcome kern :=
  wakeup_loop (S NPROC) s (rootp s) chan.

(** [sleep_on] up to the call of the scheduler, from which it does not come
    back. *)
Definition sleep_on (s : kern) (chan : Z) : outcome kern :=
  match current s with
  | None => Stop (Panic "sleep: current == 0")
  | Some c => Ret (set_task s c (with_state (with_chan (tasks s c) chan) TS_STOPPED))
  end.

(** ** Scheduling *)

(** [task_run(tp)] up to the switch of stacks. *)
Definition task_run (s : kern) (tp : nat) : outcome kern :=
  if decide (current s = Some tp) then Ret s
  else
    let s1 := match current s with
              | Some c => if decide (t_state (tasks s c) = TS_RUNNING)
                          then set_task s c (with_state (tasks s c) TS_RUNNABLE) else s
              | None => s
              end in
    let t := tasks s1 tp in
    let t' := mkTask (t_tf t) (t_context t) (t_pid t) (t_ppid t) (t_name0 t) TS_RUNNING (t_sz t)
                     (s32 (t_priority t - 1)) (t_pgdir t) (t_kstack t) (t_chan t) (t_heap_top t)
                     (t_heap_start t) (t_parent t) (t_next t) in
    match current s with
    | None => Stop (Fault "old_tp->context")
    | Some _ =>
        Ret (mkKern (upd (tasks s1) tp t') (rootp s1) (Some tp) (inittask s1) (nextpid s1) (kmm s1)
                    (t_kstack t + KSTACKSIZE))
    end.

(** [for(tp = from; tp != stop; tp = tp->next) if(tp->state == TS_RUNNABLE)] *)
Fixpoint find_runnable (fuel : nat) (s : kern) (tp stop : option nat) : outcome (option nat) :=
  if decide (tp = stop) then Ret None
  else
    match tp with
    | None => Stop (Fault "tp->state")
    | Some i =>
        match fuel with
        | O => Stop Fuel
        | S k => if decide (t_state (tasks s i) = TS_RUNNABLE) then Ret (Some i)
                 else find_runnable k s (t_next (tasks s i)) stop
        end
    end.

(** The switch a call of [sched_yield] ends with: the loop it was in and the
    task it switched to. *)
Inductive sched_loop : Type :=
  | FromCurrent
  | FromRoot.

Record sched_cont : Type := mkCont {
  sc_loop : sched_loop;
  sc_tp : nat
}.

(** The second loop from [tp], and the final [task_run(current)]. *)
Definition sched_root (s : kern) (tp : option nat) : outcome (kern * option sched_cont) :=
  b ← find_runnable (S NPROC) s tp (current s);
  match b with
  | Some i => s' ← task_run s i; Ret (s', Some (mkCont FromRoot i))
  | None => c ← deref "current" (current s); s' ← task_run s c; Ret (s', None)
  end.

(** The first loop from [tp], and what follows it. *)
Definition sched_scan (s : kern) (tp : option nat) : outcome (kern * option sched_cont) :=
  a ← find_runnable (S NPROC) s tp None;
  match a with
  | Some i => s' ← task_run s i; Ret (s', Some (mkCont FromCurrent i))
  | None => sched_root s (rootp s)
  end.

(** [sched_yield] until it switches to another task ([Some]) or, when no other
    one is runnable, to the context of [current] itself ([None]). *)
Definition sched_yield (s : kern) : outcome (kern * option sched_cont) :=
  match rootp s with
  | None => Stop (Panic "No task!")
  | Some r =>
      let c := match current s with Some c => c | None => r end in
      sched_scan (mkKern (tasks s) (rootp s) (Some c) (inittask s) (nextpid s) (kmm s) (tss_esp0 s))
                 (t_next (tasks s c))
  end.

Definition yield (s : kern) : outcome (kern * option sched_cont) :=
  c ← deref "current" (current s);
  sched_yield (set_task s c (with_state (tasks s c) TS_RUNNABLE)).

(** ** Waiting and exiting *)

(** One pass of [wait] over the task list: a reaped child's pid, or whether
    there is a child at all. *)
Fixpoint wait_scan (fuel : nat) (s : kern) (tp : option nat) (cur : nat) (get_child : bool) :
    outcome (kern * option Z * bool) :=
  match tp with
  | None => Ret (s, None, get_child)
  | Some i =>
      match fuel with
      | O => Stop Fuel
      | S k =>
          let t := tasks s i in
          if decide (t_parent t <> Some cur) then wait_scan k s (t_next t) cur get_child
          else if decide (t_state t = TS_ZOMBIE) then
            m ← kfree_page (kmm s) (t_kstack t);
            let t' := mkTask (t_tf t) (t_context t) 0 (t_ppid t) 0 TS_UNUSED (t_sz t) (t_priority t)
                             (t_pgdir t) 0 (t_chan t) (t_heap_top t) (t_heap_start t) None (t_next t) in
            Ret (set_task (set_kmm s m) i t', Some (t_pid t), true)
          else wait_scan k s (t_next t) cur true
      end
  end.

Inductive wait_result : Type :=
  | WaitDone (ret : Z)
  | WaitSleep.

(** [wait] until it returns or sleeps, with the value of [get_child] before the
    round, which is 0 when it is called. *)
Definition wait (s : kern) (get_child : bool) : outcome (kern * wait_result) :=
  c ← deref "current" (current s);
  '(s1, reaped, got) ← wait_scan (S NPROC) s (rootp s) c get_child;
  match reaped with
  | Some pid => Ret (s1, WaitDone pid)
  | None =>
      if negb got then Ret (s1, WaitDone (-1))
      else s2 ← sleep_on s1 (task_ptr c); Ret (s2, WaitSleep)
  end.

(** The children of the exiting task go to [inittask]. *)
Fixpoint exit_loop (fuel : nat) (s : kern) (tp : option nat) (cur : nat) : outcome kern :=
  match tp with
  | None => Ret s
  | Some i =>
      match fuel with
      | O => Stop Fuel
      | S k =>
          let s1 := if decide (t_parent (tasks s i) = Some cur)
                    then set_task s i (with_parent (tasks s i) (inittask s)) else s in
          s2 ← (if decide (t_state (tasks s1 i) = TS_ZOMBIE)
                then wakeup s1 (ptr_of (inittask s1)) else Ret s1);
          exit_loop k s2 (t_next (tasks s2 i)) cur
      end
  end.

(** [exit] up to the call of the scheduler; [junk] is the uninitialised local
    variable the code compares with [inittask]. *)
Definition exit_ (s : kern) (junk : option nat) : outcome kern :=
  if decide (junk = inittask s) then Stop (Panic "Error! inittask exit")
  else
    c ← deref "current" (current s);
    s1 ← exit_loop (S NPROC) s (rootp s) c;
    let s2 := set_task s1 c (with_state (tasks s1 c) TS_ZOMBIE) in
    wakeup s2 (ptr_of (t_parent (tasks s2 c))).

End Tasks.

(** ** Specification *)

(** The task list: [l] from [rootp], each slot once. *)
Record task_list (s : kern) (l : list nat) : Prop := {
  tl_list : queue_is (fun i => t_next (tasks s i)) (rootp s) l;
  tl_nodup : NoDup l;
  tl_slots : Forall (fun i => (i < NPROC)%nat) l
}.

(** The tasks after [wakeup(chan)]. *)
Definition woken_up (s : kern) (l : list nat) (chan : Z) (i : nat) : task :=
  let t := tasks s i in
  if decide (i ∈ l /\ t_state t = TS_STOPPED /\ t_chan t = chan)
  then with_state t TS_RUNNABLE else t.

(** Everything but the task table. *)
Definition same_rest (s s' : kern) : Prop :=
  rootp s' = rootp s /\ current s' = current s /\ inittask s' = inittask s /\
  nextpid s' = nextpid s /\ kmm s' = kmm s /\ tss_esp0 s' = tss_esp0 s.

Definition is_zombie (s : kern) (i : nat) : bool :=
  bool_decide (t_state (tasks s i) = TS_ZOMBIE).

Definition is_child (s : kern) (c i : nat) : bool :=
  bool_decide (t_parent (tasks s i) = Some c).

(** The tasks after the loop of [exit] over [b], a part of the list [l]: the
    children of [c] belong to [inittask], which is woken if there is a zombie. *)
Definition adopted (s : kern) (l b : list nat) (c : nat) (chan : Z) (i : nat) : task :=
  let t := if existsb (is_zombie s) b then woken_up s l chan i else tasks s i in
  if decide (i ∈ b /\ t_parent t = Some c) then with_parent t (inittask s) else t.

(** One round of that loop, at [x]. *)
Definition exit_round (s : kern) (l : list nat) (c : nat) (chan : Z) (x : nat) (s' : kern) : Prop :=
  same_rest s s' /\
  forall i, tasks s' i =
    let t := if is_zombie s x then woken_up s l chan i else tasks s i in
    if decide (i = x /\ t_parent t = Some c) then with_parent t (inittask s) else t.

(** The task after [wait] has reaped it. *)
Definition reaped (t : task) : task :=
  mkTask (t_tf t) (t_context t) 0 (t_ppid t) 0 TS_UNUSED (t_sz t) (t_priority t)
         (t_pgdir t) 0 (t_chan t) (t_heap_top t) (t_heap_start t) None (t_next t).

(** A table of tasks with nothing but what scheduling needs, for examples. *)
Definition demo_task (pid : Z) (st : ts_state) (chan kstack : Z) (parent next : option nat) : task :=
  mkTask 0 0 pid 0 0 st 0 INIT_PRIO 0 kstack chan 0 0 parent next.

Definition demo_kern (ts : list task) (cur : nat) : kern :=
  mkKern (fun i => nth i ts (demo_task 0 TS_UNUSED 0 0 None None)) (Some 0%nat) (Some cur) (Some 0%nat)
         1 (Mm (fun _ => 0) 0 8192 2148532224) 0.

Definition demo_family : kern :=
  demo_kern [demo_task 1 TS_STOPPED 1000 0 None (Some 1%nat); demo_task 2 TS_RUNNING 0 2148532224 (Some 0%nat) (Some 2%nat);
             demo_task 3 TS_RUNNABLE 0 0 (Some 1%nat) None] 1.

(** The first runnable task of a list. *)
Definition first_runnable (s : kern) (l : list nat) : option nat :=
  List.find (fun i => bool_decide (t_state (tasks s i) = TS_RUNNABLE)) l.

(** What [task_run] changes when it switches from [c] to [i]. *)
Definition ran (s : kern) (c i : nat) (s' : kern) : Prop :=
  current s' = Some i /\ rootp s' = rootp s /\ kmm s' = kmm s /\
  t_state (tasks s' i) = TS_RUNNING /\ tss_esp0 s' = t_kstack (tasks s i) + KSTACKSIZE /\
  tasks s' c = (if decide (t_state (tasks s c) = TS_RUNNING)
                then with_state (tasks s c) TS_RUNNABLE else tasks s c) /\
  (forall j, t_next (tasks s' j) = t_next (tasks s j)) /\
  (forall j, j <> i -> j <> c -> tasks s' j = tasks s j) /\
  t_pgdir (tasks s' i) = t_pgdir (tasks s i) /\ t_tf (tasks s' i) = t_tf (tasks s i).

(** ** Lemmas *)

Lemma slots_length (l : list nat) :
  NoDup l -> Forall (fun i => (i < NPROC)%nat) l -> (length l <= NPROC)%nat.
Proof.
  intros Hnd Hl. rewrite <- (length_seq NPROC 0). apply NoDup_incl_length.
  - by apply NoDup_ListNoDup.
  - intros i Hi. apply in_seq. rewrite List.Forall_forall in Hl. specialize (Hl i Hi). lia.
Qed.

Lemma same_rest_refl s : same_rest s s.
Proof. done. Qed.

Lemma same_rest_trans s1 s2 s3 : same_rest s1 s2 -> same_rest s2 s3 -> same_rest s1 s3.
Proof.
  intros (A1 & A2 & A3 & A4 & A5 & A6) (B1 & B2 & B3 & B4 & B5 & B6).
  repeat split; congruence.
Qed.

Lemma wakeup_loop_ok chan l : forall fuel s tp,
  queue_is (fun i => t_next (tasks s i)) tp l -> NoDup l -> (length l <= fuel)%nat ->
  exists s', wakeup_loop fuel s tp chan = Ret s' /\ same_rest s s' /\
    forall i, tasks s' i = woken_up s l chan i.
Proof.
  induction l as [|a l IH]; intros fuel s tp Hq Hnd Hf; cbn [queue_is] in Hq.
  - subst tp. exists s. destruct fuel; (split; [done|]; split; [done|]; intros i; unfold woken_up;
      rewrite decide_False; [done|]; intros [H _]; by apply elem_of_nil in H).
  - destruct Hq as [-> Hq]. apply NoDup_cons in Hnd as [Ha Hnd].
    destruct fuel as [|k]; [cbn [length] in Hf; lia|]. cbn [wakeup_loop].
    set (s1 := if decide _ then set_task s a _ else s).
    assert (Hs1 : forall i, i <> a -> tasks s1 i = tasks s i).
    { intros i Hi. unfold s1. case_decide; [|done]. cbn. by apply upd_other. }
    assert (Ha1 : tasks s1 a = woken_up s (a :: l) chan a).
    { unfold s1, woken_up. case_decide as E.
      - cbn. rewrite upd_same, decide_True; [done|]. split; [left|exact E].
      - rewrite decide_False; [done|]. tauto. }
    destruct (IH k s1 (t_next (tasks s a))) as (s' & E & Hr & Ht).
    + apply (queue_is_ext (fun i => t_next (tasks s i))); [|done].
      intros i Hi. rewrite Hs1; [done|]. intros ->. done.
    + done.
    + cbn [length] in Hf. lia.
    + exists s'. split; [exact E|]. split.
      * eapply same_rest_trans; [|exact Hr]. unfold s1. by case_decide.
      * intros i. rewrite Ht. unfold woken_up at 1. destruct (decide (i = a)) as [->|Hia].
        -- rewrite decide_False by (intros [H _]; done). exact Ha1.
        -- rewrite Hs1 by done. unfold woken_up. cbn zeta.
           destruct (decide (i ∈ l /\ _)) as [[H1 H2]|Hn].
           ++ rewrite decide_True; [done|]. split; [by right|done].
           ++ rewrite decide_False; [done|]. intros [H1 H2]. apply Hn. split; [|done].
              by apply elem_of_cons in H1 as [->|H1].
Qed.

Lemma wakeup_ok s l chan :
  task_list s l ->
  exists s', wakeup s chan = Ret s' /\ same_rest s s' /\
    forall i, tasks s' i = woken_up s l chan i.
Proof.
  intros [H1 H2 H3]. apply wakeup_loop_ok; [done|done|].
  pose proof (slots_length l H2 H3). lia.
Qed.

Lemma woken_up_next s l chan i : t_next (woken_up s l chan i) = t_next (tasks s i).
Proof. unfold woken_up. cbn zeta. by case_decide. Qed.

Lemma task_list_ext s s' l :
  rootp s' = rootp s -> (forall i, i ∈ l -> t_next (tasks s' i) = t_next (tasks s i)) ->
  task_list s l -> task_list s' l.
Proof.
  intros Hr Hn [H1 H2 H3]. split; [|done|done]. rewrite Hr.
  by apply (queue_is_ext (fun i => t_next (tasks s i))).
Qed.

Lemma queue_split nx q l1 i l2 :
  queue_is nx q (l1 ++ i :: l2) -> queue_is nx (nx i) l2.
Proof.
  revert q. induction l1 as [|a l1 IH]; intros q; cbn [app queue_is]; intros [_ H]; [done|].
  by apply (IH (nx a)).
Qed.

Lemma find_runnable_end s l : forall fuel tp,
  queue_is (fun i => t_next (tasks s i)) tp l -> (length l <= fuel)%nat ->
  find_runnable fuel s tp None = Ret (first_runnable s l).
Proof.
  induction l as [|a l IH]; intros fuel tp Hq Hf; cbn [queue_is] in Hq.
  - subst tp. by destruct fuel.
  - destruct Hq as [-> Hq]. destruct fuel as [|k]; [cbn [length] in Hf; lia|].
    cbn [find_runnable]. rewrite decide_False by done. unfold first_runnable. cbn [List.find].
    case_decide as E; [by rewrite bool_decide_eq_true_2|]. rewrite bool_decide_eq_false_2 by done.
    apply IH; [done|]. cbn [length] in Hf. lia.
Qed.

Lemma find_runnable_stop s c l1 : forall fuel tp l2,
  queue_is (fun i => t_next (tasks s i)) tp (l1 ++ c :: l2) -> c ∉ l1 -> (length l1 <= fuel)%nat ->
  find_runnable fuel s tp (Some c) = Ret (first_runnable s l1).
Proof.
  induction l1 as [|a l1 IH]; intros fuel tp l2 Hq Hc Hf; cbn [queue_is app] in Hq.
  - destruct Hq as [-> _]. destruct fuel; cbn [find_runnable]; by rewrite decide_True.
  - destruct Hq as [-> Hq]. apply not_elem_of_cons in Hc as [Hca Hc].
    destruct fuel as [|k]; [cbn [length] in Hf; lia|].
    cbn [find_runnable]. rewrite decide_False by congruence. unfold first_runnable. cbn [List.find].
    case_decide as E; [by rewrite bool_decide_eq_true_2|]. rewrite bool_decide_eq_false_2 by done.
    apply (IH k _ l2); [done|done|]. cbn [length] in Hf. lia.
Qed.

(** ** Scheduling *)

Lemma first_runnable_split s l i :
  first_runnable s l = Some i ->
  exists a b, l = a ++ i :: b /\ t_state (tasks s i) = TS_RUNNABLE.
Proof.
  unfold first_runnable. intros H. apply find_some in H as [Hin H]. apply bool_decide_eq_true in H.
  apply list_elem_of_In, list_elem_of_split in Hin as (a & b & ->). by exists a, b.
Qed.

Lemma first_runnable_ext s s' l :
  (forall i, i ∈ l -> tasks s' i = tasks s i) -> first_runnable s' l = first_runnable s l.
Proof.
  unfold first_runnable. induction l as [|a l IH]; intros H; [done|]. cbn [List.find].
  rewrite (H a) by left. rewrite IH by (intros i Hi; apply H; by right). done.
Qed.

Lemma task_run_self s c : current s = Some c -> task_run s c = Ret s.
Proof. intros H. unfold task_run. by rewrite decide_True. Qed.

Lemma task_run_other s c i :
  current s = Some c -> i <> c -> exists s', task_run s i = Ret s' /\ ran s c i s'.
Proof.
  intros Hc Hi. unfold task_run. rewrite decide_False by congruence. rewrite Hc.
  destruct (decide (t_state (tasks s c) = TS_RUNNING)) as [E|E]; (eexists; split; [reflexivity|]);
    unfold ran; cbn [current rootp kmm tasks set_task tss_esp0];
    (split; [done|]; split; [done|]; split; [done|]; split; [by rewrite upd_same|]).
  - split; [by rewrite upd_other|].
    split; [rewrite decide_True by done; by rewrite upd_other, upd_same|].
    split; [|split; [intros j H1 H2; by rewrite !upd_other|rewrite upd_same; by rewrite ?upd_other]].
    intros j. unfold upd. repeat case_decide; subst; done.
  - split; [done|].
    split; [rewrite decide_False by done; by rewrite upd_other|].
    split; [|split; [intros j H1 H2; by rewrite !upd_other|rewrite upd_same; by rewrite ?upd_other]].
    intros j. unfold upd. repeat case_decide; subst; done.
Qed.

Section Rotation.
Context (s : kern) (l1 l2 : list nat) (c : nat).
Hypothesis Hl : task_list s (l1 ++ c :: l2).
Hypothesis Hc : current s = Some c.

Lemma rot_lengths : (length l1 + S (length l2) <= NPROC)%nat.
Proof.
  pose proof (slots_length _ (tl_nodup _ _ Hl) (tl_slots _ _ Hl)) as H.
  rewrite length_app in H. cbn [length] in H. lia.
Qed.

Lemma rot_not_c : (c ∉ l2) /\ (c ∉ l1).
Proof.
  pose proof (tl_nodup _ _ Hl) as H. apply NoDup_app in H as (_ & H2 & H3).
  apply NoDup_cons in H3 as [H3 _]. split; [done|]. intros H. apply (H2 c H). left.
Qed.

(** Both loops, from a point of the list. *)
Lemma sched_root_ok a b :
  l1 = a ++ b ->
  forall tp, queue_is (fun i => t_next (tasks s i)) tp (b ++ c :: l2) ->
  match first_runnable s b with
  | Some i => exists s', sched_root s tp = Ret (s', Some (mkCont FromRoot i)) /\ ran s c i s'
  | None => sched_root s tp = Ret (s, None)
  end.
Proof.
  intros E tp Hq. destruct rot_not_c as [Hc2 Hc1]. pose proof rot_lengths as Hn.
  rewrite E, length_app in Hn. rewrite E in Hc1. apply not_elem_of_app in Hc1 as [Hca Hcb].
  unfold sched_root. rewrite Hc, (find_runnable_stop s c b (S NPROC) tp l2) by (done || lia).
  cbn [mbind outcome_bind].
  destruct (first_runnable s b) as [i|] eqn:Ef.
  - destruct (first_runnable_split _ _ _ Ef) as (x & b' & Eb & _).
    destruct (task_run_other s c i Hc) as (s' & Es & Hr).
    { intros ->. apply Hcb. rewrite Eb. apply elem_of_app. right. left. }
    exists s'. rewrite Es. by split.
  - cbn [deref mbind outcome_bind]. by rewrite task_run_self.
Qed.

Lemma sched_scan_ok a b :
  l2 = a ++ b ->
  forall tp, queue_is (fun i => t_next (tasks s i)) tp b ->
  match first_runnable s (b ++ l1) with
  | Some i => exists s' k, sched_scan s tp = Ret (s', Some k) /\ sc_tp k = i /\ ran s c i s'
  | None => sched_scan s tp = Ret (s, None)
  end.
Proof.
  intros E tp Hq. destruct rot_not_c as [Hc2 Hc1]. pose proof rot_lengths as Hn.
  rewrite E, length_app in Hn. unfold sched_scan.
  rewrite (find_runnable_end s b) by (done || lia). cbn [mbind outcome_bind].
  unfold first_runnable at 1. rewrite find_app. fold (first_runnable s b) (first_runnable s l1).
  destruct (first_runnable s b) as [i|] eqn:Ef.
  - destruct (first_runnable_split _ _ _ Ef) as (x & b' & Eb & _).
    destruct (task_run_other s c i Hc) as (s' & Es & Hr).
    { intros ->. apply Hc2. rewrite E, Eb. apply elem_of_app. right. apply elem_of_app. right. left. }
    exists s', (mkCont FromCurrent i). rewrite Es. by split.
  - pose proof (sched_root_ok [] l1 eq_refl (rootp s) (tl_list _ _ Hl)) as H.
    destruct (first_runnable s l1) as [i|]; [|done].
    destruct H as (s' & Es & Hr). by exists s', (mkCont FromRoot i).
Qed.

Lemma sched_yield_ok :
  match first_runnable s (l2 ++ l1) with
  | Some i => exists s' k, sched_yield s = Ret (s', Some k) /\ sc_tp k = i /\ ran s c i s'
  | None => sched_yield s = Ret (s, None)
  end.
Proof.
  unfold sched_yield.
  assert (Hroot : exists r, rootp s = Some r).
  { pose proof (tl_list _ _ Hl) as H. destruct l1; cbn [app queue_is] in H; destruct H as [-> _]; by eexists. }
  destruct Hroot as [r Hr]. rewrite Hr, Hc.
  replace (mkKern _ _ _ _ _ _ _) with s by (destruct s; cbn in *; by subst).
  apply (sched_scan_ok [] l2 eq_refl). apply (queue_split _ _ _ _ _ (tl_list _ _ Hl)).
Qed.

End Rotation.

(** ** Exiting *)

Lemma woken_up_parent s l chan i : t_parent (woken_up s l chan i) = t_parent (tasks s i).
Proof. unfold woken_up. cbn zeta. by case_decide. Qed.

Lemma woken_up_zombie s l chan i :
  t_state (woken_up s l chan i) = TS_ZOMBIE <-> t_state (tasks s i) = TS_ZOMBIE.
Proof.
  unfold woken_up. cbn zeta. case_decide as E; [|done]. destruct E as (_ & E & _). rewrite E.
  by split.
Qed.

Lemma exit_round_ok ptr s l c x :
  task_list s l ->
  exists s', (let s1 := if decide (t_parent (tasks s x) = Some c)
                        then set_task s x (with_parent (tasks s x) (inittask s)) else s in
              if decide (t_state (tasks s1 x) = TS_ZOMBIE)
              then wakeup s1 (ptr_of ptr (inittask s1)) else Ret s1) = Ret s' /\
    exit_round s l c (ptr_of ptr (inittask s)) x s'.
Proof.
  intros Hl. cbn zeta. set (s1 := if decide (t_parent _ = _) then _ else s).
  assert (R1 : same_rest s s1) by (unfold s1; by case_decide).
  assert (T1 : forall i, tasks s1 i = if decide (i = x /\ t_parent (tasks s i) = Some c)
                                      then with_parent (tasks s i) (inittask s) else tasks s i).
  { intros i. unfold s1. case_decide as E; cbn [set_task tasks].
    - unfold upd. case_decide as E'; [subst i; by rewrite decide_True|].
      rewrite decide_False by tauto. done.
    - rewrite decide_False; [done|]. intros [-> H]. done. }
  assert (Z1 : t_state (tasks s1 x) = t_state (tasks s x)) by (rewrite T1; by case_decide).
  assert (I1 : inittask s1 = inittask s) by apply R1.
  unfold exit_round. unfold is_zombie. case_decide as E.
  - rewrite bool_decide_eq_true_2 by congruence. rewrite I1.
    destruct (wakeup_ok s1 l (ptr_of ptr (inittask s))) as (s' & Es & R2 & T2).
    { apply (task_list_ext s); [apply R1| |done]. intros i _. rewrite T1. by case_decide. }
    exists s'. split; [exact Es|]. split; [by eapply same_rest_trans|]. intros i. rewrite T2.
    unfold woken_up. rewrite T1. cbn zeta.
    destruct (decide (i = x /\ t_parent (tasks s i) = Some c)) as [H|H]; cbn [t_state t_chan with_parent].
    + case_decide; cbn [t_parent with_state]; by rewrite decide_True.
    + case_decide; cbn [t_parent with_state]; by rewrite decide_False.
  - rewrite bool_decide_eq_false_2 by congruence. by exists s1.
Qed.

Lemma exit_round_next s l c chan x s' i :
  exit_round s l c chan x s' -> t_next (tasks s' i) = t_next (tasks s i).
Proof.
  intros [_ T]. rewrite T. cbn zeta. destruct (is_zombie s x); case_decide; cbn [t_next with_parent];
    try done; apply woken_up_next.
Qed.

Lemma adopted_next s l b c chan i : t_next (adopted s l b c chan i) = t_next (tasks s i).
Proof.
  unfold adopted. cbn zeta. destruct (existsb _ _); case_decide; cbn [t_next with_parent];
    try done; apply woken_up_next.
Qed.

Lemma adopt_twice t (i x c : nat) b p :
  x ∉ b ->
  (let t1 := if decide (i = x /\ t_parent t = Some c) then with_parent t p else t in
   if decide (i ∈ b /\ t_parent t1 = Some c) then with_parent t1 p else t1) =
  (if decide (i ∈ x :: b /\ t_parent t = Some c) then with_parent t p else t).
Proof.
  intros Hx. cbn zeta. destruct (decide (i = x /\ t_parent t = Some c)) as [[-> H]|H].
  - rewrite decide_False by tauto. rewrite decide_True; [done|]. split; [left|done].
  - destruct (decide (i ∈ b /\ t_parent t = Some c)) as [[H1 H2]|H1].
    + rewrite decide_True; [done|]. split; [by right|done].
    + rewrite decide_False; [done|]. intros [H2 H3]. apply elem_of_cons in H2. tauto.
Qed.

Lemma exit_round_step s l c chan x s1 b i :
  exit_round s l c chan x s1 -> x ∉ b ->
  adopted s1 l b c chan i = adopted s l (x :: b) c chan i.
Proof.
  intros [R T] Hx. assert (I1 : inittask s1 = inittask s) by apply R.
  assert (Z1 : forall j, is_zombie s1 j = is_zombie s j).
  { intros j. unfold is_zombie. apply bool_decide_ext. rewrite T. cbn zeta.
    destruct (is_zombie s x); case_decide; cbn [t_state with_parent]; try done; apply woken_up_zombie. }
  unfold adopted. cbn [existsb]. rewrite I1.
  replace (existsb (is_zombie s1) b) with (existsb (is_zombie s) b)
    by (clear -Z1; induction b as [|y b IH]; cbn [existsb]; [done|]; by rewrite Z1, IH).
  assert (W : woken_up s1 l chan i =
    (let t := woken_up s l chan i in
     if decide (i = x /\ t_parent t = Some c) then with_parent t (inittask s) else t)).
  { unfold woken_up at 1. rewrite T. cbn zeta. unfold woken_up. cbn zeta.
    destruct (decide (i ∈ l /\ t_state (tasks s i) = TS_STOPPED /\ t_chan (tasks s i) = chan)) as [E|E];
    destruct (is_zombie s x); cbn [t_parent with_state];
    destruct (decide (i = x /\ t_parent (tasks s i) = Some c)) as [E'|E']; cbn [t_state t_chan with_parent with_state];
    try (rewrite decide_False; [done|]; intros (_ & H & _); discriminate H);
    try (rewrite decide_True by done; done); rewrite decide_False by done; done. }
  rewrite W, T. cbn zeta.
  destruct (is_zombie s x), (existsb (is_zombie s) b); cbn [orb]; by apply adopt_twice.
Qed.

Lemma exit_loop_ok ptr l c b : forall a fuel s tp,
  l = a ++ b -> task_list s l -> queue_is (fun i => t_next (tasks s i)) tp b -> (length b <= fuel)%nat ->
  exists s', exit_loop ptr fuel s tp c = Ret s' /\ same_rest s s' /\
    forall i, tasks s' i = adopted s l b c (ptr_of ptr (inittask s)) i.
Proof.
  induction b as [|x b IH]; intros a fuel s tp El Hl Hq Hf; cbn [queue_is] in Hq.
  - subst tp. exists s. destruct fuel; (split; [done|]; split; [done|]; intros i; unfold adopted;
      cbn [existsb]; rewrite decide_False; [done|]; intros [H _]; by apply elem_of_nil in H).
  - destruct Hq as [-> Hq]. destruct fuel as [|k]; [cbn [length] in Hf; lia|]. cbn [exit_loop].
    destruct (exit_round_ok ptr s l c x Hl) as (s1 & E1 & HR). cbn zeta in E1. rewrite E1.
    cbn [mbind outcome_bind]. pose proof (fun i => exit_round_next _ _ _ _ _ _ i HR) as Hn.
    assert (Hx : x ∉ b).
    { pose proof (tl_nodup _ _ Hl) as H. rewrite El in H. apply NoDup_app in H as (_ & _ & H).
      by apply NoDup_cons in H as [H _]. }
    rewrite Hn. destruct (IH (a ++ [x]) k s1 (t_next (tasks s x))) as (s' & E & R & T).
    + by rewrite <- app_assoc.
    + apply (task_list_ext s); [apply HR| |done]. intros i _. apply Hn.
    + apply (queue_is_ext (fun i => t_next (tasks s i))); [|done]. intros i _. apply Hn.
    + cbn [length] in Hf. lia.
    + exists s'. split; [exact E|]. split; [eapply same_rest_trans; [apply HR|done]|].
      intros i. rewrite T. replace (inittask s1) with (inittask s) by (symmetry; apply HR).
      by apply exit_round_step.
Qed.

Lemma exit_ok ptr s l c junk :
  task_list s l -> current s = Some c -> junk <> inittask s ->
  exists s1 s', same_rest s s1 /\
    (forall i, tasks s1 i = adopted s l l c (ptr_of ptr (inittask s)) i) /\
    exit_ ptr s junk = Ret s' /\ task_list s' l /\ same_rest s s' /\
    let s2 := set_task s1 c (with_state (tasks s1 c) TS_ZOMBIE) in
    forall i, tasks s' i = woken_up s2 l (ptr_of ptr (t_parent (tasks s2 c))) i.
Proof.
  intros Hl Hc Hj. unfold exit_. rewrite decide_False by done. rewrite Hc. cbn [deref mbind outcome_bind].
  pose proof (slots_length _ (tl_nodup _ _ Hl) (tl_slots _ _ Hl)) as Hlen.
  destruct (exit_loop_ok ptr l c l [] (S NPROC) s (rootp s)) as (s1 & E & R & T);
    [done|done|apply Hl|lia|]. rewrite E. cbn [mbind outcome_bind].
  set (s2 := set_task s1 c _).
  assert (N2 : forall i, t_next (tasks s2 i) = t_next (tasks s i)).
  { intros i. unfold s2. cbn [set_task tasks]. unfold upd. case_decide as Ei; [rewrite Ei; cbn [t_next with_state]|];
      rewrite T; apply adopted_next. }
  assert (L2 : task_list s2 l) by (apply (task_list_ext s); [apply R|intros i _; apply N2|done]).
  destruct (wakeup_ok s2 l (ptr_of ptr (t_parent (tasks s2 c))) L2) as (s' & E' & R' & T').
  exists s1, s'. split; [done|]. split; [done|]. split; [exact E'|]. split; [|split; [|done]].
  - apply (task_list_ext s2); [apply R'| |done]. intros i _. rewrite T'. apply woken_up_next.
  - eapply same_rest_trans; [exact R|]. exact R'.
Qed.

(** ** Waiting *)

Lemma wait_scan_ok c l : forall fuel s tp g,
  queue_is (fun i => t_next (tasks s i)) tp l -> (length l <= fuel)%nat ->
  wait_scan fuel s tp c g =
  match List.find (fun i => is_child s c i && is_zombie s i) l with
  | Some i => m ← kfree_page (kmm s) (t_kstack (tasks s i));
              Ret (set_task (set_kmm s m) i (reaped (tasks s i)), Some (t_pid (tasks s i)), true)
  | None => Ret (s, None, g || existsb (is_child s c) l)
  end.
Proof.
  induction l as [|x l IH]; intros fuel s tp g Hq Hf; cbn [queue_is] in Hq.
  - subst tp. destruct fuel; cbn [wait_scan List.find existsb]; by rewrite orb_false_r.
  - destruct Hq as [-> Hq]. destruct fuel as [|k]; [cbn [length] in Hf; lia|].
    cbn [length] in Hf. cbn [wait_scan List.find existsb]. unfold is_child at 1 3, is_zombie at 1.
    destruct (decide (t_parent (tasks s x) <> Some c)) as [E|E].
    + rewrite bool_decide_eq_false_2 by done. cbn [andb orb]. apply IH; [done|lia].
    + apply dec_stable in E. rewrite bool_decide_eq_true_2 by done. cbn [andb orb].
      case_decide as Ez; [by rewrite bool_decide_eq_true_2|].
      rewrite bool_decide_eq_false_2 by done. rewrite IH by (done || lia). by rewrite orb_true_r.
Qed.

(** ** The task list after a slot is linked twice *)

Lemma wakeup_loop_endless chan (C : list nat) : forall fuel s i,
  (forall j, j ∈ C -> exists k, t_next (tasks s j) = Some k /\ k ∈ C) -> i ∈ C ->
  wakeup_loop fuel s (Some i) chan = Stop Fuel.
Proof.
  induction fuel as [|f IH]; intros s i HC Hi; [done|]. cbn [wakeup_loop].
  destruct (HC i Hi) as (k & Ek & Hk). rewrite Ek. apply IH; [|done].
  intros j Hj. destruct (HC j Hj) as (k' & E' & Hk'). exists k'. split; [|done].
  case_decide; [|done]. cbn [set_task tasks]. unfold upd. case_decide as Ej; [by subst j|done].
Qed.

Lemma queue_head nx q l1 (i : nat) l2 : queue_is nx q (l1 ++ i :: l2) -> exists k, q = Some k /\ k ∈ l1 ++ [i].
Proof.
  destruct l1 as [|a l1]; cbn [app queue_is]; intros [-> _]; eexists; (split; [done|]); left.
Qed.

Lemma link_twice s l i : task_list s l -> i ∈ l ->
  forall fuel chan, wakeup_loop fuel (task_link s i) (rootp (task_link s i)) chan = Stop Fuel.
Proof.
  intros [H1 H2 _] Hi fuel chan. apply list_elem_of_split in Hi as (l1 & l2 & ->).
  change (rootp (task_link s i)) with (Some i). apply (wakeup_loop_endless chan (l1 ++ [i])).
  2: { apply elem_of_app. right. left. }
  intros j Hj. unfold task_link. cbn [set_rootp set_task tasks]. apply NoDup_app in H2 as (_ & H2 & _).
  unfold upd. case_decide as E.
  - subst j. cbn [t_next with_next]. by apply (queue_head _ _ _ _ _ H1).
  - apply elem_of_app in Hj as [Hj|Hj]; [|by apply list_elem_of_singleton in Hj].
    apply list_elem_of_split in Hj as (a & b & ->). rewrite <- app_assoc in H1. cbn [app] in H1.
    pose proof (queue_split _ _ _ _ _ H1) as H1'. apply queue_head in H1' as (k & Ek & Hk).
    exists k. split; [exact Ek|].
    rewrite <- app_assoc. apply elem_of_app. right. cbn [app]. by right.
Qed.

(** ** Tasks over [exit] and [wait] *)

Lemma adopted_fields s l b c chan i :
  let t := tasks s i in let t' := adopted s l b c chan i in
  t_chan t' = t_chan t /\ t_pid t' = t_pid t /\ t_kstack t' = t_kstack t /\
  (t_state t' = t_state t \/ t_state t = TS_STOPPED /\ t_state t' = TS_RUNNABLE).
Proof.
  cbn zeta. unfold adopted, woken_up. cbn zeta.
  destruct (existsb _ _); repeat case_decide; cbn; tauto.
Qed.

Lemma adopted_parent s l c chan i :
  i ∈ l -> t_parent (adopted s l l c chan i) =
           if is_child s c i then inittask s else t_parent (tasks s i).
Proof.
  intros Hi. unfold adopted, is_child. cbn zeta.
  set (t := if existsb _ _ then _ else _).
  assert (E : t_parent t = t_parent (tasks s i)).
  { unfold t. destruct (existsb _ _); [apply woken_up_parent|done]. }
  rewrite E. case_decide as D.
  - by rewrite bool_decide_eq_true_2 by tauto.
  - rewrite bool_decide_eq_false_2 by tauto. exact E.
Qed.

Lemma wait_ok ptr s l c g :
  task_list s l -> current s = Some c ->
  wait ptr s g =
  match List.find (fun i => is_child s c i && is_zombie s i) l with
  | Some i => m ← kfree_page (kmm s) (t_kstack (tasks s i));
              Ret (set_task (set_kmm s m) i (reaped (tasks s i)), WaitDone (t_pid (tasks s i)))
  | None => if g || existsb (is_child s c) l
            then Ret (set_task s c (with_state (with_chan (tasks s c) (ptr c)) TS_STOPPED), WaitSleep)
            else Ret (s, WaitDone (-1))
  end.
Proof.
  intros Hl Hc. unfold wait. rewrite Hc. cbn [deref mbind outcome_bind].
  pose proof (slots_length _ (tl_nodup _ _ Hl) (tl_slots _ _ Hl)) as Hlen.
  rewrite (wait_scan_ok c l) by (apply Hl || lia).
  destruct (List.find _ l) as [i|].
  - by destruct (kfree_page _ _).
  - cbn [mbind outcome_bind]. destruct (g || _); cbn [negb]; [|done].
    unfold sleep_on. by rewrite Hc.
Qed.

Lemma find_unique {A} (f : A -> bool) l x :
  x ∈ l -> f x = true -> (forall y, y ∈ l -> f y = true -> y = x) -> List.find f l = Some x.
Proof.
  intros Hx Hf Hu. destruct (List.find f l) as [y|] eqn:E.
  - apply find_some in E as [Hy Hfy]. f_equal. apply Hu; [by apply list_elem_of_In|done].
  - apply List.find_none with (x := x) in E; [congruence|by apply list_elem_of_In].
Qed.

(** What [exit] leaves of the tasks of the list. *)
Lemma exit_tasks ptr s l c p junk :
  task_list s l -> current s = Some c -> junk <> inittask s -> c ∈ l -> p <> c ->
  t_parent (tasks s c) = Some p ->
  exists s', exit_ ptr s junk = Ret s' /\ task_list s' l /\ same_rest s s' /\
    t_state (tasks s' c) = TS_ZOMBIE /\
    (forall i, t_pid (tasks s' i) = t_pid (tasks s i) /\ t_kstack (tasks s' i) = t_kstack (tasks s i)) /\
    (forall i, i ∈ l -> t_parent (tasks s' i) = if is_child s c i then inittask s else t_parent (tasks s i)) /\
    (forall i, i <> c -> t_state (tasks s' i) = TS_ZOMBIE -> t_state (tasks s i) = TS_ZOMBIE) /\
    (p ∈ l -> t_state (tasks s p) = TS_STOPPED -> t_chan (tasks s p) = ptr p ->
     t_state (tasks s' p) = TS_RUNNABLE).
Proof.
  intros Hl Hc Hj Hin Hpc Hp.
  destruct (exit_ok ptr s l c junk Hl Hc Hj) as (s1 & s' & R1 & T1 & E & L' & R' & T'). cbn zeta in T'.
  set (chan0 := ptr_of ptr (inittask s)) in *. set (s2 := set_task s1 c _) in *.
  assert (T2c : tasks s2 c = with_state (adopted s l l c chan0 c) TS_ZOMBIE).
  { unfold s2. cbn [set_task tasks]. by rewrite upd_same, T1. }
  assert (T2 : forall i, i <> c -> tasks s2 i = adopted s l l c chan0 i).
  { intros i Hi. unfold s2. cbn [set_task tasks]. by rewrite upd_other, T1. }
  assert (P2 : t_parent (tasks s2 c) = Some p).
  { rewrite T2c. cbn [t_parent with_state]. rewrite adopted_parent by done. unfold is_child.
    rewrite bool_decide_eq_false_2 by congruence. exact Hp. }
  rewrite P2 in T'. cbn [ptr_of] in T'.
  exists s'. split; [exact E|]. split; [done|]. split; [done|].
  split; [rewrite T'; apply woken_up_zombie; by rewrite T2c|].
  split; [|split; [|split]].
  - intros i. pose proof (adopted_fields s l l c chan0 i) as (_ & F1 & F2 & _). rewrite T'.
    unfold woken_up. cbn zeta. destruct (decide (i = c)) as [->|Hi].
    + rewrite T2c. by case_decide; cbn [t_pid t_kstack with_state].
    + rewrite T2 by done. by case_decide; cbn [t_pid t_kstack with_state].
  - intros i Hi. rewrite T', woken_up_parent. destruct (decide (i = c)) as [->|Hic].
    + rewrite T2c. cbn [t_parent with_state]. by apply adopted_parent.
    + rewrite T2 by done. by apply adopted_parent.
  - intros i Hi Hz. rewrite T' in Hz. apply woken_up_zombie in Hz. rewrite T2 in Hz by done.
    pose proof (adopted_fields s l l c chan0 i) as (_ & _ & _ & [F|[_ F]]); congruence.
  - intros Hpl Hst Hch. rewrite T'. unfold woken_up. cbn zeta. rewrite T2 by done.
    pose proof (adopted_fields s l l c chan0 p) as (F1 & _ & _ & F4).
    case_decide as D; [done|]. destruct F4 as [F4|[_ F4]]; [|done].
    exfalso. apply D. split; [done|]. split; congruence.
Qed.

Lemma demo_list ts cur n :
  (n <= NPROC)%nat -> queue_is (fun i => t_next (tasks (demo_kern ts cur) i)) (Some 0%nat) (seq 0 n) ->
  task_list (demo_kern ts cur) (seq 0 n).
Proof.
  intros Hn Hq. split; [exact Hq|apply NoDup_seq|]. apply Forall_forall. intros i Hi.
  apply elem_of_seq in Hi. lia.
Qed.

(** ** Properties *)

(** [wakeup] returns, makes exactly the listed tasks that sleep on the
    channel runnable, and changes nothing else of the kernel's state. *)
Lemma wakeup_spec (s : kern) (l : list nat) (chan : Z) (Hl : task_list s l) :
  exists s', wakeup s chan = Ret s' /\ same_rest s s' /\
    forall i, tasks s' i =
      if decide (i ∈ l /\ t_state (tasks s i) = TS_STOPPED /\ t_chan (tasks s i) = chan)
      then with_state (tasks s i) TS_RUNNABLE else tasks s i.
Proof. exact (wakeup_ok s l chan Hl). Qed.


(** C18. [yield] gives the processor to the first runnable task behind the
    caller in the list, taken as a ring: the caller becomes runnable, the chosen
    task running with its kernel stack in the TSS, all others keep their state.
    If no other task is runnable the caller keeps the processor. *)
Theorem yield_spec (s : kern) (l1 l2 : list nat) (c : nat)
  (Hl : task_list s (l1 ++ c :: l2)) (Hc : current s = Some c) :
  match first_runnable s (l2 ++ l1) with
  | Some i => exists s' k, yield s = Ret (s', Some k) /\ sc_tp k = i /\ current s' = Some i /\
      task_list s' (l1 ++ c :: l2) /\
      t_state (tasks s' i) = TS_RUNNING /\ tss_esp0 s' = t_kstack (tasks s i) + KSTACKSIZE /\
      t_state (tasks s' c) = TS_RUNNABLE /\
      forall j, j <> i -> j <> c -> tasks s' j = tasks s j
  | None => exists s', yield s = Ret (s', None) /\ current s' = Some c /\
      forall j, j <> c -> tasks s' j = tasks s j
  end.
Proof.
  unfold yield. rewrite Hc. cbn [deref mbind outcome_bind]. set (s1 := set_task s c _).
  assert (O : forall j, j <> c -> tasks s1 j = tasks s j).
  { intros j Hj. unfold s1. cbn [set_task tasks]. by rewrite upd_other. }
  assert (Sc : tasks s1 c = with_state (tasks s c) TS_RUNNABLE).
  { unfold s1. cbn [set_task tasks]. by rewrite upd_same. }
  assert (N : forall j, t_next (tasks s1 j) = t_next (tasks s j)).
  { intros j. destruct (decide (j = c)) as [->|H]; [by rewrite Sc|by rewrite O]. }
  assert (L1 : task_list s1 (l1 ++ c :: l2)) by (apply (task_list_ext s); [done|intros j _; apply N|done]).
  destruct (rot_not_c s l1 l2 c Hl) as [Hc2 Hc1].
  rewrite <- (first_runnable_ext s s1).
  2: { intros j Hj. rewrite O; [done|]. intros ->. apply elem_of_app in Hj. tauto. }
  pose proof (sched_yield_ok s1 l1 l2 c L1 Hc) as H.
  destruct (first_runnable s1 (l2 ++ l1)) as [i|] eqn:Ef; [|by exists s1].
  destruct H as (s' & k & E & Hi & (R1 & R2 & _ & R4 & R5 & R6 & R7 & R8 & _)).
  assert (Hic : i <> c).
  { destruct (first_runnable_split _ _ _ Ef) as (x & y & Ex & _). intros ->.
    assert (Hx : c ∈ l2 ++ l1) by (rewrite Ex; apply elem_of_app; right; left). apply elem_of_app in Hx. tauto. }
  exists s', k. rewrite Sc in R6. cbn [t_state with_state] in R6. rewrite decide_False in R6 by done.
  rewrite O in R5 by done. repeat (split; [done|]). split.
  - apply (task_list_ext s1); [done|intros j _; apply R7|done].
  - split; [done|]. split; [done|]. split; [by rewrite R6|].
    intros j H1 H2. rewrite R8 by done. by apply O.
Qed.

Lemma yield_spec_witness :
  let s := demo_kern [demo_task 1 TS_RUNNABLE 0 0 None (Some 1%nat); demo_task 2 TS_RUNNING 0 0 None (Some 2%nat);
                      demo_task 3 TS_STOPPED 8 0 None None] 1 in
  exists s' k, yield s = Ret (s', Some k) /\ sc_tp k = 0%nat /\ current s' = Some 0%nat /\
    task_list s' [0; 1; 2]%nat /\
    t_state (tasks s' 0%nat) = TS_RUNNING /\ tss_esp0 s' = t_kstack (tasks s 0%nat) + KSTACKSIZE /\
    t_state (tasks s' 1%nat) = TS_RUNNABLE /\
    forall j, j <> 0%nat -> j <> 1%nat -> tasks s' j = tasks s j.
Proof.
  cbn zeta. set (s := demo_kern _ _).
  apply (yield_spec s [0%nat] [2%nat] 1%nat); [|reflexivity].
  apply (demo_list _ _ 3); [vm_compute; lia|]. repeat split.
Defined.



(** [wait] of a task on a well-formed list: it reaps the first zombie child
    of the list if there is one; otherwise it returns -1 if there has never been
    a child during the call, and else sleeps on the caller's own address. *)
Lemma wait_spec (task_ptr : nat -> Z) (s : kern) (l : list nat) (c : nat) (get_child : bool)
  (Hl : task_list s l) (Hc : current s = Some c) :
  wait task_ptr s get_child =
  match List.find (fun i => is_child s c i && is_zombie s i) l with
  | Some i => m ← kfree_page (kmm s) (t_kstack (tasks s i));
              Ret (set_task (set_kmm s m) i (reaped (tasks s i)), WaitDone (t_pid (tasks s i)))
  | None => if get_child || existsb (is_child s c) l
            then Ret (set_task s c (with_state (with_chan (tasks s c) (task_ptr c)) TS_STOPPED), WaitSleep)
            else Ret (s, WaitDone (-1))
  end.
Proof. exact (wait_ok task_ptr s l c get_child Hl Hc). Qed.


(** C31. [wait] leaves the reaped task on the list and [fork] links whatever slot
    [task_alloc] returns: linking a slot that is still listed makes the list
    cyclic, and [wakeup] does not end, whatever the number of steps. *)
Theorem relink_endless (s : kern) (l : list nat) (i : nat) (Hl : task_list s l) (Hi : i ∈ l) :
  forall fuel chan, wakeup_loop fuel (task_link s i) (rootp (task_link s i)) chan = Stop Fuel.
Proof. exact (link_twice s l i Hl Hi). Qed.

Lemma relink_endless_witness :
  let s := demo_kern [demo_task 1 TS_RUNNING 0 0 None (Some 1%nat); demo_task 0 TS_UNUSED 0 0 None None] 0 in
  free_slot s = Some 1%nat /\
  forall fuel chan, wakeup_loop fuel (task_link s 1) (rootp (task_link s 1)) chan = Stop Fuel.
Proof.
  cbn zeta. split; [reflexivity|]. apply (relink_endless _ [0; 1]%nat).
  - apply (demo_list _ _ 2); [vm_compute; lia|]. repeat split.
  - right. left.
Defined.
