(* ===== verification/Console.v ===== *)
(** * The console

    drv/console.c and the transmit side of drv/serial.c: the text screen in
    video memory, its cursor, the colours, and the ring of typed characters
    that interrupt handlers fill and readers empty.  Video memory is the byte
    memory at [P2V(CGA_START)], two bytes a cell; what the code sends to ports
    and whom it wakes is a log.  The line status of the serial port is
    hardware, given by the class [Uart]. *)

From stdpp Require Import base list relations.
From Stdlib Require Import ZArith Lia.
From S2P Require Import Prelude Mmu CString.

Open Scope Z_scope.

(** ** Constants (inc/console.h, drv/console.c, drv/serial.c) *)

Definition CGA_START : Z := 753664.   (* 0xB8000 *)

Definition CGA_BASE : Z := 980.       (* 0x3D4 *)

Definition CONS_ROWS : Z := 25.

Definition CONS_COLS : Z := 80.

Definition CONS_SIZE : Z := CONS_ROWS * CONS_COLS.

Definition TAB_WIDTH : Z := 8.

Definition BRIGHT_GREEN : Z := 10.

Definition BLANK_CHAR : Z := Z.lor (Z.shiftl BRIGHT_GREEN 8) 32.

Definition CEIL (num base : Z) : Z := (num / base + 1) * base.

Definition COM1 : Z := 1016.          (* 0x3F8 *)

(** ** State *)

Inductive event : Type :=
  | Outb (port v : Z)
  | WakeReaders.                      (* wakeup(&cbuf.rpos) *)

Record console : Type := mkConsole {
  vram : memory;
  cons_pos : Z;
  default_color : Z;
  dcolor : Z;
  cb_buf : Z -> Z;
  cb_rpos : Z;
  cb_wpos : Z;
  timer_flag : Z;
  has_serial : bool;
  log : list event
}.

Definition set_vram (s : console) (m : memory) : console :=
  mkConsole m (cons_pos s) (default_color s) (dcolor s) (cb_buf s) (cb_rpos s) (cb_wpos s)
            (timer_flag s) (has_serial s) (log s).

Definition set_pos (s : console) (p : Z) : console :=
  mkConsole (vram s) p (default_color s) (dcolor s) (cb_buf s) (cb_rpos s) (cb_wpos s)
            (timer_flag s) (has_serial s) (log s).

Definition set_dcolor (s : console) (c : Z) : console :=
  mkConsole (vram s) (cons_pos s) (default_color s) c (cb_buf s) (cb_rpos s) (cb_wpos s)
            (timer_flag s) (has_serial s) (log s).

Definition set_ring (s : console) (b : Z -> Z) (r w : Z) : console :=
  mkConsole (vram s) (cons_pos s) (default_color s) (dcolor s) b r w
            (timer_flag s) (has_serial s) (log s).

Definition add_log (s : console) (l : list event) : console :=
  mkConsole (vram s) (cons_pos s) (default_color s) (dcolor s) (cb_buf s) (cb_rpos s) (cb_wpos s)
            (timer_flag s) (has_serial s) (log s ++ l).

(** [cons_buf[i]] *)
Definition cons_buf : Z := P2V CGA_START.

Definition get_cell (m : memory) (i : Z) : Z := load16 m (cons_buf + 2 * i).

Definition set_cell (m : memory) (i v : Z) : memory := store16 m (cons_buf + 2 * i) v.

(** [n] cells from [i] on get the value [v]. *)
Fixpoint fill_cells (n : nat) (m : memory) (i v : Z) : memory :=
  match n with
  | O => m
  | S k => fill_cells k (set_cell m i v) (i + 1) v
  end.

(** ** The screen *)

Definition put_cursor (s : console) (pos : Z) : console :=
  add_log s [Outb CGA_BASE 14; Outb (CGA_BASE + 1) (u8 (Z.shiftr pos 8));
             Outb CGA_BASE 15; Outb (CGA_BASE + 1) (u8 pos)].

(** [hi] and [lo] are what the data port answers for the registers 14 and 15. *)
Definition locate_cursor (s : console) (hi lo : Z) : console * Z :=
  (add_log s [Outb CGA_BASE 14; Outb CGA_BASE 15], Z.lor (u16 (Z.shiftl hi 8)) lo).

Definition clean_screen (s : console) : console :=
  put_cursor (set_pos (set_vram s (fill_cells (Z.to_nat CONS_SIZE) (vram s) 0 BLANK_CHAR)) 0) 0.

Definition get_cursor (s : console) : Z * Z := (cons_pos s mod CONS_COLS, cons_pos s / CONS_COLS).

Definition set_cursor (s : console) (x y : Z) : console :=
  let p := u16 (y * CONS_COLS + x) in put_cursor (set_pos s p) p.

Definition cons_init (s : console) : console :=
  clean_screen (set_ring (set_pos s 0) (cb_buf s) 0 0).

Definition settextcolor (s : console) (forecolor backcolor : Z) : console :=
  set_dcolor s (u8 (Z.lor (Z.shiftl (u8 backcolor) 4) (Z.land (u8 forecolor) 15))).

Definition resettextcolor (s : console) : console := set_dcolor s (default_color s).

(** The attribute byte in the high half of a cell. *)
Definition attribute (s : console) : Z := u16 (Z.shiftl (dcolor s) 8).

(** The switch on the character; [c] is a signed [char]. *)
Definition putc_write (s : console) (c : Z) : console :=
  let pos := cons_pos s in
  if decide (c = 8) then
    if decide (pos > 0) then set_pos (set_vram s (set_cell (vram s) (pos - 1) BLANK_CHAR)) (pos - 1) else s
  else if decide (c = 10 \/ c = 13) then
    let p := u16 (pos + CONS_COLS) in set_pos s (u16 (p - p mod CONS_COLS))
  else if decide (c = 9) then
    let cnt := CEIL pos TAB_WIDTH - pos in
    set_pos (set_vram s (fill_cells (Z.to_nat cnt) (vram s) pos (Z.lor (attribute s) 32))) (u16 (pos + cnt))
  else
    set_pos (set_vram s (set_cell (vram s) pos (Z.lor (attribute s) c))) (u16 (pos + 1)).

(** Scrolling, which leaves the top row alone. *)
Definition putc_scroll (s : console) : console :=
  if decide (cons_pos s >= CONS_SIZE) then
    let m := memmove (vram s) (cons_buf + 2 * CONS_COLS) (cons_buf + 2 * (CONS_COLS * 2))
                     ((CONS_SIZE - CONS_COLS * 2) * 2) in
    set_pos (set_vram s (fill_cells (Z.to_nat CONS_COLS) m (CONS_SIZE - CONS_COLS) (Z.lor (attribute s) 32)))
            (u16 (cons_pos s - CONS_COLS))
  else s.

Definition putc_to_console (s : console) (c : Z) : console :=
  let s := putc_scroll (putc_write s (s8 c)) in put_cursor s (cons_pos s).

(** ** Serial output *)

(** The line status register at the [k]-th poll after the given log; the
    transmitter gets ready within [uart_patience] polls. *)
Class Uart : Type := {
  uart_status : list event -> nat -> Z;
  uart_patience : nat;
  uart_ready : forall l, exists k, (k < uart_patience)%nat /\ Z.land (uart_status l k) 32 <> 0
}.

Section Device.

Context `{uart : Uart}.

(** [while((inb(COM1 + 5) & 0x20) == 0);] *)
Fixpoint serial_wait (fuel : nat) (l : list event) (k : nat) : outcome unit :=
  match fuel with
  | O => Stop Fuel
  | S f => if decide (Z.land (uart_status l k) 32 = 0) then serial_wait f l (S k) else Ret tt
  end.

Definition serial_byte (s : console) (c : Z) : outcome console :=
  _ ← serial_wait uart_patience (log s) 0; Ret (add_log s [Outb COM1 (u8 c)]).

Definition write_serial (s : console) (c : Z) : outcome console :=
  if has_serial s then
    s1 ← serial_byte s c;
    if decide (c = 13) then serial_byte s1 10 else Ret s1
  else Ret s.

Definition put_c (s : console) (c : Z) : outcome console :=
  let s1 := putc_to_console s c in
  if decide (timer_flag s1 = 0) then write_serial s1 (s8 c) else Ret s1.

Definition put_color_c (s : console) (color c : Z) : outcome console :=
  s1 ← put_c (set_dcolor s (u8 color)) c; Ret (set_dcolor s1 (dcolor s)).

(** ** The ring of typed characters *)

(** [c = cbuf.buf[cbuf.rpos++]; ...] *)
Definition get_c_take (s : console) : console * Z :=
  let c := cb_buf s (cb_rpos s) in
  let r := cb_rpos s + 1 in
  (set_ring s (cb_buf s) (if decide (r = CONS_SIZE) then 0 else r) (cb_wpos s), c).

(** A blocking call on an empty ring goes to sleep.  The statement behind the
    [sleep_on] is [get_c_take]; whether it is ever reached is the scheduler's
    business (Task.v: the context of a sleeper is not saved). *)
Definition get_c (s : console) (chan : Z) (block : bool) : outcome (console * Z) :=
  if decide (cb_rpos s = cb_wpos s) then
    if block then Stop (Sleep chan) else Ret (s, -1)
  else Ret (get_c_take s).

(** One turn of the loop of [console_isr], for a value other than -1. *)
Definition console_char (s : console) (c : Z) : outcome console :=
  if decide (c = 0) then Ret s
  else
    let val := s8 c in
    let w := cb_wpos s + 1 in
    let b := fun i => if decide (i = cb_wpos s) then val else cb_buf s i in
    let s1 := add_log (set_ring s b (cb_rpos s) (if decide (w >= CONS_SIZE) then 0 else w)) [WakeReaders] in
    if decide (val <= 127) then put_c s1 val else Ret s1.

(** [console_isr] when [getc] yields the values [cs] and then -1. *)
Fixpoint console_isr (s : console) (cs : list Z) : outcome console :=
  match cs with
  | [] => Ret s
  | c :: cs' => s1 ← console_char s c; console_isr s1 cs'
  end.

End Device.

(** ** Specification *)

Definition cell (s : console) (i : Z) : Z := get_cell (vram s) i.

(** The cursor is on the screen. *)
Definition screen_ok (s : console) : Prop := bytes_ok (vram s) /\ 0 <= cons_pos s < CONS_SIZE.

Definition printable (c : Z) : Prop := 32 <= c < 127.

(** The text [cs] stands in front of the cursor. *)
Definition shows_text (s : console) (cs : list Z) : Prop :=
  80 + Z.of_nat (length cs) <= cons_pos s /\
  forall j c, cs !! j = Some c ->
    cell s (cons_pos s - Z.of_nat (length cs) + Z.of_nat j) = Z.lor (attribute s) c.

Fixpoint put_text (s : console) (cs : list Z) : console :=
  match cs with
  | [] => s
  | c :: cs' => put_text (putc_to_console s c) cs'
  end.

(** The ring holds the characters [q], oldest first. *)
Record ring_holds (s : console) (q : list Z) : Prop := {
  rh_rpos : 0 <= cb_rpos s < CONS_SIZE;
  rh_wpos : cb_wpos s = (cb_rpos s + Z.of_nat (length q)) mod CONS_SIZE;
  rh_room : Z.of_nat (length q) < CONS_SIZE;
  rh_cells : forall j c, q !! j = Some c -> cb_buf s ((cb_rpos s + Z.of_nat j) mod CONS_SIZE) = c
}.

(** Nothing of the ring changed. *)
Definition same_ring (s s' : console) : Prop :=
  cb_buf s' = cb_buf s /\ cb_rpos s' = cb_rpos s /\ cb_wpos s' = cb_wpos s.

(** A console after start-up, and a serial port that is always ready. *)
Definition blank_console : console :=
  mkConsole (fun _ => 0) 80 10 10 (fun _ => 0) 0 0 0 true [].

Definition ready_uart : Uart.
Proof. refine {| uart_status := fun _ _ => 32; uart_patience := 1 |}. intros l. exists 0%nat. split; [lia|done]. Defined.

(** Every field is a value of its C type, and every index is in its array. *)
Record console_wf (s : console) : Prop := {
  cw_bytes : bytes_ok (vram s);
  cw_pos : 0 <= cons_pos s < CONS_SIZE;
  cw_default : 0 <= default_color s < 256;
  cw_color : 0 <= dcolor s < 256;
  cw_rpos : 0 <= cb_rpos s < CONS_SIZE;
  cw_wpos : 0 <= cb_wpos s < CONS_SIZE;
  cw_chars : forall i, -128 <= cb_buf s i < 128
}.

(** What the kernel does with the console; [CWoken] is the statement behind
    the [sleep_on], run whether or not a character is there. *)
Inductive cstep `{Uart} : console -> console -> Prop :=
  | CPut s s' c : put_c s c = Ret s' -> cstep s s'
  | CPutColor s s' color c : put_color_c s color c = Ret s' -> cstep s s'
  | CColor s fore back : cstep s (settextcolor s fore back)
  | CReset s : cstep s (resettextcolor s)
  | CClean s : cstep s (clean_screen s)
  | CInit s : cstep s (cons_init s)
  | CCursor s x y : 0 <= x < CONS_COLS -> 0 <= y < CONS_ROWS -> cstep s (set_cursor s x y)
  | CGet s s' chan block c : get_c s chan block = Ret (s', c) -> cstep s s'
  | CWoken s : cstep s (get_c_take s).1
  | CTyped s s' cs : console_isr s cs = Ret s' -> cstep s s'.

Definition window_only (s s' : console) : Prop :=
  agree_outside cons_buf (cons_buf + 2 * CONS_SIZE) (vram s) (vram s').

(** What readers and interrupts do with the ring, and with a queue: the byte 0
    is not stored, a character typed on a full ring loses all that wait, a
    blocking read of an empty ring goes to sleep, which ends the run. *)
Inductive cons_op : Type :=
  | Typed (c : Z)
  | GetC (block : bool).

Definition queue_put (q : list Z) (c : Z) : list Z :=
  if decide (c = 0) then q
  else if decide (Z.of_nat (length q) + 1 < CONS_SIZE) then q ++ [s8 c] else [].

Fixpoint queue_run (q : list Z) (ops : list cons_op) : outcome (list Z * list Z) :=
  match ops with
  | [] => Ret (q, [])
  | Typed c :: ops' => queue_run (queue_put q c) ops'
  | GetC block :: ops' =>
      match q with
      | [] =>
          if block then Stop (Sleep 0)
          else '(q', r) ← queue_run [] ops'; Ret (q', (-1) :: r)
      | c :: q1 => '(q', r) ← queue_run q1 ops'; Ret (q', c :: r)
      end
  end.

Fixpoint cons_run `{Uart} (s : console) (ops : list cons_op) : outcome (console * list Z) :=
  match ops with
  | [] => Ret (s, [])
  | Typed c :: ops' => s1 ← console_isr s [c]; cons_run s1 ops'
  | GetC block :: ops' =>
      '(s1, c) ← get_c s 0 block;
      '(s2, r) ← cons_run s1 ops'; Ret (s2, c :: r)
  end.

(** The console does what the queue does, to the last stop. *)
Definition runs_as `{Uart} (s : console) (ops : list cons_op) (o : outcome (list Z * list Z)) : Prop :=
  match o with
  | Ret (q', r) => exists s', cons_run s ops = Ret (s', r) /\ ring_holds s' q'
  | Stop e => cons_run s ops = Stop e
  end.

(** ** Lemmas: the cursor *)

(** [locate_cursor] finds what [put_cursor] wrote. *)
Lemma locate_put s pos : 0 <= pos < 65536 ->
  (locate_cursor (put_cursor s pos) (u8 (Z.shiftr pos 8)) (u8 pos)).2 = pos.
Proof.
  intros Hp. cbn [locate_cursor snd]. rewrite Z.shiftr_div_pow2, Z.shiftl_mul_pow2 by lia. change (2 ^ 8) with 256.
  rewrite (lor_low_add _ _ 8); unfold u8, u16; modlia.
Qed.

(** ** Lemmas: cells *)

Lemma get_set_same m i v : get_cell (set_cell m i v) i = u16 v.
Proof. apply load16_store16_same. Qed.

Lemma get_set_other m i j v : i <> j -> get_cell (set_cell m i v) j = get_cell m j.
Proof. intros H. apply load16_store16_other. lia. Qed.

Lemma fill_cells_get n : forall m i v j,
  get_cell (fill_cells n m i v) j = if decide (i <= j < i + Z.of_nat n) then u16 v else get_cell m j.
Proof.
  induction n as [|n IH]; intros m i v j; cbn [fill_cells].
  - rewrite decide_False by lia. done.
  - rewrite IH. destruct (decide (i = j)) as [->|Hij].
    + rewrite decide_False by lia. rewrite decide_True by lia. apply get_set_same.
    + rewrite get_set_other by done. repeat case_decide; lia || done.
Qed.

Lemma fill_cells_outside n : forall m i v,
  agree_outside (cons_buf + 2 * i) (cons_buf + 2 * (i + Z.of_nat n)) m (fill_cells n m i v).
Proof.
  induction n as [|n IH]; intros m i v; cbn [fill_cells]; [apply agree_outside_refl|].
  apply (agree_outside_trans _ _ _ (set_cell m i v)).
  - eapply agree_outside_weaken; [| |apply store16_outside]; lia.
  - eapply agree_outside_weaken; [| |apply IH]; lia.
Qed.

Lemma fill_cells_ok n : forall m i v, bytes_ok m -> bytes_ok (fill_cells n m i v).
Proof. induction n as [|n IH]; intros m i v H; [done|]. cbn [fill_cells]. apply IH. by apply store16_bytes_ok. Qed.

Lemma scroll_cells s j :
  bytes_ok (vram s) -> cons_pos s >= CONS_SIZE ->
  cell (putc_scroll s) j =
    if decide (80 <= j < 1920) then cell s (j + 80)
    else if decide (1920 <= j < 2000) then u16 (Z.lor (attribute s) 32) else cell s j.
Proof.
  intros Hb Hp. unfold putc_scroll. rewrite decide_True by done. unfold cell. cbn [set_pos set_vram vram].
  rewrite fill_cells_get. unfold CONS_SIZE, CONS_ROWS, CONS_COLS. cbn [Z.to_nat].
  destruct (decide (80 <= j < 1920)) as [H|H].
  - rewrite decide_False by lia. unfold get_cell, load16. rewrite !memmove_byte by (done || lia).
    rewrite !decide_True by lia. f_equal; [f_equal; lia|]. f_equal. f_equal. lia.
  - case_decide; [by rewrite decide_True by lia|]. rewrite decide_False by lia.
    unfold get_cell, load16. rewrite !memmove_byte by (done || lia). rewrite !decide_False by lia. done.
Qed.

Lemma scroll_mem s :
  bytes_ok (vram s) ->
  bytes_ok (vram (putc_scroll s)) /\
  agree_outside (cons_buf + 160) (cons_buf + 4000) (vram s) (vram (putc_scroll s)).
Proof.
  intros Hb. unfold putc_scroll. case_decide; [|split; [done|apply agree_outside_refl]].
  cbn [set_pos set_vram vram]. unfold CONS_SIZE, CONS_ROWS, CONS_COLS. split.
  - apply fill_cells_ok. by apply memmove_bytes_ok.
  - eapply agree_outside_trans.
    2: { eapply agree_outside_weaken; [| |apply fill_cells_outside]; lia. }
    eapply agree_outside_weaken; [| |apply memmove_outside; [done|lia]]; lia.
Qed.

Lemma cell_agree lo hi s s' i :
  agree_outside lo hi (vram s) (vram s') -> cons_buf + 2 * i + 2 <= lo \/ hi <= cons_buf + 2 * i ->
  cell s' i = cell s i.
Proof. intros H Hi. unfold cell, get_cell, load16. rewrite !H by lia. done. Qed.

(** ** Lemmas: one character *)

Lemma putc_write_ok s c :
  screen_ok s ->
  let s' := putc_write s c in
  bytes_ok (vram s') /\ 0 <= cons_pos s' <= CONS_SIZE /\ (c <> 8 -> cons_pos s < cons_pos s') /\
  agree_outside (cons_buf + 2 * (if decide (c = 8) then cons_pos s - 1 else cons_pos s)) (cons_buf + 4000)
                (vram s) (vram s') /\
  dcolor s' = dcolor s.
Proof.
  intros [Hb Hp]. cbn zeta. unfold putc_write, CONS_SIZE, CONS_ROWS, CONS_COLS, CEIL, TAB_WIDTH in *.
  destruct (decide (c = 8)) as [E8|E8].
  - case_decide as D; cbn [set_pos set_vram vram cons_pos dcolor].
    + split; [by apply store16_bytes_ok|]. split; [lia|]. split; [done|]. split; [|done].
      eapply agree_outside_weaken; [| |apply store16_outside]; lia.
    + split; [done|]. split; [lia|]. split; [done|]. split; [apply agree_outside_refl|done].
  - case_decide; cbn [set_pos set_vram vram cons_pos dcolor].
    + split; [done|]. unfold u16. split; [modlia|]. split; [intros _; modlia|].
      split; [apply agree_outside_refl|done].
    + case_decide; cbn [set_pos set_vram vram cons_pos dcolor].
      * split; [by apply fill_cells_ok|]. rewrite u16_small by modlia. split; [modlia|].
        split; [intros _; modlia|]. split; [|done].
        eapply agree_outside_weaken; [| |apply fill_cells_outside]; [lia|].
        rewrite Z2Nat.id by modlia. modlia.
      * split; [by apply store16_bytes_ok|]. rewrite u16_small by lia. split; [lia|].
        split; [intros _; lia|]. split; [|done].
        eapply agree_outside_weaken; [| |apply store16_outside]; lia.
Qed.

Lemma scroll_pos s :
  0 <= cons_pos s <= CONS_SIZE ->
  cons_pos (putc_scroll s) = if decide (cons_pos s = CONS_SIZE) then CONS_SIZE - CONS_COLS else cons_pos s.
Proof.
  intros H. unfold putc_scroll, CONS_SIZE, CONS_ROWS, CONS_COLS in *.
  case_decide as D; cbn [set_pos cons_pos].
  - rewrite decide_True by lia. rewrite u16_small by lia. lia.
  - by rewrite decide_False by lia.
Qed.

Lemma putc_ok s c :
  screen_ok s ->
  let s' := putc_to_console s c in
  screen_ok s' /\ agree_outside cons_buf (cons_buf + 4000) (vram s) (vram s') /\
  dcolor s' = dcolor s.
Proof.
  intros Hs. pose proof (putc_write_ok s (s8 c) Hs) as (B1 & P1 & _ & A1 & D1). cbn zeta in *.
  destruct Hs as [Hb Hp]. unfold putc_to_console. cbn zeta. set (w := putc_write s (s8 c)) in *.
  destruct (scroll_mem w B1) as [B2 A2]. pose proof (scroll_pos w P1) as P2.
  unfold screen_ok. cbn [put_cursor add_log vram cons_pos dcolor].
  split; [split; [done|]|].
  - rewrite P2. unfold CONS_SIZE, CONS_ROWS, CONS_COLS in *. case_decide; lia.
  - split.
    + eapply agree_outside_trans; [|eapply agree_outside_weaken; [| |exact A2]; lia].
      destruct (decide (cons_pos s = 0 /\ s8 c = 8)) as [[E1 E2]|E].
      * unfold w, putc_write. rewrite decide_True by done. rewrite decide_False by lia. apply agree_outside_refl.
      * eapply agree_outside_weaken; [| |exact A1]; [destruct (decide (s8 c = 8)) as [D|D]; [|lia]; assert (cons_pos s <> 0) by tauto; lia|lia].
    + transitivity (dcolor w); [|exact D1]. unfold putc_scroll.
      destruct (decide (cons_pos w >= CONS_SIZE)); done.
Qed.

(** ** Lemmas: text *)

Lemma put_printable s c :
  screen_ok s -> printable c -> 0 <= dcolor s < 256 -> 80 <= cons_pos s ->
  let s' := putc_to_console s c in
  80 <= cons_pos s' /\ cell s' (cons_pos s' - 1) = Z.lor (attribute s') c /\
  exists d, (d = 0 \/ d = 80) /\ cons_pos s' = cons_pos s + 1 - d /\ (d = 80 -> cons_pos s' = 1920) /\
    forall i, 80 + d <= i < cons_pos s -> cell s' (i - d) = cell s i.
Proof.
  intros Hs Hc Hd H80. pose proof (putc_ok s c Hs) as (_ & _ & D'). cbn zeta in *.
  destruct Hs as [Hb Hp]. unfold printable in Hc. unfold CONS_SIZE, CONS_ROWS, CONS_COLS in Hp.
  assert (Ec : s8 c = c) by (unfold s8; modlia).
  assert (Ha : u16 (Z.lor (attribute s) c) = Z.lor (attribute s) c).
  { unfold attribute. rewrite Z.shiftl_mul_pow2 by lia. change (2 ^ 8) with 256.
    rewrite (u16_small (dcolor s * 256)) by lia.
    apply u16_small. apply (lor_bound _ _ 16); lia. }
  assert (Ea : attribute (putc_to_console s c) = attribute s) by (unfold attribute; by rewrite D').
  rewrite Ea. unfold putc_to_console. cbn zeta. rewrite Ec.
  set (w := putc_write s c).
  assert (Ew : w = set_pos (set_vram s (set_cell (vram s) (cons_pos s) (Z.lor (attribute s) c))) (cons_pos s + 1)).
  { unfold w, putc_write. rewrite !decide_False by lia. by rewrite u16_small by lia. }
  assert (Cw : forall i, cell w i = if decide (i = cons_pos s) then Z.lor (attribute s) c else cell s i).
  { intros i. rewrite Ew. unfold cell. cbn [set_pos set_vram vram]. case_decide as E.
    - rewrite E, get_set_same. exact Ha.
    - apply get_set_other. done. }
  assert (Bw : bytes_ok (vram w)) by (rewrite Ew; by apply store16_bytes_ok).
  assert (Pw : cons_pos w = cons_pos s + 1) by (by rewrite Ew).
  change (cons_pos (put_cursor (putc_scroll w) (cons_pos (putc_scroll w)))) with (cons_pos (putc_scroll w)).
  change (cell (put_cursor (putc_scroll w) (cons_pos (putc_scroll w)))) with (cell (putc_scroll w)).
  rewrite scroll_pos by (unfold CONS_SIZE, CONS_ROWS, CONS_COLS; lia). rewrite Pw.
  destruct (decide (cons_pos s + 1 = CONS_SIZE)) as [E|E]; unfold CONS_SIZE, CONS_ROWS, CONS_COLS in *.
  - assert (Sc : forall i, cell (putc_scroll w) i = if decide (80 <= i < 1920) then cell w (i + 80)
        else if decide (1920 <= i < 2000) then u16 (Z.lor (attribute w) 32) else cell w i).
    { intros i. apply scroll_cells; [done|]. unfold CONS_SIZE, CONS_ROWS, CONS_COLS. lia. }
    split; [lia|]. split.
    + rewrite Sc, decide_True by lia. rewrite Cw, decide_True by lia. done.
    + exists 80. split; [by right|]. split; [lia|]. split; [lia|]. intros i Hi.
      rewrite Sc, decide_True by lia. rewrite Cw, decide_False by lia. f_equal. lia.
  - assert (Sc : putc_scroll w = w).
    { unfold putc_scroll. rewrite decide_False; [done|]. unfold CONS_SIZE, CONS_ROWS, CONS_COLS. lia. }
    rewrite Sc. split; [lia|]. split; [rewrite Cw, decide_True by lia; done|].
    exists 0. split; [by left|]. split; [lia|]. split; [lia|]. intros i Hi.
    rewrite Cw, decide_False by lia. f_equal. lia.
Qed.

Lemma put_text_ok cs : forall s done_,
  screen_ok s -> 0 <= dcolor s < 256 -> Forall printable cs ->
  Z.of_nat (length done_ + length cs) <= 1840 -> shows_text s done_ ->
  let s' := put_text s cs in screen_ok s' /\ shows_text s' (done_ ++ cs).
Proof.
  induction cs as [|c cs IH]; intros s done_ Hs Hd Hcs Hn Ht; cbn [put_text].
  - by rewrite app_nil_r.
  - apply Forall_cons in Hcs as [Hc Hcs]. destruct Ht as [H80 Ht]. cbn [length] in Hn.
    destruct (putc_ok s c Hs) as (Hs' & _ & D').
    pose proof (put_printable s c Hs Hc Hd ltac:(lia)) as (Hp & Hl & d & Hd0 & Epos & Hd80 & Hc').
    cbn zeta in *. set (s1 := putc_to_console s c) in *.
    replace (done_ ++ c :: cs) with ((done_ ++ [c]) ++ cs) by (by rewrite <- app_assoc).
    apply IH; [done|lia|done|rewrite length_app; cbn [length]; lia|].
    unfold shows_text. rewrite length_app. cbn [length]. split; [lia|]. intros j x Hj.
    apply lookup_app_Some in Hj as [Hj|[Hlen Hj]].
    + pose proof (lookup_lt_Some _ _ _ Hj) as Hlt.
      replace (cons_pos s1 - Z.of_nat (length done_ + 1) + Z.of_nat j)
        with (cons_pos s - Z.of_nat (length done_) + Z.of_nat j - d) by lia.
      rewrite Hc' by lia. rewrite (Ht j x Hj). unfold attribute. by rewrite D'.
    + destruct (j - length done_)%nat as [|k] eqn:Ej; [|by destruct k]. injection Hj as <-.
      replace (cons_pos s1 - Z.of_nat (length done_ + 1) + Z.of_nat j) with (cons_pos s1 - 1) by lia.
      exact Hl.
Qed.

(** ** Lemmas: the ring *)

Section Ring.

Context `{uart : Uart}.

Lemma serial_wait_ok l fuel : forall k,
  (exists j, (j < fuel)%nat /\ Z.land (uart_status l (k + j)) 32 <> 0) -> serial_wait fuel l k = Ret tt.
Proof.
  induction fuel as [|f IH]; intros k (j & Hj & Hr); [lia|]. cbn [serial_wait]. case_decide as E; [|done].
  apply IH. destruct j as [|j]; [by rewrite Nat.add_0_r in Hr|]. exists j. split; [lia|].
  by replace (S k + j)%nat with (k + S j)%nat by lia.
Qed.

Lemma serial_byte_ok s c : serial_byte s c = Ret (add_log s [Outb COM1 (u8 c)]).
Proof. unfold serial_byte. by rewrite serial_wait_ok by apply uart_ready. Qed.

Lemma putc_ring s c : same_ring s (putc_to_console s c).
Proof.
  unfold putc_to_console, putc_scroll, putc_write, same_ring. cbn zeta.
  repeat case_decide; done.
Qed.

Lemma put_c_ok s c : exists s', put_c s c = Ret s' /\ same_ring s s'.
Proof.
  unfold put_c. cbn zeta. pose proof (putc_ring s c) as H. set (s1 := putc_to_console s c) in *.
  case_decide; [|by exists s1]. unfold write_serial. destruct (has_serial s1); [|by exists s1].
  rewrite serial_byte_ok. cbn [mbind outcome_bind]. case_decide; [rewrite serial_byte_ok|]; by eexists.
Qed.

Lemma same_ring_holds s s' q : same_ring s s' -> ring_holds s q -> ring_holds s' q.
Proof. intros (E1 & E2 & E3) [H1 H2 H3 H4]. split; rewrite ?E1, ?E2, ?E3; done. Qed.

Lemma ring_index a b c : 0 <= a < CONS_SIZE -> 0 <= b < CONS_SIZE -> 0 <= c < CONS_SIZE ->
  (a + b) mod CONS_SIZE = (a + c) mod CONS_SIZE -> b = c.
Proof. unfold CONS_SIZE, CONS_ROWS, CONS_COLS. intros. modlia. Qed.

(** The characters and the read end after [c] was typed. *)
Lemma console_char_ring s c : c <> 0 ->
  exists s', console_char s c = Ret s' /\ cb_rpos s' = cb_rpos s /\
    cb_wpos s' = (if decide (cb_wpos s + 1 >= CONS_SIZE) then 0 else cb_wpos s + 1) /\
    cb_buf s' = (fun i => if decide (i = cb_wpos s) then s8 c else cb_buf s i).
Proof.
  intros Hc. unfold console_char. rewrite decide_False by done. cbn zeta.
  pose proof (s8_range c) as R. rewrite (decide_True (P := s8 c <= 127)) by lia.
  set (s1 := add_log _ _). destruct (put_c_ok s1 (s8 c)) as (s' & E & E1 & E2 & E3).
  exists s'. rewrite E, E1, E2, E3. done.
Qed.

Lemma console_char_ok s q c :
  c <> 0 -> ring_holds s q -> Z.of_nat (length q) + 1 < CONS_SIZE ->
  exists s', console_char s c = Ret s' /\ ring_holds s' (q ++ [s8 c]).
Proof.
  intros Hc [H1 H2 H3 H4] Hn. destruct (console_char_ring s c Hc) as (s' & E & Er & Ew & Eb).
  exists s'. split; [done|].
  assert (Hw : 0 <= cb_wpos s < CONS_SIZE) by (rewrite H2; apply Z.mod_pos_bound; done).
  split.
  - by rewrite Er.
  - rewrite Ew, Er, length_app. cbn [length]. rewrite H2 in *.
    unfold CONS_SIZE, CONS_ROWS, CONS_COLS in *. case_decide; modlia.
  - rewrite length_app. cbn [length]. lia.
  - intros j x Hj. rewrite Er, Eb. apply lookup_app_Some in Hj as [Hj|[Hl Hj]].
    + pose proof (lookup_lt_Some _ _ _ Hj) as Hlt. rewrite decide_False; [by apply H4|].
      rewrite H2. intros Heq. apply ring_index in Heq; [lia|done|lia|lia].
    + destruct (j - length q)%nat as [|k] eqn:Ej; [|by destruct k]. injection Hj as <-.
      rewrite decide_True; [done|]. rewrite H2. replace j with (length q) by lia. reflexivity.
Qed.

Lemma get_c_ok s q chan :
  ring_holds s q ->
  match q with
  | [] => get_c s chan false = Ret (s, -1) /\ get_c s chan true = Stop (Sleep chan)
  | c :: q' => exists s', (forall b, get_c s chan b = Ret (s', c)) /\ ring_holds s' q'
  end.
Proof.
  intros [H1 H2 H3 H4]. unfold get_c. destruct q as [|c q]; cbn [length] in *.
  - assert (Ew : cb_rpos s = cb_wpos s).
    { rewrite H2. replace (cb_rpos s + Z.of_nat 0) with (cb_rpos s) by lia. symmetry. by apply Z.mod_small. }
    by rewrite !decide_True by done.
  - assert (Hd : cb_rpos s <> cb_wpos s).
    { rewrite H2. unfold CONS_SIZE, CONS_ROWS, CONS_COLS in *. modlia. }
    exists (fst (get_c_take s)). split.
    + intros b. rewrite decide_False by done. unfold get_c_take. cbn [fst]. do 2 f_equal.
      rewrite <- (H4 0%nat c) by reflexivity. f_equal. rewrite Z.mod_small; lia.
    + assert (Er : cb_rpos (fst (get_c_take s)) = (cb_rpos s + 1) mod CONS_SIZE).
      { unfold get_c_take. cbn [fst set_ring cb_rpos]. unfold CONS_SIZE, CONS_ROWS, CONS_COLS in *.
        case_decide; modlia. }
      split; rewrite ?Er; change (cb_wpos (fst (get_c_take s))) with (cb_wpos s);
        change (cb_buf (fst (get_c_take s))) with (cb_buf s).
      * apply Z.mod_pos_bound. done.
      * rewrite H2, Zplus_mod_idemp_l. f_equal. lia.
      * lia.
      * intros j x Hj. rewrite Zplus_mod_idemp_l. rewrite <- (H4 (S j) x) by done. f_equal. f_equal. lia.
Qed.

Lemma overflow_ok s q c :
  c <> 0 -> ring_holds s q -> Z.of_nat (length q) = CONS_SIZE - 1 ->
  exists s', console_isr s [c] = Ret s' /\ ring_holds s' [].
Proof.
  intros Hc [H1 H2 H3 H4] Hn. destruct (console_char_ring s c Hc) as (s' & E & Er & Ew & Eb).
  exists s'. cbn [console_isr]. rewrite E. cbn [mbind outcome_bind]. split; [done|]. split.
  - by rewrite Er.
  - rewrite Hn in H2. rewrite Ew, Er. cbn [length]. change (Z.of_nat 0) with 0.
    unfold CONS_SIZE, CONS_ROWS, CONS_COLS in *.
    destruct (decide (cb_wpos s + 1 >= 25 * 80)) as [D|D]; clear -H1 H2 D; modlia.
  - done.
  - intros j x Hj. by rewrite lookup_nil in Hj.
Qed.

Lemma typed_ok s q c : ring_holds s q ->
  exists s', console_isr s [c] = Ret s' /\ ring_holds s' (queue_put q c).
Proof.
  intros Hq. unfold queue_put. case_decide as D0.
  - exists s. cbn [console_isr]. unfold console_char. rewrite decide_True by done. done.
  - case_decide as D.
    + destruct (console_char_ok s q c D0 Hq D) as (s1 & E & Hq1). exists s1. cbn [console_isr]. by rewrite E.
    + apply (overflow_ok s q c); [done|done|]. pose proof (rh_room _ _ Hq). lia.
Qed.

Lemma cons_run_ok ops : forall s q, ring_holds s q -> runs_as s ops (queue_run q ops).
Proof.
  induction ops as [|[c|b] ops IH]; intros s q Hq; cbn [queue_run cons_run].
  - by exists s.
  - destruct (typed_ok s q c Hq) as (s1 & E & Hq1). specialize (IH s1 _ Hq1).
    unfold runs_as in *. cbn [cons_run]. rewrite E. exact IH.
  - pose proof (get_c_ok s q 0 Hq) as H. unfold runs_as. cbn [cons_run]. destruct q as [|c q].
    + destruct H as [E1 E2]. destruct b; [by rewrite E2|]. rewrite E1. cbn [mbind outcome_bind].
      specialize (IH s [] Hq). unfold runs_as in IH. destruct (queue_run [] ops) as [[q' r]|e]; cbn [mbind outcome_bind];
        [destruct IH as (s' & E & Hq'); rewrite E; by exists s'|by rewrite IH].
    + destruct H as (s1 & E & Hq1). rewrite E. cbn [mbind outcome_bind].
      specialize (IH s1 q Hq1). unfold runs_as in IH. destruct (queue_run q ops) as [[q' r]|e]; cbn [mbind outcome_bind];
        [destruct IH as (s' & E' & Hq'); rewrite E'; by exists s'|by rewrite IH].
Qed.

End Ring.

(** ** Properties *)

(** Any character sent to the console leaves the cursor on the screen and
    changes nothing outside the 25 x 80 cells of video memory; behind the first
    row, and but for a backspace, it leaves the first row, the status bar,
    alone. *)
Lemma putc_stays_on_screen (s : console) (c : Z) (Hs : screen_ok s) :
  let s' := putc_to_console s c in
  screen_ok s' /\
  agree_outside (P2V CGA_START) (P2V CGA_START + 2 * CONS_SIZE) (vram s) (vram s') /\
  (s8 c <> 8 -> CONS_COLS <= cons_pos s ->
   CONS_COLS <= cons_pos s' /\ forall i, 0 <= i < CONS_COLS -> cell s' i = cell s i).
Proof.
  cbn zeta. pose proof (putc_ok s c Hs) as (H1 & H2 & _). split; [done|]. split; [exact H2|].
  intros Hc Hp. pose proof (putc_write_ok s (s8 c) Hs) as (B & P & M & A & _). cbn zeta in *.
  rewrite decide_False in A by done. specialize (M Hc). set (w := putc_write s (s8 c)) in *.
  destruct (scroll_mem w B) as [_ A2]. split.
  - change (CONS_COLS <= cons_pos (putc_scroll w)). rewrite scroll_pos by done.
    unfold CONS_SIZE, CONS_ROWS, CONS_COLS in *. case_decide; lia.
  - intros i Hi. unfold CONS_COLS in *. change (cell (putc_scroll w) i = cell s i).
    rewrite (cell_agree _ _ _ _ _ A2) by lia. apply (cell_agree _ _ _ _ _ A). lia.
Qed.


(** Printable text of up to 23 lines sent to the console stands on the
    screen afterwards, contiguous and directly in front of the cursor, however
    often the screen had to scroll meanwhile. *)
Lemma text_visible (s : console) (cs : list Z)
  (Hs : screen_ok s) (Hd : 0 <= dcolor s < 256) (Hpos : CONS_COLS <= cons_pos s)
  (Hcs : Forall printable cs) (Hn : Z.of_nat (length cs) <= 23 * CONS_COLS) :
  let s' := put_text s cs in
  screen_ok s' /\ CONS_COLS + Z.of_nat (length cs) <= cons_pos s' /\
  forall j c, cs !! j = Some c ->
    cell s' (cons_pos s' - Z.of_nat (length cs) + Z.of_nat j) = Z.lor (attribute s') c.
Proof.
  apply (put_text_ok cs s []); [done|done|done|unfold CONS_COLS in Hn; cbn [length]; lia|].
  split; [unfold CONS_COLS in Hpos; cbn [length]; lia|]. intros j c Hj. by rewrite lookup_nil in Hj.
Qed.


(** C24. The ring of typed characters, for every sequence of interrupts that
    deliver a byte and of reads, blocking or not: the reads return what the
    reads of a queue return, in the order of typing, with -1 for a read that
    does not block when nothing waits.  The queue is the one the code has: the
    byte 0 is not stored, a character typed when 1999 wait empties it, losing
    all 2000, and a blocking read of the empty queue goes to sleep, exactly
    there and not before. *)
Theorem console_fifo {uart : Uart} (s : console) (q : list Z) (ops : list cons_op)
  (Hq : ring_holds s q) :
  match queue_run q ops with
  | Ret (q', r) => exists s', cons_run s ops = Ret (s', r) /\ ring_holds s' q'
  | Stop e => cons_run s ops = Stop e
  end.
Proof. exact (cons_run_ok ops s q Hq). Qed.

Lemma console_fifo_witness :
  (exists s', cons_run (H := ready_uart) blank_console
     [Typed 97; Typed 98; GetC true; Typed 0; Typed 99; GetC false; GetC true; GetC false]
     = Ret (s', [97; 98; 99; -1]) /\ ring_holds s' []) /\
  cons_run (H := ready_uart) blank_console [Typed 97; GetC true; GetC true] = Stop (Sleep 0).
Proof.
  assert (Hb : ring_holds blank_console []).
  { split; [vm_compute; split; [discriminate | reflexivity] | reflexivity | reflexivity |].
    intros j c Hj. rewrite lookup_nil in Hj. discriminate Hj. }
  split.
  - exact (console_fifo (uart := ready_uart) blank_console []
      [Typed 97; Typed 98; GetC true; Typed 0; Typed 99; GetC false; GetC true; GetC false] Hb).
  - exact (console_fifo (uart := ready_uart) blank_console [] [Typed 97; GetC true; GetC true] Hb).
Defined.

(** One character typed when 1999 wait makes the ring look empty: all of
    them are lost to the readers. *)
Lemma console_overflow {uart : Uart} (s : console) (q : list Z) (c chan : Z)
  (Hc : c <> 0) (Hq : ring_holds s q) (Hn : Z.of_nat (length q) = CONS_SIZE - 1) :
  exists s', console_isr s [c] = Ret s' /\ get_c s' chan false = Ret (s', -1).
Proof.
  destruct (overflow_ok s q c Hc Hq Hn) as (s' & E & Hq'). exists s'. split; [done|].
  by apply (get_c_ok s' [] chan).
Qed.

(** ** Lemmas: types of the state *)

Section Types.

Context `{uart : Uart}.

Lemma putc_wf s c : console_wf s -> console_wf (putc_to_console s c) /\ window_only s (putc_to_console s c).
Proof.
  intros [B P D C R W Q]. pose proof (putc_ok s c (conj B P)) as ([B' P'] & A & D').
  destruct (putc_ring s c) as (E1 & E2 & E3).
  assert (default_color (putc_to_console s c) = default_color s) as ED.
  { unfold putc_to_console, putc_scroll, putc_write. cbn zeta. repeat case_decide; reflexivity. }
  split; [|exact A]. split; rewrite ?E1, ?E2, ?E3, ?ED, ?D'; assumption.
Qed.

Lemma add_log_wf s l : console_wf s -> console_wf (add_log s l).
Proof. intros [B P D C R W Q]. by split. Qed.

Lemma set_dcolor_wf s c : 0 <= c < 256 -> console_wf s -> console_wf (set_dcolor s c).
Proof. intros Hc [B P D C R W Q]. by split. Qed.

Lemma put_c_wf s c : console_wf s -> exists s', put_c s c = Ret s' /\ console_wf s' /\ window_only s s'.
Proof.
  intros Hs. destruct (putc_wf s c Hs) as [W A]. unfold put_c. cbn zeta.
  set (s1 := putc_to_console s c) in *. case_decide; [|by exists s1].
  unfold write_serial. destruct (has_serial s1); [|by exists s1]. rewrite serial_byte_ok.
  cbn [mbind outcome_bind]. case_decide; rewrite ?serial_byte_ok; eexists; (split; [reflexivity|]);
    (split; [first [exact (add_log_wf _ _ W) | exact (add_log_wf _ _ (add_log_wf _ _ W))]|exact A]).
Qed.

Lemma window_only_refl s : window_only s s.
Proof. apply agree_outside_refl. Qed.

Lemma window_only_trans s1 s2 s3 : window_only s1 s2 -> window_only s2 s3 -> window_only s1 s3.
Proof. apply agree_outside_trans. Qed.

Lemma get_c_take_wf s : console_wf s -> console_wf (get_c_take s).1.
Proof.
  intros [B P D C R W Q]. split; cbn; try assumption.
  unfold CONS_SIZE, CONS_ROWS, CONS_COLS in *. case_decide; lia.
Qed.

Lemma console_char_wf s c : console_wf s ->
  exists s', console_char s c = Ret s' /\ console_wf s' /\ window_only s s'.
Proof.
  intros [B P D C R W Q]. unfold console_char. case_decide; [exists s; by split; [|split; [|apply window_only_refl]]|].
  cbn zeta. pose proof (s8_range c) as R8. rewrite (decide_True (P := s8 c <= 127)) by lia.
  apply (put_c_wf (add_log (set_ring s _ _ _) _)). apply add_log_wf. split; cbn; try assumption.
  - unfold CONS_SIZE, CONS_ROWS, CONS_COLS in *. case_decide; lia.
  - intros i. case_decide; [lia|apply Q].
Qed.

Lemma console_isr_wf cs : forall s, console_wf s ->
  exists s', console_isr s cs = Ret s' /\ console_wf s' /\ window_only s s'.
Proof.
  induction cs as [|c cs IH]; intros s Hs; [exists s; by split; [|split; [|apply window_only_refl]]|].
  cbn [console_isr]. destruct (console_char_wf s c Hs) as (s1 & E1 & W1 & A1). rewrite E1. cbn [mbind outcome_bind].
  destruct (IH s1 W1) as (s2 & E2 & W2 & A2). exists s2. split; [exact E2|]. split; [exact W2|].
  by apply (window_only_trans s s1).
Qed.

Lemma clean_screen_wf s : console_wf s -> console_wf (clean_screen s) /\ window_only s (clean_screen s).
Proof.
  intros [B P D C R W Q]. split.
  - split; try assumption; [by apply fill_cells_ok|done].
  - eapply agree_outside_weaken; [| |apply fill_cells_outside]; unfold CONS_SIZE, CONS_ROWS, CONS_COLS; lia.
Qed.

Lemma put_color_c_wf s color c : console_wf s ->
  exists s', put_color_c s color c = Ret s' /\ console_wf s' /\ window_only s s'.
Proof.
  intros Hs. unfold put_color_c.
  destruct (put_c_wf (set_dcolor s (u8 color)) c) as (s1 & E & W & A); [apply set_dcolor_wf; [apply u8_range|done]|].
  rewrite E. eexists. split; [reflexivity|]. split; [by apply set_dcolor_wf; [apply (cw_color s)|]|exact A].
Qed.

Lemma get_c_wf s s' chan block c : console_wf s -> get_c s chan block = Ret (s', c) ->
  console_wf s' /\ window_only s s'.
Proof.
  unfold get_c. intros Hs E. case_decide.
  - destruct block; [discriminate E|]. injection E as <- <-. split; [done|apply window_only_refl].
  - injection E as <- <-. split; [by apply (get_c_take_wf s)|apply agree_outside_refl].
Qed.

Lemma cstep_wf s s' : cstep s s' -> console_wf s -> console_wf s' /\ window_only s s'.
Proof.
  intros Hst Hs. destruct Hst as [s s' c E|s s' color c E|s f b|s|s|s|s x y Hx Hy|s s' chan bl c E|s|s s' cs E].
  - destruct (put_c_wf s c Hs) as (s2 & E2 & H). rewrite E2 in E. injection E as <-. exact H.
  - destruct (put_color_c_wf s color c Hs) as (s2 & E2 & H). rewrite E2 in E. injection E as <-. exact H.
  - split; [apply set_dcolor_wf; [apply u8_range|done]|apply agree_outside_refl].
  - split; [by apply set_dcolor_wf; [apply (cw_default s)|]|apply agree_outside_refl].
  - by apply clean_screen_wf.
  - apply (clean_screen_wf (set_ring (set_pos s 0) (cb_buf s) 0 0)). destruct Hs. by split.
  - split; [|apply agree_outside_refl]. destruct Hs as [B P D C R W Q]. split; try assumption. cbn.
    unfold CONS_SIZE, CONS_ROWS, CONS_COLS in *. rewrite u16_small by lia. lia.
  - by apply (get_c_wf s s' chan bl c).
  - split; [by apply get_c_take_wf|apply agree_outside_refl].
  - destruct (console_isr_wf cs s Hs) as (s2 & E2 & H). rewrite E2 in E. injection E as <-. exact H.
Qed.

Lemma csteps_wf s s' : rtc cstep s s' -> console_wf s -> console_wf s' /\ window_only s s'.
Proof.
  induction 1 as [s|s1 s2 s3 Hst _ IH]; intros Hs; [split; [done|apply window_only_refl]|].
  destruct (cstep_wf s1 s2 Hst Hs) as [W A]. destruct (IH W) as [W' A'].
  split; [done|by apply (window_only_trans s1 s2)].
Qed.

End Types.

(** C23. The console is type safe.  Whatever sequence of its operations runs -
    output of any characters in any colours, the interrupt handler with any
    input, readers that find the ring empty, full or emptied by somebody else
    while they slept - the cursor stays on the screen, both ends of the ring in
    its array, colours and characters in their types, and no byte outside the
    window of video memory is written; and in every such state output and the
    interrupt handler run to their end. *)
Theorem console_well_typed {uart : Uart} (s s' : console) (c : Z) (cs : list Z)
  (Hs : console_wf s) (Hrun : rtc cstep s s') :
  console_wf s' /\ window_only s s' /\
  (exists s1, put_c s' c = Ret s1 /\ console_wf s1) /\
  (exists s1, console_isr s' cs = Ret s1 /\ console_wf s1).
Proof.
  destruct (csteps_wf s s' Hrun Hs) as [W A]. split; [done|]. split; [done|].
  destruct (put_c_wf s' c W) as (s1 & E1 & W1 & _). destruct (console_isr_wf cs s' W) as (s2 & E2 & W2 & _).
  split; eauto.
Qed.

Lemma console_well_typed_witness :
  exists s', rtc (cstep (H := ready_uart)) blank_console s' /\ cb_rpos s' = 1 /\ console_wf s'.
Proof.
  exists (get_c_take (clean_screen blank_console)).1.
  assert (rtc (cstep (H := ready_uart)) blank_console (get_c_take (clean_screen blank_console)).1) as R.
  { eapply rtc_l; [apply CClean|]. eapply rtc_l; [apply CWoken|]. apply rtc_refl. }
  split; [exact R|]. split; [reflexivity|].
  apply (console_well_typed (uart := ready_uart) blank_console _ 97 [98]); [|exact R].
  split; try (vm_compute; split; congruence); intros; vm_compute; split; congruence.
Defined.
