(* ===== verification/Printf.v ===== *)
(** * Formatted output

    kern/printf.c ([printk], [panic]) and lib/printf.c ([printf]).  The two
    formatters differ in the routine that takes a character, [put_c] or a
    one-byte [write], and in [%c], which only the kernel knows.  The format, the
    strings and the arguments on the stack are read from memory; [fuel] bounds
    the length of the format and of each string. *)

From stdpp Require Import base list strings.
From Stdlib Require Import ZArith Lia.
From S2P Require Import Prelude Mmu CString Console.

Open Scope Z_scope.

Definition BUF_LEN : Z := 64 + 3.

(** [static char digits[] = "0123456789ABCDEF"] *)
Definition digits : list Z := [48; 49; 50; 51; 52; 53; 54; 55; 56; 57; 65; 66; 67; 68; 69; 70].

(** [do{ buf[i++] = digits[ui % base]; } while((ui /= base) != 0);] *)
Fixpoint digit_loop (fuel : nat) (ui base : Z) (buf : list Z) : outcome (list Z) :=
  match fuel with
  | O => Stop Fuel
  | S f =>
      let buf := buf ++ [nth (Z.to_nat (ui mod base)) digits 0] in
      if decide (ui / base = 0) then Ret buf else digit_loop f (ui / base) base buf
  end.

(** The contents of [buf], which is printed from its end. *)
Definition printint_buf (n base : Z) (sign : bool) : outcome (list Z) :=
  let neg := sign && bool_decide (n < 0) in
  let ui := if neg then u32 (- n) else u32 n in
  buf ← digit_loop 32 ui base [];
  let buf := if neg then buf ++ [45] else buf in
  let buf := if decide (base = 2) then buf ++ [98]
             else if decide (base = 8) then buf ++ [111]
             else if decide (base = 16) then buf ++ [120] else buf in
  Ret (if decide (base <> 10) then buf ++ [48] else buf).

Section Formatter.

(** The sink of the characters. *)
Context {S : Type} (putc : S -> Z -> outcome S).

Fixpoint emit (s : S) (cs : list Z) : outcome S :=
  match cs with
  | [] => Ret s
  | c :: cs' => s1 ← putc s c; emit s1 cs'
  end.

(** [while(--i >= 0) put_c(buf[i]);] *)
Definition printint (s : S) (n base : Z) (sign : bool) : outcome S :=
  buf ← printint_buf (s32 n) base sign; emit s (rev buf).

(** [for(s = (char * )*ap++; *s; s++) put_c( *s);] *)
Fixpoint print_str (fuel : nat) (m : memory) (s : S) (p : Z) : outcome S :=
  match fuel with
  | O => Stop Fuel
  | Datatypes.S f => if decide (m p = 0) then Ret s else s1 ← putc s (m p); print_str f m s1 (p + 1)
  end.

(** The loop over the format [fmt] from index [i], the next argument at [ap];
    [has_c] tells whether [%c] is known. *)
Fixpoint format_loop (has_c : bool) (strfuel fuel : nat) (m : memory) (s : S) (fmt i ap : Z) : outcome S :=
  match fuel with
  | O => Stop Fuel
  | Datatypes.S f =>
      let c := m (fmt + i) in
      if decide (c = 0) then Ret s
      else if decide (c <> 37) then
        s1 ← putc s c; format_loop has_c strfuel f m s1 fmt (i + 1) ap
      else
        let c := m (fmt + (i + 1)) in
        let continue s1 ap1 := format_loop has_c strfuel f m s1 fmt (i + 2) ap1 in
        if decide (c = 0) then Ret s
        else if decide (c = 100) then s1 ← printint s (load32 m ap) 10 true; continue s1 (ap + 4)
        else if decide (c = 98) then s1 ← printint s (load32 m ap) 2 false; continue s1 (ap + 4)
        else if decide (c = 111) then s1 ← printint s (load32 m ap) 8 false; continue s1 (ap + 4)
        else if decide (c = 120 \/ c = 112) then s1 ← printint s (load32 m ap) 16 false; continue s1 (ap + 4)
        else if decide (has_c = true /\ c = 99) then s1 ← putc s (load32 m ap); continue s1 (ap + 4)
        else if decide (c = 115) then s1 ← print_str strfuel m s (load32 m ap); continue s1 (ap + 4)
        else continue s ap
  end.

End Formatter.

(** [sp] is the address of the argument [fmt]; the others follow. *)
Definition printk `{Uart} (strfuel fuel : nat) (m : memory) (s : console) (sp : Z) : outcome console :=
  let fmt := load32 m sp in
  if decide (fmt = 0) then Ret s else format_loop put_c true strfuel fuel m s fmt 0 (sp + 4).

(** The library's [printf]; [write1] is the system call [write(1, &c, 1)]. *)
Definition printf {S : Type} (write1 : S -> Z -> outcome S) (strfuel fuel : nat) (m : memory) (s : S) (sp : Z) :
    outcome S :=
  let fmt := load32 m sp in
  if decide (fmt = 0) then Ret s else format_loop write1 false strfuel fuel m s fmt 0 (sp + 4).

(** ** Specification *)

(** A format as the list of its parts, with the argument each part takes. *)
Inductive frag : Type :=
  | FLit (c : Z)
  | FDec (n : Z)
  | FBin (n : Z)
  | FOct (n : Z)
  | FHex (n : Z) (ptr : bool)
  | FChr (c : Z)
  | FStr (p : Z) (l : list Z).

Definition frag_fmt (f : frag) : list Z :=
  match f with
  | FLit c => [c]
  | FDec _ => [37; 100]
  | FBin _ => [37; 98]
  | FOct _ => [37; 111]
  | FHex _ ptr => [37; if ptr : bool then 112 else 120]
  | FChr _ => [37; 99]
  | FStr _ _ => [37; 115]
  end.

Definition frag_args (f : frag) : list Z :=
  match f with
  | FLit _ => []
  | FDec n | FBin n | FOct n | FHex n _ => [n]
  | FChr c => [c]
  | FStr p _ => [p]
  end.

(** The digits of [v], most significant first: none of them superfluous. *)
Fixpoint numeral (fuel : nat) (base v : Z) : list Z :=
  match fuel with
  | O => []
  | S f => (if decide (v / base = 0) then [] else numeral f base (v / base)) ++ [nth (Z.to_nat (v mod base)) digits 0]
  end.

Definition frag_text (f : frag) : list Z :=
  match f with
  | FLit c => [c]
  | FDec n => (if decide (n < 0) then [45] else []) ++ numeral 32 10 (Z.abs n)
  | FBin n => [48; 98] ++ numeral 32 2 (u32 n)
  | FOct n => [48; 111] ++ numeral 32 8 (u32 n)
  | FHex n _ => [48; 120] ++ numeral 32 16 (u32 n)
  | FChr c => [c]
  | FStr _ l => l
  end.

Definition frag_ok (has_c : bool) (m : memory) (f : frag) : Prop :=
  match f with
  | FLit c => c <> 37
  | FDec n | FBin n | FOct n | FHex n _ => -2147483648 <= n < 2147483648
  | FChr c => has_c = true /\ 0 <= c < 4294967296
  | FStr p l => is_cstr (at_ptr m p) l /\ 0 <= p < 4294967296
  end.

(** The arguments stand at [ap], a word each. *)
Fixpoint args_at (m : memory) (ap : Z) (l : list Z) : Prop :=
  match l with
  | [] => True
  | w :: l' => load32 m ap = u32 w /\ args_at m (ap + 4) l'
  end.

(** The value of a numeral, and of its digits. *)
Definition digit_value (c : Z) : Z := if decide (c < 58) then c - 48 else c - 55.

Definition value (base : Z) (ds : list Z) : Z := fold_left (fun a c => a * base + digit_value c) ds 0.

Definition is_digit (base c : Z) : Prop := 0 <= digit_value c < base /\ (48 <= c <= 57 \/ 65 <= c <= 70).

(** What stands in front of a number outside base ten. *)
Definition base_prefix (base : Z) : list Z :=
  if decide (base = 2) then [48; 98] else if decide (base = 8) then [48; 111]
  else if decide (base = 16) then [48; 120] else [].

(** The same screen: cells, cursor and colour. *)
Definition same_screen (s s' : console) : Prop :=
  vram s' = vram s /\ cons_pos s' = cons_pos s /\ dcolor s' = dcolor s.

(** A format in memory at [fmt] with its arguments behind [sp]. *)
Definition call_ok (has_c : bool) (m : memory) (sp : Z) (strfuel fuel : nat) (fs : list frag) : Prop :=
  load32 m sp <> 0 /\ is_cstr (at_ptr m (load32 m sp)) (concat (map frag_fmt fs)) /\
  args_at m (sp + 4) (concat (map frag_args fs)) /\ Forall (frag_ok has_c m) fs /\
  (length fs < fuel)%nat /\
  Forall (fun f => match f with FStr _ l => (length l < strfuel)%nat | _ => True end) fs.

(** A call [f("n=%d %s", -5, "ok")] in memory. *)
Definition demo_bytes : list Z :=
  [8; 0; 0; 0] ++ [16; 0; 0; 0] ++ [110; 61; 37; 100; 32; 37; 115; 0] ++
  [111; 107; 0; 0; 0; 0; 0; 0] ++ [8; 0; 0; 0] ++ [251; 255; 255; 255] ++ [16; 0; 0; 0].

Definition demo_mem : memory := fun a => nth (Z.to_nat a) demo_bytes 0.

Definition demo_frags : list frag :=
  [FLit 110; FLit 61; FDec (-5); FLit 32; FStr 16 [111; 107]].

(** Membership in the list of bases. *)
Ltac elem_in_bases := repeat first [left | right].

(** ** Numerals *)

Lemma pow_step base v f :
  2 <= base -> 0 <= v < base ^ Z.of_nat (S f) -> 0 <= v / base < base ^ Z.of_nat f.
Proof.
  intros Hb Hv. rewrite Nat2Z.inj_succ, Z.pow_succ_r in Hv by lia. split; [apply Z.div_pos; lia|].
  apply Z.div_lt_upper_bound; lia.
Qed.

Lemma word_pow base v : 2 <= base -> 0 <= v < 4294967296 -> 0 <= v < base ^ Z.of_nat 32.
Proof.
  intros Hb Hv. split; [lia|]. apply (Z.lt_le_trans _ (2 ^ Z.of_nat 32)); [exact (proj2 Hv)|].
  apply Z.pow_le_mono_l. lia.
Qed.

Lemma digit_loop_ok f : forall v base buf,
  2 <= base -> 0 <= v < base ^ Z.of_nat f -> (f > 0)%nat ->
  digit_loop f v base buf = Ret (buf ++ rev (numeral f base v)).
Proof.
  induction f as [|f IH]; intros v base buf Hb Hv Hf; [lia|]. cbn [digit_loop numeral].
  rewrite rev_app_distr. cbn [rev app].
  case_decide as E; [done|]. pose proof (pow_step base v f Hb Hv) as Hd. rewrite IH; [|done|done|].
  - by rewrite <- app_assoc.
  - destruct f; [|lia]. change (Z.of_nat 0) with 0 in Hd. rewrite Z.pow_0_r in Hd. lia.
Qed.

Lemma numeral_length f : forall base v, (length (numeral f base v) <= f)%nat.
Proof.
  induction f as [|f IH]; intros base v; cbn [numeral]; [done|]. rewrite length_app. cbn [length].
  case_decide; [cbn [length]; lia|]. specialize (IH base (v / base)). lia.
Qed.

Lemma digit_ok d : 0 <= d < 16 ->
  digit_value (nth (Z.to_nat d) digits 0) = d /\ (d <> 0 -> nth (Z.to_nat d) digits 0 <> 48) /\
  printable (nth (Z.to_nat d) digits 0).
Proof.
  intros H. assert (E : d = 0 \/ d = 1 \/ d = 2 \/ d = 3 \/ d = 4 \/ d = 5 \/ d = 6 \/ d = 7 \/ d = 8 \/ d = 9 \/
    d = 10 \/ d = 11 \/ d = 12 \/ d = 13 \/ d = 14 \/ d = 15) by lia. unfold printable.
  repeat destruct E as [->|E]; [..|subst d]; 
    (split; [reflexivity|]; split; [intros Hd; vm_compute; discriminate || (intros _; by apply Hd)|];
     vm_compute; split; [discriminate|reflexivity]).
Qed.

Lemma numeral_value f : forall base v,
  2 <= base <= 16 -> 0 <= v < base ^ Z.of_nat f -> (f > 0)%nat -> value base (numeral f base v) = v.
Proof.
  induction f as [|f IH]; intros base v Hb Hv Hf; [lia|]. cbn [numeral]. unfold value. rewrite fold_left_app.
  cbn [fold_left]. pose proof (Z.mod_pos_bound v base ltac:(lia)) as Hm.
  destruct (digit_ok (v mod base) ltac:(lia)) as (-> & _ & _).
  pose proof (Z.div_mod v base ltac:(lia)) as Hdm.
  case_decide as E; [cbn [fold_left]; lia|]. pose proof (pow_step base v f ltac:(lia) Hv) as Hd.
  fold (value base (numeral f base (v / base))). rewrite IH; [lia|done|done|].
  destruct f; [|lia]. change (Z.of_nat 0) with 0 in Hd. rewrite Z.pow_0_r in Hd. lia.
Qed.

Lemma numeral_head f : forall base v,
  2 <= base <= 16 -> 0 < v < base ^ Z.of_nat f -> exists c l, numeral f base v = c :: l /\ c <> 48.
Proof.
  induction f as [|f IH]; intros base v Hb Hv; [change (Z.of_nat 0) with 0 in Hv; rewrite Z.pow_0_r in Hv; lia|].
  cbn [numeral]. pose proof (Z.mod_pos_bound v base ltac:(lia)) as Hm.
  pose proof (Z.div_mod v base ltac:(lia)) as Hdm. case_decide as E.
  - eexists _, []. split; [reflexivity|]. apply digit_ok; lia.
  - pose proof (pow_step base v f ltac:(lia) ltac:(lia)) as Hd.
    destruct (IH base (v / base) Hb ltac:(lia)) as (c & l & -> & Hc). eexists c, _. split; [reflexivity|done].
Qed.

Lemma numeral_printable f base v : 2 <= base <= 16 -> 0 <= v -> Forall printable (numeral f base v).
Proof.
  intros Hb. revert v. induction f as [|f IH]; intros v Hv; cbn [numeral]; [constructor|].
  pose proof (Z.mod_pos_bound v base ltac:(lia)) as Hm. apply Forall_app. split.
  - case_decide; [constructor|]. apply IH. apply Z.div_pos; lia.
  - apply Forall_singleton. apply digit_ok. lia.
Qed.

Lemma digit_is (base d : Z) : 2 <= base <= 16 -> 0 <= d < base -> is_digit base (nth (Z.to_nat d) digits 0).
Proof.
  intros Hb Hd. split; [by destruct (digit_ok d ltac:(lia)) as (-> & _)|].
  assert (E : In (nth (Z.to_nat d) digits 0) digits) by (apply nth_In; change (length digits) with 16%nat; lia).
  revert E. generalize (nth (Z.to_nat d) digits 0). intros c E. cbn [In digits] in E. lia.
Qed.

Lemma numeral_digits f base v : 2 <= base <= 16 -> Forall (is_digit base) (numeral f base v).
Proof.
  intros Hb. revert v. induction f as [|f IH]; intros v; cbn [numeral]; [constructor|]. apply Forall_app. split.
  - case_decide; [constructor|apply IH].
  - apply Forall_singleton, digit_is; [exact Hb|]. apply Z.mod_pos_bound. lia.
Qed.

Lemma printint_buf_ok n base sign :
  base ∈ [2; 8; 10; 16] -> -2147483648 <= n < 2147483648 ->
  let neg := sign && bool_decide (n < 0) in
  exists buf, printint_buf n base sign = Ret buf /\
    rev buf = base_prefix base ++ (if neg then [45] else []) ++ numeral 32 base (if neg then - n else u32 n).
Proof.
  intros Hb Hn. cbn zeta. unfold printint_buf. cbn zeta. set (neg := sign && bool_decide (n < 0)).
  assert (Hb2 : 2 <= base).
  { clear -Hb. repeat (apply elem_of_cons in Hb as [->|Hb]; [lia|]). by apply elem_of_nil in Hb. }
  assert (Eneg : neg = true -> n < 0).
  { unfold neg. intros H. apply andb_true_iff in H as [_ H]. by apply bool_decide_eq_true in H. }
  assert (Ev : (if neg then u32 (- n) else u32 n) = (if neg then - n else u32 n)).
  { destruct neg; [|done]. apply u32_small. specialize (Eneg eq_refl). lia. }
  rewrite Ev. set (v := if neg then - n else u32 n) in *.
  assert (Hv : 0 <= v < 4294967296).
  { unfold v. destruct neg; [specialize (Eneg eq_refl); lia|apply u32_range]. }
  rewrite (digit_loop_ok 32) by (done || lia || by apply word_pow). cbn [mbind outcome_bind app].
  eexists. split; [reflexivity|].
  generalize (numeral 32 base v). intros ds. clear -Hb.
  repeat (apply elem_of_cons in Hb as [->|Hb]); [..|by apply elem_of_nil in Hb];
    repeat case_decide; try lia; destruct neg; rewrite ?rev_app_distr, rev_involutive; reflexivity.
Qed.

(** ** Formats *)

Lemma cstr_cons m a b l :
  is_cstr (at_ptr m a) (b :: l) -> m a = b /\ 1 <= b < 256 /\ is_cstr (at_ptr m (a + 1)) l.
Proof.
  intros H. apply is_cstr_tail in H as (H1 & H2 & H3). unfold at_ptr in *.
  rewrite Z.add_0_r in H1. split; [done|]. split; [done|].
  destruct H3 as [H3 H4]. split.
  - intros i x Hx. destruct (H3 i x Hx) as [<- Hb]. split; [f_equal; lia|done].
  - rewrite <- H4. f_equal. lia.
Qed.

Lemma cstr_nil m a : is_cstr (at_ptr m a) [] -> m a = 0.
Proof. intros [_ H]. unfold at_ptr in H. cbn [length] in H. by rewrite Z.add_0_r in H. Qed.

Section Formats.

Context {S : Type} (putc : S -> Z -> outcome S).

Lemma emit_app (a b : list Z) : forall s, emit putc s (a ++ b) = (s1 ← emit putc s a; emit putc s1 b).
Proof.
  induction a as [|c a IH]; intros s; cbn [app emit]; [done|].
  destruct (putc s c) as [s1|]; cbn [mbind outcome_bind]; [apply IH|done].
Qed.

Lemma printint_ok s w n base sign :
  base ∈ [2; 8; 10; 16] -> -2147483648 <= n < 2147483648 -> u32 w = u32 n ->
  let neg := sign && bool_decide (n < 0) in
  printint putc s w base sign =
  emit putc s ((if decide (base = 2) then [48; 98] else if decide (base = 8) then [48; 111]
                else if decide (base = 16) then [48; 120] else []) ++
               (if neg then [45] else []) ++ numeral 32 base (if neg then - n else u32 n)).
Proof.
  intros Hb Hn Hw. cbn zeta. unfold printint.
  replace (s32 w) with n by (unfold s32, u32 in *; modlia).
  destruct (printint_buf_ok n base sign Hb Hn) as (buf & -> & Er). cbn [mbind outcome_bind].
  by rewrite Er.
Qed.

Lemma print_str_ok m l : forall fuel s p,
  is_cstr (at_ptr m p) l -> (length l < fuel)%nat -> print_str putc fuel m s p = emit putc s l.
Proof.
  induction l as [|c l IH]; intros fuel s p Hl Hf; (destruct fuel as [|f]; [lia|]); cbn [print_str emit].
  - by rewrite (cstr_nil m p Hl), decide_True.
  - apply cstr_cons in Hl as (-> & Hc & Hl). rewrite decide_False by lia. cbn [length] in Hf.
    destruct (putc s c) as [s1|]; cbn [mbind outcome_bind]; [|done]. apply IH; [done|lia].
Qed.

(** One directive: the loop reads [%] and [d], and goes on behind them. *)
Lemma format_directive has_c sf f m s fmt i ap d l :
  is_cstr (at_ptr m (fmt + i)) (37 :: d :: l) ->
  is_cstr (at_ptr m (fmt + (i + 2))) l /\
  format_loop putc has_c sf (Datatypes.S f) m s fmt i ap =
  let continue s1 ap1 := format_loop putc has_c sf f m s1 fmt (i + 2) ap1 in
  if decide (d = 100) then s1 ← printint putc s (load32 m ap) 10 true; continue s1 (ap + 4)
  else if decide (d = 98) then s1 ← printint putc s (load32 m ap) 2 false; continue s1 (ap + 4)
  else if decide (d = 111) then s1 ← printint putc s (load32 m ap) 8 false; continue s1 (ap + 4)
  else if decide (d = 120 \/ d = 112) then s1 ← printint putc s (load32 m ap) 16 false; continue s1 (ap + 4)
  else if decide (has_c = true /\ d = 99) then s1 ← putc s (load32 m ap); continue s1 (ap + 4)
  else if decide (d = 115) then s1 ← print_str putc sf m s (load32 m ap); continue s1 (ap + 4)
  else continue s ap.
Proof.
  intros H. apply cstr_cons in H as (H1 & _ & H). apply cstr_cons in H as (H2 & Hd & H).
  replace (fmt + i + 1 + 1) with (fmt + (i + 2)) in H by lia. split; [done|].
  replace (fmt + i + 1) with (fmt + (i + 1)) in H2 by lia.
  cbn [format_loop]. rewrite H1, H2. rewrite decide_False by done.
  rewrite (decide_False (P := 37 <> 37)) by lia. rewrite (decide_False (P := d = 0)) by lia. done.
Qed.

Lemma bind_emit (e : outcome S) s cs rest (k : S -> outcome S) :
  e = emit putc s cs -> (forall s1, k s1 = emit putc s1 rest) ->
  (s1 ← e; k s1) = emit putc s (cs ++ rest).
Proof.
  intros -> Hk. rewrite emit_app. destruct (emit putc s cs) as [s1|]; cbn [mbind outcome_bind]; [apply Hk|done].
Qed.

Lemma format_ok has_c m sf fs : forall fuel s fmt i ap,
  is_cstr (at_ptr m (fmt + i)) (concat (map frag_fmt fs)) -> args_at m ap (concat (map frag_args fs)) ->
  Forall (frag_ok has_c m) fs -> (length fs < fuel)%nat ->
  Forall (fun f => match f with FStr _ l => (length l < sf)%nat | _ => True end) fs ->
  format_loop putc has_c sf fuel m s fmt i ap = emit putc s (concat (map frag_text fs)).
Proof.
  induction fs as [|f fs IH]; intros fuel s fmt i ap Hf Ha Hok Hfuel Hsf; (destruct fuel as [|fuel]; [lia|]).
  - cbn [format_loop map concat emit]. by rewrite (cstr_nil _ _ Hf), decide_True.
  - apply Forall_cons in Hok as [Hf1 Hok]. apply Forall_cons in Hsf as [Hs1 Hsf].
    cbn [map concat] in *. cbn [length] in Hfuel.
    assert (Hrest : forall s1 i' ap', is_cstr (at_ptr m (fmt + i')) (concat (map frag_fmt fs)) ->
              args_at m ap' (concat (map frag_args fs)) ->
              format_loop putc has_c sf fuel m s1 fmt i' ap' = emit putc s1 (concat (map frag_text fs))).
    { intros s1 i' ap' H1 H2. apply IH; [done|done|done|lia|done]. }
    destruct f as [c|n|n|n|n ptr|c|p l]; cbn [frag_fmt frag_args frag_ok app args_at] in *;
      [|destruct Ha as [Ha Hargs]..].
    + apply cstr_cons in Hf as (H1 & Hc & Hf). cbn [format_loop frag_text]. rewrite H1.
      rewrite decide_False by lia. rewrite decide_True by done. cbn [app emit].
      destruct (putc s c) as [s1|]; cbn [mbind outcome_bind]; [|done]. apply Hrest; [|done].
      by replace (fmt + (i + 1)) with (fmt + i + 1) by lia.
    + apply (format_directive has_c sf fuel m s fmt i ap) in Hf as [Hf ->]. cbn zeta. rewrite decide_True by done.
      apply bind_emit; [|intros s1; by apply Hrest].
      rewrite (printint_ok s _ n) by (rewrite ?Ha, ?u32_idem; done || elem_in_bases).
      rewrite !decide_False by done. cbn [andb app frag_text]. case_decide as E.
      * rewrite bool_decide_eq_true_2 by done. by rewrite Z.abs_neq by lia.
      * rewrite bool_decide_eq_false_2 by done. rewrite u32_small by lia. by rewrite Z.abs_eq by lia.
    + apply (format_directive has_c sf fuel m s fmt i ap) in Hf as [Hf ->]. cbn zeta.
      rewrite decide_False, decide_True by done.
      apply bind_emit; [|intros s1; by apply Hrest].
      by rewrite (printint_ok s _ n) by (rewrite ?Ha, ?u32_idem; done || elem_in_bases).
    + apply (format_directive has_c sf fuel m s fmt i ap) in Hf as [Hf ->]. cbn zeta.
      rewrite 2!decide_False, decide_True by done.
      apply bind_emit; [|intros s1; by apply Hrest].
      by rewrite (printint_ok s _ n) by (rewrite ?Ha, ?u32_idem; done || elem_in_bases).
    + apply (format_directive has_c sf fuel m s fmt i ap) in Hf as [Hf ->]. cbn zeta.
      rewrite 3!decide_False by (by destruct ptr). rewrite decide_True by (destruct ptr; tauto).
      apply bind_emit; [|intros s1; by apply Hrest].
      by rewrite (printint_ok s _ n) by (rewrite ?Ha, ?u32_idem; done || elem_in_bases).
    + destruct Hf1 as [-> Hc].
      apply (format_directive true sf fuel m s fmt i ap) in Hf as [Hf ->]. cbn zeta.
      rewrite 4!decide_False by (done || lia). rewrite decide_True by done.
      apply bind_emit; [|intros s1; by apply Hrest]. rewrite Ha, u32_small by done.
      cbn [frag_text emit]. by destruct (putc s c).
    + destruct Hf1 as [Hl Hp].
      apply (format_directive has_c sf fuel m s fmt i ap) in Hf as [Hf ->]. cbn zeta.
      rewrite 5!decide_False by (done || lia || by intros [_ ?]). rewrite decide_True by done.
      apply bind_emit; [|intros s1; by apply Hrest]. rewrite Ha, u32_small by done.
      by apply print_str_ok.
Qed.

End Formats.

(** ** The text on the screen *)

Lemma putc_same_screen s s' c :
  same_screen s s' -> same_screen (putc_to_console s c) (putc_to_console s' c).
Proof.
  intros (E1 & E2 & E3). unfold same_screen, putc_to_console, putc_scroll, putc_write, attribute.
  rewrite E1, E2, E3. repeat case_decide; cbn in *; rewrite ?E1, ?E2, ?E3 in *; done.
Qed.

Lemma put_c_screen `{Uart} s c : exists s', put_c s c = Ret s' /\ same_screen (putc_to_console s c) s'.
Proof.
  unfold put_c. cbn zeta. set (s1 := putc_to_console s c).
  case_decide; [|by exists s1]. unfold write_serial. destruct (has_serial s1); [|by exists s1].
  rewrite serial_byte_ok. cbn [mbind outcome_bind]. case_decide; [rewrite serial_byte_ok|]; by eexists.
Qed.

Lemma printable_chars s : forallb (fun c => (32 <=? c) && (c <? 127)) (chars s) = true -> Forall printable (chars s).
Proof.
  intros H. apply Forall_forall. intros c Hc. apply list_elem_of_In in Hc.
  pose proof (proj1 (forallb_forall _ _) H c Hc) as Hb. cbn beta in Hb. unfold printable. lia.
Qed.

Lemma emit_screen `{Uart} cs : forall s t,
  same_screen t s -> exists s', emit put_c s cs = Ret s' /\ same_screen (put_text t cs) s'.
Proof.
  induction cs as [|c cs IH]; intros s t Hst; cbn [emit put_text]; [by exists s|].
  destruct (put_c_screen s c) as (s1 & E & H1). rewrite E. cbn [mbind outcome_bind]. apply IH.
  destruct (putc_same_screen t s c Hst) as (A1 & A2 & A3), H1 as (B1 & B2 & B3).
  split; [congruence|]. split; congruence.
Qed.

Lemma emit_total `{Uart} s cs : exists s', emit put_c s cs = Ret s'.
Proof. destruct (emit_screen cs s s) as (s' & E & _); [done|]. by exists s'. Qed.

(** Printable text sent to the console stands in front of the cursor. *)
Lemma emit_shows `{Uart} cs s s' : screen_ok s -> CONS_COLS <= cons_pos s -> 0 <= dcolor s < 256 ->
  Forall printable cs -> Z.of_nat (length cs) <= 23 * CONS_COLS -> emit put_c s cs = Ret s' -> shows_text s' cs.
Proof.
  intros Hscr Hpos Hcol Hpr Hn E. destruct (emit_screen cs s s) as (con & E' & S1 & S2 & S3); [done|].
  rewrite E' in E. injection E as <-. unfold CONS_COLS in *.
  destruct (put_text_ok cs s [] Hscr Hcol Hpr) as [_ [T1 T2]]; [cbn [length]; lia|split; [cbn [length]; lia|intros j x Hj; discriminate Hj]|].
  unfold shows_text, cell, attribute in *. rewrite S1, S2, S3. by split.
Qed.

(** ** Ports

    Printing sends to the video controller and the serial line, and to no port
    of the interrupt controllers. *)
Definition pic_free (e : event) : Prop :=
  match e with Outb p _ => p <> 33 /\ p <> 161 | WakeReaders => True end.

Definition talks (s s' : console) : Prop := exists evs, log s' = log s ++ evs /\ Forall pic_free evs.

#[export] Instance talks_preorder : PreOrder talks.
Proof.
  split; [intros s; exists []; by rewrite app_nil_r|]. intros s1 s2 s3 (e1 & E1 & F1) (e2 & E2 & F2).
  exists (e1 ++ e2). rewrite E2, E1, <- app_assoc. split; [done|]. by apply Forall_app.
Qed.

Lemma log_talks s s' evs : log s' = log s ++ evs -> Forall pic_free evs -> talks s s'.
Proof. by exists evs. Qed.

Lemma same_log_talks s s' : log s' = log s -> talks s s'.
Proof. intros E. exists []. by rewrite E, app_nil_r. Qed.

Lemma put_cursor_talks s s' p : log s' = log s -> talks s (put_cursor s' p).
Proof.
  intros E. unfold put_cursor, add_log, talks. cbn [log]. rewrite E. eexists. split; [reflexivity|].
  rewrite !Forall_cons, Forall_nil. unfold pic_free, CGA_BASE. lia.
Qed.

Lemma putc_console_talks s c : talks s (putc_to_console s c).
Proof.
  apply put_cursor_talks. unfold putc_scroll, putc_write. cbn zeta. repeat case_decide; reflexivity.
Qed.

Lemma write_serial_talks `{Uart} s c s' : write_serial s c = Ret s' -> talks s s'.
Proof.
  assert (Hb : forall s c s', serial_byte s c = Ret s' -> talks s s').
  { intros t d t'. unfold serial_byte. destruct (serial_wait _ _ _); cbn [mbind outcome_bind]; [|done]. injection 1 as <-.
    eapply log_talks; [reflexivity|]. rewrite Forall_singleton. unfold pic_free, COM1. lia. }
  unfold write_serial. destruct (has_serial s); [|injection 1 as <-; reflexivity].
  destruct (serial_byte s c) as [s1|] eqn:E1; cbn [mbind outcome_bind]; [|done]. apply Hb in E1.
  case_decide; [|by injection 1 as <-]. intros E2. apply Hb in E2. by transitivity s1.
Qed.

Lemma emit_talks `{Uart} cs : forall s s', emit put_c s cs = Ret s' -> talks s s'.
Proof.
  induction cs as [|c cs IH]; intros s s'; cbn [emit]; [injection 1 as <-; reflexivity|].
  destruct (put_c s c) as [s1|] eqn:E; cbn [mbind outcome_bind]; [|done]. intros E'. transitivity s1; [|by apply IH].
  unfold put_c in E. cbn zeta in E. transitivity (putc_to_console s c); [apply putc_console_talks|].
  case_decide; [by apply write_serial_talks in E|by injection E as <-].
Qed.

(** Printing always ends. *)
Lemma emit_says `{Uart} s cs : exists s', emit put_c s cs = Ret s' /\ talks s s'.
Proof. destruct (emit_total s cs) as (s' & E). exists s'. split; [exact E|by apply emit_talks in E]. Qed.

Lemma call_format {S : Type} (putc : S -> Z -> outcome S) has_c m sp sf fuel fs s :
  call_ok has_c m sp sf fuel fs ->
  (if decide (load32 m sp = 0) then Ret s else format_loop putc has_c sf fuel m s (load32 m sp) 0 (sp + 4)) =
  emit putc s (concat (map frag_text fs)).
Proof.
  intros (H0 & Hf & Ha & Hok & Hfuel & Hsf). rewrite decide_False by done.
  apply format_ok; try done. by rewrite Z.add_0_r.
Qed.

Lemma demo_call has_c : call_ok has_c demo_mem 24 3 6 demo_frags.
Proof.
  assert (C : forall a l, bool_decide (Forall (fun b => 1 <= b < 256) l) = true ->
              read_bytes demo_mem a (length l + 1) = l ++ [0] -> is_cstr (at_ptr demo_mem a) l).
  { intros a l Hl Hr. apply bool_decide_eq_true in Hl.
    assert (N : forall i, (i < length l + 1)%nat -> demo_mem (a + Z.of_nat i) = nth i (l ++ [0]) 0).
    { intros i Hi. rewrite <- Hr. by rewrite nth_read_bytes. }
    split.
    - intros i b Hi. pose proof (lookup_lt_Some _ _ _ Hi) as Hlt. unfold at_ptr. rewrite N by lia.
      rewrite app_nth1 by lia. rewrite (nth_lookup_Some _ _ _ _ Hi). split; [done|].
      by apply (Forall_lookup_1 _ _ _ _ Hl Hi).
    - unfold at_ptr. rewrite N by lia. rewrite app_nth2 by lia. by rewrite Nat.sub_diag. }
  split; [vm_compute; discriminate|]. split; [apply C; reflexivity|]. split; [repeat split|].
  split; [|split; [vm_compute; lia|repeat constructor]].
  repeat (apply Forall_cons; split); try apply Forall_nil; cbn [frag_ok]; try lia.
  split; [apply C; reflexivity|lia].
Qed.

(** ** Properties *)

(** C25. Both formatters print, for every format made of literal characters and
    of [%d], [%b], [%o], [%x], [%p], [%s] (and [%c] in the kernel), exactly the
    text of its parts: signed decimals, prefixed unsigned numerals and the
    characters of the strings, each taken from the next argument. *)
Theorem printk_prints {uart : Uart} {S : Type} (write1 : S -> Z -> outcome S) (m : memory) (sp : Z)
  (strfuel fuel : nat) (fs : list frag) (s : console) (t : S) :
  (call_ok true m sp strfuel fuel fs ->
   printk strfuel fuel m s sp = emit put_c s (concat (map frag_text fs))) /\
  (call_ok false m sp strfuel fuel fs ->
   printf write1 strfuel fuel m t sp = emit write1 t (concat (map frag_text fs))).
Proof. split; intros H; unfold printk, printf; cbn zeta; by apply call_format. Qed.

Lemma printk_prints_witness :
  printf (fun (l : list Z) c => Ret (l ++ [c])) 3 6 demo_mem [] 24 = Ret [110; 61; 45; 53; 32; 111; 107].
Proof.
  rewrite (proj2 (printk_prints (uart := ready_uart) (fun (l : list Z) c => Ret (l ++ [c])) demo_mem 24 3 6
                    demo_frags blank_console []) (demo_call false)).
  vm_compute. reflexivity.
Defined.

(** C32. [printint] writes at most 35 characters into its buffer of 67, and what
    it prints is the numeral of its argument: 0b, 0o or 0x in front in the bases two,
    eight and sixteen, then a minus sign exactly if the number is printed as
    signed and negative, then digits that have the argument's magnitude (as an unsigned word
    when it is not printed as signed) in the base and do not begin with a zero
    unless the number is zero. *)
Theorem printint_numeral (n base : Z) (sign : bool)
  (Hb : base ∈ [2; 8; 10; 16]) (Hn : -2147483648 <= n < 2147483648) :
  let neg := sign && bool_decide (n < 0) in
  exists buf ds, printint_buf n base sign = Ret buf /\
    rev buf = base_prefix base ++ (if neg then [45] else []) ++ ds /\
    Z.of_nat (length buf) <= 35 /\ 35 <= BUF_LEN /\
    value base ds = (if neg then - n else u32 n) /\ Forall (is_digit base) ds /\
    (ds = [48] \/ exists c l, ds = c :: l /\ c <> 48).
Proof.
  intros neg. destruct (printint_buf_ok n base sign Hb Hn) as (buf & E & Er). fold neg in Er.
  set (v := if neg then - n else u32 n) in *.
  assert (Hb2 : 2 <= base <= 16).
  { clear -Hb. repeat (apply elem_of_cons in Hb as [->|Hb]; [lia|]). by apply elem_of_nil in Hb. }
  assert (Hv : 0 <= v < 4294967296).
  { unfold v, neg. destruct sign; cbn [andb]; [|apply u32_range]. case_bool_decide; [lia|apply u32_range]. }
  pose proof (word_pow base v ltac:(lia) Hv) as Hw.
  exists buf, (numeral 32 base v). split; [done|]. split; [exact Er|].
  split; [|split; [done|split; [|split]]].
  - rewrite <- length_rev, Er, !length_app. pose proof (numeral_length 32 base v) as Hl. unfold base_prefix.
    destruct neg; repeat case_decide; cbn [length]; lia.
  - apply numeral_value; [done|done|lia].
  - apply numeral_digits. lia.
  - destruct (decide (v = 0)) as [->|Hz]; [left|right; apply numeral_head; lia].
    cbn [numeral]. rewrite decide_True by (by rewrite Z.div_0_l by lia). by rewrite Z.mod_0_l by lia.
Qed.

Lemma printint_numeral_witness :
  exists buf ds, printint_buf (-120) 10 true = Ret buf /\ rev buf = [] ++ [45] ++ ds /\
    Z.of_nat (length buf) <= 35 /\ 35 <= BUF_LEN /\ value 10 ds = 120 /\ Forall (is_digit 10) ds /\
    (ds = [48] \/ exists c l, ds = c :: l /\ c <> 48).
Proof. apply (printint_numeral (-120) 10 true); [right; right; left | lia]. Defined.

(** A message printed with [printk] whose text is printable and at most 23
    lines long is readable on the screen in front of the cursor when the call
    returns, whatever was on the screen before. *)
Lemma printk_visible {uart : Uart} (m : memory) (sp : Z) (strfuel fuel : nat) (fs : list frag) (s : console)
  (Hcall : call_ok true m sp strfuel fuel fs)
  (Htext : Forall printable (concat (map frag_text fs)))
  (Hlen : Z.of_nat (length (concat (map frag_text fs))) <= 23 * CONS_COLS)
  (Hs : screen_ok s) (Hd : 0 <= dcolor s < 256) (Hpos : CONS_COLS <= cons_pos s) :
  exists s', printk strfuel fuel m s sp = Ret s' /\ screen_ok s' /\
    shows_text s' (concat (map frag_text fs)).
Proof.
  unfold printk. cbn zeta. rewrite (call_format put_c true m sp strfuel fuel fs s Hcall).
  set (cs := concat (map frag_text fs)) in *.
  destruct (emit_screen cs s s) as (s' & E & E1 & E2 & E3); [done|]. exists s'. split; [done|].
  destruct (put_text_ok cs s []) as [[H1 H2] [H3 H4]]; [done|done|done| | |].
  - unfold CONS_COLS in Hlen. cbn [length]. lia.
  - split; [unfold CONS_COLS in Hpos; cbn [length]; lia|]. intros j c Hj. by rewrite lookup_nil in Hj.
  - unfold screen_ok, shows_text, cell, attribute in *. rewrite E1, E2, E3. done.
Qed.

