(* ===== verification/Keyboard.v ===== *)
(** * The keyboard

    drv/keyboard.c and inc/kbd.h: the translation of scan codes, with the state
    of the modifier keys in the static [flag] of [read_kbd], and the interrupt
    handler, which feeds the characters to the console (Console.v).  The
    keyboard controller is hardware: the scan codes that wait in it are a
    list. *)

From stdpp Require Import base list.
From Stdlib Require Import ZArith Lia.
From S2P Require Import Prelude Mmu CString Console.

Open Scope Z_scope.

(** ** Constants and tables *)

Definition KBS_DIB : Z := 1.

Definition SHIFT : Z := 1.

Definition CTL : Z := 2.

Definition ALT : Z := 4.

Definition CAPSLOCK : Z := 8.

Definition NUMLOCK : Z := 16.

Definition SCROLLLOCK : Z := 32.

Definition E0ESC : Z := 64.

(** The entries the initialisers leave out are zero; [F10], 0xF10, is cut to a
    byte. *)
Definition table (l : list Z) (sc : Z) : Z := nth (Z.to_nat sc) l 0.

Definition norm_map : list Z :=
  [0; 0; 49; 50; 51; 52; 53; 54;
   55; 56; 57; 48; 45; 61; 8; 9;
   113; 119; 101; 114; 116; 121; 117; 105;
   111; 112; 91; 93; 10; 0; 97; 115;
   100; 102; 103; 104; 106; 107; 108; 59;
   39; 96; 0; 92; 122; 120; 99; 118;
   98; 110; 109; 44; 46; 47; 0; 42;
   0; 32; 0; 241; 242; 243; 244; 245;
   246; 247; 248; 249; 16].

Definition shift_map : list Z :=
  [0; 0; 33; 64; 35; 36; 37; 94;
   38; 42; 40; 41; 95; 43; 8; 9;
   81; 87; 69; 82; 84; 89; 85; 73;
   79; 80; 123; 125; 10; 0; 65; 83;
   68; 70; 71; 72; 74; 75; 76; 58;
   34; 126; 0; 124; 90; 88; 67; 86;
   66; 78; 77; 60; 62; 63; 0; 42;
   0; 32].

Definition ctrl_map : list Z :=
  [0; 0; 0; 0; 0; 0; 0; 0;
   0; 0; 0; 0; 0; 0; 0; 0;
   17; 23; 5; 18; 20; 25; 21; 9;
   15; 16; 0; 0; 13; 0; 1; 19;
   4; 6; 7; 8; 10; 11; 12; 0;
   0; 0; 0; 28; 26; 24; 3; 22;
   2; 14; 13; 0; 0; 239; 0; 0].

(** Tables given by designated initialisers. *)
Fixpoint designated (l : list (Z * Z)) (sc : Z) : Z :=
  match l with
  | [] => 0
  | (i, v) :: l' => if decide (sc = i) then v else designated l' sc
  end.

Definition e0_map : list (Z * Z) :=
  [(28, 10); (29, 236); (53, 47); (56, 237); (72, 226); (71, 224); (73, 230); (75, 228); (77, 229); (79, 225); (80, 227); (81, 231); (82, 232); (83, 233); (91, 234); (92, 235)].

Definition shiftmap : list (Z * Z) := [(29, CTL); (42, SHIFT); (54, SHIFT); (56, ALT)].

Definition togglemap : list (Z * Z) := [(58, CAPSLOCK); (69, NUMLOCK); (70, SCROLLLOCK)].

Definition kb_map : list (list Z) := [norm_map; shift_map; ctrl_map; ctrl_map].

(** ** Translation *)

(** The effect of CAPSLOCK on a (signed) character. *)
Definition caps_val (flag val : Z) : Z :=
  if has flag CAPSLOCK then
    if decide (97 <= val <= 122) then s8 (val + (65 - 97))
    else if decide (65 <= val <= 90) then s8 (val + (97 - 65)) else val
  else val.

(** [read_kbd] with the two port reads [status] (0x64) and [sc] (0x60): the
    result and the new [flag]. *)
Definition read_kbd (flag status sc : Z) : Z * Z :=
  if decide (Z.land status KBS_DIB = 0) then (-1, flag)
  else
    let _sc := Z.land sc 127 in
    if decide (sc = 224) then (0, Z.lor flag E0ESC)
    else if has sc 128 then (0, Z.land flag (Z.lnot (Z.lor (designated shiftmap _sc) E0ESC)))
    else
      let e0_flag := has flag E0ESC in
      let flag := if e0_flag then Z.land flag (Z.lnot E0ESC) else flag in
      let flag := Z.lor flag (designated shiftmap _sc) in
      let flag := Z.lxor flag (designated togglemap _sc) in
      if e0_flag then (designated e0_map _sc, flag)
      else
        let val := s8 (table (nth (Z.to_nat (Z.land flag (Z.lor CTL SHIFT))) kb_map []) _sc) in
        (caps_val flag val, flag).

(** What the loop of [console_isr] gets from [read_kbd] for the scan codes that
    wait, up to the first -1. *)
Fixpoint kbd_values (flag : Z) (scs : list Z) : list Z * Z * list Z :=
  match scs with
  | [] => ([], snd (read_kbd flag 0 0), [])
  | sc :: scs' =>
      let '(c, flag') := read_kbd flag KBS_DIB sc in
      if decide (c = -1) then ([], flag', scs')
      else let '(cs, flag'', rest) := kbd_values flag' scs' in (c :: cs, flag'', rest)
  end.

(** [v61] is what port 0x61 holds; the result is the console, the flag and the
    scan codes left in the controller. *)
Definition keyboard_isr `{Uart} (s : console) (flag : Z) (scs : list Z) (v61 : Z) :
    outcome (console * Z * list Z) :=
  let '(cs, flag', rest) := kbd_values flag scs in
  s1 ← console_isr s cs;
  Ret (add_log s1 [Outb 97 (u8 (Z.lor v61 128)); Outb 97 (Z.land v61 127); Outb 32 32], flag', rest).

(** ** Specification *)

(** Which modifiers are held, which locks are on, and whether an extended scan
    code has begun. *)
Record mods : Type := mkMods {
  shift_held : bool;
  ctl_held : bool;
  alt_held : bool;
  caps_on : bool;
  num_on : bool;
  scroll_on : bool;
  extended : bool
}.

#[export] Instance mods_eq_dec : EqDecision mods.
Proof. solve_decision. Defined.

Inductive key : Type := KShift | KCtl | KAlt | KCaps | KNum | KScroll | KPlain.

Definition key_of (k : Z) : key :=
  if decide (k = 42 \/ k = 54) then KShift
  else if decide (k = 29) then KCtl
  else if decide (k = 56) then KAlt
  else if decide (k = 58) then KCaps
  else if decide (k = 69) then KNum
  else if decide (k = 70) then KScroll else KPlain.

Definition release (m : mods) (k : key) : mods :=
  match k with
  | KShift => mkMods false (ctl_held m) (alt_held m) (caps_on m) (num_on m) (scroll_on m) false
  | KCtl => mkMods (shift_held m) false (alt_held m) (caps_on m) (num_on m) (scroll_on m) false
  | KAlt => mkMods (shift_held m) (ctl_held m) false (caps_on m) (num_on m) (scroll_on m) false
  | _ => mkMods (shift_held m) (ctl_held m) (alt_held m) (caps_on m) (num_on m) (scroll_on m) false
  end.

Definition press (m : mods) (k : key) : mods :=
  match k with
  | KShift => mkMods true (ctl_held m) (alt_held m) (caps_on m) (num_on m) (scroll_on m) false
  | KCtl => mkMods (shift_held m) true (alt_held m) (caps_on m) (num_on m) (scroll_on m) false
  | KAlt => mkMods (shift_held m) (ctl_held m) true (caps_on m) (num_on m) (scroll_on m) false
  | KCaps => mkMods (shift_held m) (ctl_held m) (alt_held m) (negb (caps_on m)) (num_on m) (scroll_on m) false
  | KNum => mkMods (shift_held m) (ctl_held m) (alt_held m) (caps_on m) (negb (num_on m)) (scroll_on m) false
  | KScroll => mkMods (shift_held m) (ctl_held m) (alt_held m) (caps_on m) (num_on m) (negb (scroll_on m)) false
  | KPlain => mkMods (shift_held m) (ctl_held m) (alt_held m) (caps_on m) (num_on m) (scroll_on m) false
  end.

Definition lower (c : Z) : bool := bool_decide (97 <= c <= 122).

Definition upper (c : Z) : bool := bool_decide (65 <= c <= 90).

(** The character of a key that is not extended. *)
Definition key_char (m : mods) (k : Z) : Z :=
  let c := s8 (table (if ctl_held m then ctrl_map else if shift_held m then shift_map else norm_map) k) in
  if caps_on m then if lower c then c - 32 else if upper c then c + 32 else c else c.

Definition spec_kbd (m : mods) (sc : Z) : Z * mods :=
  if decide (sc = 224) then
    (0, mkMods (shift_held m) (ctl_held m) (alt_held m) (caps_on m) (num_on m) (scroll_on m) true)
  else if decide (128 <= sc) then (0, release m (key_of (sc - 128)))
  else
    let m' := press m (key_of sc) in
    (if extended m then designated e0_map sc else key_char m' sc, m').

(** The word that keeps the modifiers. *)
Definition enc (m : mods) : Z :=
  Z.b2z (shift_held m) * SHIFT + Z.b2z (ctl_held m) * CTL + Z.b2z (alt_held m) * ALT +
  Z.b2z (caps_on m) * CAPSLOCK + Z.b2z (num_on m) * NUMLOCK + Z.b2z (scroll_on m) * SCROLLLOCK +
  Z.b2z (extended m) * E0ESC.

(** The key of a lower-case letter: its place in the unshifted table. *)
Fixpoint index_of (c : Z) (l : list Z) (i : Z) : Z :=
  match l with
  | [] => -1
  | x :: l' => if decide (x = c) then i else index_of c l' (i + 1)
  end.

Definition letter_key (c : Z) : Z := index_of c norm_map 0.

(** Pressing and releasing the keys of a word. *)
Definition strokes (w : list Z) : list Z := concat (map (fun c => [letter_key c; letter_key c + 128]) w).

(** What the word looks like under the modifiers. *)
Definition in_case (m : mods) (c : Z) : Z := if xorb (shift_held m) (caps_on m) then c - 32 else c.

(** One step of the table-driven code against the specification. *)
Definition refines_at (m : mods) (sc : Z) : bool :=
  let '(c, m') := spec_kbd m sc in
  bool_decide (read_kbd (enc m) KBS_DIB sc = (c, enc m') /\ c <> -1).

(** What the key of a letter does when it is neither extended nor under CTL, and
    under CTL. *)
Definition letter_at (m : mods) (c : Z) : bool :=
  if lower c && negb (ctl_held m) && negb (extended m) then
    bool_decide (0 <= letter_key c < 128 /\
                 spec_kbd m (letter_key c) = (in_case m c, m) /\
                 spec_kbd m (letter_key c + 128) = (0, m) /\ 0 < in_case m c < 128)
  else true.

Definition ctl_letter_at (m : mods) (c : Z) : bool :=
  if lower c && ctl_held m && negb (extended m) then
    bool_decide (fst (spec_kbd m (letter_key c)) = c - 96)
  else true.

Definition all_mods : list mods :=
  let b := [false; true] in
  flat_map (fun x1 => flat_map (fun x2 => flat_map (fun x3 => flat_map (fun x4 => flat_map (fun x5 =>
  flat_map (fun x6 => map (fun x7 => mkMods x1 x2 x3 x4 x5 x6 x7) b) b) b) b) b) b) b.

(** ** Lemmas *)

Lemma all_mods_complete m : In m all_mods.
Proof.
  destruct m as [x1 x2 x3 x4 x5 x6 x7]. unfold all_mods. cbn zeta.
  assert (B : forall b : bool, In b [false; true]) by (intros []; cbn; tauto).
  apply in_flat_map; exists x1; split; [apply B|]. apply in_flat_map; exists x2; split; [apply B|].
  apply in_flat_map; exists x3; split; [apply B|]. apply in_flat_map; exists x4; split; [apply B|].
  apply in_flat_map; exists x5; split; [apply B|]. apply in_flat_map; exists x6; split; [apply B|].
  apply in_map_iff. by exists x7.
Qed.

Lemma all_codes_complete n sc : 0 <= sc < Z.of_nat n -> In sc (map Z.of_nat (seq 0 n)).
Proof.
  intros H. apply in_map_iff. exists (Z.to_nat sc). split; [lia|]. apply in_seq. lia.
Qed.

(** A property of all modifiers and scan codes, by evaluation. *)
Lemma check_all (P : mods -> Z -> bool) n :
  forallb (fun m => forallb (P m) (map Z.of_nat (seq 0 n))) all_mods = true ->
  forall m sc, 0 <= sc < Z.of_nat n -> P m sc = true.
Proof.
  intros H m sc Hsc. pose proof (proj1 (forallb_forall _ _) H m (all_mods_complete m)) as H1.
  exact (proj1 (forallb_forall _ _) H1 sc (all_codes_complete n sc Hsc)).
Qed.

Lemma read_kbd_ok m sc :
  0 <= sc < 256 ->
  read_kbd (enc m) KBS_DIB sc = (fst (spec_kbd m sc), enc (snd (spec_kbd m sc))) /\ fst (spec_kbd m sc) <> -1.
Proof.
  intros H. pose proof (check_all refines_at 256 ltac:(vm_compute; reflexivity) m sc H) as Hr.
  unfold refines_at in Hr. destruct (spec_kbd m sc) as [c m']. by apply bool_decide_eq_true in Hr.
Qed.

Lemma letter_ok m c :
  97 <= c <= 122 -> ctl_held m = false -> extended m = false ->
  0 <= letter_key c < 128 /\ spec_kbd m (letter_key c) = (in_case m c, m) /\
  spec_kbd m (letter_key c + 128) = (0, m) /\ 0 < in_case m c < 128.
Proof.
  intros Hc Hctl Hext. pose proof (check_all letter_at 123 ltac:(vm_compute; reflexivity) m c ltac:(lia)) as H.
  unfold letter_at, lower in H. rewrite bool_decide_eq_true_2, Hctl, Hext in H by done.
  by apply bool_decide_eq_true in H.
Qed.

Lemma ctl_letter_ok m c :
  97 <= c <= 122 -> ctl_held m = true -> extended m = false -> fst (spec_kbd m (letter_key c)) = c - 96.
Proof.
  intros Hc Hctl Hext. pose proof (check_all ctl_letter_at 123 ltac:(vm_compute; reflexivity) m c ltac:(lia)) as H.
  unfold ctl_letter_at, lower in H. rewrite bool_decide_eq_true_2, Hctl, Hext in H by done.
  by apply bool_decide_eq_true in H.
Qed.

Lemma letter_press_plain m c :
  97 <= c <= 122 -> extended m = false -> snd (spec_kbd m (letter_key c)) = m.
Proof.
  intros Hc Hext. destruct (letter_ok (mkMods (shift_held m) false (alt_held m) (caps_on m) (num_on m) (scroll_on m) false) c Hc eq_refl eq_refl)
    as (Hk & E & _ & _).
  unfold spec_kbd in *. rewrite decide_False in E |- * by lia. rewrite decide_False in E |- * by lia.
  cbn [fst snd]. injection E as _ E. destruct m as [x1 x2 x3 x4 x5 x6 x7]. cbn in Hext. subst x7.
  clear Hk. revert E. generalize (key_of (letter_key c)). intros [] E; destruct x4, x5, x6; cbn in *; congruence.
Qed.

Lemma strokes_ok m w :
  ctl_held m = false -> extended m = false -> Forall (fun c => 97 <= c <= 122) w ->
  kbd_values (enc m) (strokes w) = (concat (map (fun c => [in_case m c; 0]) w), enc m, []).
Proof.
  intros Hctl Hext. induction w as [|c w IH]; intros Hw; [done|].
  apply Forall_cons in Hw as [Hc Hw]. destruct (letter_ok m c Hc Hctl Hext) as (Hk & E1 & E2 & Hr).
  change (strokes (c :: w)) with (letter_key c :: letter_key c + 128 :: strokes w).
  cbn [map concat app kbd_values].
  destruct (read_kbd_ok m (letter_key c) ltac:(lia)) as [-> _]. rewrite E1. cbn [fst snd].
  rewrite decide_False by lia.
  destruct (read_kbd_ok m (letter_key c + 128) ltac:(lia)) as [-> _]. rewrite E2. cbn [fst snd].
  rewrite decide_False by lia. by rewrite (IH Hw).
Qed.

Lemma typed_ring `{Uart} (g : Z -> Z) w : forall s q,
  Forall (fun c => 0 < g c < 128) w -> ring_holds s q -> Z.of_nat (length q + length w) < CONS_SIZE ->
  exists s', console_isr s (concat (map (fun c => [g c; 0]) w)) = Ret s' /\ ring_holds s' (q ++ map g w).
Proof.
  induction w as [|c w IH]; intros s q Hg Hq Hn; cbn [map concat app console_isr].
  - exists s. by rewrite app_nil_r.
  - apply Forall_cons in Hg as [Hc Hg]. cbn [length] in Hn.
    destruct (console_char_ok s q (g c) ltac:(lia) Hq ltac:(lia)) as (s1 & E & Hq1). rewrite E.
    cbn [mbind outcome_bind]. change (console_char s1 0) with (Ret s1). cbn [mbind outcome_bind].
    replace (s8 (g c)) with (g c) in Hq1 by (unfold s8; modlia).
    destruct (IH s1 (q ++ [g c])) as (s' & E' & Hq'); [done|done|rewrite length_app; cbn [length]; lia|].
    exists s'. split; [done|]. by rewrite <- app_assoc in Hq'.
Qed.

(** ** Properties *)

(** C33. [read_kbd] implements a keyboard: for all states of the modifiers and
    every scan code its result and its flag word are those of the specification
    with one boolean per modifier, lock and prefix; it never takes a waiting
    scan code for "no data". *)
Theorem kbd_refines (m : mods) (sc : Z) (Hsc : 0 <= sc < 256) :
  read_kbd (enc m) KBS_DIB sc = (fst (spec_kbd m sc), enc (snd (spec_kbd m sc))) /\
  fst (spec_kbd m sc) <> -1.
Proof. exact (read_kbd_ok m sc Hsc). Qed.

Lemma kbd_refines_witness :
  read_kbd (enc (mkMods true false false true false false false)) KBS_DIB 30 =
    (97, enc (mkMods true false false true false false false)) /\ 97 <> -1.
Proof. apply (kbd_refines (mkMods true false false true false false false) 30). lia. Defined.

(** The key of a letter gives the upper-case letter exactly when one of
    SHIFT and CAPSLOCK is on, and under CTL its control code whatever the
    other modifiers are. *)
Lemma letter_case (m : mods) (c : Z) (Hc : 97 <= c <= 122) (Hext : extended m = false) :
  read_kbd (enc m) KBS_DIB (letter_key c) =
  (if ctl_held m then c - 96 else if xorb (shift_held m) (caps_on m) then c - 32 else c, enc m).
Proof.
  assert (Hk : 0 <= letter_key c < 128).
  { apply (letter_ok (mkMods false false false false false false false)); done. }
  destruct (read_kbd_ok m (letter_key c) ltac:(lia)) as [-> _].
  destruct (ctl_held m) eqn:Ectl.
  - rewrite (ctl_letter_ok m c Hc Ectl Hext). f_equal. f_equal.
    apply (letter_press_plain m c Hc Hext).
  - destruct (letter_ok m c Hc Ectl Hext) as (_ & E & _ & _). by rewrite E.
Qed.

(** Typing a word: the interrupt handler that finds the strokes of a word's
    keys in the controller appends exactly the word, in the case the modifiers
    ask for, to the characters that wait for the readers of the console, and
    leaves the modifiers as they were. *)
Lemma typing_a_word {uart : Uart} (s : console) (q w : list Z) (m : mods) (v61 : Z)
  (Hw : Forall (fun c => 97 <= c <= 122) w) (Hctl : ctl_held m = false) (Hext : extended m = false)
  (Hq : ring_holds s q) (Hn : Z.of_nat (length q + length w) < CONS_SIZE) :
  exists s', keyboard_isr s (enc m) (strokes w) v61 = Ret (s', enc m, []) /\
    ring_holds s' (q ++ map (in_case m) w).
Proof.
  unfold keyboard_isr. rewrite (strokes_ok m w Hctl Hext Hw).
  destruct (typed_ring (in_case m) w s q) as (s1 & E & Hq1); [|done|done|].
  - eapply Forall_impl; [exact Hw|]. intros c Hc. cbn beta in Hc. apply (letter_ok m c Hc Hctl Hext).
  - rewrite E. cbn [mbind outcome_bind]. eexists. split; [reflexivity|].
    apply (same_ring_holds s1); [by split|done].
Qed.

