(* ===== verification/Descriptor.v ===== *)
(** * Segment descriptors and interrupt gates

    kern/descriptor.c with the attributes of inc/const.h: the packing of
    segment descriptors and gates into the tables the processor reads, and the
    two initialisations.  Tables live in the byte memory; the addresses of the
    variables [gdt], [idt], [tss], [gdt_ptr], [idt_ptr] and the handlers of
    kern/isr.s are parameters. *)

From stdpp Require Import base list strings.
From Stdlib Require Import ZArith Lia.
From S2P Require Import Prelude CString Console Printf.

Open Scope Z_scope.

(** ** Constants *)

Definition KER_CODE : Z := 8.

Definition KER_DATA : Z := 16.

Definition USR_CODE : Z := 24.

Definition USR_DATA : Z := 32.

Definition KER_TSS : Z := 40.

Definition DA_DPL3 : Z := 96.

Definition DA_DRW : Z := 146.

Definition DA_CR : Z := 154.

Definition DA_386TSS : Z := 137.

Definition ISR_NUM : Z := 48.

Definition GDT_NUM : Z := 128.

Definition IDT_NUM : Z := 256.

Definition T_SYSCALL : Z := 48.

(** [sizeof(tss)] and the offset of [ss0] in it. *)
Definition TSS_SIZE : Z := 104.

Definition TSS_SS0 : Z := 8.

(** ** Packing *)

(** [struct descriptor]: lim_low 0, base_low 2, base_mid 4, attr1 5,
    attr2_lim_high 6, base_high 7. *)
Definition set_descriptor (m : memory) (desp base lim attr : Z) : memory :=
  let m := store16 m (desp + 2) (Z.land base 65535) in
  let m := store8 m (desp + 4) (Z.land (Z.shiftr base 16) 255) in
  let m := store8 m (desp + 7) (Z.shiftr base 24) in
  let m := store16 m desp (Z.land lim 65535) in
  let m := store8 m (desp + 5) (Z.land attr 255) in
  store8 m (desp + 6) (Z.lor (Z.land (Z.shiftr attr 8) 240) (Z.land (Z.shiftr lim 16) 15)).

(** [struct gate]: offset_low 0, sel 2, dcount 4, attr 5, offset_high 6. *)
Definition set_gate (m : memory) (gatep offset attr sel : Z) : memory :=
  let m := store16 m gatep (Z.land offset 65535) in
  let m := store16 m (gatep + 6) (Z.land (Z.shiftr offset 16) 65535) in
  let m := store16 m (gatep + 2) sel in
  let m := store8 m (gatep + 4) 0 in
  store8 m (gatep + 5) attr.

(** The three words [dump_descriptor] prints: base, limit and attributes. *)
Definition dump_descriptor (m : memory) (desp : Z) : Z * Z * Z :=
  (u32 (Z.lor (Z.lor (Z.shiftl (m (desp + 7)) 24) (Z.shiftl (m (desp + 4)) 16)) (load16 m (desp + 2))),
   Z.lor (load16 m desp) (Z.shiftl (Z.land (m (desp + 6)) 15) 16),
   u16 (Z.lor (m (desp + 5)) (Z.shiftl (Z.land (m (desp + 6)) 240) 8))).

(** The line it prints, and [dump_gdt]: the first six descriptors. *)
Definition descriptor_line (m : memory) (desp : Z) : list Z :=
  let '(base, lim, attr) := dump_descriptor m desp in
  let hex v := frag_text (FHex (s32 v) false) in
  chars "base: " ++ hex base ++ chars ", lim: " ++ hex lim ++ chars ", attr: " ++ hex attr ++ [10].

Definition dump_gdt `{uart : Uart} (con : console) (m : memory) (gdt : Z) : outcome console :=
  emit put_c con ([10] ++ chars "------- dump_gdt() start ------" ++ [10] ++
    concat (map (fun i => descriptor_line m (gdt + 8 * Z.of_nat i)) (seq 0 6)) ++
    chars "------- dump_gdt() end --------" ++ [10]).

(** ** Initialisation *)

Section Tables.

Variables gdt idt tss gdt_ptr idt_ptr : Z.
Variable isr_table : Z -> Z.

Definition init_gdt (m : memory) : memory :=
  let m := memset m gdt 0 (GDT_NUM * 8) in
  let m := set_descriptor m (gdt + KER_CODE) 0 1048575 (Z.lor (Z.shiftl 192 8) DA_CR) in
  let m := set_descriptor m (gdt + KER_DATA) 0 1048575 (Z.lor (Z.shiftl 192 8) DA_DRW) in
  let m := set_descriptor m (gdt + USR_CODE) 0 1048575 (Z.lor (Z.lor (Z.shiftl 192 8) DA_DPL3) DA_CR) in
  let m := set_descriptor m (gdt + USR_DATA) 0 1048575 (Z.lor (Z.lor (Z.shiftl 192 8) DA_DPL3) DA_DRW) in
  let m := memset m tss 0 TSS_SIZE in
  let m := store32 m (tss + TSS_SS0) KER_DATA in
  let m := set_descriptor m (gdt + KER_TSS) tss (TSS_SIZE - 1) DA_386TSS in
  let m := store32 m (gdt_ptr + 2) gdt in
  store16 m gdt_ptr (GDT_NUM * 8 - 1).

(** [for(i=0; i<ISR_NUM; i++) set_gate(&idt[i], isr_table[i], 0x8e, KER_CODE);] *)
Fixpoint gate_loop (n : nat) (m : memory) (i : Z) : memory :=
  match n with
  | O => m
  | S k => gate_loop k (set_gate m (idt + 8 * i) (isr_table i) 142 KER_CODE) (i + 1)
  end.

Definition init_idt (m : memory) : memory :=
  let m := memset m idt 0 (IDT_NUM * 8) in
  let m := gate_loop (Z.to_nat ISR_NUM) m 0 in
  let m := set_gate m (idt + 8 * T_SYSCALL) (isr_table T_SYSCALL) 238 KER_CODE in
  let m := store32 m (idt_ptr + 2) idt in
  store16 m idt_ptr (IDT_NUM * 8 - 1).

End Tables.

(** ** How the processor reads the tables *)

(** Base, limit in bytes, privilege level and type of a segment descriptor
    (Intel SDM vol. 3, 3.4.5): with the granularity bit the limit counts 4 KiB
    pages. *)
Record segment : Type := mkSegment {
  seg_base : Z;
  seg_limit : Z;
  seg_dpl : Z;
  seg_type : Z;
  seg_present : bool
}.

Definition cpu_segment (m : memory) (a : Z) : segment :=
  let b k := m (a + k) in
  let lim := b 0 + b 1 * 256 + b 6 mod 16 * 65536 in
  mkSegment (b 2 + b 3 * 256 + b 4 * 65536 + b 7 * 16777216)
            (if Z.testbit (b 6) 7 then lim * 4096 + 4095 else lim)
            (b 5 / 32 mod 4) (b 5 mod 32) (Z.testbit (b 5) 7).

(** Handler, code selector, privilege level and type of a gate (6.11). *)
Record cpu_gate : Type := mkGate {
  g_offset : Z;
  g_sel : Z;
  g_dpl : Z;
  g_type : Z;
  g_present : bool
}.

Definition read_gate (m : memory) (a : Z) : cpu_gate :=
  let b k := m (a + k) in
  mkGate (b 0 + b 1 * 256 + b 6 * 65536 + b 7 * 16777216) (b 2 + b 3 * 256)
         (b 5 / 32 mod 4) (b 5 mod 32) (Z.testbit (b 5) 7).

(** The bytes of a packed descriptor, and of a packed gate. *)
Definition desc_bytes (base lim attr : Z) : list Z :=
  [lim mod 256; lim / 256 mod 256; base mod 256; base / 256 mod 256; base / 65536 mod 256;
   attr mod 256; attr / 4096 mod 16 * 16 + lim / 65536 mod 16; base / 16777216 mod 256].

Definition gate_bytes (offset attr sel : Z) : list Z :=
  [offset mod 256; offset / 256 mod 256; sel mod 256; sel / 256 mod 256; 0; attr mod 256;
   offset / 65536 mod 256; offset / 16777216 mod 256].

(** ** Lemmas *)

Lemma land_255 x : Z.land x 255 = x mod 256.
Proof. change 255 with (Z.ones 8). by rewrite Z.land_ones. Qed.

Lemma land_65535 x : Z.land x 65535 = x mod 65536.
Proof. change 65535 with (Z.ones 16). by rewrite Z.land_ones. Qed.

Lemma land_15 x : Z.land x 15 = x mod 16.
Proof. change 15 with (Z.ones 4). by rewrite Z.land_ones. Qed.

Lemma land_240 x : Z.land x 240 = x / 16 mod 16 * 16.
Proof.
  rewrite <- land_15. change (x / 16) with (x / 2 ^ 4). rewrite <- Z.shiftr_div_pow2 by lia.
  rewrite <- (Z.shiftl_mul_pow2 _ 4) by lia. change 240 with (Z.shiftl 15 4).
  apply Z.bits_inj'. intros n Hn. rewrite Z.land_spec, !Z.shiftl_spec by lia.
  destruct (Z.ltb_spec n 4).
  - rewrite !(Z.testbit_neg_r _ (n - 4)) by lia. apply andb_false_r.
  - rewrite Z.land_spec, Z.shiftr_spec by lia. f_equal. f_equal. lia.
Qed.

Lemma lor_parts a b : 0 <= b < 16 -> Z.lor (a * 16) b = a * 16 + b.
Proof. intros Hb. apply (lor_low_add _ _ 4); [lia|apply Z.mod_mul; lia|done]. Qed.

(** Reading a list of bytes back, by index. *)
Lemma write_bytes_at m a l k :
  0 <= k < Z.of_nat (length l) -> write_bytes m a l (a + k) = nth (Z.to_nat k) l 0.
Proof. intros H. unfold write_bytes. rewrite decide_True by lia. f_equal. lia. Qed.

(** A packed structure is its eight bytes. *)
Lemma eight_bytes (m m' : memory) a l :
  length l = 8%nat -> agree_outside a (a + 8) m m' ->
  (forall k, (k < 8)%nat -> m' (a + Z.of_nat k) = nth k l 0) ->
  forall x, m' x = write_bytes m a l x.
Proof.
  intros Hl Ho Hb x. unfold write_bytes. rewrite Hl. case_decide as D; [|by apply Ho].
  rewrite <- (Hb (Z.to_nat (x - a))) by lia. f_equal. lia.
Qed.

Ltac stores := unfold store16, store8; repeat case_decide; try lia.

Lemma set_descriptor_bytes m a base lim attr x :
  set_descriptor m a base lim attr x = write_bytes m a (desc_bytes base lim attr) x.
Proof.
  apply eight_bytes; [done| |].
  - intros y Hy. unfold set_descriptor. cbn zeta. by stores.
  - intros k Hk. unfold set_descriptor. cbn zeta.
    rewrite !land_255, !land_65535, land_240, land_15, !Z.shiftr_div_pow2 by lia.
    change (2 ^ 16) with 65536. change (2 ^ 24) with 16777216. change (2 ^ 8) with 256.
    rewrite lor_parts by (apply Z.mod_pos_bound; lia).
    do 8 (destruct k as [|k]; [stores; unfold u8; cbn [nth desc_bytes]; modlia|]). lia.
Qed.

Lemma set_gate_bytes m a offset attr sel x :
  set_gate m a offset attr sel x = write_bytes m a (gate_bytes offset attr sel) x.
Proof.
  apply eight_bytes; [done| |].
  - intros y Hy. unfold set_gate. cbn zeta. by stores.
  - intros k Hk. unfold set_gate. cbn zeta. rewrite !land_65535, !Z.shiftr_div_pow2 by lia.
    change (2 ^ 16) with 65536.
    do 8 (destruct k as [|k]; [stores; unfold u8; cbn [nth gate_bytes]; modlia|]). lia.
Qed.

Lemma testbit_eq a n b k : 0 <= n -> 0 <= k -> (a / 2 ^ n) mod 2 = (b / 2 ^ k) mod 2 -> Z.testbit a n = Z.testbit b k.
Proof. intros Hn Hk H. apply Z.b2z_inj. by rewrite !Z.testbit_spec' by done. Qed.

Lemma cpu_segment_set m a base lim attr :
  0 <= base < 4294967296 -> 0 <= lim < 1048576 -> 0 <= attr < 65536 ->
  cpu_segment (set_descriptor m a base lim attr) a =
  mkSegment base (if Z.testbit attr 15 then lim * 4096 + 4095 else lim)
            (attr / 32 mod 4) (attr mod 32) (Z.testbit attr 7).
Proof.
  intros Hb Hl Ha. unfold cpu_segment. cbn zeta. rewrite !set_descriptor_bytes.
  rewrite !write_bytes_at by (cbn [length desc_bytes]; lia).
  cbv [Z.to_nat Pos.to_nat Pos.iter_op Init.Nat.add]. cbn [nth desc_bytes]. f_equal.
  - modlia.
  - rewrite (testbit_eq _ 7 attr 15); [|lia|lia|modlia]. destruct (Z.testbit attr 15); modlia.
  - modlia.
  - modlia.
  - apply testbit_eq; [lia|lia|modlia].
Qed.

Lemma read_gate_set m a offset attr sel :
  0 <= offset < 4294967296 -> 0 <= sel < 65536 -> 0 <= attr < 256 ->
  read_gate (set_gate m a offset attr sel) a =
  mkGate offset sel (attr / 32 mod 4) (attr mod 32) (Z.testbit attr 7).
Proof.
  intros Ho Hs Ha. unfold read_gate. cbn zeta. rewrite !set_gate_bytes.
  rewrite !write_bytes_at by (cbn [length gate_bytes]; lia).
  cbv [Z.to_nat Pos.to_nat Pos.iter_op Init.Nat.add]. cbn [nth gate_bytes].
  f_equal; [modlia|modlia|modlia|modlia|]. apply testbit_eq; [lia|lia|modlia].
Qed.

Lemma set_descriptor_outside m a base lim attr : agree_outside a (a + 8) m (set_descriptor m a base lim attr).
Proof. intros x Hx. rewrite set_descriptor_bytes. by apply write_bytes_outside. Qed.

Lemma set_gate_outside m a offset attr sel : agree_outside a (a + 8) m (set_gate m a offset attr sel).
Proof. intros x Hx. rewrite set_gate_bytes. by apply write_bytes_outside. Qed.

Lemma cpu_segment_frame lo hi m m' a :
  agree_outside lo hi m m' -> a + 8 <= lo \/ hi <= a -> cpu_segment m' a = cpu_segment m a.
Proof. intros H Ha. unfold cpu_segment. cbn zeta. rewrite !H by lia. done. Qed.

Lemma read_gate_frame lo hi m m' a :
  agree_outside lo hi m m' -> a + 8 <= lo \/ hi <= a -> read_gate m' a = read_gate m a.
Proof. intros H Ha. unfold read_gate. cbn zeta. rewrite !H by lia. done. Qed.

Lemma gate_loop_ok idt isr n : forall m i,
  (forall j, 0 <= isr j < 4294967296) ->
  (forall j, i <= j < i + Z.of_nat n ->
     read_gate (gate_loop idt isr n m i) (idt + 8 * j) = mkGate (isr j) KER_CODE 0 14 true) /\
  agree_outside (idt + 8 * i) (idt + 8 * (i + Z.of_nat n)) m (gate_loop idt isr n m i).
Proof.
  induction n as [|n IH]; intros m i Hisr; cbn [gate_loop].
  - split; [intros j Hj; lia|]. apply agree_outside_refl.
  - destruct (IH (set_gate m (idt + 8 * i) (isr i) 142 KER_CODE) (i + 1) Hisr) as [IH1 IH2]. rewrite Nat2Z.inj_succ. split.
    + intros j Hj. destruct (decide (j = i)) as [->|Hji]; [|apply IH1; lia].
      rewrite (read_gate_frame _ _ _ _ _ IH2) by lia. by rewrite read_gate_set by (apply Hisr || (unfold KER_CODE; lia)).
    + apply (agree_outside_trans _ _ _ (set_gate m (idt + 8 * i) (isr i) 142 KER_CODE)).
      * eapply agree_outside_weaken; [| |apply set_gate_outside]; lia.
      * eapply agree_outside_weaken; [| |exact IH2]; lia.
Qed.

(** Steps back over stores that do not meet the descriptor. *)
Ltac frames A B C D E F G H :=
  let step X := try (rewrite (cpu_segment_frame _ _ _ _ _ X) by lia) in
  step A; step B; step C; step D; step E; step F; step G; step H.

(** ** Properties *)

(** Packing a segment descriptor loses nothing: the processor reads back
    the base, the limit (in pages when the granularity bit is set), the
    privilege level, type and present bit that [set_descriptor] was given, and
    the eight bytes are the only ones written. *)
Lemma descriptor_decodes (m : memory) (a base lim attr : Z)
  (Hb : 0 <= base < 4294967296) (Hl : 0 <= lim < 1048576) (Ha : 0 <= attr < 65536) :
  cpu_segment (set_descriptor m a base lim attr) a =
    mkSegment base (if Z.testbit attr 15 then lim * 4096 + 4095 else lim)
              (attr / 32 mod 4) (attr mod 32) (Z.testbit attr 7) /\
  agree_outside a (a + 8) m (set_descriptor m a base lim attr).
Proof. split; [by apply cpu_segment_set | apply set_descriptor_outside]. Qed.


(** After [init_gdt] the processor finds flat 4 GiB code and data segments
    for the kernel (privilege 0) and for users (privilege 3), the TSS with the
    kernel's stack segment, a null descriptor, and a table register that covers
    the whole table. *)
Lemma init_gdt_segments (gdt tss gdt_ptr : Z) (m : memory)
  (Htss : 0 <= tss < 4294967296) (Hgdt : 0 <= gdt < 4294967296)
  (D1 : gdt + GDT_NUM * 8 <= tss \/ tss + TSS_SIZE <= gdt)
  (D2 : gdt + GDT_NUM * 8 <= gdt_ptr \/ gdt_ptr + 6 <= gdt)
  (D3 : tss + TSS_SIZE <= gdt_ptr \/ gdt_ptr + 6 <= tss) :
  let m' := init_gdt gdt tss gdt_ptr m in
  cpu_segment m' (gdt + KER_CODE) = mkSegment 0 4294967295 0 26 true /\
  cpu_segment m' (gdt + KER_DATA) = mkSegment 0 4294967295 0 18 true /\
  cpu_segment m' (gdt + USR_CODE) = mkSegment 0 4294967295 3 26 true /\
  cpu_segment m' (gdt + USR_DATA) = mkSegment 0 4294967295 3 18 true /\
  cpu_segment m' (gdt + KER_TSS) = mkSegment tss 103 0 9 true /\
  cpu_segment m' gdt = mkSegment 0 0 0 0 false /\
  load32 m' (tss + TSS_SS0) = KER_DATA /\
  load32 m' (gdt_ptr + 2) = gdt /\ load16 m' gdt_ptr = GDT_NUM * 8 - 1.
Proof.
  cbn zeta. unfold init_gdt. cbn zeta.
  set (m0 := memset m gdt 0 (GDT_NUM * 8)). set (m1 := set_descriptor m0 _ _ _ _).
  set (m2 := set_descriptor m1 _ _ _ _). set (m3 := set_descriptor m2 _ _ _ _).
  set (m4 := set_descriptor m3 _ _ _ _). set (m5 := memset m4 tss 0 TSS_SIZE).
  set (m6 := store32 m5 _ _). set (m7 := set_descriptor m6 _ _ _ _). set (m8 := store32 m7 _ _).
  set (m9 := store16 m8 _ _).
  pose proof (set_descriptor_outside m0 (gdt + KER_CODE) 0 1048575 (Z.lor (Z.shiftl 192 8) DA_CR)) as A1.
  pose proof (set_descriptor_outside m1 (gdt + KER_DATA) 0 1048575 (Z.lor (Z.shiftl 192 8) DA_DRW)) as A2.
  pose proof (set_descriptor_outside m2 (gdt + USR_CODE) 0 1048575 (Z.lor (Z.lor (Z.shiftl 192 8) DA_DPL3) DA_CR)) as A3.
  pose proof (set_descriptor_outside m3 (gdt + USR_DATA) 0 1048575 (Z.lor (Z.lor (Z.shiftl 192 8) DA_DPL3) DA_DRW)) as A4.
  pose proof (memset_outside m4 tss 0 TSS_SIZE) as A5.
  pose proof (store32_outside m5 (tss + TSS_SS0) KER_DATA) as A6.
  pose proof (set_descriptor_outside m6 (gdt + KER_TSS) tss (TSS_SIZE - 1) DA_386TSS) as A7.
  pose proof (store32_outside m7 (gdt_ptr + 2) gdt) as A8.
  pose proof (store16_outside m8 gdt_ptr (GDT_NUM * 8 - 1)) as A9.
  fold m1 in A1. fold m2 in A2. fold m3 in A3. fold m4 in A4. fold m5 in A5. fold m6 in A6. fold m7 in A7.
  fold m8 in A8. fold m9 in A9. change (u32 TSS_SIZE) with 104 in A5.
  unfold GDT_NUM, TSS_SIZE, TSS_SS0, KER_CODE, KER_DATA, USR_CODE, USR_DATA, KER_TSS in *.
  split; [|split; [|split; [|split; [|split; [|split; [|split; [|split]]]]]]].
  - frames A9 A8 A7 A6 A5 A4 A3 A2. by apply cpu_segment_set.
  - frames A9 A8 A7 A6 A5 A4 A3 A3. by apply cpu_segment_set.
  - frames A9 A8 A7 A6 A5 A4 A4 A4. by apply cpu_segment_set.
  - frames A9 A8 A7 A6 A5 A5 A5 A5. by apply cpu_segment_set.
  - frames A9 A8 A8 A8 A8 A8 A8 A8. by apply cpu_segment_set.
  - frames A9 A8 A7 A6 A5 A4 A3 A2. rewrite (cpu_segment_frame _ _ _ _ _ A1) by lia.
    unfold cpu_segment, m0, memset. cbn zeta. rewrite !decide_True by (change (u32 (128 * 8)) with 1024; lia).
    reflexivity.
  - rewrite (load32_agree _ _ _ _ _ A9), (load32_agree _ _ _ _ _ A8), (load32_agree _ _ _ _ _ A7) by lia.
    apply load32_store32_same.
  - rewrite (load32_agree _ _ _ _ _ A9) by lia. unfold m8. rewrite load32_store32_same. by apply u32_small.
  - apply load16_store16_same.
Qed.


(** After [init_idt] the first 48 gates are kernel interrupt gates to the
    handlers of the table, the gate of the system call is one that users may
    enter, every other gate is absent, and the table register covers all 256. *)
Lemma init_idt_gates (idt idt_ptr : Z) (isr_table : Z -> Z) (m : memory)
  (Hisr : forall i, 0 <= isr_table i < 4294967296) (Hidt : 0 <= idt < 4294967296)
  (D : idt + IDT_NUM * 8 <= idt_ptr \/ idt_ptr + 6 <= idt) :
  let m' := init_idt idt idt_ptr isr_table m in
  (forall i, 0 <= i < ISR_NUM -> read_gate m' (idt + 8 * i) = mkGate (isr_table i) KER_CODE 0 14 true) /\
  read_gate m' (idt + 8 * T_SYSCALL) = mkGate (isr_table T_SYSCALL) KER_CODE 3 14 true /\
  (forall i, T_SYSCALL < i < IDT_NUM -> g_present (read_gate m' (idt + 8 * i)) = false) /\
  load32 m' (idt_ptr + 2) = idt /\ load16 m' idt_ptr = IDT_NUM * 8 - 1.
Proof.
  cbn zeta. unfold init_idt. cbn zeta. set (m0 := memset m idt 0 (IDT_NUM * 8)).
  destruct (gate_loop_ok idt isr_table (Z.to_nat ISR_NUM) m0 0 Hisr) as [G1 A1].
  set (m1 := gate_loop idt isr_table _ m0 0) in *. set (m2 := set_gate m1 _ _ _ _).
  set (m3 := store32 m2 _ _). set (m4 := store16 m3 _ _).
  pose proof (set_gate_outside m1 (idt + 8 * T_SYSCALL) (isr_table T_SYSCALL) 238 KER_CODE) as A2.
  pose proof (store32_outside m2 (idt_ptr + 2) idt) as A3.
  pose proof (store16_outside m3 idt_ptr (IDT_NUM * 8 - 1)) as A4.
  fold m2 in A2. fold m3 in A3. fold m4 in A4.
  unfold IDT_NUM, ISR_NUM, T_SYSCALL in *. change (Z.of_nat (Z.to_nat 48)) with 48 in *.
  split; [|split; [|split; [|split]]].
  - intros i Hi. rewrite (read_gate_frame _ _ _ _ _ A4), (read_gate_frame _ _ _ _ _ A3),
      (read_gate_frame _ _ _ _ _ A2) by lia. apply G1. lia.
  - rewrite (read_gate_frame _ _ _ _ _ A4), (read_gate_frame _ _ _ _ _ A3) by lia.
    unfold m2. by rewrite read_gate_set by (apply Hisr || (unfold KER_CODE; lia)).
  - intros i Hi. rewrite (read_gate_frame _ _ _ _ _ A4), (read_gate_frame _ _ _ _ _ A3),
      (read_gate_frame _ _ _ _ _ A2), (read_gate_frame _ _ _ _ _ A1) by lia.
    unfold read_gate, m0, memset. cbn zeta. cbn [g_present].
    rewrite decide_True by (change (u32 (256 * 8)) with 2048; lia). reflexivity.
  - rewrite (load32_agree _ _ _ _ _ A4) by lia. unfold m3. rewrite load32_store32_same. by apply u32_small.
  - apply load16_store16_same.
Qed.


(** ** What the initialisations leave alone *)

Lemma gate_loop_outside idt isr n m i :
  agree_outside (idt + 8 * i) (idt + 8 * (i + Z.of_nat n)) m (gate_loop idt isr n m i).
Proof.
  revert m i. induction n as [|n IH]; intros m i; cbn [gate_loop]; [apply agree_outside_refl|].
  eapply agree_outside_trans; (eapply agree_outside_weaken; [| |apply set_gate_outside || apply IH]; lia).
Qed.

Lemma init_gdt_frame gdt tss gdt_ptr m x :
  ~ (gdt <= x < gdt + GDT_NUM * 8) -> ~ (tss <= x < tss + TSS_SIZE) -> ~ (gdt_ptr <= x < gdt_ptr + 6) ->
  init_gdt gdt tss gdt_ptr m x = m x.
Proof.
  unfold GDT_NUM, TSS_SIZE. intros H1 H2 H3. unfold init_gdt. cbn zeta.
  unfold KER_CODE, KER_DATA, USR_CODE, USR_DATA, KER_TSS, TSS_SS0, TSS_SIZE.
  rewrite (store16_outside _ gdt_ptr), (store32_outside _ (gdt_ptr + 2)), (set_descriptor_outside _ (gdt + 40)),
    (store32_outside _ (tss + 8)), (memset_outside _ tss 0 104) by (change (u32 104) with 104; lia).
  rewrite !set_descriptor_outside by lia. apply memset_outside. change (u32 (GDT_NUM * 8)) with 1024. lia.
Qed.

Lemma init_idt_frame idt idt_ptr isr m x :
  ~ (idt <= x < idt + IDT_NUM * 8) -> ~ (idt_ptr <= x < idt_ptr + 6) -> init_idt idt idt_ptr isr m x = m x.
Proof.
  unfold IDT_NUM. intros H1 H2. unfold init_idt. cbn zeta. unfold T_SYSCALL, ISR_NUM.
  rewrite (store16_outside _ idt_ptr), (store32_outside _ (idt_ptr + 2)), (set_gate_outside _ (idt + 8 * 48)) by lia.
  rewrite (gate_loop_outside idt isr) by (change (Z.of_nat (Z.to_nat 48)) with 48; lia).
  apply memset_outside. change (u32 (IDT_NUM * 8)) with 2048. lia.
Qed.

Lemma set_descriptor_bytes_ok m a base lim attr : bytes_ok m -> bytes_ok (set_descriptor m a base lim attr).
Proof. intros H. unfold set_descriptor. cbn zeta. auto 10 with chunix. Qed.

Lemma set_gate_bytes_ok m a offset attr sel : bytes_ok m -> bytes_ok (set_gate m a offset attr sel).
Proof. intros H. unfold set_gate. cbn zeta. auto 10 with chunix. Qed.

#[export] Hint Resolve set_descriptor_bytes_ok set_gate_bytes_ok : chunix.

Lemma gate_loop_bytes_ok idt isr n : forall m i, bytes_ok m -> bytes_ok (gate_loop idt isr n m i).
Proof. induction n as [|n IH]; intros m i H; cbn [gate_loop]; auto with chunix. Qed.

#[export] Hint Resolve gate_loop_bytes_ok : chunix.

Lemma tables_bytes_ok gdt idt tss gdt_ptr idt_ptr isr m :
  bytes_ok m -> bytes_ok (init_idt idt idt_ptr isr (init_gdt gdt tss gdt_ptr m)).
Proof. intros H. unfold init_idt, init_gdt. cbn zeta. auto 20 with chunix. Qed.

Lemma cpu_segment_ext m m' a : (forall x, a <= x < a + 8 -> m' x = m x) -> cpu_segment m' a = cpu_segment m a.
Proof. intros H. unfold cpu_segment. cbn zeta. by rewrite !H by lia. Qed.


(** ** Dumping *)

Lemma lor_shift_add hi lo k : 0 <= k -> 0 <= lo < 2 ^ k -> Z.lor (Z.shiftl hi k) lo = hi * 2 ^ k + lo.
Proof.
  intros Hk Hlo. rewrite Z.shiftl_mul_pow2 by exact Hk. apply (lor_low_add _ _ k); [exact Hk| |exact Hlo].
  apply Z.mod_mul. lia.
Qed.

(** What [dump_descriptor] shows of a descriptor that was set: base, limit and
    the attributes without the four bits that hold the high part of the limit. *)
Lemma dump_descriptor_set m a base lim attr :
  0 <= base < 4294967296 -> 0 <= lim < 1048576 -> 0 <= attr < 65536 ->
  dump_descriptor (set_descriptor m a base lim attr) a = (base, lim, attr / 4096 * 4096 + attr mod 256).
Proof.
  intros Hb Hl Ha. unfold dump_descriptor, load16. rewrite !set_descriptor_bytes.
  replace (a + 2 + 1) with (a + 3) by lia. pose proof (write_bytes_at m a (desc_bytes base lim attr) 0 ltac:(cbn; lia)) as E0.
  rewrite Z.add_0_r in E0. rewrite E0, !write_bytes_at by (cbn [length desc_bytes]; lia). cbn [nth desc_bytes].
  change (Z.to_nat 0) with 0%nat. change (Z.to_nat 1) with 1%nat. change (Z.to_nat 2) with 2%nat. change (Z.to_nat 3) with 3%nat.
  change (Z.to_nat 4) with 4%nat. change (Z.to_nat 5) with 5%nat. change (Z.to_nat 6) with 6%nat. change (Z.to_nat 7) with 7%nat.
  cbn [nth]. rewrite land_15, land_240. unfold u32, u16. f_equal; [f_equal|].
  - rewrite (Z.shiftl_mul_pow2 _ 16) by lia. rewrite (lor_shift_add _ _ 24) by (try lia; modlia).
    rewrite (lor_low_add _ _ 16) by (try lia; modlia). modlia.
  - rewrite Z.lor_comm, (lor_shift_add _ _ 16) by (try lia; modlia). modlia.
  - rewrite Z.lor_comm, (lor_shift_add _ _ 8) by (try lia; modlia). modlia.
Qed.
