(* ===== verification/Rtc.v ===== *)
(** * The real-time clock

    kern/get_time.c: reading the clock registers and converting them.  The
    CMOS is hardware: [rtc t reg] is what the [t]-th access reads from register
    [reg], and the number of accesses so far is threaded through the code.
    [printk] of the result and the cursor moves of [get_time] belong to
    Console.v and Printf.v. *)

From stdpp Require Import base list.
From Stdlib Require Import ZArith Lia.
From S2P Require Import Prelude.

Open Scope Z_scope.

Definition CURRENT_YEAR : Z := 2013.

Definition bcd2bin (a : Z) : Z := Z.land a 15 + a / 16 * 10.

(** The fields of [struct tm] the code uses, and the local [century]. *)
Record tm : Type := mkTm {
  tm_sec : Z;
  tm_min : Z;
  tm_hour : Z;
  tm_mday : Z;
  tm_mon : Z;
  tm_year : Z;
  tm_century : Z
}.

#[export] Instance tm_eq_dec : EqDecision tm.
Proof. solve_decision. Defined.

Section Clock.

Variable rtc : nat -> Z -> Z.
Variable century_register : Z.

Definition get_RTC_register (t : nat) (reg : Z) : Z * nat := (u8 (rtc t reg), S t).

Definition get_update_in_progress_flag (t : nat) : Z * nat := (Z.land (u8 (rtc t 10)) 128, S t).

(** [while(get_update_in_progress_flag());] *)
Fixpoint wait_update (fuel t : nat) : outcome nat :=
  match fuel with
  | O => Stop Fuel
  | S f =>
      let '(busy, t') := get_update_in_progress_flag t in
      if decide (busy <> 0) then wait_update f t' else Ret t'
  end.

(** One round of register reads; [century] keeps its value without a century
    register. *)
Definition read_regs (t : nat) (century : Z) : tm * nat :=
  let '(s, t) := get_RTC_register t 0 in
  let '(m, t) := get_RTC_register t 2 in
  let '(h, t) := get_RTC_register t 4 in
  let '(d, t) := get_RTC_register t 7 in
  let '(o, t) := get_RTC_register t 8 in
  let '(y, t) := get_RTC_register t 9 in
  if decide (century_register <> 0) then
    let '(c, t) := get_RTC_register t century_register in (mkTm s m h d o y c, t)
  else (mkTm s m h d o y century, t).

(** The [do ... while] loop: it goes on while the two readings are equal. *)
Fixpoint read_loop (fuel wfuel t : nat) (cur : tm) : outcome (tm * nat) :=
  match fuel with
  | O => Stop Fuel
  | S f =>
      let old := cur in
      t1 ← wait_update wfuel t;
      let '(cur, t2) := read_regs t1 (tm_century cur) in
      if decide (old = cur) then read_loop f wfuel t2 cur else Ret (cur, t2)
  end.

(** What follows the loop: BCD, the twelve-hour clock, and the full year. *)
Definition convert_bcd (registerB : Z) (x : tm) : tm :=
  if decide (Z.land registerB 4 = 0) then
    mkTm (bcd2bin (tm_sec x)) (bcd2bin (tm_min x))
         (Z.lor (Z.land (tm_hour x) 15 + Z.land (tm_hour x) 112 / 16 * 10) (Z.land (tm_hour x) 128))
         (bcd2bin (tm_mday x)) (bcd2bin (tm_mon x)) (bcd2bin (tm_year x))
         (if decide (century_register <> 0) then u8 (bcd2bin (tm_century x)) else tm_century x)
  else x.

Definition convert_hour (registerB : Z) (h : Z) : Z :=
  if decide (Z.land registerB 2 = 0 /\ Z.land h 128 <> 0) then (Z.land h 127 + 12) mod 24 else h.

Definition full_year (y century : Z) : Z :=
  if decide (century_register <> 0) then y + century * 100
  else
    let y := y + CURRENT_YEAR / 100 * 100 in
    if decide (y < CURRENT_YEAR) then y + 100 else y.

Definition convert (registerB : Z) (x : tm) : tm :=
  let x := convert_bcd registerB x in
  mkTm (tm_sec x) (tm_min x) (convert_hour registerB (tm_hour x)) (tm_mday x) (tm_mon x)
       (full_year (tm_year x) (tm_century x)) (tm_century x).

(** [junk] is the uninitialised [century]. *)
Definition read_rtc (fuel wfuel : nat) (junk : Z) : outcome tm :=
  t1 ← wait_update wfuel 0;
  let '(cur, t2) := read_regs t1 junk in
  '(cur, t3) ← read_loop fuel wfuel t2 cur;
  let '(registerB, _) := get_RTC_register t3 11 in
  Ret (convert registerB cur).

End Clock.

(** ** Specification *)

(** What a clock chip shows for a date: numbers in BCD unless bit 2 of status
    register B is set, hours from 1 to 12 with bit 7 for the afternoon unless
    bit 1 is set, the year without its century (MC146818 data sheet). *)
Definition to_bcd (n : Z) : Z := n / 10 * 16 + n mod 10.

Definition show_num (b n : Z) : Z := if decide (Z.land b 4 = 0) then to_bcd n else n.

Definition show_hour (b h : Z) : Z :=
  if decide (Z.land b 2 = 0) then
    show_num b (if decide (h mod 12 = 0) then 12 else h mod 12) + (if decide (12 <= h) then 128 else 0)
  else show_num b h.

Record date : Type := mkDate {
  d_sec : Z;
  d_min : Z;
  d_hour : Z;
  d_mday : Z;
  d_mon : Z;
  d_year : Z
}.

Definition date_ok (d : date) : Prop :=
  0 <= d_sec d < 60 /\ 0 <= d_min d < 60 /\ 0 <= d_hour d < 24 /\ 1 <= d_mday d <= 31 /\ 1 <= d_mon d <= 12.

(** The registers for a date, with a century register at [creg]. *)
Definition show_date (b : Z) (d : date) (reg : Z) : Z :=
  if decide (reg = 0) then show_num b (d_sec d)
  else if decide (reg = 2) then show_num b (d_min d)
  else if decide (reg = 4) then show_hour b (d_hour d)
  else if decide (reg = 7) then show_num b (d_mday d)
  else if decide (reg = 8) then show_num b (d_mon d)
  else if decide (reg = 9) then show_num b (d_year d mod 100)
  else if decide (reg = 10) then 0
  else if decide (reg = 11) then b
  else show_num b (d_year d / 100).

(** The same date read by the code. *)
Definition tm_shown (b : Z) (d : date) (junk : Z) : tm :=
  mkTm (show_num b (d_sec d)) (show_num b (d_min d)) (show_hour b (d_hour d))
       (show_num b (d_mday d)) (show_num b (d_mon d)) (show_num b (d_year d mod 100)) junk.

(** The hour [convert] makes of the hour shown: right but for midnight and noon
    on a twelve-hour clock. *)
Definition hour_read (b h : Z) : Z :=
  if decide (Z.land b 2 = 0 /\ h mod 12 = 0) then 12 - h else h.

(** The hour [convert_bcd] makes of a BCD hour. *)
Definition hour_bcd (x : Z) : Z := Z.lor (Z.land x 15 + Z.land x 112 / 16 * 10) (Z.land x 128).

(** ** Lemmas *)

Lemma check_upto (P : Z -> Prop) `{forall x, Decision (P x)} (n : nat) :
  forallb (fun x => bool_decide (P x)) (map Z.of_nat (seq 0 n)) = true ->
  forall x, 0 <= x < Z.of_nat n -> P x.
Proof.
  intros Hall x Hx. rewrite forallb_forall in Hall. apply (bool_decide_eq_true (P x)). apply Hall.
  apply in_map_iff. exists (Z.to_nat x). split; [lia|]. apply in_seq. lia.
Qed.

Lemma bcd_round : forall n, 0 <= n < 100 -> bcd2bin (to_bcd n) = n /\ 0 <= to_bcd n < 256.
Proof. apply (check_upto (fun n => bcd2bin (to_bcd n) = n /\ 0 <= to_bcd n < 256) 100). vm_compute. reflexivity. Qed.

Lemma hour_round b : 0 <= b < 256 -> forall h, 0 <= h < 24 ->
  convert_hour b (if decide (Z.land b 4 = 0) then hour_bcd (show_hour b h) else show_hour b h) = hour_read b h /\
  0 <= show_hour b h < 256.
Proof.
  intros Hb h Hh. revert b Hb. apply (check_upto (fun b =>
    convert_hour b (if decide (Z.land b 4 = 0) then hour_bcd (show_hour b h) else show_hour b h) = hour_read b h /\
    0 <= show_hour b h < 256) 256). revert h Hh.
  apply (check_upto (fun h => forallb (fun b => bool_decide (
    convert_hour b (if decide (Z.land b 4 = 0) then hour_bcd (show_hour b h) else show_hour b h) = hour_read b h /\
    0 <= show_hour b h < 256)) (map Z.of_nat (seq 0 256)) = true) 24).
  vm_compute. reflexivity.
Qed.

Lemma num_round b n : 0 <= n < 100 ->
  (if decide (Z.land b 4 = 0) then bcd2bin (show_num b n) else show_num b n) = n /\ 0 <= show_num b n < 256.
Proof.
  intros H. destruct (bcd_round n H) as [H1 H2]. unfold show_num.
  destruct (decide (Z.land b 4 = 0)); split; (done || lia).
Qed.

Lemma convert_ok b d junk :
  0 <= b < 256 -> date_ok d -> 2013 <= d_year d <= 2112 ->
  convert 0 b (tm_shown b d junk) =
  mkTm (d_sec d) (d_min d) (hour_read b (d_hour d)) (d_mday d) (d_mon d) (d_year d) junk.
Proof.
  intros Hb (H1 & H2 & H3 & H4 & H5) Hy. unfold convert, convert_bcd, tm_shown.
  destruct (num_round b (d_sec d) ltac:(lia)) as [N1 _]. destruct (num_round b (d_min d) ltac:(lia)) as [N2 _].
  destruct (num_round b (d_mday d) ltac:(lia)) as [N3 _]. destruct (num_round b (d_mon d) ltac:(lia)) as [N4 _].
  destruct (num_round b (d_year d mod 100) ltac:(pose proof (Z.mod_pos_bound (d_year d) 100); lia)) as [N5 _].
  destruct (hour_round b Hb (d_hour d) H3) as [N6 _]. unfold hour_bcd in N6.
  destruct (decide (Z.land b 4 = 0)); cbn [tm_sec tm_min tm_hour tm_mday tm_mon tm_year tm_century];
    rewrite N1, N2, N3, N4, N5, N6; f_equal;
    (unfold full_year, CURRENT_YEAR; rewrite decide_False by lia; cbn zeta; case_decide as H; clear -Hy H; modlia).
Qed.

Lemma regs_shown rtc b d t junk :
  0 <= b < 256 -> date_ok d -> 0 <= d_year d ->
  (forall k, (t <= k < t + 6)%nat -> rtc k = show_date b d) ->
  read_regs rtc 0 t junk = (tm_shown b d junk, (t + 6)%nat).
Proof.
  intros Hb (H1 & H2 & H3 & H4 & H5) Hy Hk. unfold read_regs, get_RTC_register.
  rewrite !Hk by lia. unfold show_date. cbn [decide].
  rewrite decide_False by lia.
  destruct (num_round b (d_sec d) ltac:(lia)) as [_ N1]. destruct (num_round b (d_min d) ltac:(lia)) as [_ N2].
  destruct (num_round b (d_mday d) ltac:(lia)) as [_ N3]. destruct (num_round b (d_mon d) ltac:(lia)) as [_ N4].
  destruct (num_round b (d_year d mod 100) ltac:(pose proof (Z.mod_pos_bound (d_year d) 100); lia)) as [_ N5].
  destruct (hour_round b Hb (d_hour d) H3) as [_ N6].
  cbv [decide decide_rel Z.eq_dec]. cbn. rewrite !u8_small by done. f_equal. lia.
Qed.

Lemma wait_idle rtc t wf : Z.land (u8 (rtc t 10)) 128 = 0 -> wait_update rtc (S wf) t = Ret (S t).
Proof. intros H. cbn [wait_update get_update_in_progress_flag]. rewrite H. by rewrite decide_False by lia. Qed.

Lemma loop_endless b d junk wf : forall fuel t,
  0 <= b < 256 -> date_ok d -> 0 <= d_year d ->
  read_loop (fun _ => show_date b d) 0 fuel (S wf) t (tm_shown b d junk) = Stop Fuel.
Proof.
  induction fuel as [|f IH]; intros t Hb Hd Hy; [done|]. cbn [read_loop].
  rewrite wait_idle by reflexivity. cbn [mbind outcome_bind].
  rewrite (regs_shown _ b d) by done. cbn [tm_century tm_shown]. rewrite decide_True by done. by apply IH.
Qed.

(** ** A clock that ticks

    Time is counted in accesses.  The update flag is never seen set [wait] times
    in a row, and [life] accesses after any read of the seconds at the latest
    they have changed and stay different long enough to be noticed: for the
    [wait + 8] accesses that can lie between two reads of them (a second is some
    hundred thousand accesses; an update takes two milliseconds). *)
Record ticks (rtc : nat -> Z -> Z) (wait life : nat) : Prop := {
  tk_flag : forall t, exists j, (j < wait)%nat /\ Z.land (u8 (rtc (t + j)%nat 10)) 128 = 0;
  tk_sec : forall t, exists j, (j <= life)%nat /\
    forall k, (k < wait + 8)%nat -> u8 (rtc (t + j + k)%nat 0) <> u8 (rtc t 0)
}.

Lemma wait_ends rtc wait : forall n t, (n < wait)%nat -> Z.land (u8 (rtc (t + n)%nat 10)) 128 = 0 ->
  exists j, (j <= n)%nat /\ wait_update rtc wait t = Ret (t + S j)%nat.
Proof.
  induction wait as [|w IH]; intros n t Hn Hb; [lia|]. cbn [wait_update get_update_in_progress_flag]. case_decide as D.
  - destruct n as [|n]; [by rewrite Nat.add_0_r in Hb|].
    destruct (IH n (S t) ltac:(lia)) as (j & Hj & E); [by replace (S t + n)%nat with (t + S n)%nat by lia|].
    exists (S j). split; [lia|]. rewrite E. f_equal. lia.
  - exists 0%nat. split; [lia|]. f_equal. lia.
Qed.

Lemma wait_ticks rtc wait life t : ticks rtc wait life ->
  exists j, (j < wait)%nat /\ wait_update rtc wait t = Ret (t + S j)%nat.
Proof.
  intros H. destruct (tk_flag _ _ _ H t) as (n & Hn & Hb). destruct (wait_ends rtc wait n t Hn Hb) as (j & Hj & E).
  exists j. split; [lia|exact E].
Qed.

(** A reading starts with the seconds and takes 6 or 7 accesses. *)
Lemma read_regs_sec rtc creg t c :
  tm_sec (read_regs rtc creg t c).1 = u8 (rtc t 0) /\ (t + 6 <= (read_regs rtc creg t c).2 <= t + 7)%nat.
Proof. unfold read_regs, get_RTC_register. case_decide; cbn [fst snd tm_sec]; split; (done || lia). Qed.

(** What [read_rtc] returns after a reading that began at access [t]. *)
Definition result_at (rtc : nat -> Z -> Z) (creg : Z) (t : nat) (c : Z) : tm :=
  convert creg (u8 (rtc (read_regs rtc creg t c).2 11)) (read_regs rtc creg t c).1.

(** The reading at [T] saw the seconds of [T0], which change at [T0 + j]. *)
Lemma loop_ends rtc creg wait life T0 j : ticks rtc wait life ->
  (forall k, (k < wait + 8)%nat -> u8 (rtc (T0 + j + k)%nat 0) <> u8 (rtc T0 0)) ->
  forall fuel T cur t, tm_sec cur = u8 (rtc T0 0) -> (T < T0 + j)%nat -> (T0 + j <= T + fuel)%nat ->
  (T + 6 <= t <= T + 7)%nat ->
  exists t' c, read_loop rtc creg fuel wait t cur = Ret (read_regs rtc creg t' c).
Proof.
  intros Ht Hj. induction fuel as [|f IH]; intros T cur t Hs HT Hf Hr; [lia|]. cbn [read_loop].
  destruct (wait_ticks rtc wait life t Ht) as (i & Hi & ->). cbn [mbind outcome_bind].
  destruct (read_regs_sec rtc creg (t + S i) (tm_century cur)) as [E1 E2].
  destruct (read_regs rtc creg (t + S i) (tm_century cur)) as [cur' t2] eqn:E. cbn [fst snd] in E1, E2.
  case_decide as D; [|exists (t + S i)%nat, (tm_century cur); by rewrite E].
  rewrite D, E1 in Hs. destruct (decide (t + S i < T0 + j)%nat) as [L|L].
  - apply (IH (t + S i)%nat); [by rewrite E1|lia|lia|lia].
  - exfalso. apply (Hj (t + S i - (T0 + j))%nat); [lia|]. by replace (T0 + j + (t + S i - (T0 + j)))%nat with (t + S i)%nat by lia.
Qed.

Lemma read_rtc_ends rtc creg wait life junk : ticks rtc wait life ->
  exists t c, read_rtc rtc creg life wait junk = Ret (result_at rtc creg t c).
Proof.
  intros Ht. unfold read_rtc. destruct (wait_ticks rtc wait life 0 Ht) as (i & Hi & ->). cbn [mbind outcome_bind].
  set (T := (0 + S i)%nat). destruct (read_regs_sec rtc creg T junk) as [E1 E2].
  destruct (read_regs rtc creg T junk) as [cur t2] eqn:E. cbn [fst snd] in E1, E2.
  destruct (tk_sec _ _ _ Ht T) as (j & Hj & Hd).
  assert (j <> 0%nat). { intros ->. apply (Hd 0%nat ltac:(lia)). do 2 f_equal. lia. }
  destruct (loop_ends rtc creg wait life T j Ht Hd life T cur t2 E1 ltac:(lia) ltac:(lia) E2) as (t' & c & ->).
  exists t', c. unfold result_at. cbn [mbind outcome_bind]. by destruct (read_regs rtc creg t' c) as [x t3].
Qed.

(** A clock that does not tick. *)
Lemma read_regs_stopped rtc creg : (forall t reg, rtc t reg = rtc 0%nat reg) -> forall t c,
  (read_regs rtc creg t c).1 = (read_regs rtc creg 0 c).1 /\
  tm_century (read_regs rtc creg t c).1 = (if decide (creg <> 0) then u8 (rtc 0%nat creg) else c).
Proof.
  intros H t c. unfold read_regs, get_RTC_register. case_decide; cbn [fst tm_century].
  - split; [|by rewrite H]. rewrite !(H (S _)), !(H t). reflexivity.
  - split; [|done]. rewrite !(H (S _)), !(H t). reflexivity.
Qed.

Lemma loop_stopped rtc creg wf c : (forall t reg, rtc t reg = rtc 0%nat reg) -> Z.land (u8 (rtc 0%nat 10)) 128 = 0 ->
  forall fuel t, read_loop rtc creg fuel (S wf) t (read_regs rtc creg 0 c).1 = Stop Fuel.
Proof.
  intros H Hb. induction fuel as [|f IH]; intros t; [done|]. cbn [read_loop].
  rewrite wait_idle by (by rewrite H). cbn [mbind outcome_bind].
  set (c1 := tm_century (read_regs rtc creg 0 c).1).
  assert (E : (read_regs rtc creg (S t) c1).1 = (read_regs rtc creg 0 c).1).
  { destruct (read_regs_stopped rtc creg H (S t) c1) as [-> _]. unfold c1.
    destruct (read_regs_stopped rtc creg H 0%nat c) as [_ ->]. unfold read_regs. by case_decide. }
  destruct (read_regs rtc creg (S t) c1) as [cur t2]. cbn [fst] in E. subst cur. rewrite decide_True by done. apply IH.
Qed.

(** ** Properties *)

(** If the date the chip shows changes between the first and the second
    round of reads, [read_rtc] returns the date of the second round, whichever
    of the chip's four number formats is in use; only on a twelve-hour clock
    midnight comes out as 12 o'clock and noon as 0. *)
Lemma rtc_reads_date (b junk : Z) (d1 d2 : date) (fuel wfuel : nat)
  (Hb : 0 <= b < 256) (H1 : date_ok d1) (Hy1 : 0 <= d_year d1) (H2 : date_ok d2) (Hy2 : 2013 <= d_year d2 <= 2112)
  (Hne : tm_shown b d1 junk <> tm_shown b d2 junk) (Hf : (0 < fuel)%nat) (Hw : (0 < wfuel)%nat) :
  read_rtc (fun t => show_date b (if decide (t < 7)%nat then d1 else d2)) 0 fuel wfuel junk =
  Ret (mkTm (d_sec d2) (d_min d2)
            (if decide (Z.land b 2 = 0 /\ d_hour d2 mod 12 = 0) then 12 - d_hour d2 else d_hour d2)
            (d_mday d2) (d_mon d2) (d_year d2) junk).
Proof.
  set (rtc := fun t : nat => show_date b (if decide (t < 7)%nat then d1 else d2)).
  destruct wfuel as [|wf]; [lia|]. destruct fuel as [|f]; [lia|].
  unfold read_rtc. rewrite wait_idle by reflexivity. cbn [mbind outcome_bind].
  rewrite (regs_shown rtc b d1) by (done || (intros k Hk; unfold rtc; by rewrite decide_True by lia)).
  cbn [read_loop]. rewrite wait_idle by reflexivity. cbn [mbind outcome_bind].
  rewrite (regs_shown rtc b d2) by (done || lia || (intros k Hk; unfold rtc; by rewrite decide_False by lia)).
  cbn [tm_century tm_shown]. rewrite decide_False by done. cbn [mbind outcome_bind get_RTC_register].
  replace (u8 (rtc _ 11)) with b by (symmetry; exact (u8_small b Hb)).
  by rewrite convert_ok.
Qed.


(** While the date shown does not change [read_rtc] does not return, however
    many rounds it makes: the loop meant to wait for two equal readings goes on
    exactly as long as the readings are equal. *)
Lemma rtc_stable_endless (b junk : Z) (d : date) (fuel wfuel : nat)
  (Hb : 0 <= b < 256) (Hd : date_ok d) (Hy : 0 <= d_year d) (Hw : (0 < wfuel)%nat) :
  read_rtc (fun _ => show_date b d) 0 fuel wfuel junk = Stop Fuel.
Proof.
  destruct wfuel as [|wf]; [lia|]. unfold read_rtc. rewrite wait_idle by reflexivity. cbn [mbind outcome_bind].
  rewrite (regs_shown _ b d) by done. by rewrite loop_endless.
Qed.


(** A clock whose seconds change every hundred accesses and whose flag is set at
    every third. *)
Definition demo_rtc (t : nat) (reg : Z) : Z :=
  if decide (reg = 0) then Z.of_nat t / 100 mod 60 else if decide (reg = 10) then (if decide (Z.of_nat t mod 3 = 0) then 128 else 0) else 1.

Lemma demo_rtc_ticks : ticks demo_rtc 2 100.
Proof.
  constructor; intros t; unfold demo_rtc; cbn [decide].
  - destruct (decide (Z.of_nat t mod 3 = 0)) as [E|E].
    + exists 1%nat. split; [lia|]. rewrite decide_False, decide_True by lia. rewrite decide_False by modlia. done.
    + exists 0%nat. split; [lia|]. rewrite decide_False, decide_True by lia. rewrite decide_False by (rewrite Nat.add_0_r; exact E). done.
  - exists (Z.to_nat (100 - Z.of_nat t mod 100)). split; [modlia|]. intros k Hk. rewrite !decide_True by lia.
    assert (E : Z.of_nat (t + Z.to_nat (100 - Z.of_nat t mod 100) + k) / 100 = Z.of_nat t / 100 + 1) by modlia.
    rewrite E. unfold u8. modlia.
Qed.

