(* ===== verification/Boot.v ===== *)
(** * The boot loader

    boot/main.c, which the boot sector calls: it reads the kernel's ELF header
    and its segments from the disk, sector by sector, clears the part of each
    segment that is not in the file, and jumps to the entry point; and
    tools/mkboot.c, which makes the boot sector.  The disk is hardware, given by
    the class [BootDisk]: its status, and the sector it delivers for the block
    number written to its ports. *)

From stdpp Require Import base list.
From Stdlib Require Import ZArith Lia.
From S2P Require Import Prelude CString.

Open Scope Z_scope.

(** ** Constants and the ELF structures (inc/elf.h), by offset *)

Definition SECTSIZE : Z := 512.

Definition ELFHDR : Z := 65536.

Definition ELF_MAGIC : Z := 1179403647.

Definition e_magic (m : memory) (h : Z) : Z := load32 m h.

Definition e_entry (m : memory) (h : Z) : Z := load32 m (h + 24).

Definition e_phoff (m : memory) (h : Z) : Z := load32 m (h + 28).

Definition e_phnum (m : memory) (h : Z) : Z := load16 m (h + 44).

Definition PH_SIZE : Z := 32.

Definition ph_offset (m : memory) (ph : Z) : Z := load32 m (ph + 4).

Definition ph_pa (m : memory) (ph : Z) : Z := load32 m (ph + 12).

Definition ph_filesize (m : memory) (ph : Z) : Z := load32 m (ph + 16).

Definition ph_memsize (m : memory) (ph : Z) : Z := load32 m (ph + 20).

(** ** The disk *)

(** [bd_status t] is what the [t]-th read of the status port gives; the disk
    gets ready within [bd_patience] reads. *)
Class BootDisk : Type := {
  bd_status : nat -> Z;
  bd_patience : nat;
  bd_ready : forall t, exists k, (k < bd_patience)%nat /\ Z.land (bd_status (t + k)) 192 = 64;
  bd_sector : Z -> list Z;
  bd_sector_length : forall n, length (bd_sector n) = 512%nat;
  bd_sector_bytes : forall n, Forall (fun b => 0 <= b < 256) (bd_sector n)
}.

Record boot : Type := mkBoot {
  bmem : memory;
  polls : nat;
  outs : list (Z * Z)
}.

(** The last byte written to a port, and the block number in the four
    registers (28-bit LBA). *)
Fixpoint port_value (p : Z) (l : list (Z * Z)) (d : Z) : Z :=
  match l with
  | [] => d
  | (q, v) :: l' => port_value p l' (if q =? p then v else d)
  end.

Definition selected (l : list (Z * Z)) : Z :=
  port_value 499 l 0 + port_value 500 l 0 * 256 + port_value 501 l 0 * 65536 +
  port_value 502 l 0 mod 16 * 16777216.

Section Loader.

Context `{disk : BootDisk}.

Fixpoint waitdisk (fuel t : nat) : outcome nat :=
  match fuel with
  | O => Stop Fuel
  | S f => if decide (Z.land (bd_status t) 192 <> 64) then waitdisk f (S t) else Ret (S t)
  end.

Definition readsect (s : boot) (dst offset : Z) : outcome boot :=
  t1 ← waitdisk bd_patience (polls s);
  let l := outs s ++ [(498, 1); (499, u8 offset); (500, u8 (Z.shiftr offset 8)); (501, u8 (Z.shiftr offset 16));
                      (502, u8 (Z.lor (Z.shiftr offset 24) 224)); (503, 32)] in
  t2 ← waitdisk bd_patience t1;
  Ret (mkBoot (write_bytes (bmem s) dst (bd_sector (selected l))) t2 l).

Fixpoint readseg_loop (fuel : nat) (s : boot) (va end_va offset : Z) : outcome boot :=
  if decide (va < end_va) then
    match fuel with
    | O => Stop Fuel
    | S f => s1 ← readsect s va offset; readseg_loop f s1 (u32 (va + SECTSIZE)) end_va (u32 (offset + 1))
    end
  else Ret s.

Definition readseg (s : boot) (va count offset : Z) : outcome boot :=
  let end_va := u32 (va + count) in
  let va := u32 (va - offset mod SECTSIZE) in
  let offset := u32 (offset / SECTSIZE + 1) in
  readseg_loop (Z.to_nat ((end_va - va + 511) / 512)) s va end_va offset.

(** [while(ph < eph)], with [n] headers left. *)
Fixpoint load_loop (n : nat) (s : boot) (ph : Z) : outcome boot :=
  match n with
  | O => Ret s
  | S k =>
      let pa := ph_pa (bmem s) ph in
      s1 ← readseg s pa (ph_filesize (bmem s) ph) (ph_offset (bmem s) ph);
      let m := bmem s1 in
      let s2 := if decide (ph_memsize m ph > ph_filesize m ph)
                then mkBoot (memset m (u32 (pa + ph_filesize m ph)) 0 (ph_memsize m ph - ph_filesize m ph))
                            (polls s1) (outs s1)
                else s1 in
      load_loop k s2 (ph + PH_SIZE)
  end.

(** [bootmain] loops for ever on a file that is not ELF; else it enters the
    kernel. *)
Inductive boot_result : Type :=
  | Bad
  | Enter (entry : Z).

Definition bootmain (s : boot) : outcome (boot * boot_result) :=
  s1 ← readseg s ELFHDR (SECTSIZE * 8) 0;
  if decide (e_magic (bmem s1) ELFHDR <> ELF_MAGIC) then Ret (s1, Bad)
  else
    let ph := u32 (ELFHDR + e_phoff (bmem s1) ELFHDR) in
    s2 ← load_loop (Z.to_nat (e_phnum (bmem s1) ELFHDR)) s1 ph;
    Ret (s2, Enter (e_entry (bmem s2) ELFHDR)).

End Loader.

(** tools/mkboot.c: pads the assembled code to 510 bytes and signs it. *)
Definition mkboot (code : list Z) : outcome (list Z) :=
  if decide (Z.of_nat (length code) > 510) then Stop (Exit (-1))
  else Ret (code ++ replicate (510 - length code) 0 ++ [85; 170]).

(** ** Specification *)

(** The kernel file starts at sector 1 of the disk. *)
Definition disk_holds `{BootDisk} (img : memory) : Prop :=
  forall k j, 0 <= k < 268435455 -> 0 <= j < 512 -> nth (Z.to_nat j) (bd_sector (k + 1)) 0 = img (k * 512 + j).

(** A program header. *)
Record seg : Type := mkSeg {
  s_off : Z;
  s_pa : Z;
  s_filesz : Z;
  s_memsz : Z
}.

(** The addresses the loader writes for a segment: whole sectors, and the part
    to be cleared. *)
Definition lo (p : seg) : Z := s_pa p - s_off p mod 512.

Definition hi_read (p : seg) : Z := lo p + 512 * ((s_pa p + s_filesz p - lo p + 511) / 512).

Definition hi (p : seg) : Z := Z.max (hi_read p) (s_pa p + s_memsz p).

Definition seg_ok (p : seg) : Prop :=
  0 <= s_off p /\ s_off p + s_filesz p < 2 ^ 36 /\ 0 <= s_filesz p <= s_memsz p /\
  0 <= lo p /\ hi p + 1024 < 4294967296 /\ (hi p <= ELFHDR \/ ELFHDR + 4096 <= lo p).

(** No segment is written over by a later one. *)
Fixpoint segs_apart (ps : list seg) : Prop :=
  match ps with
  | [] => True
  | p :: ps' => Forall (fun q => hi q <= s_pa p \/ s_pa p + s_memsz p <= lo q) ps' /\ segs_apart ps'
  end.

(** The headers [ps] stand in the file from offset [a] on. *)
Fixpoint headers_at (img : memory) (a : Z) (ps : list seg) : Prop :=
  match ps with
  | [] => True
  | p :: ps' =>
      ph_offset img a = s_off p /\ ph_pa img a = s_pa p /\ ph_filesize img a = s_filesz p /\
      ph_memsize img a = s_memsz p /\ headers_at img (a + PH_SIZE) ps'
  end.

(** The first eight sectors of the file are at [ELFHDR]. *)
Definition hdr_ok (img m : memory) : Prop :=
  forall x, ELFHDR <= x < ELFHDR + 4096 -> m x = img (x - ELFHDR).

(** The segment is in memory: the bytes of the file, then zeros. *)
Definition in_memory (img m : memory) (p : seg) : Prop :=
  forall k, 0 <= k < s_memsz p -> m (s_pa p + k) = if decide (k < s_filesz p) then img (s_off p + k) else 0.

(** The disk that holds a file from sector 1 on. *)
Definition disk_of (img : memory) : BootDisk.
Proof.
  refine {| bd_status := fun _ => 64; bd_patience := 1;
            bd_sector := fun n => map (fun j => u8 (img ((n - 1) * 512 + Z.of_nat j))) (seq 0 512) |}.
  - intros t. exists 0%nat. split; [lia|done].
  - intros n. by rewrite length_map, length_seq.
  - intros n. apply Forall_map. apply Forall_forall. intros j _. apply u8_range.
Defined.

(** A file with one segment: three bytes at offset 512, five bytes at 1 MiB. *)
Definition demo_header : list Z :=
  [127; 69; 76; 70] ++ replicate 20 0 ++ [12; 0; 16; 0] ++ [52; 0; 0; 0] ++ replicate 12 0 ++ [1; 0] ++
  replicate 6 0 ++ [1; 0; 0; 0; 0; 2; 0; 0; 0; 0; 16; 128; 0; 0; 16; 0; 3; 0; 0; 0; 5; 0; 0; 0].

Definition demo_img : memory := fun x =>
  if decide (x < 84) then nth (Z.to_nat x) demo_header 0
  else if decide (512 <= x < 515) then 7 else 0.

(** ** Lemmas *)

Section LoaderLemmas.

Context `{disk : BootDisk}.

Lemma waitdisk_ok fuel : forall t,
  (exists k, (k < fuel)%nat /\ Z.land (bd_status (t + k)) 192 = 64) -> exists t', waitdisk fuel t = Ret t'.
Proof.
  induction fuel as [|f IH]; intros t (k & Hk & Hr); [lia|]. cbn [waitdisk]. case_decide as E; [|by eexists].
  apply IH. destruct k as [|k]; [by rewrite Nat.add_0_r in Hr|]. exists k. split; [lia|].
  by replace (S t + k)%nat with (t + S k)%nat by lia.
Qed.

Lemma port_value_app p l1 l2 d : port_value p (l1 ++ l2) d = port_value p l2 (port_value p l1 d).
Proof. revert d. induction l1 as [|[q v] l1 IH]; intros d; cbn [app port_value]; [done|apply IH]. Qed.

Lemma selected_ok l n :
  0 <= n < 268435456 ->
  selected (l ++ [(498, 1); (499, u8 n); (500, u8 (Z.shiftr n 8)); (501, u8 (Z.shiftr n 16));
                  (502, u8 (Z.lor (Z.shiftr n 24) 224)); (503, 32)]) = n.
Proof.
  intros Hn. unfold selected. rewrite !port_value_app. cbn.
  rewrite Z.lor_comm, !Z.shiftr_div_pow2 by lia. change (2 ^ 8) with 256. change (2 ^ 16) with 65536.
  change (2 ^ 24) with 16777216.
  rewrite (lor_low_add 224 (n / 16777216) 4) by (done || (split; [apply Z.div_pos; lia|apply Z.div_lt_upper_bound; lia])).
  assert (Hq : 0 <= n / 16777216 < 16) by (split; [apply Z.div_pos; lia|apply Z.div_lt_upper_bound; lia]).
  unfold u8. modlia.
Qed.

Lemma readsect_ok s dst n :
  0 <= n < 268435456 ->
  exists t l, readsect s dst n = Ret (mkBoot (write_bytes (bmem s) dst (bd_sector n)) t l).
Proof.
  intros Hn. unfold readsect. destruct (waitdisk_ok bd_patience (polls s) (bd_ready _)) as [t1 ->].
  cbn [mbind outcome_bind]. destruct (waitdisk_ok bd_patience t1 (bd_ready _)) as [t2 ->].
  cbn [mbind outcome_bind]. cbn zeta. rewrite selected_ok by done. by eexists _, _.
Qed.

(** Whole sectors from the file offset [base], a multiple of the sector size. *)
Lemma readseg_loop_ok img (Himg : disk_holds img) n : forall s va end_va k,
  0 <= k -> k + Z.of_nat n < 268435455 -> 0 <= va -> va + 512 * Z.of_nat n < 4294967296 ->
  va + 512 * (Z.of_nat n - 1) < end_va <= va + 512 * Z.of_nat n ->
  exists s', readseg_loop n s va end_va (k + 1) = Ret s' /\
    forall x, bmem s' x = if decide (va <= x < va + 512 * Z.of_nat n) then img (k * 512 + (x - va)) else bmem s x.
Proof.
  induction n as [|n IH]; intros s va end_va k Hk Hkn Hva Hend He; cbn [readseg_loop].
  - rewrite decide_False by lia. exists s. split; [done|]. intros x. by rewrite decide_False by lia.
  - rewrite decide_True by lia. destruct (readsect_ok s va (k + 1) ltac:(lia)) as (t & l & ->).
    cbn [mbind outcome_bind]. unfold SECTSIZE. rewrite !u32_small by lia.
    destruct (IH (mkBoot (write_bytes (bmem s) va (bd_sector (k + 1))) t l) (va + 512) end_va (k + 1)
                ltac:(lia) ltac:(lia) ltac:(lia) ltac:(lia) ltac:(lia)) as (s' & -> & Hm).
    exists s'. split; [done|]. intros x. rewrite Hm. cbn [bmem]. unfold write_bytes. rewrite bd_sector_length.
    destruct (decide (va + 512 <= x < va + 512 + 512 * Z.of_nat n)) as [D|D].
    + rewrite decide_True by lia. f_equal. lia.
    + case_decide as D2.
      * rewrite decide_True by lia. apply Himg; lia.
      * by rewrite decide_False by lia.
Qed.

Lemma readseg_ok img s va count off :
  disk_holds img -> 0 <= off -> 0 <= count -> off + count < 2 ^ 36 -> 0 <= va - off mod 512 ->
  va + count + 1024 < 4294967296 ->
  let base := va - off mod 512 in
  exists s', readseg s va count off = Ret s' /\
    forall x, bmem s' x = if decide (base <= x < base + 512 * ((va + count - base + 511) / 512))
                          then img (off + (x - va)) else bmem s x.
Proof.
  intros Himg Hoff Hc Hoc Hlo Hhi. cbn zeta. set (base := va - off mod 512) in *.
  pose proof (Z.mod_pos_bound off 512 ltac:(lia)) as Hm.
  pose proof (Z.div_mod off 512 ltac:(lia)) as Hd. change (2 ^ 36) with 68719476736 in Hoc.
  unfold readseg, SECTSIZE. fold base.
  rewrite (u32_small (va + count)), (u32_small base), (u32_small (off / 512 + 1)) by (unfold base; modlia).
  set (n := Z.to_nat ((va + count - base + 511) / 512)).
  assert (Hn : Z.of_nat n = (va + count - base + 511) / 512) by (unfold n; rewrite Z2Nat.id; unfold base in *; modlia).
  destruct (readseg_loop_ok img Himg n s base (va + count) (off / 512)) as (s' & -> & Hx);
    rewrite ?Hn; try (unfold base in *; modlia).
  exists s'. split; [done|]. intros x. rewrite Hx, Hn. case_decide; [|done]. f_equal. unfold base. lia.
Qed.

(** A header in memory is the header of the file. *)
Lemma header_fields img m ph :
  hdr_ok img m -> ELFHDR <= ph -> ph + PH_SIZE <= ELFHDR + 4096 ->
  ph_offset m ph = ph_offset img (ph - ELFHDR) /\ ph_pa m ph = ph_pa img (ph - ELFHDR) /\
  ph_filesize m ph = ph_filesize img (ph - ELFHDR) /\ ph_memsize m ph = ph_memsize img (ph - ELFHDR).
Proof.
  intros H H1 H2. unfold ph_offset, ph_pa, ph_filesize, ph_memsize, load32, PH_SIZE in *.
  rewrite !H by lia. repeat split; repeat (f_equal; try lia).
Qed.

Lemma load_one img s ph p :
  disk_holds img -> hdr_ok img (bmem s) -> ELFHDR <= ph -> ph + PH_SIZE <= ELFHDR + 4096 ->
  headers_at img (ph - ELFHDR) [p] -> seg_ok p ->
  exists s', load_loop 1 s ph = Ret s' /\ in_memory img (bmem s') p /\
    forall x, x < lo p \/ hi p <= x -> bmem s' x = bmem s x.
Proof.
  intros Himg Hh H1 H2 (E1 & E2 & E3 & E4 & _) (O1 & O2 & O3 & O4 & O5 & O6).
  destruct (header_fields img (bmem s) ph Hh H1 H2) as (F1 & F2 & F3 & F4).
  cbn [load_loop]. rewrite F1, F2, F3, E1, E2, E3. cbn zeta.
  assert (Hr : hi_read p <= hi p) by (unfold hi; lia).
  assert (Hm : s_pa p + s_memsz p <= hi p) by (unfold hi; lia).
  assert (Hlo : lo p = s_pa p - s_off p mod 512) by done.
  pose proof (Z.mod_pos_bound (s_off p) 512 ltac:(lia)) as Hmod.
  destruct (readseg_ok img s (s_pa p) (s_filesz p) (s_off p) Himg O1 ltac:(lia) O2 O4 ltac:(lia))
    as (s1 & -> & Hx). fold (lo p) in Hx. fold (hi_read p) in Hx. cbn [mbind outcome_bind].
  assert (Hf : s_pa p + s_filesz p <= hi_read p).
  { unfold hi_read. pose proof (Z.div_mod (s_pa p + s_filesz p - lo p + 511) 512 ltac:(lia)).
    pose proof (Z.mod_pos_bound (s_pa p + s_filesz p - lo p + 511) 512 ltac:(lia)). lia. }
  assert (Hh1 : hdr_ok img (bmem s1)).
  { intros x Hxr. rewrite Hx, decide_False by lia. by apply Hh. }
  destruct (header_fields img (bmem s1) ph Hh1 H1 H2) as (_ & _ & G3 & G4). rewrite G3, G4, E3, E4.
  case_decide as D; (eexists; split; [reflexivity|]); cbn [bmem].
  - split.
    + intros k Hk. unfold memset. rewrite !u32_small by lia. case_decide as D2.
      * rewrite decide_False by lia. done.
      * rewrite decide_True by lia. rewrite Hx, decide_True by lia. f_equal. lia.
    + intros x Hxr. unfold memset. rewrite !u32_small by lia. rewrite decide_False by lia.
      by rewrite Hx, decide_False by lia.
  - split.
    + intros k Hk. rewrite decide_True by lia. rewrite Hx, decide_True by lia. f_equal. lia.
    + intros x Hxr. by rewrite Hx, decide_False by lia.
Qed.

Lemma load_loop_cons n s ph : load_loop (S n) s ph = (s1 ← load_loop 1 s ph; load_loop n s1 (ph + PH_SIZE)).
Proof. cbn [load_loop]. by destruct (readseg s _ _ _). Qed.

Lemma load_loop_ok img (Himg : disk_holds img) ps : forall s ph,
  hdr_ok img (bmem s) -> headers_at img (ph - ELFHDR) ps -> ELFHDR <= ph ->
  ph + PH_SIZE * Z.of_nat (length ps) <= ELFHDR + 4096 -> Forall seg_ok ps -> segs_apart ps ->
  exists s', load_loop (length ps) s ph = Ret s' /\ hdr_ok img (bmem s') /\
    Forall (in_memory img (bmem s')) ps /\
    forall x, Forall (fun p => x < lo p \/ hi p <= x) ps -> bmem s' x = bmem s x.
Proof.
  unfold PH_SIZE. induction ps as [|p ps IH]; intros s ph Hh Hhd H1 H2 Hok Hap.
  - exists s. split; [done|]. split; [done|]. by split.
  - apply Forall_cons in Hok as [Hp Hok]. destruct Hap as [Hap1 Hap].
    cbn [length] in H2 |- *. destruct Hhd as (E1 & E2 & E3 & E4 & Hhd). rewrite load_loop_cons.
    destruct (load_one img s ph p Himg Hh H1 ltac:(unfold PH_SIZE; lia)) as (s1 & -> & Hin & Hout);
      [by repeat split|done|]. cbn [mbind outcome_bind].
    assert (Hh1 : hdr_ok img (bmem s1)).
    { intros x Hx. rewrite Hout; [by apply Hh|]. destruct Hp as (_ & _ & _ & _ & _ & Hd). lia. }
    destruct (IH s1 (ph + PH_SIZE) Hh1) as (s' & -> & Hh' & Hall & Hout'); try done.
    { by replace (ph + PH_SIZE - ELFHDR) with (ph - ELFHDR + PH_SIZE) by lia. }
    { unfold PH_SIZE. lia. }
    { unfold PH_SIZE. lia. }
    exists s'. split; [done|]. split; [done|]. split.
    + apply Forall_cons. split; [|done]. intros k Hk. rewrite Hout'; [by apply Hin|].
      eapply Forall_impl; [exact Hap1|]. cbn beta. intros q Hq. lia.
    + intros x Hx. apply Forall_cons in Hx as [Hx1 Hx]. rewrite Hout' by done. by apply Hout.
Qed.

End LoaderLemmas.

Lemma disk_of_holds img : bytes_ok img -> disk_holds (H := disk_of img) img.
Proof.
  intros Hb k j Hk Hj. cbn [bd_sector disk_of].
  rewrite (nth_indep _ 0 (u8 (img ((k + 1 - 1) * 512 + Z.of_nat 0)))) by (rewrite length_map, length_seq; lia).
  rewrite (map_nth (fun j => u8 (img ((k + 1 - 1) * 512 + Z.of_nat j)))), seq_nth by lia.
  rewrite u8_small by apply Hb. f_equal. lia.
Qed.

Lemma demo_img_bytes : bytes_ok demo_img.
Proof.
  assert (Hf : Forall (fun b => 0 <= b < 256) demo_header) by (vm_compute; repeat constructor; congruence).
  intros x. unfold demo_img. case_decide; [|case_decide; lia].
  destruct (nth_in_or_default (Z.to_nat x) demo_header 0) as [Hin| ->]; [|lia].
  rewrite List.Forall_forall in Hf. exact (Hf _ Hin).
Qed.

(** ** Properties *)

(** C34. On a disk that holds an ELF kernel whose segments fit below 4 GiB, avoid
    the loader's header buffer and are not overwritten by later segments,
    [bootmain] enters the kernel at its entry point with every segment in
    memory: the bytes of the file, and zeros up to the segment's memory size. *)
Theorem bootmain_loads {disk : BootDisk} (img : memory) (s : boot) (ps : list seg)
  (Himg : disk_holds img) (Hmagic : e_magic img 0 = ELF_MAGIC)
  (Hnum : e_phnum img 0 = Z.of_nat (length ps)) (Hoff : 0 <= e_phoff img 0)
  (Hfit : e_phoff img 0 + PH_SIZE * Z.of_nat (length ps) <= 4096)
  (Hhdr : headers_at img (e_phoff img 0) ps) (Hok : Forall seg_ok ps) (Hap : segs_apart ps) :
  exists s', bootmain s = Ret (s', Enter (e_entry img 0)) /\ Forall (in_memory img (bmem s')) ps.
Proof.
  unfold bootmain.
  destruct (readseg_ok img s ELFHDR (SECTSIZE * 8) 0 Himg
    ltac:(lia) ltac:(unfold SECTSIZE; lia) ltac:(reflexivity) ltac:(vm_compute; discriminate) ltac:(reflexivity))
    as (s1 & -> & Hx).
  cbn [mbind outcome_bind].
  assert (Hh : hdr_ok img (bmem s1)).
  { intros x Hxr. rewrite Hx. change (ELFHDR - 0 mod 512) with ELFHDR.
    change ((ELFHDR + SECTSIZE * 8 - ELFHDR + 511) / 512) with 8. rewrite decide_True by lia. f_equal. }
  assert (L : forall k, 0 <= k -> k + 4 <= 4096 -> load32 (bmem s1) (ELFHDR + k) = load32 img (0 + k)).
  { intros k H1 H2. unfold load32. rewrite !Hh by lia. repeat (f_equal; try lia). }
  unfold e_magic, e_entry, e_phoff, e_phnum in *.
  replace (load32 (bmem s1) ELFHDR) with (load32 img 0) by (rewrite <- (Z.add_0_r ELFHDR), L by lia; done).
  rewrite decide_False by (rewrite Hmagic; congruence). rewrite L by lia.
  replace (load16 (bmem s1) (ELFHDR + 44)) with (load16 img (0 + 44))
    by (unfold load16; rewrite !Hh by lia; repeat (f_equal; try lia)).
  rewrite Hnum, Nat2Z.id. unfold PH_SIZE in Hfit.
  rewrite u32_small by (unfold ELFHDR; lia).
  destruct (load_loop_ok img Himg ps s1 (ELFHDR + load32 img (0 + 28)) Hh) as (s2 & -> & Hh2 & Hin & _);
    [by replace (ELFHDR + load32 img (0 + 28) - ELFHDR) with (load32 img (0 + 28)) by lia|lia|unfold PH_SIZE; lia|
     done|done|].
  cbn [mbind outcome_bind]. exists s2. split; [|done]. do 3 f_equal.
  unfold load32. rewrite !Hh2 by lia. repeat (f_equal; try lia).
Qed.

Lemma bootmain_loads_witness :
  exists s', bootmain (disk := disk_of demo_img) (mkBoot (fun _ => 9) 0 []) = Ret (s', Enter 1048588) /\
    Forall (in_memory demo_img (bmem s')) [mkSeg 512 1048576 3 5].
Proof.
  apply (bootmain_loads (disk := disk_of demo_img) demo_img (mkBoot (fun _ => 9) 0 []) [mkSeg 512 1048576 3 5]).
  - apply disk_of_holds, demo_img_bytes.
  - reflexivity.
  - reflexivity.
  - vm_compute. discriminate.
  - vm_compute. discriminate.
  - repeat split.
  - apply Forall_cons. split; [|apply Forall_nil; exact I]. vm_compute. intuition congruence.
  - split; [apply Forall_nil|]; exact I.
Defined.
