(* ===== verification/Hsh.v ===== *)
(** * The shell

    user/hsh.c and [gets] of lib/utils.c: reading a line, splitting it into
    arguments in place, and choosing what to run.  The line and the array of
    argument pointers are in the byte memory of the program; what a [read] of
    one character returns is a list of results.  Loops that look for the end of
    a string carry fuel. *)

From stdpp Require Import base list strings.
From Stdlib Require Import ZArith Lia.
From S2P Require Import Prelude CString.

Open Scope Z_scope.

Definition MAXARGS : Z := 16.

Definition BUFZ : Z := 1024.

(** ** Reading a line (lib/utils.c) *)

(** The results [r] of [read(0, &c, 1)] with the character read; [gets] stops
    at the end of the list only by running out of input. *)
Fixpoint gets_loop (input : list (Z * Z)) (m : memory) (buf i n : Z) : outcome (memory * Z) :=
  if decide (i + 1 < n) then
    match input with
    | [] => Stop (Sleep 0)
    | (r, c) :: input' =>
        if decide (r = -1) then gets_loop input' m buf i n
        else if decide (r = 0) then Ret (m, i)
        else
          let m1 := store8 m (buf + i) c in
          if decide (c = 10 \/ c = 13) then Ret (m1, i + 1) else gets_loop input' m1 buf (i + 1) n
    end
  else Ret (m, i).

Definition gets (input : list (Z * Z)) (m : memory) (buf n : Z) : outcome memory :=
  '(m1, i) ← gets_loop input m buf 0 n; Ret (store8 m1 (buf + i) 0).

(** ** Splitting a line *)

Definition blank (c : Z) : bool := bool_decide (c = 32 \/ c = 9).

(** [while((p < end) && ( *p == ' ' || *p == '\t')) p++;] *)
Fixpoint skip_blanks (fuel : nat) (m : memory) (p end_ : Z) : Z :=
  match fuel with
  | O => p
  | S f => if decide (p < end_) then if blank (m p) then skip_blanks f m (p + 1) end_ else p else p
  end.

(** [while( *p != ' ' && *p != '\t' && p < end) p++;] *)
Fixpoint skip_word (fuel : nat) (m : memory) (p end_ : Z) : Z :=
  match fuel with
  | O => p
  | S f => if blank (m p) then p else if decide (p < end_) then skip_word f m (p + 1) end_ else p
  end.

(** The start of the word, and the new value of [*start].  Both loops end at
    [end_], so its distance is enough fuel. *)
Definition str_forward (m : memory) (start end_ : Z) : Z * Z :=
  let s := skip_blanks (Z.to_nat (end_ - start)) m start end_ in
  (s, skip_word (Z.to_nat (end_ - s)) m s end_).

(** The loop of [split_args]; [fuel] bounds the words, [sfuel] the strings.  A
    message is printed when [i] reaches [maxn], and the loop goes on. *)
Fixpoint split_loop (fuel sfuel : nat) (m : memory) (p q str buf i maxn : Z) : outcome (memory * Z * Z) :=
  if decide (p < q) then
    match fuel with
    | O => Stop Fuel
    | S f =>
        let m1 := store32 m buf p in
        let m2 := store8 m1 str 0 in
        let str := str + 1 in
        n ← strlen sfuel (at_ptr m2 str);
        let '(p', str') := str_forward m2 str (str + n) in
        split_loop f sfuel m2 p' q str' (buf + 4) (i + 1) maxn
    end
  else Ret (m, buf, i).

(** The memory afterwards and the number of words. *)
Definition split_args (fuel sfuel : nat) (m : memory) (str buf maxn : Z) : outcome (memory * Z) :=
  n ← strlen sfuel (at_ptr m str);
  let q := str + n in
  let '(p, str') := str_forward m str (str + n) in
  '(m1, buf', i) ← split_loop fuel sfuel m p q str' buf 0 maxn;
  Ret (store32 m1 buf' 0, i).

(** ** Commands *)

Definition literal (s : string) : cptr := fun i => nth (Z.to_nat i) (chars s) 0.

Inductive command : Type :=
  | Help
  | Version
  | Clear
  | Run
  | NotFound
  | Nothing.

(** The chain of tests in [main] on the line without its newline. *)
Definition hsh_command (fuel : nat) (buf : cptr) : outcome command :=
  h ← strcmp fuel buf (literal "help");
  if decide (h = 0) then Ret Help
  else
    v ← strcmp fuel buf (literal "version");
    if decide (v = 0) then Ret Version
    else
      c ← strcmp fuel buf (literal "clr");
      if decide (c = 0) then Ret Clear
      else if decide (strncmp (Some buf) (Some (literal "hello")) 5 = 0 \/
                      strncmp (Some buf) (Some (literal "cat")) 3 = 0 \/
                      strncmp (Some buf) (Some (literal "echo")) 4 = 0) then Ret Run
      else
        n ← strlen fuel buf;
        Ret (if decide (n <> 0) then NotFound else Nothing).

(** One turn of the loop of [main]: the line is read, its last character cut,
    and the command chosen. *)
Definition hsh_turn (fuel : nat) (input : list (Z * Z)) (m : memory) (buf : Z) : outcome (memory * command) :=
  m1 ← gets input m buf BUFZ;
  n ← strlen fuel (at_ptr m1 buf);
  let m2 := store8 m1 (buf + n - 1) 0 in
  c ← hsh_command fuel (at_ptr m2 buf);
  Ret (m2, c).

(** [run_cmd] up to the [fork], and the child up to [exec]: the path is built in
    [cmdbuf] behind "bin/", the arguments are in [xargv]. *)
Definition run_cmd (fuel sfuel : nat) (m : memory) (cmd xargv cmdbuf : Z) : outcome (memory * Z) :=
  '(m1, n) ← split_args fuel sfuel (write_bytes m cmdbuf (chars "bin/" ++ replicate 28 0)) cmd xargv MAXARGS;
  m2 ← strcpy sfuel m1 (cmdbuf + 4) (load32 m1 xargv);
  Ret (m2, n).

(** ** Specification *)

(** The words of a line: maximal runs of characters that are not blank. *)
Fixpoint words (l cur : list Z) : list (list Z) :=
  match l with
  | [] => match cur with [] => [] | _ => [cur] end
  | c :: l' =>
      if blank c then match cur with [] => words l' [] | _ => cur :: words l' [] end
      else words l' (cur ++ [c])
  end.

(** The words stand as C strings, between [lo] and [hi], at the pointers in [buf],
    which end in NULL. *)
Fixpoint argv_at (m : memory) (lo hi buf : Z) (ws : list (list Z)) : Prop :=
  match ws with
  | [] => load32 m buf = 0
  | w :: ws' =>
      is_cstr (at_ptr m (load32 m buf)) w /\ lo <= load32 m buf /\
      load32 m buf + Z.of_nat (length w) <= hi /\ argv_at m lo hi (buf + 4) ws'
  end.

(** The characters [l] at [a], without a terminator. *)
Definition text (m : memory) (a : Z) (l : list Z) : Prop :=
  forall i c, l !! i = Some c -> m (a + Z.of_nat i) = c.

Definition is_char (c : Z) : Prop := 1 <= c < 256.

Definition starts_blank (r : list Z) : Prop := match r with [] => True | c :: _ => blank c = true end.

(** A word [w] that ends at a NUL, between [lo] and [hi]. *)
Definition word_at (m : memory) (lo hi p : Z) (w : list Z) : Prop :=
  lo <= p /\ p + Z.of_nat (length w) <= hi /\ Forall is_char w /\ text m p w /\ m (p + Z.of_nat (length w)) = 0.

(** What [split_loop] leaves: [ptrs] in the array, the words at them. *)
Record split_done (m m' : memory) (lo str z q buf bend : Z) (ws : list (list Z)) (ptrs : list Z) : Prop := {
  sd_ptrs : forall k p, ptrs !! k = Some p -> load32 m' (buf + 4 * Z.of_nat k) = p;
  sd_words : Forall2 (word_at m' lo q) ptrs ws;
  sd_rest : forall x, ~ (str <= x <= z) -> ~ (buf <= x < bend) -> m' x = m x
}.

(** The command a line stands for. *)
Definition starts_with (p l : list Z) : bool := bool_decide (take (length p) l = p).

Definition spec_command (l : list Z) : command :=
  if decide (l = chars "help") then Help
  else if decide (l = chars "version") then Version
  else if decide (l = chars "clr") then Clear
  else if starts_with (chars "hello") l || starts_with (chars "cat") l || starts_with (chars "echo") l then Run
  else match l with [] => Nothing | _ => NotFound end.

(** What [read] returns when the line is typed. *)
Definition typed (l : list Z) : list (Z * Z) := map (fun c => (1, c)) (l ++ [10]).

(** A memory with a string at 4096. *)
Definition line_mem (l : list Z) : memory := write_bytes (fun _ => 0) 4096 l.

(** ** Lemmas: words *)

Lemma span_blank l : exists bs r, l = bs ++ r /\ Forall (fun c => blank c = true) bs /\
  match r with [] => True | c :: _ => blank c = false end.
Proof.
  induction l as [|c l IH]; [by exists [], []|]. destruct (blank c) eqn:E.
  - destruct IH as (bs & r & -> & Hb & Hr). exists (c :: bs), r. split; [done|]. split; [|done].
    by apply Forall_cons.
  - exists [], (c :: l). by split.
Qed.

Lemma span_word l : exists w r, l = w ++ r /\ Forall (fun c => blank c = false) w /\ starts_blank r.
Proof.
  induction l as [|c l IH]; [by exists [], []|]. destruct (blank c) eqn:E.
  - exists [], (c :: l). by split.
  - destruct IH as (w & r & -> & Hw & Hr). exists (c :: w), r. split; [done|]. split; [|done].
    by apply Forall_cons.
Qed.

(** A line is blanks, a word and a rest; without a word there is no rest. *)
Lemma span_line l : exists bs w r, l = bs ++ w ++ r /\ Forall (fun c => blank c = true) bs /\
  Forall (fun c => blank c = false) w /\ starts_blank r /\ (w = [] -> r = []).
Proof.
  destruct (span_blank l) as (bs & l1 & -> & Hb & Hl1). destruct (span_word l1) as (w & r & -> & Hw & Hr).
  exists bs, w, r. repeat (split; [done|]). intros ->. destruct r as [|c r]; [done|].
  cbn in Hl1, Hr. congruence.
Qed.

Lemma words_blanks bs l : Forall (fun c => blank c = true) bs -> words (bs ++ l) [] = words l [].
Proof.
  induction bs as [|c bs IH]; intros H; [done|]. apply Forall_cons in H as [Hc H]. cbn [app words].
  rewrite Hc. by apply IH.
Qed.

Lemma words_word w r : forall cur,
  Forall (fun c => blank c = false) w -> starts_blank r -> cur ++ w <> [] ->
  words (w ++ r) cur = (cur ++ w) :: words r [].
Proof.
  induction w as [|c w IH]; intros cur Hw Hr Hne; cbn [app].
  - rewrite app_nil_r in *. destruct cur as [|x cur]; [done|]. destruct r as [|c r]; [done|].
    cbn in Hr. cbn [words]. by rewrite Hr.
  - apply Forall_cons in Hw as [Hc Hw]. cbn [words]. rewrite Hc, IH; [|done|done|].
    + by rewrite <- app_assoc.
    + by destruct cur.
Qed.

Lemma words_line bs w r :
  Forall (fun c => blank c = true) bs -> Forall (fun c => blank c = false) w -> starts_blank r ->
  (w = [] -> r = []) ->
  words (bs ++ w ++ r) [] = match w with [] => [] | _ => w :: words r [] end.
Proof.
  intros Hb Hw Hr Hn. rewrite words_blanks by done. destruct w as [|c w]; [by rewrite Hn|].
  by apply (words_word (c :: w) r []).
Qed.

Lemma words_count l : (length (words l []) <= length l)%nat.
Proof.
  enough (H : forall cur, (length (words l cur) <= length l + match cur with [] => 0 | _ => 1 end)%nat)
    by (specialize (H []); cbn in H; lia).
  induction l as [|c l IH]; intros cur; cbn [words length]; [destruct cur; cbn; lia|].
  destruct (blank c).
  - destruct cur; cbn [length]; specialize (IH []); cbn in IH; lia.
  - specialize (IH (cur ++ [c])). destruct cur; cbn [app] in *; lia.
Qed.

(** ** Lemmas: the loops *)

Lemma text_app m a l1 l2 :
  text m a (l1 ++ l2) <-> text m a l1 /\ text m (a + Z.of_nat (length l1)) l2.
Proof.
  split.
  - intros H. split; intros i c Hi.
    + apply H. by apply lookup_app_l_Some.
    + rewrite <- (H (length l1 + i)%nat c) by (rewrite lookup_app_r by lia; rewrite <- Hi; f_equal; lia).
      f_equal. lia.
  - intros [H1 H2] i c Hi. apply lookup_app_Some in Hi as [Hi|[Hl Hi]]; [by apply H1|].
    rewrite <- (H2 _ _ Hi). f_equal. lia.
Qed.

Lemma text_cons m a c l : text m a (c :: l) <-> m a = c /\ text m (a + 1) l.
Proof.
  change (c :: l) with ([c] ++ l). rewrite text_app. cbn [length]. change (Z.of_nat 1) with 1.
  split; intros [H1 H2]; (split; [|done]).
  - rewrite <- (H1 0%nat c eq_refl). f_equal. lia.
  - intros [|i] x Hi; [|done]. injection Hi as <-. by rewrite Z.add_0_r.
Qed.

Lemma text_ext m m' a l :
  (forall x, a <= x < a + Z.of_nat (length l) -> m' x = m x) -> text m a l -> text m' a l.
Proof. intros H Ht i c Hi. pose proof (lookup_lt_Some _ _ _ Hi). rewrite H by lia. by apply Ht. Qed.

Lemma skip_blanks_ok m end_ bs : forall fuel p,
  text m p bs -> Forall (fun c => blank c = true) bs -> (length bs <= fuel)%nat ->
  p + Z.of_nat (length bs) <= end_ ->
  (p + Z.of_nat (length bs) = end_ \/ blank (m (p + Z.of_nat (length bs))) = false) ->
  skip_blanks fuel m p end_ = p + Z.of_nat (length bs).
Proof.
  induction bs as [|c bs IH]; intros fuel p Ht Hb Hf He Hs; cbn [length] in *.
  - rewrite Z.add_0_r in *. destruct fuel as [|f]; [done|]. cbn [skip_blanks].
    case_decide; [|done]. destruct Hs as [Hs|Hs]; [lia|by rewrite Hs].
  - apply text_cons in Ht as [Hm Ht]. apply Forall_cons in Hb as [Hc Hb].
    destruct fuel as [|f]; [lia|]. cbn [skip_blanks]. rewrite decide_True by lia. rewrite Hm, Hc.
    rewrite (IH f (p + 1)); [lia|done|done|lia|lia|].
    replace (p + 1 + Z.of_nat (length bs)) with (p + Z.of_nat (S (length bs))) by lia. done.
Qed.

Lemma skip_word_ok m end_ w : forall fuel p,
  text m p w -> Forall (fun c => blank c = false) w -> (length w <= fuel)%nat ->
  p + Z.of_nat (length w) <= end_ ->
  (p + Z.of_nat (length w) = end_ \/ blank (m (p + Z.of_nat (length w))) = true) ->
  skip_word fuel m p end_ = p + Z.of_nat (length w).
Proof.
  induction w as [|c w IH]; intros fuel p Ht Hb Hf He Hs; cbn [length] in *.
  - rewrite Z.add_0_r in *. destruct fuel as [|f]; [done|]. cbn [skip_word].
    destruct (blank (m p)) eqn:E; [done|]. case_decide; [|done]. destruct Hs as [->|Hs]; [lia|congruence].
  - apply text_cons in Ht as [Hm Ht]. apply Forall_cons in Hb as [Hc Hb].
    destruct fuel as [|f]; [lia|]. cbn [skip_word]. rewrite Hm, Hc. rewrite decide_True by lia.
    rewrite (IH f (p + 1)); [lia|done|done|lia|lia|].
    replace (p + 1 + Z.of_nat (length w)) with (p + Z.of_nat (S (length w))) by lia. done.
Qed.

(** [str_forward] on a line: it stops around the first word. *)
Lemma str_forward_ok m a bs w r :
  text m a (bs ++ w ++ r) -> Forall (fun c => blank c = true) bs -> Forall (fun c => blank c = false) w ->
  starts_blank r -> (w = [] -> r = []) ->
  str_forward m a (a + Z.of_nat (length (bs ++ w ++ r))) =
  (a + Z.of_nat (length bs), a + Z.of_nat (length bs) + Z.of_nat (length w)).
Proof.
  intros Ht Hb Hw Hr Hn. apply text_app in Ht as [Hbs Ht]. apply text_app in Ht as [Htw Htr].
  rewrite !length_app. unfold str_forward.
  rewrite (skip_blanks_ok m _ bs); [|done|done|lia|lia|].
  - rewrite (skip_word_ok m _ w); [done|done|done|lia|lia|].
    destruct r as [|c r]; [left; cbn [length]; lia|right].
    apply text_cons in Htr as [-> _]. done.
  - destruct w as [|c w]; [left; rewrite Hn by done; cbn [length]; lia|right].
    apply text_cons in Htw as [-> _]. by apply Forall_cons in Hw as [Hc _].
Qed.

Lemma chars_cstr m a l :
  text m a l -> Forall is_char l -> m (a + Z.of_nat (length l)) = 0 -> is_cstr (at_ptr m a) l.
Proof.
  intros Ht Hl Hz. split; [|exact Hz]. intros i c Hi. split; [by apply Ht|].
  exact (Forall_lookup_1 _ _ _ _ Hl Hi).
Qed.

Lemma strlen_text m a l fuel :
  text m a l -> Forall is_char l -> m (a + Z.of_nat (length l)) = 0 -> (length l < fuel)%nat ->
  strlen fuel (at_ptr m a) = Ret (Z.of_nat (length l)).
Proof. intros Ht Hl Hz Hf. apply strlen_spec; [by apply chars_cstr|done]. Qed.

(** The bytes from [a] to the next NUL. *)
Lemma strlen_any m a n fuel :
  0 <= n -> m (a + n) = 0 -> (Z.to_nat n < fuel)%nat -> exists k, strlen fuel (at_ptr m a) = Ret k /\ 0 <= k <= n.
Proof.
  intros Hn Hz Hf. unfold strlen.
  enough (H : forall f j, 0 <= j <= n -> (Z.to_nat (n - j) < f)%nat ->
            exists k, strlen_from f (at_ptr m a) j = Ret k /\ j <= k <= n).
  { destruct (H fuel 0 ltac:(lia)) as (k & E & Hk); [replace (n - 0) with n by lia; done|]. by exists k. }
  induction f as [|f IH]; intros j Hj Hfj; [lia|]. cbn [strlen_from]. case_decide as D.
  - exists j. split; [done|lia].
  - destruct (decide (j = n)) as [->|]; [unfold at_ptr in D; congruence|].
    destruct (IH (j + 1) ltac:(lia) ltac:(lia)) as (k & E & Hk). exists k. split; [done|lia].
Qed.

Lemma str_forward_ge m a e : a <= fst (str_forward m a e).
Proof.
  unfold str_forward. cbn [fst]. generalize (Z.to_nat (e - a)). intros f. revert a.
  induction f as [|f IH]; intros a; cbn [skip_blanks]; [lia|]. case_decide; [|lia]. destruct (blank (m a)); [|lia].
  specialize (IH (a + 1)). lia.
Qed.

(** Storing the pointer to a word and ending the word with a NUL. *)
Lemma word_stored m lo q p w buf :
  let str := p + Z.of_nat (length w) in
  let m2 := store8 (store32 m buf p) str 0 in
  text m p w -> Forall is_char w -> lo <= p -> str <= q -> 0 <= p < 4294967296 -> (buf + 4 <= lo \/ str < buf) ->
  (forall x, x <> str -> ~ (buf <= x < buf + 4) -> m2 x = m x) /\ load32 m2 buf = p /\ word_at m2 lo q p w.
Proof.
  intros str m2 Ht Hc Hlo Hq Hp Hd.
  assert (M2 : forall x, x <> str -> ~ (buf <= x < buf + 4) -> m2 x = m x).
  { intros x H1 H2. unfold m2. rewrite store8_other by done. by apply store32_outside. }
  split; [exact M2|]. split.
  - unfold m2. rewrite (load32_ext (store32 m buf p)) by (intros x Hx; by rewrite store8_other by lia).
    rewrite load32_store32_same. by apply u32_small.
  - split; [done|]. split; [done|]. split; [done|]. split; [|apply store8_same].
    apply (text_ext m); [|done]. intros x Hx. apply M2; lia.
Qed.

Lemma split_done_one m m2 lo str z q buf bend p w :
  (forall x, x <> str -> ~ (buf <= x < buf + 4) -> m2 x = m x) -> load32 m2 buf = p -> word_at m2 lo q p w ->
  str <= z -> buf + 4 <= bend -> split_done m m2 lo str z q buf bend [w] [p].
Proof.
  intros M2 Hp Hw Hs Hb. split.
  - intros [|k'] p0 E; [|by destruct k']. injection E as <-. by rewrite Z.mul_0_r, Z.add_0_r.
  - by constructor.
  - intros x H1 H2. apply M2; lia.
Qed.

Lemma split_done_cons m m2 m' lo str str' z q buf bend p w ws ptrs :
  (forall x, x <> str -> ~ (buf <= x < buf + 4) -> m2 x = m x) -> load32 m2 buf = p -> word_at m2 lo q p w ->
  split_done m2 m' lo str' z q (buf + 4) bend ws ptrs -> str = p + Z.of_nat (length w) -> str < str' -> str <= z ->
  buf + 4 <= bend -> (bend <= lo \/ z < buf) -> split_done m m' lo str z q buf bend (w :: ws) (p :: ptrs).
Proof.
  intros M2 Hp (W1 & W2 & W3 & W4 & W5) [D1 D2 D3] -> Hs Hz Hb Hd. split.
  - intros [|k'] p0 E.
    + injection E as <-. rewrite Z.mul_0_r, Z.add_0_r.
      rewrite (load32_ext m2 m') by (intros x Hx; apply D3; lia). exact Hp.
    + cbn in E. rewrite <- (D1 _ _ E). f_equal. lia.
  - constructor; [|done]. split; [done|]. split; [done|]. split; [done|].
    split; [apply (text_ext m2); [intros x Hx; apply D3; lia|done]|]. rewrite D3 by lia. done.
  - intros x H1 H2. rewrite D3 by lia. apply M2; lia.
Qed.

Lemma split_loop_end f sfuel m p q e buf i maxn : q <= p -> split_loop f sfuel m p q e buf i maxn = Ret (m, buf, i).
Proof. intros H. destruct f; cbn [split_loop]; by rewrite decide_False by lia. Qed.

Lemma split_loop_ok sfuel lo z bend maxn n : forall fuel m p w r q buf i,
  (length r < n)%nat -> (n <= fuel)%nat ->
  lo <= p -> 0 <= lo -> q < z < 4294967296 ->
  text m p w -> text m (p + Z.of_nat (length w)) r -> w <> [] ->
  Forall is_char (w ++ r) -> Forall (fun c => blank c = false) w -> starts_blank r ->
  q = p + Z.of_nat (length w) + Z.of_nat (length r) -> m q = 0 -> m z = 0 ->
  (Z.to_nat (z - lo) < sfuel)%nat -> buf + 4 * (Z.of_nat (length r) + 2) <= bend ->
  (bend <= lo \/ z < buf) ->
  exists m' ptrs, let ws := w :: words r [] in
    split_loop fuel sfuel m p q (p + Z.of_nat (length w)) buf i maxn =
      Ret (m', buf + 4 * Z.of_nat (length ws), i + Z.of_nat (length ws)) /\
    split_done m m' lo (p + Z.of_nat (length w)) z q buf bend ws ptrs.
Proof.
  induction n as [|n IH]; intros fuel m p w r q buf i Hrn Hf Hlo H0 Hz Htw Htr Hw Hch Hnb Hsb Eq Hq Hmz Hsf Hbuf Hdis;
    [lia|]. destruct fuel as [|f]; [lia|].
  assert (Hlw : (0 < length w)%nat) by (destruct w; cbn [length]; [done|lia]).
  apply Forall_app in Hch as [Hcw Hcr]. cbn [split_loop]. rewrite decide_True by lia.
  destruct (word_stored m lo q p w buf Htw Hcw Hlo) as (M2 & M2p & Wp); [lia..|]. cbv zeta in M2, M2p, Wp.
  set (str := p + Z.of_nat (length w)) in *. set (m2 := store8 (store32 m buf p) str 0) in *.
  destruct r as [|c r].
  - (* the last word *)
    cbn [length] in *. destruct (strlen_any m2 (str + 1) (z - (str + 1)) sfuel) as (k & -> & Hk); [lia| |lia|].
    { replace (str + 1 + (z - (str + 1))) with z by lia. rewrite M2 by lia. done. }
    cbn [mbind outcome_bind]. pose proof (str_forward_ge m2 (str + 1) (str + 1 + k)) as Hge.
    destruct (str_forward m2 (str + 1) (str + 1 + k)) as [p' str']. cbn [fst] in Hge.
    exists m2, [p]. cbn [words length]. rewrite split_loop_end by lia. split; [done|].
    apply split_done_one; [done..|lia|lia].
  - (* more of the line *)
    apply Forall_cons in Hcr as [Hc Hcr]. apply text_cons in Htr as [Hmc Htr]. cbn [length] in *.
    cbn in Hsb. destruct (span_line r) as (bs & w' & r' & Er & Hbs & Hw' & Hr' & Hn').
    assert (Tr : text m2 (str + 1) r) by (apply (text_ext m); [intros x Hx; apply M2; lia|done]).
    rewrite (strlen_text m2 (str + 1) r); [|done|done| |lia].
    2: { replace (str + 1 + Z.of_nat (length r)) with q by lia. rewrite M2 by lia. done. }
    cbn [mbind outcome_bind]. subst r. rewrite str_forward_ok by done.
    assert (Ews : words (c :: bs ++ w' ++ r') [] = match w' with [] => [] | _ => w' :: words r' [] end).
    { cbn [words]. rewrite Hsb. by apply words_line. }
    apply text_app in Tr as [_ Tr]. apply text_app in Tr as [Tw' Tr'].
    rewrite !length_app in Eq, Hbuf, Hrn.
    destruct (decide (w' = [])) as [->|Hw'ne].
    + rewrite (Hn' eq_refl) in *. cbn [length] in *. rewrite Ews.
      exists m2, [p]. rewrite split_loop_end by lia. cbn [length]. split; [done|].
      apply split_done_one; [done..|lia|lia].
    + destruct (IH f m2 (str + 1 + Z.of_nat (length bs)) w' r' q (buf + 4) (i + 1)) as (m' & ptrs & E & D);
        try done; try lia.
      { by apply Forall_app in Hcr as [_ Hcr]. } { rewrite M2 by lia. done. } { rewrite M2 by lia. done. }
      cbn zeta in E. rewrite E.
      replace (words (c :: bs ++ w' ++ r') []) with (w' :: words r' []) by (rewrite Ews; by destruct w').
      exists m', (p :: ptrs). cbn [length]. split; [do 2 f_equal; [f_equal|]; lia|].
      eapply split_done_cons; [exact M2|exact M2p|exact Wp|exact D|done|lia|lia|lia|lia].
Qed.

(** The pointers and the final NULL make an [argv]. *)
Lemma argv_stored m lo hi buf ws ptrs :
  (forall k p, ptrs !! k = Some p -> load32 m (buf + 4 * Z.of_nat k) = p) ->
  Forall2 (word_at m lo hi) ptrs ws ->
  (buf + 4 * (Z.of_nat (length ws) + 1) <= lo \/ hi < buf) ->
  argv_at (store32 m (buf + 4 * Z.of_nat (length ws)) 0) lo hi buf ws.
Proof.
  intros Hp Hw Hd. set (m' := store32 m _ 0).
  assert (M : forall x, x < buf + 4 * Z.of_nat (length ws) \/ buf + 4 * Z.of_nat (length ws) + 4 <= x -> m' x = m x).
  { intros x Hx. apply store32_outside. lia. }
  enough (G : forall ptrs1 ws1 j, length ws = (j + length ws1)%nat ->
            (forall k p, ptrs1 !! k = Some p -> load32 m (buf + 4 * Z.of_nat (j + k)) = p) ->
            Forall2 (word_at m lo hi) ptrs1 ws1 -> argv_at m' lo hi (buf + 4 * Z.of_nat j) ws1).
  { specialize (G ptrs ws 0%nat eq_refl). rewrite Z.mul_0_r, Z.add_0_r in G. by apply G. }
  clear Hp Hw. intros ptrs1 ws1. revert ptrs1. induction ws1 as [|w ws1 IH]; intros ptrs1 j Hj Hp Hw; cbn [argv_at].
  - cbn [length] in Hj. replace (buf + 4 * Z.of_nat j) with (buf + 4 * Z.of_nat (length ws)) by lia.
    unfold m'. by rewrite load32_store32_same.
  - apply Forall2_cons_inv_r in Hw as (p & ptrs2 & (W1 & W2 & W3 & W4 & W5) & Hw & ->). cbn [length] in Hj.
    assert (E : load32 m' (buf + 4 * Z.of_nat j) = p).
    { rewrite (load32_ext m) by (intros x Hx; apply M; lia). rewrite <- (Hp 0%nat p eq_refl). f_equal. lia. }
    rewrite E. split.
    + apply chars_cstr; [|done|].
      * apply (text_ext m); [intros x Hx; apply M; lia|done].
      * rewrite M by lia. exact W5.
    + split; [done|]. split; [done|]. replace (buf + 4 * Z.of_nat j + 4) with (buf + 4 * Z.of_nat (S j)) by lia. apply (IH ptrs2); [lia| |done].
      intros k p' Hk. rewrite <- (Hp (S k) p' Hk). f_equal. lia.
Qed.

Lemma split_args_ok m a l buf z fuel sfuel maxn :
  text m a l -> Forall is_char l -> m (a + Z.of_nat (length l)) = 0 -> m z = 0 ->
  0 <= a -> a + Z.of_nat (length l) < z < 4294967296 ->
  (Z.to_nat (z - a) < sfuel)%nat -> (length l < fuel)%nat ->
  buf + 4 * (Z.of_nat (length l) + 2) <= a \/ z < buf ->
  exists m', split_args fuel sfuel m a buf maxn = Ret (m', Z.of_nat (length (words l []))) /\
    argv_at m' a (a + Z.of_nat (length l)) buf (words l []) /\
    forall x, ~ (a <= x <= z) -> ~ (buf <= x < buf + 4 * (Z.of_nat (length l) + 2)) -> m' x = m x.
Proof.
  intros Ht Hl Hz0 Hz Ha Hza Hsf Hf Hdis. unfold split_args.
  rewrite (strlen_text m a l) by (done || lia). cbn [mbind outcome_bind].
  destruct (span_line l) as (bs & w & r & -> & Hbs & Hw & Hr & Hn).
  rewrite str_forward_ok by done. rewrite !length_app in Hz0, Hza, Hf, Hdis |- *.
  rewrite words_line by done. apply text_app in Ht as [_ Ht]. apply text_app in Ht as [Tw Tr].
  destruct (decide (w = [])) as [->|Hwne].
  - rewrite (Hn eq_refl) in *. cbn [length] in *.
    assert (Es : forall e, split_loop fuel sfuel m (a + Z.of_nat (length bs)) (a + Z.of_nat (length bs + (0 + 0))) e buf 0 maxn =
                      Ret (m, buf, 0)).
    { intros e. destruct fuel; cbn [split_loop]; by rewrite decide_False by lia. }
    rewrite Es. cbn [mbind outcome_bind]. eexists. split; [reflexivity|]. split.
    + cbn [argv_at]. by rewrite load32_store32_same.
    + intros x H1 H2. apply store32_outside. lia.
  - apply Forall_app in Hl as [_ Hl].
    destruct (split_loop_ok sfuel a z (buf + 4 * (Z.of_nat (length bs + (length w + length r)) + 2)) maxn (S (length r))
                fuel m (a + Z.of_nat (length bs)) w r
                (a + Z.of_nat (length bs + (length w + length r))) buf 0) as (m' & ptrs & E & D);
      try done; try lia. cbn zeta in E. rewrite E. cbn [mbind outcome_bind].
    replace (match w with [] => [] | _ => w :: words r [] end) with (w :: words r []) by (by destruct w).
    set (ws := w :: words r []) in *. destruct D as [D1 D2 D3].
    pose proof (words_count r) as Hcnt.
    assert (Hlen : (length ws <= S (length r))%nat) by (unfold ws; cbn [length]; lia).
    assert (Hlw : (0 < length w)%nat) by (destruct w; cbn [length]; [done|lia]).
    exists (store32 m' (buf + 4 * Z.of_nat (length ws)) 0). split; [done|]. split.
    + apply (argv_stored m' a (a + Z.of_nat (length bs + (length w + length r))) buf ws ptrs); try done. lia.
    + intros x H1 H2. rewrite store32_outside by lia. apply D3; lia.
Qed.

(** ** Lemmas: a line *)

Lemma gets_loop_ok l : forall m buf i n,
  Forall (fun c => is_char c /\ c <> 10 /\ c <> 13) l -> i + Z.of_nat (length l) + 1 < n ->
  exists m', gets_loop (typed l) m buf i n = Ret (m', i + Z.of_nat (length l) + 1) /\
    text m' (buf + i) (l ++ [10]) /\
    agree_outside (buf + i) (buf + i + Z.of_nat (length l) + 1) m m'.
Proof.
  induction l as [|c l IH]; intros m buf i n Hl Hn; cbn [length] in *.
  - cbn [typed app map gets_loop]. rewrite decide_True by lia.
    rewrite 2!decide_False by lia. rewrite decide_True by lia. eexists. split; [f_equal; f_equal; lia|]. split.
    + apply text_cons. split; [apply store8_same|]. intros k c Hk. by rewrite lookup_nil in Hk.
    + intros x Hx. apply store8_other. lia.
  - apply Forall_cons in Hl as [(Hc & H10 & H13) Hl]. cbn [typed app map gets_loop]. rewrite decide_True by lia.
    rewrite 3!decide_False by lia.
    destruct (IH (store8 m (buf + i) c) buf (i + 1) n Hl ltac:(lia)) as (m' & E & Ht & Ho).
    unfold typed in E. rewrite E. exists m'. split; [f_equal; f_equal; lia|]. split.
    + apply text_cons. replace (buf + i + 1) with (buf + (i + 1)) by lia. split; [|done].
      rewrite Ho by lia. rewrite store8_same. apply u8_small. unfold is_char in Hc. lia.
    + intros x Hx. rewrite Ho by lia. apply store8_other. lia.
Qed.

Lemma literal_cstr s : Forall is_char (chars s) -> is_cstr (literal s) (chars s).
Proof.
  intros H. unfold literal. split.
  - intros i c Hi. rewrite Nat2Z.id. rewrite (nth_lookup_Some _ _ _ _ Hi). split; [done|].
    exact (Forall_lookup_1 _ _ _ _ H Hi).
  - rewrite Nat2Z.id. by rewrite nth_overflow.
Qed.

Lemma strcmp_literal m a l s fuel :
  text m a l -> Forall is_char l -> m (a + Z.of_nat (length l)) = 0 -> Forall is_char (chars s) ->
  (length l < fuel)%nat ->
  exists r, strcmp fuel (at_ptr m a) (literal s) = Ret r /\ (r = 0 <-> l = chars s).
Proof.
  intros Ht Hl Hz Hs Hf. apply (strcmp_zero_iff l (chars s)); [by apply chars_cstr|by apply literal_cstr|done].
Qed.

Lemma prefix_cmp m a l p :
  text m a l -> m (a + Z.of_nat (length l)) = 0 -> Forall is_char p ->
  (forall j, 0 <= j < Z.of_nat (length p) -> m (a + j) = nth (Z.to_nat j) p 0) <-> take (length p) l = p.
Proof.
  revert a l. induction p as [|c p IH]; intros a l Ht Hz Hp; cbn [length]; [split; [done|intros; lia]|].
  apply Forall_cons in Hp as [Hc Hp]. destruct l as [|x l].
  - cbn [take]. split; [|done]. intros H. specialize (H 0 ltac:(lia)). change (Z.of_nat (length [])) with 0 in Hz.
    rewrite Hz in H. unfold is_char in Hc. change (nth (Z.to_nat 0) (c :: p) 0) with c in H. lia.
  - apply text_cons in Ht as [Hx Ht]. cbn [length] in Hz.
    replace (a + Z.of_nat (S (length l))) with (a + 1 + Z.of_nat (length l)) in Hz by lia.
    specialize (IH (a + 1) l Ht Hz Hp). cbn [take]. split.
    + intros H. f_equal.
      * specialize (H 0 ltac:(lia)). rewrite Z.add_0_r, Hx in H. exact H.
      * apply IH. intros j Hj. specialize (H (j + 1) ltac:(lia)).
        replace (Z.to_nat (j + 1)) with (S (Z.to_nat j)) in H by lia. cbn [nth] in H. rewrite <- H. f_equal. lia.
    + intros [= -> H] j Hj. destruct (decide (j = 0)) as [->|Hj0]; [by rewrite Z.add_0_r, Hx|].
      destruct IH as [_ IH]. specialize (IH H (j - 1) ltac:(lia)).
      replace (a + 1 + (j - 1)) with (a + j) in IH by lia. rewrite IH.
      replace (Z.to_nat j) with (S (Z.to_nat (j - 1))) by lia. done.
Qed.

Lemma strncmp_literal m a l s n :
  bytes_ok m -> text m a l -> m (a + Z.of_nat (length l)) = 0 -> Forall is_char (chars s) ->
  n = Z.of_nat (length (chars s)) ->
  strncmp (Some (at_ptr m a)) (Some (literal s)) n = 0 <-> starts_with (chars s) l = true.
Proof.
  intros Hb Ht Hz Hs ->. rewrite strncmp_zero; [| |unfold literal|lia].
  - unfold starts_with. rewrite bool_decide_eq_true. by rewrite <- (prefix_cmp m a l (chars s) Ht Hz Hs).
  - intros j Hj. apply Hb.
  - intros j Hj. pose proof (nth_In (chars s) 0 (n := Z.to_nat j) ltac:(lia)) as Hin.
    rewrite List.Forall_forall in Hs. specialize (Hs _ Hin). unfold is_char in Hs. lia.
Qed.

Lemma hsh_command_ok m a l fuel :
  bytes_ok m -> text m a l -> Forall is_char l -> m (a + Z.of_nat (length l)) = 0 -> (length l < fuel)%nat ->
  hsh_command fuel (at_ptr m a) = Ret (spec_command l).
Proof.
  intros Hb Ht Hl Hz Hf. unfold hsh_command, spec_command.
  assert (Hlit : forall s, s ∈ ["help"; "version"; "clr"; "hello"; "cat"; "echo"]%string -> Forall is_char (chars s)).
  { intros s Hs. repeat (apply elem_of_cons in Hs as [->|Hs]; [vm_compute; repeat constructor; congruence|]).
    by apply elem_of_nil in Hs. }
  destruct (strcmp_literal m a l "help" fuel Ht Hl Hz (Hlit "help" ltac:(repeat first [left|right])) Hf) as (r1 & -> & R1).
  destruct (strcmp_literal m a l "version" fuel Ht Hl Hz (Hlit "version" ltac:(repeat first [left|right])) Hf) as (r2 & E2 & R2).
  destruct (strcmp_literal m a l "clr" fuel Ht Hl Hz (Hlit "clr" ltac:(repeat first [left|right])) Hf) as (r3 & E3 & R3).
  pose proof (strncmp_literal m a l "hello" 5 Hb Ht Hz (Hlit "hello" ltac:(repeat first [left|right])) eq_refl) as R4.
  pose proof (strncmp_literal m a l "cat" 3 Hb Ht Hz (Hlit "cat" ltac:(repeat first [left|right])) eq_refl) as R5.
  pose proof (strncmp_literal m a l "echo" 4 Hb Ht Hz (Hlit "echo" ltac:(repeat first [left|right])) eq_refl) as R6.
  cbn [mbind outcome_bind]. destruct (decide (r1 = 0)) as [D1|D1]; [by rewrite decide_True by tauto|].
  rewrite (decide_False (P := l = chars "help")) by tauto. rewrite E2. cbn [mbind outcome_bind].
  destruct (decide (r2 = 0)) as [D2|D2]; [by rewrite decide_True by tauto|].
  rewrite (decide_False (P := l = chars "version")) by tauto. rewrite E3. cbn [mbind outcome_bind].
  destruct (decide (r3 = 0)) as [D3|D3]; [by rewrite decide_True by tauto|].
  rewrite (decide_False (P := l = chars "clr")) by tauto.
  destruct (starts_with (chars "hello") l) eqn:S4; [rewrite decide_True by tauto; done|].
  destruct (starts_with (chars "cat") l) eqn:S5; [rewrite decide_True by tauto; done|].
  destruct (starts_with (chars "echo") l) eqn:S6; [rewrite decide_True by tauto; done|].
  rewrite decide_False by (intros [H|[H|H]]; [apply R4 in H|apply R5 in H|apply R6 in H]; congruence).
  rewrite (strlen_text m a l) by done. cbn [mbind outcome_bind orb].
  destruct l as [|c l]; [done|]. by rewrite decide_True by (cbn [length]; lia).
Qed.

Lemma strcpy_ok l : forall fuel m d s,
  text m s l -> Forall is_char l -> m (s + Z.of_nat (length l)) = 0 -> (length l < fuel)%nat ->
  d + Z.of_nat (length l) < s \/ s + Z.of_nat (length l) < d ->
  exists m', strcpy fuel m d s = Ret m' /\ text m' d l /\ m' (d + Z.of_nat (length l)) = 0 /\
    agree_outside d (d + Z.of_nat (length l) + 1) m m'.
Proof.
  induction l as [|c l IH]; intros fuel m d s Ht Hl Hz Hf Hd; (destruct fuel as [|f]; [lia|]); cbn [strcpy length] in *.
  - rewrite Z.add_0_r in *. rewrite Hz, store8_other by lia. rewrite Hz, decide_True by done.
    eexists. split; [done|]. split; [intros i c Hi; by rewrite lookup_nil in Hi|].
    rewrite store8_same. split; [done|]. intros x Hx. apply store8_other. lia.
  - apply Forall_cons in Hl as [Hc Hl]. apply text_cons in Ht as [Hs Ht]. unfold is_char in Hc.
    rewrite Hs. rewrite store8_other by lia. rewrite Hs, decide_False by lia.
    destruct (IH f (store8 m d c) (d + 1) (s + 1)) as (m' & E & T & Z0 & O); try done; try lia.
    + apply (text_ext m); [|done]. intros x Hx. apply store8_other. lia.
    + rewrite store8_other by lia. rewrite <- Hz. f_equal. lia.
    + exists m'. split; [done|]. split; [|split].
      * apply text_cons. split; [|done]. rewrite O by lia. rewrite store8_same. apply u8_small. lia.
      * rewrite <- Z0. f_equal. lia.
      * intros x Hx. rewrite O by lia. apply store8_other. lia.
Qed.

Lemma cstr_text m a l : is_cstr (at_ptr m a) l -> text m a l /\ Forall is_char l /\ m (a + Z.of_nat (length l)) = 0.
Proof.
  intros [H1 H2]. split; [intros i c Hi; exact (proj1 (H1 i c Hi))|]. split; [|exact H2].
  apply Forall_lookup_2. intros i c Hi. exact (proj2 (H1 i c Hi)).
Qed.

(** Words are in the line. *)
Lemma word_length w ws l : words l [] = w :: ws -> (length w <= length l)%nat.
Proof.
  enough (H : forall cur, words l cur = w :: ws -> (length w <= length cur + length l)%nat) by (intros E; apply (H [] E)).
  induction l as [|c l IH]; intros cur; cbn [words length].
  - destruct cur; intros [=]; subst; cbn [length]; lia.
  - destruct (blank c).
    + destruct cur; intros E; [specialize (IH [] E); cbn [length] in IH; lia|]. injection E as <- _. lia.
    + intros E. specialize (IH _ E). rewrite length_app in IH. cbn [length] in IH. lia.
Qed.

Lemma argv_at_ext m m' lo hi buf ws :
  (forall x, buf <= x < buf + 4 * (Z.of_nat (length ws) + 1) -> m' x = m x) ->
  (forall x, lo <= x <= hi -> m' x = m x) ->
  argv_at m lo hi buf ws -> argv_at m' lo hi buf ws.
Proof.
  revert buf. induction ws as [|w ws IH]; intros buf H1 H2; cbn [argv_at length] in *.
  - intros H. rewrite (load32_ext m) by (intros x Hx; apply H1; lia). done.
  - intros (Hw & Hlo & Hhi & Ha). rewrite (load32_ext m) by (intros x Hx; apply H1; lia). split; [|split; [done|split; [done|]]].
    + apply cstr_text in Hw as (T & C & N).
      apply chars_cstr; [apply (text_ext m); [intros x Hx; apply H2; lia|done]|done|]. by rewrite H2 by lia.
    + apply (IH (buf + 4)); [intros x Hx; apply H1; lia|done|done].
Qed.

Lemma run_cmd_ok m a l xargv cmdbuf z fuel sfuel w ws :
  bytes_ok m -> text m a l -> Forall is_char l -> m (a + Z.of_nat (length l)) = 0 -> m z = 0 ->
  0 <= a -> a + Z.of_nat (length l) < z < 4294967296 ->
  (Z.to_nat (z - a) < sfuel)%nat -> (length l < fuel)%nat ->
  xargv + 4 * (Z.of_nat (length l) + 2) <= a \/ z < xargv ->
  cmdbuf + 32 <= a \/ z < cmdbuf ->
  cmdbuf + 32 <= xargv \/ xargv + 4 * (Z.of_nat (length l) + 2) <= cmdbuf ->
  words l [] = w :: ws -> Z.of_nat (length w) <= 27 ->
  exists m', run_cmd fuel sfuel m a xargv cmdbuf = Ret (m', Z.of_nat (S (length ws))) /\
    is_cstr (at_ptr m' cmdbuf) (chars "bin/" ++ w) /\ argv_at m' a (a + Z.of_nat (length l)) xargv (w :: ws).
Proof.
  intros Hb Ht Hl Hz0 Hz Ha Hza Hsf Hf D1 D2 D3 Ew Hw. unfold run_cmd.
  set (m0 := write_bytes m cmdbuf (chars "bin/" ++ replicate 28 0)).
  assert (O0 : agree_outside cmdbuf (cmdbuf + 32) m m0).
  { intros x Hx. apply write_bytes_outside. rewrite length_app, length_replicate. exact Hx. }
  destruct (split_args_ok m0 a l xargv z fuel sfuel MAXARGS) as (m1 & E & Hargv & O1); try done.
  { apply (text_ext m); [intros x Hx; apply O0; lia|done]. }
  { rewrite O0 by lia. done. }
  { rewrite O0 by lia. done. }
  rewrite E. cbn [mbind outcome_bind]. rewrite Ew in Hargv |- *.
  pose proof Hargv as (Cw & Wlo & Whi & _). apply cstr_text in Cw as (Tw & Fw & Nw).
  pose proof (words_count l) as Hcnt. rewrite Ew in Hcnt. cbn [length] in Hcnt.
  destruct (strcpy_ok w sfuel m1 (cmdbuf + 4) (load32 m1 xargv)) as (m2 & -> & T2 & Z2 & O2); try done; try lia.
  cbn [mbind outcome_bind]. exists m2. split; [done|]. split.
  - apply chars_cstr.
    + apply text_app. split; [|exact T2]. apply (text_ext m0).
      * intros x Hx. change (Z.of_nat (length (chars "bin/"))) with 4 in Hx. rewrite O2 by lia. apply O1; lia.
      * intros i c Hi. unfold m0. pose proof (lookup_lt_Some _ _ _ Hi) as Hlt. change (length (chars "bin/")) with 4%nat in Hlt.
        unfold write_bytes. rewrite decide_True by (rewrite length_app, length_replicate; change (length (chars "bin/")) with 4%nat; lia).
        replace (Z.to_nat (cmdbuf + Z.of_nat i - cmdbuf)) with i by lia.
        rewrite app_nth1 by (change (length (chars "bin/")) with 4%nat; lia). exact (nth_lookup_Some _ _ 0 _ Hi).
    + apply Forall_app. split; [vm_compute; repeat constructor; congruence|done].
    + rewrite length_app. change (length (chars "bin/")) with 4%nat. rewrite <- Z2. f_equal. lia.
  - apply (argv_at_ext m1); [intros x Hx; apply O2; cbn [length] in Hx; lia|intros x Hx; apply O2; lia|done].
Qed.

(** A memory that changed only in a range of bytes. *)
Lemma hsh_bytes m m' a n :
  bytes_ok m -> agree_outside a (a + n) m m' -> (forall x, a <= x < a + n -> 0 <= m' x < 256) -> bytes_ok m'.
Proof.
  intros H O R x. destruct (decide (a <= x < a + n)) as [D|D]; [by apply R|]. rewrite O by done. apply H.
Qed.

Lemma line_mem_text l : text (line_mem l) 4096 l.
Proof.
  intros i c Hi. pose proof (lookup_lt_Some _ _ _ Hi) as Hlt. unfold line_mem, write_bytes. rewrite decide_True by lia.
  replace (Z.to_nat (4096 + Z.of_nat i - 4096)) with i by lia. exact (nth_lookup_Some _ _ 0 _ Hi).
Qed.

Lemma line_mem_zero l x : 4096 + Z.of_nat (length l) <= x -> line_mem l x = 0.
Proof. intros Hx. unfold line_mem. by rewrite write_bytes_outside by lia. Qed.

(** ** Properties *)

(** One turn of the shell: a line typed at the prompt, shorter than the
    buffer, ends up in the buffer without its newline, nothing else of the
    memory is written, and the command chosen is the one the line stands for:
    the built-in commands by their full names, programs by the beginning of the
    line. *)
Lemma hsh_reads_line (m : memory) (buf : Z) (l : list Z) (fuel : nat)
  (Hm : bytes_ok m) (Hl : Forall (fun c => is_char c /\ c <> 10 /\ c <> 13) l)
  (Hlen : Z.of_nat (length l) + 1 < BUFZ - 1) (Hf : (length l + 1 < fuel)%nat) :
  exists m', hsh_turn fuel (typed l) m buf = Ret (m', spec_command l) /\ is_cstr (at_ptr m' buf) l /\
    agree_outside buf (buf + Z.of_nat (length l) + 2) m m'.
Proof.
  assert (Hc : Forall is_char l) by (eapply Forall_impl; [exact Hl|]; by intros c [Hc _]).
  unfold hsh_turn, gets. destruct (gets_loop_ok l m buf 0 BUFZ Hl ltac:(lia)) as (m1 & -> & T1 & O1).
  cbn [mbind outcome_bind]. rewrite Z.add_0_r, Z.add_0_l in *. set (n := Z.of_nat (length l)) in *.
  set (m2 := store8 m1 (buf + (n + 1)) 0).
  assert (T2 : text m2 buf (l ++ [10])).
  { apply (text_ext m1); [|done]. intros x Hx. rewrite length_app in Hx. cbn [length] in Hx. apply store8_other. lia. }
  rewrite (strlen_text m2 buf (l ++ [10])); [|done| | |rewrite length_app; cbn [length]; lia].
  2: { apply Forall_app. split; [done|]. apply Forall_singleton. unfold is_char. lia. }
  2: { rewrite length_app. cbn [length]. replace (buf + Z.of_nat (length l + 1)) with (buf + (n + 1)) by lia. apply store8_same. }
  cbn [mbind outcome_bind]. rewrite length_app. cbn [length].
  replace (buf + Z.of_nat (length l + 1) - 1) with (buf + n) by lia. set (m3 := store8 m2 (buf + n) 0).
  assert (T3 : text m3 buf l).
  { apply text_app in T2 as [T2 _]. apply (text_ext m2); [|done]. intros x Hx. apply store8_other. lia. }
  assert (Z3 : m3 (buf + Z.of_nat (length l)) = 0) by apply store8_same.
  assert (O3 : agree_outside buf (buf + n + 2) m m3).
  { intros x Hx. unfold m3, m2. rewrite !store8_other by lia. apply O1. lia. }
  rewrite (hsh_command_ok m3 buf l); [|apply (hsh_bytes m m3 buf (n + 2)); try done|done|done|done|lia].
  - cbn [mbind outcome_bind]. exists m3. split; [done|]. split; [by apply chars_cstr|done].
  - replace (buf + (n + 2)) with (buf + n + 2) by lia. done.
  - intros x Hx. unfold m3, m2, store8. repeat case_decide; try apply u8_range.
    destruct (decide (x = buf + n)) as [->|]; [lia|].
    assert (Hx' : (Z.to_nat (x - buf) < length l)%nat) by lia.
    destruct (lookup_lt_is_Some_2 l _ Hx') as [c Hci]. apply text_app in T1 as [T1 _].
    specialize (T1 _ _ Hci). replace (buf + Z.of_nat (Z.to_nat (x - buf))) with x in T1 by lia. rewrite T1.
    pose proof (Forall_lookup_1 _ _ _ _ Hc Hci) as Hcc. unfold is_char in Hcc. lia.
Qed.


(** C35. [split_args] cuts a line into exactly its words, the maximal runs of
    characters that are neither spaces nor tabs: each becomes a C string inside
    the line, the array gets their addresses in order and a final NULL.  The
    number of words is not limited by [maxn]. *)
Theorem split_args_words (m : memory) (a z buf maxn : Z) (l : list Z) (fuel sfuel : nat)
  (Ht : is_cstr (at_ptr m a) l) (Ha : 0 <= a) (Hz : a + Z.of_nat (length l) < z < 4294967296) (Hmz : m z = 0)
  (Hsf : (Z.to_nat (z - a) < sfuel)%nat) (Hf : (length l < fuel)%nat)
  (Hd : buf + 4 * (Z.of_nat (length l) + 2) <= a \/ z < buf) :
  exists m', split_args fuel sfuel m a buf maxn = Ret (m', Z.of_nat (length (words l []))) /\
    argv_at m' a (a + Z.of_nat (length l)) buf (words l []) /\
    forall x, ~ (a <= x <= z) -> ~ (buf <= x < buf + 4 * (Z.of_nat (length l) + 2)) -> m' x = m x.
Proof. apply cstr_text in Ht as (T & C & N). by apply split_args_ok. Qed.

Lemma split_args_words_witness :
  exists m', split_args 20 20 (line_mem (chars " cat  a b ")) 4096 8192 16 = Ret (m', 3) /\
    argv_at m' 4096 (4096 + 10) 8192 [chars "cat"; chars "a"; chars "b"] /\
    forall x, ~ (4096 <= x <= 4108) -> ~ (8192 <= x < 8192 + 4 * (10 + 2)) -> m' x = line_mem (chars " cat  a b ") x.
Proof.
  apply (split_args_words (line_mem (chars " cat  a b ")) 4096 4108 8192 16 (chars " cat  a b ") 20 20).
  - apply chars_cstr; [apply line_mem_text|vm_compute; repeat (apply Forall_cons; split; [split; [discriminate|reflexivity]|]); apply Forall_nil; exact I|].
    apply line_mem_zero. lia.
  - lia.
  - vm_compute. split; reflexivity.
  - apply line_mem_zero. vm_compute. discriminate.
  - vm_compute. lia.
  - vm_compute. lia.
  - right. reflexivity.
Defined.

(** Running a program: for a line whose first word has at most 27
    characters, the path given to [exec] is that word behind "bin/", and the
    arguments are the words of the line. *)
Lemma run_cmd_path (m : memory) (a z xargv cmdbuf : Z) (l w : list Z) (ws : list (list Z)) (fuel sfuel : nat)
  (Hm : bytes_ok m) (Ht : is_cstr (at_ptr m a) l) (Ha : 0 <= a)
  (Hz : a + Z.of_nat (length l) < z < 4294967296) (Hmz : m z = 0)
  (Hsf : (Z.to_nat (z - a) < sfuel)%nat) (Hf : (length l < fuel)%nat)
  (D1 : xargv + 4 * (Z.of_nat (length l) + 2) <= a \/ z < xargv)
  (D2 : cmdbuf + 32 <= a \/ z < cmdbuf)
  (D3 : cmdbuf + 32 <= xargv \/ xargv + 4 * (Z.of_nat (length l) + 2) <= cmdbuf)
  (Hw : words l [] = w :: ws) (Hlen : Z.of_nat (length w) <= 27) :
  exists m', run_cmd fuel sfuel m a xargv cmdbuf = Ret (m', Z.of_nat (S (length ws))) /\
    is_cstr (at_ptr m' cmdbuf) (chars "bin/" ++ w) /\
    argv_at m' a (a + Z.of_nat (length l)) xargv (w :: ws).
Proof. apply cstr_text in Ht as (T & C & N). by apply (run_cmd_ok m a l xargv cmdbuf z). Qed.

