(* ===== verification/Vmem.v ===== *)
(** * Memory as the processor sees it

    Loads and stores at virtual addresses under a page directory: the walk of
    the two-level table, the check of the present bit (the kernel runs with
    CR0.WP clear, so its writes do not look at the writable bit) and the access
    to the frame, which the kernel also sees through its window.  On top of them [memmove] and [memset] of
    kern/string.c when their arguments are virtual addresses, and what
    [region_alloc] of kern/mm.c does to a user address space. *)

From stdpp Require Import base list strings.
From Stdlib Require Import ZArith Lia.
From S2P Require Import Prelude Mmu CString Kalloc PageTable VmSpec Heap.

Open Scope Z_scope.

(** The window address of the byte at [va]. *)
Definition vaddr (s : mm) (pgdir va : Z) : outcome Z :=
  if has (pt_entry s pgdir va) PTE_P
  then Ret (translate s pgdir va) else Stop (Fault "page fault").

Definition vload8 (s : mm) (pgdir va : Z) : outcome Z :=
  a ← vaddr s pgdir va; Ret (s.(ram) a).

Definition vload16 (s : mm) (pgdir va : Z) : outcome Z :=
  b0 ← vload8 s pgdir va; b1 ← vload8 s pgdir (va + 1); Ret (b0 + b1 * 256).

Definition vload32 (s : mm) (pgdir va : Z) : outcome Z :=
  b0 ← vload8 s pgdir va; b1 ← vload8 s pgdir (va + 1);
  b2 ← vload8 s pgdir (va + 2); b3 ← vload8 s pgdir (va + 3);
  Ret (b0 + 256 * b1 + 65536 * b2 + 16777216 * b3).

Definition vstore8 (s : mm) (pgdir va v : Z) : outcome mm :=
  a ← vaddr s pgdir va; Ret (set_ram s (store8 s.(ram) a v)).

Fixpoint vcopy_up (n : nat) (s : mm) (pgdir dst src : Z) : outcome mm :=
  match n with
  | O => Ret s
  | S k => b ← vload8 s pgdir src; s1 ← vstore8 s pgdir dst b;
           vcopy_up k s1 pgdir (u32 (dst + 1)) (u32 (src + 1))
  end.

Fixpoint vcopy_down (n : nat) (s : mm) (pgdir dst src : Z) : outcome mm :=
  match n with
  | O => Ret s
  | S k => b ← vload8 s pgdir (u32 (src - 1)); s1 ← vstore8 s pgdir (u32 (dst - 1)) b;
           vcopy_down k s1 pgdir (u32 (dst - 1)) (u32 (src - 1))
  end.

Definition vmemmove (s : mm) (pgdir dst src n : Z) : outcome mm :=
  let n := u32 n in
  if decide (src < dst /\ u32 (src + n) > dst)
  then vcopy_down (Z.to_nat n) s pgdir (u32 (dst + n)) (u32 (src + n))
  else vcopy_up (Z.to_nat n) s pgdir dst src.

(** [n] rounds of [rep stosb] with 0. *)
Fixpoint vfill (n : nat) (s : mm) (pgdir dst v : Z) : outcome mm :=
  match n with
  | O => Ret s
  | S k => s1 ← vstore8 s pgdir dst v; vfill k s1 pgdir (u32 (dst + 1)) v
  end.

Definition vmemset (s : mm) (pgdir dst v n : Z) : outcome mm :=
  vfill (Z.to_nat (u32 n)) s pgdir dst v.

(** ** User address spaces *)

Definition vbyte (s : mm) (pgdir va : Z) : Z := s.(ram) (translate s pgdir va).

Definition present (s : mm) (pgdir va : Z) : Prop := has (pt_entry s pgdir va) PTE_P = true.

(** The addresses whose pages belong to one task: the user half and the heap. *)
Definition private (va : Z) : Prop := 0 <= va < KERNBASE \/ HEAP_START <= va < HEAP_END.

(** What the pages of a task and the kernel's own part of the window satisfy in
    the directory of the task: private pages are writable, those of the user
    half also open to user mode, and they are backed by distinct frames of the
    allocator's memory, none of them a page of the tables or free; physical
    memory is seen at its address in the window, below the heap. *)
Record user_wf (s : mm) (pgdir : Z) (l : list Z) : Prop := {
  uw_vm : vm_wf s pgdir l;
  uw_page : forall va, private va -> present s pgdir va ->
    page_ok s (table_of (pt_entry s pgdir va)) /\
    ~ vm_page s pgdir l (table_of (pt_entry s pgdir va)) /\
    has (pt_entry s pgdir va) PTE_W = true /\
    (va < KERNBASE -> has (pt_entry s pgdir va) PTE_U = true);
  uw_inj : forall va va', private va -> private va' ->
    present s pgdir va -> present s pgdir va' ->
    table_of (pt_entry s pgdir va) = table_of (pt_entry s pgdir va') -> same_page va va';
  uw_window : forall va, KERNBASE <= va < KERNBASE + s.(memsz) * 1024 ->
    present s pgdir va /\ translate s pgdir va = va;
  uw_gap : s.(mem_start) <= KERNBASE + s.(memsz) * 1024 <= HEAP_START
}.

(** In particular the kernel sees itself. *)
Lemma uw_low s pgdir l va : user_wf s pgdir l -> KERNBASE <= va < s.(mem_start) ->
  present s pgdir va /\ translate s pgdir va = va.
Proof. intros H Hva. pose proof (uw_gap _ _ _ H). apply (uw_window _ _ _ H). lia. Qed.

(** Arithmetic on private addresses. *)
Ltac priv := unfold private, KERNBASE, HEAP_START, HEAP_END in *; lia.

(** Pages that suffice to back the bytes [va, va + len): frames and tables. *)
Definition region_cost (va len : Z) : Z :=
  ((va + len + 4095) / 4096 - va / 4096) + ((va + len) / 4194304 - va / 4194304 + 1).

(** ** Bytes and pages *)

Section Bytes.
Context (s : mm) (pgdir : Z) (l : list Z).

Lemma vload8_ok va : present s pgdir va -> vload8 s pgdir va = Ret (vbyte s pgdir va).
Proof. unfold present, vload8, vaddr. intros ->. reflexivity. Qed.

Lemma vstore8_ok va v : present s pgdir va ->
  vstore8 s pgdir va v = Ret (set_ram s (store8 s.(ram) (translate s pgdir va) v)).
Proof. unfold present, vstore8, vaddr. intros ->. reflexivity. Qed.

Lemma translate_in va :
  table_of (pt_entry s pgdir va) <= translate s pgdir va < table_of (pt_entry s pgdir va) + 4096.
Proof. unfold translate. pose proof (Z.mod_pos_bound (u32 va) 4096). lia. Qed.

Context (Huw : user_wf s pgdir l).

(** A user byte lies in the allocator's memory, above the kernel. *)
Lemma user_above va : private va -> present s pgdir va ->
  s.(mem_start) <= translate s pgdir va.
Proof.
  intros Hva Hp. destruct (uw_page _ _ _ Huw va Hva Hp) as ((_ & Hr & _) & _).
  pose proof (translate_in va). lia.
Qed.

(** Distinct user addresses are distinct bytes. *)
Lemma user_translate_inj va va' :
  private va -> private va' -> present s pgdir va -> present s pgdir va' ->
  translate s pgdir va = translate s pgdir va' -> va = va'.
Proof.
  intros Hva Hva' Hp Hp' E.
  pose proof (table_of_aligned (pt_entry s pgdir va)).
  pose proof (table_of_aligned (pt_entry s pgdir va')).
  pose proof (uw_inj _ _ _ Huw va va' Hva Hva' Hp Hp') as Hi.
  unfold translate in E. rewrite !u32_small in E by priv.
  assert (Hsp : same_page va va') by (apply Hi; modlia).
  unfold same_page in Hsp. rewrite !u32_small in Hsp by priv.
  assert (table_of (pt_entry s pgdir va) = table_of (pt_entry s pgdir va')) by modlia. modlia.
Qed.

(** Storing a user byte changes this byte and nothing of the tables. *)
Lemma user_store va v : private va -> present s pgdir va ->
  let s' := set_ram s (store8 s.(ram) (translate s pgdir va) v) in
  user_wf s' pgdir l /\ (forall va', pt_entry s' pgdir va' = pt_entry s pgdir va') /\
  (forall q, vm_page s' pgdir l q -> vm_page s pgdir l q) /\
  (forall i, 0 <= i < 1024 -> pde_at s' pgdir i = pde_at s pgdir i).
Proof.
  intros Hva Hp s'. pose proof (translate_in va) as Ht.
  destruct (uw_page _ _ _ Huw va Hva Hp) as (_ & Hnv & _).
  destruct (vm_wf_agree s pgdir l (ram s') _ (uw_vm _ _ _ Huw) (table_of_aligned _) Hnv)
    as (Hw & Hpde & He).
  { intros x Hx. apply store8_other. lia. }
  { apply store8_bytes_ok, (fw_bytes _ _ (vw_free _ _ _ (uw_vm _ _ _ Huw))). }
  assert (Hvm : forall q, vm_page s' pgdir l q -> vm_page s pgdir l q).
  { intros q [Hv|[Hv|(i & Hi & Hh & Hv)]]; [by left|by right; left|].
    rewrite Hpde in Hh, Hv by exact Hi. right. right. eauto. }
  split; [|by repeat split]. constructor; [exact Hw|..].
  - intros va' Hva' Hp'. unfold present in Hp'. rewrite He in *.
    destruct (uw_page _ _ _ Huw va' Hva' Hp') as (H1 & H2 & H3).
    split; [exact H1|]. split; [auto|exact H3].
  - intros va1 va2 H1 H2. unfold present. rewrite !He. apply (uw_inj _ _ _ Huw); assumption.
  - intros va' Hva'. unfold present, translate. rewrite He. exact (uw_window _ _ _ Huw va' Hva').
  - exact (uw_gap _ _ _ Huw).
Qed.

End Bytes.

(** What a run of stores into the user bytes [dst, dst + n) keeps. *)
Record stored (s s' : mm) (pgdir : Z) (l : list Z) (dst n : Z) : Prop := {
  sd_wf : user_wf s' pgdir l;
  sd_entry : forall va, pt_entry s' pgdir va = pt_entry s pgdir va;
  sd_keep : forall x, (forall va, dst <= va < dst + n -> x <> translate s pgdir va) ->
    s'.(ram) x = s.(ram) x;
  sd_pages : forall q, vm_page s' pgdir l q -> vm_page s pgdir l q;
  sd_mm : s'.(memsz) = s.(memsz) /\ s'.(mem_start) = s.(mem_start)
}.

(** Every byte of the range [dst, dst + n) is private and present. *)
Definition priv_at (s : mm) (pgdir dst n : Z) : Prop :=
  0 <= dst /\ dst + n < 4294967296 /\
  forall va, dst <= va < dst + n -> private va /\ present s pgdir va.

(** A page that is neither of the tables nor free nor mapped for the user. *)
Definition foreign (s : mm) (pgdir : Z) (l : list Z) (q : Z) : Prop :=
  q mod 4096 = 0 /\ ~ vm_page s pgdir l q /\
  forall va, private va -> present s pgdir va -> table_of (pt_entry s pgdir va) <> q.

Section Stored.
Context (s : mm) (pgdir : Z) (l : list Z) (Huw : user_wf s pgdir l).

Lemma stored_refl dst : stored s s pgdir l dst 0.
Proof. constructor; done. Qed.

Lemma translate_stored s' dst n va : stored s s' pgdir l dst n ->
  translate s' pgdir va = translate s pgdir va.
Proof. intros H. unfold translate. rewrite (sd_entry _ _ _ _ _ _ H). done. Qed.

Lemma present_stored s' dst n va : stored s s' pgdir l dst n ->
  present s' pgdir va <-> present s pgdir va.
Proof. intros H. unfold present. rewrite (sd_entry _ _ _ _ _ _ H). done. Qed.

Lemma priv_at_stored s' dst n d k : stored s s' pgdir l dst n ->
  priv_at s pgdir d k -> priv_at s' pgdir d k.
Proof.
  intros H (H1 & H2 & H3). split; [exact H1|]. split; [exact H2|].
  intros va Hva. rewrite (present_stored _ _ _ _ H). auto.
Qed.

Lemma stored_user s' dst n va : stored s s' pgdir l dst n -> priv_at s pgdir dst n ->
  private va -> present s pgdir va -> ~ (dst <= va < dst + n) ->
  vbyte s' pgdir va = vbyte s pgdir va.
Proof.
  intros H (H1 & H2 & H3) Hva Hp Hout. unfold vbyte. rewrite (translate_stored _ _ _ _ H).
  apply (sd_keep _ _ _ _ _ _ H). intros va' Hva' E. apply Hout.
  destruct (H3 va' Hva') as [Hpv' Hp'].
  apply (user_translate_inj s pgdir l Huw) in E; [|assumption..]. subst. exact Hva'.
Qed.

Lemma stored_low s' dst n x : stored s s' pgdir l dst n -> priv_at s pgdir dst n ->
  x < s.(mem_start) -> s'.(ram) x = s.(ram) x.
Proof.
  intros H (H1 & H2 & H3) Hx. apply (sd_keep _ _ _ _ _ _ H). intros va Hva ->.
  destruct (H3 va Hva) as [Hpv Hp]. pose proof (user_above s pgdir l Huw va Hpv Hp). lia.
Qed.

Lemma stored_foreign s' dst n q x : stored s s' pgdir l dst n -> priv_at s pgdir dst n ->
  foreign s pgdir l q -> q <= x < q + 4096 -> s'.(ram) x = s.(ram) x.
Proof.
  intros H (H1 & H2 & H3) (Hq & _ & Hne) Hx. apply (sd_keep _ _ _ _ _ _ H). intros va Hva ->.
  pose proof (translate_in s pgdir va). pose proof (table_of_aligned (pt_entry s pgdir va)).
  destruct (H3 va Hva) as [Hpv Hp]. pose proof (Hne va Hpv Hp). modlia.
Qed.

(** One more store in front of a run. *)
Lemma stored_cons s1 s2 va n v :
  priv_at s pgdir va (n + 1) -> 0 <= n ->
  s1 = set_ram s (store8 s.(ram) (translate s pgdir va) v) ->
  stored s1 s2 pgdir l (va + 1) n -> stored s s2 pgdir l va (n + 1) /\
  vbyte s2 pgdir va = u8 v.
Proof.
  intros (H1 & H2 & H3) Hn -> H. destruct (H3 va ltac:(lia)) as [Hpv Hp].
  destruct (user_store s pgdir l Huw va v Hpv Hp) as (Hw & He & Hvm & _).
  set (s1 := set_ram _ _) in *.
  assert (Ht : forall x, translate s1 pgdir x = translate s pgdir x)
    by (intros x; unfold translate; rewrite He; done).
  split.
  - constructor; [apply H|..].
    + intros x. rewrite (sd_entry _ _ _ _ _ _ H). apply He.
    + intros x Hx. rewrite (sd_keep _ _ _ _ _ _ H).
      * simpl. apply store8_other. apply Hx. lia.
      * intros y Hy. rewrite Ht. apply Hx. lia.
    + intros q Hq. apply Hvm, (sd_pages _ _ _ _ _ _ H), Hq.
    + apply H.
  - unfold vbyte, translate. rewrite (sd_entry _ _ _ _ _ _ H).
    fold (translate s1 pgdir va). rewrite (sd_keep _ _ _ _ _ _ H).
    + rewrite Ht. simpl. apply store8_same.
    + intros y Hy. rewrite !Ht. intros E.
      destruct (H3 y ltac:(lia)) as [Hpy Hy'].
      apply (user_translate_inj s pgdir l Huw) in E; [lia|assumption..].
Qed.

End Stored.

Lemma user_wf_start s pgdir l : user_wf s pgdir l -> s.(mem_start) < 4294967296.
Proof.
  intros H. pose proof (vw_dir _ _ _ (uw_vm _ _ _ H)) as Hd.
  pose proof (page_ok_range _ _ Hd). destruct Hd as (_ & Hd & _). lia.
Qed.

Lemma priv_at_tail s pgdir dst n : 0 <= n ->
  priv_at s pgdir dst (n + 1) ->
  (private dst /\ present s pgdir dst) /\ priv_at s pgdir (dst + 1) n.
Proof.
  intros Hn (H1 & H2 & H3). split; [apply H3; lia|].
  split; [lia|]. split; [lia|]. intros va Hva. apply H3. lia.
Qed.

(** Copying from the kernel's part of the window to user memory. *)
Lemma vcopy_up_ok pgdir l n : forall s dst src,
  user_wf s pgdir l -> priv_at s pgdir dst (Z.of_nat n) ->
  KERNBASE <= src -> src + Z.of_nat n <= s.(mem_start) ->
  exists s', vcopy_up n s pgdir dst src = Ret s' /\ stored s s' pgdir l dst (Z.of_nat n) /\
    forall i, 0 <= i < Z.of_nat n -> vbyte s' pgdir (dst + i) = s.(ram) (src + i).
Proof.
  induction n as [|n IH]; intros s dst src Huw Hat Hsrc Hend.
  - exists s. split; [done|]. split; [by apply stored_refl|]. intros i Hi. lia.
  - rewrite Nat2Z.inj_succ in *. unfold Z.succ in *. pose proof (user_wf_start _ _ _ Huw) as Hms.
    destruct (priv_at_tail _ _ _ _ (Nat2Z.is_nonneg n) Hat) as [[Hd Hpd] Htail].
    pose proof Hat as (Hd0 & Hd1 & _).
    destruct (uw_low _ _ _ src Huw ltac:(lia)) as [Hps Hts].
    destruct (user_store s pgdir l Huw dst (vbyte s pgdir src) Hd Hpd) as (Hw1 & He1 & _).
    cbn [vcopy_up]. rewrite vload8_ok, bind_Ret, vstore8_ok, bind_Ret by assumption.
    unfold KERNBASE in *. rewrite !u32_small by lia.
    set (s1 := set_ram _ _) in *.
    assert (Hlow : forall x, x < s.(mem_start) -> s1.(ram) x = s.(ram) x).
    { intros x Hx. unfold s1. simpl. apply store8_other.
      pose proof (user_above s pgdir l Huw dst Hd Hpd). lia. }
    destruct (IH s1 (dst + 1) (src + 1) Hw1) as (s' & E & Hst & Hb).
    { destruct Htail as (T1 & T2 & T3). split; [lia|]. split; [exact T2|].
      intros va Hva. unfold present. rewrite He1. apply T3, Hva. }
    { unfold KERNBASE. lia. } { simpl. lia. }
    destruct (stored_cons s pgdir l Huw s1 s' dst (Z.of_nat n) (vbyte s pgdir src))
      as [Hst' Hb']; [assumption|lia|done|exact Hst|].
    exists s'. split; [exact E|]. split; [exact Hst'|]. intros i Hi.
    destruct (decide (i = 0)) as [->|Hi0].
    + rewrite !Z.add_0_r, Hb'. unfold vbyte. rewrite Hts. apply u8_small.
      apply (fw_bytes _ _ (vw_free _ _ _ (uw_vm _ _ _ Huw))).
    + specialize (Hb (i - 1) ltac:(lia)).
      replace (dst + 1 + (i - 1)) with (dst + i) in Hb by lia.
      replace (src + 1 + (i - 1)) with (src + i) in Hb by lia. rewrite Hb. apply Hlow. lia.
Qed.

Lemma vmemmove_ok s pgdir l dst src n :
  user_wf s pgdir l -> priv_at s pgdir dst n -> 0 <= n ->
  KERNBASE <= src -> src + n <= s.(mem_start) ->
  exists s', vmemmove s pgdir dst src n = Ret s' /\ stored s s' pgdir l dst n /\
    forall i, 0 <= i < n -> vbyte s' pgdir (dst + i) = s.(ram) (src + i).
Proof.
  intros Huw Hat Hn Hsrc Hend.
  pose proof Hat as (Hd0 & Hd & Hpv). pose proof (uw_gap _ _ _ Huw) as Hgap. unfold KERNBASE in *.
  unfold vmemmove. pose proof (user_wf_start _ _ _ Huw). rewrite (u32_small n), u32_small by lia.
  rewrite decide_False.
  2: { intros [H1 H2]. destruct (Hpv dst ltac:(lia)) as [Hp _]. priv. }
  destruct (vcopy_up_ok pgdir l (Z.to_nat n) s dst src) as (s' & E & Hst & Hb);
    rewrite ?Z2Nat.id in * by lia; unfold KERNBASE in *; try (assumption || lia).
  exists s'. done.
Qed.

Lemma vfill_ok pgdir l v n : forall s dst,
  user_wf s pgdir l -> priv_at s pgdir dst (Z.of_nat n) ->
  exists s', vfill n s pgdir dst v = Ret s' /\ stored s s' pgdir l dst (Z.of_nat n) /\
    forall i, 0 <= i < Z.of_nat n -> vbyte s' pgdir (dst + i) = u8 v.
Proof.
  induction n as [|n IH]; intros s dst Huw Hat.
  - exists s. split; [done|]. split; [by apply stored_refl|]. intros i Hi. lia.
  - rewrite Nat2Z.inj_succ in *. unfold Z.succ in *.
    destruct (priv_at_tail _ _ _ _ (Nat2Z.is_nonneg n) Hat) as [[Hd Hpd] Htail].
    pose proof Hat as (Hd0 & Hd1 & _).
    destruct (user_store s pgdir l Huw dst v Hd Hpd) as (Hw1 & He1 & _).
    cbn [vfill]. rewrite vstore8_ok, bind_Ret by assumption.
    unfold KERNBASE in *. rewrite u32_small by lia. set (s1 := set_ram _ _) in *.
    destruct (IH s1 (dst + 1) Hw1) as (s' & E & Hst & Hb).
    { destruct Htail as (T1 & T2 & T3). split; [lia|]. split; [exact T2|].
      intros va Hva. unfold present. rewrite He1. apply T3, Hva. }
    destruct (stored_cons s pgdir l Huw s1 s' dst (Z.of_nat n) v)
      as [Hst' Hb']; [assumption|lia|done|exact Hst|].
    exists s'. split; [exact E|]. split; [exact Hst'|]. intros i Hi.
    destruct (decide (i = 0)) as [->|Hi0]; [rewrite Z.add_0_r; exact Hb'|].
    replace (dst + i) with (dst + 1 + (i - 1)) by lia. apply Hb. lia.
Qed.

Lemma vmemset_ok s pgdir l dst v n :
  user_wf s pgdir l -> priv_at s pgdir dst n -> 0 <= n ->
  exists s', vmemset s pgdir dst v n = Ret s' /\ stored s s' pgdir l dst n /\
    forall i, 0 <= i < n -> vbyte s' pgdir (dst + i) = u8 v.
Proof.
  intros Huw Hat Hn. pose proof Hat as (H0 & Hd & _).
  unfold vmemset. rewrite u32_small by lia.
  destruct (vfill_ok pgdir l v (Z.to_nat n) s dst) as (s' & E & Hst & Hb);
    rewrite ?Z2Nat.id in * by lia; try assumption.
  exists s'. done.
Qed.

(** ** Growing a user address space *)

Record grown (s s' : mm) (pgdir : Z) (l l' : list Z) : Prop := {
  gr_wf : user_wf s' pgdir l';
  gr_ext : extends s s' pgdir l l';
  gr_entry : forall va, present s pgdir va -> pt_entry s' pgdir va = pt_entry s pgdir va;
  gr_new : forall va, private va -> present s' pgdir va -> present s pgdir va \/
    vm_page s pgdir l (table_of (pt_entry s' pgdir va))
}.

Lemma grown_refl s pgdir l : user_wf s pgdir l -> grown s s pgdir l l.
Proof. intros H. constructor; [done|apply extends_refl, H|done|by left]. Qed.

Lemma grown_trans s1 s2 s3 pgdir l1 l2 l3 :
  grown s1 s2 pgdir l1 l2 -> grown s2 s3 pgdir l2 l3 -> grown s1 s3 pgdir l1 l3.
Proof.
  intros [Hw1 Hx1 He1 Hn1] [Hw2 Hx2 He2 Hn2].
  constructor; [done|eapply extends_trans; eassumption|..].
  - intros va Hp. rewrite He2; [by apply He1|]. unfold present. rewrite He1; done.
  - intros va Hva Hp. destruct (Hn2 va Hva Hp) as [Hp2|Hv].
    + destruct (Hn1 va Hva Hp2) as [Hp1|Hv]; [by left|right]. rewrite He2; done.
    + right. apply (ex_pages _ _ _ _ _ Hx1), Hv.
Qed.

Lemma grown_foreign s s' pgdir l l' q : grown s s' pgdir l l' -> foreign s pgdir l q ->
  foreign s' pgdir l' q /\ forall x, q <= x < q + 4096 -> s'.(ram) x = s.(ram) x.
Proof.
  intros [Hw Hx He Hn] (Hq & Hv & Hu). split; [split; [exact Hq|split]|].
  - intros H. apply Hv, (ex_pages _ _ _ _ _ Hx), H.
  - intros va Hva Hp E. destruct (Hn va Hva Hp) as [Hp0|Hn0].
    + rewrite He in E by exact Hp0. exact (Hu va Hva Hp0 E).
    + rewrite E in Hn0. exact (Hv Hn0).
  - intros x. apply (ex_keeps _ _ _ _ _ Hx q x Hq Hv).
Qed.

(** Present user bytes keep their places and their values. *)
Lemma grown_user s s' pgdir l l' va :
  user_wf s pgdir l -> grown s s' pgdir l l' -> private va -> present s pgdir va ->
  present s' pgdir va /\ vbyte s' pgdir va = vbyte s pgdir va.
Proof.
  intros Huw [Hw Hx He Hn] Hva Hp. split; [unfold present; rewrite He; done|].
  unfold vbyte, translate. rewrite He by exact Hp.
  destruct (uw_page _ _ _ Huw va Hva Hp) as (_ & Hnv & _).
  apply (ex_keeps _ _ _ _ _ Hx _ _ (table_of_aligned _) Hnv). apply (translate_in s).
Qed.

Lemma user_wf_extends s s' pgdir l l' :
  user_wf s pgdir l -> extends s s' pgdir l l' ->
  (forall va, pt_entry s' pgdir va = pt_entry s pgdir va) -> grown s s' pgdir l l'.
Proof.
  intros Huw Hx He. constructor; [|exact Hx|auto|].
  - constructor; [apply Hx|..].
    + intros va Hva. unfold present. rewrite He. intros Hp.
      destruct (uw_page _ _ _ Huw va Hva Hp) as (H1 & H2 & H3).
      split; [|split; [intros H; apply H2, (ex_pages _ _ _ _ _ Hx), H|exact H3]].
      unfold page_ok. rewrite (ex_memsz _ _ _ _ _ Hx), (ex_start _ _ _ _ _ Hx). exact H1.
    + intros va va' H1 H2. unfold present. rewrite !He. apply (uw_inj _ _ _ Huw); assumption.
    + intros va Hva. rewrite (ex_memsz _ _ _ _ _ Hx) in Hva.
      unfold present, translate. rewrite He. exact (uw_window _ _ _ Huw va Hva).
    + rewrite (ex_start _ _ _ _ _ Hx), (ex_memsz _ _ _ _ _ Hx). exact (uw_gap _ _ _ Huw).
  - intros va _. unfold present. rewrite He. by left.
Qed.

Lemma has_entry pa perm f : has perm f = true -> has (page_entry pa perm) f = true.
Proof.
  unfold has, page_entry. rewrite !bool_decide_eq_true. intros H E. apply H.
  rewrite !Z.land_lor_distr_l in E. apply Z.lor_eq_0_iff in E as [E _].
  apply Z.lor_eq_0_iff in E as [_ E]. exact E.
Qed.

(** Taking the first free page leaves it outside the address space. *)
Lemma pop_extends s pgdir p l :
  vm_wf s pgdir (p :: l) ->
  kalloc_page s = (p, set_free_list s (load32 s.(ram) p)) /\
  extends s (set_free_list s (load32 s.(ram) p)) pgdir (p :: l) l /\
  ~ vm_page (set_free_list s (load32 s.(ram) p)) pgdir l p /\ page_ok s p.
Proof.
  intros Hwf. destruct (kalloc_page_cons s p l (vw_free _ _ _ Hwf)) as [E Hf].
  pose proof (fw_nodup _ _ (vw_free _ _ _ Hwf)) as Hnd. apply NoDup_cons in Hnd as [Hpl _].
  pose proof (fw_pages _ _ (vw_free _ _ _ Hwf)) as Hpg. apply Forall_cons in Hpg as [Hpp _].
  pose proof (vw_dir_free _ _ _ Hwf) as Hdl. apply not_elem_of_cons in Hdl as [Hdp Hdl].
  assert (Htab : forall i, 0 <= i < 1024 -> has (pde_at s pgdir i) PTE_P = true ->
    table_of (pde_at s pgdir i) <> p /\ table_of (pde_at s pgdir i) ∉ l).
  { intros i Hi Hh. destruct (vw_tab _ _ _ Hwf i Hi Hh) as (_ & Hnl & _).
    apply not_elem_of_cons in Hnl. exact Hnl. }
  split; [exact E|]. split; [|split; [|exact Hpp]].
  - constructor; try done; [|by exists [p]|].
    + constructor; [exact Hf|apply Hwf|exact Hdl| |apply Hwf].
      intros i Hi Hh. destruct (vw_tab _ _ _ Hwf i Hi Hh) as (H1 & _ & H2).
      split; [exact H1|]. split; [apply (Htab i Hi Hh)|exact H2].
    + intros q [H|[H|H]]; [by left|right; left; by right|by right; right].
  - intros [H|[H|(i & Hi & Hh & H)]]; [congruence|done|].
    apply (proj1 (Htab i Hi Hh)). done.
Qed.

(** The same for a whole address space: the page is foreign to it. *)
Lemma pop_space s d p l : user_wf s d (p :: l) ->
  let s1 := set_free_list s (load32 s.(ram) p) in
  kalloc_page s = (p, s1) /\ page_ok s p /\ grown s s1 d (p :: l) l /\ foreign s1 d l p.
Proof.
  intros Hc s1. destruct (pop_extends _ _ _ _ (uw_vm _ _ _ Hc)) as (Ek & Hx & Hnv & Hok).
  split; [exact Ek|]. split; [exact Hok|]. split; [exact (user_wf_extends _ _ _ _ _ Hc Hx ltac:(done))|].
  split; [apply Hok|]. split; [exact Hnv|]. intros va' Hva' Hpr E.
  apply (uw_page _ _ _ Hc va' Hva' Hpr). change (pt_entry s d va') with (pt_entry s1 d va').
  rewrite E. right. left. left.
Qed.

(** ** One more user page *)

Section Mapped.
Context (s s' : mm) (d va p e : Z) (l l' : list Z).
Context (Huw : user_wf s d l) (Hx : extends s s' d l l').
Context (He : forall va', 0 <= va' < 4294967296 ->
  pt_entry s' d va' = if decide (same_page va va') then e else pt_entry s d va').
Context (Hva : private va) (Ht : table_of e = p).
Context (HW : has e PTE_W = true) (HU : va < KERNBASE -> has e PTE_U = true).
Context (Hok : page_ok s p) (Hpv : ~ vm_page s' d l' p).
Context (Hpu : forall va', private va' -> present s d va' -> table_of (pt_entry s d va') <> p).

Lemma mapped_old va' : private va' -> ~ same_page va va' -> present s' d va' ->
  present s d va' /\ pt_entry s' d va' = pt_entry s d va'.
Proof.
  unfold present. intros Hva' Hne. rewrite He, decide_False by (exact Hne || priv). done.
Qed.

Lemma mapped_new va' : private va' -> same_page va va' -> pt_entry s' d va' = e.
Proof. intros Hva' Es. rewrite He, decide_True by (exact Es || priv). done. Qed.

Lemma mapped_wf : user_wf s' d l'.
Proof.
  assert (Hpo : forall q, page_ok s q -> page_ok s' q)
    by (intros q; unfold page_ok; rewrite (ex_memsz _ _ _ _ _ Hx), (ex_start _ _ _ _ _ Hx); done).
  constructor; [apply Hx|..].
  - intros va' Hva' Hp. destruct (decide (same_page va va')) as [Es|Es].
    + rewrite mapped_new, Ht by assumption. split; [auto|]. split; [exact Hpv|]. split; [exact HW|].
      intros Hlt. apply HU. unfold same_page, private, KERNBASE, HEAP_START, HEAP_END in *.
      rewrite !u32_small in Es by lia. modlia.
    + destruct (mapped_old va' Hva' Es Hp) as [Hp0 ->].
      destruct (uw_page _ _ _ Huw va' Hva' Hp0) as (H1 & H2 & H3). split; [auto|].
      split; [intros H; apply H2, (ex_pages _ _ _ _ _ Hx), H|exact H3].
  - intros v1 v2 H1 H2 P1 P2.
    destruct (decide (same_page va v1)) as [E1|E1], (decide (same_page va v2)) as [E2|E2].
    + intros _. unfold same_page in *. congruence.
    + destruct (mapped_old v2 H2 E2 P2) as (Q2 & ->). rewrite (mapped_new v1), Ht by assumption.
      intros H. destruct (Hpu v2 H2 Q2). done.
    + destruct (mapped_old v1 H1 E1 P1) as (Q1 & ->). rewrite (mapped_new v2), Ht by assumption.
      intros H. destruct (Hpu v1 H1 Q1). done.
    + destruct (mapped_old v1 H1 E1 P1) as (Q1 & ->), (mapped_old v2 H2 E2 P2) as (Q2 & ->).
      apply (uw_inj _ _ _ Huw); assumption.
  - intros va' Hva'. rewrite (ex_memsz _ _ _ _ _ Hx) in Hva'. pose proof (user_wf_start _ _ _ Huw) as Hms.
    pose proof (uw_gap _ _ _ Huw) as Hgap.
    assert (Hne : ~ same_page va va').
    { unfold same_page, private, KERNBASE, HEAP_START, HEAP_END in *. rewrite !u32_small by lia. modlia. }
    unfold present, translate. rewrite He, decide_False by (exact Hne || unfold KERNBASE, HEAP_START in *; lia).
    exact (uw_window _ _ _ Huw va' Hva').
  - rewrite (ex_start _ _ _ _ _ Hx), (ex_memsz _ _ _ _ _ Hx). exact (uw_gap _ _ _ Huw).
Qed.

Lemma mapped_foreign q : foreign s d l q -> q <> p -> foreign s' d l' q.
Proof.
  intros (Hq & Hqv & Hqu) Hne. split; [exact Hq|]. split; [intros H; apply Hqv, (ex_pages _ _ _ _ _ Hx), H|].
  intros va' Hva' Hp. destruct (decide (same_page va va')) as [Es|Es].
  - rewrite mapped_new, Ht by assumption. congruence.
  - destruct (mapped_old va' Hva' Es Hp) as [Hp0 ->]. apply (Hqu va' Hva' Hp0).
Qed.

End Mapped.

Section MapFresh.
Context (s : mm) (pgdir va p : Z) (l : list Z).
Context (Huw : user_wf s pgdir (p :: l)) (Hva : private va).
Context (Hh : has (pde_at s pgdir (PDX va)) PTE_P = true) (Habs : ~ present s pgdir va).

Let s1 : mm := set_free_list s (load32 s.(ram) p).
Let e : Z := page_entry (V2P p) (Z.lor PTE_W PTE_U).
Let s' : mm := set_ram s1 (store32 s1.(ram) (slot s pgdir va) e).

Lemma fresh_entry :
  0 <= e < 4294967296 /\ has e PTE_P = true /\ has e PTE_W = true /\ has e PTE_U = true /\
  table_of e = p.
Proof.
  destruct (pop_extends _ _ _ _ (uw_vm _ _ _ Huw)) as (_ & _ & _ & Hok).
  pose proof (page_ok_range _ _ Hok) as Hr. destruct Hok as [Hal _].
  destruct (page_entry_facts (V2P p) (Z.lor PTE_W PTE_U) ltac:(vm_compute; split; congruence))
    as (_ & H1 & H2 & _ & _).
  split; [exact H1|]. split; [exact H2|].
  split; [apply has_entry; reflexivity|]. split; [apply has_entry; reflexivity|].
  unfold e. rewrite table_of_entry.
  - rewrite V2P_P2V_eq. apply P2V_P2V. lia.
  - vm_compute. split; congruence.
  - rewrite V2P_P2V_eq. apply P2V_range.
  - rewrite V2P_P2V_eq. apply P2V_aligned, Hal.
Qed.

Lemma fresh_mapped :
  kalloc_page s = (p, s1) /\ extends s s' pgdir (p :: l) l /\
  forall va', pt_entry s' pgdir va' = if decide (same_page va va') then e else pt_entry s pgdir va'.
Proof.
  destruct (pop_extends _ _ _ _ (uw_vm _ _ _ Huw)) as (E & Hx & Hnv & Hok).
  destruct fresh_entry as (Hr & _).
  split; [exact E|]. split.
  - eapply extends_trans; [exact Hx|].
    apply (store_entry_extends s1 pgdir va e l); [apply Hx|exact Hh|exact Hr].
  - intros va'. apply (store_entry_entry s1 pgdir va e l); [apply Hx|exact Hh|exact Hr].
Qed.

Lemma fresh_grown : grown s s' pgdir (p :: l) l.
Proof.
  destruct fresh_mapped as (_ & Hx & He). destruct fresh_entry as (Hr & HP & HW & HU & Ht).
  destruct (pop_extends _ _ _ _ (uw_vm _ _ _ Huw)) as (_ & Hx1 & Hnv & Hok).
  assert (Hpu : forall va', private va' -> present s pgdir va' ->
    table_of (pt_entry s pgdir va') <> p).
  { intros va' Hva' Hp E. apply (uw_page _ _ _ Huw va' Hva' Hp). rewrite E. right. left. left. }
  constructor; [|exact Hx|..].
  - apply (mapped_wf s s' pgdir va p e (p :: l) l); try assumption; [intros va' _; apply He|done|].
    intros H. apply Hnv. apply (ex_pages _ _ _ _ _ (store_entry_extends s1 pgdir va e l
             (ex_wf _ _ _ _ _ Hx1) Hh Hr)). exact H.
  - intros va' Hp. rewrite He, decide_False; [done|]. intros Es. apply Habs.
    unfold present. rewrite (pt_entry_page _ _ _ _ Es). exact Hp.
  - intros va' Hva' Hp. rewrite He. destruct (decide (same_page va va')) as [Es|Es].
    + right. rewrite Ht. right. left. left.
    + left. unfold present in Hp. rewrite He, decide_False in Hp by exact Es. exact Hp.
Qed.

End MapFresh.

(** ** [region_alloc] *)

Definition table_missing (s : mm) (pgdir va : Z) : Z :=
  if has (pde_at s pgdir (PDX va)) PTE_P then 0 else 1.

(** One round: the page is there, or a page is taken for it. *)
Lemma region_step s pgdir va va_end l f :
  user_wf s pgdir l -> private va -> va < va_end ->
  table_missing s pgdir va + 1 <= Z.of_nat (length l) ->
  exists s' l', region_loop (S f) s pgdir va va_end (Z.lor PTE_W PTE_U) =
      region_loop f s' pgdir (u32 (va + PGSIZE)) va_end (Z.lor PTE_W PTE_U) /\
    grown s s' pgdir l l' /\ present s' pgdir va /\
    Z.of_nat (length l) <= table_missing s pgdir va + 1 + Z.of_nat (length l') /\
    has (pde_at s' pgdir (PDX va)) PTE_P = true /\
    forall va', ~ same_page va va' -> pt_entry s' pgdir va' = pt_entry s pgdir va'.
Proof.
  intros Huw Hva Hlt Hlen.
  destruct (walk_alloc_spec s pgdir va l (uw_vm _ _ _ Huw)) as (s1 & l1 & E & Hx & Hl & Hh & He).
  { unfold table_missing in Hlen. destruct (has _ _); [by left|right]. intros ->. simpl in Hlen. lia. }
  pose proof (user_wf_extends _ _ _ _ _ Huw Hx He) as Hg1.
  assert (Hl1 : Z.of_nat (length l) = table_missing s pgdir va + Z.of_nat (length l1))
    by (unfold table_missing; destruct (has _ _); lia).
  cbn [region_loop]. rewrite decide_True by exact Hlt. rewrite E.
  rewrite decide_False by (eapply slot_nonzero; [apply Hg1|exact Hh]).
  rewrite load_slot by exact Hh. destruct (has (pt_entry s1 pgdir va) PTE_P) eqn:Hp.
  - exists s1, l1. split; [done|]. split; [exact Hg1|]. split; [exact Hp|]. split; [lia|]. done.
  - destruct l1 as [|p l2]; [simpl in Hl1; lia|].
    assert (Habs : ~ present s1 pgdir va) by (unfold present; congruence).
    destruct (fresh_mapped s1 pgdir va p l2 (gr_wf _ _ _ _ _ Hg1) Hh) as (Ek & Hx2 & He2).
    destruct (fresh_entry s1 pgdir p l2 (gr_wf _ _ _ _ _ Hg1)) as (Hr & HP & _).
    pose proof (fresh_grown s1 pgdir va p l2 (gr_wf _ _ _ _ _ Hg1) Hva Hh Habs) as Hg2.
    rewrite Ek. rewrite decide_False by
      (intros ->; destruct (vw_free _ _ _ (uw_vm _ _ _ (gr_wf _ _ _ _ _ Hg1))) as [(_ & H0 & _) _ _ _]; done).
    eexists _, l2. split; [reflexivity|]. split; [exact (grown_trans _ _ _ _ _ _ _ Hg1 Hg2)|].
    split; [unfold present; rewrite He2, decide_True by done; exact HP|].
    split; [simpl in Hl1; lia|].
    destruct (pop_extends _ _ _ _ (uw_vm _ _ _ (gr_wf _ _ _ _ _ Hg1))) as (_ & Hx1 & _).
    split.
    + rewrite (store_entry_pde (set_free_list s1 (load32 (ram s1) p)) pgdir va _ l2);
        [exact Hh|apply Hx1|exact Hh|exact Hr|apply PDX_range].
    + intros va' Hne. rewrite He2, decide_False by exact Hne. apply He.
Qed.

Lemma region_loop_ok pgdir n : forall s va l,
  user_wf s pgdir l -> va mod 4096 = 0 -> 0 <= va -> va + 4096 * Z.of_nat n <= KERNBASE ->
  (n = 0%nat \/ Z.of_nat n + tables_needed s pgdir va (va + 4096 * Z.of_nat n - 1) <= Z.of_nat (length l)) ->
  exists s' l', region_loop n s pgdir va (va + 4096 * Z.of_nat n) (Z.lor PTE_W PTE_U) = Ret s' /\
    grown s s' pgdir l l' /\ priv_at s' pgdir va (4096 * Z.of_nat n) /\
    (match n with
     | O => l' = l
     | S _ => Z.of_nat (length l) <=
         Z.of_nat n + tables_needed s pgdir va (va + 4096 * Z.of_nat n - 1) + Z.of_nat (length l')
     end) /\
    forall va', 0 <= va' < 4294967296 -> ~ (va <= va' < va + 4096 * Z.of_nat n) ->
      pt_entry s' pgdir va' = pt_entry s pgdir va'.
Proof.
  induction n as [|n IH]; intros s va l Huw Hal H0 Hlim Hlen.
  - exists s, l. cbn [region_loop]. rewrite decide_False by lia.
    split; [done|]. split; [by apply grown_refl|]. split; [|done].
    split; [lia|]. split; [unfold KERNBASE in *; lia|]. intros va' Hva'. lia.
  - destruct Hlen as [|Hlen]; [done|]. unfold KERNBASE in *.
    set (e := va + 4096 * Z.of_nat (S n) - 1) in *.
    assert (Hmono : PDX va <= PDX e) by (apply PDX_mono; lia).
    destruct (region_step s pgdir va (va + 4096 * Z.of_nat (S n)) l n Huw)
      as (s1 & l1 & E & Hg1 & Hp1 & Hl1 & Hh1 & He1).
    { priv. } { lia. }
    { unfold table_missing, tables_needed in *. destruct (has _ _); lia. }
    assert (Hneed : n = 0%nat \/
      tables_needed s1 pgdir (va + 4096) e + table_missing s pgdir va <= tables_needed s pgdir va e).
    { destruct n; [by left|right]. apply tables_needed_next; [lia|lia|exact Hh1]. }
    assert (H1 : table_missing s pgdir va <= tables_needed s pgdir va e)
      by (unfold table_missing, tables_needed; destruct (has _ _); lia).
    rewrite E. unfold PGSIZE. rewrite u32_small by lia.
    replace (va + 4096 * Z.of_nat (S n)) with (va + 4096 + 4096 * Z.of_nat n) by lia.
    destruct (IH s1 (va + 4096) l1 (gr_wf _ _ _ _ _ Hg1)) as (s2 & l2 & E2 & Hg2 & Hat & Hl2 & He2).
    { modlia. } { lia. } { lia. }
    { replace (va + 4096 + 4096 * Z.of_nat n - 1) with e by lia.
      destruct Hneed as [|Hneed]; [by left|right]. lia. }
    exists s2, l2. split; [exact E2|]. split; [exact (grown_trans _ _ _ _ _ _ _ Hg1 Hg2)|].
    split; [|split].
    + destruct Hat as (_ & _ & Hat). split; [lia|]. split; [lia|].
      intros va' Hva'. split; [priv|]. destruct (decide (va' < va + 4096)) as [Hd|Hd]; [|apply Hat; lia].
      apply (grown_user _ _ _ _ _ va' (gr_wf _ _ _ _ _ Hg1) Hg2); [priv|].
      unfold present. rewrite <- (pt_entry_page s1 pgdir va va'); [exact Hp1|].
      apply aligned_same_page; lia.
    + fold e. destruct n as [|n]; [subst l2; lia|].
      destruct Hneed as [|Hneed]; [done|].
      replace (va + 4096 + 4096 * Z.of_nat (S n) - 1) with e in Hl2 by lia. lia.
    + intros va' Hva' Hout. rewrite He2, He1; [done| |exact Hva'|lia].
      rewrite aligned_same_page by lia. lia.
Qed.

Lemma region_alloc_ok s pgdir va len l :
  user_wf s pgdir l -> 0 <= va -> 0 <= len -> va + len <= KERNBASE ->
  region_cost va len <= Z.of_nat (length l) ->
  exists s' l', region_alloc s pgdir va len (Z.lor PTE_W PTE_U) = Ret s' /\
    grown s s' pgdir l l' /\ priv_at s' pgdir va len /\
    Z.of_nat (length l) <= region_cost va len + Z.of_nat (length l') /\
    forall va', 0 <= va' < 4294967296 -> ~ (va - va mod 4096 <= va' < va + len + (- (va + len)) mod 4096) ->
      pt_entry s' pgdir va' = pt_entry s pgdir va'.
Proof.
  intros Huw H0 H1 Hlim Hlen. unfold region_alloc. unfold KERNBASE, region_cost in *.
  rewrite PGROUNDDOWN_sub, PGROUNDUP_sub, !u32_small by lia. unfold PGSIZE.
  set (a := va - va mod 4096). set (b := va + len + 4095 - (va + len + 4095) mod 4096).
  set (n := Z.to_nat ((b - a) / 4096)).
  assert (Hn : Z.of_nat n = (va + len + 4095) / 4096 - va / 4096) by (unfold n, a, b; modlia).
  assert (Hb : b = a + 4096 * Z.of_nat n) by (unfold a, b; modlia).
  assert (Hneed : n = 0%nat \/ tables_needed s pgdir a (b - 1) <=
            (va + len) / 4194304 - va / 4194304 + 1).
  { destruct n as [|k] eqn:En; [by left|right].
    eapply Z.le_trans; [apply tables_needed_le|].
    rewrite !PDX_div, !u32_small by (unfold a, b in *; modlia). unfold a, b in *. modlia. }
  destruct (region_loop_ok pgdir n s a l Huw) as (s' & l' & E & Hg & Hat & Hl & He).
  { unfold a. modlia. } { unfold a. modlia. } { unfold KERNBASE, a, b in *. modlia. }
  { rewrite <- Hb. destruct Hneed as [|Hneed]; [by left|right]. lia. }
  rewrite <- Hb in E. exists s', l'. split; [exact E|]. split; [exact Hg|]. split; [|split].
  - destruct Hat as (_ & _ & Hat). split; [lia|]. split; [lia|].
    intros va' Hva'. apply Hat. unfold a, b in *. modlia.
  - rewrite <- Hb in Hl. destruct n as [|k] eqn:En; [subst l'; modlia|].
    destruct Hneed as [|Hneed]; [done|]. lia.
  - intros va' Hva' Hout. apply He; [exact Hva'|]. unfold a, b in *. modlia.
Qed.

(** ** Loading into an address space *)

(** What loading steps that write only user bytes in [R] keep: pages stay
    mapped, other user bytes, the kernel's memory and foreign pages keep their
    contents. *)
Record progress (R : Z -> Prop) (s s' : mm) (pgdir : Z) (l l' : list Z) : Prop := {
  pr_wf : user_wf s' pgdir l';
  pr_user : forall va, private va -> present s pgdir va ->
    present s' pgdir va /\ (~ R va -> vbyte s' pgdir va = vbyte s pgdir va);
  pr_low : forall x, KERNBASE <= x < s.(mem_start) -> s'.(ram) x = s.(ram) x;
  pr_mm : s'.(memsz) = s.(memsz) /\ s'.(mem_start) = s.(mem_start);
  pr_foreign : forall q, foreign s pgdir l q ->
    foreign s' pgdir l' q /\ forall x, q <= x < q + 4096 -> s'.(ram) x = s.(ram) x
}.

Lemma progress_refl R s pgdir l : user_wf s pgdir l -> progress R s s pgdir l l.
Proof. intros H. constructor; done. Qed.

Lemma progress_trans R s1 s2 s3 pgdir l1 l2 l3 :
  progress R s1 s2 pgdir l1 l2 -> progress R s2 s3 pgdir l2 l3 -> progress R s1 s3 pgdir l1 l3.
Proof.
  intros [Hw1 Hu1 Hl1 [Hm1 Hs1] Hf1] [Hw2 Hu2 Hl2 [Hm2 Hs2] Hf2]. constructor; [done|..].
  - intros va Hva Hp. destruct (Hu1 va Hva Hp) as [Hp1 Hb1]. destruct (Hu2 va Hva Hp1) as [Hp2 Hb2].
    split; [done|]. intros Hr. rewrite Hb2, Hb1; done.
  - intros x Hx. rewrite Hl2, Hl1; [done|exact Hx|]. rewrite Hs1. exact Hx.
  - split; congruence.
  - intros q Hq. destruct (Hf1 q Hq) as [Hq1 Hb1]. destruct (Hf2 q Hq1) as [Hq2 Hb2].
    split; [done|]. intros x Hx. rewrite Hb2, Hb1; done.
Qed.

Lemma progress_weaken (R R' : Z -> Prop) s s' pgdir l l' :
  (forall va, R va -> R' va) -> progress R s s' pgdir l l' -> progress R' s s' pgdir l l'.
Proof.
  intros H [Hw Hu Hl Hm Hf]. constructor; try done. intros va Hva Hp.
  destruct (Hu va Hva Hp) as [Hp1 Hb1]. split; [done|]. auto.
Qed.

Lemma vm_page_ok s pgdir l q : vm_wf s pgdir l -> vm_page s pgdir l q -> page_ok s q.
Proof.
  intros Hwf [->|[H|(i & Hi & Hh & ->)]]; [apply Hwf| |apply (vw_tab _ _ _ Hwf i Hi Hh)].
  exact (proj1 (Forall_forall _ _) (fw_pages _ _ (vw_free _ _ _ Hwf)) q H).
Qed.

(** The kernel's own pages lie below everything the allocator hands out. *)
Lemma kernel_foreign s pgdir l x : user_wf s pgdir l -> x < s.(mem_start) ->
  foreign s pgdir l (x - x mod 4096).
Proof.
  intros Huw Hx. assert (Hno : ~ page_ok s (x - x mod 4096)) by (intros (_ & [H _] & _); modlia).
  split; [modlia|]. split.
  - intros H. exact (Hno (vm_page_ok _ _ _ _ (uw_vm _ _ _ Huw) H)).
  - intros va Hva Hp E. apply Hno. rewrite <- E. apply (uw_page _ _ _ Huw va Hva Hp).
Qed.

Lemma grown_progress R s s' pgdir l l' :
  user_wf s pgdir l -> grown s s' pgdir l l' -> progress R s s' pgdir l l'.
Proof.
  intros Huw Hg. constructor; [apply Hg|..].
  - intros va Hva Hp. destruct (grown_user _ _ _ _ _ va Huw Hg Hva Hp). done.
  - intros x Hx. apply (grown_foreign _ _ _ _ _ _ Hg (kernel_foreign _ _ _ x Huw ltac:(lia))). modlia.
  - split; [apply (ex_memsz _ _ _ _ _ (gr_ext _ _ _ _ _ Hg))|apply (ex_start _ _ _ _ _ (gr_ext _ _ _ _ _ Hg))].
  - intros q Hq. exact (grown_foreign _ _ _ _ _ _ Hg Hq).
Qed.

Lemma stored_progress s s' pgdir l dst n :
  user_wf s pgdir l -> priv_at s pgdir dst n -> stored s s' pgdir l dst n ->
  progress (fun va => dst <= va < dst + n) s s' pgdir l l.
Proof.
  intros Huw Hat Hst. constructor; [apply Hst|..].
  - intros va Hva Hp. split; [by apply (present_stored _ _ _ _ _ _ _ Hst)|].
    intros Hout. eapply stored_user; eassumption.
  - intros x Hx. eapply stored_low; [eassumption..|]. lia.
  - apply Hst.
  - intros q Hq. split; [|intros x Hx; eapply stored_foreign; eassumption].
    destruct Hq as (H1 & H2 & H3). split; [exact H1|]. split.
    + intros H. apply H2, (sd_pages _ _ _ _ _ _ Hst), H.
    + intros va Hva. rewrite (present_stored _ _ _ _ _ _ _ Hst), (sd_entry _ _ _ _ _ _ Hst). auto.
Qed.

(** A write confined to a page that is foreign to the address space. *)
Lemma foreign_write s pgdir l q m' :
  user_wf s pgdir l -> foreign s pgdir l q ->
  agree_outside q (q + 4096) s.(ram) m' -> bytes_ok m' ->
  let s' := set_ram s m' in
  user_wf s' pgdir l /\ (forall va, pt_entry s' pgdir va = pt_entry s pgdir va) /\
  (forall q', foreign s pgdir l q' -> foreign s' pgdir l q') /\
  (forall va, private va -> present s pgdir va -> vbyte s' pgdir va = vbyte s pgdir va).
Proof.
  intros Huw (Hq & Hnv & Hne) Hag Hok s'.
  destruct (vm_wf_agree s pgdir l m' q (uw_vm _ _ _ Huw) Hq Hnv Hag Hok) as (Hw & Hpde & He).
  assert (Hvm : forall p, vm_page s' pgdir l p -> vm_page s pgdir l p).
  { intros p [H|[H|(i & Hi & Hh & H)]]; [by left|by right; left|]. unfold s' in Hh, H.
    rewrite Hpde in Hh, H by exact Hi. right. right. eauto. }
  split; [|split; [exact He|split]].
  - constructor; [exact Hw|..].
    + intros va Hva Hp. unfold present, s' in Hp. unfold s'. rewrite He in *.
      destruct (uw_page _ _ _ Huw va Hva Hp) as (H1 & H2 & H3).
      split; [exact H1|]. split; [intros H; apply H2, Hvm, H|exact H3].
    + intros va1 va2 H1 H2. unfold present, s'. rewrite !He. apply (uw_inj _ _ _ Huw); assumption.
    + intros va Hva. unfold present, translate, s'. rewrite He. exact (uw_window _ _ _ Huw va Hva).
    + exact (uw_gap _ _ _ Huw).
  - intros p (H1 & H2 & H3). split; [exact H1|]. split; [auto|].
    intros va Hva. unfold present, s'. rewrite He. auto.
  - intros va Hva Hp. unfold vbyte, translate, s'. rewrite He. simpl. apply Hag.
    pose proof (translate_in s pgdir va). unfold translate in *.
    pose proof (table_of_aligned (pt_entry s pgdir va)). pose proof (Hne va Hva Hp). modlia.
Qed.

(** The directory [mapkvm] builds has no private pages, as long as physical
    memory does not reach up to the heap. *)
Lemma kvm_user_wf data s d l s' l' :
  kvm_built data s d l s' l' -> page_ok s d -> 0 <= s.(memsz) * 1024 <= HEAP_START - KERNBASE ->
  user_wf s' d l' /\ (forall va, private va -> ~ present s' d va) /\
  (forall q, q mod 4096 = 0 -> q <> d -> q ∉ l -> foreign s' d l' q).
Proof.
  intros Hk (_ & Hd & _) Hm. unfold V2P, KERNBASE, HEAP_START in Hd, Hm.
  rewrite (u32_small (memsz s * 1024)) in Hd by lia.
  assert (Habs : forall va, private va -> ~ present s' d va).
  { intros va Hva. unfold private, KERNBASE, HEAP_START, HEAP_END, present in *.
    rewrite (kb_entry _ _ _ _ _ _ Hk), decide_True by (unfold KERNBASE; modlia). discriminate. }
  split; [|split; [exact Habs|]].
  - constructor; [apply Hk|..].
    + intros va Hva Hp. destruct (Habs va Hva Hp).
    + intros va va' Hva _ Hp. destruct (Habs va Hva Hp).
    + intros va Hva. rewrite (kb_memsz _ _ _ _ _ _ Hk) in Hva. unfold KERNBASE in Hva.
      assert (Hlim : va - va mod 4096 < 2147483648 + s.(memsz) * 1024 /\ va < 4294967296) by modlia.
      destruct (kvm_translate _ _ _ _ _ _ va Hk) as [Ht _]; unfold KERNBASE; try lia.
      split; [|exact Ht]. unfold present.
      rewrite (kb_entry _ _ _ _ _ _ Hk), decide_False by (unfold KERNBASE; lia).
      destruct (page_entry_facts (V2P (va - va mod 4096)) (kvm_perm data va)) as (_ & _ & H & _);
        [unfold kvm_perm, PTE_W; case_decide; lia|exact H].
    + rewrite (kb_start _ _ _ _ _ _ Hk), (kb_memsz _ _ _ _ _ _ Hk). unfold HEAP_START, KERNBASE, u32 in *. modlia.
  - intros q Hq Hqd Hql. split; [exact Hq|]. split.
    + intros H. destruct (kb_pages _ _ _ _ _ _ Hk q H); done.
    + intros va Hva Hp. destruct (Habs va Hva Hp).
Qed.

(** ** Mapping a frame of one's own *)

Section MapOne.
Context (s : mm) (d va p perm : Z) (l : list Z).
Context (Huw : user_wf s d l) (Hfor : foreign s d l p) (Hok : page_ok s p).
Context (Hva : private va) (Hal : va mod 4096 = 0) (Habs : ~ present s d va).
Context (Hperm : 0 <= perm < 4096) (HW : has perm PTE_W = true) (HU : va < KERNBASE -> has perm PTE_U = true).
Context (Hl : table_missing s d va <= Z.of_nat (length l)).

Lemma map_one :
  exists s' l', mappages s d va (V2P p) PGSIZE perm = Ret (0, s') /\ extends s s' d l l' /\
    user_wf s' d l' /\
    (forall va', 0 <= va' < 4294967296 -> pt_entry s' d va' =
       if decide (same_page va va') then page_entry (V2P p) perm else pt_entry s d va') /\
    table_of (page_entry (V2P p) perm) = p /\
    (forall q, foreign s d l q -> q <> p -> foreign s' d l' q) /\
    Z.of_nat (length l) <= table_missing s d va + Z.of_nat (length l').
Proof.
  pose proof (page_ok_range _ _ Hok) as Hpr. destruct Hfor as (Hpal & Hpv & Hpu).
  assert (Hva32 : 0 <= va <= 4290764800) by (unfold private, KERNBASE, HEAP_START, HEAP_END in Hva; modlia).
  assert (Hdown : PGROUNDDOWN va = va) by (rewrite PGROUNDDOWN_sub, u32_small by lia; lia).
  assert (Hdown2 : PGROUNDDOWN (va + 4096 - 1) = va) by (rewrite PGROUNDDOWN_sub, u32_small by lia; modlia).
  assert (Htn : tables_needed s d va (va + 4096 - 1) = table_missing s d va).
  { unfold tables_needed, table_missing. rewrite <- (PDX_down (va + 4096 - 1)), Hdown2. lia. }
  destruct (mappages_ok s d l va (V2P p) PGSIZE perm (uw_vm _ _ _ Huw)) as (s' & l' & E & Hx & Hl' & He);
    unfold PGSIZE in *; try lia.
  { intros va' Hva'. rewrite Hdown in Hva'. rewrite <- (pt_entry_page s d va va').
    - apply not_true_is_false. exact Habs.
    - apply aligned_same_page; lia. }
  rewrite Hdown, Hdown2 in He. rewrite Htn in Hl'.
  assert (He' : forall va', 0 <= va' < 4294967296 -> pt_entry s' d va' =
       if decide (same_page va va') then page_entry (V2P p) perm else pt_entry s d va').
  { intros va' Hva'. rewrite He by exact Hva'.
    rewrite (decide_ext _ (same_page va va')) by (rewrite aligned_same_page by lia; lia).
    destruct (decide (same_page va va')) as [Es|Es]; [|done].
    apply aligned_same_page in Es; [|lia..].
    replace ((va' - va) / 4096) with 0 by modlia. f_equal. lia. }
  assert (Ht : table_of (page_entry (V2P p) perm) = p).
  { rewrite table_of_entry; [|exact Hperm|rewrite V2P_P2V_eq; apply P2V_range|rewrite V2P_P2V_eq; apply P2V_aligned, Hpal].
    rewrite V2P_P2V_eq. apply P2V_P2V. lia. }
  exists s', l'. split; [exact E|]. split; [exact Hx|].
  assert (Hpv' : ~ vm_page s' d l' p) by (intros H; apply Hpv, (ex_pages _ _ _ _ _ Hx), H).
  assert (HWe : has (page_entry (V2P p) perm) PTE_W = true) by (apply has_entry; exact HW).
  assert (HUe : va < KERNBASE -> has (page_entry (V2P p) perm) PTE_U = true) by (intros H; apply has_entry, HU, H).
  split; [apply (mapped_wf s s' d va p (page_entry (V2P p) perm) l l'); assumption|].
  split; [exact He'|]. split; [exact Ht|]. split; [|exact Hl'].
  apply (mapped_foreign s s' d va p (page_entry (V2P p) perm) l l'); assumption.
Qed.

End MapOne.
