(* ===== verification/Loader.v ===== *)
(** * Loading a program into a new task

    [load_icode] and [task_create] of kern/task.c.  The ELF file lies in the
    kernel's own memory; the loader runs with the directory of the new task
    loaded in CR3, so the headers it reads, the [memmove] and the [memset] all
    go through that directory (Vmem.v).  The trap frame is on the task's kernel
    stack and is written through the window, as in Task.v. *)

From stdpp Require Import base list strings.
From Stdlib Require Import ZArith Lia.
From S2P Require Import Prelude Mmu CString Kalloc PageTable VmSpec Ring Task Heap Vmem Boot.

Open Scope Z_scope.

Definition ELF_PROG_LOAD : Z := 1.

Definition USR_CODE : Z := 24.

Definition USR_DATA : Z := 32.

Definition SA_RPL3 : Z := 3.

Definition FL_IF : Z := 512.

(** Offsets in [struct stack_frame]. *)
Definition TF_GS : Z := 0.

Definition TF_FS : Z := 4.

Definition TF_ES : Z := 8.

Definition TF_DS : Z := 12.

Definition TF_EIP : Z := 60.

Definition TF_CS : Z := 64.

Definition TF_EFLAGS : Z := 68.

Definition TF_ESP : Z := 72.

Definition TF_SS : Z := 76.

(** [n] program headers from [ph]. *)
Fixpoint icode_loop (n : nat) (s : mm) (pgdir binary ph range : Z) : outcome (mm * Z) :=
  match n with
  | O => Ret (s, range)
  | S k =>
      ph_type ← vload32 s pgdir ph;
      if decide (ph_type <> ELF_PROG_LOAD) then icode_loop k s pgdir binary (ph + PH_SIZE) range
      else
        ph_va ← vload32 s pgdir (ph + 8);
        ph_memsize ← vload32 s pgdir (ph + 20);
        s1 ← region_alloc s pgdir ph_va ph_memsize (Z.lor PTE_W PTE_U);
        ph_offset ← vload32 s1 pgdir (ph + 4);
        ph_filesize ← vload32 s1 pgdir (ph + 16);
        s2 ← vmemmove s1 pgdir ph_va (u32 (binary + ph_offset)) ph_filesize;
        s3 ← vmemset s2 pgdir (u32 (ph_va + ph_filesize)) 0 (u32 (ph_memsize - ph_filesize));
        let offset := u32 (ph_va + ph_memsize) in
        icode_loop k s3 pgdir binary (ph + PH_SIZE)
          (if decide (range >= offset) then range else offset)
  end.

(** Returns the end of the program's memory. *)
Definition load_icode (s : mm) (pgdir tf binary : Z) : outcome (mm * Z) :=
  magic ← vload32 s pgdir binary;
  if decide (magic <> ELF_MAGIC) then Stop (Panic "load_icode failed: not a elf file.")
  else
    phoff ← vload32 s pgdir (binary + 28);
    phnum ← vload16 s pgdir (binary + 44);
    '(s1, range) ← icode_loop (Z.to_nat phnum) s pgdir binary (u32 (binary + phoff)) 0;
    entry ← vload32 s1 pgdir (binary + 24);
    let s2 := set_ram s1 (store32 s1.(ram) (tf + TF_EIP) entry) in
    s3 ← region_alloc s2 pgdir (USTACKTOP - PGSIZE) PGSIZE (Z.lor PTE_W PTE_U);
    Ret (s3, range).

(** The assignments of [task_create] to the trap frame. *)
Definition user_frame (m : memory) (tf : Z) : memory :=
  let m := memset m tf 0 TF_SIZE in
  let m := store32 m (tf + TF_CS) (Z.lor USR_CODE SA_RPL3) in
  let m := store32 m (tf + TF_DS) (Z.lor USR_DATA SA_RPL3) in
  let m := store32 m (tf + TF_ES) (Z.lor USR_DATA SA_RPL3) in
  let m := store32 m (tf + TF_FS) (Z.lor USR_DATA SA_RPL3) in
  let m := store32 m (tf + TF_GS) (Z.lor USR_DATA SA_RPL3) in
  let m := store32 m (tf + TF_SS) (Z.lor USR_DATA SA_RPL3) in
  let m := store32 m (tf + TF_EFLAGS) FL_IF in
  store32 m (tf + TF_ESP) USTACKTOP.

Section Create.

Variables trap_ret do_nothing kdata : Z.

(** When no directory can be made the stack is given back but the slot keeps
    its state and its stack pointer. *)
Definition task_create (s : kern) (binary : Z) : outcome (kern * option nat) :=
  let '(s1, tp) := task_alloc trap_ret do_nothing s in
  match tp with
  | None => Ret (s1, None)
  | Some i =>
      '(dir, m1) ← mapkvm kdata (kmm s1);
      let s2 := set_task (set_kmm s1 m1) i (with_pgdir (tasks s1 i) dir) in
      if decide (dir = 0) then
        m ← kfree_page (kmm s2) (t_kstack (tasks s2 i));
        Ret (set_kmm s2 m, None)
      else
        let tf := t_tf (tasks s2 i) in
        let m2 := set_ram m1 (user_frame m1.(ram) tf) in
        '(m3, range) ← load_icode m2 dir tf binary;
        let t := with_state (with_sz (tasks s2 i) range) TS_RUNNABLE in
        Ret (task_link (set_task (set_kmm s2 m3) i t) i, Some i)
  end.

End Create.

(** ** ELF files in memory *)

Record pseg : Type := mkPseg {
  p_type : Z;
  p_off : Z;
  p_va : Z;
  p_filesz : Z;
  p_memsz : Z
}.

(** The program headers [ps] stand at [ph]. *)
Fixpoint pheaders (m : memory) (ph : Z) (ps : list pseg) : Prop :=
  match ps with
  | [] => True
  | p :: ps' =>
      load32 m ph = p_type p /\ load32 m (ph + 4) = p_off p /\ load32 m (ph + 8) = p_va p /\
      load32 m (ph + 16) = p_filesz p /\ load32 m (ph + 20) = p_memsz p /\
      pheaders m (ph + 32) ps'
  end.

(** A loadable segment stays in a file of [size] bytes and, in memory, below
    the page of the stack. *)
Definition pseg_ok (size : Z) (p : pseg) : Prop :=
  p_type p = ELF_PROG_LOAD ->
  0 <= p_off p /\ 0 <= p_filesz p <= p_memsz p /\ p_off p + p_filesz p <= size /\
  0 <= p_va p /\ p_va p + p_memsz p <= USTACKTOP - PGSIZE.

Definition pbytes (p : pseg) (va : Z) : Prop :=
  p_type p = ELF_PROG_LOAD /\ p_va p <= va < p_va p + p_memsz p.

(** No byte of memory belongs to two segments. *)
Fixpoint psegs_apart (ps : list pseg) : Prop :=
  match ps with
  | [] => True
  | p :: ps' => Forall (fun q => forall va, pbytes p va -> ~ pbytes q va) ps' /\ psegs_apart ps'
  end.

Definition pcost (p : pseg) : Z :=
  if decide (p_type p = ELF_PROG_LOAD) then region_cost (p_va p) (p_memsz p) else 0.

Definition prange (r : Z) (p : pseg) : Z :=
  if decide (p_type p = ELF_PROG_LOAD) then Z.max r (p_va p + p_memsz p) else r.

(** An ELF file of [size] bytes at [binary]. *)
Record elf_at (m : memory) (binary size phoff entry : Z) (ps : list pseg) : Prop := {
  el_magic : load32 m binary = ELF_MAGIC;
  el_entry : load32 m (binary + 24) = entry;
  el_phoff : load32 m (binary + 28) = phoff;
  el_phnum : load16 m (binary + 44) = Z.of_nat (length ps);
  el_range : 52 <= size /\ 0 <= phoff /\ phoff + 32 * Z.of_nat (length ps) <= size;
  el_headers : pheaders m (binary + phoff) ps;
  el_segs : Forall (pseg_ok size) ps;
  el_apart : psegs_apart ps
}.

(** The segment is found at its place in the address space: the bytes of the
    file, then zeros. *)
Definition ploaded (s : mm) (pgdir : Z) (img : memory) (binary : Z) (p : pseg) : Prop :=
  p_type p = ELF_PROG_LOAD ->
  forall i, 0 <= i < p_memsz p ->
    present s pgdir (p_va p + i) /\
    vbyte s pgdir (p_va p + i) =
      if decide (i < p_filesz p) then img (binary + p_off p + i) else 0.

(** A small program in the kernel's memory, for the examples: one segment of
    five bytes, ten in memory, at address 4096. *)
Definition demo_binary : Z := 2148532224.

Definition demo_elf : list Z :=
  [127; 69; 76; 70; 0; 0; 0; 0; 0; 0; 0; 0; 0; 0; 0; 0; 0; 0; 0; 0; 0; 0; 0; 0;
   0; 16; 0; 0;  52; 0; 0; 0;  0; 0; 0; 0; 0; 0; 0; 0; 0; 0; 0; 0;  1; 0;  0; 0; 0; 0; 0; 0;
   1; 0; 0; 0;  84; 0; 0; 0;  0; 16; 0; 0;  0; 0; 0; 0;  5; 0; 0; 0;  10; 0; 0; 0;
   0; 0; 0; 0;  0; 0; 0; 0;
   233; 1; 2; 3; 4].

Definition demo_seg : pseg := mkPseg 1 84 4096 5 10.

Definition demo_task : task := mkTask 0 0 0 0 0 TS_UNUSED 0 0 0 0 0 0 0 None None.

Definition with_demo (s : mm) : mm := set_ram s (write_bytes s.(ram) demo_binary demo_elf).

Definition demo_mm : mm := with_demo (sample_mm 20).

Definition demo_kern : kern := mkKern (fun _ => demo_task) None None None 1 demo_mm 0.

(** ** Reading the file *)

Lemma vload8_kernel s pgdir l a : user_wf s pgdir l -> KERNBASE <= a < s.(mem_start) ->
  vload8 s pgdir a = Ret (s.(ram) a).
Proof.
  intros Huw Ha. destruct (uw_low _ _ _ a Huw Ha) as [Hp Ht].
  rewrite vload8_ok by exact Hp. unfold vbyte. rewrite Ht. done.
Qed.

Lemma vload32_kernel s pgdir l a : user_wf s pgdir l -> KERNBASE <= a -> a + 4 <= s.(mem_start) ->
  vload32 s pgdir a = Ret (load32 s.(ram) a).
Proof.
  intros Huw H0 H1. unfold vload32.
  rewrite !(vload8_kernel s pgdir l) by (assumption || lia). reflexivity.
Qed.

Lemma vload16_kernel s pgdir l a : user_wf s pgdir l -> KERNBASE <= a -> a + 2 <= s.(mem_start) ->
  vload16 s pgdir a = Ret (load16 s.(ram) a).
Proof.
  intros Huw H0 H1. unfold vload16.
  rewrite !(vload8_kernel s pgdir l) by (assumption || lia). reflexivity.
Qed.

Section Load.
Context (pgdir binary size : Z) (img : memory).

(** The kernel's memory holds [img]. *)
Definition holds (s : mm) : Prop := forall x, KERNBASE <= x < s.(mem_start) -> s.(ram) x = img x.

Lemma holds_progress R s s' l l' : progress R s s' pgdir l l' -> holds s -> holds s'.
Proof.
  intros H Hh x Hx. rewrite (proj2 (pr_mm _ _ _ _ _ _ H)) in Hx.
  rewrite (pr_low _ _ _ _ _ _ H x Hx). apply Hh, Hx.
Qed.

Lemma read32 s l a : user_wf s pgdir l -> holds s -> KERNBASE <= a -> a + 4 <= s.(mem_start) ->
  vload32 s pgdir a = Ret (load32 img a).
Proof.
  intros Huw Hh H0 H1. rewrite (vload32_kernel s pgdir l) by assumption. f_equal.
  apply load32_ext. intros x Hx. apply Hh. lia.
Qed.

(** ** One segment *)

Lemma segment_ok s l p :
  user_wf s pgdir l -> holds s -> KERNBASE <= binary -> binary + size <= s.(mem_start) ->
  p_type p = ELF_PROG_LOAD -> pseg_ok size p -> pcost p <= Z.of_nat (length l) ->
  exists s1 s2 s3 l',
    region_alloc s pgdir (p_va p) (p_memsz p) (Z.lor PTE_W PTE_U) = Ret s1 /\
    user_wf s1 pgdir l' /\ holds s1 /\ s1.(mem_start) = s.(mem_start) /\
    vmemmove s1 pgdir (p_va p) (binary + p_off p) (p_filesz p) = Ret s2 /\
    vmemset s2 pgdir (p_va p + p_filesz p) 0 (p_memsz p - p_filesz p) = Ret s3 /\
    progress (pbytes p) s s3 pgdir l l' /\ ploaded s3 pgdir img binary p /\
    Z.of_nat (length l) <= pcost p + Z.of_nat (length l').
Proof.
  intros Huw Hh Hb Hsz Ht Hok Hcost. destruct (Hok Ht) as (Ho & Hf & Hfs & Hva & Hend).
  unfold pcost in *. rewrite decide_True in Hcost |- * by exact Ht.
  unfold USTACKTOP, KERNBASE, PGSIZE in *.
  destruct (region_alloc_ok s pgdir (p_va p) (p_memsz p) l) as (s1 & l1 & E1 & Hg & Hat & Hl & _);
    try (assumption || lia). { unfold KERNBASE. lia. }
  pose proof (grown_progress (pbytes p) _ _ _ _ _ Huw Hg) as P1.
  pose proof (proj2 (pr_mm _ _ _ _ _ _ P1)) as Hms.
  assert (Hat1 : priv_at s1 pgdir (p_va p) (p_filesz p)).
  { destruct Hat as (A1 & A2 & A3). split; [lia|]. split; [lia|]. intros va Hv. apply A3. lia. }
  destruct (vmemmove_ok s1 pgdir l1 (p_va p) (binary + p_off p) (p_filesz p)) as (s2 & E2 & Hst2 & Hb2);
    try (apply Hg || assumption || lia). { unfold KERNBASE. lia. }
  assert (Hat2 : priv_at s2 pgdir (p_va p + p_filesz p) (p_memsz p - p_filesz p)).
  { apply (priv_at_stored _ _ _ _ _ _ _ _ Hst2). destruct Hat as (A1 & A2 & A3).
    split; [lia|]. split; [lia|]. intros va Hv. apply A3. lia. }
  destruct (vmemset_ok s2 pgdir l1 (p_va p + p_filesz p) 0 (p_memsz p - p_filesz p)) as (s3 & E3 & Hst3 & Hb3);
    try (apply Hst2 || assumption || lia).
  pose proof (stored_progress _ _ _ _ _ _ (gr_wf _ _ _ _ _ Hg) Hat1 Hst2) as P2.
  pose proof (stored_progress _ _ _ _ _ _ (sd_wf _ _ _ _ _ _ Hst2) Hat2 Hst3) as P3.
  exists s1, s2, s3, l1. split; [exact E1|]. split; [apply Hg|].
  split; [exact (holds_progress _ _ _ _ _ P1 Hh)|]. split; [exact Hms|].
  split; [exact E2|]. split; [exact E3|]. split; [|split; [|exact Hl]].
  - apply (progress_trans _ _ s1 _ _ _ l1); [exact P1|].
    apply (progress_trans _ _ s2 _ _ _ l1); eapply progress_weaken; try eassumption;
      intros va Hv; simpl in Hv; (split; [exact Ht|lia]).
  - intros _ i Hi. destruct Hat as (A1 & A2 & A3).
    assert (Hp3 : present s3 pgdir (p_va p + i)).
    { apply (present_stored _ _ _ _ _ _ _ Hst3), (present_stored _ _ _ _ _ _ _ Hst2), A3. lia. }
    split; [exact Hp3|]. destruct (decide (i < p_filesz p)) as [Hd|Hd].
    + rewrite (proj2 (pr_user _ _ _ _ _ _ P3 (p_va p + i) ltac:(priv)
        (proj1 (present_stored _ _ _ _ _ _ _ Hst3) Hp3)) ltac:(simpl; lia)).
      rewrite Hb2 by lia. apply (holds_progress _ _ _ _ _ P1 Hh). unfold KERNBASE. lia.
    + replace (p_va p + i) with (p_va p + p_filesz p + (i - p_filesz p)) by lia.
      rewrite Hb3 by lia. reflexivity.
Qed.

(** ** All segments *)

Definition cost (ps : list pseg) : Z := fold_right (fun p c => pcost p + c) 0 ps.

Definition any_bytes (ps : list pseg) (va : Z) : Prop := Exists (fun p => pbytes p va) ps.

Lemma cost_nonneg ps : Forall (pseg_ok size) ps -> 0 <= cost ps.
Proof.
  induction 1 as [|p ps Hp _ IH]; [done|]. change (cost (p :: ps)) with (pcost p + cost ps).
  enough (0 <= pcost p) by lia. unfold pcost, region_cost. destruct (decide _) as [Ht|Ht]; [|lia].
  destruct (Hp Ht) as (_ & H1 & _ & H2 & _). modlia.
Qed.

(** A loaded segment stays loaded while others are. *)
Lemma ploaded_progress R s s' l l' p :
  progress R s s' pgdir l l' -> pseg_ok size p -> (forall va, pbytes p va -> ~ R va) ->
  ploaded s pgdir img binary p -> ploaded s' pgdir img binary p.
Proof.
  intros P Hok Hd Hl Ht i Hi. destruct (Hl Ht i Hi) as [Hp Hb]. destruct (Hok Ht) as (_ & _ & _ & Hva & Hend).
  unfold USTACKTOP, PGSIZE in Hend.
  destruct (pr_user _ _ _ _ _ _ P (p_va p + i) ltac:(priv) Hp) as [Hp' Hb'].
  split; [exact Hp'|]. rewrite Hb'; [exact Hb|]. apply Hd. split; [exact Ht|lia].
Qed.

Lemma icode_loop_ok ps : forall s l ph range,
  user_wf s pgdir l -> holds s -> KERNBASE <= binary -> binary + size <= s.(mem_start) ->
  KERNBASE <= ph -> ph + 32 * Z.of_nat (length ps) <= s.(mem_start) ->
  pheaders img ph ps -> Forall (pseg_ok size) ps -> psegs_apart ps ->
  cost ps <= Z.of_nat (length l) ->
  exists s' l', icode_loop (length ps) s pgdir binary ph range = Ret (s', fold_left prange ps range) /\
    progress (any_bytes ps) s s' pgdir l l' /\ Forall (ploaded s' pgdir img binary) ps /\
    Z.of_nat (length l) <= cost ps + Z.of_nat (length l').
Proof.
  induction ps as [|p ps IH]; intros s l ph range Huw Hh Hb Hsz Hph Hphe Hhd Hok Hap Hc.
  { exists s, l. split; [done|]. split; [by apply progress_refl|]. split; [done|]. simpl. lia. }
  cbn [length] in *. rewrite Nat2Z.inj_succ in Hphe.
  destruct Hhd as (Ety & Eoff & Eva & Efs & Ems & Hhd).
  apply Forall_cons in Hok as [Hokp Hok]. destruct Hap as [Happ Hap].
  change (cost (p :: ps)) with (pcost p + cost ps) in *.
  pose proof (user_wf_start _ _ _ Huw) as Hms.
  pose proof (cost_nonneg _ Hok) as Hcn.
  cbn [icode_loop]. rewrite (read32 s l ph) by (assumption || lia). rewrite bind_Ret, Ety.
  destruct (decide (p_type p <> ELF_PROG_LOAD)) as [Hnt|Ht].
  - assert (Hp0 : pcost p = 0) by (unfold pcost; rewrite decide_False by exact Hnt; done).
    destruct (IH s l (ph + 32) range Huw Hh Hb Hsz) as (s' & l' & E & P & HL & Hl');
      try (assumption || lia).
    exists s', l'. cbn [fold_left]. unfold prange at 2. rewrite decide_False by exact Hnt.
    split; [exact E|]. split; [eapply progress_weaken; [|exact P]; intros va; by right|].
    split; [|lia]. constructor; [|exact HL]. intros Ht. done.
  - apply dec_stable in Ht.
    destruct (segment_ok s l p Huw Hh Hb Hsz Ht Hokp ltac:(lia))
      as (s1 & s2 & s3 & l1 & E1 & Hw1 & Hh1 & Hm1 & E2 & E3 & P & HL & Hl).
    destruct (Hokp Ht) as (Ho & Hf & Hfs & Hva & Hend).
    unfold USTACKTOP, KERNBASE, PGSIZE in Hend, Hb, Hph.
    rewrite (read32 s l (ph + 8)), bind_Ret by (assumption || unfold KERNBASE; lia).
    rewrite (read32 s l (ph + 20)), bind_Ret, Eva, Ems, E1, bind_Ret by (assumption || unfold KERNBASE; lia).
    rewrite (read32 s1 l1 (ph + 4)), bind_Ret by (assumption || unfold KERNBASE; lia).
    rewrite (read32 s1 l1 (ph + 16)), bind_Ret, Eoff, Efs by (assumption || unfold KERNBASE; lia).
    rewrite !u32_small by lia. rewrite E2, bind_Ret, E3, bind_Ret.
    destruct (IH s3 l1 (ph + 32) (prange range p)) as (s' & l' & E & P' & HL' & Hl');
      try (rewrite (proj2 (pr_mm _ _ _ _ _ _ P))); try (assumption || apply P || unfold KERNBASE; lia).
    { exact (holds_progress _ _ _ _ _ P Hh). }
    exists s', l'. split.
    { unfold PH_SIZE. cbn [fold_left]. rewrite <- E. f_equal.
      unfold prange. destruct (decide (p_type p = ELF_PROG_LOAD)); [|done].
      destruct (decide (range >= _)); lia. }
    split; [|split; [|lia]].
    + apply (progress_trans _ _ s3 _ _ _ l1); eapply progress_weaken; try eassumption;
        intros va Hv; [by left|by right].
    + constructor; [|exact HL']. apply (ploaded_progress _ _ _ _ _ _ P' Hokp); [|exact HL].
      intros va Hv Hx. apply Exists_exists in Hx as (q & Hq & Hqv).
      exact (proj1 (Forall_forall _ _) Happ q Hq va Hv Hqv).
Qed.

End Load.

(** The pages the stack costs. *)
Definition stack_cost : Z := region_cost (USTACKTOP - PGSIZE) PGSIZE.

Section Icode.
Context (s : mm) (pgdir : Z) (l : list Z) (img : memory) (binary size phoff entry tf q : Z) (ps : list pseg).
Context (Huw : user_wf s pgdir l) (Hh : holds img s).
Context (Hb : KERNBASE <= binary) (Hsz : binary + size <= s.(mem_start)).
Context (Helf : elf_at img binary size phoff entry ps).
Context (Hq : foreign s pgdir l q) (Htf : q <= tf /\ tf + TF_SIZE <= q + 4096).
Context (Hc : cost ps + stack_cost <= Z.of_nat (length l)).

Lemma load_icode_ok :
  exists s' l', load_icode s pgdir tf binary = Ret (s', fold_left prange ps 0) /\
    user_wf s' pgdir l' /\ Forall (ploaded s' pgdir img binary) ps /\
    priv_at s' pgdir (USTACKTOP - PGSIZE) PGSIZE /\
    (forall x, q <= x < q + 4096 -> s'.(ram) x = store32 s.(ram) (tf + TF_EIP) entry x).
Proof.
  destruct Helf as [Em Ee Ep En (Hs & Hp0 & Hps) Hhd Hsegs Hap].
  pose proof (user_wf_start _ _ _ Huw) as Hms. unfold KERNBASE, TF_SIZE, TF_EIP in *.
  assert (Hsc : 0 <= stack_cost) by (vm_compute; discriminate).
  unfold load_icode. rewrite (read32 pgdir img s l binary), bind_Ret, Em by (assumption || unfold KERNBASE; lia).
  rewrite decide_False by (intros H; apply H; done).
  rewrite (read32 pgdir img s l (binary + 28)), bind_Ret, Ep by (assumption || unfold KERNBASE; lia).
  rewrite (vload16_kernel s pgdir l), bind_Ret by (assumption || unfold KERNBASE; lia).
  replace (load16 (ram s) (binary + 44)) with (load16 img (binary + 44))
    by (unfold load16; rewrite !Hh by (unfold KERNBASE; lia); done).
  rewrite En, Nat2Z.id, u32_small by lia.
  destruct (icode_loop_ok pgdir binary size img ps s l (binary + phoff) 0) as (s1 & l1 & E1 & P & HL & Hl1);
    try (assumption || unfold KERNBASE; lia).
  rewrite E1, bind_Ret.
  rewrite (read32 pgdir img s1 l1 (binary + 24)), bind_Ret, Ee; try (apply P || unfold KERNBASE; lia);
    [|exact (holds_progress _ _ _ _ _ _ _ P Hh)|rewrite (proj2 (pr_mm _ _ _ _ _ _ P)); lia].
  destruct (pr_foreign _ _ _ _ _ _ P q Hq) as [Hq1 Hb1].
  unfold TF_EIP. set (s2 := set_ram s1 (store32 s1.(ram) (tf + 60) entry)).
  destruct (foreign_write s1 pgdir l1 q (ram s2)) as (Hw2 & He2 & Hf2 & Hv2); [apply P|exact Hq1|..].
  { eapply agree_outside_weaken; [| |apply store32_outside]; lia. }
  { apply store32_bytes_ok, (fw_bytes _ _ (vw_free _ _ _ (uw_vm _ _ _ (pr_wf _ _ _ _ _ _ P)))). }
  change (set_ram s1 (ram s2)) with s2 in *.
  destruct (region_alloc_ok s2 pgdir (USTACKTOP - PGSIZE) PGSIZE l1) as (s3 & l3 & E3 & Hg & Hat & _);
    try (assumption || discriminate).
  { unfold stack_cost in *. lia. }
  rewrite E3, bind_Ret. exists s3, l3. split; [done|]. split; [apply Hg|].
  split; [|split; [exact Hat|]].
  - apply Forall_forall. intros p Hp Hty i Hi.
    destruct (proj1 (Forall_forall _ _) HL p Hp Hty i Hi) as [Hpr Hby].
    destruct (proj1 (Forall_forall _ _) Hsegs p Hp Hty) as (_ & _ & _ & Hva & Hend).
    unfold USTACKTOP, KERNBASE, PGSIZE in Hend.
    assert (Hpr2 : present s2 pgdir (p_va p + i)) by (unfold present; rewrite He2; exact Hpr).
    destruct (grown_user _ _ _ _ _ (p_va p + i) Hw2 Hg) as [Hpr3 ->]; [priv|exact Hpr2|].
    split; [exact Hpr3|]. rewrite Hv2 by (exact Hpr || priv). exact Hby.
  - intros x Hx. destruct (grown_foreign _ _ _ _ _ q Hg) as [_ ->]; [by apply Hf2| |exact Hx].
    unfold s2, store32. simpl. case_decide; [done|]. apply Hb1, Hx.
Qed.

End Icode.

(** ** The new task *)

Section Alloc.
Context (trap_ret do_nothing : Z) (s : kern) (i : nat) (k : Z) (l : list Z).
Context (Hslot : free_slot s = Some i) (Hf : free_wf (kmm s) (k :: l)).

Definition new_task : task :=
  let t := tasks s i in
  mkTask (k + 4016) (k + 3992) (u32 (nextpid s))
    (match current s with Some c => t_pid (tasks s c) | None => 0 end)
    (t_name0 t) TS_STOPPED (t_sz t) INIT_PRIO (t_pgdir t) k (t_chan t) TASK_HEAP_START 0
    (t_parent t) (t_next t).

Lemma task_alloc_ok :
  exists m', task_alloc trap_ret do_nothing s =
      (mkKern (upd (tasks s) i new_task) (rootp s) (current s) (inittask s) (nextpid s + 1)
              m' (tss_esp0 s), Some i) /\
    free_wf m' l /\ agree_outside k (k + 4096) (ram (kmm s)) (ram m') /\
    m'.(memsz) = (kmm s).(memsz) /\ m'.(mem_start) = (kmm s).(mem_start) /\
    load32 (ram m') (k + 4012) = u32 trap_ret /\ load32 (ram m') (k + 4008) = u32 do_nothing.
Proof.
  destruct (kalloc_page_cons _ _ _ Hf) as [E Hf1].
  pose proof Hf as [(_ & Hk0 & _) Hnd Hpg Hby]. apply NoDup_cons in Hnd as [Hkl _].
  apply Forall_cons in Hpg as [[Hkal _] _].
  unfold task_alloc. rewrite Hslot, E, decide_False by exact Hk0. unfold KSTACKSIZE, TF_SIZE, CONTEXT_SIZE, CONTEXT_EIP.
  replace (k + 4096 - 80 - 4 - 20 + 16) with (k + 4008) by lia.
  replace (k + 4096 - 80 - 4 - 20) with (k + 3992) by lia.
  replace (k + 4096 - 80 - 4) with (k + 4012) by lia.
  replace (k + 4096 - 80) with (k + 4016) by lia.
  set (m0 := set_free_list _ _) in *.
  set (m4 := store32 _ _ _).
  assert (Hag : agree_outside k (k + 4096) (ram (kmm s)) m4).
  { intros x Hx. unfold m4. rewrite store32_outside by lia.
    rewrite (memset_outside _ (k + 3992) 0 20) by (change (u32 20) with 20; lia).
    apply store32_outside. lia. }
  eexists. split; [reflexivity|]. split.
  { apply (free_wf_agree m0 l m4 k Hf1 Hag); [|exact Hkal|exact Hkl].
    apply store32_bytes_ok. auto with chunix. }
  split; [exact Hag|]. split; [done|]. split; [done|]. simpl. unfold m4. split.
  - rewrite load32_store32_other by lia.
    rewrite (load32_agree _ _ _ _ _ (memset_outside _ (k + 3992) 0 20)) by (change (u32 20) with 20; lia).
    apply load32_store32_same.
  - apply load32_store32_same.
Qed.

End Alloc.

Lemma user_frame_outside m tf : agree_outside tf (tf + 80) m (user_frame m tf).
Proof.
  intros x Hx. unfold user_frame, TF_CS, TF_DS, TF_ES, TF_FS, TF_GS, TF_SS, TF_EFLAGS, TF_ESP.
  rewrite !store32_outside by lia. apply (memset_outside m tf 0 80). change (u32 80) with 80. lia.
Qed.

Lemma user_frame_bytes_ok m tf : bytes_ok m -> bytes_ok (user_frame m tf).
Proof. intros H. unfold user_frame. auto 12 with chunix. Qed.

(** The registers a frame gives to the user program. *)
Record user_regs (m : memory) (tf eip : Z) : Prop := {
  ur_eip : load32 m (tf + TF_EIP) = eip;
  ur_esp : load32 m (tf + TF_ESP) = USTACKTOP;
  ur_cs : load32 m (tf + TF_CS) = Z.lor USR_CODE SA_RPL3;
  ur_flags : load32 m (tf + TF_EFLAGS) = FL_IF;
  ur_data : Forall (fun o => load32 m (tf + o) = Z.lor USR_DATA SA_RPL3)
              [TF_DS; TF_ES; TF_FS; TF_GS; TF_SS]
}.

Lemma user_frame_regs m tf eip : 0 <= eip < 4294967296 ->
  user_regs (store32 (user_frame m tf) (tf + TF_EIP) eip) tf eip.
Proof.
  intros He.
  constructor; [rewrite load32_store32_same; by apply u32_small|..];
    [..|repeat constructor]; unfold user_frame, TF_EIP, TF_ESP, TF_SS, TF_CS, TF_EFLAGS, TF_DS, TF_ES, TF_FS, TF_GS;
    repeat (rewrite load32_store32_same || rewrite load32_store32_other by lia); reflexivity.
Qed.

Lemma user_regs_ext m m' tf eip : (forall x, tf <= x < tf + 80 -> m' x = m x) ->
  user_regs m tf eip -> user_regs m' tf eip.
Proof.
  intros Hx [H1 H2 H3 H4 H5].
  assert (E : forall o, 0 <= o <= 76 -> load32 m' (tf + o) = load32 m (tf + o))
    by (intros o Ho; apply load32_ext; intros x Hxo; apply Hx; lia).
  constructor; rewrite ?E by (vm_compute; split; discriminate); try assumption.
  apply Forall_forall. intros o Ho. rewrite E; [exact (proj1 (Forall_forall _ _) H5 o Ho)|].
  rewrite list_elem_of_In in Ho. simpl in Ho. unfold TF_SS, TF_DS, TF_ES, TF_FS, TF_GS in Ho. lia.
Qed.

(** What holds of the slot [i] and its memory when [task_create] has made it a
    task that runs the program [ps] of the file at [binary]. *)
Record runs_program (s s' : kern) (i : nat) (k d binary entry : Z) (ps : list pseg)
    (trap_ret do_nothing : Z) : Prop := {
  rp_task : tasks s' i = with_next (with_state (with_sz (with_pgdir (new_task s i k) d)
              (fold_left prange ps 0)) TS_RUNNABLE) (rootp s);
  rp_root : rootp s' = Some i;
  rp_others : forall j, j <> i -> tasks s' j = tasks s j;
  rp_rest : current s' = current s /\ inittask s' = inittask s /\ nextpid s' = nextpid s + 1;
  rp_regs : user_regs (ram (kmm s')) (t_tf (tasks s' i)) entry;
  rp_return : load32 (ram (kmm s')) (t_tf (tasks s' i) - 4) = u32 trap_ret;
  rp_context : load32 (ram (kmm s')) (t_context (tasks s' i) + CONTEXT_EIP) = u32 do_nothing;
  rp_memory : exists l', user_wf (kmm s') d l' /\
    Forall (ploaded (kmm s') d (ram (kmm s)) binary) ps /\
    priv_at (kmm s') d (USTACKTOP - PGSIZE) PGSIZE
}.

(** Building the kernel's part of a page directory leaves the kernel's own
    image, below the first free page, alone. *)
Lemma kvm_keeps_below kdata s d l s' l' x :
  free_wf s (d :: l) -> kvm_built kdata s d l s' l' -> x < s.(mem_start) -> s'.(ram) x = s.(ram) x.
Proof.
  intros Hf Hk Hx. pose proof (fw_pages _ _ Hf) as Hpg.
  assert (Hno : forall q, q ∈ d :: l -> q <> x - x mod 4096).
  { intros q Hq ->. destruct (proj1 (Forall_forall _ _) Hpg _ Hq) as (_ & [H _] & _). modlia. }
  apply (kb_keeps _ _ _ _ _ _ Hk (x - x mod 4096)); [modlia| | |modlia].
  - intros H. by apply (Hno d); [left|].
  - intros H. by apply (Hno (x - x mod 4096)); [right|].
Qed.

Section CreateOk.
Context (trap_ret do_nothing kdata : Z) (s : kern) (i : nat) (k d : Z) (l : list Z).
Context (binary size phoff entry : Z) (ps : list pseg).
Context (Hslot : free_slot s = Some i) (Hf : free_wf (kmm s) (k :: d :: l)).
Context (Hdata : KERNLINK < kdata) (Hdal : kdata mod 4096 = 0).
Context (Hram : kdata - KERNBASE < (kmm s).(memsz) * 1024 <= HEAP_START - KERNBASE).
Context (Hl : (kmm s).(memsz) * 1024 / 4194304 + 4 + cost ps + stack_cost <= Z.of_nat (length l)).
Context (Hb : KERNBASE <= binary) (Hsz : binary + size <= (kmm s).(mem_start)).
Context (Helf : elf_at (ram (kmm s)) binary size phoff entry ps).

Lemma entry_range : 0 <= entry < 4294967296.
Proof. rewrite <- (el_entry _ _ _ _ _ _ Helf). apply load32_range, Hf. Qed.

Lemma task_create_ok :
  exists s', task_create trap_ret do_nothing kdata s binary = Ret (s', Some i) /\
    runs_program s s' i k d binary entry ps trap_ret do_nothing.
Proof.
  destruct (task_alloc_ok trap_ret do_nothing s i k _ Hslot Hf) as (m0 & E0 & Hf0 & Hag0 & Hm0 & Hs0 & Htr & Hdn).
  pose proof (fw_nodup _ _ Hf) as Hnd. apply NoDup_cons in Hnd as [Hkdl _].
  apply not_elem_of_cons in Hkdl as [Hkd Hkl].
  pose proof (fw_pages _ _ Hf) as Hpg. apply Forall_cons in Hpg as [Hkp Hpg]. apply Forall_cons in Hpg as [Hdp _].
  pose proof (cost_nonneg size ps (el_segs _ _ _ _ _ _ Helf)) as Hcn.
  assert (Hsc : 0 <= stack_cost) by (vm_compute; discriminate).
  destruct (mapkvm_ok kdata m0 d l Hf0 Hdata Hdal) as (m1 & l1 & E1 & Hk);
    [rewrite Hm0; unfold HEAP_START, KERNBASE in *; lia|rewrite Hm0; lia|].
  assert (Hdp0 : page_ok m0 d) by (unfold page_ok; rewrite Hm0, Hs0; exact Hdp).
  unfold KERNLINK, KERNBASE, HEAP_START, EXTMEM in Hdata, Hram, Hb.
  destruct (kvm_user_wf _ _ _ _ _ _ Hk Hdp0) as (Huw & _ & Hfor); [rewrite Hm0; unfold HEAP_START, KERNBASE; lia|].
  pose proof (Hfor k (proj1 Hkp) Hkd Hkl) as Hfk.
  pose proof (kb_start _ _ _ _ _ _ Hk) as Hs1. rewrite Hs0 in Hs1.
  set (tf := k + 4016). set (m2 := set_ram m1 (user_frame m1.(ram) tf)).
  assert (Hag2 : agree_outside k (k + 4096) (ram m1) (ram m2)).
  { eapply agree_outside_weaken; [| |apply user_frame_outside]; unfold tf; lia. }
  destruct (foreign_write m1 d l1 k (ram m2) Huw Hfk Hag2) as (Huw2 & _ & Hf2 & _).
  { apply user_frame_bytes_ok, (fw_bytes _ _ (vw_free _ _ _ (uw_vm _ _ _ Huw))). }
  change (set_ram m1 (ram m2)) with m2 in *.
  assert (Hh : holds (ram (kmm s)) m2).
  { intros x Hx. change (mem_start m2) with (mem_start m1) in Hx. rewrite Hs1 in Hx.
    destruct Hkp as (Hkal & [Hks _] & _). destruct Hdp as (Hdal' & [Hds _] & _).
    rewrite Hag2, (kvm_keeps_below _ _ _ _ _ _ x Hf0 Hk) by (rewrite ?Hs0; lia).
    apply Hag0. lia. }
  destruct (load_icode_ok m2 d l1 (ram (kmm s)) binary size phoff entry tf k ps Huw2 Hh)
    as (m3 & l3 & E3 & Huw3 & HL & Hst & Hpage); try assumption.
  { change (mem_start m2) with (mem_start m1). lia. }
  { exact (Hf2 k Hfk). }
  { unfold tf, TF_SIZE. lia. }
  { pose proof (kb_cost _ _ _ _ _ _ Hk) as Hkc. rewrite Hm0 in Hkc. lia. }
  eexists. split.
  - unfold task_create. rewrite E0. cbn [kmm]. rewrite E1, bind_Ret. cbn [mbind outcome_bind].
    destruct (page_ok_range _ _ Hdp) as [Hd0 _]. rewrite decide_False by lia.
    cbn [tasks set_task set_kmm kmm]. rewrite !upd_same. cbn [t_tf with_pgdir new_task].
    fold tf. fold m2. rewrite E3. reflexivity.
  - assert (Hreg : user_regs (ram m3) tf entry).
    { eapply user_regs_ext; [|apply (user_frame_regs (ram m1) tf entry entry_range)].
      intros x Hx. apply Hpage. unfold tf in Hx. lia. }
    assert (Hlow : forall a, k <= a -> a + 4 <= tf -> load32 (ram m3) a = load32 (ram m0) a).
    { intros a Ha Hat. apply load32_ext. intros x Hx. unfold tf in *.
      rewrite Hpage, store32_outside by (unfold TF_EIP; lia). unfold m2. simpl.
      rewrite user_frame_outside by lia.
      apply (kb_keeps _ _ _ _ _ _ Hk k x (proj1 Hkp) Hkd Hkl). lia. }
    constructor; cbn [tasks rootp current inittask nextpid kmm task_link set_rootp set_task set_kmm];
      rewrite ?upd_same; cbn [t_tf t_context with_next with_state with_sz with_pgdir new_task].
    + reflexivity.
    + reflexivity.
    + intros j Hj. rewrite !upd_other by exact Hj. reflexivity.
    + repeat split.
    + exact Hreg.
    + rewrite <- Htr. replace (k + 4016 - 4) with (k + 4012) by lia. apply Hlow; unfold tf; lia.
    + rewrite <- Hdn. replace (k + 3992 + CONTEXT_EIP) with (k + 4008) by (unfold CONTEXT_EIP; lia).
      apply Hlow; unfold tf; lia.
    + exists l3. exact (conj Huw3 (conj HL Hst)).
Qed.

End CreateOk.

(** Bytes put into a page that is not free. *)
Lemma free_wf_write s l a p bs :
  free_wf s l -> p mod 4096 = 0 -> p ∉ l -> p <= a -> a + Z.of_nat (length bs) <= p + 4096 ->
  Forall (fun b => 0 <= b < 256) bs -> free_wf (set_ram s (write_bytes s.(ram) a bs)) l.
Proof.
  intros Hf Hp Hpl Ha Hend Hbs. apply (free_wf_agree _ _ _ p Hf); [..|exact Hp|exact Hpl].
  - eapply agree_outside_weaken; [| |apply write_bytes_outside]; lia.
  - apply write_bytes_ok; [apply Hf|exact Hbs].
Qed.

Lemma with_demo_wf s l :
  free_wf s l -> demo_binary < s.(mem_start) -> free_wf (with_demo s) l.
Proof.
  intros Hwf Hs. apply (free_wf_write _ _ _ demo_binary _ Hwf).
  - reflexivity.
  - intros H. pose proof (proj1 (Forall_forall _ _) (fw_pages _ _ Hwf) _ H) as (_ & [H1 _] & _). lia.
  - reflexivity.
  - vm_compute. discriminate.
  - repeat (constructor; [lia|]). constructor.
Qed.

Lemma with_demo_size s :
  (with_demo s).(memsz) = s.(memsz) /\ (with_demo s).(mem_start) = s.(mem_start).
Proof. split; reflexivity. Qed.

Lemma with_demo_elf s : elf_at (ram (with_demo s)) demo_binary 89 52 4096 [demo_seg].
Proof.
  unfold with_demo. cbn [ram set_ram]. generalize (ram s). intros m.
  constructor.
  - vm_compute. reflexivity.
  - vm_compute. reflexivity.
  - vm_compute. reflexivity.
  - vm_compute. reflexivity.
  - cbn [length]. lia.
  - cbn [pheaders]. repeat (split; [vm_compute; reflexivity|]). exact I.
  - constructor; [|constructor]. intros _. unfold USTACKTOP, KERNBASE, PGSIZE. cbn. lia.
  - split; [constructor|exact I].
Qed.

(** ** Properties *)

(** C14. [task_create] turns an ELF file in the kernel's memory into a task that
    runs it.  With a free slot and enough pages the slot becomes a runnable
    task at the head of the list; its kernel stack carries the return to
    [trap_ret] and a trap frame with the entry point, the user stack and the
    user selectors; and in the address space of its new directory every
    loadable segment is found at its address, first the bytes of the file and
    then zeros, with a page for the stack and all user pages in frames of
    their own.  No other task changes. *)
Theorem task_create_runs (trap_ret do_nothing kdata : Z) (s : kern) (i : nat) (k d : Z) (l : list Z)
  (binary size phoff entry : Z) (ps : list pseg)
  (Hslot : free_slot s = Some i) (Hf : free_wf (kmm s) (k :: d :: l))
  (Hdata : KERNLINK < kdata) (Hdal : kdata mod 4096 = 0)
  (Hram : kdata - KERNBASE < (kmm s).(memsz) * 1024 <= HEAP_START - KERNBASE)
  (Hl : (kmm s).(memsz) * 1024 / 4194304 + 4 + cost ps + stack_cost <= Z.of_nat (length l))
  (Hb : KERNBASE <= binary) (Hsz : binary + size <= (kmm s).(mem_start))
  (Helf : elf_at (ram (kmm s)) binary size phoff entry ps) :
  exists s', task_create trap_ret do_nothing kdata s binary = Ret (s', Some i) /\
    runs_program s s' i k d binary entry ps trap_ret do_nothing.
Proof. eapply task_create_ok; eassumption. Qed.

Lemma task_create_runs_witness :
  exists s', task_create 2148532000 2148532100 2149580800 demo_kern demo_binary = Ret (s', Some 0%nat) /\
    runs_program demo_kern s' 0 2149658624 2149654528 demo_binary 4096 [demo_seg] 2148532000 2148532100.
Proof.
  destruct (sample_mm_wf 20 ltac:(lia)) as (Hwf & Hm & Hs).
  destruct (with_demo_size (sample_mm 20)) as [Hm1 Hs1]. rewrite Hm in Hm1. rewrite Hs in Hs1.
  apply (task_create_runs 2148532000 2148532100 2149580800 demo_kern 0 2149658624 2149654528
           (tail (tail (rev (page_seq 2149580800 20)))) demo_binary 89 52 4096 [demo_seg] eq_refl);
    change (kmm demo_kern) with (with_demo (sample_mm 20)); rewrite ?Hm1, ?Hs1.
  - apply (with_demo_wf _ _ Hwf). rewrite Hs. reflexivity.
  - reflexivity.
  - reflexivity.
  - vm_compute. split; [reflexivity|discriminate].
  - vm_compute. discriminate.
  - vm_compute. discriminate.
  - vm_compute. discriminate.
  - apply with_demo_elf.
Defined.
