(* ===== verification/Fork.v ===== *)
(** * What [fork] does to memory

    [fork] of kern/task.c (Task.v) with [copy_uvm] and [copy_page] of kern/mm.c
    (PageTable.v): the child gets a directory of its own in which every page of
    the parent's program and its stack is found with the same bytes in a new
    frame, and nothing of the parent changes.  The argument keeps two address
    spaces that share the free list apart. *)

From stdpp Require Import base list strings.
From Stdlib Require Import ZArith Lia.
From S2P Require Import Prelude Mmu CString Kalloc PageTable VmSpec Ring Task Heap Vmem Boot Loader.

Open Scope Z_scope.

(** The pages of an address space: directory, tables and user frames. *)
Definition owned (s : mm) (pgdir q : Z) : Prop :=
  vm_page s pgdir [] q \/
  exists va, private va /\ present s pgdir va /\ q = table_of (pt_entry s pgdir va).

(** The address space of [pgdir] shares no page with that of [d]. *)
Definition apart (s : mm) (pgdir d : Z) (l : list Z) : Prop :=
  forall q, owned s pgdir q -> foreign s d l q.

(** Both address spaces after steps that only build the second one. *)
Record twins (s s' : mm) (pgdir d : Z) (l l' : list Z) : Prop := {
  tw_parent : user_wf s' pgdir l';
  tw_child : user_wf s' d l';
  tw_apart : apart s' pgdir d l';
  tw_ppde : forall i, 0 <= i < 1024 -> pde_at s' pgdir i = pde_at s pgdir i;
  tw_pentry : forall va, pt_entry s' pgdir va = pt_entry s pgdir va;
  tw_pbyte : forall va, private va -> present s pgdir va -> vbyte s' pgdir va = vbyte s pgdir va;
  tw_centry : forall va, 0 <= va < 4294967296 -> present s d va -> pt_entry s' d va = pt_entry s d va;
  tw_cbyte : forall va, private va -> present s d va -> vbyte s' d va = vbyte s d va;
  tw_foreign : forall q, foreign s d l q -> foreign s' d l' q;
  tw_mm : s'.(memsz) = s.(memsz) /\ s'.(mem_start) = s.(mem_start)
}.

(** Pages foreign to the child keep their bytes. *)
Definition untouched (s s' : mm) (d : Z) (l : list Z) : Prop :=
  forall q x, foreign s d l q -> q <= x < q + 4096 -> s'.(ram) x = s.(ram) x.

(** The page of [va] in the child is a copy of the parent's. *)
Definition copied (s : mm) (pgdir d va : Z) : Prop :=
  present s pgdir va -> present s d va /\ vbyte s d va = vbyte s pgdir va.

(** A machine whose only task has the directory [d] and the size [sz], for the
    examples. *)
Definition demo_fork (m : mm) (d sz : Z) : kern :=
  mkKern (fun j => match j with
                   | O => mkTask 2148532224 0 1 0 0 TS_RUNNING sz 20 d 0 0 0 0 None None
                   | S _ => demo_task
                   end) (Some 0%nat) (Some 0%nat) (Some 0%nat) 2 m 0.

(** ** A second address space *)

Lemma owned_page s pgdir l q : user_wf s pgdir l -> owned s pgdir q ->
  q mod 4096 = 0 /\ page_ok s q /\ q ∉ l.
Proof.
  intros Huw [Hv|(va & Hva & Hp & ->)].
  - destruct Hv as [->|[Hv|(i & Hi & Hh & ->)]].
    + split; [apply (vw_dir _ _ _ (uw_vm _ _ _ Huw))|]. split; apply Huw.
    + apply elem_of_nil in Hv. done.
    + destruct (vw_tab _ _ _ (uw_vm _ _ _ Huw) i Hi Hh) as (H1 & H2 & _).
      split; [apply H1|done].
  - destruct (uw_page _ _ _ Huw va Hva Hp) as (H1 & H2 & _).
    split; [apply H1|]. split; [exact H1|]. intros H. apply H2. right. by left.
Qed.

Section Bystander.
Context (s s' : mm) (pgdir : Z) (l l' : list Z).
Context (Huw : user_wf s pgdir l) (Hf : free_wf s' l') (Hsub : forall q, q ∈ l' -> q ∈ l \/ ~ owned s pgdir q).
Context (Hkeep : forall q x, owned s pgdir q -> q <= x < q + 4096 -> s'.(ram) x = s.(ram) x).
Context (Hm : s'.(memsz) = s.(memsz)) (Hms : s'.(mem_start) = s.(mem_start)).

Lemma bystander_pde i : 0 <= i < 1024 -> pde_at s' pgdir i = pde_at s pgdir i.
Proof.
  intros Hi. apply load32_ext. intros x Hx. apply (Hkeep pgdir); [left; by left|lia].
Qed.

Lemma bystander_entry va : pt_entry s' pgdir va = pt_entry s pgdir va.
Proof.
  unfold pt_entry. rewrite bystander_pde by apply PDX_range.
  destruct (has (pde_at s pgdir (PDX va)) PTE_P) eqn:Hh; [|done].
  apply load32_ext. intros x Hx. apply (Hkeep (table_of (pde_at s pgdir (PDX va)))).
  - left. right. right. exists (PDX va). split; [apply PDX_range|done].
  - pose proof (PTX_range va). lia.
Qed.

Lemma bystander_free q : owned s pgdir q -> q ∈ l' -> q ∈ l.
Proof. intros Ho Hq. destruct (Hsub q Hq) as [H|H]; [exact H|by destruct H]. Qed.

Lemma bystander_pages q : vm_page s' pgdir l' q -> q ∈ l' \/ vm_page s pgdir [] q.
Proof.
  intros [H|[H|(i & Hi & Hh & H)]]; [right; by left|by left|].
  rewrite bystander_pde in Hh, H by exact Hi. right. right. right. eauto.
Qed.

Lemma bystander_owned q : owned s' pgdir q -> owned s pgdir q.
Proof.
  intros [[H|[H|(i & Hi & Hh & H)]]|(va & Hva & Hp & H)].
  - left. by left.
  - apply elem_of_nil in H. done.
  - rewrite bystander_pde in Hh, H by exact Hi. left. right. right. eauto.
  - unfold present in Hp. rewrite bystander_entry in Hp, H. right. eauto.
Qed.

Lemma bystander_wf : user_wf s' pgdir l'.
Proof.
  assert (Hok : forall q, page_ok s q -> page_ok s' q) by (intros q; unfold page_ok; rewrite Hm, Hms; done).
  constructor.
  - constructor; [exact Hf|apply Hok, Huw|intros H; apply (vw_dir_free _ _ _ (uw_vm _ _ _ Huw)); apply bystander_free; [left; by left|exact H]|..].
    + intros i Hi. rewrite bystander_pde by exact Hi. intros Hh.
      destruct (vw_tab _ _ _ (uw_vm _ _ _ Huw) i Hi Hh) as (H1 & H2 & H3).
      split; [auto|]. split; [|exact H3]. intros H. apply H2, bystander_free; [left; right; right; eauto|exact H].
    + intros i j Hi Hj. rewrite !bystander_pde by assumption.
      apply (vw_inj _ _ _ (uw_vm _ _ _ Huw)); assumption.
  - intros va Hva. unfold present. rewrite bystander_entry. intros Hp.
    destruct (uw_page _ _ _ Huw va Hva Hp) as (H1 & H2 & H3).
    split; [auto|]. split; [|exact H3]. intros H. apply H2. apply bystander_pages in H as [H|H].
    + right. left. apply bystander_free; [right; eauto|exact H].
    + destruct H as [H|[H|H]]; [by left|by apply elem_of_nil in H|right; by right].
  - intros v1 v2 H1 H2. unfold present. rewrite !bystander_entry. apply (uw_inj _ _ _ Huw); assumption.
  - intros va Hva. rewrite Hm in Hva. unfold present, translate. rewrite bystander_entry.
    exact (uw_window _ _ _ Huw va Hva).
  - rewrite Hm, Hms. exact (uw_gap _ _ _ Huw).
Qed.

Lemma bystander_byte va : private va -> present s pgdir va ->
  vbyte s' pgdir va = vbyte s pgdir va.
Proof.
  intros Hva Hp. unfold vbyte, translate. rewrite bystander_entry.
  apply (Hkeep (table_of (pt_entry s pgdir va))); [right; eauto|apply (translate_in s)].
Qed.

End Bystander.

(** ** Copying one page *)

Lemma has_flags e f : 0 <= e < 4294967296 -> Z.land 4095 f = f -> has (PTE_FLAGS e) f = has e f.
Proof. intros He Hf. unfold has, PTE_FLAGS. rewrite u32_small, <- Z.land_assoc, Hf by exact He. done. Qed.

Lemma pt_entry_range s pgdir l va : vm_wf s pgdir l -> 0 <= pt_entry s pgdir va < 4294967296.
Proof.
  intros Hwf. unfold pt_entry. destruct (has _ _); [|lia].
  apply load32_range, (fw_bytes _ _ (vw_free _ _ _ Hwf)).
Qed.

(** A frame [p] taken from the free list and filled from the page at [src],
    before it is mapped into the child. *)
Record filled (s s2 : mm) (d p src : Z) (l : list Z) : Prop := {
  fl_ok : page_ok s p;
  fl_wf : user_wf s2 d l;
  fl_frame : foreign s2 d l p;
  fl_entry : forall va, pt_entry s2 d va = pt_entry s d va;
  fl_pde : forall i, 0 <= i < 1024 -> pde_at s2 d i = pde_at s d i;
  fl_ram : forall x, s2.(ram) x = if decide (p <= x < p + 4096) then s.(ram) (src + (x - p)) else s.(ram) x;
  fl_foreign : forall q, foreign s d (p :: l) q -> foreign s2 d l q /\ q <> p;
  fl_memsz : s2.(memsz) = s.(memsz);
  fl_start : s2.(mem_start) = s.(mem_start)
}.

Lemma frame_filled s d p src l :
  user_wf s d (p :: l) ->
  kalloc_page s = (p, set_free_list s (load32 s.(ram) p)) /\
  filled s (set_ram (set_free_list s (load32 s.(ram) p))
              (memmove (set_free_list s (load32 s.(ram) p)).(ram) p src PGSIZE)) d p src l.
Proof.
  intros Hc. destruct (pop_space _ _ _ _ Hc) as (Ek & Hok & Hg & Hfp).
  pose proof (proj1 (proj2 Hfp)) as Hnv.
  set (s1 := set_free_list s (load32 s.(ram) p)) in *. split; [exact Ek|].
  pose proof (fw_bytes _ _ (vw_free _ _ _ (uw_vm _ _ _ Hc))) as Hby.
  assert (Hmm : forall x, memmove s1.(ram) p src PGSIZE x =
    if decide (p <= x < p + 4096) then s.(ram) (src + (x - p)) else s.(ram) x)
    by (intros x; apply (memmove_byte s.(ram)); [exact Hby|unfold PGSIZE; lia]).
  assert (Hbo : bytes_ok (memmove s1.(ram) p src PGSIZE)) by (apply memmove_bytes_ok, Hby).
  revert Hmm Hbo. generalize (memmove (ram s1) p src PGSIZE) as m2. intros m2 Hmm Hbo.
  assert (Hag : agree_outside p (p + 4096) s1.(ram) m2)
    by (intros x Hx'; rewrite Hmm, decide_False by exact Hx'; done).
  destruct (foreign_write s1 d l p m2 (gr_wf _ _ _ _ _ Hg) Hfp Hag Hbo) as (Hw2 & He2 & Hf2 & _).
  constructor; [exact Hok|exact Hw2|apply Hf2, Hfp|exact He2| |exact Hmm| |done|done].
  - intros i Hi. apply (slot_agree _ _ p); [exact Hag|apply Hok|apply (vw_dir _ _ _ (uw_vm _ _ _ Hc))| |exact Hi].
    intros ->. apply Hnv. by left.
  - intros q Hq. split; [apply Hf2, (grown_foreign _ _ _ _ _ _ Hg Hq)|].
    intros ->. destruct Hq as (_ & Hq & _). apply Hq. right. left. left.
Qed.

Section CopyOne.
Context (s : mm) (pgdir d va p : Z) (l : list Z).
Context (Hp : user_wf s pgdir (p :: l)) (Hc : user_wf s d (p :: l)) (Hap : apart s pgdir d (p :: l)).
Context (Hva : private va) (Hal : va mod 4096 = 0).
Context (Hpres : present s pgdir va) (Habs : ~ present s d va).
Context (Hl : table_missing s d va <= Z.of_nat (length l)).

Context (s2 : mm) (e : Z) (Ee : e = pt_entry s pgdir va) (Hfill : filled s s2 d p (table_of e) l).

(** A page the child has already keeps its bytes while the new one is mapped. *)
Lemma other_byte s3 l3 va' :
  extends s2 s3 d l l3 -> private va' -> present s d va' -> pt_entry s3 d va' = pt_entry s d va' ->
  vbyte s3 d va' = vbyte s d va'.
Proof.
  destruct Hfill as [Hok Hw2 Hf2 He2 _ Hmm _ _ _]. intros Hx Hv Hpr Hce.
  assert (Hpr2 : present s2 d va') by (unfold present; rewrite He2; exact Hpr).
  destruct (uw_page _ _ _ Hw2 va' Hv Hpr2) as (_ & Hnv & _).
  pose proof (proj2 (proj2 Hf2) va' Hv Hpr2) as Hfp. rewrite He2 in Hnv, Hfp.
  unfold vbyte, translate. rewrite Hce.
  pose proof (translate_in s d va') as Hti. unfold translate in Hti.
  rewrite (ex_keeps _ _ _ _ _ Hx _ _ (table_of_aligned _) Hnv Hti), Hmm, decide_False; [done|].
  pose proof (page_disjoint _ p (table_of_aligned (pt_entry s d va')) (proj1 Hok) Hfp). lia.
Qed.

Lemma page_copied :
  exists s3 l3, mappages s2 d va (V2P p) PGSIZE (PTE_FLAGS e) = Ret (0, s3) /\
    twins s s3 pgdir d (p :: l) l3 /\ untouched s s3 d (p :: l) /\
    (forall va', private va' -> same_page va va' -> copied s3 pgdir d va') /\
    (forall va', 0 <= va' < 4294967296 -> ~ same_page va va' -> pt_entry s3 d va' = pt_entry s d va') /\
    Z.of_nat (length l) <= table_missing s d va + Z.of_nat (length l3) /\
    has (pde_at s3 d (PDX va)) PTE_P = true.
Proof.
  destruct Hfill as [Hok Hw2 Hf2 He2 Hpde2 Hmm Hfor Hmz2 Hst2].
  destruct (uw_page _ _ _ Hp va Hva Hpres) as (_ & _ & HW & HU).
  pose proof (pt_entry_range s pgdir _ va (uw_vm _ _ _ Hp)) as Her. rewrite <- Ee in HW, HU, Her.
  assert (Hfl : 0 <= PTE_FLAGS e < 4096) by (rewrite PTE_FLAGS_mod; apply Z.mod_pos_bound; lia).
  destruct (map_one s2 d va p (PTE_FLAGS e) l) as (s3 & l3 & E & Hx & Hw3 & He3 & Ht & Hf3 & Hl3);
    try assumption.
  { unfold page_ok. rewrite Hmz2, Hst2. exact Hok. }
  { unfold present. rewrite He2. exact Habs. }
  { rewrite has_flags by (exact Her || reflexivity). exact HW. }
  { rewrite has_flags by (exact Her || reflexivity). exact HU. }
  { unfold table_missing. rewrite Hpde2 by apply PDX_range. exact Hl. }
  assert (Hbytes : forall q x, foreign s d (p :: l) q -> q <= x < q + 4096 -> s3.(ram) x = s.(ram) x).
  { intros q x Hq Hx'. destruct (Hfor q Hq) as ((Hqa & Hqv & _) & Hqp).
    rewrite (ex_keeps _ _ _ _ _ Hx q x Hqa Hqv Hx'), Hmm, decide_False; [done|].
    pose proof (page_disjoint q p Hqa (proj1 Hok) Hqp). lia. }
  assert (Hsub : forall q, q ∈ l3 -> q ∈ p :: l \/ ~ owned s pgdir q).
  { intros q Hq. left. destruct (ex_free _ _ _ _ _ Hx) as [u ->]. right. apply elem_of_app. by right. }
  assert (Hkeep : forall q x, owned s pgdir q -> q <= x < q + 4096 -> s3.(ram) x = s.(ram) x)
    by (intros q x Hq; apply Hbytes, Hap, Hq).
  pose proof (vw_free _ _ _ (uw_vm _ _ _ Hw3)) as Hfree.
  pose proof (ex_memsz _ _ _ _ _ Hx) as Hmz. pose proof (ex_start _ _ _ _ _ Hx) as Hst. rewrite Hmz2 in Hmz. rewrite Hst2 in Hst.
  pose proof (bystander_entry s s3 pgdir Hkeep) as Hpe.
  pose proof (bystander_byte s s3 pgdir Hkeep) as Hpb.
  assert (Hce : forall va', 0 <= va' < 4294967296 -> ~ same_page va va' -> pt_entry s3 d va' = pt_entry s d va').
  { intros va' Hv Hne. rewrite He3, decide_False by assumption. apply He2. }
  assert (Hne : forall va', present s d va' -> ~ same_page va va').
  { intros va' Hpr Es. apply Habs. unfold present. rewrite (pt_entry_page _ _ _ _ Es). exact Hpr. }
  exists s3, l3. split; [exact E|]. split; [constructor|].
  - exact (bystander_wf s s3 pgdir _ _ Hp Hfree Hsub Hkeep Hmz Hst).
  - exact Hw3.
  - intros q Hq. apply (bystander_owned s s3 pgdir Hkeep) in Hq.
    destruct (Hfor q (Hap q Hq)) as [H1 H2]. exact (Hf3 q H1 H2).
  - exact (bystander_pde s s3 pgdir Hkeep).
  - exact Hpe.
  - exact Hpb.
  - intros va' Hv Hpr. apply Hce; [exact Hv|exact (Hne va' Hpr)].
  - intros va' Hv Hpr.
    exact (other_byte s3 l3 va' Hx Hv Hpr (Hce va' ltac:(priv) (Hne va' Hpr))).
  - intros q Hq. destruct (Hfor q Hq) as [H1 H2]. exact (Hf3 q H1 H2).
  - split; [exact Hmz|exact Hst].
  - destruct (page_entry_facts (V2P p) (PTE_FLAGS e) Hfl) as (_ & _ & HPe & _).
    split; [exact Hbytes|]. split; [|split; [exact Hce|split]].
    + intros va' Hv Es Hpr. split; [unfold present; rewrite He3, decide_True by (exact Es || priv); exact HPe|].
      unfold present in Hpr. rewrite Hpe in Hpr. rewrite Hpb by assumption.
      unfold vbyte, translate. rewrite He3, decide_True, Ht by (exact Es || priv).
      pose proof (Z.mod_pos_bound (u32 va') 4096 ltac:(lia)) as Hmod.
      rewrite (ex_keeps _ _ _ _ _ Hx p _ (proj1 Hok) (proj1 (proj2 Hf2))) by lia.
      rewrite Hmm, decide_True by lia. rewrite Ee, (pt_entry_page s pgdir va va' Es). f_equal. lia.
    + unfold table_missing in Hl3. rewrite Hpde2 in Hl3 by apply PDX_range. exact Hl3.
    + apply has_entry_pde. rewrite He3, decide_True by (done || priv). exact HPe.
Qed.

End CopyOne.

Lemma twins_refl s pgdir d l : user_wf s pgdir l -> user_wf s d l -> apart s pgdir d l ->
  twins s s pgdir d l l.
Proof. intros. constructor; done. Qed.

Lemma twins_present_p s s' pgdir d l l' va : twins s s' pgdir d l l' ->
  present s' pgdir va <-> present s pgdir va.
Proof. intros H. unfold present. rewrite (tw_pentry _ _ _ _ _ _ H). done. Qed.

Lemma twins_present_c s s' pgdir d l l' va : twins s s' pgdir d l l' -> 0 <= va < 4294967296 ->
  present s d va -> present s' d va.
Proof. intros H Hva Hp. unfold present. rewrite (tw_centry _ _ _ _ _ _ H) by assumption. exact Hp. Qed.

Lemma twins_trans s1 s2 s3 pgdir d l1 l2 l3 :
  twins s1 s2 pgdir d l1 l2 -> twins s2 s3 pgdir d l2 l3 -> twins s1 s3 pgdir d l1 l3.
Proof.
  intros T1 T2.
  constructor; [exact (tw_parent _ _ _ _ _ _ T2)|exact (tw_child _ _ _ _ _ _ T2)|exact (tw_apart _ _ _ _ _ _ T2)|..].
  - intros i Hi. rewrite (tw_ppde _ _ _ _ _ _ T2), (tw_ppde _ _ _ _ _ _ T1) by exact Hi. done.
  - intros va. rewrite (tw_pentry _ _ _ _ _ _ T2). apply (tw_pentry _ _ _ _ _ _ T1).
  - intros va Hva Hp. rewrite (tw_pbyte _ _ _ _ _ _ T2), (tw_pbyte _ _ _ _ _ _ T1); try assumption; [done|].
    by apply (twins_present_p _ _ _ _ _ _ _ T1).
  - intros va Hva Hp. rewrite (tw_centry _ _ _ _ _ _ T2), (tw_centry _ _ _ _ _ _ T1); try assumption; [done|].
    eapply twins_present_c; eassumption.
  - intros va Hva Hp. rewrite (tw_cbyte _ _ _ _ _ _ T2), (tw_cbyte _ _ _ _ _ _ T1); try assumption; [done|].
    eapply twins_present_c; [eassumption|priv|assumption].
  - intros q Hq. apply (tw_foreign _ _ _ _ _ _ T2), (tw_foreign _ _ _ _ _ _ T1), Hq.
  - destruct (tw_mm _ _ _ _ _ _ T1), (tw_mm _ _ _ _ _ _ T2). split; congruence.
Qed.

Lemma untouched_trans s1 s2 s3 pgdir d l1 l2 :
  twins s1 s2 pgdir d l1 l2 -> untouched s1 s2 d l1 -> untouched s2 s3 d l2 -> untouched s1 s3 d l1.
Proof.
  intros T U1 U2 q x Hq Hx.
  rewrite (U2 q x (tw_foreign _ _ _ _ _ _ T q Hq) Hx). exact (U1 q x Hq Hx).
Qed.

(** A copied page stays a copy. *)
Lemma twins_copied s s' pgdir d l l' va : twins s s' pgdir d l l' -> private va ->
  copied s pgdir d va -> copied s' pgdir d va.
Proof.
  intros T Hva Hc Hp. apply (twins_present_p _ _ _ _ _ _ _ T) in Hp.
  destruct (Hc Hp) as [Hpc Hb]. split; [eapply twins_present_c; [eassumption|priv|assumption]|].
  rewrite (tw_cbyte _ _ _ _ _ _ T), (tw_pbyte _ _ _ _ _ _ T) by assumption. exact Hb.
Qed.

(** The walk, the new frame, the copy and the mapping of one page. *)
Lemma copy_step s pgdir d va l :
  user_wf s pgdir l -> user_wf s d l -> apart s pgdir d l ->
  private va -> va mod 4096 = 0 -> present s pgdir va -> ~ present s d va ->
  1 + table_missing s d va <= Z.of_nat (length l) ->
  exists p s1 s3 l3, pgdir_walk s pgdir va false = (slot s pgdir va, s) /\ slot s pgdir va <> 0 /\
    load32 s.(ram) (slot s pgdir va) = pt_entry s pgdir va /\
    kalloc_page s = (p, s1) /\ p <> 0 /\
    mappages (set_ram s1 (memmove s1.(ram) p (P2V (PTE_ADDR (pt_entry s pgdir va))) PGSIZE)) d va (V2P p)
      PGSIZE (PTE_FLAGS (pt_entry s pgdir va)) = Ret (0, s3) /\
    twins s s3 pgdir d l l3 /\ untouched s s3 d l /\
    (forall va', private va' -> same_page va va' -> copied s3 pgdir d va') /\
    (forall va', 0 <= va' < 4294967296 -> ~ same_page va va' -> pt_entry s3 d va' = pt_entry s d va') /\
    Z.of_nat (length l) <= 1 + table_missing s d va + Z.of_nat (length l3) /\
    has (pde_at s3 d (PDX va)) PTE_P = true.
Proof.
  intros Hp Hc Hap Hva Hal Hpres Habs Hl.
  destruct l as [|p l]; [unfold table_missing in Hl; destruct (has _ _); simpl in Hl; lia|].
  cbn [length] in *. pose proof (has_entry_pde _ _ _ Hpres) as Hh.
  destruct (frame_filled s d p (table_of (pt_entry s pgdir va)) l Hc) as [Ek Hfill].
  destruct (page_copied s pgdir d va p l Hp Hc Hap Hva Hal Hpres Habs ltac:(lia) _ _ eq_refl Hfill)
    as (s3 & l3 & E & T & U & Hcp & Hce & Hl3 & Hpd).
  eexists p, _, s3, l3. split; [by apply walk_present|].
  split; [eapply slot_nonzero; [apply Hp|exact Hh]|]. split; [by apply load_slot|].
  split; [exact Ek|]. split; [destruct (page_ok_range _ _ (fl_ok _ _ _ _ _ _ Hfill)); lia|].
  split; [exact E|]. split; [exact T|]. split; [exact U|]. split; [exact Hcp|]. split; [exact Hce|]. split; [lia|exact Hpd].
Qed.

Lemma copy_page_full s pgdir d va l :
  user_wf s pgdir l -> user_wf s d l -> apart s pgdir d l ->
  private va -> va mod 4096 = 0 -> present s pgdir va -> ~ present s d va ->
  1 + table_missing s d va <= Z.of_nat (length l) ->
  exists s' l', copy_page s pgdir d va = Ret (d, s') /\ twins s s' pgdir d l l' /\ untouched s s' d l /\
    (forall va', private va' -> same_page va va' -> copied s' pgdir d va') /\
    (forall va', 0 <= va' < 4294967296 -> ~ same_page va va' -> pt_entry s' d va' = pt_entry s d va') /\
    Z.of_nat (length l) <= 1 + table_missing s d va + Z.of_nat (length l').
Proof.
  intros Hp Hc Hap Hva Hal Hpres Habs Hl.
  destruct (copy_step s pgdir d va l Hp Hc Hap Hva Hal Hpres Habs Hl)
    as (p & s1 & s3 & l3 & Ew & Hs0 & Es & Ek & Hp0 & Em & T & U & Hcp & Hce & Hl3 & _).
  exists s3, l3. unfold copy_page. rewrite Ew, decide_False by exact Hs0. rewrite Es, Hpres. cbn [negb].
  rewrite Ek, decide_False, Em by exact Hp0. done.
Qed.

Lemma copy_page_ok s pgdir d va l :
  user_wf s pgdir l -> user_wf s d l -> apart s pgdir d l ->
  private va -> va mod 4096 = 0 -> present s pgdir va -> ~ present s d va ->
  1 + table_missing s d va <= Z.of_nat (length l) ->
  exists s' l', copy_page s pgdir d va = Ret (d, s') /\ twins s s' pgdir d l l' /\ untouched s s' d l /\
    (forall va', private va' -> same_page va va' -> copied s' pgdir d va').
Proof.
  intros Hp Hc Hap Hva Hal Hpres Habs Hl.
  destruct (copy_page_full s pgdir d va l Hp Hc Hap Hva Hal Hpres Habs Hl) as (s' & l' & E & T & U & Hcp & _). eauto 10.
Qed.

(** ** A store in one of two address spaces *)

Lemma foreign_not_owned s d l q : foreign s d l q -> ~ owned s d q.
Proof.
  intros (_ & H1 & H2) [[H|[H|H]]|(va & Hva & Hp & ->)].
  - apply H1. by left.
  - by apply elem_of_nil in H.
  - apply H1. right. by right.
  - by apply (H2 va).
Qed.

Lemma stored_owned s s' d l dst n q : stored s s' d l dst n -> owned s' d q -> owned s d q.
Proof.
  intros Hst [Hv|(va & Hva & Hp & ->)].
  - left. destruct Hv as [->|[Hv|(i & Hi & Hh & ->)]]; [by left|by apply elem_of_nil in Hv|].
    destruct (sd_pages _ _ _ _ _ _ Hst (table_of (pde_at s' d i))) as [H|[H|H]]; [right; right; eauto|by left| |right; by right].
    destruct (vw_tab _ _ _ (uw_vm _ _ _ (sd_wf _ _ _ _ _ _ Hst)) i Hi Hh) as (_ & Hn & _). by destruct Hn.
  - right. exists va. unfold present in *. rewrite (sd_entry _ _ _ _ _ _ Hst) in *. done.
Qed.

Lemma stored_other s s' d p l dst n :
  user_wf s p l -> apart s d p l -> stored s s' d l dst n -> priv_at s d dst n ->
  user_wf s' p l /\ apart s' d p l /\ (forall va, pt_entry s' p va = pt_entry s p va) /\
  (forall va, private va -> present s p va -> vbyte s' p va = vbyte s p va) /\
  (forall q, foreign s p l q -> foreign s' p l q).
Proof.
  intros Hp Hap Hst (_ & _ & Hat).
  assert (Hkeep : forall q x, owned s p q -> q <= x < q + 4096 -> s'.(ram) x = s.(ram) x).
  { intros q x Hq Hx. apply (sd_keep _ _ _ _ _ _ Hst). intros va Hva ->. destruct (Hat va Hva) as [Hpv Hpr].
    assert (Hf : foreign s p l (table_of (pt_entry s d va))) by (apply Hap; right; eauto).
    pose proof (translate_in s d va) as Ht. destruct (owned_page _ _ _ _ Hp Hq) as (Hqa & _ & _).
    pose proof (table_of_aligned (pt_entry s d va)).
    assert (q = table_of (pt_entry s d va)) as -> by modlia. by apply (foreign_not_owned _ _ _ _ Hf). }
  pose proof (bystander_entry s s' p Hkeep) as He. destruct (sd_mm _ _ _ _ _ _ Hst) as [Hm Hms].
  assert (Hfor : forall q, foreign s p l q -> foreign s' p l q).
  { intros q (H1 & H2 & H3). split; [exact H1|]. split.
    - intros H. apply H2. apply (bystander_pages s s' p l Hkeep) in H as [H|[H|[H|H]]];
        [right; by left|by left|by apply elem_of_nil in H|right; by right].
    - intros va Hva Hpr. unfold present in Hpr. rewrite He in *. by apply H3. }
  split; [|split; [|split; [exact He|split; [exact (bystander_byte s s' p Hkeep)|exact Hfor]]]].
  - apply (bystander_wf s s' p l l Hp); [apply (vw_free _ _ _ (uw_vm _ _ _ (sd_wf _ _ _ _ _ _ Hst)))|by left|exact Hkeep|exact Hm|exact Hms].
  - intros q Hq. apply Hfor, Hap, (stored_owned _ _ _ _ _ _ _ Hst Hq).
Qed.

(** ** Giving one of two address spaces back

    [free_vm] frees the tables and the directory, not the frames of the user. *)

(** The rest of the loop; [s0] is where it began. *)
Lemma free_vm_loop_ok s0 d l0 n : vm_wf s0 d l0 -> forall s i l, 0 <= i -> i + Z.of_nat n = 1024 ->
  free_wf s l -> s.(memsz) = s0.(memsz) -> s.(mem_start) = s0.(mem_start) ->
  (forall j, 0 <= j < 1024 -> pde_at s d j = pde_at s0 d j) -> d ∉ l ->
  (forall j, i <= j < 1024 -> has (pde_at s0 d j) PTE_P = true -> table_of (pde_at s0 d j) ∉ l) ->
  exists s' l', free_vm_loop n s d i = Ret s' /\ free_wf s' l' /\ s'.(memsz) = s0.(memsz) /\ s'.(mem_start) = s0.(mem_start) /\
    (d ∉ l') /\ (forall q, q ∈ l' -> q ∈ l \/ vm_page s0 d [] q) /\
    (forall q x, q mod 4096 = 0 -> ~ vm_page s0 d [] q -> q <= x < q + 4096 -> s'.(ram) x = s.(ram) x).
Proof.
  intros Hw. induction n as [|n IH]; intros s i l H0 Hi Hf Hm Hms Hpd Hd Ht; cbn [free_vm_loop].
  - exists s, l. split; [done|]. split; [exact Hf|]. split; [exact Hm|]. split; [exact Hms|]. split; [exact Hd|]. split; [by left|done].
  - change (load32 (ram s) (d + 4 * i)) with (pde_at s d i). rewrite Hpd by lia.
    destruct (has (pde_at s0 d i) PTE_P) eqn:Hh; [|apply IH; try assumption; [lia|lia|]; intros j Hj; apply Ht; lia].
    destruct (vw_tab _ _ _ Hw i ltac:(lia) Hh) as (T1 & T2 & T3). set (t := table_of (pde_at s0 d i)) in *.
    change (P2V (PTE_ADDR (pde_at s0 d i))) with t.
    assert (Hpt : page_ok s t) by (unfold page_ok; rewrite Hm, Hms; exact T1).
    destruct (kfree_page_ok s l t Hf Hpt ltac:(apply Ht; [lia|exact Hh])) as (s1 & -> & Hf1 & Hag & Hm1 & Hms1 & _).
    rewrite bind_Ret.
    assert (Hvt : vm_page s0 d [] t) by (right; right; exists i; split; [lia|done]).
    assert (Hpd1 : forall j, 0 <= j < 1024 -> pde_at s1 d j = pde_at s0 d j).
    { intros j Hj. rewrite <- Hpd by exact Hj. apply (slot_agree _ _ t); [exact Hag|apply T1|apply (vw_dir _ _ _ Hw)|exact T3|exact Hj]. }
    destruct (IH s1 (i + 1) (t :: l)) as (s' & l' & E & F' & M' & S' & D' & L' & K'); try assumption; try lia; try congruence.
    { apply not_elem_of_cons. split; [exact (not_eq_sym T3)|exact Hd]. }
    { intros j Hj Hhj. apply not_elem_of_cons. split; [|by apply Ht; [lia|]].
      intros E. apply (vw_inj _ _ _ Hw) in E; [lia|lia|lia|exact Hhj|exact Hh]. }
    exists s', l'. split; [exact E|]. split; [exact F'|]. split; [exact M'|]. split; [exact S'|]. split; [exact D'|]. split.
    + intros q Hq. destruct (L' q Hq) as [Hq'|Hq']; [|by right]. apply elem_of_cons in Hq' as [->|Hq']; [by right|by left].
    + intros q x Hqa Hqn Hx. rewrite (K' q x Hqa Hqn Hx). apply Hag.
      pose proof (page_disjoint q t Hqa (proj1 T1) ltac:(intros ->; by apply Hqn)). lia.
Qed.

Lemma free_vm_ok s d l : vm_wf s d l ->
  exists s' l', free_vm s d = Ret s' /\ free_wf s' l' /\ s'.(memsz) = s.(memsz) /\ s'.(mem_start) = s.(mem_start) /\
    (forall q, q ∈ l' -> q ∈ l \/ vm_page s d [] q) /\
    (forall q x, q mod 4096 = 0 -> ~ vm_page s d [] q -> q <= x < q + 4096 -> s'.(ram) x = s.(ram) x).
Proof.
  intros Hw. unfold free_vm. pose proof (page_ok_range _ _ (vw_dir _ _ _ Hw)). rewrite decide_False by lia.
  unfold dealloc_uvm. cbv beta iota zeta.
  destruct (free_vm_loop_ok s d l 1024 Hw s 0 l) as (s1 & l1 & -> & F1 & M1 & S1 & D1 & L1 & K1); try done; [apply Hw|apply Hw| |].
  { intros j Hj Hh. by apply (vw_tab _ _ _ Hw j). }
  rewrite bind_Ret. assert (Hpd : page_ok s1 d) by (unfold page_ok; rewrite M1, S1; apply Hw).
  destruct (kfree_page_ok s1 l1 d F1 Hpd D1) as (s2 & -> & F2 & Hag & M2 & S2 & _).
  exists s2, (d :: l1). split; [done|]. split; [exact F2|]. split; [congruence|]. split; [congruence|]. split.
  - intros q Hq. apply elem_of_cons in Hq as [->|Hq]; [right; by left|by apply L1].
  - intros q x Hqa Hqn Hx. rewrite <- (K1 q x Hqa Hqn Hx). apply Hag.
    pose proof (page_disjoint q d Hqa (proj1 Hpd) ltac:(intros ->; apply Hqn; by left)). lia.
Qed.

(** The other address space, and a page that belongs to neither. *)
Lemma free_vm_other s d p l q0 : user_wf s d l -> user_wf s p l -> apart s d p l -> foreign s d l q0 -> foreign s p l q0 ->
  exists s' l', free_vm s d = Ret s' /\ user_wf s' p l' /\ (forall va, pt_entry s' p va = pt_entry s p va) /\
    (forall va, private va -> present s p va -> vbyte s' p va = vbyte s p va) /\
    foreign s' p l' q0 /\ s'.(memsz) = s.(memsz).
Proof.
  intros Hd Hp Hap Hq1 Hq2. destruct (free_vm_ok s d l (uw_vm _ _ _ Hd)) as (s' & l' & E & Hf & Hm & Hms & Hl & Hk).
  assert (Hno : forall q, owned s p q -> ~ vm_page s d [] q).
  { intros q Hq Hv. by apply (foreign_not_owned s p l q (Hap q (or_introl Hv))). }
  assert (Hkeep : forall q x, owned s p q -> q <= x < q + 4096 -> s'.(ram) x = s.(ram) x).
  { intros q x Hq. apply Hk; [apply (owned_page _ _ _ _ Hp Hq)|by apply Hno]. }
  pose proof (bystander_entry s s' p Hkeep) as He.
  exists s', l'. split; [exact E|]. split; [|split; [exact He|split; [exact (bystander_byte s s' p Hkeep)|split; [|exact Hm]]]].
  - apply (bystander_wf s s' p l l' Hp Hf); [|exact Hkeep|exact Hm|exact Hms].
    intros q Hq. destruct (Hl q Hq) as [H|H]; [by left|right]. intros Ho. by apply (Hno q).
  - destruct Hq2 as (A1 & A2 & A3). split; [exact A1|]. split.
    + intros H. apply (bystander_pages s s' p l' Hkeep) in H as [H|[H|[H|H]]]; [|apply A2; by left|by apply elem_of_nil in H|apply A2; right; by right].
      destruct (Hl q0 H) as [H'|[H'|[H'|H']]]; [apply A2; right; by left| |by apply elem_of_nil in H'|];
        destruct Hq1 as (_ & B2 & _); apply B2; [by left|right; by right].
    + intros va Hva Hpr. unfold present in Hpr. rewrite He in *. by apply A3.
Qed.

(** ** Copying the program *)

Lemma tables_needed_skip s d i e : 0 <= i -> i + 4096 <= e < 4294967296 ->
  tables_needed s d (i + 4096) e <= tables_needed s d i e.
Proof.
  intros H0 H1. unfold tables_needed. pose proof (PDX_next i H0 ltac:(lia)).
  destruct (decide (PDX (i + 4096) = PDX i)) as [->|Hne]; [lia|].
  destruct (has (pde_at s d (PDX (i + 4096))) PTE_P), (has (pde_at s d (PDX i)) PTE_P); lia.
Qed.

(** One round of the loop: a hole is skipped, a page is copied. *)
Lemma copy_round s pgdir d sz i l f :
  user_wf s pgdir l -> user_wf s d l -> apart s pgdir d l ->
  0 <= i < sz -> sz < KERNBASE -> i mod 4096 = 0 -> has (pde_at s pgdir (PDX i)) PTE_P = true ->
  (forall va, i <= va < KERNBASE -> ~ present s d va) ->
  1 + table_missing s d i <= Z.of_nat (length l) ->
  exists s' l', copy_uvm_loop (S f) s pgdir d i sz = copy_uvm_loop f s' pgdir d (u32 (i + PGSIZE)) sz /\
    twins s s' pgdir d l l' /\ untouched s s' d l /\
    (forall va, i <= va < i + 4096 -> copied s' pgdir d va) /\
    (forall va, i + 4096 <= va < KERNBASE -> ~ present s' d va) /\
    ((l' = l /\ s' = s) \/ Z.of_nat (length l) <= 1 + table_missing s d i + Z.of_nat (length l') /\
       has (pde_at s' d (PDX i)) PTE_P = true).
Proof.
  unfold KERNBASE. intros Hp Hc Hap Hi Hsz Hal Htab Habs Hl.
  assert (Hsp : forall va, i <= va < i + 4096 -> same_page i va) by (intros va Hva; apply aligned_same_page; lia).
  cbn [copy_uvm_loop]. rewrite decide_True by lia.
  destruct (has (pt_entry s pgdir i) PTE_P) eqn:Hpr.
  - destruct (copy_step s pgdir d i l Hp Hc Hap ltac:(priv) Hal Hpr (Habs i ltac:(lia)) Hl)
      as (p & s1 & s3 & l3 & Ew & Hs0 & Es & Ek & Hp0 & Em & T & U & Hcp & Hce & Hl3 & Hpd).
    exists s3, l3. rewrite Ew, decide_False by exact Hs0. rewrite Es, Hpr. cbn [negb].
    rewrite Ek, decide_False, Em by exact Hp0. split; [done|]. split; [exact T|]. split; [exact U|].
    split; [intros va Hva; apply Hcp; [unfold private, KERNBASE; modlia|apply Hsp, Hva]|].
    split; [|right; split; [exact Hl3|exact Hpd]].
    intros va Hva. unfold present. rewrite Hce; [apply (Habs va); lia|lia|].
    rewrite aligned_same_page by lia. lia.
  - exists s, l. rewrite walk_present by exact Htab. fold (slot s pgdir i).
    rewrite decide_False by (eapply slot_nonzero; [apply Hp|exact Htab]).
    rewrite load_slot, Hpr by exact Htab. split; [done|]. split; [by apply twins_refl|]. split; [done|].
    split; [|split; [intros va Hva; apply Habs; lia|by left]].
    intros va Hva Hpv. unfold present in Hpv. rewrite <- (pt_entry_page s pgdir i va (Hsp va Hva)) in Hpv. congruence.
Qed.

Lemma copy_uvm_loop_ok pgdir d sz n : forall s i l,
  user_wf s pgdir l -> user_wf s d l -> apart s pgdir d l ->
  0 <= i -> i mod 4096 = 0 -> sz <= i + 4096 * Z.of_nat n -> i + 4096 * Z.of_nat n < KERNBASE ->
  4096 * Z.of_nat n < sz - i + 4096 ->
  (forall va, i <= va < sz -> has (pde_at s pgdir (PDX va)) PTE_P = true) ->
  (forall va, i <= va < KERNBASE -> ~ present s d va) ->
  (n = 0%nat \/ Z.of_nat n + tables_needed s d i (i + 4096 * Z.of_nat n - 1) <= Z.of_nat (length l)) ->
  exists s' l', copy_uvm_loop n s pgdir d i sz = Ret (d, s') /\ twins s s' pgdir d l l' /\ untouched s s' d l /\
    (forall va, i <= va < i + 4096 * Z.of_nat n -> copied s' pgdir d va) /\
    (forall va, i + 4096 * Z.of_nat n <= va < KERNBASE -> ~ present s' d va) /\
    (match n with
     | O => l' = l
     | S _ => Z.of_nat (length l) <=
         Z.of_nat n + tables_needed s d i (i + 4096 * Z.of_nat n - 1) + Z.of_nat (length l')
     end).
Proof.
  induction n as [|n IH]; intros s i l Hp Hc Hap H0 Hal Hsz Hlim Htight Htab Habs Hl.
  - exists s, l. cbn [copy_uvm_loop]. rewrite decide_False by lia. split; [done|].
    split; [by apply twins_refl|]. split; [done|]. split; [intros va Hva; lia|]. split; [|done].
    intros va Hva. apply Habs. lia.
  - destruct Hl as [|Hl]; [done|]. unfold KERNBASE in *.
    set (e := i + 4096 * Z.of_nat (S n) - 1) in *.
    assert (Hmono : PDX i <= PDX e) by (apply PDX_mono; lia).
    assert (Htm : 0 <= table_missing s d i <= tables_needed s d i e)
      by (unfold table_missing, tables_needed; destruct (has _ _); lia).
    destruct (copy_round s pgdir d sz i l n Hp Hc Hap) as (s1 & l1 & E & T & U & Hcp & Hab & Hl1);
      try (unfold KERNBASE; (assumption || lia)). { apply Htab. lia. }
    assert (Hneed : n = 0%nat \/ tables_needed s1 d (i + 4096) e + Z.of_nat (length l) <=
      1 + tables_needed s d i e + Z.of_nat (length l1)).
    { destruct n; [by left|right]. destruct Hl1 as [[-> ->]|[Hl1 Hpd]].
      - pose proof (tables_needed_skip s d i e ltac:(lia) ltac:(lia)). lia.
      - pose proof (tables_needed_next s s1 d i e ltac:(lia) ltac:(lia) Hpd).
        unfold table_missing in Hl1. lia. }
    rewrite E. unfold PGSIZE. rewrite u32_small by lia.
    destruct (IH s1 (i + 4096) l1 (tw_parent _ _ _ _ _ _ T) (tw_child _ _ _ _ _ _ T) (tw_apart _ _ _ _ _ _ T))
      as (s2 & l2 & E2 & T2 & U2 & Hcp2 & Hab2 & Hl2); unfold KERNBASE in *; try lia.
    { modlia. }
    { intros va Hva. rewrite (tw_ppde _ _ _ _ _ _ T) by apply PDX_range. apply Htab. lia. }
    { exact Hab. }
    { replace (i + 4096 + 4096 * Z.of_nat n - 1) with e by lia.
      destruct Hneed as [|Hneed]; [by left|right]. lia. }
    exists s2, l2. split; [exact E2|]. split; [exact (twins_trans _ _ _ _ _ _ _ _ T T2)|].
    split; [exact (untouched_trans _ _ _ _ _ _ _ T U U2)|].
    split; [|split].
    + intros va Hva. destruct (decide (va < i + 4096)) as [Hd|Hd]; [|apply Hcp2; lia].
      apply (twins_copied _ _ _ _ _ _ _ T2); [priv|]. apply Hcp. lia.
    + intros va Hva. apply Hab2. lia.
    + fold e. destruct n as [|n]; [subst l2; destruct Hl1 as [[-> _]|[Hl1 _]]; lia|].
      destruct Hneed as [|Hneed]; [done|].
      replace (i + 4096 + 4096 * Z.of_nat (S n) - 1) with e in Hl2 by lia. lia.
Qed.

(** A write into a page of neither space. *)
Lemma twins_write s m' pgdir d l k :
  user_wf s pgdir l -> user_wf s d l -> apart s pgdir d l ->
  foreign s d l k -> ~ owned s pgdir k ->
  agree_outside k (k + 4096) s.(ram) m' -> bytes_ok m' ->
  twins s (set_ram s m') pgdir d l l /\ forall va, pt_entry (set_ram s m') d va = pt_entry s d va.
Proof.
  intros Hp Hc Hap Hk Hno Hag Hok.
  destruct (foreign_write s d l k m' Hc Hk Hag Hok) as (Hw & He & Hf & Hb).
  assert (Hkeep : forall q x, owned s pgdir q -> q <= x < q + 4096 -> (set_ram s m').(ram) x = s.(ram) x).
  { intros q x Hq Hx. apply Hag. destruct (owned_page _ _ _ _ Hp Hq) as (Hqa & _).
    destruct (decide (q = k)) as [->|Hne]; [done|]. pose proof (page_disjoint q k Hqa (proj1 Hk) Hne). lia. }
  split; [|exact He]. constructor; [|exact Hw|..].
  - apply (bystander_wf s (set_ram s m') pgdir l l Hp); [apply (vw_free _ _ _ (uw_vm _ _ _ Hw))|by left|exact Hkeep|done|done].
  - intros q Hq. apply Hf, Hap, (bystander_owned s (set_ram s m') pgdir Hkeep), Hq.
  - exact (bystander_pde s (set_ram s m') pgdir Hkeep).
  - exact (bystander_entry s (set_ram s m') pgdir Hkeep).
  - exact (bystander_byte s (set_ram s m') pgdir Hkeep).
  - intros va _ _. apply He.
  - exact Hb.
  - exact Hf.
  - done.
Qed.

(** ** The two address spaces when the child's directory has been made *)

Record forking (s s' : mm) (pgdir d k : Z) (l l' : list Z) : Prop := {
  fk_parent : user_wf s' pgdir l';
  fk_child : user_wf s' d l';
  fk_apart : apart s' pgdir d l';
  fk_empty : forall va, private va -> ~ present s' d va;
  fk_stack : foreign s' d l' k /\ ~ owned s' pgdir k;
  fk_foreign : forall q, q mod 4096 = 0 -> q ∉ k :: d :: l -> foreign s' d l' q;
  fk_pde : forall i, 0 <= i < 1024 -> pde_at s' pgdir i = pde_at s pgdir i;
  fk_entry : forall va, pt_entry s' pgdir va = pt_entry s pgdir va;
  fk_byte : forall va, private va -> present s pgdir va -> vbyte s' pgdir va = vbyte s pgdir va;
  fk_keeps : forall q x, q mod 4096 = 0 -> q ∉ k :: d :: l -> q <= x < q + 4096 -> s'.(ram) x = s.(ram) x;
  fk_cost : Z.of_nat (length l) <= s.(memsz) * 1024 / 4194304 + 4 + Z.of_nat (length l');
  fk_memsz : s'.(memsz) = s.(memsz)
}.

Section Setup.
Context (kdata : Z) (s m0 : mm) (pgdir k d : Z) (l : list Z).
Context (Hp : user_wf s pgdir (k :: d :: l)).
Context (Hf0 : free_wf m0 (d :: l)) (Hag0 : agree_outside k (k + 4096) s.(ram) m0.(ram)).
Context (Hm0 : m0.(memsz) = s.(memsz)) (Hs0 : m0.(mem_start) = s.(mem_start)).
Context (Hdata : KERNLINK < kdata) (Hdal : kdata mod 4096 = 0).
Context (Hram : kdata - KERNBASE < s.(memsz) * 1024 <= HEAP_START - KERNBASE).
Context (Hl : s.(memsz) * 1024 / 4194304 + 4 <= Z.of_nat (length l)).

Lemma fork_spaces : exists m1 l1, mapkvm kdata m0 = Ret (d, m1) /\ d <> 0 /\ forking s m1 pgdir d k l l1.
Proof.
  pose proof (vw_free _ _ _ (uw_vm _ _ _ Hp)) as Hf.
  pose proof (fw_nodup _ _ Hf) as Hnd. apply NoDup_cons in Hnd as [Hkdl _].
  pose proof (fw_pages _ _ Hf) as Hpg. apply Forall_cons in Hpg as [Hkp Hpg]. apply Forall_cons in Hpg as [Hdp _].
  destruct (mapkvm_ok kdata m0 d l Hf0 Hdata Hdal) as (m1 & l1 & E1 & Hk);
    [rewrite Hm0; unfold HEAP_START, KERNBASE in *; lia|rewrite Hm0; lia|].
  unfold KERNLINK, KERNBASE, HEAP_START, EXTMEM in Hdata, Hram.
  destruct (kvm_user_wf _ _ _ _ _ _ Hk) as (Huw & Hemp & Hfor);
    [unfold page_ok; rewrite Hm0, Hs0; exact Hdp|rewrite Hm0; unfold HEAP_START, KERNBASE; lia|].
  assert (Hkeeps : forall q x, q mod 4096 = 0 -> q ∉ k :: d :: l -> q <= x < q + 4096 -> m1.(ram) x = s.(ram) x).
  { intros q x Hq Hn Hx. apply not_elem_of_cons in Hn as [Hqk Hn]. apply not_elem_of_cons in Hn as [Hqd Hn].
    rewrite (kb_keeps _ _ _ _ _ _ Hk q x Hq Hqd Hn Hx). apply Hag0.
    pose proof (page_disjoint q k Hq (proj1 Hkp) Hqk). lia. }
  assert (Hkeep : forall q x, owned s pgdir q -> q <= x < q + 4096 -> m1.(ram) x = s.(ram) x).
  { intros q x Hq. destruct (owned_page _ _ _ _ Hp Hq) as (Hqa & _ & Hqn). by apply Hkeeps. }
  assert (Hfor' : forall q, q mod 4096 = 0 -> q ∉ k :: d :: l -> foreign m1 d l1 q).
  { intros q Hq Hn. apply not_elem_of_cons in Hn as [Hqk Hn]. apply not_elem_of_cons in Hn as [Hqd Hn]. auto. }
  assert (Hown : forall q, owned m1 pgdir q -> owned s pgdir q) by exact (bystander_owned s m1 pgdir Hkeep).
  exists m1, l1. split; [exact E1|]. split; [destruct (page_ok_range _ _ Hdp); lia|]. constructor.
  - apply (bystander_wf s m1 pgdir _ l1 Hp); [apply Huw| |exact Hkeep|..].
    + intros q Hq. destruct (kb_free _ _ _ _ _ _ Hk) as [u ->]. left. do 2 right. apply elem_of_app. by right.
    + rewrite (kb_memsz _ _ _ _ _ _ Hk). exact Hm0.
    + rewrite (kb_start _ _ _ _ _ _ Hk). exact Hs0.
  - exact Huw.
  - intros q Hq. destruct (owned_page _ _ _ _ Hp (Hown q Hq)) as (Hqa & _ & Hqn). by apply Hfor'.
  - exact Hemp.
  - apply not_elem_of_cons in Hkdl as [Hkd Hkl]. split; [apply (Hfor k (proj1 Hkp) Hkd Hkl)|].
    intros Hq. destruct (owned_page _ _ _ _ Hp (Hown k Hq)) as (_ & _ & Hqn). apply Hqn. left.
  - exact Hfor'.
  - exact (bystander_pde s m1 pgdir Hkeep).
  - exact (bystander_entry s m1 pgdir Hkeep).
  - exact (bystander_byte s m1 pgdir Hkeep).
  - exact Hkeeps.
  - pose proof (kb_cost _ _ _ _ _ _ Hk) as H. rewrite Hm0 in H. exact H.
  - rewrite (kb_memsz _ _ _ _ _ _ Hk). exact Hm0.
Qed.

End Setup.

(** ** The whole call *)

(** The child [i] of the task [c] after [fork]. *)
Record forked (s s' : kern) (i c : nat) (k d : Z) : Prop := {
  fd_task : tasks s' i = with_next (with_state (with_parent (with_sz (with_pgdir (new_task s i k) d)
              (t_sz (tasks s c))) (Some c)) TS_RUNNABLE) (rootp s);
  fd_root : rootp s' = Some i;
  fd_others : forall j, j <> i -> tasks s' j = tasks s j;
  fd_rest : current s' = Some c /\ inittask s' = inittask s /\ nextpid s' = nextpid s + 1;
  fd_spaces : exists l', user_wf (kmm s') (t_pgdir (tasks s c)) l' /\ user_wf (kmm s') d l' /\
    apart (kmm s') (t_pgdir (tasks s c)) d l' /\ foreign (kmm s') d l' k /\ ~ owned (kmm s') (t_pgdir (tasks s c)) k /\
    foreign (kmm s') d l' (t_tf (tasks s c) - t_tf (tasks s c) mod 4096);
  fd_pde : forall j, 0 <= j < 1024 -> pde_at (kmm s') (t_pgdir (tasks s c)) j = pde_at (kmm s) (t_pgdir (tasks s c)) j;
  fd_frame : forall x, t_tf (tasks s c) <= x < t_tf (tasks s c) + TF_SIZE -> ram (kmm s') x = ram (kmm s) x;
  fd_parent : forall va, pt_entry (kmm s') (t_pgdir (tasks s c)) va = pt_entry (kmm s) (t_pgdir (tasks s c)) va;
  fd_bytes : forall va, private va -> present (kmm s) (t_pgdir (tasks s c)) va ->
    vbyte (kmm s') (t_pgdir (tasks s c)) va = vbyte (kmm s) (t_pgdir (tasks s c)) va;
  fd_copy : forall va, 0 <= va < t_sz (tasks s c) \/ USTACKTOP - PGSIZE <= va < USTACKTOP ->
    copied (kmm s') (t_pgdir (tasks s c)) d va;
  fd_regs : forall j, 0 <= j < TF_SIZE -> ~ (TF_EAX <= j < TF_EAX + 4) ->
    ram (kmm s') (t_tf (tasks s' i) + j) = ram (kmm s) (t_tf (tasks s c) + j);
  fd_eax : load32 (ram (kmm s')) (t_tf (tasks s' i) + TF_EAX) = 0
}.

Lemma twins_owned s s' pgdir d l l' q : twins s s' pgdir d l l' -> owned s' pgdir q -> owned s pgdir q.
Proof.
  intros T [[H|[H|(i & Hi & Hh & H)]]|(va & Hva & Hp & H)].
  - left. by left.
  - apply elem_of_nil in H. done.
  - rewrite (tw_ppde _ _ _ _ _ _ T) in Hh, H by exact Hi. left. right. right. eauto.
  - unfold present in Hp. rewrite (tw_pentry _ _ _ _ _ _ T) in Hp, H. right. eauto.
Qed.

Section Memory.
Context (m : mm) (m1 : mm) (pgdir d k sz : Z) (l l1 : list Z).
Context (Hfk : forking m m1 pgdir d k l l1).
Context (Hsz : 0 <= sz <= USTACKTOP - PGSIZE).
Context (Htab : forall va, 0 <= va < sz -> has (pde_at m pgdir (PDX va)) PTE_P = true).
Context (Hstk : forall va, USTACKTOP - PGSIZE <= va < USTACKTOP -> present m pgdir va).

(** [copy_uvm] after the directory. *)
Lemma program_copied : region_cost 0 sz + stack_cost <= Z.of_nat (length l1) ->
  exists m2 l2, copy_uvm_loop (Z.to_nat ((sz + PGSIZE - 1) / PGSIZE)) m1 pgdir d 0 sz = Ret (d, m2) /\
    twins m1 m2 pgdir d l1 l2 /\ untouched m1 m2 d l1 /\
    (forall va, 0 <= va < sz -> copied m2 pgdir d va) /\
    (forall va, USTACKTOP - PGSIZE <= va < USTACKTOP -> ~ present m2 d va) /\
    stack_cost <= Z.of_nat (length l2).
Proof.
  intros Hcost. unfold USTACKTOP, KERNBASE, PGSIZE, region_cost in *.
  assert (Hsc : stack_cost = 3) by reflexivity.
  set (n := Z.to_nat ((sz + 4096 - 1) / 4096)).
  assert (Hn : Z.of_nat n = (sz + 4096 - 1) / 4096) by (unfold n; modlia).
  assert (Htn : n = 0%nat \/ tables_needed m1 d 0 (0 + 4096 * Z.of_nat n - 1) <= sz / 4194304 + 1).
  { destruct n as [|n'] eqn:En; [by left|right]. eapply Z.le_trans; [apply tables_needed_le|].
    rewrite !PDX_div, !u32_small by modlia. modlia. }
  destruct (copy_uvm_loop_ok pgdir d sz n m1 0 l1 (fk_parent _ _ _ _ _ _ _ Hfk) (fk_child _ _ _ _ _ _ _ Hfk)
              (fk_apart _ _ _ _ _ _ _ Hfk)) as (m2 & l2 & E & T & U & Hc & Ha & Hl2);
    unfold KERNBASE in *; try (reflexivity || lia || modlia).
  { intros va Hva. rewrite (fk_pde _ _ _ _ _ _ _ Hfk) by apply PDX_range. apply Htab. lia. }
  { intros va Hva. apply (fk_empty _ _ _ _ _ _ _ Hfk). priv. }
  exists m2, l2. split; [exact E|]. split; [exact T|]. split; [exact U|].
  split; [intros va Hva; apply Hc; modlia|]. split; [intros va Hva; apply Ha; modlia|].
  destruct n; [subst l2; modlia|]. destruct Htn as [|Htn]; [done|]. modlia.
Qed.

(** The rest of the memory work of [fork]: trap frame, stack page, result 0. *)
Context (q tf : Z) (Hq : q mod 4096 = 0) (Hql : q ∉ k :: d :: l) (Htf : q <= tf /\ tf + TF_SIZE <= q + 4096).

Lemma fork_memory m2 l2 :
  twins m1 m2 pgdir d l1 l2 -> untouched m1 m2 d l1 ->
  (forall va, 0 <= va < sz -> copied m2 pgdir d va) ->
  (forall va, USTACKTOP - PGSIZE <= va < USTACKTOP -> ~ present m2 d va) ->
  stack_cost <= Z.of_nat (length l2) ->
  let m3 := set_ram m2 (write_bytes m2.(ram) (k + 4016) (read_bytes m2.(ram) tf (Z.to_nat TF_SIZE))) in
  exists m4 l4, copy_page m3 pgdir d (USTACKTOP - PGSIZE) = Ret (d, m4) /\
    let m5 := set_ram m4 (store32 m4.(ram) (k + 4016 + TF_EAX) 0) in
    twins m1 m5 pgdir d l1 l4 /\
    (forall va, 0 <= va < sz \/ USTACKTOP - PGSIZE <= va < USTACKTOP -> copied m5 pgdir d va) /\
    (forall j, 0 <= j < TF_SIZE -> ~ (TF_EAX <= j < TF_EAX + 4) -> m5.(ram) (k + 4016 + j) = m.(ram) (tf + j)) /\
    load32 m5.(ram) (k + 4016 + TF_EAX) = 0 /\
    (forall x, q <= x < q + 4096 -> m5.(ram) x = m.(ram) x).
Proof.
  intros T U Hcp Habs Hc2 m3. unfold TF_EAX, TF_SIZE, USTACKTOP, KERNBASE, PGSIZE in *.
  destruct (fk_stack _ _ _ _ _ _ _ Hfk) as [Hk1 Hno1].
  pose proof (tw_foreign _ _ _ _ _ _ T k Hk1) as Hk2.
  assert (Hno2 : ~ owned m2 pgdir k) by (intros H; apply Hno1, (twins_owned _ _ _ _ _ _ _ T), H).
  pose proof (fw_bytes _ _ (vw_free _ _ _ (uw_vm _ _ _ (tw_child _ _ _ _ _ _ T)))) as Hb2.
  assert (Hag3 : agree_outside k (k + 4096) m2.(ram) m3.(ram)).
  { eapply agree_outside_weaken; [| |apply write_bytes_outside]; rewrite ?length_read_bytes; lia. }
  destruct (twins_write m2 (ram m3) pgdir d l2 k) as [T3 He3];
    [apply T|apply T|apply T|exact Hk2|exact Hno2|exact Hag3|..].
  { apply write_bytes_ok; [exact Hb2|]. apply Forall_forall. intros b Hb.
    apply list_elem_of_In, in_map_iff in Hb as (x & <- & _). apply Hb2. }
  change (set_ram m2 (ram m3)) with m3 in *.
  pose proof (twins_trans _ _ _ _ _ _ _ _ T T3) as T13.
  assert (Htm : table_missing m3 d (2147483648 - 4096) <= 1) by (unfold table_missing; destruct (has _ _); lia).
  assert (Hsc : stack_cost = 3) by reflexivity.
  destruct (copy_page_ok m3 pgdir d (2147483648 - 4096) l2) as (m4 & l4 & E4 & T4 & U4 & Hc4);
    [apply T3|apply T3|apply T3|priv|reflexivity|..|lia|].
  { apply (twins_present_p _ _ _ _ _ _ _ T13).
    unfold present. rewrite (fk_entry _ _ _ _ _ _ _ Hfk). apply Hstk. lia. }
  { unfold present. rewrite He3. apply Habs. lia. }
  pose proof (twins_trans _ _ _ _ _ _ _ _ T13 T4) as T14.
  exists m4, l4. split; [exact E4|]. set (m5 := set_ram m4 _).
  destruct (twins_write m4 (ram m5) pgdir d l4 k) as [T5 _]; [apply T4|apply T4|apply T4|..].
  { apply (tw_foreign _ _ _ _ _ _ T14), Hk1. }
  { intros H. apply Hno1, (twins_owned _ _ _ _ _ _ _ T14), H. }
  { eapply agree_outside_weaken; [| |apply store32_outside]; lia. }
  { apply store32_bytes_ok, (fw_bytes _ _ (vw_free _ _ _ (uw_vm _ _ _ (tw_child _ _ _ _ _ _ T4)))). }
  change (set_ram m4 (ram m5)) with m5 in *.
  split; [exact (twins_trans _ _ _ _ _ _ _ _ T14 T5)|]. split; [|split; [|split; [apply load32_store32_same|]]].
  - intros va Hva. apply (twins_copied _ _ _ _ _ _ _ T5); [priv|]. destruct Hva as [Hva|Hva].
    + apply (twins_copied _ _ _ _ _ _ _ T4), (twins_copied _ _ _ _ _ _ _ T3), Hcp; exact Hva || priv.
    + apply Hc4; [priv|apply aligned_same_page; reflexivity || lia].
  - intros j Hj Hne. unfold m5. cbn [ram set_ram]. rewrite store32_outside by lia.
    rewrite (U4 k) by (exact (tw_foreign _ _ _ _ _ _ T3 k Hk2) || lia).
    unfold m3. cbn [ram set_ram]. unfold write_bytes. rewrite length_read_bytes, decide_True by lia.
    replace (k + 4016 + j - (k + 4016)) with j by lia. rewrite nth_read_bytes, Z2Nat.id by lia.
    rewrite (U q) by (apply (fk_foreign _ _ _ _ _ _ _ Hfk q Hq Hql) || lia).
    apply (fk_keeps _ _ _ _ _ _ _ Hfk q); (assumption || lia).
  - intros x Hx. pose proof (fk_foreign _ _ _ _ _ _ _ Hfk q Hq Hql) as Hf.
    assert (Hqk : q + 4096 <= k \/ k + 4096 <= q).
    { pose proof (page_disjoint q k Hq (proj1 Hk1)). assert (q <> k) by (intros ->; apply Hql; left). lia. }
    unfold m5. cbn [ram set_ram]. rewrite store32_outside by lia. rewrite (U4 q) by (exact (tw_foreign _ _ _ _ _ _ T13 q Hf) || lia).
    rewrite Hag3 by lia. rewrite (U q) by (exact Hf || lia). apply (fk_keeps _ _ _ _ _ _ _ Hfk q); (assumption || lia).
Qed.

End Memory.

Section ForkOk.
Context (trap_ret do_nothing kdata : Z) (s : kern) (i c : nat) (k d q : Z) (l : list Z).

(** The calling task is [c], the free slot [i], and the free list begins with
    the stack [k] and the directory [d] of the child; [q] is the page of the
    caller's trap frame. *)
Context (Hslot : free_slot s = Some i) (Hcur : current s = Some c) (Hci : c <> i).
Context (Huw : user_wf (kmm s) (t_pgdir (tasks s c)) (k :: d :: l)).
Context (Hdata : KERNLINK < kdata) (Hdal : kdata mod 4096 = 0).
Context (Hram : kdata - KERNBASE < (kmm s).(memsz) * 1024 <= HEAP_START - KERNBASE).
Context (Hl : (kmm s).(memsz) * 1024 / 4194304 + 4 + region_cost 0 (t_sz (tasks s c)) + stack_cost
              <= Z.of_nat (length l)).
Context (Hsz : 0 <= t_sz (tasks s c) <= USTACKTOP - PGSIZE).
Context (Htab : forall va, 0 <= va < t_sz (tasks s c) ->
  has (pde_at (kmm s) (t_pgdir (tasks s c)) (PDX va)) PTE_P = true).
Context (Hstk : forall va, USTACKTOP - PGSIZE <= va < USTACKTOP ->
  present (kmm s) (t_pgdir (tasks s c)) va).
Context (Hq : q mod 4096 = 0) (Hql : q ∉ k :: d :: l).
Context (Htf : q <= t_tf (tasks s c) /\ t_tf (tasks s c) + TF_SIZE <= q + 4096).

Lemma fork_ok :
  exists s', fork trap_ret do_nothing kdata s = Ret (s', u32 (nextpid s)) /\ forked s s' i c k d.
Proof.
  destruct (task_alloc_ok trap_ret do_nothing s i k _ Hslot (vw_free _ _ _ (uw_vm _ _ _ Huw)))
    as (m0 & E0 & Hf0 & Hag0 & Hm0 & Hs0 & _).
  pose proof (fw_pages _ _ (vw_free _ _ _ (uw_vm _ _ _ Huw))) as Hpg. apply Forall_cons in Hpg as [[Hkal _] _].
  assert (Hrc : 0 <= region_cost 0 (t_sz (tasks s c)) + stack_cost).
  { change stack_cost with 3. unfold region_cost. modlia. }
  destruct (fork_spaces kdata (kmm s) m0 _ k d l Huw Hf0 Hag0 Hm0 Hs0 Hdata Hdal Hram ltac:(lia))
    as (m1 & l1 & E1 & Hd0 & Hfk).
  assert (Hc1 : region_cost 0 (t_sz (tasks s c)) + stack_cost <= Z.of_nat (length l1))
    by (pose proof (fk_cost _ _ _ _ _ _ _ Hfk); lia).
  destruct (program_copied (kmm s) m1 _ d k _ l l1 Hfk Hsz Htab Hc1) as (m2 & l2 & E2 & T & U & Hcp & Hab & Hl2).
  destruct (fork_memory (kmm s) m1 _ d k _ l l1 Hfk Hsz Hstk q (t_tf (tasks s c)) Hq Hql Htf m2 l2 T U Hcp Hab Hl2)
    as (m4 & l4 & E4 & T5 & Hcp5 & Hregs & Heax & Hpage).
  eexists. split.
  - unfold fork. rewrite E0. cbn [current]. rewrite Hcur. cbn [deref]. rewrite bind_Ret.
    cbn [tasks kmm]. rewrite (upd_other _ _ _ c) by exact Hci. unfold copy_uvm. rewrite E1. cbn [mbind outcome_bind].
    rewrite decide_False by exact Hd0. rewrite E2. cbn [mbind outcome_bind].
    rewrite decide_False by exact Hd0. cbn [tasks kmm set_task set_kmm].
    repeat (rewrite upd_same || rewrite (upd_other _ _ _ c) by exact Hci).
    cbn [t_tf t_pgdir with_parent with_sz with_pgdir new_task]. rewrite E4. cbn [mbind outcome_bind].
    rewrite decide_False by exact Hd0. reflexivity.
  - assert (Eq : t_tf (tasks s c) - t_tf (tasks s c) mod 4096 = q) by (unfold TF_SIZE in Htf; modlia).
    assert (Hown : ~ owned _ (t_pgdir (tasks s c)) k) by (intros H; exact (proj2 (fk_stack _ _ _ _ _ _ _ Hfk) (twins_owned _ _ _ _ _ _ _ T5 H))).
    destruct T5 as [Hw1 Hw2 Hw3 Hpd Hpe Hpb _ _ Hfo _].
    constructor; cbn [tasks rootp current inittask nextpid kmm task_link set_rootp set_task set_kmm];
      rewrite ?upd_same; cbn [t_tf with_next with_state with_parent with_sz with_pgdir new_task].
    + reflexivity.
    + reflexivity.
    + intros j Hj. rewrite !upd_other by exact Hj. reflexivity.
    + repeat split.
    + exists l4. split; [exact Hw1|]. split; [exact Hw2|]. split; [exact Hw3|]. split; [exact (Hfo k (proj1 (fk_stack _ _ _ _ _ _ _ Hfk)))|]. split; [exact Hown|].
      rewrite Eq. apply Hfo, (fk_foreign _ _ _ _ _ _ _ Hfk q Hq Hql).
    + intros j Hj. rewrite Hpd by exact Hj. apply (fk_pde _ _ _ _ _ _ _ Hfk), Hj.
    + intros x Hx. apply Hpage. lia.
    + intros va. rewrite Hpe. apply (fk_entry _ _ _ _ _ _ _ Hfk).
    + intros va Hva Hp. rewrite Hpb; [apply (fk_byte _ _ _ _ _ _ _ Hfk va Hva Hp)|exact Hva|].
      unfold present. rewrite (fk_entry _ _ _ _ _ _ _ Hfk). exact Hp.
    + exact Hcp5.
    + exact Hregs.
    + exact Heax.
Qed.

End ForkOk.

(** A task with one page of program and a stack, and [n] pages left. *)
Lemma demo_space :
  exists m d l, user_wf m d l /\ (33 <= length l)%nat /\ m.(memsz) = 8192 /\ m.(mem_start) = 2149580800 /\
    priv_at m d 4096 4096 /\ priv_at m d (USTACKTOP - PGSIZE) PGSIZE.
Proof.
  destruct (sample_mm_wf 60 ltac:(lia)) as (Hwf & Hm & Hs).
  assert (Hlen : length (rev (page_seq 2149580800 60)) = 60%nat) by (rewrite length_rev; apply page_seq_length).
  destruct (rev (page_seq 2149580800 60)) as [|d l]; [done|]. cbn [length] in Hlen.
  revert Hwf Hm Hs. generalize (sample_mm 60). intros m0 Hwf Hm Hs.
  assert (Hc0 : 8192 * 1024 / 4194304 + 4 = 6) by reflexivity.
  destruct (mapkvm_ok 2149580800 m0 d l Hwf) as (m1 & l1 & _ & Hk);
    [reflexivity|reflexivity|rewrite Hm; unfold KERNBASE; lia|rewrite Hm; lia|].
  pose proof (fw_pages _ _ Hwf) as Hpg. apply Forall_cons in Hpg as [Hdp _].
  destruct (kvm_user_wf _ _ _ _ _ _ Hk Hdp) as (Huw & _); [rewrite Hm; unfold HEAP_START, KERNBASE; lia|].
  pose proof (kb_cost _ _ _ _ _ _ Hk) as Hc. rewrite Hm in Hc.
  assert (H1 : region_cost 4096 4096 = 2) by reflexivity.
  assert (H2 : region_cost (USTACKTOP - PGSIZE) PGSIZE = 3) by reflexivity.
  destruct (region_alloc_ok m1 d 4096 4096 l1 Huw) as (m2 & l2 & _ & G2 & A2 & L2 & _);
    try (unfold KERNBASE; lia).
  destruct (region_alloc_ok m2 d (USTACKTOP - PGSIZE) PGSIZE l2 (gr_wf _ _ _ _ _ G2)) as (m3 & l3 & _ & G3 & A3 & L3 & _);
    try (unfold USTACKTOP, KERNBASE, PGSIZE in *; lia).
  exists m3, d, l3. split; [apply G3|]. split; [lia|].
  rewrite (ex_memsz _ _ _ _ _ (gr_ext _ _ _ _ _ G3)), (ex_memsz _ _ _ _ _ (gr_ext _ _ _ _ _ G2)), (kb_memsz _ _ _ _ _ _ Hk).
  rewrite (ex_start _ _ _ _ _ (gr_ext _ _ _ _ _ G3)), (ex_start _ _ _ _ _ (gr_ext _ _ _ _ _ G2)), (kb_start _ _ _ _ _ _ Hk).
  split; [exact Hm|]. split; [exact Hs|]. split; [|exact A3].
  destruct A2 as (B1 & B2 & B3). split; [exact B1|]. split; [exact B2|]. intros va Hva.
  destruct (B3 va Hva) as [Hpv Hpr]. split; [exact Hpv|].
  apply (grown_user _ _ _ _ _ va (gr_wf _ _ _ _ _ G2) G3); assumption.
Qed.

(** ** Properties *)

(** C13. [fork] makes a copy of the calling task.  With a free slot and enough
    pages it returns the pid of the child, which is runnable at the head of the
    list with the caller as its parent; the child's trap frame is the caller's
    except that its [eax] is 0; in the child's own directory every byte of the
    program below [sz] and of the stack page that the caller has is found with
    the same value, in frames that belong to no page of the caller; and the
    caller's address space, its bytes and every other task are unchanged. *)
Theorem fork_copies (trap_ret do_nothing kdata : Z) (s : kern) (i c : nat) (k d q : Z) (l : list Z)
  (Hslot : free_slot s = Some i) (Hcur : current s = Some c) (Hci : c <> i)
  (Huw : user_wf (kmm s) (t_pgdir (tasks s c)) (k :: d :: l))
  (Hdata : KERNLINK < kdata) (Hdal : kdata mod 4096 = 0)
  (Hram : kdata - KERNBASE < (kmm s).(memsz) * 1024 <= HEAP_START - KERNBASE)
  (Hl : (kmm s).(memsz) * 1024 / 4194304 + 4 + region_cost 0 (t_sz (tasks s c)) + stack_cost
        <= Z.of_nat (length l))
  (Hsz : 0 <= t_sz (tasks s c) <= USTACKTOP - PGSIZE)
  (Htab : forall va, 0 <= va < t_sz (tasks s c) ->
     has (pde_at (kmm s) (t_pgdir (tasks s c)) (PDX va)) PTE_P = true)
  (Hstk : forall va, USTACKTOP - PGSIZE <= va < USTACKTOP ->
     present (kmm s) (t_pgdir (tasks s c)) va)
  (Hq : q mod 4096 = 0) (Hql : q ∉ k :: d :: l)
  (Htf : q <= t_tf (tasks s c) /\ t_tf (tasks s c) + TF_SIZE <= q + 4096) :
  exists s', fork trap_ret do_nothing kdata s = Ret (s', u32 (nextpid s)) /\ forked s s' i c k d.
Proof. eapply fork_ok; eassumption. Qed.

Lemma fork_copies_witness :
  exists s s' k d, fork 0 0 2149580800 s = Ret (s', 2) /\ forked s s' 1 0 k d.
Proof.
  destruct demo_space as (m & pd & l & Huw & Hlen & Hm & Hs & Hprog & Hstk).
  destruct l as [|k [|d l]]; [simpl in Hlen; lia..|]. cbn [length] in Hlen.
  destruct (fork_copies 0 0 2149580800 (demo_fork m pd 8192) 1 0 k d 2148532224 l) as (s' & E & H);
    cbn [kmm tasks demo_fork t_sz t_pgdir t_tf current]; rewrite ?Hm;
    try (reflexivity || discriminate || assumption).
  - vm_compute. split; [reflexivity|discriminate].
  - change (8192 * 1024 / 4194304 + 4 + region_cost 0 8192 + stack_cost) with 12. lia.
  - vm_compute. split; discriminate.
  - intros va Hva. replace (PDX va) with (PDX 4096) by (rewrite !PDX_div, !u32_small by lia; modlia).
    apply has_entry_pde, Hprog. lia.
  - intros va Hva. apply Hstk. unfold USTACKTOP, PGSIZE in *. lia.
  - intros Hin. pose proof (fw_pages _ _ (vw_free _ _ _ (uw_vm _ _ _ Huw))) as Hpg.
    destruct (proj1 (Forall_forall _ _) Hpg _ Hin) as (_ & [Hlo _] & _). lia.
  - unfold TF_SIZE. lia.
  - exists (demo_fork m pd 8192), s', k, d. exact (conj E H).
Defined.
