(* ===== verification/UserMem.v ===== *)
(** * Strings and buffers in user memory

    The loops of the kernel that follow a pointer a task passed in: over a C
    string, into a buffer, and from user memory to a kernel address of the
    window.  All of them load and store through the directory of the task. *)

From stdpp Require Import base list strings.
From Stdlib Require Import ZArith Lia.
From S2P Require Import Prelude Mmu CString Kalloc PageTable VmSpec Heap Vmem Le.

Open Scope Z_scope.

(** Reading a C string at [p] under the directory [d]: the bytes before the NUL. *)
Fixpoint vstring (fuel : nat) (s : mm) (d p : Z) : outcome (list Z) :=
  match fuel with
  | O => Stop Fuel
  | S k => b ← vload8 s d p;
           if decide (b = 0) then Ret [] else l ← vstring k s d (u32 (p + 1)); Ret (b :: l)
  end.

(** Bytes of the kernel's own buffers into the memory at [p]. *)
Fixpoint vwrite (s : mm) (d p : Z) (l : list Z) : outcome mm :=
  match l with
  | [] => Ret s
  | b :: l' => s1 ← vstore8 s d p b; vwrite s1 d (u32 (p + 1)) l'
  end.

(** [strcpy(d, s)] of kern/string.c between virtual addresses. *)
Fixpoint vstrcpy (fuel : nat) (s : mm) (dir d p : Z) : outcome mm :=
  match fuel with
  | O => Stop Fuel
  | S k => b ← vload8 s dir p; s1 ← vstore8 s dir d b;
           if decide (b = 0) then Ret s1 else vstrcpy k s1 dir (u32 (d + 1)) (u32 (p + 1))
  end.

(** [memmove] from a local array of the kernel, to a kernel address. *)
Fixpoint put_bytes (m : memory) (a : Z) (l : list Z) : memory :=
  match l with
  | [] => m
  | b :: l' => put_bytes (store8 m a b) (a + 1) l'
  end.

(** ** What is in memory *)

(** The bytes [bs] stand at [va], the string [str] with its NUL stands at [va]. *)
Definition bytes_at (s : mm) (d va : Z) (bs : list Z) : Prop :=
  priv_at s d va (Z.of_nat (length bs)) /\
  forall i b, bs !! i = Some b -> vbyte s d (va + Z.of_nat i) = b.

Definition string_at (s : mm) (d va : Z) (str : list Z) : Prop :=
  Forall (fun b => b <> 0) str /\ bytes_at s d va (str ++ [0]).

(** The ranges [a, a + n) and [b, b + k) have no byte in common. *)
Definition disjoint (a n b k : Z) : Prop := a + n <= b \/ b + k <= a.

(** ** Lemmas *)

Lemma priv_at_byte s d va n i : priv_at s d va n -> 0 <= i < n ->
  private (va + i) /\ present s d (va + i).
Proof. intros (_ & _ & H) Hi. apply H. lia. Qed.

Lemma priv_at_sub s d va n i k : priv_at s d va n -> 0 <= i -> 0 <= k -> i + k <= n -> priv_at s d (va + i) k.
Proof.
  intros (H0 & H1 & H) Hi Hk Hn. split; [lia|]. split; [lia|]. intros x Hx. apply H. lia.
Qed.

Lemma vbyte_range s d l va : user_wf s d l -> 0 <= vbyte s d va < 256.
Proof. intros H. apply (fw_bytes _ _ (vw_free _ _ _ (uw_vm _ _ _ H))). Qed.

Lemma bytes_at_cons s d va b bs :
  bytes_at s d va (b :: bs) ->
  private va /\ present s d va /\ vbyte s d va = b /\ 0 <= va < 4294967295 /\ bytes_at s d (va + 1) bs.
Proof.
  intros [Hp Hb]. cbn [length] in Hp. rewrite Nat2Z.inj_succ in Hp. unfold Z.succ in Hp.
  destruct (priv_at_tail _ _ _ _ (Nat2Z.is_nonneg _) Hp) as [[H1 H2] H3]. destruct Hp as (H4 & H5 & _).
  split; [exact H1|]. split; [exact H2|]. split; [specialize (Hb 0%nat b eq_refl); by rewrite Z.add_0_r in Hb|].
  split; [lia|]. split; [exact H3|]. intros i x Hx. specialize (Hb (S i) x Hx).
  rewrite <- Hb. f_equal. lia.
Qed.

Lemma bytes_at_app s d va l1 l2 :
  bytes_at s d va (l1 ++ l2) -> bytes_at s d va l1 /\ bytes_at s d (va + Z.of_nat (length l1)) l2.
Proof.
  intros [Hp Hb]. rewrite length_app, Nat2Z.inj_add in Hp. split; split.
  - rewrite <- (Z.add_0_r va). eapply priv_at_sub; [exact Hp|lia..].
  - intros i b Hi. apply Hb. by apply lookup_app_l_Some.
  - eapply priv_at_sub; [exact Hp|lia..].
  - intros i b Hi. rewrite <- Z.add_assoc, <- Nat2Z.inj_add. apply Hb.
    rewrite lookup_app_r by lia. by rewrite Nat.add_sub_swap, Nat.sub_diag by lia.
Qed.

(** A run of stores elsewhere keeps the bytes. *)
Lemma bytes_at_stored s s' d l va bs dst n :
  user_wf s d l -> stored s s' d l dst n -> priv_at s d dst n ->
  disjoint va (Z.of_nat (length bs)) dst n -> bytes_at s d va bs -> bytes_at s' d va bs.
Proof.
  intros Huw Hst Hat Hdis [Hp Hb]. split; [by apply (priv_at_stored _ _ _ _ _ _ _ _ Hst)|].
  intros i b Hi. pose proof (lookup_lt_Some _ _ _ Hi).
  destruct (priv_at_byte _ _ _ _ (Z.of_nat i) Hp ltac:(lia)) as [H1 H2].
  rewrite (stored_user _ _ _ Huw _ _ _ _ Hst Hat H1 H2) by (unfold disjoint in Hdis; lia). by apply Hb.
Qed.

Lemma string_at_stored s s' d l va str dst n :
  user_wf s d l -> stored s s' d l dst n -> priv_at s d dst n ->
  disjoint va (Z.of_nat (length str) + 1) dst n -> string_at s d va str -> string_at s' d va str.
Proof.
  intros Huw Hst Hat Hdis [Hn Hb]. split; [exact Hn|]. eapply bytes_at_stored; [exact Huw|exact Hst|exact Hat| |exact Hb].
  rewrite length_app. cbn [length]. unfold disjoint in *. lia.
Qed.

Lemma vstring_ok s d str : forall fuel va,
  string_at s d va str -> (length str < fuel)%nat -> vstring fuel s d va = Ret str.
Proof.
  induction str as [|b str IH]; intros fuel va [Hn Hb] Hf; (destruct fuel as [|fuel]; [lia|]);
    cbn [app] in Hb; apply bytes_at_cons in Hb as (_ & Hp & Hv & Hr & Hb); cbn [vstring];
    rewrite vload8_ok, bind_Ret, Hv by exact Hp.
  - by rewrite decide_True.
  - apply Forall_cons in Hn as [Hb0 Hn]. rewrite decide_False by exact Hb0. rewrite u32_small by lia.
    rewrite IH; [done|by split|cbn [length] in Hf; lia].
Qed.

Lemma vload32_user s d l va bs : user_wf s d l ->
  bytes_at s d va bs -> length bs = 4%nat -> vload32 s d va = Ret (of_le bs).
Proof.
  intros Huw Hb Hl. do 5 (destruct bs as [|? bs]; [try discriminate Hl|]); [|discriminate Hl].
  apply bytes_at_cons in Hb as (_ & P0 & V0 & _ & Hb). apply bytes_at_cons in Hb as (_ & P1 & V1 & _ & Hb).
  apply bytes_at_cons in Hb as (_ & P2 & V2 & _ & Hb). apply bytes_at_cons in Hb as (_ & P3 & V3 & _ & _).
  replace (va + 1 + 1) with (va + 2) in * by lia. replace (va + 2 + 1) with (va + 3) in * by lia.
  unfold vload32. rewrite !vload8_ok, !bind_Ret by assumption. rewrite V0, V1, V2, V3. f_equal. cbn [of_le]. lia.
Qed.

(** Writing bytes one after the other. *)
Lemma vwrite_ok d l bs : forall s va,
  user_wf s d l -> priv_at s d va (Z.of_nat (length bs)) -> Forall (fun b => 0 <= b < 256) bs ->
  exists s', vwrite s d va bs = Ret s' /\ stored s s' d l va (Z.of_nat (length bs)) /\ bytes_at s' d va bs.
Proof.
  induction bs as [|b bs IH]; intros s va Huw Hat Hbs.
  - exists s. split; [done|]. split; [by apply stored_refl|]. split; [exact Hat|]. intros i x Hi. discriminate Hi.
  - cbn [length vwrite] in *. rewrite Nat2Z.inj_succ in *. unfold Z.succ in *. apply Forall_cons in Hbs as [Hb Hbs].
    destruct (priv_at_tail _ _ _ _ (Nat2Z.is_nonneg _) Hat) as [[Hd Hp] Htail].
    destruct (user_store s d l Huw va b Hd Hp) as (Hw1 & He1 & _).
    rewrite vstore8_ok, bind_Ret by exact Hp. pose proof Hat as (H0 & H1 & _). rewrite u32_small by lia.
    set (s1 := set_ram _ _) in *.
    destruct (IH s1 (va + 1) Hw1) as (s' & E & Hst & Hba); [|exact Hbs|].
    { destruct Htail as (T1 & T2 & T3). split; [lia|]. split; [exact T2|].
      intros x Hx. unfold present. rewrite He1. apply T3, Hx. }
    destruct (stored_cons s d l Huw s1 s' va (Z.of_nat (length bs)) b) as [Hst' Hb']; [exact Hat|lia|done|exact Hst|].
    exists s'. split; [exact E|]. split; [exact Hst'|].
    split; [cbn [length]; rewrite Nat2Z.inj_succ; by apply (priv_at_stored _ _ _ _ _ _ _ _ Hst')|].
    intros i x Hi. destruct i as [|i].
    + injection Hi as <-. rewrite Z.add_0_r, Hb'. apply u8_small, Hb.
    + cbn in Hi. destruct Hba as [_ Hba]. rewrite <- (Hba i x Hi). f_equal. lia.
Qed.

Lemma store_one s d l va b : user_wf s d l -> private va -> present s d va -> 0 <= va < 4294967295 ->
  stored s (set_ram s (store8 s.(ram) (translate s d va) b)) d l va 1 /\ priv_at s d va 1.
Proof.
  intros Huw Hpv Hp Hr. assert (Hat : priv_at s d va 1).
  { split; [lia|]. split; [lia|]. intros x Hx. by replace x with va by lia. }
  split; [|exact Hat]. eapply (stored_cons s d l Huw _ _ va 0 b); [exact Hat|lia|done|].
  apply stored_refl. by apply (user_store s d l Huw va b).
Qed.

(** [strcpy] writes the string with its NUL. *)
Lemma vstrcpy_write d l str : forall fuel s dst p,
  user_wf s d l -> string_at s d p str -> priv_at s d dst (Z.of_nat (length str) + 1) ->
  disjoint p (Z.of_nat (length str) + 1) dst (Z.of_nat (length str) + 1) -> (length str < fuel)%nat ->
  vstrcpy fuel s d dst p = vwrite s d dst (str ++ [0]).
Proof.
  induction str as [|b str IH]; intros fuel s dst p Huw [Hn Hb] Hat Hdis Hf; (destruct fuel as [|fuel]; [lia|]);
    cbn [app length vstrcpy vwrite] in *; apply bytes_at_cons in Hb as (_ & Hp & Hv & Hr & Hb);
    destruct (priv_at_byte _ _ _ _ 0 Hat ltac:(lia)) as [P1 P2]; rewrite Z.add_0_r in P1, P2;
    pose proof Hat as (Hd0 & Hd1 & _); rewrite vload8_ok, bind_Ret, Hv by exact Hp;
    rewrite vstore8_ok, !bind_Ret by exact P2.
  - done.
  - apply Forall_cons in Hn as [Hb0 Hn]. rewrite decide_False by exact Hb0.
    rewrite Nat2Z.inj_succ in *. unfold Z.succ in *.
    destruct (store_one s d l dst b Huw P1 P2 ltac:(lia)) as [Hst H1]. rewrite !u32_small by lia. apply IH.
    + exact (sd_wf _ _ _ _ _ _ Hst).
    + split; [exact Hn|]. eapply bytes_at_stored; [exact Huw|exact Hst|exact H1| |exact Hb].
      rewrite length_app. cbn [length]. unfold disjoint in *. lia.
    + apply (priv_at_stored _ _ _ _ _ _ _ _ Hst). eapply priv_at_sub; [exact Hat|lia..].
    + unfold disjoint in *. lia.
    + lia.
Qed.

Lemma vstrcpy_ok d l str fuel s dst p :
  user_wf s d l -> string_at s d p str -> Forall (fun b => 0 <= b < 256) str ->
  priv_at s d dst (Z.of_nat (length str) + 1) ->
  disjoint p (Z.of_nat (length str) + 1) dst (Z.of_nat (length str) + 1) -> (length str < fuel)%nat ->
  exists s', vstrcpy fuel s d dst p = Ret s' /\ stored s s' d l dst (Z.of_nat (length str) + 1) /\ string_at s' d dst str.
Proof.
  intros Huw Hs Hbs Hat Hdis Hf. rewrite (vstrcpy_write d l str) by assumption.
  assert (Hl : Z.of_nat (length (str ++ [0])) = Z.of_nat (length str) + 1) by (rewrite length_app; cbn; lia).
  destruct (vwrite_ok d l (str ++ [0]) s dst Huw) as (s' & E & Hst & Hb); rewrite ?Hl in *; [exact Hat| |].
  { apply Forall_app. split; [exact Hbs|]. repeat constructor; lia. }
  exists s'. split; [exact E|]. split; [exact Hst|]. split; [apply Hs|exact Hb].
Qed.

(** ** From user memory to a window address *)

(** The bytes of one page seen through the window. *)
Lemma window_next s d va : 0 <= va -> va + 1 < 4294967296 -> va mod 4096 + 1 < 4096 ->
  translate s d (va + 1) = translate s d va + 1.
Proof.
  intros H0 H1 Hm. unfold translate.
  assert (Hs : same_page va (va + 1)) by (unfold same_page; rewrite !u32_small by lia; modlia).
  rewrite <- (pt_entry_page _ _ _ _ Hs). rewrite !u32_small by lia. modlia.
Qed.

(** The frame of the byte at [va] and of the [n - 1] after it lies in the window. *)
Definition in_window (s : mm) (d va n : Z) : Prop :=
  va mod 4096 + n <= 4096 /\ KERNBASE <= translate s d va /\ translate s d va + n <= KERNBASE + s.(memsz) * 1024.

Lemma vstore8_window s d l va n v :
  user_wf s d l -> private va -> present s d va -> in_window s d va n -> 0 < n ->
  vstore8 s d (translate s d va) v = Ret (set_ram s (store8 s.(ram) (translate s d va) v)).
Proof.
  intros Huw Hp Hpr (_ & H0 & Hw) Hn.
  destruct (uw_window _ _ _ Huw (translate s d va) ltac:(lia)) as [H1 H2].
  rewrite vstore8_ok, H2 by exact H1. done.
Qed.

Lemma in_window_stored s s' d l dst k va n :
  stored s s' d l dst k -> in_window s d va n -> in_window s' d va n.
Proof.
  intros Hst (H1 & H2 & H3). unfold in_window. rewrite (translate_stored _ _ _ _ _ _ _ Hst).
  destruct (sd_mm _ _ _ _ _ _ Hst) as [-> _]. done.
Qed.

Lemma in_window_tail s d va n : 0 <= va -> va + n < 4294967296 -> 0 < n ->
  in_window s d va (n + 1) -> in_window s d (va + 1) n /\ translate s d (va + 1) = translate s d va + 1.
Proof.
  intros H0 H1 Hn (Hm & Hk & Hw). assert (E : translate s d (va + 1) = translate s d va + 1) by (apply window_next; modlia).
  split; [|exact E]. unfold in_window. rewrite E. split; [modlia|lia].
Qed.

(** [memmove] to the window address of a user byte, from user memory elsewhere. *)
Lemma vcopy_up_window d l n : forall s va src,
  user_wf s d l -> priv_at s d va (Z.of_nat n) -> priv_at s d src (Z.of_nat n) ->
  disjoint va (Z.of_nat n) src (Z.of_nat n) -> (n <> 0%nat -> in_window s d va (Z.of_nat n)) ->
  exists s', vcopy_up n s d (translate s d va) src = Ret s' /\ stored s s' d l va (Z.of_nat n) /\
    forall i, 0 <= i < Z.of_nat n -> vbyte s' d (va + i) = vbyte s d (src + i).
Proof.
  induction n as [|n IH]; intros s va src Huw Hva Hsrc Hdis Hwin.
  - exists s. split; [done|]. split; [by apply stored_refl|]. intros i Hi. lia.
  - rewrite Nat2Z.inj_succ in *. unfold Z.succ in *. specialize (Hwin ltac:(lia)).
    destruct (priv_at_tail _ _ _ _ (Nat2Z.is_nonneg n) Hva) as [[Hd Hpd] Hvt].
    destruct (priv_at_tail _ _ _ _ (Nat2Z.is_nonneg n) Hsrc) as [[Hs Hps] Hst].
    pose proof Hva as (Hd0 & Hd1 & _). pose proof Hsrc as (Hs0 & Hs1 & _).
    destruct (user_store s d l Huw va (vbyte s d src) Hd Hpd) as (Hw1 & He1 & _).
    cbn [vcopy_up]. rewrite vload8_ok, bind_Ret by exact Hps.
    rewrite (vstore8_window s d l va (Z.of_nat n + 1)), bind_Ret by (assumption || lia).
    rewrite (u32_small (src + 1)) by lia. set (s1 := set_ram _ _) in *.
    assert (Hone : stored s s1 d l va 1).
    { apply (stored_cons s d l Huw s1 s1 va 0 (vbyte s d src)); [|lia|done|by apply stored_refl].
      rewrite <- (Z.add_0_r va). eapply priv_at_sub; [exact Hva|lia..]. }
    assert (Hva1 : priv_at s1 d (va + 1) (Z.of_nat n)) by (by apply (priv_at_stored _ _ _ _ _ _ _ _ Hone)).
    assert (Hsrc1 : priv_at s1 d (src + 1) (Z.of_nat n)) by (by apply (priv_at_stored _ _ _ _ _ _ _ _ Hone)).
    destruct (IH s1 (va + 1) (src + 1) Hw1 Hva1 Hsrc1) as (s' & E & Hst' & Hb).
    { unfold disjoint in *. lia. }
    { intros Hn. apply (in_window_stored _ _ _ _ _ _ _ _ Hone), in_window_tail; [lia..|exact Hwin]. }
    exists s'. split.
    { destruct n as [|n]; [exact E|]. rewrite <- E. f_equal. rewrite (translate_stored _ _ _ _ _ _ _ Hone).
      destruct (in_window_tail s d va (Z.of_nat (S n)) Hd0 ltac:(lia) ltac:(lia) Hwin) as [_ ->].
      destruct Hwin as (_ & Hw2 & Hw3). pose proof (uw_gap _ _ _ Huw). unfold KERNBASE, HEAP_START in *.
      apply u32_small. lia. }
    destruct (stored_cons s d l Huw s1 s' va (Z.of_nat n) (vbyte s d src)) as [Hall Hb']; [exact Hva|lia|done|exact Hst'|].
    split; [exact Hall|]. intros i Hi. destruct (decide (i = 0)) as [->|Hi0].
    + rewrite !Z.add_0_r, Hb'. apply u8_small. by apply (vbyte_range s d l).
    + specialize (Hb (i - 1) ltac:(lia)). replace (va + 1 + (i - 1)) with (va + i) in Hb by lia.
      replace (src + 1 + (i - 1)) with (src + i) in Hb by lia. rewrite Hb.
      destruct (priv_at_byte _ _ _ _ i Hsrc ltac:(lia)) as [P1 P2].
      apply (stored_user _ _ _ Huw _ _ _ _ Hone); [|exact P1|exact P2|unfold disjoint in Hdis; lia].
      rewrite <- (Z.add_0_r va). eapply priv_at_sub; [exact Hva|lia..].
Qed.

Lemma vmemmove_window s d l va src n :
  user_wf s d l -> 0 < n -> priv_at s d va n -> priv_at s d src n -> src + n <= KERNBASE ->
  disjoint va n src n -> in_window s d va n ->
  exists s', vmemmove s d (translate s d va) src n = Ret s' /\ stored s s' d l va n /\
    forall i, 0 <= i < n -> vbyte s' d (va + i) = vbyte s d (src + i).
Proof.
  intros Huw Hn Hva Hsrc Hk Hdis Hwin. pose proof Hsrc as (Hs0 & Hs1 & _). pose proof Hva as (_ & Hv1 & _).
  destruct (vcopy_up_window d l (Z.to_nat n) s va src) as (s' & E & Hst & Hb);
    rewrite ?Z2Nat.id in * by lia; [assumption..|by intros _|].
  exists s'. split; [|done]. unfold vmemmove. unfold KERNBASE in Hk. rewrite (u32_small n), u32_small by lia.
  rewrite decide_False; [exact E|]. destruct Hwin as (_ & H & _). unfold KERNBASE in *. lia.
Qed.

Lemma put_bytes_window d l bs : forall s va,
  user_wf s d l -> priv_at s d va (Z.of_nat (length bs)) -> Forall (fun b => 0 <= b < 256) bs ->
  (bs <> [] -> in_window s d va (Z.of_nat (length bs))) ->
  let s' := set_ram s (put_bytes s.(ram) (translate s d va) bs) in
  stored s s' d l va (Z.of_nat (length bs)) /\ bytes_at s' d va bs.
Proof.
  induction bs as [|b bs IH]; intros s va Huw Hva Hbs Hwin s'.
  - assert (E : s' = s) by (subst s'; by destruct s). rewrite E. split; [by apply stored_refl|].
    split; [exact Hva|]. intros i x Hi. discriminate Hi.
  - cbn [length] in *. rewrite Nat2Z.inj_succ in *. unfold Z.succ in *. specialize (Hwin ltac:(done)).
    apply Forall_cons in Hbs as [Hb Hbs]. pose proof Hva as (Hd0 & Hd1 & _).
    destruct (priv_at_tail _ _ _ _ (Nat2Z.is_nonneg _) Hva) as [[Hd Hpd] Hvt].
    destruct (user_store s d l Huw va b Hd Hpd) as (Hw1 & He1 & _).
    set (s1 := set_ram s (store8 s.(ram) (translate s d va) b)) in *.
    assert (Hone : stored s s1 d l va 1).
    { apply (stored_cons s d l Huw s1 s1 va 0 b); [|lia|done|by apply stored_refl].
      rewrite <- (Z.add_0_r va). eapply priv_at_sub; [exact Hva|lia..]. }
    destruct (IH s1 (va + 1) Hw1) as [Hst Hba]; [by apply (priv_at_stored _ _ _ _ _ _ _ _ Hone)|exact Hbs|..].
    { intros Hn. assert (length bs <> 0%nat) by (by destruct bs).
      apply (in_window_stored _ _ _ _ _ _ _ _ Hone), in_window_tail; [lia..|exact Hwin]. }
    assert (E : set_ram s1 (put_bytes s1.(ram) (translate s1 d (va + 1)) bs) = s').
    { destruct bs as [|b' bs]; [done|]. subst s'. cbn [put_bytes]. unfold s1 at 1. unfold set_ram. cbn. f_equal.
      rewrite (translate_stored _ _ _ _ _ _ _ Hone).
      by destruct (in_window_tail s d va (Z.of_nat (length (b' :: bs))) Hd0 ltac:(lia) ltac:(cbn; lia) Hwin) as [_ ->]. }
    rewrite E in Hst, Hba.
    destruct (stored_cons s d l Huw s1 s' va (Z.of_nat (length bs)) b) as [Hall Hb']; [exact Hva|lia|done|exact Hst|].
    split; [exact Hall|]. split; [cbn [length]; rewrite Nat2Z.inj_succ; by apply (priv_at_stored _ _ _ _ _ _ _ _ Hall)|].
    intros i x Hi. destruct i as [|i].
    + injection Hi as <-. rewrite Z.add_0_r, Hb'. apply u8_small, Hb.
    + cbn in Hi. destruct Hba as [_ Hba]. rewrite <- (Hba i x Hi). f_equal. lia.
Qed.

(** Two runs of stores into one area. *)
Lemma stored_both s1 s2 s3 d l a n b k A N :
  stored s1 s2 d l a n -> stored s2 s3 d l b k -> A <= a -> a + n <= A + N -> A <= b -> b + k <= A + N ->
  stored s1 s3 d l A N.
Proof.
  intros H1 H2 Ha Hn Hb Hk. constructor; [apply H2|..].
  - intros va. rewrite (sd_entry _ _ _ _ _ _ H2). exact (sd_entry _ _ _ _ _ _ H1 va).
  - intros x Hx. rewrite (sd_keep _ _ _ _ _ _ H2).
    + apply (sd_keep _ _ _ _ _ _ H1). intros va Hva. apply Hx. lia.
    + intros va Hva. rewrite (translate_stored _ _ _ _ _ _ _ H1). apply Hx. lia.
  - intros q Hq. apply (sd_pages _ _ _ _ _ _ H1), (sd_pages _ _ _ _ _ _ H2), Hq.
  - destruct (sd_mm _ _ _ _ _ _ H1), (sd_mm _ _ _ _ _ _ H2). split; congruence.
Qed.

(** ** Address spaces to try things on *)

(** A directory fresh from [mapkvm] on a machine with many pages. *)
Lemma demo_dir : exists s d l, user_wf s d l /\ (forall x, private x -> ~ present s d x) /\ (1000 <= length l)%nat /\
  (forall q, vm_page s d l q -> KERNBASE <= q /\ q + 4096 <= KERNBASE + s.(memsz) * 1024) /\ s.(memsz) = 8192.
Proof.
  destruct (sample_mm_wf 1024 ltac:(lia)) as (Hwf & Hm & Hs).
  assert (Hlen : length (rev (page_seq 2149580800 1024)) = 1024%nat) by (rewrite length_rev; apply page_seq_length).
  assert (Hin : forall q, q ∈ rev (page_seq 2149580800 1024) -> 2149580800 <= q < 2149580800 + 4096 * 1024).
  { intros q Hq. rewrite list_elem_of_In, <- in_rev, <- list_elem_of_In in Hq. apply elem_page_seq in Hq as (i & Hi & ->). lia. }
  revert Hwf Hm Hs Hlen Hin. generalize (sample_mm 1024). generalize (rev (page_seq 2149580800 1024)).
  intros l0 m0 Hwf Hm Hs Hlen Hin. destruct l0 as [|d l]; [discriminate|]. cbn [length] in Hlen. injection Hlen as Hlen.
  assert (Hc0 : 8192 * 1024 / 4194304 + 4 = 6) by reflexivity.
  destruct (mapkvm_ok 2149580800 m0 d l Hwf) as (m1 & l1 & _ & Hk);
    [reflexivity|reflexivity|rewrite Hm; unfold KERNBASE; lia|rewrite Hm; lia|].
  pose proof (fw_pages _ _ Hwf) as Hpg. apply Forall_cons in Hpg as [Hdp _].
  destruct (kvm_user_wf _ _ _ _ _ _ Hk Hdp) as (Huw & Habs & _); [rewrite Hm; unfold HEAP_START, KERNBASE; lia|].
  pose proof (kb_cost _ _ _ _ _ _ Hk) as Hc. rewrite Hm in Hc.
  exists m1, d, l1. split; [exact Huw|]. split; [exact Habs|]. split; [lia|]. split; [|by rewrite (kb_memsz _ _ _ _ _ _ Hk)].
  intros q Hq. rewrite (kb_memsz _ _ _ _ _ _ Hk), Hm. unfold KERNBASE.
  assert (q ∈ d :: l) as Hq2 by (destruct (kb_pages _ _ _ _ _ _ Hk q Hq) as [->|H]; [by left|by right]).
  specialize (Hin q Hq2). lia.
Qed.

(** A task with a page of data at 4096 and a page of stack. *)
Lemma demo_user_space : exists s d l, user_wf s d l /\ priv_at s d 4096 4096 /\
  priv_at s d (USTACKTOP - PGSIZE) PGSIZE /\ in_window s d (USTACKTOP - PGSIZE) PGSIZE /\
  (forall x, HEAP_START <= x < HEAP_END -> ~ present s d x) /\ (900 <= length l)%nat /\ s.(memsz) = 8192.
Proof.
  destruct demo_dir as (s & d & l & Huw & Habs & Hlen & Hq & Hmz). set (top := USTACKTOP - PGSIZE).
  assert (Hc1 : region_cost 4096 4096 = 2) by reflexivity. assert (Hc2 : region_cost top PGSIZE = 3) by reflexivity.
  unfold USTACKTOP, PGSIZE, KERNBASE in *.
  destruct (region_alloc_ok s d top 4096 l Huw ltac:(done) ltac:(lia) ltac:(unfold KERNBASE; lia) ltac:(rewrite Hc2; lia))
    as (s1 & l1 & _ & Hg1 & Hp1 & Hl1 & Hk1).
  destruct (region_alloc_ok s1 d 4096 4096 l1 (gr_wf _ _ _ _ _ Hg1) ltac:(lia) ltac:(lia) ltac:(unfold KERNBASE; lia) ltac:(rewrite Hc1; lia))
    as (s2 & l2 & _ & Hg2 & Hp2 & Hl2 & Hk2).
  pose proof (priv_at_byte _ _ _ _ 0 Hp1 ltac:(lia)) as [Hpv Hpr]. rewrite Z.add_0_r in Hpv, Hpr.
  assert (Hs2 : pt_entry s2 d top = pt_entry s1 d top) by (apply (gr_entry _ _ _ _ _ Hg2); exact Hpr).
  exists s2, d, l2. split; [apply Hg2|]. split; [exact Hp2|]. split; [|split; [|split; [|split; [lia|]]]].
  4: by rewrite (ex_memsz _ _ _ _ _ (gr_ext _ _ _ _ _ Hg2)), (ex_memsz _ _ _ _ _ (gr_ext _ _ _ _ _ Hg1)).
  - destruct Hp1 as (H0 & H1 & H2). split; [exact H0|]. split; [exact H1|]. intros va Hva.
    destruct (H2 va Hva) as [P1 P2]. split; [exact P1|]. unfold present. by rewrite (gr_entry _ _ _ _ _ Hg2).
  - destruct (gr_new _ _ _ _ _ Hg1 top Hpv Hpr) as [Hold|Hnew]; [destruct (Habs top Hpv Hold)|].
    apply Hq in Hnew. unfold in_window, translate. rewrite Hs2.
    rewrite (ex_memsz _ _ _ _ _ (gr_ext _ _ _ _ _ Hg2)), (ex_memsz _ _ _ _ _ (gr_ext _ _ _ _ _ Hg1)).
    change (u32 top mod 4096) with 0. change (top mod 4096) with 0. unfold KERNBASE. lia.
  - intros x Hx. unfold present, HEAP_START, HEAP_END in *.
    rewrite Hk2, Hk1 by (unfold top; modlia). apply Habs. priv.
Qed.
