(* ===== verification/VmHeap.v ===== *)
(** * The kernel heap on the page tables

    The interface [Pager] of Heap.v implemented by PageTable.v: the pages the
    heap of kern/heap.c grows and shrinks by are frames of the page allocator,
    mapped into the directory of the task by [mappages] and given back by
    [unmap_page].  With this instance the theorems on [kmalloc] and [kfree] hold
    of the real memory of a task. *)

From stdpp Require Import base list strings.
From Stdlib Require Import ZArith Lia FinFun.
From S2P Require Import Prelude Mmu CString Kalloc PageTable VmSpec Heap Vmem UserMem.

Open Scope Z_scope.

(** The memory of the machine seen through one directory. *)
Record vspace : Type := mkVs {
  vs_mm : mm;
  vs_dir : Z
}.

(** A store of a 32-bit word, byte by byte: the word may cross pages. *)
Definition vs_write (p : vspace) (a v : Z) : vspace :=
  let d := vs_dir p in
  let put (s : mm) (i : Z) : mm :=
    set_ram s (store8 s.(ram) (translate s d (a + i)) (v / 256 ^ i)) in
  mkVs (put (put (put (put (vs_mm p) 0) 1) 2) 3) d.

(** The body of the loop of [alloc_chunk]: the result of [mappages] is not
    looked at. *)
Definition vs_map (p : vspace) (va : Z) : outcome vspace :=
  let '(page, s1) := kalloc_page (vs_mm p) in
  '(_, s2) ← mappages s1 (vs_dir p) va (V2P (PTE_ADDR page)) PGSIZE (Z.lor PTE_P PTE_W);
  Ret (mkVs s2 (vs_dir p)).

(** The body of the loop of [free_chunk]. *)
Definition vs_unmap (p : vspace) (va : Z) : outcome vspace :=
  let '(page, s1) := pgdir_walk (vs_mm p) (vs_dir p) va false in
  if decide (page = 0) then Stop (Panic "assert")
  else s2 ← unmap_page s1 (vs_dir p) va; Ret (mkVs s2 (vs_dir p)).

Definition vs_mapped (p : vspace) (x : Z) : bool :=
  bool_decide (HEAP_START <= x < HEAP_END) && has (pt_entry (vs_mm p) (vs_dir p) x) PTE_P.

(** Pages on the free list; there are less than 2^20 in the address space. *)
Fixpoint chain_len (fuel : nat) (m : memory) (head : Z) : nat :=
  match fuel with
  | O => O
  | S k => if decide (head = 0) then O else S (chain_len k m (load32 m head))
  end.

(** The bound is kept sealed, so that the unary number is never computed. *)
Definition page_bound : { n : nat | n = Z.to_nat 1048576 }.
Proof. exact (exist _ _ eq_refl). Qed.

Definition free_count (s : mm) : nat := chain_len (proj1_sig page_bound) s.(ram) s.(free_list).

(** Tables of the heap area that do not exist yet. *)
Definition heap_missing (s : mm) (d : Z) : nat :=
  length (List.filter (fun i => negb (has (pde_at s d i) PTE_P)) (map Z.of_nat (seq 832 191))).

Definition vs_avail (p : vspace) : nat := free_count (vs_mm p) - heap_missing (vs_mm p) (vs_dir p).

Definition vs_inv (p : vspace) : Prop := exists l, user_wf (vs_mm p) (vs_dir p) l.

(** ** Counting pages *)

Lemma chain_len_ok m l : forall fuel head, (length l <= fuel)%nat -> free_chain m head l ->
  chain_len fuel m head = length l.
Proof.
  induction l as [|p l IH]; intros [|k] head Hf Hc; cbn [chain_len length free_chain] in *; try lia.
  - rewrite decide_True by exact Hc. reflexivity.
  - destruct Hc as (-> & Hp & Hc). rewrite decide_False by exact Hp. f_equal. apply IH; [lia|exact Hc].
Qed.

Lemma free_length s l : free_wf s l -> (length l <= Z.to_nat 1048576)%nat.
Proof.
  intros [_ Hnd Hpg _]. rewrite <- (length_map (fun p => Z.to_nat (p / 4096)) l), <- (length_seq (Z.to_nat 1048576) 0).
  apply NoDup_incl_length.
  - apply Injective_map_NoDup_in; [|by apply NoDup_ListNoDup].
    intros p q Hp Hq E. rewrite <- list_elem_of_In in Hp, Hq.
    pose proof (proj1 (Forall_forall _ _) Hpg p Hp) as Hp'. pose proof (proj1 (Forall_forall _ _) Hpg q Hq) as Hq'.
    pose proof (page_ok_range _ _ Hp'). pose proof (page_ok_range _ _ Hq').
    destruct Hp' as [Hp' _], Hq' as [Hq' _]. modlia.
  - intros n Hn. apply in_map_iff in Hn as (p & <- & Hp). rewrite <- list_elem_of_In in Hp.
    pose proof (page_ok_range _ _ (proj1 (Forall_forall _ _) Hpg p Hp)). apply in_seq. modlia.
Qed.

Lemma free_count_ok s l : free_wf s l -> free_count s = length l.
Proof.
  intros Hf. apply chain_len_ok; [|apply Hf]. rewrite (proj2_sig page_bound). exact (free_length _ _ Hf).
Qed.

Lemma heap_missing_same s s' d : (forall i, 0 <= i < 1024 -> pde_at s' d i = pde_at s d i) ->
  heap_missing s' d = heap_missing s d.
Proof.
  intros H. unfold heap_missing. f_equal. apply List.filter_ext_in. intros i Hi.
  apply in_map_iff in Hi as (n & <- & Hn). apply in_seq in Hn. rewrite H by lia. done.
Qed.

Lemma filter_mono {A} (f g : A -> bool) (l : list A) :
  (forall x, In x l -> g x = true -> f x = true) ->
  (length (List.filter g l) <= length (List.filter f l))%nat.
Proof.
  induction l as [|x l IH]; intros H; [done|]. cbn [List.filter].
  specialize (IH (fun y Hy => H y (or_intror Hy))). pose proof (H x (or_introl eq_refl)) as Hx.
  destruct (g x); [rewrite Hx by done; cbn; lia|]. destruct (f x); cbn; lia.
Qed.

Lemma filter_strict {A} (f g : A -> bool) (l : list A) (a : A) :
  (forall x, In x l -> g x = true -> f x = true) -> In a l -> f a = true -> g a = false ->
  (S (length (List.filter g l)) <= length (List.filter f l))%nat.
Proof.
  intros H Ha Hf Hg. apply in_split in Ha as (l1 & l2 & ->). rewrite !List.filter_app, !length_app.
  cbn [List.filter]. rewrite Hf, Hg. cbn [length].
  assert (H1 : (length (List.filter g l1) <= length (List.filter f l1))%nat)
    by (apply filter_mono; intros y Hy; apply H, in_or_app; by left).
  assert (H2 : (length (List.filter g l2) <= length (List.filter f l2))%nat)
    by (apply filter_mono; intros y Hy; apply H, in_or_app; right; by right). lia.
Qed.

Lemma heap_missing_grow s s' d va :
  HEAP_START <= va < HEAP_END ->
  (forall i, 0 <= i < 1024 -> has (pde_at s d i) PTE_P = true -> has (pde_at s' d i) PTE_P = true) ->
  has (pde_at s' d (PDX va)) PTE_P = true ->
  Z.of_nat (heap_missing s' d) + table_missing s d va <= Z.of_nat (heap_missing s d).
Proof.
  intros Hva Hmono Hnew. unfold table_missing, heap_missing, HEAP_START, HEAP_END in *.
  set (idx := map Z.of_nat (seq 832 191)).
  assert (Hidx : forall i, In i idx -> 0 <= i < 1024).
  { intros i Hi. apply in_map_iff in Hi as (n & <- & Hn). apply in_seq in Hn. lia. }
  assert (Hin : In (PDX va) idx).
  { apply in_map_iff. exists (Z.to_nat (PDX va)). rewrite PDX_div, u32_small by lia.
    split; [modlia|]. apply in_seq. modlia. }
  assert (Hsub : forall x, In x idx -> negb (has (pde_at s' d x) PTE_P) = true -> negb (has (pde_at s d x) PTE_P) = true).
  { intros x Hx. rewrite !negb_true_iff. intros H. apply not_true_is_false. intros H'.
    rewrite (Hmono x (Hidx x Hx) H') in H. discriminate. }
  destruct (has (pde_at s d (PDX va)) PTE_P) eqn:Hh.
  - rewrite Z.add_0_r. apply inj_le, filter_mono, Hsub.
  - pose proof (filter_strict _ _ idx (PDX va) Hsub Hin) as H. cbv beta in H. rewrite Hh, Hnew in H.
    specialize (H eq_refl eq_refl). lia.
Qed.

(** ** What the heap leaves alone *)

(** The user half of the address space and the pages that do not belong to it. *)
Record kept (s0 s : mm) (d : Z) (l0 l : list Z) : Prop := {
  kp_wf : user_wf s d l;
  kp_entry : forall va, 0 <= va < KERNBASE -> pt_entry s d va = pt_entry s0 d va;
  kp_byte : forall va, 0 <= va < KERNBASE -> present s0 d va -> vbyte s d va = vbyte s0 d va;
  kp_foreign : forall q, foreign s0 d l0 q ->
    foreign s d l q /\ forall x, q <= x < q + 4096 -> s.(ram) x = s0.(ram) x;
  kp_mm : s.(memsz) = s0.(memsz) /\ s.(mem_start) = s0.(mem_start)
}.

Lemma kept_refl s d l : user_wf s d l -> kept s s d l l.
Proof. intros H. constructor; done. Qed.

Lemma kept_trans s1 s2 s3 d l1 l2 l3 : kept s1 s2 d l1 l2 -> kept s2 s3 d l2 l3 -> kept s1 s3 d l1 l3.
Proof.
  intros [W1 E1 B1 F1 [M1 S1]] [W2 E2 B2 F2 [M2 S2]]. constructor; [exact W2|..].
  - intros va Hva. rewrite E2 by exact Hva. by apply E1.
  - intros va Hva Hp. rewrite B2; [by apply B1|exact Hva|]. unfold present. rewrite E1; assumption.
  - intros q Hq. destruct (F1 q Hq) as [Hq1 H1], (F2 q Hq1) as [Hq2 H2]. split; [exact Hq2|].
    intros x Hx. rewrite H2 by exact Hx. by apply H1.
  - split; congruence.
Qed.

(** ** Writing a word *)

Lemma mapped_private p x : vs_mapped p x = true -> private x /\ present (vs_mm p) (vs_dir p) x.
Proof.
  unfold vs_mapped. rewrite andb_true_iff, bool_decide_eq_true. intros [Hx Hp]. split; [priv|exact Hp].
Qed.

(** A private byte is stored; everything the heap can see besides is as before. *)
Record poked (s s' : mm) (d : Z) (l : list Z) (a v : Z) : Prop := {
  pk_wf : user_wf s' d l;
  pk_entry : forall va, pt_entry s' d va = pt_entry s d va;
  pk_pde : forall i, 0 <= i < 1024 -> pde_at s' d i = pde_at s d i;
  pk_byte : forall x, private x -> present s d x -> vbyte s' d x = if decide (x = a) then u8 v else vbyte s d x;
  pk_foreign : forall q, foreign s d l q ->
    foreign s' d l q /\ forall x, q <= x < q + 4096 -> s'.(ram) x = s.(ram) x;
  pk_mm : s'.(memsz) = s.(memsz) /\ s'.(mem_start) = s.(mem_start)
}.

Lemma poke s d l a v : user_wf s d l -> private a -> present s d a ->
  poked s (set_ram s (store8 s.(ram) (translate s d a) v)) d l a v.
Proof.
  intros Huw Ha Hp. destruct (user_store s d l Huw a v Ha Hp) as (Hw & He & Hvm & Hpd).
  constructor; [exact Hw|exact He|exact Hpd|..|done].
  - intros x Hx Hpx. unfold vbyte, translate. rewrite He.
    fold (translate s d x). fold (translate s d a). cbn [ram set_ram].
    destruct (decide (x = a)) as [->|Hne]; [apply store8_same|]. apply store8_other. intros E.
    apply Hne, (user_translate_inj s d l Huw); assumption.
  - intros q (Hq & Hqv & Hqu). split.
    + split; [exact Hq|]. split; [auto|]. intros x Hx Hpx. unfold present in Hpx. rewrite He in *. by apply Hqu.
    + intros x Hx. cbn [ram set_ram]. apply store8_other. intros ->. pose proof (translate_in s d a).
      pose proof (table_of_aligned (pt_entry s d a)). pose proof (Hqu a Ha Hp). modlia.
Qed.

Lemma present_same_page s d x y : present s d x -> same_page x y -> present s d y.
Proof. unfold present. intros Hp E. rewrite <- (pt_entry_page s d x y E). exact Hp. Qed.

(** Four stores make a word. *)
Lemma poked_word s s0 s1 s2 s3 d a v :
  (forall va, pt_entry s0 d va = pt_entry s d va) -> (forall va, pt_entry s1 d va = pt_entry s d va) ->
  (forall va, pt_entry s2 d va = pt_entry s d va) ->
  (forall x, private x -> present s d x -> vbyte s0 d x = if decide (x = a + 0) then u8 (v / 256 ^ 0) else vbyte s d x) ->
  (forall x, private x -> present s0 d x -> vbyte s1 d x = if decide (x = a + 1) then u8 (v / 256 ^ 1) else vbyte s0 d x) ->
  (forall x, private x -> present s1 d x -> vbyte s2 d x = if decide (x = a + 2) then u8 (v / 256 ^ 2) else vbyte s1 d x) ->
  (forall x, private x -> present s2 d x -> vbyte s3 d x = if decide (x = a + 3) then u8 (v / 256 ^ 3) else vbyte s2 d x) ->
  forall x, private x -> present s d x -> vbyte s3 d x = store32 (vbyte s d) a v x.
Proof.
  intros E0 E01 E02 B0 B1 B2 B3.
  intros x Hx Hp. rewrite B3, B2, B1, B0 by (exact Hx || unfold present; rewrite ?E02, ?E01, ?E0; exact Hp).
  unfold store32. destruct (decide (a <= x < a + 4)) as [Hin|Hout].
  - assert (Hc : x = a + 0 \/ x = a + 1 \/ x = a + 2 \/ x = a + 3) by lia.
    destruct Hc as [->|[->|[->| ->]]]; repeat (rewrite decide_False by lia); rewrite decide_True by lia; do 3 f_equal; lia.
  - rewrite !decide_False by lia. done.
Qed.

Lemma vs_write_mm p a v l :
  user_wf (vs_mm p) (vs_dir p) l ->
  (forall i, 0 <= i < 4 -> private (a + i) /\ present (vs_mm p) (vs_dir p) (a + i)) ->
  let s' := vs_mm (vs_write p a v) in
  user_wf s' (vs_dir p) l /\ (forall va, pt_entry s' (vs_dir p) va = pt_entry (vs_mm p) (vs_dir p) va) /\
  (forall i, 0 <= i < 1024 -> pde_at s' (vs_dir p) i = pde_at (vs_mm p) (vs_dir p) i) /\
  (forall x, private x -> present (vs_mm p) (vs_dir p) x ->
     vbyte s' (vs_dir p) x = store32 (vbyte (vs_mm p) (vs_dir p)) a v x) /\
  (KERNBASE <= a -> kept (vs_mm p) s' (vs_dir p) l l).
Proof.
  destruct p as [s d]. unfold vs_write. cbn [vs_mm vs_dir]. intros Huw Hat.
  assert (Hpr : forall s1 i, (forall va, pt_entry s1 d va = pt_entry s d va) -> 0 <= i < 4 -> present s1 d (a + i))
    by (intros s1 i He Hi; unfold present; rewrite He; apply Hat; exact Hi).
  destruct (poke s d l (a + 0) (v / 256 ^ 0) Huw) as [W0 E0 P0 B0 F0 [M0 S0]]; [apply Hat; lia..|].
  set (s0 := set_ram s _) in *.
  destruct (poke s0 d l (a + 1) (v / 256 ^ 1) W0) as [W1 E1 P1 B1 F1 [M1 S1]]; [apply Hat; lia|apply Hpr; [exact E0|lia]|].
  set (s1 := set_ram s0 _) in *.
  assert (E01 : forall va, pt_entry s1 d va = pt_entry s d va) by (intros va; rewrite E1; apply E0).
  destruct (poke s1 d l (a + 2) (v / 256 ^ 2) W1) as [W2 E2 P2 B2 F2 [M2 S2]]; [apply Hat; lia|apply Hpr; [exact E01|lia]|].
  set (s2 := set_ram s1 _) in *.
  assert (E02 : forall va, pt_entry s2 d va = pt_entry s d va) by (intros va; rewrite E2; apply E01).
  destruct (poke s2 d l (a + 3) (v / 256 ^ 3) W2) as [W3 E3 P3 B3 F3 [M3 S3]]; [apply Hat; lia|apply Hpr; [exact E02|lia]|].
  set (s3 := set_ram s2 _) in *.
  split; [exact W3|]. split; [intros va; rewrite E3; apply E02|].
  split; [intros i Hi; rewrite P3, P2, P1, P0 by exact Hi; done|].
  assert (Hb : forall x, private x -> present s d x -> vbyte s3 d x = store32 (vbyte s d) a v x).
  { apply (poked_word s s0 s1 s2 s3); assumption. }
  split; [exact Hb|]. intros Hk. constructor; [exact W3|intros va _; rewrite E3; apply E02|..|split; congruence].
  - intros va Hva Hp. rewrite Hb by (priv || exact Hp). unfold store32. rewrite decide_False by lia. done.
  - intros q Hq. destruct (F0 q Hq) as [Q0 R0], (F1 q Q0) as [Q1 R1], (F2 q Q1) as [Q2 R2], (F3 q Q2) as [Q3 R3].
    split; [exact Q3|]. intros x Hx. rewrite R3, R2, R1, R0 by exact Hx. done.
Qed.

Lemma vs_write_ok p a v l : user_wf (vs_mm p) (vs_dir p) l -> HEAP_START <= a -> a + 4 <= HEAP_END ->
  vs_mapped p a = true -> vs_mapped p (a + 3) = true ->
  kept (vs_mm p) (vs_mm (vs_write p a v)) (vs_dir p) l l /\ vs_avail (vs_write p a v) = vs_avail p /\
  (forall x, vs_mapped (vs_write p a v) x = vs_mapped p x) /\
  (forall x, vs_mapped p x = true ->
     vbyte (vs_mm (vs_write p a v)) (vs_dir (vs_write p a v)) x = store32 (vbyte (vs_mm p) (vs_dir p)) a v x) /\
  free_count (vs_mm (vs_write p a v)) = free_count (vs_mm p) /\
  heap_missing (vs_mm (vs_write p a v)) (vs_dir p) = heap_missing (vs_mm p) (vs_dir p).
Proof.
  intros Huw Ha0 Ha1 M0 M3. apply mapped_private in M0 as [V0 Q0], M3 as [V3 Q3].
  assert (Hat : forall i, 0 <= i < 4 -> private (a + i) /\ present (vs_mm p) (vs_dir p) (a + i)).
  { intros i Hi. split; [priv|]. unfold HEAP_START, HEAP_END in *.
    destruct (decide (a mod 4096 + i < 4096)).
    - apply (present_same_page _ _ a _ Q0). unfold same_page. rewrite !u32_small by lia. modlia.
    - apply (present_same_page _ _ (a + 3) _ Q3). unfold same_page. rewrite !u32_small by lia. modlia. }
  destruct (vs_write_mm p a v l Huw Hat) as (Hw & He & Hpd & Hb & Hk).
  change (vs_dir (vs_write p a v)) with (vs_dir p).
  split; [apply Hk; unfold KERNBASE, HEAP_START in *; lia|]. split; [|split; [|split; [|split]]].
  4: by rewrite (free_count_ok _ l (vw_free _ _ _ (uw_vm _ _ _ Hw))), (free_count_ok _ l) by apply Huw.
  4: exact (heap_missing_same _ _ _ Hpd).
  - unfold vs_avail. change (vs_dir (vs_write p a v)) with (vs_dir p).
    rewrite (heap_missing_same _ _ _ Hpd), (free_count_ok _ l), (free_count_ok _ l);
      [done|apply Huw|apply Hw].
  - intros x. unfold vs_mapped. change (vs_dir (vs_write p a v)) with (vs_dir p). rewrite He. done.
  - intros x Hx. apply mapped_private in Hx as [Hx Hp]. by apply Hb.
Qed.

(** ** Mapping a page *)

Lemma heap_missing_pos s d va : HEAP_START <= va < HEAP_END ->
  table_missing s d va <= Z.of_nat (heap_missing s d).
Proof.
  intros Hva. unfold table_missing, heap_missing, HEAP_START, HEAP_END in *.
  destruct (has (pde_at s d (PDX va)) PTE_P) eqn:Hh; [lia|].
  assert (Hin : In (PDX va) (map Z.of_nat (seq 832 191))).
  { apply in_map_iff. exists (Z.to_nat (PDX va)). rewrite PDX_div, u32_small by lia.
    split; [modlia|]. apply in_seq. modlia. }
  pose proof (filter_strict (fun i => negb (has (pde_at s d i) PTE_P)) (fun _ => false) _ _
    ltac:(done) Hin ltac:(cbv beta; rewrite Hh; done) eq_refl). lia.
Qed.

Lemma vs_mapped_false p x : HEAP_START <= x < HEAP_END -> vs_mapped p x = false ->
  ~ present (vs_mm p) (vs_dir p) x.
Proof.
  intros Hx. unfold vs_mapped. rewrite bool_decide_eq_true_2 by exact Hx. cbn [andb]. unfold present. congruence.
Qed.

Lemma vs_map_ok p va l : user_wf (vs_mm p) (vs_dir p) l -> va mod 4096 = 0 -> HEAP_START <= va < HEAP_END ->
  vs_mapped p va = false -> (0 < vs_avail p)%nat ->
  exists p' l', vs_map p va = Ret p' /\ vs_dir p' = vs_dir p /\ kept (vs_mm p) (vs_mm p') (vs_dir p) l l' /\
    (vs_avail p <= S (vs_avail p'))%nat /\
    (forall x, vs_mapped p' x = vs_mapped p x || bool_decide (va <= x < va + 4096)) /\
    (forall x, vs_mapped p x = true -> vbyte (vs_mm p') (vs_dir p') x = vbyte (vs_mm p) (vs_dir p) x) /\
    Z.of_nat (free_count (vs_mm p)) - Z.of_nat (heap_missing (vs_mm p) (vs_dir p)) <=
      1 + (Z.of_nat (free_count (vs_mm p')) - Z.of_nat (heap_missing (vs_mm p') (vs_dir p'))).
Proof.
  destruct p as [s d]. intros Huw Hal Hva Hm Hav. cbn [vs_mm vs_dir] in *.
  apply (vs_mapped_false (mkVs s d) va Hva) in Hm. unfold vs_avail in Hav. cbn [vs_mm vs_dir] in *.
  rewrite (free_count_ok s l) in Hav by apply Huw.
  destruct l as [|f l]; [cbn [length] in Hav; lia|].
  pose proof (heap_missing_pos s d va Hva) as Hmp.
  destruct (pop_space s d f l Huw) as (Ek & Hok & Hg & Hfor). set (s1 := set_free_list s _) in *.
  destruct (map_one s1 d va f 3 l) as (s2 & l2 & E & Hx & Hw & He & Ht & Hof & Hl2);
    [apply Hg|exact Hfor|exact Hok|priv|exact Hal|exact Hm|lia|reflexivity|priv|
     change (table_missing s1 d va) with (table_missing s d va); cbn [length] in Hav; lia|].
  assert (Hf : PTE_ADDR f = f).
  { pose proof (page_ok_range _ _ Hok). destruct Hok as [Hfa _]. rewrite PTE_ADDR_sub, u32_small by lia. lia. }
  assert (Hbyte : forall x, private x -> present s d x -> vbyte s2 d x = vbyte s d x).
  { intros x Hpv Hp. unfold vbyte, translate. rewrite He by priv. rewrite decide_False.
    2: { intros Es. apply Hm. apply (present_same_page s d x va Hp). unfold same_page in *. congruence. }
    destruct (uw_page _ _ _ Huw x Hpv Hp) as (_ & Hnv & _).
    assert (Hnv1 : ~ vm_page s1 d l (table_of (pt_entry s d x)))
      by (intros H; apply Hnv, (ex_pages _ _ _ _ _ (gr_ext _ _ _ _ _ Hg)), H).
    apply (ex_keeps _ _ _ _ _ Hx _ _ (table_of_aligned _) Hnv1). apply (translate_in s d x). }
  assert (Hcount : Z.of_nat (length (f :: l)) - Z.of_nat (heap_missing s d) <= 1 + (Z.of_nat (length l2) - Z.of_nat (heap_missing s2 d))).
  { assert (Hnew : has (pde_at s2 d (PDX va)) PTE_P = true).
    { apply has_entry_pde. rewrite He, decide_True by (done || unfold HEAP_START, HEAP_END in *; lia).
      apply (page_entry_facts (V2P f) 3). lia. }
    pose proof (heap_missing_grow s s2 d va Hva (ex_tables _ _ _ _ _ Hx) Hnew) as Hgr.
    change (table_missing s1 d va) with (table_missing s d va) in Hl2. cbn [length]. lia. }
  exists (mkVs s2 d), l2. split; [|split; [done|split; [|split; [|split; [|split]]]]].
  - unfold vs_map. cbn [vs_mm vs_dir]. rewrite Ek, Hf. change (Z.lor PTE_P PTE_W) with 3. rewrite E. done.
  - constructor; [exact Hw|..].
    + intros x Hx'. cbn [vs_mm]. rewrite He by (unfold KERNBASE in *; lia).
      rewrite decide_False; [done|]. unfold same_page, KERNBASE, HEAP_START, HEAP_END in *. rewrite !u32_small by lia. modlia.
    + intros x Hx' Hp. apply Hbyte; [priv|exact Hp].
    + intros q Hq. destruct (grown_foreign _ _ _ _ _ _ Hg Hq) as [Hq1 H1].
      assert (Hqf : q <> f) by (intros ->; apply Hq; right; left; by left).
      split; [by apply Hof|]. intros x Hx'. destruct Hq1 as (Hqa & Hqv & _).
      cbn [vs_mm]. rewrite (ex_keeps _ _ _ _ _ Hx q x Hqa Hqv Hx'). by apply H1.
    + split; [apply (ex_memsz _ _ _ _ _ Hx)|apply (ex_start _ _ _ _ _ Hx)].
  - unfold vs_avail. cbn [vs_mm vs_dir]. rewrite (free_count_ok s (f :: l)), (free_count_ok s2 l2) by (apply Huw || apply Hw). lia.
  - intros x. unfold vs_mapped. cbn [vs_mm vs_dir]. unfold HEAP_START, HEAP_END in *.
    destruct (decide (3489660928 <= x < 4290768896)) as [Hx'|Hx'].
    + rewrite bool_decide_eq_true_2 by exact Hx'. cbn [andb]. rewrite He by lia.
      destruct (decide (same_page va x)) as [Es|Es]; rewrite aligned_same_page in Es by lia.
      * destruct (page_entry_facts (V2P f) 3 ltac:(lia)) as (_ & _ & -> & _).
        rewrite bool_decide_eq_true_2 by lia. by rewrite orb_true_r.
      * rewrite bool_decide_eq_false_2 by lia. by rewrite orb_false_r.
    + rewrite !bool_decide_eq_false_2 by modlia. done.
  - intros x Hx'. apply mapped_private in Hx' as [Hpv Hp]. by apply Hbyte.
  - cbn [vs_mm vs_dir]. by rewrite (free_count_ok s (f :: l)), (free_count_ok s2 l2) by (apply Huw || apply Hw).
Qed.

(** ** Unmapping a page *)

Lemma unmap_space s d l va : user_wf s d l -> HEAP_START <= va < HEAP_END -> present s d va ->
  exists s', unmap_page s d va = Ret s' /\ user_wf s' d (table_of (pt_entry s d va) :: l) /\
    (forall x, pt_entry s' d x = if decide (same_page va x) then 0 else pt_entry s d x) /\
    (forall x, private x -> present s d x -> ~ same_page va x -> vbyte s' d x = vbyte s d x) /\
    kept s s' d l (table_of (pt_entry s d va) :: l) /\ heap_missing s' d = heap_missing s d.
Proof.
  intros Huw Hva Hp. assert (Hpv : private va) by priv.
  destruct (uw_page _ _ _ Huw va Hpv Hp) as (Hok & Hnv & _).
  destruct (unmap_page_ok s d l va (uw_vm _ _ _ Huw) Hp Hok Hnv) as (s' & E & Hw & He & Hpd & Hk & Hm & Hs).
  set (f := table_of (pt_entry s d va)) in *.
  assert (Hold : forall x, present s' d x -> ~ same_page va x /\ present s d x /\ pt_entry s' d x = pt_entry s d x).
  { intros x Hx. unfold present in Hx. rewrite He in Hx |- *. destruct (decide (same_page va x)); [discriminate|done]. }
  assert (Hfr : forall x, private x -> present s d x -> ~ same_page va x -> table_of (pt_entry s d x) <> f).
  { intros x Hx Hpx Hne Eq. apply Hne, (uw_inj _ _ _ Huw); [exact Hpv|exact Hx|exact Hp|exact Hpx|symmetry; exact Eq]. }
  assert (Hwf : user_wf s' d (f :: l)).
  { constructor; [exact Hw|..].
    + intros x Hx Hpx. destruct (Hold x Hpx) as (Hne & Hp0 & ->).
      destruct (uw_page _ _ _ Huw x Hx Hp0) as (H1 & H2 & H3).
      split; [unfold page_ok; rewrite Hm, Hs; exact H1|]. split; [|exact H3].
      intros [H|[H|(i & Hi & Hh & H)]]; apply H2; [by left| |].
      * apply elem_of_cons in H as [H|H]; [destruct (Hfr x Hx Hp0 Hne H)|right; by left].
      * rewrite Hpd in Hh, H by exact Hi. right. right. eauto.
    + intros v1 v2 H1 H2 P1 P2. destruct (Hold v1 P1) as (_ & Q1 & ->), (Hold v2 P2) as (_ & Q2 & ->).
      apply (uw_inj _ _ _ Huw); assumption.
    + intros x Hx. rewrite Hm in Hx. pose proof (uw_gap _ _ _ Huw) as Hgap.
      unfold present, translate. rewrite He, decide_False; [exact (uw_window _ _ _ Huw x Hx)|].
      unfold same_page, KERNBASE, HEAP_START, HEAP_END in *. rewrite !u32_small by lia. modlia.
    + rewrite Hs, Hm. exact (uw_gap _ _ _ Huw). }
  assert (Hb : forall x, private x -> present s d x -> ~ same_page va x -> vbyte s' d x = vbyte s d x).
  { intros x Hx Hpx Hne. unfold vbyte, translate. rewrite He, decide_False by exact Hne.
    destruct (uw_page _ _ _ Huw x Hx Hpx) as (_ & Hnx & _).
    apply (Hk _ _ (table_of_aligned _) Hnx (Hfr x Hx Hpx Hne)). apply (translate_in s d x). }
  exists s'. split; [exact E|]. split; [exact Hwf|]. split; [exact He|]. split; [exact Hb|].
  split; [|by apply heap_missing_same].
  assert (Hus : forall x, 0 <= x < KERNBASE -> ~ same_page va x)
    by (intros x Hx; unfold same_page, KERNBASE, HEAP_START, HEAP_END in *; rewrite !u32_small by lia; modlia).
  constructor; [exact Hwf|..|done].
  - intros x Hx. rewrite He, decide_False by (by apply Hus). done.
  - intros x Hx Hpx. apply Hb; [priv|exact Hpx|by apply Hus].
  - intros q (Hq & Hqv & Hqu). assert (Hqf : q <> f) by (intros ->; by apply (Hqu va)). split.
    + split; [exact Hq|]. split.
      * intros [H|[H|(i & Hi & Hh & H)]]; [apply Hqv; by left| |].
        { apply elem_of_cons in H as [H|H]; [done|apply Hqv; right; by left]. }
        rewrite Hpd in Hh, H by exact Hi. apply Hqv. right. right. eauto.
      * intros x Hx Hpx. destruct (Hold x Hpx) as (_ & Hp0 & ->). by apply Hqu.
    + intros x Hx. apply (Hk q x Hq Hqv); [done|exact Hx].
Qed.

Lemma vs_unmap_ok p va l : user_wf (vs_mm p) (vs_dir p) l -> va mod 4096 = 0 -> HEAP_START <= va < HEAP_END ->
  vs_mapped p va = true ->
  exists p' l', vs_unmap p va = Ret p' /\ vs_dir p' = vs_dir p /\ kept (vs_mm p) (vs_mm p') (vs_dir p) l l' /\
    (forall x, vs_mapped p' x = vs_mapped p x && negb (bool_decide (va <= x < va + 4096))) /\
    (forall x, vs_mapped p' x = true -> vbyte (vs_mm p') (vs_dir p') x = vbyte (vs_mm p) (vs_dir p) x) /\
    1 + (Z.of_nat (free_count (vs_mm p)) - Z.of_nat (heap_missing (vs_mm p) (vs_dir p))) =
      Z.of_nat (free_count (vs_mm p')) - Z.of_nat (heap_missing (vs_mm p') (vs_dir p')).
Proof.
  destruct p as [s d]. intros Huw Hal Hva Hm. apply mapped_private in Hm as [_ Hp]. cbn [vs_mm vs_dir] in *.
  destruct (unmap_space s d l va Huw Hva Hp) as (s' & E & Hw & He & Hb & Hkp & Hms).
  pose proof (has_entry_pde _ _ _ Hp) as Hh.
  exists (mkVs s' d). eexists. split; [|split; [done|split; [exact Hkp|split; [|split]]]]; cbn [vs_mm vs_dir].
  - unfold vs_unmap. cbn [vs_mm vs_dir]. rewrite walk_present by exact Hh. fold (slot s d va).
    rewrite decide_False by (eapply slot_nonzero; [apply Huw|exact Hh]). rewrite E. done.
  - intros x. unfold vs_mapped. cbn [vs_mm vs_dir]. unfold HEAP_START, HEAP_END in *.
    destruct (decide (3489660928 <= x < 4290768896)) as [Hx|Hx].
    + rewrite bool_decide_eq_true_2 by exact Hx. cbn [andb]. rewrite He.
      destruct (decide (same_page va x)) as [Es|Es]; rewrite aligned_same_page in Es by lia.
      * rewrite bool_decide_eq_true_2 by exact Es. by rewrite andb_false_r.
      * rewrite bool_decide_eq_false_2 by exact Es. by rewrite andb_true_r.
    + rewrite bool_decide_eq_false_2 by exact Hx. done.
  - intros x Hx. apply mapped_private in Hx as [Hpv Hpx]. cbn [vs_mm vs_dir] in *.
    unfold present in Hpx. rewrite He in Hpx. destruct (decide (same_page va x)) as [Es|Es]; [discriminate|].
    apply Hb; assumption.
  - rewrite Hms, (free_count_ok s l), (free_count_ok s' _ (vw_free _ _ _ (uw_vm _ _ _ Hw))) by apply Huw. cbn [length]. lia.
Qed.

(** ** Pages in use and pages left

    The pages the heap has mapped and those it can still have: no operation
    makes their sum smaller. *)
Definition heap_pages : { n : nat | n = Z.to_nat 195583 }.
Proof. exists (Z.to_nat 195583). reflexivity. Qed.

Definition page_count (p : vspace) : nat :=
  length (List.filter (fun i => vs_mapped p (HEAP_START + 4096 * Z.of_nat i)) (seq 0 (proj1_sig heap_pages))).

Definition vs_budget (p : vspace) : Z :=
  Z.of_nat (free_count (vs_mm p)) - Z.of_nat (heap_missing (vs_mm p) (vs_dir p)) + Z.of_nat (page_count p).

Lemma page_count_same p p' : (forall x, HEAP_START <= x < HEAP_END -> vs_mapped p' x = vs_mapped p x) -> page_count p' = page_count p.
Proof.
  intros H. unfold page_count. f_equal. apply List.filter_ext_in. intros i Hi. apply in_seq in Hi.
  rewrite (proj2_sig heap_pages) in Hi. apply H. unfold HEAP_START, HEAP_END. lia.
Qed.

(** The page of an address of the heap, as an index. *)
Lemma heap_page va : va mod 4096 = 0 -> HEAP_START <= va < HEAP_END ->
  In (Z.to_nat ((va - HEAP_START) / 4096)) (seq 0 (proj1_sig heap_pages)) /\
  HEAP_START + 4096 * Z.of_nat (Z.to_nat ((va - HEAP_START) / 4096)) = va.
Proof.
  intros Ha Hv. rewrite (proj2_sig heap_pages). unfold HEAP_START, HEAP_END in *. split; [apply in_seq; modlia|modlia].
Qed.

Lemma filter_lose {A} (f g : A -> bool) (l : list A) (a : A) : NoDup l ->
  (forall x, In x l -> x <> a -> f x = true -> g x = true) ->
  (length (List.filter f l) <= S (length (List.filter g l)))%nat.
Proof.
  induction l as [|x l IH]; intros Hnd H; [cbn; lia|]. apply NoDup_cons in Hnd as [Hx Hnd]. cbn [List.filter].
  destruct (f x) eqn:Ef; cbn [length].
  - destruct (g x) eqn:Eg; cbn [length].
    + apply le_n_S. apply IH; [exact Hnd|]. intros y Hy. apply H. by right.
    + apply le_n_S. apply filter_mono. intros y Hy Hf. apply H; [by right| |exact Hf]. intros ->.
      assert (x = a -> False); [|].
      { intros ->. apply Hx. by apply list_elem_of_In. }
      assert (x <> a -> False); [|tauto]. intros Hne. rewrite (H x (or_introl eq_refl) Hne Ef) in Eg. discriminate.
  - assert (Hl : (length (List.filter f l) <= S (length (List.filter g l)))%nat) by (apply IH; [exact Hnd|]; intros y Hy; apply H; by right).
    destruct (g x); cbn [length]; lia.
Qed.

Lemma page_count_grow p p' va : va mod 4096 = 0 -> HEAP_START <= va < HEAP_END -> vs_mapped p va = false ->
  (forall x, vs_mapped p' x = vs_mapped p x || bool_decide (va <= x < va + 4096)) -> (S (page_count p) <= page_count p')%nat.
Proof.
  intros Ha Hv Hm H. destruct (heap_page va Ha Hv) as [Hin E].
  apply (filter_strict _ _ _ (Z.to_nat ((va - HEAP_START) / 4096))); [|exact Hin| |]; cbv beta; rewrite ?E.
  - intros i _ Hi. by rewrite H, Hi.
  - rewrite H, bool_decide_eq_true_2 by lia. apply orb_true_r.
  - exact Hm.
Qed.

Lemma page_count_shrink p p' va : va mod 4096 = 0 ->
  (forall x, vs_mapped p' x = vs_mapped p x && negb (bool_decide (va <= x < va + 4096))) -> (page_count p <= S (page_count p'))%nat.
Proof.
  intros Ha H. apply (filter_lose _ _ _ (Z.to_nat ((va - HEAP_START) / 4096))); [apply NoDup_seq|].
  intros i _ Hi Hm. rewrite H, Hm. cbn [andb]. rewrite bool_decide_eq_false_2; [done|].
  intros Hc. apply Hi. unfold HEAP_START in *. modlia.
Qed.

(** The laws of [Pager] for any property of the memory that survives what
    [kept] allows. *)
Definition pager_with (inv : vspace -> Prop)
  (Hwf : forall p, inv p -> exists l, user_wf (vs_mm p) (vs_dir p) l)
  (Hkept : forall p p' l l', inv p -> user_wf (vs_mm p) (vs_dir p) l -> vs_dir p' = vs_dir p ->
     kept (vs_mm p) (vs_mm p') (vs_dir p) l l' -> vs_budget p <= vs_budget p' -> inv p') : Pager vspace.
Proof.
  refine {| pg_mem p := vbyte (vs_mm p) (vs_dir p); pg_mapped := vs_mapped; pg_avail := vs_avail; pg_inv := inv;
            pg_write := vs_write; pg_map := vs_map; pg_unmap := vs_unmap |}.
  - intros p a v Hi H1 H2 H3 H4. destruct (Hwf p Hi) as [l Hl].
    destruct (vs_write_ok p a v l Hl H1 H2 H3 H4) as (Hk & Ha & Hm & Hb & Hf & Hg). split; [|by split].
    eapply Hkept; [exact Hi|exact Hl|done|exact Hk|]. unfold vs_budget. change (vs_dir (vs_write p a v)) with (vs_dir p).
    rewrite Hf, Hg, (page_count_same p (vs_write p a v)) by (intros x _; apply Hm). lia.
  - intros p va Hi H1 H2 H3 H4. destruct (Hwf p Hi) as [l Hl].
    destruct (vs_map_ok p va l Hl H1 H2 H3 H4) as (p' & l' & E & Hd & Hk & Ha & Hm & Hb & Hc). exists p'.
    split; [exact E|]. split; [|by split]. eapply Hkept; [exact Hi|exact Hl|exact Hd|exact Hk|].
    unfold vs_budget. pose proof (page_count_grow p p' va H1 H2 H3 Hm). lia.
  - intros p va Hi H1 H2 H3. destruct (Hwf p Hi) as [l Hl].
    destruct (vs_unmap_ok p va l Hl H1 H2 H3) as (p' & l' & E & Hd & Hk & Hm & Hb & Hc). exists p'.
    split; [exact E|]. split; [|by split]. eapply Hkept; [exact Hi|exact Hl|exact Hd|exact Hk|].
    unfold vs_budget. pose proof (page_count_shrink p p' va H1 Hm). lia.
Defined.

Lemma vs_inv_kept p p' l l' : vs_inv p -> user_wf (vs_mm p) (vs_dir p) l -> vs_dir p' = vs_dir p ->
  kept (vs_mm p) (vs_mm p') (vs_dir p) l l' -> vs_budget p <= vs_budget p' -> vs_inv p'.
Proof. intros _ _ Hd Hk _. exists l'. rewrite Hd. apply Hk. Qed.

#[export] Instance vm_pager : Pager vspace := pager_with vs_inv (fun p H => H) vs_inv_kept.

(** The heap of a task that has not allocated anything yet. *)
Definition empty_heap (s : mm) (d : Z) : heap vspace := mkHeap (mkVs s d) 0 HEAP_START.

Lemma empty_heap_repr s d l :
  user_wf s d l -> (forall x, HEAP_START <= x < HEAP_END -> ~ present s d x) -> hrepr (empty_heap s d) [].
Proof.
  intros Huw Habs. split; try done. split; [by exists l|].
  intros x Hx. cbn. unfold vs_mapped. cbn [vs_mm vs_dir]. rewrite bool_decide_eq_true_2 by exact Hx.
  rewrite bool_decide_eq_false_2 by (cbn [heap_top empty_heap]; lia). cbn [andb].
  apply not_true_is_false, Habs, Hx.
Qed.

(** What a heap in order says of the directory of the task. *)
Lemma hrepr_present (h : heap vspace) cs :
  hrepr h cs ->
  (exists l, user_wf (vs_mm (pager h)) (vs_dir (pager h)) l) /\
  (forall x, HEAP_START <= x < HEAP_END ->
     present (vs_mm (pager h)) (vs_dir (pager h)) x <-> x < heap_top h).
Proof.
  intros Hr. destruct (hr_mapped _ _ Hr) as [HI Hm]. split; [exact HI|]. intros x Hx.
  specialize (Hm x Hx). cbn in Hm. unfold vs_mapped in Hm. rewrite bool_decide_eq_true_2 in Hm by exact Hx.
  cbn [andb] in Hm. unfold present. rewrite Hm. apply bool_decide_eq_true.
Qed.

(** ** The heap and the rest of the task's memory *)

Lemma chain_unique m l1 : forall l2 head, free_chain m head l1 -> free_chain m head l2 -> l1 = l2.
Proof.
  induction l1 as [|p l1 IH]; intros [|q l2] head; cbn [free_chain].
  - done.
  - intros H1 (H2 & H3 & _). congruence.
  - intros (H2 & H3 & _) H1. congruence.
  - intros (-> & _ & H1) (-> & _ & H2). f_equal. exact (IH _ _ H1 H2).
Qed.

Lemma user_wf_unique s d l1 l2 : user_wf s d l1 -> user_wf s d l2 -> l1 = l2.
Proof.
  intros H1 H2. exact (chain_unique _ _ _ _ (fw_chain _ _ (vw_free _ _ _ (uw_vm _ _ _ H1)))
                                            (fw_chain _ _ (vw_free _ _ _ (uw_vm _ _ _ H2)))).
Qed.

Section Keep.
Context (s : mm) (d : Z) (l : list Z).

Definition keeps_from (p : vspace) : Prop :=
  (vs_dir p = d /\ exists l', kept s (vs_mm p) d l l') /\ vs_budget (mkVs s d) <= vs_budget p.

Lemma keeps_from_refl : user_wf s d l -> keeps_from (mkVs s d).
Proof. intros H. split; [|lia]. split; [done|]. exists l. by apply kept_refl. Qed.

Lemma keeps_from_wf p : keeps_from p -> exists l', user_wf (vs_mm p) (vs_dir p) l'.
Proof. intros [[-> (l' & H)] _]. exists l'. apply H. Qed.

Lemma keeps_from_kept p p' l1 l2 : keeps_from p -> user_wf (vs_mm p) (vs_dir p) l1 -> vs_dir p' = vs_dir p ->
  kept (vs_mm p) (vs_mm p') (vs_dir p) l1 l2 -> vs_budget p <= vs_budget p' -> keeps_from p'.
Proof.
  intros [[Hd (l' & H)] Hbg] Hw Hd' Hk Hb. split; [|lia]. rewrite Hd in *. split; [exact Hd'|]. exists l2.
  rewrite (user_wf_unique _ _ _ _ Hw (kp_wf _ _ _ _ _ H)) in Hk. exact (kept_trans _ _ _ _ _ _ _ H Hk).
Qed.

(** The same pages under an invariant that remembers where they started. *)
Definition keep_pager : Pager vspace := pager_with keeps_from keeps_from_wf keeps_from_kept.

Lemma hrepr_keep h cs : @hrepr _ vm_pager h cs -> keeps_from (pager h) -> @hrepr _ keep_pager h cs.
Proof. intros [H1 H2 H3 [_ H4] H5 H6 H7] Hk. by constructor. Qed.

Lemma hrepr_unkeep h cs : @hrepr _ keep_pager h cs -> @hrepr _ vm_pager h cs /\ keeps_from (pager h).
Proof.
  intros [H1 H2 H3 [Hk H4] H5 H6 H7]. split; [|exact Hk]. constructor; try assumption.
  split; [exact (keeps_from_wf _ Hk)|exact H4].
Qed.

Lemma kmalloc_kept h cs n :
  hrepr h cs -> keeps_from (pager h) -> 0 <= n -> HEAP_START + tot cs + n + HHEAD <= HEAP_END ->
  page_up (HEAP_START + tot cs + n + HHEAD) - heap_top h <= 4096 * Z.of_nat (vs_avail (pager h)) ->
  exists h', kmalloc h n = Ret (h', HEAP_START + (spec_alloc (n + HHEAD) cs).2 + HHEAD) /\
    hrepr h' (spec_alloc (n + HHEAD) cs).1 /\ keeps_from (pager h') /\
    (forall x, user_byte cs x -> vbyte (vs_mm (pager h')) (vs_dir (pager h')) x = vbyte (vs_mm (pager h)) (vs_dir (pager h)) x).
Proof.
  intros Hr Hk Hn Hend Hav.
  destruct (@kmalloc_ok _ keep_pager h cs n (hrepr_keep _ _ Hr Hk) Hn Hend Hav) as (h' & E & Hr' & Hb).
  destruct (hrepr_unkeep _ _ Hr') as [Hr1 Hk1]. exists h'. split; [exact E|]. split; [exact Hr1|]. split; [exact Hk1|exact Hb].
Qed.

Lemma kfree_kept h l1 len l2 :
  hrepr h (l1 ++ (len, false) :: l2) -> keeps_from (pager h) ->
  exists h', kfree h (HEAP_START + tot l1 + HHEAD) = Ret h' /\ hrepr h' (spec_free l1 len l2) /\ keeps_from (pager h') /\
    (forall x, user_byte (l1 ++ (len, false) :: l2) x -> ~ (HEAP_START + tot l1 <= x < HEAP_START + tot l1 + len) ->
       vbyte (vs_mm (pager h')) (vs_dir (pager h')) x = vbyte (vs_mm (pager h)) (vs_dir (pager h)) x).
Proof.
  intros Hr Hk. destruct (@kfree_ok _ keep_pager h l1 len l2 (hrepr_keep _ _ Hr Hk)) as (h' & E & Hr' & Hb).
  destruct (hrepr_unkeep _ _ Hr') as [Hr1 Hk1]. exists h'. split; [exact E|]. split; [exact Hr1|]. split; [exact Hk1|exact Hb].
Qed.

End Keep.

(** ** Properties *)

(** C15. [kmalloc] and [kfree] on the page tables of a task, for a heap in any
    order of blocks and holes.  With pages left for the block and for the tables
    of the heap area, [kmalloc] returns a block every byte of which is then
    present in the task's directory and none of which belongs to a block in use.
    [kfree] of any block in use makes its chunk a hole and unmaps exactly the
    pages above the last chunk that is left, so the block stays mapped when it
    is not at the top.  Both keep the contents of the other blocks in use, the
    whole user half of the address space, every page that is neither free nor
    of this address space, and leave the directory, the free list and the heap
    in order. *)
Theorem heap_on_page_tables (h : heap vspace) (cs : list chunk) (l : list Z)
  (Hr : hrepr h cs) (Huw : user_wf (vs_mm (pager h)) (vs_dir (pager h)) l) :
  let s := vs_mm (pager h) in
  let d := vs_dir (pager h) in
  (forall n, 0 <= n -> HEAP_START + tot cs + n + HHEAD <= HEAP_END ->
     page_up (HEAP_START + tot cs + n + HHEAD) - heap_top h <= 4096 * Z.of_nat (length l - heap_missing s d) ->
     exists h' l' p, kmalloc h n = Ret (h', p) /\ vs_dir (pager h') = d /\ kept s (vs_mm (pager h')) d l l' /\
       hrepr h' (spec_alloc (n + HHEAD) cs).1 /\
       (forall i, 0 <= i < n -> present (vs_mm (pager h')) d (p + i) /\ ~ user_byte cs (p + i)) /\
       (forall x, user_byte cs x -> vbyte (vs_mm (pager h')) d x = vbyte s d x)) /\
  (forall l1 len l2, cs = l1 ++ (len, false) :: l2 ->
     exists h' l', kfree h (HEAP_START + tot l1 + HHEAD) = Ret h' /\ vs_dir (pager h') = d /\
       kept s (vs_mm (pager h')) d l l' /\ hrepr h' (spec_free l1 len l2) /\
       (forall x, HEAP_START <= x < HEAP_END ->
          present (vs_mm (pager h')) d x <-> x < page_up (HEAP_START + tot (spec_free l1 len l2))) /\
       (forall x, user_byte cs x -> ~ (HEAP_START + tot l1 <= x < HEAP_START + tot l1 + len) ->
          vbyte (vs_mm (pager h')) d x = vbyte s d x)).
Proof.
  intros s d. assert (Hk : keeps_from s d l (pager h)) by (unfold s, d in *; destruct (pager h); by apply keeps_from_refl). split.
  - intros n Hn He Hav.
    destruct (kmalloc_kept s d l h cs n Hr Hk Hn He) as (h' & E & Hr' & [[Hd (l' & Hk')] _] & Hu).
    { unfold vs_avail. by rewrite (free_count_ok _ l) by apply Huw. }
    rewrite Hd in Hu. exists h', l', (HEAP_START + (spec_alloc (n + HHEAD) cs).2 + HHEAD).
    split; [exact E|]. split; [exact Hd|]. split; [exact Hk'|]. split; [exact Hr'|]. split; [|exact Hu].
    intros i Hi. split.
    + rewrite <- Hd. destruct (hrepr_present _ _ Hr') as [_ P]. pose proof (hr_end _ _ Hr') as He'. pose proof (hr_top _ _ Hr') as Ht'.
      pose proof (user_in_heap _ _ (HEAP_START + (spec_alloc (n + HHEAD) cs).2 + HHEAD + i) Hr'
        ltac:(apply spec_alloc_block; lia)) as Hin.
      apply P; [lia|]. rewrite Ht'. unfold page_up. modlia.
    + intros Hu'. apply (spec_alloc_user (n + HHEAD) cs _ (hr_len _ _ Hr) Hu'); unfold HHEAD; lia.
  - intros l1 len l2 ->. destruct (kfree_kept s d l h l1 len l2 Hr Hk) as (h' & E & Hr' & [[Hd (l' & Hk')] _] & Hu).
    rewrite Hd in Hu. exists h', l'. split; [exact E|]. split; [exact Hd|]. split; [exact Hk'|]. split; [exact Hr'|]. split; [|exact Hu].
    intros x Hx. rewrite <- (hr_top _ _ Hr'), <- Hd. by apply (hrepr_present _ _ Hr').
Qed.

Lemma heap_missing_le s d : (heap_missing s d <= 191)%nat.
Proof.
  unfold heap_missing. etransitivity; [apply List.filter_length_le|]. rewrite length_map, length_seq. done.
Qed.

(** Two blocks on the tables of a task, of which the first is given back: its
    page stays mapped under the second. *)
Lemma heap_on_page_tables_witness :
  exists s d h1 h2 h3 p2, kmalloc (empty_heap s d) 20 = Ret (h1, HEAP_START + 12) /\ kmalloc h1 40 = Ret (h2, p2) /\
    present (vs_mm (pager h2)) (vs_dir (pager h2)) (p2 + 39) /\ ~ (HEAP_START + 12 <= p2 + 39 < HEAP_START + 32) /\
    kfree h2 (HEAP_START + 12) = Ret h3 /\
    present (vs_mm (pager h3)) (vs_dir (pager h3)) HEAP_START.
Proof.
  destruct demo_dir as (s & d & l & Huw & Habs & Hlen & _). pose proof (heap_missing_le s d) as Hm.
  assert (Habs' : forall x, HEAP_START <= x < HEAP_END -> ~ present s d x) by (intros x Hx; apply Habs; priv).
  pose proof (empty_heap_repr s d l Huw Habs') as Hr0.
  destruct (heap_on_page_tables (empty_heap s d) [] l Hr0 Huw) as [K1 _].
  destruct (K1 20) as (h1 & l1 & p1 & E1 & Hd1 & Hk1 & Hr1 & _);
    [lia|cbn [tot]; unfold HEAP_START, HEAP_END, HHEAD; lia|cbn [empty_heap pager vs_mm vs_dir heap_top tot]| ].
  { change (page_up (HEAP_START + 0 + 20 + HHEAD) - HEAP_START) with 4096. lia. }
  destruct (kmalloc_ok (empty_heap s d) [] 20 Hr0 ltac:(lia)) as (h1' & E1' & _);
    [cbn [tot]; unfold HEAP_START, HEAP_END, HHEAD; lia|cbn [empty_heap pager heap_top tot]| ].
  { change (page_up (HEAP_START + 0 + 20 + HHEAD) - HEAP_START) with 4096.
    change (pg_avail (mkVs s d)) with (vs_avail (mkVs s d)). unfold vs_avail. cbn [vs_mm vs_dir]. rewrite (free_count_ok s l) by apply Huw. lia. }
  rewrite E1' in E1. injection E1 as -> <-. change (spec_alloc (20 + HHEAD) []).1 with [(32, false)] in Hr1.
  pose proof (kp_wf _ _ _ _ _ Hk1) as Hw1. rewrite <- Hd1 in Hw1.
  destruct (heap_on_page_tables h1 [(32, false)] l1 Hr1 Hw1) as [K2 _].
  destruct (K2 40) as (h2 & l2 & p2 & E2 & Hd2 & Hk2 & Hr2 & Hp2 & _);
    [lia|cbn [tot fst]; unfold HEAP_START, HEAP_END, HHEAD; lia| |].
  { rewrite (hr_top _ _ Hr1). cbn [tot fst]. change (page_up (HEAP_START + (32 + 0) + 40 + HHEAD)) with (page_up (HEAP_START + (32 + 0))). lia. }
  change (spec_alloc (40 + HHEAD) [(32, false)]).1 with [(32, false); (52, false)] in Hr2.
  pose proof (kp_wf _ _ _ _ _ Hk2) as Hw2. rewrite <- Hd2 in Hw2.
  destruct (heap_on_page_tables h2 [(32, false); (52, false)] l2 Hr2 Hw2) as [_ K3].
  destruct (K3 [] 32 [(52, false)] eq_refl) as (h3 & l3 & E3 & Hd3 & _ & _ & Hp3 & _).
  exists s, d, h1, h2, h3, p2. split; [exact E1'|]. split; [exact E2|]. destruct (Hp2 39 ltac:(lia)) as [P1 P2].
  split; [rewrite Hd2; exact P1|]. split; [intros Hx; apply P2; left; split; [done|unfold HHEAD; lia]|]. split; [exact E3|].
  rewrite Hd3. apply Hp3; unfold HEAP_START, HEAP_END; [lia|]. reflexivity.
Defined.

