(* ===== verification/SfsText.v ===== *)
(** * What the file system prints

    fs/sfs/sfs.c reports what it does with [printk].  The functions of Sfs.v
    have no console; here are the characters they print, computed along the same
    loop over the index, and the lines of [sfs_open] and [sfs_stat].  Machine.v
    puts them on the console.  A name without its NUL inside the entry, or a
    long one without it in the block assembled for it, is cut at the end. *)

From stdpp Require Import base list strings.
From Stdlib Require Import ZArith Lia.
From S2P Require Import Prelude CString BlockDev Le Sfs MkSfs SfsImage SfsSpec Console Printf.

Open Scope Z_scope.

(** The characters in front of a NUL. *)
Fixpoint cut (l : list Z) : list Z :=
  match l with
  | [] => []
  | b :: l' => if decide (b = 0) then [] else b :: cut l'
  end.

(** [%d] and [%x]. *)
Definition dec_text (n : Z) : list Z := frag_text (FDec n).

Definition hex_text (n : Z) : list Z := frag_text (FHex n false).

Section Text.

Context {D : Type} `{dev : BlockDev D}.
Variable beyond : Z -> Z.

(** The continuation entries of a long name, one behind the other. *)
Fixpoint conts_bytes (ne : nat) (s : sfs D) (nindex : Z) : outcome (sfs D * list Z) :=
  match ne with
  | O => Ret (s, [])
  | S k =>
      '(s1, b) ← read_index s (u32 (nindex + Z.of_nat ne));
      '(s2, r) ← conts_bytes k s1 nindex; Ret (s2, b ++ r)
  end.

(** The lines for one entry, a [kind] of which is [dir] or [file]. *)
Definition entry_text (kind : string) (s : sfs D) (file e : list Z) (nindex space off : Z) :
    outcome (sfs D * bool * list Z) :=
  let name := drop (Z.to_nat off) e in
  let found := name_matches beyond file e off in
  let hit := if found then chars "found " ++ chars kind ++ chars ": " ++ cut name ++ [10] else [] in
  if bool_decide (ie_ne e = 0) && bool_decide (Z.of_nat (length file) <= space) then Ret (s, found, hit)
  else
    '(s1, conts) ← conts_bytes (Z.to_nat (ie_ne e)) s nindex;
    Ret (s1, found, chars "long " ++ chars kind ++ chars ": " ++ cut (take (Z.to_nat space) name ++ conts) ++ [10] ++ hit).

Fixpoint text_loop (fuel : nat) (s : sfs D) (file : list Z) (nindex : Z) : outcome (bool * list Z) :=
  if decide (nindex > 0) then
    match fuel with
    | O => Stop Fuel
    | S k =>
        '(s1, e) ← read_index s (u32 nindex);
        let nindex' := nindex - (ie_ne e + 1) in
        if decide (ie_etype e = IAT_DIR_ENT \/ ie_etype e = IAT_FILE_ENT) then
          '(s2, found, t) ← (if decide (ie_etype e = IAT_DIR_ENT) then entry_text "dir" s1 file e nindex' DIR_SPACE dir_name
                             else entry_text "file" s1 file e nindex' FILE_SPACE file_name);
          if found : bool then Ret (true, t)
          else '(r, t') ← text_loop k s2 file nindex'; Ret (r, t ++ t')
        else Ret (false, chars "etype: " ++ hex_text (ie_etype e) ++ [10])
    end
  else Ret (false, []).

(** Whether [sfs_find_index] finds [file], and what it prints. *)
Definition find_text (s : sfs D) (file : list Z) : outcome (bool * list Z) :=
  let nindex := s32 (ia_num s - 1) in text_loop (Z.to_nat nindex) s file nindex.

(** The first line of [sfs_open]. *)
Definition sfs_open_text (pathname : list Z) (flags : Z) : list Z :=
  chars "in sfs_open: pathname=" ++ pathname ++ chars ", flags = " ++ dec_text flags ++ [10].

(** Its last one, by the branch it returns on: [inp] is what [sfs_namei] gave,
    [s] the tables before and [fd] the result. *)
Definition sfs_open_result (s : sfs D) (inp : option nat) (flags fd : Z) : list Z :=
  match inp with
  | None => if has flags O_CREAT then chars "Create file fail!" ++ [10] else []
  | Some _ =>
      if decide (0 <= fd) then chars "fd = " ++ dec_text fd ++ [10]
      else match find_index (fun o => bool_decide (o = None)) (ofile s) with
           | None => chars "open: ofile[] is full!"
           | Some _ => chars "open: fdtable[] is full!"
           end
  end.

End Text.

(** ** On an image of the builder *)

(** Names as they fit into one entry. *)
Definition short_names (es : list ent) : Prop :=
  Forall (fun e => (length (e_name e) <= 28)%nat /\ Forall (fun b => 1 <= b < 256) (e_name e)) es.

Lemma short_names_all es : short_names es -> all_short es.
Proof. intros H. apply (Forall_impl _ _ _ H). by intros e []. Qed.

(** The one line of a search. *)
Definition found_line (e : option ent) : list Z :=
  match e with Some e => chars "found file: " ++ e_name e ++ [10] | None => [] end.

(** Images of files with such names have them. *)
Lemma built_short host names new :
  Forall2 (built_from host) names new ->
  Forall (fun n => (length n <= 28)%nat /\ Forall (fun b => 1 <= b < 256) n) names -> short_names (EDir [47] 21 :: new).
Proof.
  intros H Hn. apply Forall_cons. split; [split; [cbn; lia|repeat constructor; lia]|].
  induction H as [|n e names new Hb H IH]; [constructor|].
  apply Forall_cons in Hn as [Hn1 Hn]. apply Forall_cons. split; [|by apply IH]. by rewrite (built_from_name _ _ _ Hb).
Qed.

Lemma cut_app n r : Forall (fun b => b <> 0) n -> cut (n ++ 0 :: r) = n.
Proof. induction 1 as [|b n Hb Hn IH]; [done|]. cbn. rewrite decide_False by done. by rewrite IH. Qed.

Lemma pad_zero k (n : list Z) : (length n < k)%nat -> exists r, pad k n = n ++ 0 :: r.
Proof.
  intros H. unfold pad. rewrite take_ge by lia. destruct (k - length n)%nat as [|j] eqn:E; [lia|].
  exists (repeat 0 j). done.
Qed.

Section Shown.

Context {D : Type} `{dev : BlockDev D}.
Variable beyond : Z -> Z.
Variable numblk : Z.
Hypothesis Hnb : 2 <= numblk <= 8388607.

Variable m : memory.
Variable es : list ent.
Variables d0 i0 : Z.
Hypothesis Him : image numblk m es d0 i0.

Lemma conts_bytes_ok k : forall (s : sfs D) n,
  mounted numblk m i0 s -> 0 <= n -> n + Z.of_nat k < numblk * 8 ->
  exists d b, conts_bytes k s n = Ret (set_sdev s d, b) /\ shows numblk m d.
Proof.
  induction k as [|k IH]; intros s n Hm Hn Hk; cbn [conts_bytes].
  - exists (sdev s), []. split; [by destruct s|apply Hm].
  - rewrite u32_small by lia.
    destruct (read_index_ok beyond numblk Hnb m i0 s (n + Z.of_nat (S k)) Hm ltac:(lia)) as (d & -> & Hd). rewrite bind_Ret. cbn beta iota.
    destruct (IH (set_sdev s d) n) as (d' & b & -> & Hd'); [by apply set_sdev_shows|lia|lia|].
    rewrite bind_Ret. by eexists d', _.
Qed.

Lemma file_name_text n st c : (length n <= 28)%nat -> Forall (fun b => 1 <= b < 256) n ->
  cut (drop (Z.to_nat file_name) (e_raw (EFile n st c))) = n.
Proof.
  intros Hl Hn. change (Z.to_nat file_name) with 34%nat. unfold e_raw, enc_entry. rewrite !app_assoc.
  rewrite drop_app_length'; [|rewrite !length_app, !length_le; done].
  destruct (pad_zero 30 n ltac:(lia)) as [r ->]. apply cut_app. apply (Forall_impl _ _ _ Hn). intros b Hb. lia.
Qed.

Lemma entry_text_ok (s : sfs D) kind file e p space off :
  mounted numblk m i0 s -> 0 <= p -> p + e_ne e < numblk * 8 -> (length (e_name e) < 1024)%nat ->
  exists d t, entry_text beyond kind s file (e_raw e) p space off =
    Ret (set_sdev s d, name_matches beyond file (e_raw e) off, t) /\ shows numblk m d /\
    ((length (e_name e) <= 28)%nat -> Z.of_nat (length file) <= space ->
     t = if name_matches beyond file (e_raw e) off
         then chars "found " ++ chars kind ++ chars ": " ++ cut (drop (Z.to_nat off) (e_raw e)) ++ [10] else []).
Proof.
  intros Hm Hp He Hl. unfold entry_text. rewrite raw_ne by done. destruct (_ && _) eqn:E.
  - eexists (sdev s), _. split; [by destruct s|]. split; [apply Hm|done].
  - destruct (conts_bytes_ok (Z.to_nat (e_ne e)) s p Hm Hp) as (d & b & -> & Hd).
    { pose proof (e_ne_nonneg e). lia. }
    rewrite bind_Ret. eexists d, _. split; [done|]. split; [done|]. intros Hshort Hfl. exfalso.
    rewrite !bool_decide_eq_true_2 in E; [done|done|]. unfold e_ne, NIE_FILE, IE_SZ. modlia.
Qed.

Lemma text_loop_ok file l : forall (s : sfs D) fuel,
  path_ok file -> mounted numblk m i0 s -> entries_at numblk m d0 1 l -> names_ok l ->
  next_slot 1 l <= i0 -> (length l <= fuel)%nat ->
  exists t, text_loop beyond fuel s file (next_slot 1 l - 1) = Ret (bool_decide (is_Some (lookup_ent file l)), t) /\
    (short_names l -> t = found_line (lookup_ent file l)).
Proof.
  induction l as [|e l IH] using rev_ind; intros s fuel Hp Hm He Hn Hi Hf.
  - exists []. split; [by destruct fuel|done].
  - apply entries_at_app in He as (He & Hslot & Hdat).
    apply Forall_app in Hn as [Hn He2]. apply Forall_cons in He2 as [[Hlen Hby] _].
    rewrite next_slot_app in *. pose proof (e_ne_nonneg e) as Hne.
    pose proof (next_slot_ge l 1) as Hge. pose proof (im_space _ _ _ _ _ Him) as (Hs0 & Hs1 & Hs2).
    rewrite length_app in Hf. cbn [length] in Hf. destruct fuel as [|fuel]; [lia|].
    replace (next_slot 1 l + e_ne e + 1 - 1) with (next_slot 1 l + e_ne e) by lia.
    cbn [text_loop]. rewrite decide_True by lia. rewrite u32_small by modlia.
    destruct (read_index_ok beyond numblk Hnb m i0 s (next_slot 1 l + e_ne e) Hm ltac:(modlia)) as (d1 & -> & Hd1).
    rewrite bind_Ret. cbn beta iota. rewrite Hslot, raw_ne, raw_etype by done.
    replace (next_slot 1 l + e_ne e - (e_ne e + 1)) with (next_slot 1 l - 1) by lia.
    pose proof (set_sdev_shows numblk m i0 s d1 Hm Hd1) as Hm1.
    assert (Hlk : lookup_ent file (l ++ [e]) = if matches file e then Some e else lookup_ent file l)
      by (unfold lookup_ent; by rewrite rev_unit).
    pose proof Hp as [Hpl _].
    assert (Hgo : forall d2, shows numblk m d2 -> exists t, text_loop beyond fuel (set_sdev (set_sdev s d1) d2) file (next_slot 1 l - 1) =
        Ret (bool_decide (is_Some (lookup_ent file l)), t) /\ (short_names (l ++ [e]) -> t = found_line (lookup_ent file l))).
    { intros d2 Hd2. destruct (IH (set_sdev (set_sdev s d1) d2) fuel) as (t & E & R);
        [done|by apply set_sdev_shows|done|done|lia|lia|].
      exists t. split; [exact E|]. intros Hs. apply Forall_app in Hs as [Hs _]. by apply R. }
    rewrite Hlk. destruct e as [n len|n st c].
    + rewrite decide_True by (by left). rewrite decide_True by done.
      destruct (entry_text_ok (set_sdev s d1) "dir" file (EDir n len) (next_slot 1 l - 1) DIR_SPACE dir_name)
        as (d2 & t & -> & Hd2 & Ht); [done|lia|modlia|done|]. rewrite bind_Ret. cbn beta iota.
      rewrite name_matches_dir in * by done. cbn [matches]. destruct (Hgo d2 Hd2) as (t' & -> & R). rewrite bind_Ret.
      exists (t ++ t'). split; [done|]. intros Hs. rewrite Ht; [by apply R| |unfold DIR_SPACE; lia].
      apply Forall_app in Hs as [_ Hs]. by apply Forall_cons in Hs as [[Hs _] _].
    + rewrite decide_True by (by right). rewrite decide_False by done.
      destruct (entry_text_ok (set_sdev s d1) "file" file (EFile n st c) (next_slot 1 l - 1) FILE_SPACE file_name)
        as (d2 & t & -> & Hd2 & Ht); [done|lia|modlia|done|]. rewrite bind_Ret. cbn beta iota.
      rewrite name_matches_file in * by done. destruct (matches file (EFile n st c)).
      * exists t. split; [done|]. intros Hs. apply Forall_app in Hs as [_ Hs]. apply Forall_cons in Hs as [[Hs1' Hs2'] _].
        cbn [e_name] in *. rewrite Ht, file_name_text by (done || unfold FILE_SPACE; lia). reflexivity.
      * destruct (Hgo d2 Hd2) as (t' & -> & R). rewrite bind_Ret. exists (t ++ t'). split; [done|].
        intros Hs. rewrite Ht; [by apply R| |unfold FILE_SPACE; lia].
        apply Forall_app in Hs as [_ Hs]. by apply Forall_cons in Hs as [[Hs _] _].
Qed.

(** A search prints one line when all names are short: the name it found. *)
Lemma find_text_ok (s : sfs D) file :
  path_ok file -> mounted numblk m i0 s -> names_ok es ->
  exists t, find_text beyond s file = Ret (bool_decide (is_Some (lookup_ent file es)), t) /\
    (short_names es -> t = found_line (lookup_ent file es)).
Proof.
  intros Hp Hm Hn. pose proof Hm as (_ & _ & _ & Hia). pose proof Him as [He Hi Hs _].
  destruct Hs as (Hs0 & Hs1 & Hs2). pose proof (next_slot_length es 1) as Hl.
  unfold find_text. rewrite Hia, s32_small by modlia. rewrite Hi.
  apply text_loop_ok; try done; lia.
Qed.

End Shown.
