(* ===== verification/TaskHeap.v ===== *)
(** * The heap the file system borrows

    fs/sfs/sfs.c puts a long name together in a block of the kernel heap of the
    running task.  Sfs.v asks for that block through the interface [NameHeap];
    here is its implementation by the heap of kern/heap.c on the page tables of
    the task (VmHeap.v): the block is allocated, filled and given back, and the
    heap has the same chunks with the same contents again. *)

From stdpp Require Import base list strings.
From Stdlib Require Import ZArith Lia.
From S2P Require Import Prelude Mmu CString Kalloc PageTable VmSpec Heap Vmem UserMem VmHeap Sfs.

Open Scope Z_scope.

Abbreviation hmm h := (vs_mm (pager h)).
Abbreviation hdir h := (vs_dir (pager h)).

(** The file system writes to its block through the directory of the task. *)
Definition heap_write (h : heap vspace) (a : Z) (bs : list Z) : outcome (heap vspace) :=
  s ← vwrite (hmm h) (hdir h) a (map u8 bs); Ret (set_pager h (mkVs s (hdir h))).

(** There is room for [n] more bytes on the heap. *)
Definition room_for (h : heap vspace) (cs : list chunk) (n : Z) : Prop :=
  HEAP_START + tot cs + n + HHEAD <= HEAP_END /\
  page_up (HEAP_START + tot cs + n + HHEAD) - heap_top h <= 4096 * Z.of_nat (vs_avail (pager h)).

Definition heap_keeps (h h' : heap vspace) (cs : list chunk) (l : list Z) : Prop :=
  keeps_from (hmm h) (hdir h) l (pager h') /\
  forall x, user_byte cs x -> vbyte (hmm h') (hdir h') x = vbyte (hmm h) (hdir h) x.

(** The same chunks with the same contents, and no page less to be had. *)
Definition heap_same (h h' : heap vspace) : Prop :=
  forall cs l, hrepr h cs -> user_wf (hmm h) (hdir h) l -> hrepr h' cs /\ heap_keeps h h' cs l.

(** [h1] is [h] with one more block, of [n] bytes at [p]. *)
Definition heap_held (h h1 : heap vspace) (p n : Z) : Prop :=
  exists cs l, hrepr h cs /\ user_wf (hmm h) (hdir h) l /\ 0 < n /\
    p = HEAP_START + (spec_alloc (n + HHEAD) cs).2 + HHEAD /\
    hrepr h1 (spec_alloc (n + HHEAD) cs).1 /\ heap_keeps h h1 cs l.

(** ** Blocks and stores *)

(** Stores into private memory leave the tables alone. *)
Lemma stored_pde s s' d l dst n i : user_wf s d l -> stored s s' d l dst n -> priv_at s d dst n -> 0 <= i < 1024 ->
  pde_at s' d i = pde_at s d i.
Proof.
  intros Huw Hst (_ & _ & Hat) Hi. unfold pde_at. apply load32_ext. intros x Hx. apply (sd_keep _ _ _ _ _ _ Hst).
  intros va Hva ->. destruct (Hat va Hva) as [Hp Hpr]. destruct (uw_page _ _ _ Huw va Hp Hpr) as (_ & Hnv & _).
  apply Hnv. left.
  pose proof (translate_in s d va). pose proof (table_of_aligned (pt_entry s d va)).
  destruct (vw_dir _ _ _ (uw_vm _ _ _ Huw)) as [Hal _]. modlia.
Qed.

(** Stores into the heap keep the rest. *)
Lemma stored_kept s s' d l dst n :
  user_wf s d l -> stored s s' d l dst n -> priv_at s d dst n -> KERNBASE <= dst -> kept s s' d l l.
Proof.
  intros Huw Hst Hat Hk. constructor; [exact (sd_wf _ _ _ _ _ _ Hst)|..|exact (sd_mm _ _ _ _ _ _ Hst)].
  - intros va _. apply (sd_entry _ _ _ _ _ _ Hst).
  - intros va Hva Hp. apply (stored_user _ _ _ Huw _ _ _ _ Hst Hat); [priv|exact Hp|lia].
  - intros q Hq. split; [|intros x Hx; exact (stored_foreign _ _ _ _ _ _ _ _ Hst Hat Hq Hx)].
    destruct Hq as (Hq & Hqv & Hqu). split; [exact Hq|]. split.
    + intros H. apply Hqv, (sd_pages _ _ _ _ _ _ Hst), H.
    + intros va Hva Hp. unfold present in Hp. rewrite (sd_entry _ _ _ _ _ _ Hst) in *. by apply Hqu.
Qed.

Lemma stored_mapped s s' d l dst n x : stored s s' d l dst n -> vs_mapped (mkVs s' d) x = vs_mapped (mkVs s d) x.
Proof. intros Hst. unfold vs_mapped. cbn [vs_mm vs_dir]. by rewrite (sd_entry _ _ _ _ _ _ Hst). Qed.

Lemma stored_budget s s' d l dst n : user_wf s d l -> stored s s' d l dst n -> priv_at s d dst n ->
  vs_budget (mkVs s' d) = vs_budget (mkVs s d).
Proof.
  intros Huw Hst Hat. unfold vs_budget. cbn [vs_mm vs_dir].
  rewrite (free_count_ok s' l) by apply (sd_wf _ _ _ _ _ _ Hst). rewrite (free_count_ok s l) by apply Huw.
  rewrite (heap_missing_same s s' d) by (intros i Hi; by apply (stored_pde s s' d l dst n)).
  rewrite (page_count_same (mkVs s d) (mkVs s' d)) by (intros x _; by apply (stored_mapped s s' d l dst n)). done.
Qed.

(** The block of [kmalloc] is memory of the task below the top of the heap. *)
Lemma heap_block (h : heap vspace) cs n :
  hrepr h (spec_alloc (n + HHEAD) cs).1 -> 0 <= n -> Forall (fun c => HHEAD <= c.1) cs ->
  let p := HEAP_START + (spec_alloc (n + HHEAD) cs).2 + HHEAD in
  HEAP_START + HHEAD <= p /\ p + n <= HEAP_END /\ (0 < n -> priv_at (hmm h) (hdir h) p n).
Proof.
  intros Hr Hn Hl p. pose proof (repr_bounds _ _ Hr) as (Hb & _ & _).
  assert (Hin : forall x, p <= x < p + n -> HEAP_START <= x < HEAP_START + tot (spec_alloc (n + HHEAD) cs).1).
  { intros x Hx. apply (user_in_heap h _ x Hr). apply spec_alloc_block. unfold p in Hx. lia. }
  assert (Ho : 0 <= (spec_alloc (n + HHEAD) cs).2) by (by apply spec_alloc_nonneg).
  split; [unfold p; lia|]. assert (Hend : p + n <= HEAP_END).
  { unfold p. pose proof (spec_alloc_fits (n + HHEAD) cs ltac:(unfold HHEAD; lia) Hl). lia. }
  split; [exact Hend|]. intros Hn0. split; [unfold p, HHEAD, HEAP_START in *; lia|].
  split; [unfold HEAP_END in *; lia|]. intros x Hx. specialize (Hin x Hx). split; [priv|].
  apply (hrepr_present _ _ Hr); lia.
Qed.

(** Filling (a part of) the block. *)
Lemma block_fill (h0 h : heap vspace) cs n l s a k :
  let p := HEAP_START + (spec_alloc (n + HHEAD) cs).2 + HHEAD in
  hrepr h0 cs -> hrepr h (spec_alloc (n + HHEAD) cs).1 -> user_wf (hmm h) (hdir h) l -> 0 < n ->
  stored (hmm h) s (hdir h) l a k -> p <= a -> a + k <= p + n -> priv_at (hmm h) (hdir h) a k ->
  hrepr (set_pager h (mkVs s (hdir h))) (spec_alloc (n + HHEAD) cs).1 /\
  (forall x, user_byte cs x -> vbyte s (hdir h) x = vbyte (hmm h) (hdir h) x).
Proof.
  intros p Hr0 Hr Hw Hn Hst Ha Hk Hat. pose proof (hr_len _ _ Hr0) as Hl. pose proof (repr_bounds _ _ Hr) as (Hb & _ & _).
  assert (Hout : forall x, HEAP_START <= x < HEAP_START + tot (spec_alloc (n + HHEAD) cs).1 -> ~ (a <= x < a + k) ->
    vbyte s (hdir h) x = vbyte (hmm h) (hdir h) x).
  { intros x Hx Hn'. apply (stored_user _ _ _ Hw _ _ _ _ Hst Hat); [unfold HEAP_START, HEAP_END in *; priv| |exact Hn'].
    apply (hrepr_present _ _ Hr); lia. }
  split.
  - apply (hrepr_user h _ (mkVs s (hdir h)) Hr).
    + exists l. exact (sd_wf _ _ _ _ _ _ Hst).
    + intros x _. cbn. destruct (pager h) as [s0 d0]. by apply (stored_mapped s0 s d0 l a k).
    + intros x Hx Hu. apply Hout; [exact Hx|]. intros Hin. apply Hu, spec_alloc_block. fold p. lia.
  - intros x Hx. pose proof (spec_alloc_user (n + HHEAD) cs x Hl Hx) as Hu. cbv zeta in Hu. fold p in Hu.
    apply Hout; [|unfold HHEAD in *; lia].
    destruct (spec_alloc_free (n + HHEAD) cs (hr_tidy _ _ Hr0) Hl) as (l1 & len & l2 & E & _ & Hk').
    apply (user_in_heap h _ x Hr). rewrite E. by apply Hk'.
Qed.

(** ** The interface *)

Lemma keeps_from_trans s d l p l' p' : keeps_from s d l p -> user_wf (vs_mm p) (vs_dir p) l' ->
  keeps_from (vs_mm p) (vs_dir p) l' p' -> keeps_from s d l p'.
Proof.
  intros Hk Hw [[Hd (l2 & Hk2)] Hb]. destruct p as [s1 d1]. exact (keeps_from_kept s d l _ p' l' l2 Hk Hw Hd Hk2 Hb).
Qed.

Lemma heap_keeps_refl h cs l : user_wf (hmm h) (hdir h) l -> heap_keeps h h cs l.
Proof. intros Hw. split; [|done]. destruct (pager h) as [s d]. by apply keeps_from_refl. Qed.

Lemma heap_keeps_wf h h' cs l : heap_keeps h h' cs l -> exists l', user_wf (hmm h') (hdir h') l'.
Proof. intros [Hk _]. exact (keeps_from_wf _ _ _ _ Hk). Qed.

(** The pages that are left are counted by the chunks. *)
Lemma heap_same_avail h h' cs l : hrepr h cs -> hrepr h' cs -> heap_keeps h h' cs l -> (vs_avail (pager h) <= vs_avail (pager h'))%nat.
Proof.
  intros Hr Hr' [[[Hd _] Hb] _]. unfold vs_budget in Hb. cbn [vs_mm vs_dir] in Hb.
  assert (E : page_count (pager h') = page_count (mkVs (hmm h) (hdir h))).
  { apply page_count_same. intros x Hx. replace (mkVs (hmm h) (hdir h)) with (pager h) by (by destruct (pager h)).
    pose proof (proj2 (hr_mapped _ _ Hr) x Hx) as M. pose proof (proj2 (hr_mapped _ _ Hr') x Hx) as M'. cbn in M, M'.
    rewrite M, M'. by rewrite (hr_top _ _ Hr), (hr_top _ _ Hr'). }
  rewrite E in Hb. unfold vs_avail. lia.
Qed.

Lemma room_for_same h h' cs n : hrepr h cs -> heap_same h h' -> room_for h cs n -> room_for h' cs n.
Proof.
  intros Hr Hs [Hend Hav]. destruct (hrepr_present _ _ Hr) as [[l Hw] _]. destruct (Hs cs l Hr Hw) as [Hr' Hk].
  pose proof (heap_same_avail h h' cs l Hr Hr' Hk). split; [exact Hend|].
  rewrite (hr_top _ _ Hr') in *. rewrite (hr_top _ _ Hr) in Hav. lia.
Qed.

Lemma heap_same_trans h1 h2 h3 : heap_same h1 h2 -> heap_same h2 h3 -> heap_same h1 h3.
Proof.
  intros A B cs l Hr Hw. destruct (A cs l Hr Hw) as [Hr2 Hk2]. destruct (heap_keeps_wf _ _ _ _ Hk2) as [l2 Hw2].
  destruct (B cs l2 Hr2 Hw2) as [Hr3 [Hk3 Hu3]], Hk2 as [Hk2 Hu2]. split; [exact Hr3|]. split.
  - exact (keeps_from_trans _ _ _ _ _ _ Hk2 Hw2 Hk3).
  - intros x Hx. rewrite Hu3 by exact Hx. by apply Hu2.
Qed.

Lemma heap_kmalloc_held h n k : 0 < n <= k -> (exists cs, hrepr h cs /\ room_for h cs k) ->
  exists h1 p, kmalloc h n = Ret (h1, p) /\ p <> 0 /\ heap_held h h1 p n.
Proof.
  intros Hn (cs & Hr & Hend & Hav). destruct (hrepr_present _ _ Hr) as [[l Hw] _].
  destruct (kmalloc_kept (hmm h) (hdir h) l h cs n Hr) as (h1 & E & Hr1 & Hk & Hu).
  { exact (proj1 (heap_keeps_refl h cs l Hw)). } { lia. } { lia. } { unfold page_up in *. modlia. }
  eexists h1, _. split; [exact E|]. split.
  - pose proof (spec_alloc_nonneg (n + HHEAD) cs (hr_len _ _ Hr)). unfold HEAP_START, HHEAD in *. lia.
  - exists cs, l. split; [exact Hr|]. split; [exact Hw|]. split; [lia|]. split; [done|]. split; [exact Hr1|]. by split.
Qed.

Lemma heap_write_held h h1 p n a bs : heap_held h h1 p n -> p <= a -> a + Z.of_nat (length bs) <= p + n ->
  exists h2, heap_write h1 a bs = Ret h2 /\ heap_held h h2 p n.
Proof.
  intros (cs & l & Hr & Hw & Hn & -> & Hr1 & Hk) Ha Hl. destruct (heap_keeps_wf _ _ _ _ Hk) as [l1 Hw1].
  destruct (heap_block h1 cs n Hr1 ltac:(lia) (hr_len _ _ Hr)) as (Hp0 & Hp1 & Hat). specialize (Hat Hn).
  set (p := HEAP_START + (spec_alloc (n + HHEAD) cs).2 + HHEAD) in *.
  assert (Hsub : priv_at (hmm h1) (hdir h1) a (Z.of_nat (length bs))).
  { destruct Hat as (H0 & H1 & H2). split; [lia|]. split; [lia|]. intros va Hva. apply H2. lia. }
  destruct (vwrite_ok (hdir h1) l1 (map u8 bs) (hmm h1) a Hw1) as (s & E & Hst & _).
  { by rewrite length_map. } { apply Forall_map, Forall_true. intros b. apply u8_range. }
  rewrite length_map in Hst. exists (set_pager h1 (mkVs s (hdir h1))). split; [unfold heap_write; by rewrite E|].
  destruct (block_fill h h1 cs n l1 s a _ Hr Hr1 Hw1 Hn Hst Ha Hl Hsub) as [Hr2 Hu2].
  exists cs, l. split; [exact Hr|]. split; [exact Hw|]. split; [exact Hn|]. split; [done|]. split; [exact Hr2|].
  destruct Hk as [Hk Hu]. split; cbn [set_pager pager vs_mm vs_dir].
  - apply (keeps_from_kept (hmm h) (hdir h) l (pager h1) (mkVs s (hdir h1)) l1 l1 Hk Hw1 eq_refl).
    + apply (stored_kept _ _ _ _ a (Z.of_nat (length bs))); try assumption. unfold KERNBASE, HEAP_START, HHEAD in *. lia.
    + rewrite (stored_budget _ _ _ l1 a _ Hw1 Hst Hsub). destruct (pager h1). apply Z.le_refl.
  - intros x Hx. rewrite Hu2 by exact Hx. by apply Hu.
Qed.

Lemma heap_kfree_held h h1 p n : heap_held h h1 p n -> exists h2, kfree h1 p = Ret h2 /\ heap_same h h2.
Proof.
  intros (cs & l & Hr & Hw & Hn & -> & Hr1 & Hk & Hu).
  destruct (spec_alloc_free (n + HHEAD) cs (hr_tidy _ _ Hr) (hr_len _ _ Hr)) as (l1 & len & l2 & E & Hback & Hothers).
  rewrite E in *. cbn [fst snd] in *. destruct (kfree_kept (hmm h) (hdir h) l h1 l1 len l2 Hr1 Hk) as (h2 & E2 & Hr2 & Hk2 & Hu2).
  rewrite Hback in Hr2. exists h2. split; [exact E2|]. intros cs' l' Hr' Hw'.
  rewrite (hrepr_unique h cs' cs Hr' Hr), (user_wf_unique _ _ _ _ Hw' Hw). split; [exact Hr2|]. split; [exact Hk2|].
  intros x Hx. destruct (Hothers x Hx) as [H1 H2]. rewrite Hu2 by assumption. by apply Hu.
Qed.

#[export] Instance task_heap : NameHeap (heap vspace) := {|
  nh_kmalloc := kmalloc;
  nh_write := heap_write;
  nh_kfree := kfree;
  nh_room h n := exists cs, hrepr h cs /\ room_for h cs n;
  nh_held := heap_held;
  nh_same := heap_same;
  nh_same_refl h cs l Hr Hw := conj Hr (heap_keeps_refl h cs l Hw);
  nh_same_trans := heap_same_trans;
  nh_room_same h h' n Hs Hroom :=
    let '(ex_intro _ cs (conj Hr Hf)) := Hroom in
    let '(ex_intro _ l Hw) := proj1 (hrepr_present _ _ Hr) in
    ex_intro _ cs (conj (proj1 (Hs cs l Hr Hw)) (room_for_same h h' cs n Hr Hs Hf));
  nh_kmalloc_ok := heap_kmalloc_held;
  nh_write_ok := heap_write_held;
  nh_kfree_ok := heap_kfree_held
|}.
