(* ===== verification/Machine.v ===== *)
(** * The kernel as one machine

    The state the system calls work on: tasks and memory (Task.v), console
    (Console.v), file system (Sfs.v), the descriptors of each task, the pointers
    of the inode cache to the names it keeps in the kernel heap, and the clock.
    While a task is in the kernel its directory is loaded, so the kernel reads
    and writes the task's memory through it (Vmem.v); [kmalloc] and [kfree] work
    on the heap area of the same directory (VmHeap.v).  The functions of
    fs/sfs/sfs.c that look a path up are composed here with the heap they keep
    the name in, and with the console they report to. *)

From stdpp Require Import base list strings.
From Stdlib Require Import ZArith Lia.
From S2P Require Import Prelude Mmu CString Kalloc PageTable VmSpec Ring Task Heap Vmem UserMem VmHeap.
From S2P Require Import Boot Loader Console Printf BlockDev Le Sfs SfsText TaskHeap.

Open Scope Z_scope.

(** [m_ofile c] is [tasks[c].ofile], [m_iname i] is [ibuf[i].name]. *)
Record machine (D : Type) : Type := mkMachine {
  m_kern : kern;
  m_cons : console;
  m_sfs : sfs D;
  m_ofile : nat -> list (option nat);
  m_iname : nat -> Z;
  timer_ticks : Z;
  reent : Z
}.

Arguments mkMachine {D}.
Arguments m_kern {D}.
Arguments m_cons {D}.
Arguments m_sfs {D}.
Arguments m_ofile {D}.
Arguments m_iname {D}.
Arguments timer_ticks {D}.
Arguments reent {D}.

Definition with_heap (t : task) (start top : Z) : task :=
  mkTask (t_tf t) (t_context t) (t_pid t) (t_ppid t) (t_name0 t) (t_state t) (t_sz t) (t_priority t)
         (t_pgdir t) (t_kstack t) (t_chan t) top start (t_parent t) (t_next t).

Section Machine.

Context {D : Type} `{dev : BlockDev D}.

Definition set_kern (m : machine D) (k : kern) : machine D :=
  mkMachine k (m_cons m) (m_sfs m) (m_ofile m) (m_iname m) (timer_ticks m) (reent m).

Definition set_cons (m : machine D) (c : console) : machine D :=
  mkMachine (m_kern m) c (m_sfs m) (m_ofile m) (m_iname m) (timer_ticks m) (reent m).

Definition set_iname (m : machine D) (i : nat) (p : Z) : machine D :=
  mkMachine (m_kern m) (m_cons m) (m_sfs m) (m_ofile m) (upd (m_iname m) i p) (timer_ticks m) (reent m).

Definition m_mm (m : machine D) : mm := kmm (m_kern m).

Definition set_mm (m : machine D) (s : mm) : machine D := set_kern m (set_kmm (m_kern m) s).

(** The file system as task [c] sees it, and what it leaves behind. *)
Definition files (m : machine D) (c : nat) : sfs D :=
  set_files (m_sfs m) (fdtable (m_sfs m)) (m_ofile m c).

Definition put_files (m : machine D) (c : nat) (f : sfs D) : machine D :=
  mkMachine (m_kern m) (m_cons m) f (upd (m_ofile m) c (ofile f)) (m_iname m) (timer_ticks m) (reent m).

(** The running task. *)
Definition cur (m : machine D) : outcome nat := deref "current" (current (m_kern m)).

Definition cur_task (m : machine D) (c : nat) : task := tasks (m_kern m) c.

Definition dir (m : machine D) (c : nat) : Z := t_pgdir (cur_task m c).

(** A word of the trap frame of task [c], which lies on its kernel stack. *)
Definition tf_get (m : machine D) (c : nat) (off : Z) : Z := load32 (ram (m_mm m)) (t_tf (cur_task m c) + off).

Definition tf_set (m : machine D) (c : nat) (off v : Z) : machine D :=
  set_mm m (set_ram (m_mm m) (store32 (ram (m_mm m)) (t_tf (cur_task m c) + off) v)).

(** ** The heap of the running task *)

Definition heap_of (m : machine D) (c : nat) : heap vspace :=
  mkHeap (mkVs (m_mm m) (dir m c)) (t_heap_start (cur_task m c)) (t_heap_top (cur_task m c)).

Definition put_heap (m : machine D) (c : nat) (h : heap vspace) : machine D :=
  set_kern m (set_task (set_kmm (m_kern m) (vs_mm (pager h))) c
                       (with_heap (cur_task m c) (heap_start h) (heap_top h))).

Definition m_kmalloc (m : machine D) (c : nat) (n : Z) : outcome (machine D * Z) :=
  '(h, p) ← kmalloc (heap_of m c) n; Ret (put_heap m c h, p).

Definition m_kfree (m : machine D) (c : nat) (p : Z) : outcome (machine D) :=
  h ← kfree (heap_of m c) p; Ret (put_heap m c h).

(** ** Paths *)

Context `{uart : Uart}.

(** A bound for the strings, the bytes behind an index entry in memory and the
    contents of an uninitialised one. *)
Variable fuel : nat.
Variable beyond : Z -> Z.
Variable idx : list Z.

(** [search_index] once a slot of the cache is found: the old name is freed, a
    copy of the new one allocated. *)
Definition keep_name (m : machine D) (c i : nat) (path : Z) : outcome (machine D * bool) :=
  name ← vstring fuel (m_mm m) (dir m c) path;
  m1 ← (if decide (m_iname m i = 0) then Ret m else m_kfree m c (m_iname m i));
  '(m2, p) ← m_kmalloc m1 c (Z.of_nat (length name) + 1);
  let m3 := set_iname m2 i p in
  if decide (p = 0) then Ret (m3, false)
  else s ← vstrcpy fuel (m_mm m3) (dir m3 c) p path; Ret (set_mm m3 s, true).

(** [printk] of a text. *)
Definition m_say (m : machine D) (t : list Z) : outcome (machine D) :=
  con ← emit put_c (m_cons m) t; Ret (set_cons m con).

(** [sfs_namei(path)]. *)
Definition m_namei (m : machine D) (c : nat) (path : Z) : outcome (machine D * option nat) :=
  name ← vstring fuel (m_mm m) (dir m c) path;
  '(found, t) ← find_text beyond (files m c) name;
  m0 ← m_say m t;
  '(f, h, r) ← sfs_namei beyond (files m0 c) (heap_of m0 c) name idx;
  let m0 := put_heap (put_files m0 c f) c h in
  match r with
  | None =>
      m1 ← m_say m0 (if found : bool then chars "ERROR!! search_index: no slot in ibuf" ++ [10] else []);
      Ret (m1, None)
  | Some i =>
      '(m1, ok) ← keep_name m0 c i path;
      if ok : bool then Ret (m1, Some i)
      else
        m2 ← m_say m1 (chars "kmalloc() fail" ++ [10]);
        Ret (put_files m2 c (set_ibuf (files m2 c) (ibuf (m_sfs m))), None)
  end.

Definition m_open (m : machine D) (c : nat) (path flags : Z) : outcome (machine D * Z) :=
  pathname ← vstring fuel (m_mm m) (dir m c) path;
  m0 ← m_say m (sfs_open_text pathname flags);
  '(m1, inp) ← m_namei m0 c path;
  name ← vstring fuel (m_mm m1) (dir m1 c) path;
  '(f, fd) ← open_inode (files m1 c) inp name flags;
  m2 ← m_say (put_files m1 c f) (sfs_open_result (files m1 c) inp flags fd);
  Ret (m2, fd).

(** The struct is filled where the caller wants it, [SFS_STAT_SIZE] bytes. *)
Definition stat_bytes (b : sfs_stat_buf) : list Z :=
  le 2 (st_dev b) ++ [0; 0] ++ le 4 (st_mode b) ++ le 4 (u32 (st_size b)).

Definition m_stat (m : machine D) (c : nat) (path : Z) : outcome (machine D * Z * sfs_stat_buf) :=
  '(m1, indp) ← m_namei m c path;
  m2 ← m_say m1 (match indp with None => chars "sfs_stat: sfs_namei() fail" ++ [10] | Some _ => [] end);
  '(f, r, b) ← stat_inode (files m2 c) indp;
  Ret (put_files m2 c f, r, b).

(** [sfs_read_file(path, buf, nb)]: the result and the bytes for the buffer. *)
Definition m_read_file (m : machine D) (c : nat) (path nb : Z) : outcome (machine D * Z * option (list Z)) :=
  name ← vstring fuel (m_mm m) (dir m c) path;
  '(_, t) ← find_text beyond (files m c) name;
  m0 ← m_say m t;
  '(f, h, r, out) ← sfs_read_file beyond (files m0 c) (heap_of m0 c) name idx nb;
  Ret (put_heap (put_files m0 c f) c h, r, out).

End Machine.

(** ** A task in the kernel *)

(** Task [c] runs, its address space is in order with the free pages [l], and
    its trap frame is on a page of the kernel. *)
Record in_kernel {D : Type} (m : machine D) (c : nat) (l : list Z) : Prop := {
  ik_cur : current (m_kern m) = Some c;
  ik_wf : user_wf (m_mm m) (dir m c) l;
  ik_tf : let tf := t_tf (cur_task m c) in
    foreign (m_mm m) (dir m c) l (tf - tf mod 4096) /\ tf mod 4096 + TF_SIZE <= 4096
}.

(** User bytes outside [a, a + n) are the same in both machines. *)
Definition same_user {D : Type} (m m' : machine D) (c : nat) (a n : Z) : Prop :=
  forall va, private va -> present (m_mm m) (dir m c) va -> ~ (a <= va < a + n) ->
    vbyte (m_mm m') (dir m' c) va = vbyte (m_mm m) (dir m c) va.

Section Lemmas.

Context {D : Type} `{dev : BlockDev D}.

(** Writing a register of the trap frame. *)
Lemma tf_set_ok (m : machine D) c l off v :
  in_kernel m c l -> 0 <= off -> off + 4 <= TF_SIZE ->
  let m' := tf_set m c off v in
  in_kernel m' c l /\ tf_get m' c off = u32 v /\
  (forall va, pt_entry (m_mm m') (dir m c) va = pt_entry (m_mm m) (dir m c) va) /\
  (forall va, private va -> present (m_mm m) (dir m c) va -> vbyte (m_mm m') (dir m c) va = vbyte (m_mm m) (dir m c) va).
Proof.
  intros [Hc Hw [Hf Hp]] H0 H1 m'. set (tf := t_tf (cur_task m c)) in *. unfold TF_SIZE in *.
  destruct (foreign_write (m_mm m) (dir m c) l (tf - tf mod 4096) (store32 (ram (m_mm m)) (tf + off) v) Hw Hf)
    as (Hw' & He & Hf' & Hb).
  { eapply agree_outside_weaken; [| |apply store32_outside]; modlia. }
  { apply store32_bytes_ok. apply (fw_bytes _ _ (vw_free _ _ _ (uw_vm _ _ _ Hw))). }
  split; [|split; [|split; [exact He|exact Hb]]].
  - constructor; [exact Hc|exact Hw'|]. split; [apply Hf'; exact Hf|exact Hp].
  - unfold tf_get. apply load32_store32_same.
Qed.

Lemma bytes_at_same s s' d va bs :
  (forall x, pt_entry s' d x = pt_entry s d x) ->
  (forall x, private x -> present s d x -> vbyte s' d x = vbyte s d x) -> bytes_at s d va bs -> bytes_at s' d va bs.
Proof.
  intros He Hb [Hp Hv]. split.
  - destruct Hp as (H0 & H1 & H2). split; [exact H0|]. split; [exact H1|]. intros x Hx. unfold present. rewrite He. by apply H2.
  - intros i b Hi. pose proof (lookup_lt_Some _ _ _ Hi).
    destruct (priv_at_byte _ _ _ _ (Z.of_nat i) Hp ltac:(lia)) as [P1 P2]. rewrite Hb by assumption. by apply Hv.
Qed.

(** Stores into private memory keep the task in the kernel. *)
Lemma in_kernel_stored (m : machine D) c l s dst n :
  in_kernel m c l -> stored (m_mm m) s (dir m c) l dst n -> priv_at (m_mm m) (dir m c) dst n ->
  in_kernel (set_mm m s) c l /\ forall off, 0 <= off -> off + 4 <= TF_SIZE ->
    tf_get (set_mm m s) c off = tf_get m c off.
Proof.
  intros [Hc Hw [Hf Hp]] Hst Hat. unfold TF_SIZE in *. set (tf := t_tf (cur_task m c)) in *. split.
  - constructor; [exact Hc|exact (sd_wf _ _ _ _ _ _ Hst)|]. split; [|exact Hp].
    destruct Hf as (Hq & Hqv & Hqu). split; [exact Hq|]. split.
    + intros H. apply Hqv, (sd_pages _ _ _ _ _ _ Hst), H.
    + intros va Hva Hpr. unfold present in Hpr. change (m_mm (set_mm m s)) with s in *. change (dir (set_mm m s) c) with (dir m c) in *.
      rewrite (sd_entry _ _ _ _ _ _ Hst) in *. by apply Hqu.
  - intros off H0 H1. unfold tf_get. change (m_mm (set_mm m s)) with s. apply load32_ext. intros x Hx.
    apply (stored_foreign _ _ _ _ _ _ (tf - tf mod 4096) _ Hst Hat Hf).
    change (t_tf (cur_task (set_mm m s) c)) with tf in Hx. modlia.
Qed.

Lemma m_say_ok `{uart : Uart} (m : machine D) t :
  exists con, emit put_c (m_cons m) t = Ret con /\ m_say m t = Ret (set_cons m con).
Proof. destruct (emit_total (m_cons m) t) as [con E]. exists con. unfold m_say. by rewrite E. Qed.

Lemma in_kernel_cons (m : machine D) c l con : in_kernel m c l -> in_kernel (set_cons m con) c l.
Proof. intros [H1 H2 H3]. by constructor. Qed.

(** ** What a task keeps *)

(** The directory and the trap frame stay in place with the stack pointer in
    it, the pages of [U] stay mapped, and their bytes outside [a, a + n) are the
    same. *)
Record keeps (m m' : machine D) (c : nat) (U : Z -> Prop) (a n : Z) : Prop := {
  ks_dir : dir m' c = dir m c;
  ks_tf : t_tf (cur_task m' c) = t_tf (cur_task m c);
  ks_esp : tf_get m' c TF_ESP = tf_get m c TF_ESP;
  ks_entry : forall va, U va -> pt_entry (m_mm m') (dir m c) va = pt_entry (m_mm m) (dir m c) va;
  ks_byte : forall va, U va -> private va -> present (m_mm m) (dir m c) va -> ~ (a <= va < a + n) ->
    vbyte (m_mm m') (dir m c) va = vbyte (m_mm m) (dir m c) va
}.

Definition anywhere (va : Z) : Prop := True.

Definition user_half (va : Z) : Prop := 0 <= va < KERNBASE.

Lemma keeps_priv m m' c U a n va k : keeps m m' c U a n -> (forall x, va <= x < va + k -> U x) ->
  priv_at (m_mm m) (dir m c) va k -> priv_at (m_mm m') (dir m' c) va k.
Proof.
  intros [-> _ _ He _] HU (H0 & H1 & H2). split; [exact H0|]. split; [exact H1|]. intros x Hx. destruct (H2 x Hx) as [P1 P2].
  split; [exact P1|]. unfold present. by rewrite He by auto.
Qed.

Lemma keeps_bytes m m' c U a n va bs : keeps m m' c U a n -> (forall x, va <= x < va + Z.of_nat (length bs) -> U x) ->
  disjoint va (Z.of_nat (length bs)) a n \/ n <= 0 ->
  bytes_at (m_mm m) (dir m c) va bs -> bytes_at (m_mm m') (dir m' c) va bs.
Proof.
  intros Hk HU Hdis [Hp Hb]. split; [by apply (keeps_priv m m' c U a n)|]. intros i b Hi. pose proof (lookup_lt_Some _ _ _ Hi).
  destruct (priv_at_byte _ _ _ _ (Z.of_nat i) Hp ltac:(lia)) as [P1 P2]. rewrite (ks_dir _ _ _ _ _ _ Hk).
  rewrite (ks_byte _ _ _ _ _ _ Hk); [by apply Hb|apply HU; lia|exact P1|exact P2|].
  unfold disjoint in Hdis. lia.
Qed.

Lemma keeps_string m m' c U a n va str : keeps m m' c U a n ->
  (forall x, va <= x < va + Z.of_nat (length str) + 1 -> U x) ->
  disjoint va (Z.of_nat (length str) + 1) a n \/ n <= 0 ->
  string_at (m_mm m) (dir m c) va str -> string_at (m_mm m') (dir m' c) va str.
Proof.
  intros Hk HU Hdis [Hn Hb]. split; [exact Hn|]. assert (Hl : Z.of_nat (length (str ++ [0])) = Z.of_nat (length str) + 1)
    by (rewrite length_app; cbn [length]; lia).
  apply (keeps_bytes m m' c U a n); [exact Hk| | |exact Hb]; rewrite Hl; [intros x Hx; apply HU; lia|exact Hdis].
Qed.

Lemma keeps_trans m1 m2 m3 c U a n : keeps m1 m2 c U a n -> keeps m2 m3 c U a n -> keeps m1 m3 c U a n.
Proof.
  intros [A1 A2 A3 A4 A5] [B1 B2 B3 B4 B5]. rewrite A1 in B4, B5. constructor; [congruence..| |].
  - intros va HU. by rewrite B4, A4.
  - intros va HU Hp Hpr Hn. rewrite B5; [by apply A5|exact HU|exact Hp| |exact Hn]. unfold present. by rewrite A4.
Qed.

Lemma keeps_weaken m m' c (U U' : Z -> Prop) a n a' n' :
  keeps m m' c U a n -> (forall va, U' va -> U va) -> (forall va, a <= va < a + n -> a' <= va < a' + n') ->
  keeps m m' c U' a' n'.
Proof.
  intros [A1 A2 A3 A4 A5] HU Hr. constructor; [done|done|done|auto|]. intros va Hu Hp Hpr Hn. apply A5; auto.
Qed.

(** Everything is kept when memory and the task are the same. *)
Lemma same_mm_keeps (m m' : machine D) c l :
  m_mm m' = m_mm m -> current (m_kern m') = current (m_kern m) -> t_tf (tasks (m_kern m') c) = t_tf (tasks (m_kern m) c) ->
  t_pgdir (tasks (m_kern m') c) = t_pgdir (tasks (m_kern m) c) -> in_kernel m c l ->
  in_kernel m' c l /\ forall U a n, keeps m m' c U a n.
Proof.
  intros Em Ec Ft Fd [I1 I2 I3].
  assert (Ed : dir m' c = dir m c) by exact Fd. assert (Et : t_tf (cur_task m' c) = t_tf (cur_task m c)) by exact Ft.
  split; [|intros U a n]; constructor; rewrite ?Em, ?Ed, ?Et; try done.
  - by rewrite Ec.
  - unfold tf_get. by rewrite Em, Et.
Qed.

Lemma tf_set_keeps (m : machine D) c l off v :
  in_kernel m c l -> 0 <= off -> off + 4 <= TF_SIZE -> off + 4 <= TF_ESP \/ TF_ESP + 4 <= off ->
  let m' := tf_set m c off v in
  in_kernel m' c l /\ tf_get m' c off = u32 v /\ forall U a n, keeps m m' c U a n.
Proof.
  intros Hik H0 H1 Ho m'. destruct (tf_set_ok m c l off v Hik H0 H1) as (I & G & P & V).
  split; [exact I|]. split; [exact G|]. intros U a n. constructor; [done|done| |auto|auto].
  unfold tf_get, m', tf_set. cbn. apply load32_store32_other. lia.
Qed.

Lemma stored_keeps (m : machine D) c l s dst n :
  in_kernel m c l -> stored (m_mm m) s (dir m c) l dst n -> priv_at (m_mm m) (dir m c) dst n ->
  in_kernel (set_mm m s) c l /\ forall U, keeps m (set_mm m s) c U dst n.
Proof.
  intros Hik Hst Hat. destruct (in_kernel_stored m c l s dst n Hik Hst Hat) as [I G]. split; [exact I|].
  intros U. constructor; [done|done|by apply G| |].
  - intros va _. apply (sd_entry _ _ _ _ _ _ Hst).
  - intros va _ Hp Hpr Hn. exact (stored_user _ _ _ (ik_wf _ _ _ Hik) _ _ _ _ Hst Hat Hp Hpr Hn).
Qed.

(** ** The name of a file on the heap *)

Lemma string_bytes s d l va str : user_wf s d l -> string_at s d va str -> Forall (fun b => 0 <= b < 256) str.
Proof.
  intros Huw [_ [_ Hb]]. apply Forall_lookup. intros i b Hi.
  rewrite <- (Hb i b) by (by apply lookup_app_l_Some). by apply (vbyte_range s d l).
Qed.

(** A machine whose memory has changed only as [kept] allows, with the task and
    its trap frame in place. *)
Lemma in_kernel_kept (m m' : machine D) c l l' :
  in_kernel m c l -> current (m_kern m') = Some c -> dir m' c = dir m c ->
  t_tf (cur_task m' c) = t_tf (cur_task m c) -> kept (m_mm m) (m_mm m') (dir m c) l l' -> in_kernel m' c l'.
Proof.
  intros [Hc Hw [Hf Hp]] Hc' Hd Ht Hk. constructor; [exact Hc'|rewrite Hd; apply Hk|].
  rewrite Ht, Hd. split; [|exact Hp]. by apply (kp_foreign _ _ _ _ _ Hk).
Qed.

Lemma string_at_kept s s' d l l' va str :
  kept s s' d l l' -> va + Z.of_nat (length str) + 1 <= KERNBASE -> string_at s d va str -> string_at s' d va str.
Proof.
  intros Hk Hva [Hn [Hp Hb]]. split; [exact Hn|]. rewrite length_app in *. cbn [length] in *.
  destruct Hp as (H0 & H1 & H2). split.
  - rewrite length_app. cbn [length]. split; [exact H0|]. split; [exact H1|]. intros x Hx. destruct (H2 x Hx) as [P1 P2].
    split; [exact P1|]. unfold present. rewrite (kp_entry _ _ _ _ _ Hk) by lia. exact P2.
  - intros i b Hi. pose proof (lookup_lt_Some _ _ _ Hi) as Hl. rewrite length_app in Hl. cbn [length] in Hl.
    rewrite (kp_byte _ _ _ _ _ Hk); [by apply Hb|lia|]. apply H2. lia.
Qed.

Lemma put_heap_task (m : machine D) c h :
  cur_task (put_heap m c h) c = with_heap (cur_task m c) (heap_start h) (heap_top h).
Proof. unfold cur_task, put_heap, set_kern, set_task. cbn. apply upd_same. Qed.

(** There is room for [n] more bytes on the heap. *)
Definition heap_room (m : machine D) (c : nat) (cs : list chunk) (n : Z) : Prop := room_for (heap_of m c) cs n.

(** What an operation on the heap leaves of the machine. *)
Record same_machine (m m' : machine D) (c : nat) (l l' : list Z) : Prop := {
  sm_kernel : in_kernel m' c l';
  sm_kept : kept (m_mm m) (m_mm m') (dir m c) l l';
  sm_dir : dir m' c = dir m c;
  sm_tf : t_tf (cur_task m' c) = t_tf (cur_task m c);
  sm_cons : m_cons m' = m_cons m;
  sm_sfs : m_sfs m' = m_sfs m;
  sm_ofile : m_ofile m' = m_ofile m;
  sm_ticks : timer_ticks m' = timer_ticks m
}.

Lemma same_machine_keeps m m' c l l' : in_kernel m c l -> same_machine m m' c l l' -> keeps m m' c user_half 0 0.
Proof.
  intros Hik [S1 S2 S3 S4 _ _ _ _]. constructor; [exact S3|exact S4| |apply (kp_entry _ _ _ _ _ S2)|].
  - destruct Hik as [_ _ [Hf Hp]]. unfold tf_get. rewrite S4. apply load32_ext. intros x Hx.
    apply (kp_foreign _ _ _ _ _ S2 _ Hf). unfold TF_SIZE, TF_ESP in *. modlia.
  - intros va Hu _ Hpr _. by apply (kp_byte _ _ _ _ _ S2).
Qed.

(** Putting a heap back that has changed only as [keeps_from] allows. *)
Lemma put_heap_kept (m : machine D) c l h :
  in_kernel m c l -> keeps_from (m_mm m) (dir m c) l (pager h) ->
  heap_of (put_heap m c h) c = h /\ exists l', same_machine m (put_heap m c h) c l l'.
Proof.
  intros Hik [[Hd (l' & Hk)] _].
  assert (Hdir : dir (put_heap m c h) c = dir m c) by (unfold dir; by rewrite put_heap_task).
  assert (Htf : t_tf (cur_task (put_heap m c h) c) = t_tf (cur_task m c)) by (by rewrite put_heap_task).
  split.
  - unfold heap_of. rewrite Hdir, put_heap_task. cbn [with_heap t_heap_start t_heap_top].
    destruct h as [[hs hd] st tp]. cbn in *. by rewrite Hd.
  - exists l'. constructor; try done. by apply (in_kernel_kept m (put_heap m c h) c l l' Hik (ik_cur _ _ _ Hik) Hdir Htf).
Qed.

Lemma m_kmalloc_ok (m : machine D) c l cs n :
  in_kernel m c l -> hrepr (heap_of m c) cs -> 0 <= n -> heap_room m c cs n ->
  let p := HEAP_START + (spec_alloc (n + HHEAD) cs).2 + HHEAD in
  exists m' l', m_kmalloc m c n = Ret (m', p) /\ hrepr (heap_of m' c) (spec_alloc (n + HHEAD) cs).1 /\
    same_machine m m' c l l' /\ m_iname m' = m_iname m.
Proof.
  intros Hik Hr Hn [Hend Hav] p. pose proof (ik_wf _ _ _ Hik) as Hw.
  destruct (kmalloc_kept (m_mm m) (dir m c) l (heap_of m c) cs n Hr) as (h & E & Hr' & Hk & _).
  { by apply keeps_from_refl. } { exact Hn. } { exact Hend. } { exact Hav. }
  destruct (put_heap_kept m c l h Hik Hk) as [Eh [l' Hsm]].
  exists (put_heap m c h), l'. split; [unfold m_kmalloc; by rewrite E|]. rewrite Eh. by split.
Qed.

(** A heap with the same chunks is put back without a trace in the tasks. *)
Lemma put_heap_same (m : machine D) c l cs h :
  in_kernel m c l -> hrepr (heap_of m c) cs -> heap_same (heap_of m c) h ->
  heap_of (put_heap m c h) c = h /\ (exists l', same_machine m (put_heap m c h) c l l') /\
  forall i, tasks (m_kern (put_heap m c h)) i = tasks (m_kern m) i.
Proof.
  intros Hik Hr Hs. destruct (Hs cs l Hr (ik_wf _ _ _ Hik)) as [Hr' [Hk _]].
  destruct (put_heap_kept m c l h Hik Hk) as [Eh Hsm]. split; [exact Eh|]. split; [exact Hsm|].
  intros i. cbn. destruct (decide (i = c)) as [->|Hi]; [rewrite upd_same|by rewrite upd_other].
  rewrite (hr_start _ _ Hr'), <- (hr_start _ _ Hr), (hr_top _ _ Hr'), <- (hr_top _ _ Hr).
  unfold heap_of, cur_task, with_heap. cbn. by destruct (tasks (m_kern m) c).
Qed.

Lemma same_machine_trans m1 m2 m3 c l1 l2 l3 :
  same_machine m1 m2 c l1 l2 -> same_machine m2 m3 c l2 l3 -> same_machine m1 m3 c l1 l3.
Proof.
  intros [A1 A2 A3 A4 A5 A6 A7 A8] [B1 B2 B3 B4 B5 B6 B7 B8]. rewrite A3 in B2.
  constructor; [exact B1|exact (kept_trans _ _ _ _ _ _ _ A2 B2)|congruence..].
Qed.

(** Filling a block of the heap. *)
Lemma heap_fill (m : machine D) h0 c l cs n s p :
  in_kernel m c l -> hrepr h0 cs -> hrepr (heap_of m c) (spec_alloc (n + HHEAD) cs).1 -> 0 < n ->
  p = HEAP_START + (spec_alloc (n + HHEAD) cs).2 + HHEAD -> stored (m_mm m) s (dir m c) l p n ->
  hrepr (heap_of (set_mm m s) c) (spec_alloc (n + HHEAD) cs).1 /\ same_machine m (set_mm m s) c l l.
Proof.
  intros Hik Hr0 Hr Hn -> Hst. pose proof (ik_wf _ _ _ Hik) as Hw.
  destruct (heap_block (heap_of m c) cs n Hr ltac:(lia) (hr_len _ _ Hr0)) as (Hp0 & Hp1 & Hat). specialize (Hat Hn).
  split.
  - exact (proj1 (block_fill h0 (heap_of m c) cs n l s _ n Hr0 Hr Hw Hn Hst (Z.le_refl _) (Z.le_refl _) Hat)).
  - constructor; try done; [exact (proj1 (in_kernel_stored m c l s _ n Hik Hst Hat))|].
    eapply stored_kept; [exact Hw|exact Hst|exact Hat|]. unfold KERNBASE, HEAP_START, HHEAD in *. lia.
Qed.

Lemma keep_name_ok fuel (m : machine D) c l cs i path name :
  in_kernel m c l -> hrepr (heap_of m c) cs -> string_at (m_mm m) (dir m c) path name ->
  path + Z.of_nat (length name) + 1 <= KERNBASE -> (length name < fuel)%nat -> m_iname m i = 0 ->
  heap_room m c cs (Z.of_nat (length name) + 1) ->
  exists m' l', keep_name fuel m c i path = Ret (m', true) /\ same_machine m m' c l l' /\
    hrepr (heap_of m' c) (spec_alloc (Z.of_nat (length name) + 1 + HHEAD) cs).1 /\
    string_at (m_mm m') (dir m' c) (m_iname m' i) name /\ (forall j, j <> i -> m_iname m' j = m_iname m j).
Proof.
  intros Hik Hr Hs Hpath Hf Hi Hroom. set (n := Z.of_nat (length name) + 1) in *.
  destruct (m_kmalloc_ok m c l cs n Hik Hr ltac:(lia) Hroom) as (m1 & l1 & E1 & Hr1 & Hsm1 & Hin1).
  set (p := HEAP_START + (spec_alloc (n + HHEAD) cs).2 + HHEAD) in *.
  pose proof (sm_kernel _ _ _ _ _ Hsm1) as Hik1. pose proof (ik_wf _ _ _ Hik1) as Hw1.
  destruct (heap_block (heap_of m1 c) cs n Hr1 ltac:(lia) (hr_len _ _ Hr)) as (Hp0 & Hp1 & Hat).
  fold p in Hp0, Hp1, Hat. specialize (Hat ltac:(lia)). cbn [heap_of pager vs_mm vs_dir] in Hat.
  set (m2 := set_iname m1 i p). assert (Hik2 : in_kernel m2 c l1) by (destruct Hik1; by constructor).
  assert (Hs1 : string_at (m_mm m1) (dir m1 c) path name)
    by (rewrite (sm_dir _ _ _ _ _ Hsm1); exact (string_at_kept _ _ _ _ _ _ _ (sm_kept _ _ _ _ _ Hsm1) Hpath Hs)).
  destruct (vstrcpy_ok (dir m1 c) l1 name fuel (m_mm m1) p path Hw1 Hs1) as (s & E2 & Hst & Hcopy).
  { by eapply string_bytes. } { exact Hat. }
  { fold n. left. unfold KERNBASE, HEAP_START, HHEAD in *. lia. } { exact Hf. } fold n in Hst.
  destruct (heap_fill m2 (heap_of m c) c l1 cs n s p Hik2 Hr Hr1 ltac:(lia) eq_refl Hst) as [Hr3 Hsm3].
  exists (set_mm m2 s), l1. split; [|split; [|split; [exact Hr3|split]]].
  - unfold keep_name. rewrite (vstring_ok _ _ name) by assumption. rewrite bind_Ret, decide_True by exact Hi.
    rewrite bind_Ret. fold n. rewrite E1, bind_Ret. cbn beta iota zeta. fold m2.
    rewrite decide_False by (unfold HEAP_START, HHEAD in *; lia).
    change (m_mm m2) with (m_mm m1). change (dir m2 c) with (dir m1 c). rewrite E2. done.
  - apply (same_machine_trans m m2 _ c l l1 l1); [|exact Hsm3]. destruct Hsm1. constructor; try assumption; done.
  - cbn [m_iname set_mm set_kern m2 set_iname]. rewrite upd_same. exact Hcopy.
  - intros j Hj. cbn [m_iname set_mm set_kern m2 set_iname]. rewrite upd_other by done. by rewrite Hin1.
Qed.

End Lemmas.
