(* ===== verification/Exec.v ===== *)
(** * Replacing the program of a task

    [exec] of kern/exec.c with the copying of its arguments ([copyout] of
    kern/mm.c, here between virtual addresses).  The file is read into a block
    of the kernel heap, its segments are loaded into the memory of the running
    task and copied page by page into a new directory, the arguments are pushed
    on the stack of the task, and the new directory takes the place of the old
    one.  The new directory gets the first page of each segment, one page of
    stack and the first page of the heap.  What [exec] prints goes to the console. *)

From stdpp Require Import base list strings.
From Stdlib Require Import ZArith Lia.
From S2P Require Import Prelude Mmu CString Kalloc PageTable VmSpec Ring Task Heap Vmem UserMem VmHeap.
From S2P Require Import Boot Loader Fork Console Printf BlockDev Le Sfs SfsText Machine.

Open Scope Z_scope.

Definition MAXARGS : Z := 16.

(** [sizeof(struct elf)] *)
Definition ELF_SIZE : Z := 52.

(** The loop of [copyout]; [mv] moves [n] bytes from offset [pos] of the source
    to a kernel address. *)
Fixpoint copyout_with (mv : mm -> Z -> Z -> Z -> outcome mm) (fuel : nat) (s : mm) (pgdir va pos len : Z) :
    outcome (Z * mm) :=
  if decide (len > 0) then
    match fuel with
    | O => Stop Fuel
    | S f =>
        let va0 := PGROUNDDOWN va in
        pa0 ← uva2ka s pgdir va0;
        if decide (pa0 = 0) then Ret (-1, s)
        else
          let n := PGSIZE - (va - va0) in
          let n := if decide (n > len) then len else n in
          s1 ← mv s (pa0 + (va - va0)) pos n;
          copyout_with mv f s1 pgdir (u32 (va0 + PGSIZE)) (pos + n) (len - n)
    end
  else Ret (0, s).

(** From an address of the loaded directory, and from a local array. *)
Definition vcopyout (s : mm) (pgdir va p len : Z) : outcome (Z * mm) :=
  copyout_with (fun s dst pos n => vmemmove s pgdir dst (u32 (p + pos)) n)
    (Z.to_nat (len / PGSIZE + 2)) s pgdir va 0 len.

Definition copyout_array (s : mm) (pgdir va : Z) (a : list Z) : outcome (Z * mm) :=
  let len := Z.of_nat (length a) in
  copyout_with (fun s dst pos n => Ret (set_ram s (put_bytes s.(ram) dst (take (Z.to_nat n) (drop (Z.to_nat pos) a)))))
    (Z.to_nat (len / PGSIZE + 2)) s pgdir va 0 len.

(** The strings of the arguments, from [sp] down; [ustack] collects where they
    went. *)
Fixpoint push_strings (fuel : nat) (s : mm) (pgdir : Z) (argv : list Z) (sp : Z) (ustack : list Z) :
    outcome (mm * option (Z * list Z)) :=
  match argv with
  | [] => Ret (s, Some (sp, ustack))
  | a :: argv' =>
      if decide (Z.of_nat (length ustack) >= MAXARGS) then Ret (s, None)
      else
        str ← vstring fuel s pgdir a;
        let n := Z.of_nat (length str) + 1 in
        let sp' := Z.land (u32 (sp - n)) (Z.lnot 3) in
        '(r, s1) ← vcopyout s pgdir sp' a n;
        if decide (r < 0) then Ret (s1, None)
        else push_strings fuel s1 pgdir argv' sp' (ustack ++ [sp'])
  end.

Definition words (l : list Z) : list Z := concat (map (le 4) l).

(** The whole block of arguments; the final stack pointer. *)
Definition push_args (fuel : nat) (s : mm) (pgdir : Z) (argv : list Z) : outcome (mm * option Z) :=
  '(s1, r) ← push_strings fuel s pgdir argv USTACKTOP [];
  match r with
  | None => Ret (s1, None)
  | Some (sp, ptrs) =>
      let argc := Z.of_nat (length ptrs) in
      let ustack := [argc; u32 (sp - (argc + 1) * 4)] ++ ptrs ++ [0] in
      let sp' := u32 (sp - (2 + argc + 1) * 4) in
      '(r, s2) ← copyout_array s1 pgdir sp' (words ustack);
      if decide (r < 0) then Ret (s2, None) else Ret (s2, Some sp')
  end.

(** What [region_alloc] prints for [n] pages from [va] on: a page that is mapped
    already stays as it is. *)
Fixpoint region_text (n : nat) (s : mm) (pgdir va : Z) : list Z :=
  match n with
  | O => []
  | S k =>
      (if has (pt_entry s pgdir va) PTE_P then chars "WARNING!! " ++ hex_text (s32 va) ++ chars " is already mapped" ++ [10] else []) ++
      region_text k s pgdir (u32 (va + PGSIZE))
  end.

Definition region_warnings (s : mm) (pgdir va len : Z) : list Z :=
  let va0 := PGROUNDDOWN va in
  region_text (Z.to_nat ((PGROUNDUP (va + len) - va0) / PGSIZE)) s pgdir va0.

(** [n] program headers from [ph]: loaded into the directory [cur], their first
    page copied into [pgdir]; the results of [copy_page] are not looked at.  The
    memory, the end of the highest segment and the warnings. *)
Fixpoint exec_loop (n : nat) (s : mm) (cur pgdir fp ph range : Z) : outcome (mm * Z * list Z) :=
  match n with
  | O => Ret (s, range, [])
  | S k =>
      ph_type ← vload32 s cur ph;
      if decide (ph_type <> ELF_PROG_LOAD) then exec_loop k s cur pgdir fp (ph + PH_SIZE) range
      else
        ph_va ← vload32 s cur (ph + 8);
        ph_memsize ← vload32 s cur (ph + 20);
        s1 ← region_alloc s cur ph_va ph_memsize (Z.lor PTE_W PTE_U);
        ph_offset ← vload32 s1 cur (ph + 4);
        ph_filesize ← vload32 s1 cur (ph + 16);
        s2 ← vmemmove s1 cur ph_va (u32 (fp + ph_offset)) ph_filesize;
        s3 ← vmemset s2 cur (u32 (ph_va + ph_filesize)) 0 (u32 (ph_memsize - ph_filesize));
        '(_, s4) ← copy_page s3 cur pgdir ph_va;
        let offset := u32 (ph_va + ph_memsize) in
        '(s5, range', t) ← exec_loop k s4 cur pgdir fp (ph + PH_SIZE) (if decide (range >= offset) then range else offset);
        Ret (s5, range', region_warnings s cur ph_va ph_memsize ++ t)
  end.

Section Exec.

Context {D : Type} `{dev : BlockDev D} `{uart : Uart}.

Variable kdata : Z.
Variable fuel : nat.
Variable beyond : Z -> Z.
Variable idx : list Z.

(** The arguments as [exec] lists them. *)
Fixpoint args_text (s : mm) (d : Z) (argv : list Z) (argc : Z) : outcome (list Z) :=
  match argv with
  | [] => Ret []
  | a :: argv' =>
      str ← vstring fuel s d a;
      t ← args_text s d argv' (argc + 1);
      Ret (chars "arg" ++ dec_text (argc + 1) ++ chars ": " ++ str ++ [10] ++ t)
  end.

Definition exec_banner (path t : list Z) (argc : Z) : list Z :=
  chars ">>>" ++ [10] ++ chars "path = " ++ path ++ [10] ++ t ++ chars "argc = " ++ dec_text argc ++ [10] ++ chars "<<<" ++ [10].

Definition exec_start (m : machine D) (c : nat) (path : Z) (argv : list Z) : outcome (machine D) :=
  name ← vstring fuel (m_mm m) (dir m c) path;
  t ← args_text (m_mm m) (dir m c) argv 0;
  m_say m (exec_banner name t (Z.of_nat (length argv))).

(** [fail:]; on the first two jumps to it [pgdir] is not initialised yet.  [why]
    is printed before the jump. *)
Definition exec_fail (m : machine D) (pgdir : Z) (why : list Z) : outcome (machine D * Z) :=
  m1 ← m_say m (why ++ chars "Error! exec() failed" ++ [10]);
  if decide (pgdir = 0) then Ret (m1, -1)
  else s ← free_vm (m_mm m1) pgdir; Ret (set_mm m1 s, -1).

(** Loading: the file through the heap into the two directories. *)
Definition exec_load (m : machine D) (c : nat) (path pgdir phoff phnum : Z) : outcome (machine D * Z) :=
  '(m0, _, st) ← m_stat fuel beyond idx m c path;
  name ← vstring fuel (m_mm m0) (dir m0 c) path;
  m1 ← m_say m0 (name ++ chars ": size = " ++ dec_text (st_size st) ++ [10]);
  '(m2, fp) ← m_kmalloc m1 c (u32 (st_size st));
  if decide (fp = 0) then Stop (Panic "kmalloc")
  else
    '(m3, ret, out) ← m_read_file fuel beyond idx m2 c path (st_size st);
    s4 ← vwrite (m_mm m3) (dir m3 c) fp (default [] out);
    if decide (ret < st_size st) then Stop (Panic "sfs_read_file")
    else
      '(s5, range, t) ← exec_loop (Z.to_nat phnum) s4 (dir m3 c) pgdir fp (u32 (fp + phoff)) 0;
      m5 ← m_say (set_mm m3 s5) t;
      m6 ← m_kfree m5 c fp;
      Ret (m6, range).

(** The new directory takes over. *)
Definition exec_commit (m : machine D) (c : nat) (pgdir entry sp range : Z) : outcome (machine D) :=
  '(_, s1) ← copy_page (m_mm m) (dir m c) pgdir (USTACKTOP - PGSIZE);
  '(_, s2) ← copy_page s1 (dir m c) pgdir HEAP_START;
  let oldpgdir := dir m c in
  let m1 := set_mm m s2 in
  let m2 := set_kern m1 (set_task (m_kern m1) c (with_pgdir (cur_task m1 c) pgdir)) in
  s3 ← free_vm (m_mm m2) oldpgdir;
  let m3 := tf_set (tf_set (set_mm m2 s3) c TF_EIP entry) c TF_ESP sp in
  Ret (set_kern m3 (set_task (m_kern m3) c (with_sz (cur_task m3 c) range))).

(** From the page of the stack to the end: the arguments are pushed in the
    memory of the caller, then the new directory takes over. *)
Definition exec_finish (m : machine D) (c : nat) (pgdir entry range : Z) (argv : list Z) : outcome (machine D * Z) :=
  let stack := USTACKTOP - PGSIZE in
  s1 ← region_alloc (m_mm m) (dir m c) stack PGSIZE (Z.lor PTE_W PTE_U);
  m1 ← m_say m (region_warnings (m_mm m) (dir m c) stack PGSIZE);
  '(s2, sp) ← push_args fuel s1 (dir m1 c) argv;
  match sp with
  | None => exec_fail (set_mm m1 s2) pgdir []
  | Some sp =>
      m3 ← exec_commit (set_mm m1 s2) c pgdir entry sp range;
      m4 ← m_say m3 (chars "---+--+--- exec() end" ++ [10]);
      Ret (m4, 0)
  end.

(** [argv] holds the pointers before the null pointer, [junk] the
    uninitialised [pgdir]. *)
Definition exec (m : machine D) (junk path : Z) (argv : list Z) : outcome (machine D * Z) :=
  c ← cur m;
  m0 ← exec_start m c path argv;
  '(m1, ret, out) ← m_read_file fuel beyond idx m0 c path ELF_SIZE;
  let elfhdr := default [] out in
  m1 ← m_say m1 (chars "exec: ret = " ++ dec_text ret ++ [10]);
  if decide (ret < ELF_SIZE) then exec_fail m1 junk (chars "exec: read file fail" ++ [10])
  else if decide (get_le elfhdr 0 4 <> ELF_MAGIC) then exec_fail m1 junk (chars "exec: read file fail" ++ [10])
  else
    '(pgdir, s2) ← mapkvm kdata (m_mm m1);
    if decide (pgdir = 0) then exec_fail (set_mm m1 s2) 0 (chars "exec: mapkvm() fail" ++ [10])
    else
      '(m3, range) ← exec_load (set_mm m1 s2) c path pgdir (get_le elfhdr 28 4) (get_le elfhdr 44 2);
      exec_finish m3 c pgdir (get_le elfhdr 24 4) range argv.

End Exec.

(** ** Where the arguments go *)

Definition arg_place (sp : Z) (str : list Z) : Z :=
  let a := sp - (Z.of_nat (length str) + 1) in a - a mod 4.

Fixpoint arg_places (sp : Z) (strs : list (list Z)) : list Z :=
  match strs with
  | [] => []
  | str :: r => arg_place sp str :: arg_places (arg_place sp str) r
  end.

Fixpoint arg_bottom (sp : Z) (strs : list (list Z)) : Z :=
  match strs with
  | [] => sp
  | str :: r => arg_bottom (arg_place sp str) r
  end.

(** One page of stack, whose frame the kernel sees in its window. *)
Definition stack_ok (s : mm) (d : Z) : Prop :=
  priv_at s d (USTACKTOP - PGSIZE) PGSIZE /\ in_window s d (USTACKTOP - PGSIZE) PGSIZE.

(** A string argument: in user memory, outside the area the block of arguments
    is built in. *)
Definition arg_ok (s : mm) (d bottom : Z) (a : Z) (str : list Z) : Prop :=
  string_at s d a str /\ a + Z.of_nat (length str) + 1 <= KERNBASE /\
  disjoint a (Z.of_nat (length str) + 1) bottom (USTACKTOP - bottom).

(** ** Lemmas *)

Lemma arg_place_range sp str :
  arg_place sp str mod 4 = 0 /\ arg_place sp str + Z.of_nat (length str) + 1 <= sp /\
  sp < arg_place sp str + Z.of_nat (length str) + 5.
Proof. unfold arg_place. modlia. Qed.

Lemma arg_bottom_le strs : forall sp, arg_bottom sp strs <= sp.
Proof.
  induction strs as [|str r IH]; intros sp; cbn [arg_bottom]; [lia|].
  specialize (IH (arg_place sp str)). pose proof (arg_place_range sp str). lia.
Qed.

Lemma arg_bottom_mod strs : forall sp, sp mod 4 = 0 -> arg_bottom sp strs mod 4 = 0.
Proof.
  induction strs as [|str r IH]; intros sp H; cbn [arg_bottom]; [exact H|].
  apply IH, arg_place_range.
Qed.

Lemma arg_places_length strs : forall sp, length (arg_places sp strs) = length strs.
Proof. induction strs as [|str r IH]; intros sp; [done|]. cbn. by rewrite IH. Qed.

Lemma arg_places_range strs : forall sp i p, arg_places sp strs !! i = Some p ->
  arg_bottom sp strs <= p < sp.
Proof.
  induction strs as [|str r IH]; intros sp i p Hi; [discriminate Hi|]. cbn [arg_bottom].
  pose proof (arg_place_range sp str). pose proof (arg_bottom_le r (arg_place sp str)).
  destruct i as [|i]; cbn in Hi; [injection Hi as <-; lia|]. specialize (IH _ _ _ Hi). lia.
Qed.

Lemma stack_ok_at s d va n : stack_ok s d -> USTACKTOP - PGSIZE <= va -> 0 <= n -> va + n <= USTACKTOP ->
  priv_at s d va n /\ (0 < n -> in_window s d va n).
Proof.
  intros [Hp (H1 & H2 & H3)] Hva Hn Htop. unfold USTACKTOP, KERNBASE, PGSIZE in *. split.
  - replace va with (2147483648 - 4096 + (va - (2147483648 - 4096))) by lia. eapply priv_at_sub; [exact Hp|lia..].
  - intros Hn0. assert (E : translate s d va = translate s d (2147483648 - 4096) + (va - (2147483648 - 4096))).
    { unfold translate. rewrite (pt_entry_page s d va (2147483648 - 4096)); [rewrite !u32_small by lia; modlia|].
      unfold same_page. rewrite !u32_small by lia. modlia. }
    unfold in_window, KERNBASE. rewrite E. split; [modlia|lia].
Qed.

Lemma stack_ok_stored s s' d l dst n : stored s s' d l dst n -> stack_ok s d -> stack_ok s' d.
Proof.
  intros H [H1 H2]. split; [by apply (priv_at_stored _ _ _ _ _ _ _ _ H)|by eapply in_window_stored].
Qed.

(** [copyout] within a page. *)
Lemma copyout_page mv s d l va n s1 f :
  user_wf s d l -> 0 <= va -> 0 < n -> va + n <= KERNBASE -> va mod 4096 + n <= 4096 -> present s d va ->
  mv s (translate s d va) 0 n = Ret s1 -> copyout_with mv (S f) s d va 0 n = Ret (0, s1).
Proof.
  intros Huw H0 Hn Hk Hpg Hp Hmv. unfold KERNBASE in Hk. cbn [copyout_with]. rewrite decide_True by lia.
  rewrite PGROUNDDOWN_sub, (u32_small va) by lia. cbv zeta.
  assert (Hs : same_page va (va - va mod 4096)) by (unfold same_page; rewrite !u32_small by modlia; modlia).
  assert (Hpv : private va) by priv.
  destruct (uw_page _ _ _ Huw va Hpv Hp) as (Hok & _ & _ & HU). unfold present in Hp.
  rewrite (pt_entry_page _ _ _ _ Hs) in Hp, HU, Hok.
  rewrite (uva2ka_ok s d l _ (uw_vm _ _ _ Huw) Hp) by (apply HU; unfold KERNBASE; lia). rewrite bind_Ret.
  destruct Hok as (_ & _ & Hpos). rewrite decide_False by lia. unfold PGSIZE.
  replace (va - (va - va mod 4096)) with (va mod 4096) by lia.
  replace (if decide (4096 - va mod 4096 > n) then n else 4096 - va mod 4096) with n
    by (case_decide; lia).
  replace (table_of (pt_entry s d (va - va mod 4096)) + va mod 4096) with (translate s d va).
  2: { unfold translate. rewrite (pt_entry_page _ _ _ _ Hs), u32_small by lia. done. }
  rewrite Hmv, bind_Ret. rewrite Z.sub_diag. destruct f; cbn [copyout_with]; by rewrite decide_False.
Qed.

Lemma string_range s d a str : string_at s d a str -> priv_at s d a (Z.of_nat (length str) + 1).
Proof. intros [_ [Hp _]]. by rewrite length_app, Nat2Z.inj_add in Hp. Qed.

Lemma string_copied s s' d a b str :
  string_at s d a str -> priv_at s' d b (Z.of_nat (length str) + 1) ->
  (forall i, 0 <= i < Z.of_nat (length str) + 1 -> vbyte s' d (b + i) = vbyte s d (a + i)) -> string_at s' d b str.
Proof.
  intros [Hn [_ Hb]] Hp Hc. split; [exact Hn|]. split; [by rewrite length_app, Nat2Z.inj_add|].
  intros i x Hi. rewrite <- (Hb i x Hi). apply Hc. apply lookup_lt_Some in Hi. rewrite length_app in Hi. cbn in Hi. lia.
Qed.

(** One string. *)
Lemma push_one s d l sp a str :
  user_wf s d l -> stack_ok s d -> string_at s d a str -> a + Z.of_nat (length str) + 1 <= KERNBASE ->
  USTACKTOP - PGSIZE <= arg_place sp str -> sp <= USTACKTOP ->
  disjoint a (Z.of_nat (length str) + 1) (arg_place sp str) (Z.of_nat (length str) + 1) ->
  exists s', vcopyout s d (arg_place sp str) a (Z.of_nat (length str) + 1) = Ret (0, s') /\
    stored s s' d l (arg_place sp str) (Z.of_nat (length str) + 1) /\ string_at s' d (arg_place sp str) str.
Proof.
  intros Huw Hst Hstr Ha Hlow Hsp Hdis. set (n := Z.of_nat (length str) + 1) in *. set (b := arg_place sp str) in *.
  pose proof (string_range _ _ _ _ Hstr) as Hpa. fold n in Hpa.
  pose proof (arg_place_range sp str) as (_ & Hend & _). fold b in Hend.
  assert (Hn : 0 < n) by (unfold n; lia).
  destruct (stack_ok_at s d b n Hst Hlow ltac:(lia) ltac:(unfold n in *; lia)) as [Hpb Hwb].
  destruct (vmemmove_window s d l b a n Huw Hn Hpb Hpa ltac:(unfold n in *; lia)) as (s' & E & Hs & Hb);
    [unfold disjoint in *; lia|by apply Hwb|].
  exists s'. split; [|split; [exact Hs|]].
  - unfold vcopyout. unfold USTACKTOP, PGSIZE, KERNBASE in *.
    replace (Z.to_nat (n / 4096 + 2)) with (S (Z.to_nat (n / 4096 + 1))) by modlia.
    eapply copyout_page; [exact Huw|unfold n in *; unfold KERNBASE; modlia..| |].
    + rewrite <- (Z.add_0_r b). apply (priv_at_byte s d b n); [exact Hpb|lia].
    + destruct Hpa as (Ha0 & Ha1 & _). rewrite Z.add_0_r, u32_small by lia. exact E.
  - eapply string_copied; [exact Hstr|by apply (priv_at_stored _ _ _ _ _ _ _ _ Hs)|exact Hb].
Qed.

Lemma align4 a : Z.land a (Z.lnot 3) = a - a mod 4.
Proof.
  change 3 with (Z.ones 2). rewrite <- Z.ldiff_land, Z.ldiff_ones_r by lia.
  rewrite Z.shiftl_mul_pow2, Z.shiftr_div_pow2 by lia. change (2 ^ 2) with 4. modlia.
Qed.

Lemma arg_ok_stored s s' d l bottom dst n a str :
  user_wf s d l -> stored s s' d l dst n -> priv_at s d dst n -> bottom <= dst -> 0 <= n -> dst + n <= USTACKTOP ->
  arg_ok s d bottom a str -> arg_ok s' d bottom a str.
Proof.
  intros Huw Hst Hp Hb Hn Ht (H1 & H2 & H3). split; [|done].
  eapply string_at_stored; [exact Huw|exact Hst|exact Hp| |exact H1]. unfold disjoint in *. lia.
Qed.

Lemma push_strings_ok fuel d l bottom strs : forall argv s sp ustack,
  user_wf s d l -> stack_ok s d -> Forall2 (arg_ok s d bottom) argv strs ->
  Forall (fun str => (length str < fuel)%nat) strs -> arg_bottom sp strs = bottom ->
  USTACKTOP - PGSIZE <= bottom -> sp <= USTACKTOP -> (length ustack + length strs <= 16)%nat ->
  exists s', push_strings fuel s d argv sp ustack = Ret (s', Some (bottom, ustack ++ arg_places sp strs)) /\
    stored s s' d l bottom (sp - bottom) /\ Forall2 (string_at s' d) (arg_places sp strs) strs.
Proof.
  induction strs as [|str strs IH]; intros argv s sp ustack Huw Hst Hargs Hf Hbot Hlow Hsp Hlen.
  - apply Forall2_nil_inv_r in Hargs as ->. cbn [arg_bottom] in Hbot. subst sp. exists s.
    cbn [push_strings arg_places]. rewrite app_nil_r, Z.sub_diag. split; [done|]. split; [by apply stored_refl|constructor].
  - apply Forall2_cons_inv_r in Hargs as (a & argv' & Ha & Hargs & ->). apply Forall_cons in Hf as [Hf0 Hf].
    cbn [arg_bottom arg_places length] in *. set (b := arg_place sp str) in *.
    pose proof (arg_place_range sp str) as (_ & Hend & _). fold b in Hend.
    pose proof (arg_bottom_le strs b) as Hb. rewrite Hbot in Hb.
    destruct Ha as (Hstr & Hk & Hdis). set (n := Z.of_nat (length str) + 1) in *.
    assert (Hn : 0 < n) by (unfold n; lia).
    destruct (push_one s d l sp a str Huw Hst Hstr Hk) as (s1 & E1 & Hst1 & Hs1);
      [fold b; lia|exact Hsp|fold b n; unfold disjoint, n in *; lia|]. fold b n in E1, Hst1, Hs1.
    destruct (stack_ok_at s d b n Hst ltac:(lia) ltac:(lia) ltac:(unfold n in *; lia)) as [Hpb _].
    destruct (IH argv' s1 b (ustack ++ [b])) as (s2 & E2 & Hst2 & Hs2).
    + exact (sd_wf _ _ _ _ _ _ Hst1).
    + by eapply stack_ok_stored.
    + eapply Forall2_impl; [exact Hargs|]. intros x y Hxy.
      eapply arg_ok_stored; [exact Huw|exact Hst1|exact Hpb|lia|lia|unfold n in *; lia|exact Hxy].
    + exact Hf.
    + exact Hbot.
    + exact Hlow.
    + lia.
    + rewrite length_app. cbn. lia.
    + exists s2. split; [|split].
      * cbn [push_strings]. unfold MAXARGS. rewrite decide_False by lia.
        rewrite (vstring_ok s d str) by assumption. rewrite bind_Ret. cbv zeta. fold n.
        rewrite align4, u32_small by (unfold USTACKTOP, PGSIZE, KERNBASE, n in *; lia).
        change (sp - n - (sp - n) mod 4) with b. rewrite E1, bind_Ret. cbn beta iota.
        rewrite decide_False by lia. rewrite E2, <- app_assoc. done.
      * eapply stored_both; [exact Hst1|exact Hst2|unfold n in *; lia..].
      * constructor; [|exact Hs2]. destruct (stack_ok_at s1 d bottom (b - bottom)) as [Hpr _];
          [by eapply stack_ok_stored|lia..|].
        eapply string_at_stored; [exact (sd_wf _ _ _ _ _ _ Hst1)|exact Hst2|exact Hpr|unfold disjoint; lia|exact Hs1].
Qed.

Lemma words_length ws : length (words ws) = (4 * length ws)%nat.
Proof. induction ws as [|w ws IH]; [done|]. unfold words in *. cbn [map concat]. rewrite length_app, IH, length_le. cbn [length]. lia. Qed.

Lemma words_bytes ws : Forall (fun b => 0 <= b < 256) (words ws).
Proof. induction ws as [|w ws IH]; [constructor|]. unfold words in *. cbn [map concat]. apply Forall_app. split; [apply le_bytes|exact IH]. Qed.

Lemma words_at s d l ws : user_wf s d l -> forall va i w,
  bytes_at s d va (words ws) -> ws !! i = Some w -> 0 <= w < 4294967296 ->
  vload32 s d (va + 4 * Z.of_nat i) = Ret w.
Proof.
  intros Huw. induction ws as [|v ws IH]; intros va i w Hb Hi Hw; [discriminate Hi|].
  apply bytes_at_app in Hb as [H1 H2]. rewrite length_le in H2. destruct i as [|i].
  - injection Hi as ->. rewrite Z.add_0_r, (vload32_user s d l va (le 4 w) Huw H1 (length_le 4 w)).
    rewrite of_le_le. f_equal. apply Z.mod_small. exact Hw.
  - rewrite <- (IH _ i w H2 Hi Hw). f_equal. lia.
Qed.

(** The block of pointers below the strings. *)
Lemma push_block s d l sp ws :
  user_wf s d l -> stack_ok s d -> USTACKTOP - PGSIZE <= sp -> sp + 4 * Z.of_nat (length ws) <= USTACKTOP ->
  (0 < length ws)%nat ->
  exists s', copyout_array s d sp (words ws) = Ret (0, s') /\
    stored s s' d l sp (4 * Z.of_nat (length ws)) /\ bytes_at s' d sp (words ws).
Proof.
  intros Huw Hst Hlow Hend Hws.
  assert (Hlen : Z.of_nat (length (words ws)) = 4 * Z.of_nat (length ws)) by (rewrite words_length; lia).
  destruct (stack_ok_at s d sp (4 * Z.of_nat (length ws)) Hst Hlow ltac:(lia) Hend) as [Hp Hw].
  destruct (put_bytes_window d l (words ws) s sp Huw) as [Hs Hb]; rewrite ?Hlen in *;
    [exact Hp|apply words_bytes|intros _; apply Hw; lia|].
  eexists. split; [|split; [exact Hs|exact Hb]]. unfold copyout_array. rewrite Hlen.
  unfold USTACKTOP, PGSIZE, KERNBASE in *.
  replace (Z.to_nat (4 * Z.of_nat (length ws) / 4096 + 2)) with (S (Z.to_nat (4 * Z.of_nat (length ws) / 4096 + 1))) by modlia.
  eapply copyout_page; [exact Huw|lia|lia|unfold KERNBASE; lia|modlia| |].
  - rewrite <- (Z.add_0_r sp). eapply priv_at_byte; [exact Hp|lia].
  - cbn beta. rewrite take_ge by (rewrite length_drop; lia). done.
Qed.

(** The words at the final stack pointer. *)
Definition arg_words (strs : list (list Z)) : list Z :=
  let sp := arg_bottom USTACKTOP strs - 4 * (Z.of_nat (length strs) + 3) in
  [Z.of_nat (length strs); sp + 8] ++ arg_places USTACKTOP strs ++ [0].

Lemma arg_words_length strs : length (arg_words strs) = (length strs + 3)%nat.
Proof. unfold arg_words. cbv zeta. rewrite !length_app, arg_places_length. cbn. lia. Qed.

Lemma push_args_ok fuel s d l argv strs :
  let sp := arg_bottom USTACKTOP strs - 4 * (Z.of_nat (length strs) + 3) in
  user_wf s d l -> stack_ok s d -> Forall2 (arg_ok s d sp) argv strs ->
  Forall (fun str => (length str < fuel)%nat) strs -> (length strs <= 16)%nat -> USTACKTOP - PGSIZE <= sp ->
  exists s', push_args fuel s d argv = Ret (s', Some sp) /\ stored s s' d l sp (USTACKTOP - sp) /\
    bytes_at s' d sp (words (arg_words strs)) /\ Forall2 (string_at s' d) (arg_places USTACKTOP strs) strs.
Proof.
  intros sp Huw Hst Hargs Hf Hn Hfit. set (bottom := arg_bottom USTACKTOP strs) in *. set (n := length strs) in *.
  pose proof (arg_bottom_le strs USTACKTOP) as Hle. fold bottom in Hle.
  destruct (push_strings_ok fuel d l bottom strs argv s USTACKTOP [] Huw Hst) as (s1 & E1 & Hst1 & Hs1);
    [|exact Hf|done|lia|lia|cbn; lia|].
  { eapply Forall2_impl; [exact Hargs|]. intros a str (H1 & H2 & H3). split; [exact H1|]. split; [exact H2|].
    unfold disjoint in *. lia. }
  cbn [app] in E1. pose proof (sd_wf _ _ _ _ _ _ Hst1) as Huw1. pose proof (stack_ok_stored _ _ _ _ _ _ Hst1 Hst) as Hstk1.
  pose proof (arg_words_length strs) as Hws. fold n in Hws.
  destruct (push_block s1 d l sp (arg_words strs) Huw1 Hstk1) as (s2 & E2 & Hst2 & Hb2);
    [exact Hfit|rewrite Hws; unfold sp; lia|lia|]. rewrite Hws in Hst2.
  assert (Hsp : 0 <= sp < 2147483648) by (unfold sp, USTACKTOP, PGSIZE, KERNBASE in *; lia).
  exists s2. split; [|split; [|split; [exact Hb2|]]].
  - unfold push_args. rewrite E1, bind_Ret. cbn beta iota zeta. rewrite arg_places_length. fold n.
    rewrite (u32_small (bottom - (2 + Z.of_nat n + 1) * 4)), (u32_small (bottom - (Z.of_nat n + 1) * 4))
      by (unfold sp, USTACKTOP, KERNBASE in *; lia).
    replace (bottom - (2 + Z.of_nat n + 1) * 4) with sp by (unfold sp; lia).
    replace (bottom - (Z.of_nat n + 1) * 4) with (sp + 8) by (unfold sp; lia).
    change ([Z.of_nat n; sp + 8] ++ arg_places USTACKTOP strs ++ [0]) with (arg_words strs).
    rewrite E2, bind_Ret. cbn beta iota. by rewrite decide_False by lia.
  - eapply stored_both; [exact Hst1|exact Hst2|unfold sp; lia..].
  - destruct (stack_ok_at s1 d sp (4 * Z.of_nat (n + 3)) Hstk1 Hfit ltac:(lia) ltac:(unfold sp; lia)) as [Hpr _].
    apply Forall2_same_length_lookup_2; [apply arg_places_length|]. intros i p str Hp Hi.
    pose proof (arg_places_range _ _ _ _ Hp) as Hr. fold bottom in Hr.
    eapply string_at_stored; [exact Huw1|exact Hst2|exact Hpr|unfold disjoint, sp; lia|].
    exact (Forall2_lookup_lr _ _ _ _ _ _ Hs1 Hp Hi).
Qed.

(** ** The change of directories *)

(** The page of the stack is mapped already: nothing happens but the warning. *)
Lemma region_alloc_mapped s d l perm : user_wf s d l -> present s d (USTACKTOP - PGSIZE) ->
  region_alloc s d (USTACKTOP - PGSIZE) PGSIZE perm = Ret s.
Proof.
  intros Huw Hp. unfold region_alloc. change (PGROUNDUP (USTACKTOP - PGSIZE + PGSIZE)) with 2147483648.
  change (PGROUNDDOWN (USTACKTOP - PGSIZE)) with (USTACKTOP - PGSIZE).
  change (Z.to_nat ((2147483648 - (USTACKTOP - PGSIZE)) / PGSIZE)) with 1%nat. cbn [region_loop].
  rewrite decide_True by reflexivity. pose proof (has_entry_pde _ _ _ Hp) as Hh.
  rewrite walk_present by exact Hh. fold (slot s d (USTACKTOP - PGSIZE)).
  rewrite decide_False by (eapply slot_nonzero; [apply Huw|exact Hh]). rewrite load_slot by exact Hh.
  unfold present in Hp. rewrite Hp. change (u32 (USTACKTOP - PGSIZE + PGSIZE)) with 2147483648.
  by rewrite decide_False by lia.
Qed.

Lemma twins_foreign_parent s s' d p l l' q :
  twins s s' d p l l' -> foreign s d l q -> foreign s p l q -> foreign s' d l' q.
Proof.
  intros T (H1 & H2 & H3) Hp. destruct (tw_foreign _ _ _ _ _ _ T q Hp) as (_ & Hn & _). split; [exact H1|]. split.
  - intros [H|[H|(i & Hi & Hh & H)]]; [apply H2; by left|apply Hn; right; by left|].
    rewrite (tw_ppde _ _ _ _ _ _ T) in Hh, H by exact Hi. apply H2. right. right. eauto.
  - intros va Hva Hpr. apply (twins_present_p _ _ _ _ _ _ _ T) in Hpr. rewrite (tw_pentry _ _ _ _ _ _ T). by apply H3.
Qed.

(** The pages [exec] copies last. *)
Definition last_pages (va : Z) : Prop := USTACKTOP - PGSIZE <= va < USTACKTOP \/ HEAP_START <= va < HEAP_START + PGSIZE.

Lemma last_pages_private va : last_pages va -> private va.
Proof. unfold last_pages, private, USTACKTOP, PGSIZE, KERNBASE, HEAP_START, HEAP_END. lia. Qed.

Lemma last_pages_same va : last_pages va -> same_page (USTACKTOP - PGSIZE) va \/ same_page HEAP_START va.
Proof.
  unfold last_pages, USTACKTOP, PGSIZE, KERNBASE, HEAP_START.
  intros [H|H]; [left|right]; apply aligned_same_page; (reflexivity || lia).
Qed.

(** The two copies and the freeing of the old directory. *)
Record switched (s s' : mm) (d p : Z) (l' : list Z) (q0 : Z) : Prop := {
  sw_wf : user_wf s' p l';
  sw_foreign : foreign s' p l' q0;
  sw_old : forall va, private va -> present s p va -> present s' p va /\ vbyte s' p va = vbyte s p va;
  sw_last : forall va, last_pages va -> present s' p va /\ vbyte s' p va = vbyte s d va
}.

Lemma switch_ok s d p l q0 :
  user_wf s d l -> user_wf s p l -> apart s d p l -> foreign s d l q0 -> foreign s p l q0 ->
  present s d (USTACKTOP - PGSIZE) -> present s d HEAP_START ->
  ~ present s p (USTACKTOP - PGSIZE) -> ~ present s p HEAP_START -> (4 <= length l)%nat ->
  exists s1 s2 s3 l3, copy_page s d p (USTACKTOP - PGSIZE) = Ret (p, s1) /\ copy_page s1 d p HEAP_START = Ret (p, s2) /\
    free_vm s2 d = Ret s3 /\ switched s s3 d p l3 q0.
Proof.
  intros Hd Hp Hap Hqd Hqp Hps Hph Has Hah Hl.
  assert (Hm : forall s d va, 0 <= table_missing s d va <= 1) by (intros; unfold table_missing; case_match; lia).
  assert (Pst : private (USTACKTOP - PGSIZE)) by (apply last_pages_private; left; unfold USTACKTOP, PGSIZE, KERNBASE; lia).
  assert (Phe : private HEAP_START) by (apply last_pages_private; right; unfold PGSIZE; lia).
  pose proof (Hm s p (USTACKTOP - PGSIZE)).
  destruct (copy_page_full s d p (USTACKTOP - PGSIZE) l Hd Hp Hap Pst eq_refl Hps Has ltac:(lia))
    as (s1 & l1 & E1 & T1 & U1 & C1 & N1 & L1).
  pose proof (Hm s1 p HEAP_START).
  destruct (copy_page_full s1 d p HEAP_START l1 (tw_parent _ _ _ _ _ _ T1) (tw_child _ _ _ _ _ _ T1) (tw_apart _ _ _ _ _ _ T1)
    Phe eq_refl) as (s2 & l2 & E2 & T2 & U2 & C2 & N2 & L2).
  { by apply (twins_present_p _ _ _ _ _ _ _ T1). }
  { unfold present. rewrite N1; [exact Hah|unfold HEAP_START; lia|]. vm_compute. discriminate. }
  { lia. }
  pose proof (twins_trans _ _ _ _ _ _ _ _ T1 T2) as T.
  destruct (free_vm_other s2 d p l2 q0 (tw_parent _ _ _ _ _ _ T) (tw_child _ _ _ _ _ _ T) (tw_apart _ _ _ _ _ _ T)
    (twins_foreign_parent _ _ _ _ _ _ _ T Hqd Hqp) (tw_foreign _ _ _ _ _ _ T _ Hqp)) as (s3 & l3 & E3 & W3 & P3 & V3 & F3 & _).
  assert (Hpr : forall va, present s2 p va -> present s3 p va) by (intros va; unfold present; by rewrite P3).
  exists s1, s2, s3, l3. split; [exact E1|]. split; [exact E2|]. split; [exact E3|]. constructor; [exact W3|exact F3|..].
  - intros va Hva Hv. pose proof (twins_present_c _ _ _ _ _ _ va T ltac:(priv) Hv) as Hv2. split; [by apply Hpr|].
    rewrite V3 by assumption. exact (tw_cbyte _ _ _ _ _ _ T va Hva Hv).
  - intros va Hva. pose proof (last_pages_private va Hva) as Hpv.
    assert (Hcop : copied s2 d p va).
    { destruct (last_pages_same va Hva) as [Hs|Hs]; [apply (twins_copied _ _ _ _ _ _ _ T2 Hpv)|]; auto. }
    assert (Hpd : present s d va).
    { unfold present. destruct (last_pages_same va Hva) as [Hs|Hs]; by rewrite <- (pt_entry_page _ _ _ _ Hs). }
    destruct (Hcop ltac:(by apply (twins_present_p _ _ _ _ _ _ _ T))) as [H1 H2]. split; [by apply Hpr|].
    rewrite V3, H2 by assumption. by apply (tw_pbyte _ _ _ _ _ _ T).
Qed.

Lemma switched_bytes s s' d p l q0 va bs : switched s s' d p l q0 -> bytes_at s d va bs ->
  (forall x, va <= x < va + Z.of_nat (length bs) -> last_pages x) -> bytes_at s' p va bs.
Proof.
  intros Hsw [(H0 & H1 & H2) Hb] Hl. split.
  - split; [exact H0|]. split; [exact H1|]. intros x Hx. destruct (sw_last _ _ _ _ _ _ Hsw x (Hl x Hx)).
    split; [by apply last_pages_private, Hl|done].
  - intros i b Hi. rewrite <- (Hb i b Hi). apply (sw_last _ _ _ _ _ _ Hsw). apply Hl.
    pose proof (lookup_lt_Some _ _ _ Hi). lia.
Qed.

Lemma arg_places_end strs : forall sp i p str, arg_places sp strs !! i = Some p -> strs !! i = Some str ->
  p + Z.of_nat (length str) + 1 <= sp.
Proof.
  induction strs as [|s0 r IH]; intros sp i p str Hp Hi; [discriminate Hp|].
  pose proof (arg_place_range sp s0) as (_ & H & _). destruct i as [|i]; cbn in Hp, Hi.
  - injection Hp as <-. injection Hi as ->. exact H.
  - specialize (IH _ _ _ _ Hp Hi). lia.
Qed.

Section Finish.

Context {D : Type} `{dev : BlockDev D} `{uart : Uart}.

(** What the caller leaves to the change of directories. *)
Record ready (m : machine D) (c : nat) (l : list Z) (pgdir : Z) : Prop := {
  rd_kernel : in_kernel m c l;
  rd_new : user_wf (m_mm m) pgdir l;
  rd_apart : apart (m_mm m) (dir m c) pgdir l;
  rd_tf : foreign (m_mm m) pgdir l (t_tf (cur_task m c) - t_tf (cur_task m c) mod 4096);
  rd_stack : present (m_mm m) (dir m c) (USTACKTOP - PGSIZE);
  rd_heap : present (m_mm m) (dir m c) HEAP_START;
  rd_nostack : ~ present (m_mm m) pgdir (USTACKTOP - PGSIZE);
  rd_noheap : ~ present (m_mm m) pgdir HEAP_START;
  rd_pages : (4 <= length l)%nat
}.

Lemma exec_commit_ok (m : machine D) c l pgdir entry sp range : ready m c l pgdir ->
  exists m' l', exec_commit m c pgdir entry sp range = Ret m' /\ in_kernel m' c l' /\ dir m' c = pgdir /\
    m_cons m' = m_cons m /\
    tf_get m' c TF_EIP = u32 entry /\ tf_get m' c TF_ESP = u32 sp /\ t_sz (cur_task m' c) = range /\
    switched (m_mm m) (m_mm m') (dir m c) pgdir l' (t_tf (cur_task m c) - t_tf (cur_task m c) mod 4096).
Proof.
  intros [[Hcur Huw [Htf Htf2]] Hn Hap Hft Hps Hph Has Hah Hl].
  destruct (switch_ok (m_mm m) (dir m c) pgdir l _ Huw Hn Hap Htf Hft Hps Hph Has Hah Hl) as (s1 & s2 & s3 & l3 & E1 & E2 & E3 & Hsw).
  set (q0 := t_tf (cur_task m c) - t_tf (cur_task m c) mod 4096) in *.
  unfold exec_commit. rewrite E1, bind_Ret. cbn beta iota. rewrite E2, bind_Ret. cbn beta iota zeta.
  set (m2 := set_kern (set_mm m s2) _). change (m_mm m2) with s2. rewrite E3, bind_Ret.
  assert (Et : cur_task (set_mm m2 s3) c = with_pgdir (cur_task m c) pgdir).
  { unfold cur_task, m2. cbn [set_mm set_kern m_kern set_kmm set_task tasks]. by rewrite upd_same. }
  assert (Hik3 : in_kernel (set_mm m2 s3) c l3).
  { constructor; [exact Hcur| |]; unfold dir; rewrite Et; cbn [with_pgdir t_pgdir t_tf];
      [exact (sw_wf _ _ _ _ _ _ Hsw)|split; [exact (sw_foreign _ _ _ _ _ _ Hsw)|exact Htf2]]. }
  assert (Hd3 : dir (set_mm m2 s3) c = pgdir) by (unfold dir; by rewrite Et).
  destruct (tf_set_ok (set_mm m2 s3) c l3 TF_EIP entry Hik3) as (Hik4 & G4 & P4 & V4); [done|done|].
  set (m4 := tf_set (set_mm m2 s3) c TF_EIP entry) in *.
  destruct (tf_set_ok m4 c l3 TF_ESP sp Hik4) as (Hik5 & G5 & P5 & V5); [done|done|]. set (m5 := tf_set m4 c TF_ESP sp) in *.
  assert (G4' : tf_get m5 c TF_EIP = u32 entry).
  { rewrite <- G4. unfold tf_get, m5, tf_set. cbn. apply load32_store32_other. unfold TF_EIP, TF_ESP. lia. }
  change (dir m4 c) with (dir (set_mm m2 s3) c) in P5, V5. rewrite Hd3 in P4, V4, P5, V5.
  change (m_mm (set_mm m2 s3)) with s3 in P4, V4.
  set (m6 := set_kern m5 _).
  assert (Et6 : cur_task m6 c = with_sz (cur_task m5 c) range).
  { unfold m6, cur_task. cbn [set_kern m_kern set_task tasks]. by rewrite upd_same. }
  assert (Hik6 : in_kernel m6 c l3).
  { destruct Hik5 as [H1 H2 H3]. constructor; [exact H1|unfold dir|]; rewrite Et6; cbn [with_sz t_pgdir t_tf].
    - exact H2.
    - unfold dir. rewrite Et6. exact H3. }
  exists m6, l3. split; [done|]. split; [exact Hik6|].
  assert (Hd6 : dir m6 c = pgdir) by (unfold dir; rewrite Et6; exact Hd3).
  split; [exact Hd6|]. split; [done|].
  split; [unfold tf_get; rewrite Et6; exact G4'|]. split; [unfold tf_get; rewrite Et6; exact G5|].
  split; [by rewrite Et6|]. change (m_mm m6) with (m_mm m5).
  assert (Hpt : forall va, pt_entry (m_mm m5) pgdir va = pt_entry s3 pgdir va) by (intros va; rewrite P5; apply P4).
  assert (Hvb : forall va, private va -> present s3 pgdir va -> vbyte (m_mm m5) pgdir va = vbyte s3 pgdir va).
  { intros va Hva Hv. rewrite V5; [by apply V4|exact Hva|]. unfold present. rewrite P4. exact Hv. }
  destruct Hsw as [W F O L]. constructor.
  - rewrite <- Hd6. exact (ik_wf _ _ _ Hik6).
  - pose proof (proj1 (ik_tf _ _ _ Hik6)) as H. rewrite Hd6, Et6 in H. cbn [with_sz t_tf] in H.
    change (t_tf (cur_task m5 c)) with (t_tf (cur_task (set_mm m2 s3) c)) in H. rewrite Et in H. exact H.
  - intros va Hva Hv. destruct (O va Hva Hv) as [H1 H2]. split; [unfold present; by rewrite Hpt|]. by rewrite Hvb.
  - intros va Hva. destruct (L va Hva) as [H1 H2]. split; [unfold present; by rewrite Hpt|]. rewrite Hvb; [done|by apply last_pages_private|done].
Qed.

(** The state in which the arguments were pushed. *)
Lemma ready_stored (m : machine D) c l pgdir s dst n : ready m c l pgdir ->
  stored (m_mm m) s (dir m c) l dst n -> priv_at (m_mm m) (dir m c) dst n ->
  ready (set_mm m s) c l pgdir /\
  forall va, private va -> present (m_mm m) pgdir va -> present s pgdir va /\ vbyte s pgdir va = vbyte (m_mm m) pgdir va.
Proof.
  intros [Hik Hn Hap Hft Hps Hph Has Hah Hl] Hst Hat.
  destruct (in_kernel_stored m c l s dst n Hik Hst Hat) as [Hik' _].
  destruct (stored_other _ _ _ _ _ _ _ Hn Hap Hst Hat) as (W & A & P & V & F). split.
  - constructor; [exact Hik'|exact W|exact A|exact (F _ Hft)|..|exact Hl]; unfold present in *; change (m_mm (set_mm m s)) with s;
      change (dir (set_mm m s) c) with (dir m c); rewrite ?P, ?(sd_entry _ _ _ _ _ _ Hst); assumption.
  - intros va Hva Hv. split; [unfold present; by rewrite P|by apply V].
Qed.

End Finish.

(** ** Properties *)

(** What the words of the block say. *)
Lemma arg_words_read s d l strs :
  let sp := arg_bottom USTACKTOP strs - 4 * (Z.of_nat (length strs) + 3) in
  user_wf s d l -> 0 <= sp -> (length strs <= 16)%nat -> bytes_at s d sp (words (arg_words strs)) ->
  vload32 s d sp = Ret (Z.of_nat (length strs)) /\ vload32 s d (sp + 4) = Ret (sp + 8) /\
  (forall i p, arg_places USTACKTOP strs !! i = Some p -> vload32 s d (sp + 8 + 4 * Z.of_nat i) = Ret p) /\
  vload32 s d (sp + 8 + 4 * Z.of_nat (length strs)) = Ret 0.
Proof.
  intros sp Hw2 Hsp Hn Hb2. pose proof (arg_bottom_le strs USTACKTOP) as Hle.
  assert (Htop : sp < 2147483640) by (unfold sp, USTACKTOP, KERNBASE in *; lia).
  assert (Hw : forall i w, arg_words strs !! i = Some w -> 0 <= w < 4294967296 -> vload32 s d (sp + 4 * Z.of_nat i) = Ret w)
    by (intros i w; apply (words_at _ _ l _ Hw2 sp i w Hb2)).
  assert (Hps : forall i, arg_words strs !! S (S i) = (arg_places USTACKTOP strs ++ [0]) !! i) by done.
  split; [|split; [|split]].
  - rewrite <- (Z.add_0_r sp). apply (Hw 0%nat); [done|lia].
  - apply (Hw 1%nat); [done|lia].
  - intros i p Hp. pose proof (arg_places_range _ _ _ _ Hp) as Hr.
    replace (sp + 8 + 4 * Z.of_nat i) with (sp + 4 * Z.of_nat (S (S i))) by lia.
    apply Hw; [rewrite Hps; by apply lookup_app_l_Some|unfold sp, USTACKTOP, KERNBASE in *; lia].
  - replace (sp + 8 + 4 * Z.of_nat (length strs)) with (sp + 4 * Z.of_nat (S (S (length strs)))) by lia.
    apply Hw; [|lia]. rewrite Hps, lookup_app_r by (rewrite arg_places_length; lia).
    by rewrite arg_places_length, Nat.sub_diag.
Qed.

(** C6. [exec] hands the arguments over to the new program: the part of it behind
    the loading, from the page of the stack on.  The caller's directory and the
    new one share no page, the caller has its page of stack and the first page
    of its heap, four pages are free, and the strings, as they are once the new
    program has been loaded over the caller's memory, lie outside the block to be
    built and fit on the page with it.  Then the call returns 0 and the task runs
    on in the new directory, at the entry of the program, with a stack pointer
    at which the new directory has the number of arguments, the address of the
    vector, one pointer per argument, each to a copy of the argument's string,
    and a null pointer.  The pages the new directory had keep their bytes, and
    directory and free list are in order. *)
Theorem exec_passes_arguments {D : Type} {uart : Uart} (fuel : nat) (m : machine D) (c : nat) (l : list Z)
  (pgdir entry range : Z) (argv : list Z) (strs : list (list Z))
  (Hrd : ready m c l pgdir) (Hst : stack_ok (m_mm m) (dir m c)) (Hent : 0 <= entry < 4294967296)
  (Hargs : Forall2 (arg_ok (m_mm m) (dir m c) (arg_bottom USTACKTOP strs - 4 * (Z.of_nat (length strs) + 3))) argv strs)
  (Hf : Forall (fun str => (length str < fuel)%nat) strs) (Hn : (length strs <= 16)%nat)
  (Hfit : USTACKTOP - PGSIZE <= arg_bottom USTACKTOP strs - 4 * (Z.of_nat (length strs) + 3)) :
  let sp := arg_bottom USTACKTOP strs - 4 * (Z.of_nat (length strs) + 3) in
  exists m' l', exec_finish fuel m c pgdir entry range argv = Ret (m', 0) /\
    in_kernel m' c l' /\ dir m' c = pgdir /\ user_wf (m_mm m') pgdir l' /\
    tf_get m' c TF_EIP = entry /\ tf_get m' c TF_ESP = sp /\ t_sz (cur_task m' c) = range /\
    vload32 (m_mm m') pgdir sp = Ret (Z.of_nat (length strs)) /\ vload32 (m_mm m') pgdir (sp + 4) = Ret (sp + 8) /\
    (forall i str, strs !! i = Some str ->
       exists p, vload32 (m_mm m') pgdir (sp + 8 + 4 * Z.of_nat i) = Ret p /\ string_at (m_mm m') pgdir p str) /\
    vload32 (m_mm m') pgdir (sp + 8 + 4 * Z.of_nat (length strs)) = Ret 0 /\
    (forall va, private va -> present (m_mm m) pgdir va -> vbyte (m_mm m') pgdir va = vbyte (m_mm m) pgdir va).
Proof.
  intros sp. pose proof (rd_kernel _ _ _ _ Hrd) as Hik. pose proof (ik_wf _ _ _ Hik) as Huw.
  destruct (push_args_ok fuel (m_mm m) (dir m c) l argv strs Huw Hst Hargs Hf Hn Hfit) as (s1 & E1 & Hs & Hb & Hstr).
  fold sp in E1, Hs, Hb. pose proof (arg_bottom_le strs USTACKTOP) as Hle.
  assert (Hsp : USTACKTOP - PGSIZE <= sp < 2147483640) by (unfold sp, USTACKTOP, PGSIZE, KERNBASE in *; lia).
  destruct (stack_ok_at _ _ sp (USTACKTOP - sp) Hst Hfit ltac:(lia) ltac:(lia)) as [Hpr _].
  destruct (m_say_ok m (region_warnings (m_mm m) (dir m c) (USTACKTOP - PGSIZE) PGSIZE)) as (con & _ & Es).
  assert (Hrd0 : ready (set_cons m con) c l pgdir) by (destruct Hrd; constructor; try assumption; by apply in_kernel_cons).
  destruct (ready_stored (set_cons m con) c l pgdir s1 sp (USTACKTOP - sp) Hrd0 Hs Hpr) as [Hrd1 Hold].
  destruct (exec_commit_ok (set_mm (set_cons m con) s1) c l pgdir entry sp range Hrd1)
    as (m2 & l2 & E2 & Hik2 & Hd2 & _ & Gip & Gsp & Hsz & Hsw). change (m_mm (set_mm (set_cons m con) s1)) with s1 in Hsw.
  change (dir (set_mm (set_cons m con) s1) c) with (dir m c) in Hsw.
  destruct (m_say_ok m2 (chars "---+--+--- exec() end" ++ [10])) as (con2 & _ & Es2).
  pose proof (sw_wf _ _ _ _ _ _ Hsw) as Hw2.
  assert (Hlp : forall x, sp <= x < USTACKTOP -> last_pages x) by (intros x Hx; left; lia).
  assert (Hb2 : bytes_at (m_mm m2) pgdir sp (words (arg_words strs))).
  { apply (switched_bytes _ _ _ _ _ _ _ _ Hsw Hb). intros x Hx. apply Hlp.
    rewrite words_length, arg_words_length in Hx. unfold sp in *. lia. }
  assert (Hn0 : 0 <= sp) by (unfold USTACKTOP, PGSIZE, KERNBASE in *; lia).
  destruct (arg_words_read _ _ _ strs Hw2 Hn0 Hn Hb2) as (R1 & R2 & R3 & R4). fold sp in R1, R2, R3, R4.
  exists (set_cons m2 con2), l2. change (m_mm (set_cons m2 con2)) with (m_mm m2). split.
  { unfold exec_finish. cbv zeta. rewrite (region_alloc_mapped _ _ l), bind_Ret by (exact Huw || exact (rd_stack _ _ _ _ Hrd)).
    rewrite Es, bind_Ret. change (dir (set_cons m con) c) with (dir m c). rewrite E1, bind_Ret. cbn beta iota.
    by rewrite E2, bind_Ret, Es2, bind_Ret. }
  split; [by apply in_kernel_cons|]. split; [exact Hd2|]. split; [exact Hw2|].
  split; [transitivity (u32 entry); [exact Gip|by apply u32_small]|].
  split; [transitivity (u32 sp); [exact Gsp|apply u32_small; lia]|]. split; [exact Hsz|].
  split; [exact R1|]. split; [exact R2|]. split; [|split; [exact R4|]].
  - intros i str Hi. destruct (Forall2_lookup_r _ _ _ _ _ Hstr Hi) as (p & Hp & Hpn & Hpb). exists p. split; [by apply R3|].
    pose proof (arg_places_range _ _ _ _ Hp) as Hr. pose proof (arg_places_end _ _ _ _ _ Hp Hi) as He.
    split; [exact Hpn|]. apply (switched_bytes _ _ _ _ _ _ _ _ Hsw Hpb). rewrite length_app. cbn [length].
    intros x Hx. apply Hlp. unfold sp in *. lia.
  - intros va Hva Hv. destruct (Hold va Hva Hv) as [H1 H2]. destruct (sw_old _ _ _ _ _ _ Hsw va Hva H1) as [_ H3].
    by rewrite H3.
Qed.

(** A caller with two arguments at 4096, and an empty new directory. *)
Lemma demo_ready {D : Type} (con : console) (f : sfs D) : exists (m : machine D) l pgdir, ready m 0 l pgdir /\
  stack_ok (m_mm m) (dir m 0) /\ bytes_at (m_mm m) (dir m 0) 4096 [108; 115; 0; 45; 108; 0].
Proof.
  destruct demo_user_space as (s0 & d & l0 & Huw0 & Hd0 & Hst0 & Hwin & Hh0 & Hl0 & Hm0).
  destruct l0 as [|hp l1]; [cbn in Hl0; lia|]. cbn [length] in Hl0.
  destruct (pop_space s0 d hp l1 Huw0) as (_ & Hok & Hg & Hfor). set (s1 := set_free_list s0 _) in *.
  assert (Phe : private HEAP_START) by (apply last_pages_private; right; unfold PGSIZE; lia).
  destruct (map_one s1 d HEAP_START hp 2 l1 (gr_wf _ _ _ _ _ Hg) Hfor Hok Phe eq_refl) as (s2 & l2 & _ & Hx & W2 & He2 & Ht2 & _ & L2);
    [apply Hh0; unfold HEAP_START, HEAP_END; lia|lia|done|done|unfold table_missing; case_match; lia|].
  assert (Hm2 : memsz s2 = 8192) by (rewrite (ex_memsz _ _ _ _ _ Hx); exact Hm0).
  assert (Hl2 : (800 <= length l2)%nat) by (unfold table_missing in L2; case_match; lia).
  destruct l2 as [|k [|d2 l3]]; [cbn in Hl2; lia..|]. cbn [length] in Hl2.
  destruct (kalloc_page_cons s2 k (d2 :: l3) (vw_free _ _ _ (uw_vm _ _ _ W2))) as [_ Hf2].
  destruct (fork_spaces 2149580800 s2 (set_free_list s2 (load32 (ram s2) k)) d k d2 l3 W2 Hf2) as (m1 & l4 & _ & _ & Hk);
    [apply agree_outside_refl|done|done|done|done|rewrite Hm2; unfold KERNBASE, HEAP_START; lia| |].
  { rewrite Hm2. change (8192 * 1024 / 4194304 + 4) with 6. lia. }
  destruct Hk as [P1 P2 P3 P4 [P5 P6] _ P8 P9 _ _ P12 P13]. rewrite Hm2 in P12. change (8192 * 1024 / 4194304 + 4) with 6 in P12.
  assert (Hpt : forall va, 0 <= va < 4294967296 -> ~ same_page HEAP_START va -> pt_entry m1 d va = pt_entry s0 d va).
  { intros va Hva Hs. rewrite P9, He2, decide_False by assumption. done. }
  assert (Hlow : forall va, 0 <= va < KERNBASE -> ~ same_page HEAP_START va).
  { intros va Hva. rewrite aligned_same_page by (reflexivity || (unfold HEAP_START, KERNBASE in *; lia)). unfold HEAP_START, KERNBASE in *. lia. }
  assert (Hprv : forall va n, priv_at s0 d va n -> va + n <= KERNBASE -> priv_at m1 d va n).
  { intros va n (H0 & H1 & H2) Hn. split; [exact H0|]. split; [exact H1|]. intros x Hx'. destruct (H2 x Hx') as [A B].
    split; [exact A|]. unfold present. rewrite Hpt; [exact B|lia|apply Hlow; lia]. }
  assert (Hkf : foreign m1 d l4 k).
  { destruct P5 as (A1 & A2 & _). split; [exact A1|]. split.
    - intros [H|[H|H]]; [apply P6; left; by left|apply A2; right; by left|apply P6; left; right; by right].
    - intros va Hva Hp E. apply P6. right. exists va. by rewrite E. }
  assert (Hka : k mod 4096 = 0) by apply P5.
  set (t := mkTask (k + 4016) 0 1 0 0 TS_RUNNING 0 20 d k 0 HEAP_START 0 None None).
  set (m := mkMachine (mkKern (fun _ => t) (Some 0%nat) (Some 0%nat) None 2 m1 0) con f (fun _ => []) (fun _ => 0) 0 (-1)).
  assert (Etf : k + 4016 - (k + 4016) mod 4096 = k) by modlia.
  assert (Hik : in_kernel m 0 l4).
  { constructor; [done|exact P1|]. unfold TF_SIZE. cbn [m cur_task m_kern tasks t t_tf]. rewrite Etf. split; [exact Hkf|modlia]. }
  assert (Hstk : stack_ok m1 d).
  { split; [apply Hprv; [exact Hst0|done]|]. destruct Hwin as (A1 & A2 & A3). unfold in_window, translate in *.
    rewrite Hpt, P13, Hm2, <- Hm0 by (done || apply Hlow; done). done. }
  assert (Hst1 : present m1 d (USTACKTOP - PGSIZE)).
  { destruct Hstk as [(_ & _ & H) _]. apply H. unfold USTACKTOP, PGSIZE, KERNBASE. lia. }
  assert (Hhe : present m1 d HEAP_START).
  { unfold present. rewrite P9, He2, decide_True by (done || (unfold HEAP_START; lia)).
    destruct (page_entry_facts (V2P hp) 2 ltac:(lia)) as (_ & _ & H & _). exact H. }
  assert (Hrd : ready m 0 l4 d2).
  { constructor; [exact Hik|exact P2|exact P3| |exact Hst1|exact Hhe|apply P4|apply P4; exact Phe|lia].
    - cbn [m cur_task m_kern tasks t t_tf]. rewrite Etf. exact P5.
    - apply last_pages_private. left. unfold USTACKTOP, PGSIZE, KERNBASE. lia. }
  assert (Hat : priv_at m1 d 4096 6).
  { apply Hprv; [|unfold KERNBASE; lia]. rewrite <- (Z.add_0_r 4096). eapply priv_at_sub; [exact Hd0|lia..]. }
  destruct (vwrite_ok d l4 [108; 115; 0; 45; 108; 0] m1 4096 P1 Hat) as (s5 & _ & Hs5 & Hb5); [repeat constructor; lia|].
  destruct (ready_stored m 0 l4 d2 s5 4096 6 Hrd Hs5 Hat) as [Hrd5 _].
  exists (set_mm m s5), l4, d2. split; [exact Hrd5|]. split; [|exact Hb5].
  exact (stack_ok_stored _ _ _ _ _ _ Hs5 Hstk).
Qed.

Lemma exec_passes_arguments_witness :
  exists (m m' : machine unit) pgdir sp p, exec_finish (uart := ready_uart) 8 m 0 pgdir 4096 8192 [4096; 4099] = Ret (m', 0) /\
    dir m' 0 = pgdir /\ tf_get m' 0 TF_EIP = 4096 /\ tf_get m' 0 TF_ESP = sp /\ vload32 (m_mm m') pgdir sp = Ret 2 /\
    vload32 (m_mm m') pgdir (sp + 12) = Ret p /\ string_at (m_mm m') pgdir p [45; 108].
Proof.
  destruct (demo_ready blank_console (mkSfs tt [] [] [] 0 0 0 0 0)) as (m & l & pgdir & Hrd & Hstk & Hb).
  destruct (bytes_at_app (m_mm m) (dir m 0) 4096 [108; 115; 0] [45; 108; 0] Hb) as [Hb1 Hb2].
  destruct (exec_passes_arguments (uart := ready_uart) 8 m 0 l pgdir 4096 8192 [4096; 4099] [[108; 115]; [45; 108]] Hrd Hstk)
    as (m' & l' & E & _ & Hd & _ & Hip & Hsp & _ & E0 & _ & Harg & _).
  - lia.
  - constructor; [|constructor; [|constructor]].
    + split; [split; [repeat constructor; lia|exact Hb1]|]. split; [vm_compute|left; vm_compute]; discriminate.
    + split; [split; [repeat constructor; lia|exact Hb2]|]. split; [vm_compute|left; vm_compute]; discriminate.
  - repeat constructor; cbn; lia.
  - cbn. lia.
  - vm_compute. discriminate.
  - destruct (Harg 1%nat [45; 108] eq_refl) as (p & Ep & Hp). exists m, m', pgdir. eexists. exists p.
    split; [exact E|]. split; [exact Hd|]. split; [exact Hip|]. split; [exact Hsp|]. split; [exact E0|]. split; [|exact Hp].
    rewrite <- Ep. f_equal.
Defined.
