(* ===== verification/Syscall.v ===== *)
(** * System calls

    kern/syscall.c: fetching the arguments from the stack of the task, the
    handlers, the table they are called through; the functions behind them in
    fs/sysfile.c and fs/file.c, and [stdin_read] of kern/tools.c.  A handler
    works on the machine of Machine.v for the running task; what it prints goes
    to the console.  Only the message of [sfs_read] for a descriptor that is too
    large is left out: it shows an argument that was not passed. *)

From stdpp Require Import base list strings.
From Stdlib Require Import ZArith Lia.
From S2P Require Import Prelude Mmu CString Kalloc PageTable VmSpec Ring Task Heap Vmem UserMem VmHeap TaskHeap.
From S2P Require Import Boot Loader Console Printf Bio Hd Buffer BlockDev Le Sfs MkSfs SfsImage SfsSpec SfsText Machine Exec.

Open Scope Z_scope.

(** inc/syscall.h *)
Definition SYS_open : Z := 1.

Definition SYS_creat : Z := 2.

Definition SYS_read : Z := 3.

Definition SYS_write : Z := 4.

Definition SYS_close : Z := 5.

Definition SYS_get_ticks : Z := 6.

Definition SYS_fork : Z := 7.

Definition SYS_wait : Z := 8.

Definition SYS_exit : Z := 9.

Definition SYS_exec : Z := 10.

Definition SYS_stat : Z := 11.

(** What a handler comes to: it returns a value, or the task gives the
    processor away inside [sched_yield], in [wait] or for good; the handler is
    not continued then. *)
Inductive sysret : Type :=
  | Returns (v : Z)
  | Waits (k : option sched_cont)
  | Exits (k : option sched_cont).

Section Syscalls.

Context {D : Type} `{dev : BlockDev D} `{uart : Uart}.

(** Addresses of kernel objects: the tasks, [trap_ret], [do_nothing], the data
    segment, [&cbuf.rpos]. *)
Variable task_ptr : nat -> Z.
Variables trap_ret do_nothing kdata rpos_chan : Z.

(** Bound of strings; uninitialised memory: behind an index entry, an index
    entry, the locals [tp] of [exit] and [pgdir] of [exec]. *)
Variable fuel : nat.
Variable beyond : Z -> Z.
Variable idx : list Z.
Variable junk_tp : option nat.
Variable junk_pgdir : Z.

(** ** Arguments *)

Definition getint (m : machine D) (c : nat) (addr : Z) : outcome Z :=
  w ← vload32 (m_mm m) (dir m c) addr; Ret (s32 w).

(** The length; [*pp] is [addr] itself. *)
Definition getstr (m : machine D) (c : nat) (addr : Z) : outcome Z :=
  l ← vstring fuel (m_mm m) (dir m c) addr; Ret (Z.of_nat (length l)).

Definition argint (m : machine D) (c : nat) (n : Z) : outcome Z :=
  getint m c (u32 (tf_get m c TF_ESP + 4 + 4 * n)).

(** The pointer; its string is read for its length. *)
Definition argstr (m : machine D) (c : nat) (n : Z) : outcome Z :=
  a ← argint m c n; _ ← getstr m c (u32 a); Ret (u32 a).

(** ** Standard input and output *)

(** [n] rounds left of [stdin_read]. *)
Fixpoint stdin_loop (n : nat) (m : machine D) (c : nat) (buf i : Z) : outcome (machine D * Z) :=
  match n with
  | O => Ret (m, i)
  | S k =>
      '(con, r) ← get_c (m_cons m) rpos_chan false;
      let m1 := set_cons m con in
      if decide (r = -1) then Ret (m1, -1)
      else
        s ← vstore8 (m_mm m1) (dir m1 c) buf r;
        stdin_loop k (set_mm m1 s) c (u32 (buf + 1)) (i + 1)
  end.

Definition stdin_read (m : machine D) (c : nat) (buf n : Z) : outcome (machine D * Z) :=
  stdin_loop (Z.to_nat n) m c buf 0.

(** [printk("%s", p)] with a user pointer. *)
Fixpoint print_user (k : nat) (m : machine D) (c : nat) (p : Z) : outcome (machine D) :=
  match k with
  | O => Stop Fuel
  | S k' =>
      b ← vload8 (m_mm m) (dir m c) p;
      if decide (b = 0) then Ret m
      else con ← put_c (m_cons m) b; print_user k' (set_cons m con) c (u32 (p + 1))
  end.

(** ** Files (fs/sysfile.c, fs/file.c) *)

Definition sf_open_text (path : list Z) (flags : Z) : list Z :=
  chars "in sf_open: path: " ++ path ++ chars ", flags: " ++ dec_text flags ++ [10].

Definition sf_open (m : machine D) (c : nat) (path flags : Z) : outcome (machine D * Z) :=
  name ← vstring fuel (m_mm m) (dir m c) path;
  m1 ← m_say m (sf_open_text name flags);
  m_open fuel beyond idx m1 c path flags.

(** What [filecreat], [fileclose] and [filewrite] print, which is all they do; the
    first two return 0, the result of the third is not used. *)
Definition filecreat_text : list Z := chars "In filecreat" ++ [10].

Definition fileclose_text : list Z := chars "In fileclose" ++ [10].

Definition filewrite_text : list Z := chars "In filewrite" ++ [10].

Definition sf_creat (m : machine D) (c : nat) (path flags : Z) : outcome (machine D * Z) :=
  name ← vstring fuel (m_mm m) (dir m c) path;
  m1 ← m_say m (chars "in sf_creat: path: " ++ name ++ chars ", flags: " ++ dec_text flags ++ [10] ++ filecreat_text);
  Ret (m1, 0).

Definition sf_close_text (fd : Z) : list Z :=
  chars "in sf_close: fd: " ++ dec_text fd ++ [10] ++ fileclose_text.

Definition sf_close (m : machine D) (fd : Z) : outcome (machine D * Z) :=
  m1 ← m_say m (sf_close_text fd); Ret (m1, 0).

Definition sf_write (m : machine D) (c : nat) (fd buf n : Z) : outcome (machine D) :=
  str ← vstring fuel (m_mm m) (dir m c) buf;
  m_say m (chars "in sf_write: fd: " ++ dec_text fd ++ chars ", buf: " ++ str ++ chars ", n: " ++ dec_text n ++ [10] ++ filewrite_text).

Definition sf_read (m : machine D) (c : nat) (fd buf n : Z) : outcome (machine D * Z) :=
  '(f, r, out) ← sfs_read (files m c) fd n;
  let m1 := put_files m c f in
  s ← vwrite (m_mm m1) (dir m1 c) buf out;
  Ret (set_mm m1 s, r).

(** [sizeof(struct sfs_stat)] is 12; the struct is cleared before the lookup. *)
Definition sf_stat (m : machine D) (c : nat) (path buf : Z) : outcome (machine D * Z) :=
  name ← vstring fuel (m_mm m) (dir m c) path;
  m0 ← m_say m (chars "in sf_stat: path: " ++ name ++ [10]);
  s ← vmemset (m_mm m0) (dir m0 c) buf 0 12;
  '(m1, r, st) ← m_stat fuel beyond idx (set_mm m0 s) c path;
  if decide (r < 0) then Ret (m1, r)
  else s1 ← vwrite (m_mm m1) (dir m1 c) buf (stat_bytes st); Ret (set_mm m1 s1, r).

(** ** The handlers *)

Definition ret (o : outcome (machine D * Z)) : outcome (machine D * sysret) :=
  '(m, v) ← o; Ret (m, Returns v).

Definition sys_gticks (m : machine D) (c : nat) : outcome (machine D * sysret) := Ret (m, Returns (timer_ticks m)).

Definition sys_open (m : machine D) (c : nat) : outcome (machine D * sysret) :=
  path ← argstr m c 0; flag ← argint m c 1; ret (sf_open m c path flag).

Definition sys_creat (m : machine D) (c : nat) : outcome (machine D * sysret) :=
  path ← argstr m c 0; flag ← argint m c 1; ret (sf_creat m c path flag).

Definition sys_read (m : machine D) (c : nat) : outcome (machine D * sysret) :=
  fd ← argint m c 0; p ← argstr m c 1; len ← argint m c 2;
  if decide (fd = 0) then ret (stdin_read m c p len) else ret (sf_read m c fd p len).

Definition sys_write (m : machine D) (c : nat) : outcome (machine D * sysret) :=
  fd ← argint m c 0; p ← argstr m c 1; len ← argint m c 2;
  m1 ← (if decide (fd = 1 \/ fd = 2) then
          if decide (len = 1) then
            b ← vload8 (m_mm m) (dir m c) p; con ← put_c (m_cons m) b; Ret (set_cons m con)
          else print_user fuel m c p
        else sf_write m c fd p len);
  Ret (m1, Returns 0).

Definition sys_close (m : machine D) (c : nat) : outcome (machine D * sysret) :=
  fd ← argint m c 0; ret (sf_close m fd).

Definition sys_fork (m : machine D) (c : nat) : outcome (machine D * sysret) :=
  '(k, v) ← fork trap_ret do_nothing kdata (m_kern m); Ret (set_kern m k, Returns v).

(** [exit] does not come back: the scheduler switches to another task, or to the
    context of the zombie itself when there is none. *)
Definition sys_exit (m0 : machine D) (c : nat) : outcome (machine D * sysret) :=
  m ← m_say m0 (chars "------ in exit() ------" ++ [10]);
  k1 ← exit_ task_ptr (m_kern m) junk_tp;
  '(k2, sc) ← sched_yield k1;
  Ret (set_kern m k2, Exits sc).

(** The first round of the loop of [wait]; one that sleeps ends in the scheduler,
    and there is no second one. *)
Definition wait_round (m : machine D) (get_child : bool) : outcome (machine D * sysret) :=
  '(k, r) ← wait task_ptr (m_kern m) get_child;
  match r with
  | WaitDone v => Ret (set_kern m k, Returns v)
  | WaitSleep => '(k2, sc) ← sched_yield k; Ret (set_kern m k2, Waits sc)
  end.

Definition sys_wait (m : machine D) (c : nat) : outcome (machine D * sysret) :=
  m1 ← m_say m (chars "------ in wait() ------" ++ [10]); wait_round m1 false.

(** The pointers of the vector at [uargv] from index [i] on; [None] when the
    null pointer does not come in time. *)
Fixpoint fetch_argv (n : nat) (m : machine D) (c : nat) (uargv i : Z) : outcome (option (list Z)) :=
  match n with
  | O => Ret None
  | S k =>
      if decide (uargv = 0) then Ret (Some [])
      else
        w ← getint m c (u32 (uargv + i * 4));
        let uarg := u32 w in
        if decide (uarg = 0) then Ret (Some [])
        else
          _ ← getstr m c uarg;
          r ← fetch_argv k m c uargv (i + 1);
          Ret (option_map (cons uarg) r)
  end.

Definition sys_exec (m : machine D) (c : nat) : outcome (machine D * sysret) :=
  path ← argstr m c 0; uargv ← argint m c 1;
  argv ← fetch_argv (Z.to_nat MAXARGS) m c (u32 uargv) 0;
  match argv with
  | None => Ret (m, Returns (-1))
  | Some l => ret (exec kdata fuel beyond idx m junk_pgdir path l)
  end.

Definition sys_stat (m : machine D) (c : nat) : outcome (machine D * sysret) :=
  path ← argstr m c 0; buf ← argstr m c 1; ret (sf_stat m c path buf).

(** ** Dispatch *)

(** The table; entry 0 is a null pointer. *)
Definition syscalls : list (option (machine D -> nat -> outcome (machine D * sysret))) :=
  [None; Some sys_open; Some sys_creat; Some sys_read; Some sys_write; Some sys_close; Some sys_gticks;
   Some sys_fork; Some sys_wait; Some sys_exit; Some sys_exec; Some sys_stat].

(** The result goes into [eax] of the trap frame once the handler returns. *)
Definition sys_result (c : nat) (r : machine D * sysret) : machine D * sysret :=
  match r with
  | (m, Returns v) => (tf_set m c TF_EAX v, Returns v)
  | _ => r
  end.

(** [printk("Unknown syscall number: %d\n", num)] *)
Definition unknown_text (num : Z) : list Z := chars "Unknown syscall number: " ++ frag_text (FDec num) ++ [10].

(** The number is not checked against the size of the table. *)
Definition syscall (m : machine D) : outcome (machine D * sysret) :=
  c ← cur m;
  let num := s32 (tf_get m c TF_EAX) in
  if decide (0 <= num) then
    h ← deref "syscalls[num]" (syscalls !! Z.to_nat num);
    match h with
    | Some f => r ← f m c; Ret (sys_result c r)
    | None =>
        con ← emit put_c (m_cons m) (unknown_text num);
        Ret (sys_result c (set_cons m con, Returns (-1)))
    end
  else Stop (Fault "syscalls[num]").

End Syscalls.

(** ** A call of a task *)

(** The words [ws] are the arguments of the call, on the stack of the task. *)
Definition uargs {D : Type} (m : machine D) (c : nat) (ws : list Z) : Prop :=
  bytes_at (m_mm m) (dir m c) (tf_get m c TF_ESP + 4) (words ws).

Section Lemmas.

Context {D : Type} `{dev : BlockDev D} `{uart : Uart}.

Lemma keeps_args (m m' : machine D) c U a n ws : keeps m m' c U a n ->
  (forall x, tf_get m c TF_ESP + 4 <= x < tf_get m c TF_ESP + 4 + 4 * Z.of_nat (length ws) -> U x) ->
  disjoint (tf_get m c TF_ESP + 4) (4 * Z.of_nat (length ws)) a n \/ n <= 0 -> uargs m c ws -> uargs m' c ws.
Proof.
  intros Hk HU Hdis Ha. unfold uargs. rewrite (ks_esp _ _ _ _ _ _ Hk).
  assert (Hl : Z.of_nat (length (words ws)) = 4 * Z.of_nat (length ws)) by (rewrite words_length; lia).
  apply (keeps_bytes m m' c U a n); [exact Hk| | |exact Ha]; rewrite Hl; assumption.
Qed.

Lemma argint_ok (m : machine D) c l ws z w :
  in_kernel m c l -> uargs m c ws -> 0 <= z -> ws !! Z.to_nat z = Some w -> 0 <= w < 4294967296 ->
  argint m c z = Ret (s32 w).
Proof.
  intros Hik Ha Hz Hi Hw. rewrite <- (Z2Nat.id z) by exact Hz. set (i := Z.to_nat z) in *. unfold argint, getint. pose proof (lookup_lt_Some _ _ _ Hi) as Hl.
  pose proof Ha as [(H0 & H1 & _) _]. rewrite words_length in H1.
  rewrite u32_small by lia. rewrite (words_at _ _ l ws (ik_wf _ _ _ Hik) _ i w Ha Hi Hw). done.
Qed.

Lemma argstr_ok (m : machine D) c l ws z w str fuel :
  in_kernel m c l -> uargs m c ws -> 0 <= z -> ws !! Z.to_nat z = Some w -> 0 <= w < 4294967296 ->
  string_at (m_mm m) (dir m c) w str -> (length str < fuel)%nat -> argstr fuel m c z = Ret w.
Proof.
  intros Hik Ha Hz Hi Hw Hs Hf. unfold argstr, getstr. rewrite (argint_ok m c l ws z w) by assumption. rewrite bind_Ret.
  rewrite s32_u32, u32_small by lia. by rewrite (vstring_ok _ _ str) by assumption.
Qed.

(** ** Standard input *)

(** One round that gets a character. *)
Lemma stdin_step chan k (m : machine D) c l r q buf i :
  in_kernel m c l -> ring_holds (m_cons m) (r :: q) -> r <> -1 ->
  private buf -> present (m_mm m) (dir m c) buf -> 0 <= buf < 4294967295 ->
  let s := set_ram (m_mm m) (store8 (ram (m_mm m)) (translate (m_mm m) (dir m c) buf) r) in
  exists con, stdin_loop chan (S k) m c buf i = stdin_loop chan k (set_mm (set_cons m con) s) c (buf + 1) (i + 1) /\
    ring_holds con q /\ in_kernel (set_mm (set_cons m con) s) c l /\ Vmem.stored (m_mm m) s (dir m c) l buf 1.
Proof.
  intros Hik Hq Hr Hpv Hp Hb s. pose proof (get_c_ok (m_cons m) (r :: q) chan Hq) as (con & E & Hq').
  exists con. cbn [stdin_loop]. rewrite E, bind_Ret. cbn beta iota zeta. rewrite decide_False by exact Hr.
  change (m_mm (set_cons m con)) with (m_mm m). change (dir (set_cons m con) c) with (dir m c).
  rewrite vstore8_ok, bind_Ret, u32_small by (exact Hp || lia). split; [done|]. split; [exact Hq'|].
  assert (Hat : priv_at (m_mm m) (dir m c) buf 1).
  { split; [lia|]. split; [lia|]. intros va Hva. by replace va with buf by lia. }
  assert (Hst : Vmem.stored (m_mm m) s (dir m c) l buf 1).
  { pose proof (ik_wf _ _ _ Hik) as Hw.
    destruct (stored_cons (m_mm m) (dir m c) l Hw s s buf 0 r) as [H _]; [exact Hat|lia|done| |exact H].
    apply stored_refl. apply (user_store _ _ _ Hw buf r Hpv Hp). }
  split; [|exact Hst]. exact (proj1 (in_kernel_stored (set_cons m con) c l s buf 1 (in_kernel_cons _ _ _ con Hik) Hst Hat)).
Qed.

Lemma stdin_loop_ok chan c l k : forall (m : machine D) q buf i,
  in_kernel m c l -> ring_holds (m_cons m) q -> (k <= length q)%nat -> Forall (fun r => r <> -1) (take k q) ->
  priv_at (m_mm m) (dir m c) buf (Z.of_nat k) ->
  exists con s, stdin_loop chan k m c buf i = Ret (set_mm (set_cons m con) s, i + Z.of_nat k) /\
    ring_holds con (drop k q) /\ Vmem.stored (m_mm m) s (dir m c) l buf (Z.of_nat k) /\
    bytes_at s (dir m c) buf (map u8 (take k q)).
Proof.
  induction k as [|k IH]; intros m q buf i Hik Hq Hk Hr Hat.
  - exists (m_cons m), (m_mm m). rewrite Z.add_0_r, drop_0. split; [by destruct m as [[] ? ? ? ? ? ?]|]. split; [exact Hq|].
    split; [apply stored_refl, Hik|]. split; [exact Hat|]. intros j b Hj. discriminate Hj.
  - destruct q as [|r q]; [cbn in Hk; lia|]. cbn [take] in Hr. apply Forall_cons in Hr as [Hr0 Hr].
    rewrite Nat2Z.inj_succ in *. unfold Z.succ in *. pose proof Hat as (H0 & H1 & _).
    destruct (priv_at_tail _ _ _ _ (Nat2Z.is_nonneg k) Hat) as [[Hpv Hp] Htail].
    destruct (stdin_step chan k m c l r q buf i Hik Hq Hr0 Hpv Hp ltac:(lia)) as (con & -> & Hq1 & Hik1 & Hst1).
    set (s1 := set_ram _ _) in *.
    destruct (IH (set_mm (set_cons m con) s1) q (buf + 1) (i + 1) Hik1 Hq1 ltac:(cbn in Hk; lia) Hr)
      as (con' & s & E & Hq' & Hst & Hb); [by apply (priv_at_stored _ _ _ _ _ _ _ _ Hst1)|].
    exists con', s. split; [rewrite E; do 2 f_equal; lia|]. split; [exact Hq'|].
    destruct (stored_cons _ _ l (ik_wf _ _ _ Hik) s1 s buf (Z.of_nat k) r) as [Hall Hbyte]; [exact Hat|lia|done|exact Hst|].
    split; [exact Hall|]. assert (Hlen : length (map u8 (take (S k) (r :: q))) = S k)
      by (rewrite length_map, length_take; cbn in *; lia).
    split; [rewrite Hlen, Nat2Z.inj_succ; by apply (priv_at_stored _ _ _ _ _ _ _ _ Hall)|].
    intros [|j] b Hj; cbn in Hj; [injection Hj as <-; by rewrite Z.add_0_r|].
    destruct Hb as [_ Hb]. rewrite <- (Hb j b Hj). f_equal. lia.
Qed.

(** Too few characters: those that were there are gone. *)
Lemma stdin_loop_short chan c l k : forall (m : machine D) q buf i,
  in_kernel m c l -> ring_holds (m_cons m) q -> (length q < k)%nat -> Forall (fun r => r <> -1) q ->
  priv_at (m_mm m) (dir m c) buf (Z.of_nat k) ->
  exists con s, stdin_loop chan k m c buf i = Ret (set_mm (set_cons m con) s, -1) /\
    ring_holds con [] /\ in_kernel (set_mm (set_cons m con) s) c l.
Proof.
  induction k as [|k IH]; intros m q buf i Hik Hq Hk Hr Hat; [lia|]. rewrite Nat2Z.inj_succ in *. unfold Z.succ in *.
  pose proof Hat as (H0 & H1 & _). destruct (priv_at_tail _ _ _ _ (Nat2Z.is_nonneg k) Hat) as [[Hpv Hp] Htail].
  destruct q as [|r q].
  - destruct (get_c_ok (m_cons m) [] chan Hq) as [E _]. exists (m_cons m), (m_mm m). cbn [stdin_loop]. rewrite E, bind_Ret.
    cbn beta iota zeta. rewrite decide_True by done.
    assert (Em : set_mm (set_cons m (m_cons m)) (m_mm m) = m) by (by destruct m as [[] ? ? ? ? ? ?]).
    rewrite Em. split; [by destruct m|]. by split.
  - apply Forall_cons in Hr as [Hr0 Hr].
    destruct (stdin_step chan k m c l r q buf i Hik Hq Hr0 Hpv Hp ltac:(lia)) as (con & -> & Hq1 & Hik1 & Hst1).
    set (s1 := set_ram _ _) in *.
    destruct (IH (set_mm (set_cons m con) s1) q (buf + 1) (i + 1) Hik1 Hq1 ltac:(cbn in Hk; lia) Hr)
      as (con' & s & E & Hq' & Hik'); [by apply (priv_at_stored _ _ _ _ _ _ _ _ Hst1)|].
    exists con', s. done.
Qed.

End Lemmas.

Section Calls.

Context {D : Type} `{dev : BlockDev D} `{uart : Uart}.
Context (task_ptr : nat -> Z) (trap_ret do_nothing kdata rpos_chan : Z).
Context (fuel : nat) (beyond : Z -> Z) (idx : list Z) (junk_tp : option nat) (junk_pgdir : Z).

Abbreviation call := (syscall (uart := uart) task_ptr trap_ret do_nothing kdata rpos_chan fuel beyond idx junk_tp junk_pgdir).
Abbreviation table := (syscalls (uart := uart) task_ptr trap_ret do_nothing kdata rpos_chan fuel beyond idx junk_tp junk_pgdir).

(** A handler that returns [v]. *)
Lemma syscall_returns (m m1 : machine D) c n f v :
  current (m_kern m) = Some c -> tf_get m c TF_EAX = Z.of_nat n -> table !! n = Some (Some f) ->
  f m c = Ret (m1, Returns v) -> call m = Ret (tf_set m1 c TF_EAX v, Returns v).
Proof.
  intros Hc Hn Hf E. unfold syscall, cur. rewrite Hc. cbn [deref]. rewrite bind_Ret, Hn.
  assert (Hlt : (n < 12)%nat) by (apply lookup_lt_Some in Hf; exact Hf).
  rewrite s32_small by lia. rewrite decide_True by lia. rewrite Nat2Z.id, Hf. cbn [deref]. rewrite bind_Ret. cbn beta iota.
  rewrite E. done.
Qed.

(** The console shows the user's string. *)
Lemma print_user_ok str : forall k (m : machine D) c p con,
  string_at (m_mm m) (dir m c) p str -> (length str < k)%nat -> emit put_c (m_cons m) str = Ret con ->
  print_user k m c p = Ret (set_cons m con).
Proof.
  induction str as [|b str IH]; intros [|k] m c p con [Hn Hb] Hk E; try (cbn in Hk; lia);
    cbn [app] in Hb; apply bytes_at_cons in Hb as (_ & Hp & Hv & Hr & Hb); cbn [print_user];
    rewrite vload8_ok, bind_Ret, Hv by exact Hp.
  - rewrite decide_True by done. injection E as <-. by destruct m.
  - apply Forall_cons in Hn as [Hb0 Hn]. rewrite decide_False by exact Hb0. rewrite u32_small by lia.
    cbn [emit] in E. destruct (put_c (m_cons m) b) as [con1|] eqn:E1; [|discriminate E].
    cbn [mbind outcome_bind] in E |- *.
    by rewrite (IH k (set_cons m con1) c (p + 1) con) by (try split; cbn in *; assumption || lia).
Qed.

(** A vector of [n] or more strings is too long for [fetch_argv]. *)
Lemma fetch_argv_full (m : machine D) c l uargv ps :
  in_kernel m c l -> uargv <> 0 -> bytes_at (m_mm m) (dir m c) uargv (words ps) ->
  Forall (fun p => 0 < p < 4294967296 /\ exists str, string_at (m_mm m) (dir m c) p str /\ (length str < fuel)%nat) ps ->
  forall n i, (i + n <= length ps)%nat -> fetch_argv fuel n m c uargv (Z.of_nat i) = Ret None.
Proof.
  intros Hik Hu Hv Hps. pose proof Hv as [(H0 & H1 & _) _]. rewrite words_length in H1.
  induction n as [|n IH]; intros i Hi; cbn [fetch_argv]; [done|]. rewrite decide_False by exact Hu.
  destruct (lookup_lt_is_Some_2 ps i ltac:(lia)) as [p Hp].
  destruct (proj1 (Forall_lookup _ _) Hps i p Hp) as (Hr & str & Hs & Hf).
  unfold getint, getstr. rewrite u32_small by lia. replace (Z.of_nat i * 4) with (4 * Z.of_nat i) by lia.
  rewrite (words_at _ _ l ps (ik_wf _ _ _ Hik) uargv i p Hv Hp ltac:(lia)), !bind_Ret. cbv zeta.
  rewrite s32_u32, u32_small by lia. rewrite decide_False by lia.
  rewrite (vstring_ok _ _ str) by assumption. rewrite !bind_Ret. replace (Z.of_nat i + 1) with (Z.of_nat (S i)) by lia.
  rewrite IH by lia. done.
Qed.

Lemma keeps_user (m m' : machine D) c a n : keeps m m' c anywhere a n -> same_user m m' c a n.
Proof. intros Hk va Hva Hp Hn. rewrite (ks_dir _ _ _ _ _ _ Hk). by apply (ks_byte _ _ _ _ _ _ Hk). Qed.

(** ** Properties *)

(** The system call [read] on standard input delivers what was typed: with
    at least [n] characters waiting it returns [n], the buffer of the task
    holds the first [n] of them, the others stay in the queue in their order,
    and the rest of the task's memory is as before.  The buffer has to hold a
    NUL byte before the call, because the kernel measures it as a string. *)
Lemma sys_read_typed (m : machine D) c l buf n str q :
  in_kernel m c l -> tf_get m c TF_EAX = SYS_read -> uargs m c [0; buf; n] -> 0 <= n < 2147483648 ->
  string_at (m_mm m) (dir m c) buf str -> (length str < fuel)%nat -> priv_at (m_mm m) (dir m c) buf n ->
  ring_holds (m_cons m) q -> n <= Z.of_nat (length q) -> Forall (fun r => r <> -1) (take (Z.to_nat n) q) ->
  exists m', call m = Ret (m', Returns n) /\ in_kernel m' c l /\ tf_get m' c TF_EAX = n /\
    bytes_at (m_mm m') (dir m' c) buf (map u8 (take (Z.to_nat n) q)) /\
    ring_holds (m_cons m') (drop (Z.to_nat n) q) /\ same_user m m' c buf n.
Proof.
  intros Hik Heax Ha Hn Hs Hf Hat Hq Hlen Hr. pose proof Hat as (Hb0 & Hb1 & _).
  destruct (stdin_loop_ok rpos_chan c l (Z.to_nat n) m q buf 0 Hik Hq ltac:(lia) Hr)
    as (con & s & E & Hq' & Hst & Hb); rewrite ?Z2Nat.id in * by lia; [exact Hat|].
  destruct (in_kernel_stored (set_cons m con) c l s buf n (in_kernel_cons _ _ _ con Hik) Hst Hat) as [Hik1 Htf].
  set (m1 := set_mm (set_cons m con) s) in *.
  destruct (tf_set_ok m1 c l TF_EAX n Hik1) as (Hik2 & Hg & He & Hv); [done|done|].
  exists (tf_set m1 c TF_EAX n). split; [|split; [exact Hik2|split; [rewrite Hg; apply u32_small; lia|split; [|split]]]].
  - eapply (syscall_returns m m1 c 3); [apply Hik|exact Heax|reflexivity|].
    unfold sys_read. rewrite (argint_ok m c l _ 0 0 Hik Ha ltac:(lia) eq_refl ltac:(lia)), bind_Ret.
    rewrite (argstr_ok m c l _ 1 buf str fuel Hik Ha ltac:(lia) eq_refl ltac:(lia) Hs Hf), bind_Ret.
    rewrite (argint_ok m c l _ 2 n Hik Ha ltac:(lia) eq_refl ltac:(lia)), bind_Ret.
    rewrite !s32_small by lia. rewrite decide_True by done. unfold ret, stdin_read. rewrite E. done.
  - eapply bytes_at_same; [exact He|exact Hv|exact Hb].
  - exact Hq'.
  - intros va Hva Hp Hout. change (dir (tf_set m1 c TF_EAX n) c) with (dir m c).
    rewrite Hv; [|exact Hva|unfold present; by rewrite (sd_entry _ _ _ _ _ _ Hst)].
    exact (stored_user _ _ _ (ik_wf _ _ _ Hik) _ _ _ _ Hst Hat Hva Hp Hout).
Qed.


(** The system call [read] on standard input loses characters: when fewer
    than [n] are waiting it returns -1 and those that were waiting are gone
    from the queue. *)
Lemma sys_read_loses (m : machine D) c l buf n str q
  (Hik : in_kernel m c l) (Heax : tf_get m c TF_EAX = SYS_read) (Ha : uargs m c [0; buf; n]) (Hn : 0 <= n < 2147483648)
  (Hs : string_at (m_mm m) (dir m c) buf str) (Hf : (length str < fuel)%nat) (Hat : priv_at (m_mm m) (dir m c) buf n)
  (Hq : ring_holds (m_cons m) q) (Hlen : Z.of_nat (length q) < n) (Hr : Forall (fun r => r <> -1) q) :
  exists m', call m = Ret (m', Returns (-1)) /\ in_kernel m' c l /\ ring_holds (m_cons m') [].
Proof.
  pose proof Hat as (Hb0 & Hb1 & _).
  destruct (stdin_loop_short rpos_chan c l (Z.to_nat n) m q buf 0 Hik Hq ltac:(lia) Hr)
    as (con & s & E & Hq' & Hik1); [by rewrite Z2Nat.id by lia|].
  destruct (tf_set_ok _ c l TF_EAX (-1) Hik1) as (Hik2 & _); [done|done|].
  eexists. split; [|split; [exact Hik2|exact Hq']].
  eapply (syscall_returns m _ c 3); [apply Hik|exact Heax|reflexivity|].
  unfold sys_read. rewrite (argint_ok m c l _ 0 0 Hik Ha ltac:(lia) eq_refl ltac:(lia)), bind_Ret.
  rewrite (argstr_ok m c l _ 1 buf str fuel Hik Ha ltac:(lia) eq_refl ltac:(lia) Hs Hf), bind_Ret.
  rewrite (argint_ok m c l _ 2 n Hik Ha ltac:(lia) eq_refl ltac:(lia)), bind_Ret.
  rewrite !s32_small by lia. rewrite decide_True by done. unfold ret, stdin_read. rewrite E. done.
Qed.

(** What [write] on the console sends: the string up to its NUL, or, for the
    length 1, the one byte at [p], be it the NUL. *)
Definition written (len : Z) (str : list Z) : list Z := if decide (len = 1) then [hd 0 str] else str.

Lemma write_sends (m : machine D) c l fd p len str
  (Hik : in_kernel m c l) (Heax : tf_get m c TF_EAX = SYS_write) (Ha : uargs m c [fd; p; len])
  (Hfd : fd = 1 \/ fd = 2) (Hlen : 0 <= len < 2147483648)
  (Hp : 0 <= p < 4294967296) (Hs : string_at (m_mm m) (dir m c) p str) (Hf : (length str < fuel)%nat) :
  exists m', call m = Ret (m', Returns 0) /\ emit put_c (m_cons m) (written len str) = Ret (m_cons m') /\
    in_kernel m' c l /\ tf_get m' c TF_EAX = 0 /\ (forall U a n, keeps m m' c U a n) /\
    m_sfs m' = m_sfs m /\ m_ofile m' = m_ofile m.
Proof.
  destruct (emit_total (m_cons m) (written len str)) as (con & E).
  destruct (tf_set_keeps (set_cons m con) c l TF_EAX 0 (in_kernel_cons _ _ _ con Hik)) as (H2 & H3 & H1); [done|done|by left|].
  exists (tf_set (set_cons m con) c TF_EAX 0).
  split; [|split; [exact E|split; [exact H2|split; [exact H3|split; [|done]]]]].
  - eapply (syscall_returns m (set_cons m con) c 4); [apply Hik|exact Heax|reflexivity|].
    unfold sys_write. rewrite (argint_ok m c l _ 0 fd Hik Ha ltac:(lia) eq_refl ltac:(lia)), bind_Ret.
    rewrite (argstr_ok m c l _ 1 p str fuel Hik Ha ltac:(lia) eq_refl ltac:(lia) Hs Hf), bind_Ret.
    rewrite (argint_ok m c l _ 2 len Hik Ha ltac:(lia) eq_refl ltac:(lia)), bind_Ret. rewrite !s32_small by lia.
    rewrite decide_True by assumption. unfold written in E. case_decide.
    + destruct Hs as [_ Hb]. assert (Hb' : present (m_mm m) (dir m c) p /\ vbyte (m_mm m) (dir m c) p = hd 0 str).
      { destruct str; cbn [app hd] in *; apply bytes_at_cons in Hb as (_ & H4 & H5 & _); done. }
      destruct Hb' as [Hpr Hv]. rewrite vload8_ok, bind_Ret, Hv by exact Hpr. cbn [emit] in E.
      destruct (put_c (m_cons m) (hd 0 str)) as [con1|]; [|discriminate E]. injection E as ->. done.
    + by rewrite (print_user_ok str fuel m c p con) by assumption.
  - intros U a n. destruct (H1 U a n). by constructor.
Qed.

(** C37. The system call [write] on standard output or error, whatever the length
    passed.  For a length other than 1 the console gets the whole string of the
    task up to its NUL, and not [len] bytes of it; for the length 1 it gets the
    one byte [p] points to.  If that is printable text of at most 1840
    characters it then stands on the screen in front of the cursor.  The call
    returns 0 and the task's memory does not change. *)
Theorem sys_write_shows (m : machine D) c l fd p len str
  (Hik : in_kernel m c l) (Heax : tf_get m c TF_EAX = SYS_write) (Ha : uargs m c [fd; p; len])
  (Hfd : fd = 1 \/ fd = 2) (Hlen : 0 <= len < 2147483648)
  (Hp : 0 <= p < 4294967296) (Hs : string_at (m_mm m) (dir m c) p str) (Hf : (length str < fuel)%nat)
  (Hscr : screen_ok (m_cons m)) (Hpos : CONS_COLS <= cons_pos (m_cons m)) (Hcol : 0 <= dcolor (m_cons m) < 256) :
  let text := if decide (len = 1) then [hd 0 str] else str in
  exists m', call m = Ret (m', Returns 0) /\ emit put_c (m_cons m) text = Ret (m_cons m') /\
    (Forall printable text -> Z.of_nat (length text) <= 1840 -> shows_text (m_cons m') text) /\
    in_kernel m' c l /\ tf_get m' c TF_EAX = 0 /\ same_user m m' c 0 0.
Proof.
  intros text.
  destruct (write_sends m c l fd p len str) as (m' & E & Ec & Hik' & He & Hk & _); try assumption.
  exists m'. split; [exact E|]. split; [exact Ec|]. split.
  - intros Hpr Hfit. by apply (emit_shows text (m_cons m)).
  - split; [exact Hik'|]. split; [exact He|]. exact (keeps_user m m' c 0 0 (Hk _ _ _)).
Qed.

(** Calls the kernel rejects: number 0 is reported on the console and
    returns -1; [exec] with a vector of 16 or more arguments returns -1 and
    leaves memory and files alone.  Any other number outside the table is not rejected: it
    reads a function pointer behind the table. *)
Lemma syscall_rejects (m : machine D) c l (Hik : in_kernel m c l) :
  let num := s32 (tf_get m c TF_EAX) in
  let failed := Ret (tf_set m c TF_EAX (-1), Returns (-1)) in
  (num = 0 -> exists con, emit put_c (m_cons m) (unknown_text 0) = Ret con /\
     call m = Ret (tf_set (set_cons m con) c TF_EAX (-1), Returns (-1))) /\
  (num < 0 \/ 11 < num -> call m = Stop (Fault "syscalls[num]")) /\
  (forall path uargv name ps, num = SYS_exec -> uargs m c [path; uargv] ->
     0 <= path < 4294967296 -> string_at (m_mm m) (dir m c) path name -> (length name < fuel)%nat ->
     0 < uargv < 4294967296 -> bytes_at (m_mm m) (dir m c) uargv (words ps) -> (16 <= length ps)%nat ->
     Forall (fun p => 0 < p < 4294967296 /\
       exists str, string_at (m_mm m) (dir m c) p str /\ (length str < fuel)%nat) ps ->
     call m = failed).
Proof.
  intros num failed. pose proof (ik_cur _ _ _ Hik) as Hc.
  assert (Ecall : call m = if decide (0 <= num) then
      h ← deref "syscalls[num]" (table !! Z.to_nat num);
      match h with
      | Some f => r ← f m c; Ret (sys_result c r)
      | None =>
          con ← emit put_c (m_cons m) (unknown_text num);
          Ret (sys_result c (set_cons m con, Returns (-1)))
      end else Stop (Fault "syscalls[num]")) by (unfold syscall, cur; rewrite Hc; done).
  split; [|split].
  - intros H. rewrite Ecall, H. destruct (emit_screen (unknown_text 0) (m_cons m) (m_cons m)) as (con & E & _); [done|].
    exists con. split; [exact E|]. rewrite decide_True by done. change (table !! Z.to_nat 0) with (Some (@None (machine D -> nat -> outcome (machine D * sysret)))).
    cbn [deref]. rewrite bind_Ret. cbn beta iota. by rewrite E.
  - intros H. rewrite Ecall. case_decide; [|done]. rewrite lookup_ge_None_2; [done|].
    change (length table) with 12%nat. lia.
  - intros path uargv name ps H Ha Hp Hs Hf Hu Hv Hlen Hps. rewrite Ecall, H. cbn [decide]. rewrite decide_True by done.
    change (table !! Z.to_nat SYS_exec) with
      (Some (Some (sys_exec kdata fuel beyond idx junk_pgdir : machine D -> nat -> outcome (machine D * sysret)))).
    cbn [deref]. rewrite bind_Ret. cbn beta iota. unfold sys_exec.
    rewrite (argstr_ok m c l _ 0 path name fuel Hik Ha ltac:(lia) eq_refl ltac:(lia) Hs Hf), bind_Ret.
    rewrite (argint_ok m c l _ 1 uargv Hik Ha ltac:(lia) eq_refl ltac:(lia)), bind_Ret, s32_u32, u32_small by lia.
    rewrite (fetch_argv_full m c l uargv ps Hik ltac:(lia) Hv Hps _ 0) by (change (Z.to_nat MAXARGS) with 16%nat; lia). done.
Qed.

End Calls.

(** ** Files *)

Section Files.

Context {D : Type} `{dev : BlockDev D} `{uart : Uart}.
Context (task_ptr : nat -> Z) (trap_ret do_nothing kdata rpos_chan : Z).
Context (fuel : nat) (beyond : Z -> Z) (idx : list Z) (junk_tp : option nat) (junk_pgdir : Z).
Context (numblk : Z) (Hnb : 2 <= numblk <= 8388607).
Context (im : memory) (es : list ent) (d0 i0 : Z) (Him : image numblk im es d0 i0) (Hnames : names_ok es).

Abbreviation call := (syscall (uart := uart) task_ptr trap_ret do_nothing kdata rpos_chan fuel beyond idx junk_tp junk_pgdir).

Lemma files_put (m : machine D) c f : files (put_files m c f) c = set_files f (fdtable f) (ofile f).
Proof. unfold files, put_files. cbn. by rewrite upd_same. Qed.

Lemma set_files_self (f : sfs D) : set_files f (fdtable f) (ofile f) = f.
Proof. by destruct f. Qed.

(** The slot of the inode cache, of the descriptor table of the task and of the
    system that [open] will take. *)
Record open_slots (m : machine D) (c i fd k : nat) : Prop := {
  os_inode : find_index (fun ip => bool_decide (i_flags ip = 0)) (ibuf (m_sfs m)) = Some i;
  os_name : m_iname m i = 0;
  os_fd : find_index (fun o => bool_decide (o = None)) (m_ofile m c) = Some fd;
  os_desc : fd_alloc (fdtable (m_sfs m)) = Some k
}.

Lemma m_namei_ok (m : machine D) c l cs i fd k path name n st content :
  in_kernel m c l -> mounted numblk im i0 (m_sfs m) -> open_slots m c i fd k ->
  string_at (m_mm m) (dir m c) path name -> path + Z.of_nat (length name) + 1 <= KERNBASE -> (length name < fuel)%nat ->
  path_ok name -> lookup_ent name es = Some (EFile n st content) ->
  hrepr (heap_of m c) cs -> heap_room m c cs (Z.of_nat (length name) + 1) -> scratch_ok (heap_of m c) es ->
  exists m' l' f ip con t, m_namei fuel beyond idx m c path = Ret (m', Some i) /\
    same_machine (put_files (set_cons m con) c f) m' c l l' /\ in_kernel (put_files (set_cons m con) c f) c l /\
    mounted numblk im i0 f /\ ibuf f !! i = Some ip /\ i_sindex ip = e_raw (EFile n st content) /\
    fdtable f = fdtable (m_sfs m) /\ ofile f = m_ofile m c /\
    emit put_c (m_cons m) t = Ret con /\ (short_names es -> t = found_line (Some (EFile n st content))).
Proof.
  intros Hik Hm [O1 O2 O3 O4] Hs Hpath Hf Hp Hlk Hr Hroom Hsc.
  destruct (sfs_namei_ok beyond numblk Hnb im es d0 i0 Him (files m c) (heap_of m c) name idx n st content i Hp Hm Hsc Hnames Hlk O1)
    as (d & h & ip & E & Hd & [Hsame _] & Hx & Hil).
  destruct (find_text_ok beyond numblk Hnb im es d0 i0 Him (files m c) name Hp Hm Hnames) as (t & Et & Ht). rewrite Hlk in Ht.
  destruct (m_say_ok m t) as (con & Ec & Em).
  set (f := set_ibuf (set_sdev (files m c) d) (<[i := ip]> (ibuf (files m c)))) in *.
  assert (Hik1 : in_kernel (put_files (set_cons m con) c f) c l) by (destruct Hik; by constructor).
  set (m1 := put_files (set_cons m con) c f) in *.
  destruct (put_heap_same m1 c l cs h Hik1 Hr Hsame) as (Eh & [l1 Hsm1] & _). set (m2 := put_heap m1 c h) in *.
  destruct (Hsame cs l Hr (ik_wf _ _ _ Hik)) as [Hr2 _].
  assert (Hs2 : string_at (m_mm m2) (dir m2 c) path name)
    by (rewrite (sm_dir _ _ _ _ _ Hsm1); exact (string_at_kept _ _ _ _ _ _ _ (sm_kept _ _ _ _ _ Hsm1) Hpath Hs)).
  destruct (keep_name_ok fuel m2 c l1 cs i path name (sm_kernel _ _ _ _ _ Hsm1)) as (m' & l' & E2 & Hsm2 & _); try assumption.
  { by rewrite Eh. } { unfold heap_room. rewrite Eh. exact (room_for_same _ _ _ _ Hr Hsame Hroom). }
  exists m', l', f, ip, con, t.
  split; [|split; [exact (same_machine_trans _ _ _ _ _ _ _ Hsm1 Hsm2)|split; [exact Hik1|split; [|split; [|done]]]]].
  - unfold m_namei. rewrite (vstring_ok _ _ name) by assumption. rewrite bind_Ret, Et, bind_Ret. cbn beta iota.
    rewrite Em, bind_Ret. change (files (set_cons m con) c) with (files m c).
    change (heap_of (set_cons m con) c) with (heap_of m c). rewrite E, bind_Ret. cbn beta iota zeta. fold m1 m2.
    rewrite E2. done.
  - destruct Hm as (_ & Hm). split; [exact Hd|exact Hm].
  - by apply list_lookup_insert_eq.
Qed.

(** What the console shows of an [open]; [t] are the lines of the search. *)
Definition open_text (name : list Z) (flags : Z) (t : list Z) (fd : Z) : list Z :=
  sf_open_text name flags ++ sfs_open_text name flags ++ t ++ chars "fd = " ++ dec_text fd ++ [10].

(** [sfs_open] of a file that is there. *)
Lemma m_open_ok (m : machine D) c l cs i fd k path flags name n st content
  (Hik : in_kernel m c l) (Hm : mounted numblk im i0 (m_sfs m)) (Hos : open_slots m c i fd k)
  (Hs : string_at (m_mm m) (dir m c) path name) (Hpath : path + Z.of_nat (length name) + 1 <= KERNBASE)
  (Hf : (length name < fuel)%nat) (Hp : path_ok name) (Hlk : lookup_ent name es = Some (EFile n st content))
  (Hr : hrepr (heap_of m c) cs) (Hroom : heap_room m c cs (Z.of_nat (length name) + 1))
  (Hsc : scratch_ok (heap_of m c) es) :
  exists m' l' t, m_open fuel beyond idx m c path flags = Ret (m', Z.of_nat fd) /\ in_kernel m' c l' /\
    mounted numblk im i0 (m_sfs m') /\ open_at numblk im (files m' c) (Z.of_nat fd) content 0 /\
    keeps m m' c user_half 0 0 /\
    emit put_c (m_cons m) (sfs_open_text name flags ++ t ++ chars "fd = " ++ dec_text (Z.of_nat fd) ++ [10]) = Ret (m_cons m') /\
    (short_names es -> t = found_line (Some (EFile n st content))).
Proof.
  destruct (m_say_ok m (sfs_open_text name flags)) as (con0 & Ec0 & Em0). set (m0 := set_cons m con0) in *.
  destruct (m_namei_ok m0 c l cs i fd k path name n st content (in_kernel_cons _ _ _ con0 Hik) Hm) as
    (m1 & l1 & f & ip & con & t & E1 & Hsm & Hik0 & Hmf & Hip & Hx & Hfdt & Hof & Ec & Ht); try assumption.
  { destruct Hos. by constructor. }
  pose proof (sm_sfs _ _ _ _ _ Hsm) as Es. pose proof (sm_ofile _ _ _ _ _ Hsm) as Eo.
  cbn [put_files m_sfs m_ofile] in Es, Eo. assert (Hff : files m1 c = f).
  { unfold files. rewrite Es, Eo, upd_same. apply set_files_self. }
  destruct Hos as [_ _ O3 O4]. pose proof (lookup_ent_file es name _ Hlk) as (n' & st' & c' & He & Hin). injection He as <- <- <-.
  destruct (open_inode_ok numblk im f i ip n st content name flags fd k Hip Hx) as (f2 & E2 & Hopen & G1 & G2 & G3 & G4).
  { exact (entries_stored numblk im es d0 i0 Him es 1 n st content (im_entries _ _ _ _ _ Him) Hin). }
  { by rewrite Hof. } { by rewrite Hfdt. }
  set (m2 := put_files m1 c f2). destruct (m_say_ok m2 (sfs_open_result f (Some i) flags (Z.of_nat fd))) as (con2 & Ec2 & Em2).
  assert (Hik2 : in_kernel (set_cons m2 con2) c l1) by (destruct (sm_kernel _ _ _ _ _ Hsm); by constructor).
  pose proof (sm_kept _ _ _ _ _ Hsm) as Hk. pose proof (sm_dir _ _ _ _ _ Hsm) as Hd.
  exists (set_cons m2 con2), l1, t. split; [|split; [exact Hik2|split; [|split; [|split; [|split; [|exact Ht]]]]]].
  - unfold m_open. rewrite (vstring_ok _ _ name) by assumption. rewrite bind_Ret, Em0, bind_Ret, E1, bind_Ret. cbn beta iota.
    rewrite (vstring_ok _ _ name); [|rewrite Hd; exact (string_at_kept _ _ _ _ _ _ _ Hk Hpath Hs)|exact Hf].
    rewrite bind_Ret, Hff, E2, bind_Ret. cbn beta iota. fold m2. by rewrite Em2.
  - destruct Hmf as ((S1 & S2) & S3 & S4 & S5). cbn [m_sfs set_cons m2 put_files]. unfold mounted.
    rewrite G1, G2, G3, G4. split; [split; [exact S1|exact S2]|done].
  - change (files (set_cons m2 con2) c) with (files (put_files m1 c f2) c). rewrite files_put, set_files_self. exact Hopen.
  - apply (keeps_trans m (put_files (set_cons m0 con) c f)); [by constructor|].
    apply (keeps_trans _ m1); [exact (same_machine_keeps _ m1 c l l1 Hik0 Hsm)|]. by constructor.
  - rewrite emit_app, Ec0, bind_Ret, emit_app. change con0 with (m_cons m0) at 1. rewrite Ec, bind_Ret.
    replace con with (m_cons m2) by exact (sm_cons _ _ _ _ _ Hsm).
    change (m_cons (set_cons m2 con2)) with con2. rewrite <- Ec2. unfold sfs_open_result. by rewrite decide_True by lia.
Qed.

Lemma open_file (m : machine D) c l cs i fd k path flags name n st content
  (Hik : in_kernel m c l) (Heax : tf_get m c TF_EAX = SYS_open) (Ha : uargs m c [path; flags])
  (Hfl : 0 <= flags < 2147483648) (Hm : mounted numblk im i0 (m_sfs m)) (Hos : open_slots m c i fd k) (Hfd : (fd < 16)%nat)
  (Hs : string_at (m_mm m) (dir m c) path name) (Hpath : path + Z.of_nat (length name) + 1 <= KERNBASE)
  (Hf : (length name < fuel)%nat) (Hp : path_ok name) (Hlk : lookup_ent name es = Some (EFile n st content))
  (Hr : hrepr (heap_of m c) cs) (Hroom : heap_room m c cs (Z.of_nat (length name) + 1))
  (Hsc : scratch_ok (heap_of m c) es) :
  exists m' l' t, call m = Ret (m', Returns (Z.of_nat fd)) /\ in_kernel m' c l' /\ tf_get m' c TF_EAX = Z.of_nat fd /\
    mounted numblk im i0 (m_sfs m') /\ open_at numblk im (files m' c) (Z.of_nat fd) content 0 /\
    keeps m m' c user_half 0 0 /\ emit put_c (m_cons m) (open_text name flags t (Z.of_nat fd)) = Ret (m_cons m') /\
    (short_names es -> t = found_line (Some (EFile n st content))).
Proof.
  destruct (m_say_ok m (sf_open_text name flags)) as (con0 & Ec0 & Em0). set (m0 := set_cons m con0) in *.
  destruct (m_open_ok m0 c l cs i fd k path flags name n st content (in_kernel_cons _ _ _ con0 Hik) Hm) as
    (m2 & l1 & t & E2 & Hik2 & Hm2 & Ho2 & Hk2 & Ec2 & Ht); try assumption.
  { destruct Hos. by constructor. }
  destruct (tf_set_keeps m2 c l1 TF_EAX (Z.of_nat fd) Hik2) as (Hik3 & Hg & Hkeep); [done|done|by left|].
  exists (tf_set m2 c TF_EAX (Z.of_nat fd)), l1, t.
  split; [|split; [exact Hik3|split; [rewrite Hg; apply u32_small; lia|split; [exact Hm2|split; [exact Ho2|split; [|split; [|exact Ht]]]]]]].
  - eapply (syscall_returns _ _ _ _ _ _ _ _ _ _ m m2 c 1); [apply Hik|exact Heax|reflexivity|].
    assert (Hpr : 0 <= path < 4294967296) by (destruct Hs as [_ [(H0 & _) _]]; unfold KERNBASE in Hpath; lia).
    unfold sys_open. rewrite (argstr_ok m c l _ 0 path name fuel Hik Ha ltac:(lia) eq_refl Hpr Hs Hf), bind_Ret.
    rewrite (argint_ok m c l _ 1 flags Hik Ha ltac:(lia) eq_refl ltac:(lia)), bind_Ret, s32_small by lia.
    unfold ret, sf_open. rewrite (vstring_ok _ _ name) by assumption. rewrite bind_Ret, Em0, bind_Ret. fold m0. by rewrite E2.
  - apply (keeps_trans m m0); [by constructor|]. apply (keeps_trans m0 m2); [exact Hk2|apply Hkeep].
  - unfold open_text. rewrite emit_app, Ec0, bind_Ret. exact Ec2.
Qed.

(** C7. The system call [open] opens a file of the image: it returns the lowest
    free descriptor, which stands at the beginning of the contents of the last
    file of the image whose name begins with the path, a path of 1 to 28 bytes.
    The path is copied to the kernel heap, and no byte of the user half of the
    task's memory changes.  The heap must have room for that copy and, when the
    image holds a name of more than 28 bytes, for the block such names are put
    together in. *)
Theorem sys_open_opens (m : machine D) c l cs i fd k path flags name n st content
  (Hik : in_kernel m c l) (Heax : tf_get m c TF_EAX = SYS_open) (Ha : uargs m c [path; flags])
  (Hfl : 0 <= flags < 2147483648) (Hm : mounted numblk im i0 (m_sfs m)) (Hos : open_slots m c i fd k) (Hfd : (fd < 16)%nat)
  (Hs : string_at (m_mm m) (dir m c) path name) (Hpath : path + Z.of_nat (length name) + 1 <= KERNBASE)
  (Hf : (length name < fuel)%nat) (Hp : path_ok name) (Hlk : lookup_ent name es = Some (EFile n st content))
  (Hr : hrepr (heap_of m c) cs) (Hroom : heap_room m c cs (Z.of_nat (length name) + 1))
  (Hsc : scratch_ok (heap_of m c) es) :
  exists m' l', call m = Ret (m', Returns (Z.of_nat fd)) /\ in_kernel m' c l' /\ tf_get m' c TF_EAX = Z.of_nat fd /\
    mounted numblk im i0 (m_sfs m') /\ open_at numblk im (files m' c) (Z.of_nat fd) content 0 /\
    (forall va, 0 <= va < KERNBASE -> present (m_mm m) (dir m c) va ->
       vbyte (m_mm m') (dir m' c) va = vbyte (m_mm m) (dir m c) va).
Proof.
  destruct (open_file m c l cs i fd k path flags name n st content) as (m' & l' & t & E & Hik' & He & Hm' & Ho & Hk & _); try assumption.
  exists m', l'. split; [exact E|]. split; [exact Hik'|]. split; [exact He|]. split; [exact Hm'|]. split; [exact Ho|].
  intros va Hva Hpr. rewrite (ks_dir _ _ _ _ _ _ Hk). apply (ks_byte _ _ _ _ _ _ Hk); [exact Hva|by left|exact Hpr|lia].
Qed.

Lemma read_file (m : machine D) c l fd buf n str content pos
  (Hik : in_kernel m c l) (Heax : tf_get m c TF_EAX = SYS_read) (Ha : uargs m c [fd; buf; n])
  (Hfd : 0 < fd < NOFILE) (Hn : 0 <= n < 2147483648)
  (Hs : string_at (m_mm m) (dir m c) buf str) (Hf : (length str < fuel)%nat) (Hat : priv_at (m_mm m) (dir m c) buf n)
  (Hm : mounted numblk im i0 (m_sfs m)) (Hopen : open_at numblk im (files m c) fd content pos)
  (Hc : Z.of_nat (length content) < 2147483648) (Hb : Forall (fun b => 0 <= b < 256) content)
  (Hpos : 0 <= pos <= Z.of_nat (length content)) :
  let out := take (Z.to_nat n) (drop (Z.to_nat pos) content) in
  exists m', call m = Ret (m', Returns (Z.of_nat (length out))) /\ in_kernel m' c l /\
    tf_get m' c TF_EAX = Z.of_nat (length out) /\ bytes_at (m_mm m') (dir m' c) buf out /\
    mounted numblk im i0 (m_sfs m') /\ open_at numblk im (files m' c) fd content (pos + Z.of_nat (length out)) /\
    (forall U, keeps m m' c U buf (Z.of_nat (length out))) /\ m_cons m' = m_cons m.
Proof.
  intros out. pose proof (ik_wf _ _ _ Hik) as Hw. pose proof Hat as (Hb0 & Hb1 & _). unfold NOFILE in Hfd.
  assert (Hlen : Z.of_nat (length out) <= n) by (unfold out; rewrite length_take; lia).
  destruct (open_read_ok numblk Hnb im i0 (files m c) fd content pos n Hm ltac:(unfold NOFILE; lia) Hopen Hc Hpos Hn)
    as (f & E & Hmf & Hopen'). cbv zeta in *. fold out in E, Hopen'.
  assert (Hout : priv_at (m_mm m) (dir m c) buf (Z.of_nat (length out)))
    by (rewrite <- (Z.add_0_r buf); eapply priv_at_sub; [exact Hat|lia..]).
  destruct (vwrite_ok (dir m c) l out (m_mm m) buf Hw Hout) as (s & E2 & Hst & Hbytes).
  { apply Forall_take, Forall_drop, Hb. }
  set (m1 := put_files m c f). assert (Hik1 : in_kernel m1 c l) by (destruct Hik; by constructor).
  destruct (stored_keeps m1 c l s buf _ Hik1 Hst Hout) as [Hik2 Hkeep]. set (m2 := set_mm m1 s) in *.
  destruct (tf_set_keeps m2 c l TF_EAX (Z.of_nat (length out)) Hik2) as (Hik3 & Hg & Hkeep2); [done|done|by left|].
  exists (tf_set m2 c TF_EAX (Z.of_nat (length out))).
  split; [|split; [exact Hik3|split; [rewrite Hg; apply u32_small; lia|split; [|split; [exact Hmf|split; [|split; [|done]]]]]]].
  - eapply (syscall_returns _ _ _ _ _ _ _ _ _ _ m m2 c 3); [apply Hik|exact Heax|reflexivity|].
    unfold sys_read. rewrite (argint_ok m c l _ 0 fd Hik Ha ltac:(lia) eq_refl ltac:(lia)), bind_Ret.
    rewrite (argstr_ok m c l _ 1 buf str fuel Hik Ha ltac:(lia) eq_refl ltac:(lia) Hs Hf), bind_Ret.
    rewrite (argint_ok m c l _ 2 n Hik Ha ltac:(lia) eq_refl ltac:(lia)), bind_Ret.
    rewrite !s32_small by lia. rewrite decide_False by lia. unfold ret, sf_read. rewrite E, bind_Ret. cbn beta iota zeta.
    fold m1. change (m_mm m1) with (m_mm m). change (dir m1 c) with (dir m c). rewrite E2. done.
  - apply (keeps_bytes m2 _ c anywhere 0 0); [apply Hkeep2|done|by right|exact Hbytes].
  - change (files (tf_set m2 c TF_EAX (Z.of_nat (length out))) c) with (files (put_files m c f) c).
    rewrite files_put, set_files_self. exact Hopen'.
  - intros U. apply (keeps_trans m m1); [by constructor|]. apply (keeps_trans m1 m2); [apply (Hkeep U)|apply Hkeep2].
Qed.

(** C5. The system call [read] on an open file returns the next bytes of its
    contents: as many as asked for or as are left, in the buffer of the task
    and nowhere else, and the position of the descriptor moves behind them.
    Descriptor 0 is standard input, also when [open] has returned it. *)
Theorem sys_read_file (m : machine D) c l fd buf n str content pos
  (Hik : in_kernel m c l) (Heax : tf_get m c TF_EAX = SYS_read) (Ha : uargs m c [fd; buf; n])
  (Hfd : 0 < fd < NOFILE) (Hn : 0 <= n < 2147483648)
  (Hs : string_at (m_mm m) (dir m c) buf str) (Hf : (length str < fuel)%nat) (Hat : priv_at (m_mm m) (dir m c) buf n)
  (Hm : mounted numblk im i0 (m_sfs m)) (Hopen : open_at numblk im (files m c) fd content pos)
  (Hc : Z.of_nat (length content) < 2147483648) (Hb : Forall (fun b => 0 <= b < 256) content)
  (Hpos : 0 <= pos <= Z.of_nat (length content)) :
  let out := take (Z.to_nat n) (drop (Z.to_nat pos) content) in
  exists m', call m = Ret (m', Returns (Z.of_nat (length out))) /\ in_kernel m' c l /\
    tf_get m' c TF_EAX = Z.of_nat (length out) /\ bytes_at (m_mm m') (dir m' c) buf out /\
    mounted numblk im i0 (m_sfs m') /\ open_at numblk im (files m' c) fd content (pos + Z.of_nat (length out)) /\
    same_user m m' c buf (Z.of_nat (length out)).
Proof.
  destruct (read_file m c l fd buf n str content pos) as (m' & E & Hik' & He & Hb' & Hm' & Ho & Hk & _); try assumption.
  exists m'. split; [exact E|]. split; [exact Hik'|]. split; [exact He|]. split; [exact Hb'|]. split; [exact Hm'|].
  split; [exact Ho|]. exact (keeps_user m m' c _ _ (Hk anywhere)).
Qed.

Lemma take_pad_small k n (c : list Z) : (k <= n)%nat -> (k <= length c)%nat -> take k (pad n c) = take k c.
Proof.
  intros H1 H2. unfold pad. rewrite take_app_le by (rewrite length_take; lia). by rewrite take_take, Nat.min_l.
Qed.

(** What [exec] can load begins with an ELF header. *)
Definition loadable (c : list Z) : Prop := (52 <= length c)%nat /\ of_le (take 4 c) = Boot.ELF_MAGIC.

(** The arguments of [exec] are strings. *)
Definition strings_at (m : machine D) (c : nat) (argv : list Z) (strs : list (list Z)) : Prop :=
  Forall2 (fun a str => string_at (m_mm m) (dir m c) a str /\ (length str < fuel)%nat) argv strs.

Lemma exec_start_ok (m : machine D) c path name argv strs :
  string_at (m_mm m) (dir m c) path name -> (length name < fuel)%nat -> strings_at m c argv strs ->
  exists con, exec_start fuel m c path argv = Ret (set_cons m con).
Proof.
  intros Hs Hf Ha. unfold exec_start. rewrite (vstring_ok _ _ name) by assumption. rewrite bind_Ret.
  assert (Ht : forall i, exists t, args_text fuel (m_mm m) (dir m c) argv i = Ret t).
  { clear Hs. induction Ha as [|a str argv strs [H1 H2] Ha IH]; intros i; [by eexists|]. cbn [args_text].
    rewrite (vstring_ok _ _ str) by assumption. rewrite bind_Ret. destruct (IH (i + 1)) as [t ->]. by eexists. }
  destruct (Ht 0) as [t ->]. rewrite bind_Ret. destruct (m_say_ok m (exec_banner name t (Z.of_nat (length argv)))) as (con & _ & ->).
  by exists con.
Qed.

(** What a lookup leaves of the machine: nothing of it is changed but the state
    of the disk driver, the console and the memory the block for long names was
    borrowed in. *)
Record looked_up (m m' : machine D) (c : nat) (l l' : list Z) : Prop := {
  lu_kernel : in_kernel m' c l';
  lu_kept : kept (m_mm m) (m_mm m') (dir m c) l l';
  lu_heap : heap_same (heap_of m c) (heap_of m' c);
  lu_short : all_short es -> m_mm m' = m_mm m;
  lu_tasks : forall i, tasks (m_kern m') i = tasks (m_kern m) i;
  lu_pointers : current (m_kern m') = current (m_kern m) /\ rootp (m_kern m') = rootp (m_kern m) /\
    inittask (m_kern m') = inittask (m_kern m) /\ nextpid (m_kern m') = nextpid (m_kern m);
  lu_mounted : mounted numblk im i0 (m_sfs m');
  lu_inodes : ibuf (m_sfs m') = ibuf (m_sfs m) /\ fdtable (m_sfs m') = fdtable (m_sfs m);
  lu_ofile : forall i, m_ofile m' i = m_ofile m i;
  lu_iname : m_iname m' = m_iname m
}.

Lemma looked_up_say (m m' : machine D) c l l' con : looked_up m m' c l l' -> looked_up m (set_cons m' con) c l l'.
Proof. intros [L1 L2 L3 L4 L5 L6 L7 L8 L9 L10]. constructor; try done. by apply in_kernel_cons. Qed.

Lemma lookup_back (m : machine D) c l cs con d h :
  in_kernel m c l -> hrepr (heap_of m c) cs -> mounted numblk im i0 (m_sfs m) -> shows numblk im d ->
  scratched (heap_of m c) h es ->
  exists l', looked_up m (put_heap (put_files (set_cons m con) c (set_sdev (files m c) d)) c h) c l l'.
Proof.
  intros Hik Hr (_ & Hm) Hd [Hs Hshort]. set (m1 := put_files (set_cons m con) c (set_sdev (files m c) d)).
  assert (Hik1 : in_kernel m1 c l) by (destruct Hik; by constructor).
  destruct (put_heap_same m1 c l cs h Hik1 Hr Hs) as (Eh & [l' [S1 S2 _ _ _ _ _ _]] & Ht). exists l'.
  constructor; [exact S1|exact S2|by rewrite Eh| |exact Ht|done|by split|done| |done].
  - intros Hsh. change (vs_mm (pager h) = m_mm m). by rewrite (Hshort Hsh).
  - intros i. cbn. destruct (decide (i = c)) as [->|Hi]; [by rewrite upd_same|by rewrite upd_other].
Qed.

(** The end of a failed [exec]. *)
Definition failed (junk : Z) (m : machine D) : outcome (machine D * Z) :=
  if decide (junk = 0) then Ret (m, -1) else s ← free_vm (m_mm m) junk; Ret (set_mm m s, -1).

Lemma exec_fail_ok (m : machine D) junk why : exists con, exec_fail m junk why = failed junk (set_cons m con).
Proof. unfold exec_fail. destruct (m_say_ok m (why ++ chars "Error! exec() failed" ++ [10])) as (con & _ & ->). by exists con. Qed.

(** [exec] reads the ELF header first. *)
Lemma exec_header (m : machine D) c l cs path name argv strs junk
  (Hik : in_kernel m c l) (Hr : hrepr (heap_of m c) cs) (Hsc : scratch_ok (heap_of m c) es)
  (Hs : string_at (m_mm m) (dir m c) path name) (Hf : (length name < fuel)%nat)
  (Hargs : strings_at m c argv strs) (Hp : path_ok name) (Hm : mounted numblk im i0 (m_sfs m))
  (Hbad : forall n st content, lookup_ent name es = Some (EFile n st content) ->
     Z.of_nat (length content) < 2147483648 /\ ~ loadable content) :
  exists m1 l1, looked_up m m1 c l l1 /\
    exec (uart := uart) kdata fuel beyond idx m junk path argv = exec_fail m1 junk (chars "exec: read file fail" ++ [10]).
Proof.
  unfold exec, cur. rewrite (ik_cur _ _ _ Hik). cbn [deref]. rewrite bind_Ret.
  destruct (exec_start_ok m c path name argv strs Hs Hf Hargs) as (con0 & ->). rewrite bind_Ret. unfold m_read_file.
  rewrite (vstring_ok _ _ name) by assumption. rewrite bind_Ret.
  destruct (find_text_ok beyond numblk Hnb im es d0 i0 Him (files m c) name Hp Hm Hnames) as (t & Et & _).
  change (files (set_cons m con0) c) with (files m c). rewrite Et, bind_Ret. cbn beta iota.
  destruct (m_say_ok (set_cons m con0) t) as (con1 & _ & ->). rewrite bind_Ret.
  change (set_cons (set_cons m con0) con1) with (set_cons m con1).
  change (files (set_cons m con1) c) with (files m c). change (heap_of (set_cons m con1) c) with (heap_of m c).
  destruct (lookup_ent name es) as [e|] eqn:Hlk.
  - destruct (lookup_ent_file es name e Hlk) as (n & st & content & -> & _).
    destruct (Hbad n st content eq_refl) as [Hlen Hnot].
    destruct (sfs_read_file_ok beyond numblk Hnb im es d0 i0 Him (files m c) (heap_of m c) name idx ELF_SIZE n st content Hp Hm Hsc
      Hnames ltac:(unfold ELF_SIZE; lia) Hlk Hlen) as (d & h & E & Hd & Hh). rewrite E, !bind_Ret. cbn beta iota zeta. cbn [default].
    destruct (lookup_back m c l cs con1 d h Hik Hr Hm Hd Hh) as [l1 Hl1].
    destruct (m_say_ok (put_heap (put_files (set_cons m con1) c (set_sdev (files m c) d)) c h)
      (chars "exec: ret = " ++ dec_text (Z.min ELF_SIZE (Z.of_nat (length content))) ++ [10])) as (con2 & _ & Es).
    eexists _, l1. split; [apply (looked_up_say _ _ c l l1 con2 Hl1)|]. rewrite Es, bind_Ret.
    case_decide as Hshort; [done|]. rewrite decide_True; [done|]. intros Hmag. apply Hnot. unfold ELF_SIZE in *.
    split; [lia|]. rewrite <- Hmag. unfold get_le. rewrite drop_0. f_equal. symmetry. apply take_pad_small; lia.
  - destruct (sfs_read_file_none beyond numblk Hnb im es d0 i0 Him (files m c) (heap_of m c) name idx ELF_SIZE Hp Hm Hsc Hnames Hlk)
      as (d & h & E & Hd & Hh). rewrite E, !bind_Ret. cbn beta iota zeta. cbn [default].
    destruct (lookup_back m c l cs con1 d h Hik Hr Hm Hd Hh) as [l1 Hl1].
    destruct (m_say_ok (put_heap (put_files (set_cons m con1) c (set_sdev (files m c) d)) c h)
      (chars "exec: ret = " ++ dec_text (-1) ++ [10])) as (con2 & _ & Es).
    eexists _, l1. split; [apply (looked_up_say _ _ c l l1 con2 Hl1)|]. by rewrite Es, bind_Ret, decide_True.
Qed.


End Files.

(** ** Machines to try the calls on *)

(** A task whose data page at 4096 holds the bytes [bs], in a system call with
    the number [num], its stack pointer at 4096. *)
Lemma demo_machine {D : Type} `{dev : BlockDev D} (con : console) (f : sfs D) (fds : list (option nat)) (num : Z) (bs : list Z) :
  0 <= num < 4294967296 -> (length bs <= 4096)%nat -> Forall (fun b => 0 <= b < 256) bs ->
  exists (m : machine D) l, in_kernel m 0 l /\ tf_get m 0 TF_EAX = num /\ tf_get m 0 TF_ESP = 4096 /\
    bytes_at (m_mm m) (dir m 0) 4096 bs /\ priv_at (m_mm m) (dir m 0) 4096 4096 /\
    m_cons m = con /\ m_sfs m = f /\ m_ofile m 0 = fds /\ (forall i, m_iname m i = 0) /\
    hrepr (heap_of m 0) [] /\ t_heap_top (cur_task m 0) = HEAP_START /\
    (500 <= vs_avail (mkVs (m_mm m) (dir m 0)))%nat /\
    task_list (m_kern m) [0%nat] /\ timer_ticks m = 0 /\ reent m = -1.
Proof.
  intros Hnum Hlen Hbs. destruct demo_user_space as (s0 & d & l0 & Huw0 & Hd0 & _ & _ & Hh0 & Hl0 & _).
  destruct (vwrite_ok d l0 bs s0 4096 Huw0) as (s1 & _ & Hst1 & Hb1); [|exact Hbs|].
  { rewrite <- (Z.add_0_r 4096). eapply priv_at_sub; [exact Hd0|lia..]. }
  pose proof (sd_wf _ _ _ _ _ _ Hst1) as Huw1. pose proof (priv_at_stored _ _ _ _ _ _ _ _ Hst1 Hd0) as Hd1.
  destruct l0 as [|pg l]; [cbn in Hl0; lia|].
  destruct (pop_space s1 d pg l Huw1) as (_ & Hok & Hg & Hfor). set (s2 := set_free_list s1 _) in *.
  set (t := mkTask (pg + 4016) 0 1 0 0 TS_RUNNING 0 20 d pg 0 HEAP_START 0 None None).
  set (m0 := mkMachine (mkKern (fun _ => t) (Some 0%nat) (Some 0%nat) None 2 s2 0) con f (fun _ => fds) (fun _ => 0) 0 (-1)).
  destruct Hok as [Hal _].
  assert (Hik0 : in_kernel m0 0 l).
  { constructor; [done|apply Hg|]. unfold TF_SIZE. cbn [m0 cur_task m_kern tasks t t_tf].
    replace (pg + 4016 - (pg + 4016) mod 4096) with pg by modlia. split; [exact Hfor|modlia]. }
  destruct (tf_set_ok m0 0 l TF_EAX num Hik0) as (Hik1 & Hg1 & He1 & Hv1); [done|done|]. set (m1 := tf_set m0 0 TF_EAX num) in *.
  destruct (tf_set_ok m1 0 l TF_ESP 4096 Hik1) as (Hik2 & Hg2 & He2 & Hv2); [done|done|]. set (m2 := tf_set m1 0 TF_ESP 4096) in *.
  assert (Hpt : forall va, pt_entry (m_mm m2) d va = pt_entry s0 d va).
  { intros va. etransitivity; [apply He2|]. etransitivity; [apply He1|]. apply (sd_entry _ _ _ _ _ _ Hst1). }
  assert (Hpr : forall va n, priv_at s0 d va n -> priv_at (m_mm m2) d va n).
  { intros va n (H0 & H1 & H2). split; [exact H0|]. split; [exact H1|]. intros x Hx. unfold present. rewrite Hpt. by apply H2. }
  exists m2, l. split; [exact Hik2|]. split; [|split; [exact Hg2|]].
  { rewrite <- (u32_small num Hnum), <- Hg1. unfold tf_get, m2, tf_set. cbn. apply load32_store32_other.
    unfold TF_EAX, TF_ESP. lia. }
  split; [|split; [exact (Hpr _ _ Hd0)|split; [done|split; [done|split; [done|split; [done|]]]]]].
  - eapply bytes_at_same; [exact He2|exact Hv2|]. eapply bytes_at_same; [exact He1|exact Hv1|]. exact Hb1.
  - split; [|split; [done|split]].
    + apply (empty_heap_repr (m_mm m2) d l (ik_wf _ _ _ Hik2)). intros x Hx. unfold present. rewrite Hpt. by apply Hh0.
    + unfold vs_avail. cbn [vs_mm vs_dir]. change (dir m2 0) with d. pose proof (heap_missing_le (m_mm m2) d).
      rewrite (free_count_ok (m_mm m2) l) by exact (vw_free _ _ _ (uw_vm _ _ _ (ik_wf _ _ _ Hik2))). cbn [length] in Hl0. lia.
    + split; [|by split]. constructor; [done|apply NoDup_singleton|]. apply Forall_singleton. unfold NPROC. lia.
Qed.

(** Arguments in front of the data of the page. *)
Lemma demo_args {D : Type} (m : machine D) ws tail :
  tf_get m 0 TF_ESP = 4096 -> bytes_at (m_mm m) (dir m 0) 4096 ([0; 0; 0; 0] ++ words ws ++ tail) ->
  uargs m 0 ws /\ bytes_at (m_mm m) (dir m 0) (4100 + 4 * Z.of_nat (length ws)) tail.
Proof.
  intros He Hb. apply bytes_at_app in Hb as [_ Hb]. apply bytes_at_app in Hb as [H1 H2]. rewrite words_length in H2.
  unfold uargs. rewrite He. split; [exact H1|]. replace (4100 + 4 * Z.of_nat (length ws)) with
    (4096 + Z.of_nat (length [0; 0; 0; 0]) + Z.of_nat (4 * length ws)) by (cbn [length]; lia). exact H2.
Qed.

(** A console on which some keys were pressed. *)
Definition typed_console (q : list Z) : console :=
  mkConsole (fun _ => 0) 80 10 10 (fun i => nth (Z.to_nat i) q 0) 0 (Z.of_nat (length q)) 0 true [].

Lemma typed_console_ring q : Z.of_nat (length q) < CONS_SIZE -> ring_holds (typed_console q) q.
Proof.
  intros Hq. constructor; cbn [typed_console cb_rpos cb_wpos cb_buf].
  - unfold CONS_SIZE, CONS_ROWS, CONS_COLS. lia.
  - by rewrite Z.add_0_l, Z.mod_small by lia.
  - exact Hq.
  - intros j c Hj. pose proof (lookup_lt_Some _ _ _ Hj). rewrite Z.add_0_l, Z.mod_small by lia. rewrite Nat2Z.id.
    apply nth_lookup_Some with (d := 0) in Hj. exact Hj.
Qed.

Definition demo_disk : sfs bio := fresh_sfs (disk_of (fun _ => 0) 8).


Lemma sys_write_shows_witness :
  (exists (m m' : machine bio), syscall (dev := bio_blockdev (ide := idle_ide)) (uart := ready_uart)
      (fun _ => 0) 0 0 0 0 10 (fun _ => 0) [] None 0 m = Ret (m', Returns 0) /\ shows_text (m_cons m') [104; 105]) /\
  (exists (m m' : machine bio), syscall (dev := bio_blockdev (ide := idle_ide)) (uart := ready_uart)
      (fun _ => 0) 0 0 0 0 10 (fun _ => 0) [] None 0 m = Ret (m', Returns 0) /\ shows_text (m_cons m') [104]).
Proof.
  assert (Hw : forall len shown, len = 9 /\ shown = [104; 105] \/ len = 1 /\ shown = [104] ->
    exists (m m' : machine bio), syscall (dev := bio_blockdev (ide := idle_ide)) (uart := ready_uart)
      (fun _ => 0) 0 0 0 0 10 (fun _ => 0) [] None 0 m = Ret (m', Returns 0) /\ shows_text (m_cons m') shown);
    [|split; [apply (Hw 9); left; done|apply (Hw 1); right; done]].
  intros len shown Hcase.
  destruct (demo_machine (dev := bio_blockdev (ide := idle_ide)) blank_console demo_disk [] 4
    ([0; 0; 0; 0] ++ words [1; 4112; len] ++ [104; 105; 0])) as (m & l & Hik & Heax & Hesp & Hb & _ & Hcon & _).
  { lia. } { cbn. lia. } { by destruct Hcase as [[-> _]|[-> _]]; repeat (apply Forall_cons; split; [vm_compute; by split|]). }
  destruct (demo_args m [1; 4112; len] [104; 105; 0] Hesp Hb) as [Ha Hz].
  destruct (sys_write_shows (dev := bio_blockdev (ide := idle_ide)) (uart := ready_uart) (fun _ => 0) 0 0 0 0 10 (fun _ => 0) []
    None 0 m 0 l 1 4112 len [104; 105] Hik Heax Ha) as (m' & E & _ & Ht & _).
  - by left.
  - lia.
  - lia.
  - split; [repeat constructor; lia|exact Hz].
  - cbn. lia.
  - rewrite Hcon. split; [intros x; cbn; lia|]. cbn. unfold CONS_SIZE, CONS_ROWS, CONS_COLS. lia.
  - rewrite Hcon. unfold CONS_COLS. cbn. lia.
  - rewrite Hcon. cbn. lia.
  - exists m, m'. split; [exact E|].
    destruct Hcase as [[-> ->]|[-> ->]]; [rewrite decide_False in Ht by lia|rewrite decide_True in Ht by lia];
      cbn [hd] in Ht; apply Ht; first [cbn; lia|repeat (constructor; [unfold printable; lia|]); constructor].
Defined.


(** A mounted image with the files [bc] of 700 bytes and [a] of 4. *)
Lemma demo_mount : exists im es d0 i0 st (s : sfs bio), image 8 im es d0 i0 /\ names_ok es /\
  mounted (dev := bio_blockdev (ide := idle_ide)) 8 im i0 s /\
  lookup_ent [98; 99] es = Some (EFile [98; 99] st (repeat 5 700)) /\
  ibuf s = ibuf demo_disk /\ fdtable s = fdtable demo_disk /\ ofile s = ofile demo_disk /\
  short_names es /\ exists st', lookup_ent [97] es = Some (EFile [97] st' [72; 101; 121; 33]).
Proof.
  destruct sample_image as (im & new & d & i & Him & Hnew).
  pose proof (built_names_ok sample_host _ new Hnew sample_names_ok) as Hn.
  destruct (check_sfs_ok (dev := bio_blockdev (ide := idle_ide)) 8 ltac:(lia) im _ d i Him
    (fresh_sfs (disk_of im 8)) (disk_of_shows (ide := idle_ide) im 8 ltac:(lia))) as (s & _ & Hm & H1 & H2 & H3).
  destruct (lookup_built sample_host [] [98; 99] [[100]; [97]] new (repeat 5 700) Hnew eq_refl) as (st & Hlk).
  { intros n c Hin Hh. apply elem_of_cons in Hin as [->|Hin]; [discriminate Hh|].
    apply elem_of_cons in Hin as [->|Hin]; [discriminate|by apply not_elem_of_nil in Hin]. }
  destruct (lookup_built sample_host [[98; 99]; [100]] [97] [] new [72; 101; 121; 33] Hnew eq_refl) as (st' & Hlk').
  { intros n c Hin. by apply not_elem_of_nil in Hin. }
  assert (Hsh : short_names (EDir [47] 21 :: new)).
  { apply (built_short sample_host _ _ Hnew). repeat (apply Forall_cons; split; [split; [cbn; lia|repeat constructor; lia]|]). constructor. }
  exists im, (EDir [47] 21 :: new), d, i, st, s.
  exact (conj Him (conj Hn (conj Hm (conj Hlk (conj H1 (conj H2 (conj H3 (conj Hsh (ex_intro _ st' Hlk'))))))))).
Qed.

Lemma demo_path : path_ok [98; 99].
Proof. split; [cbn; lia|]. by repeat (apply Forall_cons; split; [vm_compute; by split|]). Qed.

Lemma sys_open_opens_witness :
  exists (m m' : machine bio), syscall (dev := bio_blockdev (ide := idle_ide)) (uart := ready_uart)
      (fun _ => 0) 0 0 0 0 10 (fun _ => 0) [] None 0 m = Ret (m', Returns 0) /\ tf_get m' 0 TF_EAX = 0.
Proof.
  destruct demo_mount as (im & es & d0 & i0 & st & f & Him & Hn & Hm & Hlk & F1 & F2 & F3).
  destruct (demo_machine (dev := bio_blockdev (ide := idle_ide)) blank_console f (repeat None 16) 1
    ([0; 0; 0; 0] ++ words [4108; 0] ++ [98; 99; 0])) as (m & l & Hik & Heax & Hesp & Hb & _ & _ & Hf & Hof & Hi & Hr & Htop & Hav & _).
  { lia. } { cbn. lia. } { by repeat (apply Forall_cons; split; [vm_compute; by split|]). }
  destruct (demo_args m [4108; 0] [98; 99; 0] Hesp Hb) as [Ha Hz].
  destruct (sys_open_opens (dev := bio_blockdev (ide := idle_ide)) (uart := ready_uart) (fun _ => 0) 0 0 0 0 10 (fun _ => 0) []
    None 0 8 ltac:(lia) im es d0 i0 Him Hn m 0 l [] 0 0 0 4108 0 [98; 99] [98; 99] st (repeat 5 700) Hik Heax Ha)
    as (m' & l' & E & _ & Ht & _).
  - lia.
  - by rewrite Hf.
  - constructor; [by rewrite Hf, F1|apply Hi|by rewrite Hof|by rewrite Hf, F2].
  - lia.
  - split; [repeat constructor; lia|exact Hz].
  - cbn. unfold KERNBASE. lia.
  - cbn. lia.
  - exact demo_path.
  - exact Hlk.
  - exact Hr.
  - unfold heap_room, room_for. cbn [heap_of heap_top pager]. rewrite Htop. cbn [tot length]. unfold page_up, HEAP_START, HEAP_END, HHEAD.
    split; [lia|]. change ((3489660928 + 0 + (Z.of_nat 2 + 1) + 12 + 4095) / 4096 * 4096 - 3489660928) with 4096. lia.
  - right. exists []. split; [exact Hr|]. unfold room_for. cbn [heap_of heap_top pager]. rewrite Htop.
    unfold NAME_BLOCK, IE_SIZE, HEAP_END, HHEAD. cbn [tot].
    split; [unfold HEAP_START; lia|]. change (page_up (HEAP_START + 0 + 17 * 64 + 12) - HEAP_START) with 4096. lia.
  - exists m, m'. by split.
Defined.

Lemma sys_read_file_witness :
  exists (m m' : machine bio), syscall (dev := bio_blockdev (ide := idle_ide)) (uart := ready_uart)
      (fun _ => 0) 0 0 0 0 10 (fun _ => 0) [] None 0 m = Ret (m', Returns 20) /\
    bytes_at (m_mm m') (dir m' 0) 4112 (repeat 5 20).
Proof.
  destruct demo_mount as (im & es & d0 & i0 & st & f & Him & Hn & Hm & Hlk & F1 & F2 & F3).
  destruct (sfs_namei_ok (dev := bio_blockdev (ide := idle_ide)) (nh := no_task) (fun _ => 0) 8 ltac:(lia) im es d0 i0 Him f tt [98; 99] [] _ _ _ 0
    demo_path Hm ltac:(left; apply short_names_all, F3) Hn Hlk ltac:(by rewrite F1)) as (d & _ & ip & _ & Hd & _ & Hx & Hi).
  pose proof (lookup_ent_file es [98; 99] _ Hlk) as (n' & st' & c' & He & Hin). injection He as <- <- <-.
  set (f1 := set_files (set_ibuf (set_sdev f d) (<[0%nat := ip]> (ibuf f))) (fdtable f) (Some 5%nat :: repeat None 15)).
  destruct (open_inode_ok 8 im f1 0 ip [98; 99] st (repeat 5 700) [98; 99] 0 1 0) as (f2 & _ & Hop & G1 & G2 & G3 & G4).
  { by apply list_lookup_insert_eq. } { exact Hx. }
  { exact (entries_stored 8 im es d0 i0 Him es 1 _ _ _ (im_entries _ _ _ _ _ Him) Hin). }
  { done. } { cbn [f1 fdtable set_files]. by rewrite F2. }
  assert (Hm2 : mounted (dev := bio_blockdev (ide := idle_ide)) 8 im i0 f2).
  { destruct Hm as (_ & Hm). unfold mounted. rewrite G1, G2, G3, G4. split; [exact Hd|exact Hm]. }
  destruct (demo_machine (dev := bio_blockdev (ide := idle_ide)) blank_console f2 (ofile f2) 3
    ([0; 0; 0; 0] ++ words [1; 4112; 20] ++ [0])) as (m & l & Hik & Heax & Hesp & Hb & Hat & _ & Hf & Hof & _).
  { lia. } { cbn. lia. } { by repeat (apply Forall_cons; split; [vm_compute; by split|]). }
  destruct (demo_args m [1; 4112; 20] [0] Hesp Hb) as [Ha Hz].
  destruct (sys_read_file (dev := bio_blockdev (ide := idle_ide)) (uart := ready_uart) (fun _ => 0) 0 0 0 0 10 (fun _ => 0) []
    None 0 8 ltac:(lia) im i0 m 0 l 1 4112 20 [] (repeat 5 700) 0 Hik Heax Ha) as (m' & E & _ & _ & Hby & _).
  - unfold NOFILE. lia.
  - lia.
  - split; [constructor|exact Hz].
  - cbn. lia.
  - replace 4112 with (4096 + 16) by lia. eapply priv_at_sub; [exact Hat|lia..].
  - by rewrite Hf.
  - unfold files. rewrite Hf, Hof, set_files_self. exact Hop.
  - rewrite repeat_length. lia.
  - apply Forall_forall. intros x Hx'. apply list_elem_of_In, repeat_spec in Hx'. lia.
  - rewrite repeat_length. lia.
  - exists m, m'. split; [exact E|exact Hby].
Defined.

