(* ===== verification/Trap.v ===== *)
(** * Traps and interrupts

    [trap] of kern/trap.c, through which the interrupt stubs enter the kernel,
    with the handlers it calls: the timer (kern/time.c), the keyboard and the
    serial line (drv/keyboard.c, drv/serial.c over drv/console.c), the disk
    (drv/hd.c) and the system calls.  The drivers record whom they wake; here
    the records become calls of [wakeup] on the task table.  What the hardware
    has to offer when the handler runs is an argument. *)

From stdpp Require Import base list strings.
From Stdlib Require Import ZArith Lia.
From S2P Require Import Prelude Mmu CString Kalloc PageTable VmSpec Ring Task Heap Vmem UserMem VmHeap.
From S2P Require Import Boot Loader Console Printf Keyboard Bio Hd Buffer BlockDev Le Sfs MkSfs SfsImage SfsSpec Machine Exec Syscall.

Open Scope Z_scope.

(** inc/trap.h *)
Definition T_PGFLT : Z := 14.

Definition T_IRQ0 : Z := 32.

Definition T_SYSCALL : Z := 48.

Definition IRQ_TIMER : Z := 0.

Definition IRQ_KBD : Z := 1.

Definition IRQ_COM1 : Z := 4.

Definition IRQ_SPURIOUS : Z := 7.

Definition IRQ_IDE : Z := 14.

(** [trapno] in [struct stack_frame]. *)
Definition TF_TRAPNO : Z := 52.

(** The entries of [exceptions]. *)
Definition NEXCEPTIONS : Z := 17.

Definition set_timer_flag (s : console) (v : Z) : console :=
  mkConsole (vram s) (cons_pos s) (default_color s) (dcolor s) (cb_buf s) (cb_rpos s) (cb_wpos s)
            v (has_serial s) (log s).

(** The text of [printk("time: %d sec\n", t)]. *)
Definition time_text (t : Z) : list Z := chars "time: " ++ frag_text (FDec (s32 t)) ++ chars " sec" ++ [10].

Section Timer.

Context {D : Type} `{uart : Uart}.

(** [mask] is what port 0x21 holds. *)
Definition install_timer (s : console) (freq mask : Z) : outcome console :=
  let div := u32 (1193180 / freq) in
  s1 ← emit put_c s (chars "install timer now..." ++ [10]);
  Ret (add_log s1 [Outb 67 54; Outb 64 (Z.land div 255); Outb 64 (u8 (Z.shiftr div 8)); Outb 33 (Z.land mask 254)]).

(** The uptime in the top row. *)
Definition show_time (s : console) (ticks : Z) : outcome console :=
  let '(x, y) := get_cursor s in
  s1 ← emit put_c (set_timer_flag (set_cursor s 64 0) 1) (time_text (ticks / 100));
  Ret (set_cursor (set_timer_flag s1 0) x y).

Definition set_clock (m : machine D) (ticks r : Z) : machine D :=
  mkMachine (m_kern m) (m_cons m) (m_sfs m) (m_ofile m) (m_iname m) ticks r.

(** Until the scheduler switches; [None] when the interrupt came
    inside another one. *)
Definition timer_isr (m : machine D) : outcome (machine D * option (option sched_cont)) :=
  let r := s32 (reent m + 1) in
  if decide (r <> 0) then Ret (set_clock m (timer_ticks m) (s32 (r - 1)), None)
  else
    let con := add_log (m_cons m) [Outb 32 32] in
    let ticks := u32 (timer_ticks m + 1) in
    con1 ← (if decide (timer_ticks m mod 100 = 0) then show_time con ticks else Ret con);
    let m1 := set_clock (set_cons m con1) ticks (r - 1) in
    '(k, sc) ← sched_yield (m_kern m1);
    Ret (set_kern m1 k, Some sc).

End Timer.

(** [n] calls of [wakeup(chan)]. *)
Fixpoint wake_times (n : nat) (k : kern) (chan : Z) : outcome kern :=
  match n with
  | O => Ret k
  | S n' => k1 ← wakeup k chan; wake_times n' k1 chan
  end.

Definition is_wake (e : event) : bool := match e with WakeReaders => true | _ => false end.

(** The calls of [wakeup] between two states of the console. *)
Definition new_wakes (s s' : console) : nat :=
  length (List.filter is_wake (drop (length (log s)) (log s'))).

(** The machine and [read_kbd]'s static flag. *)
Record board : Type := mkBoard {
  b_m : machine bio;
  b_kbd : Z
}.

(** What waits in the devices: scan codes, the value of port 0x61, characters
    of the serial line. *)
Record devices : Type := mkDevices {
  dv_scans : list Z;
  dv_port61 : Z;
  dv_serial : list Z
}.

Inductive trap_end : Type :=
  | TReturn
  | TSched (k : option sched_cont)
  | TCall (r : sysret).

Section Trap.

Context `{ide : IdeDevice} `{uart : Uart}.
Variable task_ptr : nat -> Z.
Variables trap_ret do_nothing kdata rpos_chan : Z.
Variable bwait_chan : nat -> Z.
Variable fuel : nat.
Variable beyond : Z -> Z.
Variable idx : list Z.
Variable junk_tp : option nat.
Variable junk_pgdir : Z.

(** The console handlers with the readers they wake. *)
Definition console_trap (m : machine bio) (con : console) : outcome (machine bio) :=
  k ← wake_times (new_wakes (m_cons m) con) (m_kern m) rpos_chan;
  Ret (set_kern (set_cons m con) k).

Definition kbd_trap (b : board) (dv : devices) : outcome board :=
  '(con, flag, _) ← keyboard_isr (m_cons (b_m b)) (b_kbd b) (dv_scans dv) (dv_port61 dv);
  m ← console_trap (b_m b) con;
  Ret (mkBoard m flag).

(** [serial_isr]: [read_serial] yields nothing without a port. *)
Definition serial_trap (b : board) (dv : devices) : outcome board :=
  con ← console_isr (m_cons (b_m b)) (if has_serial (m_cons (b_m b)) then dv_serial dv else []);
  m ← console_trap (b_m b) con;
  Ret (mkBoard (set_cons m (add_log (m_cons m) [Outb 32 32])) (b_kbd b)).

Fixpoint wake_bufs (l : list nat) (k : kern) : outcome kern :=
  match l with
  | [] => Ret k
  | i :: l' => k1 ← wakeup k (bwait_chan i); wake_bufs l' k1
  end.

Definition hd_trap (b : board) : outcome board :=
  con ← emit put_c (m_cons (b_m b)) (chars "IDE read/write interrupt" ++ [10]);
  let m := set_cons (b_m b) con in
  d ← hd_isr (sdev (m_sfs m));
  k ← wake_bufs (drop (length (woken (sdev (m_sfs m)))) (woken d)) (m_kern m);
  let m1 := mkMachine k (m_cons m) (set_sdev (m_sfs m) d) (m_ofile m) (m_iname m) (timer_ticks m) (reent m) in
  Ret (mkBoard m1 (b_kbd b)).

Definition spurious_trap (b : board) : outcome board :=
  con ← emit put_c (m_cons (b_m b)) (chars "Spurious interrupt (irq 7) is ignored" ++ [10]);
  Ret (mkBoard (set_cons (b_m b) con) (b_kbd b)).

(** [dump_tf] names the exception and panics; what [page_fault] and [dump_tf]
    print before is lost with the state. *)
Definition dump_tf (trapno : Z) : outcome (board * trap_end) :=
  if decide (trapno < NEXCEPTIONS) then Stop (Panic "dump_tf") else Stop (Fault "exceptions[tf->trapno]").

(** [if_set] is the interrupt flag of the processor. *)
Definition trap (b : board) (tf : Z) (if_set : bool) (dv : devices) : outcome (board * trap_end) :=
  if if_set then Stop (Panic "FL_IF should not be set!")
  else
    let trapno := load32 (ram (m_mm (b_m b))) (tf + TF_TRAPNO) in
    if decide (trapno = T_IRQ0 + IRQ_TIMER) then
      '(m, sc) ← timer_isr (b_m b);
      Ret (mkBoard m (b_kbd b), match sc with Some k => TSched k | None => TReturn end)
    else if decide (trapno = T_IRQ0 + IRQ_KBD) then b1 ← kbd_trap b dv; Ret (b1, TReturn)
    else if decide (trapno = T_IRQ0 + IRQ_COM1) then b1 ← serial_trap b dv; Ret (b1, TReturn)
    else if decide (trapno = T_IRQ0 + IRQ_IDE) then b1 ← hd_trap b; Ret (b1, TReturn)
    else if decide (trapno = T_IRQ0 + IRQ_SPURIOUS) then b1 ← spurious_trap b; Ret (b1, TReturn)
    else if decide (trapno = T_PGFLT) then dump_tf trapno
    else if decide (trapno = T_SYSCALL) then
      '(m, r) ← syscall task_ptr trap_ret do_nothing kdata rpos_chan fuel beyond idx junk_tp junk_pgdir (b_m b);
      Ret (mkBoard m (b_kbd b), TCall r)
    else dump_tf trapno.

End Trap.

(** ** Lemmas: the status line *)

Lemma put_c_quiet `{Uart} s c : timer_flag s <> 0 ->
  put_c s c = Ret (putc_to_console s c) /\ timer_flag (putc_to_console s c) = timer_flag s.
Proof.
  intros Hs. assert (Ht : timer_flag (putc_to_console s c) = timer_flag s).
  { unfold putc_to_console, putc_scroll, putc_write. cbn zeta. repeat case_decide; done. }
  split; [|exact Ht]. unfold put_c. cbn zeta. by rewrite decide_False by congruence.
Qed.

Lemma emit_quiet `{Uart} cs : forall s, timer_flag s <> 0 ->
  emit put_c s cs = Ret (put_text s cs) /\ timer_flag (put_text s cs) = timer_flag s.
Proof.
  induction cs as [|c cs IH]; intros s Hs; cbn [emit put_text]; [done|].
  destruct (put_c_quiet s c Hs) as [-> Ht]. cbn [mbind outcome_bind].
  destruct (IH (putc_to_console s c) ltac:(congruence)) as [-> ->]. by rewrite Ht.
Qed.

Lemma put_text_ring cs : forall s, same_ring s (put_text s cs).
Proof.
  induction cs as [|c cs IH]; intros s; cbn [put_text]; [done|].
  destruct (putc_ring s c) as (H1 & H2 & H3), (IH (putc_to_console s c)) as (H4 & H5 & H6). split; [congruence|]. split; congruence.
Qed.

Lemma put_one s c :
  printable c -> 0 <= cons_pos s < 1999 ->
  let s' := putc_to_console s c in
  cons_pos s' = cons_pos s + 1 /\ dcolor s' = dcolor s /\
  forall i, cell s' i = if decide (i = cons_pos s) then u16 (Z.lor (attribute s) c) else cell s i.
Proof.
  intros Hc Hp s'. unfold printable in Hc.
  assert (E : s8 c = c) by (unfold s8; rewrite Z.mod_small by lia; lia).
  assert (W : putc_write s (s8 c) = Console.set_pos (set_vram s (set_cell (vram s) (cons_pos s) (Z.lor (attribute s) c))) (cons_pos s + 1)).
  { rewrite E. unfold putc_write. cbn zeta. repeat case_decide; try lia. unfold u16. by rewrite Z.mod_small by lia. }
  unfold s', putc_to_console. rewrite W. unfold putc_scroll. cbn [Console.set_pos cons_pos].
  unfold CONS_SIZE, CONS_ROWS, CONS_COLS. case_decide; [lia|]. split; [done|]. split; [done|].
  intros i. unfold cell. cbn [put_cursor add_log Console.set_pos set_vram vram]. case_decide as Ei.
  - subst i. apply get_set_same.
  - by rewrite get_set_other by done.
Qed.

Lemma put_text_row cs : forall s,
  Forall printable cs -> 0 <= cons_pos s -> cons_pos s + Z.of_nat (length cs) < 2000 ->
  let s' := put_text s cs in
  cons_pos s' = cons_pos s + Z.of_nat (length cs) /\ dcolor s' = dcolor s /\
  (forall j c, cs !! j = Some c -> cell s' (cons_pos s + Z.of_nat j) = u16 (Z.lor (attribute s) c)) /\
  (forall i, ~ (cons_pos s <= i < cons_pos s + Z.of_nat (length cs)) -> cell s' i = cell s i).
Proof.
  induction cs as [|c cs IH]; intros s Hcs Hp Hn; cbn [put_text length] in *.
  - split; [lia|]. split; [done|]. split; [|done]. intros j c Hj. discriminate Hj.
  - apply Forall_cons in Hcs as [Hc Hcs]. destruct (put_one s c Hc ltac:(lia)) as (P1 & P2 & P3).
    destruct (IH (putc_to_console s c) Hcs ltac:(lia) ltac:(lia)) as (Q1 & Q2 & Q3 & Q4).
    rewrite P1 in *. split; [lia|]. split; [congruence|]. split.
    + intros [|j] x Hj; cbn in Hj.
      * injection Hj as <-. rewrite Q4 by lia. rewrite P3. by rewrite decide_True by lia.
      * replace (cons_pos s + Z.of_nat (S j)) with (cons_pos s + 1 + Z.of_nat j) by lia.
        rewrite (Q3 j x Hj). unfold attribute. by rewrite P2.
    + intros i Hi. rewrite Q4 by lia. rewrite P3. by rewrite decide_False by lia.
Qed.

Lemma put_newline s : 0 <= cons_pos s < 1920 -> forall i, cell (putc_to_console s 10) i = cell s i.
Proof.
  intros Hp i.
  assert (W : putc_write s (s8 10) =
    Console.set_pos s (u16 (u16 (cons_pos s + CONS_COLS) - u16 (cons_pos s + CONS_COLS) mod CONS_COLS))).
  { change (s8 10) with 10. unfold putc_write. cbn zeta. repeat case_decide; try lia. done. }
  unfold putc_to_console. rewrite W. unfold putc_scroll. cbn [Console.set_pos cons_pos].
  unfold CONS_SIZE, CONS_ROWS, CONS_COLS, u16. case_decide as E; [|done]. exfalso. revert E. modlia.
Qed.

(** The numeral of a number below [base ^ k] has at most [k] digits. *)
Lemma numeral_short f : forall k base v, 2 <= base -> 0 <= v < base ^ Z.of_nat (S k) ->
  (length (numeral f base v) <= S k)%nat.
Proof.
  induction f as [|f IH]; intros k base v Hb Hv; cbn [numeral length]; [lia|]. rewrite length_app. cbn [length].
  case_decide as E; [cbn [length]; lia|]. destruct k as [|k].
  - exfalso. apply E. rewrite Z.pow_1_r in Hv. apply Z.div_small. lia.
  - pose proof (IH k base (v / base) Hb (pow_step base v (S k) Hb Hv)). lia.
Qed.

Lemma time_text_row t : 0 <= t < 1000000 ->
  exists cs, time_text t = cs ++ [10] /\ Forall printable cs /\ (length cs <= 16)%nat.
Proof.
  intros Ht. assert (Es : s32 t = t) by (unfold s32; rewrite Z.mod_small; lia).
  exists (chars "time: " ++ numeral 32 10 t ++ chars " sec").
  unfold time_text. rewrite Es. cbn [frag_text]. rewrite decide_False, Z.abs_eq by lia. cbn [app].
  split; [by rewrite <- !app_assoc|]. split.
  - rewrite !Forall_app. split; [by apply printable_chars|]. split; [apply numeral_printable; lia|by apply printable_chars].
  - rewrite !length_app. pose proof (numeral_short 32 5 10 t ltac:(lia) ltac:(cbn; lia)). cbn [chars length]. lia.
Qed.

(** Nothing went to the serial line. *)
Definition quiet (s s' : console) : Prop := exists es, log s' = log s ++ es /\ forall v, Outb COM1 v ∉ es.

Lemma quiet_trans s1 s2 s3 : quiet s1 s2 -> quiet s2 s3 -> quiet s1 s3.
Proof.
  intros (e1 & H1 & Q1) (e2 & H2 & Q2). exists (e1 ++ e2). rewrite H2, H1, app_assoc. split; [done|].
  intros v Hv. apply elem_of_app in Hv as [Hv|Hv]; [by apply (Q1 v)|by apply (Q2 v)].
Qed.

Lemma quiet_cursor s p : quiet s (put_cursor s p).
Proof.
  eexists. split; [reflexivity|]. intros v Hv. unfold CGA_BASE, COM1 in Hv.
  repeat (apply elem_of_cons in Hv as [Hv|Hv]; [discriminate Hv|]). by apply not_elem_of_nil in Hv.
Qed.

Lemma putc_log s c : log (putc_scroll (putc_write s (s8 c))) = log s.
Proof. unfold putc_scroll, putc_write. cbn zeta. repeat case_decide; done. Qed.

Lemma put_text_quiet cs : forall s, quiet s (put_text s cs).
Proof.
  induction cs as [|c cs IH]; intros s; cbn [put_text].
  - exists []. split; [by rewrite app_nil_r|]. intros v. apply not_elem_of_nil.
  - apply (quiet_trans _ (putc_to_console s c)); [|apply IH].
    pose proof (putc_log s c) as E.
    destruct (quiet_cursor (putc_scroll (putc_write s (s8 c))) (cons_pos (putc_scroll (putc_write s (s8 c))))) as (es & H & Q).
    exists es. rewrite <- E. by split.
Qed.

(** What the clock leaves of the console: all but the right end of the top row. *)
Record clocked (s s' : console) : Prop := {
  ck_pos : cons_pos s' = cons_pos s;
  ck_ring : same_ring s s';
  ck_quiet : quiet s s';
  ck_cells : forall i, ~ (64 <= i < 80) -> cell s' i = cell s i
}.

Lemma show_time_ok `{Uart} s ticks :
  0 <= cons_pos s < CONS_SIZE -> 0 <= ticks < 100000000 ->
  exists s' cs, time_text (ticks / 100) = cs ++ [10] /\ show_time s ticks = Ret s' /\ clocked s s' /\
    forall j c, cs !! j = Some c -> cell s' (64 + Z.of_nat j) = u16 (Z.lor (attribute s) c).
Proof.
  intros Hp Ht. destruct (time_text_row (ticks / 100)) as (cs & Et & Hcs & Hlen); [modlia|].
  unfold show_time. cbn zeta. unfold get_cursor. set (s0 := set_timer_flag (set_cursor s 64 0) 1).
  destruct (emit_quiet (time_text (ticks / 100)) s0 ltac:(done)) as [-> _]. cbn [mbind outcome_bind].
  assert (Hp0 : cons_pos s0 = 64) by done.
  assert (Hs1 : put_text s0 (cs ++ [10]) = putc_to_console (put_text s0 cs) 10).
  { generalize s0. clear. induction cs as [|c cs IH]; intros s; [done|]. apply (IH (putc_to_console s c)). }
  destruct (put_text_row cs s0 Hcs) as (R1 & R2 & R3 & R4); [lia..|].
  rewrite Hp0 in R1, R3, R4.
  pose proof (put_text_ring (cs ++ [10]) s0) as Hr. pose proof (put_text_quiet (cs ++ [10]) s0) as Hq.
  set (s1 := put_text s0 (cs ++ [10])) in *.
  assert (Hc : forall i, cell s1 i = cell (put_text s0 cs) i) by (intros i; rewrite Hs1; apply put_newline; lia).
  eexists _, cs. split; [exact Et|]. split; [by rewrite Et|]. split.
  - constructor.
    + cbn [set_cursor put_cursor add_log cons_pos Console.set_pos]. unfold CONS_SIZE, CONS_ROWS, CONS_COLS, u16 in *. modlia.
    + exact Hr.
    + apply (quiet_trans _ s0); [apply (quiet_cursor s)|]. apply (quiet_trans _ s1); [exact Hq|]. apply (quiet_cursor s1).
    + intros i Hi. transitivity (cell s1 i); [done|]. rewrite Hc, R4 by lia. done.
  - intros j c Hj. transitivity (cell s1 (64 + Z.of_nat j)); [done|]. rewrite Hc, (R3 j c Hj). done.
Qed.

(** ** Lemmas: readers of the console *)

Lemma wake_times_ok chan l n : forall s, task_list s l ->
  exists s', wake_times n s chan = Ret s' /\ same_rest s s' /\ task_list s' l /\
    forall i, tasks s' i = match n with O => tasks s i | S _ => woken_up s l chan i end.
Proof.
  induction n as [|n IH]; intros s Hl; cbn [wake_times].
  - exists s. split; [done|]. split; [apply same_rest_refl|]. by split.
  - destruct (wakeup_ok s l chan Hl) as (s1 & E & Hr & Ht). rewrite E. cbn [mbind outcome_bind].
    assert (Hl1 : task_list s1 l).
    { apply (task_list_ext s); [apply Hr|intros i _; rewrite Ht; apply woken_up_next|exact Hl]. }
    destruct (IH s1 Hl1) as (s' & E' & Hr' & Hl' & Ht'). exists s'. split; [exact E'|].
    split; [by apply (same_rest_trans _ s1)|]. split; [exact Hl'|]. intros i. rewrite Ht'.
    destruct n as [|n]; [apply Ht|]. unfold woken_up at 1. cbn zeta. rewrite !Ht. unfold woken_up. cbn zeta.
    repeat case_decide; cbn [with_state t_state] in *; first [done | exfalso; intuition congruence].
Qed.

Definition grows (s s' : console) : Prop := exists es, log s' = log s ++ es.

Lemma put_c_grows `{Uart} s c s' : put_c s c = Ret s' -> grows s s'.
Proof.
  assert (Hp : grows s (putc_to_console s c)).
  { eexists. unfold putc_to_console. cbn zeta. cbn [put_cursor add_log log]. rewrite putc_log. reflexivity. }
  unfold put_c. cbn zeta. set (s1 := putc_to_console s c) in *. destruct Hp as [e0 Hp].
  case_decide; [|intros [= <-]; by exists e0].
  unfold write_serial. destruct (has_serial s1); [|intros [= <-]; by exists e0].
  rewrite serial_byte_ok. cbn [mbind outcome_bind]. case_decide; [rewrite serial_byte_ok|]; intros [= <-];
    unfold grows; cbn [add_log log]; rewrite Hp, <- ?app_assoc; by eexists.
Qed.

(** A character that arrives wakes the readers. *)
Lemma console_isr_wakes `{Uart} cs : forall s s', console_isr s cs = Ret s' ->
  grows s s' /\ (Exists (fun c => c <> 0) cs -> (0 < new_wakes s s')%nat).
Proof.
  assert (Hin : forall s s' e1 e2, log s' = log s ++ e1 ++ WakeReaders :: e2 -> (0 < new_wakes s s')%nat).
  { intros s s' e1 e2 E. unfold new_wakes. rewrite E, drop_app_length, List.filter_app, length_app. cbn. lia. }
  induction cs as [|c cs IH]; intros s s' E; cbn [console_isr] in E.
  - injection E as <-. split; [exists []; by rewrite app_nil_r|]. intros Hx. by apply Exists_nil in Hx.
  - destruct (console_char s c) as [s1|] eqn:E1; [|discriminate E]. cbn [mbind outcome_bind] in E.
    destruct (IH s1 s' E) as [[e2 G2] W2]. unfold console_char in E1. case_decide as Ec.
    + injection E1 as ->. split; [by exists e2|]. intros Hx. apply Exists_cons in Hx as [Hx|Hx]; [done|by apply W2].
    + cbn zeta in E1. rewrite decide_True in E1 by (pose proof (s8_range c); lia).
      apply put_c_grows in E1 as [e1 G1]. cbn [add_log set_ring log] in G1.
      assert (G : log s' = log s ++ [] ++ WakeReaders :: (e1 ++ e2)) by (rewrite G2, G1, <- !app_assoc; done).
      split; [eexists; exact G|]. intros _. by apply (Hin s s' [] (e1 ++ e2)).
Qed.

Lemma woken_up_fields s l chan i :
  t_tf (woken_up s l chan i) = t_tf (tasks s i) /\ t_pgdir (woken_up s l chan i) = t_pgdir (tasks s i).
Proof. unfold woken_up. cbn zeta. by case_decide. Qed.

Section Properties.

Context `{ide : IdeDevice} `{uart : Uart}.
Context (task_ptr : nat -> Z) (trap_ret do_nothing kdata rpos_chan : Z) (bwait_chan : nat -> Z).
Context (fuel : nat) (beyond : Z -> Z) (idx : list Z) (junk_tp : option nat) (junk_pgdir : Z).

Abbreviation trap_ := (trap (ide := ide) (uart := uart) task_ptr trap_ret do_nothing kdata rpos_chan bwait_chan
  fuel beyond idx junk_tp junk_pgdir).

(** The interrupt of the keyboard that finds a word typed. *)
Lemma kbd_trap_ok (b : board) ts md w v61 ser :
  task_list (m_kern (b_m b)) ts -> b_kbd b = enc md -> ctl_held md = false -> extended md = false ->
  Forall (fun c => 97 <= c <= 122) w -> w <> [] -> ring_holds (m_cons (b_m b)) [] -> Z.of_nat (length w) < CONS_SIZE ->
  exists b1, kbd_trap rpos_chan b (mkDevices (strokes w) v61 ser) = Ret b1 /\ b_kbd b1 = b_kbd b /\
    ring_holds (m_cons (b_m b1)) (map (in_case md) w) /\ same_rest (m_kern (b_m b)) (m_kern (b_m b1)) /\
    forall i, tasks (m_kern (b_m b1)) i = woken_up (m_kern (b_m b)) ts rpos_chan i.
Proof.
  intros Hl Hkb Hctl Hext Hw Hne Hq Hn. unfold kbd_trap, keyboard_isr. cbn [dv_scans dv_port61]. rewrite Hkb.
  rewrite (strokes_ok md w Hctl Hext Hw).
  assert (Hg : Forall (fun c => 0 < in_case md c < 128) w).
  { eapply Forall_impl; [exact Hw|]. intros c Hc. cbn beta in Hc. apply (letter_ok md c Hc Hctl Hext). }
  destruct (typed_ring (in_case md) w (m_cons (b_m b)) [] Hg Hq ltac:(cbn; lia)) as (s1 & E & Hq1). rewrite E. cbn [mbind outcome_bind].
  destruct (console_isr_wakes _ _ _ E) as [[e1 G1] W].
  set (s2 := add_log s1 _). unfold console_trap.
  assert (Hwk : (0 < new_wakes (m_cons (b_m b)) s2)%nat).
  { assert (Hx : (0 < new_wakes (m_cons (b_m b)) s1)%nat).
    { apply W. destruct w as [|c w]; [done|]. apply Forall_cons in Hg as [Hc _]. cbn. left. lia. }
    unfold new_wakes in *. unfold s2. cbn [add_log log]. rewrite G1 in *. rewrite <- app_assoc.
    rewrite drop_app_length in *. rewrite List.filter_app, length_app. lia. }
  destruct (wake_times_ok rpos_chan ts (new_wakes (m_cons (b_m b)) s2) _ Hl) as (k & Ek & Hr & _ & Ht).
  rewrite Ek. cbn [mbind outcome_bind]. eexists. split; [reflexivity|]. cbn [b_kbd b_m m_cons set_cons set_kern m_kern].
  split; [done|]. split; [apply (same_ring_holds s1); [by split|exact Hq1]|]. split; [exact Hr|].
  intros i. rewrite Ht. by destruct (new_wakes (m_cons (b_m b)) s2); [lia|].
Qed.

Lemma timer_isr_ok (m : machine bio) l1 l2 c :
  0 <= cons_pos (m_cons m) < CONS_SIZE -> 0 <= timer_ticks m < 99999999 -> reent m = -1 ->
  task_list (m_kern m) (l1 ++ c :: l2) -> current (m_kern m) = Some c ->
  exists con, clocked (m_cons m) con /\
    (timer_ticks m mod 100 = 0 -> forall j ch, time_text (timer_ticks m / 100) !! j = Some ch -> ch <> 10 ->
       cell con (64 + Z.of_nat j) = u16 (Z.lor (attribute (m_cons m)) ch)) /\
    timer_isr m = ('(k, sc) ← sched_yield (m_kern m);
      Ret (set_kern (set_clock (set_cons m con) (timer_ticks m + 1) (-1)) k, Some sc)).
Proof.
  intros Hp Ht Hr Hl Hc. unfold timer_isr. cbn zeta. rewrite Hr. change (s32 (-1 + 1)) with 0.
  rewrite (decide_False (P := 0 <> 0)) by tauto. rewrite (u32_small (timer_ticks m + 1)) by lia.
  set (con0 := add_log (m_cons m) [Outb 32 32]).
  assert (Hq : quiet (m_cons m) con0).
  { eexists. split; [reflexivity|]. intros v Hv. unfold COM1 in Hv. apply elem_of_cons in Hv as [Hv|Hv]; [discriminate Hv|].
    by apply not_elem_of_nil in Hv. }
  case_decide as E.
  - destruct (show_time_ok con0 (timer_ticks m + 1)) as (con & cs & Ecs & -> & [K1 K2 K3 K4] & Hcells); [exact Hp|lia|].
    exists con. split; [constructor; [exact K1|exact K2|by apply (quiet_trans _ con0)|exact K4]|]. split; [|done].
    intros _ j ch Hj Hch. replace (timer_ticks m / 100) with ((timer_ticks m + 1) / 100) in Hj by modlia.
    rewrite Ecs in Hj. apply lookup_app_Some in Hj as [Hj|[_ Hj]]; [by apply Hcells|].
    apply list_lookup_singleton_Some in Hj as [_ Hj]. by subst.
  - exists con0. split; [constructor; [done|done|exact Hq|done]|]. split; [done|]. done.
Qed.

(** C36. A tick of the timer that comes as a trap: inside another tick it changes
    nothing; otherwise the tick is counted and the scheduler called, which
    gives the processor to the next runnable task of the list.  The characters
    waiting for readers, the cursor, the serial line and the screen are left
    alone but for the right end of the top row, where every hundredth tick
    shows the uptime in seconds. *)
Theorem timer_trap (b : board) (tf : Z) (dv : devices) (l1 l2 : list nat) (c : nat)
  (Hno : load32 (ram (m_mm (b_m b))) (tf + TF_TRAPNO) = T_IRQ0 + IRQ_TIMER)
  (Hpos : 0 <= cons_pos (m_cons (b_m b)) < CONS_SIZE) (Ht : 0 <= timer_ticks (b_m b) < 99999999)
  (Hre : -2147483648 <= reent (b_m b) < 2147483647)
  (Hl : task_list (m_kern (b_m b)) (l1 ++ c :: l2)) (Hc : current (m_kern (b_m b)) = Some c) :
  (reent (b_m b) <> -1 -> trap_ b tf false dv = Ret (b, TReturn)) /\
  (reent (b_m b) = -1 -> exists b' k, trap_ b tf false dv = Ret (b', TSched k) /\
    timer_ticks (b_m b') = timer_ticks (b_m b) + 1 /\ reent (b_m b') = -1 /\
    clocked (m_cons (b_m b)) (m_cons (b_m b')) /\
    (timer_ticks (b_m b) mod 100 = 0 -> forall j ch,
       time_text (timer_ticks (b_m b) / 100) !! j = Some ch -> ch <> 10 ->
       cell (m_cons (b_m b')) (64 + Z.of_nat j) = u16 (Z.lor (attribute (m_cons (b_m b))) ch)) /\
    option_map sc_tp k = first_runnable (m_kern (b_m b)) (l2 ++ l1) /\
    current (m_kern (b_m b')) = Some (default c (first_runnable (m_kern (b_m b)) (l2 ++ l1)))).
Proof.
  split; intros Hr; unfold trap; cbn zeta; rewrite Hno, decide_True by done.
  - unfold timer_isr. cbn zeta. rewrite s32_small by lia. rewrite decide_True by lia.
    rewrite s32_small by lia. cbn [mbind outcome_bind]. replace (reent (b_m b) + 1 - 1) with (reent (b_m b)) by lia.
    by destruct b as [[] ?].
  - destruct (timer_isr_ok (b_m b) l1 l2 c Hpos Ht Hr Hl Hc) as (con & Hck & Htext & ->).
    pose proof (sched_yield_ok (m_kern (b_m b)) l1 l2 c Hl Hc) as Hy.
    destruct (first_runnable (m_kern (b_m b)) (l2 ++ l1)) as [i|].
    + destruct Hy as (k' & sc & -> & Hi & (R1 & _)). cbn [mbind outcome_bind].
      eexists _, (Some sc). split; [reflexivity|]. split; [done|]. split; [done|]. split; [exact Hck|].
      split; [exact Htext|]. split; [by rewrite <- Hi|exact R1].
    + rewrite Hy. cbn [mbind outcome_bind].
      eexists _, None. split; [reflexivity|]. split; [done|]. split; [done|]. split; [exact Hck|].
      split; [exact Htext|]. split; [done|exact Hc].
Qed.

(** C4. From the key to the program: a word typed while a task runs comes in as
    a keyboard interrupt, which makes every task that sleeps for console input
    runnable; when the running task then traps with the system call [read] on
    standard input, the call returns the length of the word and the task's
    buffer holds its letters, in the case the modifiers ask for. *)
Theorem typed_word_is_read (b : board) (dv : devices) c l ts md w buf str v61 ser
  (Hik : in_kernel (b_m b) c l) (Hl : task_list (m_kern (b_m b)) ts)
  (Hno : tf_get (b_m b) c TF_TRAPNO = T_IRQ0 + IRQ_KBD)
  (Hkb : b_kbd b = enc md) (Hctl : ctl_held md = false) (Hext : extended md = false)
  (Hw : Forall (fun c => 97 <= c <= 122) w) (Hne : w <> []) (Hn : Z.of_nat (length w) < CONS_SIZE)
  (Hq : ring_holds (m_cons (b_m b)) [])
  (Ha : uargs (b_m b) c [0; buf; Z.of_nat (length w)])
  (Hs : string_at (m_mm (b_m b)) (dir (b_m b) c) buf str) (Hf : (length str < fuel)%nat)
  (Hat : priv_at (m_mm (b_m b)) (dir (b_m b) c) buf (Z.of_nat (length w))) :
  let tf := t_tf (cur_task (b_m b) c) in
  exists b1 b2, trap_ b tf false (mkDevices (strokes w) v61 ser) = Ret (b1, TReturn) /\
    (forall i, i ∈ ts -> t_state (tasks (m_kern (b_m b)) i) = TS_STOPPED -> t_chan (tasks (m_kern (b_m b)) i) = rpos_chan ->
       t_state (tasks (m_kern (b_m b1)) i) = TS_RUNNABLE) /\
    let m2 := tf_set (tf_set (b_m b1) c TF_EAX SYS_read) c TF_TRAPNO T_SYSCALL in
    trap_ (mkBoard m2 (b_kbd b1)) tf false dv = Ret (b2, TCall (Returns (Z.of_nat (length w)))) /\
    bytes_at (m_mm (b_m b2)) (dir (b_m b2) c) buf (map (in_case md) w) /\ ring_holds (m_cons (b_m b2)) [].
Proof.
  intros tf.
  destruct (kbd_trap_ok b ts md w v61 ser Hl Hkb Hctl Hext Hw Hne Hq Hn) as (b1 & E1 & Hk1 & Hq1 & Hr1 & Ht1).
  destruct (woken_up_fields (m_kern (b_m b)) ts rpos_chan c) as [F1 F2]. rewrite <- Ht1 in F1, F2.
  assert (Em : m_mm (b_m b1) = m_mm (b_m b)) by apply Hr1.
  destruct (same_mm_keeps (b_m b) (b_m b1) c l Em ltac:(apply Hr1) F1 F2 Hik) as [Hik1 Hv1].
  destruct (tf_set_keeps (b_m b1) c l TF_EAX SYS_read Hik1) as (Hik2 & G2 & Hv2); [done|done|by left|].
  set (m1 := tf_set (b_m b1) c TF_EAX SYS_read) in *.
  destruct (tf_set_keeps m1 c l TF_TRAPNO T_SYSCALL Hik2) as (Hik3 & G3 & Hv3); [done|done|by left|].
  set (m2 := tf_set m1 c TF_TRAPNO T_SYSCALL) in *.
  pose proof (keeps_trans _ _ _ _ _ _ _ (keeps_trans _ _ _ _ _ _ _ (Hv1 anywhere 0 0) (Hv2 _ _ _)) (Hv3 _ _ _)) as Hv.
  destruct (sys_read_typed task_ptr trap_ret do_nothing kdata rpos_chan fuel beyond idx junk_tp junk_pgdir
    m2 c l buf (Z.of_nat (length w)) str (map (in_case md) w)) as (m3 & E3 & _ & _ & Hb & Hq3 & _).
  - exact Hik3.
  - change SYS_read with (u32 SYS_read). rewrite <- G2. unfold tf_get, m2, tf_set. cbn. apply load32_store32_other. unfold TF_EAX, TF_TRAPNO. lia.
  - apply (keeps_args (b_m b) m2 c anywhere 0 0); [exact Hv|done|by right|exact Ha].
  - unfold CONS_SIZE, CONS_ROWS, CONS_COLS in Hn. lia.
  - apply (keeps_string (b_m b) m2 c anywhere 0 0); [exact Hv|done|by right|exact Hs].
  - exact Hf.
  - apply (keeps_priv (b_m b) m2 c anywhere 0 0); [exact Hv|done|exact Hat].
  - exact Hq1.
  - rewrite length_map. lia.
  - apply Forall_take, Forall_map. eapply Forall_impl; [exact Hw|]. intros x Hx. cbn beta in Hx |- *.
    pose proof (letter_ok md x Hx Hctl Hext) as (_ & _ & _ & Hr). lia.
  - exists b1, (mkBoard m3 (b_kbd b1)). split; [|split].
    + unfold trap. cbn zeta. change (load32 _ _) with (tf_get (b_m b) c TF_TRAPNO). rewrite Hno. by rewrite E1.
    + intros i Hi Hst Hch. rewrite Ht1. unfold woken_up. cbn zeta. by rewrite decide_True.
    + cbv zeta. fold m1. fold m2. split; [|split].
      * unfold trap. cbn [b_m b_kbd]. cbv zeta. replace tf with (t_tf (cur_task m2 c)) by exact (ks_tf _ _ _ _ _ _ Hv).
        change (load32 _ _) with (tf_get m2 c TF_TRAPNO). rewrite G3. change (u32 T_SYSCALL) with T_SYSCALL.
        do 6 (rewrite decide_False by done). rewrite decide_True by done. by rewrite E3.
      * rewrite take_ge in Hb by (rewrite length_map; lia). rewrite map_map in Hb.
        rewrite (map_ext_in (fun x => u8 (in_case md x)) (in_case md)) in Hb; [exact Hb|].
        intros x Hx. apply list_elem_of_In, (proj1 (Forall_forall _ _) Hw) in Hx.
        pose proof (letter_ok md x Hx Hctl Hext) as (_ & _ & _ & Hr). unfold u8. rewrite Z.mod_small; lia.
      * rewrite drop_ge in Hq3 by (rewrite length_map; lia). exact Hq3.
Qed.

(** What [trap] refuses: it panics when interrupts are on, on a page fault
    and on every exception it has no handler for; a number behind the names of
    the exceptions is read past the end of the array before the panic. *)
Lemma trap_refuses (b : board) (tf : Z) (dv : devices) :
  let trapno := load32 (ram (m_mm (b_m b))) (tf + TF_TRAPNO) in
  trap_ b tf true dv = Stop (Panic "FL_IF should not be set!") /\
  (trapno < NEXCEPTIONS -> trap_ b tf false dv = Stop (Panic "dump_tf")) /\
  (NEXCEPTIONS <= trapno -> trapno <> T_SYSCALL ->
   ~ In (trapno - T_IRQ0) [IRQ_TIMER; IRQ_KBD; IRQ_COM1; IRQ_IDE; IRQ_SPURIOUS] ->
   trap_ b tf false dv = Stop (Fault "exceptions[tf->trapno]")).
Proof.
  unfold trap, dump_tf. cbv zeta. set (n := load32 _ _). unfold NEXCEPTIONS, T_SYSCALL, T_IRQ0, T_PGFLT,
    IRQ_TIMER, IRQ_KBD, IRQ_COM1, IRQ_IDE, IRQ_SPURIOUS. split; [done|]. split.
  - intros Hn. do 5 (rewrite decide_False by lia). case_decide; [by rewrite decide_True by lia|].
    rewrite decide_False by lia. by rewrite decide_True by lia.
  - intros Hn Hs Hin. cbn [In] in Hin.
    rewrite !(decide_False (P := n = _)) by lia. by rewrite decide_False by lia.
Qed.

End Properties.

(** ** Witnesses *)

(** The demonstration machine in a trap. *)
Lemma demo_trap con trapno bs : 0 <= trapno < 4294967296 -> (length bs <= 4096)%nat -> Forall (fun b => 0 <= b < 256) bs ->
  exists (m : machine bio) l, in_kernel m 0 l /\ tf_get m 0 TF_TRAPNO = trapno /\ tf_get m 0 TF_ESP = 4096 /\
    bytes_at (m_mm m) (dir m 0) 4096 bs /\ priv_at (m_mm m) (dir m 0) 4096 4096 /\ m_cons m = con /\
    task_list (m_kern m) [0%nat] /\ timer_ticks m = 0 /\ reent m = -1.
Proof.
  intros Hn Hl Hb.
  destruct (demo_machine (dev := bio_blockdev (ide := idle_ide)) con demo_disk [] 3 bs ltac:(lia) Hl Hb)
    as (m & l & Hik & _ & Hesp & Hbs & Hat & Hcon & _ & _ & _ & _ & _ & _ & Htl & Ht & Hr).
  destruct (tf_set_keeps m 0 l TF_TRAPNO trapno Hik) as (Hik' & G & Hv); [done|done|by left|].
  exists (tf_set m 0 TF_TRAPNO trapno), l. split; [exact Hik'|]. split; [by rewrite G, u32_small|].
  split; [by rewrite (ks_esp _ _ _ _ _ _ (Hv anywhere 0 0))|].
  split; [apply (keeps_bytes m _ 0 anywhere 0 0); [apply Hv|done|by right|exact Hbs]|].
  split; [apply (keeps_priv m _ 0 anywhere 0 0); [apply Hv|done|exact Hat]|].
  split; [exact Hcon|]. split; [|by split]. by apply (task_list_ext (m_kern m)).
Qed.

Abbreviation demo_handler := (trap (ide := idle_ide) (uart := ready_uart) (fun _ => 0) 0 0 0 0 (fun _ => 0) 10
  (fun _ => 0) [] None 0).

Lemma timer_trap_witness :
  exists b b' tf, demo_handler b tf false (mkDevices [] 0 []) = Ret (b', TSched None) /\ timer_ticks (b_m b') = 1 /\
    cell (m_cons (b_m b')) 70 = 2608.
Proof.
  destruct (demo_trap blank_console 32 []) as (m & l & Hik & Hno & _ & _ & _ & Hcon & Htl & Ht & Hr).
  { lia. } { cbn. lia. } { constructor. }
  destruct (timer_trap (ide := idle_ide) (uart := ready_uart) (fun _ => 0) 0 0 0 0 (fun _ => 0) 10 (fun _ => 0) [] None 0
    (mkBoard m 0) (t_tf (cur_task m 0)) (mkDevices [] 0 []) [] [] 0%nat) as [_ H].
  - exact Hno.
  - cbn [b_m]. rewrite Hcon. cbn. unfold CONS_SIZE, CONS_ROWS, CONS_COLS. lia.
  - cbn [b_m]. rewrite Ht. lia.
  - cbn [b_m]. rewrite Hr. lia.
  - exact Htl.
  - apply Hik.
  - destruct (H Hr) as (b' & k & E & Et & _ & _ & Hc & Hk & _).
    destruct k as [k|]; [discriminate Hk|]. exists (mkBoard m 0), b', (t_tf (cur_task m 0)).
    split; [exact E|]. cbn [b_m] in Et, Hc. rewrite Ht in Et, Hc. split; [exact Et|].
    rewrite Hcon in Hc. exact (Hc eq_refl 6%nat 48 eq_refl ltac:(lia)).
Defined.

Lemma typed_word_is_read_witness :
  exists b b1 m2 b2 tf, demo_handler b tf false (mkDevices (strokes [104; 105]) 0 []) = Ret (b1, TReturn) /\
    demo_handler (mkBoard m2 (b_kbd b1)) tf false (mkDevices [] 0 []) = Ret (b2, TCall (Returns 2)) /\
    bytes_at (m_mm (b_m b2)) (dir (b_m b2) 0) 4112 [72; 73].
Proof.
  destruct (demo_trap blank_console 33 ([0; 0; 0; 0] ++ words [0; 4112; 2] ++ [0]))
    as (m & l & Hik & Hno & Hesp & Hb & Hat & Hcon & Htl & _).
  { lia. } { cbn. lia. } { by repeat (apply Forall_cons; split; [vm_compute; by split|]). }
  destruct (demo_args m [0; 4112; 2] [0] Hesp Hb) as [Ha Hz].
  destruct (typed_word_is_read (ide := idle_ide) (uart := ready_uart) (fun _ => 0) 0 0 0 0 (fun _ => 0) 10 (fun _ => 0) [] None 0
    (mkBoard m 8) (mkDevices [] 0 []) 0%nat l [0%nat] (mkMods false false false true false false false) [104; 105] 4112 [] 0 [])
    as (b1 & b2 & E1 & _ & E2 & Hby & _).
  - exact Hik.
  - exact Htl.
  - exact Hno.
  - reflexivity.
  - reflexivity.
  - reflexivity.
  - repeat (apply Forall_cons; split; [lia|]). by apply Forall_nil.
  - discriminate.
  - reflexivity.
  - cbn [b_m]. rewrite Hcon. split; [vm_compute; split; [discriminate|reflexivity]|reflexivity|reflexivity|].
    intros j c Hj. rewrite lookup_nil in Hj. discriminate Hj.
  - exact Ha.
  - split; [constructor|exact Hz].
  - cbn. lia.
  - replace 4112 with (4096 + 16) by lia. eapply priv_at_sub; [exact Hat|cbn; lia..].
  - eexists _, b1, _, b2, _. split; [exact E1|]. split; [exact E2|exact Hby].
Defined.
