(* ===== verification/Crash.v ===== *)
(** * Messages of a kernel that stops

    [panic] and [assert_failed] of kern/printf.c, [page_fault] of kern/mm.c and
    [dump_tf] of kern/trap.c: what stands on the console when an exception has
    no handler.  [trap] of Trap.v ends there with the outcome [Panic]; here is
    the console it leaves.  Afterwards the code loops with interrupts off. *)

From stdpp Require Import base list strings.
From Stdlib Require Import ZArith Lia.
From S2P Require Import Prelude Mmu CString Kalloc PageTable Ring Bio Hd Buffer BlockDev Console Printf SfsText Task Loader Machine Syscall Trap.

Open Scope Z_scope.

(** [static const char *exceptions[]] *)
Definition exceptions : list string :=
  ["Divide error"; "Debug exceptions"; "Non-maskable interrupt (NMI)"; "Breakpoint"; "Overflow"; "Bounds check";
   "Invalid opcode"; "Coprocessor not available"; "Double fault"; "Coprocessor segment overrun"; "Invalid TSS";
   "Segment not present"; "Stack exception"; "General protection exception"; "Page fault"; "Intel reserved";
   "Coprocessor error"].

Section Crash.

Context `{uart : Uart}.

Definition panic (con : console) (str : list Z) : outcome console :=
  emit put_c (settextcolor con 14 4) (chars "Kernel PANIC!! --> " ++ str ++ [10]).

Definition assert_failed (con : console) (file : list Z) (line : Z) (desc : list Z) : outcome console :=
  emit put_c (settextcolor con 14 4)
    (chars "ASSERTION FAILED!!" ++ [10] ++ chars "File(" ++ file ++ chars ": " ++ dec_text (s32 line) ++ chars "): " ++ desc ++ [10]).

(** The [k]-th word of the frame, with its label. *)
Definition reg (m : memory) (tf : Z) (label : string) (k : Z) : list Z := chars label ++ hex_text (s32 (load32 m (tf + 4 * k))).

Definition page_fault_text (m : memory) (tf cr2 : Z) : list Z :=
  let '(p, rw, user, res) := page_fault_flags (load32 m (tf + 56)) in
  [10] ++ chars "page fault! (flags: p:" ++ dec_text p ++ chars ", rw:" ++ dec_text rw ++ chars ", user:" ++ dec_text user ++
  chars ", res:" ++ dec_text res ++ chars ")" ++ [10] ++
  reg m tf "eip = " 15 ++ chars ", faulting address " ++ hex_text (s32 cr2) ++ [10].

Definition dump_tf_text (m : memory) (tf : Z) (name : string) : list Z :=
  chars "----- Exception " ++ dec_text (s32 (load32 m (tf + TF_TRAPNO))) ++ chars ": " ++ chars name ++ chars " -----" ++ [10] ++
  reg m tf " gs: " 0 ++ [9] ++ reg m tf " fs: " 1 ++ [9] ++ reg m tf " es: " 2 ++ [9] ++ reg m tf " ds: " 3 ++ [10] ++
  reg m tf "edi: " 4 ++ [9] ++ reg m tf "esi: " 5 ++ [10] ++ reg m tf "ebp: " 6 ++ [9] ++ reg m tf "old_esp: " 7 ++ [10] ++
  reg m tf "ebx: " 8 ++ [9] ++ reg m tf "edx: " 9 ++ [10] ++ reg m tf "ecx: " 10 ++ [9] ++ reg m tf "eax: " 11 ++ [10] ++
  reg m tf "trapno: " 13 ++ [9] ++ reg m tf "err: " 14 ++ [9] ++ reg m tf "ret_addr: " 12 ++ [10] ++
  reg m tf "eip: " 15 ++ [9] ++ reg m tf " cs: " 16 ++ [9] ++ reg m tf "eflags: " 17 ++ [10] ++
  reg m tf "esp: " 18 ++ [9] ++ reg m tf " ss: " 19 ++ [10].

(** The end of [trap] for an exception: a page fault is reported first, any other
    by its number; [exceptions] is indexed with it. *)
Definition trap_crash (con : console) (m : memory) (tf cr2 : Z) : outcome console :=
  let trapno := load32 m (tf + TF_TRAPNO) in
  c1 ← emit put_c con (if decide (trapno = T_PGFLT) then page_fault_text m tf cr2
                       else chars "tf->trapno: " ++ dec_text (s32 trapno) ++ [10]);
  name ← deref "exceptions[tf->trapno]" (exceptions !! Z.to_nat trapno);
  c2 ← emit put_c c1 (dump_tf_text m tf name);
  panic c2 (chars "dump_tf").

(** Every exception of the processor that has a name ends on the console: its
    report, the registers, and the panic in yellow on red. *)
Lemma trap_crash_reports (con : console) (m : memory) (tf cr2 : Z) (name : string) :
  exceptions !! Z.to_nat (load32 m (tf + TF_TRAPNO)) = Some name ->
  exists head c2 con', trap_crash con m tf cr2 = Ret con' /\
    emit put_c con (head ++ dump_tf_text m tf name) = Ret c2 /\
    emit put_c (settextcolor c2 14 4) (chars "Kernel PANIC!! --> dump_tf" ++ [10]) = Ret con' /\
    dcolor (settextcolor c2 14 4) = 78.
Proof.
  intros Hn. unfold trap_crash. cbv zeta. set (head := if decide _ then _ else _).
  destruct (emit_total con head) as (c1 & E1). destruct (emit_total c1 (dump_tf_text m tf name)) as (c2 & E2).
  destruct (emit_total (settextcolor c2 14 4) (chars "Kernel PANIC!! --> dump_tf" ++ [10])) as (c3 & E3).
  exists head, c2, c3. rewrite E1, bind_Ret, Hn. cbn [deref]. rewrite bind_Ret, E2, bind_Ret.
  split; [exact E3|]. split; [|by split]. by rewrite emit_app, E1, bind_Ret.
Qed.

End Crash.

(** The names are those [dump_tf] accepts. *)
Lemma exceptions_count : Z.of_nat (length exceptions) = NEXCEPTIONS.
Proof. reflexivity. Qed.
