(* ===== verification/User.v ===== *)
(** * User programs

    lib/usys.S, the routines of lib/printf.c and lib/utils.c that make system
    calls, user/echo.c and user/cat.c, run on the machine of Machine.v.  A
    program calls with its arguments as words above the stack pointer, as the C
    calling convention puts them; the stub loads the number into [eax] and
    traps.  Where the compiler keeps the outgoing arguments and the one
    character [putc] passes by address is not in the source: the arguments lie
    at the stack pointer of the trap frame, the character at an address
    [slot]. *)

From stdpp Require Import base list strings.
From Stdlib Require Import ZArith Lia.
From S2P Require Import Prelude Mmu CString Kalloc PageTable VmSpec Ring Task Heap Vmem UserMem VmHeap TaskHeap.
From S2P Require Import Boot Loader Console Printf Bio Hd Buffer BlockDev Le Sfs MkSfs SfsImage SfsSpec SfsText Machine Exec Syscall.

Open Scope Z_scope.

Section Programs.

Context {D : Type} `{dev : BlockDev D} `{uart : Uart}.
Variable task_ptr : nat -> Z.
Variables trap_ret do_nothing kdata rpos_chan : Z.
Variable fuel : nat.
Variable beyond : Z -> Z.
Variable idx : list Z.
Variable junk_tp : option nat.
Variable junk_pgdir : Z.

(** ** System calls from user mode *)

(** The stub of call [num] with the arguments [ws]. *)
Definition ucall (m : machine D) (c : nat) (num : Z) (ws : list Z) : outcome (machine D * sysret) :=
  s ← vwrite (m_mm m) (dir m c) (tf_get m c TF_ESP + 4) (words ws);
  syscall task_ptr trap_ret do_nothing kdata rpos_chan fuel beyond idx junk_tp junk_pgdir
    (tf_set (set_mm m s) c TF_EAX num).

(** A call other than [wait] and [exit], which do not come back at once. *)
Definition ucall_ret (m : machine D) (c : nat) (num : Z) (ws : list Z) : outcome (machine D * Z) :=
  '(m1, r) ← ucall m c num ws;
  match r with Returns v => Ret (m1, v) | _ => Stop (Fault "no return value") end.

(** [void putc(char c) { write(1, &c, 1); }] *)
Definition uputc (c : nat) (slot : Z) (m : machine D) (ch : Z) : outcome (machine D) :=
  s ← vstore8 (m_mm m) (dir m c) slot ch;
  '(m1, _) ← ucall_ret (set_mm m s) c SYS_write [1; slot; 1]; Ret m1.

(** [case 's'] of [printf]: [for(s = (char * )*ap++; *s; s++) putc( *s);] *)
Fixpoint uprint_str (k : nat) (c : nat) (slot : Z) (m : machine D) (p : Z) : outcome (machine D) :=
  match k with
  | O => Stop Fuel
  | S f =>
      b ← vload8 (m_mm m) (dir m c) p;
      if decide (b = 0) then Ret m
      else m1 ← uputc c slot m b; uprint_str f c slot m1 (u32 (p + 1))
  end.

(** A format without directives. *)
Definition uprint (c : nat) (slot : Z) (m : machine D) (text : list Z) : outcome (machine D) :=
  emit (uputc c slot) m text.

(** [sleep(sec)] and [msleep(msec)] poll the clock; [now] is what the first
    [get_ticks] returned, and [polls] the values of the following ones. *)
Fixpoint ticks_wait (polls : list Z) (start limit : Z) : option nat :=
  match polls with
  | [] => None
  | t :: ts => if decide (s32 (t - start) > limit) then Some 1%nat else S <$> ticks_wait ts start limit
  end.

Definition sleep (now sec : Z) (polls : list Z) : option nat := ticks_wait polls now (s32 (sec * 100)).

Definition msleep (now msec : Z) (polls : list Z) : option nat := ticks_wait polls now (Z.quot msec 10).

(** ** echo *)

(** [for(i = 1; i < argc; i++)], [n] turns of it. *)
Fixpoint echo_loop (n : nat) (c : nat) (slot : Z) (m : machine D) (argc argv i : Z) : outcome (machine D) :=
  match n with
  | O => Ret m
  | S k =>
      p ← vload32 (m_mm m) (dir m c) (argv + 4 * i);
      m1 ← uprint_str fuel c slot m p;
      m2 ← uprint c slot m1 (if decide (i + 1 < argc) then [32] else [10]);
      echo_loop k c slot m2 argc argv (i + 1)
  end.

Definition echo (c : nat) (slot : Z) (m : machine D) (argc argv : Z) : outcome (machine D * sysret) :=
  m1 ← echo_loop (Z.to_nat (argc - 1)) c slot m argc argv 1;
  ucall m1 c SYS_exit [].

(** ** cat *)

(** [while((n = read(fd, buf, sizeof(buf))) > 0) write(1, buf, n);] *)
Fixpoint cat (k : nat) (c : nat) (m : machine D) (fd buf : Z) : outcome (machine D) :=
  match k with
  | O => Stop Fuel
  | S f =>
      '(m1, n) ← ucall_ret m c SYS_read [fd; buf; 512];
      if decide (0 < n) then
        '(m2, _) ← ucall_ret m1 c SYS_write [1; buf; n]; cat f c m2 fd buf
      else Ret m1
  end.

(** The body of the loop of [main]; [false] is [return -1]. *)
Definition cat_arg (k : nat) (c : nat) (slot : Z) (m : machine D) (buf p : Z) : outcome (machine D * bool) :=
  m1 ← uprint c slot m (chars "debug cat: open ");
  m2 ← uprint_str fuel c slot m1 p;
  m3 ← uprint c slot m2 [10];
  '(m4, fd) ← ucall_ret m3 c SYS_open [p; 0];
  if decide (fd < 0) then m5 ← uprint c slot m4 (chars "Error, open failed" ++ [10]); Ret (m5, false)
  else
    m5 ← cat k c m4 fd buf;
    '(m6, _) ← ucall_ret m5 c SYS_close [fd]; Ret (m6, true).

(** [while(++i < argc)], [n] turns of it. *)
Fixpoint cat_loop (n k : nat) (c : nat) (slot : Z) (m : machine D) (buf argv i : Z) : outcome (machine D * bool) :=
  match n with
  | O => Ret (m, true)
  | S f =>
      p ← vload32 (m_mm m) (dir m c) (argv + 4 * i);
      '(m1, ok) ← cat_arg k c slot m buf p;
      if ok : bool then cat_loop f k c slot m1 buf argv (i + 1) else Ret (m1, false)
  end.

End Programs.

(** ** What a turn of a program leaves alone *)

(** From [m] to [m'] nothing changed but the console, the registers in the trap
    frame and the bytes of [W]. *)
Record turn {D : Type} (W : Z -> Prop) (c : nat) (l : list Z) (m m' : machine D) : Prop := {
  tn_kernel : in_kernel m' c l;
  tn_tasks : tasks (m_kern m') = tasks (m_kern m);
  tn_esp : tf_get m' c TF_ESP = tf_get m c TF_ESP;
  tn_entry : forall va, pt_entry (m_mm m') (dir m c) va = pt_entry (m_mm m) (dir m c) va;
  tn_byte : forall va, private va -> present (m_mm m) (dir m c) va -> ~ W va ->
    vbyte (m_mm m') (dir m c) va = vbyte (m_mm m) (dir m c) va;
  tn_pde : forall i, 0 <= i < 1024 -> pde_at (m_mm m') (dir m c) i = pde_at (m_mm m) (dir m c) i;
  tn_sfs : m_sfs m' = m_sfs m;
  tn_ofile : m_ofile m' = m_ofile m;
  tn_iname : m_iname m' = m_iname m;
  tn_list : rootp (m_kern m') = rootp (m_kern m);
  tn_pid : nextpid (m_kern m') = nextpid (m_kern m);
  tn_memsz : memsz (m_mm m') = memsz (m_mm m)
}.

Section Turn.

Context {D : Type} `{dev : BlockDev D}.

Lemma turn_dir W c l (m m' : machine D) : turn W c l m m' -> dir m' c = dir m c.
Proof. intros H. unfold dir, cur_task. by rewrite (tn_tasks _ _ _ _ _ H). Qed.

Lemma turn_refl W c l (m : machine D) : in_kernel m c l -> turn W c l m m.
Proof. intros H. by constructor. Qed.

Lemma turn_trans W c l (m1 m2 m3 : machine D) : turn W c l m1 m2 -> turn W c l m2 m3 -> turn W c l m1 m3.
Proof.
  intros H1 H2. pose proof (turn_dir _ _ _ _ _ H1) as Hd. destruct H1 as [A1 A2 A3 A4 A5 A6 A7 A8 A9 A10 A11 A12], H2 as [B1 B2 B3 B4 B5 B6 B7 B8 B9 B10 B11 B12].
  rewrite Hd in B4, B5, B6. constructor; [exact B1|congruence|congruence|intros va; by rewrite B4| | |congruence..].
  - intros va Hp Hpr Hw. rewrite B5; [by apply A5|exact Hp| |exact Hw]. unfold present. by rewrite A4.
  - intros i Hi. rewrite B6 by exact Hi. by apply A6.
Qed.

Lemma turn_weaken (W W' : Z -> Prop) c l (m m' : machine D) : (forall x, W x -> W' x) -> turn W c l m m' -> turn W' c l m m'.
Proof. intros HW []. constructor; auto. Qed.

(** Pages and bytes outside [W]. *)
Lemma turn_priv W c l (m m' : machine D) va n : turn W c l m m' ->
  priv_at (m_mm m) (dir m c) va n -> priv_at (m_mm m') (dir m' c) va n.
Proof.
  intros H (H0 & H1 & H2). rewrite (turn_dir _ _ _ _ _ H). split; [exact H0|]. split; [exact H1|].
  intros x Hx. unfold present. rewrite (tn_entry _ _ _ _ _ H). by apply H2.
Qed.

Lemma turn_bytes W c l (m m' : machine D) va bs : turn W c l m m' ->
  (forall x, va <= x < va + Z.of_nat (length bs) -> ~ W x) ->
  bytes_at (m_mm m) (dir m c) va bs -> bytes_at (m_mm m') (dir m' c) va bs.
Proof.
  intros H HW [Hp Hb]. split; [by apply (turn_priv W c l m)|]. rewrite (turn_dir _ _ _ _ _ H).
  intros i b Hi. pose proof (lookup_lt_Some _ _ _ Hi).
  destruct (priv_at_byte _ _ _ _ (Z.of_nat i) Hp ltac:(lia)) as [P1 P2].
  rewrite (tn_byte _ _ _ _ _ H); [by apply Hb|exact P1|exact P2|apply HW; lia].
Qed.

Lemma turn_string W c l (m m' : machine D) va str : turn W c l m m' ->
  (forall x, va <= x <= va + Z.of_nat (length str) -> ~ W x) ->
  string_at (m_mm m) (dir m c) va str -> string_at (m_mm m') (dir m' c) va str.
Proof.
  intros H HW [Hn Hb]. split; [exact Hn|]. apply (turn_bytes W c l m); [exact H| |exact Hb].
  rewrite length_app. cbn [length]. intros x Hx. apply HW. lia.
Qed.

Lemma turn_stored (W : Z -> Prop) c l (m : machine D) s dst n : in_kernel m c l ->
  Vmem.stored (m_mm m) s (dir m c) l dst n -> priv_at (m_mm m) (dir m c) dst n ->
  (forall x, dst <= x < dst + n -> W x) -> turn W c l m (set_mm m s).
Proof.
  intros Hik Hst Hat HW. destruct (in_kernel_stored m c l s dst n Hik Hst Hat) as [I G].
  constructor; [exact I|done|by apply G|apply (sd_entry _ _ _ _ _ _ Hst)| |intros i Hi; exact (stored_pde _ _ _ l dst n i (ik_wf _ _ _ Hik) Hst Hat Hi)|done|done|done|done|done|exact (proj1 (sd_mm _ _ _ _ _ _ Hst))].
  intros va Hp Hpr Hn. apply (stored_user _ _ _ (ik_wf _ _ _ Hik) _ _ _ _ Hst Hat Hp Hpr). intros Hin. by apply Hn, HW.
Qed.

Lemma turn_tf W c l (m : machine D) off v : in_kernel m c l -> 0 <= off -> off + 4 <= TF_SIZE ->
  off + 4 <= TF_ESP \/ TF_ESP + 4 <= off -> turn W c l m (tf_set m c off v).
Proof.
  intros Hik H0 H1 Ho. destruct (tf_set_ok m c l off v Hik H0 H1) as (I & G & P & V).
  constructor; [exact I|done| |exact P|auto| |done..].
  - unfold tf_get, tf_set. cbn. apply load32_store32_other. lia.
  - intros i Hi. pose proof (ik_wf _ _ _ Hik) as Hw. destruct (ik_tf _ _ _ Hik) as [(Hq & Hnv & _) Hfit]. cbv zeta in *.
    set (tf := t_tf (cur_task m c)) in *. destruct (vw_dir _ _ _ (uw_vm _ _ _ Hw)) as [Ha _].
    unfold pde_at, tf_set. cbn. fold tf. apply load32_store32_other.
    assert (tf - tf mod 4096 <> dir m c) by (intros E; apply Hnv; left; exact E). unfold TF_SIZE, PGSIZE in *.
    rewrite <- (Z.add_0_r (dir m c)) in Ha. modlia.
Qed.

Lemma turn_cons W c l (m : machine D) con : in_kernel m c l -> turn W c l m (set_cons m con).
Proof. intros H. pose proof (in_kernel_cons m c l con H). by constructor. Qed.

(** The heap stays as it is when [W] is in the user half. *)
Lemma turn_heap W c l (m m' : machine D) cs : turn W c l m m' -> (forall x, W x -> x < KERNBASE) ->
  hrepr (heap_of m c) cs -> hrepr (heap_of m' c) cs.
Proof.
  intros H HW Hr. pose proof (turn_dir _ _ _ _ _ H) as Hd.
  assert (Eh : heap_of m' c = set_pager (heap_of m c) (mkVs (m_mm m') (dir m c))).
  { unfold heap_of, set_pager, cur_task. rewrite Hd, (tn_tasks _ _ _ _ _ H). done. }
  rewrite Eh. apply (hrepr_user (heap_of m c) cs); [exact Hr| | |].
  - exists l. pose proof (ik_wf _ _ _ (tn_kernel _ _ _ _ _ H)) as Hw. rewrite Hd in Hw. exact Hw.
  - intros x _. cbn. unfold vs_mapped. cbn [vs_mm vs_dir]. by rewrite (tn_entry _ _ _ _ _ H).
  - intros x Hx _. pose proof (repr_bounds _ _ Hr) as (Hb & _ & _).
    apply (tn_byte _ _ _ _ _ H); [unfold HEAP_START, HEAP_END in *; priv|apply (hrepr_present _ _ Hr); lia|].
    intros Hin. apply HW in Hin. unfold KERNBASE, HEAP_START in *. lia.
Qed.

Lemma turn_room W c l (m m' : machine D) cs n : in_kernel m c l -> turn W c l m m' ->
  heap_room m c cs n -> heap_room m' c cs n.
Proof.
  intros Hik H [H1 H2]. pose proof (turn_dir _ _ _ _ _ H) as Hd. pose proof (tn_kernel _ _ _ _ _ H) as Hik'.
  cbn [heap_of heap_top pager] in H2. split; [exact H1|]. cbn [heap_of heap_top pager]. rewrite Hd. unfold cur_task. rewrite (tn_tasks _ _ _ _ _ H).
  assert (vs_avail (mkVs (m_mm m') (dir m c)) = vs_avail (mkVs (m_mm m) (dir m c))) as ->; [|exact H2].
  unfold vs_avail. cbn [vs_mm vs_dir]. rewrite (heap_missing_same _ _ _ (tn_pde _ _ _ _ _ H)).
  rewrite (free_count_ok _ l (vw_free _ _ _ (uw_vm _ _ _ (ik_wf _ _ _ Hik)))).
  by rewrite (free_count_ok _ l (vw_free _ _ _ (uw_vm _ _ _ (ik_wf _ _ _ Hik')))).
Qed.

Lemma turn_files W c l (m m' : machine D) : turn W c l m m' -> files m' c = files m c.
Proof. intros H. unfold files. by rewrite (tn_sfs _ _ _ _ _ H), (tn_ofile _ _ _ _ _ H). Qed.

Lemma turn_slots W c l (m m' : machine D) i fd k : turn W c l m m' -> open_slots m c i fd k -> open_slots m' c i fd k.
Proof.
  intros H [A1 A2 A3 A4]. constructor; rewrite ?(tn_sfs _ _ _ _ _ H), ?(tn_ofile _ _ _ _ _ H), ?(tn_iname _ _ _ _ _ H); assumption.
Qed.

Lemma turn_keeps (W U : Z -> Prop) c l (m m' : machine D) : turn W c l m m' -> (forall x, U x -> ~ W x) ->
  keeps m m' c U 0 0.
Proof.
  intros H HU. constructor; [exact (turn_dir _ _ _ _ _ H)| |exact (tn_esp _ _ _ _ _ H)| |].
  - unfold cur_task. by rewrite (tn_tasks _ _ _ _ _ H).
  - intros va _. apply (tn_entry _ _ _ _ _ H).
  - intros va Hva Hp Hpr _. apply (tn_byte _ _ _ _ _ H); auto.
Qed.

End Turn.

(** ** A frame for system calls *)

(** The bytes a call writes: three words of arguments and one character. *)
Definition scratch (esp slot : Z) (x : Z) : Prop := esp + 4 <= x < esp + 16 \/ x = slot.

(** Both are mapped in the user half, and a NUL comes somewhere behind the
    character: [sys_write] measures its argument as a string. *)
Record frame {D : Type} (m : machine D) (c : nat) (slot : Z) (rest : list Z) : Prop := {
  fr_args : priv_at (m_mm m) (dir m c) (tf_get m c TF_ESP + 4) 12;
  fr_low : tf_get m c TF_ESP + 16 <= KERNBASE;
  fr_slot : priv_at (m_mm m) (dir m c) slot 1;
  fr_rest : string_at (m_mm m) (dir m c) (slot + 1) rest;
  fr_top : slot + Z.of_nat (length rest) + 2 <= KERNBASE;
  fr_dis : disjoint (tf_get m c TF_ESP + 4) 12 slot (Z.of_nat (length rest) + 2)
}.

Lemma bytes_at_join s d va l1 l2 :
  bytes_at s d va l1 -> bytes_at s d (va + Z.of_nat (length l1)) l2 -> bytes_at s d va (l1 ++ l2).
Proof.
  intros [(A0 & A1 & A2) Ab] [(B0 & B1 & B2) Bb]. split.
  - rewrite length_app, Nat2Z.inj_add. split; [exact A0|]. split; [lia|]. intros x Hx.
    destruct (decide (x < va + Z.of_nat (length l1))) as [Hn|Hn]; [apply A2; lia|apply B2; lia].
  - intros i x Hi. apply lookup_app_Some in Hi as [Hi|[Hl Hi]]; [by apply Ab|].
    replace (va + Z.of_nat i) with (va + Z.of_nat (length l1) + Z.of_nat (i - length l1)) by lia. by apply Bb.
Qed.

Section Frames.

Context {D : Type} `{dev : BlockDev D} `{uart : Uart}.
Context (task_ptr : nat -> Z) (trap_ret do_nothing kdata rpos_chan : Z).
Context (fuel : nat) (beyond : Z -> Z) (idx : list Z) (junk_tp : option nat) (junk_pgdir : Z).

Abbreviation call := (syscall (uart := uart) task_ptr trap_ret do_nothing kdata rpos_chan fuel beyond idx junk_tp junk_pgdir).
Abbreviation stub := (ucall (uart := uart) task_ptr trap_ret do_nothing kdata rpos_chan fuel beyond idx junk_tp junk_pgdir).
Abbreviation put := (uputc (uart := uart) task_ptr trap_ret do_nothing kdata rpos_chan fuel beyond idx junk_tp junk_pgdir).
Abbreviation prints := (uprint (uart := uart) task_ptr trap_ret do_nothing kdata rpos_chan fuel beyond idx junk_tp junk_pgdir).
Abbreviation print_s := (uprint_str (uart := uart) task_ptr trap_ret do_nothing kdata rpos_chan fuel beyond idx junk_tp junk_pgdir).

Lemma frame_turn c l (m m' : machine D) slot rest :
  frame m c slot rest -> turn (scratch (tf_get m c TF_ESP) slot) c l m m' -> frame m' c slot rest.
Proof.
  intros [F1 F2 F3 F4 F5 F6] H. constructor; rewrite ?(tn_esp _ _ _ _ _ H); try assumption.
  - exact (turn_priv _ _ _ _ _ _ _ H F1).
  - exact (turn_priv _ _ _ _ _ _ _ H F3).
  - apply (turn_string _ _ _ _ _ _ _ H); [|exact F4]. intros x Hx [Hw|Hw]; unfold disjoint in F6; lia.
Qed.

(** The stub puts the arguments where the kernel looks for them. *)
Lemma ucall_args W c l (m : machine D) num ws :
  in_kernel m c l -> priv_at (m_mm m) (dir m c) (tf_get m c TF_ESP + 4) (4 * Z.of_nat (length ws)) ->
  0 <= num < 4294967296 ->
  (forall x, tf_get m c TF_ESP + 4 <= x < tf_get m c TF_ESP + 4 + 4 * Z.of_nat (length ws) -> W x) ->
  exists m1, stub m c num ws = call m1 /\ turn W c l m m1 /\ tf_get m1 c TF_EAX = num /\ uargs m1 c ws /\
    m_cons m1 = m_cons m.
Proof.
  intros Hik Hat Hnum HW. assert (Hl : Z.of_nat (length (words ws)) = 4 * Z.of_nat (length ws)) by (rewrite words_length; lia).
  rewrite <- Hl in Hat, HW.
  destruct (vwrite_ok (dir m c) l (words ws) (m_mm m) _ (ik_wf _ _ _ Hik) Hat (words_bytes ws)) as (s & E & Hst & Hb).
  pose proof (turn_stored W c l m s _ _ Hik Hst Hat HW) as T1. pose proof (tn_kernel _ _ _ _ _ T1) as Hik1.
  destruct (tf_set_ok (set_mm m s) c l TF_EAX num Hik1) as (_ & G & P & V); [done|done|].
  pose proof (turn_tf W c l (set_mm m s) TF_EAX num Hik1 ltac:(done) ltac:(done) ltac:(by left)) as T2.
  exists (tf_set (set_mm m s) c TF_EAX num). split; [unfold ucall; rewrite E; done|].
  split; [exact (turn_trans _ _ _ _ _ _ T1 T2)|]. split; [rewrite G; by apply u32_small|]. split; [|done].
  unfold uargs. rewrite (tn_esp _ _ _ _ _ (turn_trans _ _ _ _ _ _ T1 T2)).
  exact (bytes_at_same _ _ _ _ _ P V Hb).
Qed.

(** [write(1, p, 1)] puts one character on the console. *)
Lemma write_one c l (m : machine D) p str con :
  in_kernel m c l -> tf_get m c TF_EAX = SYS_write -> uargs m c [1; p; 1] ->
  string_at (m_mm m) (dir m c) p str -> (length str < fuel)%nat ->
  put_c (m_cons m) (vbyte (m_mm m) (dir m c) p) = Ret con ->
  call m = Ret (tf_set (set_cons m con) c TF_EAX 0, Returns 0).
Proof.
  intros Hik Heax Ha Hs Hf E. assert (Hp : 0 <= p < 4294967295 /\ present (m_mm m) (dir m c) p).
  { destruct Hs as [_ Hs]. destruct str; cbn [app] in Hs; apply bytes_at_cons in Hs as (_ & H1 & _ & H2 & _); done. }
  destruct Hp as [Hp Hpr]. eapply (syscall_returns _ _ _ _ _ _ _ _ _ _ m (set_cons m con) c 4); [apply Hik|exact Heax|reflexivity|].
  unfold sys_write. rewrite (argint_ok m c l _ 0 1 Hik Ha ltac:(lia) eq_refl ltac:(lia)), bind_Ret.
  rewrite (argstr_ok m c l _ 1 p str fuel Hik Ha ltac:(lia) eq_refl ltac:(lia) Hs Hf), bind_Ret.
  rewrite (argint_ok m c l _ 2 1 Hik Ha ltac:(lia) eq_refl ltac:(lia)), bind_Ret. rewrite !s32_small by lia.
  rewrite decide_True by (by left). rewrite decide_True by done. rewrite vload8_ok, bind_Ret by exact Hpr. by rewrite E.
Qed.

Lemma vstore8_one c l (m : machine D) slot ch :
  in_kernel m c l -> priv_at (m_mm m) (dir m c) slot 1 -> 0 <= ch < 256 ->
  exists s, vstore8 (m_mm m) (dir m c) slot ch = Ret s /\ Vmem.stored (m_mm m) s (dir m c) l slot 1 /\ bytes_at s (dir m c) slot [ch].
Proof.
  intros Hik Hat Hch.
  destruct (vwrite_ok (dir m c) l [ch] (m_mm m) slot (ik_wf _ _ _ Hik) Hat) as (s & E & Hst & Hb); [by constructor|].
  exists s. split; [|by split]. cbn [vwrite] in E.
  destruct (vstore8 (m_mm m) (dir m c) slot ch) as [s1|]; [|discriminate E]. exact E.
Qed.

Lemma uputc_ok c l (m : machine D) slot rest ch :
  in_kernel m c l -> frame m c slot rest -> (S (length rest) < fuel)%nat -> 0 <= ch < 256 ->
  exists m', put c slot m ch = Ret m' /\ turn (scratch (tf_get m c TF_ESP) slot) c l m m' /\
    put_c (m_cons m) ch = Ret (m_cons m').
Proof.
  intros Hik Hfr Hf Hch. set (W := scratch (tf_get m c TF_ESP) slot). pose proof Hfr as [F1 F2 F3 F4 F5 F6].
  destruct (vstore8_one c l m slot ch Hik F3 Hch) as (s & E & Hst & Hb).
  assert (T0 : turn W c l m (set_mm m s)).
  { apply (turn_stored W c l m s slot 1 Hik Hst F3). intros x Hx. right. lia. }
  assert (Hstr : string_at s (dir m c) slot (if decide (ch = 0) then [] else ch :: rest)).
  { destruct (decide (ch = 0)) as [->|Hn]; [by split|]. split; [constructor; [exact Hn|apply F4]|].
    apply (bytes_at_join _ _ _ [ch]); [exact Hb|]. cbn [length].
    eapply bytes_at_stored; [exact (ik_wf _ _ _ Hik)|exact Hst|exact F3|unfold disjoint; lia|exact (proj2 F4)]. }
  pose proof (frame_turn c l m _ slot rest Hfr T0) as Hfr1. set (m0 := set_mm m s) in *.
  set (W0 := fun x => tf_get m c TF_ESP + 4 <= x < tf_get m c TF_ESP + 16).
  destruct (ucall_args W0 c l m0 SYS_write [1; slot; 1] (tn_kernel _ _ _ _ _ T0)) as (m1 & E1 & T1 & He & Ha & Hc1).
  { exact (fr_args _ _ _ _ Hfr1). } { done. } { rewrite (tn_esp _ _ _ _ _ T0). intros x Hx. unfold W0. cbn in Hx. lia. }
  destruct (put_c_ok (m_cons m) ch) as (con & Ec & _). pose proof (tn_kernel _ _ _ _ _ T1) as Hik1.
  set (str := if decide (ch = 0) then [] else ch :: rest) in *.
  assert (Hlen : (length str <= S (length rest))%nat) by (unfold str; case_decide; cbn; lia).
  assert (HW : forall x, slot <= x <= slot + Z.of_nat (length str) -> ~ W0 x)
    by (intros x Hx Hw; unfold W0 in Hw; unfold disjoint in F6; lia).
  pose proof (turn_string W0 c l m0 m1 slot str T1 HW Hstr) as Hs1.
  pose proof (turn_bytes W0 c l m0 m1 slot [ch] T1 ltac:(intros x Hx; apply HW; cbn in Hx; lia) Hb) as [_ Hb1].
  specialize (Hb1 0%nat ch eq_refl). rewrite Z.add_0_r in Hb1.
  exists (tf_set (set_cons m1 con) c TF_EAX 0). split; [|split; [|exact Ec]].
  - unfold uputc. rewrite E, bind_Ret. fold m0. unfold ucall_ret. rewrite E1.
    rewrite (write_one c l m1 slot str con Hik1 He Ha Hs1 ltac:(lia)); [done|]. by rewrite Hb1, Hc1.
  - apply (turn_trans W c l m m0 _ T0). apply (turn_trans W c l m0 m1).
    + apply (turn_weaken W0); [|exact T1]. intros x Hx. by left.
    + apply (turn_trans W c l m1 (set_cons m1 con)); [by apply turn_cons|].
      apply turn_tf; [by apply in_kernel_cons|done|done|by left].
Qed.

(** Text printed by the program comes out on the console. *)
Lemma uprint_ok c l slot rest text : forall (m : machine D),
  in_kernel m c l -> frame m c slot rest -> (S (length rest) < fuel)%nat -> Forall (fun b => 0 <= b < 256) text ->
  exists m', prints c slot m text = Ret m' /\ turn (scratch (tf_get m c TF_ESP) slot) c l m m' /\
    emit put_c (m_cons m) text = Ret (m_cons m').
Proof.
  induction text as [|ch text IH]; intros m Hik Hfr Hf Ht.
  - exists m. split; [done|]. split; [by apply turn_refl|done].
  - apply Forall_cons in Ht as [Hch Ht]. destruct (uputc_ok c l m slot rest ch Hik Hfr Hf Hch) as (m1 & E1 & T1 & C1).
    destruct (IH m1 (tn_kernel _ _ _ _ _ T1) (frame_turn c l m m1 slot rest Hfr T1) Hf Ht) as (m2 & E2 & T2 & C2).
    rewrite (tn_esp _ _ _ _ _ T1) in T2. exists m2. split; [|split; [exact (turn_trans _ _ _ _ _ _ T1 T2)|]].
    + unfold uprint in *. cbn [emit]. rewrite E1. exact E2.
    + cbn [emit]. rewrite C1. exact C2.
Qed.

(** So does a string in its memory. *)
Lemma uprint_str_ok c l slot rest str : forall k (m : machine D) p,
  in_kernel m c l -> frame m c slot rest -> (S (length rest) < fuel)%nat ->
  string_at (m_mm m) (dir m c) p str -> (length str < k)%nat ->
  (forall x, p <= x <= p + Z.of_nat (length str) -> ~ scratch (tf_get m c TF_ESP) slot x) ->
  exists m', print_s k c slot m p = Ret m' /\ turn (scratch (tf_get m c TF_ESP) slot) c l m m' /\
    emit put_c (m_cons m) str = Ret (m_cons m').
Proof.
  induction str as [|b str IH]; intros [|k] m p Hik Hfr Hf Hs Hk HW; try (cbn in Hk; lia); pose proof Hs as [Hn Hb];
    cbn [app] in Hb; apply bytes_at_cons in Hb as (_ & Hp & Hv & Hr & Hb); cbn [uprint_str]; rewrite vload8_ok, bind_Ret, Hv by exact Hp.
  - rewrite decide_True by done. exists m. split; [done|]. split; [by apply turn_refl|done].
  - apply Forall_cons in Hn as [Hb0 Hn]. rewrite decide_False by exact Hb0. rewrite u32_small by lia. cbn [length] in *.
    pose proof (vbyte_range _ _ _ p (ik_wf _ _ _ Hik)) as Hb256. rewrite Hv in Hb256.
    destruct (uputc_ok c l m slot rest b Hik Hfr Hf Hb256) as (m1 & E1 & T1 & C1). rewrite E1, bind_Ret.
    pose proof (turn_string _ c l m m1 (p + 1) str T1 ltac:(intros x Hx; apply HW; lia) (conj Hn Hb)) as Hs1.
    destruct (IH k m1 (p + 1) (tn_kernel _ _ _ _ _ T1) (frame_turn c l m m1 slot rest Hfr T1) Hf Hs1 ltac:(lia)) as (m2 & E2 & T2 & C2).
    { rewrite (tn_esp _ _ _ _ _ T1). intros x Hx. apply HW. lia. }
    rewrite (tn_esp _ _ _ _ _ T1) in T2. exists m2. split; [exact E2|]. split; [exact (turn_trans _ _ _ _ _ _ T1 T2)|].
    cbn [emit]. rewrite C1. exact C2.
Qed.

(** ** echo *)

(** What echo prints. *)
Fixpoint echo_text (args : list (list Z)) : list Z :=
  match args with
  | [] => []
  | [a] => a ++ [10]
  | a :: args' => a ++ [32] ++ echo_text args'
  end.

(** The argument strings [args] at the pointers [ps], clear of the scratch bytes. *)
Definition args_at (m : machine D) (c : nat) (slot : Z) (ps : list Z) (args : list (list Z)) : Prop :=
  Forall2 (fun p a => 0 <= p < 4294967296 /\ string_at (m_mm m) (dir m c) p a /\ (length a < fuel)%nat /\
    forall x, p <= x <= p + Z.of_nat (length a) -> ~ scratch (tf_get m c TF_ESP) slot x) ps args.

Lemma args_at_turn c l (m m' : machine D) slot ps args :
  turn (scratch (tf_get m c TF_ESP) slot) c l m m' -> args_at m c slot ps args -> args_at m' c slot ps args.
Proof.
  intros T H. apply (Forall2_impl _ _ _ _ H). intros p a (H1 & H2 & H3 & H4). rewrite (tn_esp _ _ _ _ _ T).
  split; [exact H1|]. split; [exact (turn_string _ _ _ _ _ _ _ T H4 H2)|]. by split.
Qed.

Lemma echo_loop_ok c l slot rest args : forall (m : machine D) before ps argv,
  in_kernel m c l -> frame m c slot rest -> (S (length rest) < fuel)%nat ->
  bytes_at (m_mm m) (dir m c) argv (words (before ++ ps)) -> args_at m c slot ps args ->
  (forall x, argv <= x < argv + 4 * Z.of_nat (length (before ++ ps)) -> ~ scratch (tf_get m c TF_ESP) slot x) ->
  exists m', echo_loop (uart := uart) task_ptr trap_ret do_nothing kdata rpos_chan fuel beyond idx junk_tp junk_pgdir (length args) c slot m
      (Z.of_nat (length (before ++ ps))) argv (Z.of_nat (length before)) = Ret m' /\
    turn (scratch (tf_get m c TF_ESP) slot) c l m m' /\ emit put_c (m_cons m) (echo_text args) = Ret (m_cons m').
Proof.
  induction args as [|a args IH]; intros m before ps argv Hik Hfr Hf Hv Ha HW.
  - exists m. split; [done|]. split; [by apply turn_refl|done].
  - apply Forall2_cons_inv_r in Ha as (p & ps' & (Hp & Hs & Hl & Hoff) & Ha & ->). cbn [length echo_loop].
    rewrite (words_at _ _ l _ (ik_wf _ _ _ Hik) argv (length before) p Hv); [|by rewrite lookup_app_r, Nat.sub_diag by lia|exact Hp].
    rewrite bind_Ret. destruct (uprint_str_ok c l slot rest a fuel m p Hik Hfr Hf Hs Hl Hoff) as (m1 & E1 & T1 & C1).
    rewrite E1, bind_Ret. set (sep := if decide _ then _ else _).
    assert (Hsep : Forall (fun b => 0 <= b < 256) sep) by (unfold sep; case_decide; (constructor; [lia|constructor])).
    destruct (uprint_ok c l slot rest sep m1 (tn_kernel _ _ _ _ _ T1) (frame_turn _ _ _ _ _ _ Hfr T1) Hf Hsep) as (m2 & E2 & T2 & C2).
    rewrite (tn_esp _ _ _ _ _ T1) in T2. pose proof (turn_trans _ _ _ _ _ _ T1 T2) as T12. rewrite E2, bind_Ret.
    assert (El : before ++ p :: ps' = (before ++ [p]) ++ ps') by (by rewrite <- app_assoc). rewrite El in *.
    destruct (IH m2 (before ++ [p]) ps' argv (tn_kernel _ _ _ _ _ T2) (frame_turn _ _ _ _ _ _ Hfr T12) Hf) as (m3 & E3 & T3 & C3).
    { apply (turn_bytes _ _ _ _ _ _ _ T12); [|exact Hv]. rewrite words_length. intros x Hx. apply HW. lia. }
    { exact (args_at_turn _ _ _ _ _ _ _ T12 Ha). } { rewrite (tn_esp _ _ _ _ _ T12). exact HW. }
    rewrite (tn_esp _ _ _ _ _ T12) in T3. exists m3. split; [|split; [exact (turn_trans _ _ _ _ _ _ T12 T3)|]].
    + replace (Z.of_nat (length before) + 1) with (Z.of_nat (length (before ++ [p]))) by (rewrite length_app; cbn; lia). exact E3.
    + pose proof (Forall2_length _ _ _ Ha) as Hlen.
      assert (Et : echo_text (a :: args) = a ++ sep ++ echo_text args).
      { unfold sep. rewrite !length_app. cbn [length]. destruct args as [|a2 args]; [|rewrite decide_True by (cbn in Hlen; lia); done].
        rewrite decide_False by (cbn in Hlen; lia). done. }
      rewrite Et, emit_app, C1, bind_Ret, emit_app, C2, bind_Ret. exact C3.
Qed.

End Frames.

(** ** What a call on a file leaves alone *)

(** The pages of [U] stay mapped, with their bytes outside [W]. *)
Record spares {D : Type} (W U : Z -> Prop) (c : nat) (m m' : machine D) : Prop := {
  sp_dir : dir m' c = dir m c;
  sp_esp : tf_get m' c TF_ESP = tf_get m c TF_ESP;
  sp_entry : forall va, U va -> pt_entry (m_mm m') (dir m c) va = pt_entry (m_mm m) (dir m c) va;
  sp_byte : forall va, U va -> private va -> present (m_mm m) (dir m c) va -> ~ W va ->
    vbyte (m_mm m') (dir m c) va = vbyte (m_mm m) (dir m c) va
}.

Section Spares.

Context {D : Type} `{dev : BlockDev D}.

Lemma spares_trans W U c (m1 m2 m3 : machine D) : spares W U c m1 m2 -> spares W U c m2 m3 -> spares W U c m1 m3.
Proof.
  intros [A1 A2 A3 A4] [B1 B2 B3 B4]. rewrite A1 in B3, B4. constructor; [congruence|congruence| |].
  - intros va Hva. by rewrite B3, A3.
  - intros va Hva Hp Hpr Hw. rewrite B4; [by apply A4|done|done| |done]. unfold present. by rewrite A3.
Qed.

Lemma turn_spares (W W' U : Z -> Prop) c l (m m' : machine D) : turn W c l m m' -> (forall x, W x -> W' x) -> spares W' U c m m'.
Proof.
  intros H HW. constructor; [exact (turn_dir _ _ _ _ _ H)|exact (tn_esp _ _ _ _ _ H)|intros va _; exact (tn_entry _ _ _ _ _ H va)|].
  intros va _ Hp Hpr Hn. apply (tn_byte _ _ _ _ _ H); auto.
Qed.

Lemma keeps_spares (W U V : Z -> Prop) c (m m' : machine D) a n : keeps m m' c V a n ->
  (forall x, U x -> V x) -> (forall x, a <= x < a + n -> W x) -> spares W U c m m'.
Proof.
  intros [A1 A2 A3 A4 A5] HU HW. constructor; [done|done|auto|]. intros va Hva Hp Hpr Hn. apply A5; auto.
Qed.

Lemma spares_priv W (U : Z -> Prop) c (m m' : machine D) va n : spares W U c m m' -> (forall x, va <= x < va + n -> U x) ->
  priv_at (m_mm m) (dir m c) va n -> priv_at (m_mm m') (dir m' c) va n.
Proof.
  intros [-> _ He _] HU (H0 & H1 & H2). split; [exact H0|]. split; [exact H1|]. intros x Hx.
  unfold present. rewrite He by auto. by apply H2.
Qed.

Lemma spares_bytes (W U : Z -> Prop) c (m m' : machine D) va bs : spares W U c m m' ->
  (forall x, va <= x < va + Z.of_nat (length bs) -> U x /\ ~ W x) ->
  bytes_at (m_mm m) (dir m c) va bs -> bytes_at (m_mm m') (dir m' c) va bs.
Proof.
  intros H HU [Hp Hb]. split; [apply (spares_priv W U c m); [exact H|intros x Hx; by apply HU|exact Hp]|].
  rewrite (sp_dir _ _ _ _ _ H). intros i b Hi. pose proof (lookup_lt_Some _ _ _ Hi).
  destruct (priv_at_byte _ _ _ _ (Z.of_nat i) Hp ltac:(lia)) as [P1 P2]. destruct (HU (va + Z.of_nat i) ltac:(lia)) as [U1 U2].
  rewrite (sp_byte _ _ _ _ _ H) by assumption. by apply Hb.
Qed.

Lemma spares_string (W U : Z -> Prop) c (m m' : machine D) va str : spares W U c m m' ->
  (forall x, va <= x <= va + Z.of_nat (length str) -> U x /\ ~ W x) ->
  string_at (m_mm m) (dir m c) va str -> string_at (m_mm m') (dir m' c) va str.
Proof.
  intros H HU [Hn Hb]. split; [exact Hn|]. apply (spares_bytes W U c m); [exact H| |exact Hb].
  rewrite length_app. cbn [length]. intros x Hx. apply HU. lia.
Qed.

Lemma spares_frame (W : Z -> Prop) c (m m' : machine D) slot rest :
  spares W user_half c m m' -> (forall x, slot < x < slot + Z.of_nat (length rest) + 2 -> ~ W x) ->
  frame m c slot rest -> frame m' c slot rest.
Proof.
  intros H HW [F1 F2 F3 F4 F5 F6]. pose proof F1 as (G1 & G2 & _). pose proof F3 as (G3 & G4 & _).
  constructor; rewrite ?(sp_esp _ _ _ _ _ H); try assumption.
  - apply (spares_priv _ _ _ _ _ _ _ H); [|exact F1]. intros x Hx. unfold user_half. lia.
  - apply (spares_priv _ _ _ _ _ _ _ H); [|exact F3]. intros x Hx. unfold user_half. lia.
  - apply (spares_string _ _ _ _ _ _ _ H); [|exact F4]. intros x Hx. split; [unfold user_half; lia|apply HW; lia].
Qed.

End Spares.

(** ** cat *)

Section Cat.

Context {D : Type} `{dev : BlockDev D} `{uart : Uart}.
Context (task_ptr : nat -> Z) (trap_ret do_nothing kdata rpos_chan : Z).
Context (fuel : nat) (beyond : Z -> Z) (idx : list Z) (junk_tp : option nat) (junk_pgdir : Z).
Context (numblk : Z) (Hnb : 2 <= numblk <= 8388607).
Context (im : memory) (es : list ent) (d0 i0 : Z) (Him : image numblk im es d0 i0) (Hnames : names_ok es).

Abbreviation ret_of := (ucall_ret (uart := uart) task_ptr trap_ret do_nothing kdata rpos_chan fuel beyond idx junk_tp junk_pgdir).

(** The bytes a program that reads into [buf] writes. *)
Definition touched (esp slot buf : Z) (x : Z) : Prop := scratch esp slot x \/ buf <= x < buf + 512.

(** The buffer is in the user half, apart from what calls use. *)
Record buffer_ok (m : machine D) (c : nat) (slot : Z) (rest : list Z) (buf : Z) : Prop := {
  bo_priv : priv_at (m_mm m) (dir m c) buf 512;
  bo_low : buf + 512 <= KERNBASE;
  bo_args : disjoint (tf_get m c TF_ESP + 4) 12 buf 512;
  bo_slot : disjoint slot (Z.of_nat (length rest) + 2) buf 512
}.

Lemma spares_buffer c (m m' : machine D) slot rest buf :
  spares (touched (tf_get m c TF_ESP) slot buf) user_half c m m' -> frame m c slot rest -> buffer_ok m c slot rest buf ->
  frame m' c slot rest /\ buffer_ok m' c slot rest buf.
Proof.
  intros H Hfr [B1 B2 B3 B4]. split.
  - apply (spares_frame _ _ _ _ _ _ H); [|exact Hfr]. pose proof (fr_dis _ _ _ _ Hfr). unfold disjoint in *.
    intros x Hx [[Hw|Hw]|Hw]; lia.
  - constructor; rewrite ?(sp_esp _ _ _ _ _ H); try assumption. pose proof B1 as (G1 & G2 & _).
    apply (spares_priv _ _ _ _ _ _ _ H); [|exact B1]. intros x Hx. unfold user_half. lia.
Qed.

(** [read(fd, buf, 512)] from the program. *)
Lemma uread_ok c l (m : machine D) slot rest fd buf str content pos :
  in_kernel m c l -> frame m c slot rest -> buffer_ok m c slot rest buf -> 0 < fd < NOFILE ->
  string_at (m_mm m) (dir m c) buf str -> (length str < 512)%nat -> (length str < fuel)%nat ->
  mounted numblk im i0 (m_sfs m) -> open_at numblk im (files m c) fd content pos ->
  Z.of_nat (length content) < 2147483648 -> Forall (fun b => 0 <= b < 256) content -> 0 <= pos <= Z.of_nat (length content) ->
  let out := take 512 (drop (Z.to_nat pos) content) in
  exists m', ret_of m c SYS_read [fd; buf; 512] = Ret (m', Z.of_nat (length out)) /\ in_kernel m' c l /\
    bytes_at (m_mm m') (dir m' c) buf out /\ mounted numblk im i0 (m_sfs m') /\
    open_at numblk im (files m' c) fd content (pos + Z.of_nat (length out)) /\ m_cons m' = m_cons m /\
    frame m' c slot rest /\ buffer_ok m' c slot rest buf /\
    spares (fun x => tf_get m c TF_ESP + 4 <= x < tf_get m c TF_ESP + 16 \/ buf <= x < buf + Z.of_nat (length out)) anywhere c m m'.
Proof.
  intros Hik Hfr Hbo Hfd Hs Hl Hf Hm Ho Hc Hb Hpos out. pose proof Hfd as Hfd'. unfold NOFILE in Hfd'. pose proof Hbo as [B1 B2 B3 B4].
  set (W0 := fun x => tf_get m c TF_ESP + 4 <= x < tf_get m c TF_ESP + 16). pose proof B1 as (G1 & G2 & _).
  destruct (ucall_args task_ptr trap_ret do_nothing kdata rpos_chan fuel beyond idx junk_tp junk_pgdir W0 c l m SYS_read [fd; buf; 512] Hik)
    as (m1 & E1 & T1 & He & Ha & Hc1).
  { exact (fr_args _ _ _ _ Hfr). } { done. } { intros x Hx. unfold W0. cbn in Hx. lia. }
  pose proof (turn_dir _ _ _ _ _ T1) as Hd.
  destruct (read_file task_ptr trap_ret do_nothing kdata rpos_chan fuel beyond idx junk_tp junk_pgdir numblk Hnb im i0
              m1 c l fd buf 512 str content pos (tn_kernel _ _ _ _ _ T1) He Ha Hfd ltac:(lia)) as (m2 & E2 & Hik2 & _ & Hb2 & Hm2 & Ho2 & Hk & Hc2); try assumption.
  { apply (turn_string _ _ _ _ _ _ _ T1); [|exact Hs]. unfold W0, disjoint in *. intros x Hx Hw. lia. }
  { exact (turn_priv _ _ _ _ _ _ _ T1 B1). } { by rewrite (tn_sfs _ _ _ _ _ T1). } { by rewrite (turn_files _ _ _ _ _ T1). }
  change (Z.to_nat 512) with 512%nat in *. fold out in E2, Hb2, Ho2, Hk.
  exists m2. split; [unfold ucall_ret; rewrite E1, E2; done|]. split; [exact Hik2|]. split; [exact Hb2|].
  split; [exact Hm2|]. split; [exact Ho2|]. split; [congruence|].
  assert (Hout : (length out <= 512)%nat) by (unfold out; rewrite length_take; lia).
  destruct (spares_buffer c m m2 slot rest buf) as [Hfr2 Hbo2]; [|exact Hfr|exact Hbo|].
  - apply (spares_trans _ _ _ _ m1); [apply (turn_spares W0 _ _ _ _ _ _ T1); intros x Hx; left; by left|].
    apply (keeps_spares _ _ _ _ _ _ _ _ (Hk anywhere)); [done|]. intros x Hx. right. lia.
  - split; [exact Hfr2|]. split; [exact Hbo2|].
    apply (spares_trans _ _ _ _ m1); [apply (turn_spares W0 _ _ _ _ _ _ T1); intros x Hx; by left|].
    apply (keeps_spares _ _ _ _ _ _ _ _ (Hk anywhere)); [done|]. intros x Hx. by right.
Qed.

Lemma zeros_string (m : machine D) c buf n : (0 < n)%nat ->
  bytes_at (m_mm m) (dir m c) buf (replicate n 0) -> string_at (m_mm m) (dir m c) buf [].
Proof.
  intros Hn H. split; [constructor|]. destruct n as [|n]; [lia|]. by apply (bytes_at_app _ _ _ [0]) in H as [H _].
Qed.

(** The screen is in order and the cursor below the status line. *)
Definition screen_below (s : console) : Prop :=
  screen_ok s /\ CONS_COLS <= cons_pos s /\ 0 <= dcolor s < 256.

(** [write(1, buf, n)] of the string in the buffer. *)
Lemma uwrite_ok c l (m : machine D) slot rest buf content :
  in_kernel m c l -> frame m c slot rest -> buffer_ok m c slot rest buf -> string_at (m_mm m) (dir m c) buf content ->
  (0 < length content < 512)%nat -> (length content < fuel)%nat ->
  exists m', ret_of m c SYS_write [1; buf; Z.of_nat (length content)] = Ret (m', 0) /\ in_kernel m' c l /\
    frame m' c slot rest /\ buffer_ok m' c slot rest buf /\ string_at (m_mm m') (dir m' c) buf content /\
    m_sfs m' = m_sfs m /\ files m' c = files m c /\ emit put_c (m_cons m) content = Ret (m_cons m').
Proof.
  intros Hik Hfr Hbo Hs Hl Hf. pose proof Hbo as [(G1 & G2 & _) B2 B3 B4].
  set (W0 := fun x => tf_get m c TF_ESP + 4 <= x < tf_get m c TF_ESP + 16).
  destruct (ucall_args task_ptr trap_ret do_nothing kdata rpos_chan fuel beyond idx junk_tp junk_pgdir W0 c l m SYS_write [1; buf; Z.of_nat (length content)] Hik)
    as (m1 & E1 & T1 & He1 & Ha1 & Hc1).
  { exact (fr_args _ _ _ _ Hfr). } { done. } { intros x Hx. unfold W0. cbn in Hx. lia. }
  assert (Hs1 : string_at (m_mm m1) (dir m1 c) buf content).
  { apply (turn_string _ _ _ _ _ _ _ T1); [|exact Hs]. unfold W0, disjoint in *. intros x Hx Hw. lia. }
  destruct (write_sends task_ptr trap_ret do_nothing kdata rpos_chan fuel beyond idx junk_tp junk_pgdir m1 c l 1 buf (Z.of_nat (length content)) content
              (tn_kernel _ _ _ _ _ T1) He1 Ha1) as (m2 & E2 & Ec & Hik2 & _ & Hk & Hf2 & Hof);
    [by left|lia|lia|exact Hs1|exact Hf|].
  assert (Ew : written (Z.of_nat (length content)) content = content).
  { unfold written. case_decide; [|done]. destruct content as [|b [|]]; cbn [length] in *; [lia|done|lia]. }
  rewrite Ew in Ec.
  assert (Sp : spares (touched (tf_get m c TF_ESP) slot buf) user_half c m m2).
  { apply (spares_trans _ _ _ _ m1); [apply (turn_spares W0 _ _ _ _ _ _ T1); intros x Hx; left; by left|].
    apply (keeps_spares _ _ _ _ _ _ _ _ (Hk anywhere 0 0)); [done|lia]. }
  destruct (spares_buffer c m m2 slot rest buf Sp Hfr Hbo) as [Hfr2 Hbo2].
  exists m2. split; [unfold ucall_ret; rewrite E1, E2; done|]. split; [exact Hik2|]. split; [exact Hfr2|]. split; [exact Hbo2|].
  split; [apply (keeps_string m1 m2 c anywhere 0 0); [apply Hk|done|right; lia|exact Hs1]|].
  split; [rewrite Hf2; apply T1|]. split; [unfold files; rewrite Hf2, Hof; exact (turn_files _ _ _ _ _ T1)|].
  by rewrite <- Hc1.
Qed.

(** The buffer is a string when the contents are shorter than it. *)
Lemma read_string c (m m' : machine D) W buf content :
  bytes_at (m_mm m) (dir m c) buf (replicate 512 0) -> bytes_at (m_mm m') (dir m' c) buf content ->
  (length content < 512)%nat -> Forall (fun b => 0 < b < 256) content -> spares W anywhere c m m' -> ~ W (buf + Z.of_nat (length content)) ->
  string_at (m_mm m') (dir m' c) buf content.
Proof.
  intros Hz Hb Hl Hpr Sp HW. split; [apply (Forall_impl _ _ _ Hpr); lia|]. apply bytes_at_join; [exact Hb|].
  apply (spares_bytes _ _ _ _ _ _ _ Sp).
  - cbn [length]. intros x Hx. replace x with (buf + Z.of_nat (length content)) by lia. by split.
  - replace 512%nat with (length content + S (511 - length content))%nat in Hz by lia. rewrite replicate_add in Hz.
    apply bytes_at_app in Hz as [_ Hz]. rewrite length_replicate in Hz. by apply (bytes_at_app _ _ _ [0]) in Hz as [Hz _].
Qed.

(** The two reads and the write of [cat] on a short file. *)
Lemma cat_ok c l k (m : machine D) slot rest fd buf content :
  in_kernel m c l -> frame m c slot rest -> buffer_ok m c slot rest buf -> 0 < fd < NOFILE ->
  bytes_at (m_mm m) (dir m c) buf (replicate 512 0) -> (0 < length content < 512)%nat -> (length content < fuel)%nat ->
  mounted numblk im i0 (m_sfs m) -> open_at numblk im (files m c) fd content 0 -> Forall (fun b => 0 < b < 256) content ->
  exists m', cat (uart := uart) task_ptr trap_ret do_nothing kdata rpos_chan fuel beyond idx junk_tp junk_pgdir (S (S k)) c m fd buf = Ret m' /\
    in_kernel m' c l /\ frame m' c slot rest /\ emit put_c (m_cons m) content = Ret (m_cons m') /\
    mounted numblk im i0 (m_sfs m').
Proof.
  intros Hik Hfr Hbo Hfd Hz Hl Hf Hm Ho Hpr.
  assert (Hbytes : Forall (fun b => 0 <= b < 256) content) by (apply (Forall_impl _ _ _ Hpr); lia).
  destruct (uread_ok c l m slot rest fd buf [] content 0 Hik Hfr Hbo Hfd (zeros_string m c buf 512 ltac:(lia) Hz))
    as (m1 & E1 & Hik1 & Hb1 & Hm1 & Ho1 & Hc1 & Hfr1 & Hbo1 & Sp1); [cbn; lia|cbn; lia|assumption|assumption|lia|assumption|lia|].
  assert (Eo : take 512 (drop (Z.to_nat 0) content) = content) by (apply take_ge; cbn; lia).
  rewrite Eo in E1, Hb1, Ho1, Sp1. rewrite Z.add_0_l in Ho1. clear Eo.
  assert (Hs1 : string_at (m_mm m1) (dir m1 c) buf content).
  { apply (read_string c m m1 _ buf content Hz Hb1 ltac:(lia) Hpr Sp1). pose proof (bo_args _ _ _ _ _ Hbo) as Hd.
    unfold disjoint in Hd. intros [Hw|Hw]; lia. }
  destruct (uwrite_ok c l m1 slot rest buf content Hik1 Hfr1 Hbo1 Hs1 Hl Hf)
    as (m2 & E2 & Hik2 & Hfr2 & Hbo2 & Hs2 & Hf2 & Hfs2 & Ec).
  destruct (uread_ok c l m2 slot rest fd buf content content (Z.of_nat (length content)) Hik2 Hfr2 Hbo2 Hfd Hs2)
    as (m3 & E3 & Hik3 & _ & Hm3 & _ & Hc3 & Hfr3 & _); [lia|lia|by rewrite Hf2|by rewrite Hfs2|lia|assumption|lia|].
  assert (Eo : take 512 (drop (Z.to_nat (Z.of_nat (length content))) content) = []) by (by rewrite Nat2Z.id, drop_all).
  rewrite Eo in E3. cbn [length] in E3.
  exists m3. split; [|split; [exact Hik3|split; [exact Hfr3|]]].
  - cbn [cat]. rewrite E1, bind_Ret. cbn beta iota. rewrite decide_True by lia. rewrite E2, bind_Ret. cbn beta iota.
    rewrite E3, bind_Ret. cbn beta iota. by rewrite decide_False by lia.
  - rewrite Hc3, <- Hc1. by split.
Qed.

(** [open(p, 0)] from the program. *)
Lemma uopen_ok c l cs (m : machine D) slot rest i fd k p name n st content :
  in_kernel m c l -> frame m c slot rest -> mounted numblk im i0 (m_sfs m) -> open_slots m c i fd k -> (fd < 16)%nat ->
  string_at (m_mm m) (dir m c) p name -> p + Z.of_nat (length name) + 1 <= KERNBASE ->
  (forall x, p <= x <= p + Z.of_nat (length name) -> ~ scratch (tf_get m c TF_ESP) slot x) ->
  (length name < fuel)%nat -> path_ok name -> lookup_ent name es = Some (EFile n st content) ->
  hrepr (heap_of m c) cs -> heap_room m c cs (Z.of_nat (length name) + 1) -> all_short es ->
  exists m' l' t, ret_of m c SYS_open [p; 0] = Ret (m', Z.of_nat fd) /\ in_kernel m' c l' /\
    mounted numblk im i0 (m_sfs m') /\ open_at numblk im (files m' c) (Z.of_nat fd) content 0 /\
    spares (scratch (tf_get m c TF_ESP) slot) user_half c m m' /\
    emit put_c (m_cons m) (open_text name 0 t (Z.of_nat fd)) = Ret (m_cons m') /\
    (short_names es -> t = found_line (Some (EFile n st content))).
Proof.
  intros Hik Hfr Hm Hos Hfd Hs Hlow Hoff Hf Hp Hlk Hr Hroom Hall. set (W := scratch (tf_get m c TF_ESP) slot) in *.
  destruct (ucall_args task_ptr trap_ret do_nothing kdata rpos_chan fuel beyond idx junk_tp junk_pgdir W c l m SYS_open [p; 0] Hik)
    as (m1 & E1 & T1 & He1 & Ha1 & Hc1).
  { rewrite <- (Z.add_0_r (_ + 4)). eapply priv_at_sub; [exact (fr_args _ _ _ _ Hfr)|cbn; lia..]. } { done. }
  { intros x Hx. left. cbn in Hx. lia. }
  pose proof (fr_low _ _ _ _ Hfr) as Hel. pose proof (fr_top _ _ _ _ Hfr) as Hst.
  destruct (open_file task_ptr trap_ret do_nothing kdata rpos_chan fuel beyond idx junk_tp junk_pgdir numblk Hnb im es d0 i0 Him Hnames
              m1 c l cs i fd k p 0 name n st content (tn_kernel _ _ _ _ _ T1) He1 Ha1) as (m2 & l2 & t & E2 & Hik2 & _ & Hm2 & Ho2 & Hk2 & Hc2 & Ht); try assumption; try lia.
  { by rewrite (tn_sfs _ _ _ _ _ T1). } { exact (turn_slots _ _ _ _ _ _ _ _ T1 Hos). } { exact (turn_string _ _ _ _ _ _ _ T1 Hoff Hs). }
  { apply (turn_heap _ _ _ _ _ _ T1); [|exact Hr]. intros x [Hx|Hx]; lia. } { exact (turn_room _ _ _ _ _ _ _ Hik T1 Hroom). }
  { by left. }
  exists m2, l2, t. split; [unfold ucall_ret; rewrite E1, E2; done|]. split; [exact Hik2|]. split; [exact Hm2|]. split; [exact Ho2|].
  split; [|split; [by rewrite <- Hc1|exact Ht]].
  apply (spares_trans _ _ _ _ m1); [exact (turn_spares W _ _ _ _ _ _ T1 (fun x H => H))|].
  apply (keeps_spares _ _ _ _ _ _ _ _ Hk2); [auto|lia].
Qed.

Lemma uclose_ok c l (m : machine D) slot rest fd :
  in_kernel m c l -> frame m c slot rest -> 0 <= fd < 2147483648 ->
  exists m', ret_of m c SYS_close [fd] = Ret (m', 0) /\ turn (scratch (tf_get m c TF_ESP) slot) c l m m' /\
    emit put_c (m_cons m) (sf_close_text fd) = Ret (m_cons m').
Proof.
  intros Hik Hfr Hfd.
  destruct (ucall_args task_ptr trap_ret do_nothing kdata rpos_chan fuel beyond idx junk_tp junk_pgdir
              (scratch (tf_get m c TF_ESP) slot) c l m SYS_close [fd] Hik) as (m1 & E1 & T1 & He1 & Ha1 & Hc1).
  { rewrite <- (Z.add_0_r (_ + 4)). eapply priv_at_sub; [exact (fr_args _ _ _ _ Hfr)|cbn; lia..]. } { done. }
  { intros x Hx. left. cbn in Hx. lia. }
  pose proof (tn_kernel _ _ _ _ _ T1) as Hik1. destruct (m_say_ok m1 (sf_close_text fd)) as (con & Ec & Em).
  exists (tf_set (set_cons m1 con) c TF_EAX 0). split; [|split; [|by rewrite <- Hc1]].
  - unfold ucall_ret. rewrite E1. erewrite (syscall_returns _ _ _ _ _ _ _ _ _ _ m1 (set_cons m1 con) c 5); [done|apply Hik1|exact He1|reflexivity|].
    unfold sys_close. rewrite (argint_ok m1 c l _ 0 fd Hik1 Ha1 ltac:(lia) eq_refl ltac:(lia)), bind_Ret, s32_small by lia.
    unfold ret, sf_close. by rewrite Em.
  - apply (turn_trans _ _ _ _ m1 _ T1). apply (turn_trans _ _ _ _ (set_cons m1 con)); [by apply turn_cons|].
    by apply turn_tf; [apply in_kernel_cons|..|left].
Qed.

Lemma put_text_below text : forall s, screen_below s -> Forall (fun b => 0 <= b < 128 /\ b <> 8) text -> screen_below (put_text s text).
Proof.
  induction text as [|b text IH]; intros s Hs Ht; [exact Hs|]. apply Forall_cons in Ht as [[Hb Hb8] Ht]. cbn [put_text].
  apply IH; [|exact Ht]. destruct Hs as (S1 & S2 & S3). destruct (putc_stays_on_screen s b S1) as (P1 & _ & P3).
  destruct (putc_ok s b S1) as (_ & _ & P4). split; [exact P1|]. split; [apply P3; [|exact S2]|].
  - unfold s8. rewrite Z.mod_small by lia. lia.
  - by rewrite P4.
Qed.

Lemma emit_below text s s' : screen_below s -> Forall (fun b => 0 <= b < 128 /\ b <> 8) text -> emit put_c s text = Ret s' -> screen_below s'.
Proof.
  intros Hs Ht E. destruct (emit_screen text s s) as (con & E' & H1 & H2 & H3); [done|]. rewrite E' in E. injection E as <-.
  pose proof (put_text_below text s Hs Ht) as ((B & P) & Q & R). unfold screen_below, screen_ok. rewrite H1, H2, H3. done.
Qed.

(** The line cat prints before it opens a file. *)
Definition cat_banner (name : list Z) : list Z := chars "debug cat: open " ++ name ++ [10].

Lemma printable_text str : Forall printable str -> Forall (fun b => 0 <= b < 128 /\ b <> 8) str.
Proof. intros H. apply (Forall_impl _ _ _ H). unfold printable. lia. Qed.

Lemma banner_printable : Forall printable (chars "debug cat: open ").
Proof. by apply printable_chars. Qed.

Lemma cat_banner_ok c l (m : machine D) slot rest p name :
  in_kernel m c l -> frame m c slot rest -> (S (length rest) < fuel)%nat ->
  string_at (m_mm m) (dir m c) p name -> (length name < fuel)%nat -> Forall printable name ->
  (forall x, p <= x <= p + Z.of_nat (length name) -> ~ scratch (tf_get m c TF_ESP) slot x) -> screen_below (m_cons m) ->
  exists m1 m2 m',
    uprint (uart := uart) task_ptr trap_ret do_nothing kdata rpos_chan fuel beyond idx junk_tp junk_pgdir c slot m (chars "debug cat: open ") = Ret m1 /\
    uprint_str (uart := uart) task_ptr trap_ret do_nothing kdata rpos_chan fuel beyond idx junk_tp junk_pgdir fuel c slot m1 p = Ret m2 /\
    uprint (uart := uart) task_ptr trap_ret do_nothing kdata rpos_chan fuel beyond idx junk_tp junk_pgdir c slot m2 [10] = Ret m' /\
    turn (scratch (tf_get m c TF_ESP) slot) c l m m' /\ emit put_c (m_cons m) (cat_banner name) = Ret (m_cons m') /\
    screen_below (m_cons m').
Proof.
  intros Hik Hfr Hf Hs Hl Hpr Hoff Hscr.
  destruct (uprint_ok task_ptr trap_ret do_nothing kdata rpos_chan fuel beyond idx junk_tp junk_pgdir c l slot rest (chars "debug cat: open ") m Hik Hfr Hf)
    as (m1 & E1 & T1 & C1).
  { apply (Forall_impl _ _ _ banner_printable). unfold printable. lia. }
  destruct (uprint_str_ok task_ptr trap_ret do_nothing kdata rpos_chan fuel beyond idx junk_tp junk_pgdir c l slot rest name fuel m1 p
              (tn_kernel _ _ _ _ _ T1) (frame_turn _ _ _ _ _ _ Hfr T1) Hf (turn_string _ _ _ _ _ _ _ T1 Hoff Hs) Hl) as (m2 & E2 & T2 & C2).
  { rewrite (tn_esp _ _ _ _ _ T1). exact Hoff. }
  rewrite (tn_esp _ _ _ _ _ T1) in T2. pose proof (turn_trans _ _ _ _ _ _ T1 T2) as T12.
  destruct (uprint_ok task_ptr trap_ret do_nothing kdata rpos_chan fuel beyond idx junk_tp junk_pgdir c l slot rest [10] m2
              (tn_kernel _ _ _ _ _ T2) (frame_turn _ _ _ _ _ _ Hfr T12) Hf) as (m3 & E3 & T3 & C3); [constructor; [lia|constructor]|].
  rewrite (tn_esp _ _ _ _ _ T12) in T3. assert (C : emit put_c (m_cons m) (cat_banner name) = Ret (m_cons m3)).
  { unfold cat_banner. rewrite emit_app, C1, bind_Ret, emit_app, C2, bind_Ret. exact C3. }
  exists m1, m2, m3. split; [exact E1|]. split; [exact E2|]. split; [exact E3|]. split; [exact (turn_trans _ _ _ _ _ _ T12 T3)|]. split; [exact C|].
  apply (emit_below (cat_banner name) (m_cons m)); [exact Hscr| |exact C]. unfold cat_banner.
  apply Forall_app. split; [exact (printable_text _ banner_printable)|]. apply Forall_app.
  split; [by apply printable_text|constructor; [lia|constructor]].
Qed.

(** Text that leaves the screen in order. *)
Definition plain (str : list Z) : Prop := Forall (fun b => 0 <= b < 128 /\ b <> 8) str.

Lemma plain_app a b : plain (a ++ b) <-> plain a /\ plain b.
Proof. apply Forall_app. Qed.

Lemma plain_chars str : forallb (fun c => (32 <=? c) && (c <? 127)) (chars str) = true -> plain (chars str).
Proof. intros H. by apply printable_text, printable_chars. Qed.

Lemma plain_newline : plain [10].
Proof. constructor; [lia|constructor]. Qed.

(** A descriptor has one or two digits. *)
Lemma plain_fd (fd : nat) : (fd < 16)%nat -> plain (dec_text (Z.of_nat fd)).
Proof. intros H. do 16 (destruct fd as [|fd]; [apply printable_text; vm_compute; repeat constructor; done|]). lia. Qed.

Lemma open_text_plain name n st content (fd : nat) :
  Forall printable name -> Forall printable n -> (fd < 16)%nat ->
  plain (open_text name 0 (found_line (Some (EFile n st content))) (Z.of_nat fd)).
Proof.
  intros H1 H2 H3. unfold open_text, sf_open_text, sfs_open_text, found_line. cbn [e_name].
  rewrite !plain_app. pose proof (plain_fd 0 ltac:(lia)) as H0. change (Z.of_nat 0) with 0 in H0.
  repeat match goal with
    | |- _ /\ _ => split
    | |- plain (chars _) => by apply plain_chars
    | |- plain [10] => exact plain_newline
    | |- plain (dec_text 0) => exact H0
    | |- plain (dec_text _) => by apply plain_fd
    | |- plain _ => by apply printable_text
    end.
Qed.

(** C8. The program cat shows a small file.  Started on a path of a mounted image
    whose names are short, with its buffer still zero and a descriptor other
    than 0 free first, on a file of 1 to 511 bytes that are not NUL, it prints
    its line with the path, opens the file, reads it into the buffer through the
    system call, writes it to the console, comes to the end of the file and
    closes it.  The console gets exactly the line of cat, the kernel's lines
    about the opening, the contents and the kernel's lines about the closing;
    before those the contents, if they are printable, stand on the screen in
    front of the cursor.  (A file of 512 bytes or more is written as a string
    that has no NUL in the buffer.) *)
Theorem cat_shows_file c l cs k (m : machine D) slot rest i fd j p name buf n st content
  (Hik : in_kernel m c l) (Hfr : frame m c slot rest) (Hrest : (S (length rest) < fuel)%nat)
  (Hbo : buffer_ok m c slot rest buf) (Hz : bytes_at (m_mm m) (dir m c) buf (replicate 512 0))
  (Hm : mounted numblk im i0 (m_sfs m)) (Hos : open_slots m c i fd j) (Hfd : (0 < fd < 16)%nat)
  (Hs : string_at (m_mm m) (dir m c) p name) (Hlow : p + Z.of_nat (length name) + 1 <= KERNBASE)
  (Hoff : forall x, p <= x <= p + Z.of_nat (length name) -> ~ scratch (tf_get m c TF_ESP) slot x)
  (Hf : (length name < fuel)%nat) (Hname : Forall printable name) (Hp : path_ok name)
  (Hlk : lookup_ent name es = Some (EFile n st content)) (Hshort : short_names es) (Hn : Forall printable n)
  (Hl : (0 < length content < 512)%nat) (Hfc : (length content < fuel)%nat) (Hpr : Forall (fun b => 0 < b < 256) content)
  (Hr : hrepr (heap_of m c) cs) (Hroom : heap_room m c cs (Z.of_nat (length name) + 1))
  (Hscr : screen_below (m_cons m)) :
  exists m' con, cat_arg (uart := uart) task_ptr trap_ret do_nothing kdata rpos_chan fuel beyond idx junk_tp junk_pgdir (S (S k)) c slot m buf p = Ret (m', true) /\
    emit put_c (m_cons m) (cat_banner name ++ open_text name 0 (found_line (Some (EFile n st content))) (Z.of_nat fd) ++ content) = Ret con /\
    (Forall printable content -> shows_text con content) /\ emit put_c con (sf_close_text (Z.of_nat fd)) = Ret (m_cons m').
Proof.
  destruct (cat_banner_ok c l m slot rest p name Hik Hfr Hrest Hs Hf Hname Hoff Hscr) as (m0 & m0' & m1 & E0 & E0' & E1 & T1 & C1 & B1).
  pose proof (frame_turn _ _ _ _ _ _ Hfr T1) as Hfr1. pose proof Hbo as [(G1 & G2 & _) B2 B3 B4].
  destruct (uopen_ok c l cs m1 slot rest i fd j p name n st content (tn_kernel _ _ _ _ _ T1) Hfr1) as (m2 & l2 & t & E2 & Hik2 & Hm2 & Ho2 & Sp2 & C2 & Ht2); try assumption; try lia.
  { by rewrite (tn_sfs _ _ _ _ _ T1). } { exact (turn_slots _ _ _ _ _ _ _ _ T1 Hos). } { exact (turn_string _ _ _ _ _ _ _ T1 Hoff Hs). }
  { rewrite (tn_esp _ _ _ _ _ T1). exact Hoff. }
  { apply (turn_heap _ _ _ _ _ _ T1); [|exact Hr]. pose proof (fr_low _ _ _ _ Hfr). pose proof (fr_top _ _ _ _ Hfr). intros x [Hx|Hx]; lia. }
  { exact (turn_room _ _ _ _ _ _ _ Hik T1 Hroom). } { by apply short_names_all. }
  rewrite (Ht2 Hshort) in C2. rewrite (tn_esp _ _ _ _ _ T1) in Sp2.
  pose proof (spares_trans _ _ _ _ _ _ (turn_spares _ _ user_half _ _ _ _ T1 (fun x H => H)) Sp2) as Sp.
  assert (Sp' : spares (touched (tf_get m c TF_ESP) slot buf) user_half c m m2).
  { destruct Sp as [A1 A2 A3 A4]. constructor; [done|done|done|]. intros va Hu Hq Hpr' Hnw. apply A4; [done..|]. intros Hw. apply Hnw. by left. }
  destruct (spares_buffer c m m2 slot rest buf Sp' Hfr Hbo) as [Hfr2 Hbo2].
  destruct (cat_ok c l2 k m2 slot rest (Z.of_nat fd) buf content Hik2 Hfr2 Hbo2) as (m3 & E3 & Hik3 & Hfr3 & C3 & _); try assumption.
  { unfold NOFILE. lia. }
  { apply (spares_bytes _ _ _ _ _ _ _ Sp); [|exact Hz]. rewrite length_replicate. unfold disjoint in *.
    intros x Hx. split; [unfold user_half; lia|]. intros [Hw|Hw]; lia. }
  assert (B2' : screen_below (m_cons m2)) by (eapply emit_below; [exact B1| |exact C2]; apply open_text_plain; [done|done|lia]).
  destruct (uclose_ok c l2 m3 slot rest (Z.of_nat fd) Hik3 Hfr3 ltac:(lia)) as (m4 & E4 & _ & C4).
  exists m4, (m_cons m3). split; [|rewrite emit_app, C1, bind_Ret, emit_app, C2, bind_Ret; split; [exact C3|split; [|exact C4]]].
  2: { intros Hpc. destruct B2' as (S1 & S2 & S3). apply (emit_shows content (m_cons m2)); try assumption. unfold CONS_COLS. lia. }
  unfold cat_arg. rewrite E0, bind_Ret, E0', bind_Ret, E1, bind_Ret, E2, bind_Ret. cbn beta iota.
  rewrite decide_False by lia. rewrite E3, bind_Ret, E4, bind_Ret. done.
Qed.

End Cat.

(** C9. The program echo prints its arguments: started with [argc] and [argv] in
    its memory, it sends every argument string, one blank between each two and a
    newline behind the last, character by character through [write] to the
    console, changes nothing of its memory but the bytes the calls pass their
    arguments in, and then calls [exit]. *)
Theorem echo_prints {D : Type} {dev : BlockDev D} {uart : Uart} task_ptr trap_ret do_nothing kdata rpos_chan fuel beyond idx junk_tp junk_pgdir
  c l (m : machine D) slot rest argv p0 ps args
  (Hik : in_kernel m c l) (Hfr : frame m c slot rest) (Hrest : (S (length rest) < fuel)%nat)
  (Hargv : bytes_at (m_mm m) (dir m c) argv (words (p0 :: ps))) (Hargs : args_at fuel m c slot ps args)
  (Hoff : forall x, argv <= x < argv + 4 * Z.of_nat (length (p0 :: ps)) -> ~ scratch (tf_get m c TF_ESP) slot x) :
  exists m', echo (uart := uart) task_ptr trap_ret do_nothing kdata rpos_chan fuel beyond idx junk_tp junk_pgdir
               c slot m (Z.of_nat (length (p0 :: ps))) argv =
             ucall task_ptr trap_ret do_nothing kdata rpos_chan fuel beyond idx junk_tp junk_pgdir m' c SYS_exit [] /\
    turn (scratch (tf_get m c TF_ESP) slot) c l m m' /\ emit put_c (m_cons m) (echo_text args) = Ret (m_cons m').
Proof.
  destruct (echo_loop_ok task_ptr trap_ret do_nothing kdata rpos_chan fuel beyond idx junk_tp junk_pgdir c l slot rest args m [p0] ps argv
              Hik Hfr Hrest Hargv Hargs Hoff) as (m' & E & T & C).
  exists m'. split; [|by split]. unfold echo. pose proof (Forall2_length _ _ _ Hargs) as Hl.
  replace (Z.to_nat (Z.of_nat (length (p0 :: ps)) - 1)) with (length args) by (cbn [length]; lia).
  change (Z.of_nat (length [p0])) with 1 in E. change ([p0] ++ ps) with (p0 :: ps) in E. by rewrite E.
Qed.

(** The frame of the machines of Syscall.v. *)
Lemma demo_frame {D : Type} (m : machine D) : tf_get m 0 TF_ESP = 4096 ->
  bytes_at (m_mm m) (dir m 0) 4096 (replicate 20 0) -> frame m 0 4112 [].
Proof.
  intros He [Hp Hb]. rewrite length_replicate in Hp.
  assert (Hs : forall i n, 0 <= i -> 0 <= n -> i + n <= 20 -> priv_at (m_mm m) (dir m 0) (4096 + i) n)
    by (intros i n H1 H2 H3; eapply priv_at_sub; [exact Hp|lia..]).
  constructor; rewrite ?He; [exact (Hs 4 12 ltac:(lia) ltac:(lia) ltac:(lia))|unfold KERNBASE; lia|exact (Hs 16 1 ltac:(lia) ltac:(lia) ltac:(lia))| |cbn; unfold KERNBASE; lia|cbn; unfold disjoint; lia].
  split; [constructor|]. split; [exact (Hs 17 1 ltac:(lia) ltac:(lia) ltac:(lia))|].
  intros [|i] b Hi; [|discriminate Hi]. injection Hi as <-. apply (Hb 17%nat 0). reflexivity.
Qed.

Lemma echo_prints_witness :
  exists (m m' : machine bio),
    echo (dev := bio_blockdev (ide := idle_ide)) (uart := ready_uart) (fun _ => 0) 0 0 0 0 10 (fun _ => 0) [] None 0 0 4112 m 3 4116 =
    ucall (dev := bio_blockdev (ide := idle_ide)) (uart := ready_uart) (fun _ => 0) 0 0 0 0 10 (fun _ => 0) [] None 0 m' 0 SYS_exit [] /\
    emit (put_c (uart := ready_uart)) blank_console [104; 105; 32; 120; 10] = Ret (m_cons m').
Proof.
  destruct (demo_machine (dev := bio_blockdev (ide := idle_ide)) blank_console demo_disk (repeat None 16) 0
    (replicate 20 0 ++ words [4128; 4128; 4131] ++ [104; 105; 0] ++ [120; 0])) as (m & l & Hik & _ & Hesp & Hb & _ & Hc & _).
  { lia. } { cbn. lia. } { by repeat (apply Forall_cons; split; [vm_compute; by split|]). }
  apply bytes_at_app in Hb as [H0 Hb]. apply bytes_at_app in Hb as [H1 Hb]. apply bytes_at_app in Hb as [H2 H3].
  destruct (echo_prints (dev := bio_blockdev (ide := idle_ide)) (uart := ready_uart) (fun _ => 0) 0 0 0 0 10 (fun _ => 0) [] None 0
    0 l m 4112 [] 4116 4128 [4128; 4131] [[104; 105]; [120]] Hik (demo_frame m Hesp H0)) as (m' & E & _ & C).
  - cbn. lia.
  - exact H1.
  - unfold args_at. rewrite Hesp. constructor; [|constructor; [|constructor]].
    + split; [lia|]. split; [split; [repeat constructor; lia|exact H2]|]. split; [cbn; lia|]. intros x Hx. cbn in Hx. unfold scratch. lia.
    + split; [lia|]. split; [split; [repeat constructor; lia|exact H3]|]. split; [cbn; lia|]. intros x Hx. cbn in Hx. unfold scratch. lia.
  - rewrite Hesp. intros x Hx. cbn in Hx. unfold scratch. lia.
  - exists m, m'. split; [exact E|]. rewrite Hc in C. exact C.
Defined.

Lemma cat_shows_file_witness :
  exists (m m' : machine bio),
    cat_arg (dev := bio_blockdev (ide := idle_ide)) (uart := ready_uart) (fun _ => 0) 0 0 0 0 10 (fun _ => 0) [] None 0 2 0 4112 m 4128 4116 = Ret (m', true) /\
    exists con, shows_text con [72; 101; 121; 33] /\ emit (put_c (uart := ready_uart)) con (sf_close_text 1) = Ret (m_cons m').
Proof.
  destruct demo_mount as (im & es & d0 & i0 & _ & f & Him & Hn & Hm & _ & F1 & F2 & _ & Hsh & st & Hlk).
  destruct (demo_machine (dev := bio_blockdev (ide := idle_ide)) blank_console f (Some 5%nat :: repeat None 15) 0
    (replicate 20 0 ++ [97; 0] ++ replicate 10 0 ++ replicate 512 0)) as (m & l & Hik & _ & Hesp & Hb & Hat & Hc & Hf & Hof & Hi & Hr & Htop & Hav & _).
  { lia. } { rewrite !length_app, !length_replicate. cbn. lia. }
  { rewrite !Forall_app. split; [|split; [|split]]; try (apply Forall_replicate; lia). repeat constructor; lia. }
  apply bytes_at_app in Hb as [H0 Hb]. apply bytes_at_app in Hb as [H1 Hb]. apply bytes_at_app in Hb as [_ H2].
  rewrite !length_replicate in H2. cbn [length] in H1, H2.
  destruct (cat_shows_file (dev := bio_blockdev (ide := idle_ide)) (uart := ready_uart) (fun _ => 0) 0 0 0 0 10 (fun _ => 0) [] None 0
    8 ltac:(lia) im es d0 i0 Him Hn 0 l [] 0 m 4112 [] 0 1 0 4116 [97] 4128 [97] st [72; 101; 121; 33] Hik (demo_frame m Hesp H0)) as (m' & con & E & _ & Ht & Hcl).
  - cbn. lia.
  - constructor; [exact (priv_at_sub _ _ 4096 4096 32 512 Hat ltac:(lia) ltac:(lia) ltac:(lia))|unfold KERNBASE; lia|rewrite Hesp; unfold disjoint; lia|cbn; unfold disjoint; lia].
  - exact H2.
  - by rewrite Hf.
  - constructor; [by rewrite Hf, F1|apply Hi|by rewrite Hof|by rewrite Hf, F2].
  - lia.
  - split; [repeat constructor; lia|exact H1].
  - cbn. unfold KERNBASE. lia.
  - rewrite Hesp. intros x Hx. cbn in Hx. unfold scratch. lia.
  - cbn. lia.
  - repeat constructor; unfold printable; lia.
  - split; [cbn; lia|]. by repeat (apply Forall_cons; split; [vm_compute; by split|]).
  - exact Hlk.
  - exact Hsh.
  - repeat constructor; unfold printable; lia.
  - cbn. lia.
  - cbn. lia.
  - repeat constructor; lia.
  - exact Hr.
  - unfold heap_room, room_for. cbn [heap_of heap_top pager]. rewrite Htop. cbn [tot length]. unfold page_up, HEAP_START, HEAP_END, HHEAD.
    split; [lia|]. change ((3489660928 + 0 + (Z.of_nat 1 + 1) + 12 + 4095) / 4096 * 4096 - 3489660928) with 4096. lia.
  - rewrite Hc. split; [split; [intros x; cbn; lia|by split]|by split].
  - exists m, m'. split; [exact E|]. exists con. split; [apply Ht; repeat constructor; unfold printable; lia|exact Hcl].
Defined.
