(* ===== verification/Spawn.v ===== *)
(** * init

    user/init.c on the machine of Machine.v, with the numbers of [printf] and
    the waiting of [sleep]: the message of the day, and the loop that starts the
    shell.  [fork] returns twice: the same code goes on in the parent, with the
    pid of the child, and in the child, with 0, when the scheduler runs it.  The
    theorem follows one turn of the loop through [fork], [wait] and the
    scheduler to the child.  Also user/hello.c, user/todo.c and the commands of
    the shell that only print. *)

From stdpp Require Import base list strings.
From Stdlib Require Import ZArith Lia.
From S2P Require Import Prelude Mmu CString Kalloc PageTable VmSpec Ring Task Heap Vmem Loader Fork UserMem VmHeap.
From S2P Require Import Boot Console Printf Bio Hd Buffer BlockDev Le Sfs MkSfs SfsImage SfsSpec SfsText Machine Exec Syscall User.

Open Scope Z_scope.

Definition O_RDWR : Z := 2.

Definition MOTD_SZ : Z := 1024.

Section Programs.

Context {D : Type} `{dev : BlockDev D} `{uart : Uart}.
Variable task_ptr : nat -> Z.
Variables trap_ret do_nothing kdata rpos_chan : Z.
Variable fuel : nat.
Variable beyond : Z -> Z.
Variable idx : list Z.
Variable junk_tp : option nat.
Variable junk_pgdir : Z.

Abbreviation stub := (ucall (uart := uart) task_ptr trap_ret do_nothing kdata rpos_chan fuel beyond idx junk_tp junk_pgdir).
Abbreviation stub_ret := (ucall_ret (uart := uart) task_ptr trap_ret do_nothing kdata rpos_chan fuel beyond idx junk_tp junk_pgdir).
Abbreviation put := (uputc (uart := uart) task_ptr trap_ret do_nothing kdata rpos_chan fuel beyond idx junk_tp junk_pgdir).
Abbreviation prints := (uprint (uart := uart) task_ptr trap_ret do_nothing kdata rpos_chan fuel beyond idx junk_tp junk_pgdir).
Abbreviation print_s := (uprint_str (uart := uart) task_ptr trap_ret do_nothing kdata rpos_chan fuel beyond idx junk_tp junk_pgdir).

(** [printint] of the library, which has the text of the kernel's. *)
Definition uprintint (c : nat) (slot : Z) (m : machine D) (n base : Z) (sign : bool) : outcome (machine D) :=
  printint (put c slot) m n base sign.

(** [printf] of a text, [%d] and a text. *)
Definition uprint_num (c : nat) (slot : Z) (m : machine D) (before : list Z) (n : Z) (after : list Z) : outcome (machine D) :=
  m1 ← prints c slot m before;
  m2 ← uprintint c slot m1 n 10 true;
  prints c slot m2 after.

(** [printf] of a text, [%s] and a text. *)
Definition uprint_arg (c : nat) (slot : Z) (m : machine D) (before : list Z) (p : Z) (after : list Z) : outcome (machine D) :=
  m1 ← prints c slot m before;
  m2 ← print_s fuel c slot m1 p;
  prints c slot m2 after.

(** [while(get_ticks() - start <= limit);] with the clock at the values [ts] when
    it is asked; [None] when it has not come far enough at the end of them. *)
Fixpoint usleep (ts : list Z) (c : nat) (m : machine D) (start limit : Z) : outcome (option (machine D)) :=
  match ts with
  | [] => Ret None
  | t :: ts' =>
      '(m1, v) ← stub_ret (mkMachine (m_kern m) (m_cons m) (m_sfs m) (m_ofile m) (m_iname m) t (reent m)) c SYS_get_ticks [];
      if decide (s32 (v - start) > limit) then Ret (Some m1) else usleep ts' c m1 start limit
  end.

(** ** init *)

(** From the first line of [main] to [sleep(3)]; [motd] is the address of the
    path, [buf] the buffer. *)
Definition init_motd (c : nat) (slot : Z) (m : machine D) (motd buf : Z) : outcome (machine D) :=
  '(m1, fd0) ← stub_ret m c SYS_open [motd; O_RDWR];
  m2 ← uprint_num c slot m1 (chars "fd0 = ") fd0 [10];
  '(m3, fd) ← stub_ret m2 c SYS_open [motd; O_RDWR];
  m4 ← uprint_num c slot m3 (chars "fd = ") fd [10];
  '(m5, _) ← stub_ret m4 c SYS_read [fd; buf; MOTD_SZ];
  uprint_arg c slot m5 [10] buf [10; 10].

(** The head of the loop. *)
Definition init_fork (c : nat) (slot : Z) (m : machine D) : outcome (machine D * Z) :=
  m1 ← prints c slot m (chars "init: starting sh..." ++ [10]);
  stub_ret m1 c SYS_fork [].

(** Behind the [fork], with what it returned; [path] is the address of "bin/hsh".
    A result of [exec] below 0 means that it failed: otherwise the task goes on
    in the new program. *)
Definition init_forked (c : nat) (slot : Z) (m : machine D) (pid path : Z) : outcome (machine D * sysret) :=
  if decide (s32 pid < 0) then
    m1 ← prints c slot m (chars "Error! init: fork() failed!" ++ [10]); stub m1 c SYS_exit []
  else if decide (s32 pid = 0) then
    '(m1, r) ← stub_ret m c SYS_exec [path; 0];
    if decide (r < 0) then
      m2 ← uprint_num c slot m1 (chars "!! init: exec() failed. ret = ") r [10]; stub m2 c SYS_exit []
    else Ret (m1, Returns r)
  else stub m c SYS_wait [].

(** When [wait] has returned [wpid]: the next [wait], or the end of the turn. *)
Definition init_waited (c : nat) (slot : Z) (m : machine D) (pid wpid : Z) : outcome (machine D * option sysret) :=
  if decide (0 <= wpid /\ wpid <> pid) then
    m1 ← uprint_num c slot m (chars "dead task(pid = ") wpid (chars ")!" ++ [10]);
    '(m2, r) ← stub m1 c SYS_wait []; Ret (m2, Some r)
  else Ret (m, None).

(** ** hello and todo *)

(** [stat("bin/hello", &state)] at [path] and [state]; [st_size] is its third word. *)
Definition hello_stat (c : nat) (slot : Z) (m : machine D) (path state : Z) : outcome (machine D) :=
  '(m1, _) ← stub_ret m c SYS_stat [path; state];
  size ← vload32 (m_mm m1) (dir m1 c) (state + 8);
  m2 ← uprint_num c slot m1 (chars "bin/hello size = |") size (chars "|" ++ [10]);
  prints c slot m2 (chars "start hello: Hello, world" ++ [10]).

(** A turn of its loop, behind [sleep(60)]. *)
Definition hello_turn (c : nat) (slot : Z) (m : machine D) (i : Z) : outcome (machine D) :=
  uprint_num c slot m (chars "hello ") i (chars ".." ++ [10]).

(** [mytest]; [path] is the address of "bin/echo". *)
Definition mytest (c : nat) (slot : Z) (m : machine D) (path xargv : Z) : outcome (machine D) :=
  m1 ← prints c slot m (chars "Start mytest()..." ++ [10]);
  '(m2, r) ← stub_ret m1 c SYS_exec [path; xargv];
  if decide (r < 0) then prints c slot m2 (chars "End mytest()..." ++ [10]) else Ret m2.

(** todo behind its [fork]. *)
Definition todo_forked (c : nat) (slot : Z) (m : machine D) (pid path : Z) : outcome (machine D * sysret) :=
  if decide (s32 pid < 0) then
    m1 ← prints c slot m (chars "Error! fork() failed!" ++ [10]); stub m1 c SYS_exit []
  else if decide (s32 pid = 0) then
    m0 ← prints c slot m (chars "I'm child" ++ [10]);
    '(m1, r) ← stub_ret m0 c SYS_exec [path; 0];
    if decide (r < 0) then
      m2 ← uprint_num c slot m1 (chars "!! exec() failed. ret = ") r [10]; stub m2 c SYS_exit []
    else Ret (m1, Returns r)
  else stub m c SYS_wait [].

Definition todo_waited (c : nat) (slot : Z) (m : machine D) (ret : Z) : outcome (machine D) :=
  uprint_num c slot m (chars "I'm parent, ret = ") ret [10].

Definition todo_turn (c : nat) (slot : Z) (m : machine D) (i : Z) : outcome (machine D * Z) :=
  m1 ← uprint_num c slot m (chars "in todo: i = ") i [10]; Ret (m1, s32 (i + 1)).

(** ** The shell *)

Definition hsh_help (c : nat) (slot : Z) (m : machine D) : outcome (machine D) :=
  prints c slot m (chars "    help" ++ [9] ++ chars "This help" ++ [10] ++
    chars "    cat" ++ [9; 9] ++ chars "Cat one or more file(s)" ++ [10] ++
    chars "    echo" ++ [9] ++ chars "Echo one or more string(s)" ++ [10] ++
    chars "    hello" ++ [9] ++ chars "Run Hello" ++ [10] ++
    chars "    version" ++ [9] ++ chars "Get Hsh's version info" ++ [10]).

Definition get_hsh_version (c : nat) (slot : Z) (m : machine D) : outcome (machine D) :=
  prints c slot m (chars "    hsh " ++ chars "V0.01-dev @ 2014-07-10" ++ [10]).

Definition hsh_clean_screen (c : nat) (slot : Z) (m : machine D) : outcome (machine D) :=
  prints c slot m (chars "(Run command 'clr')" ++ [10]).

(** [check_xargv]: the strings of the vector with their numbers, [argc] so far. *)
Fixpoint check_xargv (k : nat) (c : nat) (slot : Z) (m : machine D) (p argc : Z) : outcome (machine D) :=
  match k with
  | O => Stop Fuel
  | S f =>
      w ← vload32 (m_mm m) (dir m c) p;
      if decide (w = 0) then uprint_num c slot m (chars "argc = ") argc [10]
      else
        m1 ← uprint_num c slot m [] (argc + 1) (chars ": ");
        m2 ← print_s fuel c slot m1 w;
        m3 ← prints c slot m2 [10];
        check_xargv f c slot m3 (p + 4) (argc + 1)
  end.

(** [run_cmd] behind its [fork]: [path] is [cmdbuf], [xargv] the vector; a child
    whose [exec] fails prints a line and waits like the parent. *)
Definition run_forked (c : nat) (slot : Z) (m : machine D) (pid path xargv : Z) : outcome (machine D * sysret) :=
  if decide (s32 pid = -1) then m1 ← prints c slot m (chars "fork() failed" ++ [10]); stub m1 c SYS_exit []
  else if decide (s32 pid = 0) then
    '(m1, r) ← stub_ret m c SYS_exec [path; xargv];
    if decide (r < 0) then
      w ← vload32 (m_mm m1) (dir m1 c) xargv;
      m2 ← uprint_arg c slot m1 (chars "cmd '") w (chars "' failed" ++ [10]); stub m2 c SYS_wait []
    else Ret (m1, Returns r)
  else stub m c SYS_wait [].

End Programs.

(** ** Numbers on the console *)

(** [printf] of a number shows its decimal digits between the two texts, and
    touches nothing but what calls use. *)
Lemma uprint_num_ok {D : Type} {dev : BlockDev D} {uart : Uart} task_ptr trap_ret do_nothing kdata rpos_chan fuel beyond idx
  junk_tp junk_pgdir (m : machine D) c l slot rest before n after :
  in_kernel m c l -> frame m c slot rest -> (S (length rest) < fuel)%nat -> -2147483648 <= n < 2147483648 ->
  Forall (fun b => 0 <= b < 256) before -> Forall (fun b => 0 <= b < 256) after ->
  exists m', uprint_num task_ptr trap_ret do_nothing kdata rpos_chan fuel beyond idx junk_tp junk_pgdir c slot m before n after = Ret m' /\
    turn (scratch (tf_get m c TF_ESP) slot) c l m m' /\ emit put_c (m_cons m) (before ++ dec_text n ++ after) = Ret (m_cons m').
Proof.
  intros Hik Hfr Hf Hn Hb Ha. set (put := uputc task_ptr trap_ret do_nothing kdata rpos_chan fuel beyond idx junk_tp junk_pgdir c slot).
  assert (E : uprint_num task_ptr trap_ret do_nothing kdata rpos_chan fuel beyond idx junk_tp junk_pgdir c slot m before n after =
              emit put m (before ++ dec_text n ++ after)).
  { unfold uprint_num, uprint. fold put. rewrite emit_app. destruct (emit put m before) as [m1|]; cbn [mbind outcome_bind]; [|done].
    unfold uprintint. fold put. rewrite (printint_ok put m1 n n 10 true) by (done || elem_in_bases). rewrite (emit_app put (dec_text n) after).
    unfold dec_text. cbn [frag_text]. repeat (rewrite decide_False by lia). cbn [app andb].
    destruct (decide (n < 0)); [rewrite bool_decide_eq_true_2, Z.abs_neq by lia|rewrite bool_decide_eq_false_2, Z.abs_eq, u32_small by lia]; done. }
  destruct (uprint_ok task_ptr trap_ret do_nothing kdata rpos_chan fuel beyond idx junk_tp junk_pgdir c l slot rest (before ++ dec_text n ++ after) m
    Hik Hfr Hf) as (m' & E' & T & C); [|exists m'; split; [rewrite E; exact E'|by split]].
  apply Forall_app. split; [exact Hb|]. apply Forall_app. split; [|exact Ha]. unfold dec_text. cbn [frag_text].
  apply Forall_app. split; [case_decide; repeat constructor; lia|].
  apply (Forall_impl printable); [apply numeral_printable; lia|unfold printable; lia].
Qed.

(** ** A task that is not running *)

(** The address space and the trap frame, on the page [k], of task [i] in [m],
    copied from what task [c] had in [m0]: the same registers but for [eax], and
    the same bytes of program and stack.  The frame of [c] is on no page of [i]. *)
Record twin {D : Type} (m0 m : machine D) (c i : nat) (k : Z) (l : list Z) : Prop := {
  tc_ne : c <> i;
  tc_wf : user_wf (m_mm m) (dir m i) l;
  tc_tf : t_tf (cur_task m i) = k + 4016 /\ foreign (m_mm m) (dir m i) l k;
  tc_eax : tf_get m i TF_EAX = 0;
  tc_regs : forall j, 0 <= j < TF_SIZE -> ~ (TF_EAX <= j < TF_EAX + 4) ->
    ram (m_mm m) (t_tf (cur_task m i) + j) = ram (m_mm m0) (t_tf (cur_task m0 c) + j);
  tc_mem : forall va, 0 <= va < t_sz (cur_task m0 c) \/ USTACKTOP - PGSIZE <= va < USTACKTOP ->
    present (m_mm m0) (dir m0 c) va ->
    present (m_mm m) (dir m i) va /\ vbyte (m_mm m) (dir m i) va = vbyte (m_mm m0) (dir m0 c) va;
  tc_other : foreign (m_mm m) (dir m i) l (t_tf (cur_task m c) - t_tf (cur_task m c) mod 4096) /\
    t_tf (cur_task m c) mod 4096 + TF_SIZE <= 4096 /\ t_tf (cur_task m c) - t_tf (cur_task m c) mod 4096 <> k;
  tc_sz : t_sz (cur_task m0 c) <= USTACKTOP - PGSIZE
}.

Section Twin.

Context {D : Type}.

(** Tasks, frames and memory decide it. *)
Lemma twin_same (m0 m m' : machine D) c i k l : twin m0 m c i k l -> m_mm m' = m_mm m ->
  t_pgdir (cur_task m' i) = t_pgdir (cur_task m i) -> t_tf (cur_task m' i) = t_tf (cur_task m i) ->
  t_tf (cur_task m' c) = t_tf (cur_task m c) -> twin m0 m' c i k l.
Proof.
  intros [] Em Ed Et Ec. constructor; unfold dir, tf_get in *; rewrite ?Em, ?Ed, ?Et, ?Ec; assumption.
Qed.

(** A register of [c] is set. *)
Lemma twin_set (m0 m : machine D) c i k l off v : twin m0 m c i k l -> 0 <= off -> off + 4 <= TF_SIZE ->
  twin m0 (tf_set m c off v) c i k l.
Proof.
  intros [T0 T1 [T2 T3] T4 T5 T6 (T7 & T8 & T9) T10] H0 H1. set (tf := t_tf (cur_task m c)) in *.
  assert (Hag : agree_outside (tf - tf mod 4096) (tf - tf mod 4096 + 4096) (ram (m_mm m)) (store32 (ram (m_mm m)) (tf + off) v)).
  { eapply agree_outside_weaken; [| |apply store32_outside]; unfold TF_SIZE in *; modlia. }
  destruct (foreign_write (m_mm m) (dir m i) l (tf - tf mod 4096) (store32 (ram (m_mm m)) (tf + off) v) T1 T7 Hag) as (W & E & F & B).
  { apply store32_bytes_ok, (fw_bytes _ _ (vw_free _ _ _ (uw_vm _ _ _ T1))). }
  assert (Hk : forall j, 0 <= j < TF_SIZE -> store32 (ram (m_mm m)) (tf + off) v (k + 4016 + j) = ram (m_mm m) (k + 4016 + j)).
  { intros j Hj. apply Hag. pose proof (page_disjoint k (tf - tf mod 4096) (proj1 T3) (proj1 T7) ltac:(congruence)). unfold TF_SIZE in *. lia. }
  constructor; [exact T0|exact W|split; [exact T2|by apply F]| | | |split; [by apply F|by split]|exact T10].
  - unfold tf_get in *. cbn. fold (cur_task m i). rewrite T2 in *. rewrite <- T4. apply load32_ext. intros x Hx. fold tf.
    replace x with (k + 4016 + (x - (k + 4016))) by lia. apply Hk. unfold TF_EAX, TF_SIZE in *. lia.
  - intros j Hj Hn. rewrite <- T5 by assumption. change (cur_task (tf_set m c off v) i) with (cur_task m i). rewrite T2. by apply Hk.
  - intros va Hva Hp. destruct (T6 va Hva Hp) as [P1 P2]. split; [unfold present in *; rewrite <- P1; f_equal; apply E|].
    rewrite <- P2. apply B; [|exact P1]. unfold USTACKTOP, KERNBASE, PGSIZE in *. priv.
Qed.

(** When the scheduler has switched to it, it is a task in the kernel. *)
Lemma twin_runs (m0 m : machine D) c i k l : twin m0 m c i k l -> current (m_kern m) = Some i -> in_kernel m i l.
Proof.
  intros [T0 T1 [T2 T3] T4 T5 T6 T7 T8] Hc. constructor; [exact Hc|exact T1|]. rewrite T2. destruct T3 as [Ha T3].
  assert (E : (k + 4016) mod 4096 = 4016) by modlia. cbv zeta. rewrite E. replace (k + 4016 - 4016) with k by lia.
  split; [by split|]. unfold TF_SIZE. lia.
Qed.

End Twin.

(** ** fork and wait *)

(** Task [c] can make a child in slot [i], with the pages [k] and [d] for its
    stack and its directory. *)
Record can_fork {D : Type} (kdata : Z) (m : machine D) (c i : nat) (k d : Z) (l : list Z) : Prop := {
  cf_kernel : in_kernel m c (k :: d :: l);
  cf_slot : free_slot (m_kern m) = Some i;
  cf_ne : c <> i;
  cf_data : KERNLINK < kdata /\ kdata mod 4096 = 0;
  cf_ram : kdata - KERNBASE < memsz (m_mm m) * 1024 <= HEAP_START - KERNBASE;
  cf_pages : memsz (m_mm m) * 1024 / 4194304 + 4 + region_cost 0 (t_sz (cur_task m c)) + stack_cost <= Z.of_nat (length l);
  cf_sz : 0 <= t_sz (cur_task m c) <= USTACKTOP - PGSIZE;
  cf_tab : forall va, 0 <= va < t_sz (cur_task m c) -> has (pde_at (m_mm m) (dir m c) (PDX va)) PTE_P = true;
  cf_stk : forall va, USTACKTOP - PGSIZE <= va < USTACKTOP -> present (m_mm m) (dir m c) va
}.

Lemma can_fork_turn {D : Type} kdata W (m m' : machine D) c i k d l :
  turn W c (k :: d :: l) m m' -> can_fork kdata m c i k d l -> can_fork kdata m' c i k d l.
Proof.
  intros T [C1 C2 C3 C4 C5 C6 C7 C8 C9]. pose proof (turn_dir _ _ _ _ _ T) as Hd.
  assert (Et : cur_task m' c = cur_task m c) by (unfold cur_task; by rewrite (tn_tasks _ _ _ _ _ T)).
  constructor; rewrite ?Et, ?Hd, ?(tn_memsz _ _ _ _ _ T); try assumption.
  - apply T.
  - unfold free_slot in *. by rewrite (tn_tasks _ _ _ _ _ T).
  - intros va Hva. rewrite (tn_pde _ _ _ _ _ T) by apply PDX_range. by apply C8.
  - intros va Hva. unfold present. rewrite (tn_entry _ _ _ _ _ T). by apply C9.
Qed.

Section Spawn.

Context {D : Type} `{dev : BlockDev D} `{uart : Uart}.
Context (task_ptr : nat -> Z) (trap_ret do_nothing kdata rpos_chan : Z).
Context (fuel : nat) (beyond : Z -> Z) (idx : list Z) (junk_tp : option nat) (junk_pgdir : Z).

Abbreviation call := (syscall (uart := uart) task_ptr trap_ret do_nothing kdata rpos_chan fuel beyond idx junk_tp junk_pgdir).

(** The page of the frame is not one of the task's, also after the [fork]. *)
Lemma forked_frame (m : machine D) s' c i k d l l' : can_fork kdata m c i k d l -> forked (m_kern m) s' i c k d ->
  user_wf (kmm s') (dir m c) l' -> apart (kmm s') (dir m c) d l' ->
  foreign (kmm s') d l' (t_tf (cur_task m c) - t_tf (cur_task m c) mod 4096) ->
  foreign (kmm s') (dir m c) l' (t_tf (cur_task m c) - t_tf (cur_task m c) mod 4096).
Proof.
  intros Hc F W A (Q1 & Q2 & _). destruct (ik_tf _ _ _ (cf_kernel _ _ _ _ _ _ _ Hc)) as [(P1 & P2 & P3) _]. cbv zeta in *.
  set (q := t_tf (cur_task m c) - t_tf (cur_task m c) mod 4096) in *. split; [exact P1|]. split.
  - intros [H|[H|(j & Hj & Hh & H)]].
    + apply P2. by left.
    + apply Q2. right. by left.
    + unfold dir, cur_task in *. rewrite (fd_pde _ _ _ _ _ _ F) in Hh, H by exact Hj. apply P2. right. right. eauto.
  - intros va Hva Hp. unfold dir, cur_task, present in *. rewrite (fd_parent _ _ _ _ _ _ F) in *. by apply P3.
Qed.

(** The system call [fork]. *)
Lemma fork_call (m : machine D) c i k d l : can_fork kdata m c i k d l -> tf_get m c TF_EAX = SYS_fork ->
  exists m' s' l', call m = Ret (m', Returns (u32 (nextpid (m_kern m)))) /\ forked (m_kern m) s' i c k d /\
    in_kernel m' c l' /\ twin m m' c i k l' /\ m' = tf_set (set_kern m s') c TF_EAX (u32 (nextpid (m_kern m))).
Proof.
  intros Hc He. pose proof Hc as [C1 C2 C3 [C4 C4'] C5 C6 C7 C8 C9]. destruct (ik_tf _ _ _ C1) as [Hfo Hfit]. cbv zeta in *.
  set (tf := t_tf (cur_task m c)) in *. pose proof Hfo as (Hq & Hnv & _).
  destruct (fork_ok trap_ret do_nothing kdata (m_kern m) i c k d (tf - tf mod 4096) l) as (s' & E & F); try assumption.
  { apply C1. } { apply (ik_wf _ _ _ C1). } { intros H. apply Hnv. right. by left. } { change (t_tf (tasks (m_kern m) c)) with tf. pose proof (Z.mod_pos_bound tf 4096 ltac:(lia)). lia. }
  destruct (fd_spaces _ _ _ _ _ _ F) as (l' & W1 & W2 & A & Fk & Ok & Fq). fold (cur_task m c) in Fq. fold tf in Fq.
  pose proof (forked_frame m s' c i k d l l' Hc F W1 A Fq) as Fp. fold tf in Fp.
  set (m1 := set_kern m s'). destruct (fd_rest _ _ _ _ _ _ F) as (Rc & _).
  assert (Etc : cur_task m1 c = cur_task m c) by (unfold cur_task, m1; cbn; by rewrite (fd_others _ _ _ _ _ _ F)).
  assert (Eti : t_pgdir (cur_task m1 i) = d /\ t_tf (cur_task m1 i) = k + 4016).
  { unfold cur_task, m1. cbn. rewrite (fd_task _ _ _ _ _ _ F). done. }
  destruct Eti as [Edi Eti].
  assert (Hik1 : in_kernel m1 c l') by (constructor; [exact Rc|unfold dir; rewrite Etc; exact W1|unfold dir; rewrite Etc; by split]).
  assert (T1 : twin m m1 c i k l').
  { constructor; unfold dir; rewrite ?Etc, ?Edi, ?Eti; [exact C3|exact W2|by split| | | |split; [exact Fq|split; [exact Hfit|]]|lia].
    - unfold tf_get. rewrite Eti. pose proof (fd_eax _ _ _ _ _ _ F) as H. change (tasks s' i) with (cur_task m1 i) in H. by rewrite Eti in H.
    - intros j Hj Hn. pose proof (fd_regs _ _ _ _ _ _ F j Hj Hn) as H. change (tasks s' i) with (cur_task m1 i) in H. by rewrite Eti in H.
    - intros va Hva Hp. destruct (fd_copy _ _ _ _ _ _ F va Hva) as [P B]; [unfold present in *; by rewrite (fd_parent _ _ _ _ _ _ F)|].
      split; [exact P|]. etransitivity; [exact B|]. apply (fd_bytes _ _ _ _ _ _ F); [|exact Hp]. unfold USTACKTOP, KERNBASE, PGSIZE, cur_task in *. priv.
    - intros E1. apply Hnv. right. left. fold tf in E1. rewrite E1. left. }
  exists (tf_set m1 c TF_EAX (u32 (nextpid (m_kern m)))), s', l'. split; [|split; [exact F|split; [|split; [by apply twin_set|done]]]].
  - eapply (syscall_returns _ _ _ _ _ _ _ _ _ _ m m1 c 7); [apply C1|exact He|reflexivity|]. unfold sys_fork. by rewrite E.
  - exact (proj1 (tf_set_ok m1 c l' TF_EAX _ Hik1 ltac:(done) ltac:(done))).
Qed.

(** A call that does not come back at once. *)
Lemma syscall_parks (m m1 : machine D) c n f r :
  current (m_kern m) = Some c -> tf_get m c TF_EAX = Z.of_nat n ->
  syscalls (uart := uart) task_ptr trap_ret do_nothing kdata rpos_chan fuel beyond idx junk_tp junk_pgdir !! n = Some (Some f) ->
  f m c = Ret (m1, Waits r) -> call m = Ret (m1, Waits r).
Proof.
  intros Hc Hn Hf E. unfold syscall, cur. rewrite Hc. cbn [deref]. rewrite bind_Ret, Hn.
  assert (Hlt : (n < 12)%nat) by (apply lookup_lt_Some in Hf; exact Hf).
  rewrite s32_small by lia. rewrite decide_True by lia. rewrite Nat2Z.id, Hf. cbn [deref]. rewrite bind_Ret. cbn beta iota.
  rewrite E. done.
Qed.

(** The child is at the head of the list. *)
Lemma forked_list (s s' : kern) i c k d L : task_list s L -> i ∉ L -> (i < NPROC)%nat -> forked s s' i c k d -> task_list s' (i :: L).
Proof.
  intros [H1 H2 H3] Hi Hn F. constructor; [|by apply NoDup_cons|by apply Forall_cons].
  cbn [queue_is]. split; [apply F|]. rewrite (fd_task _ _ _ _ _ _ F). cbn [t_next with_next].
  apply (queue_is_ext (fun j => t_next (tasks s j))); [|exact H1]. intros j Hj. rewrite (fd_others _ _ _ _ _ _ F); [done|].
  intros ->. contradiction.
Qed.

(** [wait] with a living child and no dead one puts the caller to sleep. *)
Lemma wait_sleeps (s : kern) L c i : task_list s L -> current s = Some c -> i ∈ L -> t_parent (tasks s i) = Some c ->
  (forall j, j ∈ L -> t_parent (tasks s j) = Some c -> t_state (tasks s j) <> TS_ZOMBIE) ->
  wait task_ptr s false = Ret (set_task s c (with_state (with_chan (tasks s c) (task_ptr c)) TS_STOPPED), WaitSleep).
Proof.
  intros Hl Hc Hi Hp Hz. rewrite (wait_ok task_ptr s L c) by assumption.
  destruct (List.find _ L) as [j|] eqn:E.
  - apply find_some in E as [Hj E]. apply list_elem_of_In in Hj. apply andb_true_iff in E as [E1 E2].
    apply bool_decide_eq_true in E1, E2. destruct (Hz j Hj E1 E2).
  - assert (X : existsb (is_child s c) L = true); [|by rewrite X].
    apply existsb_exists. exists i. split; [by apply list_elem_of_In|]. by apply bool_decide_eq_true.
Qed.

(** The scheduler goes on with the first runnable task behind the caller. *)
Lemma park_switches (s : kern) l1 l2 c i : task_list s (i :: l1 ++ c :: l2) -> current s = Some c ->
  first_runnable s l2 = None -> t_state (tasks s i) = TS_RUNNABLE ->
  let s1 := set_task s c (with_state (with_chan (tasks s c) (task_ptr c)) TS_STOPPED) in
  exists s2 k, sched_yield s1 = Ret (s2, Some k) /\ sc_tp k = i /\ ran s1 c i s2 /\ i <> c.
Proof.
  intros Hl Hc Hf Hi s1. pose proof (tl_nodup _ _ Hl) as Hnd. apply NoDup_cons in Hnd as [Hni Hnd].
  assert (Hic : i <> c) by (intros ->; apply Hni; apply elem_of_app; right; left).
  apply NoDup_app in Hnd as (_ & _ & Hnd). apply NoDup_cons in Hnd as [Hc2 _].
  assert (Hl1 : task_list s1 ((i :: l1) ++ c :: l2)).
  { apply (task_list_ext s); [done| |exact Hl]. intros j _. unfold s1. cbn [set_task tasks]. unfold upd. case_decide; by subst. }
  pose proof (sched_yield_ok s1 (i :: l1) l2 c Hl1 Hc) as H.
  assert (E : first_runnable s1 (l2 ++ i :: l1) = Some i).
  { assert (Hf1 : first_runnable s1 l2 = None).
    { rewrite <- Hf. apply first_runnable_ext. intros j Hj. unfold s1. cbn [set_task tasks]. rewrite upd_other; [done|]. intros ->. contradiction. }
    unfold first_runnable in *. rewrite find_app, Hf1. cbn [List.find]. unfold s1. cbn [set_task tasks]. rewrite upd_other by done.
    by rewrite bool_decide_eq_true_2. }
  rewrite E in H. destruct H as (s2 & k & E2 & Hk & R). by exists s2, k.
Qed.

(** The system call [wait] of the parent, up to the child. *)
Lemma wait_call (m0 m : machine D) c i k l l1 l2 : in_kernel m c l -> twin m0 m c i k l -> tf_get m c TF_EAX = SYS_wait ->
  task_list (m_kern m) (i :: l1 ++ c :: l2) -> first_runnable (m_kern m) l2 = None ->
  t_parent (cur_task m i) = Some c -> t_state (cur_task m i) = TS_RUNNABLE ->
  (forall j, j ∈ l1 ++ c :: l2 -> t_parent (cur_task m j) = Some c -> t_state (cur_task m j) <> TS_ZOMBIE) ->
  exists m' sc, call m = Ret (m', Waits (Some sc)) /\ sc_tp sc = i /\ twin m0 m' c i k l /\ in_kernel m' i l /\
    t_state (cur_task m' c) = TS_STOPPED /\ t_chan (cur_task m' c) = task_ptr c /\
    emit put_c (m_cons m) (chars "------ in wait() ------" ++ [10]) = Ret (m_cons m').
Proof.
  intros Hik Ht He Hl Hf Hp Hr Hz. destruct (m_say_ok m (chars "------ in wait() ------" ++ [10])) as (con & Ec & Em).
  pose proof (ik_cur _ _ _ Hik) as Hc. pose proof (wait_sleeps (m_kern m) (i :: l1 ++ c :: l2) c i Hl Hc) as Hw.
  specialize (Hw ltac:(left) Hp). destruct (park_switches (m_kern m) l1 l2 c i Hl Hc Hf Hr) as (s2 & sc & E2 & Hsc & R & Hic). cbv zeta in *.
  set (s1 := set_task (m_kern m) c _) in *. destruct R as (R1 & _ & R3 & _ & _ & R6 & _ & _ & R9 & R10).
  assert (Es : t_state (tasks s1 c) = TS_STOPPED) by (unfold s1; cbn [set_task tasks]; by rewrite upd_same).
  rewrite decide_False in R6 by (by rewrite Es). unfold s1 in R9, R10. cbn [set_task tasks] in R9, R10.
  rewrite upd_other in R9, R10 by done. set (m' := set_kern (set_cons m con) s2).
  assert (Ht' : twin m0 m' c i k l).
  { apply (twin_same _ m); [exact Ht|exact R3|exact R9|exact R10|]. change (t_tf (tasks s2 c) = t_tf (cur_task m c)).
    rewrite R6. unfold s1. cbn [set_task tasks]. by rewrite upd_same. }
  exists m', sc. split; [|split; [exact Hsc|split; [exact Ht'|split; [exact (twin_runs _ _ _ _ _ _ Ht' R1)|split; [|split; [|exact Ec]]]]]].
  - eapply (syscall_parks m m' c 8); [exact Hc|exact He|reflexivity|]. unfold sys_wait. rewrite Em, bind_Ret. unfold wait_round.
    change (m_kern (set_cons m con)) with (m_kern m). rewrite Hw; [fold s1; rewrite bind_Ret; cbn beta iota; rewrite E2; done|].
    intros j Hj. apply elem_of_cons in Hj as [->|Hj]; [|by apply Hz]. intros _. unfold cur_task in Hr. by rewrite Hr.
  - change (t_state (tasks s2 c) = TS_STOPPED). by rewrite R6.
  - change (t_chan (tasks s2 c) = task_ptr c). rewrite R6. unfold s1. cbn [set_task tasks]. by rewrite upd_same.
Qed.

Abbreviation stub := (ucall (uart := uart) task_ptr trap_ret do_nothing kdata rpos_chan fuel beyond idx junk_tp junk_pgdir).

(** The stub of a call without arguments. *)
Lemma stub_none (m : machine D) c l num W : in_kernel m c l -> 0 <= num < 4294967296 ->
  exists m1, stub m c num [] = call m1 /\ turn W c l m m1 /\ tf_get m1 c TF_EAX = num /\ m_cons m1 = m_cons m /\
    forall m0 i k l', twin m0 m c i k l' -> twin m0 m1 c i k l'.
Proof.
  intros Hik Hn. set (m0 := set_mm m (m_mm m)).
  assert (Hik0 : in_kernel m0 c l) by (destruct Hik; by constructor).
  exists (tf_set m0 c TF_EAX num). split; [done|]. split; [|split; [|split; [done|]]].
  - apply (turn_trans _ _ _ _ m0); [by constructor|]. apply turn_tf; [exact Hik0|done|done|by left].
  - destruct (tf_set_ok m0 c l TF_EAX num Hik0) as (_ & E & _); [done|done|]. rewrite E. by apply u32_small.
  - intros x i k l' Ht. apply twin_set; [|done|done]. by apply (twin_same _ m).
Qed.

End Spawn.

(** ** Property *)

(** C10. init starts a child: one turn of the loop of init prints its line, makes
    a child by [fork] and sleeps in [wait]; the scheduler then runs the child,
    which is in the kernel with an address space of its own, in which program
    and stack have the bytes they had in the parent at the [fork], with the same
    registers except that its [fork] has returned 0; the parent waits for it. *)
Theorem init_starts_child {D : Type} {dev : BlockDev D} {uart : Uart} task_ptr trap_ret do_nothing kdata rpos_chan fuel beyond idx
  junk_tp junk_pgdir (m : machine D) c i k d l l1 l2 slot rest path
  (Hfork : can_fork kdata m c i k d l) (Hfr : frame m c slot rest) (Hfuel : (S (length rest) < fuel)%nat)
  (Hlist : task_list (m_kern m) (l1 ++ c :: l2)) (Hnew : i ∉ l1 ++ c :: l2) (Hi : (i < NPROC)%nat)
  (Hbehind : first_runnable (m_kern m) l2 = None)
  (Hdead : forall j, j ∈ l1 ++ c :: l2 -> t_parent (cur_task m j) = Some c -> t_state (cur_task m j) <> TS_ZOMBIE)
  (Hpid : 0 < nextpid (m_kern m) < 2147483648) :
  exists mf m1 m2 sc l',
    turn (scratch (tf_get m c TF_ESP) slot) c (k :: d :: l) m mf /\
    init_fork task_ptr trap_ret do_nothing kdata rpos_chan fuel beyond idx junk_tp junk_pgdir c slot m = Ret (m1, nextpid (m_kern m)) /\
    init_forked task_ptr trap_ret do_nothing kdata rpos_chan fuel beyond idx junk_tp junk_pgdir c slot m1 (nextpid (m_kern m)) path =
      Ret (m2, Waits (Some sc)) /\
    sc_tp sc = i /\ in_kernel m2 i l' /\ tf_get m2 i TF_EAX = 0 /\
    (forall j, 0 <= j < TF_SIZE -> ~ (TF_EAX <= j < TF_EAX + 4) ->
       ram (m_mm m2) (t_tf (cur_task m2 i) + j) = ram (m_mm mf) (t_tf (cur_task mf c) + j)) /\
    (forall va, 0 <= va < t_sz (cur_task m c) \/ USTACKTOP - PGSIZE <= va < USTACKTOP -> present (m_mm mf) (dir m c) va ->
       present (m_mm m2) (dir m2 i) va /\ vbyte (m_mm m2) (dir m2 i) va = vbyte (m_mm mf) (dir m c) va) /\
    t_state (cur_task m2 c) = TS_STOPPED /\ t_chan (cur_task m2 c) = task_ptr c /\
    emit put_c (m_cons m) (chars "init: starting sh..." ++ [10] ++ chars "------ in wait() ------" ++ [10]) = Ret (m_cons m2).
Proof.
  set (W := scratch (tf_get m c TF_ESP) slot). pose proof (cf_kernel _ _ _ _ _ _ _ Hfork) as Hik.
  destruct (uprint_ok task_ptr trap_ret do_nothing kdata rpos_chan fuel beyond idx junk_tp junk_pgdir c _ slot rest
    (chars "init: starting sh..." ++ [10]) m Hik Hfr Hfuel) as (ma & Ea & Ta & Ca).
  { apply Forall_app. split; [|repeat constructor; lia]. apply (Forall_impl _ _ _ (printable_chars "init: starting sh..." eq_refl)).
    unfold printable. lia. }
  destruct (stub_none task_ptr trap_ret do_nothing kdata rpos_chan fuel beyond idx junk_tp junk_pgdir ma c _ SYS_fork W
    (tn_kernel _ _ _ _ _ Ta)) as (mf & Ef & Tf & Hef & Cf & _); [done|].
  pose proof (turn_trans _ _ _ _ _ _ Ta Tf) as T. pose proof (turn_dir _ _ _ _ _ T) as Hd.
  assert (Et : forall j, cur_task mf j = cur_task m j) by (intros j; unfold cur_task; by rewrite (tn_tasks _ _ _ _ _ T)).
  destruct (fork_call task_ptr trap_ret do_nothing kdata rpos_chan fuel beyond idx junk_tp junk_pgdir mf c i k d l
    (can_fork_turn _ _ _ _ _ _ _ _ _ T Hfork) Hef) as (m1 & s' & l' & E1 & F & Hik1 & Tw1 & Em1).
  assert (Hlf : task_list (m_kern mf) (l1 ++ c :: l2)).
  { apply (task_list_ext (m_kern m)); [apply T|intros j _; by rewrite (tn_tasks _ _ _ _ _ T)|exact Hlist]. }
  pose proof (forked_list _ _ _ _ _ _ _ Hlf Hnew Hi F) as Hl1.
  destruct (stub_none task_ptr trap_ret do_nothing kdata rpos_chan fuel beyond idx junk_tp junk_pgdir m1 c l' SYS_wait W Hik1)
    as (mw & Ew & Tw & Hew & Cw & Htw); [done|].
  assert (Ek : forall j, cur_task mw j = tasks s' j).
  { intros j. unfold cur_task. by rewrite (tn_tasks _ _ _ _ _ Tw), Em1. }
  assert (Eo : forall j, j ∈ l1 ++ c :: l2 -> cur_task mw j = cur_task m j).
  { intros j Hj. rewrite Ek, (fd_others _ _ _ _ _ _ F), <- Et; [done|]. intros ->. contradiction. }
  destruct (wait_call task_ptr trap_ret do_nothing kdata rpos_chan fuel beyond idx junk_tp junk_pgdir mf mw c i k l' l1 l2
    (tn_kernel _ _ _ _ _ Tw) (Htw _ _ _ _ Tw1) Hew) as (m2 & sc & E2 & Hsc & Tw2 & Hik2 & Hst & Hch & C2).
  { apply (task_list_ext s'); [rewrite (tn_list _ _ _ _ _ Tw), Em1; done|intros j _; exact (f_equal t_next (Ek j))|exact Hl1]. }
  { rewrite <- Hbehind. apply first_runnable_ext. intros j Hj. apply Eo. apply elem_of_app. right. by right. }
  { rewrite Ek, (fd_task _ _ _ _ _ _ F). done. } { rewrite Ek, (fd_task _ _ _ _ _ _ F). done. }
  { intros j Hj. rewrite Eo by exact Hj. by apply Hdead. }
  exists mf, m1, m2, sc, l'. assert (Epid : u32 (nextpid (m_kern mf)) = nextpid (m_kern m)) by (rewrite (tn_pid _ _ _ _ _ T); apply u32_small; lia).
  split; [exact T|]. split; [|split; [|split; [exact Hsc|split; [exact Hik2|split; [exact (tc_eax _ _ _ _ _ _ Tw2)|split; [exact (tc_regs _ _ _ _ _ _ Tw2)|split; [|split; [exact Hst|split; [exact Hch|]]]]]]]]].
  - unfold init_fork. rewrite Ea, bind_Ret. unfold ucall_ret. rewrite Ef, E1, bind_Ret. by rewrite Epid.
  - unfold init_forked. rewrite s32_small by lia. rewrite decide_False by lia. rewrite decide_False by lia. by rewrite Ew.
  - intros va Hva Hp. rewrite <- Hd. apply (tc_mem _ _ _ _ _ _ Tw2); [by rewrite Et|by rewrite Hd].
  - rewrite app_assoc, emit_app, Ca, bind_Ret. rewrite <- C2, Cw, Em1, <- Cf. done.
Qed.

(** A machine with one task of one page and a stack. *)
Lemma demo_parent : exists (m : machine bio) k d l, can_fork 2149580800 m 0 1 k d l /\ frame m 0 4112 [] /\
  task_list (m_kern m) [0%nat] /\ nextpid (m_kern m) = 2 /\ t_state (cur_task m 0) = TS_RUNNING.
Proof.
  destruct demo_space as (s0 & pd & l & Huw & Hlen & Hm & Hs & Hprog & Hstk).
  destruct (vwrite_ok pd l (replicate 20 0) s0 4096 Huw) as (s1 & _ & Hst & Hb).
  { rewrite <- (Z.add_0_r 4096). eapply priv_at_sub; [exact Hprog|cbn; lia..]. } { apply Forall_replicate. lia. }
  pose proof (sd_wf _ _ _ _ _ _ Hst) as Huw1. destruct (sd_mm _ _ _ _ _ _ Hst) as [Em Es].
  set (m0 := mkMachine (demo_fork s1 pd 8192) blank_console demo_disk (fun _ => repeat None 16) (fun _ => 0) 0 (-1)).
  assert (Hik0 : in_kernel m0 0 l).
  { constructor; [done|exact Huw1|]. cbn [m0 cur_task m_kern demo_fork tasks t_tf]. change (2148532224 - 2148532224 mod 4096) with 2148532224.
    split; [|by vm_compute]. split; [done|]. split.
    - intros H. pose proof (vm_page_ok _ _ _ _ (uw_vm _ _ _ Huw1) H) as (_ & Hp & _). change (m_mm m0) with s1 in Hp. lia.
    - intros va Hp Hpr H. destruct (uw_page _ _ _ Huw1 va Hp Hpr) as ((_ & Ho & _) & _). change (m_mm m0) with s1 in H.
      change (dir m0 0) with pd in H. rewrite H in Ho. lia. }
  destruct (tf_set_ok m0 0 l TF_ESP 4096 Hik0) as (Hik & Hg & He & Hv); [done|done|].
  destruct l as [|k [|d l]]; [cbn in Hlen; lia..|]. cbn [length] in Hlen.
  assert (Hpt : forall va, pt_entry (m_mm (tf_set m0 0 TF_ESP 4096)) pd va = pt_entry s0 pd va).
  { intros va. etransitivity; [apply He|apply (sd_entry _ _ _ _ _ _ Hst)]. }
  set (m1 := tf_set m0 0 TF_ESP 4096) in *. exists m1, k, d, l. split; [|split; [|split; [|done]]].
  - constructor; [exact Hik|reflexivity|done|by vm_compute| | | | |].
    + change (memsz (m_mm m1)) with (memsz s1). rewrite Em, Hm. vm_compute. split; [reflexivity|discriminate].
    + change (memsz (m_mm m1)) with (memsz s1). rewrite Em, Hm. change (t_sz (cur_task m1 0)) with 8192.
      change (8192 * 1024 / 4194304 + 4 + region_cost 0 8192 + stack_cost) with 12. lia.
    + vm_compute. split; discriminate.
    + intros va Hva. change (t_sz (cur_task m1 0)) with 8192 in Hva. replace (PDX va) with (PDX 4096) by (rewrite !PDX_div, !u32_small by lia; modlia).
      apply has_entry_pde. change (dir m1 0) with pd. rewrite Hpt. apply Hprog. lia.
    + intros va Hva. unfold present. change (dir m1 0) with pd. rewrite Hpt. apply Hstk. unfold USTACKTOP, PGSIZE in *. lia.
  - apply demo_frame; [exact Hg|]. destruct Hb as [(B0 & B1 & B2) Hb]. split.
    + split; [exact B0|]. split; [exact B1|]. intros va Hva. destruct (B2 va Hva) as [P1 P2]. split; [exact P1|].
      unfold present in *. change (dir m1 0) with pd. rewrite Hpt. rewrite (sd_entry _ _ _ _ _ _ Hst) in P2. exact P2.
    + intros j b Hj. change (dir m1 0) with pd. etransitivity; [apply Hv|by apply Hb];
        pose proof (lookup_lt_Some _ _ _ Hj); apply B2; lia.
  - constructor; [by split|apply NoDup_singleton|apply Forall_singleton; vm_compute; lia].
Qed.

Lemma init_starts_child_witness :
  exists (m m1 m2 : machine bio) sc l',
    init_fork (dev := bio_blockdev (ide := idle_ide)) (uart := ready_uart) (fun j => 1000 + Z.of_nat j) 0 0 2149580800 0 10 (fun _ => 0) [] None 0 0 4112 m = Ret (m1, 2) /\
    init_forked (dev := bio_blockdev (ide := idle_ide)) (uart := ready_uart) (fun j => 1000 + Z.of_nat j) 0 0 2149580800 0 10 (fun _ => 0) [] None 0 0 4112 m1 2 4128 =
      Ret (m2, Waits (Some sc)) /\ in_kernel m2 1 l' /\ tf_get m2 1 TF_EAX = 0.
Proof.
  destruct demo_parent as (m & k & d & l & Hcf & Hfr & Hl & Hn & Hst).
  destruct (init_starts_child (dev := bio_blockdev (ide := idle_ide)) (uart := ready_uart) (fun j => 1000 + Z.of_nat j) 0 0 2149580800 0 10
    (fun _ => 0) [] None 0 m 0 1 k d l [] [] 4112 [] 4128 Hcf Hfr) as (mf & m1 & m2 & sc & l' & _ & E1 & E2 & _ & Hik & He & _).
  - cbn. lia.
  - exact Hl.
  - intros H. apply list_elem_of_singleton in H. discriminate H.
  - vm_compute. lia.
  - reflexivity.
  - intros j Hj Hp. apply list_elem_of_singleton in Hj. subst j. by rewrite Hst.
  - rewrite Hn. lia.
  - rewrite Hn in E1, E2. exists m, m1, m2, sc, l'. split; [exact E1|]. split; [exact E2|]. split; [exact Hik|exact He].
Defined.
