(* ===== verification/Minix.v ===== *)
(** * The Minix file system

    fs/minix/fs_minix.c, over the buffer cache of Buffer.v: the table of
    in-memory inodes with their reference counts, reading and writing an inode's
    blocks, directory search, path walking and [fileopen].  A pointer into a
    table is an index; a string is the list of its characters; the array [name]
    of [DIR_LEN] characters is a list of that length.  The messages the code
    prints are left out.  The file is not linked into the kernel at present. *)

From stdpp Require Import base list strings.
From Stdlib Require Import ZArith Lia.
From S2P Require Import Prelude CString Ring Bio Hd Buffer Le.

Open Scope Z_scope.

(** ** Constants (inc/fs_minix.h, inc/const.h) *)

Definition MINIX_MAGIC : Z := 4991.    (* 0x137F *)

Definition MINIX_MAGIC2 : Z := 5007.   (* 0x138F *)

Definition DIR_LEN : nat := 30.

Definition NDIRECT : Z := 7.

Definition ADDR_LEN : nat := 9.

Definition BPB : Z := 2.

Definition ROOTDEV : Z := 1.

Definition ROOTINO : Z := 1.

Definition T_DEV : Z := 3.

Definition NINODE : nat := 128.

Definition NFILE : nat := 256.

(** [sizeof(struct minix_dirent)]: the inode number and the name. *)
Definition DIRENT_SIZE : Z := 32.

(** ** State *)

Record minix_inode : Type := mkMi {
  mi_type : Z;
  mi_uid : Z;
  mi_size : Z;
  mi_time : Z;
  mi_gid : Z;
  mi_count : Z;
  mi_addr : list Z;
  mi_dev : Z;
  mi_inum : Z;
  mi_ref : Z;
  mi_flag : Z
}.

Record minix_file : Type := mkMf {
  mf_mode : Z;
  mf_flags : Z;
  mf_ref : Z;
  mf_pos : Z;
  mf_inode : option nat
}.

(** The tables of the file system, the block layer below it, and of the running
    task its open files and its working directory. *)
Record minix : Type := mkMinix {
  mx_bio : bio;
  mx_inode : list minix_inode;
  mx_file : list minix_file;
  mx_ofile : list (option nat);
  mx_cwd : option nat;
  mx_sb : list Z
}.

Definition set_bio (x : minix) (b : bio) : minix :=
  mkMinix b (mx_inode x) (mx_file x) (mx_ofile x) (mx_cwd x) (mx_sb x).

Definition set_inode (x : minix) (t : list minix_inode) : minix :=
  mkMinix (mx_bio x) t (mx_file x) (mx_ofile x) (mx_cwd x) (mx_sb x).

Definition with_ref (ip : minix_inode) (r : Z) : minix_inode :=
  mkMi (mi_type ip) (mi_uid ip) (mi_size ip) (mi_time ip) (mi_gid ip) (mi_count ip) (mi_addr ip)
       (mi_dev ip) (mi_inum ip) r (mi_flag ip).

Definition with_addr (ip : minix_inode) (a : list Z) : minix_inode :=
  mkMi (mi_type ip) (mi_uid ip) (mi_size ip) (mi_time ip) (mi_gid ip) (mi_count ip) a
       (mi_dev ip) (mi_inum ip) (mi_ref ip) (mi_flag ip).

(** A slot taken for inode [in_] of [dev]; the fields that come from the disk
    are left as they are. *)
Definition claimed (ip : minix_inode) (dev in_ : Z) : minix_inode :=
  mkMi (mi_type ip) (mi_uid ip) (mi_size ip) (mi_time ip) (mi_gid ip) (mi_count ip) (mi_addr ip)
       (u16 dev) (u16 in_) 1 0.

(** ** The inode table *)

(** The loop of [iget]: the slot of the inode, or the first free slot. *)
Fixpoint iget_scan (t : list minix_inode) (i : nat) (dev in_ : Z) (ifree : option nat) : nat + option nat :=
  match t with
  | [] => inr ifree
  | ip :: t' =>
      if decide (mi_ref ip > 0 /\ mi_dev ip = dev /\ mi_inum ip = in_) then inl i
      else iget_scan t' (S i) dev in_
             (if decide (ifree = None /\ mi_ref ip = 0) then Some i else ifree)
  end.

Definition bump (t : list minix_inode) (i : nat) (d : Z) : outcome (list minix_inode) :=
  ip ← deref "ip->ref" (t !! i); Ret (<[i := with_ref ip (u16 (mi_ref ip + d))]> t).

Definition iget (t : list minix_inode) (dev in_ : Z) : outcome (list minix_inode * nat) :=
  match iget_scan t 0 dev in_ None with
  | inl i => t1 ← bump t i 1; Ret (t1, i)
  | inr None => Stop (Panic "iget: no inodes caches")
  | inr (Some i) => ip ← deref "ip->dev" (t !! i); Ret (<[i := claimed ip dev in_]> t, i)
  end.

Definition idup (t : list minix_inode) (i : nat) : outcome (list minix_inode) := bump t i 1.

Definition iput (t : list minix_inode) (i : nat) : outcome (list minix_inode) := bump t i (-1).

(** ** Blocks *)

(** [balloc] is not written yet: it returns 0. *)
Definition balloc (dev : Z) : Z := 0.

Definition bmap (x : minix) (i : nat) (bn : Z) : outcome (minix * Z) :=
  if decide (bn < NDIRECT) then
    ip ← deref "ip->addr" (mx_inode x !! i);
    let addr := nth (Z.to_nat bn) (mi_addr ip) 0 in
    if decide (addr = 0) then
      let addr := balloc (mi_dev ip) in
      Ret (set_inode x (<[i := with_addr ip (<[Z.to_nat bn := u16 addr]> (mi_addr ip))]> (mx_inode x)), addr)
    else Ret (x, addr)
  else Stop (Panic "bmap: TODO").

(** [m] of the copying loops. *)
Definition piece (n s off : Z) : Z := Z.min (u32 (n - s)) (512 - off mod 512).

Section Blocks.

Context `{ide : IdeDevice}.

(** The superblock as it is on the disk, 20 bytes with its padding. *)
Definition readsb (x : minix) (dev : Z) : outcome (minix * list Z) :=
  '(b, bp) ← bread (mx_bio x) dev (1 * BPB);
  let sb := take 20 (bdata b bp) in
  b1 ← brelse b bp; Ret (set_bio x b1, sb).

Fixpoint readi_loop (fuel : nat) (x : minix) (i : nat) (off s n : Z) (out : list Z) : outcome (minix * list Z) :=
  match fuel with
  | O => Stop Fuel
  | S f =>
      if decide (s < n) then
        ip ← deref "ip->dev" (mx_inode x !! i);
        '(x1, nblk) ← bmap x i (off / 512);
        '(b, bp) ← bread (mx_bio x1) (mi_dev ip) nblk;
        let m := piece n s off in
        let got := take (Z.to_nat m) (drop (Z.to_nat (off mod 512)) (bdata b bp)) in
        b1 ← brelse b bp;
        readi_loop f (set_bio x1 b1) i (u32 (off + m)) (u32 (s + m)) n (out ++ got)
      else Ret (x, out)
  end.

(** The result and the bytes that went to [dst]; every round copies a byte. *)
Definition readi (x : minix) (i : nat) (off n : Z) : outcome (minix * Z * list Z) :=
  ip ← deref "ip->type" (mx_inode x !! i);
  if decide (mi_type ip = T_DEV) then Stop (Panic "readi: TODO")
  else if decide (off > mi_size ip) then Ret (x, -1, [])
  else
    let n := if decide (u32 (off + n) > mi_size ip) then u32 (mi_size ip - off) else n in
    '(x1, out) ← readi_loop (S (Z.to_nat n)) x i off 0 n [];
    Ret (x1, s32 n, out).

Fixpoint writei_loop (fuel : nat) (x : minix) (i : nat) (src : list Z) (off s n : Z) : outcome minix :=
  match fuel with
  | O => Stop Fuel
  | S f =>
      if decide (s < n) then
        ip ← deref "ip->dev" (mx_inode x !! i);
        '(x1, nblk) ← bmap x i (off / 512);
        '(b, bp) ← bread (mx_bio x1) (mi_dev ip) nblk;
        let m := piece n s off in
        let o := Z.to_nat (off mod 512) in
        let data := bdata b bp in
        b1 ← bwrite (set_data b bp (take o data ++ take (Z.to_nat m) src ++ drop (o + Z.to_nat m) data)) bp;
        b2 ← brelse b1 bp;
        writei_loop f (set_bio x1 b2) i (drop (Z.to_nat m) src) (u32 (off + m)) (u32 (s + m)) n
      else Ret x
  end.

Definition writei (x : minix) (i : nat) (src : list Z) (off n : Z) : outcome (minix * Z) :=
  ip ← deref "ip->type" (mx_inode x !! i);
  if decide (mi_type ip = T_DEV) then Stop (Panic "writei: TODO")
  else if decide (off > mi_size ip) then Ret (x, -1)
  else x1 ← writei_loop (S (Z.to_nat n)) x i src off 0 n; Ret (x1, s32 n).

(** ** Directories and paths *)

(** [de] as read from the directory. *)
Definition de_inum (de : list Z) : Z := get_le de 0 2.

Definition chars_ptr (l : list Z) : cptr := fun k => nth (Z.to_nat k) l 0.

Definition same_name (name de : list Z) : bool :=
  bool_decide (strncmp (Some (chars_ptr name)) (Some (chars_ptr (drop 2 de))) (Z.of_nat DIR_LEN) = 0).

Fixpoint search_loop (fuel : nat) (x : minix) (dp : nat) (name : list Z) (len : Z) : outcome (minix * option nat) :=
  match fuel with
  | O => Stop Fuel
  | S f =>
      ip ← deref "dp->size" (mx_inode x !! dp);
      if decide (len < mi_size ip) then
        '(x1, r, de) ← readi x dp len DIRENT_SIZE;
        if decide (r <> DIRENT_SIZE) then Stop (Panic "search_dir: readi fail")
        else if same_name name de then
          '(t, j) ← iget (mx_inode x1) (mi_dev ip) (de_inum de); Ret (set_inode x1 t, Some j)
        else search_loop f x1 dp name (u32 (len + DIRENT_SIZE))
      else Ret (x, None)
  end.

(** One entry a round. *)
Definition search_dir (x : minix) (dp : nat) (name : list Z) : outcome (minix * option nat) :=
  ip ← deref "dp->size" (mx_inode x !! dp);
  search_loop (S (Z.to_nat (mi_size ip))) x dp name 0.

Fixpoint skip_slash (path : list Z) : list Z :=
  match path with
  | c :: p => if decide (c = 47) then skip_slash p else path
  | [] => []
  end.

Fixpoint component (path : list Z) : list Z * list Z :=
  match path with
  | c :: p => if decide (c <> 47) then let '(a, b) := component p in (c :: a, b) else ([], path)
  | [] => ([], [])
  end.

(** The rest of the path and the new contents of [name]. *)
Definition path_down (path name : list Z) : option (list Z * list Z) :=
  match skip_slash path with
  | [] => None
  | pp =>
      let '(comp, rest) := component pp in
      let name' :=
        if decide (DIR_LEN <= length comp)%nat then take DIR_LEN comp
        else comp ++ [0] ++ drop (S (length comp)) name in
      Some (skip_slash rest, name')
  end.

Fixpoint namei_loop (fuel : nat) (x : minix) (ip : nat) (path name : list Z) : outcome (minix * option nat) :=
  match fuel with
  | O => Stop Fuel
  | S f =>
      match path_down path name with
      | None => Ret (x, Some ip)
      | Some (path', name') =>
          '(x1, next) ← search_dir x ip name';
          match next with
          | None => Ret (x1, None)
          | Some j => namei_loop f x1 j path' name'
          end
      end
  end.

(** [name] is what the local array holds at the start. *)
Definition namei (x : minix) (path name : list Z) : outcome (minix * option nat) :=
  '(t, ip) ← (if decide (path !! 0%nat = Some 47) then iget (mx_inode x) ROOTDEV ROOTINO
              else c ← deref "current->cwd" (mx_cwd x); t ← idup (mx_inode x) c; Ret (t, c));
  namei_loop (S (length path)) (set_inode x t) ip path name.

(** ** Opening *)

(** [sizeof(sb)] is 26; the magic number is at offset 16. *)
Definition s_magic (sb : list Z) : Z := get_le sb 16 2.

Definition check_minixfs (x : minix) : outcome minix :=
  '(b, bp) ← bread (mx_bio x) ROOTDEV 2;
  let sb := take 26 (bdata b bp) in
  b1 ← brelse b bp;
  let x1 := mkMinix b1 (mx_inode x) (mx_file x) (mx_ofile x) (mx_cwd x) sb in
  if decide (s_magic sb = MINIX_MAGIC \/ s_magic sb = MINIX_MAGIC2) then Ret x1
  else Stop (Panic "In mk_minixfs").

Definition fileopen (x : minix) (path : list Z) (flags : Z) (name : list Z) : outcome (minix * Z) :=
  x1 ← check_minixfs x;
  '(x2, inp) ← namei x1 path name;
  match inp with
  | None => Ret (x2, -1)
  | Some ip =>
      match list_find (fun f => f = None) (mx_ofile x2) with
      | None => Stop (Panic "open: ofile[] is full!")
      | Some (fd, _) =>
          match list_find (fun f => mf_inode f = None) (mx_file x2) with
          | None => Stop (Panic "open: file[] is full!")
          | Some (k, f) =>
              Ret (mkMinix (mx_bio x2) (mx_inode x2)
                     (<[k := mkMf (u32 flags) (mf_flags f) (mf_ref f) 0 (Some ip)]> (mx_file x2))
                     (<[fd := Some k]> (mx_ofile x2)) (mx_cwd x2) (mx_sb x2), Z.of_nat fd)
          end
      end
  end.

End Blocks.

(** ** Specification *)

(** The identity of an in-memory inode, and that somebody holds it. *)
Definition ikey (ip : minix_inode) : Z * Z := (mi_dev ip, mi_inum ip).

Definition live (k : Z * Z) (ip : minix_inode) : Prop := 0 < mi_ref ip /\ ikey ip = k.

#[export] Instance live_dec k ip : Decision (live k ip).
Proof. unfold live. apply _. Defined.

(** Every inode is in the table at most once, and the counts fit their field. *)
Record icache_wf (t : list minix_inode) : Prop := {
  ic_unique : forall i j a b, t !! i = Some a -> t !! j = Some b -> 0 < mi_ref a -> 0 < mi_ref b ->
    ikey a = ikey b -> i = j;
  ic_range : Forall (fun ip => 0 <= mi_ref ip < 65536) t
}.

(** How many references to an inode there are. *)
Definition refs (t : list minix_inode) (k : Z * Z) : Z :=
  match list_find (live k) t with Some (_, ip) => mi_ref ip | None => 0 end.

(** What the users of the table do: take a reference by number, copy one, drop
    one.  A step is labelled with the inode and the change of its count. *)
Inductive istep : list minix_inode -> Z * Z -> Z -> list minix_inode -> Prop :=
  | istep_get t d n t' i : 0 <= d < 65536 -> 0 <= n < 65536 -> iget t d n = Ret (t', i) -> istep t (d, n) 1 t'
  | istep_dup t i ip t' : t !! i = Some ip -> 0 < mi_ref ip -> idup t i = Ret t' -> istep t (ikey ip) 1 t'
  | istep_put t i ip t' : t !! i = Some ip -> 0 < mi_ref ip -> iput t i = Ret t' -> istep t (ikey ip) (-1) t'.

(** Histories in which no count overflows its 16 bits. *)
Inductive isteps : list minix_inode -> list ((Z * Z) * Z) -> list minix_inode -> Prop :=
  | isteps_nil t : isteps t [] t
  | isteps_snoc t h t1 k d t2 : isteps t h t1 -> istep t1 k d t2 -> refs t1 k + d < 65536 ->
      isteps t (h ++ [(k, d)]) t2.

(** References taken minus references dropped. *)
Fixpoint balance (h : list ((Z * Z) * Z)) (k : Z * Z) : Z :=
  match h with
  | [] => 0
  | (k', d) :: h' => (if decide (k' = k) then d else 0) + balance h' k
  end.

(** The static table. *)
Definition empty_inode : minix_inode := mkMi 0 0 0 0 0 0 (repeat 0 ADDR_LEN) 0 0 0 0.

Definition empty_table : list minix_inode := replicate NINODE empty_inode.

(** ** Lemmas: the inode table *)

Lemma iget_scan_ok d n t : forall i fr,
  iget_scan t i d n fr =
  match list_find (live (d, n)) t with
  | Some (j, _) => inl (i + j)%nat
  | None => inr (match fr with
                 | Some f => Some f
                 | None => option_map (fun p => (i + p.1)%nat) (list_find (fun ip => mi_ref ip = 0) t)
                 end)
  end.
Proof.
  induction t as [|ip t IH]; intros i fr; cbn [iget_scan list_find]; [by destruct fr|].
  destruct (decide (live (d, n) ip)) as [L|L].
  - destruct L as [L1 [= L2 L3]]. rewrite decide_True by (split; [lia|by split]). f_equal. lia.
  - rewrite decide_False.
    2: { intros (H1 & H2 & H3). apply L. split; [lia|]. unfold ikey. by rewrite H2, H3. }
    rewrite IH. destruct (list_find (live (d, n)) t) as [[j a]|]; cbn; [f_equal; lia|]. f_equal.
    destruct fr as [f|]; [by rewrite decide_False by (by intros [? _])|].
    destruct (decide (mi_ref ip = 0)) as [E|E].
    + rewrite decide_True by done. cbn. f_equal. lia.
    + rewrite decide_False by (by intros [_ ?]).
      destruct (list_find (fun ip0 => mi_ref ip0 = 0) t) as [[j a]|]; cbn; [f_equal; lia|done].
Qed.

(** The count is that of the one slot that holds the inode. *)
Lemma refs_spec t k : icache_wf t ->
  (exists i ip, t !! i = Some ip /\ live k ip /\ refs t k = mi_ref ip) \/
  ((forall i ip, t !! i = Some ip -> ~ live k ip) /\ refs t k = 0).
Proof.
  intros Hw. unfold refs. destruct (list_find (live k) t) as [[i ip]|] eqn:E.
  - apply list_find_Some in E as (H1 & H2 & _). left. by exists i, ip.
  - right. split; [|done]. intros i ip Hi. apply list_find_None in E. by apply (proj1 (Forall_lookup _ _) E i).
Qed.

Lemma refs_held t i ip : icache_wf t -> t !! i = Some ip -> 0 < mi_ref ip -> refs t (ikey ip) = mi_ref ip.
Proof.
  intros Hw Hi Hr. destruct (refs_spec t (ikey ip) Hw) as [(j & jp & Hj & [L1 L2] & ->)|[Hno _]].
  - assert (j = i) as -> by (eapply ic_unique; eassumption). congruence.
  - exfalso. by apply (Hno i ip Hi).
Qed.

(** Writing one slot. *)
Lemma slot_update t i ip ip' :
  icache_wf t -> t !! i = Some ip -> 0 <= mi_ref ip' < 65536 ->
  (0 < mi_ref ip' -> forall j b, j <> i -> t !! j = Some b -> 0 < mi_ref b -> ikey b <> ikey ip') ->
  icache_wf (<[i := ip']> t) /\
  forall k, refs (<[i := ip']> t) k =
    if decide (ikey ip' = k /\ 0 < mi_ref ip') then mi_ref ip' else if decide (live k ip) then 0 else refs t k.
Proof.
  intros Hw Hi Hr Hu.
  assert (Hl : forall j b, <[i := ip']> t !! j = Some b -> (j = i /\ b = ip') \/ (j <> i /\ t !! j = Some b)).
  { intros j b Hj. destruct (decide (j = i)) as [->|Hji].
    - rewrite list_lookup_insert_eq in Hj by (by apply lookup_lt_Some in Hi). injection Hj as <-. by left.
    - rewrite list_lookup_insert_ne in Hj by done. by right. }
  assert (Hw' : icache_wf (<[i := ip']> t)).
  { constructor.
    - intros j1 j2 a b H1 H2 Ra Rb Hk.
      destruct (Hl _ _ H1) as [[-> ->]|[N1 T1]], (Hl _ _ H2) as [[-> ->]|[N2 T2]].
      + done.
      + exfalso. by apply (Hu Ra j2 b N2 T2 Rb).
      + exfalso. by apply (Hu Rb j1 a N1 T1 Ra).
      + by apply (ic_unique _ Hw j1 j2 a b).
    - apply Forall_insert; [apply Hw|done]. }
  split; [exact Hw'|]. intros k. case_decide as D.
  - destruct D as [<- D]. apply (refs_held _ i); [exact Hw'| |exact D].
    apply list_lookup_insert_eq. by apply lookup_lt_Some in Hi.
  - destruct (refs_spec _ k Hw') as [(j & b & Hj & [L1 L2] & ->)|[Hno ->]].
    + destruct (Hl _ _ Hj) as [[-> ->]|[N T]]; [by exfalso; apply D|].
      rewrite decide_False.
      2: { intros [R E]. apply N. apply (ic_unique _ Hw j i b ip); try done. congruence. }
      rewrite <- L2. symmetry. by apply (refs_held t j).
    + case_decide as D2; [done|]. destruct (refs_spec t k Hw) as [(j & b & Hj & L & ->)|[_ ->]]; [|done].
      exfalso. destruct (decide (j = i)) as [->|N]; [congruence|].
      apply (Hno j b); [by rewrite list_lookup_insert_ne|exact L].
Qed.

Lemma bump_ok t i ip d :
  icache_wf t -> t !! i = Some ip -> 0 < mi_ref ip -> 0 <= mi_ref ip + d < 65536 ->
  exists t', bump t i d = Ret t' /\ icache_wf t' /\
    forall k, refs t' k = refs t k + (if decide (ikey ip = k) then d else 0).
Proof.
  intros Hw Hi Hr Hd. unfold bump. rewrite Hi. cbn [deref]. rewrite bind_Ret, u16_small by lia.
  set (ip' := with_ref ip (mi_ref ip + d)). exists (<[i := ip']> t). split; [done|].
  destruct (slot_update t i ip ip' Hw Hi) as [Hw' Hk]; [exact Hd| |].
  { intros _ j b Hj Hb Hrb E. apply Hj. by apply (ic_unique _ Hw j i b ip). }
  split; [exact Hw'|]. intros k. rewrite Hk. change (ikey ip') with (ikey ip). change (mi_ref ip') with (mi_ref ip + d).
  destruct (decide (ikey ip = k)) as [<-|E]; cbn beta iota.
  - rewrite (refs_held t i ip Hw Hi Hr). destruct (decide (ikey ip = ikey ip /\ _)) as [D|D]; [done|].
    rewrite decide_True by done. destruct (decide (0 < mi_ref ip + d)) as [P|P]; [by exfalso; apply D|lia].
  - rewrite decide_False by (by intros [? _]). rewrite decide_False by (by intros [_ ?]). lia.
Qed.

(** [iget] on a table in order: the slot that has the inode, or else the first
    free one; it panics when the inode is in no slot and no slot is free. *)
Lemma iget_ok t d n :
  icache_wf t -> 0 <= d < 65536 -> 0 <= n < 65536 -> refs t (d, n) + 1 < 65536 ->
  (exists t' i, iget t d n = Ret (t', i) /\ icache_wf t' /\
     (exists ip, t' !! i = Some ip /\ live (d, n) ip) /\
     forall k, refs t' k = refs t k + (if decide ((d, n) = k) then 1 else 0)) \/
  (iget t d n = Stop (Panic "iget: no inodes caches") /\ refs t (d, n) = 0 /\ Forall (fun ip => 0 < mi_ref ip) t).
Proof.
  intros Hw Hd Hn Hb. unfold iget. rewrite iget_scan_ok. destruct (list_find (live (d, n)) t) as [[i ip]|] eqn:E.
  - left. apply list_find_Some in E as (Hi & [Hr Hk] & _). cbn [Nat.add].
    pose proof (refs_held t i ip Hw Hi Hr) as Hrf. rewrite Hk in Hrf.
    destruct (bump_ok t i ip 1 Hw Hi Hr ltac:(lia)) as (t' & E & Hw' & Hk'). rewrite E. cbn [mbind outcome_bind].
    exists t', i. rewrite Hk in Hk'. split; [done|]. split; [exact Hw'|]. split; [|exact Hk'].
    unfold bump in E. rewrite Hi in E. cbn [deref] in E. rewrite bind_Ret in E. injection E as <-.
    eexists. split; [apply list_lookup_insert_eq; by apply lookup_lt_Some in Hi|].
    split; [|exact Hk]. cbn [with_ref mi_ref]. rewrite u16_small; lia.
  - assert (Hno : refs t (d, n) = 0) by (unfold refs; by rewrite E).
    destruct (list_find (fun ip => mi_ref ip = 0) t) as [[i ip]|] eqn:F; cbn [option_map fst Nat.add].
    + left. apply list_find_Some in F as (Hi & H0 & _). rewrite Hi. cbn [deref]. rewrite bind_Ret.
      set (ip' := claimed ip d n). exists (<[i := ip']> t), i. split; [done|].
      assert (Hk : ikey ip' = (d, n)) by (unfold ikey, ip', claimed; cbn [mi_dev mi_inum]; by rewrite !u16_small).
      destruct (slot_update t i ip ip' Hw Hi) as [Hw' Hr']; [cbn; lia| |].
      { intros _ j b _ Hj Hrb. rewrite Hk. intros Hkb. apply list_find_None in E.
        by apply (proj1 (Forall_lookup _ _) E j b Hj). }
      split; [exact Hw'|]. split.
      { exists ip'. split; [apply list_lookup_insert_eq; by apply lookup_lt_Some in Hi|]. split; [cbn; lia|exact Hk]. }
      intros k. rewrite Hr', Hk. destruct (decide ((d, n) = k)) as [<-|Hne].
      * rewrite decide_True by (split; [done|cbn; lia]). rewrite Hno. done.
      * rewrite decide_False by (by intros [? _]). rewrite decide_False; [lia|]. intros [L _]. lia.
    + right. split; [done|]. split; [exact Hno|]. apply list_find_None in F. apply Forall_lookup. intros i ip Hi.
      pose proof (proj1 (Forall_lookup _ _) F i ip Hi) as H0. pose proof (proj1 (Forall_lookup _ _) (ic_range _ Hw) i ip Hi) as H1.
      cbn beta in *. lia.
Qed.

Lemma istep_ok t k d t' : istep t k d t' -> icache_wf t -> refs t k + d < 65536 ->
  icache_wf t' /\ forall k', refs t' k' = refs t k' + (if decide (k = k') then d else 0).
Proof.
  intros H Hw Hb. destruct H as [t d n t' i Hd Hn E|t i ip t' Hi Hr E|t i ip t' Hi Hr E].
  - destruct (iget_ok t d n Hw Hd Hn Hb) as [(t2 & j & E2 & Hw' & _ & Hk)|[E2 _]]; [|congruence].
    rewrite E in E2. injection E2 as <- <-. by split.
  - rewrite (refs_held t i ip Hw Hi Hr) in Hb.
    destruct (bump_ok t i ip 1 Hw Hi Hr ltac:(lia)) as (t2 & E2 & Hw' & Hk). unfold idup in E. rewrite E in E2. injection E2 as <-. by split.
  - rewrite (refs_held t i ip Hw Hi Hr) in Hb.
    destruct (bump_ok t i ip (-1) Hw Hi Hr ltac:(lia)) as (t2 & E2 & Hw' & Hk). unfold iput in E. rewrite E in E2. injection E2 as <-. by split.
Qed.

Lemma balance_app h1 h2 k : balance (h1 ++ h2) k = balance h1 k + balance h2 k.
Proof. induction h1 as [|[k' d] h1 IH]; cbn [app balance]; [done|]. rewrite IH. lia. Qed.

Lemma empty_table_wf : icache_wf empty_table /\ forall k, refs empty_table k = 0.
Proof.
  assert (H0 : forall i ip, empty_table !! i = Some ip -> mi_ref ip = 0).
  { intros i ip Hi. apply lookup_replicate in Hi as [-> _]. done. }
  assert (Hw : icache_wf empty_table).
  { constructor.
    - intros i j a b Ha _ Hr. rewrite (H0 i a Ha) in Hr. lia.
    - apply Forall_lookup. intros i ip Hi. rewrite (H0 i ip Hi). lia. }
  split; [exact Hw|]. intros k. destruct (refs_spec _ k Hw) as [(i & ip & Hi & [L _] & _)|[_ E]]; [|exact E].
  rewrite (H0 i ip Hi) in L. lia.
Qed.

(** ** Lemmas: the blocks of an inode *)

(** The inode in slot [i] is a file of the memory disk whose direct blocks are
    all allocated and on the disk. *)
Record blocks_ok (x : minix) (i : nat) (ip : minix_inode) : Prop := {
  bo_slot : mx_inode x !! i = Some ip;
  bo_dev : mi_dev ip = MEMDEV;
  bo_len : length (mi_addr ip) = ADDR_LEN;
  bo_addr : forall k, (k < 7)%nat -> 0 < nth k (mi_addr ip) 0 < disksize (mx_bio x)
}.

(** The bytes of the direct blocks. *)
Definition block_of (s : bio) (ip : minix_inode) (k : nat) : list Z := sector s (nth k (mi_addr ip) 0).

Definition file_bytes (s : bio) (ip : minix_inode) : list Z := concat (map (block_of s ip) (seq 0 7)).

Section Files.

Context `{ide : IdeDevice}.

Lemma bmap_ok x i ip bn : blocks_ok x i ip -> 0 <= bn < 7 -> bmap x i bn = Ret (x, nth (Z.to_nat bn) (mi_addr ip) 0).
Proof.
  intros [H1 H2 H3 H4] Hbn. unfold bmap, NDIRECT. rewrite decide_True by lia. rewrite H1. cbn [deref]. rewrite bind_Ret.
  pose proof (H4 (Z.to_nat bn) ltac:(lia)). by rewrite decide_False by lia.
Qed.

Lemma concat_blocks (f : nat -> list Z) n : forall a k o m,
  (forall j, length (f j) = 512%nat) -> (a <= k < a + n)%nat -> (o + m <= 512)%nat ->
  take m (drop ((k - a) * 512 + o) (concat (map f (seq a n)))) = take m (drop o (f k)).
Proof.
  induction n as [|n IH]; intros a k o m Hf Hk Ho; [lia|]. cbn [seq map concat].
  destruct (decide (k = a)) as [->|Hne].
  - replace ((a - a) * 512 + o)%nat with o by lia. rewrite drop_app_le by (rewrite Hf; lia).
    rewrite take_app_le; [done|]. rewrite length_drop, Hf. lia.
  - replace ((k - a) * 512 + o)%nat with (length (f a) + ((k - S a) * 512 + o))%nat by (rewrite Hf; lia).
    rewrite drop_app_add. apply IH; [done|lia|done].
Qed.

Lemma take_add_drop (l : list Z) a b o :
  take (a + b) (drop o l) = take a (drop o l) ++ take b (drop (o + a) l).
Proof. rewrite <- drop_drop. symmetry. apply take_take_drop. Qed.

Lemma sector_length s n : length (sector s n) = 512%nat.
Proof. apply length_read_bytes. Qed.

Lemma file_bytes_length s ip : length (file_bytes s ip) = 3584%nat.
Proof. unfold file_bytes, block_of. cbn [seq map concat]. rewrite !length_app, !sector_length. done. Qed.

Lemma file_bytes_same s s' ip : (forall k, sector s' k = sector s k) -> file_bytes s' ip = file_bytes s ip.
Proof. intros H. unfold file_bytes, block_of. by rewrite !(map_ext _ _ (fun k => H (nth k (mi_addr ip) 0))). Qed.

Lemma blocks_ok_bio x i ip b : blocks_ok x i ip -> disksize b = disksize (mx_bio x) -> blocks_ok (set_bio x b) i ip.
Proof. intros [H1 H2 H3 H4] Hd. constructor; [exact H1|exact H2|exact H3|]. cbn [set_bio mx_bio]. by rewrite Hd. Qed.

Lemma readi_loop_ok i ip n fuel : forall x l off s out,
  blocks_ok x i ip -> cache_wf (mx_bio x) l -> Buffer.quiet (mx_bio x) l ->
  0 <= s <= n -> 0 <= off -> off + (n - s) <= 3584 -> n <= 3584 -> (Z.to_nat (n - s) < fuel)%nat ->
  exists b l', readi_loop fuel x i off s n out =
      Ret (set_bio x b, out ++ take (Z.to_nat (n - s)) (drop (Z.to_nat off) (file_bytes (mx_bio x) ip))) /\
    cache_wf b l' /\ Buffer.quiet b l' /\ disksize b = disksize (mx_bio x) /\
    (forall k, sector b k = sector (mx_bio x) k).
Proof.
  induction fuel as [|fuel IH]; intros x l off s out Hbo Hwf Hq Hs Ho Hon Hn Hf; [lia|]. cbn [readi_loop].
  case_decide as D.
  2: { exists (mx_bio x), l. replace (Z.to_nat (n - s)) with O by lia. rewrite take_0, app_nil_r.
       split; [by destruct x|]. split; [exact Hwf|]. split; [exact Hq|]. by split. }
  rewrite (bo_slot _ _ _ Hbo). cbn [deref]. rewrite bind_Ret, (bmap_ok x i ip) by (exact Hbo || modlia).
  rewrite bind_Ret. cbn beta iota. rewrite (bo_dev _ _ _ Hbo).
  set (k := Z.to_nat (off / 512)). assert (Hk : (k < 7)%nat) by (unfold k; modlia).
  pose proof (bo_addr _ _ _ Hbo k Hk) as Ha.
  destruct (read_ok (mx_bio x) l (nth k (mi_addr ip) 0) Hwf Hq ltac:(lia))
    as (b1 & bp & b2 & l' & -> & Hd & E2 & Hwf2 & Hq2 & Hm & Hst & Hz).
  cbn [mbind outcome_bind]. rewrite E2. cbn [mbind outcome_bind].
  set (m := piece n s off). assert (Em : m = Z.min (n - s) (512 - off mod 512)) by (unfold m, piece; rewrite u32_small by lia; done).
  assert (Hm0 : 0 < m) by (rewrite Em; modlia). rewrite !u32_small by lia.
  assert (Hsec : forall j, sector b2 j = sector (mx_bio x) j) by (intros j; unfold sector; by rewrite Hm, Hst).
  destruct (IH (set_bio x b2) l' (off + m) (s + m) (out ++ take (Z.to_nat m) (drop (Z.to_nat (off mod 512)) (bdata b1 bp))))
    as (b & l2 & E & H1 & H2 & H3 & H4); try (exact Hwf2 || exact Hq2 || lia).
  { by apply blocks_ok_bio. }
  exists b, l2. split; [|split; [exact H1|split; [exact H2|split; [by rewrite H3|]]]].
  2: { intros j. rewrite H4. apply Hsec. }
  rewrite E. cbn [set_bio mx_bio]. rewrite (file_bytes_same (mx_bio x)) by exact Hsec. f_equal. f_equal. rewrite <- app_assoc. f_equal.
  replace (Z.to_nat (n - s)) with (Z.to_nat m + Z.to_nat (n - (s + m)))%nat by lia. rewrite take_add_drop.
  f_equal; [|f_equal; f_equal; lia]. rewrite Hd. symmetry.
  replace (Z.to_nat off) with ((k - 0) * 512 + Z.to_nat (off mod 512))%nat by (unfold k; modlia).
  apply concat_blocks; [intros j; apply sector_length|lia|]. rewrite Em. modlia.
Qed.

Lemma readi_ok x l i ip off n :
  blocks_ok x i ip -> cache_wf (mx_bio x) l -> Buffer.quiet (mx_bio x) l -> mi_type ip <> T_DEV ->
  0 <= off <= mi_size ip -> mi_size ip <= 3584 -> 0 <= n < 4294963712 ->
  let got := take (Z.to_nat n) (drop (Z.to_nat off) (take (Z.to_nat (mi_size ip)) (file_bytes (mx_bio x) ip))) in
  exists b l', readi x i off n = Ret (set_bio x b, Z.of_nat (length got), got) /\
    cache_wf b l' /\ Buffer.quiet b l' /\ disksize b = disksize (mx_bio x) /\ (forall k, sector b k = sector (mx_bio x) k).
Proof.
  intros Hbo Hwf Hq Ht Ho Hsz Hn got. unfold readi. rewrite (bo_slot _ _ _ Hbo). cbn [deref]. rewrite bind_Ret.
  rewrite decide_False by exact Ht. rewrite decide_False by lia. rewrite !u32_small by lia.
  set (n' := if decide (off + n > mi_size ip) then mi_size ip - off else n).
  assert (Hn' : n' = Z.min n (mi_size ip - off)) by (unfold n'; case_decide; lia).
  destruct (readi_loop_ok i ip n' (S (Z.to_nat n')) x l off 0 [] Hbo Hwf Hq) as (b & l' & E & H1 & H2 & H3 & H4); [lia..|].
  assert (Hg : got = take (Z.to_nat (n' - 0)) (drop (Z.to_nat off) (file_bytes (mx_bio x) ip))).
  { unfold got. rewrite skipn_firstn_comm, take_take. f_equal. lia. }
  exists b, l'. split; [|done]. rewrite E. cbn [mbind outcome_bind app]. rewrite <- Hg. do 2 f_equal. f_equal.
  rewrite Hg, length_take, length_drop, file_bytes_length, s32_small by lia. lia.
Qed.

(** Overwriting part of a list. *)
Definition splice (l : list Z) (o : nat) (c : list Z) : list Z := take o l ++ c ++ drop (o + length c) l.

Lemma splice_length l o c : (o + length c <= length l)%nat -> length (splice l o c) = length l.
Proof. intros H. unfold splice. rewrite !length_app, length_take, length_drop. lia. Qed.

Lemma splice_splice l o c1 c2 : (o + length c1 + length c2 <= length l)%nat ->
  splice (splice l o c1) (o + length c1) c2 = splice l o (c1 ++ c2).
Proof.
  intros H. unfold splice. rewrite length_app.
  assert (Hl : length (take o l ++ c1) = (o + length c1)%nat) by (rewrite length_app, length_take; lia).
  rewrite (app_assoc (take o l) c1). set (p := take o l ++ c1) in *. rewrite <- Hl. rewrite take_app_length.
  rewrite drop_app_add, drop_drop, Hl. unfold p. rewrite <- !app_assoc. do 4 f_equal. lia.
Qed.

Lemma splice_nil l o : splice l o [] = l.
Proof. unfold splice. cbn [length app]. rewrite Nat.add_0_r. apply take_drop. Qed.

Lemma concat_splice (f g : nat -> list Z) n : forall a k o c,
  (forall j, length (f j) = 512%nat) -> (a <= k < a + n)%nat -> (o + length c <= 512)%nat ->
  (forall j, (a <= j < a + n)%nat -> g j = if decide (j = k) then splice (f j) o c else f j) ->
  concat (map g (seq a n)) = splice (concat (map f (seq a n))) ((k - a) * 512 + o) c.
Proof.
  induction n as [|n IH]; intros a k o c Hf Hk Ho Hg; [lia|]. cbn [seq map concat]. rewrite (Hg a) by lia.
  destruct (decide (a = k)) as [->|Hne].
  - replace ((k - k) * 512 + o)%nat with o by lia.
    rewrite (map_ext_in g f).
    2: { intros j Hj. apply in_seq in Hj. rewrite Hg by lia. by rewrite decide_False by lia. }
    unfold splice. rewrite take_app_le, drop_app_le by (rewrite Hf; lia). by rewrite <- !app_assoc.
  - rewrite (IH (S a) k o c Hf) by (try lia; intros j Hj; apply Hg; lia).
    replace ((k - a) * 512 + o)%nat with (length (f a) + ((k - S a) * 512 + o))%nat by (rewrite Hf; lia).
    unfold splice. rewrite take_app_add, <- (Nat.add_assoc (length (f a))), drop_app_add. by rewrite <- app_assoc.
Qed.

Lemma file_bytes_write s s' ip k o c :
  (k < 7)%nat -> (o + length c <= 512)%nat -> NoDup (take 7 (mi_addr ip)) -> length (mi_addr ip) = ADDR_LEN ->
  (forall j, (j < 7)%nat -> 0 <= nth j (mi_addr ip) 0) ->
  (forall n, 0 <= n -> sector s' n = if decide (n = nth k (mi_addr ip) 0) then splice (sector s n) o c else sector s n) ->
  file_bytes s' ip = splice (file_bytes s ip) (k * 512 + o) c.
Proof.
  intros Hk Ho Hnd Hlen Hpos Hs. unfold file_bytes. replace (k * 512)%nat with ((k - 0) * 512)%nat by lia.
  apply concat_splice; [intros j; apply sector_length|lia|exact Ho|].
  intros j Hj. unfold block_of. rewrite Hs by (apply Hpos; lia).
  destruct (decide (j = k)) as [->|Hne]; [by rewrite decide_True|]. rewrite decide_False; [done|].
  intros E. apply Hne. unfold ADDR_LEN in Hlen.
  assert (Hat : forall q, (q < 7)%nat -> take 7 (mi_addr ip) !! q = Some (nth q (mi_addr ip) 0)).
  { intros q Hq. rewrite lookup_take_lt by lia. destruct (lookup_lt_is_Some_2 (mi_addr ip) q ltac:(lia)) as [v Hv].
    rewrite Hv. f_equal. symmetry. by apply nth_lookup_Some. }
  apply (NoDup_lookup _ _ _ _ Hnd (Hat j ltac:(lia))). rewrite E. apply Hat. lia.
Qed.

Lemma bread_data s l n : cache_wf s l -> Buffer.quiet s l -> 0 <= n < disksize s ->
  exists s1 b, bread s MEMDEV n = Ret (s1, b) /\ bdata s1 b = sector s n.
Proof.
  intros Hwf Hq Hn. destruct (read_ok s l n Hwf Hq Hn) as (s1 & b & _ & _ & E & Hd & _). by exists s1, b.
Qed.

Lemma nth_take (l : list Z) n k : (k < n)%nat -> nth k (take n l) 0 = nth k l 0.
Proof. revert n k. induction l as [|x l IH]; intros [|n] [|k] H; try lia; try done. cbn. apply IH. lia. Qed.

Lemma writei_loop_ok i ip n fuel : forall x l off s src,
  blocks_ok x i ip -> NoDup (take 7 (mi_addr ip)) -> cache_wf (mx_bio x) l -> Buffer.quiet (mx_bio x) l ->
  0 <= s <= n -> 0 <= off -> off + (n - s) <= 3584 -> n <= 3584 -> (Z.to_nat (n - s) < fuel)%nat ->
  (Z.to_nat (n - s) <= length src)%nat ->
  exists b l', writei_loop fuel x i src off s n = Ret (set_bio x b) /\
    cache_wf b l' /\ Buffer.quiet b l' /\ disksize b = disksize (mx_bio x) /\
    file_bytes b ip = splice (file_bytes (mx_bio x) ip) (Z.to_nat off) (take (Z.to_nat (n - s)) src) /\
    (forall k, 0 <= k -> ~ In k (take 7 (mi_addr ip)) -> sector b k = sector (mx_bio x) k).
Proof.
  induction fuel as [|fuel IH]; intros x l off s src Hbo Hnd Hwf Hq Hs Ho Hon Hn Hf Hsrc; [lia|]. cbn [writei_loop].
  case_decide as D.
  2: { exists (mx_bio x), l. replace (Z.to_nat (n - s)) with O by lia. rewrite take_0, splice_nil.
       split; [by destruct x|]. split; [exact Hwf|]. split; [exact Hq|]. by split. }
  rewrite (bo_slot _ _ _ Hbo). cbn [deref]. rewrite bind_Ret, (bmap_ok x i ip) by (exact Hbo || modlia).
  rewrite bind_Ret. cbn beta iota. rewrite (bo_dev _ _ _ Hbo).
  set (k := Z.to_nat (off / 512)). assert (Hk : (k < 7)%nat) by (unfold k; modlia).
  pose proof (bo_addr _ _ _ Hbo k Hk) as Ha. set (a := nth k (mi_addr ip) 0) in *.
  set (m := piece n s off). assert (Em : m = Z.min (n - s) (512 - off mod 512)) by (unfold m, piece; rewrite u32_small by lia; done).
  assert (Hm0 : 0 < m) by (rewrite Em; modlia). set (o := Z.to_nat (off mod 512)). set (c := take (Z.to_nat m) src).
  assert (Hc : length c = Z.to_nat m) by (unfold c; rewrite length_take; lia).
  assert (Hoc : (o + length c <= 512)%nat) by (rewrite Hc; unfold o; rewrite Em; modlia).
  destruct (bread_data (mx_bio x) l a Hwf Hq ltac:(lia)) as (b0 & bp & E0 & Hd).
  destruct (write_ok (mx_bio x) l a (splice (sector (mx_bio x) a) o c) Hwf Hq ltac:(lia))
    as (b0' & bp' & b1 & b2 & l' & E0' & E1 & E2 & Hwf2 & Hq2 & Hz & Hsec).
  { rewrite splice_length; rewrite sector_length; [done|exact Hoc]. }
  rewrite E0 in E0'. injection E0' as <- <-. rewrite E0. cbn [mbind outcome_bind]. rewrite Hd.
  fold o. fold c. rewrite <- Hc. fold (splice (sector (mx_bio x) a) o c). rewrite E1. cbn [mbind outcome_bind]. rewrite E2. cbn [mbind outcome_bind].
  rewrite Hc, !u32_small by lia.
  destruct (IH (set_bio x b2) l' (off + m) (s + m) (drop (Z.to_nat m) src)) as (b & l2 & E & H1 & H2 & H3 & H4 & H5);
    try (exact Hwf2 || exact Hq2 || exact Hnd || lia).
  { by apply blocks_ok_bio. } { rewrite length_drop. lia. }
  exists b, l2. split; [exact E|]. split; [exact H1|]. split; [exact H2|]. split; [by rewrite H3|]. split.
  - rewrite H4. cbn [set_bio mx_bio].
    rewrite (file_bytes_write (mx_bio x) b2 ip k o c Hk Hoc Hnd (bo_len _ _ _ Hbo)).
    2: { intros j Hj. pose proof (bo_addr _ _ _ Hbo j Hj). lia. }
    2: { intros q Hq'. rewrite Hsec by exact Hq'. fold a. case_decide as Eq; [by rewrite Eq|done]. }
    replace (k * 512 + o)%nat with (Z.to_nat off) by (unfold k, o; modlia).
    replace (Z.to_nat (off + m)) with (Z.to_nat off + length c)%nat by (rewrite Hc; lia).
    rewrite splice_splice.
    2: { rewrite file_bytes_length, length_take, length_drop, Hc. lia. }
    f_equal. unfold c. rewrite take_take_drop. f_equal. lia.
  - intros j Hj Hnot. rewrite H5 by assumption. cbn [set_bio mx_bio]. rewrite Hsec by exact Hj. rewrite decide_False; [done|].
    intros ->. apply Hnot. unfold a. rewrite <- (nth_take _ 7 k) by exact Hk. apply nth_In. rewrite length_take.
    pose proof (bo_len _ _ _ Hbo). unfold ADDR_LEN in *. lia.
Qed.

Lemma writei_ok x l i ip src off n :
  blocks_ok x i ip -> NoDup (take 7 (mi_addr ip)) -> cache_wf (mx_bio x) l -> Buffer.quiet (mx_bio x) l -> mi_type ip <> T_DEV ->
  0 <= off <= mi_size ip -> 0 <= n -> off + n <= 3584 -> n <= Z.of_nat (length src) ->
  exists b l', writei x i src off n = Ret (set_bio x b, n) /\
    cache_wf b l' /\ Buffer.quiet b l' /\ disksize b = disksize (mx_bio x) /\
    file_bytes b ip = splice (file_bytes (mx_bio x) ip) (Z.to_nat off) (take (Z.to_nat n) src) /\
    (forall k, 0 <= k -> ~ In k (take 7 (mi_addr ip)) -> sector b k = sector (mx_bio x) k).
Proof.
  intros Hbo Hnd Hwf Hq Ht Ho Hn Hon Hsrc. unfold writei. rewrite (bo_slot _ _ _ Hbo). cbn [deref]. rewrite bind_Ret.
  rewrite decide_False by exact Ht. rewrite decide_False by lia.
  destruct (writei_loop_ok i ip n (S (Z.to_nat n)) x l off 0 src Hbo Hnd Hwf Hq) as (b & l' & E & H1 & H2 & H3 & H4 & H5); [lia..|].
  exists b, l'. rewrite E, bind_Ret. rewrite s32_small by lia. rewrite Z.sub_0_r in H4. done.
Qed.

Lemma splice_get l o c : (o + length c <= length l)%nat -> take (length c) (drop o (splice l o c)) = c.
Proof.
  intros H. unfold splice. assert (Hl : length (take o l) = o) by (rewrite length_take; lia).
  rewrite <- Hl at 1. rewrite drop_app_length. apply take_app_length.
Qed.

(** ** Properties *)

(** C20. The reference counts of the inode table are exact: in every history of
    [iget], [idup] and [iput] from the empty table in which only held references
    are copied or dropped and no count exceeds its 16 bits, each inode is in at
    most one slot and its count is the number of references taken minus those
    dropped. *)
Theorem icache_refcounts (h : list ((Z * Z) * Z)) (t : list minix_inode) (Hh : isteps empty_table h t) :
  icache_wf t /\ forall k, refs t k = balance h k.
Proof.
  destruct empty_table_wf as [Hw0 Hr0]. remember empty_table as t0 eqn:E.
  induction Hh as [t|t h t1 k d t2 Hh IH Hs Hb]; subst t; [by split|].
  destruct (IH eq_refl) as [Hw Hr]; [done|done|]. destruct (istep_ok t1 k d t2 Hs Hw Hb) as [Hw2 Hr2].
  split; [exact Hw2|]. intros k'. rewrite Hr2, Hr, balance_app. cbn [balance]. lia.
Qed.

(** C19. [writei] and [readi] through the buffer cache: bytes written inside a
    file are read back, the bytes of the file before and behind them and all
    sectors of other files are as before, and the cache is in order. *)
Theorem writei_readi (x : minix) (l : list nat) (i : nat) (ip : minix_inode) (src : list Z) (off : Z)
  (Hbo : blocks_ok x i ip) (Hnd : NoDup (take 7 (mi_addr ip))) (Hwf : cache_wf (mx_bio x) l)
  (Hq : Buffer.quiet (mx_bio x) l) (Ht : mi_type ip <> T_DEV) (Ho : 0 <= off)
  (Hn : off + Z.of_nat (length src) <= mi_size ip) (Hsz : mi_size ip <= 3584) :
  let n := Z.of_nat (length src) in
  exists x' x'' l', writei x i src off n = Ret (x', n) /\ readi x' i off n = Ret (x'', n, src) /\
    file_bytes (mx_bio x') ip = splice (file_bytes (mx_bio x) ip) (Z.to_nat off) src /\
    (forall k, 0 <= k -> ~ In k (take 7 (mi_addr ip)) -> sector (mx_bio x'') k = sector (mx_bio x) k) /\
    cache_wf (mx_bio x'') l' /\ Buffer.quiet (mx_bio x'') l'.
Proof.
  intros n. destruct (writei_ok x l i ip src off n Hbo Hnd Hwf Hq Ht) as (b & l1 & E & H1 & H2 & H3 & H4 & H5); [lia..|].
  assert (En : Z.to_nat n = length src) by lia. rewrite En, firstn_all in H4.
  assert (Hbo' : blocks_ok (set_bio x b) i ip) by (by apply blocks_ok_bio).
  destruct (readi_ok (set_bio x b) l1 i ip off n Hbo' H1 H2 Ht) as (b2 & l2 & E2 & G1 & G2 & _ & G4); [lia..|].
  assert (Hgot : take (Z.to_nat n) (drop (Z.to_nat off) (take (Z.to_nat (mi_size ip)) (file_bytes (mx_bio (set_bio x b)) ip))) = src).
  { rewrite skipn_firstn_comm, take_take. cbn [set_bio mx_bio]. rewrite H4, Nat.min_l by lia. rewrite En. apply splice_get.
    rewrite file_bytes_length. lia. }
  rewrite Hgot in E2. exists (set_bio x b), (set_bio (set_bio x b) b2), l2.
  split; [exact E|]. split; [exact E2|]. split; [exact H4|]. split; [|by split].
  intros k Hk Hnot. cbn [set_bio mx_bio]. rewrite G4. by apply H5.
Qed.

(** [strncmp] compares all the bytes, also those behind a NUL. *)
Lemma same_name_eq name de :
  length name = DIR_LEN -> length de = 32%nat -> Forall (fun b => 0 <= b < 256) name -> Forall (fun b => 0 <= b < 256) de ->
  same_name name de = bool_decide (drop 2 de = name).
Proof.
  intros Hn Hd Bn Bd. unfold same_name, DIR_LEN in *.
  assert (Hb : forall l, Forall (fun b => 0 <= b < 256) l -> forall j, 0 <= chars_ptr l j < 256).
  { intros l Hl j. unfold chars_ptr. destruct (nth_in_or_default (Z.to_nat j) l 0) as [Hin|E]; [|rewrite E; lia].
    apply list_elem_of_In in Hin. apply (proj1 (Forall_forall _ _) Hl _ Hin). }
  apply bool_decide_ext. rewrite strncmp_zero; [|intros; by apply Hb|intros; apply Hb; by apply Forall_drop|lia].
  unfold chars_ptr. split.
  - intros H. apply (nth_ext _ _ 0 0); [rewrite length_drop; lia|]. intros k Hk. rewrite length_drop in Hk.
    specialize (H (Z.of_nat k) ltac:(lia)). rewrite Nat2Z.id in H. congruence.
  - intros <- j _. done.
Qed.

Lemma search_loop_ok i ip name des fuel : forall x l pre post,
  blocks_ok x i ip -> cache_wf (mx_bio x) l -> Buffer.quiet (mx_bio x) l -> mi_type ip <> T_DEV ->
  length name = DIR_LEN -> Forall (fun b => 0 <= b < 256) name ->
  Forall (fun de => length de = 32%nat /\ Forall (fun b => 0 <= b < 256) de) des ->
  des = pre ++ post -> mi_size ip = 32 * Z.of_nat (length des) -> mi_size ip <= 3584 ->
  take (Z.to_nat (mi_size ip)) (file_bytes (mx_bio x) ip) = concat des -> (length post < fuel)%nat ->
  exists b l', cache_wf b l' /\ Buffer.quiet b l' /\ (forall k, sector b k = sector (mx_bio x) k) /\
    search_loop fuel x i name (32 * Z.of_nat (length pre)) =
    match List.find (fun de => bool_decide (drop 2 de = name)) post with
    | Some de => '(t, j) ← iget (mx_inode x) MEMDEV (de_inum de); Ret (set_inode (set_bio x b) t, Some j)
    | None => Ret (set_bio x b, None)
    end.
Proof.
  induction fuel as [|fuel IH]; intros x l pre post Hbo Hwf Hq Ht Hn Bn Hdes Hpp Hsz Hmax Hc Hf; [lia|]. cbn [search_loop].
  rewrite (bo_slot _ _ _ Hbo). cbn [deref]. rewrite bind_Ret. destruct post as [|de post].
  - rewrite app_nil_r in Hpp. subst pre. rewrite decide_False by lia. exists (mx_bio x), l.
    split; [exact Hwf|]. split; [exact Hq|]. split; [done|]. cbn [List.find]. by destruct x.
  - assert (Hlen : length des = (length pre + S (length post))%nat) by (rewrite Hpp, length_app; done).
    rewrite decide_True by lia. unfold DIRENT_SIZE.
    destruct (readi_ok x l i ip (32 * Z.of_nat (length pre)) 32 Hbo Hwf Hq Ht) as (b & l1 & E & H1 & H2 & H3 & H4); [lia..|].
    assert (Hpre : length (concat pre) = (32 * length pre)%nat).
    { rewrite Hpp in Hdes. apply Forall_app in Hdes as [Hp _]. clear -Hp. induction Hp as [|a p [Ha _] _ IHp]; [done|].
      cbn [concat length]. rewrite length_app, Ha, IHp. lia. }
    assert (Hde : length de = 32%nat /\ Forall (fun b => 0 <= b < 256) de).
    { rewrite Hpp in Hdes. apply Forall_app in Hdes as [_ Hp]. by apply Forall_cons in Hp as [Hp _]. }
    assert (Hgot : take (Z.to_nat 32) (drop (Z.to_nat (32 * Z.of_nat (length pre))) (concat des)) = de).
    { rewrite Hpp, concat_app. cbn [concat]. replace (Z.to_nat (32 * Z.of_nat (length pre))) with (length (concat pre)) by lia.
      rewrite drop_app_length. change (Z.to_nat 32) with 32%nat. rewrite <- (proj1 Hde). apply take_app_length. }
    rewrite Hc, Hgot, (proj1 Hde) in E. rewrite E. cbn [mbind outcome_bind]. change (Z.of_nat 32) with 32.
    rewrite decide_False by tauto. rewrite (same_name_eq name de Hn (proj1 Hde) Bn (proj2 Hde)). cbn [List.find].
    case_bool_decide as Hm.
    + exists b, l1. split; [exact H1|]. split; [exact H2|]. split; [exact H4|]. rewrite (bo_dev _ _ _ Hbo). done.
    + rewrite u32_small by lia. replace (32 * Z.of_nat (length pre) + 32) with (32 * Z.of_nat (length (pre ++ [de])))
        by (rewrite length_app; cbn [length]; lia).
      destruct (IH (set_bio x b) l1 (pre ++ [de]) post) as (b2 & l2 & G1 & G2 & G3 & G4); try assumption.
      { by apply blocks_ok_bio. } { by rewrite <- app_assoc. }
      { cbn [set_bio mx_bio]. by rewrite (file_bytes_same (mx_bio x)). } { cbn [length] in Hf. lia. }
      exists b2, l2. split; [exact G1|]. split; [exact G2|]. split; [|exact G4].
      intros k. rewrite G3. apply H4.
Qed.

(** [search_dir] in a directory of the memory disk: it takes a reference to
    the inode of the first entry whose thirty name bytes are those of the
    argument, and returns null when there is none; the disk is not changed.
    The comparison does not stop at a NUL, so what follows a short name in the
    argument has to agree, too. *)
Lemma search_dir_first (x : minix) (l : list nat) (i : nat) (ip : minix_inode) (name : list Z) (des : list (list Z))
  (Hbo : blocks_ok x i ip) (Hwf : cache_wf (mx_bio x) l) (Hq : Buffer.quiet (mx_bio x) l) (Ht : mi_type ip <> T_DEV)
  (Hn : length name = DIR_LEN) (Bn : Forall (fun b => 0 <= b < 256) name)
  (Hdes : Forall (fun de => length de = 32%nat /\ Forall (fun b => 0 <= b < 256) de) des)
  (Hsz : mi_size ip = 32 * Z.of_nat (length des)) (Hmax : mi_size ip <= 3584)
  (Hc : take (Z.to_nat (mi_size ip)) (file_bytes (mx_bio x) ip) = concat des) :
  exists b l', cache_wf b l' /\ Buffer.quiet b l' /\ (forall k, sector b k = sector (mx_bio x) k) /\
    search_dir x i name =
    match List.find (fun de => bool_decide (drop 2 de = name)) des with
    | Some de => '(t, j) ← iget (mx_inode x) MEMDEV (de_inum de); Ret (set_inode (set_bio x b) t, Some j)
    | None => Ret (set_bio x b, None)
    end.
Proof.
  unfold search_dir. rewrite (bo_slot _ _ _ Hbo). cbn [deref]. rewrite bind_Ret.
  exact (search_loop_ok i ip name des (S (Z.to_nat (mi_size ip))) x l [] des Hbo Hwf Hq Ht Hn Bn Hdes eq_refl Hsz Hmax Hc ltac:(lia)).
Qed.

(** ** What does not work yet *)

Lemma getblk_other (s : bio) l dev n :
  cache_wf s l -> Buffer.quiet s l -> (forall i, i ∈ l -> bdev s i <> dev) ->
  exists v, getblk s dev n = Ret (set_key (set_flags s v BUF_BUSY) v (u16 dev) n, v).
Proof.
  intros Hwf Hq Hno. unfold getblk. rewrite (ring_search s l) by done. cbn [mbind outcome_bind].
  destruct (List.find (is_block _ _ _) l) as [j|] eqn:E.
  { apply find_some in E as [Hj Hk]. apply list_elem_of_In in Hj. apply is_block_true in Hk as [Hjd _]. by destruct (Hno j Hj). }
  rewrite (ring_search_back s l) by done. cbn [mbind outcome_bind].
  destruct (List.find (is_free s) (rev l)) as [v|] eqn:F; [by exists v|]. exfalso.
  assert (H0 : 0%nat ∈ l) by (rewrite (wf_all _ _ Hwf); apply elem_of_seq; unfold NBUF; lia).
  assert (Hin : In 0%nat (rev l)) by (by apply in_rev; rewrite rev_involutive; apply list_elem_of_In).
  pose proof (find_none _ _ F 0%nat Hin) as Hf.
  rewrite (proj2 (is_free_unlocked s 0 (wf_bufs _ _ Hwf 0%nat H0)) (Hq 0%nat H0)) in Hf. discriminate Hf.
Qed.

(** C40. Opening a file cannot succeed yet.  The root device has number 1, which
    no driver serves: [fileopen] panics in the block layer.  And because [iget]
    does not read the inode from the disk, a path walked from the root over an
    inode table without entries is never found, whatever is on the disk, and the
    reference to the root is not dropped. *)
Theorem minix_open_fails (x : minix) (l : list nat) (path name : list Z) (flags : Z)
  (Hwf : cache_wf (mx_bio x) l) (Hq : Buffer.quiet (mx_bio x) l)
  (Hdev : forall i, i ∈ l -> bdev (mx_bio x) i <> ROOTDEV) :
  fileopen x path flags name = Stop (Panic "buf_ll_rw") /\
  (mx_inode x = empty_table -> path !! 0%nat = Some 47 -> skip_slash path <> [] ->
   exists t, namei x path name = Ret (set_inode x t, None) /\ refs t (ROOTDEV, ROOTINO) = 1).
Proof.
  split.
  - unfold fileopen, check_minixfs, bread. destruct (getblk_other (mx_bio x) l ROOTDEV 2 Hwf Hq Hdev) as (v & ->).
    cbn [mbind outcome_bind]. unfold set_key, set_flags. cbn [bflags bdev]. rewrite upd_same.
    change (Z.land BUF_BUSY BUF_VALID) with 0. rewrite decide_True by done. unfold buf_ll_rw. cbn [bdev]. rewrite upd_same.
    done.
  - intros Ht Hp Hs. unfold namei. rewrite decide_True by exact Hp. rewrite Ht.
    set (t1 := <[0%nat := claimed empty_inode ROOTDEV ROOTINO]> empty_table).
    assert (E : iget empty_table ROOTDEV ROOTINO = Ret (t1, 0%nat)) by reflexivity. rewrite E. cbn [mbind outcome_bind].
    exists t1. split; [|vm_compute; reflexivity]. cbn [namei_loop]. unfold path_down.
    destruct (skip_slash path) as [|c p]; [exfalso; exact (Hs eq_refl)|]. destruct (component (c :: p)) as [comp rest].
    set (nm := if decide _ then _ else _). unfold search_dir. cbn [set_inode mx_inode].
    assert (E0 : t1 !! 0%nat = Some (claimed empty_inode ROOTDEV ROOTINO)) by (apply list_lookup_insert_eq; unfold empty_table; rewrite length_replicate; unfold NINODE; lia).
    rewrite E0. cbn [deref]. rewrite bind_Ret. cbn [claimed mi_size empty_inode Z.to_nat search_loop set_inode mx_inode].
    rewrite E0. cbn [deref]. rewrite bind_Ret. cbn [claimed mi_size empty_inode]. by rewrite decide_False by lia.
Qed.

End Files.

(** ** Witnesses *)

Lemma icache_refcounts_witness :
  exists t, isteps empty_table [((256, 5), 1); ((256, 5), 1); ((256, 5), -1)] t /\ refs t (256, 5) = 1.
Proof.
  set (ip := claimed empty_inode 256 5).
  set (t1 := <[0%nat := ip]> empty_table). set (t2 := <[0%nat := with_ref ip 2]> t1).
  set (t3 := <[0%nat := with_ref ip 1]> t2).
  assert (Hs : isteps empty_table [((256, 5), 1); ((256, 5), 1); ((256, 5), -1)] t3).
  { change [((256, 5), 1); ((256, 5), 1); ((256, 5), -1)] with ((([] ++ [((256, 5), 1)]) ++ [((256, 5), 1)]) ++ [((256, 5), -1)]).
    eapply (isteps_snoc _ _ t2).
    - eapply (isteps_snoc _ _ t1).
      + eapply (isteps_snoc _ _ empty_table); [constructor| |vm_compute; reflexivity].
        apply (istep_get _ _ _ _ 0%nat); [lia|lia|reflexivity].
      + apply (istep_get _ _ _ _ 0%nat); [lia|lia|reflexivity].
      + vm_compute. reflexivity.
    - apply (istep_put t2 0 (with_ref ip 2) t3); reflexivity.
    - vm_compute. reflexivity. }
  exists t3. split; [exact Hs|]. rewrite (proj2 (icache_refcounts _ _ Hs)). reflexivity.
Defined.

(** A file system whose inode 0 owns the sectors 1 to 7 of a disk with the bytes
    [bs] from sector 1 on. *)
Definition demo_minix (bs : list Z) (size : Z) : minix :=
  mkMinix (init_buffer (boot_bio (fun a => nth (Z.to_nat (a - 4608)) bs 0) 4096 10))
    [mkMi 1 0 size 0 0 0 [1; 2; 3; 4; 5; 6; 7; 0; 0] MEMDEV 1 1 0; empty_inode] [] [] None [].

Lemma demo_minix_ok bs size :
  blocks_ok (demo_minix bs size) 0 (mkMi 1 0 size 0 0 0 [1; 2; 3; 4; 5; 6; 7; 0; 0] MEMDEV 1 1 0) /\
  cache_wf (mx_bio (demo_minix bs size)) (rev (seq 0 NBUF)) /\ Buffer.quiet (mx_bio (demo_minix bs size)) (rev (seq 0 NBUF)).
Proof.
  destruct (init_buffer_ok (fun a => nth (Z.to_nat (a - 4608)) bs 0) 4096 10 ltac:(lia)) as [Hwf Hq].
  split; [|by split]. constructor; [done|done|done|]. intros k Hk. change (disksize _) with 10.
  do 7 (destruct k as [|k]; [cbn; lia|]). lia.
Qed.

Lemma writei_readi_witness :
  exists x' x'', writei (ide := idle_ide) (demo_minix [] 600) 0 [4; 5; 6] 511 3 = Ret (x', 3) /\
    readi (ide := idle_ide) x' 0 511 3 = Ret (x'', 3, [4; 5; 6]).
Proof.
  destruct (demo_minix_ok [] 600) as (Hbo & Hwf & Hq).
  destruct (writei_readi (ide := idle_ide) (demo_minix [] 600) (rev (seq 0 NBUF)) 0 _ [4; 5; 6] 511 Hbo) as (x' & x'' & l' & E1 & E2 & _).
  - apply (bool_decide_unpack _). vm_compute. exact I.
  - exact Hwf.
  - exact Hq.
  - discriminate.
  - lia.
  - cbn. lia.
  - cbn. lia.
  - exists x', x''. by split.
Defined.



Lemma minix_open_fails_witness :
  exists x, fileopen (ide := idle_ide) x [47; 97] 0 (repeat 0 30) = Stop (Panic "buf_ll_rw") /\
    exists x', namei (ide := idle_ide) x [47; 97] (repeat 0 30) = Ret (x', None).
Proof.
  destruct (demo_minix_ok [] 600) as (_ & Hwf & Hq).
  set (x := mkMinix (mx_bio (demo_minix [] 600)) empty_table [] [] None []).
  destruct (minix_open_fails (ide := idle_ide) x _ [47; 97] (repeat 0 30) 0 Hwf Hq) as [E1 E2].
  - intros i Hi. apply list_elem_of_In, in_rev, in_seq in Hi. unfold NBUF in Hi.
    do 16 (destruct i as [|i]; [vm_compute; discriminate|]). lia.
  - exists x. split; [exact E1|]. destruct (E2 eq_refl eq_refl ltac:(discriminate)) as (t & E & _). by exists (set_inode x t).
Defined.
