(* ===== verification/Ext2.v ===== *)
(** * The ext2 reader and the virtual file system

    fs/fs.c and fs/ext2/ext2.c.  The operations of a node are function pointers;
    the class [FsNode] is the table of them, and the functions of fs.c call
    through it.  Of ext2 there is the reading of the super block through the
    buffer cache, the root node [init_ext2] makes for start-up, and the listing
    of an image that lies in memory.  Functions of ext2.c with an empty body
    ([ext2_iupdate], [write_block] and their like) have nothing to model. *)

From stdpp Require Import base list strings.
From Stdlib Require Import ZArith Lia.
From S2P Require Import Prelude Mmu CString Kalloc Ring Bio Hd Buffer BlockDev Le Console Printf.

Open Scope Z_scope.

(** ** Nodes (inc/fs.h, fs/fs.c) *)

Definition FS_DIR : Z := 2.

(** A node type [N] for a system with state [S]; [None] is a null pointer. *)
Class FsNode (N S : Type) : Type := {
  fn_flags : N -> Z;
  fn_open : N -> option (S -> N -> Z -> outcome S);
  fn_close : N -> option (S -> N -> outcome S);
  fn_read : N -> option (S -> N -> Z -> Z -> outcome (S * Z * list Z));
  fn_write : N -> option (S -> N -> Z -> Z -> list Z -> outcome (S * Z));
  fn_readdir : N -> option (S -> N -> Z -> outcome (S * option (list Z)));
  fn_finddir : N -> option (S -> N -> list Z -> outcome (S * option N))
}.

Section Vfs.

Context {N S : Type} `{nodes : FsNode N S}.

Definition open_fs (s : S) (node : N) (flag : Z) : outcome S :=
  match fn_open node with Some f => f s node flag | None => Ret s end.

Definition close_fs (s : S) (node : N) : outcome S :=
  match fn_close node with Some f => f s node | None => Ret s end.

Definition read_fs (s : S) (node : N) (offset size : Z) : outcome (S * Z * list Z) :=
  match fn_read node with Some f => f s node offset size | None => Ret (s, 0, []) end.

Definition write_fs (s : S) (node : N) (offset size : Z) (buffer : list Z) : outcome (S * Z) :=
  match fn_write node with Some f => f s node offset size buffer | None => Ret (s, 0) end.

Definition readdir_fs (s : S) (node : N) (index : Z) : outcome (S * option (list Z)) :=
  match fn_readdir node with
  | Some f => if decide (Z.land (fn_flags node) 15 = FS_DIR) then f s node index else Ret (s, None)
  | None => Ret (s, None)
  end.

Definition finddir_fs (s : S) (node : N) (name : list Z) : outcome (S * option N) :=
  match fn_finddir node with
  | Some f => if decide (Z.land (fn_flags node) 15 = FS_DIR) then f s node name else Ret (s, None)
  | None => Ret (s, None)
  end.

End Vfs.

(** ** Layout (inc/ext2.h) *)

Definition EXT2_SUPER_MAGIC : Z := 61267.   (* 0xEF53 *)

Definition EXT2_SB_OFFSET : Z := 1024.

Definition EXT2_SB_SIZE : Z := 1024.

Definition EXT2_S_IFDIR : Z := 16384.       (* 0x4000 *)

(** Fields of the super block, by their offset and size. *)
Definition sb_inodes_count (b : list Z) : Z := get_le b 0 4.

Definition sb_blocks_count (b : list Z) : Z := get_le b 4 4.

Definition sb_r_blocks_count (b : list Z) : Z := get_le b 8 4.

Definition sb_free_blocks_count (b : list Z) : Z := get_le b 12 4.

Definition sb_free_inodes_count (b : list Z) : Z := get_le b 16 4.

Definition sb_first_data_block (b : list Z) : Z := get_le b 20 4.

Definition sb_log_block_size (b : list Z) : Z := get_le b 24 4.

Definition sb_log_frag_size (b : list Z) : Z := get_le b 28 4.

Definition sb_blocks_per_group (b : list Z) : Z := get_le b 32 4.

Definition sb_frags_per_group (b : list Z) : Z := get_le b 36 4.

Definition sb_inodes_per_group (b : list Z) : Z := get_le b 40 4.

Definition sb_mtime (b : list Z) : Z := get_le b 44 4.

Definition sb_wtime (b : list Z) : Z := get_le b 48 4.

Definition sb_mnt_count (b : list Z) : Z := get_le b 52 2.

Definition sb_max_mnt_count (b : list Z) : Z := get_le b 54 2.

Definition sb_magic (b : list Z) : Z := get_le b 56 2.

Definition sb_inode_size (b : list Z) : Z := get_le b 88 2.

(** ** State *)

(** The functions nodes point to, those of ext2 and [_sfs_open] of SFS. *)
Inductive callback : Type :=
  | Fs_ext2_open
  | Fs_ext2_close
  | Fs_ext2_read
  | Fs_ext2_write
  | Sfs_node_open.

(** [struct fs_node] with the fields that are filled; [readdir], [finddir] and
    [ptr] are always null. *)
Record fs_node : Type := mkNode {
  nd_name : list Z;
  nd_mask : Z;
  nd_uid : Z;
  nd_gid : Z;
  nd_flags : Z;
  nd_inode : Z;
  nd_length : Z;
  nd_impl : Z;
  nd_open : option callback;
  nd_close : option callback;
  nd_read : option callback;
  nd_write : option callback
}.

(** [sbb], the root node and the address it lies at, and what is below. *)
Record ext2 : Type := mkExt2 {
  e_bio : bio;
  e_mm : mm;
  e_cons : console;
  e_sbb : list Z;
  e_root : option (Z * fs_node)
}.

Definition set_ebio (s : ext2) (b : bio) : ext2 := mkExt2 b (e_mm s) (e_cons s) (e_sbb s) (e_root s).

Definition set_emm (s : ext2) (m : mm) : ext2 := mkExt2 (e_bio s) m (e_cons s) (e_sbb s) (e_root s).

Definition set_econs (s : ext2) (c : console) : ext2 := mkExt2 (e_bio s) (e_mm s) c (e_sbb s) (e_root s).

Definition set_esbb (s : ext2) (b : list Z) : ext2 := mkExt2 (e_bio s) (e_mm s) (e_cons s) b (e_root s).

Definition set_eroot (s : ext2) (r : Z * fs_node) : ext2 := mkExt2 (e_bio s) (e_mm s) (e_cons s) (e_sbb s) (Some r).

(** The text of a format with literal parts. *)
Definition text (fs : list frag) : list Z := concat (map frag_text fs).

Definition lit (s : string) : list frag := map FLit (chars s).

(** [(int)] of an unsigned argument for [%d]. *)
Definition dec (v : Z) : list frag := [FDec (s32 v)].

(** ** Reading and checking the super block *)

Section Mount.

Context `{ide : IdeDevice} `{uart : Uart}.

(** [EXT2_DEV] is the memory disk; [sec] is not advanced. *)
Fixpoint read_nblocks (n : nat) (b : bio) (sec : Z) : outcome (bio * list Z) :=
  match n with
  | O => Ret (b, [])
  | S k =>
      '(b1, data) ← bio_read b sec;
      '(b2, rest) ← read_nblocks k b1 sec;
      Ret (b2, data ++ rest)
  end.

(** [SB_BLOCK] is (1024 - 1) / 512 + 1. *)
Definition ext2_read_sb (s : ext2) : outcome ext2 :=
  '(b, sbb) ← read_nblocks 2 (e_bio s) 2; Ret (set_esbb (set_ebio s b) sbb).

(** What is printed behind the assertion. *)
Definition sb_report (b : list Z) : list frag :=
  lit "inodes count: " ++ dec (sb_inodes_count b) ++ lit ", " ++
  lit "block count: " ++ dec (sb_blocks_count b) ++ lit ", " ++
  lit "blocks reserved for root: " ++ dec (sb_r_blocks_count b) ++ [FLit 10] ++
  lit "free blocks: " ++ dec (sb_free_blocks_count b) ++ lit ", " ++
  lit "free inodes: " ++ dec (sb_free_inodes_count b) ++ [FLit 10] ++
  lit "first block start: " ++ dec (sb_first_data_block b) ++ lit ", " ++
  lit "a block = " ++ dec (Z.shiftl 1024 (sb_log_block_size b)) ++ lit " bytes, " ++
  lit "a frag = " ++ dec (Z.shiftl 1024 (sb_log_frag_size b)) ++ lit " bytes" ++ [FLit 10] ++
  lit "each group has " ++ dec (sb_blocks_per_group b) ++ lit " blocks, " ++
  dec (sb_frags_per_group b) ++ lit " fragments or " ++ dec (sb_inodes_per_group b) ++ lit " inodes" ++ [FLit 10] ++
  lit "last mount: " ++ [FHex (s32 (sb_mtime b)) false] ++ lit ", last write: " ++ [FHex (s32 (sb_wtime b)) false] ++ [FLit 10] ++
  lit "mounts " ++ dec (sb_mnt_count b) ++ lit " times since verified, " ++
  lit "and need to be verified after " ++ [FDec (sb_max_mnt_count b - sb_mnt_count b)] ++ lit " mounts" ++ [FLit 10] ++
  lit "inodes are " ++ dec (sb_inode_size b) ++ lit " bytes" ++ [FLit 10].

Definition dump_ext2_superblock (con : console) (b : list Z) : outcome console :=
  c1 ← emit put_c (settextcolor con 12 0)
         (text (lit "superblock Magic = " ++ [FHex (sb_magic b) false] ++ [FLit 10]));
  if decide (sb_magic b = EXT2_SUPER_MAGIC) then
    c2 ← emit put_c c1 (text (sb_report b)); Ret (resettextcolor c2)
  else Stop (Panic "assert_failed").

Definition ext2_obtain_sb_info (s : ext2) : outcome ext2 :=
  s1 ← ext2_read_sb s;
  con ← dump_ext2_superblock (e_cons s1) (e_sbb s1); Ret (set_econs s1 con).

(** It prints the name it was given. *)
Definition ext2_cat_file (s : ext2) (file : list Z) : outcome ext2 :=
  con ← emit put_c (settextcolor (e_cons s) 15 0)
          (text (lit "From function ext2_cat_file(): file = ") ++ file ++ [10]);
  Ret (set_econs s (resettextcolor con)).

Definition fs_ext2_open (s : ext2) (node : fs_node) (flag : Z) : outcome ext2 := ext2_cat_file s (chars "etc/motd").

Definition fs_ext2_close (s : ext2) (node : fs_node) : outcome ext2 := Ret s.

Definition fs_ext2_read (s : ext2) (node : fs_node) (fd n : Z) : outcome (ext2 * Z * list Z) := Ret (s, 0, []).

Definition fs_ext2_write (s : ext2) (node : fs_node) (fd n : Z) (buf : list Z) : outcome (ext2 * Z) := Ret (s, 0).

(** The page for the node is used unchecked. *)
Definition init_ext2 (s : ext2) : outcome (ext2 * fs_node) :=
  let '(page, m) := kalloc_page (e_mm s) in
  if decide (page = 0) then Stop (Fault "ext2_root")
  else
    let node := mkNode (chars "ext2") 0 0 0 FS_DIR 0 0 0 (Some Fs_ext2_open) (Some Fs_ext2_close)
                  (Some Fs_ext2_read) (Some Fs_ext2_write) in
    s1 ← ext2_obtain_sb_info (set_eroot (set_emm s m) (page, node));
    s2 ← ext2_cat_file s1 (chars "README");
    Ret (s2, node).

End Mount.

(** The nodes of ext2 behind the interface of fs.c. *)
#[export] Instance ext2_nodes `{uart : Uart} : FsNode fs_node ext2 := {
  fn_flags := nd_flags;
  fn_open n := match nd_open n with Some Fs_ext2_open => Some fs_ext2_open | _ => None end;
  fn_close n := match nd_close n with Some Fs_ext2_close => Some fs_ext2_close | _ => None end;
  fn_read n := match nd_read n with Some Fs_ext2_read => Some fs_ext2_read | _ => None end;
  fn_write n := match nd_write n with Some Fs_ext2_write => Some fs_ext2_write | _ => None end;
  fn_readdir _ := None;
  fn_finddir _ := None
}.

(** ** Listing an image in memory *)

Definition s16 (x : Z) : Z := (x + 32768) mod 65536 - 32768.

(** Fields of a group descriptor, an inode and a directory entry at [a]. *)
Definition bg_inode_table (m : memory) (a : Z) : Z := s32 (load32 m (a + 8)).

Definition bg_counts (m : memory) (a : Z) : list Z :=
  [s16 (load16 m (a + 12)); s16 (load16 m (a + 14)); s16 (load16 m (a + 16))].

Definition in_mode (m : memory) (a : Z) : Z := s16 (load16 m a).

Definition in_size (m : memory) (a : Z) : Z := s32 (load32 m (a + 4)).

Definition in_blocks (m : memory) (a : Z) : Z := s32 (load32 m (a + 28)).

Definition in_block0 (m : memory) (a : Z) : Z := s32 (load32 m (a + 40)).

Definition de_inode (m : memory) (a : Z) : Z := load32 m a.

Definition de_rec_len (m : memory) (a : Z) : Z := load16 m (a + 4).

Definition de_name_len (m : memory) (a : Z) : Z := m (a + 6).

Definition de_name : Z := 8.

Section Listing.

Context `{uart : Uart}.

(** The memory, where the image starts, where the literal ["motd"] lies, and a
    bound of the names. *)
Variable m : memory.
Variables start_addr motd : Z.
Variable strfuel : nat.

Definition image_sb : list Z := read_bytes m (start_addr + EXT2_SB_OFFSET) 1024.

Definition block_size : Z := s32 (Z.shiftl 1024 (sb_log_block_size image_sb)).

Definition inodetable : Z :=
  u32 (start_addr + block_size * bg_inode_table m (start_addr + EXT2_SB_OFFSET + EXT2_SB_SIZE)).

(** Inode [i] of the table. *)
Definition inode_at (i : Z) : Z := u32 (inodetable + sb_inode_size image_sb * i).

Definition block_at (inode : Z) : Z := u32 (start_addr + block_size * in_block0 m inode).

(** The file called motd is shown. *)
Definition dump_motd (con : console) (dirent : Z) : outcome console :=
  let f := inode_at (de_inode m dirent - 1) in
  c1 ← emit put_c (settextcolor con 14 0)
         (text (lit "Find file 'motd'. file size: " ++ [FDec (in_size m f)] ++ lit ", start from block " ++
                [FDec (in_block0 m f)] ++ lit "." ++ [FLit 10] ++ lit "Its content:" ++ [FLit 10]));
  c2 ← emit put_c (settextcolor c1 12 0) (read_bytes m (block_at f) (Z.to_nat (in_size m f)));
  Ret (settextcolor c2 13 0).

(** One entry, and the offset of the next one; [None] at the end. *)
Definition dump_dirent (con : console) (inode dir_offset : Z) : outcome (console * option Z) :=
  let dirent := u32 (block_at inode + dir_offset) in
  if decide (de_inode m dirent = 0) then Ret (con, None)
  else
    c1 ← emit put_c con (text (lit "[offset: " ++ dec dir_offset ++ lit "] name: "));
    c2 ← print_str put_c strfuel m c1 (dirent + de_name);
    c3 ← emit put_c c2 (text (lit " [inode: " ++ dec (de_inode m dirent) ++ lit "]" ++ [FLit 10]));
    c4 ← (if decide (strncmp (Some (at_ptr m (dirent + de_name))) (Some (at_ptr m motd)) (de_name_len m dirent) = 0)
          then dump_motd c3 dirent else Ret c3);
    Ret (c4, Some (u32 (dir_offset + de_rec_len m dirent))).

(** [while(dir_offset < inode->size)], an unsigned comparison. *)
Fixpoint dump_dir (fuel : nat) (con : console) (inode dir_offset : Z) : outcome console :=
  match fuel with
  | O => Stop Fuel
  | S f =>
      if decide (dir_offset < u32 (in_size m inode)) then
        '(c, next) ← dump_dirent con inode dir_offset;
        match next with Some o => dump_dir f c inode o | None => Ret c end
      else Ret con
  end.

(** The inodes from [i] on, [n] of them. *)
Fixpoint dump_inodes (fuel n : nat) (con : console) (i : Z) : outcome console :=
  match n with
  | O => Ret con
  | S k =>
      let inode := inode_at i in
      if decide (in_block0 m inode = 0) then dump_inodes fuel k con (i + 1)
      else
        c1 ← emit put_c con
               (text (lit "Inode " ++ dec i ++ lit " starts from block " ++ [FDec (in_block0 m inode)] ++ lit ", = " ++
                      [FDec (in_size m inode)] ++ lit " bytes (" ++ [FDec (in_blocks m inode)] ++ lit " blocks)" ++ [FLit 10]));
        c2 ← (if decide (Z.land (in_mode m inode) EXT2_S_IFDIR <> 0) then
                c ← emit put_c c1 (text (lit "It is a directory. Files listing:" ++ [FLit 10]));
                dump_dir fuel c inode 0
              else Ret c1);
        dump_inodes fuel k c2 (i + 1)
  end.

Definition dump_ext2 (fuel : nat) (con : console) : outcome console :=
  c1 ← emit put_c con (text (lit "start_addr = " ++ [FHex (s32 start_addr) false] ++ lit ", "));
  c2 ← dump_ext2_superblock c1 image_sb;
  let counts := bg_counts m (start_addr + EXT2_SB_OFFSET + EXT2_SB_SIZE) in
  c3 ← emit put_c c2
         (text (lit "a block = " ++ [FDec block_size] ++ lit " bytes, " ++ [FLit 10] ++
                lit "Now come to the first block group..." ++ [FLit 10] ++
                lit "It has " ++ [FDec (nth 0 counts 0)] ++ lit " free blocks, " ++ [FDec (nth 1 counts 0)] ++
                lit " free inodes and " ++ [FDec (nth 2 counts 0)] ++ lit " used dirs" ++ [FLit 10]));
  dump_inodes fuel (Z.to_nat (sb_inodes_per_group image_sb)) c3 0.

End Listing.

(** ** Lemmas *)

Section Mounting.

Context `{ide : IdeDevice} `{uart : Uart}.

(** Every round reads the same sector. *)
Lemma read_nblocks_ok n sec : forall b, cache_idle b -> 0 <= sec < disksize b ->
  exists b', read_nblocks n b sec = Ret (b', concat (repeat (sector b sec) n)) /\ cache_idle b' /\
    disksize b' = disksize b /\ forall k, sector b' k = sector b k.
Proof.
  induction n as [|n IH]; intros b Hb Hs; cbn [read_nblocks repeat concat]; [by exists b|].
  destruct (bio_read_ok b sec Hb Hs) as (b1 & -> & Hb1 & Hd1 & Hk1). cbn [mbind outcome_bind].
  destruct (IH b1 Hb1 ltac:(lia)) as (b2 & -> & Hb2 & Hd2 & Hk2). cbn [mbind outcome_bind].
  exists b2. rewrite Hk1. split; [done|]. split; [exact Hb2|]. split; [congruence|]. intros k. by rewrite Hk2, Hk1.
Qed.

Lemma dump_superblock_ok con b :
  (sb_magic b = EXT2_SUPER_MAGIC -> exists con', dump_ext2_superblock con b = Ret con' /\ talks con con') /\
  (sb_magic b <> EXT2_SUPER_MAGIC -> dump_ext2_superblock con b = Stop (Panic "assert_failed")).
Proof.
  unfold dump_ext2_superblock. destruct (emit_says (settextcolor con 12 0)
    (text (lit "superblock Magic = " ++ [FHex (sb_magic b) false] ++ [FLit 10]))) as (c1 & -> & T1).
  cbn [mbind outcome_bind]. split; intros H.
  - rewrite decide_True by exact H. destruct (emit_says c1 (text (sb_report b))) as (c2 & -> & T2).
    eexists. split; [reflexivity|]. transitivity c1; [exact T1|exact T2].
  - by rewrite decide_False.
Qed.

Lemma cat_file_ok (s : ext2) file : exists con, ext2_cat_file s file = Ret (set_econs s con) /\ talks (e_cons s) con.
Proof.
  unfold ext2_cat_file. destruct (emit_says (settextcolor (e_cons s) 15 0)
    (text (lit "From function ext2_cat_file(): file = ") ++ file ++ [10])) as (c & -> & T).
  eexists. split; [reflexivity|exact T].
Qed.

(** The magic number lies in the sector that is read. *)
Lemma magic_of_pair (a b : list Z) : length a = 512%nat -> sb_magic (a ++ b) = sb_magic a.
Proof.
  intros Ha. unfold sb_magic, get_le. rewrite drop_app_le by lia. rewrite take_app_le; [done|]. rewrite length_drop. lia.
Qed.

(** ** Properties *)

(** Mounting at start-up: with a free page and an idle cache, [init_ext2]
    succeeds exactly when sector 2 of the memory disk has the ext2 magic number,
    and panics otherwise.  It takes one page for the root node, a directory that
    [open_fs] can open and whose [read_fs] yields nothing, and leaves disk and
    allocator in order.  The super block it keeps is not the one on the disk: it
    is sector 2 twice, because the sector number is not advanced. *)
Lemma ext2_mounts (s : ext2) (page : Z) (l : list Z)
  (Hf : free_wf (e_mm s) (page :: l)) (Hb : cache_idle (e_bio s)) (Hd : 2 < disksize (e_bio s)) :
  let sb := sector (e_bio s) 2 in
  (sb_magic sb = EXT2_SUPER_MAGIC ->
   exists s' con node, init_ext2 s = Ret (s', node) /\ e_root s' = Some (page, node) /\ free_wf (e_mm s') l /\
     e_sbb s' = sb ++ sb /\ cache_idle (e_bio s') /\ (forall k, sector (e_bio s') k = sector (e_bio s) k) /\
     fn_flags node = FS_DIR /\ open_fs s' node 0 = Ret (set_econs s' con) /\
     (forall t off n, read_fs t node off n = Ret (t, 0, [])) /\
     e_mm s' = (kalloc_page (e_mm s)).2 /\ talks (e_cons s) con) /\
  (sb_magic sb <> EXT2_SUPER_MAGIC -> init_ext2 s = Stop (Panic "assert_failed")).
Proof.
  intros sb. destruct (kalloc_page_cons _ _ _ Hf) as [Ek Hf']. pose proof (fw_chain _ _ Hf) as (_ & Hp0 & _).
  unfold init_ext2. rewrite Ek. rewrite decide_False by exact Hp0.
  set (node := mkNode _ _ _ _ _ _ _ _ _ _ _ _). set (s0 := set_eroot _ _).
  unfold ext2_obtain_sb_info, ext2_read_sb. change (e_bio s0) with (e_bio s).
  destruct (read_nblocks_ok 2 2 (e_bio s) Hb ltac:(lia)) as (b & -> & Hb' & _ & Hk). fold sb. cbn [repeat concat].
  rewrite app_nil_r. cbn [mbind outcome_bind].
  destruct (dump_superblock_ok (e_cons (set_esbb (set_ebio s0 b) (sb ++ sb))) (sb ++ sb)) as [Hyes Hno].
  rewrite (magic_of_pair sb sb (length_read_bytes _ _ _)) in Hyes, Hno. change (e_sbb (set_esbb _ (sb ++ sb))) with (sb ++ sb). split; intros Hm.
  - destruct (Hyes Hm) as (con & -> & T1). cbn [mbind outcome_bind].
    set (s1 := set_econs _ con). destruct (cat_file_ok s1 (chars "README")) as (con2 & -> & T2). cbn [mbind outcome_bind].
    destruct (cat_file_ok (set_econs s1 con2) (chars "etc/motd")) as (con3 & E3 & T3).
    exists (set_econs s1 con2), con3, node.
    split; [done|]. split; [done|]. split; [exact Hf'|]. split; [done|]. split; [exact Hb'|]. split; [exact Hk|].
    split; [done|]. split; [exact E3|]. split; [done|]. split; [done|].
    transitivity con; [exact T1|]. transitivity con2; [exact T2|exact T3].
  - by rewrite (Hno Hm).
Qed.

End Mounting.

Section Ending.

Context `{uart : Uart} (m : memory) (start_addr motd : Z) (strfuel : nat).

Abbreviation dirent inode o := (u32 (block_at m start_addr inode + o)).

(** The entry at [o] has a name that ends. *)
Definition named (inode o : Z) : Prop := exists l, is_cstr (at_ptr m (dirent inode o + de_name)) l /\ (length l < strfuel)%nat.

Lemma dump_dirent_ok con inode o : named inode o ->
  exists con', dump_dirent m start_addr motd strfuel con inode o =
    Ret (con', if decide (de_inode m (dirent inode o) = 0) then None else Some (u32 (o + de_rec_len m (dirent inode o)))).
Proof.
  intros (l & Hl & Hf). unfold dump_dirent. cbv zeta. case_decide as E; [by exists con|].
  destruct (emit_total con (text (lit "[offset: " ++ dec o ++ lit "] name: "))) as (c1 & ->). cbn [mbind outcome_bind].
  rewrite (print_str_ok put_c m l) by assumption. destruct (emit_total c1 l) as (c2 & ->). cbn [mbind outcome_bind].
  destruct (emit_total c2 (text (lit " [inode: " ++ dec (de_inode m (dirent inode o)) ++ lit "]" ++ [FLit 10]))) as (c3 & ->).
  cbn [mbind outcome_bind]. case_decide; [|by exists c3].
  unfold dump_motd. cbv zeta. set (f := inode_at _ _ _).
  destruct (emit_total (settextcolor c3 14 0) (text (lit "Find file 'motd'. file size: " ++ [FDec (in_size m f)] ++
    lit ", start from block " ++ [FDec (in_block0 m f)] ++ lit "." ++ [FLit 10] ++ lit "Its content:" ++ [FLit 10]))) as (c4 & ->).
  cbn [mbind outcome_bind].
  destruct (emit_total (settextcolor c4 12 0) (read_bytes m (block_at m start_addr f) (Z.to_nat (in_size m f)))) as (c5 & ->).
  cbn [mbind outcome_bind]. by eexists.
Qed.

(** The offsets the listing comes to, from 0 on, and those where it finds an
    entry in use. *)
Inductive visits (inode : Z) : Z -> Prop :=
  | visits_start : visits inode 0
  | visits_next o : visits inode o -> o < in_size m inode -> de_inode m (dirent inode o) <> 0 ->
      visits inode (u32 (o + de_rec_len m (dirent inode o))).

Definition listed (inode o : Z) : Prop :=
  visits inode o /\ o < in_size m inode /\ de_inode m (dirent inode o) <> 0.

Lemma visits_nonneg inode o : visits inode o -> 0 <= o.
Proof. induction 1; [lia|]. unfold u32. modlia. Qed.

(** One round at an offset the listing comes to. *)
Lemma dump_dir_round inode fuel con o : 0 <= in_size m inode < 4294967296 ->
  (forall o, listed inode o -> named inode o) -> visits inode o ->
  exists con', dump_dir m start_addr motd strfuel (S fuel) con inode o =
    if decide (o < in_size m inode) then
      if decide (de_inode m (dirent inode o) = 0) then Ret con
      else dump_dir m start_addr motd strfuel fuel con' inode (u32 (o + de_rec_len m (dirent inode o)))
    else Ret con.
Proof.
  intros Hs Hn Hv. cbn [dump_dir]. rewrite (u32_small (in_size m inode)) by lia. case_decide as D; [|by exists con].
  destruct (decide (de_inode m (dirent inode o) = 0)) as [E|E].
  - exists con. unfold dump_dirent. cbv zeta. by rewrite decide_True by exact E.
  - destruct (dump_dirent_ok con inode o) as (c & Ec); [apply Hn; by split|].
    rewrite Ec, decide_False by exact E. by exists c.
Qed.

Lemma dump_dir_from inode o : 0 <= in_size m inode < 4294967296 -> (forall o, listed inode o -> named inode o) ->
  visits inode o -> (forall fuel con, dump_dir m start_addr motd strfuel fuel con inode o = Stop Fuel) ->
  forall fuel con, dump_dir m start_addr motd strfuel fuel con inode 0 = Stop Fuel.
Proof.
  intros Hs Hn. induction 1 as [|o Hv IH Hlt Hi]; intros H; [exact H|]. apply IH. intros [|fuel] con; [done|].
  destruct (dump_dir_round inode fuel con o Hs Hn Hv) as (c & ->). rewrite decide_True, decide_False by assumption. apply H.
Qed.

(** C39. When the listing of a directory ends.  The entries it comes to, from
    offset 0 on by the record lengths, have names that end.  If none of those in
    use has the record length 0, the listing ends, after at most one round more
    than the directory has bytes; if one of them has, the listing runs for ever,
    whatever the number of steps. *)
Theorem dump_dir_ends (inode : Z) (Hn : forall o, listed inode o -> named inode o)
  (Hr : forall o, listed inode o -> 0 <= de_rec_len m (dirent inode o) < 65536)
  (Hs : 0 <= in_size m inode < 2147418112) :
  ((forall o, listed inode o -> de_rec_len m (dirent inode o) <> 0) ->
   forall con, exists con', dump_dir m start_addr motd strfuel (S (Z.to_nat (in_size m inode))) con inode 0 = Ret con') /\
  ((exists o, listed inode o /\ de_rec_len m (dirent inode o) = 0) ->
   forall fuel con, dump_dir m start_addr motd strfuel fuel con inode 0 = Stop Fuel).
Proof.
  split.
  - intros Hrec. assert (H : forall fuel o con, visits inode o -> (Z.to_nat (in_size m inode - o) < fuel)%nat ->
      exists con', dump_dir m start_addr motd strfuel fuel con inode o = Ret con').
    { induction fuel as [|fuel IH]; intros o con Hv Hf; [lia|].
      destruct (dump_dir_round inode fuel con o ltac:(lia) Hn Hv) as (c & ->).
      case_decide as D; [|by exists con]. case_decide as E; [by exists con|].
      pose proof (Hrec o ltac:(by split)). pose proof (Hr o ltac:(by split)). pose proof (visits_nonneg _ _ Hv).
      apply IH; [by apply visits_next|]. rewrite u32_small by lia. lia. }
    intros con. apply H; [constructor|lia].
  - intros (o & (Hv & Hlt & Hi) & Hz). apply (dump_dir_from inode o ltac:(lia) Hn Hv).
    pose proof (visits_nonneg _ _ Hv). induction fuel as [|fuel IH]; intros con; [done|].
    destruct (dump_dir_round inode fuel con o ltac:(lia) Hn Hv) as (c & ->).
    rewrite decide_True, decide_False, Hz, Z.add_0_r, u32_small by (assumption || lia). apply IH.
Qed.

End Ending.

(** ** Witnesses *)

(** An inode at 2000 with a directory of 1024 bytes: [.], [..] and [lost+found],
    whose record length is [lo + 256 * hi]. *)
Definition demo_dir (lo hi : Z) (a : Z) : Z :=
  if decide (a = 2005) then 4 else if decide (a = 2041) then 4
  else if decide (a < 1048576) then 0
  else nth (Z.to_nat (a - 1048576))
    ([2; 0; 0; 0; 12; 0; 1; 2; 46; 0; 0; 0] ++ [2; 0; 0; 0; 12; 0; 2; 2; 46; 46; 0; 0] ++
     [11; 0; 0; 0; lo; hi; 10; 2] ++ chars "lost+found") 0.

Lemma demo_dir_visits lo hi o : lo = 232 /\ hi = 3 \/ lo = 0 /\ hi = 0 -> visits (demo_dir lo hi) 0 2000 o ->
  o = 0 \/ o = 12 \/ o = 24 \/ o = 1024.
Proof.
  intros H. induction 1 as [|o _ IH Hlt _]; [by left|].
  destruct H as [[-> ->]|[-> ->]]; destruct IH as [->|[->|[->| ->]]]; try (vm_compute in Hlt; discriminate Hlt); vm_compute; auto.
Qed.

Lemma demo_dir_listed lo hi o : lo = 232 /\ hi = 3 \/ lo = 0 /\ hi = 0 -> listed (demo_dir lo hi) 0 2000 o ->
  o = 0 \/ o = 12 \/ o = 24.
Proof.
  intros H (Hv & Hlt & _). apply (demo_dir_visits lo hi o H) in Hv.
  destruct Hv as [->|[->|[->| ->]]]; auto. destruct H as [[-> ->]|[-> ->]]; vm_compute in Hlt; discriminate Hlt.
Qed.

Lemma cstr_of_bytes (s : cptr) l : map (fun i => s (Z.of_nat i)) (seq 0 (length l)) = l ->
  forallb (fun b => (1 <=? b) && (b <? 256)) l = true -> s (Z.of_nat (length l)) = 0 -> is_cstr s l.
Proof.
  intros H1 H2 H3. split; [|exact H3]. intros i b Hi. split.
  - pose proof (lookup_lt_Some _ _ _ Hi) as Hlt. rewrite <- H1 in Hi. apply list_lookup_fmap_Some in Hi as (j & -> & Hj).
    apply lookup_seq in Hj as [-> _]. done.
  - rewrite List.forallb_forall in H2. specialize (H2 b ltac:(eapply list_elem_of_In, list_elem_of_lookup_2, Hi)). lia.
Qed.

Lemma demo_dir_named lo hi o : lo = 232 /\ hi = 3 \/ lo = 0 /\ hi = 0 -> listed (demo_dir lo hi) 0 2000 o ->
  named (demo_dir lo hi) 0 20 2000 o /\ 0 <= de_rec_len (demo_dir lo hi) (u32 (block_at (demo_dir lo hi) 0 2000 + o)) < 65536.
Proof.
  intros H Hl. apply (demo_dir_listed lo hi o H) in Hl.
  destruct H as [[-> ->]|[-> ->]]; destruct Hl as [->|[->| ->]]; (split; [|vm_compute; split; [discriminate|reflexivity]]);
    first [exists [46]; split; [apply cstr_of_bytes; vm_compute; reflexivity|cbn; lia]
          |exists [46; 46]; split; [apply cstr_of_bytes; vm_compute; reflexivity|cbn; lia]
          |exists (chars "lost+found"); split; [apply cstr_of_bytes; vm_compute; reflexivity|cbn; lia]].
Qed.

Lemma dump_dir_ends_witness :
  (forall con, exists con', dump_dir (uart := ready_uart) (demo_dir 232 3) 0 0 20 1025 con 2000 0 = Ret con') /\
  (forall fuel con, dump_dir (uart := ready_uart) (demo_dir 0 0) 0 0 20 fuel con 2000 0 = Stop Fuel).
Proof.
  split.
  - apply (dump_dir_ends (uart := ready_uart) (demo_dir 232 3) 0 0 20 2000).
    + intros o Ho. apply demo_dir_named; [by left|exact Ho].
    + intros o Ho. apply demo_dir_named; [by left|exact Ho].
    + vm_compute. split; [discriminate|reflexivity].
    + intros o Ho. apply (demo_dir_listed 232 3) in Ho; [|by left].
      destruct Ho as [->|[->| ->]]; vm_compute; discriminate.
  - apply (dump_dir_ends (uart := ready_uart) (demo_dir 0 0) 0 0 20 2000).
    + intros o Ho. apply demo_dir_named; [by right|exact Ho].
    + intros o Ho. apply demo_dir_named; [by right|exact Ho].
    + vm_compute. split; [discriminate|reflexivity].
    + exists 24. split; [|vm_compute; reflexivity]. split; [|split; vm_compute; [reflexivity|discriminate]].
      apply (visits_next (demo_dir 0 0) 0 2000 12); [|vm_compute; reflexivity|vm_compute; discriminate].
      apply (visits_next (demo_dir 0 0) 0 2000 0); [constructor|vm_compute; reflexivity|vm_compute; discriminate].
Defined.
