(* ===== verification/SfsNode.v ===== *)
(** * SFS behind the virtual file system

    The end of fs/sfs/sfs.c: the root node [init_initrd_sfs] makes, a second
    instance of the nodes of fs/fs.c, the functions without an effect on files,
    and [sfs_cat_file] with the console it prints to. *)

From stdpp Require Import base list strings.
From Stdlib Require Import ZArith Lia.
From S2P Require Import Prelude Mmu CString Kalloc Ring Bio Hd Buffer BlockDev Le Sfs MkSfs SfsImage SfsSpec Console Printf SfsText Ext2.

Open Scope Z_scope.

(** The file system, the allocator, the console and [sfs_root] at its address. *)
Record sfsroot (D : Type) : Type := mkSfsRoot {
  sr_fs : sfs D;
  sr_mm : mm;
  sr_cons : console;
  sr_root : option (Z * fs_node)
}.

Arguments mkSfsRoot {D} _ _ _ _.
Arguments sr_fs {D} _.
Arguments sr_mm {D} _.
Arguments sr_cons {D} _.
Arguments sr_root {D} _.

Section Node.

Context {D : Type} `{dev : BlockDev D} `{uart : Uart}.

(** The bytes behind an index entry, and an uninitialised one. *)
Variable beyond : Z -> Z.
Variable idx : list Z.

(** [sfs_cat_file(file)]: what the search prints, then the contents.  No task
    runs yet. *)
Definition cat_console (s : sfsroot D) (file : list Z) : outcome (sfsroot D) :=
  '(_, t) ← find_text beyond (sr_fs s) file;
  c1 ← emit put_c (sr_cons s) t;
  '(f, _, out) ← sfs_cat_file (nh := no_task) beyond (sr_fs s) tt file idx;
  c2 ← emit put_c c1 out;
  Ret (mkSfsRoot f (sr_mm s) c2 (sr_root s)).

Definition sfs_node_open (s : sfsroot D) (node : fs_node) (flag : Z) : outcome (sfsroot D) :=
  cat_console s (chars "etc/motd").

(** The page is used unchecked. *)
Definition init_initrd_sfs (s : sfsroot D) : outcome (sfsroot D * fs_node) :=
  let '(page, m) := kalloc_page (sr_mm s) in
  if decide (page = 0) then Stop (Fault "sfs_root")
  else
    let node := mkNode (chars "sfs") 0 0 0 FS_DIR 0 0 0 (Some Sfs_node_open) None None None in
    Ret (mkSfsRoot (sr_fs s) m (sr_cons s) (Some (page, node)), node).

(** [sfs_close]; [sfs_write] prints a line as well and returns a variable without
    a value. *)
Definition sfs_close (s : sfsroot D) (fd : Z) : outcome (sfsroot D * Z) :=
  con ← emit put_c (sr_cons s) (chars "In close" ++ [10]);
  Ret (mkSfsRoot (sr_fs s) (sr_mm s) con (sr_root s), 0).

#[export] Instance sfs_nodes : FsNode fs_node (sfsroot D) := {
  fn_flags := nd_flags;
  fn_open n := match nd_open n with Some Sfs_node_open => Some sfs_node_open | _ => None end;
  fn_close _ := None;
  fn_read _ := None;
  fn_write _ := None;
  fn_readdir _ := None;
  fn_finddir _ := None
}.

End Node.

(** ** What opening the root shows *)

Section Shows.

Context {D : Type} `{dev : BlockDev D} `{uart : Uart}.
Variable beyond : Z -> Z.

(** The loop of [sfs_cat_file] counts down by whole blocks, that of
    [sfs_read_file] by what it took; they read the same. *)
Lemma cat_is_read fuel : forall (s : sfs D) m len out, cat_file_loop fuel s m len out = read_file_loop fuel s m len out.
Proof.
  induction fuel as [|f IH]; intros s m len out; cbn [cat_file_loop read_file_loop]; [done|].
  case_decide as H; [|done]. destruct (read_data_block s (u32 m)) as [[s1 b]|]; cbn [mbind outcome_bind]; [|done].
  rewrite IH. destruct (decide (len > 512)); [done|]. rewrite Z.sub_diag.
  destruct f; cbn [read_file_loop]; rewrite !decide_False by lia; done.
Qed.

Context (numblk : Z) (Hnb : 2 <= numblk <= 8388607).
Context (im : memory) (es : list ent) (d0 i0 : Z) (Him : image numblk im es d0 i0).

Lemma sfs_cat_file_ok {H : Type} `{nh : NameHeap H} (s : sfs D) (h : H) file idx n st c :
  path_ok file -> mounted numblk im i0 s -> scratch_ok h es -> names_ok es -> lookup_ent file es = Some (EFile n st c) ->
  Z.of_nat (length c) < 2147483648 ->
  exists d h', sfs_cat_file beyond s h file idx = Ret (set_sdev s d, h', c) /\ shows numblk im d.
Proof.
  intros Hp Hm Hsc Hn Hlk Hc. unfold sfs_cat_file.
  destruct (sfs_find_index_ok beyond numblk Hnb im es d0 i0 Him s h file idx Hp Hm Hsc Hn) as (d1 & h1 & idx' & -> & Hd1 & _ & Hidx).
  rewrite (Hidx _ Hlk), Hlk. cbn [mbind outcome_bind]. rewrite bool_decide_eq_true_2 by (by eexists). cbn [negb].
  rewrite decide_False by (rewrite raw_etype; by intros []). rewrite raw_len, raw_start.
  assert (Hst : stored numblk im st c).
  { destruct (lookup_ent_file es file _ Hlk) as (n' & st' & c' & [= -> -> ->] & Hin).
    exact (entries_stored numblk im es d0 i0 Him es 1 n' st' c' (im_entries _ _ _ _ _ Him) Hin). }
  pose proof Hst as (H0 & H1 & _). pose proof (nblocks_nonneg c). change (2 ^ 64) with 18446744073709551616.
  rewrite !Z.mod_small by lia. rewrite s32_small by lia. rewrite cat_is_read.
  destruct (read_file_loop_ok numblk Hnb im i0 (Z.to_nat (Z.of_nat (length c))) (set_sdev s d1) st c (Z.of_nat (length c)) [])
    as (d2 & -> & Hd2); [by apply set_sdev_shows|done|lia|lia|].
  exists d2, h1. cbn [app]. rewrite Nat2Z.id, take_ge by lia. done.
Qed.

(** [init_initrd_sfs] and [open_fs] of main: a page is taken for the root, a
    directory; opening it prints the message of the day of the image, and
    nothing can be read from it. *)
Lemma initrd_shows_motd (s : sfsroot D) idx page l n st c
  (Hf : free_wf (sr_mm s) (page :: l)) (Hm : mounted numblk im i0 (sr_fs s)) (Hn : names_ok es) (Hsh : short_names es)
  (Hlk : lookup_ent (chars "etc/motd") es = Some (EFile n st c)) (Hc : Z.of_nat (length c) < 2147483648) :
  exists s1 s2 node, init_initrd_sfs s = Ret (s1, node) /\
    open_fs (nodes := sfs_nodes beyond idx) s1 node 0 = Ret s2 /\
    emit put_c (sr_cons s) (found_line (Some (EFile n st c)) ++ c) = Ret (sr_cons s2) /\
    sr_root s2 = Some (page, node) /\ free_wf (sr_mm s2) l /\ mounted numblk im i0 (sr_fs s2) /\ nd_flags node = FS_DIR /\
    (forall off k, read_fs (nodes := sfs_nodes beyond idx) s2 node off k = Ret (s2, 0, [])).
Proof.
  assert (Hp : path_ok (chars "etc/motd")) by (split; [cbn; lia|by repeat (apply Forall_cons; split; [vm_compute; by split|])]).
  destruct (kalloc_page_cons _ _ _ Hf) as [Ek Hf']. pose proof (fw_chain _ _ Hf) as (_ & Hp0 & _).
  destruct (find_text_ok beyond numblk Hnb im es d0 i0 Him (sr_fs s) _ Hp Hm Hn) as (t & Et & Ht). specialize (Ht Hsh).
  destruct (sfs_cat_file_ok (nh := no_task) (sr_fs s) tt _ idx n st c Hp Hm (or_introl (short_names_all es Hsh)) Hn Hlk Hc) as (d & h & E & Hd).
  destruct (emit_total (sr_cons s) t) as (c1 & E1). destruct (emit_total c1 c) as (c2 & E2).
  unfold init_initrd_sfs. rewrite Ek, decide_False by exact Hp0. set (node := mkNode _ _ _ _ _ _ _ _ _ _ _ _). set (m' := set_free_list _ _) in *.
  exists (mkSfsRoot (sr_fs s) m' (sr_cons s) (Some (page, node))), (mkSfsRoot (set_sdev (sr_fs s) d) m' c2 (Some (page, node))), node.
  split; [done|]. split; [|split; [|split; [done|split; [exact Hf'|split; [by apply set_sdev_shows|done]]]]].
  - unfold open_fs. cbn. unfold sfs_node_open, cat_console. cbn [sr_fs sr_cons sr_mm sr_root]. rewrite Et, bind_Ret. cbn beta iota.
    rewrite E1, bind_Ret, E, bind_Ret. cbn beta iota. by rewrite E2.
  - rewrite <- Hlk, <- Ht, emit_app, E1, bind_Ret. exact E2.
Qed.

End Shows.
