(* ===== verification/Startup.v ===== *)
(** * Kernel start-up

    kern/init.c, kern/multiboot.c, [init_serial] and [read_serial] of
    drv/serial.c, and [get_time] of kern/get_time.c.  The boot loader leaves the
    multiboot information in memory, with the RAM disk as its first module; main
    puts the page allocator behind the module, maps all memory into the kernel's
    window and frees the rest of it, sets the devices up and mounts ext2 from the
    RAM disk.  Ports written go to the log of the console. *)

From stdpp Require Import base list strings.
From Stdlib Require Import ZArith Lia FinFun.
From S2P Require Import Prelude Mmu CString Kalloc PageTable VmSpec Ring Bio Hd Buffer BlockDev Le Console Printf Rtc Ext2.

Open Scope Z_scope.

Definition MBT_BOOTLOADER_MAGIC : Z := 732803074.   (* 0x2BADB002 *)

(** ** The multiboot information *)

(** The [k]-th word of [struct multiboot_info] at [mb]. *)
Definition mb_word (m : memory) (mb k : Z) : Z := load32 m (mb + 4 * k).

Definition mem_lower (m : memory) (mb : Z) : Z := mb_word m mb 1.

Definition mem_upper (m : memory) (mb : Z) : Z := mb_word m mb 2.

Definition mods_count (m : memory) (mb : Z) : Z := mb_word m mb 5.

Definition mods_addr (m : memory) (mb : Z) : Z := mb_word m mb 6.

(** The first entry of the module list. *)
Definition mod_start (m : memory) (mod_ : Z) : Z := load32 m mod_.

Definition mod_end (m : memory) (mod_ : Z) : Z := load32 m (mod_ + 4).

Section Start.

Context `{ide : IdeDevice} `{uart : Uart}.

(** Bound of the strings of the boot loader. *)
Variable strfuel : nat.

Definition hex (v : Z) : list frag := [FHex (s32 v) false].

Definition say (con : console) (fs : list frag) : outcome console := emit put_c con (text fs).

(** The registers of the header as [dump_multiboot] names them. *)
Definition mb_fields (m : memory) (mb : Z) : list (string * Z * Z) :=
  [("Flags  : ", mb_word m mb 0, 9); ("", 0, 9); ("Mem Low: ", mb_word m mb 1, 9); ("Mem High: ", mb_word m mb 2, 10);
   ("Boot dev: ", mb_word m mb 3, 9); ("cmdline: ", mb_word m mb 4, 9); ("Mods cnt: ", mb_word m mb 5, 10);
   ("Mod Addr: ", mb_word m mb 6, 9); ("Syms num: ", mb_word m mb 7, 9); ("Sym size: ", mb_word m mb 8, 10);
   ("Sym addr: ", mb_word m mb 9, 9); ("Sym shdx: ", mb_word m mb 10, 9); ("mmap len: ", mb_word m mb 11, 10);
   ("mmap Ad: ", mb_word m mb 12, 9); ("Drv leng: ", mb_word m mb 13, 9); ("Drv Addr: ", mb_word m mb 14, 10);
   ("Config table: ", mb_word m mb 15, 9); ("Loader: ", mb_word m mb 16, 9); ("APM tbl:  ", mb_word m mb 17, 10);
   ("VBE ctrl: ", mb_word m mb 18, 9); ("VBE info: ", mb_word m mb 19, 9); ("VBE mode: ", load16 m (mb + 80), 10);
   ("VBE seg: ", load16 m (mb + 82), 9); ("VBE off: ", load16 m (mb + 84), 9); ("VBE len: ", load16 m (mb + 86), 10)].

(** A label, its value in hexadecimal, and the tabulator or newline behind it;
    the second tabulator behind the flags has neither. *)
Definition field_text (f : string * Z * Z) : list frag :=
  let '(l, v, e) := f in
  match l with EmptyString => [FLit e] | _ => lit l ++ hex v ++ [FLit e] end.

(** The lines of the modules.  The start is read from [(uint32_t * )mods_addr + 8 * i],
    a word 32 bytes further for each module, the end from [mods_addr + 8 * i + 4]. *)
Fixpoint module_lines (n : nat) (m : memory) (mods i : Z) : list frag :=
  match n with
  | O => []
  | S k =>
      lit "Module " ++ dec (i + 1) ++ lit " is at " ++ hex (load32 m (mods + 32 * i)) ++ lit ":" ++
      hex (load32 m (mods + 8 * i + 4)) ++ [FLit 10] ++ module_lines k m mods (i + 1)
  end.

Definition dump_multiboot (con : console) (m : memory) (mb : Z) : outcome console :=
  c1 ← say con (lit "Multiboot Header at " ++ hex mb ++ lit ":" ++ [FLit 10] ++ concat (map field_text (mb_fields m mb)) ++
                [FLit 10] ++ lit "Started with: ");
  c2 ← print_str put_c strfuel m c1 (mb_word m mb 4);
  c3 ← say c2 ([FLit 10] ++ lit "Booted from: ");
  c4 ← print_str put_c strfuel m c3 (mb_word m mb 16);
  say c4 ([FLit 10] ++ dec (mem_lower m mb) ++ lit "kB lower memory" ++ [FLit 10] ++
          dec (mem_upper m mb) ++ lit "kB higher memory " ++
          lit "(" ++ dec (mem_upper m mb / 1024) ++ lit "MB)" ++ [FLit 10] ++
          lit "Found " ++ dec (mods_count m mb) ++ lit " module(s)." ++ [FLit 10] ++
          module_lines (Z.to_nat (mods_count m mb)) m (mods_addr m mb) 0).

(** ** Devices *)

Definition init_8259A (con : console) : console :=
  add_log con [Outb 32 17; Outb 160 17; Outb 33 32; Outb 161 40; Outb 33 4; Outb 161 2; Outb 33 1; Outb 161 1;
               Outb 33 251; Outb 161 255].

Definition set_serial (s : console) (b : bool) : console :=
  mkConsole (vram s) (cons_pos s) (default_color s) (dcolor s) (cb_buf s) (cb_rpos s) (cb_wpos s)
            (timer_flag s) b (log s).

Fixpoint serial_text (s : console) (cs : list Z) : outcome console :=
  match cs with
  | [] => Ret s
  | c :: cs' => s1 ← write_serial s c; serial_text s1 cs'
  end.

(** [lsr] and [mask] are what the ports COM1 + 5 and 0x21 answer. *)
Definition init_serial (con : console) (lsr mask : Z) : outcome console :=
  let c1 := add_log con [Outb (COM1 + 1) 0; Outb (COM1 + 3) 128; Outb COM1 12; Outb (COM1 + 1) 0; Outb (COM1 + 3) 3;
                         Outb (COM1 + 2) 0; Outb (COM1 + 4) 0; Outb (COM1 + 1) 1] in
  if decide (lsr = 255) then Ret c1
  else serial_text (add_log (set_serial c1 true) [Outb 33 (Z.land mask 239)]) (chars "init serial done").

(** [read_serial] with the two ports it may read. *)
Definition read_serial (con : console) (lsr rbr : Z) : Z :=
  if negb (has_serial con) then -1 else if decide (Z.land lsr 1 = 0) then -1 else rbr.

(** The date goes to the top row. *)
Definition boot_time_text (t : tm) : list frag :=
  lit "Boot Time: " ++ dec (tm_year t) ++ lit "-" ++ dec (tm_mon t) ++ lit "-" ++ dec (tm_mday t) ++ lit " " ++
  dec (tm_hour t) ++ lit ":" ++ dec (tm_min t) ++ lit ":" ++ dec (tm_sec t).

Definition get_time (con : console) (t : tm) : outcome console :=
  let c1 := settextcolor con 12 0 in
  let '(x, y) := get_cursor c1 in
  c2 ← say (set_cursor c1 30 0) (boot_time_text t);
  Ret (resettextcolor (set_cursor c2 x y)).

(** ** Main *)

(** The greeting, and whether the kernel was started by a multiboot loader; it
    spins for ever otherwise. *)
Definition boot_check (con : console) (eax : Z) : outcome (console * bool) :=
  c1 ← say (cons_init con) (lit "Welcome to ChuniX! :)" ++ [FLit 10; FLit 10]);
  if decide (eax <> MBT_BOOTLOADER_MAGIC) then
    c2 ← say c1 (lit "PANIC!! Grub is needed for booting ChuniX" ++ [FLit 10]); Ret (c2, false)
  else Ret (c1, true).

(** Where the allocator starts and the kilobytes of memory: behind the module or
    the kernel, whichever ends later. *)
Definition memory_start (m : memory) (mb end_ : Z) : Z * Z :=
  let mm_start := P2V (mod_end m (mods_addr m mb)) in
  (if decide (mm_start < end_) then end_ else mm_start, u32 (mem_upper m mb + 1024)).

(** [mem_init1(mm_start, mm_size); setupkvm(); mem_init2();] *)
Definition start_memory (cmos : Z -> Z) (data : Z) (s : mm) (start size : Z) : outcome (Z * Z * mm) :=
  s1 ← mem_init1 cmos s start size;
  '(kpgdir, cr3, s2) ← setupkvm data s1;
  s3 ← mem_init2 s2;
  Ret (kpgdir, cr3, s3).

End Start.

(** ** Lemmas *)

(** Whole pages in [a, b) that are all in [l]. *)
Lemma pages_count l a b n :
  a mod 4096 = 0 -> a + 4096 * Z.of_nat n <= b ->
  (forall q, q mod 4096 = 0 -> a <= q -> q + 4096 <= b -> q ∈ l) -> (n <= length l)%nat.
Proof.
  intros Ha Hb Hl. rewrite <- (length_seq n 0), <- (length_map (fun i => a + 4096 * Z.of_nat i) (seq 0 n)).
  apply NoDup_incl_length.
  - apply Injective_map_NoDup_in; [|apply seq_NoDup]. intros i j _ _ E. lia.
  - intros q Hq. apply in_map_iff in Hq as (i & <- & Hi). apply in_seq in Hi. apply list_elem_of_In, Hl; modlia.
Qed.

(** Freeing pages above an address space below [B] keeps the address space. *)
Lemma vm_wf_above s s' d l added B :
  vm_wf s d l -> free_wf s' (added ++ l) -> s'.(memsz) = s.(memsz) -> s'.(mem_start) = s.(mem_start) ->
  (forall x, x < B -> s'.(ram) x = s.(ram) x) -> (forall q, vm_page s d l q -> q + 4096 <= B) ->
  (forall q, q ∈ added -> B <= q) ->
  vm_wf s' d (added ++ l) /\ forall va, pt_entry s' d va = pt_entry s d va.
Proof.
  intros Hw Hf Hm Hs Hk Hvm Had.
  assert (Hd : d + 4096 <= B) by (apply Hvm; by left).
  assert (Hpde : forall i, 0 <= i < 1024 -> pde_at s' d i = pde_at s d i).
  { intros i Hi. apply load32_ext. intros x Hx. apply Hk. lia. }
  assert (Hok : forall q, page_ok s q -> page_ok s' q) by (intros q Hq; unfold page_ok in *; by rewrite Hm, Hs).
  assert (Htab : forall i, 0 <= i < 1024 -> has (pde_at s d i) PTE_P = true -> table_of (pde_at s d i) + 4096 <= B).
  { intros i Hi Hp. apply Hvm. right. right. eauto. }
  assert (Hnot : forall q, q + 4096 <= B -> q ∉ l -> q ∉ added ++ l).
  { intros q Hq Hl Hin. apply elem_of_app in Hin as [Hin|Hin]; [apply Had in Hin; lia|by apply Hl]. }
  split.
  - constructor; [exact Hf|apply Hok, Hw|apply Hnot; [exact Hd|apply Hw]| |].
    + intros i Hi. rewrite Hpde by exact Hi. intros Hp. destruct (vw_tab _ _ _ Hw i Hi Hp) as (H1 & H2 & H3).
      split; [by apply Hok|]. split; [apply Hnot; [by apply Htab|exact H2]|exact H3].
    + intros i j Hi Hj. rewrite !Hpde by assumption. apply (vw_inj _ _ _ Hw); assumption.
  - intros va. unfold pt_entry. pose proof (PDX_range va) as Hr. pose proof (PTX_range va) as Ht. rewrite Hpde by exact Hr.
    destruct (has (pde_at s d (PDX va)) PTE_P) eqn:E; [|done]. apply load32_ext. intros x Hx. apply Hk.
    pose proof (Htab _ Hr E). lia.
Qed.

Section Memory.

Context (cmos : Z -> Z) (data : Z) (s : mm) (start size : Z).
Context (Hs : s.(free_list) = 0) (Hb : bytes_ok s.(ram)).
Context (Hdata : KERNLINK < data) (Hdal : data mod 4096 = 0) (Hds : data <= start).
Context (Hsize : 4096 <= size) (Hmax : size * 1024 <= 2147479552).

(** The pages between the image and 4 MB suffice for the tables of the window. *)
Context (Hstart : start + 4096 * (size / 4096 + 6) <= P2V (4 * 1024 * 1024)).

Lemma first_pages : exists s1 d l, mem_init1 cmos s start size = Ret s1 /\ free_wf s1 (d :: l) /\
  (forall q, q ∈ d :: l <-> q mod 4096 = 0 /\ start <= q /\ q + 4096 <= P2V (4 * 1024 * 1024)) /\
  size * 1024 / 4194304 + 4 <= Z.of_nat (length l) /\
  s1.(memsz) = size /\ s1.(mem_start) = start /\ (forall x, x < start -> s1.(ram) x = s.(ram) x).
Proof.
  unfold mem_init1, kinit. change (P2V (4 * 1024 * 1024)) with 2151677952 in *. unfold KERNLINK, KERNBASE, EXTMEM in Hdata.
  rewrite decide_True by lia. set (s0 := Mm s.(ram) s.(free_list) size start).
  assert (Hlim : V2P (u32 (size * 1024)) = size * 1024 + 2147483648)
    by (rewrite V2P_P2V_eq; unfold P2V, KERNBASE, u32; modlia).
  destruct (kfree_range_ok s0 [] start 2151677952) as (s1 & l1 & E1 & Hwf1 & Hl1 & Hm1 & Hst1 & Hk1).
  { constructor; [exact Hs | constructor | constructor | exact Hb]. } { lia. } { modlia. }
  { intros q Hq1 Hq2 Hq3. split; [|apply not_elem_of_nil]. unfold page_ok, s0. simpl. rewrite Hlim. modlia. }
  rewrite app_nil_r in Hwf1.
  assert (Hn : (Z.to_nat (size / 4096 + 5) <= length l1)%nat).
  { apply (pages_count l1 (4096 * ((start + 4095) / 4096)) 2151677952); [modlia|modlia|].
    intros q Hq1 Hq2 Hq3. apply Hl1. split; [exact Hq1|]. split; [modlia|exact Hq3]. }
  destruct l1 as [|d l]; [cbn in Hn; modlia|]. exists s1, d, l. split; [exact E1|]. split; [exact Hwf1|].
  split; [exact Hl1|]. split; [cbn [length] in Hn; modlia|]. split; [exact Hm1|]. split; [exact Hst1|].
  intros x Hx. by rewrite Hk1 by lia.
Qed.

Lemma start_memory_ok : exists d s' l', start_memory cmos data s start size = Ret (d, V2P d, s') /\ vm_wf s' d l' /\
  (forall va, KERNBASE <= va < KERNBASE + size * 1024 -> translate s' d va = va) /\
  (forall va, 0 <= va < KERNBASE -> pt_entry s' d va = 0) /\
  (forall p, p ∈ l' -> start <= p /\ p + 4096 <= KERNBASE + size * 1024) /\
  (forall p, p mod 4096 = 0 -> P2V (4 * 1024 * 1024) <= p -> p + 4096 <= KERNBASE + size * 1024 -> p ∈ l') /\
  (forall x, x < start -> s'.(ram) x = s.(ram) x) /\ s'.(mem_start) = start.
Proof.
  destruct first_pages as (s1 & d & l & E1 & Hf1 & Hl1 & Hlen & Hm1 & Hst1 & Hk1). unfold start_memory. rewrite E1, bind_Ret.
  assert (Hdl : forall q, q = d \/ q ∈ l -> start <= q /\ q + 4096 <= P2V (4 * 1024 * 1024)).
  { intros q Hq. apply Hl1. apply elem_of_cons. exact Hq. }
  change (P2V (4 * 1024 * 1024)) with 2151677952 in *.
  destruct (mapkvm_ok data s1 d l Hf1 Hdata Hdal) as (s2 & l2 & E2 & Hkv); [rewrite Hm1; unfold KERNBASE; modlia|by rewrite Hm1|].
  assert (Hd0 : d <> 0) by (destruct Hf1 as [(_ & H & _) _ _ _]; exact H).
  unfold setupkvm. rewrite E2, bind_Ret. cbn beta iota. rewrite decide_False by exact Hd0. rewrite bind_Ret. cbn beta iota.
  destruct (kb_free _ _ _ _ _ _ Hkv) as (used & Hl2). pose proof (kb_memsz _ _ _ _ _ _ Hkv) as Hm2. pose proof (kb_start _ _ _ _ _ _ Hkv) as Hst2.
  assert (Hl2' : forall q, q ∈ l2 -> q ∈ l) by (intros q Hq; rewrite Hl2; apply elem_of_app; by right).
  unfold mem_init2, kinit. rewrite Hm2, Hm1. change (P2V (4 * 1024 * 1024)) with 2151677952.
  assert (Hend : P2V (u32 (size * 1024)) = 2147483648 + size * 1024) by (unfold P2V, KERNBASE, u32; modlia). rewrite Hend.
  destruct (kfree_range_ok s2 l2 2151677952 (2147483648 + size * 1024)) as (s3 & added & E3 & Hf3 & Ha3 & Hm3 & Hst3 & Hk3);
    [exact (vw_free _ _ _ (kb_wf _ _ _ _ _ _ Hkv))|lia|lia| |].
  { intros q Hq1 Hq2 Hq3. split; [|intros Hin; apply Hl2' in Hin; destruct (Hdl q ltac:(by right)); lia].
    unfold page_ok. rewrite Hst2, Hst1, Hm2, Hm1, V2P_P2V_eq, Hend. destruct (Hdl d ltac:(by left)). lia. }
  rewrite E3, bind_Ret.
  destruct (vm_wf_above s2 s3 d l2 added 2151677952 (kb_wf _ _ _ _ _ _ Hkv) Hf3 Hm3 Hst3) as [Hw3 He3].
  { intros x Hx. apply Hk3. by left. } { intros q Hq. destruct (kb_pages _ _ _ _ _ _ Hkv q Hq) as [->|Hin]; [apply Hdl; by left|apply Hdl; by right]. }
  { intros q Hq. apply Ha3 in Hq. lia. }
  exists d, s3, (added ++ l2). split; [done|]. split; [exact Hw3|]. unfold KERNBASE in *.
  split; [|split; [|split; [|split; [|split]]]]; [..|congruence].
  - intros va Hva. unfold translate. rewrite He3. apply (kvm_translate _ _ _ _ _ _ va Hkv); unfold KERNBASE; rewrite ?Hm1; modlia.
  - intros va Hva. rewrite He3, (kb_entry _ _ _ _ _ _ Hkv), decide_True by (unfold KERNBASE in *; lia). reflexivity.
  - intros p Hp. apply elem_of_app in Hp as [Hp|Hp].
    + apply Ha3 in Hp. destruct (Hdl d ltac:(by left)). lia.
    + destruct (Hdl p ltac:(right; auto)). lia.
  - intros p Hp1 Hp2 Hp3. apply elem_of_app. left. by apply Ha3.
  - intros x Hx. rewrite Hk3 by (left; destruct (Hdl d ltac:(by left)); lia). rewrite <- Hk1 by exact Hx.
    apply (kb_keeps _ _ _ _ _ _ Hkv (x - x mod 4096) x); [modlia| | |modlia].
    + intros E. destruct (Hdl (x - x mod 4096) ltac:(by left)). modlia.
    + intros Hin. destruct (Hdl (x - x mod 4096) ltac:(by right)). modlia.
Qed.

End Memory.

(** A RAM disk that ends behind 4 MB leaves no page for the first directory. *)
Lemma start_memory_big_module cmos data (s : mm) start size :
  s.(free_list) = 0 -> size <> 0 -> P2V (4 * 1024 * 1024) < start -> start + 4095 < 4294967296 ->
  start_memory cmos data s start size = Stop (Panic "kpgdir is NULL!").
Proof.
  intros Hs Hz H1 H2. change (P2V (4 * 1024 * 1024)) with 2151677952 in H1. unfold start_memory, mem_init1, kinit, kfree_range.
  rewrite decide_True by exact Hz. change (P2V (4 * 1024 * 1024)) with 2151677952.
  destruct (PGROUNDUP_spec start ltac:(lia) H2) as [_ Hr].
  replace (Z.to_nat ((2151677952 - PGROUNDUP start) / PGSIZE)) with 0%nat by (unfold PGSIZE; modlia).
  cbn [kfree_loop]. rewrite decide_False by (unfold PGSIZE; lia). rewrite bind_Ret. unfold setupkvm, mapkvm, kalloc_page.
  cbn [free_list]. by rewrite Hs.
Qed.

(** ** Property *)

(** C21. Start-up gives the kernel its memory: when the kernel and the RAM disk
    behind it leave enough pages below 4 MB for the tables, the three calls of
    main end with a directory that maps every byte of physical memory at its
    address in the kernel's window and nothing in the user half, and with an
    allocator of well-formed free pages that are disjoint from the tables, the
    kernel and the RAM disk and include all memory from 4 MB on; kernel and RAM
    disk have not been written. *)
Theorem start_memory_maps (cmos : Z -> Z) (data : Z) (s : mm) (m : memory) (mb end_ start size : Z)
  (Hs : s.(free_list) = 0) (Hb : bytes_ok s.(ram)) (Hdata : KERNLINK < data) (Hdal : data mod 4096 = 0) (Hend : data <= end_)
  (Hmem : memory_start m mb end_ = (start, size)) (Hsize : 4096 <= size) (Hmax : size * 1024 <= 2147479552)
  (Hstart : start + 4096 * (size / 4096 + 6) <= P2V (4 * 1024 * 1024)) :
  exists d s' l', start_memory cmos data s start size = Ret (d, V2P d, s') /\ vm_wf s' d l' /\
    (forall va, KERNBASE <= va < KERNBASE + size * 1024 -> translate s' d va = va) /\
    (forall va, 0 <= va < KERNBASE -> pt_entry s' d va = 0) /\
    (forall p, p ∈ l' -> end_ <= p /\ P2V (mod_end m (mods_addr m mb)) <= p /\ p + 4096 <= KERNBASE + size * 1024) /\
    (forall p, p mod 4096 = 0 -> P2V (4 * 1024 * 1024) <= p -> p + 4096 <= KERNBASE + size * 1024 -> p ∈ l') /\
    (forall x, x < end_ \/ x < P2V (mod_end m (mods_addr m mb)) -> s'.(ram) x = s.(ram) x).
Proof.
  assert (Hst : end_ <= start /\ P2V (mod_end m (mods_addr m mb)) <= start).
  { unfold memory_start in Hmem. injection Hmem as <- _. case_decide; lia. }
  destruct (start_memory_ok cmos data s start size Hs Hb Hdata Hdal ltac:(lia) Hsize Hmax Hstart)
    as (d & s' & l' & E & H1 & H2 & H3 & H4 & H5 & H6 & _).
  exists d, s', l'. split; [exact E|]. split; [exact H1|]. split; [exact H2|]. split; [exact H3|]. split; [|split; [exact H5|]].
  - intros p Hp. apply H4 in Hp. lia.
  - intros x Hx. apply H6. lia.
Qed.

(** 8 MB of memory with a RAM disk up to 2112 KB. *)
Lemma start_memory_maps_witness :
  exists d s' l', start_memory (fun _ => 0) 2149580800 (Mm (fun _ => 0) 0 0 0) 2149646336 8192 = Ret (d, V2P d, s') /\ vm_wf s' d l'.
Proof.
  destruct (start_memory_maps (fun _ => 0) 2149580800 (Mm (fun _ => 0) 0 0 0)
    (store32 (store32 (store32 (fun _ => 0) 8 7168) 24 200) 204 2162688) 0 2149580800 2149646336 8192) as (d & s' & l' & E & H & _).
  - reflexivity.
  - intros a. cbn. lia.
  - reflexivity.
  - reflexivity.
  - lia.
  - vm_compute. reflexivity.
  - lia.
  - lia.
  - vm_compute. discriminate.
  - exists d, s', l'. split; [exact E|exact H].
Defined.

(** [init_buffer] does not touch the memory disk. *)
Lemma init_buffer_disk (x : bio) :
  disksize (init_buffer x) = disksize x /\ hdstart (init_buffer x) = hdstart x /\ hdmem (init_buffer x) = hdmem x.
Proof.
  unfold init_buffer. set (y := set_links x _ _). pose proof (init_fields (seq 0 NBUF) y) as (_ & _ & _ & H1 & H2 & H3).
  rewrite H1, H2, H3. done.
Qed.
