(* ===== verification/Main.v ===== *)
(** * main

    [main] of kern/init.c from the first line to the mounted root: the pieces of
    Startup.v, Descriptor.v, Trap.v, Rtc.v and Ext2.v in the order of the code,
    with [init_keyboard] and [init_hd], the boot page directory under which it
    begins and [wheel], in which it ends.  The interrupt controller is a device
    behind ports: what it answers is given by the class [Ports]. *)

From stdpp Require Import base list strings.
From Stdlib Require Import ZArith Lia.
From S2P Require Import Prelude Mmu CString Kalloc PageTable VmSpec Ring Bio Hd Buffer BlockDev Le Console Printf Descriptor Rtc Vmem Trap Ext2 Startup.

Open Scope Z_scope.

(** ** The boot page directory *)

Definition PTE_PS : Z := 128.

Definition entrypgdir (i : Z) : Z :=
  if decide (i = 0 \/ i = Z.shiftr KERNBASE PDXSHIFT) then Z.lor (Z.lor PTE_P PTE_W) PTE_PS else 0.

(** The physical address of [va] under a directory of 4 MB pages. *)
Definition entry_translate (va : Z) : option Z :=
  let e := entrypgdir (PDX va) in
  if has e PTE_P then Some (e / 4194304 * 4194304 + u32 va mod 4194304) else None.

(** Memory as main sees it then; [m] has the physical memory at the kernel's
    addresses.  What it reads at an address that is not mapped does not matter:
    main stops with a page fault at such a read ([boot_reads]). *)
Definition boot_view (m : memory) : memory :=
  fun a => match entry_translate a with Some pa => m (P2V pa) | None => 0 end.

Definition boot_mapped (a : Z) : bool := match entry_translate a with Some _ => true | None => false end.

Definition bytes_mapped (a n : Z) : bool := forallb (fun i => boot_mapped (a + Z.of_nat i)) (seq 0 (Z.to_nat n)).

(** The bytes of a string, its NUL included, as [print_str] reads them. *)
Fixpoint string_mapped (fuel : nat) (m : memory) (p : Z) : bool :=
  match fuel with
  | O => true
  | S f => boot_mapped p && (bool_decide (m p = 0) || string_mapped f m (p + 1))
  end.

(** The words [module_lines] reads. *)
Fixpoint modules_mapped (n : nat) (mods i : Z) : bool :=
  match n with
  | O => true
  | S k => bytes_mapped (mods + 32 * i) 4 && bytes_mapped (mods + 8 * i + 4) 4 && modules_mapped k mods (i + 1)
  end.

(** All that [report_memory], [dump_multiboot] and main read before the kernel
    has its own directory: the header, the first module, the lines of the
    modules, and three strings. *)
Definition boot_reads (strfuel : nat) (m : memory) (mb : Z) : bool :=
  bytes_mapped mb 88 && bytes_mapped (mods_addr m mb) 12 &&
  string_mapped strfuel m (load32 m (mods_addr m mb + 8)) &&
  string_mapped strfuel m (mb_word m mb 4) && string_mapped strfuel m (mb_word m mb 16) &&
  modules_mapped (Z.to_nat (mods_count m mb)) (mods_addr m mb) 0.

(** ** The interrupt controllers *)

(** The value last written to a port. *)
Fixpoint last_out (l : list event) (port : Z) : option Z :=
  match l with
  | [] => None
  | e :: l' =>
      match last_out l' port with
      | Some v => Some v
      | None => match e with Outb p v => if decide (p = port) then Some v else None | WakeReaders => None end
      end
  end.

(** What [init_8259A] writes. *)
Definition pic_setup : list event :=
  [Outb 32 17; Outb 160 17; Outb 33 32; Outb 161 40; Outb 33 4; Outb 161 2; Outb 33 1; Outb 161 1; Outb 33 251; Outb 161 255].

(** What a port answers after the given writes.  Once a controller is set up,
    its data port holds the interrupt mask, which reads as it was written (8259A
    data sheet, operation command word 1). *)
Class Ports : Type := {
  inb : list event -> Z -> Z;
  inb_mask : forall l1 l2 p v, p = 33 \/ p = 161 -> last_out (pic_setup ++ l2) p = Some v ->
    inb (l1 ++ pic_setup ++ l2) p = v
}.

(** How main ends: without a multiboot loader it spins; otherwise the root is
    mounted, and [wheel] turns for ever. *)
Inductive started : Type :=
  | NoGrub (con : console)
  | Started (s : ext2) (fs_root : fs_node) (kpgdir cr3 : Z).

Section Main.

Context `{ide : IdeDevice} `{uart : Uart} `{ports : Ports}.

(** Bound of the strings of the boot loader. *)
Variable strfuel : nat.

(** The CMOS memory, the end of the kernel's text and of its image, the tables
    of kern/descriptor.c, the clock chip with the bounds for reading it and the
    uninitialised century, and the line status of the serial port. *)
Variable cmos : Z -> Z.
Variables data end_ gdt idt tss gdt_ptr idt_ptr : Z.
Variable isr_table : Z -> Z.
Variable rtc : nat -> Z -> Z.
Variables rfuel wfuel : nat.
Variables junk lsr : Z.

Definition init_keyboard (con : console) : console := add_log con [Outb 33 (Z.land (inb (log con) 33) 253)].

Definition init_hd (con : console) : outcome console :=
  let c1 := add_log con [Outb 161 191] in
  say c1 (lit "IRQ mask = " ++ [FBin (inb (log c1) 161)] ++ lit ", " ++ [FBin (inb (log c1) 33)] ++ [FLit 10]).

(** The lines on memory and the module; [mod_->cmdline] is its third word. *)
Definition report_memory (con : console) (m : memory) (mb start size : Z) : outcome console :=
  let mod_ := mods_addr m mb in
  c1 ← say con (lit "mm lower: " ++ dec (mem_lower m mb) ++ [FLit 10] ++ lit "mm upper: " ++ dec (mem_upper m mb) ++ [FLit 10] ++
                lit "mod start: " ++ hex (mod_start m mod_) ++ [FLit 10] ++ lit "mod end: " ++ hex (mod_end m mod_) ++ [FLit 10] ++
                lit "mod cmdline: ");
  c2 ← print_str put_c strfuel m c1 (load32 m (mod_ + 8));
  say c2 ([FLit 10] ++ lit "mm_start: " ++ hex start ++ lit ", mm_size: " ++ dec size ++ lit " KB" ++ [FLit 10]).

(** [init_memhd] and [mem_init1] with the lines they print. *)
Definition memhd_line (b : bio) : list frag :=
  lit "memhd starts from " ++ hex (hdstart b) ++ lit ", size = " ++ dec (disksize b) ++ lit " sectors" ++ [FLit 10].

Definition memsz_line (s : mm) : list frag := lit "memory size: " ++ dec (memsz s) ++ lit " KB" ++ [FLit 10; FLit 10].

(** [init_8259A(); install_timer(100); init_keyboard(); init_serial(); get_time(); init_hd();] *)
Definition start_devices (con : console) : outcome console :=
  let c1 := init_8259A con in
  c2 ← install_timer c1 100 (inb (log c1) 33);
  let c3 := init_keyboard c2 in
  c4 ← init_serial c3 lsr (inb (log c3) 33);
  t ← read_rtc rtc 0 rfuel wfuel junk;
  c5 ← get_time c4 t;
  init_hd c5.

(** [init_buffer(); fs_root = init_ext2(); open_fs(fs_root, 0);] The disk of the
    driver [b] is the memory [s2] of the machine. *)
Definition mount_root (s : ext2) (b : bio) (s2 : mm) (con : console) (kpgdir cr3 : Z) : outcome started :=
  '(s3, fs_root) ← init_ext2 (mkExt2 (init_buffer (set_hdmem b (ram s2))) s2 con (e_sbb s) (e_root s));
  s4 ← open_fs s3 fs_root 0;
  Ret (Started s4 fs_root kpgdir cr3).

Definition main (s : ext2) (eax mb : Z) : outcome started :=
  '(c0, grub) ← boot_check (e_cons s) eax;
  if negb grub then Ret (NoGrub c0)
  else
    let m := boot_view (ram (e_mm s)) in
    if negb (boot_reads strfuel m mb) then Stop (Fault "page fault") else
    let '(start, size) := memory_start m mb end_ in
    c1 ← report_memory c0 m mb start size;
    c2 ← dump_multiboot strfuel (settextcolor c1 12 0) m mb;
    let mod_ := mods_addr m mb in
    let b := init_memhd (e_bio s) (P2V (mod_start m mod_)) (u32 (mod_end m mod_ - mod_start m mod_)) in
    c3 ← say (resettextcolor c2) (memhd_line b);
    '(kpgdir, cr3, s1) ← start_memory cmos data (e_mm s) start size;
    c4 ← say c3 (memsz_line s1);
    let s2 := set_ram s1 (init_idt idt idt_ptr isr_table (init_gdt gdt tss gdt_ptr (ram s1))) in
    c5 ← start_devices c4;
    mount_root s b s2 c5 kpgdir cr3.

End Main.

(** ** wheel *)

(** One turn: the character goes to the first cell of the last row, the index
    runs to [sizeof wheel], one past the array; [past] is the byte there. *)
Definition wheel_chars (past : Z) : list Z := [92; 124; 47; 45; past].

Definition wheel_turn (past : Z) (m : memory) (i : Z) : memory * Z :=
  (store8 m (P2V CGA_START + 160 * 24) (nth (Z.to_nat i) (wheel_chars past) 0), if decide (i = 4) then 0 else i + 1).

Fixpoint wheel (n : nat) (past : Z) (m : memory) (i : Z) : memory * Z :=
  match n with
  | O => (m, i)
  | S k => let '(m1, i1) := wheel_turn past m i in wheel k past m1 i1
  end.

(** The index goes round in five steps, of which the last reads past the array;
    nothing but the one cell is written. *)
Lemma wheel_turns n past : forall m i, 0 <= i <= 4 -> let '(m', i') := wheel n past m i in
  i' = (i + Z.of_nat n) mod 5 /\ agree_outside (P2V CGA_START + 160 * 24) (P2V CGA_START + 160 * 24 + 1) m m' /\
  ((0 < n)%nat -> m' (P2V CGA_START + 160 * 24) = u8 (nth (Z.to_nat ((i + Z.of_nat n - 1) mod 5)) (wheel_chars past) 0)).
Proof.
  induction n as [|n IH]; intros m i Hi; cbn [wheel].
  - split; [rewrite Z.mod_small; lia|]. split; [apply agree_outside_refl|lia].
  - unfold wheel_turn. set (m1 := store8 m _ _). set (i1 := if decide (i = 4) then 0 else i + 1).
    assert (Hi1 : 0 <= i1 <= 4 /\ i1 mod 5 = (i + 1) mod 5) by (unfold i1; case_decide; subst; lia || (split; [lia|reflexivity])).
    destruct Hi1 as [Hi1 Em]. specialize (IH m1 i1 Hi1). destruct (wheel n past m1 i1) as [m' i'] eqn:W.
    destruct IH as (E1 & E2 & E3). split; [rewrite E1; modlia|]. split.
    + eapply agree_outside_trans; [|exact E2]. intros x Hx. apply store8_other. lia.
    + intros _. destruct n as [|n]; [|rewrite E3 by lia; f_equal; f_equal; f_equal; modlia].
      cbn [wheel] in W. injection W as <- _. unfold m1. rewrite store8_same, Z.mod_small by lia. do 3 f_equal. lia.
Qed.

(** ** Lemmas: ports *)

Lemma last_out_app l1 l2 p : last_out (l1 ++ l2) p = match last_out l2 p with Some v => Some v | None => last_out l1 p end.
Proof.
  induction l1 as [|e l1 IH]; cbn [app last_out]; [by destruct (last_out l2 p)|]. rewrite IH. by destruct (last_out l2 p).
Qed.

Lemma last_out_free evs p : p = 33 \/ p = 161 -> Forall pic_free evs -> last_out evs p = None.
Proof.
  intros Hp. induction 1 as [|e evs He _ IH]; [done|]. cbn [last_out]. rewrite IH. destruct e as [q v|]; [|done].
  cbn in He. by rewrite decide_False by lia.
Qed.

(** The controllers are set up, with the masks [a] and [b]. *)
Definition masked (c : console) (a b : Z) : Prop :=
  exists l1 l2, log c = l1 ++ pic_setup ++ l2 /\ last_out (pic_setup ++ l2) 33 = Some a /\ last_out (pic_setup ++ l2) 161 = Some b.

Lemma masked_setup c : masked (init_8259A c) 251 255.
Proof. exists (log c), []. done. Qed.

Lemma masked_talks c c' a b : talks c c' -> masked c a b -> masked c' a b.
Proof.
  intros (evs & E & F) (l1 & l2 & El & Ha & Hb). exists l1, (l2 ++ evs).
  split; [by rewrite E, El, <- !app_assoc|]. rewrite app_assoc, !(last_out_app (pic_setup ++ l2)).
  by rewrite (last_out_free evs 33), (last_out_free evs 161) by (done || lia).
Qed.

#[local] Ltac extend l1 l2 evs El Ha Hb :=
  exists l1, (l2 ++ evs); split; [cbn [log add_log]; by rewrite El, <- !app_assoc|];
  rewrite app_assoc, !(last_out_app (pic_setup ++ l2)), ?Ha, ?Hb; done.

Lemma masked_master c a b v : masked c a b -> masked (add_log c [Outb 33 v]) v b.
Proof. intros (l1 & l2 & El & Ha & Hb). extend l1 l2 [Outb 33 v] El Ha Hb. Qed.

Lemma masked_slave c a b v : masked c a b -> masked (add_log c [Outb 161 v]) a v.
Proof. intros (l1 & l2 & El & Ha & Hb). extend l1 l2 [Outb 161 v] El Ha Hb. Qed.

Lemma masked_inb `{ports : Ports} c a b : masked c a b -> inb (log c) 33 = a /\ inb (log c) 161 = b.
Proof. intros (l1 & l2 & -> & Ha & Hb). split; apply inb_mask; (done || lia). Qed.

(** Writes to other ports. *)
Lemma add_log_talks c evs : Forall pic_free evs -> talks c (add_log c evs).
Proof. intros F. by exists evs. Qed.

Section Devices.

Context `{uart : Uart} `{ports : Ports}.

Lemma say_says c fs : exists c', say c fs = Ret c' /\ talks c c'.
Proof. apply emit_says. Qed.

Lemma serial_text_says cs : forall c, exists c', serial_text c cs = Ret c' /\ talks c c'.
Proof.
  induction cs as [|x cs IH]; intros c; cbn [serial_text]; [by exists c|].
  assert (E : exists c1, write_serial c x = Ret c1).
  { unfold write_serial. destruct (has_serial c); [|by eexists]. rewrite serial_byte_ok, bind_Ret. case_decide; [|by eexists].
    rewrite serial_byte_ok. by eexists. }
  destruct E as (c1 & E). rewrite E, bind_Ret. apply write_serial_talks in E. destruct (IH c1) as (c2 & -> & T).
  exists c2. split; [done|]. by transitivity c1.
Qed.

Lemma get_time_says c t : exists c', get_time c t = Ret c' /\ talks c c'.
Proof.
  unfold get_time. cbn zeta. destruct (get_cursor _) as [x y].
  destruct (say_says (set_cursor (settextcolor c 12 0) 30 0) (boot_time_text t)) as (c2 & -> & T2). rewrite bind_Ret.
  eexists. split; [reflexivity|]. transitivity (set_cursor (settextcolor c 12 0) 30 0); [by apply put_cursor_talks|].
  transitivity c2; [exact T2|]. transitivity (set_cursor c2 x y); [by apply put_cursor_talks|by apply same_log_talks].
Qed.

Lemma timer_masked c a b freq :
  masked c a b -> exists c', install_timer c freq (inb (log c) 33) = Ret c' /\ masked c' (Z.land a 254) b.
Proof.
  intros Hm. destruct (masked_inb _ _ _ Hm) as [-> _]. unfold install_timer.
  destruct (emit_says c (chars "install timer now..." ++ [10])) as (c1 & -> & T). rewrite bind_Ret. eexists. split; [reflexivity|].
  set (x := Z.land (u32 (1193180 / freq)) 255). set (y := u8 (Z.shiftr (u32 (1193180 / freq)) 8)).
  set (evs := [Outb 67 54; Outb 64 x; Outb 64 y]).
  change (masked (add_log c1 (evs ++ [Outb 33 (Z.land a 254)])) (Z.land a 254) b).
  replace (add_log c1 (evs ++ [Outb 33 (Z.land a 254)])) with (add_log (add_log c1 evs) [Outb 33 (Z.land a 254)])
    by (unfold add_log; cbn [vram cons_pos default_color dcolor cb_buf cb_rpos cb_wpos timer_flag has_serial log]; by rewrite <- app_assoc).
  apply (masked_master _ a), (masked_talks c1).
  { apply add_log_talks. unfold evs. rewrite !Forall_cons, Forall_nil. cbn. lia. }
  eapply masked_talks; eassumption.
Qed.

Lemma serial_masked c a b lsr :
  masked c a b -> exists c', init_serial c lsr (inb (log c) 33) = Ret c' /\ masked c' (if decide (lsr = 255) then a else Z.land a 239) b.
Proof.
  intros Hm. destruct (masked_inb _ _ _ Hm) as [-> _]. unfold init_serial. cbn zeta.
  set (c1 := add_log c _). assert (Hm1 : masked c1 a b).
  { eapply masked_talks, Hm. apply add_log_talks. rewrite !Forall_cons, Forall_nil. unfold pic_free, COM1. lia. }
  case_decide; [by exists c1|].
  destruct (serial_text_says (chars "init serial done") (add_log (set_serial c1 true) [Outb 33 (Z.land a 239)])) as (c2 & -> & T).
  exists c2. split; [done|]. eapply masked_talks; [exact T|]. eapply masked_master. exact Hm1.
Qed.

(** The masks the devices end with. *)
Lemma devices_ok rtc rfuel wfuel junk lsr t c :
  read_rtc rtc 0 rfuel wfuel junk = Ret t ->
  exists c', start_devices rtc rfuel wfuel junk lsr c = Ret c' /\ masked c' (if decide (lsr = 255) then 248 else 232) 191.
Proof.
  intros Hr. unfold start_devices. cbn zeta. destruct (timer_masked _ _ _ 100 (masked_setup c)) as (c2 & -> & M2). rewrite bind_Ret.
  assert (M3 : masked (init_keyboard c2) 248 255).
  { unfold init_keyboard. destruct (masked_inb _ _ _ M2) as [-> _]. by eapply masked_master. }
  destruct (serial_masked _ _ _ lsr M3) as (c4 & -> & M4). rewrite bind_Ret, Hr, bind_Ret.
  destruct (get_time_says c4 t) as (c5 & -> & T5). rewrite bind_Ret. unfold init_hd. cbn zeta.
  edestruct say_says as (c6 & -> & T6). exists c6. split; [done|]. eapply masked_talks; [exact T6|].
  eapply masked_slave, masked_talks; [exact T5|]. by destruct (decide (lsr = 255)).
Qed.

End Devices.

(** ** Lemmas: memory *)

(** Below 4 MB main sees physical memory at both places. *)
Lemma boot_view_low m a : 0 <= a < 4194304 -> boot_view m a = m (P2V a) /\ boot_view m (P2V a) = m (P2V a).
Proof.
  intros Ha. assert (H : forall k, k = 0 \/ k = 2147483648 -> boot_view m (a + k) = m (P2V a)).
  { intros k Hk. unfold boot_view, entry_translate. rewrite PDX_div.
    assert (E : u32 (a + k) / 4194304 = k / 4194304 /\ u32 (a + k) mod 4194304 = a).
    { rewrite u32_small by lia. destruct Hk as [-> | ->]; modlia. }
    destruct E as [-> ->]. destruct Hk as [-> | ->]; reflexivity. }
  unfold P2V at 2, KERNBASE. rewrite u32_small by lia. rewrite <- (Z.add_0_r a) at 1. split; apply H; lia.
Qed.

(** Taking the first free page. *)
Lemma vm_wf_alloc s d p l : vm_wf s d (p :: l) ->
  vm_wf (kalloc_page s).2 d l /\ ram (kalloc_page s).2 = ram s /\ forall va, pt_entry (kalloc_page s).2 d va = pt_entry s d va.
Proof.
  intros Hw. destruct (kalloc_page_cons _ _ _ (vw_free _ _ _ Hw)) as [-> Hf]. cbn [snd]. split; [|done].
  assert (Hd : d ∉ l) by (intros H; apply (vw_dir_free _ _ _ Hw); by right).
  constructor; [exact Hf|exact (vw_dir _ _ _ Hw)|exact Hd| |exact (vw_inj _ _ _ Hw)].
  intros i Hi Hp. destruct (vw_tab _ _ _ Hw i Hi Hp) as (H1 & H2 & H3). split; [exact H1|]. split; [|exact H3].
  intros H. apply H2. by right.
Qed.

(** Disjoint pieces of memory. *)
Definition apart (a n b k : Z) : Prop := a + n <= b \/ b + k <= a.

Section Tables.

Context (lo hi gdt idt tss gdt_ptr idt_ptr : Z) (isr_table : Z -> Z).

(** The tables of kern/descriptor.c are in the image of the kernel, one beside
    the other, and the handlers have 32-bit addresses. *)
Record tables_ok : Prop := {
  tb_gdt : lo <= gdt /\ gdt + GDT_NUM * 8 <= hi;
  tb_idt : lo <= idt /\ idt + IDT_NUM * 8 <= hi;
  tb_tss : lo <= tss /\ tss + TSS_SIZE <= hi;
  tb_gdtp : lo <= gdt_ptr /\ gdt_ptr + 6 <= hi;
  tb_idtp : lo <= idt_ptr /\ idt_ptr + 6 <= hi;
  tb_range : 0 <= lo /\ hi <= 4294967296;
  tb_apart1 : apart gdt (GDT_NUM * 8) tss TSS_SIZE /\ apart gdt (GDT_NUM * 8) gdt_ptr 6 /\ apart tss TSS_SIZE gdt_ptr 6;
  tb_apart2 : apart idt (IDT_NUM * 8) idt_ptr 6;
  tb_apart3 : apart gdt (GDT_NUM * 8) idt (IDT_NUM * 8) /\ apart gdt (GDT_NUM * 8) idt_ptr 6;
  tb_isr : forall i, 0 <= isr_table i < 4294967296
}.

Definition with_tables (m : memory) : memory := init_idt idt idt_ptr isr_table (init_gdt gdt tss gdt_ptr m).

(** What the processor finds in the tables. *)
Definition tables_set (m : memory) : Prop :=
  cpu_segment m (gdt + KER_CODE) = mkSegment 0 4294967295 0 26 true /\
  cpu_segment m (gdt + KER_DATA) = mkSegment 0 4294967295 0 18 true /\
  cpu_segment m (gdt + USR_CODE) = mkSegment 0 4294967295 3 26 true /\
  cpu_segment m (gdt + USR_DATA) = mkSegment 0 4294967295 3 18 true /\
  cpu_segment m (gdt + KER_TSS) = mkSegment tss 103 0 9 true /\
  (forall i, 0 <= i < ISR_NUM -> read_gate m (idt + 8 * i) = mkGate (isr_table i) KER_CODE 0 14 true) /\
  read_gate m (idt + 8 * T_SYSCALL) = mkGate (isr_table T_SYSCALL) KER_CODE 3 14 true.

Lemma with_tables_ok m (H : tables_ok) :
  tables_set (with_tables m) /\ (forall x, x < lo \/ hi <= x -> with_tables m x = m x) /\ (bytes_ok m -> bytes_ok (with_tables m)).
Proof.
  destruct H as [G I T P Q R (A1 & A2 & A3) B (C1 & C2) J]. unfold apart in *.
  destruct (init_gdt_segments gdt tss gdt_ptr m ltac:(unfold TSS_SIZE in *; lia) ltac:(unfold GDT_NUM in *; lia) A1 A2 A3)
    as (S1 & S2 & S3 & S4 & S5 & _).
  set (m1 := init_gdt gdt tss gdt_ptr m) in *.
  destruct (init_idt_gates idt idt_ptr isr_table m1 J ltac:(unfold IDT_NUM in *; lia) B) as (G1 & G2 & _).
  assert (Hseg : forall k, 0 <= k <= 40 -> cpu_segment (init_idt idt idt_ptr isr_table m1) (gdt + k) = cpu_segment m1 (gdt + k)).
  { intros k Hk. apply cpu_segment_ext. intros x Hx. apply init_idt_frame; unfold GDT_NUM, IDT_NUM in *; lia. }
  split; [|split].
  - change (with_tables m) with (init_idt idt idt_ptr isr_table m1). unfold tables_set, KER_CODE, KER_DATA, USR_CODE, USR_DATA, KER_TSS in *.
    split; [by rewrite (Hseg 8) by lia|]. split; [by rewrite (Hseg 16) by lia|]. split; [by rewrite (Hseg 24) by lia|].
    split; [by rewrite (Hseg 32) by lia|]. split; [by rewrite (Hseg 40) by lia|]. split; [exact G1|exact G2].
  - intros x Hx. unfold with_tables. rewrite init_idt_frame, init_gdt_frame by (unfold GDT_NUM, IDT_NUM, TSS_SIZE in *; lia). done.
  - intros Hb. unfold with_tables. by apply tables_bytes_ok.
Qed.

End Tables.

(** ** The way to the root file system *)

Section Boot.

Context `{ide : IdeDevice} `{uart : Uart} `{ports : Ports}.
Context (strfuel : nat) (cmos : Z -> Z) (data end_ gdt idt tss gdt_ptr idt_ptr : Z) (isr_table : Z -> Z).

(** A string of the loader: in the first 4 MB, the only ones mapped. *)
Definition low_string (m : memory) (p : Z) : Prop :=
  exists l, is_cstr (at_ptr m p) l /\ (length l < strfuel)%nat /\ 0 <= p /\ p + Z.of_nat (length l) < 4194304.

(** What a multiboot loader leaves: its header, the module list and strings that
    end in the first 4 MB, and the module behind the kernel, with room for the
    page tables between it and 4 MB. *)
Record loaded (m : memory) (mb : Z) : Prop := {
  ld_cmd : low_string m (load32 m (mods_addr m mb + 8));
  ld_line : low_string m (mb_word m mb 4);
  ld_name : low_string m (mb_word m mb 16);
  ld_header : 0 <= mb /\ mb + 88 <= 4194304;
  ld_mods : 0 <= mods_addr m mb /\ 0 <= mods_count m mb /\ mods_addr m mb + 12 + 32 * mods_count m mb <= 4194304;
  ld_start : end_ <= P2V (mod_start m (mods_addr m mb));
  ld_module : 0 <= mod_start m (mods_addr m mb) /\
    mod_start m (mods_addr m mb) + 1536 <= mod_end m (mods_addr m mb) < 4194304;
  ld_size : 4100 <= u32 (mem_upper m mb + 1024) /\ u32 (mem_upper m mb + 1024) * 1024 <= 2147479552;
  ld_room : P2V (mod_end m (mods_addr m mb)) + 4096 * (u32 (mem_upper m mb + 1024) / 4096 + 6) <= P2V (4 * 1024 * 1024)
}.

Lemma boot_mapped_low a : 0 <= a < 4194304 -> boot_mapped a = true.
Proof.
  intros Ha. unfold boot_mapped, entry_translate. rewrite PDX_div.
  replace (u32 a / 4194304) with 0 by (rewrite u32_small by lia; modlia). reflexivity.
Qed.

Lemma bytes_mapped_low a n : 0 <= a -> 0 <= n -> a + n <= 4194304 -> bytes_mapped a n = true.
Proof.
  intros H1 H2 H3. unfold bytes_mapped. apply List.forallb_forall. intros i Hi. apply in_seq in Hi. apply boot_mapped_low. lia.
Qed.

Lemma string_mapped_low m l : forall fuel p, is_cstr (at_ptr m p) l -> 0 <= p -> p + Z.of_nat (length l) < 4194304 ->
  string_mapped fuel m p = true.
Proof.
  induction l as [|c l IH]; intros [|f] p Hl H1 H2; cbn [string_mapped]; try done; rewrite boot_mapped_low by (cbn [length] in H2; lia).
  - by rewrite (cstr_nil m p Hl), bool_decide_eq_true_2.
  - cbn [andb]. rewrite (IH f (p + 1)); [by rewrite orb_true_r| |lia|cbn [length] in H2; lia].
    destruct Hl as [Hc Hz]. split.
    + intros i b Hi. destruct (Hc (S i) b Hi) as [E Hb]. split; [|exact Hb]. rewrite <- E. unfold at_ptr. f_equal. lia.
    + rewrite <- Hz. unfold at_ptr. cbn [length]. f_equal. lia.
Qed.

Lemma modules_mapped_low mods : 0 <= mods -> forall n i, 0 <= i -> mods + 12 + 32 * (i + Z.of_nat n) <= 4194304 ->
  modules_mapped n mods i = true.
Proof.
  intros Hm. induction n as [|n IH]; intros i Hi H; cbn [modules_mapped]; [done|].
  rewrite !bytes_mapped_low by lia. cbn [andb]. apply IH; lia.
Qed.

Lemma boot_reads_ok m mb : loaded m mb -> boot_reads strfuel m mb = true.
Proof.
  intros [(l1 & A1 & A2 & A3 & A4) (l2 & B1 & B2 & B3 & B4) (l3 & C1 & C2 & C3 & C4) (D1 & D2) (E1 & E2 & E3) _ _ _ _].
  unfold boot_reads. rewrite (string_mapped_low m l1), (string_mapped_low m l2), (string_mapped_low m l3) by assumption.
  rewrite !bytes_mapped_low by lia. cbn [andb]. apply modules_mapped_low; lia.
Qed.

Lemma string_says m p (H : low_string m p) c : exists c', print_str put_c strfuel m c p = Ret c'.
Proof. destruct H as (l & Hl & Hn & _). rewrite (print_str_ok put_c m l) by assumption. apply emit_total. Qed.

Lemma report_ok c m mb start size : loaded m mb -> exists c', report_memory strfuel c m mb start size = Ret c'.
Proof.
  intros H. unfold report_memory. cbn zeta. edestruct (say_says c) as (c1 & -> & _). rewrite bind_Ret.
  destruct (string_says _ _ (ld_cmd _ _ H) c1) as (c2 & ->). rewrite bind_Ret. apply emit_total.
Qed.

Lemma dump_ok c m mb : loaded m mb -> exists c', dump_multiboot strfuel c m mb = Ret c'.
Proof.
  intros H. unfold dump_multiboot. edestruct (say_says c) as (c1 & -> & _). rewrite bind_Ret.
  destruct (string_says _ _ (ld_line _ _ H) c1) as (c2 & ->). rewrite bind_Ret.
  edestruct (say_says c2) as (c3 & -> & _). rewrite bind_Ret.
  destruct (string_says _ _ (ld_name _ _ H) c3) as (c4 & ->). rewrite bind_Ret. apply emit_total.
Qed.

(** Memory when the tables are written. *)
Lemma memory_ready (s : mm) m mb :
  free_list s = 0 -> bytes_ok (ram s) -> KERNLINK < data -> data mod 4096 = 0 -> data <= end_ ->
  loaded m mb -> tables_ok KERNBASE end_ gdt idt tss gdt_ptr idt_ptr isr_table ->
  let start := P2V (mod_end m (mods_addr m mb)) in
  let size := u32 (mem_upper m mb + 1024) in
  exists d s1 p l, memory_start m mb end_ = (start, size) /\ start_memory cmos data s start size = Ret (d, V2P d, s1) /\
    let s2 := set_ram s1 (with_tables gdt idt tss gdt_ptr idt_ptr isr_table (ram s1)) in
    vm_wf s2 d (p :: l) /\ tables_set gdt idt tss isr_table (ram s2) /\
    (forall va, KERNBASE <= va < KERNBASE + size * 1024 -> translate s2 d va = va) /\
    (forall x, P2V (mod_start m (mods_addr m mb)) <= x < start -> ram s2 x = ram s x).
Proof.
  intros Hf Hb Hd1 Hd2 Hd3 Hld Htb start size. destruct (ld_module _ _ Hld) as (M0 & M1 & M2). destruct (ld_size _ _ Hld) as (Z1 & Z2).
  pose proof (ld_start _ _ Hld) as L1. pose proof (ld_room _ _ Hld) as L2. fold start in L2. fold size in L2, Z1, Z2.
  assert (Hst : end_ <= start) by (revert L1; unfold start, P2V, KERNBASE; rewrite !u32_small by lia; lia).
  destruct (start_memory_ok cmos data s start size Hf Hb Hd1 Hd2 ltac:(lia) ltac:(lia) Z2 L2)
    as (d & s1 & l & E & Hw & Htr & _ & Hin & Hall & Hk & Hms).
  destruct l as [|p l].
  { assert (H : P2V (4 * 1024 * 1024) ∈ ([] : list Z)); [|by apply elem_of_nil in H].
    apply Hall; [reflexivity|done|]. change (P2V (4 * 1024 * 1024)) with 2151677952. unfold KERNBASE. lia. }
  exists d, s1, p, l. split.
  { unfold memory_start. fold start. by rewrite decide_False by lia. }
  split; [exact E|]. destruct (with_tables_ok _ _ _ _ _ _ _ _ (ram s1) Htb) as (T1 & T2 & T3). intros s2.
  destruct (vm_wf_off s1 d (p :: l) (with_tables gdt idt tss gdt_ptr idt_ptr isr_table (ram s1)) Hw) as (W & _ & Ep).
  - intros q x Hq Hx. apply T2. pose proof (vm_page_ok _ _ _ _ Hw Hq) as (_ & Ho & _). lia.
  - apply T3, Hw.
  - split; [exact W|]. split; [exact T1|]. split.
    + intros va Hva. unfold translate. rewrite Ep. by apply Htr.
    + intros x Hx. cbn [s2 set_ram ram]. rewrite T2 by lia. apply Hk. lia.
Qed.

Context (rtc : nat -> Z -> Z) (rfuel wfuel : nat) (junk lsr : Z).

(** Main comes to its last steps, with memory and devices in order. *)
Lemma main_reaches (s : ext2) mb m t :
  m = boot_view (ram (e_mm s)) -> free_list (e_mm s) = 0 -> bytes_ok (ram (e_mm s)) ->
  KERNLINK < data -> data mod 4096 = 0 -> data <= end_ ->
  loaded m mb -> tables_ok KERNBASE end_ gdt idt tss gdt_ptr idt_ptr isr_table -> read_rtc rtc 0 rfuel wfuel junk = Ret t ->
  exists d s2 p l con,
    main strfuel cmos data end_ gdt idt tss gdt_ptr idt_ptr isr_table rtc rfuel wfuel junk lsr s MBT_BOOTLOADER_MAGIC mb =
    mount_root s (init_memhd (e_bio s) (P2V (mod_start m (mods_addr m mb)))
                             (u32 (mod_end m (mods_addr m mb) - mod_start m (mods_addr m mb)))) s2 con d (V2P d) /\
    masked con (if decide (lsr = 255) then 248 else 232) 191 /\
    vm_wf s2 d (p :: l) /\ tables_set gdt idt tss isr_table (ram s2) /\
    (forall va, KERNBASE <= va < KERNBASE + u32 (mem_upper m mb + 1024) * 1024 -> translate s2 d va = va) /\
    (forall x, P2V (mod_start m (mods_addr m mb)) <= x < P2V (mod_end m (mods_addr m mb)) -> ram s2 x = ram (e_mm s) x).
Proof.
  intros Em Hf Hb Hd1 Hd2 Hd3 Hld Htb Hr.
  destruct (memory_ready (e_mm s) m mb Hf Hb Hd1 Hd2 Hd3 Hld Htb) as (d & s1 & p & l & Es & E & H).
  unfold main, boot_check. rewrite <- Em.
  edestruct (say_says (cons_init (e_cons s))) as (c0 & -> & _). rewrite bind_Ret, decide_False by tauto. rewrite bind_Ret.
  cbn beta iota. cbn [negb]. rewrite (boot_reads_ok m mb Hld). cbn [negb]. rewrite Es. cbv beta iota zeta.
  destruct (report_ok c0 m mb (P2V (mod_end m (mods_addr m mb))) (u32 (mem_upper m mb + 1024)) Hld) as (c1 & ->). rewrite bind_Ret.
  destruct (dump_ok (settextcolor c1 12 0) m mb Hld) as (c2 & ->). rewrite bind_Ret.
  edestruct (say_says (resettextcolor c2)) as (c3 & -> & _). rewrite bind_Ret, E, bind_Ret. cbn beta iota.
  edestruct (say_says c3) as (c4 & -> & _). rewrite bind_Ret.
  destruct (devices_ok rtc rfuel wfuel junk lsr t c4 Hr) as (c5 & -> & Hm5). rewrite bind_Ret.
  exists d, (set_ram s1 (with_tables gdt idt tss gdt_ptr idt_ptr isr_table (ram s1))), p, l, c5.
  split; [reflexivity|]. split; [exact Hm5|exact H].
Qed.

End Boot.

(** The disk the driver sees is the module. *)
Lemma module_disk b0 r0 r1 a n :
  b0 = boot_bio r0 0 0 -> 1536 <= n < 4294967296 ->
  let b := init_buffer (set_hdmem (init_memhd b0 a n) r1) in
  cache_idle b /\ disksize b = n / 512 /\ forall k, sector b k = read_bytes r1 (a + k * 512) 512.
Proof.
  intros -> Hn b. assert (Eb : b = init_buffer (boot_bio r1 a (n / 512))) by done. clearbody b. subst b.
  destruct (init_buffer_disk (boot_bio r1 a (n / 512))) as (H1 & H2 & H3). split; [|split; [exact H1|]].
  - exists (rev (seq 0 NBUF)). apply init_buffer_ok. modlia.
  - intros k. unfold sector. by rewrite H2, H3.
Qed.

(** The root is mounted from the module if it has the magic number. *)
Lemma mount_root_ok `{ide : IdeDevice} `{uart : Uart} (s : ext2) r0 a n (s2 : mm) c d p l :
  e_bio s = boot_bio r0 0 0 -> 1536 <= n < 4294967296 -> vm_wf s2 d (p :: l) ->
  let sb := read_bytes (ram s2) (a + 2 * 512) 512 in
  let run := mount_root s (init_memhd (e_bio s) a n) s2 c d (V2P d) in
  (sb_magic sb = EXT2_SUPER_MAGIC ->
   exists s' node, run = Ret (Started s' node d (V2P d)) /\ vm_wf (e_mm s') d l /\ ram (e_mm s') = ram s2 /\
     (forall va, translate (e_mm s') d va = translate s2 d va) /\ talks c (e_cons s') /\ cache_idle (e_bio s') /\
     (forall k, sector (e_bio s') k = read_bytes (ram s2) (a + k * 512) 512) /\ nd_flags node = FS_DIR) /\
  (sb_magic sb <> EXT2_SUPER_MAGIC -> run = Stop (Panic "assert_failed")).
Proof.
  intros Hbio Hn Hw sb run. destruct (module_disk (e_bio s) r0 (ram s2) a n Hbio Hn) as (Hid & Hds & Hsec). unfold run, mount_root.
  set (b1 := init_buffer _) in *. clearbody b1.
  destruct (ext2_mounts (mkExt2 b1 s2 c (e_sbb s) (e_root s)) p l (vw_free _ _ _ Hw) Hid) as [Hyes Hno].
  { cbn [e_bio]. rewrite Hds. modlia. }
  cbn [e_bio e_mm e_cons] in Hyes, Hno. rewrite Hsec in Hyes, Hno. fold sb in Hyes, Hno.
  split; intros Hmag; [|by rewrite (Hno Hmag)].
  destruct (Hyes Hmag) as (s3 & con & node & -> & _ & _ & _ & C1 & K1 & G1 & O1 & _ & Emm & Tc). rewrite bind_Ret. cbn beta iota.
  rewrite O1, bind_Ret. destruct (vm_wf_alloc _ _ _ _ Hw) as (W & Er & Ep). rewrite <- Emm in W, Er, Ep.
  exists (set_econs s3 con), node. cbn [set_econs e_mm e_cons e_bio].
  split; [done|]. split; [exact W|]. split; [exact Er|]. split; [intros va; unfold translate; by rewrite Ep|].
  split; [exact Tc|]. split; [exact C1|]. split; [|exact G1]. intros k. by rewrite K1, Hsec.
Qed.

(** ** Property *)

(** C2. The kernel starts: started by a multiboot loader that left its header and
    strings in the first 4 MB and the RAM disk behind the kernel, on a machine
    whose clock ticks, main runs to its end exactly when the RAM disk has the
    ext2 magic number: no read faults under the boot directory, and the loops on
    the clock end.  Then all of memory is mapped at the kernel's addresses by
    a well-formed directory, the segments and gates are in the tables of the
    processor, the interrupt controllers let through the timer, the keyboard,
    the disk and the serial line if there is one and nothing else, the sectors
    of the memory disk are the bytes of the module, and the root node is a
    directory.  Without the magic number main panics; without a multiboot loader
    it stops at once. *)
Theorem main_boots `{ide : IdeDevice} `{uart : Uart} `{ports : Ports}
  (strfuel : nat) (cmos : Z -> Z) (data end_ gdt idt tss gdt_ptr idt_ptr : Z) (isr_table : Z -> Z)
  (rtc : nat -> Z -> Z) (wait life : nat) (junk lsr : Z) (s : ext2) (r0 : memory) (eax mb : Z)
  (Hbio : e_bio s = boot_bio r0 0 0) (Hfree : free_list (e_mm s) = 0) (Hbytes : bytes_ok (ram (e_mm s)))
  (Hdata : KERNLINK < data) (Hdal : data mod 4096 = 0) (Hend : data <= end_)
  (Hld : loaded strfuel end_ (boot_view (ram (e_mm s))) mb)
  (Htab : tables_ok KERNBASE end_ gdt idt tss gdt_ptr idt_ptr isr_table)
  (Hrtc : ticks rtc wait life) :
  let m := boot_view (ram (e_mm s)) in
  let disk := P2V (mod_start m (mods_addr m mb)) in
  let sectors := (mod_end m (mods_addr m mb) - mod_start m (mods_addr m mb)) / 512 in
  let sb := read_bytes (ram (e_mm s)) (disk + 2 * 512) 512 in
  let run := main strfuel cmos data end_ gdt idt tss gdt_ptr idt_ptr isr_table rtc life wait junk lsr s eax mb in
  (eax = MBT_BOOTLOADER_MAGIC -> sb_magic sb = EXT2_SUPER_MAGIC ->
   exists s' node d l, run = Ret (Started s' node d (V2P d)) /\ vm_wf (e_mm s') d l /\
     (forall va, KERNBASE <= va < KERNBASE + u32 (mem_upper m mb + 1024) * 1024 -> translate (e_mm s') d va = va) /\
     tables_set gdt idt tss isr_table (ram (e_mm s')) /\
     inb (log (e_cons s')) 33 = (if decide (lsr = 255) then 248 else 232) /\ inb (log (e_cons s')) 161 = 191 /\
     cache_idle (e_bio s') /\
     (forall k, 0 <= k < sectors -> sector (e_bio s') k = read_bytes (ram (e_mm s)) (disk + k * 512) 512) /\
     nd_flags node = FS_DIR) /\
  (eax = MBT_BOOTLOADER_MAGIC -> sb_magic sb <> EXT2_SUPER_MAGIC -> run = Stop (Panic "assert_failed")) /\
  (eax <> MBT_BOOTLOADER_MAGIC -> exists con, run = Ret (NoGrub con)).
Proof.
  intros m disk sectors sb run. destruct (ld_module _ _ _ _ Hld) as (M0 & M1 & M2). fold m in M0, M1, M2.
  destruct (read_rtc_ends rtc 0 wait life junk Hrtc) as (t0 & cen & Ert).
  destruct (main_reaches strfuel cmos data end_ gdt idt tss gdt_ptr idt_ptr isr_table rtc life wait junk lsr s mb m _ eq_refl
    Hfree Hbytes Hdata Hdal Hend Hld Htab Ert) as (d & s2 & p & l & c & E & Hm & Hw & Ht & Htr & Hk).
  fold disk in E, Hk. rewrite u32_small in E by lia.
  assert (Hdisk : forall k, 0 <= k < sectors -> read_bytes (ram s2) (disk + k * 512) 512 = read_bytes (ram (e_mm s)) (disk + k * 512) 512).
  { intros k Hkk. apply read_bytes_ext. intros x Hx. apply Hk. revert Hx. unfold sectors in Hkk. change (Z.of_nat 512) with 512.
    unfold disk, P2V, KERNBASE. rewrite !u32_small by lia. modlia. }
  destruct (mount_root_ok s r0 disk (mod_end m (mods_addr m mb) - mod_start m (mods_addr m mb)) s2 c d p l Hbio ltac:(lia) Hw) as [Hyes Hno].
  rewrite Hdisk in Hyes, Hno by (unfold sectors; modlia). fold sb in Hyes, Hno. unfold run. clear run. split; [|split].
  - intros -> Hmag. rewrite E. destruct (Hyes Hmag) as (s' & node & -> & W & Er & Etr & Tc & C1 & K1 & G1).
    destruct (masked_inb _ _ _ (masked_talks _ _ _ _ Tc Hm)) as [I1 I2]. exists s', node, d, l. rewrite Er.
    split; [done|]. split; [exact W|]. split; [intros va Hva; rewrite Etr; by apply Htr|]. split; [exact Ht|]. split; [exact I1|].
    split; [exact I2|]. split; [exact C1|]. split; [|exact G1]. intros k Hkk. by rewrite K1, Hdisk.
  - intros -> Hmag. rewrite E. exact (Hno Hmag).
  - intros He. unfold main, boot_check. edestruct (say_says (cons_init (e_cons s))) as (c0 & -> & _). rewrite bind_Ret, decide_True by exact He.
    edestruct (say_says c0) as (c1 & -> & _). by exists c1.
Qed.

(** Controllers that answer with the last value written. *)
Definition latch_ports : Ports.
Proof.
  refine {| inb := fun l p => match last_out l p with Some v => v | None => 255 end |}.
  intros l1 l2 p v _ H. by rewrite last_out_app, H.
Defined.

(** 8 MB of memory, the information of the loader at 4 KB, a module of four
    sectors at 2 MB with the magic number in the third. *)
Definition demo_ram : memory :=
  fold_right (fun w m => store32 m (P2V w.1) w.2) (fun _ => 0)
    [(4104, 7168); (4112, 12288); (4116, 1); (4120, 8192); (4160, 12288); (8192, 2097152); (8196, 2099200); (8200, 12288); (2098232, 61267)].

Definition demo_boot : ext2 := mkExt2 (boot_bio (fun _ => 0) 0 0) (Mm demo_ram 0 0 0) blank_console [] None.

Lemma demo_loaded : loaded 16 2149056512 (boot_view demo_ram) 4096.
Proof.
  assert (E : low_string 16 (boot_view demo_ram) 12288).
  { exists []. split; [|cbn; lia]. split; [intros i x Hi; by rewrite lookup_nil in Hi|by vm_compute]. }
  constructor; [exact E|exact E|exact E|..]; vm_compute; repeat split; discriminate.
Qed.

Lemma main_boots_witness :
  exists s' node d, main (ide := idle_ide) (uart := ready_uart) (ports := latch_ports) 16 (fun _ => 0) 2148794368 2149056512
    2148794368 2148796416 2148795392 2148795568 2148795578 (fun i => 1048576 + i mod 256)
    demo_rtc 100 2 0 32 demo_boot MBT_BOOTLOADER_MAGIC 4096 = Ret (Started s' node d (V2P d)) /\ nd_flags node = FS_DIR.
Proof.
  destruct (main_boots (ide := idle_ide) (uart := ready_uart) (ports := latch_ports) 16 (fun _ => 0) 2148794368 2149056512
    2148794368 2148796416 2148795392 2148795568 2148795578 (fun i => 1048576 + i mod 256)
    demo_rtc 2 100 0 32 demo_boot (fun _ => 0) MBT_BOOTLOADER_MAGIC 4096) as [H _].
  - reflexivity.
  - reflexivity.
  - cbn [demo_boot e_mm ram]. unfold demo_ram. cbn [fold_right]. repeat apply store32_bytes_ok. intros a. lia.
  - reflexivity.
  - reflexivity.
  - lia.
  - exact demo_loaded.
  - constructor; unfold apart, GDT_NUM, IDT_NUM, TSS_SIZE, KERNBASE; [lia..|]. intros i. pose proof (Z.mod_pos_bound i 256). lia.
  - exact demo_rtc_ticks.
  - destruct (H eq_refl) as (s' & node & d & l & E & _ & _ & _ & _ & _ & _ & _ & Hd); [by vm_compute|].
    exists s', node, d. split; [exact E|exact Hd].
Defined.
