(* ===== verification/Spinlock.v ===== *)
(** * Spin locks

    kern/spinlock.c: the lock word, [acquire] and [release], run by one
    processor, and the same code run by several processors whose reads and
    exchanges of the word interleave in any order. *)

From stdpp Require Import base list strings relations.
From Stdlib Require Import ZArith Lia.
From S2P Require Import Prelude.

Open Scope Z_scope.

Record spinlock : Type := mkLock {
  hold : Z;
  lk_name : list Z
}.

Definition set_hold (l : spinlock) (v : Z) : spinlock := mkLock v (lk_name l).

Definition init_lock (l : spinlock) (name : list Z) : spinlock := mkLock 0 name.

Definition is_hold (l : spinlock) : bool := bool_decide (hold l = 1).

(** The old value, and the new one stored, in one step. *)
Definition xchg (l : spinlock) (v : Z) : Z * spinlock := (hold l, set_hold l v).

(** [while(xchg(&slock->hold, 1) != 0);] with nobody else running. *)
Fixpoint acquire_loop (fuel : nat) (l : spinlock) : outcome spinlock :=
  match fuel with
  | O => Stop Fuel
  | S f => let '(old, l1) := xchg l 1 in if decide (old <> 0) then acquire_loop f l1 else Ret l1
  end.

Definition acquire (fuel : nat) (l : spinlock) : outcome spinlock :=
  if is_hold l then Stop (Panic "acquire spinlock") else acquire_loop fuel l.

Definition release (l : spinlock) : outcome spinlock :=
  if negb (is_hold l) then Stop (Panic "release spinlock") else Ret (xchg l 0).2.

(** ** Several processors *)

(** Where a processor is: outside, behind the test of [acquire], in the critical
    section, behind the test of [release], stopped by a panic. *)
Inductive pc : Type :=
  | Outside
  | Spinning
  | Inside
  | Leaving
  | Panicked.

#[export] Instance pc_eq_dec : EqDecision pc.
Proof. solve_decision. Defined.

Record cpus : Type := mkCpus {
  word : spinlock;
  at_ : nat -> pc
}.

Definition goto (s : cpus) (l : spinlock) (i : nat) (p : pc) : cpus :=
  mkCpus l (fun j => if decide (j = i) then p else at_ s j).

(** One processor executes one access to the lock word. *)
Inductive lstep : cpus -> cpus -> Prop :=
  | LTest s i : at_ s i = Outside ->
      lstep s (goto s (word s) i (if is_hold (word s) then Panicked else Spinning))
  | LXchg s i old l : at_ s i = Spinning -> xchg (word s) 1 = (old, l) ->
      lstep s (goto s l i (if decide (old <> 0) then Spinning else Inside))
  | LCheck s i : at_ s i = Inside ->
      lstep s (goto s (word s) i (if is_hold (word s) then Leaving else Panicked))
  | LFree s i : at_ s i = Leaving -> lstep s (goto s (xchg (word s) 0).2 i Outside).

(** All processors outside and the lock just initialised. *)
Definition fresh (l : spinlock) (name : list Z) : cpus := mkCpus (init_lock l name) (fun _ => Outside).

Definition holds (s : cpus) (i : nat) : Prop := at_ s i = Inside \/ at_ s i = Leaving.

(** The word is 1 while a processor holds the lock, and 0 otherwise. *)
Record lock_inv (s : cpus) : Prop := {
  li_word : (hold (word s) = 0 /\ forall i, ~ holds s i) \/ (hold (word s) = 1 /\ exists i, holds s i);
  li_one : forall i j, holds s i -> holds s j -> i = j
}.

(** ** Lemmas *)

Lemma goto_at s l i p j : at_ (goto s l i p) j = if decide (j = i) then p else at_ s j.
Proof. done. Qed.

Lemma holds_goto s l i p j : holds (goto s l i p) j <-> (j = i /\ (p = Inside \/ p = Leaving)) \/ (j <> i /\ holds s j).
Proof. unfold holds. rewrite goto_at. destruct (decide (j = i)) as [->|Hn]; (intuition congruence). Qed.

(** A step of [i] that neither takes nor gives up the lock. *)
Lemma inv_same s i p : lock_inv s -> (holds s i <-> p = Inside \/ p = Leaving) -> lock_inv (goto s (word s) i p).
Proof.
  intros [Hw H1] Hp. assert (Hh : forall j, holds (goto s (word s) i p) j <-> holds s j).
  { intros j. rewrite holds_goto. destruct (decide (j = i)) as [->|Hn]; (intuition congruence). }
  constructor.
  - destruct Hw as [[W F]|[W (j & Hj)]]; [left|right]; (split; [exact W|]); [intros j; rewrite Hh; apply F|exists j; by apply Hh].
  - intros j k. rewrite !Hh. apply H1.
Qed.

Lemma lstep_inv s s' : lstep s s' -> lock_inv s -> lock_inv s'.
Proof.
  intros Hst Hi. destruct Hst as [s i E|s i old l E Hx|s i E|s i E].
  - apply inv_same; [exact Hi|]. unfold holds. rewrite E. destruct (is_hold (word s)); (intuition congruence).
  - unfold xchg in Hx. injection Hx as <- <-. pose proof Hi as [Hw H1].
    assert (Hni : ~ holds s i) by (unfold holds; rewrite E; (intuition congruence)).
    destruct Hw as [[W F]|[W (j & Hj)]].
    + rewrite decide_False by (intros H; by apply H). constructor.
      * right. split; [done|]. exists i. apply holds_goto. (intuition congruence).
      * intros j k. rewrite !holds_goto. intros [[-> _]|[_ Hj]] [[-> _]|[_ Hk]]; [done|by destruct (F k)|by destruct (F j)|by destruct (F j)].
    + rewrite decide_True by lia. assert (Es : set_hold (word s) 1 = word s) by (destruct (word s) as [h n]; cbn in *; by subst h).
      rewrite Es. apply inv_same; [exact Hi|]. (intuition congruence).
  - apply inv_same; [exact Hi|]. assert (Hi' : holds s i) by (by left).
    destruct (li_word _ Hi) as [[W F]|[W _]]; [by destruct (F i)|]. unfold is_hold. rewrite bool_decide_true by exact W. (intuition congruence).
  - assert (Hi' : holds s i) by (by right). destruct Hi as [_ H1].
    assert (Hn : forall j, ~ holds (goto s (xchg (word s) 0).2 i Outside) j).
    { intros j. rewrite holds_goto. intros [[_ [H|H]]|[Hj H]]; [done|done|]. by apply Hj, H1. }
    constructor; [left; by split|]. intros j k Hj. by destruct (Hn j).
Qed.

Lemma fresh_inv l name : lock_inv (fresh l name).
Proof.
  assert (Hn : forall i, ~ holds (fresh l name) i) by (intros i [H|H]; discriminate H).
  constructor; [left; by split|]. intros i j Hi. by destruct (Hn i).
Qed.

Lemma lsteps_inv s s' : rtc lstep s s' -> lock_inv s -> lock_inv s'.
Proof. induction 1 as [|s1 s2 s3 H _ IH]; [done|]. intros Hi. by apply IH, (lstep_inv s1). Qed.

(** On one processor a pair of calls takes the lock and gives it back; a second
    [acquire] panics instead of waiting. *)
Lemma acquire_release l fuel : hold l = 0 ->
  acquire (S fuel) l = Ret (set_hold l 1) /\ release (set_hold l 1) = Ret l /\
  acquire (S fuel) (set_hold l 1) = Stop (Panic "acquire spinlock").
Proof.
  intros H. destruct l as [h n]. cbn in H. subst h. unfold acquire, release, is_hold. cbn. done.
Qed.

(** ** Property *)

(** C22. The lock excludes: however the accesses of any number of processors to
    the word interleave after [init_lock], never are two in their critical
    sections; while one is, the word is 1, so that its [release] does not panic;
    and whenever none is, the word is 0 and a processor in the loop of [acquire]
    gets the lock with its next exchange. *)
Theorem spinlock_excludes (l : spinlock) (name : list Z) (s : cpus) (i j : nat) (Hrun : rtc lstep (fresh l name) s) :
  (at_ s i = Inside -> at_ s j = Inside -> i = j) /\
  (at_ s i = Inside -> exists l', release (word s) = Ret l') /\
  (at_ s i = Spinning -> (forall k, ~ holds s k) -> acquire_loop 1 (word s) = Ret (set_hold (word s) 1) /\
     lstep s (goto s (set_hold (word s) 1) i Inside)).
Proof.
  pose proof (lsteps_inv _ _ Hrun (fresh_inv l name)) as [Hw H1]. split; [|split].
  - intros Hi Hj. apply H1; by left.
  - intros Hi. destruct Hw as [[_ F]|[W _]]; [destruct (F i); by left|]. unfold release, is_hold.
    rewrite bool_decide_true by exact W. by eexists.
  - intros Hi F. destruct Hw as [[W _]|[_ (k & Hk)]]; [|by destruct (F k)].
    split; [unfold acquire_loop, xchg; by rewrite W|].
    pose proof (LXchg s i (hold (word s)) (set_hold (word s) 1) Hi eq_refl) as Hst. by rewrite W in Hst.
Qed.

(** Two processors pass the test together; one gets in. *)
Lemma spinlock_excludes_witness :
  exists s, rtc lstep (fresh (mkLock 0 []) []) s /\ at_ s 0 = Inside /\ at_ s 1 = Spinning /\ exists l', release (word s) = Ret l'.
Proof.
  set (s1 := goto (fresh (mkLock 0 []) []) (mkLock 0 []) 0 Spinning). set (s2 := goto s1 (mkLock 0 []) 1 Spinning).
  set (s3 := goto s2 (mkLock 1 []) 0 Inside).
  assert (R : rtc lstep (fresh (mkLock 0 []) []) s3).
  { eapply rtc_l; [exact (LTest (fresh (mkLock 0 []) []) 0%nat eq_refl)|]. eapply rtc_l; [exact (LTest s1 1%nat eq_refl)|].
    eapply rtc_l; [exact (LXchg s2 0%nat 0 (mkLock 1 []) eq_refl eq_refl)|]. apply rtc_refl. }
  exists s3. split; [exact R|]. split; [reflexivity|]. split; [reflexivity|].
  apply (spinlock_excludes (mkLock 0 []) [] s3 0 0 R). reflexivity.
Defined.
