(* ===== verification/Monitor.v ===== *)
(** * The kernel monitor

    kern/tools.c: a line is read from the console into [monbuf], leading blanks
    are skipped, and the first characters choose a command.  [stdin_read], the
    other function of the file, is in Syscall.v. *)

From stdpp Require Import base list strings.
From Stdlib Require Import ZArith Lia.
From S2P Require Import Prelude Mmu CString Console Printf.

Open Scope Z_scope.

(** [char monbuf[1024]] *)
Definition MONBUF : nat := 1024.

(** [while((monbuf[i++] = get_c(1)) != '\n');] on the characters [get_c] yields;
    [None] while it still waits for one.  The index and what is left of the
    characters behind the newline. *)
Fixpoint readline_loop (cs : list Z) (buf : list Z) (i : nat) : option (outcome (list Z * nat * list Z)) :=
  match cs with
  | [] => None
  | c :: cs' =>
      if decide (i < MONBUF)%nat then
        let buf1 := <[i := s8 c]> buf in
        if decide (s8 c = 10) then Some (Ret (buf1, S i, cs')) else readline_loop cs' buf1 (S i)
      else Some (Stop (Fault "monbuf[i]"))
  end.

(** The buffer afterwards, its last newline deleted. *)
Definition readline (cs buf : list Z) : option (outcome (list Z * list Z)) :=
  r ← readline_loop cs buf 0;
  Some ('(b, i, rest) ← r; Ret (<[(i - 1)%nat := 0]> b, rest)).

(** [while(str && *str == ' ') str++;] *)
Fixpoint strip_lspace (str : list Z) : list Z :=
  match str with
  | c :: str' => if decide (c = 32) then strip_lspace str' else str
  | [] => []
  end.

Inductive command : Type :=
  | CNone
  | CBc
  | CClr
  | CHelp
  | CInfo
  | CUnknown (cmd : list Z).

Definition at_list (l : list Z) : cptr := fun k => nth (Z.to_nat k) l 0.

Definition starts (cmd : list Z) (word : string) : bool :=
  bool_decide (strncmp (Some (at_list cmd)) (Some (at_list (chars word))) (Z.of_nat (length (chars word))) = 0).

(** The tests of [monitor] in their order. *)
Definition choose (input : list Z) : command :=
  let cmd := strip_lspace input in
  if decide (nth 0 cmd 0 = 0) then CNone
  else if starts cmd "bc" then CBc
  else if starts cmd "clr" then CClr
  else if starts cmd "help" then CHelp
  else if starts cmd "info" then CInfo
  else CUnknown cmd.

(** The string at the front of a buffer. *)
Fixpoint to_nul (l : list Z) : list Z :=
  match l with
  | [] => []
  | c :: l' => if decide (c = 0) then [] else c :: to_nul l'
  end.

Section Monitor.

Context `{uart : Uart}.

(** [sys_version], [sys_info] and the date of the build. *)
Variables version info date : list Z.

(** [printk] knows no [%%]: nothing is printed for it. *)
Definition help (con : console) : outcome console :=
  emit put_c con
    (chars "Available commands:" ++ [10] ++
     chars "    bc: a very simple calculator just works on +,-,*,/," ++ [10] ++
     chars "    clr: clean screen" ++ [10] ++
     chars "    info: some info about chunix" ++ [10] ++
     chars "    help: show available commands" ++ [10]).

Definition sysinfo (con : console) : outcome console :=
  emit put_c con (chars "ChuniX, versioin: " ++ version ++ [10; 10] ++ info ++ [10] ++ chars "Build: " ++ date ++ [10; 10]).

Definition bc (con : console) : outcome console := emit put_c con (chars "Sorry, not done yet" ++ [10]).

Definition clr (con : console) : console := clean_screen con.

Definition run_command (con : console) (c : command) : outcome console :=
  match c with
  | CNone => Ret con
  | CBc => bc con
  | CClr => Ret (clr con)
  | CHelp => help con
  | CInfo => sysinfo con
  | CUnknown cmd =>
      emit put_c con (chars "Error! no such command: '" ++ to_nul cmd ++ chars "'. type 'help' for help" ++ [10])
  end.

(** A round of the loop: the prompt, a line, a command. *)
Definition monitor_turn (con : console) (cs buf : list Z) : option (outcome (console * list Z * list Z)) :=
  match emit put_c con (chars ">>> ") with
  | Stop w => Some (Stop w)
  | Ret c1 =>
      r ← readline cs buf;
      Some ('(b, rest) ← r; c2 ← run_command c1 (choose (to_nul b)); Ret (c2, b, rest))
  end.

End Monitor.

(** ** Lemmas *)

Lemma readline_loop_ok line : forall rest buf i,
  Forall (fun c => s8 c = c /\ c <> 10) line -> length buf = MONBUF -> (i + length line < MONBUF)%nat ->
  exists buf', readline_loop (line ++ 10 :: rest) buf i = Some (Ret (buf', S (i + length line), rest)) /\
    length buf' = MONBUF /\ take (i + length line) buf' = take i buf ++ line.
Proof.
  induction line as [|c line IH]; intros rest buf i Hl Hb Hi; cbn [app readline_loop length] in *;
    rewrite decide_True by lia.
  - change (s8 10) with 10. rewrite decide_True by done. exists (<[i := 10]> buf).
    rewrite Nat.add_0_r, app_nil_r, length_insert, take_insert_ge by lia. done.
  - apply Forall_cons in Hl as [[Hc Hn] Hl]. rewrite Hc, decide_False by exact Hn.
    destruct (IH rest (<[i := c]> buf) (S i) Hl) as (buf' & E & Hb' & Ht); [by rewrite length_insert|lia|].
    exists buf'. replace (i + S (length line))%nat with (S i + length line)%nat by lia. split; [exact E|]. split; [exact Hb'|].
    rewrite Ht. assert (Es : take (S i) (<[i := c]> buf) = take i buf ++ [c]).
    { rewrite (take_S_r _ i c) by (apply list_lookup_insert_eq; lia). by rewrite take_insert_ge by lia. }
    by rewrite Es, <- app_assoc.
Qed.

Lemma to_nul_app line tail : Forall (fun c => c <> 0) line -> to_nul (line ++ 0 :: tail) = line.
Proof.
  induction line as [|c line IH]; intros Hl; cbn [app to_nul]; [by rewrite decide_True|].
  apply Forall_cons in Hl as [Hc Hl]. rewrite decide_False by exact Hc. by rewrite IH.
Qed.

(** A line of fewer than 1024 characters arrives in [monbuf] as a string. *)
Lemma readline_line line rest buf :
  Forall (fun c => s8 c = c /\ c <> 10 /\ c <> 0) line -> length buf = MONBUF -> (length line < MONBUF)%nat ->
  exists buf', readline (line ++ 10 :: rest) buf = Some (Ret (buf', rest)) /\ to_nul buf' = line /\ length buf' = MONBUF.
Proof.
  intros Hl Hb Hn. destruct (readline_loop_ok line rest buf 0) as (b & E & Hb' & Ht); [|exact Hb|lia|].
  { apply (Forall_impl _ _ _ Hl). tauto. }
  exists (<[length line := 0]> b). unfold readline. rewrite E. cbn [mbind option_bind outcome_bind].
  replace (S (0 + length line) - 1)%nat with (length line) by lia. split; [done|]. split; [|by rewrite length_insert].
  cbn [plus take app] in Ht. rewrite insert_take_drop by lia. rewrite Ht. apply to_nul_app. apply (Forall_impl _ _ _ Hl). tauto.
Qed.

(** A line of 1024 characters or more is written past [monbuf]. *)
Lemma readline_overflow line : forall rest buf i,
  Forall (fun c => s8 c <> 10) line -> (i <= MONBUF)%nat -> (MONBUF < i + length line)%nat ->
  readline_loop (line ++ rest) buf i = Some (Stop (Fault "monbuf[i]")).
Proof.
  induction line as [|c line IH]; intros rest buf i Hl Hi Hn; cbn [app readline_loop length] in *; [lia|].
  apply Forall_cons in Hl as [Hc Hl]. destruct (decide (i < MONBUF)%nat); [|done]. rewrite decide_False by exact Hc.
  apply IH; [exact Hl|lia|lia].
Qed.

Lemma starts_prefix cmd word : Forall (fun b => 0 <= b < 256) cmd -> Forall (fun b => 1 <= b < 256) (chars word) ->
  starts cmd word = true <-> take (length (chars word)) cmd = chars word.
Proof.
  intros Hc Hw. set (w := chars word) in *.
  assert (Hr : forall l, Forall (fun b => 0 <= b < 256) l -> forall j, 0 <= at_list l j < 256).
  { intros l Hl j. unfold at_list. destruct (nth_in_or_default (Z.to_nat j) l 0) as [Hin| ->]; [|lia].
    apply list_elem_of_In in Hin. exact (proj1 (Forall_forall _ _) Hl _ Hin). }
  assert (Hw0 : Forall (fun b => 0 <= b < 256) w) by (apply (Forall_impl _ _ _ Hw); lia).
  unfold starts. fold w. rewrite bool_decide_eq_true, strncmp_zero; [|intros; by apply Hr|intros; by apply Hr|lia]. split.
  - intros H. apply list_eq. intros i. destruct (decide (i < length w)%nat) as [Hi|Hi].
    + rewrite lookup_take_lt by exact Hi. specialize (H (Z.of_nat i) ltac:(lia)). unfold at_list in H. rewrite Nat2Z.id in H.
      destruct (lookup_lt_is_Some_2 w i Hi) as [b Hb]. pose proof (Forall_lookup_1 _ _ _ _ Hw Hb) as Hb1. cbn beta in Hb1.
      rewrite (nth_lookup_Some _ _ _ _ Hb) in H. rewrite Hb. destruct (cmd !! i) as [x|] eqn:E.
      * rewrite (nth_lookup_Some _ _ _ _ E) in H. by subst.
      * rewrite nth_overflow in H by (by apply lookup_ge_None). lia.
    + rewrite lookup_ge_None_2 by (rewrite length_take; lia). symmetry. apply lookup_ge_None. lia.
  - intros H j Hj. unfold at_list. rewrite <- H. rewrite List.nth_firstn. by destruct (Nat.ltb_spec (Z.to_nat j) (length w)); [|lia].
Qed.
