(* ===== verification/HeapTest.v ===== *)
(** * The self-tests of the kernel heap

    kern/heap.c: [dump_heap] lists the chunks, [test_kmalloc_1] and
    [test_kmalloc_2] allocate and free a few blocks and print what they see.
    The text goes to a log, a list of characters: what [printk] does with it is
    in Printf.v and Console.v. *)

From stdpp Require Import base list strings.
From Stdlib Require Import ZArith Lia.
From S2P Require Import Prelude Printf Heap.

Open Scope Z_scope.

(** Bytes written to mapped pages, which [strcpy] needs beside the words of
    [Pager]. *)
Class ByteStore (P : Type) `{Pager P} : Type := {
  pg_write8 : P -> Z -> Z -> P
}.

(** Literal text of a format. *)
Definition lit (s : string) : list frag := map FLit (chars s).

Definition text (fs : list frag) : list Z := concat (map frag_text fs).

(** ** Listing the chunks *)

Section Dump.

Context {P : Type} `{pg : Pager P}.

(** One line of [dump_heap]. *)
Definition dump_line (addr len free : Z) : list frag :=
  lit "addr: " ++ [FHex (s32 addr) false] ++ lit ", offset: " ++ [FDec (s32 (addr - HEAP_START))] ++
  lit ", len = " ++ [FDec len] ++ lit " = 12 + " ++ [FDec (len - 12)] ++ lit ", free: " ++ [FDec free] ++ [FLit 10].

Fixpoint dump_loop (fuel : nat) (h : heap P) (p : Z) : outcome (list frag) :=
  if decide (p = 0) then Ret []
  else
    match fuel with
    | O => Stop Fuel
    | S k =>
        len ← get_len h p;
        free ← get_free h p;
        next ← get_next h p;
        rest ← dump_loop k h next;
        Ret (dump_line p len free ++ rest)
    end.

Definition dump_heap (h : heap P) : outcome (list Z) :=
  ls ← dump_loop (scan_fuel h) h (heap_start h);
  Ret (text (lit "dump heap:" ++ [FLit 10] ++ ls)).

(** ** The tests *)

Definition test_kmalloc_1 (h : heap P) : outcome (heap P * list Z) :=
  '(h1, p) ← kmalloc h 20;
  d1 ← dump_heap h1;
  '(h2, q) ← kmalloc h1 10;
  d2 ← dump_heap h2;
  h3 ← kfree h2 p;
  d3 ← dump_heap h3;
  h4 ← kfree h3 q;
  d4 ← dump_heap h4;
  Ret (h4, d1 ++ d2 ++ d3 ++ d4 ++ text (lit "done" ++ [FLit 10])).

Context `{bs : !ByteStore P}.

(** [strcpy(d, "...")], with the bytes of the literal and its NUL. *)
Fixpoint store_bytes (h : heap P) (d : Z) (l : list Z) : outcome (heap P) :=
  match l with
  | [] => Ret h
  | c :: l' =>
      if pg_mapped (pager h) d then store_bytes (set_pager h (pg_write8 (pager h) d c)) (d + 1) l'
      else Stop (Fault "page")
  end.

Definition hstrcpy (h : heap P) (d : Z) (s : string) : outcome (heap P) := store_bytes h d (chars s ++ [0]).

(** The string at [p], for [%s]. *)
Fixpoint hstring (fuel : nat) (h : heap P) (p : Z) : outcome (list Z) :=
  match fuel with
  | O => Stop Fuel
  | S k =>
      if pg_mapped (pager h) p then
        if decide (pg_mem (pager h) p = 0) then Ret []
        else r ← hstring k h (p + 1); Ret (pg_mem (pager h) p :: r)
      else Stop (Fault "page")
  end.

(** [printk("&v = %x\n", v)] and [printk("v = %s\n", v)]. *)
Definition show_addr (v : string) (p : Z) : list Z :=
  text (lit "&" ++ lit v ++ lit " = " ++ [FHex (s32 p) false; FLit 10]).

Definition show_str (fuel : nat) (h : heap P) (v : string) (p : Z) : outcome (list Z) :=
  l ← hstring fuel h p; Ret (text (lit v ++ lit " = " ++ [FStr p l; FLit 10])).

(** The addresses of the five blocks are part of the result. *)
Definition test_kmalloc_2 (fuel : nat) (h : heap P) : outcome (heap P * list Z * (Z * Z * Z * Z * Z)) :=
  '(h, p) ← kmalloc h 32;
  h ← hstrcpy h p "hello kmalloc, hello kmalloc";
  o1 ← show_str fuel h "p" p;
  '(h, q) ← kmalloc h 40;
  h ← hstrcpy h q "test again";
  o2 ← show_str fuel h "q" q;
  h ← kfree h p;
  o3 ← show_str fuel h "p" p;
  '(h, r) ← kmalloc h 10;
  h ← hstrcpy h r "check r";
  o4 ← show_str fuel h "r" r;
  '(h, s) ← kmalloc h 15;
  h ← hstrcpy h s "how about s?";
  o5 ← show_str fuel h "s" s;
  o6 ← show_str fuel h "p" p;
  '(h, t) ← kmalloc h 8;
  o7 ← show_str fuel h "t" t;
  d1 ← dump_heap h;
  h ← kfree h r;
  h ← kfree h s;
  d2 ← dump_heap h;
  h ← kfree h q;
  h ← kfree h t;
  Ret (h, show_addr "p" p ++ o1 ++ show_addr "q" q ++ o2 ++ o3 ++ show_addr "r" r ++ o4 ++ show_addr "s" s ++ o5 ++
          o6 ++ show_addr "t" t ++ o7 ++ d1 ++ d2 ++ text (lit "kmalloc() works" ++ [FLit 10]), (p, q, r, s, t)).

End Dump.

(** ** What they print *)

Section Lemmas.

Context {P : Type} `{pg : Pager P}.

(** The chunks in address order, with their addresses. *)
Fixpoint chunk_lines (base : Z) (cs : list chunk) : list frag :=
  match cs with
  | [] => []
  | (len, fr) :: r => dump_line base len (if fr : bool then 1 else 0) ++ chunk_lines (base + len) r
  end.

Definition listing (cs : list chunk) : list Z :=
  text (lit "dump heap:" ++ [FLit 10] ++ chunk_lines HEAP_START cs).

Lemma dump_loop_ok h m cs : forall fuel prev base,
  after h h m -> seg m prev base cs 0 -> Forall (fun c => HHEAD <= c.1) cs ->
  HEAP_START <= base -> base + tot cs <= heap_top h -> (length cs < fuel)%nat -> heap_top h <= HEAP_END ->
  dump_loop fuel h (match cs with [] => 0 | _ => base end) = Ret (chunk_lines base cs).
Proof.
  induction cs as [|[len fr] r IH]; intros fuel prev base Ha Hs Hl Hb Ht Hf He; (destruct fuel as [|k]; [cbn in Hf; lia|]).
  - done.
  - cbn [dump_loop seg tot fst chunk_lines length] in *. destruct Hs as [Hh Hs]. apply Forall_cons in Hl as [Hlen Hl].
    cbn [fst] in Hlen. pose proof (tot_nonneg r Hl) as Hr. rewrite decide_False by (unfold HEAP_START in *; lia).
    assert (Hin : forall o, 0 <= o <= 8 -> in_heap h (base + o)) by (intros o Ho; unfold in_heap, HHEAD in *; lia).
    destruct (get_len_after h h m base _ _ _ _ Ha ltac:(apply Hin; lia) Hh) as [-> ->].
    rewrite (get_next_after h h m base Ha) by (apply Hin; lia). destruct Hh as (_ & -> & _).
    cbn [mbind outcome_bind]. rewrite (IH k base (base + len)) by (try done; unfold HHEAD in *; lia). done.
Qed.

(** [dump_heap] lists exactly the chunks of the heap. *)
Lemma dump_heap_ok h cs : hrepr h cs -> dump_heap h = Ret (listing cs).
Proof.
  intros Hr. pose proof (repr_bounds h cs Hr) as (Hb1 & Hb2 & Hb3). pose proof Hr as [R1 R2 R3 R4 R5 R6 R7].
  unfold dump_heap. rewrite R1. rewrite (dump_loop_ok h _ cs _ 0 HEAP_START (after_refl h R4) R5 R6); [done|lia|lia| |lia].
  pose proof (chunks_fit cs R6) as Hfit. clear -Hb1 Hfit. unfold scan_fuel, HHEAD, chunk in *. unfold HEAP_START in *. modlia.
Qed.

(** [test_kmalloc_1], on an empty heap with a page to map: two blocks, the first
    one a hole once it is freed, and an empty heap at the end. *)
Lemma test_kmalloc_1_ok (h : heap P) :
  hrepr h [] -> (1 <= pg_avail (pager h))%nat ->
  exists h', test_kmalloc_1 h = Ret (h', listing [(32, false)] ++ listing [(32, false); (22, false)] ++
      listing [(32, true); (22, false)] ++ listing [] ++ text (lit "done" ++ [FLit 10])) /\ hrepr h' [].
Proof.
  intros Hr Hav.
  destruct (kmalloc_ok h [] 20 Hr ltac:(lia) ltac:(vm_compute; congruence)) as (h1 & E1 & Hr1 & _).
  { rewrite (hr_top _ _ Hr). change (page_up _ - page_up _) with 4096. lia. }
  destruct (kmalloc_ok h1 [(32, false)] 10 Hr1 ltac:(lia) ltac:(vm_compute; congruence)) as (h2 & E2 & Hr2 & _).
  { rewrite (hr_top _ _ Hr1). change (page_up _ - page_up _) with 0. lia. }
  destruct (kfree_ok h2 [] 32 [(22, false)] Hr2) as (h3 & E3 & Hr3 & _).
  destruct (kfree_ok h3 [(32, true)] 22 [] Hr3) as (h4 & E4 & Hr4 & _).
  exists h4. split; [|exact Hr4]. unfold test_kmalloc_1.
  rewrite E1, bind_Ret. cbn beta iota. rewrite (dump_heap_ok h1 _ Hr1), bind_Ret, E2, bind_Ret. cbn beta iota.
  rewrite (dump_heap_ok h2 _ Hr2), bind_Ret.
  replace (kfree h2 _) with (Ret h3) by (symmetry; exact E3). rewrite bind_Ret, (dump_heap_ok h3 _ Hr3), bind_Ret.
  replace (kfree h3 _) with (Ret h4) by (symmetry; exact E4). by rewrite bind_Ret, (dump_heap_ok h4 _ Hr4).
Qed.

End Lemmas.

(** ** The second test on flat memory *)

#[export] Instance flat_bytes : ByteStore flat := {
  pg_write8 p a v := mkFlat (store8 (fl_mem p) a v) (fl_map p) (fl_avail p)
}.

(** The comments of the test hold: [r] reuses the block of [p], [s] goes after
    [q], [t] lies between [r] and [q] and shows the rest of the text of [p]; the
    heap is empty at the end. *)
Example test_kmalloc_2_flat :
  match test_kmalloc_2 40 flat_heap with
  | Ret (h, out, (p, q, r, s, t)) =>
      p = HEAP_START + 12 /\ r = p /\ q < s /\ r < t < q /\
      heap_start h = 0 /\ heap_top h = HEAP_START /\
      out =
        show_addr "p" p ++ chars "p = hello kmalloc, hello kmalloc" ++ [10] ++
        show_addr "q" q ++ chars "q = test again" ++ [10] ++ chars "p = hello kmalloc, hello kmalloc" ++ [10] ++
        show_addr "r" r ++ chars "r = check r" ++ [10] ++ show_addr "s" s ++ chars "s = how about s?" ++ [10] ++
        chars "p = check r" ++ [10] ++ show_addr "t" t ++ chars "t = malloc" ++ [10] ++
        listing [(22, false); (22, false); (52, false); (27, false)] ++
        listing [(22, true); (22, false); (52, false)] ++ chars "kmalloc() works" ++ [10]
  | Stop _ => False
  end.
Proof. vm_compute. by repeat split. Qed.
