(* ===== verification/MkInode.v ===== *)
(** * The inode cache of the image builder

    tools/mk_sfs.c also holds a cache of index entries and a path lookup, which
    its [main] does not call: [sfs_inode_alloc], [sfs_inode_search],
    [sfs_inode_load], [path_down], [search_dir] and [namei].  A pointer into
    [ibuf] is an index; a string is the list of its characters.  Using a pointer
    before it is given a value, or a character array without its NUL as a
    string, is the outcome [Fault]. *)

From stdpp Require Import base list strings.
From Stdlib Require Import ZArith Lia.
From S2P Require Import Prelude Le Sfs MkSfs SfsImage.

Open Scope Z_scope.

(** [#define NIBUF 32] *)
Definition MK_NIBUF : nat := 32.

(** [#define NAME_MAX 255] *)
Definition NAME_MAX : nat := 255.

(** [#define ROOT_INODE 1] *)
Definition ROOT_INODE : Z := 1.

(** [struct sfs_inode]: [ni] has eight bits. *)
Record mk_inode : Type := mkIno {
  mk_ni : Z;
  mk_nref : Z;
  mk_flags : Z;
  mk_sindex : list Z
}.

(** The static array is all zeros at first. *)
Definition zero_ibuf : list mk_inode := repeat (mkIno 0 0 0 (repeat 0 64)) MK_NIBUF.

(** ** The cache *)

Definition sfs_inode_alloc (t : list mk_inode) : option nat :=
  find_index (fun ip => bool_decide (mk_flags ip = 0)) t.

Definition sfs_inode_search (t : list mk_inode) (ni : Z) : option nat :=
  find_index (fun ip => bool_decide (mk_ni ip = ni)) t.

(** ** Paths *)

Fixpoint skip_slashes (path : list Z) : list Z :=
  match path with
  | c :: p => if decide (c = 47) then skip_slashes p else path
  | [] => []
  end.

Fixpoint path_elem (path : list Z) : list Z * list Z :=
  match path with
  | c :: p => if decide (c = 47) then ([], path) else let '(a, b) := path_elem p in (c :: a, b)
  | [] => ([], [])
  end.

(** The rest of the path and the contents of [name]: the string in it, or [None]
    when the array was filled and holds no NUL. *)
Definition mk_path_down (path : list Z) : option (list Z * option (list Z)) :=
  match skip_slashes path with
  | [] => None
  | pp =>
      let '(elem, rest) := path_elem pp in
      Some (skip_slashes rest, if decide (NAME_MAX <= length elem)%nat then None else Some elem)
  end.

Section Lookup.

(** [NUMBLK] and the image. *)
Variable numblk : Z.

Variable s : mkfs.

(** The index number is converted to [uint32_t] for [read_index] and to
    [uint8_t] in the cache. *)
Definition sfs_inode_load (t : list mk_inode) (ino : Z) : outcome (list mk_inode * option nat) :=
  match sfs_inode_search t ino with
  | Some i => Ret (t, Some i)
  | None =>
      match sfs_inode_alloc t with
      | None => Ret (t, None)
      | Some i =>
          e ← mk_read_index numblk s (u32 ino);
          Ret (<[i := mkIno (u8 ino) 1 SFS_INODE_INUSE e]> t, Some i)
      end
  end.

(** The blocks of the directory are read to [p], which was initialised from
    [buf] before [buf] had a value: the rest of the function is reached with an
    empty directory only, and finds nothing. *)
Definition mk_search_dir (t : list mk_inode) (ip : nat) (name : list Z) :
    outcome (list mk_inode * option nat) :=
  x ← deref "ip->sindex" (t !! ip);
  if decide (ie_etype (mk_sindex x) <> DIR_ENT) then Ret (t, None)
  else if decide (s32 (file_len (mk_sindex x)) > 0) then Stop (Fault "p")
  else Ret (t, None).

(** One element of the path a round. *)
Fixpoint mk_namei_loop (fuel : nat) (t : list mk_inode) (ip : outcome (option nat)) (path : list Z) :
    outcome (list mk_inode * option nat) :=
  match fuel with
  | O => Stop Fuel
  | S k =>
      match mk_path_down path with
      | None => i ← ip; Ret (t, i)
      | Some (path', name) =>
          n ← deref "name" name;
          o ← ip;
          i ← deref "ip" o;
          x ← deref "ip->sindex" (t !! i);
          if decide (ie_etype (mk_sindex x) <> DIR_ENT) then Ret (t, None)
          else
            '(t1, next) ← mk_search_dir t i n;
            match next with
            | None => Ret (t1, None)
            | Some j => mk_namei_loop k t1 (Ret (Some j)) path'
            end
      end
  end.

(** For a relative path [ip] has no value. *)
Definition mk_namei (t : list mk_inode) (path : list Z) : outcome (list mk_inode * option nat) :=
  if decide (path !! 0%nat = Some 47) then
    '(t1, i) ← sfs_inode_load t ROOT_INODE;
    mk_namei_loop (S (length path)) t1 (Ret i) path
  else mk_namei_loop (S (length path)) t (Stop (Fault "ip")) path.

End Lookup.

(** ** Paths: lemmas *)

Lemma skip_slashes_repeat n path : skip_slashes (repeat 47 n ++ path) = skip_slashes path.
Proof. induction n as [|n IH]; [done|]. cbn. by rewrite decide_True. Qed.

Lemma skip_slashes_length path : (length (skip_slashes path) <= length path)%nat.
Proof. induction path as [|c p IH]; [done|]. cbn. case_decide; cbn; lia. Qed.

Lemma path_elem_app elem rest :
  Forall (fun c => c <> 47) elem -> (rest = [] \/ rest !! 0%nat = Some 47) ->
  path_elem (elem ++ rest) = (elem, rest).
Proof.
  intros He Hr. induction He as [|c elem Hc He IH]; cbn.
  - destruct Hr as [->|Hr]; [done|]. destruct rest as [|c rest]; [done|]. injection Hr as ->. done.
  - rewrite decide_False by done. by rewrite IH.
Qed.

(** The next element of a path is what stands between two runs of slashes; one
    of 255 characters or more leaves the array without its NUL. *)
Lemma mk_path_down_ok (n : nat) (elem rest : list Z) :
  elem <> [] -> Forall (fun c => c <> 47) elem -> (rest = [] \/ rest !! 0%nat = Some 47) ->
  mk_path_down (repeat 47 n ++ elem ++ rest) =
    Some (skip_slashes rest, if decide (NAME_MAX <= length elem)%nat then None else Some elem).
Proof.
  intros Hn He Hr. unfold mk_path_down. rewrite skip_slashes_repeat.
  assert (E : skip_slashes (elem ++ rest) = elem ++ rest).
  { destruct elem as [|c e]; [done|]. apply Forall_cons in He as [Hc _]. cbn. by rewrite decide_False. }
  rewrite E. destruct (elem ++ rest) as [|c p] eqn:Ep; [by destruct elem|]. rewrite <- Ep.
  by rewrite path_elem_app.
Qed.

(** The path gets shorter with every element. *)
Lemma mk_path_down_shorter path path' name :
  mk_path_down path = Some (path', name) -> (length path' < length path)%nat.
Proof.
  unfold mk_path_down. pose proof (skip_slashes_length path) as H.
  destruct (skip_slashes path) as [|c p] eqn:E; [done|].
  assert (Hc : c <> 47).
  { clear -E. revert E. induction path as [|a path IH]; [done|]. cbn. case_decide; [exact IH|]. by intros [= <- _]. }
  assert (L : forall l, (length (path_elem l).1 + length (path_elem l).2 = length l)%nat).
  { clear. intros l. induction l as [|a l IH]; [done|]. cbn. case_decide; [done|].
    destruct (path_elem l); cbn in *. lia. }
  specialize (L (c :: p)). cbn [path_elem] in *. rewrite decide_False in * by done.
  destruct (path_elem p) as [a b]. intros [= <- _]. pose proof (skip_slashes_length b). cbn in *. lia.
Qed.

(** ** The cache: lemmas *)

Lemma find_index_none {A : Type} (p : A -> bool) l : find_index p l = None -> Forall (fun x => p x = false) l.
Proof.
  induction l as [|x l IH]; cbn; intros H; [constructor|]. destruct (p x) eqn:E; [done|].
  constructor; [exact E|]. apply IH. by destruct (find_index p l).
Qed.

Lemma find_index_some {A : Type} (p : A -> bool) l i : find_index p l = Some i ->
  exists x, l !! i = Some x /\ p x = true /\ Forall (fun x => p x = false) (take i l).
Proof.
  revert i. induction l as [|y l IH]; intros i H; [done|]. cbn in H. destruct (p y) eqn:E.
  - injection H as <-. by exists y.
  - destruct (find_index p l) as [j|]; [|done]. injection H as <-. destruct (IH j eq_refl) as (x & H1 & H2 & H3).
    exists x. split; [exact H1|]. split; [exact H2|]. cbn. by constructor.
Qed.

Section Cache.

Variable numblk : Z.

Hypothesis Hnb : 2 <= numblk <= 8388607.

(** The image. *)
Variable s : mkfs.

Hypothesis Hlen : imglen s = numblk * 512.

(** A slot in use holds the entry of the index whose number it has, no number is
    in two slots, and the other slots are untouched. *)
Record cache_ok (t : list mk_inode) : Prop := {
  co_slots : forall i x, t !! i = Some x ->
    (mk_flags x = 0 /\ mk_ni x = 0) \/
    (mk_flags x = 1 /\ 1 <= mk_ni x <= 255 /\ mk_sindex x = slot numblk (img s) (mk_ni x));
  co_once : forall i j x y, t !! i = Some x -> t !! j = Some y -> mk_ni x = mk_ni y ->
    mk_flags x = 1 -> i = j
}.

Lemma zero_cache : cache_ok zero_ibuf.
Proof.
  assert (Z0 : forall i x, zero_ibuf !! i = Some x -> x = mkIno 0 0 0 (repeat 0 64)).
  { intros i x H. apply list_elem_of_lookup_2 in H. by apply list_elem_of_In, repeat_spec in H. }
  split.
  - intros i x ->%Z0. by left.
  - by intros i j x y ->%Z0 _ _.
Qed.

Lemma read_index_slot k : 0 <= k < numblk * 8 -> mk_read_index numblk s (u32 k) = Ret (slot numblk (img s) k).
Proof.
  intros Hk. unfold mk_read_index, read_elem. rewrite (u32_small k) by lia. rewrite index_addr by done.
  rewrite decide_True; [done|]. rewrite Hlen. unfold slot_addr, IE_SZ. lia.
Qed.

(** A number the cache has: the cache is not touched. *)
Lemma load_hit t i x :
  cache_ok t -> t !! i = Some x -> mk_flags x = 1 -> sfs_inode_load numblk s t (mk_ni x) = Ret (t, Some i).
Proof.
  intros Hc Hi Hf. unfold sfs_inode_load, sfs_inode_search. destruct (find_index _ t) as [j|] eqn:E.
  - apply find_index_some in E as (y & Hj & Hy & _). apply bool_decide_eq_true in Hy.
    by rewrite (co_once t Hc i j x y Hi Hj (eq_sym Hy) Hf).
  - apply find_index_none in E. rewrite Forall_lookup in E. specialize (E i x Hi).
    by apply bool_decide_eq_false in E.
Qed.

(** A slot for a number that is not there. *)
Lemma cache_insert t i x ino :
  cache_ok t -> t !! i = Some x -> mk_flags x = 0 -> 1 <= ino <= 255 ->
  (forall j y, t !! j = Some y -> mk_ni y <> ino) ->
  cache_ok (<[i := mkIno ino 1 SFS_INODE_INUSE (slot numblk (img s) ino)]> t).
Proof.
  intros [C1 C2] Hi Hf Hino Hnew. split.
  - intros j y [(<- & <- & _)|(Hne & Hj)]%list_lookup_insert_Some; [by right|by apply (C1 j)].
  - intros j k y z [(<- & <- & _)|(Hne & Hj)]%list_lookup_insert_Some
      [(<- & <- & _)|(Hne' & Hk)]%list_lookup_insert_Some Hyz Hu; try done.
    + by specialize (Hnew k z Hk).
    + by specialize (Hnew j y Hj).
    + by eapply C2.
Qed.

(** [sfs_inode_load] of a number from 1 to 255 gives the slot of the cache that
    holds the entry of the image, reads it only when no slot has it, keeps every
    entry that was there, and gives no slot exactly when all of them are used by
    other numbers. *)
Lemma sfs_inode_load_ok t ino :
  cache_ok t -> 1 <= ino <= 255 -> ino < numblk * 8 ->
  exists t' r, sfs_inode_load numblk s t ino = Ret (t', r) /\ cache_ok t' /\
    (forall j y, t !! j = Some y -> mk_flags y = 1 -> t' !! j = Some y) /\
    match r with
    | Some i => exists x, t' !! i = Some x /\ mk_ni x = ino /\ mk_sindex x = slot numblk (img s) ino /\
                  sfs_inode_load numblk s t' ino = Ret (t', Some i)
    | None => t' = t /\ Forall (fun y => mk_flags y = 1 /\ mk_ni y <> ino) t
    end.
Proof.
  intros Hc Hino Hi. unfold sfs_inode_load at 1.
  destruct (sfs_inode_search t ino) as [i|] eqn:E.
  - exists t, (Some i). split; [done|]. split; [done|]. split; [done|].
    unfold sfs_inode_search in E. apply find_index_some in E as (x & Hx & Hn & _). apply bool_decide_eq_true in Hn.
    destruct (co_slots t Hc i x Hx) as [[_ H0]|(Hf & _ & Hs)]; [lia|].
    exists x. subst ino. by rewrite (load_hit t i x).
  - apply find_index_none in E. rewrite Forall_lookup in E.
    assert (Hnew : forall j y, t !! j = Some y -> mk_ni y <> ino).
    { intros j y Hj. specialize (E j y Hj). by apply bool_decide_eq_false in E. }
    destruct (sfs_inode_alloc t) as [i|] eqn:A.
    + apply find_index_some in A as (x & Hx & Hf & _). apply bool_decide_eq_true in Hf.
      rewrite read_index_slot by lia. cbn [mbind outcome_bind]. rewrite (u8_small ino) by lia.
      pose proof (cache_insert t i x ino Hc Hx Hf Hino Hnew) as Hc'.
      eexists _, (Some i). split; [reflexivity|]. split; [exact Hc'|].
      pose proof (list_lookup_insert_eq t i (mkIno ino 1 SFS_INODE_INUSE (slot numblk (img s) ino))
        (lookup_lt_Some _ _ _ Hx)) as Hn. split.
      * intros j y Hj Hu. rewrite list_lookup_insert_ne; [done|]. intros ->. rewrite Hx in Hj. by injection Hj as ->; lia.
      * eexists. split; [exact Hn|]. split; [done|]. split; [done|]. by apply (load_hit _ i _ Hc' Hn).
    + exists t, None. do 3 (split; [done|]). split; [done|]. apply find_index_none in A.
      rewrite Forall_lookup in A |- *. intros j y Hj. specialize (A j y Hj). apply bool_decide_eq_false in A.
      split; [|by apply (Hnew j)]. destruct (co_slots t Hc j y Hj) as [[H0 _]|(Hf & _)]; done.
Qed.

(** ** What the cache does with other numbers *)

(** Number 0 matches an unused slot, and nothing is read. *)
Lemma load_zero : sfs_inode_load numblk s zero_ibuf 0 = Ret (zero_ibuf, Some 0%nat).
Proof. reflexivity. Qed.

(** The number is cut to eight bits: after number 257 has been loaded, number 1
    is answered with the entry of 257. *)
Lemma load_alias :
  257 < numblk * 8 ->
  exists t x, sfs_inode_load numblk s zero_ibuf 257 = Ret (t, Some 0%nat) /\
    sfs_inode_load numblk s t 1 = Ret (t, Some 0%nat) /\
    t !! 0%nat = Some x /\ mk_sindex x = slot numblk (img s) 257.
Proof.
  intros H. unfold sfs_inode_load at 1. change (sfs_inode_search zero_ibuf 257) with (@None nat).
  change (sfs_inode_alloc zero_ibuf) with (Some 0%nat). rewrite read_index_slot by lia.
  cbn [mbind outcome_bind]. eexists _, _. split; [reflexivity|]. by split.
Qed.

(** ** Looking up a path *)

(** On an image with its root directory, a path of slashes gives the slot of the
    root; every other absolute path reads the directory through a pointer that
    has no value. *)
Lemma mk_namei_root (es : list ent) (path : list Z) :
  entries_at numblk (img s) (da s) 1 (EDir [47] 21 :: es) -> path !! 0%nat = Some 47 ->
  match mk_path_down path with
  | None => exists t x, mk_namei numblk s zero_ibuf path = Ret (t, Some 0%nat) /\ cache_ok t /\
              t !! 0%nat = Some x /\ mk_ni x = ROOT_INODE /\ mk_sindex x = e_raw (EDir [47] 21)
  | Some (_, Some _) => mk_namei numblk s zero_ibuf path = Stop (Fault "p")
  | Some (_, None) => mk_namei numblk s zero_ibuf path = Stop (Fault "name")
  end.
Proof.
  intros [Hroot _] Hp.
  unfold mk_namei. rewrite decide_True by exact Hp. unfold sfs_inode_load.
  change (sfs_inode_search zero_ibuf ROOT_INODE) with (@None nat).
  change (sfs_inode_alloc zero_ibuf) with (Some 0%nat).
  rewrite (read_index_slot ROOT_INODE) by (unfold ROOT_INODE; lia). cbn [mbind outcome_bind mk_namei_loop].
  pose proof (cache_insert zero_ibuf 0 _ 1 zero_cache eq_refl eq_refl ltac:(lia)) as Hc.
  change (1 + e_ne (EDir [47] 21)) with ROOT_INODE in Hroot.
  change (slot numblk (img s) 1) with (slot numblk (img s) ROOT_INODE) in Hc.
  rewrite Hroot in *. change (u8 ROOT_INODE) with 1.
  destruct (mk_path_down path) as [[path' [name|]]|] eqn:E; cbn [deref mbind outcome_bind].
  - reflexivity.
  - reflexivity.
  - eexists _, _. split; [reflexivity|]. split; [|by split].
    apply Hc. intros j y Hj. destruct (co_slots _ zero_cache j y Hj) as [[_ ->]|(Hf & _)]; [done|].
    apply list_elem_of_lookup_2, list_elem_of_In, repeat_spec in Hj. by subst y.
Qed.

End Cache.
